(* ===== verification/_CoqProject ===== *)
-Q . S2P
Prelude.v
JsNumber.v
Money.v
PaystackFee.v
Dates.v
Schedule.v
Arrears.v
Schema.v
Effects.v
Samples.v
EnrollmentView.v
MigratedPlan.v
PaymentCalc.v
Ledger.v
Books.v
LedgerCard.v
LedgerMigrated.v
Enrollment.v
LedgerSpecs.v
LedgerCardSpecs.v
LedgerMigratedSpecs.v
EnrollmentSpecs.v
Invariant.v
System.v
Accounts.v
JsText.v
Pagination.v
Phone.v
InvitePolicy.v
Invites.v
Scheduler.v
InviteSpecs.v
InviteSystem.v
SchedulerSpecs.v
ClientIp.v
Paystack.v
PaystackSpecs.v
Webhook.v
Cache.v
Settlement.v
SettlementSpecs.v
PaymentHistory.v
InviteList.v
Frames.v
Resilience.v
Documents.v
AuditTrail.v
Pii.v
Schools.v
SchoolSpecs.v
AdminReports.v
AdminSpecs.v
Users.v
UserSpecs.v
Links.v
LinkSpecs.v
Realtime.v
Notifications.v
Redact.v
Observability.v
Routes.v
RouteSpecs.v
Tenancy.v
Families.v
Bodies.v
Onboarding.v
Site.v
SiteSpecs.v
Startup.v
Scripts.v
JsonLog.v
Messages.v
