(* ===== verification/Prelude.v ===== *)
(** * The LoPay back end: a verification library

    LoPay lets Nigerian parents pay school fees in installments.  A school
    configures a fee per class; a parent opens a plan ([ChildEnrollment]) with a
    first payment, by card through Paystack or by a manual transfer, and then
    submits installments that the school confirms.  A school that joins with
    plans already running registers what was paid before as a migrated payment.
    The back end (TypeScript, NestJS, Prisma on Postgres) is the book-keeper:
    the money itself moves at Paystack or between bank accounts.  What must hold
    is that the books follow the money: nothing is credited twice, nothing is
    forgiven, a plan is complete exactly when it owes nothing, and requests that
    race, repeat or fail leave the books right.

    ** Parts of the program and the files that model them

    Paths are under [src/src/].  A file's definitions keep the source's names; a
    helper the source inlines gets a name of its own.

    - [common/money.ts], [common/fees.ts]: [Money.v].  [Money] is a record of
      integer kobo with its constructor's checks; rates are the doubles that
      their literals denote.  [JsNumber.v] is the number model under it: a
      finite double is the rational it denotes, and each operation is the exact
      one followed by rounding to 53 bits.
    - [common/paystack-fee.ts]: [PaystackFee.v], the fee, the VAT setting and
      the gross-up search.
    - [common/installment-schedule.ts]: [Schedule.v], on the calendar of
      [Dates.v] (ECMAScript's time values, in UTC).
    - [common/arrears.ts]: [Arrears.v].
    - [common/migrated-plan.ts]: [MigratedPlan.v].
    - [payments/payment.service.ts]: its calculations in [PaymentCalc.v], the
      payment history (with the schools' and the admin's payment lists) in
      [PaymentHistory.v], over [common/pagination.ts] in [Pagination.v].
    - [enrollment/enrollment-view.ts], [enrollment/payment-outcome.ts]:
      [EnrollmentView.v].
    - [prisma/schema.prisma]: [Schema.v], a table per model as a finite map and
      the whole database as the record [DB]; next to it the log of what a
      request sends out (events, notifications, metrics, alerts).
    - the Prisma calls: [Effects.v].  A handler is an [M A], a function from the
      world to a result and a new world.  A throw keeps the writes before it,
      save in [transaction], which rolls the database back; what had been sent
      out stays sent.  [updateManyPayment] is the guarded update (row id and
      [where]) the ledger's idempotency rests on; [createPayment] and
      [createEnrollment] enforce the schema's unique columns.
    - [ledger/ledger.service.ts], the only writer of money state: [Ledger.v]
      (installments, manual first payments), [LedgerCard.v] (card charges,
      conflicts, disputes, defaults), [LedgerMigrated.v] (migrated plans).  A
      method is its read ([_pre]), its transaction ([_tx]) and what follows the
      commit ([_post]).
    - [enrollment/enrollment.service.ts]: [Enrollment.v].  It resolves parent and
      child, opens plans, charges through Paystack, receives webhooks and takes
      submissions; it calls the ledger for every transition.  The Paystack
      client, the clock, the random references and the settings are the fields
      of a record [Env], so every theorem holds of any behaviour of them.
    - [common/phone.ts]: [Phone.v], the canonical spelling of a number and its
      blind index.  A string is its list of code points.
    - [enrollment-invites/] ([invite-policy.ts], [invite-token.ts],
      [invite-view.ts], [claim-url.ts]): [InvitePolicy.v], the pure rules.
    - [enrollment-invites/enrollment-invites.service.ts]: [Invites.v].  A school
      issues an invite with the figure a family has already paid; whoever holds
      the link claims or disputes it; a claim opens the plan through
      [recordMigratedEnrollment] and a release removes it.  The table's unique
      indexes and check constraints, which the service relies on, are those of
      [prisma/migrations/]: [inviteConflict], [invite_checks].
    - [scheduler/] and [withLeaderLock] of [prisma/prisma.service.ts]:
      [Scheduler.v], the jobs under their lock.  They call the ledger and the
      invites.
    - [common/client-ip.ts]: [ClientIp.v], the address a request is counted
      under, [bucket_per_client].  [JsText.v] has the string methods this and the next parts use.
    - [paystack/paystack.service.ts]: [Paystack.v], requests over an oracle of
      the network, with bounded retry and a circuit breaker.
    - [enrollment/paystack-webhook.controller.ts]: [Webhook.v], the gate in front
      of [processPaystackWebhookEvent].
    - [cache/cache.service.ts]: [Cache.v].
    - [schools/schools.service.ts]: [Settlement.v] (bank details, the re-pointing
      of the Paystack subaccount as a machine whose steps interleave, payout
      states, deletion) and [Schools.v] (class fees, dashboard, students).
    - [admin/admin.service.ts]: its settlement side is in [Settlement.v], its
      payment lists in [PaymentHistory.v], its reports and the migration window
      in [AdminReports.v].
    - [users/], [auth/signup-guard.ts], [auth/better-auth.guard.ts],
      [auth/roles.guard.ts]: [Users.v].
    - [auth/oauth-handoff.ts] and its controller, [auth/trusted-origins.ts],
      [auth/auth-rate-limit.ts], [common/security-posture.ts],
      [common/cors-origins.ts], [common/web-app-origin.ts],
      [enrollment-invites/claim-url.ts]: [Links.v].
    - [school-onboarding/]: [Onboarding.v], with its two callers.
    - [audit/]: [AuditTrail.v], the query over the trail.
    - [common/encryption.ts], [common/pii-crypto.ts] and the client extension of
      [prisma/prisma.service.ts]: [Pii.v], on trees of values.  The other files
      model the tables as their callers see them, through this layer.
    - [common/errors.ts], [common/resilience.ts]: [Resilience.v].
    - [documents/]: [Documents.v], where a receipt is uploaded and who may read
      it; the bucket's answers are a parameter.
    - [events/events.gateway.ts]: [Realtime.v], the open sockets as a map, their
      rooms and the deliveries of the events the other parts emit.
    - [notifications/], [device-tokens/]: [Notifications.v], the rows, the realtime
      events and the pushes a notification makes, and the inbox.
    - [common/logger/] ([redact.ts], [auth-events.ts], [better-auth-logger.ts]):
      [Redact.v].
    - [common/observability/], [common/filters/], [common/middleware/],
      [health/]: [Observability.v].
    - [list] of the invites service: [InviteList.v].
    - the controllers whose requests read or write the books, under the two
      global guards: [Routes.v], a constructor per route, a handler per
      controller, and [serve_route] for a whole request.  [Frames.v] is the logic
      in which a handler is shown to stay within a relation on databases.
    - every other controller (fees, settlement account, students, onboarding, the
      admin reports, the inbox, device tokens, the audit trail, the calculator, the
      webhook): [Site.v], over the state the process keeps besides the tables (the
      subaccounts at Paystack, the caches, the Paystack client, the inboxes);
      [serve_site] is a whole request to the API.
    - [app.module.ts], [main.ts], [auth/auth.config.ts], the connection, tenant
      filter and proxy of [prisma/prisma.service.ts], and which optional services
      are on: [Startup.v], as functions of the environment.
    - [common/logger/json.logger.ts]: [JsonLog.v], with [JSON.stringify].
    - the texts that are more than a template, and the answers to a submission and
      its replay: [Messages.v].
    - [scripts/backfill-phone-hash.ts], [scripts/configure-receipts-bucket.ts] and
      [prisma/seed.ts], beside [src/src/]: [Scripts.v].
    - the classes of the request bodies ([*.dto.ts]): [Bodies.v], as data, over a
      class with the laws of the validation library.
    - [Samples.v] holds the small database on which the witnesses run.

    ** Theorems

    - [LedgerSpecs.v], [LedgerCardSpecs.v], [LedgerMigratedSpecs.v]: each
      transition as a function of the two rows it touches, on every branch,
      errors included; that a reversal undoes a confirmation; that of two
      reconciliations that read the same pending row only one credits; that a
      conflict between books and bank is raised once, and again only when the
      alert reached nobody.
    - [EnrollmentSpecs.v]: a submission fits what the plan still owes less what
      is reserved; a repeated key never adds a second payment; the webhook log;
      who may see a payment; a refused charge leaves the attempt failed.
    - [Books.v], [Invariant.v], [System.v]: the ledger, enrollment and migrated
      plans together as a transition system in which any request may commit
      from a read that has become stale.  Every reachable state has well-formed
      rows ([books_well_formed]); and, when a dispute is only processed on a plan
      it read as active or completed and whose fee is still the one it read, no
      plan has ever been credited more than its confirmed payments
      ([nothing_forgiven]).  The second needs the first condition:
      [dispute_of_defaulted_plan_keeps_credit] shows the books it leaves
      otherwise.
    - [Accounts.v]: an abstract account machine (an account owes and is credited
      by entries that are collected or withdrawn) and the theorem that every
      transaction of the ledger is one of its moves ([ledger_refines_accounts]).
    - [InviteSpecs.v]: a claim, a re-issue, a release and the expiry sweep on
      every branch; that a release undoes a claim; that an invite is claimed at
      most once.
    - [InviteSystem.v]: the invites' operations interleaved with every
      transaction of [System.v].  In every reachable state an invite is CLAIMED
      exactly when a plan hangs on it, and a student of a school has at most one
      claimed invite ([claimed_iff_plan]); a revoked invite stays revoked and a
      claimed one keeps its plan until it is released ([invite_fate]).  Both
      ask that the expiry sweep writes only over rows that are still expirable,
      which the source does not ensure ([expireStale_overwrites]).
    - [SchedulerSpecs.v]: the lock admits one run per period, the nightly
      detection defaults exactly the overdue plans, the card sweep settles each
      stale payment by Paystack's answer, and repeated runs drain any backlog of
      decided charges ([backlog_drains]), while a page of charges Paystack cannot
      verify stops it ([unverifiable_page_starves]).
    - [PaystackSpecs.v], [Webhook.v]: what a request can end in, that a verdict is
      Paystack's, that nothing unsigned is processed.
    - [SettlementSpecs.v]: card payments are on only while Paystack pays the
      account on record ([settlement_fail_closed]), what one update comes to on
      every branch ([settlement_update_outcomes]), and the ways in which the two part.
    - [PaymentHistory.v], [Pagination.v], [SchoolSpecs.v], [AdminSpecs.v]: pages
      cover a list exactly; who sees which payments; the dashboards, queues,
      breakdowns and charts agree with the tables and with each other.
    - [UserSpecs.v]: one account per number through any interleaving of the
      operations on accounts; what a stored name looks like; who may change what;
      what a removed account keeps.
    - [LinkSpecs.v]: a claim link gives its token back and keeps it off the wire;
      no open redirect; the first Google link; the posture table.
    - [Onboarding.v]: what the saga leaves behind when any of its calls fails
      ([provision_outcomes]), Better Auth's sign-up included, of whose failures
      nothing is assumed.
    - [AuditTrail.v]: pages of the trail are bounded, newest first and complete.
    - [Pii.v]: no personal column is stored in the clear, whatever nested writes
      lead to it, an [update] given as a list apart ([at_rest],
      [update_list_in_the_clear]), and what was written is read back, down to
      thirteen levels ([pii_roundtrip]), which is why the tables can be modelled without it.
    - [RouteSpecs.v]: over HTTP, only the routes that move money change a payment
      or a plan, and only for the role they are meant for ([books_need_authority]).
    - [Tenancy.v]: no sequence of requests of one school's owner touches a payment,
      a plan or an invite of another school ([tenant_isolation]); what an
      idempotency key reaches ([keys_reach_any_payment]).
    - [SiteSpecs.v]: the same two over every request of the API: who may change a
      payment or a plan at all, whatever the network answers ([site_authority]), and
      that no sequence of requests of one school's owner, on any route and whatever
      Paystack answers, touches a payment, plan, invite, class fee, row or subaccount
      of another school ([school_isolation]).
    - [Families.v]: no sequence of requests of one parent touches a payment or a
      plan of another family, unless it carries the key of one of its payments
      ([family_isolation]).
    - [Realtime.v], [Notifications.v], [Documents.v], [Redact.v]: an event reaches
      exactly the sockets it is for, in every reachable state of the gateway
      ([realtime_audience]); an announcement reaches every parent once
      ([broadcast_reaches_parents]); a receipt is read by its family, its school and
      the administrators; two log lines that differ only in what the redaction covers
      are the same ([logs_tell_no_more]), and what it does not cover
      ([unscrubbed_arguments], [joined_addresses]).
    - [Bodies.v]: what an accepted body satisfies; two spellings of a name are
      stored alike exactly when they have the same words ([name_identity]).
    - [Resilience.v], [Observability.v], [InviteList.v]: when a retry ends, what an
      error tells the client, what the counters count, what a school is listed.
    - [Startup.v]: what a process that started in production is configured to do
      ([started_in_production]); sign-in settings that hold in every environment
      ([auth_settings_closed]); the flood guard's key cannot be forged
      ([flood_key_unforgeable]); the tenant filter wins over the caller's condition
      ([tenant_filter_wins]) and what it leaves out ([tenant_filter_gaps]).
    - [Scripts.v]: the backfill indexes every live number or writes nothing, when no
      removed account is in its way ([backfill_complete], [backfill_half_done]); whom
      the seed promotes; a configured bucket passes the health check.
    - [JsonLog.v], [Messages.v]: a log entry is one line whatever is logged
      ([one_line]); how much of a number a text shows; a replay's figures.
    - [PaystackFee.v], [Schedule.v], [Arrears.v], [MigratedPlan.v],
      [PaymentCalc.v], [EnrollmentView.v], [Phone.v]: the pure rules.  The gross-up is the
      least charge that nets the target; progress and quotes agree with the
      paid value; arrears are exactly the due and unpaid slots, and their amount the
      gap to the schedule; the spellings of a phone number that become one
      ([canonical_phone]); the deposit split, the calculator and the dashboard sums are exact.

    ** Bounds and fuel

    The scan of [grossUp] takes as fuel the width of its window, as the loop's
    own bound does; [grossUp_exact] shows that for targets up to 2^35 kobo (over
    340 million naira) the seed is within the window, so it always returns.
    Conversions between naira and kobo are exact for amounts below 2^50 kobo,
    and the theorems that need it say so; the columns are 32-bit integers: a
    published price that overflows its column fails its transaction
    ([Schools.fits_int4]), and the other amounts, which derive from a published
    price, are taken to fit theirs.
    Exponent range, NaN and the infinities are outside the number model: the
    amounts that reach it are finite and validated.

    ** Choices

    Ids come from a counter, as fresh as a UUID.  [findFirst] without an order
    returns the first row in the order of the map.  A joined read finds its
    parent rows, since foreign keys are enforced.  A transaction runs alone: the
    source takes row locks ([FOR UPDATE]) or re-checks its guard in the update
    itself, and [System.v] interleaves transactions with the reads made before
    them.  A request of the invites service reads the clock once ([rq_now]),
    where the source may read it again a few milliseconds later.  The database's
    case folding, SHA-256, the HMAC, the random token and Unicode's category C
    are parameters.  A text column holds UTF-8 ([JsText.utf8]).  [createMany] with [skipDuplicates] and the read after it are
    a find-or-create.  The [Promise.all] of the nightly detection runs its flips
    one after the other: each is a guarded update of its own row.

    ** Not modelled

    Templates of notifications (their figures are those of the row); tracing, the
    registry of prom-client and Sentry's calls, which are I/O; database outages,
    except in [Onboarding.v]; Better Auth, Joi, opossum, Redis, Firebase, the storage
    bucket, socket.io and the platform's URL parser, whose answers are parameters; the
    wiring of the modules and the counters of the two rate limiters (their keys and
    budgets are in [ClientIp.v], [Links.v] and [Startup.v]); the generated Prisma
    client, whose calls are the primitives of [Effects.v]; the scripts that drive a
    running service ([dash-e2e.ts], [e2e-verify.ts]) or print its description
    ([generate-swagger.ts]).  A route's body arrives as the pipe of [Bodies.v] leaves
    it; the calculator's bodies have no class and arrive as the numbers they are.
    Device tokens and notifications have tables of their own in [Notifications.v];
    verification rows and platform settings, which no service reads, have none.  The
    URL-encoded queries and the webhook's digest work on UTF-8 bytes; a lone surrogate
    has no encoding and is outside [text]. *)

From stdpp Require Export base tactics list gmap strings numbers.
From Stdlib Require Export ZArith Lia.

#[global] Open Scope Z_scope.

(** ** Fallible code

    A handler of the back end either returns or throws one of Nest's HTTP
    exceptions.  [failure] keeps the exception's class (which decides the HTTP
    status a client sees) and its message; [FInternal] is everything else that
    escapes a handler (a database error, a [Money] constructor throw, ...),
    which Nest answers with status 500.  [FUnique t] is Prisma's P2002, a unique
    constraint on the column [t] that rejected a write; handlers catch it. *)

Inductive failure :=
| FBadRequest (msg : string)
| FNotFound (msg : string)
| FForbidden (msg : string)
| FUnauthorized (msg : string)
| FConflict (msg : string)
| FBadGateway (msg : string)
| FUnavailable (msg : string)
| FInternal (msg : string)
| FUnique (target : string).

Inductive res (A : Type) :=
| Ok (a : A)
| Err (e : failure).
Arguments Ok {A} _.
Arguments Err {A} _.

#[export] Instance failure_eq_dec : EqDecision failure.
Proof. solve_decision. Defined.

#[export] Instance res_ret : MRet res := @Ok.

#[export] Instance res_bind : MBind res := fun A B f m =>
  match m with
  | Ok a => f a
  | Err e => Err e
  end.

(** [guard_or c e] is [if (!c) throw e;]. *)
Definition guard_or (c : bool) (e : failure) : res unit :=
  if c then Ok tt else Err e.

Definition is_ok {A} (m : res A) : bool :=
  match m with Ok _ => true | Err _ => false end.

Lemma res_bind_ok {A B} (m : res A) (f : A -> res B) b :
  m ≫= f = Ok b <-> exists a, m = Ok a /\ f a = Ok b.
Proof.
  destruct m; simpl; split.
  - eauto.
  - by intros (? & [= <-] & ?).
  - done.
  - by intros (? & ? & _).
Qed.

Lemma guard_or_ok c e u : guard_or c e = Ok u <-> c = true.
Proof. destruct c, u; simpl; split; congruence. Qed.

(** ** Boolean comparisons as hypotheses *)

Create Rewrite HintDb lopay.
#[export] Hint Rewrite Z.leb_le Z.ltb_lt Z.eqb_eq Z.leb_gt Z.ltb_ge Z.eqb_neq
  andb_true_iff andb_false_iff orb_true_iff orb_false_iff negb_true_iff
  negb_false_iff bool_decide_eq_true bool_decide_eq_false : lopay.

(** Turn every boolean test of the context into the proposition it decides. *)
Ltac to_prop :=
  repeat match goal with
  | H : context [ _ = true ] |- _ => progress autorewrite with lopay in H
  | H : context [ _ = false ] |- _ => progress autorewrite with lopay in H
  end.

(** Split the first [if]/[match] scrutinee of the goal (or of a hypothesis),
    remembering the equation and turning it into a proposition. *)
Ltac case_if :=
  match goal with
  | |- context [ if ?b then _ else _ ] => destruct b eqn:?; to_prop
  end.
Ltac case_if_in H :=
  match type of H with
  | context [ if ?b then _ else _ ] => destruct b eqn:?; to_prop
  end.

(** Follow a successful run of a [res] computation step by step. *)
Ltac inv_ok H :=
  repeat match type of H with
  | mbind _ ?m = Ok _ =>
      let a := fresh "r" in let E := fresh "E" in
      destruct m as [a|] eqn:E; simpl in H; [|discriminate H]
  | Ok _ = Ok _ => injection H as H; try subst
  | Err _ = Ok _ => discriminate H
  end.

(** ** Sums *)

Definition sumZ (l : list Z) : Z := foldr Z.add 0 l.

Lemma sumZ_cons x l : sumZ (x :: l) = x + sumZ l.
Proof. done. Qed.

Lemma sumZ_app l1 l2 : sumZ (l1 ++ l2) = sumZ l1 + sumZ l2.
Proof. induction l1 as [|x l1 IH]; simpl; [lia|]. rewrite IH. lia. Qed.

Lemma sumZ_nonneg l : Forall (fun x => 0 <= x) l -> 0 <= sumZ l.
Proof. induction 1; simpl; lia. Qed.

(** JavaScript's [reduce((s, x) => s + f(x), 0)] runs left to right. *)
Definition reduce_sum {A} (f : A -> Z) (l : list A) : Z :=
  fold_left (fun s x => s + f x) l 0.

Lemma reduce_sum_acc {A} (f : A -> Z) l s :
  fold_left (fun s x => s + f x) l s = s + sumZ (f <$> l).
Proof.
  revert s. induction l as [|x l IH]; intros s; csimpl; [lia|]. rewrite IH. lia.
Qed.

Lemma reduce_sum_eq {A} (f : A -> Z) l : reduce_sum f l = sumZ (f <$> l).
Proof. unfold reduce_sum. rewrite reduce_sum_acc. lia. Qed.
