(* ===== verification/JsNumber.v ===== *)
(** * JavaScript numbers as rounded rationals

    A finite IEEE-754 double is modelled by the rational it denotes; every
    arithmetic operation is the exact rational operation followed by [fl], the
    rounding to nearest, ties to even, on a 53-bit significand (ECMAScript's
    Number type).  Not modelled: NaN, the infinities, the sign of zero, and the
    exponent range, because the back end's figures stay between 10^-2 and 2^60
    in magnitude or are zero. *)

From S2P Require Import Prelude.
From Stdlib Require Import QArith Qround Qabs Qpower Lqa.
#[local] Open Scope Q_scope.

(** ** Rounding *)

(** Nearest integer, ties to even. *)
Definition rneQ (x : Q) : Z :=
  let q := Qfloor x in
  match (x - inject_Z q ?= 1 # 2)%Q with
  | Lt => q
  | Gt => (q + 1)%Z
  | Eq => if Z.even q then q else (q + 1)%Z
  end.

(** The binary exponent of a positive rational: [2^k <= x < 2^(k+1)]. *)
Definition Qlog2 (x : Q) : Z :=
  let k := (Z.log2 (Qnum x) - Z.log2 (QDen x))%Z in
  if Qle_bool (2 ^ k)%Q x then k else (k - 1)%Z.

Definition fl_pos (x : Q) : Q :=
  Qred (inject_Z (rneQ (x * 2 ^ (52 - Qlog2 x))) * 2 ^ (Qlog2 x - 52)).

Definition fl (x : Q) : Q :=
  match x ?= 0 with
  | Eq => 0
  | Gt => fl_pos x
  | Lt => Qred (- fl_pos (- x))
  end.

(** ** Arithmetic and [Math] *)

Definition js_add (x y : Q) : Q := fl (x + y).
Definition js_sub (x y : Q) : Q := fl (x - y).
Definition js_mul (x y : Q) : Q := fl (x * y).
Definition js_div (x y : Q) : Q := fl (x / y).

(** [Math.round]: the nearest integer, ties towards +infinity. *)
Definition Math_round (x : Q) : Z := Qfloor (x + (1 # 2))%Q.
Definition Math_floor (x : Q) : Z := Qfloor x.
Definition Math_ceil (x : Q) : Z := Qceiling x.

(** [Number.isInteger] on a finite number. *)
Definition js_isInteger (x : Q) : bool := (Qnum x mod QDen x =? 0)%Z.

Example fl_tenth : fl (1 # 10) = 3602879701896397 # 36028797018963968.
Proof. vm_compute. reflexivity. Qed.
Example fl_sum : js_add (fl (1#10)) (fl (2#10)) = fl (30000000000000004 # 100000000000000000).
Proof. vm_compute. reflexivity. Qed.

(** ** Powers of two *)

Lemma pow2_pos k : 0 < 2 ^ k.
Proof. apply Qpower_0_lt. reflexivity. Qed.
#[export] Hint Resolve pow2_pos : core.

Lemma pow2_add a b : 2 ^ (a + b) == 2 ^ a * 2 ^ b.
Proof. apply Qpower_plus. discriminate. Qed.

Lemma pow2_sub a b : 2 ^ (a - b) * 2 ^ b == 2 ^ a.
Proof. rewrite <- pow2_add. replace (a - b + b)%Z with a by lia. reflexivity. Qed.

Lemma pow2_inj a : (0 <= a)%Z -> 2 ^ a == inject_Z (2 ^ a).
Proof. intros. rewrite Zpower_Qpower by lia. reflexivity. Qed.

Lemma pow2_mono a b : (a <= b)%Z -> 2 ^ a <= 2 ^ b.
Proof.
  intros H. replace b with (a + (b - a))%Z by lia. rewrite pow2_add.
  rewrite (pow2_inj (b - a)) by lia.
  assert (H1 : 1 <= inject_Z (2 ^ (b - a))).
  { change 1 with (inject_Z 1). rewrite <- Zle_Qle.
    pose proof (Z.pow_pos_nonneg 2 (b - a)). lia. }
  pose proof (pow2_pos a). nra.
Qed.

Lemma pow2_lt_inv a b : 2 ^ a < 2 ^ b -> (a < b)%Z.
Proof.
  intros H. destruct (Z.lt_ge_cases a b); [done|].
  apply pow2_mono in H0. lra.
Qed.

Lemma pow2_nz k : ~ 2 ^ k == 0.
Proof. pose proof (pow2_pos k). lra. Qed.

Lemma pow2_inv k : 2 ^ k * 2 ^ (- k) == 1.
Proof. rewrite <- pow2_add. replace (k + - k)%Z with 0%Z by lia. reflexivity. Qed.

(** ** The nearest integer *)

(** Linear arithmetic over [Q] after pushing [inject_Z] inwards. *)
Ltac qz :=
  rewrite ?inject_Z_plus, ?inject_Z_mult, ?inject_Z_opp in *;
  change (inject_Z 1) with 1 in *; lra.


Lemma Qfloor_spec x : inject_Z (Qfloor x) <= x < inject_Z (Qfloor x) + 1.
Proof.
  split; [apply Qfloor_le|]. pose proof (Qlt_floor x) as H.
  rewrite inject_Z_plus in H. exact H.
Qed.

Lemma Qfloor_unique x z : inject_Z z <= x -> x < inject_Z z + 1 -> Qfloor x = z.
Proof.
  intros H1 H2. pose proof (Qfloor_spec x) as [H3 H4].
  assert (inject_Z z < inject_Z (Qfloor x + 1)) by qz.
  assert (inject_Z (Qfloor x) < inject_Z (z + 1)) by qz.
  rewrite <- Zlt_Qlt in *. lia.
Qed.

Lemma rneQ_spec x :
  Qabs (inject_Z (rneQ x) - x) <= 1 # 2.
Proof.
  unfold rneQ. pose proof (Qfloor_spec x) as [H1 H2].
  apply Qabs_Qle_condition.
  destruct (Qcompare_spec (x - inject_Z (Qfloor x)) (1 # 2));
    [destruct (Z.even _)|..]; qz.
Qed.

Lemma rneQ_near x z : Qabs (x - inject_Z z) < 1 # 2 -> rneQ x = z.
Proof.
  intros H. apply Qabs_Qlt_condition in H as [H1 H2].
  pose proof (rneQ_spec x) as H3. apply Qabs_Qle_condition in H3 as [H3 H4].
  assert (inject_Z (rneQ x) < inject_Z (z + 1)) by qz.
  assert (inject_Z z < inject_Z (rneQ x + 1)) by qz.
  rewrite <- Zlt_Qlt in *. lia.
Qed.

Lemma rneQ_int z : rneQ (inject_Z z) = z.
Proof. apply rneQ_near. unfold Qminus. rewrite Qplus_opp_r. reflexivity. Qed.

Lemma rneQ_mono x y : x <= y -> (rneQ x <= rneQ y)%Z.
Proof.
  intros H. pose proof (Qfloor_spec x) as [H1 H2]. pose proof (Qfloor_spec y) as [H3 H4].
  assert (Hf : (Qfloor x <= Qfloor y)%Z) by (by apply Qfloor_resp_le).
  unfold rneQ.
  destruct (Z.eq_dec (Qfloor x) (Qfloor y)) as [He|Hne].
  - rewrite He in *.
    destruct (Qcompare_spec (x - inject_Z (Qfloor y)) (1 # 2));
    destruct (Qcompare_spec (y - inject_Z (Qfloor y)) (1 # 2));
    destruct (Z.even (Qfloor y)); try lia; exfalso; lra.
  - destruct (x - inject_Z (Qfloor x) ?= 1 # 2), (y - inject_Z (Qfloor y) ?= 1 # 2);
    repeat case_if; lia.
Qed.

#[export] Instance rneQ_proper : Proper (Qeq ==> eq) rneQ.
Proof.
  intros x y H. apply Z.le_antisymm; apply rneQ_mono; rewrite H; apply Qle_refl.
Qed.

(** ** The binary exponent *)

Lemma Qlog2_spec x : 0 < x -> 2 ^ Qlog2 x <= x < 2 ^ (Qlog2 x + 1).
Proof.
  intros Hx. destruct x as [n d]. unfold Qlog2. simpl Qnum. simpl Qden.
  assert (Hn : (0 < n)%Z) by (unfold Qlt in Hx; simpl in Hx; lia).
  pose proof (Z.log2_spec n Hn) as [Hn1 Hn2].
  pose proof (Z.log2_spec (Z.pos d) eq_refl) as [Hd1 Hd2].
  pose proof (Z.log2_nonneg n). pose proof (Z.log2_nonneg (Z.pos d)).
  set (a := Z.log2 n) in *. set (b := Z.log2 (Z.pos d)) in *.
  rewrite Zle_Qle, <- pow2_inj in Hn1, Hd1 by lia.
  rewrite Zlt_Qlt, <- pow2_inj in Hn2, Hd2 by lia.
  assert (Hq : n # d == inject_Z n / inject_Z (Z.pos d)) by apply Qmake_Qdiv.
  assert (Hlt : n # d < 2 ^ (a - b + 1)).
  { rewrite Hq. apply Qlt_shift_div_r; [reflexivity|].
    apply Qlt_le_trans with (2 ^ Z.succ a); [done|].
    replace (Z.succ a) with (a - b + 1 + b)%Z by lia. rewrite pow2_add.
    apply Qmult_le_l; [auto|done]. }
  assert (Hge : 2 ^ (a - b - 1) <= n # d).
  { rewrite Hq. apply Qle_shift_div_l; [reflexivity|].
    apply Qle_trans with (2 ^ a); [|done].
    replace a with (a - b - 1 + Z.succ b)%Z at 2 by lia. rewrite pow2_add.
    apply Qmult_le_l; [auto|]. by apply Qlt_le_weak. }
  destruct (Qle_bool (2 ^ (a - b)) (n # d)) eqn:E.
  - apply Qle_bool_iff in E. split; done.
  - assert (~ 2 ^ (a - b) <= n # d) by (rewrite <- Qle_bool_iff; congruence).
    split; [done|]. replace (a - b - 1 + 1)%Z with (a - b)%Z by lia. lra.
Qed.

Lemma Qlog2_unique x k : 0 < x -> 2 ^ k <= x -> x < 2 ^ (k + 1) -> Qlog2 x = k.
Proof.
  intros Hx H1 H2. pose proof (Qlog2_spec x Hx) as [H3 H4].
  assert (2 ^ k < 2 ^ (Qlog2 x + 1)) as ?%pow2_lt_inv by lra.
  assert (2 ^ Qlog2 x < 2 ^ (k + 1)) as ?%pow2_lt_inv by lra. lia.
Qed.

Lemma Qlog2_mono x y : 0 < x -> x <= y -> (Qlog2 x <= Qlog2 y)%Z.
Proof.
  intros Hx H. pose proof (Qlog2_spec x Hx) as [H3 H4].
  pose proof (Qlog2_spec y ltac:(lra)) as [H5 H6].
  assert (2 ^ Qlog2 x < 2 ^ (Qlog2 y + 1)) as ?%pow2_lt_inv by lra. lia.
Qed.

(** ** Rounding to a double *)

Lemma fl_pos_eq x :
  fl_pos x == inject_Z (rneQ (x * 2 ^ (52 - Qlog2 x))) * 2 ^ (Qlog2 x - 52).
Proof. apply Qred_correct. Qed.

(** The scaled significand lies in [[2^52, 2^53)]. *)
Lemma scaled_bounds x :
  0 < x -> 2 ^ 52 <= x * 2 ^ (52 - Qlog2 x) < 2 ^ 53.
Proof.
  intros Hx. pose proof (Qlog2_spec x Hx) as [H1 H2].
  set (k := Qlog2 x) in *. pose proof (pow2_pos (52 - k)) as Hp.
  replace 52%Z with (k + (52 - k))%Z at 1 by lia.
  replace 53%Z with (k + 1 + (52 - k))%Z by lia.
  rewrite !(pow2_add _ (52 - k)). split.
  - rewrite !(Qmult_comm _ (2 ^ (52 - k))). by apply Qmult_le_l.
  - rewrite !(Qmult_comm _ (2 ^ (52 - k))). by apply Qmult_lt_l.
Qed.

Lemma rescale x k : x * 2 ^ (52 - k) * 2 ^ (k - 52) == x.
Proof.
  rewrite <- Qmult_assoc, <- pow2_add. replace (52 - k + (k - 52))%Z with 0%Z by lia.
  change (2 ^ 0) with 1. ring.
Qed.

(** Half a unit in the last place. *)
Lemma fl_pos_ulp x : 0 < x -> Qabs (fl_pos x - x) <= 2 ^ (Qlog2 x - 53).
Proof.
  intros Hx. rewrite fl_pos_eq. set (k := Qlog2 x).
  pose proof (rneQ_spec (x * 2 ^ (52 - k))) as H.
  apply Qabs_Qle_condition in H as [H1 H2].
  set (m := inject_Z _) in *. set (s := x * 2 ^ (52 - k)) in *.
  assert (Hs : s * 2 ^ (k - 52) == x) by apply rescale.
  assert (Hh : 2 ^ (k - 53) == (1 # 2) * 2 ^ (k - 52)).
  { replace (k - 52)%Z with (1 + (k - 53))%Z by lia. rewrite pow2_add.
    change (2 ^ 1) with 2. ring. }
  pose proof (pow2_pos (k - 52)) as Hp. rewrite Hh. clearbody s m.
  apply Qabs_Qle_condition. rewrite <- Hs. split; nra.
Qed.

(** Relative error at most 2^-53. *)
Lemma fl_pos_err x : 0 < x -> Qabs (fl_pos x - x) <= x * 2 ^ (-53).
Proof.
  intros Hx. eapply Qle_trans; [by apply fl_pos_ulp|].
  unfold Z.sub. rewrite pow2_add. apply Qmult_le_compat_r; [|by apply Qlt_le_weak].
  by apply Qlog2_spec.
Qed.

Lemma fl_pos_pos x : 0 < x -> 0 < fl_pos x.
Proof.
  intros Hx. pose proof (fl_pos_err x Hx) as H. apply Qabs_Qle_condition in H as [H _].
  change (2 ^ (-53)) with (1 # 9007199254740992) in H. lra.
Qed.

Lemma fl_pos_grid x : 0 < x -> 2 ^ Qlog2 x <= fl_pos x <= 2 ^ (Qlog2 x + 1).
Proof.
  intros Hx. pose proof (scaled_bounds x Hx) as [H1 H2].
  rewrite fl_pos_eq. set (k := Qlog2 x) in *. set (s := x * 2 ^ (52 - k)) in *.
  pose proof (pow2_pos (k - 52)) as Hp.
  assert (Ha : (2 ^ 52 <= rneQ s)%Z).
  { replace (2 ^ 52)%Z with (rneQ (inject_Z (2 ^ 52))) by apply rneQ_int.
    apply rneQ_mono. rewrite <- pow2_inj by lia. exact H1. }
  assert (Hb : (rneQ s <= 2 ^ 53)%Z).
  { replace (2 ^ 53)%Z with (rneQ (inject_Z (2 ^ 53))) by apply rneQ_int.
    apply rneQ_mono. rewrite <- pow2_inj by lia. by apply Qlt_le_weak. }
  rewrite Zle_Qle, <- pow2_inj in Ha, Hb by lia.
  replace k with (52 + (k - 52))%Z at 1 by lia.
  replace (k + 1)%Z with (53 + (k - 52))%Z by lia. rewrite !pow2_add.
  split; (apply Qmult_le_compat_r; [|by apply Qlt_le_weak]); assumption.
Qed.

Lemma fl_pos_mono x y : 0 < x -> x <= y -> fl_pos x <= fl_pos y.
Proof.
  intros Hx H. pose proof (Qlog2_mono x y Hx H) as Hk.
  pose proof (fl_pos_grid x Hx) as [_ Hgx].
  pose proof (fl_pos_grid y ltac:(lra)) as [Hgy _].
  destruct (Z.eq_dec (Qlog2 x) (Qlog2 y)) as [He|Hne].
  - rewrite !fl_pos_eq, He.
    apply Qmult_le_compat_r; [|by apply Qlt_le_weak].
    rewrite <- Zle_Qle. apply rneQ_mono.
    apply Qmult_le_compat_r; [done|by apply Qlt_le_weak].
  - eapply Qle_trans; [exact Hgx|]. eapply Qle_trans; [|exact Hgy].
    apply pow2_mono. lia.
Qed.

Lemma fl_0 : fl 0 = 0.
Proof. reflexivity. Qed.

Lemma fl_of_pos x : 0 < x -> fl x = fl_pos x.
Proof. intros H. unfold fl. by rewrite (proj1 (Qgt_alt _ _) H). Qed.

Lemma fl_of_neg x : x < 0 -> fl x == - fl_pos (- x).
Proof. intros H. unfold fl. rewrite (proj1 (Qlt_alt _ _) H). apply Qred_correct. Qed.

Lemma fl_of_zero x : x == 0 -> fl x = 0.
Proof. intros H. unfold fl. by rewrite (proj1 (Qeq_alt _ _) H). Qed.

Lemma fl_err x : Qabs (fl x - x) <= Qabs x * 2 ^ (-53).
Proof.
  destruct (Q_dec x 0) as [[H|H]|H].
  - rewrite fl_of_neg by done. rewrite (Qabs_neg x) by lra.
    pose proof (fl_pos_err (- x) ltac:(lra)) as H1.
    setoid_rewrite <- Qabs_opp. eapply Qle_trans; [|exact H1].
    apply Qle_lteq. right. apply Qabs_wd. ring.
  - rewrite fl_of_pos by done. rewrite (Qabs_pos x) by lra. by apply fl_pos_err.
  - rewrite fl_of_zero by done. rewrite H. vm_compute. discriminate.
Qed.

Lemma fl_mono x y : x <= y -> fl x <= fl y.
Proof.
  intros H. destruct (Q_dec x 0) as [[Hx|Hx]|Hx], (Q_dec y 0) as [[Hy|Hy]|Hy];
    try lra; rewrite ?(fl_of_neg x), ?(fl_of_neg y) by done;
    rewrite ?(fl_of_pos x), ?(fl_of_pos y) by done;
    rewrite ?(fl_of_zero x), ?(fl_of_zero y) by done;
    try apply Qle_refl;
    repeat match goal with
    | _ : ?x < 0 |- _ =>
        lazymatch goal with _ : 0 < fl_pos (- x) |- _ => fail | _ => idtac end;
        pose proof (fl_pos_pos (- x) ltac:(lra))
    | _ : 0 < ?x |- _ =>
        lazymatch goal with
        | _ : 0 < fl_pos x |- _ => fail
        | _ => lazymatch x with fl_pos _ => fail | _ => idtac end end;
        pose proof (fl_pos_pos x ltac:(lra))
    end; try lra.
  - pose proof (fl_pos_mono (- y) (- x) ltac:(lra) ltac:(lra)). lra.
  - by apply fl_pos_mono.
Qed.

#[export] Instance fl_proper : Proper (Qeq ==> Qeq) fl.
Proof.
  intros x y H. apply Qle_antisym; apply fl_mono; rewrite H; apply Qle_refl.
Qed.

Lemma fl_nonneg x : 0 <= x -> 0 <= fl x.
Proof. intros H. rewrite <- fl_0. by apply fl_mono. Qed.

(** A number within a quarter of an ulp of a dyadic [z * 2^-j] that fits the
    significand rounds to it exactly. *)
Lemma fl_near x z j :
  0 < x -> x < 2 ^ (53 - j) ->
  Qabs (x - inject_Z z * 2 ^ (- j)) <= x * 2 ^ (-54) ->
  fl x == inject_Z z * 2 ^ (- j).
Proof.
  intros Hx Hb Hn. rewrite fl_of_pos, fl_pos_eq by done.
  pose proof (Qlog2_spec x Hx) as [H1 _]. pose proof (scaled_bounds x Hx) as [_ H2].
  set (k := Qlog2 x) in *.
  assert (k < 53 - j)%Z by (apply pow2_lt_inv; lra).
  assert (HM : inject_Z (z * 2 ^ (52 - k - j)) == inject_Z z * 2 ^ (- j) * 2 ^ (52 - k)).
  { rewrite inject_Z_mult, <- pow2_inj by lia.
    replace (52 - k - j)%Z with (- j + (52 - k))%Z by lia. rewrite pow2_add. ring. }
  rewrite (rneQ_near _ (z * 2 ^ (52 - k - j))).
  - rewrite HM. apply rescale.
  - rewrite HM. set (h := inject_Z z * 2 ^ (- j)) in *.
    pose proof (pow2_pos (52 - k)) as Hp. set (p := 2 ^ (52 - k)) in *.
    apply Qabs_Qle_condition in Hn as [Hn1 Hn2].
    assert (Hx2 : x * p * 2 ^ (-54) < 1 # 2).
    { apply Qlt_le_trans with (2 ^ 53 * 2 ^ (-54)); [|vm_compute; discriminate].
      apply Qmult_lt_r; [auto|done]. }
    apply Qabs_Qlt_condition.
    assert (Ha : (x - h) * p <= x * 2 ^ (-54) * p) by (apply Qmult_le_compat_r; lra).
    assert (Hc : - (x * 2 ^ (-54)) * p <= (x - h) * p) by (apply Qmult_le_compat_r; lra).
    clearbody p h. change (2 ^ (-54)) with (1 # 18014398509481984) in *. split; lra.
Qed.

Lemma fl_dyadic z j :
  (Z.abs z < 2 ^ 53)%Z -> fl (inject_Z z * 2 ^ (- j)) == inject_Z z * 2 ^ (- j).
Proof.
  intros Hz.
  assert (Hpos : forall z, (0 < z < 2 ^ 53)%Z ->
            fl (inject_Z z * 2 ^ (- j)) == inject_Z z * 2 ^ (- j)).
  { clear z Hz. intros z Hz. pose proof (pow2_pos (- j)) as Hp.
    assert (0 < inject_Z z) by (change 0 with (inject_Z 0); rewrite <- Zlt_Qlt; lia).
    assert (inject_Z z < 2 ^ 53) by (rewrite pow2_inj, <- Zlt_Qlt; lia).
    assert (0 < inject_Z z * 2 ^ (- j)) by (by apply Qmult_lt_0_compat).
    apply fl_near; [done| |].
    - unfold Z.sub. rewrite pow2_add. by apply Qmult_lt_r.
    - unfold Qminus. rewrite Qplus_opp_r.
      apply Qmult_le_0_compat; [by apply Qlt_le_weak|vm_compute; discriminate]. }
  destruct (Z.lt_trichotomy z 0) as [H|[->|H]].
  - pose proof (Hpos (- z)%Z ltac:(lia)) as H1. pose proof (pow2_pos (- j)) as Hp.
    assert (inject_Z z < 0) by (change 0 with (inject_Z 0); rewrite <- Zlt_Qlt; lia).
    assert (inject_Z z * 2 ^ (- j) < 0) by nra.
    assert (He : - (inject_Z z * 2 ^ (- j)) == inject_Z (- z) * 2 ^ (- j))
      by (rewrite inject_Z_opp; ring).
    assert (0 < inject_Z (- z) * 2 ^ (- j)) by (rewrite <- He; lra).
    rewrite fl_of_neg by done. rewrite <- fl_of_pos by lra.
    rewrite He, H1, <- He. ring.
  - rewrite fl_of_zero by ring. ring.
  - apply Hpos. lia.
Qed.

Lemma fl_int z : (Z.abs z < 2 ^ 53)%Z -> fl (inject_Z z) == inject_Z z.
Proof.
  intros H. pose proof (fl_dyadic z 0 H) as He. change (2 ^ (- 0)) with 1 in He.
  rewrite Qmult_1_r in He. exact He.
Qed.

Lemma fl_half z : (Z.abs z < 2 ^ 53)%Z -> fl (inject_Z z * (1 # 2)) == inject_Z z * (1 # 2).
Proof. intros H. exact (fl_dyadic z 1 H). Qed.

(** ** Rounding back to an integer *)

Lemma Math_round_spec x z :
  inject_Z z - (1 # 2) <= x -> x < inject_Z z + (1 # 2) -> Math_round x = z.
Proof. intros. apply Qfloor_unique; lra. Qed.

Lemma Math_round_bounds x :
  inject_Z (Math_round x) - (1 # 2) <= x < inject_Z (Math_round x) + (1 # 2).
Proof. unfold Math_round. pose proof (Qfloor_spec (x + (1 # 2))). split; lra. Qed.

Lemma Math_round_int z : Math_round (inject_Z z) = z.
Proof. apply Math_round_spec; lra. Qed.

Lemma Math_round_mono x y : x <= y -> (Math_round x <= Math_round y)%Z.
Proof. intros H. apply Qfloor_resp_le. lra. Qed.

#[export] Instance Math_round_proper : Proper (Qeq ==> eq) Math_round.
Proof.
  intros x y H. apply Z.le_antisymm; apply Math_round_mono; rewrite H; apply Qle_refl.
Qed.

#[export] Instance Math_ceil_proper : Proper (Qeq ==> eq) Math_ceil.
Proof. intros x y H. unfold Math_ceil. by rewrite H. Qed.

Lemma Math_ceil_spec x : inject_Z (Math_ceil x) - 1 < x <= inject_Z (Math_ceil x).
Proof.
  unfold Math_ceil. pose proof (Qle_ceiling x). pose proof (Qceiling_lt x) as H1.
  assert (H2 : inject_Z (Qceiling x) == inject_Z (Qceiling x - 1) + 1).
  { change 1%Q with (inject_Z 1). rewrite <- inject_Z_plus.
    replace (Qceiling x - 1 + 1)%Z with (Qceiling x) by lia. reflexivity. }
  split; lra.
Qed.

(** ** Floor of a quotient

    [Math.floor(a / b)] on two safe non-negative integers is the integer
    quotient: the rounding of the division never carries it to the next
    integer. *)
Definition js_floor_div (a b : Z) : Z := Math_floor (js_div (inject_Z a) (inject_Z b)).

Lemma js_floor_div_exact a b :
  (0 <= a < 2 ^ 52)%Z -> (0 < b)%Z -> js_floor_div a b = (a / b)%Z.
Proof.
  intros Ha Hb. unfold js_floor_div, js_div, Math_floor.
  set (q := (a / b)%Z). assert (Hq : (b * q <= a < b * q + b)%Z).
  { subst q. pose proof (Z.mul_div_le a b Hb). pose proof (Z.mul_succ_div_gt a b Hb). lia. }
  assert (0 <= q)%Z by (apply Z.div_pos; lia).
  assert (Hqa : (q <= a)%Z) by (subst q; apply Z.div_le_upper_bound; nia).
  assert (HB : 0 < inject_Z b) by (change 0 with (inject_Z 0); rewrite <- Zlt_Qlt; lia).
  assert (HA : 0 <= inject_Z a < 2 ^ 52).
  { split; [change 0 with (inject_Z 0); rewrite <- Zle_Qle; lia|].
    rewrite pow2_inj, <- Zlt_Qlt; lia. }
  assert (HBA : inject_Z 1 <= inject_Z b) by (rewrite <- Zle_Qle; lia).
  change (inject_Z 1) with 1 in HBA.
  set (x := inject_Z a / inject_Z b).
  assert (Hxb : x * inject_Z b == inject_Z a) by (unfold x; field; lra).
  assert (Hlo : inject_Z q <= x).
  { unfold x. apply Qle_shift_div_l; [done|]. rewrite <- inject_Z_mult, <- Zle_Qle. lia. }
  assert (Hx0 : 0 <= x).
  { unfold x. apply Qle_shift_div_l; [done|]. lra. }
  apply Qfloor_unique.
  - rewrite <- (fl_int q) by lia. by apply fl_mono.
  - pose proof (fl_err x) as He. rewrite (Qabs_pos x) in He by done.
    apply Qabs_Qle_condition in He as [_ He].
    assert (Hgap : inject_Z (a + 1) <= inject_Z (b * q + b)) by (rewrite <- Zle_Qle; lia).
    rewrite !inject_Z_plus, inject_Z_mult in Hgap. change (inject_Z 1) with 1 in Hgap.
    change (2 ^ (-53)) with (1 # 9007199254740992) in He.
    change (2 ^ 52) with (4503599627370496 # 1) in HA.
    set (B := inject_Z b) in *. set (A := inject_Z a) in *. set (P := inject_Z q) in *.
    set (F := fl x) in *. clearbody B A P F x.
    assert (x * B * (1 # 9007199254740992) < 1) by (rewrite Hxb; lra).
    assert (HF : F * B < (P + 1) * B).
    { assert (F * B <= (x + x * (1 # 9007199254740992)) * B) by (apply Qmult_le_compat_r; lra).
      lra. }
    apply Qmult_lt_r in HF; [done|done].
Qed.

(** ** Rounding a rate of an integer

    [Math.round(k * c)], where [c] is the double nearest to the rate [r], equals
    the exact rounding of [k * r], ties up.  Two cases are needed: when [k * r]
    is exactly half-way, the rounded product is half-way too ([fl_near]); when
    it is not, it is at least [1/1000] away and the two roundings cannot carry
    it over. *)
Section RoundRate.
Context (k n : Z) (c r : Q).
Context (Hk : (0 <= k < 2 ^ 40)%Z) (Hr : 0 < r <= 1) (Hc0 : 0 < c).
Context (Hc : Qabs (c - r) <= c * 2 ^ (-54)).

Lemma rate_operand : 0 <= inject_Z k < 1099511627776 # 1.
Proof using Hk.
  split; [change 0 with (inject_Z 0); rewrite <- Zle_Qle; lia|].
  change (1099511627776 # 1) with (inject_Z (2 ^ 40)). rewrite <- Zlt_Qlt. lia.
Qed.

Lemma rate_product_err : Qabs (inject_Z k * c - inject_Z k * r) <= inject_Z k * c * 2 ^ (-54).
Proof using Hk Hc0 Hc.
  pose proof rate_operand as HK. apply Qabs_Qle_condition in Hc as [Hc1 Hc2].
  change (2 ^ (-54)) with (1 # 18014398509481984) in *. apply Qabs_Qle_condition. split; nra.
Qed.

(** The product falls exactly half-way between two integers. *)
Lemma round_rate_half :
  inject_Z k * r == inject_Z n - (1 # 2) -> Math_round (js_mul (inject_Z k) c) = n.
Proof.
  intros Heq. unfold js_mul. pose proof rate_operand as HK. pose proof rate_product_err as HKc.
  apply Qabs_Qle_condition in Hc as [Hc1 Hc2].
  change (2 ^ (-54)) with (1 # 18014398509481984) in Hc1, Hc2.
  assert (Hz : inject_Z (2 * n - 1) * 2 ^ (- 1) == inject_Z n - (1 # 2)).
  { unfold Z.sub. rewrite inject_Z_plus, inject_Z_mult, inject_Z_opp.
    change (2 ^ (-1)) with (1 # 2). change (inject_Z 1) with 1.
    change (inject_Z 2) with (2 # 1). field. }
  destruct (Qlt_le_dec 0 (inject_Z k)) as [HK0|HK0]; [|exfalso].
  - assert (Hkc1 : inject_Z k * c < 2 ^ (53 - 1)).
    { change (2 ^ (53 - 1)) with (4503599627370496 # 1). nra. }
    assert (0 < inject_Z k * c) by (by apply Qmult_lt_0_compat).
    rewrite (fl_near _ (2 * n - 1) 1) by (done || (rewrite Hz, <- Heq; exact HKc)).
    rewrite Hz. apply Math_round_spec; lra.
  - assert (HK00 : inject_Z k == 0) by lra. rewrite HK00 in Heq.
    assert (Hh : inject_Z n == 1 # 2) by lra.
    assert (inject_Z 0 < inject_Z n /\ inject_Z n < inject_Z 1) as [H1 H2]
      by (rewrite Hh; split; reflexivity).
    rewrite <- Zlt_Qlt in *. lia.
Qed.

(** The product keeps a margin from both half-way points around [n]. *)
Lemma round_rate_margin :
  inject_Z n - (1 # 2) + (1 # 1000) <= inject_Z k * r ->
  inject_Z k * r <= inject_Z n + (1 # 2) - (1 # 1000) ->
  Math_round (js_mul (inject_Z k) c) = n.
Proof.
  intros Hlo Hhi. unfold js_mul. pose proof rate_operand as HK. pose proof rate_product_err as HKc.
  set (K := inject_Z k) in *. pose proof (fl_err (K * c)) as He.
  assert (0 <= K * c) by (apply Qmult_le_0_compat; lra).
  rewrite (Qabs_pos (K * c)) in He by done.
  apply Qabs_Qle_condition in He as [He1 He2].
  apply Qabs_Qle_condition in HKc as [HK1 HK2].
  change (2 ^ (-53)) with (1 # 9007199254740992) in He1, He2.
  change (2 ^ (-54)) with (1 # 18014398509481984) in HK1, HK2.
  assert (K * r < 2199023255553 # 1) by nra.
  apply Math_round_spec; lra.
Qed.

Lemma round_rate :
  (inject_Z k * r == inject_Z n - (1 # 2) \/ inject_Z n - (1 # 2) + (1 # 1000) <= inject_Z k * r) ->
  inject_Z k * r <= inject_Z n + (1 # 2) - (1 # 1000) ->
  Math_round (js_mul (inject_Z k) c) = n.
Proof. intros [H|H] Hhi; [by apply round_rate_half | by apply round_rate_margin]. Qed.
End RoundRate.
