(* ===== verification/Money.v ===== *)
(** * Money and the fee policy

    [src/common/money.ts] (the integer-kobo value object) and
    [src/common/fees.ts] (rates and cadence).  Naira amounts are JavaScript
    numbers ([JsNumber]); kobo amounts are integers. *)

From S2P Require Import Prelude JsNumber.
From Stdlib Require Import QArith Qround Qabs Qpower Lqa.
#[local] Open Scope Z_scope.

Module Fees.

(** The four policy constants; a rate is the double its literal denotes. *)
Definition PLATFORM_FEE_RATE : Q := fl (25 # 1000).
Definition FIRST_PAYMENT_DEPOSIT_RATE : Q := fl (25 # 100).
Definition WEEKLY_INSTALLMENTS : Z := 12.
Definition MONTHLY_INSTALLMENTS : Z := 3.
Definition MIGRATED_ENROLLMENT_PLATFORM_FEE_RATE : Q := 0.

End Fees.

Module Money.

Record t := mk { _kobo : Z }.

(** The private constructor: throws unless the number is an integer. *)
Definition new (kobo : Q) : res t :=
  if js_isInteger kobo then Ok (mk (Qnum kobo / QDen kobo))
  else Err (FInternal "Money requires integer kobo").

(** The constructor applied to a number that is an integer already. *)
Definition of_int (kobo : Z) : t := mk kobo.

Definition fromNaira (naira : Q) : t := of_int (Math_round (js_mul naira 100)).
Definition fromKobo (kobo : Q) : res t := new kobo.
Definition toKobo (m : t) : Z := _kobo m.
Definition toNaira (m : t) : Q := js_div (inject_Z (_kobo m)) 100.
Definition add (m other : t) : t := of_int (_kobo m + _kobo other).
Definition subtract (m other : t) : t := of_int (_kobo m - _kobo other).
Definition percent (m : t) (rate : Q) : t :=
  of_int (Math_round (js_mul (inject_Z (_kobo m)) rate)).
Definition isLessThan (m other : t) : bool := _kobo m <? _kobo other.

#[export] Instance t_eq_dec : EqDecision t.
Proof. solve_decision. Defined.

(** ** The constructor *)

Lemma new_int z : new (inject_Z z) = Ok (of_int z).
Proof.
  unfold new, js_isInteger, of_int. simpl. rewrite Z.mod_1_r, Z.div_1_r. reflexivity.
Qed.

Lemma new_fractional q : Qnum q mod QDen q <> 0 -> is_ok (new q) = false.
Proof.
  intros H. unfold new, js_isInteger. by rewrite (proj2 (Z.eqb_neq _ _) H).
Qed.

(** ** Rates *)

Definition platform_fee (fee : Z) : Z :=
  toKobo (percent (of_int fee) Fees.PLATFORM_FEE_RATE).
Definition deposit_share (fee : Z) : Z :=
  toKobo (percent (of_int fee) Fees.FIRST_PAYMENT_DEPOSIT_RATE).

(** A rounding [n = floor (k * p / q + 1/2)] in the shape [round_rate] asks for. *)
Lemma half_up_cases (k p q n : Z) :
  0 < q <= 500 -> n = (2 * k * p + q) / (2 * q) ->
  ((inject_Z k * (inject_Z p / inject_Z q) == inject_Z n - (1 # 2))%Q \/
   (inject_Z n - (1 # 2) + (1 # 1000) <= inject_Z k * (inject_Z p / inject_Z q))%Q) /\
  (inject_Z k * (inject_Z p / inject_Z q) <= inject_Z n + (1 # 2) - (1 # 1000))%Q.
Proof.
  intros Hq Hn.
  pose proof (Z.mul_div_le (2 * k * p + q) (2 * q) ltac:(lia)) as H1.
  pose proof (Z.mul_succ_div_gt (2 * k * p + q) (2 * q) ltac:(lia)) as H2.
  rewrite <- Hn in H1, H2.
  assert (HQ : (0 < inject_Z q)%Q) by (change 0%Q with (inject_Z 0); rewrite <- Zlt_Qlt; lia).
  assert (HQ2 : (inject_Z q <= 500)%Q) by (change 500%Q with (inject_Z 500); rewrite <- Zle_Qle; lia).
  set (x := (inject_Z k * (inject_Z p / inject_Z q))%Q).
  assert (Hx : (x * inject_Z q == inject_Z (k * p))%Q) by (unfold x; rewrite inject_Z_mult; field; lra).
  assert (Hinv : (inject_Z q * (1 # 1000) <= 1 # 2)%Q) by lra.
  split.
  - destruct (Z.eq_dec (2 * q * n) (2 * k * p + q)) as [He|Hne]; [left|right].
    + assert (Hz : (2 * (x * inject_Z q) + inject_Z q == 2 * inject_Z q * inject_Z n)%Q).
      { rewrite Hx. change 2%Q with (inject_Z 2). rewrite <- !inject_Z_mult, <- inject_Z_plus.
        rewrite He. f_equiv. lia. }
      assert ((x - (inject_Z n - (1 # 2))) * inject_Z q == 0)%Q as H0 by lra.
      apply Qmult_integral in H0 as [H0|H0]; lra.
    + assert (Hz : (2 * inject_Z q * inject_Z n + 1 <= 2 * (x * inject_Z q) + inject_Z q)%Q).
      { rewrite Hx. change 2%Q with (inject_Z 2). change 1%Q with (inject_Z 1).
        rewrite <- !inject_Z_mult, <- !inject_Z_plus, <- Zle_Qle. lia. }
      apply Qmult_le_r with (z := inject_Z q); [done|]. lra.
  - assert (Hz : (2 * (x * inject_Z q) + inject_Z q + 1 <= 2 * inject_Z q * (inject_Z n + 1))%Q).
    { rewrite Hx. change 2%Q with (inject_Z 2). change 1%Q with (inject_Z 1).
      rewrite <- !inject_Z_plus, <- !inject_Z_mult, <- !inject_Z_plus, <- Zle_Qle. lia. }
    apply Qmult_le_r with (z := inject_Z q); [done|]. lra.
Qed.

(** [Math.round(k * c)] for the double [c] nearest to [p/q] is the exact
    half-up rounding. *)
Lemma round_ratio k p q c :
  0 <= k < 2 ^ 40 -> 0 < p <= q -> q <= 500 -> (0 < c)%Q ->
  (Qabs (c - inject_Z p / inject_Z q) <= c * 2 ^ (-54))%Q ->
  Math_round (js_mul (inject_Z k) c) = (2 * k * p + q) / (2 * q).
Proof.
  intros Hk Hp Hq Hc0 Hc. destruct (half_up_cases k p q _ ltac:(lia) eq_refl) as [H1 H2].
  assert (HQ : (0 < inject_Z q)%Q) by (change 0%Q with (inject_Z 0); rewrite <- Zlt_Qlt; lia).
  apply round_rate with (r := (inject_Z p / inject_Z q)%Q); try assumption.
  split.
  - apply Qlt_shift_div_l; [done|]. rewrite Qmult_0_l.
    change 0%Q with (inject_Z 0). rewrite <- Zlt_Qlt. lia.
  - apply Qle_shift_div_r; [done|]. rewrite Qmult_1_l, <- Zle_Qle. lia.
Qed.

Lemma platform_fee_eq fee :
  0 <= fee < 2 ^ 40 -> platform_fee fee = (fee + 20) / 40.
Proof.
  intros H. unfold platform_fee, percent, toKobo, of_int. simpl.
  rewrite (round_ratio fee 1 40); try lia; try reflexivity.
  - rewrite <- (Z.div_mul_cancel_r (fee + 20) 40 2) by lia. f_equal; lia.
  - vm_compute. discriminate.
Qed.

Lemma deposit_share_eq fee :
  0 <= fee < 2 ^ 40 -> deposit_share fee = (fee + 2) / 4.
Proof.
  intros H. unfold deposit_share, percent, toKobo, of_int. simpl.
  rewrite (round_ratio fee 1 4); try lia; try reflexivity.
  - rewrite <- (Z.div_mul_cancel_r (fee + 2) 4 2) by lia. f_equal; lia.
  - vm_compute. discriminate.
Qed.

(** A zero rate is zero on every amount. *)
Lemma percent_zero m : percent m 0 = of_int 0.
Proof.
  unfold percent, js_mul, of_int. f_equal.
  rewrite fl_of_zero by ring. reflexivity.
Qed.

(** ** Kobo through naira and back *)

Lemma fromNaira_toNaira_kobo k :
  Z.abs k <= 2 ^ 50 -> Math_round (js_mul (js_div (inject_Z k) 100) 100) = k.
Proof.
  intros Hk. unfold js_mul, js_div.
  set (x := fl (inject_Z k / 100)).
  pose proof (fl_err (inject_Z k / 100)) as H1. pose proof (fl_err (x * 100)) as H2.
  fold x in H1.
  assert (HK : (Qabs (inject_Z k) <= 1125899906842624)%Q).
  { apply Qabs_Qle_condition. change 1125899906842624%Q with (inject_Z (2 ^ 50)).
    rewrite <- inject_Z_opp, <- !Zle_Qle. lia. }
  assert (Hdiv : (Qabs (inject_Z k / 100) == Qabs (inject_Z k) * (1 # 100))%Q)
    by (unfold Qdiv; rewrite Qabs_Qmult; reflexivity).
  rewrite Hdiv in H1. rewrite Qabs_Qmult in H2. change (Qabs 100) with 100%Q in H2.
  assert (HX : (Qabs x <= Qabs (inject_Z k) * (1 # 100) + Qabs (x - inject_Z k / 100))%Q).
  { rewrite <- Hdiv. rewrite Qplus_comm. eapply Qle_trans; [|apply Qabs_triangle].
    apply Qle_lteq. right. apply Qabs_wd. ring. }
  change (2 ^ (-53))%Q with (1 # 9007199254740992) in *.
  apply Qabs_Qle_condition in H2 as [H2 H3].
  set (D := Qabs (x - inject_Z k / 100)) in *.
  assert (HD : (Qabs (x - inject_Z k / 100) <= D)%Q) by apply Qle_refl.
  apply Qabs_Qle_condition in HD as [HD1 HD2].
  assert (Hk100 : (inject_Z k / 100 == inject_Z k * (1 # 100))%Q) by reflexivity.
  rewrite Hk100 in HD1, HD2.
  set (A := Qabs (inject_Z k)) in *. set (X := Qabs x) in *.
  clearbody A X D x. apply Math_round_spec; lra.
Qed.

End Money.
