(* ===== verification/PaystackFee.v ===== *)
(** * Paystack's fee and its inverse

    [src/common/paystack-fee.ts]: the fee Paystack takes on a charge, and
    [grossUp], the search for the charge that nets a given amount.  The doubles
    of the source are [JsNumber] rationals, so every rounding of the seed and of
    the fee is in the model.  The scan's fuel is the width of its window. *)

From S2P Require Import Prelude JsNumber Money.
From Stdlib Require Import QArith Qround Qabs Qpower Lqa.
#[local] Open Scope Z_scope.

Definition PAYSTACK_RATE : Q := fl (15 # 1000).
Definition PAYSTACK_FLAT_KOBO : Z := 10000.
Definition PAYSTACK_FLAT_WAIVER_THRESHOLD_KOBO : Z := 250000.
Definition PAYSTACK_FEE_CAP_KOBO : Z := 200000.
Definition DEFAULT_PAYSTACK_VAT_RATE : Q := fl (75 # 1000).
Definition GROSS_UP_SEARCH_WINDOW_KOBO : Z := 32.

(** [String.prototype.trim() === ''] on ASCII white space. *)
Definition is_space (c : Ascii.ascii) : bool :=
  let n := Z.of_nat (Ascii.nat_of_ascii c) in
  (n =? 32) || ((9 <=? n) && (n <=? 13)).
Fixpoint is_blank (s : string) : bool :=
  match s with
  | EmptyString => true
  | String c s => is_space c && is_blank s
  end.

(** [PAYSTACK_FEE_VAT_RATE] read from the environment.  [Number_of s] is
    [Number(s)], [None] for NaN and the infinities. *)
Definition paystackVatRate (Number_of : string -> option Q) (raw : option string) : Q :=
  match raw with
  | None => DEFAULT_PAYSTACK_VAT_RATE
  | Some s =>
      if is_blank s then DEFAULT_PAYSTACK_VAT_RATE
      else match Number_of s with
           | None => DEFAULT_PAYSTACK_VAT_RATE
           | Some parsed =>
               if negb (Qle_bool 0 parsed) || negb (Qle_bool parsed 1)
               then DEFAULT_PAYSTACK_VAT_RATE else parsed
           end
  end.

Definition paystackFeeBeforeVat (amountKobo : Z) : Z :=
  let flat := if amountKobo <? PAYSTACK_FLAT_WAIVER_THRESHOLD_KOBO then 0
              else PAYSTACK_FLAT_KOBO in
  let raw := Math_round (js_mul (inject_Z amountKobo) PAYSTACK_RATE) + flat in
  Z.min raw PAYSTACK_FEE_CAP_KOBO.

Definition paystackFee (amountKobo : Z) (vatRate : Q) : Z :=
  let beforeVat := paystackFeeBeforeVat amountKobo in
  beforeVat + Math_round (js_mul (inject_Z beforeVat) vatRate).

Record GrossUp := mkGrossUp { amountCharged : Z; gu_paystackFee : Z }.

(** The three regimes of the closed-form seed. *)
Definition grossUp_seed (baseKobo : Z) (vatRate : Q) : Z :=
  let withVat := js_add 1 vatRate in
  let effectiveRate := js_mul PAYSTACK_RATE withVat in
  let seed1 := Math_ceil (js_div (inject_Z baseKobo) (js_sub 1 effectiveRate)) in
  if PAYSTACK_FLAT_WAIVER_THRESHOLD_KOBO <=? seed1 then
    let seed2 := Math_ceil (js_div
      (js_add (inject_Z baseKobo) (js_mul (inject_Z PAYSTACK_FLAT_KOBO) withVat))
      (js_sub 1 effectiveRate)) in
    if PAYSTACK_FEE_CAP_KOBO <=? paystackFeeBeforeVat seed2 then
      baseKobo + PAYSTACK_FEE_CAP_KOBO
        + Math_round (js_mul (inject_Z PAYSTACK_FEE_CAP_KOBO) vatRate)
    else seed2
  else seed1.

(** The [for] loop from [amount]: [inl] is its [return], [inr] the value of
    [surplus] when it runs out ([-1] when none was seen). *)
Fixpoint grossUp_scan (fuel : nat) (amount baseKobo : Z) (vatRate : Q) (surplus : Z)
    : GrossUp + Z :=
  match fuel with
  | O => inr surplus
  | S fuel =>
      let net := amount - paystackFee amount vatRate in
      if net =? baseKobo then inl (mkGrossUp amount (paystackFee amount vatRate))
      else grossUp_scan fuel (amount + 1) baseKobo vatRate
             (if (baseKobo <? net) && (surplus <? 0) then amount else surplus)
  end.

Definition grossUp (base : Q) (vatRate : Q) (searchWindowKobo : Z) : res GrossUp :=
  if negb (js_isInteger base) || Qle_bool base 0 then
    Err (FInternal "grossUp requires a positive integer kobo base")
  else
    let baseKobo := Qfloor base in
    let seed := grossUp_seed baseKobo vatRate in
    let from := Z.max 1 (seed - searchWindowKobo) in
    let to := seed + searchWindowKobo in
    match grossUp_scan (Z.to_nat (to - from + 1)) from baseKobo vatRate (-1) with
    | inl g => Ok g
    | inr surplus =>
        if 0 <? surplus then Ok (mkGrossUp surplus (paystackFee surplus vatRate))
        else Err (FInternal "grossUp found no charge that nets base")
    end.

(** The worked example of the source's comment: the net goes down at 434. *)
Example net_not_monotone :
  (fun a => (paystackFee a DEFAULT_PAYSTACK_VAT_RATE,
             a - paystackFee a DEFAULT_PAYSTACK_VAT_RATE)) <$> [433; 434; 435]
  = [(6, 427); (8, 426); (8, 427)].
Proof. vm_compute. reflexivity. Qed.

Example grossUp_50000_naira :
  grossUp (inject_Z 5000000) DEFAULT_PAYSTACK_VAT_RATE GROSS_UP_SEARCH_WINDOW_KOBO
  = Ok (mkGrossUp 5092872 92872).
Proof. vm_compute. reflexivity. Qed.

(** ** The fee is a monotone step function *)

Lemma inject_le a b : a <= b -> (inject_Z a <= inject_Z b)%Q.
Proof. by rewrite <- Zle_Qle. Qed.
Lemma inject_lt a b : a < b -> (inject_Z a < inject_Z b)%Q.
Proof. by rewrite <- Zlt_Qlt. Qed.
Lemma inject_sub a b : (inject_Z (a - b) == inject_Z a - inject_Z b)%Q.
Proof. unfold Z.sub. rewrite inject_Z_plus, inject_Z_opp. reflexivity. Qed.

Lemma round_mul_mono a b (c : Q) :
  (0 <= c)%Q -> a <= b ->
  Math_round (js_mul (inject_Z a) c) <= Math_round (js_mul (inject_Z b) c).
Proof.
  intros Hc H. apply Math_round_mono, fl_mono, Qmult_le_compat_r; [|done].
  by apply inject_le.
Qed.

Lemma rate_pos : (0 <= PAYSTACK_RATE)%Q.
Proof. vm_compute. discriminate. Qed.

Lemma paystackFeeBeforeVat_mono a b :
  a <= b -> paystackFeeBeforeVat a <= paystackFeeBeforeVat b.
Proof.
  intros H. unfold paystackFeeBeforeVat.
  pose proof (round_mul_mono a b _ rate_pos H).
  unfold PAYSTACK_FLAT_WAIVER_THRESHOLD_KOBO, PAYSTACK_FLAT_KOBO.
  repeat case_if; lia.
Qed.

Lemma paystackFee_mono a b v :
  (0 <= v)%Q -> a <= b -> paystackFee a v <= paystackFee b v.
Proof.
  intros Hv H. pose proof (paystackFeeBeforeVat_mono a b H) as H1.
  pose proof (round_mul_mono _ _ v Hv H1). unfold paystackFee. lia.
Qed.

(** The 1.5% is rounded exactly half up, in spite of the two float roundings. *)
Lemma pct_eq a :
  0 <= a < 2 ^ 40 -> Math_round (js_mul (inject_Z a) PAYSTACK_RATE) = (3 * a + 100) / 200.
Proof.
  intros H. rewrite (Money.round_ratio a 3 200); try lia; try reflexivity.
  - rewrite <- (Z.div_mul_cancel_r (3 * a + 100) 200 2) by lia. f_equal; lia.
  - vm_compute. discriminate.
Qed.

Lemma fee_before_vat_eq a :
  0 <= a < 2 ^ 40 ->
  paystackFeeBeforeVat a =
  Z.min ((3 * a + 100) / 200 + (if a <? 250000 then 0 else 10000)) 200000.
Proof. intros H. unfold paystackFeeBeforeVat. by rewrite pct_eq. Qed.

Lemma fee_before_vat_bounds a :
  0 <= a < 2 ^ 40 -> 0 <= paystackFeeBeforeVat a <= 200000.
Proof.
  intros H. rewrite fee_before_vat_eq by done.
  assert (0 <= (3 * a + 100) / 200) by (apply Z.div_pos; lia).
  case_if; lia.
Qed.

(** The VAT part, within a half of the exact product. *)
Lemma vat_bounds b v :
  0 <= b <= 200000 -> (0 <= v <= 1)%Q ->
  (inject_Z b * v - (51 # 100) <= inject_Z (Math_round (js_mul (inject_Z b) v))
   <= inject_Z b * v + (51 # 100))%Q.
Proof.
  intros Hb Hv. unfold js_mul.
  assert (HB : (0 <= inject_Z b <= 200000)%Q)
    by (split; [change 0%Q with (inject_Z 0)|change 200000%Q with (inject_Z 200000)];
        apply inject_le; lia).
  pose proof (Math_round_bounds (fl (inject_Z b * v))) as [H1 H2].
  pose proof (fl_err (inject_Z b * v)) as H3.
  assert (Hbv : (0 <= inject_Z b * v <= 200000)%Q) by (split; nra).
  rewrite (Qabs_pos (inject_Z b * v)) in H3 by lra.
  apply Qabs_Qle_condition in H3 as [H3 H4].
  change (2 ^ (-53))%Q with (1 # 9007199254740992) in H3, H4.
  set (p := (inject_Z b * v)%Q) in *. set (F := fl p) in *. clearbody p F. split; lra.
Qed.

(** [net a = a - fee a]: what is left of a charge. *)
Definition net (a : Z) (v : Q) : Z := a - paystackFee a v.

(** Bounds of the fee by the line it steps along.  [R] is the exact effective
    rate 1.5% * (1 + v). *)
Lemma fee_upper a v :
  0 <= a < 2 ^ 40 -> (0 <= v <= 1)%Q ->
  (inject_Z (paystackFee a v) <=
   ((15 # 1000) * inject_Z a + (if a <? 250000 then 0 else 10000) + (1 # 2)) * (1 + v)
   + (51 # 100))%Q.
Proof.
  intros Ha Hv. pose proof (fee_before_vat_bounds a Ha) as Hb.
  unfold paystackFee. set (b := paystackFeeBeforeVat a) in *.
  pose proof (vat_bounds b v Hb Hv) as [_ Hr].
  assert (HB : (inject_Z b <= (15 # 1000) * inject_Z a + (if a <? 250000 then 0 else 10000) + (1 # 2))%Q).
  { subst b. rewrite fee_before_vat_eq by done.
    set (m := (3 * a + 100) / 200).
    pose proof (Z.mul_div_le (3 * a + 100) 200 ltac:(lia)) as Hm. fold m in Hm.
    apply Qle_trans with (inject_Z (m + (if a <? 250000 then 0 else 10000))).
    { apply inject_le. lia. }
    apply inject_le in Hm. rewrite inject_Z_plus, !inject_Z_mult in Hm.
    change (inject_Z 200) with 200%Q in Hm. change (inject_Z 3) with 3%Q in Hm.
    change (inject_Z 100) with 100%Q in Hm. rewrite inject_Z_plus.
    destruct (a <? 250000); [change (inject_Z 0) with 0%Q|change (inject_Z 10000) with 10000%Q]; lra. }
  rewrite inject_Z_plus.
  set (L := ((15 # 1000) * inject_Z a + _ + _)%Q) in *. clearbody L.
  assert (inject_Z b * (1 + v) <= L * (1 + v))%Q by (apply Qmult_le_compat_r; lra).
  lra.
Qed.

Lemma fee_lower a v :
  0 <= a < 2 ^ 40 -> (0 <= v <= 1)%Q -> paystackFeeBeforeVat a < 200000 ->
  (((15 # 1000) * inject_Z a + (if a <? 250000 then 0 else 10000) - (1 # 2)) * (1 + v)
   - (51 # 100) <= inject_Z (paystackFee a v))%Q.
Proof.
  intros Ha Hv Hcap. pose proof (fee_before_vat_bounds a Ha) as Hb.
  unfold paystackFee. set (b := paystackFeeBeforeVat a) in *.
  pose proof (vat_bounds b v Hb Hv) as [Hr _].
  assert (HB : ((15 # 1000) * inject_Z a + (if a <? 250000 then 0 else 10000) - (1 # 2) <= inject_Z b)%Q).
  { assert (Hbe : b = (3 * a + 100) / 200 + (if a <? 250000 then 0 else 10000)).
    { subst b. rewrite fee_before_vat_eq in * by done. lia. }
    rewrite Hbe. set (m := (3 * a + 100) / 200).
    pose proof (Z.mul_succ_div_gt (3 * a + 100) 200 ltac:(lia)) as Hm. fold m in Hm.
    apply inject_lt in Hm. unfold Z.succ in Hm.
    rewrite !inject_Z_mult, !inject_Z_plus, !inject_Z_mult in Hm.
    change (inject_Z 200) with 200%Q in Hm. change (inject_Z 3) with 3%Q in Hm.
    change (inject_Z 100) with 100%Q in Hm. change (inject_Z 1) with 1%Q in Hm.
    rewrite inject_Z_plus.
    destruct (a <? 250000); [change (inject_Z 0) with 0%Q|change (inject_Z 10000) with 10000%Q]; lra. }
  rewrite inject_Z_plus.
  set (L := ((15 # 1000) * inject_Z a + _ - _)%Q) in *. clearbody L.
  assert (L * (1 + v) <= inject_Z b * (1 + v))%Q by (apply Qmult_le_compat_r; lra).
  lra.
Qed.

(** ** The seed is close to the exact solution of the linear regime *)

Definition exact_rate (v : Q) : Q := (15 # 1000) * (1 + v).

(** [1 - effectiveRate], as the source computes it. *)
Definition seed_denominator (v : Q) : Q :=
  js_sub 1 (js_mul PAYSTACK_RATE (js_add 1 v)).

Lemma abs_le x y : (Qabs x <= y)%Q <-> (- y <= x /\ x <= y)%Q.
Proof. apply Qabs_Qle_condition. Qed.

(** A rounding of a number of known magnitude. *)
Lemma fl_abs_err x M :
  (Qabs x <= M)%Q -> (Qabs (fl x - x) <= M * (1 # 9007199254740992))%Q.
Proof.
  intros H. eapply Qle_trans; [apply fl_err|].
  change (2 ^ (-53))%Q with (1 # 9007199254740992). apply Qmult_le_compat_r; [done|lra].
Qed.

Lemma withVat_bounds v :
  (0 <= v <= 1)%Q -> (Qabs (js_add 1 v - (1 + v)) <= 1 # 1000000000000000)%Q.
Proof.
  intros Hv. unfold js_add. eapply Qle_trans; [apply (fl_abs_err _ 2)|].
  - apply abs_le. split; lra.
  - vm_compute. discriminate.
Qed.

Lemma seed_denominator_bounds v :
  (0 <= v <= 1)%Q ->
  (Qabs (seed_denominator v - (1 - exact_rate v)) <= 1 # 1000000000000000)%Q.
Proof.
  intros Hv. unfold seed_denominator, js_sub, js_mul, exact_rate.
  pose proof (withVat_bounds v Hv) as Hw. apply abs_le in Hw as [Hw1 Hw2].
  set (w := js_add 1 v) in *.
  assert (Hc : (Qabs (PAYSTACK_RATE - (15 # 1000)) <= 1 # 1000000000000000000)%Q)
    by (vm_compute; discriminate).
  apply abs_le in Hc as [Hc1 Hc2]. set (c := PAYSTACK_RATE) in *.
  assert (Hcw : (Qabs (c * w) <= 1 # 10)%Q) by (apply abs_le; split; nra).
  pose proof (fl_abs_err _ _ Hcw) as He. apply abs_le in He as [He1 He2].
  set (e := fl (c * w)) in *.
  assert (H1e : (Qabs (1 - e) <= 1)%Q) by (apply abs_le in Hcw; apply abs_le; split; nra).
  pose proof (fl_abs_err _ _ H1e) as Hd. apply abs_le in Hd as [Hd1 Hd2].
  set (d := fl (1 - e)) in *. clearbody w c e d. apply abs_le. split; nra.
Qed.

Lemma seed_quotient_bounds X v :
  (0 <= X <= 70000000000)%Q -> (0 <= v <= 1)%Q ->
  (Qabs (js_div X (seed_denominator v) * (1 - exact_rate v) - X) <= 1 # 200)%Q.
Proof.
  intros HX Hv. unfold js_div.
  pose proof (seed_denominator_bounds v Hv) as HD. apply abs_le in HD as [HD1 HD2].
  set (D := seed_denominator v) in *.
  assert (HR : (15 # 1000 <= exact_rate v <= 30 # 1000)%Q) by (unfold exact_rate; split; lra).
  set (R := exact_rate v) in *. clearbody R D.
  assert (HD0 : (9 # 10 <= D <= 1)%Q) by (split; lra).
  set (y := (X / D)%Q). assert (Hy : (y * D == X)%Q) by (unfold y; field; lra).
  assert (Hy0 : (0 <= y <= 80000000000)%Q).
  { split; [apply Qle_shift_div_l|apply Qle_shift_div_r]; lra. }
  assert (Hya : (Qabs y <= 80000000000)%Q) by (apply abs_le; split; lra).
  pose proof (fl_abs_err _ _ Hya) as Hs. apply abs_le in Hs as [Hs1 Hs2].
  set (s := fl y) in *. clearbody s y. apply abs_le. split; nra.
Qed.

(** The grossed-up quantity of a regime: [ceil (X / D)], where [X] is within
    1/200 of the exact [x]. *)
Lemma seed_ceil_bounds X (x v : Q) :
  (0 <= X <= 70000000000)%Q -> (Qabs (X - x) <= 1 # 200)%Q -> (0 <= v <= 1)%Q ->
  let s := inject_Z (Math_ceil (js_div X (seed_denominator v))) in
  (x - (1 # 100) <= s * (1 - exact_rate v) /\ (s - 1) * (1 - exact_rate v) <= x + (1 # 100))%Q.
Proof.
  intros HX Hx Hv. pose proof (seed_quotient_bounds X v HX Hv) as H.
  apply abs_le in H as [H1 H2]. apply abs_le in Hx as [Hx1 Hx2].
  pose proof (Math_ceil_spec (js_div X (seed_denominator v))) as [H3 H4].
  assert (HR : (15 # 1000 <= exact_rate v <= 30 # 1000)%Q) by (unfold exact_rate; split; lra).
  set (R := exact_rate v) in *. set (q := js_div X _) in *.
  set (s := inject_Z (Math_ceil q)) in *. clearbody R q s. cbv zeta.
  assert (q * (1 - R) <= s * (1 - R))%Q by (apply Qmult_le_compat_r; lra).
  assert ((s - 1) * (1 - R) <= q * (1 - R))%Q by (apply Qmult_le_compat_r; lra).
  split; lra.
Qed.

Lemma seed2_numerator base v :
  0 < base <= 2 ^ 35 -> (0 <= v <= 1)%Q ->
  let X := js_add (inject_Z base) (js_mul (inject_Z PAYSTACK_FLAT_KOBO) (js_add 1 v)) in
  (0 <= X <= 70000000000 /\ Qabs (X - (inject_Z base + 10000 * (1 + v))) <= 1 # 200)%Q.
Proof.
  intros Hb Hv. cbv zeta. unfold js_mul, PAYSTACK_FLAT_KOBO.
  change (inject_Z 10000) with 10000%Q.
  pose proof (withVat_bounds v Hv) as Hw. apply abs_le in Hw as [Hw1 Hw2].
  set (w := js_add 1 v) in *.
  assert (H1 : (Qabs (10000 * w) <= 30000)%Q) by (apply abs_le; split; lra).
  pose proof (fl_abs_err _ _ H1) as H2. apply abs_le in H2 as [H2 H3].
  set (f := fl (10000 * w)) in *. unfold js_add.
  assert (HB : (0 <= inject_Z base <= 34359738368)%Q).
  { split; [change 0%Q with (inject_Z 0)|change 34359738368%Q with (inject_Z (2 ^ 35))];
      apply inject_le; lia. }
  set (B := inject_Z base) in *.
  assert (H4 : (Qabs (B + f) <= 40000000000)%Q) by (apply abs_le; split; lra).
  pose proof (fl_abs_err _ _ H4) as H5. apply abs_le in H5 as [H5 H6].
  set (X := fl (B + f)) in *. clearbody w f X B.
  split; [split; lra|]. apply abs_le. split; lra.
Qed.

(** ** The window brackets the base *)

Lemma net_upper_line a v :
  0 <= a < 2 ^ 40 -> (0 <= v <= 1)%Q -> paystackFeeBeforeVat a < 200000 ->
  (inject_Z (net a v) <= inject_Z a * (1 - exact_rate v)
     - (if a <? 250000 then 0 else 10000) * (1 + v) + (152 # 100))%Q.
Proof.
  intros Ha Hv Hc. pose proof (fee_lower a v Ha Hv Hc) as H.
  unfold net, exact_rate. rewrite inject_sub.
  set (F := inject_Z (paystackFee a v)) in *. set (A := inject_Z a) in *.
  clearbody F A. destruct (a <? 250000); nra.
Qed.

Lemma net_lower_line a v :
  0 <= a < 2 ^ 40 -> (0 <= v <= 1)%Q ->
  (inject_Z a * (1 - exact_rate v)
     - (if a <? 250000 then 0 else 10000) * (1 + v) - (152 # 100)
   <= inject_Z (net a v))%Q.
Proof.
  intros Ha Hv. pose proof (fee_upper a v Ha Hv) as H.
  unfold net, exact_rate. rewrite inject_sub.
  set (F := inject_Z (paystackFee a v)) in *. set (A := inject_Z a) in *.
  clearbody F A. destruct (a <? 250000); nra.
Qed.

Definition bracketed (base s : Z) (v : Q) : Prop :=
  exists lo hi, Z.max 1 (s - 32) <= lo /\ lo <= hi /\ hi <= s + 32 /\
    net lo v <= base <= net hi v.

Lemma inject_le_inv a b : (inject_Z a <= inject_Z b)%Q -> a <= b.
Proof. by rewrite <- Zle_Qle. Qed.

Lemma inject_le_lt_inv a b : (inject_Z a < inject_Z b + 1)%Q -> a <= b.
Proof.
  intros H. apply Z.lt_succ_r. rewrite Zlt_Qlt. unfold Z.succ.
  rewrite inject_Z_plus. exact H.
Qed.

Lemma net_one v : (0 <= v <= 1)%Q -> net 1 v = 1.
Proof.
  intros Hv. unfold net, paystackFee. change (paystackFeeBeforeVat 1) with 0.
  unfold js_mul. rewrite fl_of_zero by (change (inject_Z 0) with 0%Q; ring). reflexivity.
Qed.

(** What the seed's accuracy amounts to, as integers' rationals: [s] solves
    [s (1 - R) = x] up to one unit. *)
Definition seed_close (x : Q) (s : Z) (v : Q) : Prop :=
  (x - (1 # 100) <= inject_Z s * (1 - exact_rate v) /\
   (inject_Z s - 1) * (1 - exact_rate v) <= x + (1 # 100))%Q.

Lemma rate_range v : (0 <= v <= 1)%Q -> (15 # 1000 <= exact_rate v <= 30 # 1000)%Q.
Proof. intros. unfold exact_rate. split; lra. Qed.

Lemma bracket_region1 base s v :
  0 < base -> (0 <= v <= 1)%Q -> seed_close (inject_Z base) s v -> s < 250000 ->
  bracketed base s v.
Proof.
  intros Hb Hv [H1 H2] Hs. pose proof (rate_range v Hv) as HR.
  assert (HB : (1 <= inject_Z base)%Q) by (change 1%Q with (inject_Z 1); apply inject_le; lia).
  assert (Hs1 : 1 <= s).
  { apply inject_le_inv. change (inject_Z 1) with 1%Q. apply Qnot_lt_le. intros Hc.
    assert (s <= 0) as Hs0%inject_le by (apply inject_le_lt_inv; change (inject_Z 0 + 1)%Q with 1%Q; exact Hc).
    change (inject_Z 0) with 0%Q in Hs0. nra. }
  (* the upper end *)
  assert (Hhi : exists hi, s <= hi <= 249999 /\ hi <= s + 2 /\ base <= net hi v).
  { destruct (Z_le_gt_dec (s + 2) 249999) as [Hle|Hgt].
    - exists (s + 2). split; [lia|]. split; [lia|]. apply inject_le_inv.
      pose proof (net_lower_line (s + 2) v ltac:(lia) Hv) as Hn.
      rewrite (proj2 (Z.ltb_lt (s + 2) 250000)) in Hn by lia.
      rewrite inject_Z_plus in Hn. change (inject_Z 2) with 2%Q in Hn.
      set (R := exact_rate v) in *. nra.
    - exists 249999. split; [lia|]. split; [lia|].
      unfold net, paystackFee. change (paystackFeeBeforeVat 249999) with 3750.
      pose proof (vat_bounds 3750 v ltac:(lia) Hv) as [_ Hr].
      set (r := Math_round _) in *.
      assert (Hs2 : (inject_Z s <= 249999)%Q)
        by (change 249999%Q with (inject_Z 249999); apply inject_le; lia).
      apply inject_le_lt_inv. rewrite inject_sub, inject_Z_plus.
      change (inject_Z 249999) with 249999%Q. change (inject_Z 3750) with 3750%Q in *.
      assert (inject_Z s * (1 - exact_rate v) <= 249999 * (1 - exact_rate v))%Q
        by (apply Qmult_le_compat_r; lra).
      unfold exact_rate in *. lra. }
  destruct Hhi as (hi & Hh1 & Hh2 & Hh3).
  destruct (Z_le_gt_dec s 33) as [Hsmall|Hbig].
  - exists 1, hi. rewrite net_one by done. lia.
  - exists (s - 32), hi. split; [lia|]. split; [lia|]. split; [lia|]. split; [|done].
    apply inject_le_inv.
    assert (Hcap : paystackFeeBeforeVat (s - 32) < 200000).
    { rewrite fee_before_vat_eq by lia. rewrite (proj2 (Z.ltb_lt (s - 32) 250000)) by lia.
      assert ((3 * (s - 32) + 100) / 200 < 3751) by (apply Z.div_lt_upper_bound; lia). lia. }
    pose proof (net_upper_line (s - 32) v ltac:(lia) Hv Hcap) as Hn.
    rewrite (proj2 (Z.ltb_lt (s - 32) 250000)) in Hn by lia.
    rewrite inject_sub in Hn. change (inject_Z 32) with 32%Q in Hn.
    set (R := exact_rate v) in *. nra.
Qed.

Lemma bracket_region2 base s1 s v :
  (0 <= v <= 1)%Q -> seed_close (inject_Z base) s1 v -> 250000 <= s1 ->
  seed_close (inject_Z base + 10000 * (1 + v)) s v -> s < 2 ^ 39 ->
  paystackFeeBeforeVat s < 200000 -> bracketed base s v.
Proof.
  intros Hv [_ H1] Hs1 [H2 H3] Hsb Hcap. pose proof (rate_range v Hv) as HR.
  apply inject_le in Hs1. change (inject_Z 250000) with 250000%Q in Hs1.
  assert (Hs : 250032 <= s).
  { apply inject_le_lt_inv. change (inject_Z 250032) with 250032%Q.
    set (R := exact_rate v) in *. nra. }
  exists (s - 32), (s + 2). split; [lia|]. split; [lia|]. split; [lia|]. split; apply inject_le_inv.
  - assert (Hc2 : paystackFeeBeforeVat (s - 32) < 200000).
    { pose proof (paystackFeeBeforeVat_mono (s - 32) s ltac:(lia)). lia. }
    pose proof (net_upper_line (s - 32) v ltac:(lia) Hv Hc2) as Hn.
    rewrite (proj2 (Z.ltb_ge (s - 32) 250000)) in Hn by lia.
    rewrite inject_sub in Hn. change (inject_Z 32) with 32%Q in Hn.
    set (R := exact_rate v) in *. nra.
  - pose proof (net_lower_line (s + 2) v ltac:(lia) Hv) as Hn.
    rewrite (proj2 (Z.ltb_ge (s + 2) 250000)) in Hn by lia.
    rewrite inject_Z_plus in Hn. change (inject_Z 2) with 2%Q in Hn.
    set (R := exact_rate v) in *. nra.
Qed.

(** The fee on a charge whose processing fee is capped. *)
Definition capped_fee (v : Q) : Z :=
  PAYSTACK_FEE_CAP_KOBO + Math_round (js_mul (inject_Z PAYSTACK_FEE_CAP_KOBO) v).

Lemma bracket_region3 base s2 v :
  0 < base <= 2 ^ 35 -> (0 <= v <= 1)%Q ->
  seed_close (inject_Z base + 10000 * (1 + v)) s2 v ->
  250000 <= s2 < 2 ^ 39 -> 200000 <= paystackFeeBeforeVat s2 ->
  bracketed base (base + capped_fee v) v.
Proof.
  intros Hb Hv [_ H1] Hs2 Hcap.
  pose proof (rate_range v Hv) as HR.
  pose proof (vat_bounds 200000 v ltac:(lia) Hv) as [Hr1 Hr2].
  change (inject_Z 200000) with 200000%Q in Hr1, Hr2.
  assert (Hs2' : 12666634 <= s2).
  { rewrite fee_before_vat_eq in Hcap by lia.
    rewrite (proj2 (Z.ltb_ge s2 250000)) in Hcap by lia.
    pose proof (Z.mul_div_le (3 * s2 + 100) 200 ltac:(lia)). lia. }
  unfold capped_fee, PAYSTACK_FEE_CAP_KOBO. change (inject_Z 200000) with 200000%Q.
  set (r := Math_round _) in *. set (s := base + (200000 + r)).
  assert (Hr0 : 0 <= r <= 200000).
  { split; apply inject_le_lt_inv; change (inject_Z 200000) with 200000%Q;
      change (inject_Z 0) with 0%Q; lra. }
  assert (Hs : 12666631 <= s).
  { apply inject_le in Hs2'. change (inject_Z 12666634) with 12666634%Q in Hs2'.
    apply inject_le_lt_inv. unfold s. rewrite !inject_Z_plus.
    change (inject_Z 12666631) with 12666631%Q. change (inject_Z 200000) with 200000%Q.
    unfold exact_rate in *. nra. }
  pose proof (fee_before_vat_bounds s ltac:(lia)) as Hbs.
  assert (Hfee : paystackFee s v <= 200000 + r).
  { pose proof (round_mul_mono (paystackFeeBeforeVat s) 200000 v ltac:(lra) ltac:(lia)).
    unfold paystackFee. subst r. change 200000%Q with (inject_Z 200000). lia. }
  exists (s - 32), s. split; [lia|]. split; [lia|]. split; [lia|].
  split; [|unfold net; lia].
  unfold net. assert (paystackFee (s - 32) v >= 200000 + r - 32); [|lia].
  set (b := paystackFeeBeforeVat (s - 32)).
  assert (Hb2 : 199990 <= b <= 200000).
  { pose proof (fee_before_vat_bounds (s - 32) ltac:(lia)) as Hbb. split; [|lia].
    subst b. rewrite fee_before_vat_eq by lia.
    rewrite (proj2 (Z.ltb_ge (s - 32) 250000)) by lia.
    assert (189995 <= (3 * (s - 32) + 100) / 200) by (apply Z.div_le_lower_bound; lia).
    lia. }
  pose proof (vat_bounds b v ltac:(lia) Hv) as [Hr3 _].
  unfold paystackFee. fold b. set (rb := Math_round (js_mul (inject_Z b) v)) in *.
  assert (r - 12 <= rb); [|lia].
  destruct Hb2 as [Hb2 _]. apply inject_le in Hb2.
  change (inject_Z 199990) with 199990%Q in Hb2.
  apply inject_le_lt_inv. rewrite inject_sub. change (inject_Z 12) with 12%Q.
  assert (199990 * v <= inject_Z b * v)%Q by (apply Qmult_le_compat_r; lra). lra.
Qed.

(** ** Discrete intermediate values *)

(** One more kobo charged never nets more than one more kobo. *)
Lemma net_step a v : (0 <= v)%Q -> net (a + 1) v <= net a v + 1.
Proof.
  intros Hv. unfold net. pose proof (paystackFee_mono a (a + 1) v Hv ltac:(lia)). lia.
Qed.

Lemma net_hits base lo hi v :
  (0 <= v)%Q -> lo <= hi -> net lo v <= base <= net hi v ->
  exists a, lo <= a <= hi /\ net a v = base.
Proof.
  intros Hv Hle. revert lo Hle.
  assert (H : forall n : nat, forall lo, hi = lo + Z.of_nat n -> net lo v <= base <= net hi v ->
            exists a, lo <= a <= hi /\ net a v = base).
  { induction n as [|n IH]; intros lo Hn [H1 H2].
    - exists lo. split; [lia|]. replace hi with lo in H2 by lia. lia.
    - destruct (Z.eq_dec (net lo v) base) as [He|Hne]; [exists lo; split; [lia|done]|].
      pose proof (net_step lo v Hv).
      destruct (IH (lo + 1)) as (a & Ha1 & Ha2); [lia|lia|].
      exists a. split; [lia|done]. }
  intros lo Hle. apply (H (Z.to_nat (hi - lo))). lia.
Qed.

(** ** The scan returns the smallest exact charge of its window *)

Lemma grossUp_scan_hits fuel from base v surplus a :
  from <= a < from + Z.of_nat fuel -> net a v = base ->
  exists a', from <= a' <= a /\ net a' v = base /\
    (forall b, from <= b < a' -> net b v <> base) /\
    grossUp_scan fuel from base v surplus = inl (mkGrossUp a' (paystackFee a' v)).
Proof.
  revert from surplus. induction fuel as [|fuel IH]; intros from surplus Ha Hnet; [lia|].
  simpl. fold (net from v). destruct (net from v =? base) eqn:E; to_prop.
  - exists from. split; [lia|]. split; [done|]. split; [intros; lia|done].
  - assert (from <> a) by congruence.
    destruct (IH (from + 1) (if (base <? net from v) && (surplus <? 0) then from else surplus))
      as (a' & H1 & H2 & H3 & H4); [lia|done|].
    exists a'. split; [lia|]. split; [done|]. split; [|done].
    intros b Hb. destruct (Z.eq_dec b from) as [->|]; [done|]. apply H3. lia.
Qed.

(** A hit of the scan nets exactly the base, whatever the window. *)
Lemma grossUp_scan_exact fuel from base v surplus g :
  grossUp_scan fuel from base v surplus = inl g ->
  from <= amountCharged g /\ gu_paystackFee g = paystackFee (amountCharged g) v /\
  amountCharged g - gu_paystackFee g = base.
Proof.
  revert from surplus. induction fuel as [|fuel IH]; intros from surplus H; simpl in H; [done|].
  destruct (from - paystackFee from v =? base) eqn:E; to_prop.
  - injection H as <-. simpl. split; [lia|]. split; [done|done].
  - apply IH in H. lia.
Qed.

(** A surplus kept by the scan over-nets. *)
Lemma grossUp_scan_surplus fuel from base v surplus s :
  grossUp_scan fuel from base v surplus = inr s ->
  s = surplus \/ (from <= s /\ base < net s v).
Proof.
  revert from surplus. induction fuel as [|fuel IH]; intros from surplus H; simpl in H.
  - injection H as ->. by left.
  - fold (net from v) in H. destruct (net from v =? base) eqn:E; to_prop; [done|].
    destruct ((base <? net from v) && (surplus <? 0)) eqn:E2; apply IH in H; to_prop.
    + destruct H as [->|H]; right; lia.
    + destruct H as [->|H]; [by left|right; lia].
Qed.

(** ** The seed's window always brackets the base *)

Lemma seed_bracketed base v :
  0 < base <= 2 ^ 35 -> (0 <= v <= 1)%Q -> bracketed base (grossUp_seed base v) v.
Proof.
  intros Hb Hv. unfold grossUp_seed. fold (seed_denominator v).
  assert (HB : (0 <= inject_Z base <= 34359738368)%Q).
  { split; [change 0%Q with (inject_Z 0)|change 34359738368%Q with (inject_Z (2 ^ 35))];
      apply inject_le; lia. }
  assert (Hc1 : seed_close (inject_Z base) (Math_ceil (js_div (inject_Z base) (seed_denominator v))) v).
  { apply seed_ceil_bounds; [lra| |done]. unfold Qminus. rewrite Qplus_opp_r.
    vm_compute. discriminate. }
  set (s1 := Math_ceil (js_div (inject_Z base) _)) in *.
  destruct (seed2_numerator base v Hb Hv) as [HX1 HX2].
  pose proof (seed_ceil_bounds _ _ v HX1 HX2 Hv) as Hc2. cbv zeta in Hc2.
  set (s2 := Math_ceil (js_div (js_add _ _) _)) in *.
  fold (seed_close (inject_Z base + 10000 * (1 + v)) s2 v) in Hc2.
  assert (Hs2 : s2 < 2 ^ 39).
  { destruct Hc2 as [_ Hc2]. pose proof (rate_range v Hv) as HR.
    rewrite Zlt_Qlt. change (inject_Z (2 ^ 39)) with 549755813888%Q.
    set (R := exact_rate v) in *. nra. }
  unfold PAYSTACK_FLAT_WAIVER_THRESHOLD_KOBO, PAYSTACK_FEE_CAP_KOBO.
  destruct (250000 <=? s1) eqn:E1; to_prop.
  - destruct (200000 <=? paystackFeeBeforeVat s2) eqn:E2; to_prop.
    + assert (Hs2' : 250000 <= s2).
      { destruct Hc1 as [_ Hc1]. destruct Hc2 as [Hc2 _]. pose proof (rate_range v Hv) as HR.
        apply inject_le in E1. change (inject_Z 250000) with 250000%Q in E1.
        apply inject_le_lt_inv. change (inject_Z 250000) with 250000%Q.
        set (R := exact_rate v) in *. nra. }
      rewrite <- Z.add_assoc. by apply (bracket_region3 base s2).
    + by apply (bracket_region2 base s1).
  - apply bracket_region1; [lia|done|done|lia].
Qed.

Lemma grossUp_total base v :
  0 < base <= 2 ^ 35 -> (0 <= v <= 1)%Q ->
  exists a, grossUp (inject_Z base) v GROSS_UP_SEARCH_WINDOW_KOBO
            = Ok (mkGrossUp a (paystackFee a v)) /\
    a - paystackFee a v = base /\
    (forall b, Z.max 1 (grossUp_seed base v - 32) <= b < a -> b - paystackFee b v <> base).
Proof.
  intros Hb Hv. destruct (seed_bracketed base v Hb Hv) as (lo & hi & H1 & H2 & H3 & H4).
  destruct (net_hits base lo hi v ltac:(lra) H2 H4) as (a & Ha & Hnet).
  unfold grossUp, js_isInteger. simpl Qnum. simpl Qden. rewrite Z.mod_1_r. simpl negb.
  assert (Hq : Qle_bool (inject_Z base) 0 = false).
  { apply not_true_iff_false. rewrite Qle_bool_iff. change 0%Q with (inject_Z 0).
    rewrite <- Zle_Qle. lia. }
  rewrite Hq. simpl orb. rewrite Qfloor_Z.
  unfold GROSS_UP_SEARCH_WINDOW_KOBO. set (s := grossUp_seed base v) in *.
  destruct (grossUp_scan_hits (Z.to_nat (s + 32 - Z.max 1 (s - 32) + 1)) (Z.max 1 (s - 32))
              base v (-1) a) as (a' & Ha1 & Ha2 & Ha3 & Ha4); [lia|done|].
  rewrite Ha4. exists a'. split; [done|]. split; [exact Ha2|]. exact Ha3.
Qed.

(** ** Properties *)

(** C36: for every base the back end can store (up to 2^35 kobo) and every VAT
    rate in [0, 1], [grossUp] with its real window returns (neither the surplus
    branch nor the throw is reached), the charge nets the base exactly to the
    kobo, and no smaller charge of the window does. *)
Theorem grossUp_exact base v :
  0 < base <= 2 ^ 35 -> (0 <= v <= 1)%Q ->
  exists g, grossUp (inject_Z base) v GROSS_UP_SEARCH_WINDOW_KOBO = Ok g /\
    gu_paystackFee g = paystackFee (amountCharged g) v /\
    amountCharged g - gu_paystackFee g = base /\
    (forall b, Z.max 1 (grossUp_seed base v - GROSS_UP_SEARCH_WINDOW_KOBO) <= b < amountCharged g ->
       b - paystackFee b v <> base).
Proof.
  intros Hb Hv. destruct (grossUp_total base v Hb Hv) as (a & H1 & H2 & H3).
  exists (mkGrossUp a (paystackFee a v)). by repeat split.
Qed.

Example grossUp_exact_witness :
  exists g, grossUp (inject_Z 3750000) DEFAULT_PAYSTACK_VAT_RATE GROSS_UP_SEARCH_WINDOW_KOBO = Ok g /\
    gu_paystackFee g = paystackFee (amountCharged g) DEFAULT_PAYSTACK_VAT_RATE /\
    amountCharged g - gu_paystackFee g = 3750000 /\
    (forall b, Z.max 1 (grossUp_seed 3750000 DEFAULT_PAYSTACK_VAT_RATE - GROSS_UP_SEARCH_WINDOW_KOBO) <= b < amountCharged g ->
       b - paystackFee b DEFAULT_PAYSTACK_VAT_RATE <> 3750000).
Proof.
  apply (grossUp_exact 3750000); [lia|].
  split; apply Qle_bool_imp_le; vm_compute; reflexivity.
Defined.

(** Whatever the window and the rate, a [grossUp] that returns never
    under-nets: the charge less its fee covers the base, and a base that is not
    a positive integer is refused. *)
Theorem grossUp_never_short base v w g :
  grossUp base v w = Ok g ->
  js_isInteger base = true /\ (0 < base)%Q /\
  gu_paystackFee g = paystackFee (amountCharged g) v /\
  Qfloor base <= amountCharged g - gu_paystackFee g.
Proof.
  unfold grossUp. intros H. destruct (negb (js_isInteger base) || Qle_bool base 0) eqn:E; to_prop; [done|].
  destruct E as [E1 E2]. split; [done|]. split.
  { apply Qnot_le_lt. intros Hc. apply Qle_bool_iff in Hc. congruence. }
  destruct (grossUp_scan _ _ _ _ _) as [g'|s] eqn:Es.
  - injection H as ->. apply grossUp_scan_exact in Es. lia.
  - case_if_in H; [|done]. injection H as <-. simpl. split; [done|].
    apply grossUp_scan_surplus in Es as [->|[_ Es]]; [done|]. unfold net in Es. lia.
Qed.

Example grossUp_never_short_witness :
  Qfloor (inject_Z 427) <= 433 - 6.
Proof.
  apply (grossUp_never_short (inject_Z 427) DEFAULT_PAYSTACK_VAT_RATE 32 (mkGrossUp 433 6)).
  vm_compute. reflexivity.
Defined.

(** The processing fee is exactly the documented schedule: 1.5% rounded half
    up, plus the flat fee from the waiver threshold on, capped; the double
    arithmetic of the source introduces no error. *)
Theorem paystackFeeBeforeVat_schedule a :
  0 <= a < 2 ^ 40 ->
  paystackFeeBeforeVat a =
  Z.min ((3 * a + 100) / 200 + (if a <? PAYSTACK_FLAT_WAIVER_THRESHOLD_KOBO then 0 else PAYSTACK_FLAT_KOBO))
        PAYSTACK_FEE_CAP_KOBO.
Proof. apply fee_before_vat_eq. Qed.

Example paystackFeeBeforeVat_schedule_witness : paystackFeeBeforeVat 250100 = 13752.
Proof. rewrite (paystackFeeBeforeVat_schedule 250100) by lia. reflexivity. Defined.

(** Whatever the environment variable holds, the VAT rate used is in [0, 1]. *)
Theorem paystackVatRate_range Number_of raw :
  (0 <= paystackVatRate Number_of raw <= 1)%Q.
Proof.
  assert (Hd : (0 <= DEFAULT_PAYSTACK_VAT_RATE <= 1)%Q) by (split; vm_compute; discriminate).
  unfold paystackVatRate. destruct raw as [s|]; [|done]. case_if; [done|].
  destruct (Number_of s) as [q|]; [|done]. case_if; [done|].
  split; apply Qle_bool_imp_le; destruct Heqb0; done.
Qed.
