(* ===== verification/Dates.v ===== *)
(** * JavaScript dates

    A [Date] is its time value, in milliseconds since the epoch.  The calendar
    functions follow ECMAScript (DayFromYear, YearFromTime, MonthFromTime,
    MakeDay).  Local time is UTC, the zone the servers run in, so no daylight
    saving shift exists.  Invalid dates are [None] where the source tests for
    them. *)

From S2P Require Import Prelude.

Definition DAY_MS : Z := 24 * 60 * 60 * 1000.

Definition Day (t : Z) : Z := t / DAY_MS.
Definition TimeInDay (t : Z) : Z := t mod DAY_MS.

Definition DayFromYear (y : Z) : Z :=
  365 * (y - 1970) + (y - 1969) / 4 - (y - 1901) / 100 + (y - 1601) / 400.

Definition InLeapYear (y : Z) : bool := DayFromYear (y + 1) - DayFromYear y =? 366.
Definition leap (y : Z) : Z := if InLeapYear y then 1 else 0.

Definition YearFromDay (d : Z) : Z :=
  let y := 1970 + 400 * d / 146097 in
  if DayFromYear (y + 1) <=? d then y + 1
  else if d <? DayFromYear y then y - 1 else y.

(** Days of the year before month [m] (0-based, 12 for the year's length). *)
Definition MonthStart (y m : Z) : Z :=
  if m <=? 0 then 0 else if m =? 1 then 31
  else (if m =? 2 then 59 else if m =? 3 then 90 else if m =? 4 then 120
        else if m =? 5 then 151 else if m =? 6 then 181 else if m =? 7 then 212
        else if m =? 8 then 243 else if m =? 9 then 273 else if m =? 10 then 304
        else if m =? 11 then 334 else 365) + leap y.

Definition MonthFromYearDay (y d : Z) : Z :=
  if d <? 31 then 0 else if d <? 59 + leap y then 1 else if d <? 90 + leap y then 2
  else if d <? 120 + leap y then 3 else if d <? 151 + leap y then 4
  else if d <? 181 + leap y then 5 else if d <? 212 + leap y then 6
  else if d <? 243 + leap y then 7 else if d <? 273 + leap y then 8
  else if d <? 304 + leap y then 9 else if d <? 334 + leap y then 10 else 11.

Definition getFullYear (t : Z) : Z := YearFromDay (Day t).
Definition getMonth (t : Z) : Z :=
  let y := getFullYear t in MonthFromYearDay y (Day t - DayFromYear y).
Definition getDate (t : Z) : Z :=
  let y := getFullYear t in
  Day t - DayFromYear y - MonthStart y (MonthFromYearDay y (Day t - DayFromYear y)) + 1.

(** MakeDay: months outside 0..11 carry into the year, days run on. *)
Definition MakeDay (year month date : Z) : Z :=
  DayFromYear (year + month / 12) + MonthStart (year + month / 12) (month mod 12) + date - 1.
Definition MakeDate (day time : Z) : Z := day * DAY_MS + time.

Definition setDate (t date : Z) : Z :=
  MakeDate (MakeDay (getFullYear t) (getMonth t) date) (TimeInDay t).
Definition setMonth (t month : Z) : Z :=
  MakeDate (MakeDay (getFullYear t) month (getDate t)) (TimeInDay t).
(** [new Date(year, month, date)]. *)
Definition new_Date (year month date : Z) : Z := MakeDate (MakeDay year month date) 0.

Definition DaysInMonth (y m : Z) : Z := MonthStart y (m + 1) - MonthStart y m.

(** 2026-08-03T10:30:00Z. *)
Example date_fields :
  (fun t => (getFullYear t, getMonth t, getDate t)) 1785753000000 = (2026, 7, 3).
Proof. vm_compute. reflexivity. Qed.

(** ** Years *)

Lemma DayFromYear_mono a b : a <= b -> DayFromYear a + 365 * (b - a) <= DayFromYear b.
Proof. unfold DayFromYear. intros H. Z.to_euclidean_division_equations. lia. Qed.

Lemma year_length y : DayFromYear (y + 1) = DayFromYear y + 365 + leap y.
Proof.
  unfold leap, InLeapYear. case_if; [lia|].
  unfold DayFromYear in *. Z.to_euclidean_division_equations. lia.
Qed.

Lemma YearFromDay_spec d :
  DayFromYear (YearFromDay d) <= d < DayFromYear (YearFromDay d + 1).
Proof.
  unfold YearFromDay. set (y := 1970 + 400 * d / 146097).
  assert (H : DayFromYear (y - 1) <= d < DayFromYear (y + 2)).
  { subst y. unfold DayFromYear. Z.to_euclidean_division_equations. lia. }
  destruct (DayFromYear (y + 1) <=? d) eqn:E1; to_prop.
  - replace (y + 1 + 1) with (y + 2) by lia. lia.
  - destruct (d <? DayFromYear y) eqn:E2; to_prop; [|lia].
    replace (y - 1 + 1) with y by lia. lia.
Qed.

Lemma YearFromDay_unique d y : DayFromYear y <= d < DayFromYear (y + 1) -> YearFromDay d = y.
Proof.
  intros H. pose proof (YearFromDay_spec d) as H1.
  destruct (Z.lt_trichotomy (YearFromDay d) y) as [Hc|[Hc|Hc]]; [|done|].
  - pose proof (DayFromYear_mono (YearFromDay d + 1) y ltac:(lia)). lia.
  - pose proof (DayFromYear_mono (y + 1) (YearFromDay d) ltac:(lia)). lia.
Qed.

(** ** Months *)

Lemma leap_range y : 0 <= leap y <= 1.
Proof. unfold leap. case_if; lia. Qed.

Lemma MonthStart_12 y : MonthStart y 12 = 365 + leap y.
Proof. reflexivity. Qed.

Ltac month_cases m :=
  assert (m = 0 \/ m = 1 \/ m = 2 \/ m = 3 \/ m = 4 \/ m = 5 \/ m = 6 \/ m = 7 \/
          m = 8 \/ m = 9 \/ m = 10 \/ m = 11) as [?|[?|[?|[?|[?|[?|[?|[?|[?|[?|[?|?]]]]]]]]]]]
    by lia; subst m.

Lemma MonthStart_year y m : 0 <= m < 12 -> 0 <= MonthStart y m <= 334 + leap y.
Proof. intros H. pose proof (leap_range y). month_cases m; unfold MonthStart; simpl; lia. Qed.

Lemma DaysInMonth_range y m : 0 <= m < 12 -> 28 <= DaysInMonth y m <= 31.
Proof.
  intros H. pose proof (leap_range y). unfold DaysInMonth.
  month_cases m; unfold MonthStart; simpl; lia.
Qed.

Lemma MonthStart_next y m : 0 <= m < 12 -> MonthStart y m + DaysInMonth y m <= 365 + leap y.
Proof.
  intros H. pose proof (leap_range y). unfold DaysInMonth.
  month_cases m; unfold MonthStart; simpl; lia.
Qed.

Lemma MonthFromYearDay_unique y m d :
  0 <= m < 12 -> MonthStart y m <= d < MonthStart y (m + 1) -> MonthFromYearDay y d = m.
Proof.
  intros H. pose proof (leap_range y). unfold MonthFromYearDay.
  month_cases m; unfold MonthStart; simpl; intros Hd; repeat case_if; lia.
Qed.

Lemma MonthFromYearDay_spec y d :
  0 <= d < 365 + leap y ->
  0 <= MonthFromYearDay y d < 12 /\
  MonthStart y (MonthFromYearDay y d) <= d < MonthStart y (MonthFromYearDay y d + 1).
Proof.
  intros H. pose proof (leap_range y). unfold MonthFromYearDay.
  repeat case_if; (split; [lia|]); unfold MonthStart; simpl; lia.
Qed.

(** ** Fields of a constructed date *)

Lemma TimeInDay_range t : 0 <= TimeInDay t < DAY_MS.
Proof. apply Z.mod_pos_bound. reflexivity. Qed.

Lemma Day_MakeDate d time : 0 <= time < DAY_MS -> Day (MakeDate d time) = d.
Proof. intros H. unfold Day, MakeDate. rewrite Z.div_add_l by done. rewrite Z.div_small; lia. Qed.

Lemma TimeInDay_MakeDate d time : 0 <= time < DAY_MS -> TimeInDay (MakeDate d time) = time.
Proof.
  intros H. unfold TimeInDay, MakeDate. rewrite Z.add_comm, Z_mod_plus_full.
  by apply Z.mod_small.
Qed.

Lemma MakeDate_Day t : MakeDate (Day t) (TimeInDay t) = t.
Proof.
  unfold MakeDate, Day, TimeInDay. pose proof (Z.div_mod t DAY_MS ltac:(done)). lia.
Qed.

(** The fields of an in-range day of year [y], month [m]. *)
Lemma date_fields_of y m d time :
  0 <= m < 12 -> 1 <= d <= DaysInMonth y m -> 0 <= time < DAY_MS ->
  let t := MakeDate (DayFromYear y + MonthStart y m + d - 1) time in
  getFullYear t = y /\ getMonth t = m /\ getDate t = d.
Proof.
  intros Hm Hd Ht t. pose proof (MonthStart_year y m Hm). pose proof (MonthStart_next y m Hm).
  assert (Hday : Day t = DayFromYear y + MonthStart y m + d - 1) by (by apply Day_MakeDate).
  assert (Hy : getFullYear t = y).
  { unfold getFullYear. apply YearFromDay_unique. rewrite year_length. lia. }
  assert (Hmm : getMonth t = m).
  { unfold getMonth. rewrite Hy, Hday. apply MonthFromYearDay_unique; [done|].
    unfold DaysInMonth in *. lia. }
  split; [done|]. split; [done|]. unfold getDate. unfold getMonth in Hmm.
  rewrite Hmm, Hy, Hday. lia.
Qed.

(** Every date is the date of its fields. *)
Lemma getDate_spec t :
  0 <= getMonth t < 12 /\ 1 <= getDate t <= DaysInMonth (getFullYear t) (getMonth t) /\
  Day t = DayFromYear (getFullYear t) + MonthStart (getFullYear t) (getMonth t) + getDate t - 1.
Proof.
  pose proof (YearFromDay_spec (Day t)) as H. rewrite year_length in H.
  fold (getFullYear t) in H.
  destruct (MonthFromYearDay_spec (getFullYear t) (Day t - DayFromYear (getFullYear t)))
    as [H1 H2]; [lia|].
  unfold getDate, DaysInMonth. fold (getMonth t). fold (getMonth t) in H1, H2. lia.
Qed.
