(* ===== verification/Schedule.v ===== *)
(** * The installment schedule

    [src/common/installment-schedule.ts]: how far through a plan a parent's
    money has carried them, and when the next slot falls due. *)

From S2P Require Import Prelude JsNumber Money Dates.
From Stdlib Require Import Ascii QArith_base.
#[local] Open Scope Z_scope.

Inductive InstallmentFrequency := WEEKLY | MONTHLY.
#[export] Instance InstallmentFrequency_eq_dec : EqDecision InstallmentFrequency.
Proof. solve_decision. Defined.

(** ** Cadence *)

Definition is_js_space (c : ascii) : bool :=
  let n := Z.of_nat (nat_of_ascii c) in (n =? 32) || ((9 <=? n) && (n <=? 13)).
Fixpoint trim_left (s : string) : string :=
  match s with
  | String c s' => if is_js_space c then trim_left s' else s
  | EmptyString => EmptyString
  end.
Fixpoint trim_right (s : string) : string :=
  match s with
  | String c s' =>
      match trim_right s' with
      | EmptyString => if is_js_space c then EmptyString else String c EmptyString
      | s'' => String c s''
      end
  | EmptyString => EmptyString
  end.
Definition upper_ascii (c : ascii) : ascii :=
  let n := nat_of_ascii c in
  if Nat.leb 97 n && Nat.leb n 122 then ascii_of_nat (n - 32) else c.
Fixpoint toUpperCase (s : string) : string :=
  match s with
  | String c s' => String (upper_ascii c) (toUpperCase s')
  | EmptyString => EmptyString
  end.

Definition normaliseFrequency (frequency : string) : InstallmentFrequency :=
  if String.eqb (toUpperCase (trim_right (trim_left frequency))) "WEEKLY"
  then WEEKLY else MONTHLY.

Definition installmentCountFor (frequency : string) : Z :=
  match normaliseFrequency frequency with
  | WEEKLY => Fees.WEEKLY_INSTALLMENTS
  | MONTHLY => Fees.MONTHLY_INSTALLMENTS
  end.

(** The database enum as the string Prisma returns. *)
Definition freq_string (f : InstallmentFrequency) : string :=
  match f with WEEKLY => "WEEKLY" | MONTHLY => "MONTHLY" end.

Lemma normalise_freq_string f : normaliseFrequency (freq_string f) = f.
Proof. by destruct f. Qed.

Example normalise_sloppy :
  normaliseFrequency " weekly " = WEEKLY /\ normaliseFrequency "fortnightly" = MONTHLY.
Proof. split; reflexivity. Qed.

(** ** Progress *)

Definition cumulativeTarget (planStartBalance totalInstallments n : Z) : Z :=
  if n <=? 0 then 0
  else if totalInstallments <=? n then planStartBalance
  else js_floor_div planStartBalance totalInstallments * n.

Record PlanProgress := mkProgress {
  totalInstallments : Z;
  planStartBalance : Z;
  installmentsPaidKobo : Z;
  scheduledInstallment : Z;
  paidInstallments : Z;
  remainingInstallments : Z;
  nextInstallmentAmount : Z;
  creditTowardNextInstallment : Z;
  settled : bool }.

(** The slots [1 .. total] of the [for] loop. *)
Definition slots (total : Z) : list Z := Z.of_nat <$> seq 1 (Z.to_nat total).

Definition derivePlanProgress (remainingBalance0 installmentsPaidKobo0 : Z)
    (installmentFrequency : string) : PlanProgress :=
  let total := installmentCountFor installmentFrequency in
  let remainingBalance := Z.max 0 (Math_round (inject_Z remainingBalance0)) in
  let paidKobo := Z.max 0 (Math_round (inject_Z installmentsPaidKobo0)) in
  let start := remainingBalance + paidKobo in
  if remainingBalance <=? 0 then
    mkProgress total start paidKobo 0 (if 0 <? start then total else 0) 0 0 0 true
  else
    let target n := cumulativeTarget start total n in
    let paid0 := fold_left
      (fun paid n => let due := target n in
                     if (0 <? due) && (due <=? paidKobo) then n else paid)
      (slots total) 0 in
    let paid := Z.min paid0 (total - 1) in
    let nextDue := Z.max 0 (target (paid + 1) - paidKobo) in
    mkProgress total start paidKobo
      (js_floor_div start total) paid (total - paid)
      (if 0 <? nextDue then Z.min nextDue remainingBalance else remainingBalance)
      (Z.max 0 (paidKobo - target paid)) false.

(** ** Due dates *)

Definition installmentDueDate (termStartDate : Z) (frequency : string) (n : Z) : Z :=
  let due := termStartDate in
  match normaliseFrequency frequency with
  | WEEKLY => setDate due (getDate due + 7 * n)
  | MONTHLY =>
      let targetDay := getDate due in
      let due := setDate due 1 in
      let due := setMonth due (getMonth due + n) in
      let lastDayOfTargetMonth := getDate (new_Date (getFullYear due) (getMonth due + 1) 0) in
      setDate due (Z.min targetDay lastDayOfTargetMonth)
  end.

(** 31 January + 1 month is 28 February, not 3 March. *)
Example due_clamps :
  (fun t => (getFullYear t, getMonth t, getDate t))
    (installmentDueDate (new_Date 2026 0 31) "MONTHLY" 1) = (2026, 1, 28).
Proof. vm_compute. reflexivity. Qed.

Example prepaid_plan :
  let p := derivePlanProgress 7500000 15000000 "MONTHLY" in
  (paidInstallments p, nextInstallmentAmount p, remainingInstallments p) = (2, 7500000, 1).
Proof. vm_compute. reflexivity. Qed.

(** ** Slots covered by money *)

Lemma count_cases f : installmentCountFor f = 12 \/ installmentCountFor f = 3.
Proof. unfold installmentCountFor. destruct (normaliseFrequency f); auto. Qed.

Lemma cumulativeTarget_eq start total n :
  0 <= start < 2 ^ 52 -> 0 < total -> 0 <= n <= total ->
  cumulativeTarget start total n = if total <=? n then start else start / total * n.
Proof.
  intros Hs Ht Hn. unfold cumulativeTarget. rewrite js_floor_div_exact by done.
  destruct (n <=? 0) eqn:E; to_prop; [|done].
  replace n with 0 by lia. case_if; lia.
Qed.

Lemma cumulativeTarget_mono start total a b :
  0 <= start < 2 ^ 52 -> 0 < total -> 0 <= a <= b -> b <= total ->
  cumulativeTarget start total a <= cumulativeTarget start total b.
Proof.
  intros Hs Ht Ha Hb. rewrite !cumulativeTarget_eq by lia.
  pose proof (Z.mul_div_le start total Ht). pose proof (Z.div_pos start total).
  repeat case_if; nia.
Qed.

(** The loop keeps the last slot whose target is met: by induction on the
    number of slots visited. *)
Lemma paid_loop (due : Z -> Z) (paidKobo : Z) (k : nat) :
  let r := fold_left (fun paid n => if (0 <? due n) && (due n <=? paidKobo) then n else paid)
             (Z.of_nat <$> seq 1 k) 0 in
  0 <= r <= Z.of_nat k /\
  (r = 0 \/ (0 < due r <= paidKobo)) /\
  (forall n, r < n <= Z.of_nat k -> due n <= 0 \/ paidKobo < due n).
Proof.
  induction k as [|k IH]; [simpl; repeat split; try lia; auto|].
  cbv zeta in *. replace (S k) with (k + 1)%nat by lia.
  rewrite seq_app, fmap_app, fold_left_app. set (r := fold_left _ _ 0) in *.
  destruct IH as (H1 & H2 & H3). cbn [seq fmap list_fmap fold_left].
  replace (Z.of_nat (1 + k)) with (Z.of_nat k + 1) by lia.
  replace (Z.of_nat (k + 1)) with (Z.of_nat k + 1) by lia.
  destruct ((0 <? due (Z.of_nat k + 1)) && (due (Z.of_nat k + 1) <=? paidKobo)) eqn:E; to_prop.
  - split; [lia|]. split; [right; lia|]. intros n Hn. lia.
  - split; [lia|]. split; [done|]. intros n Hn.
    destruct (Z.eq_dec n (Z.of_nat k + 1)) as [->|]; [lia|]. apply H3. lia.
Qed.

(** Slots covered by [paid] kobo of a plan that opened at [start]. *)
Definition slots_covered (start total paid : Z) : Z :=
  let slot := start / total in if slot <=? 0 then 0 else Z.min (total - 1) (paid / slot).

Section OpenPlan.
Context (start total paid : Z).
Context (Ht : 0 < total) (Hp : 0 <= paid < start) (Hb : start < 2 ^ 52).

Lemma slots_covered_zero : start / total <= 0 -> slots_covered start total paid = 0.
Proof using. intros H. unfold slots_covered. by rewrite (proj2 (Z.leb_le _ _)). Qed.

Lemma slots_covered_bounds :
  let covered := slots_covered start total paid in
  let target := cumulativeTarget start total in
  0 <= covered < total /\ target covered <= paid /\ (0 < start / total -> paid < target (covered + 1)).
Proof.
  intros covered target.
  assert (HT : forall n, 0 <= n <= total -> target n = if total <=? n then start else start / total * n)
    by (intros; apply cumulativeTarget_eq; lia).
  pose proof (Z.mul_div_le start total Ht) as Hsl. pose proof (Z.div_pos start total ltac:(lia) Ht) as Hs0.
  subst covered. unfold slots_covered. cbv zeta. set (slot := start / total) in *.
  destruct (slot <=? 0) eqn:E; to_prop.
  - split; [lia|]. split; [|lia]. rewrite HT by lia. case_if; lia.
  - assert (0 <= paid / slot) by (apply Z.div_pos; lia).
    pose proof (Z.mul_div_le paid slot ltac:(lia)). pose proof (Z.mul_succ_div_gt paid slot ltac:(lia)).
    split; [lia|]. rewrite !HT by lia. split; [|intros _]; repeat case_if; nia.
Qed.

(** The loop of [derivePlanProgress] counts the covered slots. *)
Lemma paid_loop_covered :
  let due := cumulativeTarget start total in
  Z.min (fold_left (fun p n => if (0 <? due n) && (due n <=? paid) then n else p) (slots total) 0)
    (total - 1) = slots_covered start total paid.
Proof.
  intros due. destruct slots_covered_bounds as (H1 & H2 & H3). fold due in H2, H3.
  assert (HT : forall n, 0 <= n <= total -> due n = if total <=? n then start else start / total * n)
    by (intros; apply cumulativeTarget_eq; lia).
  assert (Hmono : forall a b, 0 <= a <= b -> b <= total -> due a <= due b)
    by (intros; apply cumulativeTarget_mono; lia).
  pose proof (paid_loop due paid (Z.to_nat total)) as (L1 & L2 & L3). cbv zeta in *.
  fold (slots total) in L1, L2, L3. rewrite Z2Nat.id in L1, L3 by lia.
  set (r := fold_left _ (slots total) 0) in *.
  destruct (Z_le_gt_dec (start / total) 0) as [Hz|Hz].
  - rewrite slots_covered_zero by done.
    destruct L2 as [->|L2]; [lia|]. exfalso. rewrite HT in L2 by lia. case_if_in L2; nia.
  - assert (r <= slots_covered start total paid).
    { destruct L2 as [->|L2]; [lia|]. apply Z.lt_succ_r. apply Z.nle_gt. intros Hc.
      pose proof (Hmono (slots_covered start total paid + 1) r ltac:(lia) ltac:(lia)). lia. }
    assert (slots_covered start total paid <= r); [|lia].
    apply Z.nlt_ge. intros Hc. destruct (L3 (slots_covered start total paid) ltac:(lia)) as [L|L]; [|lia].
    rewrite HT in L by lia. case_if_in L; nia.
Qed.
End OpenPlan.

Lemma progress_open rb ip f :
  0 < rb -> 0 <= ip -> rb + ip < 2 ^ 52 ->
  let total := installmentCountFor f in
  let paid := slots_covered (rb + ip) total ip in
  let target := cumulativeTarget (rb + ip) total in
  0 <= paid < total /\ target paid <= ip /\
  (0 < (rb + ip) / total -> ip < target (paid + 1)) /\
  derivePlanProgress rb ip f =
    mkProgress total (rb + ip) ip ((rb + ip) / total) paid (total - paid)
      (if 0 <? (rb + ip) / total then target (paid + 1) - ip else rb)
      (ip - target paid) false.
Proof.
  intros Hrb Hip Hb total paid target. pose proof (count_cases f) as Hc. fold total in Hc.
  destruct (slots_covered_bounds (rb + ip) total ip) as (H1 & H2 & H3); [lia..|]. fold paid target in H1, H2, H3.
  assert (HT : forall n, 0 <= n <= total -> target n = if total <=? n then rb + ip else (rb + ip) / total * n)
    by (intros; apply cumulativeTarget_eq; lia).
  split; [done|]. split; [done|]. split; [done|].
  unfold derivePlanProgress. rewrite !Math_round_int, !Z.max_r by lia.
  fold total. rewrite (proj2 (Z.leb_gt rb 0)) by lia. cbv zeta.
  rewrite js_floor_div_exact by lia.
  rewrite (paid_loop_covered (rb + ip) total ip) by lia. fold paid target. f_equal; [|lia].
  pose proof (Z.mul_div_le (rb + ip) total ltac:(lia)) as Hsl.
  pose proof (Z.div_pos (rb + ip) total ltac:(lia) ltac:(lia)) as Hs0.
  destruct (0 <? (rb + ip) / total) eqn:E; to_prop.
  - specialize (H3 E). rewrite Z.max_r by lia. rewrite (proj2 (Z.ltb_lt _ _)) by lia.
    apply Z.min_l. rewrite HT by lia. case_if; nia.
  - assert (paid = 0) as -> by (by apply slots_covered_zero).
    rewrite HT by lia. rewrite (proj2 (Z.leb_gt total (0 + 1))) by lia.
    rewrite Z.max_l by nia. reflexivity.
Qed.

Lemma progress_settled rb ip f :
  rb <= 0 ->
  derivePlanProgress rb ip f =
    mkProgress (installmentCountFor f) (Z.max 0 ip) (Z.max 0 ip) 0
      (if 0 <? Z.max 0 ip then installmentCountFor f else 0) 0 0 0 true.
Proof.
  intros H. unfold derivePlanProgress. rewrite !Math_round_int. rewrite (Z.max_l 0 rb) by lia.
  reflexivity.
Qed.

(** ** Paying the quoted amount *)

(** A parent pays exactly the amount the plan quotes next. *)
Definition pay_quote (f : string) (plan : Z * Z) : Z * Z :=
  let q := nextInstallmentAmount (derivePlanProgress plan.1 plan.2 f) in
  (plan.1 - q, plan.2 + q).

(** The state a plan is in once [c] slots are closed. *)
Definition at_slot (start total c : Z) : Z * Z :=
  (start - cumulativeTarget start total c, cumulativeTarget start total c).

Section quotes.
Context (f : string) (rb ip : Z).
Context (Hrb : 0 < rb) (Hip : 0 <= ip) (Hsafe : rb + ip < 2 ^ 52).
Let total := installmentCountFor f.
Context (Hslot : 0 < (rb + ip) / total).
Let start := rb + ip.
Let paid := paidInstallments (derivePlanProgress rb ip f).

Lemma quote_paid : paid = slots_covered start total ip /\ 0 <= paid < total.
Proof.
  destruct (progress_open rb ip f Hrb Hip Hsafe) as (H1 & _ & _ & H4).
  unfold paid. rewrite H4. simpl. done.
Qed.

Lemma pay_quote_first : pay_quote f (rb, ip) = at_slot start total (paid + 1).
Proof.
  destruct (progress_open rb ip f Hrb Hip Hsafe) as (H1 & H2 & H3 & H4).
  destruct quote_paid as [Hp _]. rewrite Hp. clear Hp.
  unfold pay_quote, at_slot. simpl fst. simpl snd. rewrite H4. simpl nextInstallmentAmount.
  fold total start in H1, H2, H3 |- *. fold total in Hslot.
  rewrite (proj2 (Z.ltb_lt _ _)) by done. unfold start. f_equal; lia.
Qed.

Lemma at_slot_paid c :
  0 < c < total ->
  let p := derivePlanProgress (at_slot start total c).1 (at_slot start total c).2 f in
  paidInstallments p = c /\ settled p = false /\
  nextInstallmentAmount p = cumulativeTarget start total (c + 1) - cumulativeTarget start total c.
Proof.
  intros Hc p. pose proof (count_cases f) as Hcc. fold total in Hcc.
  assert (Hs : 0 <= start < 2 ^ 52) by (unfold start; lia).
  pose proof (Z.mul_div_le start total ltac:(lia)) as Hm.
  assert (Ht : cumulativeTarget start total c = start / total * c).
  { rewrite cumulativeTarget_eq by lia. by rewrite (proj2 (Z.leb_gt _ _)) by lia. }
  fold total start in Hslot.
  assert (He : at_slot start total c = (start - start / total * c, start / total * c))
    by (unfold at_slot; by rewrite Ht).
  destruct (progress_open (start - start / total * c) (start / total * c) f) as (_ & _ & _ & H4);
    [nia|nia|lia|].
  replace (start - start / total * c + start / total * c) with start in H4 by lia.
  fold total in H4.
  assert (Hcov : slots_covered start total (start / total * c) = c).
  { unfold slots_covered. rewrite (proj2 (Z.leb_gt _ _)) by lia.
    rewrite Z.mul_comm, Z.div_mul by lia. lia. }
  unfold p. rewrite He. cbn [fst snd]. rewrite H4, Hcov.
  cbn [paidInstallments settled nextInstallmentAmount].
  rewrite (proj2 (Z.ltb_lt 0 (start / total))) by done.
  split; [done|]. split; [done|]. lia.
Qed.

Lemma at_slot_total :
  let p := derivePlanProgress (at_slot start total total).1 (at_slot start total total).2 f in
  at_slot start total total = (0, start) /\ paidInstallments p = total /\ settled p = true.
Proof.
  pose proof (count_cases f) as Hcc. fold total in Hcc.
  assert (He : at_slot start total total = (0, start)).
  { unfold at_slot. rewrite cumulativeTarget_eq by (unfold start; lia).
    rewrite (proj2 (Z.leb_le _ _)) by lia. f_equal; lia. }
  cbv zeta. rewrite He. cbn [fst snd]. rewrite progress_settled by lia.
  cbn [paidInstallments settled]. rewrite Z.max_r by (unfold start; lia).
  split; [done|]. rewrite (proj2 (Z.ltb_lt _ _)) by (unfold start; lia). done.
Qed.

Lemma pay_quotes (k : nat) :
  (0 < k)%nat -> paid + Z.of_nat k <= total ->
  Nat.iter k (pay_quote f) (rb, ip) = at_slot start total (paid + Z.of_nat k).
Proof.
  intros Hk. destruct k as [|k]; [lia|]. clear Hk. destruct quote_paid as [_ Hp].
  induction k as [|k IH]; intros Hle.
  - simpl. apply pay_quote_first.
  - rewrite Nat.iter_succ, IH by lia.
    set (c := paid + Z.of_nat (S k)).
    destruct (at_slot_paid c ltac:(lia)) as (_ & _ & Hn).
    replace (paid + Z.of_nat (S (S k))) with (c + 1) by lia.
    unfold pay_quote. rewrite Hn. unfold at_slot. simpl fst. simpl snd. f_equal; lia.
Qed.
End quotes.

(** ** Due dates on the calendar *)

Lemma setDate_shift t d : 
  setDate t (getDate t + d) = t + d * DAY_MS.
Proof.
  destruct (getDate_spec t) as (H1 & _ & H3). unfold setDate, MakeDay.
  rewrite Z.div_small, Z.mod_small by lia. rewrite Z.add_0_r.
  replace (DayFromYear (getFullYear t) + MonthStart (getFullYear t) (getMonth t) +
           (getDate t + d) - 1) with (Day t + d) by lia.
  unfold MakeDate. pose proof (MakeDate_Day t) as H. unfold MakeDate in H. lia.
Qed.

Lemma due_weekly t f n :
  normaliseFrequency f = WEEKLY -> installmentDueDate t f n = t + n * (7 * DAY_MS).
Proof. intros H. unfold installmentDueDate. rewrite H, setDate_shift. lia. Qed.

(** The last day of a month is the day before the first of the next. *)
Lemma last_day y m :
  0 <= m < 12 -> getDate (new_Date y (m + 1) 0) = DaysInMonth y m.
Proof.
  intros Hm. unfold new_Date, MakeDay.
  destruct (Z.eq_dec m 11) as [->|Hne].
  - change ((11 + 1) / 12) with 1. change ((11 + 1) mod 12) with 0.
    change (MonthStart (y + 1) 0) with 0. rewrite year_length.
    replace (DayFromYear y + 365 + leap y + 0 + 0 - 1)
      with (DayFromYear y + MonthStart y 11 + DaysInMonth y 11 - 1)
      by (unfold DaysInMonth; change (11 + 1) with 12; rewrite MonthStart_12; lia).
    pose proof (DaysInMonth_range y 11 ltac:(lia)).
    apply (date_fields_of y 11); unfold DAY_MS; lia.
  - rewrite Z.div_small, Z.mod_small by lia. rewrite !Z.add_0_r.
    replace (DayFromYear y + MonthStart y (m + 1) - 1)
      with (DayFromYear y + MonthStart y m + DaysInMonth y m - 1) by (unfold DaysInMonth; lia).
    pose proof (DaysInMonth_range y m ltac:(lia)).
    apply (date_fields_of y m); unfold DAY_MS; lia.
Qed.

(** Calendar month [n] months on: months counted from year 0. *)
Definition month_index (t : Z) : Z := getFullYear t * 12 + getMonth t.

Lemma due_monthly t f n :
  normaliseFrequency f = MONTHLY ->
  let due := installmentDueDate t f n in
  let y := (month_index t + n) / 12 in let m := (month_index t + n) mod 12 in
  getFullYear due = y /\ getMonth due = m /\
  getDate due = Z.min (getDate t) (DaysInMonth y m) /\ TimeInDay due = TimeInDay t /\
  due = MakeDate (DayFromYear y + MonthStart y m + Z.min (getDate t) (DaysInMonth y m) - 1) (TimeInDay t).
Proof.
  intros Hf due y m.
  destruct (getDate_spec t) as (Hm & Hd & _). pose proof (TimeInDay_range t) as Htd.
  assert (Hm2 : 0 <= m < 12) by (apply Z.mod_pos_bound; lia).
  pose proof (DaysInMonth_range y m Hm2).
  set (t1 := setDate t 1). set (t2 := setMonth t1 (getMonth t1 + n)).
  assert (H0 : due = setDate t2 (Z.min (getDate t)
                       (getDate (new_Date (getFullYear t2) (getMonth t2 + 1) 0))))
    by (unfold due, installmentDueDate; rewrite Hf; reflexivity).
  assert (H1 : t1 = MakeDate (DayFromYear (getFullYear t) + MonthStart (getFullYear t) (getMonth t) + 1 - 1) (TimeInDay t)).
  { unfold t1, setDate, MakeDay. rewrite Z.div_small, Z.mod_small by lia. by rewrite Z.add_0_r. }
  destruct (date_fields_of (getFullYear t) (getMonth t) 1 (TimeInDay t) Hm ltac:(lia) Htd) as (F1 & F2 & F3).
  rewrite <- H1 in F1, F2, F3.
  assert (T1 : TimeInDay t1 = TimeInDay t) by (rewrite H1; by apply TimeInDay_MakeDate).
  assert (Hy : getFullYear t + (getMonth t + n) / 12 = y).
  { unfold y, month_index. rewrite <- Z.add_assoc, Z.div_add_l by lia. done. }
  assert (Hmm : (getMonth t + n) mod 12 = m).
  { unfold m, month_index.
    replace (getFullYear t * 12 + getMonth t + n) with (getMonth t + n + getFullYear t * 12) by lia.
    by rewrite Z_mod_plus_full. }
  assert (H2 : t2 = MakeDate (DayFromYear y + MonthStart y m + 1 - 1) (TimeInDay t)).
  { unfold t2, setMonth, MakeDay. rewrite F1, F2, F3, T1, Hy, Hmm. done. }
  destruct (date_fields_of y m 1 (TimeInDay t) Hm2 ltac:(lia) Htd) as (G1 & G2 & G3).
  rewrite <- H2 in G1, G2, G3.
  assert (T2 : TimeInDay t2 = TimeInDay t) by (rewrite H2; by apply TimeInDay_MakeDate).
  assert (Hdue : due = MakeDate (DayFromYear y + MonthStart y m + Z.min (getDate t) (DaysInMonth y m) - 1) (TimeInDay t)).
  { rewrite H0, G1, G2, last_day by done. unfold setDate, MakeDay.
    rewrite G1, G2, T2, Z.div_small, Z.mod_small by lia. by rewrite Z.add_0_r. }
  destruct (date_fields_of y m (Z.min (getDate t) (DaysInMonth y m)) (TimeInDay t) Hm2 ltac:(lia) Htd)
    as (K1 & K2 & K3).
  rewrite <- Hdue in K1, K2, K3. repeat split; try done.
  rewrite Hdue. by apply TimeInDay_MakeDate.
Qed.

(** Due dates move strictly forward. *)
Lemma month_day_mono a b d e ta tb :
  a < b -> 1 <= d <= DaysInMonth (a / 12) (a mod 12) -> 1 <= e -> 0 <= ta < DAY_MS -> 0 <= tb ->
  MakeDate (DayFromYear (a / 12) + MonthStart (a / 12) (a mod 12) + d - 1) ta
  < MakeDate (DayFromYear (b / 12) + MonthStart (b / 12) (b mod 12) + e - 1) tb.
Proof.
  intros Hab Hd He Hta Htb.
  pose proof (Z.mod_pos_bound a 12 ltac:(lia)) as Ha. pose proof (Z.mod_pos_bound b 12 ltac:(lia)) as Hb.
  pose proof (Z.div_mod a 12 ltac:(lia)). pose proof (Z.div_mod b 12 ltac:(lia)).
  pose proof (MonthStart_next (a / 12) (a mod 12) Ha). pose proof (MonthStart_year (b / 12) (b mod 12) Hb).
  assert (Hday : DayFromYear (a / 12) + MonthStart (a / 12) (a mod 12) + d
                 <= DayFromYear (b / 12) + MonthStart (b / 12) (b mod 12)).
  { destruct (Z.eq_dec (a / 12) (b / 12)) as [Heq|Hne].
    - rewrite Heq in *. assert (Hm : a mod 12 < b mod 12) by lia.
      assert (MonthStart (b / 12) (a mod 12 + 1) <= MonthStart (b / 12) (b mod 12)); [|unfold DaysInMonth in *; lia].
      generalize dependent (b mod 12). generalize dependent (a mod 12). intros ma Ha mb Hmb.
      intros. pose proof (leap_range (b / 12)).
      month_cases ma; unfold MonthStart; simpl; repeat case_if; lia.
    - pose proof (year_length (a / 12)). pose proof (DayFromYear_mono (a / 12 + 1) (b / 12) ltac:(lia)). lia. }
  unfold MakeDate, DAY_MS in *. nia.
Qed.

Lemma due_date_mono t f n m : n < m -> installmentDueDate t f n < installmentDueDate t f m.
Proof.
  intros H. destruct (normaliseFrequency f) eqn:E.
  - rewrite !due_weekly by done. unfold DAY_MS. lia.
  - destruct (due_monthly t f n E) as (_ & _ & _ & _ & ->).
    destruct (due_monthly t f m E) as (_ & _ & _ & _ & ->).
    destruct (getDate_spec t) as (_ & Hd & _). pose proof (TimeInDay_range t).
    pose proof (DaysInMonth_range ((month_index t + n) / 12) _ (Z.mod_pos_bound (month_index t + n) 12 ltac:(lia))).
    pose proof (DaysInMonth_range ((month_index t + m) / 12) _ (Z.mod_pos_bound (month_index t + m) 12 ltac:(lia))).
    apply month_day_mono; lia.
Qed.

(** ** Properties *)

(** An open plan's progress is read off the money alone: the slots covered
    are the paid value divided by the slot size, at least one slot is left, the
    next quote is positive and never above the balance, and credit plus quote
    is exactly the slot being filled. *)
Theorem progress_from_value rb ip f :
  0 < rb -> 0 <= ip -> rb + ip < 2 ^ 52 ->
  let p := derivePlanProgress rb ip f in
  let total := installmentCountFor f in
  paidInstallments p = slots_covered (rb + ip) total ip /\
  0 <= paidInstallments p < total /\
  remainingInstallments p = total - paidInstallments p /\
  settled p = false /\
  0 < nextInstallmentAmount p <= rb /\
  0 <= creditTowardNextInstallment p /\
  (0 < (rb + ip) / total ->
   creditTowardNextInstallment p + nextInstallmentAmount p =
   cumulativeTarget (rb + ip) total (paidInstallments p + 1)
   - cumulativeTarget (rb + ip) total (paidInstallments p)).
Proof.
  intros Hrb Hip Hb p total. pose proof (count_cases f) as Hcc. fold total in Hcc.
  destruct (progress_open rb ip f Hrb Hip Hb) as (H1 & H2 & H3 & H4).
  fold total in H1, H2, H3, H4. subst p. rewrite H4. cbn.
  set (paid := slots_covered (rb + ip) total ip) in *.
  assert (cumulativeTarget (rb + ip) total (paid + 1) <= rb + ip).
  { rewrite cumulativeTarget_eq by lia. pose proof (Z.mul_div_le (rb + ip) total ltac:(lia)).
    pose proof (Z.div_pos (rb + ip) total). case_if; nia. }
  repeat split; try lia; case_if; try lia; specialize (H3 ltac:(lia)); lia.
Qed.

Example progress_from_value_witness :
  paidInstallments (derivePlanProgress 7500000 15000000 "MONTHLY") = 2.
Proof.
  destruct (progress_from_value 7500000 15000000 "MONTHLY" ltac:(lia) ltac:(lia) ltac:(lia)) as (H & _).
  rewrite H. reflexivity.
Defined.

(** Paying k quotes closes exactly k slots, and paying all the remaining
    ones settles the plan to a zero balance. *)
Theorem quotes_close_slots f rb ip (k : nat) :
  0 < rb -> 0 <= ip -> rb + ip < 2 ^ 52 -> 0 < (rb + ip) / installmentCountFor f ->
  let before := derivePlanProgress rb ip f in
  let plan := Nat.iter k (pay_quote f) (rb, ip) in
  let after := derivePlanProgress plan.1 plan.2 f in
  Z.of_nat k <= remainingInstallments before ->
  paidInstallments after = paidInstallments before + Z.of_nat k /\
  plan.1 + plan.2 = rb + ip /\
  (Z.of_nat k = remainingInstallments before -> plan.1 = 0 /\ settled after = true).
Proof.
  intros Hrb Hip Hb Hslot before plan after Hk. pose proof (count_cases f) as Hcc.
  destruct (quote_paid f rb ip Hrb Hip Hb) as [_ Hpaid]. fold before in Hpaid.
  assert (Hrem : remainingInstallments before = installmentCountFor f - paidInstallments before).
  { unfold before. destruct (progress_open rb ip f Hrb Hip Hb) as (_ & _ & _ & H4). by rewrite H4. }
  destruct (Nat.eq_dec k 0) as [->|Hk0].
  - subst after plan. simpl. fold before. split; [lia|]. split; [done|]. intros. lia.
  - assert (Hplan : plan = at_slot (rb + ip) (installmentCountFor f) (paidInstallments before + Z.of_nat k))
      by (apply pay_quotes; try done; fold before; lia).
    subst after. rewrite Hplan.
    destruct (Z.eq_dec (paidInstallments before + Z.of_nat k) (installmentCountFor f)) as [He|Hne].
    + rewrite He. destruct (at_slot_total f rb ip Hrb Hip Hb) as (T1 & T2 & T3).
      rewrite T2, T3, T1. simpl. split; [lia|]. split; [lia|]. done.
    + destruct (at_slot_paid f rb ip Hrb Hip Hb Hslot (paidInstallments before + Z.of_nat k) ltac:(lia))
        as (P1 & P2 & P3).
      rewrite P1. split; [done|]. split; [unfold at_slot; simpl; lia|]. intros. lia.
Qed.

Example quotes_close_slots_witness :
  (Nat.iter 3 (pay_quote "MONTHLY") (10000001, 0)).1 = 0.
Proof.
  destruct (quotes_close_slots "MONTHLY" 10000001 0 3) as (_ & _ & H2);
    [lia|lia|lia|vm_compute; reflexivity|vm_compute; discriminate|].
  apply H2. vm_compute. reflexivity.
Defined.

(** A monthly due date lands in exactly the n-th following month, on the
    start's day of the month or that month's last day when it is shorter, at
    the start's time of day; it never rolls into a later month. *)
Theorem monthly_due_date_clamps t f n :
  normaliseFrequency f = MONTHLY ->
  let due := installmentDueDate t f n in
  month_index due = month_index t + n /\
  getDate due = Z.min (getDate t) (DaysInMonth (getFullYear due) (getMonth due)) /\
  TimeInDay due = TimeInDay t.
Proof.
  intros H due. destruct (due_monthly t f n H) as (H1 & H2 & H3 & H4 & _). fold due in H1, H2, H3, H4.
  split.
  - unfold month_index at 1. rewrite H1, H2. rewrite Z.mul_comm. symmetry. by apply Z.div_mod.
  - split; [|done]. by rewrite H3, H1, H2.
Qed.

Example monthly_due_date_clamps_witness :
  getDate (installmentDueDate (new_Date 2026 0 31) "MONTHLY" 1) = 28.
Proof.
  destruct (monthly_due_date_clamps (new_Date 2026 0 31) "MONTHLY" 1 eq_refl) as (_ & H & _).
  rewrite H. vm_compute. reflexivity.
Defined.
