(* ===== verification/Arrears.v ===== *)
(** * Arrears

    [src/common/arrears.ts]: how much of an enrollment's balance is past due at
    an instant [now].  Dates are UTC time values ([Dates]). *)

From S2P Require Import Prelude JsNumber Money Dates Schedule.

Definition WEEK_MS : Z := 7 * DAY_MS.

Record ArrearsInput := mkArrearsInput {
  ai_remainingBalance : Z;
  ai_installmentFrequency : InstallmentFrequency;
  ai_termStartDate : Z;
  ai_termEndDate : Z;
  ai_installmentsPaidKobo : Z }.

Record ArrearsResult := mkArrears {
  overdueAmount : Z;
  missedInstallments : Z;
  ar_paidInstallments : Z;
  daysOverdue : Z;
  nextDueDate : option Z;
  termExpired : bool }.

Definition elapsedPeriods (termStartDate : Z) (frequency : InstallmentFrequency) (now : Z) : Z :=
  if now <=? termStartDate then 0
  else match frequency with
  | WEEKLY => (now - termStartDate) / WEEK_MS
  | MONTHLY =>
      let months := (getFullYear now - getFullYear termStartDate) * 12
                    + (getMonth now - getMonth termStartDate) in
      if months <=? 0 then 0
      else
        let boundaryReached :=
          getDate (installmentDueDate termStartDate "MONTHLY" months) <=? getDate now in
        if boundaryReached then months else months - 1
  end.

Definition computeArrears (input : ArrearsInput) (now : Z) : ArrearsResult :=
  let remainingBalance := ai_remainingBalance input in
  let frequency := freq_string (ai_installmentFrequency input) in
  let termStart := ai_termStartDate input in
  let termEnd := ai_termEndDate input in
  let progress := derivePlanProgress remainingBalance (ai_installmentsPaidKobo input) frequency in
  let total := totalInstallments progress in
  let paid := paidInstallments progress in
  if settled progress then mkArrears 0 0 paid 0 None false
  else
    let expired := termEnd <? now in
    let elapsed := elapsedPeriods termStart (ai_installmentFrequency input) now in
    let expectedPaid := Z.min elapsed total in
    let missed := Z.max 0 (expectedPaid - paid) in
    let nextIndex := Z.min (paid + 1) total in
    let nextDue := installmentDueDate termStart frequency nextIndex in
    let firstMissedDue := installmentDueDate termStart frequency (paid + 1) in
    if expired then
      let reference := if firstMissedDue <? termEnd then firstMissedDue else termEnd in
      mkArrears remainingBalance (Z.max missed (total - paid)) paid
        ((now - reference) / DAY_MS) (Some nextDue) true
    else if missed =? 0 then mkArrears 0 0 paid 0 (Some nextDue) false
    else
      let expectedValue := cumulativeTarget (planStartBalance progress) total expectedPaid in
      mkArrears
        (Z.min (Z.max 0 (expectedValue - installmentsPaidKobo progress)) remainingBalance)
        missed paid (Z.max 0 ((now - firstMissedDue) / DAY_MS)) (Some nextDue) false.

(** ** Elapsed periods are due dates passed *)

Lemma month_index_mono a b : a <= b -> month_index a <= month_index b.
Proof.
  intros H. assert (Hd : Day a <= Day b) by (apply Z.div_le_mono; done).
  destruct (getDate_spec a) as (A1 & A2 & A3), (getDate_spec b) as (B1 & B2 & B3).
  apply Z.nlt_ge. intros Hlt. unfold month_index in Hlt.
  pose proof (MonthStart_next (getFullYear b) _ B1). pose proof (MonthStart_year (getFullYear a) _ A1).
  pose proof (year_length (getFullYear b)).
  destruct (Z.eq_dec (getFullYear a) (getFullYear b)) as [He|Hne].
  - rewrite He in *.
    assert (Hms : MonthStart (getFullYear b) (getMonth b + 1) <= MonthStart (getFullYear b) (getMonth a)).
    { assert (Hm : getMonth b < getMonth a) by lia. revert Hm A1 B1. clear.
      generalize (getMonth a) (getMonth b) (getFullYear b). intros ma mb y Hm A1 B1.
      pose proof (leap_range y). month_cases mb; unfold MonthStart; simpl; repeat case_if; lia. }
    unfold DaysInMonth in *. lia.
  - pose proof (DayFromYear_mono (getFullYear b + 1) (getFullYear a) ltac:(lia)). lia.
Qed.

(** Days of one month are ordered by their day of the month. *)
Lemma same_month_days a b :
  month_index a = month_index b -> (Day a <= Day b <-> getDate a <= getDate b).
Proof.
  intros H. destruct (getDate_spec a) as (A1 & A2 & A3), (getDate_spec b) as (B1 & B2 & B3).
  unfold month_index in H.
  assert (getFullYear a = getFullYear b /\ getMonth a = getMonth b) as [E1 E2] by lia.
  rewrite A3, B3, E1, E2. lia.
Qed.

Lemma later_month_days a b : month_index a < month_index b -> Day a < Day b.
Proof.
  intros H. apply Z.nle_gt. intros Hd. apply Z.lt_nge in H. apply H.
  destruct (Z.eq_dec (Day a) (Day b)) as [He|Hne].
  - unfold month_index, getMonth, getFullYear. rewrite He. lia.
  - apply month_index_mono. unfold Day in *.
    pose proof (Z.div_mod a DAY_MS ltac:(done)). pose proof (Z.div_mod b DAY_MS ltac:(done)).
    pose proof (Z.mod_pos_bound a DAY_MS ltac:(done)). pose proof (Z.mod_pos_bound b DAY_MS ltac:(done)).
    unfold DAY_MS in *. lia.
Qed.

(** Slot [n] counts as elapsed exactly from its due date on: to the
    millisecond for a weekly plan, from the start of the due day for a monthly
    one. *)
Definition due_reached (f : InstallmentFrequency) (due now : Z) : Prop :=
  match f with WEEKLY => due <= now | MONTHLY => Day due <= Day now end.

Lemma month_index_due t n : 
  month_index (installmentDueDate t "MONTHLY" n) = month_index t + n.
Proof.
  destruct (due_monthly t "MONTHLY" n eq_refl) as (H1 & H2 & _).
  unfold month_index at 1. rewrite H1, H2, Z.mul_comm. symmetry. by apply Z.div_mod.
Qed.

Lemma elapsed_iff t f now n :
  0 < n -> t < now ->
  n <= elapsedPeriods t f now <-> due_reached f (installmentDueDate t (freq_string f) n) now.
Proof.
  intros Hn Hnow. unfold elapsedPeriods. rewrite (proj2 (Z.leb_gt _ _)) by done.
  destruct f; simpl freq_string; simpl due_reached.
  - rewrite due_weekly by done. unfold WEEK_MS. split; intros H.
    + pose proof (Z.mul_div_le (now - t) (7 * DAY_MS) ltac:(done)). unfold DAY_MS in *. nia.
    + apply Z.div_le_lower_bound; [done|lia].
  - set (months := _ * 12 + _).
    assert (Hmo : month_index now = month_index t + months) by (unfold months, month_index; lia).
    pose proof (month_index_mono t now ltac:(lia)).
    destruct (months <=? 0) eqn:E; to_prop.
    + split; [lia|]. intros Hd. exfalso.
      pose proof (later_month_days now (installmentDueDate t "MONTHLY" n)) as Hl.
      rewrite month_index_due in Hl. lia.
    + pose proof (same_month_days (installmentDueDate t "MONTHLY" months) now) as Hs.
      rewrite month_index_due in Hs. specialize (Hs ltac:(lia)).
      assert (Hlt : n < months -> Day (installmentDueDate t "MONTHLY" n) < Day now).
      { intros. apply later_month_days. rewrite month_index_due. lia. }
      assert (Hgt : months < n -> Day now < Day (installmentDueDate t "MONTHLY" n)).
      { intros. apply later_month_days. rewrite month_index_due. lia. }
      destruct (Z.lt_trichotomy n months) as [Hc|[->|Hc]].
      * specialize (Hlt Hc). case_if; lia.
      * case_if; lia.
      * specialize (Hgt Hc). case_if; lia.
Qed.

Lemma elapsed_nonneg t f now : 0 <= elapsedPeriods t f now.
Proof.
  unfold elapsedPeriods. case_if; [lia|]. destruct f.
  - apply Z.div_pos; [lia|done].
  - repeat case_if; lia.
Qed.

Lemma day_le a b : a <= b -> Day a <= Day b.
Proof. intros H. apply Z.div_le_mono; done. Qed.

Lemma elapsed_due t f now n :
  0 < n -> n <= elapsedPeriods t f now <-> due_reached f (installmentDueDate t (freq_string f) n) now.
Proof.
  intros Hn. destruct (Z_lt_le_dec t now) as [H|H]; [by apply elapsed_iff|].
  unfold elapsedPeriods. rewrite (proj2 (Z.leb_le _ _)) by done.
  split; [lia|]. intros Hd. exfalso. destruct f; simpl in Hd.
  - rewrite due_weekly in Hd by done. unfold DAY_MS in *. lia.
  - pose proof (later_month_days t (installmentDueDate t "MONTHLY" n)) as Hl.
    rewrite month_index_due in Hl. pose proof (day_le now t H). lia.
Qed.

(** The figures the arrears of an open plan are computed from. *)
Section open_plan.
Context (i : ArrearsInput) (now : Z).
Let rb := ai_remainingBalance i.
Let ip := ai_installmentsPaidKobo i.
Let f := freq_string (ai_installmentFrequency i).
Let total := installmentCountFor f.
Context (Hrb : 0 < rb) (Hip : 0 <= ip) (Hsafe : rb + ip < 2 ^ 52).
Let paid := slots_covered (rb + ip) total ip.
Let elapsed := elapsedPeriods (ai_termStartDate i) (ai_installmentFrequency i) now.
Let missed := Z.max 0 (Z.min elapsed total - paid).

Lemma computeArrears_open :
  0 <= paid < total /\
  computeArrears i now =
    if ai_termEndDate i <? now then
      let first := installmentDueDate (ai_termStartDate i) f (paid + 1) in
      mkArrears rb (total - paid) paid
        ((now - (if first <? ai_termEndDate i then first else ai_termEndDate i)) / DAY_MS)
        (Some first) true
    else if missed =? 0 then
      mkArrears 0 0 paid 0 (Some (installmentDueDate (ai_termStartDate i) f (paid + 1))) false
    else
      mkArrears
        (Z.min (Z.max 0 (cumulativeTarget (rb + ip) total (Z.min elapsed total) - ip)) rb)
        missed paid
        (Z.max 0 ((now - installmentDueDate (ai_termStartDate i) f (paid + 1)) / DAY_MS))
        (Some (installmentDueDate (ai_termStartDate i) f (paid + 1))) false.
Proof.
  destruct (progress_open rb ip f Hrb Hip Hsafe) as (H1 & _ & _ & H4).
  fold total paid in H1, H4. split; [done|].
  unfold computeArrears. fold rb ip f elapsed. rewrite H4.
  cbn [settled totalInstallments paidInstallments planStartBalance installmentsPaidKobo].
  fold missed. rewrite (Z.min_l (paid + 1) total) by lia.
  rewrite (Z.max_r missed (total - paid)) by (unfold missed; lia). reflexivity.
Qed.

Lemma missed_iff n :
  0 < n <= total ->
  (paid < n <= paid + missed <->
   paid < n /\ due_reached (ai_installmentFrequency i) (installmentDueDate (ai_termStartDate i) f n) now).
Proof.
  intros Hn. destruct computeArrears_open as [Hp _].
  pose proof (elapsed_due (ai_termStartDate i) (ai_installmentFrequency i) now n ltac:(lia)) as He.
  fold f elapsed in He. unfold missed. rewrite <- He. lia.
Qed.

Lemma missed_overdue :
  0 < (rb + ip) / total -> 0 < missed ->
  0 < cumulativeTarget (rb + ip) total (Z.min elapsed total) - ip <= rb.
Proof.
  intros Hslot Hm.
  destruct (progress_open rb ip f Hrb Hip Hsafe) as (H1 & _ & H3 & _).
  fold total paid in H1, H3. specialize (H3 Hslot). unfold missed in Hm.
  pose proof (cumulativeTarget_mono (rb + ip) total (paid + 1) (Z.min elapsed total)
                ltac:(lia) ltac:(lia) ltac:(lia) ltac:(lia)).
  assert (cumulativeTarget (rb + ip) total (Z.min elapsed total) <= rb + ip).
  { pose proof (cumulativeTarget_mono (rb + ip) total (Z.min elapsed total) total
                ltac:(lia) ltac:(lia) ltac:(lia) ltac:(lia)) as Hmono.
    rewrite (cumulativeTarget_eq _ _ total) in Hmono by lia.
    rewrite (proj2 (Z.leb_le total total)) in Hmono by lia. done. }
  lia.
Qed.
End open_plan.

(** ** Properties *)



(** Once the term has ended with a balance left, the whole balance is past
    due, every uncovered slot is missed and the age is not negative; a settled
    plan is never in arrears whatever the clock says. *)
Theorem arrears_after_term i now :
  let rb := ai_remainingBalance i in let ip := ai_installmentsPaidKobo i in
  let total := installmentCountFor (freq_string (ai_installmentFrequency i)) in
  let r := computeArrears i now in
  0 <= ip -> rb + ip < 2 ^ 52 -> ai_termEndDate i < now ->
  (0 < rb -> overdueAmount r = rb /\ missedInstallments r = total - ar_paidInstallments r /\
             0 < missedInstallments r /\ 0 <= daysOverdue r /\ termExpired r = true) /\
  (rb <= 0 -> overdueAmount r = 0 /\ missedInstallments r = 0 /\ daysOverdue r = 0 /\
              nextDueDate r = None /\ termExpired r = false).
Proof.
  intros rb ip total r Hip Hb Hnow. split; intros Hrb.
  - destruct (computeArrears_open i now Hrb Hip Hb) as [Hp He]. fold r rb ip total in He, Hp.
    rewrite (proj2 (Z.ltb_lt _ _)) in He by done. rewrite He. cbn.
    split; [done|]. split; [done|]. split; [lia|]. split; [|done].
    apply Z.div_pos; [|done]. case_if; lia.
  - subst r. unfold computeArrears. fold rb ip. rewrite progress_settled by done. done.
Qed.

Example arrears_after_term_witness :
  let i := mkArrearsInput 9000000 MONTHLY (new_Date 2026 0 31) (new_Date 2026 3 30) 0 in
  overdueAmount (computeArrears i (new_Date 2026 5 1)) = 9000000.
Proof.
  intros i. apply (arrears_after_term i (new_Date 2026 5 1)); [discriminate|reflexivity|vm_compute; reflexivity|reflexivity].
Defined.
