(* ===== verification/Schema.v ===== *)
(** * The database and its effects

    [prisma/schema.prisma] as data: the enums, the rows the core reads and
    writes, the tables, and the outside world of a request (real-time events,
    notifications sent outside a transaction, metrics).  Ids are opaque and
    drawn from a counter, as fresh as a UUID is; a date is a time value.  Free
    text of notifications is left out (its figures are those of the row), their
    recipient, title, type and link are kept. *)

From S2P Require Import Prelude Schedule.

Abbreviation id := positive.

(** [enum UserRole] *)
Inductive UserRole :=
| SUPER_ADMIN
| SCHOOL_OWNER
| PARENT.
#[export] Instance UserRole_eq_dec : EqDecision UserRole.
Proof. solve_decision. Defined.
(** [enum PaymentStatus], of an enrollment *)
Inductive PaymentStatus :=
| PENDING
| ACTIVE
| COMPLETED
| DEFAULTED
| FAILED.
#[export] Instance PaymentStatus_eq_dec : EqDecision PaymentStatus.
Proof. solve_decision. Defined.
(** [enum PaymentTransactionStatus]; the prefix keeps the constructors apart from [PaymentStatus] *)
Inductive PaymentTransactionStatus :=
| TX_PENDING
| TX_SUCCESS
| TX_FAILED
| TX_REVERSED.
#[export] Instance PaymentTransactionStatus_eq_dec : EqDecision PaymentTransactionStatus.
Proof. solve_decision. Defined.
(** [enum PaymentType] *)
Inductive PaymentType :=
| FIRST_PAYMENT
| INSTALLMENT
| MIGRATED_PAYMENT.
#[export] Instance PaymentType_eq_dec : EqDecision PaymentType.
Proof. solve_decision. Defined.
(** [enum PaymentReceiver] *)
Inductive PaymentReceiver :=
| PLATFORM
| SCHOOL.
#[export] Instance PaymentReceiver_eq_dec : EqDecision PaymentReceiver.
Proof. solve_decision. Defined.
(** [enum EnrollmentInviteStatus] *)
Inductive EnrollmentInviteStatus :=
| INV_PENDING
| INV_DISPUTED
| INV_CLAIMED
| INV_REVOKED
| INV_EXPIRED.
#[export] Instance EnrollmentInviteStatus_eq_dec : EqDecision EnrollmentInviteStatus.
Proof. solve_decision. Defined.
(** [enum NotificationType] *)
Inductive NotificationType :=
| NT_PAYMENT
| NT_ALERT
| NT_ANNOUNCEMENT.
#[export] Instance NotificationType_eq_dec : EqDecision NotificationType.
Proof. solve_decision. Defined.
(** [enum AuditAction] *)
Inductive AuditAction :=
| PAYMENT_CONFIRMED
| PAYMENT_REJECTED
| PAYMENT_REVERSED
| FIRST_PAYMENT_CONFIRMED
| FIRST_PAYMENT_SETTLED
| FIRST_PAYMENT_REJECTED
| FIRST_PAYMENT_PAID
| ENROLLMENT_DEFAULTED
| PAYMENT_DISPUTED
| ENROLLMENT_INVITE_CREATED
| ENROLLMENT_INVITE_REVOKED
| ENROLLMENT_INVITE_DISPUTED
| ENROLLMENT_INVITE_CLAIMED
| ENROLLMENT_INVITE_RELEASED
| MIGRATED_PAYMENT_AMENDED
| MIGRATION_WINDOW_CHANGED.
#[export] Instance AuditAction_eq_dec : EqDecision AuditAction.
Proof. solve_decision. Defined.

(** ** Rows *)

(** [model Payment] *)
Record Payment := mkPayment {
  p_enrollmentId : id;
  p_schoolId : id;
  p_idempotencyKey : option string;
  p_amountPaid : Z;
  p_platformAmount : Z;
  p_schoolAmount : Z;
  p_receiver : PaymentReceiver;
  p_paymentType : PaymentType;
  p_status : PaymentTransactionStatus;
  p_isConfirmed : bool;
  p_paymentDate : Z;
  p_receiptUrl : option string;
  p_paystackReference : option string;
  p_paystackAccessCode : option string;
  p_amountCharged : option Z;
  p_paystackFee : option Z;
  p_actualPaystackFee : option Z;
  p_transactionCharge : option Z }.
(** [model ChildEnrollment] *)
Record ChildEnrollment := mkEnrollment {
  e_childId : id;
  e_schoolId : id;
  e_className : string;
  e_totalSchoolFee : Z;
  e_platformFee : Z;
  e_schoolMinimumFee : Z;
  e_firstPaymentPaid : Z;
  e_remainingBalance : Z;
  e_paymentStatus : PaymentStatus;
  e_installmentFrequency : InstallmentFrequency;
  e_termStartDate : Z;
  e_termEndDate : Z;
  e_enrollmentInviteId : option id;
  e_createdAt : Z }.
(** [model EnrollmentInvite] *)
Record EnrollmentInvite := mkInvite {
  i_schoolId : id;
  i_createdByUserId : id;
  i_studentName : string;
  i_className : string;
  i_totalSchoolFee : Z;
  i_amountAlreadyPaid : Z;
  i_phoneNumber : string;
  i_parentPhoneHash : string;
  i_installmentFrequency : InstallmentFrequency;
  i_planStartDate : Z;
  i_termEndDate : Z;
  i_tokenHash : string;
  i_expiresAt : Z;
  i_status : EnrollmentInviteStatus;
  i_disputeReason : option string;
  i_disputedAt : option Z;
  i_revokedAt : option Z;
  i_revokedByUserId : option id;
  i_claimedByUserId : option id;
  i_claimedAt : option Z;
  i_claimantPhoneMatched : option bool;
  i_createdAt : Z }.
(** [model School], the columns the core reads *)
Record School := mkSchool {
  s_name : string;
  s_ownerId : id;
  s_phone : string;
  s_paystackSubaccountCode : option string;
  s_paystackSubaccountActive : bool;
  s_deletedAt : option Z;
  s_migrationDeadline : Z;
  s_email : string;
  s_address : string;
  s_bankName : string;
  s_bankCode : option string;
  s_accountName : string;
  s_accountNumber : string }.
(** [model ClassFee] *)
Record ClassFee := mkClassFee {
  cf_schoolId : id;
  cf_className : string;
  cf_feeAmount : Z;
  cf_isActive : bool }.
(** [model Parent] *)
Record Parent := mkParent { par_userId : id; par_phoneNumber : string }.
(** [model Child] *)
Record Child := mkChild { c_parentId : id; c_fullName : string; c_className : string }.
(** [model User], the columns the core reads *)
Record User := mkUser {
  u_email : string;
  u_role : UserRole;
  u_fullName : option string;
  u_phoneNumber : option string;
  u_phoneHash : option string;
  u_deletedAt : option Z;
  u_name : option string }.
(** [model Session] and [model Account], the columns the core reads *)
Record Session := mkSession { se_userId : id; se_createdAt : Z }.
Record OAuthAccount := mkOAuthAccount { oa_userId : id; oa_providerId : string; oa_createdAt : Z }.
(** [model WebhookEvent], keyed by its unique [dedupeKey] *)
Record WebhookEvent := mkWebhookEvent {
  w_eventType : string;
  w_reference : option string;
  w_processedAt : option Z;
  w_error : option string }.
(** A row of [model Notification], without its message text *)
Record Notification := mkNotification {
  n_userId : id;
  n_title : string;
  n_type : NotificationType;
  n_link : string }.

(** The JSON columns of the audit log. *)
Inductive json :=
| JNull
| JBool (b : bool)
| JNum (z : Z)
| JStr (s : string)
| JId (i : id)
| JEnr (s : PaymentStatus)
| JTx (s : PaymentTransactionStatus)
| JInv (s : EnrollmentInviteStatus)
| JType (t : PaymentType)
| JPayments (l : list (id * Payment)).
Abbreviation jobject := (list (string * json)).

Record AuditActor := mkActor { a_userId : id; a_role : UserRole }.

(** [model AuditLog] *)
Record AuditEntry := mkAudit {
  au_action : AuditAction;
  au_entityType : string;
  au_entityId : id;
  au_actor : option AuditActor;
  au_schoolId : option id;
  au_reason : option string;
  au_before : option jobject;
  au_after : option jobject;
  au_metadata : jobject }.

(** The tables *)
Record DB := mkDB {
  payments : gmap id Payment;
  enrollments : gmap id ChildEnrollment;
  invites : gmap id EnrollmentInvite;
  schools : gmap id School;
  classFees : gmap id ClassFee;
  parents : gmap id Parent;
  children : gmap id Child;
  users : gmap id User;
  webhookEvents : gmap string WebhookEvent;
  schedulerLocks : gmap string Z;
  sessions : gmap id Session;
  oauthAccounts : gmap id OAuthAccount;
  notifications : list Notification;
  auditLog : list AuditEntry;
  next_id : id }.

(** ** Column updates *)

Definition set_p_idempotencyKey (v : option string) (r : Payment) : Payment :=
  mkPayment (p_enrollmentId r) (p_schoolId r) v (p_amountPaid r) (p_platformAmount r)
    (p_schoolAmount r) (p_receiver r) (p_paymentType r) (p_status r) (p_isConfirmed r)
    (p_paymentDate r) (p_receiptUrl r) (p_paystackReference r) (p_paystackAccessCode r)
    (p_amountCharged r) (p_paystackFee r) (p_actualPaystackFee r) (p_transactionCharge r).
Definition set_p_amountPaid (v : Z) (r : Payment) : Payment :=
  mkPayment (p_enrollmentId r) (p_schoolId r) (p_idempotencyKey r) v (p_platformAmount r)
    (p_schoolAmount r) (p_receiver r) (p_paymentType r) (p_status r) (p_isConfirmed r)
    (p_paymentDate r) (p_receiptUrl r) (p_paystackReference r) (p_paystackAccessCode r)
    (p_amountCharged r) (p_paystackFee r) (p_actualPaystackFee r) (p_transactionCharge r).
Definition set_p_schoolAmount (v : Z) (r : Payment) : Payment :=
  mkPayment (p_enrollmentId r) (p_schoolId r) (p_idempotencyKey r) (p_amountPaid r)
    (p_platformAmount r) v (p_receiver r) (p_paymentType r) (p_status r) (p_isConfirmed r)
    (p_paymentDate r) (p_receiptUrl r) (p_paystackReference r) (p_paystackAccessCode r)
    (p_amountCharged r) (p_paystackFee r) (p_actualPaystackFee r) (p_transactionCharge r).
Definition set_p_status (v : PaymentTransactionStatus) (r : Payment) : Payment :=
  mkPayment (p_enrollmentId r) (p_schoolId r) (p_idempotencyKey r) (p_amountPaid r)
    (p_platformAmount r) (p_schoolAmount r) (p_receiver r) (p_paymentType r) v (p_isConfirmed r)
    (p_paymentDate r) (p_receiptUrl r) (p_paystackReference r) (p_paystackAccessCode r)
    (p_amountCharged r) (p_paystackFee r) (p_actualPaystackFee r) (p_transactionCharge r).
Definition set_p_isConfirmed (v : bool) (r : Payment) : Payment :=
  mkPayment (p_enrollmentId r) (p_schoolId r) (p_idempotencyKey r) (p_amountPaid r)
    (p_platformAmount r) (p_schoolAmount r) (p_receiver r) (p_paymentType r) (p_status r) v
    (p_paymentDate r) (p_receiptUrl r) (p_paystackReference r) (p_paystackAccessCode r)
    (p_amountCharged r) (p_paystackFee r) (p_actualPaystackFee r) (p_transactionCharge r).
Definition set_p_paymentDate (v : Z) (r : Payment) : Payment :=
  mkPayment (p_enrollmentId r) (p_schoolId r) (p_idempotencyKey r) (p_amountPaid r)
    (p_platformAmount r) (p_schoolAmount r) (p_receiver r) (p_paymentType r) (p_status r)
    (p_isConfirmed r) v (p_receiptUrl r) (p_paystackReference r) (p_paystackAccessCode r)
    (p_amountCharged r) (p_paystackFee r) (p_actualPaystackFee r) (p_transactionCharge r).
Definition set_p_paystackAccessCode (v : option string) (r : Payment) : Payment :=
  mkPayment (p_enrollmentId r) (p_schoolId r) (p_idempotencyKey r) (p_amountPaid r)
    (p_platformAmount r) (p_schoolAmount r) (p_receiver r) (p_paymentType r) (p_status r)
    (p_isConfirmed r) (p_paymentDate r) (p_receiptUrl r) (p_paystackReference r) v
    (p_amountCharged r) (p_paystackFee r) (p_actualPaystackFee r) (p_transactionCharge r).
Definition set_p_actualPaystackFee (v : option Z) (r : Payment) : Payment :=
  mkPayment (p_enrollmentId r) (p_schoolId r) (p_idempotencyKey r) (p_amountPaid r)
    (p_platformAmount r) (p_schoolAmount r) (p_receiver r) (p_paymentType r) (p_status r)
    (p_isConfirmed r) (p_paymentDate r) (p_receiptUrl r) (p_paystackReference r)
    (p_paystackAccessCode r) (p_amountCharged r) (p_paystackFee r) v (p_transactionCharge r).
Definition set_e_firstPaymentPaid (v : Z) (r : ChildEnrollment) : ChildEnrollment :=
  mkEnrollment (e_childId r) (e_schoolId r) (e_className r) (e_totalSchoolFee r) (e_platformFee
    r) (e_schoolMinimumFee r) v (e_remainingBalance r) (e_paymentStatus r)
    (e_installmentFrequency r) (e_termStartDate r) (e_termEndDate r) (e_enrollmentInviteId r)
    (e_createdAt r).
Definition set_e_remainingBalance (v : Z) (r : ChildEnrollment) : ChildEnrollment :=
  mkEnrollment (e_childId r) (e_schoolId r) (e_className r) (e_totalSchoolFee r) (e_platformFee
    r) (e_schoolMinimumFee r) (e_firstPaymentPaid r) v (e_paymentStatus r)
    (e_installmentFrequency r) (e_termStartDate r) (e_termEndDate r) (e_enrollmentInviteId r)
    (e_createdAt r).
Definition set_e_paymentStatus (v : PaymentStatus) (r : ChildEnrollment) : ChildEnrollment :=
  mkEnrollment (e_childId r) (e_schoolId r) (e_className r) (e_totalSchoolFee r) (e_platformFee
    r) (e_schoolMinimumFee r) (e_firstPaymentPaid r) (e_remainingBalance r) v
    (e_installmentFrequency r) (e_termStartDate r) (e_termEndDate r) (e_enrollmentInviteId r)
    (e_createdAt r).
Definition set_i_amountAlreadyPaid (v : Z) (r : EnrollmentInvite) : EnrollmentInvite :=
  mkInvite (i_schoolId r) (i_createdByUserId r) (i_studentName r) (i_className r)
    (i_totalSchoolFee r) v (i_phoneNumber r) (i_parentPhoneHash r) (i_installmentFrequency r)
    (i_planStartDate r) (i_termEndDate r) (i_tokenHash r) (i_expiresAt r) (i_status r)
    (i_disputeReason r) (i_disputedAt r) (i_revokedAt r) (i_revokedByUserId r)
    (i_claimedByUserId r) (i_claimedAt r) (i_claimantPhoneMatched r) (i_createdAt r).
Definition set_i_tokenHash (v : string) (r : EnrollmentInvite) : EnrollmentInvite :=
  mkInvite (i_schoolId r) (i_createdByUserId r) (i_studentName r) (i_className r)
    (i_totalSchoolFee r) (i_amountAlreadyPaid r) (i_phoneNumber r) (i_parentPhoneHash r)
    (i_installmentFrequency r) (i_planStartDate r) (i_termEndDate r) v (i_expiresAt r) (i_status
    r) (i_disputeReason r) (i_disputedAt r) (i_revokedAt r) (i_revokedByUserId r)
    (i_claimedByUserId r) (i_claimedAt r) (i_claimantPhoneMatched r) (i_createdAt r).
Definition set_i_expiresAt (v : Z) (r : EnrollmentInvite) : EnrollmentInvite :=
  mkInvite (i_schoolId r) (i_createdByUserId r) (i_studentName r) (i_className r)
    (i_totalSchoolFee r) (i_amountAlreadyPaid r) (i_phoneNumber r) (i_parentPhoneHash r)
    (i_installmentFrequency r) (i_planStartDate r) (i_termEndDate r) (i_tokenHash r) v (i_status
    r) (i_disputeReason r) (i_disputedAt r) (i_revokedAt r) (i_revokedByUserId r)
    (i_claimedByUserId r) (i_claimedAt r) (i_claimantPhoneMatched r) (i_createdAt r).
Definition set_i_status (v : EnrollmentInviteStatus) (r : EnrollmentInvite) : EnrollmentInvite :=
  mkInvite (i_schoolId r) (i_createdByUserId r) (i_studentName r) (i_className r)
    (i_totalSchoolFee r) (i_amountAlreadyPaid r) (i_phoneNumber r) (i_parentPhoneHash r)
    (i_installmentFrequency r) (i_planStartDate r) (i_termEndDate r) (i_tokenHash r)
    (i_expiresAt r) v (i_disputeReason r) (i_disputedAt r) (i_revokedAt r) (i_revokedByUserId r)
    (i_claimedByUserId r) (i_claimedAt r) (i_claimantPhoneMatched r) (i_createdAt r).
Definition set_i_disputeReason (v : option string) (r : EnrollmentInvite) : EnrollmentInvite :=
  mkInvite (i_schoolId r) (i_createdByUserId r) (i_studentName r) (i_className r)
    (i_totalSchoolFee r) (i_amountAlreadyPaid r) (i_phoneNumber r) (i_parentPhoneHash r)
    (i_installmentFrequency r) (i_planStartDate r) (i_termEndDate r) (i_tokenHash r)
    (i_expiresAt r) (i_status r) v (i_disputedAt r) (i_revokedAt r) (i_revokedByUserId r)
    (i_claimedByUserId r) (i_claimedAt r) (i_claimantPhoneMatched r) (i_createdAt r).
Definition set_i_disputedAt (v : option Z) (r : EnrollmentInvite) : EnrollmentInvite :=
  mkInvite (i_schoolId r) (i_createdByUserId r) (i_studentName r) (i_className r)
    (i_totalSchoolFee r) (i_amountAlreadyPaid r) (i_phoneNumber r) (i_parentPhoneHash r)
    (i_installmentFrequency r) (i_planStartDate r) (i_termEndDate r) (i_tokenHash r)
    (i_expiresAt r) (i_status r) (i_disputeReason r) v (i_revokedAt r) (i_revokedByUserId r)
    (i_claimedByUserId r) (i_claimedAt r) (i_claimantPhoneMatched r) (i_createdAt r).
Definition set_i_revokedAt (v : option Z) (r : EnrollmentInvite) : EnrollmentInvite :=
  mkInvite (i_schoolId r) (i_createdByUserId r) (i_studentName r) (i_className r)
    (i_totalSchoolFee r) (i_amountAlreadyPaid r) (i_phoneNumber r) (i_parentPhoneHash r)
    (i_installmentFrequency r) (i_planStartDate r) (i_termEndDate r) (i_tokenHash r)
    (i_expiresAt r) (i_status r) (i_disputeReason r) (i_disputedAt r) v (i_revokedByUserId r)
    (i_claimedByUserId r) (i_claimedAt r) (i_claimantPhoneMatched r) (i_createdAt r).
Definition set_i_revokedByUserId (v : option id) (r : EnrollmentInvite) : EnrollmentInvite :=
  mkInvite (i_schoolId r) (i_createdByUserId r) (i_studentName r) (i_className r)
    (i_totalSchoolFee r) (i_amountAlreadyPaid r) (i_phoneNumber r) (i_parentPhoneHash r)
    (i_installmentFrequency r) (i_planStartDate r) (i_termEndDate r) (i_tokenHash r)
    (i_expiresAt r) (i_status r) (i_disputeReason r) (i_disputedAt r) (i_revokedAt r) v
    (i_claimedByUserId r) (i_claimedAt r) (i_claimantPhoneMatched r) (i_createdAt r).
Definition set_i_claimedByUserId (v : option id) (r : EnrollmentInvite) : EnrollmentInvite :=
  mkInvite (i_schoolId r) (i_createdByUserId r) (i_studentName r) (i_className r)
    (i_totalSchoolFee r) (i_amountAlreadyPaid r) (i_phoneNumber r) (i_parentPhoneHash r)
    (i_installmentFrequency r) (i_planStartDate r) (i_termEndDate r) (i_tokenHash r)
    (i_expiresAt r) (i_status r) (i_disputeReason r) (i_disputedAt r) (i_revokedAt r)
    (i_revokedByUserId r) v (i_claimedAt r) (i_claimantPhoneMatched r) (i_createdAt r).
Definition set_i_claimedAt (v : option Z) (r : EnrollmentInvite) : EnrollmentInvite :=
  mkInvite (i_schoolId r) (i_createdByUserId r) (i_studentName r) (i_className r)
    (i_totalSchoolFee r) (i_amountAlreadyPaid r) (i_phoneNumber r) (i_parentPhoneHash r)
    (i_installmentFrequency r) (i_planStartDate r) (i_termEndDate r) (i_tokenHash r)
    (i_expiresAt r) (i_status r) (i_disputeReason r) (i_disputedAt r) (i_revokedAt r)
    (i_revokedByUserId r) (i_claimedByUserId r) v (i_claimantPhoneMatched r) (i_createdAt r).
Definition set_i_claimantPhoneMatched (v : option bool) (r : EnrollmentInvite) : EnrollmentInvite :=
  mkInvite (i_schoolId r) (i_createdByUserId r) (i_studentName r) (i_className r)
    (i_totalSchoolFee r) (i_amountAlreadyPaid r) (i_phoneNumber r) (i_parentPhoneHash r)
    (i_installmentFrequency r) (i_planStartDate r) (i_termEndDate r) (i_tokenHash r)
    (i_expiresAt r) (i_status r) (i_disputeReason r) (i_disputedAt r) (i_revokedAt r)
    (i_revokedByUserId r) (i_claimedByUserId r) (i_claimedAt r) v (i_createdAt r).
Definition set_s_name (v : string) (r : School) : School :=
  mkSchool v (s_ownerId r) (s_phone r) (s_paystackSubaccountCode r) (s_paystackSubaccountActive
    r) (s_deletedAt r) (s_migrationDeadline r) (s_email r) (s_address r) (s_bankName r)
    (s_bankCode r) (s_accountName r) (s_accountNumber r).
Definition set_s_phone (v : string) (r : School) : School :=
  mkSchool (s_name r) (s_ownerId r) v (s_paystackSubaccountCode r) (s_paystackSubaccountActive
    r) (s_deletedAt r) (s_migrationDeadline r) (s_email r) (s_address r) (s_bankName r)
    (s_bankCode r) (s_accountName r) (s_accountNumber r).
Definition set_s_paystackSubaccountCode (v : option string) (r : School) : School :=
  mkSchool (s_name r) (s_ownerId r) (s_phone r) v (s_paystackSubaccountActive r) (s_deletedAt r)
    (s_migrationDeadline r) (s_email r) (s_address r) (s_bankName r) (s_bankCode r)
    (s_accountName r) (s_accountNumber r).
Definition set_s_paystackSubaccountActive (v : bool) (r : School) : School :=
  mkSchool (s_name r) (s_ownerId r) (s_phone r) (s_paystackSubaccountCode r) v (s_deletedAt r)
    (s_migrationDeadline r) (s_email r) (s_address r) (s_bankName r) (s_bankCode r)
    (s_accountName r) (s_accountNumber r).
Definition set_s_deletedAt (v : option Z) (r : School) : School :=
  mkSchool (s_name r) (s_ownerId r) (s_phone r) (s_paystackSubaccountCode r)
    (s_paystackSubaccountActive r) v (s_migrationDeadline r) (s_email r) (s_address r)
    (s_bankName r) (s_bankCode r) (s_accountName r) (s_accountNumber r).
Definition set_s_migrationDeadline (v : Z) (r : School) : School :=
  mkSchool (s_name r) (s_ownerId r) (s_phone r) (s_paystackSubaccountCode r)
    (s_paystackSubaccountActive r) (s_deletedAt r) v (s_email r) (s_address r) (s_bankName r)
    (s_bankCode r) (s_accountName r) (s_accountNumber r).
Definition set_s_address (v : string) (r : School) : School :=
  mkSchool (s_name r) (s_ownerId r) (s_phone r) (s_paystackSubaccountCode r)
    (s_paystackSubaccountActive r) (s_deletedAt r) (s_migrationDeadline r) (s_email r) v
    (s_bankName r) (s_bankCode r) (s_accountName r) (s_accountNumber r).
Definition set_s_bankName (v : string) (r : School) : School :=
  mkSchool (s_name r) (s_ownerId r) (s_phone r) (s_paystackSubaccountCode r)
    (s_paystackSubaccountActive r) (s_deletedAt r) (s_migrationDeadline r) (s_email r)
    (s_address r) v (s_bankCode r) (s_accountName r) (s_accountNumber r).
Definition set_s_bankCode (v : option string) (r : School) : School :=
  mkSchool (s_name r) (s_ownerId r) (s_phone r) (s_paystackSubaccountCode r)
    (s_paystackSubaccountActive r) (s_deletedAt r) (s_migrationDeadline r) (s_email r)
    (s_address r) (s_bankName r) v (s_accountName r) (s_accountNumber r).
Definition set_s_accountName (v : string) (r : School) : School :=
  mkSchool (s_name r) (s_ownerId r) (s_phone r) (s_paystackSubaccountCode r)
    (s_paystackSubaccountActive r) (s_deletedAt r) (s_migrationDeadline r) (s_email r)
    (s_address r) (s_bankName r) (s_bankCode r) v (s_accountNumber r).
Definition set_s_accountNumber (v : string) (r : School) : School :=
  mkSchool (s_name r) (s_ownerId r) (s_phone r) (s_paystackSubaccountCode r)
    (s_paystackSubaccountActive r) (s_deletedAt r) (s_migrationDeadline r) (s_email r)
    (s_address r) (s_bankName r) (s_bankCode r) (s_accountName r) v.
Definition set_u_email (v : string) (r : User) : User :=
  mkUser v (u_role r) (u_fullName r) (u_phoneNumber r) (u_phoneHash r) (u_deletedAt r) (u_name r).
Definition set_u_role (v : UserRole) (r : User) : User :=
  mkUser (u_email r) v (u_fullName r) (u_phoneNumber r) (u_phoneHash r) (u_deletedAt r) (u_name r).
Definition set_u_deletedAt (v : option Z) (r : User) : User :=
  mkUser (u_email r) (u_role r) (u_fullName r) (u_phoneNumber r) (u_phoneHash r) v (u_name r).
Definition set_cf_feeAmount (v : Z) (r : ClassFee) : ClassFee :=
  mkClassFee (cf_schoolId r) (cf_className r) v (cf_isActive r).
Definition set_cf_isActive (v : bool) (r : ClassFee) : ClassFee :=
  mkClassFee (cf_schoolId r) (cf_className r) (cf_feeAmount r) v.
Definition set_w_processedAt (v : option Z) (r : WebhookEvent) : WebhookEvent :=
  mkWebhookEvent (w_eventType r) (w_reference r) v (w_error r).
Definition set_w_error (v : option string) (r : WebhookEvent) : WebhookEvent :=
  mkWebhookEvent (w_eventType r) (w_reference r) (w_processedAt r) v.
Definition set_payments (v : gmap id Payment) (r : DB) : DB :=
  mkDB v (enrollments r) (invites r) (schools r) (classFees r) (parents r) (children r) (users
    r) (webhookEvents r) (schedulerLocks r) (sessions r) (oauthAccounts r) (notifications r) (auditLog r) (next_id
    r).
Definition set_enrollments (v : gmap id ChildEnrollment) (r : DB) : DB :=
  mkDB (payments r) v (invites r) (schools r) (classFees r) (parents r) (children r) (users r)
    (webhookEvents r) (schedulerLocks r) (sessions r) (oauthAccounts r) (notifications r) (auditLog r) (next_id
    r).
Definition set_invites (v : gmap id EnrollmentInvite) (r : DB) : DB :=
  mkDB (payments r) (enrollments r) v (schools r) (classFees r) (parents r) (children r) (users
    r) (webhookEvents r) (schedulerLocks r) (sessions r) (oauthAccounts r) (notifications r) (auditLog r) (next_id
    r).
Definition set_parents (v : gmap id Parent) (r : DB) : DB :=
  mkDB (payments r) (enrollments r) (invites r) (schools r) (classFees r) v (children r) (users
    r) (webhookEvents r) (schedulerLocks r) (sessions r) (oauthAccounts r) (notifications r) (auditLog r) (next_id
    r).
Definition set_children (v : gmap id Child) (r : DB) : DB :=
  mkDB (payments r) (enrollments r) (invites r) (schools r) (classFees r) (parents r) v (users
    r) (webhookEvents r) (schedulerLocks r) (sessions r) (oauthAccounts r) (notifications r) (auditLog r) (next_id
    r).
Definition set_webhookEvents (v : gmap string WebhookEvent) (r : DB) : DB :=
  mkDB (payments r) (enrollments r) (invites r) (schools r) (classFees r) (parents r) (children
    r) (users r) v (schedulerLocks r) (sessions r) (oauthAccounts r) (notifications r) (auditLog r) (next_id r).
Definition set_schedulerLocks (v : gmap string Z) (r : DB) : DB :=
  mkDB (payments r) (enrollments r) (invites r) (schools r) (classFees r) (parents r) (children
    r) (users r) (webhookEvents r) v (sessions r) (oauthAccounts r) (notifications r) (auditLog r) (next_id r).
Definition set_notifications (v : list Notification) (r : DB) : DB :=
  mkDB (payments r) (enrollments r) (invites r) (schools r) (classFees r) (parents r) (children
    r) (users r) (webhookEvents r) (schedulerLocks r) (sessions r) (oauthAccounts r) v (auditLog r) (next_id r).
Definition set_auditLog (v : list AuditEntry) (r : DB) : DB :=
  mkDB (payments r) (enrollments r) (invites r) (schools r) (classFees r) (parents r) (children
    r) (users r) (webhookEvents r) (schedulerLocks r) (sessions r) (oauthAccounts r) (notifications r) v (next_id
    r).
Definition set_next_id (v : id) (r : DB) : DB :=
  mkDB (payments r) (enrollments r) (invites r) (schools r) (classFees r) (parents r) (children
    r) (users r) (webhookEvents r) (schedulerLocks r) (sessions r) (oauthAccounts r) (notifications r) (auditLog
    r) v.
Definition set_schools (v : gmap id School) (r : DB) : DB :=
  mkDB (payments r) (enrollments r) (invites r) v (classFees r) (parents r) (children r) (users
    r) (webhookEvents r) (schedulerLocks r) (sessions r) (oauthAccounts r) (notifications r) (auditLog r) (next_id
    r).
Definition set_classFees (v : gmap id ClassFee) (r : DB) : DB :=
  mkDB (payments r) (enrollments r) (invites r) (schools r) v (parents r) (children r) (users r)
    (webhookEvents r) (schedulerLocks r) (sessions r) (oauthAccounts r) (notifications r) (auditLog r) (next_id
    r).
Definition set_users (v : gmap id User) (r : DB) : DB :=
  mkDB (payments r) (enrollments r) (invites r) (schools r) (classFees r) (parents r) (children
    r) v (webhookEvents r) (schedulerLocks r) (sessions r) (oauthAccounts r) (notifications r) (auditLog r)
    (next_id r).
Definition set_sessions (v : gmap id Session) (r : DB) : DB :=
  mkDB (payments r) (enrollments r) (invites r) (schools r) (classFees r) (parents r) (children
    r) (users r) (webhookEvents r) (schedulerLocks r) v (oauthAccounts r) (notifications r) (auditLog r) (next_id
    r).
Definition set_oauthAccounts (v : gmap id OAuthAccount) (r : DB) : DB :=
  mkDB (payments r) (enrollments r) (invites r) (schools r) (classFees r) (parents r) (children
    r) (users r) (webhookEvents r) (schedulerLocks r) (sessions r) v (notifications r) (auditLog
    r) (next_id r).
Definition set_u_fullName (v : option string) (r : User) : User :=
  mkUser (u_email r) (u_role r) v (u_phoneNumber r) (u_phoneHash r) (u_deletedAt r) (u_name r).
Definition set_u_name (v : option string) (r : User) : User :=
  mkUser (u_email r) (u_role r) (u_fullName r) (u_phoneNumber r) (u_phoneHash r) (u_deletedAt r) v.
Definition set_u_phoneNumber (v : option string) (r : User) : User :=
  mkUser (u_email r) (u_role r) (u_fullName r) v (u_phoneHash r) (u_deletedAt r) (u_name r).
Definition set_u_phoneHash (v : option string) (r : User) : User :=
  mkUser (u_email r) (u_role r) (u_fullName r) (u_phoneNumber r) v (u_deletedAt r) (u_name r).
