(* ===== verification/Effects.v ===== *)
(** * Stateful handlers

    A handler runs against the database and the outside world.  A thrown error
    keeps what was written before it, except inside [transaction], which rolls
    the database back (but not what was already sent outside it).  The
    primitives are the Prisma calls the services use. *)

From S2P Require Import Prelude Schedule Schema.

(** ** The world of a request *)

Inductive effect :=
| EvEnrollmentsChanged (parentUserId schoolId : option id) (notifyAdmins : bool)
| EvPaymentsChanged (parentUserId schoolId : option id) (notifyAdmins : bool)
| EvPush (userId : id) (n : Notification)
| Notify (n : Notification)
| Metric (outcome : string) (t : PaymentType) (r : PaymentReceiver) (latencyMs : option Z)
| MetricFeeDelta (kobo : Z)
| MetricReconcileConflict (s : PaymentTransactionStatus)
| Capture (reference : string)
| MetricStalledConfirmations (n : Z)
| CaptureStalled (n : Z).

Record World := mkWorld { db : DB; out : list effect }.

Definition M (A : Type) : Type := World -> res A * World.

#[export] Instance M_ret : MRet M := fun A a w => (Ok a, w).
#[export] Instance M_bind : MBind M := fun A B f m w =>
  match m w with
  | (Ok a, w1) => f a w1
  | (Err e, w1) => (Err e, w1)
  end.

Definition throw {A} (e : failure) : M A := fun w => (Err e, w).
(** [try { m } catch (e) { h e }] *)
Definition catch {A} (m : M A) (h : failure -> M A) : M A := fun w =>
  match m w with
  | (Ok a, w1) => (Ok a, w1)
  | (Err e, w1) => h e w1
  end.
Definition transaction {A} (m : M A) : M A := fun w =>
  match m w with
  | (Ok a, w1) => (Ok a, w1)
  | (Err e, w1) => (Err e, mkWorld (db w) (out w1))
  end.
Definition emit (e : effect) : M unit := fun w => (Ok tt, mkWorld (db w) (out w ++ [e])).
Definition read {A} (f : DB -> A) : M A := fun w => (Ok (f (db w)), w).
Definition write (f : DB -> DB) : M unit := fun w => (Ok tt, mkWorld (f (db w)) (out w)).
Definition ensure (b : bool) (e : failure) : M unit := if b then mret tt else throw e.
Definition when (b : bool) (m : M unit) : M unit := if b then m else mret tt.
Definition lift {A} (r : res A) : M A := fun w => (r, w).
Definition orThrow {A} (o : option A) (e : failure) : M A :=
  match o with Some a => mret a | None => throw e end.

(** Prisma's P2025, an [update] or [findUniqueOrThrow] of a missing row. *)
Definition P2025 : failure := FInternal "P2025: record not found".

(** ** Payments *)

(** [payment.updateMany({ where: { id, ...cond }, data })]: the row count. *)
Definition updateManyPayment (pid : id) (cond : Payment -> bool) (data : Payment -> Payment) : M Z :=
  p ← read (fun d => payments d !! pid);
  match p with
  | Some p =>
      if cond p then
        write (fun d => set_payments (<[pid := data p]> (payments d)) d);; mret 1
      else mret 0
  | None => mret 0
  end.

Definition findPaymentOrThrow (pid : id) : M Payment :=
  p ← read (fun d => payments d !! pid); orThrow p P2025.

(** [findUnique] on a unique column, [findFirst] on any condition: the first
    matching row in the table's order. *)
Definition find_row {V} (cond : V -> bool) (m : gmap id V) : option (id * V) :=
  head (filter (fun kv : id * V => cond kv.2 = true) (map_to_list m)).

Definition by_reference (ref : string) (p : Payment) : bool :=
  bool_decide (p_paystackReference p = Some ref).
Definition by_idempotencyKey (key : string) (p : Payment) : bool :=
  bool_decide (p_idempotencyKey p = Some key).

Definition fresh_id : M id :=
  i ← read next_id; write (fun d => set_next_id (Pos.succ (next_id d)) d);; mret i.

(** Whether a unique column already holds a value. *)
Definition taken {V} (cond : V -> bool) (m : gmap id V) : bool :=
  bool_decide (is_Some (find_row cond m)).
Definition key_taken (key : option string) (d : DB) : bool :=
  match key with Some k => taken (by_idempotencyKey k) (payments d) | None => false end.
Definition reference_taken (reference : option string) (d : DB) : bool :=
  match reference with Some r => taken (by_reference r) (payments d) | None => false end.

(** [payment.create], with the table's unique columns. *)
Definition createPayment (p : Payment) : M id :=
  clash_key ← read (key_taken (p_idempotencyKey p));
  ensure (negb clash_key) (FUnique "idempotencyKey");;
  clash_ref ← read (reference_taken (p_paystackReference p));
  ensure (negb clash_ref) (FUnique "paystackReference");;
  pid ← fresh_id;
  write (fun d => set_payments (<[pid := p]> (payments d)) d);;
  mret pid.

(** ** Enrollments *)

Definition findEnrollmentOrThrow (eid : id) : M ChildEnrollment :=
  e ← read (fun d => enrollments d !! eid); orThrow e P2025.

Definition updateEnrollment (eid : id) (data : ChildEnrollment -> ChildEnrollment) : M ChildEnrollment :=
  e ← findEnrollmentOrThrow eid;
  write (fun d => set_enrollments (<[eid := data e]> (enrollments d)) d);;
  mret (data e).

Definition updateManyEnrollment (eid : id) (cond : ChildEnrollment -> bool)
    (data : ChildEnrollment -> ChildEnrollment) : M Z :=
  e ← read (fun d => enrollments d !! eid);
  match e with
  | Some e =>
      if cond e then
        write (fun d => set_enrollments (<[eid := data e]> (enrollments d)) d);; mret 1
      else mret 0
  | None => mret 0
  end.

Definition invite_taken (inviteId : option id) (d : DB) : bool :=
  match inviteId with
  | Some i => taken (fun e => bool_decide (e_enrollmentInviteId e = Some i)) (enrollments d)
  | None => false
  end.
Definition child_enrolled (childId : id) (d : DB) : bool :=
  taken (fun e => bool_decide (e_childId e = childId)) (enrollments d).

(** [childEnrollment.create], unique on the invite and on the child. *)
Definition createEnrollment (e : ChildEnrollment) : M id :=
  clash_inv ← read (invite_taken (e_enrollmentInviteId e));
  ensure (negb clash_inv) (FUnique "enrollmentInviteId");;
  clash_child ← read (child_enrolled (e_childId e));
  ensure (negb clash_child) (FUnique "childId");;
  eid ← fresh_id;
  write (fun d => set_enrollments (<[eid := e]> (enrollments d)) d);;
  mret eid.

(** ** Invites *)

(** [enrollmentInvite.updateMany({ where: { id, ...cond }, data })] *)
Definition updateManyInvite (iid : id) (cond : EnrollmentInvite -> bool)
    (data : EnrollmentInvite -> EnrollmentInvite) : M Z :=
  i ← read (fun d => invites d !! iid);
  match i with
  | Some i =>
      if cond i then write (fun d => set_invites (<[iid := data i]> (invites d)) d);; mret 1
      else mret 0
  | None => mret 0
  end.

(** ** Audit and notifications *)

Definition audit_record (a : AuditEntry) : M unit :=
  write (fun d => set_auditLog (auditLog d ++ [a]) d).
(** [tx.notification.create]: a row of the transaction. *)
Definition createNotification (n : Notification) : M Notification :=
  write (fun d => set_notifications (notifications d ++ [n]) d);; mret n.
(** [NotificationsService.create]: sent outside any transaction. *)
Definition notify (n : Notification) : M unit := emit (Notify n).

(** The message a unique violation is recognised by. *)
Definition includes (sub s : string) : bool :=
  match String.index 0 sub s with Some _ => true | None => false end.
Definition isUniqueConflictOn (err : failure) (field : string) : bool :=
  match err with FUnique target => includes field target | _ => false end.

(** [webhookEvent.create], unique on [dedupeKey]. *)
Definition createWebhookEvent (dedupeKey : string) (ev : WebhookEvent) : M unit :=
  old ← read (fun d => webhookEvents d !! dedupeKey);
  match old with
  | Some _ => throw (FUnique "dedupeKey")
  | None => write (fun d => set_webhookEvents (<[dedupeKey := ev]> (webhookEvents d)) d)
  end.
(** [webhookEvent.delete(...).catch(() => undefined)] *)
Definition deleteWebhookEvent (dedupeKey : string) : M unit :=
  write (fun d => set_webhookEvents (delete dedupeKey (webhookEvents d)) d).

(** ** Joins

    [include: { enrollment: { include: { school, child: { parent } } } }].
    Foreign keys make every joined row exist. *)
Record Joined := mkJoined {
  j_eid : id;
  j_enrollment : ChildEnrollment;
  j_school : School;
  j_child : Child;
  j_parent : Parent }.

Definition join_enrollment (d : DB) (eid : id) : option Joined :=
  e ← enrollments d !! eid;
  s ← schools d !! e_schoolId e;
  c ← children d !! e_childId e;
  pr ← parents d !! c_parentId c;
  Some (mkJoined eid e s c pr).

Definition j_userId (j : Joined) : id := par_userId (j_parent j).

(** A payment with its joined enrollment, read before a transaction. *)
Record Snapshot := mkSnapshot { sn_pid : id; sn_payment : Payment; sn_join : Joined }.

Definition findPaymentJoined (pid : id) (cond : Payment -> bool) (d : DB) : option Snapshot :=
  p ← payments d !! pid;
  if cond p then
    j ← join_enrollment d (p_enrollmentId p); Some (mkSnapshot pid p j)
  else None.

Definition findPaymentByReference (reference : string) (d : DB) : option Snapshot :=
  '(pid, p) ← find_row (by_reference reference) (payments d);
  j ← join_enrollment d (p_enrollmentId p);
  Some (mkSnapshot pid p j).

Lemma find_row_some {V} (cond : V -> bool) (m : gmap id V) k v :
  find_row cond m = Some (k, v) -> m !! k = Some v /\ cond v = true.
Proof.
  unfold find_row. intros H.
  assert ((k, v) ∈ filter (fun kv : id * V => cond kv.2 = true) (map_to_list m)) as Hin.
  { destruct (filter _ _) as [|x l]; [done|]. simpl in H. injection H as ->. left. }
  apply list_elem_of_filter in Hin as [Hc Hin]. by apply elem_of_map_to_list in Hin.
Qed.

Lemma find_row_none {V} (cond : V -> bool) (m : gmap id V) k v :
  find_row cond m = None -> m !! k = Some v -> cond v = false.
Proof.
  unfold find_row. intros H Hk. destruct (cond v) eqn:Ec; [|done]. exfalso.
  assert ((k, v) ∈ filter (fun kv : id * V => cond kv.2 = true) (map_to_list m)) as Hin.
  { apply list_elem_of_filter. split; [done|]. by apply elem_of_map_to_list. }
  destruct (filter _ _); [by apply elem_of_nil in Hin|done].
Qed.

Lemma find_row_unique {V} (cond : V -> bool) (m : gmap id V) k v :
  m !! k = Some v -> cond v = true ->
  (forall k' v', m !! k' = Some v' -> cond v' = true -> k' = k) -> find_row cond m = Some (k, v).
Proof.
  intros Hk Hc Hu. destruct (find_row cond m) as [[k' v']|] eqn:E.
  - apply find_row_some in E as [Hk' Hc']. pose proof (Hu _ _ Hk' Hc') as ->. congruence.
  - by rewrite (find_row_none _ _ _ _ E Hk) in Hc.
Qed.

#[global] Arguments find_row : simpl never.
#[global] Arguments taken : simpl never.
#[global] Arguments join_enrollment : simpl never.
#[global] Arguments findPaymentJoined : simpl never.
#[global] Arguments findPaymentByReference : simpl never.

(** ** Running handlers *)

Lemma bind_run {A B} (m : M A) (f : A -> M B) w b w2 :
  (m ≫= f) w = (Ok b, w2) -> exists a w1, m w = (Ok a, w1) /\ f a w1 = (Ok b, w2).
Proof.
  unfold mbind, M_bind. destruct (m w) as [[a|e] w1]; [eauto|done].
Qed.

Lemma ret_run {A} (a b : A) w w2 : @mret M _ _ a w = (Ok b, w2) -> a = b /\ w2 = w.
Proof. by intros [= -> ->]. Qed.

Lemma read_run {A} (f : DB -> A) w a w2 : read f w = (Ok a, w2) -> a = f (db w) /\ w2 = w.
Proof. by intros [= <- <-]. Qed.

Lemma write_run f w u w2 : write f w = (Ok u, w2) -> w2 = mkWorld (f (db w)) (out w).
Proof. by intros [= _ <-]. Qed.

Lemma emit_run e w u w2 : emit e w = (Ok u, w2) -> w2 = mkWorld (db w) (out w ++ [e]).
Proof. by intros [= _ <-]. Qed.

Lemma ensure_run b e w u w2 : ensure b e w = (Ok u, w2) -> b = true /\ w2 = w.
Proof. unfold ensure. destruct b; [by intros [= _ <-]|done]. Qed.

Lemma orThrow_run {A} (o : option A) e w a w2 : orThrow o e w = (Ok a, w2) -> o = Some a /\ w2 = w.
Proof. unfold orThrow. destruct o; [by intros [= <- <-]|done]. Qed.

Lemma when_run (b : bool) (m : M unit) w u w2 :
  when b m w = (Ok u, w2) -> (b = true /\ exists u', m w = (Ok u', w2)) \/ (b = false /\ w2 = w).
Proof. unfold when. destruct b; [eauto|]. intros [= _ <-]. auto. Qed.

Lemma transaction_run {A} (m : M A) w a w2 :
  transaction m w = (Ok a, w2) -> m w = (Ok a, w2).
Proof. unfold transaction. by destruct (m w) as [[?|?] ?]. Qed.

(** A transaction that throws leaves the database as it was. *)
Lemma transaction_rollback {A} (m : M A) w e w2 :
  transaction m w = (Err e, w2) -> db w2 = db w.
Proof. unfold transaction. destruct (m w) as [[?|?] ?]; [done|]. by intros [= _ <-]. Qed.

Lemma updateManyPayment_run pid cond data w n w2 :
  updateManyPayment pid cond data w = (Ok n, w2) ->
  (n = 0 /\ w2 = w /\ (forall p, payments (db w) !! pid = Some p -> cond p = false)) \/
  (n = 1 /\ exists p, payments (db w) !! pid = Some p /\ cond p = true /\
    w2 = mkWorld (set_payments (<[pid := data p]> (payments (db w))) (db w)) (out w)).
Proof.
  unfold updateManyPayment. intros H. apply bind_run in H as (o & w1 & [-> ->]%read_run & H).
  destruct (payments (db w) !! pid) as [p|] eqn:E.
  - destruct (cond p) eqn:Ec.
    + apply bind_run in H as (? & ? & ->%write_run & [<- ->]%ret_run). right. eauto.
    + apply ret_run in H as [<- ->]. left. split; [done|]. split; [done|]. congruence.
  - apply ret_run in H as [<- ->]. left. split; [done|]. split; [done|]. congruence.
Qed.

Lemma updateManyEnrollment_run eid cond data w n w2 :
  updateManyEnrollment eid cond data w = (Ok n, w2) ->
  (n = 0 /\ w2 = w) \/
  (n = 1 /\ exists e, enrollments (db w) !! eid = Some e /\ cond e = true /\
    w2 = mkWorld (set_enrollments (<[eid := data e]> (enrollments (db w))) (db w)) (out w)).
Proof.
  unfold updateManyEnrollment. intros H. apply bind_run in H as (o & w1 & [-> ->]%read_run & H).
  destruct (enrollments (db w) !! eid) as [p|] eqn:E; [destruct (cond p) eqn:Ec|].
  - apply bind_run in H as (? & ? & ->%write_run & [<- ->]%ret_run). right. eauto.
  - apply ret_run in H as [<- ->]. by left.
  - apply ret_run in H as [<- ->]. by left.
Qed.

Lemma updateManyInvite_run iid cond data w n w2 :
  updateManyInvite iid cond data w = (Ok n, w2) ->
  (n = 0 /\ w2 = w) \/
  (n = 1 /\ exists i, invites (db w) !! iid = Some i /\ cond i = true /\
    w2 = mkWorld (set_invites (<[iid := data i]> (invites (db w))) (db w)) (out w)).
Proof.
  unfold updateManyInvite. intros H. apply bind_run in H as (o & w1 & [-> ->]%read_run & H).
  destruct (invites (db w) !! iid) as [p|] eqn:E; [destruct (cond p) eqn:Ec|].
  - apply bind_run in H as (? & ? & ->%write_run & [<- ->]%ret_run). right. eauto.
  - apply ret_run in H as [<- ->]. by left.
  - apply ret_run in H as [<- ->]. by left.
Qed.

Lemma findEnrollmentOrThrow_run eid w e w2 :
  findEnrollmentOrThrow eid w = (Ok e, w2) -> enrollments (db w) !! eid = Some e /\ w2 = w.
Proof.
  intros H. apply bind_run in H as (o & w1 & [-> ->]%read_run & [H ->]%orThrow_run). done.
Qed.

Lemma findPaymentOrThrow_run pid w p w2 :
  findPaymentOrThrow pid w = (Ok p, w2) -> payments (db w) !! pid = Some p /\ w2 = w.
Proof.
  intros H. apply bind_run in H as (o & w1 & [-> ->]%read_run & [H ->]%orThrow_run). done.
Qed.

Lemma updateEnrollment_run eid data w e2 w2 :
  updateEnrollment eid data w = (Ok e2, w2) ->
  exists e, enrollments (db w) !! eid = Some e /\ e2 = data e /\
    w2 = mkWorld (set_enrollments (<[eid := data e]> (enrollments (db w))) (db w)) (out w).
Proof.
  intros H. apply bind_run in H as (e & w1 & [He ->]%findEnrollmentOrThrow_run & H).
  apply bind_run in H as (? & ? & ->%write_run & [<- ->]%ret_run). eauto.
Qed.

Lemma audit_record_run a w u w2 :
  audit_record a w = (Ok u, w2) ->
  w2 = mkWorld (set_auditLog (auditLog (db w) ++ [a]) (db w)) (out w).
Proof. intros H. by apply write_run in H. Qed.

Lemma createNotification_run n w m w2 :
  createNotification n w = (Ok m, w2) ->
  m = n /\ w2 = mkWorld (set_notifications (notifications (db w) ++ [n]) (db w)) (out w).
Proof.
  intros H. apply bind_run in H as (? & ? & ->%write_run & [<- ->]%ret_run). done.
Qed.

(** Step through a successful run, one primitive at a time, replacing every
    intermediate world by what it is. *)
Ltac run_step H :=
  lazymatch type of H with
  | mbind _ _ _ = (Ok _, _) =>
      let a := fresh "a" in let w := fresh "w" in let H1 := fresh "H" in
      apply bind_run in H as (a & w & H1 & H); run_step H1; run_step H
  | mret _ _ = (Ok _, _) =>
      let E := fresh "E" in apply ret_run in H as [E ->]; try subst
  | read _ _ = (Ok _, _) => apply read_run in H as [-> ->]
  | write _ _ = (Ok _, _) => apply write_run in H as ->
  | emit _ _ = (Ok _, _) => apply emit_run in H as ->
  | notify _ _ = (Ok _, _) => apply emit_run in H as ->
  | audit_record _ _ = (Ok _, _) => apply audit_record_run in H as ->
  | createNotification _ _ = (Ok _, _) => apply createNotification_run in H as [-> ->]
  | ensure _ _ _ = (Ok _, _) => apply ensure_run in H as [H ->]; to_prop
  | orThrow _ _ _ = (Ok _, _) => apply orThrow_run in H as [H ->]
  | findEnrollmentOrThrow _ _ = (Ok _, _) => apply findEnrollmentOrThrow_run in H as [H ->]
  | findPaymentOrThrow _ _ = (Ok _, _) => apply findPaymentOrThrow_run in H as [H ->]
  | updateEnrollment _ _ _ = (Ok _, _) =>
      let e := fresh "e" in let He := fresh "He" in
      apply updateEnrollment_run in H as (e & He & -> & ->)
  | transaction _ _ = (Ok _, _) => apply transaction_run in H; run_step H
  | throw _ _ = (Ok _, _) => discriminate H
  | _ => idtac
  end.

(** Compute a run forwards: unfold the primitives and feed every lookup the
    context knows. *)
Ltac exec :=
  unfold updateManyPayment, updateManyEnrollment, updateManyInvite, findPaymentOrThrow,
    updateEnrollment, findEnrollmentOrThrow, audit_record, createNotification, createWebhookEvent,
    deleteWebhookEvent, notify, emit, read, write, orThrow, ensure, when, throw, catch, transaction,
    fresh_id, mbind, M_bind, mret, M_ret;
  repeat (cbn -[lookup insert delete Z.add Z.sub Z.max]; first
    [ rewrite lookup_insert_eq
    | match goal with
      | H : ?m !! ?k = _ |- context [ ?m !! ?k ] => rewrite H
      | H : ?b = true |- context [ ?b ] => rewrite H
      | H : ?b = false |- context [ ?b ] => rewrite H
      end ]);
  rewrite ?insert_insert_eq.

Lemma createEnrollment_eq e w :
  createEnrollment e w =
    if invite_taken (e_enrollmentInviteId e) (db w) then (Err (FUnique "enrollmentInviteId"), w)
    else if child_enrolled (e_childId e) (db w) then (Err (FUnique "childId"), w)
    else (Ok (next_id (db w)), mkWorld
      (set_enrollments (<[next_id (db w) := e]> (enrollments (db w)))
        (set_next_id (Pos.succ (next_id (db w))) (db w))) (out w)).
Proof.
  unfold createEnrollment, read, ensure, throw, fresh_id, write, mbind, M_bind, mret, M_ret.
  destruct (invite_taken _ (db w)); [done|]. cbn -[insert child_enrolled].
  by destruct (child_enrolled _ (db w)).
Qed.

Lemma createPayment_eq p w :
  createPayment p w =
    if key_taken (p_idempotencyKey p) (db w) then (Err (FUnique "idempotencyKey"), w)
    else if reference_taken (p_paystackReference p) (db w) then (Err (FUnique "paystackReference"), w)
    else (Ok (next_id (db w)), mkWorld
      (set_payments (<[next_id (db w) := p]> (payments (db w)))
        (set_next_id (Pos.succ (next_id (db w))) (db w))) (out w)).
Proof.
  unfold createPayment, read, ensure, throw, fresh_id, write, mbind, M_bind, mret, M_ret.
  destruct (key_taken _ (db w)); [done|]. cbn -[insert reference_taken].
  by destruct (reference_taken _ (db w)).
Qed.
