(* ===== verification/Samples.v ===== *)
(** * A small database

    One school, one family, one open plan with a submitted installment and a
    card payment in flight, for the witnesses of the theorems. *)

From S2P Require Import Prelude Schedule Schema Effects.

Definition sample_school : School := mkSchool "Greenfield" 10%positive "08030000000" (Some "ACCT_1") true None 0
  "office@greenfield.ng" "1 Marina" "GTBank" (Some "058") "GREENFIELD SCHOOLS" "0123456789".
Definition sample_plan : ChildEnrollment :=
  mkEnrollment 3%positive 1%positive "JSS1" 10000000 250000 2500000 2500000 7500000 ACTIVE MONTHLY
    0 7776000000 None 0.
(** A plan whose first payment is still to come. *)
Definition sample_pending_plan : ChildEnrollment :=
  mkEnrollment 8%positive 1%positive "JSS2" 10000000 250000 2500000 2500000 10000000 PENDING MONTHLY
    0 7776000000 None 0.

Definition sample_installment : Payment :=
  mkPayment 4%positive 1%positive (Some "key-1") 2500000 0 2500000 SCHOOL INSTALLMENT TX_PENDING
    false 1000 None None None None None None None.
Definition sample_card : Payment :=
  mkPayment 9%positive 1%positive (Some "key-2") 2750000 250000 2500000 PLATFORM FIRST_PAYMENT TX_PENDING
    false 1000 None (Some "lopay_1") (Some "AC_1") (Some 2802000) (Some 52000) None (Some 302000).

Definition sample_db : DB := {|
  payments := {[ 5%positive := sample_installment; 6%positive := sample_card ]};
  enrollments := {[ 4%positive := sample_plan; 9%positive := sample_pending_plan ]};
  invites := ∅;
  schools := {[ 1%positive := sample_school ]};
  classFees := {[ 7%positive := mkClassFee 1%positive "JSS1" 10000000 true ]};
  parents := {[ 2%positive := mkParent 11%positive "08031111111" ]};
  children := {[ 3%positive := mkChild 2%positive "Ada" "JSS1"; 8%positive := mkChild 2%positive "Obi" "JSS2" ]};
  users := {[ 10%positive := mkUser "owner@x.ng" SCHOOL_OWNER None None None None None;
              11%positive := mkUser "parent@x.ng" PARENT None (Some "08031111111") None None None;
              12%positive := mkUser "admin@x.ng" SUPER_ADMIN None None None None None ]};
  webhookEvents := ∅;
  schedulerLocks := ∅;
  sessions := {[ 16%positive := mkSession 10%positive 0; 17%positive := mkSession 11%positive 0 ]};
  oauthAccounts := ∅;
  notifications := [];
  auditLog := [];
  next_id := 20%positive |}.

Definition sample : World := mkWorld sample_db [].
Definition sample_owner : AuditActor := mkActor 10%positive SCHOOL_OWNER.
Definition sample_admin : AuditActor := mkActor 12%positive SUPER_ADMIN.

(** The card payment with its joined plan. *)
Definition sample_card_snapshot (p : Payment) : Snapshot :=
  mkSnapshot 6%positive p (mkJoined 9%positive sample_pending_plan sample_school
    (mkChild 2%positive "Obi" "JSS2") (mkParent 11%positive "08031111111")).

(** A school's book with one live invite and no plan yet. *)
Definition sample_link : string := "AAAAAAAAAAAAAAAAAAAAAAAAAAAAAAAAAAAAAAAAAAA".
Definition sample_invite : EnrollmentInvite := {|
  i_schoolId := 1%positive;
  i_createdByUserId := 10%positive;
  i_studentName := "Bola";
  i_className := "JSS1";
  i_totalSchoolFee := 10000000;
  i_amountAlreadyPaid := 4000000;
  i_phoneNumber := "+2348031111111";
  i_parentPhoneHash := "#+2348031111111";
  i_installmentFrequency := MONTHLY;
  i_planStartDate := 0;
  i_termEndDate := 7776000000;
  i_tokenHash := "#" +:+ sample_link;
  i_expiresAt := 5000;
  i_status := INV_PENDING;
  i_disputeReason := None;
  i_disputedAt := None;
  i_revokedAt := None;
  i_revokedByUserId := None;
  i_claimedByUserId := None;
  i_claimedAt := None;
  i_claimantPhoneMatched := None;
  i_createdAt := 0 |}.
Definition sample_invites : World :=
  mkWorld (set_invites {[ 15%positive := sample_invite ]}
    (set_payments ∅ (set_enrollments ∅ sample_db))) [].
