(* ===== verification/EnrollmentView.v ===== *)
(** * What a parent is shown

    [src/enrollment/enrollment-view.ts] and [src/enrollment/payment-outcome.ts]:
    the projection of a plan onto the wire, the dashboard headline, and the
    verdict on a payment. *)

From Stdlib Require Import QArith Qround Qabs Qpower Lqa Ascii String.
From S2P Require Import Prelude JsNumber Money Dates Schedule Schema Effects.

Local Open Scope string_scope.
Local Open Scope Z_scope.

(** ** Dates on the wire *)

Definition digit (n : Z) : ascii := ascii_of_nat (48 + Z.to_nat (n mod 10)).
(** The last [k] decimal digits of [n]. *)
Fixpoint pad (k : nat) (n : Z) : string :=
  match k with
  | O => EmptyString
  | S k => pad k (n / 10) +:+ String (digit n) EmptyString
  end.
(** [date.toISOString().split('T')[0]], with the six-digit years outside 0-9999. *)
Definition iso_date (t : Z) : string :=
  let y := getFullYear t in
  (if (0 <=? y) && (y <=? 9999) then pad 4 y
   else (if y <? 0 then "-" else "+") +:+ pad 6 (Z.abs y))
  +:+ "-" +:+ pad 2 (getMonth t + 1) +:+ "-" +:+ pad 2 (getDate t).

Example iso_epoch : iso_date 0 = "1970-01-01"%string /\ iso_date 1709164800000 = "2024-02-29"%string.
Proof. vm_compute. split; reflexivity. Qed.

(** ** One plan *)

Record EnrollmentPaymentView := mkPaymentView {
  pv_id : id;
  pv_amount : Q;
  pv_type : PaymentType;
  pv_status : PaymentTransactionStatus;
  pv_isConfirmed : bool;
  pv_date : Z;
  pv_receiptUrl : option string }.

Record EnrollmentView := mkView {
  v_id : id;
  v_childId : id;
  v_schoolId : id;
  v_className : string;
  v_paymentStatus : PaymentStatus;
  v_installmentFrequency : InstallmentFrequency;
  v_termStartDate : Z;
  v_termEndDate : Z;
  v_childName : option string;
  v_schoolName : option string;
  v_totalFee : Q;
  v_paidAmount : Q;
  v_remainingBalance : Q;
  v_availableBalance : Q;
  v_nextDueDate : option string;
  v_nextInstallmentAmount : Q;
  v_installmentsPaid : Z;
  v_installmentsTotal : Z;
  v_creditTowardNextInstallment : Q;
  v_payments : list EnrollmentPaymentView }.

(** A column is always a real date, so the first candidate is usable. *)
Definition scheduleAnchor (e : ChildEnrollment) : option Z :=
  head [e_termStartDate e; e_createdAt e].

Definition naira (kobo : Z) : Q := Money.toNaira (Money.of_int kobo).

Definition installment (p : Payment) : bool := bool_decide (p_paymentType p = INSTALLMENT).
Definition pending_installment (p : Payment) : bool :=
  installment p && bool_decide (p_status p = TX_PENDING) && negb (p_isConfirmed p).

Definition reduce_paid (cond : Payment -> bool) (ps : list (id * Payment)) : Z :=
  reduce_sum (fun kv : id * Payment => p_amountPaid kv.2)
    (filter (fun kv : id * Payment => cond kv.2 = true) ps).

(** What is left to offer: the balance less what was already submitted. *)
Definition availableKobo (e : ChildEnrollment) (ps : list (id * Payment)) : Z :=
  Z.max 0 (e_remainingBalance e - reduce_paid pending_installment ps).

Definition view_progress (e : ChildEnrollment) (ps : list (id * Payment)) : PlanProgress :=
  derivePlanProgress (e_remainingBalance e)
    (reduce_paid (fun p => p_isConfirmed p && installment p) ps)
    (freq_string (e_installmentFrequency e)).

Definition payment_view (kv : id * Payment) : EnrollmentPaymentView :=
  mkPaymentView kv.1 (naira (p_amountPaid kv.2)) (p_paymentType kv.2) (p_status kv.2)
    (p_isConfirmed kv.2) (p_paymentDate kv.2) (p_receiptUrl kv.2).

Definition toEnrollmentView (eid : id) (e : ChildEnrollment) (childName schoolName : option string)
    (ps : list (id * Payment)) : EnrollmentView :=
  let paidAmountKobo := reduce_paid p_isConfirmed ps in
  let progress := view_progress e ps in
  let anchor := scheduleAnchor e in
  let nextDueDate :=
    if settled progress then None
    else (fun a => installmentDueDate a (freq_string (e_installmentFrequency e))
                     (paidInstallments progress + 1)) <$> anchor in
  {| v_id := eid;
     v_childId := e_childId e;
     v_schoolId := e_schoolId e;
     v_className := e_className e;
     v_paymentStatus := e_paymentStatus e;
     v_installmentFrequency := e_installmentFrequency e;
     v_termStartDate := e_termStartDate e;
     v_termEndDate := e_termEndDate e;
     v_childName := childName;
     v_schoolName := schoolName;
     v_totalFee := naira (e_totalSchoolFee e);
     v_paidAmount := naira paidAmountKobo;
     v_remainingBalance := naira (e_remainingBalance e);
     v_availableBalance := naira (availableKobo e ps);
     v_nextDueDate := iso_date <$> nextDueDate;
     v_nextInstallmentAmount := naira (nextInstallmentAmount progress);
     v_installmentsPaid := paidInstallments progress;
     v_installmentsTotal := totalInstallments progress;
     v_creditTowardNextInstallment := naira (creditTowardNextInstallment progress);
     v_payments := payment_view <$> ps |}.

(** ** The dashboard *)

Record DashboardSummary := mkSummary {
  ds_amount : Q;
  ds_dueDate : option string;
  ds_enrollmentCount : Z;
  ds_enrollmentId : option id;
  ds_childName : option string;
  ds_activePlans : Z;
  ds_totalPlans : Z;
  ds_totalOutstanding : Q }.

Definition positive_naira (q : Q) : bool := negb (Qle_bool q 0).
Definition contributes (v : EnrollmentView) : bool :=
  bool_decide (v_paymentStatus v = ACTIVE) && positive_naira (v_remainingBalance v)
  && positive_naira (v_nextInstallmentAmount v).

(** [.sort()[0]]: the least string, by code units. *)
Definition string_min (a b : string) : string := if String.leb a b then a else b.
Definition least (l : list string) : option string :=
  match l with [] => None | s :: l => Some (fold_left string_min l s) end.

Definition kobo_of (q : Q) : Z := Money.toKobo (Money.fromNaira q).

Definition summariseParentDashboard (views : list EnrollmentView) : DashboardSummary :=
  let contributing := filter (fun v => contributes v = true) views in
  let amountKobo := reduce_sum (fun v => kobo_of (v_nextInstallmentAmount v)) contributing in
  let dueDates := omap v_nextDueDate contributing in
  let only := match contributing with [v] => Some v | _ => None end in
  let outstandingKobo := reduce_sum (fun v => kobo_of (v_remainingBalance v))
    (filter (fun v => v_paymentStatus v <> FAILED) views) in
  {| ds_amount := naira amountKobo;
     ds_dueDate := least dueDates;
     ds_enrollmentCount := Z.of_nat (length contributing);
     ds_enrollmentId := v_id <$> only;
     ds_childName := only ≫= v_childName;
     ds_activePlans := Z.of_nat (length (filter (fun v => v_paymentStatus v = ACTIVE) views));
     ds_totalPlans := Z.of_nat (length views);
     ds_totalOutstanding := naira outstandingKobo |}.

(** ** The verdict *)

Inductive PaymentOutcomeState := succeeded | processing | failed | cancelled.
#[export] Instance PaymentOutcomeState_eq_dec : EqDecision PaymentOutcomeState.
Proof. solve_decision. Defined.

Definition derivePaymentOutcomeState (p : Payment) : PaymentOutcomeState :=
  if p_isConfirmed p then succeeded
  else match p_status p with
       | TX_SUCCESS => processing
       | TX_FAILED | TX_REVERSED => failed
       | _ => processing
       end.

(** ** Kobo through the wire *)

Lemma kobo_of_naira k : Z.abs k <= 2 ^ 50 -> kobo_of (naira k) = k.
Proof. apply Money.fromNaira_toNaira_kobo. Qed.

Lemma round_times_100 (q : Q) : (q <= 0)%Q -> Math_round (js_mul q 100) <= 0.
Proof.
  intros H. rewrite <- (Math_round_int 0). apply Math_round_mono.
  change (inject_Z 0) with (fl 0). apply fl_mono.
  change 0%Q with (0 * 100)%Q. by apply Qmult_le_compat_r.
Qed.

Lemma naira_nonpos k : k <= 0 -> (naira k <= 0)%Q.
Proof.
  intros H. change 0%Q with (fl 0). apply fl_mono. unfold Money._kobo, Money.of_int.
  apply Qle_shift_div_r; [reflexivity|]. change (0 * 100)%Q with (inject_Z 0). by rewrite <- Zle_Qle.
Qed.

Lemma naira_positive k : Z.abs k <= 2 ^ 50 -> positive_naira (naira k) = (0 <? k).
Proof.
  intros Hk. pose proof (kobo_of_naira k Hk) as Hr. unfold positive_naira.
  destruct (Qle_bool (naira k) 0) eqn:E; simpl; symmetry.
  - apply Qle_bool_iff, round_times_100 in E. apply Z.ltb_ge. rewrite <- Hr. exact E.
  - apply Z.ltb_lt. destruct (Z.le_gt_cases k 0) as [H|H]; [|lia].
    apply naira_nonpos, Qle_bool_iff in H. congruence.
Qed.

Lemma next_range rb ip f :
  0 <= nextInstallmentAmount (derivePlanProgress rb ip f) <= Z.max 0 rb.
Proof.
  unfold derivePlanProgress. rewrite (Math_round_int rb).
  destruct (Z.max 0 rb <=? 0) eqn:E; cbn [nextInstallmentAmount]; [lia|]. to_prop.
  match goal with |- context [0 <? ?x] => generalize x; intros y end.
  destruct (0 <? y) eqn:E2; to_prop; lia.
Qed.

(** ** The headline *)

(** A plan of the parent: its row, its names and its payments. *)
Record Plan := mkPlan {
  pl_id : id;
  pl_enrollment : ChildEnrollment;
  pl_childName : option string;
  pl_schoolName : option string;
  pl_payments : list (id * Payment) }.

Definition plan_view (p : Plan) : EnrollmentView :=
  toEnrollmentView (pl_id p) (pl_enrollment p) (pl_childName p) (pl_schoolName p) (pl_payments p).
Definition plan_next (p : Plan) : Z :=
  nextInstallmentAmount (view_progress (pl_enrollment p) (pl_payments p)).
Definition plan_balance (p : Plan) : Z := e_remainingBalance (pl_enrollment p).
Definition plan_active (p : Plan) : bool := bool_decide (e_paymentStatus (pl_enrollment p) = ACTIVE).
(** In kobo: the plans an installment is due on. *)
Definition plan_contributes (p : Plan) : bool :=
  plan_active p && (0 <? plan_balance p) && (0 <? plan_next p).
Definition plan_safe (p : Plan) : Prop := 0 <= plan_balance p <= 2 ^ 50.

Lemma plan_next_bound p : plan_safe p -> Z.abs (plan_next p) <= 2 ^ 50.
Proof.
  unfold plan_safe, plan_balance, plan_next, view_progress. intros H.
  pose proof (next_range (e_remainingBalance (pl_enrollment p))
    (reduce_paid (fun q => p_isConfirmed q && installment q) (pl_payments p))
    (freq_string (e_installmentFrequency (pl_enrollment p)))). lia.
Qed.

Lemma plan_contributes_eq p : plan_safe p -> contributes (plan_view p) = plan_contributes p.
Proof.
  intros H. pose proof (plan_next_bound p H) as Hn. unfold contributes, plan_contributes, plan_view, toEnrollmentView.
  cbn [v_paymentStatus v_remainingBalance v_nextInstallmentAmount]. fold (plan_next p) (plan_balance p).
  rewrite !naira_positive by (unfold plan_safe in H; lia). reflexivity.
Qed.

(** Filtering the views is filtering the plans. *)
Lemma filter_views (P : EnrollmentView -> Prop) (Q : Plan -> Prop) `{!forall v, Decision (P v)}
    `{!forall p, Decision (Q p)} l :
  Forall (fun p => P (plan_view p) <-> Q p) l -> filter P (plan_view <$> l) = plan_view <$> filter Q l.
Proof.
  induction 1 as [|p l Hp Hl IH]; [done|]. csimpl. rewrite !filter_cons, IH.
  repeat case_decide; tauto.
Qed.

Lemma reduce_views f g l :
  Forall (fun p => f (plan_view p) = g p) l ->
  reduce_sum f (plan_view <$> l) = sumZ (g <$> l).
Proof.
  intros H. rewrite reduce_sum_eq. f_equal. rewrite <- list_fmap_compose.
  induction H as [|p l Hp Hl IH]; [done|]. csimpl. by rewrite Hp, IH.
Qed.

(** C40: the dashboard's headline is exact to the kobo although it is summed over
    naira floats: it is the sum of the next installments of precisely the ACTIVE
    plans that owe something, the total outstanding is the sum of the balances of
    the plans that have not failed, and the count is the number of plans summed. *)
Theorem dashboard_exact plans :
  Forall plan_safe plans ->
  let s := summariseParentDashboard (plan_view <$> plans) in
  let due := filter (fun p => plan_contributes p = true) plans in
  ds_amount s = naira (sumZ (plan_next <$> due)) /\
  ds_enrollmentCount s = Z.of_nat (length due) /\
  ds_totalOutstanding s =
    naira (sumZ (plan_balance <$> filter (fun p => e_paymentStatus (pl_enrollment p) <> FAILED) plans)).
Proof.
  intros Hs s due. subst s due. unfold summariseParentDashboard.
  cbn [ds_amount ds_enrollmentCount ds_totalOutstanding].
  rewrite (filter_views (fun v => contributes v = true) (fun p => plan_contributes p = true)),
    (filter_views (fun v => v_paymentStatus v <> FAILED) (fun p => e_paymentStatus (pl_enrollment p) <> FAILED)).
  - split; [|split].
    + f_equal. apply reduce_views, list.Forall_forall. intros p [_ Hp]%list_elem_of_filter.
      unfold plan_view, toEnrollmentView. cbn [v_nextInstallmentAmount]. apply kobo_of_naira, plan_next_bound.
      by apply (proj1 (list.Forall_forall _ _) Hs).
    + by rewrite length_fmap.
    + f_equal. apply reduce_views, list.Forall_forall. intros p [_ Hp]%list_elem_of_filter.
      unfold plan_view, toEnrollmentView. cbn [v_remainingBalance]. apply kobo_of_naira.
      apply (proj1 (list.Forall_forall _ _) Hs) in Hp. unfold plan_safe in Hp. fold (plan_balance p). lia.
  - apply list.Forall_forall. done.
  - eapply Forall_impl; [|exact Hs]. intros p Hp. by rewrite plan_contributes_eq.
Qed.

Definition sample_dashboard_plan : Plan :=
  mkPlan 4%positive (mkEnrollment 3%positive 1%positive "JSS1" 10000000 250000 2500000 2500000 7500000
    ACTIVE MONTHLY 0 7776000000 None 0) (Some "Ada"%string) (Some "Greenfield"%string) [].
Example dashboard_exact_witness :
  Forall plan_safe [sample_dashboard_plan] /\
  ds_amount (summariseParentDashboard (plan_view <$> [sample_dashboard_plan])) =
    naira (sumZ (plan_next <$> filter (fun p => plan_contributes p = true) [sample_dashboard_plan])).
Proof.
  assert (Forall plan_safe [sample_dashboard_plan]) as H.
  { constructor; [|constructor]. unfold plan_safe, plan_balance. simpl. lia. }
  split; [exact H|]. exact (proj1 (dashboard_exact _ H)).
Defined.
