(* ===== verification/MigratedPlan.v ===== *)
(** * Pre-Lopay money

    [src/common/migrated-plan.ts]: what a payment made before the school joined
    means for the plan it opens, and for the plan a correction lands on. *)

From S2P Require Import Prelude JsNumber Money Dates Schedule Schema Effects.

Record MigratedPlanFigures := mkFigures {
  mf_remainingBalance : Z;
  mf_platformFee : Z;
  mf_paymentStatus : PaymentStatus }.

Definition deriveMigratedPlan (totalSchoolFee amountAlreadyPaid : Z) : MigratedPlanFigures :=
  let total := Money.of_int totalSchoolFee in
  let paid := Money.of_int amountAlreadyPaid in
  let remainingBalance := Z.max 0 (Money.toKobo (Money.subtract total paid)) in
  mkFigures remainingBalance
    (Money.toKobo (Money.percent total Fees.MIGRATED_ENROLLMENT_PLATFORM_FEE_RATE))
    (if remainingBalance =? 0 then COMPLETED else ACTIVE).

(** The [where] fragment of the collection aggregates. *)
Definition MOVED_THROUGH_LOPAY (p : Payment) : bool :=
  negb (bool_decide (p_paymentType p = MIGRATED_PAYMENT)).

Definition migratedPaymentDate (planStartDate now : Z) : Z :=
  if now <? planStartDate then now else planStartDate.

Definition statusAfterMigratedAmendment (current : PaymentStatus) (nextBalance : Z) : PaymentStatus :=
  if nextBalance <=? 0 then COMPLETED
  else if bool_decide (current = COMPLETED) then ACTIVE
  else current.

Lemma deriveMigratedPlan_fee total paid : mf_platformFee (deriveMigratedPlan total paid) = 0.
Proof.
  unfold deriveMigratedPlan. cbn [mf_platformFee]. unfold Fees.MIGRATED_ENROLLMENT_PLATFORM_FEE_RATE.
  by rewrite Money.percent_zero.
Qed.

(** Within the validated range the opening balance is exactly the fee less
    what was paid, migration is free, and the plan opens COMPLETED exactly when
    the fee was paid in full. *)
Theorem migrated_plan_opens total paid :
  0 <= paid <= total ->
  let f := deriveMigratedPlan total paid in
  mf_remainingBalance f = total - paid /\ mf_platformFee f = 0 /\
  (mf_paymentStatus f = COMPLETED <-> paid = total) /\
  (mf_paymentStatus f = ACTIVE <-> paid < total).
Proof.
  intros H f. pose proof (deriveMigratedPlan_fee total paid) as Hf.
  subst f. revert Hf. unfold deriveMigratedPlan, Money.subtract, Money.toKobo, Money.of_int. simpl.
  intros Hf. rewrite Z.max_r by lia. rewrite Hf.
  case_if; (split; [done|]; split; [done|]; split; split; intros; try done; try lia).
Qed.

Example migrated_plan_opens_witness :
  mf_remainingBalance (deriveMigratedPlan 10000000 4000000) = 6000000.
Proof. apply (migrated_plan_opens 10000000 4000000). lia. Defined.

(** A correction settles the plan when nothing is owed, reopens a settled
    plan when something is, and keeps every other status (a DEFAULTED family
    stays defaulted). *)
Theorem amendment_status current next :
  statusAfterMigratedAmendment current next =
    match current with
    | COMPLETED => if next <=? 0 then COMPLETED else ACTIVE
    | s => if next <=? 0 then COMPLETED else s
    end.
Proof. unfold statusAfterMigratedAmendment. destruct current, (next <=? 0); reflexivity. Qed.
