(* ===== verification/PaymentCalc.v ===== *)
(** * Payment calculations

    The pure methods of [src/payments/payment.service.ts]: the deposit split,
    the public calculator, the installment amounts. *)

From S2P Require Import Prelude JsNumber Money Schedule.
From Stdlib Require Import QArith_base.
#[local] Open Scope Z_scope.

Record DepositCalculationResult := mkDeposit {
  d_schoolFees : Z;
  d_platformFee : Z;
  d_minimumDeposit : Z;
  d_depositPaid : Z;
  d_amountToSchool : Z;
  d_remainingBalance : Z }.

Definition calculateInitialPayment (schoolFeesKobo depositPaidKobo : Z) : res DepositCalculationResult :=
  if schoolFeesKobo <=? 0 then Err (FBadRequest "Invalid school fees")
  else
    let schoolFees := Money.of_int schoolFeesKobo in
    let depositPaid := Money.of_int depositPaidKobo in
    let platformFee := Money.percent schoolFees Fees.PLATFORM_FEE_RATE in
    let schoolShare := Money.percent schoolFees Fees.FIRST_PAYMENT_DEPOSIT_RATE in
    let minimumDeposit := Money.add schoolShare platformFee in
    if Money.isLessThan depositPaid minimumDeposit then
      Err (FBadRequest "Deposit is below minimum required.")
    else
      let maxDeposit := Money.add schoolFees platformFee in
      if Money.isLessThan maxDeposit depositPaid then
        Err (FBadRequest "Deposit exceeds the total payable.")
      else
        let amountToSchool := Money.subtract depositPaid platformFee in
        let remainingBalance := Money.subtract schoolFees amountToSchool in
        Ok (mkDeposit (Money.toKobo schoolFees) (Money.toKobo platformFee)
              (Money.toKobo minimumDeposit) (Money.toKobo depositPaid)
              (Money.toKobo amountToSchool) (Money.toKobo remainingBalance)).

Record InstallmentCalculationResult := mkInstallments {
  ic_totalBalance : Z;
  ic_numberOfInstallments : Z;
  ic_installmentAmount : Z;
  ic_finalInstallmentAmount : Z;
  ic_plan : InstallmentFrequency }.

Definition calculateInstallments (remainingBalance : Z) (plan : InstallmentFrequency)
    : res InstallmentCalculationResult :=
  if remainingBalance <=? 0 then Err (FBadRequest "No balance to calculate installments")
  else
    let numberOfInstallments :=
      match plan with
      | WEEKLY => Fees.WEEKLY_INSTALLMENTS
      | MONTHLY => Fees.MONTHLY_INSTALLMENTS
      end in
    let installmentAmount := js_floor_div remainingBalance numberOfInstallments in
    let finalInstallmentAmount :=
      remainingBalance - installmentAmount * (numberOfInstallments - 1) in
    Ok (mkInstallments remainingBalance numberOfInstallments installmentAmount
          finalInstallmentAmount plan).

Definition updateRemainingBalance (schoolFees depositPaid installmentsPaid : Z) : Z :=
  let platformFee := Money.toKobo (Money.percent (Money.of_int schoolFees) Fees.PLATFORM_FEE_RATE) in
  let effectiveDepositToSchool := Z.max 0 (depositPaid - platformFee) in
  let totalPaidToSchool := effectiveDepositToSchool + installmentsPaid in
  let remainingBalance := schoolFees - totalPaidToSchool in
  Z.max remainingBalance 0.

Inductive ChildPaymentStatus := CPS_PENDING | CPS_ACTIVE | CPS_COMPLETED | CPS_DEFAULTED.

Definition getNextStatus (currentStatus : ChildPaymentStatus) (depositConfirmedBySchool : bool)
    (remainingBalance : Z) (isOverdue : bool) : ChildPaymentStatus :=
  match currentStatus with
  | CPS_DEFAULTED => CPS_DEFAULTED
  | _ =>
      if remainingBalance <=? 0 then CPS_COMPLETED
      else if isOverdue then CPS_DEFAULTED
      else if depositConfirmedBySchool then CPS_ACTIVE
      else CPS_PENDING
  end.

(** The public calculator.  A plan is its number of payments, its per-payment
    amount and its total, in naira. *)
Record PaymentStructureResult := mkStructure {
  ps_originalAmount : Q;
  ps_platformFeeAmount : Q;
  ps_totalPayable : Q;
  ps_depositAmount : Q;
  ps_totalInitialPayment : Q;
  ps_depositPercentage : Q;
  ps_remainingBalance : Q;
  ps_platformFeePercentage : Q;
  ps_plans : list (Z * Q * Q) }.

Definition calculatePaymentStructure (totalAmount : Q) : res PaymentStructureResult :=
  if Qle_bool totalAmount 0 then Err (FBadRequest "Invalid total amount. Please provide a valid positive number.")
  else
    let total := Money.fromNaira totalAmount in
    let platformFee := Money.percent total Fees.PLATFORM_FEE_RATE in
    let deposit := Money.percent total Fees.FIRST_PAYMENT_DEPOSIT_RATE in
    let totalPayable := Money.add total platformFee in
    let totalInitialPayment := Money.add deposit platformFee in
    let remainingBalance := Money.subtract totalPayable totalInitialPayment in
    let createPlan (count : Z) :=
      let installmentKobo :=
        Math_round (js_div (inject_Z (Money.toKobo remainingBalance)) (inject_Z count)) in
      (count, js_div (inject_Z installmentKobo) 100, Money.toNaira remainingBalance) in
    Ok (mkStructure totalAmount (Money.toNaira platformFee) (Money.toNaira totalPayable)
          (Money.toNaira deposit) (Money.toNaira totalInitialPayment)
          Fees.FIRST_PAYMENT_DEPOSIT_RATE (Money.toNaira remainingBalance)
          Fees.PLATFORM_FEE_RATE
          [createPlan Fees.WEEKLY_INSTALLMENTS; createPlan Fees.MONTHLY_INSTALLMENTS]).

(** ** Properties *)

Lemma percent_nonneg k rate :
  0 <= k -> (0 <= rate)%Q -> 0 <= Money._kobo (Money.percent (Money.of_int k) rate).
Proof.
  intros Hk Hr. unfold Money.percent, Money.of_int, Money._kobo. rewrite <- (Math_round_int 0).
  apply Math_round_mono. change (inject_Z 0) with (fl 0). apply fl_mono.
  apply Qmult_le_0_compat; [|done]. change 0%Q with (inject_Z 0). by rewrite <- Zle_Qle.
Qed.

(** Whatever the fee, an accepted deposit never takes money from the school. *)
Lemma accepted_deposit fees deposit d :
  calculateInitialPayment fees deposit = Ok d -> 0 < d_schoolFees d /\ 0 <= d_amountToSchool d.
Proof.
  unfold calculateInitialPayment. destruct (fees <=? 0) eqn:E; [done|]. to_prop.
  pose proof (percent_nonneg fees Fees.FIRST_PAYMENT_DEPOSIT_RATE ltac:(lia) ltac:(done)) as Hs.
  revert Hs. generalize (Money.percent (Money.of_int fees) Fees.FIRST_PAYMENT_DEPOSIT_RATE) as share.
  generalize (Money.percent (Money.of_int fees) Fees.PLATFORM_FEE_RATE) as fee. intros [fee] [share] Hs.
  destruct (Money.isLessThan _ _) eqn:E1; [done|]. destruct (Money.isLessThan (Money.add _ _) _); [done|].
  intros [= <-]. cbn in *. unfold Money.isLessThan in E1. cbn in E1. to_prop. lia.
Qed.

(** The deposit split accepts exactly the deposits from 25% + 2.5% of the
    fee to the fee plus 2.5% (each rate rounded half up, exactly), and an
    accepted deposit splits without loss: school share plus platform fee is the
    deposit, school share plus remaining balance is the fee, and neither the
    share nor the balance is negative. *)
Theorem deposit_split fees deposit :
  0 < fees < 2 ^ 40 ->
  let fee := (fees + 20) / 40 in let share := (fees + 2) / 4 in
  match calculateInitialPayment fees deposit with
  | Ok d =>
      share + fee <= deposit <= fees + fee /\
      d_schoolFees d = fees /\ d_platformFee d = fee /\ d_minimumDeposit d = share + fee /\
      d_depositPaid d = deposit /\
      d_amountToSchool d + d_platformFee d = deposit /\
      d_amountToSchool d + d_remainingBalance d = fees /\
      share <= d_amountToSchool d <= fees /\ 0 <= d_remainingBalance d
  | Err _ => ~ share + fee <= deposit <= fees + fee
  end.
Proof.
  intros H fee share. unfold calculateInitialPayment.
  rewrite (proj2 (Z.leb_gt _ _)) by lia.
  assert (Hp : Money.percent (Money.of_int fees) Fees.PLATFORM_FEE_RATE = Money.of_int fee)
    by (pose proof (Money.platform_fee_eq fees ltac:(lia)) as E;
        unfold Money.platform_fee, Money.toKobo in E; unfold fee; rewrite <- E; done).
  assert (Hs : Money.percent (Money.of_int fees) Fees.FIRST_PAYMENT_DEPOSIT_RATE = Money.of_int share)
    by (pose proof (Money.deposit_share_eq fees ltac:(lia)) as E;
        unfold Money.deposit_share, Money.toKobo in E; unfold share; rewrite <- E; done).
  rewrite Hp, Hs. unfold Money.isLessThan, Money.add, Money.subtract, Money.toKobo, Money.of_int.
  cbn [Money._kobo]. repeat case_if; cbn; lia.
Qed.

Example deposit_split_witness :
  exists d, calculateInitialPayment 10000000 2750000 = Ok d /\
            d_amountToSchool d + d_remainingBalance d = 10000000.
Proof.
  pose proof (deposit_split 10000000 2750000 ltac:(lia)) as H. cbv zeta in H.
  destruct (calculateInitialPayment 10000000 2750000) as [d|e].
  - exists d. split; [reflexivity|]. apply H.
  - exfalso. apply H. vm_compute. split; discriminate.
Defined.

(** The calculated installments are level, cover the balance exactly, and
    are the amounts the schedule quotes a fresh plan, first and last. *)
Theorem installments_match_schedule balance plan :
  0 < balance < 2 ^ 52 ->
  exists c, calculateInstallments balance plan = Ok c /\
    ic_installmentAmount c * (ic_numberOfInstallments c - 1) + ic_finalInstallmentAmount c = balance /\
    0 <= ic_installmentAmount c <= ic_finalInstallmentAmount c /\
    (0 < ic_installmentAmount c ->
     nextInstallmentAmount (derivePlanProgress balance 0 (freq_string plan)) = ic_installmentAmount c /\
     cumulativeTarget balance (ic_numberOfInstallments c) (ic_numberOfInstallments c)
     - cumulativeTarget balance (ic_numberOfInstallments c) (ic_numberOfInstallments c - 1)
     = ic_finalInstallmentAmount c).
Proof.
  intros H. unfold calculateInstallments. rewrite (proj2 (Z.leb_gt _ _)) by lia.
  set (n := match plan with WEEKLY => _ | MONTHLY => _ end).
  assert (Hn : n = installmentCountFor (freq_string plan)) by (by destruct plan).
  assert (Hn3 : 3 <= n) by (unfold n; destruct plan; vm_compute; discriminate).
  rewrite js_floor_div_exact by lia. eexists. split; [reflexivity|]. cbn.
  pose proof (Z.mul_div_le balance n ltac:(lia)). pose proof (Z.div_pos balance n ltac:(lia) ltac:(lia)).
  split; [lia|]. split; [nia|]. intros Hs.
  destruct (progress_open balance 0 (freq_string plan)) as (_ & _ & _ & Hp); [lia|lia|lia|].
  rewrite <- Hn, Z.add_0_r in Hp. rewrite Hp. cbn.
  assert (Hc : slots_covered balance n 0 = 0).
  { unfold slots_covered. rewrite Z.div_0_l by lia. case_if; lia. }
  rewrite Hc. rewrite (proj2 (Z.ltb_lt _ _)) by done.
  rewrite !cumulativeTarget_eq by lia. rewrite (proj2 (Z.leb_le n n)) by lia.
  rewrite !(proj2 (Z.leb_gt n _)) by lia. lia.
Qed.

Example installments_match_schedule_witness :
  exists c, calculateInstallments 10000001 MONTHLY = Ok c /\
    ic_installmentAmount c * (ic_numberOfInstallments c - 1) + ic_finalInstallmentAmount c = 10000001.
Proof.
  destruct (installments_match_schedule 10000001 MONTHLY ltac:(lia)) as (c & H1 & H2 & _).
  exists c. split; assumption.
Defined.

(** The balance left after a deposit and installments is exactly the fee
    less the school's share of the deposit less the installments, never below
    zero; on an accepted deposit with no installment it is the split's own
    remaining balance. *)
Theorem remaining_balance_agrees fees deposit d :
  0 < fees < 2 ^ 40 -> calculateInitialPayment fees deposit = Ok d ->
  updateRemainingBalance fees deposit 0 = d_remainingBalance d /\
  forall paid, 0 <= paid ->
    updateRemainingBalance fees deposit paid = Z.max 0 (d_remainingBalance d - paid).
Proof.
  intros Hf H. unfold calculateInitialPayment in H.
  rewrite (proj2 (Z.leb_gt _ _)) in H by lia.
  pose proof (Money.platform_fee_eq fees ltac:(lia)) as E1.
  pose proof (Money.deposit_share_eq fees ltac:(lia)) as E2.
  unfold Money.platform_fee, Money.deposit_share in *.
  assert (0 <= (fees + 2) / 4) by (apply Z.div_pos; lia).
  unfold Money.isLessThan, Money.add, Money.subtract, Money.toKobo, Money.of_int in *.
  cbn [Money._kobo] in *. rewrite E1, E2 in H. repeat case_if_in H; try done.
  injection H as <-. unfold updateRemainingBalance, Money.toKobo, Money.of_int. rewrite E1.
  cbn. split; [lia|]. intros. lia.
Qed.

Example remaining_balance_agrees_witness :
  updateRemainingBalance 10000000 2750000 0 = 7500000.
Proof.
  assert (H : calculateInitialPayment 10000000 2750000
              = Ok (mkDeposit 10000000 250000 2750000 2750000 2500000 7500000))
    by (vm_compute; reflexivity).
  exact (proj1 (remaining_balance_agrees 10000000 2750000 _ ltac:(lia) H)).
Defined.
