(* ===== verification/Ledger.v ===== *)
(** * The ledger

    [src/ledger/ledger.service.ts], the only owner of money-state transitions.
    A method is a read before the transaction ([..._pre]), the transaction
    ([..._tx], which re-checks its guard), and what is emitted after it
    ([..._post]); the method runs the three in order, and [System] lets
    other requests run in between.  The clock is the argument [now]. *)

From S2P Require Import Prelude Schedule Schema Effects MigratedPlan.

(** The age of a submission in milliseconds (the source reports seconds). *)
Definition latencySeconds (submittedAt now : Z) : option Z := Some (Z.max 0 (now - submittedAt)).

(** Both realtime events, to the parent, the school and the admins. *)
Definition emitBoth (parentUserId schoolId : id) : M unit :=
  emit (EvEnrollmentsChanged (Some parentUserId) (Some schoolId) true);;
  emit (EvPaymentsChanged (Some parentUserId) (Some schoolId) true).

Definition is_installment (p : Payment) : bool := bool_decide (p_paymentType p = INSTALLMENT).
Definition is_first (p : Payment) : bool := bool_decide (p_paymentType p = FIRST_PAYMENT).
Definition of_school (schoolId : id) (p : Payment) : bool := bool_decide (p_schoolId p = schoolId).
Definition has_status (s : PaymentTransactionStatus) (p : Payment) : bool := bool_decide (p_status p = s).

(** The payments of an enrollment, and the sum of the confirmed installments
    among them ([aggregate _sum], [?? 0]). *)
Definition payments_of (eid : id) (d : DB) : list (id * Payment) :=
  filter (fun kv : id * Payment => p_enrollmentId kv.2 = eid) (map_to_list (payments d)).
Definition confirmed_installment (p : Payment) : bool :=
  is_installment p && p_isConfirmed p && has_status TX_SUCCESS p.
Definition sum_paid (cond : Payment -> bool) (l : list (id * Payment)) : Z :=
  sumZ ((fun kv : id * Payment => p_amountPaid kv.2) <$>
        filter (fun kv : id * Payment => cond kv.2 = true) l).
#[global] Arguments payments_of : simpl never.
#[global] Arguments sum_paid : simpl never.

(** ** Crediting a first payment *)

Definition creditFirstPaymentToBalance (enrollmentId : id) (schoolAmountKobo : Z) : M (Z * bool) :=
  decremented ← updateEnrollment enrollmentId
    (fun e => set_e_remainingBalance (e_remainingBalance e - schoolAmountKobo) e);
  let isCompleted := e_remainingBalance decremented <=? 0 in
  let remainingBalance := Z.max 0 (e_remainingBalance decremented) in
  updateEnrollment enrollmentId
    (fun e => set_e_paymentStatus (if isCompleted then COMPLETED else ACTIVE)
                (set_e_remainingBalance remainingBalance e));;
  mret (remainingBalance, isCompleted).

(** ** Installments *)

Definition confirm_cond (schoolId : id) (p : Payment) : bool :=
  negb (p_isConfirmed p) && is_installment p && of_school schoolId p.

Definition confirmPayment_pre (paymentId schoolId : id) : M Snapshot :=
  s ← read (findPaymentJoined paymentId (confirm_cond schoolId));
  orThrow s (FBadRequest "Payment not found or already confirmed").

Definition confirmPayment_tx (s : Snapshot) (schoolId : id) (actor : AuditActor) (now : Z) : M Payment :=
  let paymentId := sn_pid s in let payment := sn_payment s in
  let eid := p_enrollmentId payment in
  confirmed ← updateManyPayment paymentId (confirm_cond schoolId)
    (fun p => set_p_paymentDate now (set_p_status TX_SUCCESS (set_p_isConfirmed true p)));
  ensure (negb (confirmed =? 0)) (FBadRequest "Payment not found or already confirmed");;
  before ← findEnrollmentOrThrow eid;
  decremented ← updateEnrollment eid
    (fun e => set_e_remainingBalance (e_remainingBalance e - p_amountPaid payment) e);
  let isCompleted := e_remainingBalance decremented <=? 0 in
  let newBalance := Z.max 0 (e_remainingBalance decremented) in
  when isCompleted
    (updateEnrollment eid (fun e => set_e_paymentStatus COMPLETED (set_e_remainingBalance 0 e));;
     mret tt);;
  updatedPayment ← findPaymentOrThrow paymentId;
  audit_record (mkAudit PAYMENT_CONFIRMED "Payment" paymentId (Some actor) (Some schoolId) None
    (Some [("status", JTx (p_status payment)); ("isConfirmed", JBool (p_isConfirmed payment));
           ("remainingBalance", JNum (e_remainingBalance before))])
    (Some [("status", JTx TX_SUCCESS); ("isConfirmed", JBool true);
           ("remainingBalance", JNum newBalance);
           ("enrollmentStatus", JEnr (if isCompleted then COMPLETED else e_paymentStatus before))])
    [("amount", JNum (p_amountPaid payment)); ("isCompleted", JBool isCompleted);
     ("selfApproved", JBool (bool_decide (j_userId (sn_join s) = a_userId actor)))]);;
  notify (mkNotification (j_userId (sn_join s))
    (if isCompleted then "Payment Completed" else "Payment Confirmed") NT_PAYMENT "/history");;
  mret updatedPayment.

Definition confirmPayment_post (s : Snapshot) (schoolId : id) (now : Z) : M unit :=
  emit (EvPaymentsChanged (Some (j_userId (sn_join s))) (Some schoolId) true);;
  emit (Metric "confirmed" INSTALLMENT (p_receiver (sn_payment s))
          (latencySeconds (p_paymentDate (sn_payment s)) now)).

Definition confirmPayment (paymentId schoolId : id) (actor : AuditActor) (now : Z) : M Payment :=
  s ← confirmPayment_pre paymentId schoolId;
  result ← transaction (confirmPayment_tx s schoolId actor now);
  confirmPayment_post s schoolId now;;
  mret result.

Definition reject_cond (schoolId : id) (p : Payment) : bool :=
  negb (p_isConfirmed p) && of_school schoolId p.

Definition rejectPayment_pre (paymentId schoolId : id) : M Snapshot :=
  s ← read (findPaymentJoined paymentId (reject_cond schoolId));
  orThrow s (FBadRequest "Payment not found or already processed").

Definition rejectPayment_tx (s : Snapshot) (schoolId : id) (actor : AuditActor) : M Payment :=
  let paymentId := sn_pid s in let payment := sn_payment s in
  rejected ← updateManyPayment paymentId (reject_cond schoolId) (set_p_status TX_FAILED);
  ensure (negb (rejected =? 0)) (FBadRequest "Payment not found or already processed");;
  updatedPayment ← findPaymentOrThrow paymentId;
  let failedEnrollment := is_first payment in
  when failedEnrollment
    (updateEnrollment (p_enrollmentId payment) (set_e_paymentStatus FAILED);; mret tt);;
  audit_record (mkAudit PAYMENT_REJECTED "Payment" paymentId (Some actor) (Some schoolId) None
    (Some [("status", JTx (p_status payment)); ("isConfirmed", JBool (p_isConfirmed payment))])
    (Some [("status", JTx TX_FAILED); ("isConfirmed", JBool false);
           ("enrollmentFailed", JBool failedEnrollment)])
    [("amount", JNum (p_amountPaid payment)); ("paymentType", JType (p_paymentType payment))]);;
  notify (mkNotification (j_userId (sn_join s)) "Payment Rejected" NT_ALERT "/history");;
  mret updatedPayment.

Definition rejectPayment (paymentId schoolId : id) (actor : AuditActor) : M Payment :=
  s ← rejectPayment_pre paymentId schoolId;
  result ← transaction (rejectPayment_tx s schoolId actor);
  emit (EvPaymentsChanged (Some (j_userId (sn_join s))) (Some schoolId) true);;
  emit (Metric "rejected" (p_paymentType (sn_payment s)) (p_receiver (sn_payment s)) None);;
  mret result.

Definition reverse_cond (schoolId : id) (p : Payment) : bool :=
  p_isConfirmed p && has_status TX_SUCCESS p && is_installment p && of_school schoolId p.

Definition reversePayment_pre (paymentId schoolId : id) : M Snapshot :=
  s ← read (findPaymentJoined paymentId (reverse_cond schoolId));
  orThrow s (FBadRequest "No confirmed installment payment found to reverse").

Definition reversePayment_tx (s : Snapshot) (schoolId : id) (actor : AuditActor)
    (reason : option string) : M Payment :=
  let paymentId := sn_pid s in let payment := sn_payment s in
  let eid := p_enrollmentId payment in
  reversed ← updateManyPayment paymentId (reverse_cond schoolId)
    (fun p => set_p_isConfirmed false (set_p_status TX_REVERSED p));
  ensure (negb (reversed =? 0)) (FBadRequest "No confirmed installment payment found to reverse");;
  before ← findEnrollmentOrThrow eid;
  let reopened := bool_decide (e_paymentStatus before = COMPLETED) in
  let status := if reopened then ACTIVE else e_paymentStatus before in
  incremented ← updateEnrollment eid
    (fun e => set_e_paymentStatus status
                (set_e_remainingBalance (e_remainingBalance e + p_amountPaid payment) e));
  let over := e_totalSchoolFee before <? e_remainingBalance incremented in
  let restoredBalance := if over then e_totalSchoolFee before else e_remainingBalance incremented in
  when over (updateEnrollment eid (set_e_remainingBalance restoredBalance);; mret tt);;
  updatedPayment ← findPaymentOrThrow paymentId;
  audit_record (mkAudit PAYMENT_REVERSED "Payment" paymentId (Some actor) (Some schoolId) reason
    (Some [("status", JTx (p_status payment)); ("isConfirmed", JBool true);
           ("remainingBalance", JNum (e_remainingBalance before));
           ("enrollmentStatus", JEnr (e_paymentStatus before))])
    (Some [("status", JTx TX_REVERSED); ("isConfirmed", JBool false);
           ("remainingBalance", JNum restoredBalance); ("enrollmentStatus", JEnr status)])
    [("amount", JNum (p_amountPaid payment)); ("reopened", JBool reopened)]);;
  notify (mkNotification (j_userId (sn_join s)) "Payment Confirmation Withdrawn" NT_ALERT "/history");;
  mret updatedPayment.

Definition reversePayment (paymentId schoolId : id) (actor : AuditActor) (reason : option string) : M Payment :=
  s ← reversePayment_pre paymentId schoolId;
  result ← transaction (reversePayment_tx s schoolId actor reason);
  emit (EvPaymentsChanged (Some (j_userId (sn_join s))) (Some schoolId) true);;
  emit (Metric "reversed" INSTALLMENT (p_receiver (sn_payment s)) None);;
  mret result.

(** ** First payments settled by an admin *)

Definition settle_cond (p : Payment) : bool :=
  is_first p && bool_decide (p_receiver p = PLATFORM) && negb (p_isConfirmed p)
  && bool_decide (p_paystackReference p = None).
Definition unconfirmed (p : Payment) : bool := negb (p_isConfirmed p).

Definition settleFirstPayment_pre (paymentId : id) : M Snapshot :=
  s ← read (findPaymentJoined paymentId settle_cond);
  orThrow s (FNotFound "Payment not found or already settled").

(** [None] is the transaction's [return false]. *)
Definition settleFirstPayment_tx (s : Snapshot) (actor : AuditActor) : M (option Notification) :=
  let payment := sn_payment s in let enrollment := j_enrollment (sn_join s) in
  res ← updateManyPayment (sn_pid s) unconfirmed
    (fun p => set_p_status TX_SUCCESS (set_p_isConfirmed true p));
  if res =? 0 then mret None
  else
    '(remainingBalance, isCompleted) ←
      creditFirstPaymentToBalance (p_enrollmentId payment) (p_schoolAmount payment);
    audit_record (mkAudit FIRST_PAYMENT_SETTLED "Payment" (sn_pid s) (Some actor)
      (Some (e_schoolId enrollment)) None
      (Some [("isConfirmed", JBool false); ("paymentStatus", JEnr (e_paymentStatus enrollment));
             ("remainingBalance", JNum (e_remainingBalance enrollment))])
      (Some [("isConfirmed", JBool true);
             ("paymentStatus", JEnr (if isCompleted : bool then COMPLETED else ACTIVE));
             ("remainingBalance", JNum remainingBalance)])
      [("enrollmentId", JId (p_enrollmentId payment)); ("amount", JNum (p_amountPaid payment))]);;
    createNotification (mkNotification (s_ownerId (j_school (sn_join s)))
      "First Payment Settled" NT_PAYMENT "/school-owner-dashboard");;
    n ← createNotification (mkNotification (j_userId (sn_join s))
      "Enrollment Confirmed" NT_PAYMENT "/dashboard");
    mret (Some n).

Definition settleFirstPayment (paymentId : id) (actor : AuditActor) (now : Z) : M id :=
  s ← settleFirstPayment_pre paymentId;
  settled ← transaction (settleFirstPayment_tx s actor);
  n ← orThrow settled (FNotFound "Payment not found or already settled");
  emit (EvPush (j_userId (sn_join s)) n);;
  emitBoth (j_userId (sn_join s)) (p_schoolId (sn_payment s));;
  emit (Metric "confirmed" FIRST_PAYMENT (p_receiver (sn_payment s))
          (latencySeconds (p_paymentDate (sn_payment s)) now));;
  mret (sn_pid s).

Definition rejectFirstPayment_pre (paymentId : id) : M Snapshot :=
  s ← read (findPaymentJoined paymentId settle_cond);
  orThrow s (FNotFound "First payment not found or already processed").

Definition rejectFirstPayment_tx (s : Snapshot) (actor : AuditActor) : M (option Notification) :=
  let payment := sn_payment s in let enrollment := j_enrollment (sn_join s) in
  res ← updateManyPayment (sn_pid s) unconfirmed (set_p_status TX_FAILED);
  if res =? 0 then mret None
  else
    updateEnrollment (p_enrollmentId payment) (set_e_paymentStatus FAILED);;
    audit_record (mkAudit FIRST_PAYMENT_REJECTED "Payment" (sn_pid s) (Some actor)
      (Some (e_schoolId enrollment)) None
      (Some [("isConfirmed", JBool false); ("paymentStatus", JEnr (e_paymentStatus enrollment))])
      (Some [("status", JTx TX_FAILED); ("paymentStatus", JEnr FAILED)])
      [("enrollmentId", JId (p_enrollmentId payment)); ("amount", JNum (p_amountPaid payment))]);;
    createNotification (mkNotification (s_ownerId (j_school (sn_join s)))
      "First Payment Rejected" NT_PAYMENT "/school-owner-dashboard");;
    n ← createNotification (mkNotification (j_userId (sn_join s))
      "First Payment Rejected" NT_ALERT "/dashboard");
    mret (Some n).

Definition rejectFirstPayment (paymentId : id) (actor : AuditActor) : M id :=
  s ← rejectFirstPayment_pre paymentId;
  rejectedOk ← transaction (rejectFirstPayment_tx s actor);
  n ← orThrow rejectedOk (FNotFound "First payment not found or already processed");
  emit (EvPush (j_userId (sn_join s)) n);;
  emitBoth (j_userId (sn_join s)) (p_schoolId (sn_payment s));;
  emit (Metric "rejected" FIRST_PAYMENT (p_receiver (sn_payment s)) None);;
  mret (sn_pid s).
