(* ===== verification/Books.v ===== *)
(** * Sums over the payments table

    The aggregates of the ledger, as sums over a map, and how one row changes
    them. *)

From S2P Require Import Prelude Schedule Schema Effects Ledger.

Definition total (f : Payment -> Z) (m : gmap id Payment) : Z :=
  sumZ ((fun kv : id * Payment => f kv.2) <$> map_to_list m).

#[export] Instance sumZ_perm : Proper ((≡ₚ) ==> eq) sumZ.
Proof. intros l1 l2 H. induction H; simpl; lia. Qed.

Lemma total_perm f l1 l2 : l1 ≡ₚ l2 ->
  sumZ ((fun kv : id * Payment => f kv.2) <$> l1) = sumZ ((fun kv : id * Payment => f kv.2) <$> l2).
Proof. by intros ->. Qed.

Lemma total_new f m i p : m !! i = None -> total f (<[i := p]> m) = f p + total f m.
Proof. intros H. unfold total. by rewrite (map_to_list_insert m i p H). Qed.

Lemma total_delete f m i p : m !! i = Some p -> total f m = f p + total f (delete i m).
Proof. intros H. unfold total. by rewrite <- (map_to_list_delete m i p H). Qed.

Lemma total_update f m i p p' :
  m !! i = Some p -> total f (<[i := p']> m) = total f m - f p + f p'.
Proof.
  intros H. rewrite <- insert_delete_eq, total_new by apply lookup_delete_eq.
  rewrite (total_delete f m i p H). lia.
Qed.

Lemma total_ext f g m :
  (forall i p, m !! i = Some p -> f p = g p) -> total f m = total g m.
Proof.
  intros H. unfold total. f_equal. apply list_fmap_ext. intros k [i p] Hk.
  apply list_elem_of_lookup_2, elem_of_map_to_list in Hk. simpl. eauto.
Qed.

Lemma total_nonneg f m : (forall i p, m !! i = Some p -> 0 <= f p) -> 0 <= total f m.
Proof.
  intros H. apply sumZ_nonneg, Forall_fmap, Forall_forall. intros [i p] Hk.
  apply list_elem_of_In, elem_of_map_to_list in Hk. simpl. eauto.
Qed.

Lemma sum_filter f (P : Payment -> bool) (l : list (id * Payment)) :
  sumZ ((fun kv : id * Payment => f kv.2) <$> filter (fun kv : id * Payment => P kv.2 = true) l) =
  sumZ ((fun kv : id * Payment => if P kv.2 then f kv.2 else 0) <$> l).
Proof.
  induction l as [|[i p] l IH]; [done|]. rewrite filter_cons. simpl.
  destruct (P p) eqn:E; case_decide; csimpl; rewrite ?E; try done; lia.
Qed.

(** The aggregate of the amounts of an enrollment's payments. *)
Lemma sum_paid_total cond eid d :
  sum_paid cond (payments_of eid d) =
  total (fun p => if bool_decide (p_enrollmentId p = eid) && cond p then p_amountPaid p else 0) (payments d).
Proof.
  unfold sum_paid, payments_of, total. rewrite sum_filter.
  induction (map_to_list (payments d)) as [|[i p] l IH]; [done|]. rewrite filter_cons. simpl.
  case_decide as E; csimpl; rewrite IH.
  - by rewrite bool_decide_eq_true_2.
  - by rewrite bool_decide_eq_false_2.
Qed.

Lemma total_le f g m : (forall i p, m !! i = Some p -> f p <= g p) -> total f m <= total g m.
Proof.
  unfold total. intros H. assert (forall i p, (i, p) ∈ map_to_list m -> f p <= g p) as H'.
  { intros i p Hk%elem_of_map_to_list. eauto. }
  revert H'. generalize (map_to_list m). intros l. induction l as [|[i p] l IH]; intros H'; [done|].
  csimpl. pose proof (H' i p ltac:(left)).
  assert (forall i p, (i, p) ∈ l -> f p <= g p) as Hl by (intros; eapply H'; by right).
  specialize (IH Hl). lia.
Qed.

Lemma total_add f g m : total (fun p => f p + g p) m = total f m + total g m.
Proof. unfold total. induction (map_to_list m) as [|[i p] l IH]; csimpl; lia. Qed.

Lemma total_ge_one f m i p :
  (forall j q, m !! j = Some q -> 0 <= f q) -> m !! i = Some p -> f p <= total f m.
Proof.
  intros Hf Hp. rewrite (total_delete f m i p Hp).
  pose proof (total_nonneg f (delete i m)) as H. enough (0 <= total f (delete i m)) by lia.
  apply H. intros j q [_ Hq]%lookup_delete_Some. eauto.
Qed.

(** Dropping rows that weigh nothing keeps the sum. *)
Lemma total_filter f (P : id * Payment -> Prop) `{!forall kv, Decision (P kv)} m :
  (forall i p, m !! i = Some p -> ~ P (i, p) -> f p = 0) -> total f (filter P m) = total f m.
Proof.
  induction m as [|i p m Hi IH] using map_ind; [by rewrite map_filter_empty|]. intros Hz.
  assert (total f (filter P m) = total f m) as E.
  { apply IH. intros j q Hj. apply Hz. rewrite lookup_insert_ne; [done | congruence]. }
  rewrite total_new by done. destruct (decide (P (i, p))) as [Hp|Hp].
  - rewrite map_filter_insert_True by done. rewrite total_new, E; [done|].
    apply map_lookup_filter_None. by left.
  - rewrite map_filter_insert_not' by (try done; intros; congruence). rewrite E.
    rewrite (Hz i p (lookup_insert_eq _ _ _) Hp). lia.
Qed.
