(* ===== verification/LedgerCard.v ===== *)
(** * The ledger: card payments and the enrollment lifecycle

    The second half of [src/ledger/ledger.service.ts]: the Paystack
    reconciliation with its conflict escalation, failed and disputed charges,
    the school's confirmation of a manual first payment, and defaulting. *)

From Stdlib Require Import QArith_base.
From S2P Require Import Prelude JsNumber Money Schedule Schema Effects Ledger.

(** ** Conflicts between the books and the bank *)

(** What happens to the alert: whether the list of admins could be read, and
    whom [NotificationsService.create] reaches. *)
Record Delivery := mkDelivery { admins_found : bool; reaches : id -> bool }.

(** [`${payment.status}`] *)
Definition tx_status_string (s : PaymentTransactionStatus) : string :=
  match s with
  | TX_PENDING => "PENDING"
  | TX_SUCCESS => "SUCCESS"
  | TX_FAILED => "FAILED"
  | TX_REVERSED => "REVERSED"
  end.

Definition admins_of (d : DB) : list id :=
  fst <$> filter (fun kv : id * User => u_role kv.2 = SUPER_ADMIN) (map_to_list (users d)).

Definition conflict_key (reference : string) : string := "reconcile.conflict:" +:+ reference.

(** What [reconcilePaystackPayment] returns. *)
Inductive ReconcileOutcome :=
| UnknownReference
| AlreadyProcessed
| StatusConflict (status : PaymentTransactionStatus)
| Reconciled (completed : bool).

Definition conflict_notice (admin : id) : Notification :=
  mkNotification admin "Payment needs manual reconciliation" NT_ALERT "/admin/approvals".

(** The alert itself: everyone who can be reached is notified. *)
Definition notifyAdmins (dl : Delivery) (admins : list id) : M unit :=
  foldr (fun a k => when (reaches dl a) (notify (conflict_notice a));; k) (mret tt) admins.

(** The delivery, and the release of the claim when nobody heard. *)
Definition deliverAlert (dl : Delivery) (dedupeKey : string) : M unit :=
  admins ← read admins_of;
  let intendedRecipients := if admins_found dl then Z.of_nat (length admins) else -1 in
  let delivered :=
    if admins_found dl then Z.of_nat (length (filter (fun a => reaches dl a = true) admins)) else 0 in
  when (admins_found dl) (notifyAdmins dl admins);;
  when (negb (intendedRecipients =? 0) && (delivered =? 0)) (deleteWebhookEvent dedupeKey).

Section Paystack.
(** [Number.prototype.toLocaleString('en-NG', ...)], in the alert's text. *)
Context (toLocaleString : Q -> string).

Definition formatNaira (kobo : Z) : string :=
  "₦" +:+ toLocaleString (Money.toNaira (Money.of_int kobo)).

Definition conflict_detail (payment : Payment) (reference : string) : string :=
  "Paystack reported a SUCCESSFUL charge for " +:+ reference +:+ " ("
  +:+ formatNaira (p_amountPaid payment) +:+ ") but the payment is "
  +:+ tx_status_string (p_status payment) +:+ " in our books. "
  +:+ "The money has been captured and split at Paystack; no state was changed automatically.".

Definition escalateReconcileConflict (dl : Delivery) (s : Snapshot) (reference : string)
    : M ReconcileOutcome :=
  let payment := sn_payment s in
  let outcome := StatusConflict (p_status payment) in
  let dedupeKey := conflict_key reference in
  alreadyEscalated ← catch
    (createWebhookEvent dedupeKey (mkWebhookEvent "reconcile.conflict" (Some reference) None
       (Some (conflict_detail payment reference)));; mret false)
    (fun err => if isUniqueConflictOn err "dedupeKey" then mret true else throw err);
  if alreadyEscalated : bool then mret outcome
  else
    emit (MetricReconcileConflict (p_status payment));;
    emit (Capture reference);;
    deliverAlert dl dedupeKey;;
    mret outcome.

(** ** Reconciling a charge *)

(** The transaction: [None] when a concurrent caller won the flip. *)
Definition reconcilePaystackPayment_tx (s : Snapshot) (reference : string)
    (actualFeeKobo : option Z) (actor : option AuditActor) (now : Z) : M (option (Z * bool * Z)) :=
  let payment := sn_payment s in
  flipped ← updateManyPayment (sn_pid s) (has_status TX_PENDING)
    (fun p => set_p_paymentDate now (set_p_actualPaystackFee actualFeeKobo
                (set_p_isConfirmed true (set_p_status TX_SUCCESS p))));
  if flipped =? 0 then mret None
  else
    '(remainingBalance, isCompleted) ←
      creditFirstPaymentToBalance (j_eid (sn_join s)) (p_schoolAmount payment);
    let estimateFee := default 0 (p_paystackFee payment) in
    let actualFee := default estimateFee actualFeeKobo in
    let feeDelta := actualFee - estimateFee in
    audit_record (mkAudit FIRST_PAYMENT_PAID "Payment" (sn_pid s) actor
      (Some (p_schoolId payment)) None
      (Some [("status", JTx (p_status payment)); ("isConfirmed", JBool (p_isConfirmed payment));
             ("remainingBalance", JNum (e_remainingBalance (j_enrollment (sn_join s))))])
      (Some [("status", JTx TX_SUCCESS); ("isConfirmed", JBool true);
             ("enrollmentStatus", JEnr (if isCompleted : bool then COMPLETED else ACTIVE));
             ("remainingBalance", JNum remainingBalance)])
      [("reference", JStr reference);
       ("amountCharged", from_option JNum JNull (p_amountCharged payment));
       ("platformAmount", JNum (p_platformAmount payment));
       ("schoolAmount", JNum (p_schoolAmount payment));
       ("estimatedPaystackFee", JNum estimateFee);
       ("actualPaystackFee", JNum actualFee);
       ("paystackFeeDelta", JNum feeDelta)]);;
    mret (Some (remainingBalance, isCompleted, feeDelta)).

Definition reconcilePaystackPayment_post (s : Snapshot) (processed : Z * bool * Z) (now : Z)
    : M ReconcileOutcome :=
  let '(_, isCompleted, feeDelta) := processed in
  let parent := j_userId (sn_join s) in
  emit (MetricFeeDelta feeDelta);;
  notify (mkNotification parent
    (if isCompleted then "Payment Completed" else "First Payment Confirmed") NT_PAYMENT "/history");;
  notify (mkNotification (s_ownerId (j_school (sn_join s)))
    "First Payment Received" NT_PAYMENT "/school-owner-dashboard");;
  emitBoth parent (p_schoolId (sn_payment s));;
  emit (Metric "confirmed" FIRST_PAYMENT (p_receiver (sn_payment s))
          (latencySeconds (p_paymentDate (sn_payment s)) now));;
  mret (Reconciled isCompleted).

(** The body after the row is read: what [s] says decides the branch. *)
Definition reconcile_snapshot (dl : Delivery) (s : Snapshot) (reference : string)
    (actualFeeKobo : option Z) (actor : option AuditActor) (now : Z) : M ReconcileOutcome :=
  match p_status (sn_payment s) with
  | TX_SUCCESS => mret AlreadyProcessed
  | TX_PENDING =>
      processed ← transaction (reconcilePaystackPayment_tx s reference actualFeeKobo actor now);
      match processed with
      | None => mret AlreadyProcessed
      | Some processed => reconcilePaystackPayment_post s processed now
      end
  | _ => escalateReconcileConflict dl s reference
  end.

Definition reconcilePaystackPayment (dl : Delivery) (reference : string)
    (actualFeeKobo : option Z) (actor : option AuditActor) (now : Z) : M ReconcileOutcome :=
  s ← read (findPaymentByReference reference);
  match s with
  | None => mret UnknownReference
  | Some s => reconcile_snapshot dl s reference actualFeeKobo actor now
  end.
End Paystack.

(** ** Failed charges *)

Definition failPaystackPayment_tx (s : Snapshot) : M bool :=
  res ← updateManyPayment (sn_pid s) (has_status TX_PENDING) (set_p_status TX_FAILED);
  if res =? 0 then mret false
  else
    updateEnrollment (p_enrollmentId (sn_payment s)) (set_e_paymentStatus FAILED);;
    mret true.

(** [updated] *)
Definition failPaystackPayment (reference : string) : M bool :=
  s ← read (findPaymentByReference reference);
  match s with
  | None => mret false
  | Some s =>
      if negb (has_status TX_PENDING (sn_payment s)) then mret false
      else
        flipped ← transaction (failPaystackPayment_tx s);
        if negb flipped then mret false
        else
          let parentUserId := j_userId (sn_join s) in
          notify (mkNotification parentUserId "Payment Failed" NT_ALERT "/history");;
          emitBoth parentUserId (p_schoolId (sn_payment s));;
          emit (Metric "failed" FIRST_PAYMENT (p_receiver (sn_payment s)) None);;
          mret true
  end.

(** ** Disputed charges *)

Definition reversePaystackPaymentByDispute_tx (s : Snapshot) (reference eventType : string)
    : M (option Notification) :=
  let payment := sn_payment s in let enrollment := j_enrollment (sn_join s) in
  let wasActive := bool_decide (e_paymentStatus enrollment = ACTIVE) in
  let wasCompleted := bool_decide (e_paymentStatus enrollment = COMPLETED) in
  res ← updateManyPayment (sn_pid s) (has_status TX_SUCCESS)
    (fun p => set_p_isConfirmed false (set_p_status TX_FAILED p));
  if res =? 0 then mret None
  else
    (if wasActive || wasCompleted then
       updateEnrollment (j_eid (sn_join s))
         (fun e => set_e_remainingBalance (e_totalSchoolFee enrollment) (set_e_paymentStatus FAILED e))
     else updateEnrollment (j_eid (sn_join s)) (set_e_paymentStatus FAILED));;
    audit_record (mkAudit PAYMENT_DISPUTED "Payment" (sn_pid s) None (Some (p_schoolId payment)) None
      (Some [("status", JTx (p_status payment)); ("isConfirmed", JBool (p_isConfirmed payment));
             ("enrollmentStatus", JEnr (e_paymentStatus enrollment));
             ("remainingBalance", JNum (e_remainingBalance enrollment))])
      (Some [("status", JTx TX_FAILED); ("isConfirmed", JBool false);
             ("enrollmentStatus", JEnr FAILED);
             ("remainingBalance", JNum (if wasActive || wasCompleted then e_totalSchoolFee enrollment
                                        else e_remainingBalance enrollment))])
      [("reference", JStr reference); ("eventType", JStr eventType);
       ("amount", JNum (p_amountPaid payment)); ("wasActive", JBool wasActive);
       ("wasCompleted", JBool wasCompleted)]);;
    parentNotification ← createNotification (mkNotification (j_userId (sn_join s))
      "Payment Disputed / Reversed" NT_ALERT "/history");
    createNotification (mkNotification (s_ownerId (j_school (sn_join s)))
      "Payment Disputed / Reversed" NT_ALERT "/school-owner-dashboard");;
    mret (Some parentNotification).

(** [reversed] *)
Definition reversePaystackPaymentByDispute (reference eventType : string) : M bool :=
  s ← read (findPaymentByReference reference);
  match s with
  | None => mret false
  | Some s =>
      if has_status TX_FAILED (sn_payment s) || has_status TX_REVERSED (sn_payment s) then mret false
      else
        flipped ← transaction (reversePaystackPaymentByDispute_tx s reference eventType);
        match flipped with
        | None => mret false
        | Some n =>
            emit (EvPush (j_userId (sn_join s)) n);;
            emitBoth (j_userId (sn_join s)) (p_schoolId (sn_payment s));;
            emit (Metric "failed" FIRST_PAYMENT (p_receiver (sn_payment s)) None);;
            mret true
        end
  end.

(** ** Manual first payments *)

Definition manual_first_cond (enrollmentId : id) (p : Payment) : bool :=
  bool_decide (p_enrollmentId p = enrollmentId) && is_first p && negb (p_isConfirmed p)
  && bool_decide (p_paystackReference p = None).
Definition card_first_cond (enrollmentId : id) (p : Payment) : bool :=
  bool_decide (p_enrollmentId p = enrollmentId) && is_first p && negb (p_isConfirmed p)
  && bool_decide (is_Some (p_paystackReference p)).

Definition confirmFirstPayment_tx (enrollmentId schoolId : id) (actor : AuditActor) (now : Z)
    : M (Joined * Payment) :=
  j ← read (fun d => join_enrollment d enrollmentId);
  j ← orThrow j (FBadRequest "Enrollment not found");
  let enrollment := j_enrollment j in
  ensure (bool_decide (e_schoolId enrollment = schoolId))
    (FBadRequest "Enrollment does not belong to this school");;
  ensure (bool_decide (e_paymentStatus enrollment = PENDING))
    (FBadRequest "Enrollment is not in pending status");;
  found ← read (fun d => find_row (manual_first_cond enrollmentId) (payments d));
  cardPayment ← read (fun d => find_row (card_first_cond enrollmentId) (payments d));
  ensure (bool_decide (is_Some found) || bool_decide (cardPayment = None))
    (FBadRequest "This first payment is collected by card and is confirmed automatically once the payment provider settles it.");;
  '(pid, payment) ← orThrow found (FBadRequest "No pending first payment found");
  confirmed ← updateManyPayment pid unconfirmed
    (fun p => set_p_paymentDate now (set_p_status TX_SUCCESS (set_p_isConfirmed true p)));
  ensure (negb (confirmed =? 0)) (FBadRequest "First payment already processed");;
  '(remainingBalance, isCompleted) ←
    creditFirstPaymentToBalance enrollmentId (p_schoolAmount payment);
  audit_record (mkAudit FIRST_PAYMENT_CONFIRMED "Payment" pid (Some actor) (Some schoolId) None
    (Some [("paymentStatus", JEnr PENDING); ("isConfirmed", JBool (p_isConfirmed payment));
           ("remainingBalance", JNum (e_remainingBalance enrollment))])
    (Some [("paymentStatus", JEnr (if isCompleted : bool then COMPLETED else ACTIVE));
           ("isConfirmed", JBool true); ("remainingBalance", JNum remainingBalance)])
    [("enrollmentId", JId enrollmentId); ("amount", JNum (p_amountPaid payment))]);;
  notify (mkNotification (j_userId j) "Enrollment Confirmed" NT_PAYMENT "/dashboard");;
  mret (j, payment).

Definition confirmFirstPayment (enrollmentId schoolId : id) (actor : AuditActor) (now : Z) : M unit :=
  '(j, payment) ← transaction (confirmFirstPayment_tx enrollmentId schoolId actor now);
  emitBoth (j_userId j) schoolId;;
  emit (Metric "confirmed" FIRST_PAYMENT (p_receiver payment)
          (latencySeconds (p_paymentDate payment) now)).

(** ** Defaults *)

Definition markEnrollmentAsDefaulted_tx (j : Joined) (schoolId : id) (actor : AuditActor)
    : M ChildEnrollment :=
  updated ← updateEnrollment (j_eid j) (set_e_paymentStatus DEFAULTED);
  audit_record (mkAudit ENROLLMENT_DEFAULTED "ChildEnrollment" (j_eid j) (Some actor)
    (Some schoolId) None
    (Some [("paymentStatus", JEnr (e_paymentStatus (j_enrollment j)))])
    (Some [("paymentStatus", JEnr DEFAULTED)])
    [("remainingBalance", JNum (e_remainingBalance (j_enrollment j)))]);;
  notify (mkNotification (j_userId j) "Payment Defaulted" NT_ALERT "/history");;
  mret updated.

Definition markEnrollmentAsDefaulted (enrollmentId schoolId : id) (actor : AuditActor)
    : M ChildEnrollment :=
  j ← read (fun d => join_enrollment d enrollmentId);
  j ← orThrow j (FBadRequest "Enrollment not found");
  ensure (bool_decide (e_schoolId (j_enrollment j) = schoolId)) (FBadRequest "Enrollment not found");;
  result ← transaction (markEnrollmentAsDefaulted_tx j schoolId actor);
  emit (EvEnrollmentsChanged (Some (j_userId j)) (Some schoolId) true);;
  mret result.

Definition sweep_cond (e : ChildEnrollment) : bool :=
  bool_decide (e_paymentStatus e = ACTIVE) && (0 <? e_remainingBalance e).

Definition markEnrollmentDefaultedBySweep_tx (j : Joined) : M (option Notification) :=
  res ← updateManyEnrollment (j_eid j) sweep_cond (set_e_paymentStatus DEFAULTED);
  if res =? 0 then mret None
  else
    audit_record (mkAudit ENROLLMENT_DEFAULTED "ChildEnrollment" (j_eid j) None
      (Some (e_schoolId (j_enrollment j))) None
      (Some [("paymentStatus", JEnr ACTIVE)]) (Some [("paymentStatus", JEnr DEFAULTED)])
      [("remainingBalance", JNum (e_remainingBalance (j_enrollment j)));
       ("source", JStr "scheduled-defaulter-detection")]);;
    n ← createNotification (mkNotification (j_userId j) "Payment Defaulted" NT_ALERT "/history");
    mret (Some n).

Definition markEnrollmentDefaultedBySweep (j : Joined) : M bool :=
  flipped ← transaction (markEnrollmentDefaultedBySweep_tx j);
  match flipped with
  | None => mret false
  | Some n =>
      emit (EvPush (j_userId j) n);;
      emit (EvEnrollmentsChanged (Some (j_userId j)) (Some (e_schoolId (j_enrollment j))) true);;
      mret true
  end.
