(* ===== verification/LedgerMigrated.v ===== *)
(** * The ledger: money paid before the school joined

    The migrated-plan half of [src/ledger/ledger.service.ts].  Recording and
    releasing a plan run in the caller's transaction, so they are plain
    computations here. *)

From Stdlib Require Import QArith_base.
From S2P Require Import Prelude JsNumber Money Dates Schedule Schema Effects MigratedPlan Ledger.

(** ** Opening a plan *)

Definition asMigratedEnrollmentConflict (error : failure) : failure :=
  match error with
  | FUnique target =>
      if includes "enrollmentInviteId" target
      then FBadRequest "This invite has already been claimed"
      else FBadRequest "This child already has a payment plan. Ask the school to cancel this invite and correct the existing plan instead."
  | e => e
  end.

Record MigratedClaim := mkMigratedClaim {
  mc_enrollmentId : id;
  mc_enrollment : ChildEnrollment;
  mc_paymentId : id;
  mc_payment : Payment;
  mc_figures : MigratedPlanFigures }.

(** The rows a claim of [invite] opens the plan with. *)
Definition migratedEnrollment (inviteId : id) (invite : EnrollmentInvite) (childId : id) (now : Z)
    : ChildEnrollment :=
  let figures := deriveMigratedPlan (i_totalSchoolFee invite) (i_amountAlreadyPaid invite) in
  {| e_childId := childId;
     e_schoolId := i_schoolId invite;
     e_className := i_className invite;
     e_totalSchoolFee := i_totalSchoolFee invite;
     e_platformFee := mf_platformFee figures;
     e_schoolMinimumFee := 0;
     e_firstPaymentPaid := i_amountAlreadyPaid invite;
     e_remainingBalance := mf_remainingBalance figures;
     e_paymentStatus := mf_paymentStatus figures;
     e_installmentFrequency := i_installmentFrequency invite;
     e_termStartDate := i_planStartDate invite;
     e_termEndDate := i_termEndDate invite;
     e_enrollmentInviteId := Some inviteId;
     e_createdAt := now |}.

Definition migratedPayment (enrollmentId : id) (invite : EnrollmentInvite) (now : Z) : Payment :=
  let figures := deriveMigratedPlan (i_totalSchoolFee invite) (i_amountAlreadyPaid invite) in
  {| p_enrollmentId := enrollmentId;
     p_schoolId := i_schoolId invite;
     p_idempotencyKey := None;
     p_amountPaid := i_amountAlreadyPaid invite;
     p_platformAmount := mf_platformFee figures;
     p_schoolAmount := i_amountAlreadyPaid invite;
     p_receiver := SCHOOL;
     p_paymentType := MIGRATED_PAYMENT;
     p_status := TX_SUCCESS;
     p_isConfirmed := true;
     p_paymentDate := migratedPaymentDate (i_planStartDate invite) now;
     p_receiptUrl := None;
     p_paystackReference := None;
     p_paystackAccessCode := None;
     p_amountCharged := None;
     p_paystackFee := None;
     p_actualPaystackFee := None;
     p_transactionCharge := None |}.

Definition recordMigratedEnrollment (inviteId : id) (invite : EnrollmentInvite)
    (childId parentUserId : id) (actor : AuditActor) (now : Z) : M MigratedClaim :=
  let figures := deriveMigratedPlan (i_totalSchoolFee invite) (i_amountAlreadyPaid invite) in
  let enrollment := migratedEnrollment inviteId invite childId now in
  enrollmentId ← catch (createEnrollment enrollment)
    (fun error => throw (asMigratedEnrollmentConflict error));
  let payment := migratedPayment enrollmentId invite now in
  paymentId ← createPayment payment;
  audit_record (mkAudit ENROLLMENT_INVITE_CLAIMED "Payment" paymentId (Some actor)
    (Some (i_schoolId invite)) None None
    (Some [("enrollmentId", JId enrollmentId);
           ("totalSchoolFee", JNum (i_totalSchoolFee invite));
           ("amountAlreadyPaid", JNum (i_amountAlreadyPaid invite));
           ("remainingBalance", JNum (mf_remainingBalance figures));
           ("enrollmentStatus", JEnr (mf_paymentStatus figures))])
    [("enrollmentInviteId", JId inviteId); ("childId", JId childId);
     ("parentUserId", JId parentUserId); ("studentName", JStr (i_studentName invite));
     ("className", JStr (i_className invite)); ("assertedBySchool", JBool true)]);;
  mret (mkMigratedClaim enrollmentId enrollment paymentId payment figures).

(** A failed delivery is logged and swallowed; [NotificationsService.create]
    either emits or does not. *)
Definition announceMigratedEnrollment (reached : bool) (parentUserId schoolId : id) : M unit :=
  emitBoth parentUserId schoolId;;
  emit (Metric "confirmed" MIGRATED_PAYMENT SCHOOL None);;
  when reached
    (notify (mkNotification parentUserId "Previous payments added" NT_PAYMENT "/history")).

(** ** Correcting the figure *)

Definition migrated_success (enrollmentId : id) (p : Payment) : bool :=
  bool_decide (p_enrollmentId p = enrollmentId) && bool_decide (p_paymentType p = MIGRATED_PAYMENT)
  && has_status TX_SUCCESS p.

Definition amend_cond (previousAmount : Z) (p : Payment) : bool :=
  (p_amountPaid p =? previousAmount) && has_status TX_SUCCESS p
  && bool_decide (p_paymentType p = MIGRATED_PAYMENT).

(** The reads and checks before the transaction: the plan and its migrated row.
    The amount is an integer by type, so [Number.isInteger] holds. *)
Definition amendMigratedPayment_pre (enrollmentId : id) (newAmountKobo : Z) (schoolId : id)
    : M (Joined * (id * Payment)) :=
  ensure (0 <=? newAmountKobo)
    (FBadRequest "Corrected amount must be zero or more");;
  j ← read (fun d => join_enrollment d enrollmentId);
  j ← orThrow j (FNotFound "Enrollment not found for this school");
  ensure (bool_decide (e_schoolId (j_enrollment j) = schoolId))
    (FNotFound "Enrollment not found for this school");;
  migrated ← read (fun d => find_row (migrated_success enrollmentId) (payments d));
  migrated ← orThrow migrated
    (FBadRequest "This plan did not start from an enrollment invite, so there is no migrated amount to correct");
  ensure (newAmountKobo <=? e_totalSchoolFee (j_enrollment j))
    (FBadRequest "Corrected amount cannot exceed the school fee");;
  ensure (negb (p_amountPaid migrated.2 =? newAmountKobo))
    (FBadRequest "The corrected amount is the same as the recorded one");;
  mret (j, migrated).

Definition amendMigratedPayment_tx (j : Joined) (migrated : id * Payment) (newAmountKobo : Z)
    (schoolId : id) (actor : AuditActor) (reason : option string) : M ChildEnrollment :=
  let enrollmentId := j_eid j in
  let previousAmount := p_amountPaid migrated.2 in
  locked ← read (fun d => enrollments d !! enrollmentId);
  locked ← orThrow locked (FNotFound "Enrollment not found");
  installmentsPaid ← read (fun d => sum_paid confirmed_installment (payments_of enrollmentId d));
  let nextBalance := e_totalSchoolFee locked - newAmountKobo - installmentsPaid in
  ensure (negb (nextBalance <? 0)) (FBadRequest "would leave this plan overpaid");;
  restated ← updateManyPayment migrated.1 (amend_cond previousAmount)
    (fun p => set_p_schoolAmount newAmountKobo (set_p_amountPaid newAmountKobo p));
  ensure (negb (restated =? 0))
    (FBadRequest "This migrated amount was changed by someone else - reload and try again");;
  updated ← updateEnrollment enrollmentId
    (fun e => set_e_paymentStatus (statusAfterMigratedAmendment (e_paymentStatus locked) nextBalance)
                (set_e_remainingBalance nextBalance (set_e_firstPaymentPaid newAmountKobo e)));
  match e_enrollmentInviteId (j_enrollment j) with
  | Some inviteId =>
      updateManyInvite inviteId (fun _ => true) (set_i_amountAlreadyPaid newAmountKobo);; mret tt
  | None => mret tt
  end;;
  audit_record (mkAudit MIGRATED_PAYMENT_AMENDED "Payment" migrated.1 (Some actor) (Some schoolId)
    reason
    (Some [("amountPaid", JNum previousAmount); ("remainingBalance", JNum (e_remainingBalance locked));
           ("enrollmentStatus", JEnr (e_paymentStatus locked))])
    (Some [("amountPaid", JNum newAmountKobo);
           ("remainingBalance", JNum (e_remainingBalance updated));
           ("enrollmentStatus", JEnr (e_paymentStatus updated))])
    [("enrollmentId", JId enrollmentId); ("installmentsPaid", JNum installmentsPaid)]);;
  mret updated.

(** The figures the correction returns, in naira. *)
Record AmendResult := mkAmendResult {
  am_enrollmentId : id;
  am_previousAmount : Q;
  am_amountAlreadyPaid : Q;
  am_remainingBalance : Q;
  am_paymentStatus : PaymentStatus }.

Definition amendMigratedPayment (reached : bool) (enrollmentId : id) (newAmountKobo : Z)
    (schoolId : id) (actor : AuditActor) (reason : option string) : M AmendResult :=
  '(j, migrated) ← amendMigratedPayment_pre enrollmentId newAmountKobo schoolId;
  result ← transaction (amendMigratedPayment_tx j migrated newAmountKobo schoolId actor reason);
  emitBoth (j_userId j) schoolId;;
  when reached (notify (mkNotification (j_userId j) "Previous payment corrected" NT_ALERT "/history"));;
  let naira := fun kobo => Money.toNaira (Money.of_int kobo) in
  mret (mkAmendResult enrollmentId (naira (p_amountPaid migrated.2)) (naira newAmountKobo)
          (naira (e_remainingBalance result)) (e_paymentStatus result)).

(** ** Undoing a claim *)

(** The number of payments removed. *)
Definition releaseMigratedEnrollment (enrollmentId childId inviteId schoolId : id)
    (actor : AuditActor) (reason : option string) : M Z :=
  enrollment ← read (fun d => enrollments d !! enrollmentId);
  enrollment ← orThrow enrollment (FNotFound "This plan no longer exists");
  its ← read (payments_of enrollmentId);
  let settled := filter (fun kv : id * Payment => confirmed_installment kv.2 = true) its in
  ensure (negb (0 <? length settled)%nat) (FBadRequest "This plan cannot be removed");;
  let before :=
    [("enrollmentId", JId enrollmentId); ("childId", JId childId);
     ("className", JStr (e_className enrollment));
     ("totalSchoolFee", JNum (e_totalSchoolFee enrollment));
     ("firstPaymentPaid", JNum (e_firstPaymentPaid enrollment));
     ("remainingBalance", JNum (e_remainingBalance enrollment));
     ("paymentStatus", JEnr (e_paymentStatus enrollment));
     ("termStartDate", JNum (e_termStartDate enrollment));
     ("termEndDate", JNum (e_termEndDate enrollment));
     ("payments", JPayments its)] in
  let removedPayments := Z.of_nat (length its) in
  write (fun d => set_payments
    (filter (fun kv : id * Payment => p_enrollmentId kv.2 <> enrollmentId) (payments d)) d);;
  write (fun d => set_enrollments (delete enrollmentId (enrollments d)) d);;
  child ← read (fun d => children d !! childId);
  orThrow child P2025;;
  write (fun d => set_children (delete childId (children d)) d);;
  audit_record (mkAudit ENROLLMENT_INVITE_RELEASED "EnrollmentInvite" inviteId (Some actor)
    (Some schoolId) reason (Some before) None [("removedPayments", JNum removedPayments)]);;
  mret removedPayments.
