(* ===== verification/Enrollment.v ===== *)
(** * Enrollment

    [src/enrollment/enrollment.service.ts]: opening a plan, paying into it, and
    the Paystack webhook.  The Paystack client, the clock, the random reference
    and the configured VAT rate come in an [Env]; ids are rendered by [id_str]. *)

From Stdlib Require Import QArith Ascii String.
From S2P Require Import Prelude JsNumber Money PaystackFee Dates Schedule Schema Effects.
From S2P Require Import EnrollmentView PaymentCalc Ledger LedgerCard.

Local Open Scope string_scope.
Local Open Scope Z_scope.

(** ** The outside *)

(** [paystack.verifyTransaction]: what it resolves to, or how it throws. *)
Inductive Verified :=
| VerifyUnknownReference
| VerifyFailed
| VerifyOk (status : string) (fees : option Z) (gatewayResponse : option string).

Record InitArgs := mkInitArgs {
  ia_email : string;
  ia_amountKobo : Z;
  ia_reference : string;
  ia_subaccount : string;
  ia_transactionChargeKobo : Z }.
Record InitOk := mkInitOk { io_reference : string; io_accessCode : string; io_authorizationUrl : string }.

Record Env := mkEnv {
  now : Z;
  randomUUID : string;
  vatRate : Q;
  toLocaleString : Q -> string;
  delivery : Delivery;
  id_str : id -> string;
  verifyTransaction : string -> Verified;
  initializeTransaction : InitArgs -> option InitOk }.

(** [PaystackApiError] and the other errors of [initializeTransaction]. *)
Definition initialize_error : failure := FInternal "Paystack initialize failed".

(** ** Requests *)

Record AuthUser := mkAuthUser { au_userId : id; au_role : UserRole; au_userSchoolId : option id }.

Record CreateEnrollmentDto := mkCreateEnrollmentDto {
  dto_childId : option id;
  dto_childName : option string;
  dto_schoolId : id;
  dto_className : string;
  dto_installmentFrequency : InstallmentFrequency;
  dto_firstPaymentPaid : Q;
  dto_termStartDate : Z;
  dto_termEndDate : Z;
  dto_receiptUrl : option string;
  dto_idempotencyKey : option string }.

(** A string the source tests with [if (s)]: neither missing nor empty. *)
Definition truthy (s : option string) : option string :=
  match s with
  | Some (String _ _) => s
  | _ => None
  end.

Definition assertOwnedReceiptPath (env : Env) (receiptUrl : option string) (userId : id) : M unit :=
  match receiptUrl with
  | None => mret tt
  | Some url => ensure (String.prefix ("receipts/" ++ id_str env userId ++ "/") url)
      (FBadRequest "Invalid receipt path")
  end.

(** ** Resolving the child *)

Definition parent_of (userId : id) (d : DB) : option (id * Parent) :=
  find_row (fun p => bool_decide (par_userId p = userId)) (parents d).
Definition school_of_owner (userId : id) (d : DB) : option (id * School) :=
  find_row (fun s => bool_decide (s_ownerId s = userId)) (schools d).

Definition resolveParent (userId : id) : M id :=
  parent ← read (parent_of userId);
  match parent with
  | Some (pid, _) => mret pid
  | None =>
      user ← read (fun d => users d !! userId);
      user ← orThrow user (FBadRequest "User not found");
      school ← read (school_of_owner userId);
      let phone :=
        match truthy (u_phoneNumber user), truthy ((fun kv : id * School => s_phone kv.2) <$> school) with
        | Some p, _ => p
        | None, Some p => p
        | None, None => EmptyString
        end in
      pid ← fresh_id;
      write (fun d => set_parents (<[pid := mkParent userId phone]> (parents d)) d);;
      mret pid
  end.

Definition same_child (c c' : Child) : bool :=
  bool_decide (c_parentId c = c_parentId c') && String.eqb (c_fullName c) (c_fullName c')
  && String.eqb (c_className c) (c_className c').
Definition find_child (c : Child) (d : DB) : option (id * Child) := find_row (same_child c) (children d).

(** [child.create], unique on the parent, name and class. *)
Definition createChild (c : Child) : M id :=
  clash ← read (find_child c);
  match clash with
  | Some _ => throw (FUnique "parentId,fullName,className")
  | None =>
      cid ← fresh_id;
      write (fun d => set_children (<[cid := c]> (children d)) d);;
      mret cid
  end.

Definition resolveChild (dto : CreateEnrollmentDto) (parent : id) : M id :=
  match dto_childId dto, truthy (dto_childName dto) with
  | Some cid, _ =>
      child ← read (fun d => children d !! cid);
      child ← orThrow child (FBadRequest "Child not found or does not belong to user");
      ensure (bool_decide (c_parentId child = parent))
        (FBadRequest "Child not found or does not belong to user");;
      mret cid
  | None, Some name =>
      let childIdentity := mkChild parent name (dto_className dto) in
      existingChild ← read (find_child childIdentity);
      match existingChild with
      | Some (cid, _) => mret cid
      | None =>
          catch (createChild childIdentity)
            (fun error =>
               match error with
               | FUnique _ =>
                   raced ← read (find_child childIdentity);
                   raced ← orThrow raced error;
                   mret raced.1
               | _ => throw error
               end)
      end
  | None, None => throw (FBadRequest "Either childId or childName must be provided")
  end.

Definition enrollment_of_child (childId : id) (d : DB) : option (id * ChildEnrollment) :=
  find_row (fun e => bool_decide (e_childId e = childId)) (enrollments d).

Record Target := mkTarget {
  tg_parent : id;
  tg_childId : id;
  tg_retryEnrollmentId : option id;
  tg_pendingEnrollmentId : option id }.

Definition resolveEnrollmentTarget (dto : CreateEnrollmentDto) (userId : id) (allowPendingRetry : bool)
    : M Target :=
  parent ← resolveParent userId;
  childId ← resolveChild dto parent;
  existing ← read (enrollment_of_child childId);
  match existing with
  | None => mret (mkTarget parent childId None None)
  | Some (eid, e) =>
      let sameSchool := bool_decide (e_schoolId e = dto_schoolId dto) in
      let status := e_paymentStatus e in
      if bool_decide (status = FAILED) then
        if sameSchool then mret (mkTarget parent childId (Some eid) None)
        else throw (FBadRequest "Failed enrollment belongs to a different school")
      else if allowPendingRetry && bool_decide (status = PENDING) && sameSchool then
        mret (mkTarget parent childId None (Some eid))
      else throw (FBadRequest "Enrollment already exists for this child")
  end.

(** ** Idempotency *)

Definition findPaymentByIdempotencyKey (key : string) (d : DB) : option (id * Payment) :=
  find_row (by_idempotencyKey key) (payments d).
Definition isIdempotencyConflict (error : failure) : bool := isUniqueConflictOn error "idempotencyKey".

Definition isReplayableIntent (s : PaymentTransactionStatus) : bool :=
  bool_decide (s = TX_PENDING) || bool_decide (s = TX_SUCCESS).

(** Release the key of a payment that was settled the other way. *)
Definition releaseKey (existing : id * Payment) : M unit :=
  updateManyPayment existing.1 (has_status (p_status existing.2)) (set_p_idempotencyKey None);;
  mret tt.

(** The response replaying an existing Paystack intent. *)
Record Replay := mkReplay {
  rp_reference : option string;
  rp_accessCode : option string;
  rp_amountCharged : option Q;
  rp_status : PaymentTransactionStatus }.
Definition buildIdempotentInitiationResponse (p : Payment) : Replay :=
  mkReplay (p_paystackReference p) (p_paystackAccessCode p)
    (match p_amountCharged p with
     | Some k => if k =? 0 then None else Some (naira k)
     | None => None
     end) (p_status p).
Definition buildResumeResponse : Payment -> Replay := buildIdempotentInitiationResponse.

(** ** Fees and schools *)

Definition resolveActiveClassFee (schoolId : id) (className : string) : M ClassFee :=
  fee ← read (fun d => find_row (fun f => bool_decide (cf_schoolId f = schoolId)
    && String.eqb (cf_className f) className && cf_isActive f) (classFees d));
  fee ← orThrow fee (FBadRequest "No fee configuration found for class in this school");
  mret fee.2.

(** The school's subaccount code. *)
Definition assertSchoolAcceptsOnlinePayments (schoolId : id) : M string :=
  school ← read (fun d => schools d !! schoolId);
  school ← orThrow school (FNotFound "School not found");
  match s_paystackSubaccountActive school, truthy (s_paystackSubaccountCode school) with
  | true, Some code => mret code
  | _, _ => throw (FBadRequest "This school is not set up to accept online payments yet.")
  end.

(** ** Opening a plan *)

(** The columns both first-payment flows write on a new or retried plan. *)
Definition enrollmentData (dto : CreateEnrollmentDto) (calc : DepositCalculationResult) (depositKobo : Z)
    (childId schoolId : id) (inviteId : option id) (createdAt : Z) : ChildEnrollment :=
  {| e_childId := childId;
     e_schoolId := schoolId;
     e_className := dto_className dto;
     e_totalSchoolFee := d_schoolFees calc;
     e_platformFee := d_platformFee calc;
     e_schoolMinimumFee := d_minimumDeposit calc;
     e_firstPaymentPaid := depositKobo;
     e_remainingBalance := d_schoolFees calc;
     e_paymentStatus := PENDING;
     e_installmentFrequency := dto_installmentFrequency dto;
     e_termStartDate := dto_termStartDate dto;
     e_termEndDate := dto_termEndDate dto;
     e_enrollmentInviteId := inviteId;
     e_createdAt := createdAt |}.

(** Update the plan being retried, or create one. *)
Definition openEnrollment (dto : CreateEnrollmentDto) (calc : DepositCalculationResult) (depositKobo : Z)
    (childId : id) (reuse : option id) (now : Z) : M id :=
  match reuse with
  | Some eid =>
      updateEnrollment eid (fun e => enrollmentData dto calc depositKobo (e_childId e) (e_schoolId e)
        (e_enrollmentInviteId e) (e_createdAt e));; mret eid
  | None => createEnrollment (enrollmentData dto calc depositKobo childId (dto_schoolId dto) None now)
  end.

Definition manualPayment (dto : CreateEnrollmentDto) (calc : DepositCalculationResult)
    (depositKobo : Z) (enrollmentId : id) (now : Z) : Payment :=
  {| p_enrollmentId := enrollmentId;
     p_schoolId := dto_schoolId dto;
     p_idempotencyKey := dto_idempotencyKey dto;
     p_amountPaid := depositKobo;
     p_platformAmount := d_platformFee calc;
     p_schoolAmount := d_amountToSchool calc;
     p_receiver := PLATFORM;
     p_paymentType := FIRST_PAYMENT;
     p_status := TX_PENDING;
     p_isConfirmed := false;
     p_paymentDate := now;
     p_receiptUrl := dto_receiptUrl dto;
     p_paystackReference := None;
     p_paystackAccessCode := None;
     p_amountCharged := None;
     p_paystackFee := None;
     p_actualPaystackFee := None;
     p_transactionCharge := None |}.

Inductive EnrollResult :=
| EnrollReplay (paymentId : id)
| Enrolled (enrollmentId paymentId : id).

Definition enrollChild_tx (env : Env) (dto : CreateEnrollmentDto) (calc : DepositCalculationResult)
    (depositKobo childId : _) (retry : option id) : M (id * id * option School) :=
  eid ← openEnrollment dto calc depositKobo childId retry (now env);
  pid ← createPayment (manualPayment dto calc depositKobo eid (now env));
  school ← read (fun d => schools d !! dto_schoolId dto);
  mret (eid, pid, school).

(** Try [m]; a lost race on the idempotency key replays the winner with [k]. *)
Definition replay_on_conflict {A} (key : option string) (m : M A) (k : id * Payment -> A) : M A :=
  catch m (fun error =>
    match truthy key with
    | Some key =>
        if isIdempotencyConflict error then
          existing ← read (findPaymentByIdempotencyKey key);
          match existing with
          | Some existing => mret (k existing)
          | None => throw error
          end
        else throw error
    | None => throw error
    end).

Definition notify_all (f : id -> Notification) (to : list id) : M unit :=
  foldr (fun a k => notify (f a);; k) (mret tt) to.

Definition announceManualEnrollmentInitiated (school : option School) (dto : CreateEnrollmentDto) : M unit :=
  match school with
  | Some s => notify (mkNotification (s_ownerId s) "New Enrollment Initiated" NT_PAYMENT "/admin/approvals")
  | None => mret tt
  end;;
  admins ← read admins_of;
  notify_all (fun a => mkNotification a "New First Payment Received" NT_PAYMENT "/admin/approvals") admins;;
  emit (EvEnrollmentsChanged None (Some (dto_schoolId dto)) true);;
  emit (EvPaymentsChanged None (Some (dto_schoolId dto)) true).

(** The replay of an earlier submission, if the key names one. *)
Definition replayed (key : option string) (d : DB) : option (id * Payment) :=
  k ← truthy key; findPaymentByIdempotencyKey k d.

Definition enrollChild (env : Env) (dto : CreateEnrollmentDto) (userId : id) : M EnrollResult :=
  existing ← read (replayed (dto_idempotencyKey dto));
  match existing with
  | Some (pid, _) => mret (EnrollReplay pid)
  | None =>
      target ← resolveEnrollmentTarget dto userId false;
      classFee ← resolveActiveClassFee (dto_schoolId dto) (dto_className dto);
      let depositKobo := kobo_of (dto_firstPaymentPaid dto) in
      calculation ← lift (calculateInitialPayment (cf_feeAmount classFee) depositKobo);
      result ← replay_on_conflict (dto_idempotencyKey dto)
        (r ← transaction (enrollChild_tx env dto calculation depositKobo (tg_childId target)
                            (tg_retryEnrollmentId target));
         mret (Enrolled r.1.1 r.1.2, r.2, true))
        (fun existing => (EnrollReplay existing.1, None, false));
      let '(r, school, fresh) := result in
      when fresh (announceManualEnrollmentInitiated school dto);;
      mret r
  end.

(** ** Card first payments *)

(** [orderBy: { paymentDate: 'desc' }], the first row. *)
Definition latest (l : list (id * Payment)) : option (id * Payment) :=
  foldr (fun x acc => match acc with
    | None => Some x
    | Some y => if p_paymentDate y.2 <=? p_paymentDate x.2 then Some x else Some y
    end) None l.
Definition pending_first (enrollmentId : id) (p : Payment) : bool :=
  bool_decide (p_enrollmentId p = enrollmentId) && is_first p && has_status TX_PENDING p.

(** [None] is [{ resolved: false }]: a fresh charge may be made. *)
Definition resolvePendingFirstPayment (env : Env) (enrollmentId : id) : M (option Replay) :=
  payment ← read (fun d => latest (filter (fun kv : id * Payment => pending_first enrollmentId kv.2 = true)
                                     (map_to_list (payments d))));
  match payment with
  | None => mret None
  | Some (_, payment) =>
      match truthy (p_paystackReference payment) with
      | None => mret None
      | Some reference =>
          match truthy (p_paystackAccessCode payment) with
          | None => failPaystackPayment reference;; mret None
          | Some _ =>
              match verifyTransaction env reference with
              | VerifyUnknownReference => failPaystackPayment reference;; mret None
              | VerifyFailed => mret (Some (buildResumeResponse payment))
              | VerifyOk status fees _ =>
                  if String.eqb status "failed" || String.eqb status "abandoned" then
                    failPaystackPayment reference;; mret None
                  else
                    (if String.eqb status "success" then
                       reconcilePaystackPayment (toLocaleString env) (delivery env) reference fees None
                         (now env);; mret tt
                     else mret tt);;
                    mret (Some (buildResumeResponse payment))
              end
          end
      end
  end.

Definition cardPayment (env : Env) (dto : CreateEnrollmentDto) (calc : DepositCalculationResult)
    (g : GrossUp) (reference : string) (depositKobo : Z) (enrollmentId : id) : Payment :=
  {| p_enrollmentId := enrollmentId;
     p_schoolId := dto_schoolId dto;
     p_idempotencyKey := dto_idempotencyKey dto;
     p_amountPaid := depositKobo;
     p_platformAmount := d_platformFee calc;
     p_schoolAmount := d_amountToSchool calc;
     p_receiver := PLATFORM;
     p_paymentType := FIRST_PAYMENT;
     p_status := TX_PENDING;
     p_isConfirmed := false;
     p_paymentDate := now env;
     p_receiptUrl := None;
     p_paystackReference := Some reference;
     p_paystackAccessCode := None;
     p_amountCharged := Some (amountCharged g);
     p_paystackFee := Some (gu_paystackFee g);
     p_actualPaystackFee := None;
     p_transactionCharge := Some (d_platformFee calc + gu_paystackFee g) |}.

Inductive InitiationResult :=
| Resumed (r : Replay)
| Started (reference accessCode authorizationUrl : string) (amountCharged depositToSchool platformFee paystackFee : Q).

Definition initiate_tx (env : Env) (dto : CreateEnrollmentDto) (calc : DepositCalculationResult)
    (g : GrossUp) (reference : string) (depositKobo childId : _) (reuse : option id) : M (id * id) :=
  eid ← openEnrollment dto calc depositKobo childId reuse (now env);
  pid ← createPayment (cardPayment env dto calc g reference depositKobo eid);
  mret (pid, eid).

(** Call Paystack once the rows exist: a refusal fails the row it orphaned. *)
Definition initiate_charge (env : Env) (email reference subaccount : string)
    (calc : DepositCalculationResult) (g : GrossUp) (paymentId : id) : M InitiationResult :=
  match initializeTransaction env
          (mkInitArgs email (amountCharged g) reference subaccount (d_platformFee calc + gu_paystackFee g)) with
  | None =>
      catch (failPaystackPayment reference;; mret tt) (fun _ => mret tt);;
      throw initialize_error
  | Some init =>
      p ← findPaymentOrThrow paymentId;
      updateManyPayment paymentId (fun _ => true) (set_p_paystackAccessCode (Some (io_accessCode init)));;
      mret (Started (io_reference init) (io_accessCode init) (io_authorizationUrl init)
        (naira (amountCharged g)) (naira (d_amountToSchool calc)) (naira (d_platformFee calc))
        (naira (gu_paystackFee g)))
  end.

(** From the resolved child on: price the charge, write the rows, call Paystack. *)
Definition initiate_fresh (env : Env) (dto : CreateEnrollmentDto) (userId : id) (classFee : ClassFee)
    (subaccount : string) (childId : id) (reuse : option id) : M InitiationResult :=
  let depositKobo := kobo_of (dto_firstPaymentPaid dto) in
  calc ← lift (calculateInitialPayment (cf_feeAmount classFee) depositKobo);
  let base := d_amountToSchool calc + d_platformFee calc in
  g ← lift (grossUp (inject_Z base) (vatRate env) GROSS_UP_SEARCH_WINDOW_KOBO);
  user ← read (fun d => users d !! userId);
  email ← orThrow (truthy (u_email <$> user)) (FBadRequest "Payer email not found");
  let reference := "lopay_" ++ randomUUID env in
  written ← replay_on_conflict (dto_idempotencyKey dto)
    (r ← transaction (initiate_tx env dto calc g reference depositKobo childId reuse);
     mret (inl r.1))
    (fun existing => inr (buildIdempotentInitiationResponse existing.2));
  match written with
  | inr replay => mret (Resumed replay)
  | inl paymentId => initiate_charge env email reference subaccount calc g paymentId
  end.

Definition initiateFirstPayment (env : Env) (dto : CreateEnrollmentDto) (userId : id) : M InitiationResult :=
  assertOwnedReceiptPath env (dto_receiptUrl dto) userId;;
  existing ← read (replayed (dto_idempotencyKey dto));
  match existing with
  | Some existing =>
      if isReplayableIntent (p_status existing.2) then
        mret (Some (buildIdempotentInitiationResponse existing.2))
      else releaseKey existing;; mret None
  | None => mret None
  end ≫= fun replay =>
  match replay with
  | Some replay => mret (Resumed replay)
  | None =>
      classFee ← resolveActiveClassFee (dto_schoolId dto) (dto_className dto);
      subaccount ← assertSchoolAcceptsOnlinePayments (dto_schoolId dto);
      target ← resolveEnrollmentTarget dto userId true;
      match tg_pendingEnrollmentId target with
      | Some pendingId =>
          pending ← resolvePendingFirstPayment env pendingId;
          match pending with
          | Some response => mret (Resumed response)
          | None => initiate_fresh env dto userId classFee subaccount (tg_childId target) (Some pendingId)
          end
      | None => initiate_fresh env dto userId classFee subaccount (tg_childId target)
                  (tg_retryEnrollmentId target)
      end
  end.

(** ** Ownership *)

Definition owns_payment (user : AuthUser) (d : DB) (p : Payment) : bool :=
  let isParentOwner :=
    match join_enrollment d (p_enrollmentId p) with
    | Some j => bool_decide (j_userId j = au_userId user)
    | None => false
    end in
  let isSchoolOwner := bool_decide (au_role user = SCHOOL_OWNER)
    && bool_decide (au_userSchoolId user = Some (p_schoolId p)) in
  isParentOwner || isSchoolOwner.

Definition assertReferenceOwnedBy (reference : string) (user : AuthUser) : M unit :=
  payment ← read (fun d => find_row (by_reference reference) (payments d));
  payment ← orThrow payment (FNotFound "Unknown payment reference");
  owner ← read (fun d => owns_payment user d payment.2);
  ensure owner (FForbidden "You do not have access to this payment").

(** ** The Paystack webhook *)

Record PaystackWebhookEvent := mkPaystackEvent {
  ev_event : option string;
  ev_dataReference : option string;
  ev_dataId : option string;
  ev_dataFees : option Z }.

Definition failure_message (e : failure) : string :=
  match e with
  | FBadRequest m | FNotFound m | FForbidden m | FUnauthorized m | FConflict m | FBadGateway m
  | FUnavailable m | FInternal m => m
  | FUnique t => "Unique constraint failed on " ++ t
  end.

Definition dispute_notice (admin : id) : Notification :=
  mkNotification admin "Paystack Dispute / Refund" NT_PAYMENT "/admin/approvals".

Definition recordPaystackDispute (eventType : string) (reference : option string) : M unit :=
  match truthy reference with
  | Some reference => reversePaystackPaymentByDispute reference eventType;; mret tt
  | None => mret tt
  end;;
  admins ← read admins_of;
  notify_all dispute_notice admins.

Definition dispatchPaystackEvent (env : Env) (eventType : string) (reference : option string)
    (fees : option Z) : M unit :=
  match truthy reference, String.eqb eventType "charge.success", String.eqb eventType "charge.failed" with
  | Some reference, true, _ =>
      reconcilePaystackPayment (toLocaleString env) (delivery env) reference fees None (now env);; mret tt
  | Some reference, false, true => failPaystackPayment reference;; mret tt
  | _, _, _ =>
      if String.prefix "charge.dispute" eventType || String.prefix "refund." eventType then
        recordPaystackDispute eventType reference
      else mret tt
  end.

Definition webhook_key (env : Env) (event : PaystackWebhookEvent) : string :=
  default "unknown" (ev_event event) ++ ":" ++
  match ev_dataId event, ev_dataReference event with
  | Some i, _ => i
  | None, Some r => r
  | None, None => randomUUID env
  end.

Definition updateWebhookEvent (dedupeKey : string) (data : WebhookEvent -> WebhookEvent) : M unit :=
  ev ← read (fun d => webhookEvents d !! dedupeKey);
  ev ← orThrow ev P2025;
  write (fun d => set_webhookEvents (<[dedupeKey := data ev]> (webhookEvents d)) d).

(** The delivery log around a dispatch: claim the event, run, mark it processed;
    when the dispatch throws, keep the error on the row and rethrow.  [received]
    is always true; the boolean is [duplicate]. *)
Definition logged_dispatch (dedupeKey eventType : string) (reference : option string) (now : Z)
    (dispatch : M unit) : M bool :=
  duplicate ← catch
    (createWebhookEvent dedupeKey (mkWebhookEvent eventType reference None None);; mret false)
    (fun error => if isUniqueConflictOn error "dedupeKey" then mret true else throw error);
  if duplicate : bool then mret true
  else
    catch (dispatch;; updateWebhookEvent dedupeKey (set_w_processedAt (Some now)))
      (fun err =>
         catch (updateWebhookEvent dedupeKey (set_w_error (Some (failure_message err)))) (fun _ => mret tt);;
         throw err);;
    mret false.

Definition processPaystackWebhookEvent (env : Env) (event : PaystackWebhookEvent) : M bool :=
  let eventType := default "unknown" (ev_event event) in
  let reference := ev_dataReference event in
  logged_dispatch (webhook_key env event) eventType reference (now env)
    (dispatchPaystackEvent env eventType reference (ev_dataFees event)).

(** ** Installments *)

(** Installments submitted and not yet decided, reserved against the balance. *)
Definition reserved_installment (p : Payment) : bool :=
  is_installment p && has_status TX_PENDING p && negb (p_isConfirmed p).
Definition availableBalance (eid : id) (e : ChildEnrollment) (d : DB) : Z :=
  e_remainingBalance e - sum_paid reserved_installment (payments_of eid d).

Definition installmentPayment (enrollmentId schoolId : id) (amountPaidKobo : Z)
    (receiptUrl idempotencyKey : option string) (now : Z) : Payment :=
  {| p_enrollmentId := enrollmentId;
     p_schoolId := schoolId;
     p_idempotencyKey := idempotencyKey;
     p_amountPaid := amountPaidKobo;
     p_platformAmount := 0;
     p_schoolAmount := amountPaidKobo;
     p_receiver := SCHOOL;
     p_paymentType := INSTALLMENT;
     p_status := TX_PENDING;
     p_isConfirmed := false;
     p_paymentDate := now;
     p_receiptUrl := receiptUrl;
     p_paystackReference := None;
     p_paystackAccessCode := None;
     p_amountCharged := None;
     p_paystackFee := None;
     p_actualPaystackFee := None;
     p_transactionCharge := None |}.

Definition submit_tx (enrollmentId schoolId : id) (amountPaidKobo : Z)
    (receiptUrl idempotencyKey : option string) (now : Z) : M id :=
  locked ← read (fun d => enrollments d !! enrollmentId);
  locked ← orThrow locked (FNotFound "Enrollment not found");
  availableKobo ← read (availableBalance enrollmentId locked);
  ensure (negb (availableKobo <? amountPaidKobo)) (FBadRequest "Payment exceeds the outstanding balance");;
  createPayment (installmentPayment enrollmentId schoolId amountPaidKobo receiptUrl idempotencyKey now).

(** The response names the payment row; [replay] is true when it is an earlier one. *)
Record SubmitResult := mkSubmitResult { sr_paymentId : id; sr_replay : bool }.

Definition submitInstallmentPayment (env : Env) (enrollmentId : id) (amountPaid : Q) (user : AuthUser)
    (receiptUrl idempotencyKey : option string) : M SubmitResult :=
  assertOwnedReceiptPath env receiptUrl (au_userId user);;
  existing ← read (replayed idempotencyKey);
  replay ← match existing with
    | Some existing =>
        if isReplayableIntent (p_status existing.2) then mret (Some (mkSubmitResult existing.1 true))
        else releaseKey existing;; mret None
    | None => mret None
    end;
  match replay with
  | Some r => mret r
  | None =>
      j ← read (fun d => join_enrollment d enrollmentId);
      j ← orThrow j (FNotFound "Enrollment not found");
      ensure (bool_decide (j_userId j = au_userId user))
        (FForbidden "You are not authorized to pay this enrollment");;
      let amountPaidKobo := kobo_of amountPaid in
      ensure (0 <? amountPaidKobo) (FBadRequest "Payment amount must be greater than zero");;
      r ← replay_on_conflict idempotencyKey
        (pid ← transaction (submit_tx enrollmentId (e_schoolId (j_enrollment j)) amountPaidKobo
                              receiptUrl idempotencyKey (now env));
         mret (mkSubmitResult pid false))
        (fun existing => mkSubmitResult existing.1 true);
      when (negb (sr_replay r))
        (notify (mkNotification (s_ownerId (j_school j)) "New Installment Payment" NT_PAYMENT EmptyString);;
         emit (EvPaymentsChanged (Some (j_userId j)) (Some (e_schoolId (j_enrollment j))) true));;
      mret r
  end.

(** ** The outcome screen *)

Record PaymentOutcomeView := mkOutcome {
  oc_state : PaymentOutcomeState;
  oc_paymentType : PaymentType;
  oc_amount : Q;
  oc_reference : string + id;
  oc_reason : option string;
  oc_view : option EnrollmentView }.

Definition load_payment (reference : option string) (paymentId : option id) (d : DB) : option (id * Payment) :=
  match truthy reference with
  | Some r => find_row (by_reference r) (payments d)
  | None => i ← paymentId; p ← payments d !! i; Some (i, p)
  end.

Definition outcome_view (kv : id * Payment) (reason : option string) (d : DB) : PaymentOutcomeView :=
  let p := kv.2 in
  {| oc_state := derivePaymentOutcomeState p;
     oc_paymentType := p_paymentType p;
     oc_amount := naira (default (p_amountPaid p) (p_amountCharged p));
     oc_reference := match p_paystackReference p with Some r => inl r | None => inr kv.1 end;
     oc_reason := reason;
     oc_view := (fun j => toEnrollmentView (j_eid j) (j_enrollment j) (Some (c_fullName (j_child j)))
                            (Some (s_name (j_school j))) (payments_of (j_eid j) d))
                <$> join_enrollment d (p_enrollmentId p) |}.

(** Verify and settle, then re-read; nothing that fails here blanks the screen. *)
Definition refresh_outcome (env : Env) (reference : string) (payment : id * Payment)
    : M (id * Payment * option string) :=
  match verifyTransaction env reference with
  | VerifyOk status fees gatewayReason =>
      catch
        ((if String.eqb status "success" then
            reconcilePaystackPayment (toLocaleString env) (delivery env) reference fees None (now env);; mret tt
          else if String.eqb status "failed" then failPaystackPayment reference;; mret tt
          else mret tt);;
         again ← read (load_payment (Some reference) None);
         mret (default payment again, gatewayReason))
        (fun _ => mret (payment, gatewayReason))
  | _ => mret (payment, None)
  end.

Definition getPaymentOutcome (env : Env) (reference : option string) (paymentId : option id) (user : AuthUser)
    : M PaymentOutcomeView :=
  ensure (bool_decide (is_Some (truthy reference)) || bool_decide (is_Some paymentId))
    (FBadRequest "reference or paymentId is required");;
  payment ← read (load_payment reference paymentId);
  payment ← orThrow payment (FNotFound "Payment not found");
  owner ← read (fun d => owns_payment user d payment.2);
  ensure owner (FForbidden "You do not have access to this payment");;
  let st := p_status payment.2 in
  let alreadySettled := bool_decide (st = TX_SUCCESS) || bool_decide (st = TX_REVERSED) in
  refreshed ← match truthy reference with
    | Some reference => if alreadySettled then mret (payment, None) else refresh_outcome env reference payment
    | None => mret (payment, None)
    end;
  read (outcome_view refreshed.1 refreshed.2).

(** ** A parent's plans *)

Definition children_of (parent : id) (d : DB) : list id :=
  fst <$> filter (fun kv : id * Child => c_parentId kv.2 = parent) (map_to_list (children d)).

(** Without the newest-first order, on which no figure depends. *)
Definition parentEnrollmentViews (userId : id) (d : DB) : list EnrollmentView :=
  match parent_of userId d with
  | None => []
  | Some (parent, _) =>
      let mine := filter (fun kv : id * ChildEnrollment => e_childId kv.2 ∈ children_of parent d)
                    (map_to_list (enrollments d)) in
      (fun kv : id * ChildEnrollment =>
         toEnrollmentView kv.1 kv.2 (c_fullName <$> children d !! e_childId kv.2)
           (s_name <$> schools d !! e_schoolId kv.2) (payments_of kv.1 d)) <$> mine
  end.
Definition getParentDashboardSummary (userId : id) : M DashboardSummary :=
  views ← read (parentEnrollmentViews userId); mret (summariseParentDashboard views).
