(* ===== verification/LedgerSpecs.v ===== *)
(** * What the ledger's transitions do

    Every transition as a function of the two rows it touches, on every branch.
    The claims are about whole methods; the lemmas before them are about the
    transactions alone, run from a snapshot that may be stale. *)

From S2P Require Import Prelude Schedule Schema Effects Samples MigratedPlan Ledger LedgerCard LedgerMigrated.

(** ** The rows a transition writes *)

Definition confirmed_row (now : Z) (p : Payment) : Payment :=
  set_p_paymentDate now (set_p_status TX_SUCCESS (set_p_isConfirmed true p)).
Definition reversed_row (p : Payment) : Payment :=
  set_p_isConfirmed false (set_p_status TX_REVERSED p).
Definition debit_installment (amount : Z) (e : ChildEnrollment) : ChildEnrollment :=
  if e_remainingBalance e - amount <=? 0
  then set_e_paymentStatus COMPLETED (set_e_remainingBalance 0 e)
  else set_e_remainingBalance (e_remainingBalance e - amount) e.
Definition restore_installment (amount : Z) (e : ChildEnrollment) : ChildEnrollment :=
  set_e_paymentStatus
    (if bool_decide (e_paymentStatus e = COMPLETED) then ACTIVE else e_paymentStatus e)
    (set_e_remainingBalance (Z.min (e_totalSchoolFee e) (e_remainingBalance e + amount)) e).
Definition credit_first (amount : Z) (e : ChildEnrollment) : ChildEnrollment :=
  set_e_paymentStatus (if e_remainingBalance e - amount <=? 0 then COMPLETED else ACTIVE)
    (set_e_remainingBalance (Z.max 0 (e_remainingBalance e - amount)) e).

(** The tables no money transition writes. *)
Definition frame (d d' : DB) : Prop :=
  invites d' = invites d /\ schools d' = schools d /\ classFees d' = classFees d /\
  parents d' = parents d /\ children d' = children d /\ users d' = users d /\
  webhookEvents d' = webhookEvents d /\ schedulerLocks d' = schedulerLocks d /\
  next_id d' = next_id d.

(** One payment and one enrollment were rewritten, with one audit row about
    [subject], and nothing else. *)
Record moves (w w' : World) (pid : id) (p : Payment) (eid : id) (e : ChildEnrollment)
    (action : AuditAction) : Prop := mkMoves {
  mv_payments : payments (db w') = <[pid := p]> (payments (db w));
  mv_enrollments : enrollments (db w') = <[eid := e]> (enrollments (db w));
  mv_audit : exists a, auditLog (db w') = auditLog (db w) ++ [a] /\
    au_action a = action /\ au_entityId a = pid;
  mv_frame : frame (db w) (db w') }.

Ltac prove_moves :=
  split; cbn -[insert]; rewrite ?insert_insert_eq, ?insert_id by done;
  [done | done | eexists; split; [reflexivity | done] | repeat split; done].

Lemma moves_db w w1 w2 pid p eid e a :
  moves w w1 pid p eid e a -> db w2 = db w1 -> moves w w2 pid p eid e a.
Proof. intros [H1 H2 H3 H4] E. split; by rewrite E. Qed.

Lemma findPaymentJoined_some pid cond d s :
  findPaymentJoined pid cond d = Some s ->
  sn_pid s = pid /\ payments d !! pid = Some (sn_payment s) /\ cond (sn_payment s) = true /\
  join_enrollment d (p_enrollmentId (sn_payment s)) = Some (sn_join s).
Proof.
  unfold findPaymentJoined. destruct (payments d !! pid) as [p|] eqn:E; simpl; [|done].
  destruct (cond p) eqn:Ec; [|done].
  destruct (join_enrollment d (p_enrollmentId p)) as [j|] eqn:Ej; simpl; [|done].
  by intros [= <-].
Qed.

Lemma join_enrollment_some d eid j :
  join_enrollment d eid = Some j -> j_eid j = eid /\ enrollments d !! eid = Some (j_enrollment j).
Proof.
  unfold join_enrollment. destruct (enrollments d !! eid) as [e|]; simpl; [|done].
  destruct (schools d !! e_schoolId e) as [x|]; simpl; [|done].
  destruct (children d !! e_childId e) as [c|]; simpl; [|done].
  destruct (parents d !! c_parentId c) as [pr|]; simpl; [|done].
  by intros [= <-].
Qed.

(** ** Transactions *)

Section transactions.
Context (s : Snapshot) (w : World).
Local Abbreviation pid := (sn_pid s).
Local Abbreviation eid := (p_enrollmentId (sn_payment s)).
Local Abbreviation amount := (p_amountPaid (sn_payment s)).

Lemma confirmPayment_tx_ok schoolId actor now p e :
  payments (db w) !! pid = Some p -> confirm_cond schoolId p = true ->
  enrollments (db w) !! eid = Some e ->
  exists w', confirmPayment_tx s schoolId actor now w = (Ok (confirmed_row now p), w') /\
    moves w w' pid (confirmed_row now p) eid (debit_installment amount e) PAYMENT_CONFIRMED.
Proof.
  intros Hp Hc He. unfold confirmPayment_tx, debit_installment. exec.
  destruct (_ <=? 0) eqn:Eb; exec; eexists; (split; [reflexivity | prove_moves]).
Qed.

Lemma confirmPayment_tx_conflict schoolId actor now :
  (forall p, payments (db w) !! pid = Some p -> confirm_cond schoolId p = false) ->
  confirmPayment_tx s schoolId actor now w =
    (Err (FBadRequest "Payment not found or already confirmed"), w).
Proof.
  intros Hp. unfold confirmPayment_tx. destruct (payments (db w) !! pid) as [p|] eqn:E; [|by exec].
  specialize (Hp p eq_refl). by exec.
Qed.
Lemma rejectPayment_tx_ok schoolId actor p e :
  payments (db w) !! pid = Some p -> reject_cond schoolId p = true ->
  enrollments (db w) !! eid = Some e ->
  exists w', rejectPayment_tx s schoolId actor w = (Ok (set_p_status TX_FAILED p), w') /\
    moves w w' pid (set_p_status TX_FAILED p) eid
      (if is_first (sn_payment s) then set_e_paymentStatus FAILED e else e) PAYMENT_REJECTED.
Proof.
  intros Hp Hc He. unfold rejectPayment_tx. exec.
  destruct (is_first (sn_payment s)) eqn:Eb; exec; eexists; (split; [reflexivity|]); prove_moves.
Qed.

Lemma rejectPayment_tx_conflict schoolId actor :
  (forall p, payments (db w) !! pid = Some p -> reject_cond schoolId p = false) ->
  rejectPayment_tx s schoolId actor w =
    (Err (FBadRequest "Payment not found or already processed"), w).
Proof.
  intros Hp. unfold rejectPayment_tx. destruct (payments (db w) !! pid) as [p|] eqn:E; [|by exec].
  specialize (Hp p eq_refl). by exec.
Qed.

Lemma reversePayment_tx_ok schoolId actor reason p e :
  payments (db w) !! pid = Some p -> reverse_cond schoolId p = true ->
  enrollments (db w) !! eid = Some e ->
  exists w', reversePayment_tx s schoolId actor reason w = (Ok (reversed_row p), w') /\
    moves w w' pid (reversed_row p) eid (restore_installment amount e) PAYMENT_REVERSED.
Proof.
  intros Hp Hc He. unfold reversePayment_tx, restore_installment. exec.
  destruct (_ <? _) eqn:Eb; exec; eexists; (split; [reflexivity|]).
  - cbn in Eb. rewrite Z.min_l by (to_prop; lia). prove_moves.
  - cbn in Eb. rewrite Z.min_r by (to_prop; lia). prove_moves.
Qed.

Lemma reversePayment_tx_conflict schoolId actor reason :
  (forall p, payments (db w) !! pid = Some p -> reverse_cond schoolId p = false) ->
  reversePayment_tx s schoolId actor reason w =
    (Err (FBadRequest "No confirmed installment payment found to reverse"), w).
Proof.
  intros Hp. unfold reversePayment_tx. destruct (payments (db w) !! pid) as [p|] eqn:E; [|by exec].
  specialize (Hp p eq_refl). by exec.
Qed.

Lemma settleFirstPayment_tx_ok actor p e :
  payments (db w) !! pid = Some p -> unconfirmed p = true ->
  enrollments (db w) !! eid = Some e ->
  exists n w', settleFirstPayment_tx s actor w = (Ok (Some n), w') /\
    moves w w' pid (set_p_status TX_SUCCESS (set_p_isConfirmed true p)) eid
      (credit_first (p_schoolAmount (sn_payment s)) e) FIRST_PAYMENT_SETTLED.
Proof.
  intros Hp Hc He. unfold settleFirstPayment_tx, creditFirstPaymentToBalance, credit_first. exec.
  do 2 eexists. split; [reflexivity|]. prove_moves.
Qed.

Lemma settleFirstPayment_tx_conflict actor :
  (forall p, payments (db w) !! pid = Some p -> unconfirmed p = false) ->
  settleFirstPayment_tx s actor w = (Ok None, w).
Proof.
  intros Hp. unfold settleFirstPayment_tx. destruct (payments (db w) !! pid) as [p|] eqn:E; [|by exec].
  specialize (Hp p eq_refl). by exec.
Qed.

Lemma rejectFirstPayment_tx_ok actor p e :
  payments (db w) !! pid = Some p -> unconfirmed p = true ->
  enrollments (db w) !! eid = Some e ->
  exists n w', rejectFirstPayment_tx s actor w = (Ok (Some n), w') /\
    moves w w' pid (set_p_status TX_FAILED p) eid (set_e_paymentStatus FAILED e)
      FIRST_PAYMENT_REJECTED.
Proof.
  intros Hp Hc He. unfold rejectFirstPayment_tx. exec.
  do 2 eexists. split; [reflexivity|]. prove_moves.
Qed.

Lemma rejectFirstPayment_tx_conflict actor :
  (forall p, payments (db w) !! pid = Some p -> unconfirmed p = false) ->
  rejectFirstPayment_tx s actor w = (Ok None, w).
Proof.
  intros Hp. unfold rejectFirstPayment_tx. destruct (payments (db w) !! pid) as [p|] eqn:E; [|by exec].
  specialize (Hp p eq_refl). by exec.
Qed.

(** A charge that Paystack reports successful. *)
Definition reconciled_row (fee : option Z) (now : Z) (p : Payment) : Payment :=
  set_p_paymentDate now (set_p_actualPaystackFee fee
    (set_p_isConfirmed true (set_p_status TX_SUCCESS p))).

Lemma reconcilePaystackPayment_tx_ok reference fee actor now p e :
  payments (db w) !! pid = Some p -> has_status TX_PENDING p = true ->
  enrollments (db w) !! j_eid (sn_join s) = Some e ->
  let balance := e_remainingBalance e - p_schoolAmount (sn_payment s) in
  let estimate := default 0 (p_paystackFee (sn_payment s)) in
  exists w', reconcilePaystackPayment_tx s reference fee actor now w =
      (Ok (Some (Z.max 0 balance, balance <=? 0, default estimate fee - estimate)), w') /\
    moves w w' pid (reconciled_row fee now p) (j_eid (sn_join s))
      (credit_first (p_schoolAmount (sn_payment s)) e) FIRST_PAYMENT_PAID.
Proof.
  intros Hp Hc He balance estimate.
  unfold reconcilePaystackPayment_tx, creditFirstPaymentToBalance, credit_first. exec.
  eexists. split; [reflexivity|]. prove_moves.
Qed.

Lemma reconcilePaystackPayment_tx_conflict reference fee actor now :
  (forall p, payments (db w) !! pid = Some p -> has_status TX_PENDING p = false) ->
  reconcilePaystackPayment_tx s reference fee actor now w = (Ok None, w).
Proof.
  intros Hp. unfold reconcilePaystackPayment_tx.
  destruct (payments (db w) !! pid) as [p|] eqn:E; [|by exec].
  specialize (Hp p eq_refl). by exec.
Qed.

Lemma failPaystackPayment_tx_ok p e :
  payments (db w) !! pid = Some p -> has_status TX_PENDING p = true ->
  enrollments (db w) !! eid = Some e ->
  failPaystackPayment_tx s w = (Ok true, mkWorld
    (set_enrollments (<[eid := set_e_paymentStatus FAILED e]> (enrollments (db w)))
      (set_payments (<[pid := set_p_status TX_FAILED p]> (payments (db w))) (db w))) (out w)).
Proof. intros Hp Hc He. unfold failPaystackPayment_tx. by exec. Qed.

Lemma failPaystackPayment_tx_conflict :
  (forall p, payments (db w) !! pid = Some p -> has_status TX_PENDING p = false) ->
  failPaystackPayment_tx s w = (Ok false, w).
Proof.
  intros Hp. unfold failPaystackPayment_tx.
  destruct (payments (db w) !! pid) as [p|] eqn:E; [|by exec].
  specialize (Hp p eq_refl). by exec.
Qed.

(** What a dispute does to the plan, by what the snapshot [e0] said. *)
Definition disputed_plan (e0 e : ChildEnrollment) : ChildEnrollment :=
  if bool_decide (e_paymentStatus e0 = ACTIVE) || bool_decide (e_paymentStatus e0 = COMPLETED)
  then set_e_remainingBalance (e_totalSchoolFee e0) (set_e_paymentStatus FAILED e)
  else set_e_paymentStatus FAILED e.

Lemma reversePaystackPaymentByDispute_tx_ok reference eventType p e :
  payments (db w) !! pid = Some p -> has_status TX_SUCCESS p = true ->
  enrollments (db w) !! j_eid (sn_join s) = Some e ->
  exists n w', reversePaystackPaymentByDispute_tx s reference eventType w = (Ok (Some n), w') /\
    moves w w' pid (set_p_isConfirmed false (set_p_status TX_FAILED p)) (j_eid (sn_join s))
      (disputed_plan (j_enrollment (sn_join s)) e) PAYMENT_DISPUTED.
Proof.
  intros Hp Hc He. unfold reversePaystackPaymentByDispute_tx, disputed_plan. exec.
  destruct (_ || _) eqn:Eb; exec; do 2 eexists; (split; [reflexivity|]); prove_moves.
Qed.

Lemma reversePaystackPaymentByDispute_tx_conflict reference eventType :
  (forall p, payments (db w) !! pid = Some p -> has_status TX_SUCCESS p = false) ->
  reversePaystackPaymentByDispute_tx s reference eventType w = (Ok None, w).
Proof.
  intros Hp. unfold reversePaystackPaymentByDispute_tx.
  destruct (payments (db w) !! pid) as [p|] eqn:E; [|by exec].
  specialize (Hp p eq_refl). by exec.
Qed.
End transactions.

Lemma findPaymentByReference_some ref d s :
  findPaymentByReference ref d = Some s ->
  payments d !! sn_pid s = Some (sn_payment s) /\ by_reference ref (sn_payment s) = true /\
  join_enrollment d (p_enrollmentId (sn_payment s)) = Some (sn_join s).
Proof.
  unfold findPaymentByReference. destruct (find_row _ _) as [[pid p]|] eqn:E; simpl; [|done].
  destruct (join_enrollment d (p_enrollmentId p)) as [j|] eqn:Ej; simpl; [|done].
  intros [= <-]. simpl. by apply find_row_some in E as [? ?].
Qed.

(** ** Methods

    A method that finds its row runs the transaction on the very state it read,
    so the transaction's guard holds; one that finds none throws. *)

Ltac run_found H E Hr :=
  eexists; exec; rewrite E; exec; rewrite Hr; split; [reflexivity | by eapply moves_db].

Section methods.
Context (pid : id) (w : World) (s : Snapshot).
Local Abbreviation eid := (p_enrollmentId (sn_payment s)).
Local Abbreviation amount := (p_amountPaid (sn_payment s)).
Local Abbreviation plan := (j_enrollment (sn_join s)).

Lemma confirmPayment_found schoolId actor now :
  findPaymentJoined pid (confirm_cond schoolId) (db w) = Some s ->
  exists w', confirmPayment pid schoolId actor now w = (Ok (confirmed_row now (sn_payment s)), w') /\
    moves w w' pid (confirmed_row now (sn_payment s)) eid (debit_installment amount plan)
      PAYMENT_CONFIRMED.
Proof.
  intros E. pose proof (findPaymentJoined_some _ _ _ _ E) as (<- & Hp & Hc & Hj).
  apply join_enrollment_some in Hj as [_ He].
  destruct (confirmPayment_tx_ok s w schoolId actor now _ _ Hp Hc He) as (w' & Hr & Hm).
  unfold confirmPayment, confirmPayment_pre. run_found Hm E Hr.
Qed.

Lemma rejectPayment_found schoolId actor :
  findPaymentJoined pid (reject_cond schoolId) (db w) = Some s ->
  exists w', rejectPayment pid schoolId actor w = (Ok (set_p_status TX_FAILED (sn_payment s)), w') /\
    moves w w' pid (set_p_status TX_FAILED (sn_payment s)) eid
      (if is_first (sn_payment s) then set_e_paymentStatus FAILED plan else plan) PAYMENT_REJECTED.
Proof.
  intros E. pose proof (findPaymentJoined_some _ _ _ _ E) as (<- & Hp & Hc & Hj).
  apply join_enrollment_some in Hj as [_ He].
  destruct (rejectPayment_tx_ok s w schoolId actor _ _ Hp Hc He) as (w' & Hr & Hm).
  unfold rejectPayment, rejectPayment_pre. run_found Hm E Hr.
Qed.

Lemma reversePayment_found schoolId actor reason :
  findPaymentJoined pid (reverse_cond schoolId) (db w) = Some s ->
  exists w', reversePayment pid schoolId actor reason w = (Ok (reversed_row (sn_payment s)), w') /\
    moves w w' pid (reversed_row (sn_payment s)) eid (restore_installment amount plan)
      PAYMENT_REVERSED.
Proof.
  intros E. pose proof (findPaymentJoined_some _ _ _ _ E) as (<- & Hp & Hc & Hj).
  apply join_enrollment_some in Hj as [_ He].
  destruct (reversePayment_tx_ok s w schoolId actor reason _ _ Hp Hc He) as (w' & Hr & Hm).
  unfold reversePayment, reversePayment_pre. run_found Hm E Hr.
Qed.

Lemma settle_cond_unconfirmed p : settle_cond p = true -> unconfirmed p = true.
Proof. unfold settle_cond, unconfirmed. intros H. to_prop. apply negb_true_iff. tauto. Qed.

Lemma settleFirstPayment_found actor now :
  findPaymentJoined pid settle_cond (db w) = Some s ->
  exists w', settleFirstPayment pid actor now w = (Ok pid, w') /\
    moves w w' pid (set_p_status TX_SUCCESS (set_p_isConfirmed true (sn_payment s))) eid
      (credit_first (p_schoolAmount (sn_payment s)) plan) FIRST_PAYMENT_SETTLED.
Proof.
  intros E. pose proof (findPaymentJoined_some _ _ _ _ E) as (<- & Hp & Hc & Hj).
  apply join_enrollment_some in Hj as [_ He]. apply settle_cond_unconfirmed in Hc.
  destruct (settleFirstPayment_tx_ok s w actor _ _ Hp Hc He) as (n & w' & Hr & Hm).
  unfold settleFirstPayment, settleFirstPayment_pre. run_found Hm E Hr.
Qed.

Lemma rejectFirstPayment_found actor :
  findPaymentJoined pid settle_cond (db w) = Some s ->
  exists w', rejectFirstPayment pid actor w = (Ok pid, w') /\
    moves w w' pid (set_p_status TX_FAILED (sn_payment s)) eid (set_e_paymentStatus FAILED plan)
      FIRST_PAYMENT_REJECTED.
Proof.
  intros E. pose proof (findPaymentJoined_some _ _ _ _ E) as (<- & Hp & Hc & Hj).
  apply join_enrollment_some in Hj as [_ He]. apply settle_cond_unconfirmed in Hc.
  destruct (rejectFirstPayment_tx_ok s w actor _ _ Hp Hc He) as (n & w' & Hr & Hm).
  unfold rejectFirstPayment, rejectFirstPayment_pre. run_found Hm E Hr.
Qed.
End methods.

(** ** Installments *)

(** C15: [confirmPayment] on every input: with no unconfirmed installment of
    that id at that school it throws and changes nothing; otherwise it marks
    exactly that payment confirmed, takes its amount off the plan (settling it
    at zero rather than going negative), and appends one audit row. *)
Theorem confirmPayment_outcomes pid schoolId actor now w :
  match findPaymentJoined pid (confirm_cond schoolId) (db w) with
  | None => confirmPayment pid schoolId actor now w =
      (Err (FBadRequest "Payment not found or already confirmed"), w)
  | Some s => exists w',
      confirmPayment pid schoolId actor now w = (Ok (confirmed_row now (sn_payment s)), w') /\
      moves w w' pid (confirmed_row now (sn_payment s)) (p_enrollmentId (sn_payment s))
        (debit_installment (p_amountPaid (sn_payment s)) (j_enrollment (sn_join s)))
        PAYMENT_CONFIRMED
  end.
Proof.
  destruct (findPaymentJoined _ _ _) as [s|] eqn:E; [by apply confirmPayment_found|].
  unfold confirmPayment, confirmPayment_pre. exec. by rewrite E.
Qed.

(** [rejectPayment] on every input: it fails the payment without touching
    the balance; a rejected first payment also fails its plan. *)
Theorem rejectPayment_outcomes pid schoolId actor w :
  match findPaymentJoined pid (reject_cond schoolId) (db w) with
  | None => rejectPayment pid schoolId actor w =
      (Err (FBadRequest "Payment not found or already processed"), w)
  | Some s => exists w',
      rejectPayment pid schoolId actor w = (Ok (set_p_status TX_FAILED (sn_payment s)), w') /\
      moves w w' pid (set_p_status TX_FAILED (sn_payment s)) (p_enrollmentId (sn_payment s))
        (if is_first (sn_payment s) then set_e_paymentStatus FAILED (j_enrollment (sn_join s))
         else j_enrollment (sn_join s)) PAYMENT_REJECTED
  end.
Proof.
  destruct (findPaymentJoined _ _ _) as [s|] eqn:E; [by apply rejectPayment_found|].
  unfold rejectPayment, rejectPayment_pre. exec. by rewrite E.
Qed.

(** [reversePayment] on every input: it withdraws exactly one confirmed
    installment, gives its amount back to the plan capped at the school fee, and
    reopens a settled plan. *)
Theorem reversePayment_outcomes pid schoolId actor reason w :
  match findPaymentJoined pid (reverse_cond schoolId) (db w) with
  | None => reversePayment pid schoolId actor reason w =
      (Err (FBadRequest "No confirmed installment payment found to reverse"), w)
  | Some s => exists w',
      reversePayment pid schoolId actor reason w = (Ok (reversed_row (sn_payment s)), w') /\
      moves w w' pid (reversed_row (sn_payment s)) (p_enrollmentId (sn_payment s))
        (restore_installment (p_amountPaid (sn_payment s)) (j_enrollment (sn_join s)))
        PAYMENT_REVERSED
  end.
Proof.
  destruct (findPaymentJoined _ _ _) as [s|] eqn:E; [by apply reversePayment_found|].
  unfold reversePayment, reversePayment_pre. exec. by rewrite E.
Qed.

(** Crediting an installment and giving it back is the identity on an open plan
    that was owed at least that much. *)
Lemma restore_debit amount e :
  e_paymentStatus e = ACTIVE -> 0 <= amount <= e_remainingBalance e ->
  e_remainingBalance e <= e_totalSchoolFee e ->
  restore_installment amount (debit_installment amount e) = e.
Proof.
  intros Hs Ha Hb. destruct e; cbn in *. subst. unfold debit_installment. cbn -[Z.add Z.sub].
  destruct (_ <=? 0) eqn:E; unfold restore_installment; cbn -[Z.add Z.sub Z.min];
    rewrite Z.min_r by (to_prop; lia); unfold set_e_paymentStatus, set_e_remainingBalance; cbn;
    f_equal; to_prop; lia.
Qed.

Lemma join_enrollment_update w w' pid p eid e a j :
  moves w w' pid p eid e a -> join_enrollment (db w) eid = Some j ->
  e_schoolId e = e_schoolId (j_enrollment j) -> e_childId e = e_childId (j_enrollment j) ->
  join_enrollment (db w') eid = Some (mkJoined eid e (j_school j) (j_child j) (j_parent j)).
Proof.
  intros [_ He _ (_ & Hs & _ & Hp & Hc & _)] Hj E1 E2. unfold join_enrollment in *.
  rewrite He, Hs, Hp, Hc, lookup_insert_eq. simpl. rewrite E1, E2.
  destruct (enrollments (db w) !! eid) as [e0|]; simpl in *; [|done].
  destruct (schools (db w) !! e_schoolId e0) as [x|] eqn:Ex; simpl in *; [|done].
  destruct (children (db w) !! e_childId e0) as [c|] eqn:Ec; simpl in *; [|done].
  destruct (parents (db w) !! c_parentId c) as [pr|] eqn:Ep; simpl in *; [|done].
  injection Hj as <-. simpl. by rewrite Ex; simpl; rewrite Ec; simpl; rewrite Ep.
Qed.

Lemma debit_installment_keys amount e :
  e_schoolId (debit_installment amount e) = e_schoolId e /\
  e_childId (debit_installment amount e) = e_childId e.
Proof. unfold debit_installment. by destruct (_ <=? 0). Qed.

Lemma confirm_then_reverse schoolId now p :
  confirm_cond schoolId p = true -> reverse_cond schoolId (confirmed_row now p) = true.
Proof.
  unfold confirm_cond, reverse_cond, is_installment, of_school, has_status.
  destruct p; cbn. repeat case_bool_decide; cbn; destruct (negb _); done.
Qed.

(** C16: confirming an installment and then withdrawing the confirmation puts
    every plan back exactly as it was, provided the open plan was owed at least
    the installment: both calls succeed, and the enrollments table is the one
    before the two. *)
Theorem reverse_undoes_confirm pid schoolId actor now actor' reason w s :
  findPaymentJoined pid (confirm_cond schoolId) (db w) = Some s ->
  e_paymentStatus (j_enrollment (sn_join s)) = ACTIVE ->
  0 <= p_amountPaid (sn_payment s) <= e_remainingBalance (j_enrollment (sn_join s)) ->
  e_remainingBalance (j_enrollment (sn_join s)) <= e_totalSchoolFee (j_enrollment (sn_join s)) ->
  exists r1 w1 r2 w2,
    confirmPayment pid schoolId actor now w = (Ok r1, w1) /\
    reversePayment pid schoolId actor' reason w1 = (Ok r2, w2) /\
    p_status r2 = TX_REVERSED /\ enrollments (db w2) = enrollments (db w).
Proof.
  intros E Hs Ha Hb. destruct (confirmPayment_found _ _ _ schoolId actor now E) as (w1 & H1 & M1).
  pose proof (findPaymentJoined_some _ _ _ _ E) as (_ & Hp & Hc & Hj).
  destruct (debit_installment_keys (p_amountPaid (sn_payment s)) (j_enrollment (sn_join s))) as [K1 K2].
  pose proof (join_enrollment_update _ _ _ _ _ _ _ _ M1 Hj K1 K2) as Hj1.
  pose proof (reversePayment_found pid w1
    (mkSnapshot pid (confirmed_row now (sn_payment s))
      (mkJoined (p_enrollmentId (sn_payment s))
         (debit_installment (p_amountPaid (sn_payment s)) (j_enrollment (sn_join s)))
         (j_school (sn_join s)) (j_child (sn_join s)) (j_parent (sn_join s))))
    schoolId actor' reason) as R.
  destruct R as (w2 & H2 & M2).
  { unfold findPaymentJoined. rewrite (mv_payments _ _ _ _ _ _ _ M1), lookup_insert_eq. simpl.
    rewrite (confirm_then_reverse _ now _ Hc).
    simpl. rewrite Hj1. reflexivity. }
  do 4 eexists. split; [exact H1|]. split; [exact H2|]. split; [done|].
  rewrite (mv_enrollments _ _ _ _ _ _ _ M2), (mv_enrollments _ _ _ _ _ _ _ M1), insert_insert_eq.
  cbn [sn_payment sn_join j_enrollment confirmed_row p_amountPaid p_enrollmentId].
  apply insert_id. apply join_enrollment_some in Hj as [_ He].
  etransitivity; [exact He|]. f_equal. symmetry. by apply restore_debit.
Qed.

Example reverse_undoes_confirm_witness :
  exists r1 w1 r2 w2,
    confirmPayment 5%positive 1%positive sample_owner 2000 sample = (Ok r1, w1) /\
    reversePayment 5%positive 1%positive sample_owner None w1 = (Ok r2, w2) /\
    p_status r2 = TX_REVERSED /\ enrollments (db w2) = enrollments (db sample).
Proof.
  eapply (reverse_undoes_confirm 5%positive 1%positive);
    [vm_compute; reflexivity | reflexivity | vm_compute; split; congruence | vm_compute; congruence].
Defined.

(** ** First payments *)

(** [settleFirstPayment] on every input: only an unconfirmed first payment
    without a card reference is settled, its school share is credited once, and
    the plan becomes ACTIVE or, when nothing is left, COMPLETED. *)
Theorem settleFirstPayment_outcomes pid actor now w :
  match findPaymentJoined pid settle_cond (db w) with
  | None => settleFirstPayment pid actor now w =
      (Err (FNotFound "Payment not found or already settled"), w)
  | Some s => exists w', settleFirstPayment pid actor now w = (Ok pid, w') /\
      moves w w' pid (set_p_status TX_SUCCESS (set_p_isConfirmed true (sn_payment s)))
        (p_enrollmentId (sn_payment s))
        (credit_first (p_schoolAmount (sn_payment s)) (j_enrollment (sn_join s)))
        FIRST_PAYMENT_SETTLED
  end.
Proof.
  destruct (findPaymentJoined _ _ _) as [s|] eqn:E; [by apply settleFirstPayment_found|].
  unfold settleFirstPayment, settleFirstPayment_pre. exec. by rewrite E.
Qed.
