(* ===== verification/LedgerCardSpecs.v ===== *)
(** * What card payments do

    Reconciliation, its races and its conflicts, disputes, manual first
    payments and defaults, on every branch. *)

From Stdlib Require Import QArith_base.
From S2P Require Import Prelude JsNumber Money Schedule Schema Effects Samples Ledger LedgerCard.
From S2P Require Import LedgerMigrated LedgerSpecs.

(** ** The alert *)

Lemma notifyAdmins_run dl admins w :
  notifyAdmins dl admins w = (Ok tt, mkWorld (db w)
    (out w ++ ((fun a => Notify (conflict_notice a)) <$> filter (fun a => reaches dl a = true) admins))).
Proof.
  unfold notifyAdmins. revert w. induction admins as [|a l IH]; intros w; [csimpl; by rewrite app_nil_r; destruct w|].
  csimpl. unfold when. destruct (reaches dl a) eqn:E.
  - rewrite filter_cons_True by done. unfold mbind, M_bind, notify, emit. rewrite IH. csimpl.
    by rewrite <- app_assoc.
  - rewrite filter_cons_False by congruence. unfold mbind, M_bind, mret, M_ret. by rewrite IH.
Qed.

(** Whether the claim taken before the alert survives it: someone was told, or
    there was nobody to tell. *)
Definition alert_stands (dl : Delivery) (d : DB) : bool :=
  admins_found dl &&
  (bool_decide (admins_of d = []) || negb (bool_decide (filter (fun a => reaches dl a = true) (admins_of d) = []))).

Lemma alert_released_iff dl d :
  let intended := if admins_found dl then Z.of_nat (length (admins_of d)) else -1 in
  let delivered := if admins_found dl
    then Z.of_nat (length (filter (fun a => reaches dl a = true) (admins_of d))) else 0 in
  negb (intended =? 0) && (delivered =? 0) = negb (alert_stands dl d).
Proof.
  unfold alert_stands. destruct (admins_found dl); simpl; [|done].
  destruct (admins_of d) as [|a l]; simpl; [done|].
  destruct (filter _ (a :: l)) as [|b k] eqn:E; simpl.
  - done.
  - done.
Qed.

(** What the admins receive. *)
Definition alert_sent (dl : Delivery) (d : DB) : list effect :=
  if admins_found dl then
    (fun a => Notify (conflict_notice a)) <$> filter (fun a => reaches dl a = true) (admins_of d)
  else [].

Lemma deliverAlert_run dl key w :
  deliverAlert dl key w = (Ok tt, mkWorld
    (if alert_stands dl (db w) then db w
     else set_webhookEvents (delete key (webhookEvents (db w))) (db w))
    (out w ++ alert_sent dl (db w))).
Proof.
  unfold deliverAlert, read. unfold mbind at 1, M_bind at 1.
  pose proof (alert_released_iff dl (db w)) as R. cbv zeta in R |- *. rewrite R. unfold alert_sent.
  destruct (admins_found dl) eqn:E; unfold when, mbind, M_bind.
  - rewrite notifyAdmins_run. destruct (alert_stands dl (db w)); reflexivity.
  - unfold mret, M_ret. rewrite app_nil_r.
    destruct (alert_stands dl (db w)); [by destruct w | reflexivity].
Qed.

Section conflict.
Context (fmt : Q -> string) (dl : Delivery) (s : Snapshot) (reference : string) (w : World).

Lemma includes_dedupeKey : isUniqueConflictOn (FUnique "dedupeKey") "dedupeKey" = true.
Proof. reflexivity. Qed.

Lemma escalate_repeat ev :
  webhookEvents (db w) !! conflict_key reference = Some ev ->
  escalateReconcileConflict fmt dl s reference w = (Ok (StatusConflict (p_status (sn_payment s))), w).
Proof. intros H. unfold escalateReconcileConflict. by exec. Qed.

Lemma escalate_first :
  webhookEvents (db w) !! conflict_key reference = None ->
  exists ev, escalateReconcileConflict fmt dl s reference w =
    (Ok (StatusConflict (p_status (sn_payment s))), mkWorld
      (if alert_stands dl (db w)
       then set_webhookEvents (<[conflict_key reference := ev]> (webhookEvents (db w))) (db w)
       else db w)
      (out w ++ [MetricReconcileConflict (p_status (sn_payment s)); Capture reference] ++
         alert_sent dl (db w))).
Proof.
  intros H. unfold escalateReconcileConflict. exec. rewrite deliverAlert_run. cbn [db out].
  eexists. rewrite <- !app_assoc.
  change (alert_stands dl (set_webhookEvents _ (db w))) with (alert_stands dl (db w)).
  change (alert_sent dl (set_webhookEvents _ (db w))) with (alert_sent dl (db w)).
  destruct (alert_stands dl (db w)); [reflexivity|]. do 3 f_equal. cbn -[insert delete].
  rewrite delete_insert_id by done. by destruct w as [[] ?].
Qed.
End conflict.

(** ** Reconciling a charge *)

Lemma reconcile_pending fmt dl s reference fee actor now w e :
  payments (db w) !! sn_pid s = Some (sn_payment s) -> p_status (sn_payment s) = TX_PENDING ->
  enrollments (db w) !! j_eid (sn_join s) = Some e ->
  exists w', reconcile_snapshot fmt dl s reference fee actor now w =
      (Ok (Reconciled (e_remainingBalance e - p_schoolAmount (sn_payment s) <=? 0)), w') /\
    moves w w' (sn_pid s) (reconciled_row fee now (sn_payment s)) (j_eid (sn_join s))
      (credit_first (p_schoolAmount (sn_payment s)) e) FIRST_PAYMENT_PAID.
Proof.
  intros Hp Hs He. assert (has_status TX_PENDING (sn_payment s) = true) as Hc.
  { unfold has_status. by rewrite Hs. }
  destruct (reconcilePaystackPayment_tx_ok s w reference fee actor now _ _ Hp Hc He) as (w' & Hr & Hm).
  unfold reconcile_snapshot. rewrite Hs. exec. rewrite Hr. eexists.
  split; [reflexivity | by eapply moves_db].
Qed.

(** C11: a [charge.success] for any reference, on every branch: an unknown
    reference and an already paid charge change nothing; a pending one is marked
    paid and its deposit credited exactly once to its plan; a charge the books
    had closed the other way moves no money and is reported as a conflict. *)
Theorem reconcilePaystackPayment_outcomes fmt dl reference fee actor now w :
  let r := reconcilePaystackPayment fmt dl reference fee actor now w in
  match findPaymentByReference reference (db w) with
  | None => r = (Ok UnknownReference, w)
  | Some s =>
      let p := sn_payment s in let e := j_enrollment (sn_join s) in
      match p_status p with
      | TX_SUCCESS => r = (Ok AlreadyProcessed, w)
      | TX_PENDING => exists w',
          r = (Ok (Reconciled (e_remainingBalance e - p_schoolAmount p <=? 0)), w') /\
          moves w w' (sn_pid s) (reconciled_row fee now p) (p_enrollmentId p)
            (credit_first (p_schoolAmount p) e) FIRST_PAYMENT_PAID
      | st => exists w', r = (Ok (StatusConflict st), w') /\
          payments (db w') = payments (db w) /\ enrollments (db w') = enrollments (db w) /\
          auditLog (db w') = auditLog (db w)
      end
  end.
Proof.
  cbv zeta. unfold reconcilePaystackPayment. unfold mbind, M_bind, read.
  destruct (findPaymentByReference reference (db w)) as [s|] eqn:E; [|done].
  apply findPaymentByReference_some in E as (Hp & _ & Hj).
  apply join_enrollment_some in Hj as [Hid He]. rewrite <- Hid in He |- *.
  destruct (p_status (sn_payment s)) eqn:Hs; [by apply reconcile_pending| | |];
    unfold reconcile_snapshot; rewrite Hs; [done| |].
  all: destruct (webhookEvents (db w) !! conflict_key reference) as [ev|] eqn:Ew;
    [erewrite escalate_repeat by exact Ew; rewrite Hs; eauto
    |destruct (escalate_first fmt dl s reference w Ew) as [ev ->]; rewrite Hs; eexists;
     split; [reflexivity|]; by destruct (alert_stands _ _)].
Qed.

(** The conflict alert is raised at most once per reference: when it
    reached someone, every later replay of the charge changes nothing and sends
    nothing; when nobody could be told, the claim is given back, so the next
    replay finds the books and the log as before and alerts again. *)
Theorem reconcile_conflict_alerts_once fmt dl dl' reference fee actor now now' w s :
  findPaymentByReference reference (db w) = Some s ->
  p_status (sn_payment s) = TX_FAILED \/ p_status (sn_payment s) = TX_REVERSED ->
  webhookEvents (db w) !! conflict_key reference = None ->
  exists w1, reconcilePaystackPayment fmt dl reference fee actor now w =
      (Ok (StatusConflict (p_status (sn_payment s))), w1) /\
    out w1 = out w ++ [MetricReconcileConflict (p_status (sn_payment s)); Capture reference] ++
      alert_sent dl (db w) /\
    (if alert_stands dl (db w)
     then reconcilePaystackPayment fmt dl' reference fee actor now' w1 =
            (Ok (StatusConflict (p_status (sn_payment s))), w1)
     else db w1 = db w).
Proof.
  intros E Hs Ew. unfold reconcilePaystackPayment. unfold mbind, M_bind, read. rewrite E.
  assert (forall dl0 now0, reconcile_snapshot fmt dl0 s reference fee actor now0 =
    escalateReconcileConflict fmt dl0 s reference) as Hr.
  { intros. unfold reconcile_snapshot. by destruct Hs as [-> | ->]. }
  rewrite Hr. destruct (escalate_first fmt dl s reference w Ew) as [ev ->].
  eexists. split; [reflexivity|]. split; [done|]. destruct (alert_stands dl (db w)); [|done].
  cbn [db]. change (findPaymentByReference reference (set_webhookEvents _ (db w)))
    with (findPaymentByReference reference (db w)). rewrite E, Hr.
  eapply escalate_repeat. cbn -[insert]. apply lookup_insert_eq.
Qed.

Definition sample_failed : World :=
  mkWorld (set_payments (<[6%positive := set_p_status TX_FAILED sample_card]> (payments sample_db)) sample_db) [].
Example reconcile_conflict_alerts_once_witness :
  exists w1, reconcilePaystackPayment (fun _ => "0.00"%string) (mkDelivery true (fun _ => true)) "lopay_1"
      None None 5 sample_failed = (Ok (StatusConflict TX_FAILED), w1) /\
    out w1 = [MetricReconcileConflict TX_FAILED; Capture "lopay_1";
              Notify (conflict_notice 12%positive)] /\
    reconcilePaystackPayment (fun _ => "0.00"%string) (mkDelivery true (fun _ => true)) "lopay_1"
      None None 6 w1 = (Ok (StatusConflict TX_FAILED), w1).
Proof.
  apply (reconcile_conflict_alerts_once (fun _ => "0.00"%string) (mkDelivery true (fun _ => true))
    (mkDelivery true (fun _ => true)) "lopay_1" None None 5 6 sample_failed
    (sample_card_snapshot (set_p_status TX_FAILED sample_card)));
    [vm_compute; reflexivity | left; reflexivity | vm_compute; reflexivity].
Defined.

(** C8: two callers race to reconcile one charge (the webhook and the
    verify-on-return endpoint): both read the pending row, the first commits,
    and the second, running from its stale snapshot with any fee and time, finds
    nothing to flip and leaves the world exactly as the first left it. *)
Theorem reconcile_race fmt dl dl' reference fee fee' actor actor' now now' w s :
  findPaymentByReference reference (db w) = Some s ->
  p_status (sn_payment s) = TX_PENDING ->
  exists completed w1,
    reconcile_snapshot fmt dl s reference fee actor now w = (Ok (Reconciled completed), w1) /\
    reconcile_snapshot fmt dl' s reference fee' actor' now' w1 = (Ok AlreadyProcessed, w1).
Proof.
  intros (Hp & _ & Hj)%findPaymentByReference_some Hs.
  apply join_enrollment_some in Hj as [Hid He]. rewrite <- Hid in He.
  destruct (reconcile_pending fmt dl s reference fee actor now w _ Hp Hs He) as (w1 & H1 & M1).
  do 2 eexists. split; [exact H1|]. unfold reconcile_snapshot at 1. rewrite Hs.
  unfold transaction, mbind, M_bind. rewrite reconcilePaystackPayment_tx_conflict; [done|].
  rewrite (mv_payments _ _ _ _ _ _ _ M1), lookup_insert_eq. by intros p [= <-].
Qed.

Example reconcile_race_witness :
  exists completed w1,
    reconcile_snapshot (fun _ => "0.00"%string) (mkDelivery true (fun _ => true))
      (sample_card_snapshot sample_card) "lopay_1" (Some 52000) None 5 sample
      = (Ok (Reconciled completed), w1) /\
    reconcile_snapshot (fun _ => "0.00"%string) (mkDelivery true (fun _ => true))
      (sample_card_snapshot sample_card) "lopay_1" (Some 52000) None 6 w1 = (Ok AlreadyProcessed, w1).
Proof. apply reconcile_race; [vm_compute; reflexivity | reflexivity]. Defined.

(** ** Disputes *)

(** A dispute or refund event, on every branch: only a paid charge is
    reversed; the plan fails, a plan that was ACTIVE or COMPLETED owes the whole
    fee again, and a second event that raced the first reverses nothing. *)
Theorem dispute_outcomes reference eventType w :
  let r := reversePaystackPaymentByDispute reference eventType w in
  match findPaymentByReference reference (db w) with
  | None => r = (Ok false, w)
  | Some s =>
      let p := sn_payment s in let e := j_enrollment (sn_join s) in
      if has_status TX_SUCCESS p then exists w',
        r = (Ok true, w') /\
        moves w w' (sn_pid s) (set_p_isConfirmed false (set_p_status TX_FAILED p)) (p_enrollmentId p)
          (disputed_plan e e) PAYMENT_DISPUTED /\
        forall ref' ev', reversePaystackPaymentByDispute_tx s ref' ev' w' = (Ok None, w')
      else r = (Ok false, w)
  end.
Proof.
  cbv zeta. unfold reversePaystackPaymentByDispute. unfold mbind, M_bind, read.
  destruct (findPaymentByReference reference (db w)) as [s|] eqn:E; [|done].
  apply findPaymentByReference_some in E as (Hp & _ & Hj).
  apply join_enrollment_some in Hj as [Hid He]. rewrite <- Hid in He |- *.
  destruct (has_status TX_SUCCESS (sn_payment s)) eqn:Hs.
  - destruct (reversePaystackPaymentByDispute_tx_ok s w reference eventType _ _ Hp Hs He)
      as (n & w' & Hr & Hm).
    assert (has_status TX_FAILED (sn_payment s) || has_status TX_REVERSED (sn_payment s) = false) as ->.
    { unfold has_status in *. by destruct (p_status (sn_payment s)). }
    exec. rewrite Hr. eexists. split; [reflexivity|].
    assert (M := Hm). eapply moves_db in M; [split; [exact M|]|reflexivity].
    intros ref' ev'. apply reversePaystackPaymentByDispute_tx_conflict. cbn [db].
    rewrite (mv_payments _ _ _ _ _ _ _ Hm), lookup_insert_eq. by intros p [= <-].
  - destruct (_ || _); [done|]. unfold transaction, mbind, M_bind.
    rewrite reversePaystackPaymentByDispute_tx_conflict; [done|]. intros p. rewrite Hp. by intros [= <-].
Qed.

(** A failed charge, on every branch. *)
Lemma failPaystackPayment_outcomes reference w :
  let r := failPaystackPayment reference w in
  match findPaymentByReference reference (db w) with
  | None => r = (Ok false, w)
  | Some s =>
      let p := sn_payment s in
      if has_status TX_PENDING p then exists w',
        r = (Ok true, w') /\
        payments (db w') = <[sn_pid s := set_p_status TX_FAILED p]> (payments (db w)) /\
        enrollments (db w') =
          <[p_enrollmentId p := set_e_paymentStatus FAILED (j_enrollment (sn_join s))]> (enrollments (db w)) /\
        frame (db w) (db w')
      else r = (Ok false, w)
  end.
Proof.
  cbv zeta. unfold failPaystackPayment. unfold mbind, M_bind, read.
  destruct (findPaymentByReference reference (db w)) as [s|] eqn:E; [|done].
  apply findPaymentByReference_some in E as (Hp & _ & Hj).
  apply join_enrollment_some in Hj as [Hid He].
  destruct (has_status TX_PENDING (sn_payment s)) eqn:Hs; [|done]. cbn [negb].
  unfold transaction, mbind, M_bind. erewrite failPaystackPayment_tx_ok by eassumption.
  eexists. split; [reflexivity|]. done.
Qed.

(** ** Manual first payments *)

Lemma confirmFirstPayment_tx_ok eid schoolId actor now w j pid p :
  join_enrollment (db w) eid = Some j -> e_schoolId (j_enrollment j) = schoolId ->
  e_paymentStatus (j_enrollment j) = PENDING ->
  find_row (manual_first_cond eid) (payments (db w)) = Some (pid, p) ->
  exists w', confirmFirstPayment_tx eid schoolId actor now w = (Ok (j, p), w') /\
    moves w w' pid (confirmed_row now p) eid (credit_first (p_schoolAmount p) (j_enrollment j))
      FIRST_PAYMENT_CONFIRMED.
Proof.
  intros Hj Hs Hst Hf. pose proof (find_row_some _ _ _ _ Hf) as [Hp Hc].
  apply join_enrollment_some in Hj as Hj'. destruct Hj' as [_ He].
  assert (unconfirmed p = true) as Hu.
  { unfold manual_first_cond in Hc. unfold unconfirmed. to_prop. apply negb_true_iff. tauto. }
  unfold confirmFirstPayment_tx, creditFirstPaymentToBalance, credit_first. exec. rewrite Hj.
  rewrite (bool_decide_eq_true_2 _ Hs), (bool_decide_eq_true_2 _ Hst). exec. rewrite Hf.
  rewrite (bool_decide_eq_true_2 (is_Some (Some (pid, p)))) by eauto.
  exec. eexists. split; [reflexivity|]. prove_moves.
Qed.

(** A run that succeeds found all of that. *)
Lemma confirmFirstPayment_tx_run eid schoolId actor now w x w' :
  confirmFirstPayment_tx eid schoolId actor now w = (Ok x, w') ->
  exists pid p e a, payments (db w) !! pid = Some p /\ manual_first_cond eid p = true /\
    enrollments (db w) !! eid = Some e /\
    moves w w' pid (confirmed_row now p) eid (credit_first (p_schoolAmount p) e) a.
Proof.
  intros H. pose proof H as H0. unfold confirmFirstPayment_tx in H.
  apply bind_run in H as (oj & w0 & [-> ->]%read_run & H).
  apply bind_run in H as (j & w0 & [Hj ->]%orThrow_run & H).
  apply bind_run in H as (? & w0 & [Hs ->]%ensure_run & H).
  apply bind_run in H as (? & w0 & [Hst ->]%ensure_run & H).
  apply bool_decide_eq_true in Hs, Hst.
  apply bind_run in H as (found & w0 & [-> ->]%read_run & H).
  apply bind_run in H as (card & w0 & [-> ->]%read_run & H).
  apply bind_run in H as (? & w0 & [_ ->]%ensure_run & H).
  apply bind_run in H as ([pid p] & w0 & [Hf ->]%orThrow_run & _).
  destruct (confirmFirstPayment_tx_ok eid schoolId actor now w _ _ _ Hj Hs Hst Hf) as (w1 & H1 & Hm).
  rewrite H1 in H0. injection H0 as _ <-. apply find_row_some in Hf as [Hp Hc].
  apply join_enrollment_some in Hj as [_ He]. eauto 10.
Qed.

(** A school's approval of a first payment, on every branch: it succeeds
    exactly on a PENDING plan of that school with an unconfirmed first payment
    that no card provider collects; everything else, a card payment included, is
    refused and changes nothing. *)
Theorem confirmFirstPayment_outcomes eid schoolId actor now w :
  let r := confirmFirstPayment eid schoolId actor now w in
  match join_enrollment (db w) eid with
  | None => r = (Err (FBadRequest "Enrollment not found"), w)
  | Some j =>
      let e := j_enrollment j in
      if negb (bool_decide (e_schoolId e = schoolId)) then
        r = (Err (FBadRequest "Enrollment does not belong to this school"), w)
      else if negb (bool_decide (e_paymentStatus e = PENDING)) then
        r = (Err (FBadRequest "Enrollment is not in pending status"), w)
      else
        match find_row (manual_first_cond eid) (payments (db w)) with
        | None => exists msg, r = (Err (FBadRequest msg), w)
        | Some (pid, p) => exists w', r = (Ok tt, w') /\
            moves w w' pid (confirmed_row now p) eid (credit_first (p_schoolAmount p) e)
              FIRST_PAYMENT_CONFIRMED
        end
  end.
Proof.
  cbv zeta. destruct (join_enrollment (db w) eid) as [j|] eqn:Ej.
  - destruct (bool_decide (e_schoolId _ = _)) eqn:Es; cbn [negb].
    + destruct (bool_decide (e_paymentStatus _ = _)) eqn:Est; cbn [negb].
      * destruct (find_row (manual_first_cond eid) _) as [[pid p]|] eqn:Ef.
        -- apply bool_decide_eq_true in Es, Est.
           destruct (confirmFirstPayment_tx_ok eid schoolId actor now w _ _ _ Ej Es Est Ef) as (w' & Hr & Hm).
           unfold confirmFirstPayment. exec. rewrite Hr. eexists.
           split; [reflexivity | by eapply moves_db].
        -- unfold confirmFirstPayment, confirmFirstPayment_tx. exec. rewrite Ej. exec. rewrite Ef. cbn.
           destruct (find_row (card_first_cond eid) _); eexists; by destruct w.
      * unfold confirmFirstPayment, confirmFirstPayment_tx. exec. rewrite Ej. exec. by destruct w.
    + unfold confirmFirstPayment, confirmFirstPayment_tx. exec. rewrite Ej. exec. by destruct w.
  - unfold confirmFirstPayment, confirmFirstPayment_tx. exec. rewrite Ej. by destruct w.
Qed.

(** ** Defaults *)

(** The flip of a plan that is still open. *)
Lemma sweep_flips j w e :
  enrollments (db w) !! j_eid j = Some e -> sweep_cond e = true ->
  exists w', markEnrollmentDefaultedBySweep j w = (Ok true, w') /\
    enrollments (db w') = <[j_eid j := set_e_paymentStatus DEFAULTED e]> (enrollments (db w)) /\
    payments (db w') = payments (db w) /\
    (exists a, auditLog (db w') = auditLog (db w) ++ [a] /\ au_action a = ENROLLMENT_DEFAULTED).
Proof.
  intros E Ec. unfold markEnrollmentDefaultedBySweep, markEnrollmentDefaultedBySweep_tx. exec.
  eexists. split; [reflexivity|]. cbn -[insert]. split; [done|]. split; [done|].
  eexists. split; reflexivity.
Qed.

(** The scheduled sweep defaults a plan exactly when it is still ACTIVE and
    still owes something at the moment of the write, whatever the row it was
    started from said: a plan paid off since the sweep read it is left alone. *)
Theorem sweep_outcomes j w :
  let r := markEnrollmentDefaultedBySweep j w in
  match enrollments (db w) !! j_eid j with
  | Some e =>
      if sweep_cond e then exists w', r = (Ok true, w') /\
        enrollments (db w') = <[j_eid j := set_e_paymentStatus DEFAULTED e]> (enrollments (db w)) /\
        payments (db w') = payments (db w) /\
        (exists a, auditLog (db w') = auditLog (db w) ++ [a] /\ au_action a = ENROLLMENT_DEFAULTED)
      else r = (Ok false, w)
  | None => r = (Ok false, w)
  end.
Proof.
  cbv zeta. destruct (enrollments (db w) !! j_eid j) as [e|] eqn:E; [destruct (sweep_cond e) eqn:Ec|].
  - by apply sweep_flips.
  - unfold markEnrollmentDefaultedBySweep, markEnrollmentDefaultedBySweep_tx. exec. by destruct w.
  - unfold markEnrollmentDefaultedBySweep, markEnrollmentDefaultedBySweep_tx. exec. by destruct w.
Qed.

(** A school marking a plan defaulted keeps its money as it was. *)
Lemma markEnrollmentAsDefaulted_ok eid schoolId actor w j :
  join_enrollment (db w) eid = Some j -> e_schoolId (j_enrollment j) = schoolId ->
  exists w', markEnrollmentAsDefaulted eid schoolId actor w =
      (Ok (set_e_paymentStatus DEFAULTED (j_enrollment j)), w') /\
    enrollments (db w') = <[eid := set_e_paymentStatus DEFAULTED (j_enrollment j)]> (enrollments (db w)) /\
    payments (db w') = payments (db w).
Proof.
  intros Hj Hs. pose proof (join_enrollment_some _ _ _ Hj) as [Hid He]. subst eid.
  unfold markEnrollmentAsDefaulted, markEnrollmentAsDefaulted_tx. exec. rewrite Hj.
  rewrite (bool_decide_eq_true_2 _ Hs). exec. eexists. by split.
Qed.
