(* ===== verification/LedgerMigratedSpecs.v ===== *)
(** * What migrated plans do

    Recording, correcting and releasing a plan that opened on money paid before
    the school joined. *)

From S2P Require Import Prelude JsNumber Money Dates Schedule Schema Effects Samples MigratedPlan.
From S2P Require Import Ledger Books LedgerMigrated LedgerSpecs.

(** ** Corrections *)

Definition restated_row (new : Z) (p : Payment) : Payment :=
  set_p_schoolAmount new (set_p_amountPaid new p).
Definition restated_plan (new next : Z) (e : ChildEnrollment) : ChildEnrollment :=
  set_e_paymentStatus (statusAfterMigratedAmendment (e_paymentStatus e) next)
    (set_e_remainingBalance next (set_e_firstPaymentPaid new e)).

Definition installments_of (eid : id) (d : DB) : Z :=
  sum_paid confirmed_installment (payments_of eid d).

(** Restating a row that is not an installment keeps the installment sum. *)
Lemma installments_restated eid d pid p new :
  payments d !! pid = Some p -> p_paymentType p = MIGRATED_PAYMENT ->
  installments_of eid (set_payments (<[pid := restated_row new p]> (payments d)) d) =
  installments_of eid d.
Proof.
  intros Hp Ht. unfold installments_of. rewrite !sum_paid_total. cbn [payments set_payments].
  rewrite (total_update _ _ _ _ _ Hp).
  assert (forall q, p_paymentType q = MIGRATED_PAYMENT -> confirmed_installment q = false) as Hc.
  { intros q Hq. unfold confirmed_installment, is_installment. by rewrite Hq. }
  rewrite (Hc (restated_row new p)), (Hc p), !andb_false_r by done. lia.
Qed.

Lemma installments_ext eid d d' :
  payments d = payments d' -> installments_of eid d = installments_of eid d'.
Proof. intros H. unfold installments_of, payments_of. by rewrite H. Qed.

Lemma amendMigratedPayment_tx_run j mid m new schoolId actor reason w e p :
  enrollments (db w) !! j_eid j = Some e -> payments (db w) !! mid = Some p ->
  let next := e_totalSchoolFee e - new - installments_of (j_eid j) (db w) in
  0 <= next -> amend_cond (p_amountPaid m) p = true ->
  exists w', amendMigratedPayment_tx j (mid, m) new schoolId actor reason w =
      (Ok (restated_plan new next e), w') /\
    payments (db w') = <[mid := restated_row new p]> (payments (db w)) /\
    enrollments (db w') = <[j_eid j := restated_plan new next e]> (enrollments (db w)) /\
    (exists a, auditLog (db w') = auditLog (db w) ++ [a] /\ au_action a = MIGRATED_PAYMENT_AMENDED) /\
    (forall iid i, e_enrollmentInviteId (j_enrollment j) = Some iid ->
       invites (db w) !! iid = Some i ->
       invites (db w') = <[iid := set_i_amountAlreadyPaid new i]> (invites (db w))) /\
    next_id (db w') = next_id (db w).
Proof.
  intros He Hp next Hn Hc. unfold amendMigratedPayment_tx, restated_plan. exec.
  fold (installments_of (j_eid j) (db w)). fold next.
  assert ((next <? 0) = false) as -> by (apply Z.ltb_ge; lia). exec.
  destruct (e_enrollmentInviteId (j_enrollment j)) as [iid|] eqn:Ei; exec.
  - destruct (invites (db w) !! iid) as [i|] eqn:Ein; exec; eexists; (split; [reflexivity|]);
      cbn -[insert lookup]; (split; [done|]); (split; [done|]); (split; [by eexists|]); (split; [|done]).
    + intros ? ? [= <-] E'. rewrite Ein in E'. by injection E' as <-.
    + intros ? ? [= <-] E'. by rewrite Ein in E'.
  - eexists. split; [reflexivity|]. cbn -[insert lookup]. split; [done|]. split; [done|].
    split; [by eexists|]. by split.
Qed.

(** What a correction that succeeds has found. *)
Lemma amendMigratedPayment_tx_inv j mid m new schoolId actor reason w x w' :
  amendMigratedPayment_tx j (mid, m) new schoolId actor reason w = (Ok x, w') ->
  exists e p, enrollments (db w) !! j_eid j = Some e /\ payments (db w) !! mid = Some p /\
    0 <= e_totalSchoolFee e - new - installments_of (j_eid j) (db w) /\
    amend_cond (p_amountPaid m) p = true.
Proof.
  unfold amendMigratedPayment_tx. intros H.
  apply bind_run in H as (oe & w0 & [-> ->]%read_run & H).
  apply bind_run in H as (e & w0 & [He ->]%orThrow_run & H).
  apply bind_run in H as (k & w0 & [-> ->]%read_run & H).
  apply bind_run in H as (? & w0 & [Hn ->]%ensure_run & H).
  apply bind_run in H as (n & w0 & Hu & H).
  apply bind_run in H as (? & w1 & [Hr ->]%ensure_run & H).
  apply updateManyPayment_run in Hu as [(-> & _)|(-> & p & Hp & Hc & _)]; [done|].
  exists e, p. split; [done|]. split; [done|]. split; [|done].
  unfold installments_of. to_prop. lia.
Qed.

(** A correction, on every branch and from any earlier read of the plan and
    of its migrated payment: a correction that would leave the plan overpaid, or
    whose figure someone changed in between, is refused and changes nothing;
    otherwise the payment, the plan and the invite are restated together, and
    afterwards the plan owes exactly the fee less the restated figure less the
    confirmed installments. *)
Theorem amendMigratedPayment_tx_outcomes j mid m new schoolId actor reason w :
  let r := amendMigratedPayment_tx j (mid, m) new schoolId actor reason w in
  let eid := j_eid j in
  match (enrollments (db w) !! eid) with
  | None => exists e, r = (Err e, w)
  | Some e =>
      let next := e_totalSchoolFee e - new - installments_of eid (db w) in
      match payments (db w) !! mid with
      | Some p =>
          if (0 <=? next) && amend_cond (p_amountPaid m) p then exists w',
            r = (Ok (restated_plan new next e), w') /\
            payments (db w') = <[mid := restated_row new p]> (payments (db w)) /\
            enrollments (db w') = <[eid := restated_plan new next e]> (enrollments (db w)) /\
            e_totalSchoolFee e = new + installments_of eid (db w') + next /\
            (exists a, auditLog (db w') = auditLog (db w) ++ [a] /\ au_action a = MIGRATED_PAYMENT_AMENDED) /\
            (forall iid i, e_enrollmentInviteId (j_enrollment j) = Some iid ->
               invites (db w) !! iid = Some i ->
               invites (db w') = <[iid := set_i_amountAlreadyPaid new i]> (invites (db w)))
          else exists e, r = (Err e, w)
      | None => exists e, r = (Err e, w)
      end
  end.
Proof.
  cbv zeta. destruct (enrollments (db w) !! j_eid j) as [e|] eqn:He; cycle 1.
  { eexists. unfold amendMigratedPayment_tx. by exec. }
  fold (installments_of (j_eid j) (db w)).
  destruct (payments (db w) !! mid) as [p|] eqn:Hp; cycle 1.
  { unfold amendMigratedPayment_tx. exec. destruct (_ <? 0); exec; eexists; reflexivity. }
  fold (installments_of (j_eid j) (db w)).
  assert (amend_runs := amendMigratedPayment_tx_run j mid m new schoolId actor reason w e p He Hp).
  destruct (0 <=? _) eqn:Hn; cbn [andb]; [destruct (amend_cond _ p) eqn:Hc|].
  - destruct amend_runs as (w' & Hr & H1 & H2 & H3 & H4 & _); [to_prop; lia | done |].
    exists w'. split; [done|]. split; [done|]. split; [done|]. split; [|done].
    assert (p_paymentType p = MIGRATED_PAYMENT) as Ht by (unfold amend_cond in Hc; to_prop; tauto).
    rewrite <- (installments_restated (j_eid j) (db w) mid p new Hp Ht).
    rewrite (installments_ext _ (db w')
      (set_payments (<[mid := restated_row new p]> (payments (db w))) (db w))) by done. lia.
  - eexists. unfold amendMigratedPayment_tx. exec. fold (installments_of (j_eid j) (db w)).
    assert ((e_totalSchoolFee e - new - installments_of (j_eid j) (db w) <? 0) = false) as ->
      by (to_prop; apply Z.ltb_ge; lia). by exec.
  - eexists. unfold amendMigratedPayment_tx. exec. fold (installments_of (j_eid j) (db w)).
    assert ((e_totalSchoolFee e - new - installments_of (j_eid j) (db w) <? 0) = true) as ->
      by (to_prop; apply Z.ltb_lt; lia). by exec.
Qed.

(** ** Opening and removing a plan *)

(** The plan, its payment and the audit row of an opened invite. *)
Definition migrated_claim (inviteId : id) (invite : EnrollmentInvite) (childId : id) (now : Z) (eid : id)
    : MigratedClaim :=
  mkMigratedClaim eid (migratedEnrollment inviteId invite childId now) (Pos.succ eid)
    (migratedPayment eid invite now)
    (deriveMigratedPlan (i_totalSchoolFee invite) (i_amountAlreadyPaid invite)).

Lemma recordMigratedEnrollment_eq inviteId invite childId parentUserId actor now w :
  let eid := next_id (db w) in
  if invite_taken (Some inviteId) (db w) then
    recordMigratedEnrollment inviteId invite childId parentUserId actor now w =
      (Err (FBadRequest "This invite has already been claimed"), w)
  else if child_enrolled childId (db w) then exists msg,
    recordMigratedEnrollment inviteId invite childId parentUserId actor now w = (Err (FBadRequest msg), w)
  else exists a, au_action a = ENROLLMENT_INVITE_CLAIMED /\
    recordMigratedEnrollment inviteId invite childId parentUserId actor now w =
      (Ok (migrated_claim inviteId invite childId now eid),
       mkWorld (set_auditLog (auditLog (db w) ++ [a])
         (set_payments (<[Pos.succ eid := migratedPayment eid invite now]> (payments (db w)))
         (set_enrollments (<[eid := migratedEnrollment inviteId invite childId now]> (enrollments (db w)))
         (set_next_id (Pos.succ (Pos.succ eid)) (db w))))) (out w)).
Proof.
  cbv zeta. unfold recordMigratedEnrollment, catch, mbind, M_bind.
  rewrite createEnrollment_eq. cbn [migratedEnrollment e_enrollmentInviteId e_childId].
  destruct (invite_taken (Some inviteId) (db w)); [done|].
  destruct (child_enrolled childId (db w)); [by eexists|].
  rewrite createPayment_eq. cbn [migratedPayment p_idempotencyKey
    p_paystackReference key_taken reference_taken].
  exec. eexists. split; [|reflexivity]. done.
Qed.

(** Opening a plan from an invite, on every branch: an invite that already
    opened one, or a child that already has one, is a readable refusal and not a
    server error, and changes nothing; otherwise one plan and one confirmed
    payment of the recorded figure appear under fresh ids, with one audit row. *)
Theorem recordMigratedEnrollment_outcomes inviteId invite childId parentUserId actor now w :
  let r := recordMigratedEnrollment inviteId invite childId parentUserId actor now w in
  let eid := next_id (db w) in let pid := Pos.succ eid in
  if invite_taken (Some inviteId) (db w) then
    r = (Err (FBadRequest "This invite has already been claimed"), w)
  else if child_enrolled childId (db w) then exists msg, r = (Err (FBadRequest msg), w)
  else exists mc w', r = (Ok mc, w') /\
    enrollments (db w') = <[eid := migratedEnrollment inviteId invite childId now]> (enrollments (db w)) /\
    payments (db w') = <[pid := migratedPayment eid invite now]> (payments (db w)) /\
    mc_enrollmentId mc = eid /\ mc_paymentId mc = pid /\ next_id (db w') = Pos.succ pid /\
    (exists a, auditLog (db w') = auditLog (db w) ++ [a] /\ au_action a = ENROLLMENT_INVITE_CLAIMED).
Proof.
  cbv zeta. pose proof (recordMigratedEnrollment_eq inviteId invite childId parentUserId actor now w) as E.
  cbv zeta in E. destruct (invite_taken _ _); [done|]. destruct (child_enrolled _ _); [done|].
  destruct E as (a & Ha & ->). do 2 eexists. split; [reflexivity|]. cbn -[insert].
  do 5 (split; [done|]). eauto.
Qed.

Lemma recordMigratedEnrollment_run inviteId invite childId parentUserId actor now w mc w' :
  recordMigratedEnrollment inviteId invite childId parentUserId actor now w = (Ok mc, w') ->
  let eid := next_id (db w) in let pid := Pos.succ eid in
  enrollments (db w') = <[eid := migratedEnrollment inviteId invite childId now]> (enrollments (db w)) /\
  payments (db w') = <[pid := migratedPayment eid invite now]> (payments (db w)) /\
  next_id (db w') = Pos.succ pid.
Proof.
  pose proof (recordMigratedEnrollment_eq inviteId invite childId parentUserId actor now w) as E.
  cbv zeta in E. destruct (invite_taken _ _); [by rewrite E|]. destruct (child_enrolled _ _).
  - destruct E as [msg ->]. done.
  - destruct E as (a & Ha & ->). by intros [= _ <-].
Qed.

Definition settled_installments (eid : id) (d : DB) : list (id * Payment) :=
  filter (fun kv : id * Payment => confirmed_installment kv.2 = true) (payments_of eid d).

Definition payments_kept (eid : id) (d : DB) : gmap id Payment :=
  filter (fun kv : id * Payment => p_enrollmentId kv.2 <> eid) (payments d).

Lemma releaseMigratedEnrollment_ok eid childId inviteId schoolId actor reason w e c :
  enrollments (db w) !! eid = Some e -> children (db w) !! childId = Some c ->
  settled_installments eid (db w) = [] ->
  exists a before, au_before a = Some before /\ ("payments", JPayments (payments_of eid (db w))) ∈ before /\
    releaseMigratedEnrollment eid childId inviteId schoolId actor reason w =
      (Ok (Z.of_nat (length (payments_of eid (db w)))),
       mkWorld (set_auditLog (auditLog (db w) ++ [a])
         (set_children (delete childId (children (db w)))
         (set_enrollments (delete eid (enrollments (db w)))
         (set_payments (payments_kept eid (db w)) (db w))))) (out w)).
Proof.
  unfold settled_installments. intros He Hc Hf. unfold releaseMigratedEnrollment. exec. rewrite Hf. exec.
  do 2 eexists. split; [|split; [|reflexivity]]; [reflexivity|]. set_solver.
Qed.

(** Releasing a plan, on every branch: a plan with confirmed installments
    is refused and kept; otherwise its payments, its enrollment and the child go
    together, every payment of every other plan stays, and the audit log keeps a
    copy of the payments removed. *)
Theorem releaseMigratedEnrollment_outcomes eid childId inviteId schoolId actor reason w :
  let r := releaseMigratedEnrollment eid childId inviteId schoolId actor reason w in
  match (enrollments (db w) !! eid), (children (db w) !! childId) with
  | None, _ => r = (Err (FNotFound "This plan no longer exists"), w)
  | Some e, None => exists err w', r = (Err err, w')
  | Some e, Some _ =>
      if bool_decide (settled_installments eid (db w) = []) then exists w',
        r = (Ok (Z.of_nat (length (payments_of eid (db w)))), w') /\
        enrollments (db w') = delete eid (enrollments (db w)) /\
        children (db w') = delete childId (children (db w)) /\
        (forall pid p, payments (db w') !! pid = Some p <->
           payments (db w) !! pid = Some p /\ p_enrollmentId p <> eid) /\
        (exists a before, auditLog (db w') = auditLog (db w) ++ [a] /\ au_before a = Some before /\
           ("payments", JPayments (payments_of eid (db w))) ∈ before)
      else r = (Err (FBadRequest "This plan cannot be removed"), w)
  end.
Proof.
  cbv zeta. destruct (enrollments (db w) !! eid) as [e|] eqn:He; [|unfold releaseMigratedEnrollment; by exec].
  destruct (children (db w) !! childId) as [c|] eqn:Hc; [case_bool_decide as Hf|].
  - destruct (releaseMigratedEnrollment_ok eid childId inviteId schoolId actor reason w e c He Hc Hf)
      as (a & before & Ha & Hb & ->).
    eexists. split; [reflexivity|]. cbn -[lookup delete insert]. split; [done|]. split; [done|]. split; [|eauto].
    intros pid p. unfold payments_kept. rewrite map_lookup_filter_Some. done.
  - unfold settled_installments in Hf. unfold releaseMigratedEnrollment. exec.
    destruct (filter _ (payments_of eid (db w))); [done|]. by exec.
  - unfold releaseMigratedEnrollment. exec. destruct (filter _ (payments_of eid (db w))); exec; do 2 eexists; reflexivity.
Qed.
