(* ===== verification/EnrollmentSpecs.v ===== *)
(** * What enrollment does

    Submissions against the balance, idempotency keys, the webhook log, and
    access to payments. *)

From Stdlib Require Import QArith Ascii String.
From S2P Require Import Prelude JsNumber Money PaystackFee Dates Schedule Schema Effects Samples.
From S2P Require Import EnrollmentView PaymentCalc Ledger Books LedgerCard LedgerSpecs LedgerCardSpecs Enrollment.

Local Open Scope string_scope.
Local Open Scope Z_scope.

(** ** Submitting an installment *)

Definition reserved (eid : id) (d : DB) : Z := sum_paid reserved_installment (payments_of eid d).

Lemma reserved_view eid d : reduce_paid pending_installment (payments_of eid d) = reserved eid d.
Proof. unfold reduce_paid, reserved, sum_paid. by rewrite reduce_sum_eq. Qed.

(** A new pending installment reserves its amount. *)
Lemma reserved_new eid schoolId k rcpt key now d d' :
  payments d !! next_id d = None ->
  payments d' = <[next_id d := installmentPayment eid schoolId k rcpt key now]> (payments d) ->
  reserved eid d' = reserved eid d + k.
Proof.
  intros Hf Hp. unfold reserved. rewrite !sum_paid_total, Hp, total_new by done.
  cbn [p_enrollmentId installmentPayment]. rewrite bool_decide_eq_true_2 by done.
  change (reserved_installment _) with true at 1. cbn [andb p_amountPaid installmentPayment]. lia.
Qed.

Definition fresh_ids (d : DB) : Prop := forall i p, payments d !! i = Some p -> (i < next_id d)%positive.

Lemma fresh_next d : fresh_ids d -> payments d !! next_id d = None.
Proof. intros H. destruct (payments d !! next_id d) eqn:E; [|done]. apply H in E. lia. Qed.

(** An installment awaiting the school's decision, and the confirmation of several. *)
Definition awaiting (d : DB) (pid : id) : Prop :=
  exists p, payments d !! pid = Some p /\ reserved_installment p = true.
Definition confirm_all (schoolId : id) (actor : AuditActor) (now : Z) (pids : list id) (w : World) : World :=
  foldl (fun w pid => snd (confirmPayment pid schoolId actor now w)) w pids.

(** What a confirmation keeps: the balance less what is reserved against it. *)
Record covered (eid : id) (slack : Z) (d : DB) : Prop := mkCovered {
  cv_amounts : forall i p, payments d !! i = Some p -> 0 <= p_amountPaid p;
  cv_plan : exists e, enrollments d !! eid = Some e /\ e_remainingBalance e - reserved eid d = slack }.
Definition decided_or_awaiting (d : DB) (pid : id) : Prop :=
  forall p, payments d !! pid = Some p -> p_isConfirmed p = true \/ reserved_installment p = true.

Lemma reserved_total eid d : reserved eid d =
  total (fun p => if bool_decide (p_enrollmentId p = eid) && reserved_installment p then p_amountPaid p else 0) (payments d).
Proof. unfold reserved. apply sum_paid_total. Qed.
Lemma reserved_nonneg eid d : (forall i p, payments d !! i = Some p -> 0 <= p_amountPaid p) -> 0 <= reserved eid d.
Proof.
  intros H. rewrite reserved_total. apply total_nonneg. intros i p Hp. specialize (H i p Hp). destruct (_ && _); lia.
Qed.

Lemma confirm_covered pid schoolId actor now eid slack w :
  0 <= slack -> covered eid slack (db w) -> decided_or_awaiting (db w) pid ->
  let w' := snd (confirmPayment pid schoolId actor now w) in
  covered eid slack (db w') /\ (forall i, decided_or_awaiting (db w) i -> decided_or_awaiting (db w') i).
Proof.
  intros Hs [Ha (e & He & Hb)] Hd. cbv zeta. destruct (findPaymentJoined pid (confirm_cond schoolId) (db w)) as [s|] eqn:E; cycle 1.
  { unfold confirmPayment, confirmPayment_pre. exec. rewrite E. cbn. split; [split; eauto|done]. }
  destruct (confirmPayment_found pid w s schoolId actor now E) as (w' & -> & [Hp' He' _ _]). cbn [snd].
  apply findPaymentJoined_some in E as (_ & Hp & Hc & [_ Hj]%join_enrollment_some). set (p := sn_payment s) in *.
  assert (reserved_installment p = true) as Hr.
  { destruct (Hd p Hp) as [Hx|Hx]; [|done]. unfold confirm_cond in Hc. by rewrite Hx in Hc. }
  pose proof (Ha _ _ Hp) as Hk. split; [split|].
  - intros i q. rewrite Hp'. intros [[_ <-]|[_ Hq]]%lookup_insert_Some; [done|eauto].
  - assert (reserved eid (db w') = reserved eid (db w) - (if bool_decide (p_enrollmentId p = eid) then p_amountPaid p else 0)) as Hres.
    { rewrite !reserved_total, Hp', (total_update _ _ _ p) by done. cbv beta. rewrite Hr.
      change (reserved_installment (confirmed_row now p)) with (is_installment p && false && negb true).
      rewrite andb_true_r, !andb_false_r. lia. }
    rewrite He', Hres. case_bool_decide as Heq; cycle 1.
    { exists e. rewrite lookup_insert_ne by done. split; [done|lia]. }
    subst eid. eexists. rewrite lookup_insert_eq. split; [done|]. rewrite Hj in He. injection He as ->.
    assert (p_amountPaid p <= reserved (p_enrollmentId p) (db w)) as Hle.
    { rewrite reserved_total.
      pose proof (total_ge_one (fun q => if bool_decide (p_enrollmentId q = p_enrollmentId p) && reserved_installment q
        then p_amountPaid q else 0) (payments (db w)) pid p) as H. cbv beta in H.
      rewrite bool_decide_eq_true_2, Hr in H by done. apply H; [clear H|done].
      intros j q Hq. specialize (Ha j q Hq). destruct (_ && _); lia. }
    unfold debit_installment. destruct (_ <=? 0) eqn:Ez; to_prop;
      cbn [e_remainingBalance set_e_remainingBalance set_e_paymentStatus]; fold p in Ez; lia.
  - intros i Hi q. rewrite Hp'. intros [[_ <-]|[_ Hq]]%lookup_insert_Some; [by left|eauto].
Qed.

Lemma confirm_all_covered schoolId actor now eid slack pids w :
  0 <= slack -> covered eid slack (db w) -> Forall (decided_or_awaiting (db w)) pids ->
  covered eid slack (db (confirm_all schoolId actor now pids w)).
Proof.
  intros Hs. revert w. induction pids as [|pid pids IH]; intros w Hc Hf; [done|]. inversion_clear Hf as [|? ? Hpid Hrest].
  destruct (confirm_covered pid schoolId actor now eid slack w Hs Hc Hpid) as [Hc' Hk]. cbn [confirm_all foldl].
  apply IH; [done|]. exact (Forall_impl _ Hk Hrest).
Qed.

(** C9: the guard on submitted installments, on every branch of the transaction:
    without the plan it is not found; an amount over the balance less everything
    already submitted and undecided, which is what the parent's view offers, is
    refused; an amount within it is recorded, unless its idempotency key is already
    on a payment, which is a conflict; and a refused submission changes nothing.
    What is reserved then grows by exactly the amount and still fits the balance,
    so that confirming any of the installments awaiting a decision, in any order,
    takes off the balance exactly what it releases and never overdraws the plan. *)
Theorem submission_guard eid schoolId k rcpt key now w :
  fresh_ids (db w) -> (forall i p, payments (db w) !! i = Some p -> 0 <= p_amountPaid p) -> 0 < k ->
  let r := submit_tx eid schoolId k rcpt key now w in
  match enrollments (db w) !! eid with
  | None => r = (Err (FNotFound "Enrollment not found"), w)
  | Some e =>
      if k <=? availableKobo e (payments_of eid (db w)) then
        if key_taken key (db w) then r = (Err (FUnique "idempotencyKey"), w)
        else exists w',
          r = (Ok (next_id (db w)), w') /\
          payments (db w') = <[next_id (db w) := installmentPayment eid schoolId k rcpt key now]> (payments (db w)) /\
          enrollments (db w') = enrollments (db w) /\
          reserved eid (db w') = reserved eid (db w) + k /\
          reserved eid (db w') <= e_remainingBalance e /\
          (forall schoolId' actor now' pids, Forall (awaiting (db w')) pids ->
             let w'' := confirm_all schoolId' actor now' pids w' in
             exists e'', enrollments (db w'') !! eid = Some e'' /\
               e_remainingBalance e'' = e_remainingBalance e - (reserved eid (db w') - reserved eid (db w'')) /\
               0 <= reserved eid (db w'') <= e_remainingBalance e'')
      else r = (Err (FBadRequest "Payment exceeds the outstanding balance"), w)
  end.
Proof.
  intros Hf Ha Hk. cbv zeta. destruct (enrollments (db w) !! eid) as [e|] eqn:He;
    unfold submit_tx, availableBalance, mbind, M_bind, read, orThrow; rewrite He; unfold mret, M_ret; [|done].
  unfold availableKobo. rewrite reserved_view. fold (reserved eid (db w)).
  destruct (k <=? _) eqn:E; to_prop; cycle 1.
  { assert ((e_remainingBalance e - reserved eid (db w) <? k) = true) as -> by (apply Z.ltb_lt; lia). done. }
  assert ((e_remainingBalance e - reserved eid (db w) <? k) = false) as -> by (apply Z.ltb_ge; lia).
  cbn [negb ensure]. unfold mret, M_ret. rewrite createPayment_eq.
  cbn [installmentPayment p_idempotencyKey p_paystackReference reference_taken].
  destruct (key_taken key (db w)); [done|]. eexists. split; [reflexivity|]. set (w' := mkWorld _ _).
  assert (reserved eid (db w') = reserved eid (db w) + k) as Hr by (by eapply reserved_new; [apply fresh_next|]).
  split; [done|]. split; [done|]. split; [exact Hr|]. split; [lia|]. intros schoolId' actor now' pids Hp.
  assert (covered eid (e_remainingBalance e - reserved eid (db w')) (db w')) as Hc.
  { split; [|by exists e]. intros i p. cbn -[lookup insert].
    intros [[_ <-]|[_ Hq]]%lookup_insert_Some; [cbn; lia|eauto]. }
  apply (confirm_all_covered schoolId' actor now' eid _ pids w') in Hc as [Hn (e'' & He'' & Hb)]; [|lia|].
  - exists e''. split; [done|]. pose proof (reserved_nonneg eid _ Hn). lia.
  - revert Hp. apply Forall_impl. intros i (p & Hi & Hres) q Hq. right. congruence.
Qed.

Lemma sample_fresh_ids : fresh_ids (db sample).
Proof.
  intros i p H. change (payments sample_db !! i = Some p) in H. unfold sample_db in H. cbn [payments] in H.
  change (next_id (db sample)) with 20%positive.
  apply lookup_insert_Some in H as [[<- _]|[_ H]]; [lia|].
  apply lookup_singleton_Some in H as [<- _]. lia.
Qed.

(** The submission, and the school's confirmation of it and of the one before. *)
Example submission_guard_witness :
  exists w', submit_tx 4%positive 1%positive 5000000 None (Some "key-9") 7 sample = (Ok 20%positive, w') /\
    reserved 4%positive (db w') <= 7500000 /\
    exists e'', enrollments (db (confirm_all 1%positive (mkActor 10%positive SCHOOL_OWNER) 9 [20%positive] w')) !! 4%positive = Some e'' /\
      e_remainingBalance e'' = 2500000.
Proof.
  destruct (submission_guard 4%positive 1%positive 5000000 None (Some "key-9") 7 sample sample_fresh_ids)
    as (w' & H1 & H3 & _ & _ & H2 & H4).
  - intros i p H. change (payments sample_db !! i = Some p) in H. unfold sample_db in H. cbn [payments] in H.
    apply lookup_insert_Some in H as [[_ <-]|[_ H]]; [cbn; lia|].
    apply lookup_singleton_Some in H as [_ <-]. cbn; lia.
  - lia.
  - exists w'. split; [exact H1|]. split; [exact H2|].
    assert (w' = snd (submit_tx 4%positive 1%positive 5000000 None (Some "key-9") 7 sample)) as -> by (by rewrite H1).
    destruct (H4 1%positive (mkActor 10%positive SCHOOL_OWNER) 9 [20%positive]) as (e'' & He & Hb & _).
    { constructor; [|constructor]. eexists. split; vm_compute; reflexivity. }
    exists e''. split; [exact He|]. rewrite Hb. vm_compute. reflexivity.
Defined.

(** ** Idempotency keys *)

Lemma find_row_new {V} (cond : V -> bool) (m : gmap id V) i v :
  taken cond m = false -> cond v = true -> find_row cond (<[i := v]> m) = Some (i, v).
Proof.
  intros Hn Hc. unfold taken in Hn. apply bool_decide_eq_false in Hn.
  assert (find_row cond m = None) as Hm by (by apply eq_None_not_Some).
  destruct (find_row cond (<[i := v]> m)) as [[j u]|] eqn:E.
  - apply find_row_some in E as [[[<- <-]|[_ H]]%lookup_insert_Some Hu]; [done|].
    by rewrite (find_row_none _ _ _ _ Hm H) in Hu.
  - by rewrite (find_row_none _ _ i v E (lookup_insert_eq _ _ _)) in Hc.
Qed.

Lemma catch_run {A} (m : M A) h w a w2 :
  catch m h w = (Ok a, w2) ->
  m w = (Ok a, w2) \/ exists e w1, m w = (Err e, w1) /\ h e w1 = (Ok a, w2).
Proof. unfold catch. destruct (m w) as [[b|e] w1]; [by left|]. eauto. Qed.

Lemma replay_on_conflict_run {A} key (m : M A) k w a w2 :
  replay_on_conflict key m k w = (Ok a, w2) ->
  m w = (Ok a, w2) \/ exists kv, a = k kv.
Proof.
  intros [H|(e & w1 & H1 & H)]%catch_run; [by left|]. right.
  destruct (truthy key) as [ky|]; [|done]. destruct (isIdempotencyConflict e); [|done].
  run_step H. destruct (findPaymentByIdempotencyKey ky (db w1)) as [kv|]; [|done].
  run_step H. eauto.
Qed.

Lemma submit_tx_run eid schoolId k rcpt key now w pid w' :
  submit_tx eid schoolId k rcpt key now w = (Ok pid, w') ->
  pid = next_id (db w) /\ key_taken key (db w) = false /\
  payments (db w') = <[pid := installmentPayment eid schoolId k rcpt key now]> (payments (db w)) /\
  enrollments (db w') = enrollments (db w) /\ next_id (db w') = Pos.succ pid /\
  is_Some (enrollments (db w) !! eid) /\
  (forall i, join_enrollment (db w') i = join_enrollment (db w) i).
Proof.
  unfold submit_tx. intros H. apply bind_run in H as (oe & w1 & [-> ->]%read_run & H).
  apply bind_run in H as (e & w1 & [He ->]%orThrow_run & H). run_step H. revert H.
  rewrite createPayment_eq.
  cbn [installmentPayment p_idempotencyKey p_paystackReference reference_taken].
  destruct (key_taken key (db w)); [done|]. intros [= <- <-]. rewrite He. eauto 10.
Qed.

(** A submission that recorded a payment recorded this one. *)
Lemma submit_recorded env eid amount user rcpt key w r w1 :
  submitInstallmentPayment env eid amount user rcpt key w = (Ok r, w1) -> sr_replay r = false ->
  (forall v, assertOwnedReceiptPath env rcpt (au_userId user) v = (Ok tt, v)) /\
  exists w0 j, join_enrollment (db w0) eid = Some j /\ j_userId j = au_userId user /\
    key_taken key (db w0) = false /\
    payments (db w1) = <[sr_paymentId r := installmentPayment eid (e_schoolId (j_enrollment j)) (kobo_of amount)
                          rcpt key (now env)]> (payments (db w0)) /\
    (forall i, join_enrollment (db w1) i = join_enrollment (db w0) i).
Proof.
  intros H Hr. unfold submitInstallmentPayment in H.
  apply bind_run in H as (u & w0 & Hrc & H).
  assert (w0 = w /\ forall v, assertOwnedReceiptPath env rcpt (au_userId user) v = (Ok tt, v)) as [-> Hrc'].
  { unfold assertOwnedReceiptPath in *. destruct rcpt; run_step Hrc; [|done].
    split; [done|]. intros v. unfold ensure. by rewrite Hrc. }
  split; [done|].
  apply bind_run in H as (existing & w2 & [-> ->]%read_run & H).
  apply bind_run in H as (rep & w3 & Hrep & H).
  destruct rep as [rr|].
  { run_step H. exfalso. destruct (replayed key (db w)) as [kv|].
    - destruct (isReplayableIntent _); [by apply ret_run in Hrep as [[= <-] _]|].
      apply bind_run in Hrep as (? & ? & _ & Hrep). by apply ret_run in Hrep as [? _].
    - by apply ret_run in Hrep as [? _]. }
  apply bind_run in H as (oj & w4 & [-> ->]%read_run & H).
  apply bind_run in H as (j & w4 & [Hj ->]%orThrow_run & H).
  apply bind_run in H as (? & w4 & [Hown ->]%ensure_run & H).
  apply bind_run in H as (? & w4 & [Hpos ->]%ensure_run & H).
  apply bind_run in H as (r1 & w4 & Hs & H).
  assert (r1 = r /\ db w1 = db w4) as [-> Hdb].
  { destruct (sr_replay r1) eqn:E; cbn [negb when] in H; by run_step H. }
  apply replay_on_conflict_run in Hs as [Hs|[kv ->]]; [|done].
  apply bind_run in Hs as (pid & w5 & Htx%transaction_run & [<- ->]%ret_run).
  apply submit_tx_run in Htx as (_ & Hn & Hp & _ & _ & _ & Hjoin).
  apply bool_decide_eq_true in Hown. exists w3, j. rewrite Hdb. split; [exact Hj|]. split; [done|]. split; [exact Hn|]. split; [exact Hp|exact Hjoin].
Qed.

(** The unique index on the key. *)
Definition key_unique (key : string) (d : DB) : Prop :=
  forall i j p q, payments d !! i = Some p -> payments d !! j = Some q ->
    p_idempotencyKey p = Some key -> p_idempotencyKey q = Some key -> i = j.

Lemma find_by_key key d pid p :
  key_unique key d -> payments d !! pid = Some p -> p_idempotencyKey p = Some key ->
  findPaymentByIdempotencyKey key d = Some (pid, p).
Proof.
  intros Hu Hp Hk. unfold findPaymentByIdempotencyKey. destruct (find_row _ _) as [[i q]|] eqn:E.
  - apply find_row_some in E as [Hi Hq]. unfold by_idempotencyKey in Hq. to_prop.
    assert (i = pid) as -> by (by eapply (Hu i pid q p)). congruence.
  - pose proof (find_row_none _ _ _ _ E Hp) as Hn. unfold by_idempotencyKey in Hn. by rewrite Hk, bool_decide_eq_true_2 in Hn.
Qed.
Lemma key_released key d pid p :
  key_unique key d -> payments d !! pid = Some p -> p_idempotencyKey p = Some key ->
  findPaymentByIdempotencyKey key (set_payments (<[pid := set_p_idempotencyKey None p]> (payments d)) d) = None.
Proof.
  intros Hu Hp Hk. unfold findPaymentByIdempotencyKey. destruct (find_row _ _) as [[i q]|] eqn:E; [|done]. exfalso.
  apply find_row_some in E as [Hi Hq]. unfold by_idempotencyKey in Hq. cbn -[lookup insert] in Hi. to_prop.
  apply lookup_insert_Some in Hi as [[_ <-]|[Hne Hi]]; [discriminate Hq|]. apply Hne. by eapply (Hu pid i p q).
Qed.
Lemma releaseKey_run kv w : payments (db w) !! kv.1 = Some kv.2 ->
  releaseKey kv w = (Ok tt, mkWorld (set_payments (<[kv.1 := set_p_idempotencyKey None kv.2]> (payments (db w))) (db w)) (out w)).
Proof.
  intros H. unfold releaseKey, updateManyPayment. exec. unfold has_status.
  rewrite bool_decide_eq_true_2 by done. by exec.
Qed.

(** C32: an idempotency key stands for one payment.  A submission that recorded a
    payment left it pending under its key, alone; and in any later state where that
    payment still has the key, another submission under the key, by whoever and
    whatever amount or plan it names, with a receipt of the caller's own, answers
    with that payment and changes nothing as long as the payment is pending or
    confirmed.  Once it is rejected or reversed the key is taken off it, and the
    submission is served as one whose key was never used, so it may be recorded. *)
Theorem submission_idempotent env eid amount user rcpt key w r w1 :
  truthy (Some key) = Some key ->
  submitInstallmentPayment env eid amount user rcpt (Some key) w = (Ok r, w1) ->
  sr_replay r = false ->
  (exists p, payments (db w1) !! sr_paymentId r = Some p /\ p_idempotencyKey p = Some key /\ p_status p = TX_PENDING /\
     key_unique key (db w1)) /\
  forall env' eid' amount' user' rcpt' w2 p,
    assertOwnedReceiptPath env' rcpt' (au_userId user') w2 = (Ok tt, w2) ->
    payments (db w2) !! sr_paymentId r = Some p -> p_idempotencyKey p = Some key -> key_unique key (db w2) ->
    let again := submitInstallmentPayment env' eid' amount' user' rcpt' (Some key) in
    again w2 = if isReplayableIntent (p_status p) then (Ok (mkSubmitResult (sr_paymentId r) true), w2)
      else again (mkWorld (set_payments (<[sr_paymentId r := set_p_idempotencyKey None p]> (payments (db w2))) (db w2)) (out w2)).
Proof.
  intros Hk H Hr. destruct (submit_recorded _ _ _ _ _ _ _ _ _ H Hr) as (_ & w0 & j & _ & _ & Hn & Hp & _). split.
  - eexists. rewrite Hp, lookup_insert_eq. split; [done|]. split; [done|]. split; [done|].
    cbn [key_taken] in Hn. unfold taken in Hn. apply bool_decide_eq_false in Hn.
    assert (forall i p, payments (db w0) !! i = Some p -> p_idempotencyKey p <> Some key) as Hno.
    { intros i p Hi Hpk. apply Hn. destruct (find_row _ _) eqn:E; [done|].
      pose proof (find_row_none _ _ _ _ E Hi) as Hf. unfold by_idempotencyKey in Hf. by rewrite Hpk, bool_decide_eq_true_2 in Hf. }
    intros a b p q. rewrite Hp. intros [[<- <-]|[_ Ha]]%lookup_insert_Some [[<- <-]|[_ Hb]]%lookup_insert_Some; try done.
    + intros _ Hq. by destruct (Hno b q Hb).
    + intros Ha'. by destruct (Hno a p Ha).
    + intros Ha'. by destruct (Hno a p Ha).
  - clear H Hp Hn. intros env' eid' amount' user' rcpt' w2 p Hrc Hp Hkey Hu. cbv zeta.
    pose proof (find_by_key _ _ _ _ Hu Hp Hkey) as Hfind.
    destruct (isReplayableIntent (p_status p)) eqn:Hi; unfold submitInstallmentPayment, mbind, M_bind; rewrite Hrc; unfold read, replayed;
      rewrite Hk; cbn [mbind option_bind]; rewrite Hfind; cbn [snd fst]; rewrite Hi; [done|].
    rewrite (releaseKey_run (sr_paymentId r, p)) by done. cbn [fst snd].
    set (w3 := mkWorld _ _). assert (assertOwnedReceiptPath env' rcpt' (au_userId user') w3 = (Ok tt, w3)) as ->.
    { revert Hrc. unfold assertOwnedReceiptPath. destruct rcpt'; [|done]. unfold ensure. by destruct (String.prefix _ _). }
    subst w3. cbn [db out]. by rewrite (key_released _ _ _ _ Hu Hp Hkey).
Qed.

Definition sample_env : Env :=
  mkEnv 5000 "uuid-1" (fl (75 # 1000)) (fun _ => "0.00") (mkDelivery true (fun _ => true)) (fun _ => "u")
    (fun _ => VerifyFailed) (fun a => Some (mkInitOk (ia_reference a) "AC_9" "https://pay")).
Definition sample_parent : AuthUser := mkAuthUser 11%positive PARENT None.

Definition submitted_once : res SubmitResult * World :=
  Eval vm_compute in submitInstallmentPayment sample_env 4%positive 1000 sample_parent None (Some "key-9") sample.
(** Resubmitted at once; and after the school has rejected it. *)
Definition sample_rejected : World :=
  snd (rejectPayment 20%positive 1%positive (mkActor 10%positive SCHOOL_OWNER) (snd submitted_once)).
Example submission_idempotent_witness :
  submitInstallmentPayment sample_env 4%positive 2000 sample_parent None (Some "key-9") (snd submitted_once) =
    (Ok (mkSubmitResult 20%positive true), snd submitted_once) /\
  exists p, payments (db sample_rejected) !! 20%positive = Some p /\ p_status p = TX_FAILED /\
    submitInstallmentPayment sample_env 4%positive 2000 sample_parent None (Some "key-9") sample_rejected =
    submitInstallmentPayment sample_env 4%positive 2000 sample_parent None (Some "key-9")
      (mkWorld (set_payments (<[20%positive := set_p_idempotencyKey None p]> (payments (db sample_rejected))) (db sample_rejected))
        (out sample_rejected)).
Proof.
  destruct (submission_idempotent sample_env 4%positive 1000 sample_parent None "key-9" sample
    (mkSubmitResult 20%positive false) (snd submitted_once)) as [(p & Hp & Hk & Hs & Hu) H];
    [reflexivity | vm_compute; reflexivity | reflexivity|]. split.
  - pose proof (H sample_env 4%positive 2000%Q sample_parent None (snd submitted_once) p eq_refl Hp Hk Hu) as E.
    rewrite Hs in E. exact E.
  - assert (exists q, payments (db sample_rejected) !! 20%positive = Some q /\ p_idempotencyKey q = Some "key-9" /\
      p_status q = TX_FAILED) as (q & Hq & Hqk & Hqs) by (eexists; split; [vm_compute; reflexivity|done]).
    exists q. split; [exact Hq|]. split; [exact Hqs|].
    assert (key_unique "key-9" (db sample_rejected)) as Huq.
    { intros i k q1 q2 H1 H2 K1 K2.
      assert (forall i q, payments (db sample_rejected) !! i = Some q -> p_idempotencyKey q = Some "key-9" -> i = 20%positive) as Hone.
      { clear. intros i q Hi%elem_of_map_to_list. revert i q Hi. vm_compute. set_solver. }
      by rewrite (Hone i q1), (Hone k q2). }
    pose proof (H sample_env 4%positive 2000%Q sample_parent None sample_rejected q eq_refl Hq Hqk Huq) as E.
    cbv zeta in E. rewrite Hqs in E. exact E.
Defined.

(** ** The webhook log *)

(** The delivery log, on every branch and for any dispatch that keeps the
    log row it was given: a delivery whose key is already logged is a duplicate
    and changes nothing; a first delivery that dispatches is marked processed; a
    first delivery whose dispatch throws leaves its row unprocessed with the
    error on it and throws the same error, and every redelivery of it is then
    answered as a duplicate, without running the dispatch again. *)
Theorem webhook_log key eventType reference now now' dispatch dispatch' w :
  let ev := mkWebhookEvent eventType reference None None in
  let w1 := mkWorld (set_webhookEvents (<[key := ev]> (webhookEvents (db w))) (db w)) (out w) in
  (forall r w2, dispatch w1 = (r, w2) -> webhookEvents (db w2) !! key = Some ev) ->
  match webhookEvents (db w) !! key with
  | Some _ => logged_dispatch key eventType reference now dispatch w = (Ok true, w)
  | None =>
      match dispatch w1 with
      | (Ok _, w2) => exists w3, logged_dispatch key eventType reference now dispatch w = (Ok false, w3) /\
          webhookEvents (db w3) !! key = Some (set_w_processedAt (Some now) ev)
      | (Err e, w2) => exists w3, logged_dispatch key eventType reference now dispatch w = (Err e, w3) /\
          webhookEvents (db w3) !! key = Some (set_w_error (Some (failure_message e)) ev) /\
          logged_dispatch key eventType reference now' dispatch' w3 = (Ok true, w3)
      end
  end.
Proof.
  intros ev w1 Hkeep. unfold logged_dispatch. destruct (webhookEvents (db w) !! key) as [old|] eqn:Ek.
  { unfold updateWebhookEvent. by exec. }
  fold w1 ev in Hkeep |- *.
  assert (createWebhookEvent key ev w = (Ok tt, w1)) as Hc by (unfold createWebhookEvent; by exec).
  destruct (dispatch w1) as [[[]|e] w2] eqn:Ed; specialize (Hkeep _ _ eq_refl);
    unfold catch, mbind, M_bind; rewrite Hc; cbn [mret M_ret]; rewrite Ed; unfold mret, M_ret.
  - unfold updateWebhookEvent. exec. eexists. split; [reflexivity|]. cbn -[insert lookup].
    by rewrite lookup_insert_eq.
  - unfold updateWebhookEvent. exec. eexists. split; [reflexivity|]. cbn -[insert lookup].
    rewrite lookup_insert_eq. split; [done|]. unfold createWebhookEvent. by exec.
Qed.

(** The dispatch of the witness loses its connection. *)
Example webhook_log_witness :
  exists w3, logged_dispatch "charge.success:1" "charge.success" (Some "lopay_1") 5
      (throw (FInternal "connection lost")) sample = (Err (FInternal "connection lost"), w3) /\
    webhookEvents (db w3) !! "charge.success:1" =
      Some (mkWebhookEvent "charge.success" (Some "lopay_1") None (Some "connection lost")) /\
    logged_dispatch "charge.success:1" "charge.success" (Some "lopay_1") 6
      (dispatchPaystackEvent sample_env "charge.success" (Some "lopay_1") None) w3 = (Ok true, w3).
Proof.
  assert (H := webhook_log "charge.success:1" "charge.success" (Some "lopay_1") 5 6
    (throw (FInternal "connection lost"))
    (dispatchPaystackEvent sample_env "charge.success" (Some "lopay_1") None) sample).
  assert (K : forall r w2, @throw unit (FInternal "connection lost") (mkWorld
    (set_webhookEvents (<["charge.success:1" := mkWebhookEvent "charge.success" (Some "lopay_1") None None]>
      (webhookEvents (db sample))) (db sample)) (out sample)) = (r, w2) ->
    webhookEvents (db w2) !! "charge.success:1" = Some (mkWebhookEvent "charge.success" (Some "lopay_1") None None)).
  { intros r w2 [= _ <-]. apply lookup_insert_eq. }
  exact (H K).
Defined.

(** ** Who may see a payment *)

(** The outcome screen answers only the parent of the plan or an owner of
    the school: everyone else is refused before Paystack is asked anything and
    before anything is written, whatever Paystack would have said. *)
Theorem outcome_access env reference paymentId user w kv :
  is_Some (truthy reference) \/ is_Some paymentId ->
  load_payment reference paymentId (db w) = Some kv ->
  owns_payment user (db w) kv.2 = false ->
  getPaymentOutcome env reference paymentId user w =
    (Err (FForbidden "You do not have access to this payment"), w).
Proof.
  intros Hr Hl Ho. unfold getPaymentOutcome, mbind, M_bind.
  assert (bool_decide (is_Some (truthy reference)) || bool_decide (is_Some paymentId) = true) as ->.
  { apply orb_true_iff. rewrite !bool_decide_eq_true. exact Hr. }
  cbn [ensure]. unfold mret, M_ret, read. rewrite Hl. cbn [orThrow]. unfold mret, M_ret. by rewrite Ho.
Qed.

Example outcome_access_witness :
  getPaymentOutcome sample_env (Some "lopay_1") None (mkAuthUser 13%positive PARENT None) sample =
    (Err (FForbidden "You do not have access to this payment"), sample).
Proof.
  apply (outcome_access sample_env (Some "lopay_1") None (mkAuthUser 13%positive PARENT None) sample
    (6%positive, sample_card)); [left; eexists; reflexivity | vm_compute; reflexivity | vm_compute; reflexivity].
Defined.

(** ** A charge Paystack refuses *)

(** When Paystack refuses to open the charge, the caller gets the error and
    the rows written for it are settled the other way: the payment is FAILED and
    so is the plan, so the parent's next attempt starts afresh instead of
    resuming a charge that does not exist. *)
Theorem refused_charge_is_failed env email reference subaccount calc g pid w s :
  initializeTransaction env (mkInitArgs email (amountCharged g) reference subaccount
    (d_platformFee calc + gu_paystackFee g)) = None ->
  findPaymentByReference reference (db w) = Some s -> p_status (sn_payment s) = TX_PENDING ->
  exists w', initiate_charge env email reference subaccount calc g pid w = (Err initialize_error, w') /\
    payments (db w') = <[sn_pid s := set_p_status TX_FAILED (sn_payment s)]> (payments (db w)) /\
    enrollments (db w') = <[p_enrollmentId (sn_payment s) :=
      set_e_paymentStatus FAILED (j_enrollment (sn_join s))]> (enrollments (db w)).
Proof.
  intros Hi Hf Hs. unfold initiate_charge. rewrite Hi.
  pose proof (failPaystackPayment_outcomes reference w) as H. cbv zeta in H. rewrite Hf in H.
  assert (has_status TX_PENDING (sn_payment s) = true) as Hp by (unfold has_status; by rewrite Hs).
  rewrite Hp in H. destruct H as (w' & H & H1 & H2 & _).
  unfold catch, mbind, M_bind. rewrite H. exists w'. done.
Qed.

Definition refusing_env : Env :=
  mkEnv 5000 "uuid-1" (fl (75 # 1000)) (fun _ => "0.00") (mkDelivery true (fun _ => true)) (fun _ => "u")
    (fun _ => VerifyFailed) (fun _ => None).
Example refused_charge_is_failed_witness :
  exists w', initiate_charge refusing_env "p@x.ng" "lopay_1" "ACCT_1" (mkDeposit 10000000 250000 2750000 2750000 2500000 7500000)
      (mkGrossUp 2802000 52000) 6%positive sample = (Err initialize_error, w') /\
    payments (db w') = <[6%positive := set_p_status TX_FAILED sample_card]> (payments (db sample)) /\
    enrollments (db w') = <[9%positive := set_e_paymentStatus FAILED sample_pending_plan]> (enrollments (db sample)).
Proof.
  apply (refused_charge_is_failed refusing_env "p@x.ng" "lopay_1" "ACCT_1" _ _ 6%positive sample
    (sample_card_snapshot sample_card)); [reflexivity | vm_compute; reflexivity | reflexivity].
Defined.
