(* ===== verification/Invariant.v ===== *)
(** * What the books always satisfy

    Well-formed rows, and the safety bound: no plan is ever forgiven money that
    was not confirmed.  The lemmas here say which row changes keep them; [System]
    applies them to every transaction. *)

From S2P Require Import Prelude Schedule Schema Effects MigratedPlan Ledger Books LedgerMigrated LedgerSpecs LedgerMigratedSpecs.

(** ** Rows *)

Record pay_ok (p : Payment) : Prop := mkPayOk {
  po_nonneg : 0 <= p_schoolAmount p;
  po_confirmed : p_isConfirmed p = true <-> p_status p = TX_SUCCESS;
  po_installment : p_paymentType p = INSTALLMENT -> 0 < p_amountPaid p /\ p_amountPaid p = p_schoolAmount p;
  po_migrated : p_paymentType p = MIGRATED_PAYMENT -> p_amountPaid p = p_schoolAmount p;
  po_reference : is_Some (p_paystackReference p) -> p_paymentType p = FIRST_PAYMENT }.

Record plan_ok (e : ChildEnrollment) : Prop := mkPlanOk {
  eo_balance : 0 <= e_remainingBalance e <= e_totalSchoolFee e;
  eo_completed : e_paymentStatus e = COMPLETED -> e_remainingBalance e = 0;
  eo_active : e_paymentStatus e = ACTIVE -> e_totalSchoolFee e = 0 \/ 0 < e_remainingBalance e }.

(** The confirmed money of a plan: what the school was paid. *)
Definition credit (eid : id) (p : Payment) : Z :=
  if bool_decide (p_enrollmentId p = eid) && p_isConfirmed p then p_schoolAmount p else 0.
Definition credited (eid : id) (d : DB) : Z := total (credit eid) (payments d).

Record books_wf (d : DB) : Prop := mkWf {
  wf_pay : forall i p, payments d !! i = Some p -> pay_ok p;
  wf_plan : forall i e, enrollments d !! i = Some e -> plan_ok e;
  wf_pids : forall i p, payments d !! i = Some p ->
    (i < next_id d)%positive /\ is_Some (enrollments d !! p_enrollmentId p);
  wf_eids : forall i e, enrollments d !! i = Some e -> (i < next_id d)%positive }.

(** Nothing is forgiven: a plan owes at least its fee less its confirmed money. *)
Definition backed (d : DB) : Prop :=
  forall i e, enrollments d !! i = Some e -> e_totalSchoolFee e - credited i d <= e_remainingBalance e.

(** What never changes about a payment once it is written; the figure of a
    migrated payment may be corrected. *)
Record stable (p q : Payment) : Prop := mkStable {
  st_enrollment : p_enrollmentId q = p_enrollmentId p;
  st_type : p_paymentType q = p_paymentType p;
  st_reference : p_paystackReference q = p_paystackReference p;
  st_amounts : p_paymentType p <> MIGRATED_PAYMENT ->
    p_amountPaid q = p_amountPaid p /\ p_schoolAmount q = p_schoolAmount p }.

Lemma stable_refl p : stable p p.
Proof. by split. Qed.
Lemma stable_trans p q r : stable p q -> stable q r -> stable p r.
Proof.
  intros [A1 A2 A3 A4] [B1 B2 B3 B4]. split; try congruence.
  intros H. destruct (A4 H) as [E1 E2].
  destruct (B4 ltac:(congruence)) as [F1 F2]. split; congruence.
Qed.

(** Payment rows evolve: a row that is still there is the same payment, and an
    id that was handed out is never handed out again. *)
Record evolves (d d' : DB) : Prop := mkEvolves {
  ev_rows : forall i p', payments d' !! i = Some p' -> (i < next_id d)%positive ->
    exists p, payments d !! i = Some p /\ stable p p';
  ev_next : (next_id d <= next_id d')%positive }.

Lemma evolves_refl d : evolves d d.
Proof. split; [|lia]. intros i p H _. eauto using stable_refl. Qed.
Lemma evolves_trans d1 d2 d3 : evolves d1 d2 -> evolves d2 d3 -> evolves d1 d3.
Proof.
  intros [A1 A2] [B1 B2]. split; [|lia]. intros i p H Hi.
  destruct (B1 i p H ltac:(lia)) as (q & Hq & S1). destruct (A1 i q Hq Hi) as (r & Hr & S2).
  eauto using stable_trans.
Qed.

(** ** One payment and one plan rewritten *)

Section moves.
Context (w w' : World) (pid eid : id) (p p' : Payment) (e e' : ChildEnrollment).
Hypothesis H1 : payments (db w') = <[pid := p']> (payments (db w)).
Hypothesis H2 : enrollments (db w') = <[eid := e']> (enrollments (db w)).
Hypothesis Hn : next_id (db w') = next_id (db w).
Hypothesis Hp : payments (db w) !! pid = Some p.
Hypothesis He : enrollments (db w) !! eid = Some e.
Hypothesis Hs : stable p p'.

Lemma moves_evolves : evolves (db w) (db w').
Proof.
  split; [|rewrite Hn; lia].
  intros i q Hq _. rewrite H1 in Hq. apply lookup_insert_Some in Hq as [[<- <-]|[_ Hq]];
    eauto using stable_refl.
Qed.

Lemma moves_wf : books_wf (db w) -> pay_ok p' -> plan_ok e' -> books_wf (db w').
Proof.
  intros [W1 W2 W3 W4] Hpo Hpl.
  split; rewrite ?H1, ?H2, ?Hn.
  - intros i q [[_ <-]|[_ Hq]]%lookup_insert_Some; eauto.
  - intros i q [[_ <-]|[_ Hq]]%lookup_insert_Some; eauto.
  - assert (forall k, is_Some (enrollments (db w) !! k) -> is_Some (<[eid := e']> (enrollments (db w)) !! k)) as Hk.
    { intros k Hk. rewrite lookup_insert_is_Some'. by right. }
    intros i q [[<- <-]|[_ Hq]]%lookup_insert_Some; [rewrite (st_enrollment _ _ Hs)|];
      split; [by eapply W3 | apply Hk; by eapply W3 | by eapply W3 | apply Hk; by eapply W3].
  - intros i q [[<- _]|[_ Hq]]%lookup_insert_Some; eauto.
Qed.

Lemma moves_credited i : credited i (db w') = credited i (db w) - credit i p + credit i p'.
Proof. unfold credited. rewrite H1. by apply total_update. Qed.

(** The plan may shed what the payment newly confirms, and must take back what
    it withdraws. *)
Lemma moves_backed :
  backed (db w) -> p_enrollmentId p = eid ->
  e_totalSchoolFee e' - e_remainingBalance e' <=
    e_totalSchoolFee e - e_remainingBalance e - credit eid p + credit eid p' \/
  e_totalSchoolFee e' - e_remainingBalance e' <= credited eid (db w') ->
  backed (db w').
Proof.
  intros Hb Hpe Hd i x. rewrite H2.
  intros [[<- <-]|[Hne Hx]]%lookup_insert_Some.
  - destruct Hd as [Hd|Hd]; [|lia]. rewrite moves_credited. specialize (Hb _ _ He). lia.
  - rewrite moves_credited. specialize (Hb _ _ Hx).
    assert (credit i p = 0 /\ credit i p' = 0) as [-> ->]; [|lia].
    unfold credit. rewrite (st_enrollment _ _ Hs), Hpe, bool_decide_eq_false_2 by done. done.
Qed.
End moves.

Lemma credited_nonneg i d : books_wf d -> 0 <= credited i d.
Proof.
  intros W. apply total_nonneg. intros j p Hp. unfold credit. destruct (_ && _); [|lia].
  by apply (po_nonneg _ (wf_pay _ W _ _ Hp)).
Qed.

(** The installments are part of the confirmed money. *)
Definition installment_credit (eid : id) (p : Payment) : Z :=
  if bool_decide (p_enrollmentId p = eid) && confirmed_installment p then p_amountPaid p else 0.

Lemma installments_credit eid d : installments_of eid d = total (installment_credit eid) (payments d).
Proof. apply sum_paid_total. Qed.

Lemma installment_credit_le eid p : pay_ok p -> 0 <= installment_credit eid p <= credit eid p.
Proof.
  intros [A B C D E]. unfold installment_credit, credit, confirmed_installment, is_installment.
  destruct (bool_decide (p_enrollmentId p = eid)); cbn; [|lia].
  destruct (bool_decide (p_paymentType p = INSTALLMENT)) eqn:Ht; cbn; [|destruct (p_isConfirmed p); lia].
  to_prop. destruct (C Ht). destruct (p_isConfirmed p); cbn; [|lia]. destruct (has_status _ _); lia.
Qed.

Lemma installments_nonneg eid d : books_wf d -> 0 <= installments_of eid d.
Proof.
  intros W. rewrite installments_credit. apply total_nonneg. intros i p Hp.
  apply installment_credit_le, (wf_pay _ W _ _ Hp).
Qed.

(** A confirmed payment that is no installment counts on top of them. *)
Lemma credited_bound eid d i p :
  books_wf d -> payments d !! i = Some p -> p_enrollmentId p = eid ->
  p_paymentType p = MIGRATED_PAYMENT -> p_isConfirmed p = true ->
  p_schoolAmount p + installments_of eid d <= credited eid d.
Proof.
  intros W Hp He Ht Hc. rewrite installments_credit. unfold credited.
  assert (total (credit eid) (payments d) = total (fun q => (credit eid q - installment_credit eid q)
    + installment_credit eid q) (payments d)) as -> by (apply total_ext; intros; lia).
  rewrite total_add. apply Z.add_le_mono_r.
  transitivity (credit eid p - installment_credit eid p).
  - unfold credit, installment_credit, confirmed_installment, is_installment.
    rewrite He, Hc, Ht, (bool_decide_eq_true_2 (eid = eid)), (bool_decide_eq_false_2 (_ = INSTALLMENT)) by done.
    cbn. lia.
  - apply (total_ge_one (fun q => credit eid q - installment_credit eid q) _ i p); [|done].
    intros j q Hq. pose proof (installment_credit_le eid q (wf_pay _ W _ _ Hq)). lia.
Qed.

(** ** Row functions *)

Lemma stable_of p q :
  p_enrollmentId q = p_enrollmentId p -> p_paymentType q = p_paymentType p ->
  p_paystackReference q = p_paystackReference p -> p_amountPaid q = p_amountPaid p ->
  p_schoolAmount q = p_schoolAmount p -> stable p q.
Proof. by split. Qed.

(** A transition that sets the confirmation with the status keeps the row well formed. *)
Lemma pay_ok_status p q :
  pay_ok p -> stable p q -> p_amountPaid q = p_amountPaid p -> p_schoolAmount q = p_schoolAmount p ->
  (p_isConfirmed q = true <-> p_status q = TX_SUCCESS) -> pay_ok q.
Proof.
  intros [A B C D E] [S1 S2 S3 _] H1 H2 H3. split; rewrite ?H1, ?H2, ?S2, ?S3; auto.
Qed.

Lemma plan_debit amount e : plan_ok e -> 0 < amount -> plan_ok (debit_installment amount e).
Proof.
  intros [A B C] H. unfold debit_installment. destruct (_ <=? 0) eqn:E; to_prop; split; cbn; try done.
  - lia.
  - lia.
  - intros Hs. specialize (B Hs). lia.
  - lia.
Qed.

Lemma plan_restore amount e : plan_ok e -> 0 < amount -> plan_ok (restore_installment amount e).
Proof.
  intros [A B C] H. unfold restore_installment.
  destruct (bool_decide (e_paymentStatus e = COMPLETED)) eqn:E; to_prop; split; cbn.
  - lia.
  - done.
  - intros _. rewrite (B E). lia.
  - lia.
  - done.
  - intros Hs. destruct (C Hs); lia.
Qed.

Lemma plan_credit amount e : plan_ok e -> 0 <= amount -> plan_ok (credit_first amount e).
Proof.
  intros [A B C] H. unfold credit_first. destruct (_ <=? 0) eqn:E; to_prop; split; cbn; try done; lia.
Qed.

Lemma plan_status s e :
  plan_ok e -> s <> COMPLETED -> s <> ACTIVE -> plan_ok (set_e_paymentStatus s e).
Proof. intros [A B C] H1 H2. split; cbn; [done | congruence | congruence]. Qed.
