(* ===== verification/System.v ===== *)
(** * The ledger as a concurrent system

    Requests interleave: a request reads its row, other requests commit, and
    then it runs its transaction from what it read.  A state is the world and
    the reads still in flight; a step is a read or the transaction of any
    request on any of them.  Every transaction of the ledger, of enrollment and
    of the migrated plans is a step. *)

From S2P Require Import Prelude JsNumber Money PaystackFee Dates Schedule Schema Effects Samples.
From S2P Require Import EnrollmentView MigratedPlan PaymentCalc Ledger Books LedgerCard LedgerMigrated.
From S2P Require Import Enrollment LedgerSpecs LedgerCardSpecs LedgerMigratedSpecs EnrollmentSpecs Invariant.

(** ** Steps *)

(** The transactions, each with the read it starts from where it has one. *)
Inductive op :=
| OConfirm (s : Snapshot) (schoolId : id) (actor : AuditActor) (now : Z)
| OReject (s : Snapshot) (schoolId : id) (actor : AuditActor)
| OReverse (s : Snapshot) (schoolId : id) (actor : AuditActor) (reason : option string)
| OSettle (s : Snapshot) (actor : AuditActor)
| ORejectFirst (s : Snapshot) (actor : AuditActor)
| OReconcile (s : Snapshot) (reference : string) (fee : option Z) (actor : option AuditActor) (now : Z)
| OFail (s : Snapshot)
| ODispute (s : Snapshot) (reference eventType : string)
| OConfirmFirst (enrollmentId schoolId : id) (actor : AuditActor) (now : Z)
| ODefault (j : Joined) (schoolId : id) (actor : AuditActor)
| OSweep (j : Joined)
| OAmend (s : Snapshot) (newAmount : Z) (schoolId : id) (actor : AuditActor) (reason : option string)
| OSubmit (enrollmentId schoolId : id) (amount : Z) (receipt key : option string) (now : Z)
| OEnroll (env : Env) (dto : CreateEnrollmentDto) (fee deposit : Z) (calc : DepositCalculationResult)
    (childId : id) (retry : option id)
| OInitiate (env : Env) (dto : CreateEnrollmentDto) (fee deposit : Z) (calc : DepositCalculationResult)
    (g : GrossUp) (reference : string) (childId : id) (reuse : option id)
| ORecord (inviteId : id) (invite : EnrollmentInvite) (childId parentUserId : id) (actor : AuditActor) (now : Z)
| ORelease (enrollmentId childId inviteId schoolId : id) (actor : AuditActor) (reason : option string).

Definition body (o : op) : M unit :=
  match o with
  | OConfirm s schoolId actor now => confirmPayment_tx s schoolId actor now;; mret tt
  | OReject s schoolId actor => rejectPayment_tx s schoolId actor;; mret tt
  | OReverse s schoolId actor reason => reversePayment_tx s schoolId actor reason;; mret tt
  | OSettle s actor => settleFirstPayment_tx s actor;; mret tt
  | ORejectFirst s actor => rejectFirstPayment_tx s actor;; mret tt
  | OReconcile s reference fee actor now => reconcilePaystackPayment_tx s reference fee actor now;; mret tt
  | OFail s => failPaystackPayment_tx s;; mret tt
  | ODispute s reference eventType => reversePaystackPaymentByDispute_tx s reference eventType;; mret tt
  | OConfirmFirst eid schoolId actor now => confirmFirstPayment_tx eid schoolId actor now;; mret tt
  | ODefault j schoolId actor => markEnrollmentAsDefaulted_tx j schoolId actor;; mret tt
  | OSweep j => markEnrollmentDefaultedBySweep_tx j;; mret tt
  | OAmend s new schoolId actor reason =>
      amendMigratedPayment_tx (sn_join s) (sn_pid s, sn_payment s) new schoolId actor reason;; mret tt
  | OSubmit eid schoolId k rcpt key now => submit_tx eid schoolId k rcpt key now;; mret tt
  | OEnroll env dto fee deposit calc childId retry => enrollChild_tx env dto calc deposit childId retry;; mret tt
  | OInitiate env dto fee deposit calc g reference childId reuse =>
      initiate_tx env dto calc g reference deposit childId reuse;; mret tt
  | ORecord inviteId invite childId parentUserId actor now =>
      recordMigratedEnrollment inviteId invite childId parentUserId actor now;; mret tt
  | ORelease eid childId inviteId schoolId actor reason =>
      releaseMigratedEnrollment eid childId inviteId schoolId actor reason;; mret tt
  end.

(** The read a transaction starts from. *)
Definition read_of (o : op) : option Snapshot :=
  match o with
  | OConfirm s _ _ _ | OReject s _ _ | OReverse s _ _ _ | OSettle s _ | ORejectFirst s _
  | OReconcile s _ _ _ _ | OFail s | ODispute s _ _ | OAmend s _ _ _ _ => Some s
  | _ => None
  end.

(** What the code checked before opening the transaction: on the read, on the
    amounts, and for an invite the database's check constraint. *)
Definition checked (o : op) : Prop :=
  match o with
  | OConfirm s schoolId _ _ => confirm_cond schoolId (sn_payment s) = true
  | OReject s schoolId _ => reject_cond schoolId (sn_payment s) = true
  | OReverse s schoolId _ _ => reverse_cond schoolId (sn_payment s) = true
  | OSettle s _ | ORejectFirst s _ => settle_cond (sn_payment s) = true
  | OReconcile s reference _ _ _ =>
      by_reference reference (sn_payment s) = true /\ p_status (sn_payment s) = TX_PENDING
  | OFail s => p_status (sn_payment s) = TX_PENDING
  | ODispute s reference _ => by_reference reference (sn_payment s) = true
  | OAmend s new _ _ _ => 0 <= new /\ migrated_success (j_eid (sn_join s)) (sn_payment s) = true
  | OSubmit _ _ k _ _ _ => 0 < k
  | OEnroll _ _ fee deposit calc _ _ | OInitiate _ _ fee deposit calc _ _ _ _ =>
      calculateInitialPayment fee deposit = Ok calc
  | ORecord _ invite _ _ _ _ => 0 <= i_amountAlreadyPaid invite <= i_totalSchoolFee invite
  | _ => True
  end.

(** A dispute restores the fee it read, so it needs a read that is still the
    plan's fee; [strict] further asks that the read saw the plan open. *)
Definition timely (strict : bool) (o : op) (d : DB) : Prop :=
  match o with
  | ODispute s _ _ =>
      (forall e, enrollments d !! j_eid (sn_join s) = Some e ->
         e_totalSchoolFee e = e_totalSchoolFee (j_enrollment (sn_join s))) /\
      (strict = true -> e_paymentStatus (j_enrollment (sn_join s)) = ACTIVE \/
         e_paymentStatus (j_enrollment (sn_join s)) = COMPLETED)
  | _ => True
  end.

Record State := mkState { st_world : World; st_reads : list Snapshot }.

Inductive step (strict : bool) : State -> State -> Prop :=
| step_read w rs s :
    payments (db w) !! sn_pid s = Some (sn_payment s) ->
    join_enrollment (db w) (p_enrollmentId (sn_payment s)) = Some (sn_join s) ->
    step strict (mkState w rs) (mkState w (s :: rs))
| step_commit w rs o w' r :
    (forall s, read_of o = Some s -> s ∈ rs) -> checked o -> timely strict o (db w) ->
    transaction (body o) w = (r, w') ->
    step strict (mkState w rs) (mkState w' rs).

Inductive reachable (strict : bool) (w0 : World) : State -> Prop :=
| reach_start : reachable strict w0 (mkState w0 [])
| reach_step a b : reachable strict w0 a -> step strict a b -> reachable strict w0 b.

(** ** Reads in flight *)

(** A read made in a well-formed past of [d]. *)
Record read_ok (d : DB) (s : Snapshot) : Prop := mkReadOk {
  ro_pid : (sn_pid s < next_id d)%positive;
  ro_row : forall p, payments d !! sn_pid s = Some p -> stable (sn_payment s) p;
  ro_pay : pay_ok (sn_payment s);
  ro_plan : p_enrollmentId (sn_payment s) = j_eid (sn_join s) }.

Lemma read_ok_now d s :
  books_wf d -> payments d !! sn_pid s = Some (sn_payment s) ->
  join_enrollment d (p_enrollmentId (sn_payment s)) = Some (sn_join s) -> read_ok d s.
Proof.
  intros W Hp Hj. split.
  - by apply (wf_pids _ W _ _ Hp).
  - intros p. rewrite Hp. intros [= <-]. apply stable_refl.
  - by apply (wf_pay _ W _ _ Hp).
  - by apply join_enrollment_some in Hj as [-> _].
Qed.

Lemma read_ok_evolves d d' s : evolves d d' -> read_ok d s -> read_ok d' s.
Proof.
  intros [E1 E2] [A B C D]. split; [lia | | done | done].
  intros p Hp. destruct (E1 _ _ Hp A) as (q & Hq & S). eauto using stable_trans.
Qed.

(** ** One commit *)

(** What a commit does to the books: rewrite one payment and its plan, or only
    the plan, or add a payment, or nothing. *)
Definition good (strict : bool) (d d' : DB) : Prop :=
  books_wf d' /\ evolves d d' /\ (strict = true -> backed d -> backed d').

Lemma good_refl strict d : books_wf d -> good strict d d.
Proof. intros W. split; [done|]. split; [apply evolves_refl | done]. Qed.

(** A transaction either leaves the database alone or ran to the end. *)
Lemma transaction_inv {A} (m : M A) w r w' :
  transaction (m;; mret tt) w = (r, w') ->
  db w' = db w \/ exists a, m w = (Ok a, w').
Proof.
  unfold transaction, mbind, M_bind. destruct (m w) as [[a|e] w1].
  - intros [= _ <-]. eauto.
  - intros [= _ <-]. by left.
Qed.

(** A snapshot's row as it is now. *)
Lemma row_now d s p :
  books_wf d -> read_ok d s -> payments d !! sn_pid s = Some p ->
  pay_ok p /\ stable (sn_payment s) p /\ p_enrollmentId p = j_eid (sn_join s) /\
  p_enrollmentId p = p_enrollmentId (sn_payment s).
Proof.
  intros W R Hp. pose proof (ro_row _ _ R _ Hp) as S. split; [by apply (wf_pay _ W _ _ Hp)|].
  split; [done|]. rewrite (st_enrollment _ _ S), (ro_plan _ _ R). done.
Qed.

(** Find the row a transaction wants and its guard; in every other case the
    transaction changed nothing.  The plan is there, a foreign key. *)
Ltac unchanged H := first [done | injection H as <- <-; first [by apply good_refl | by left]].
Ltac find_rows H guard conflict :=
  match goal with
  | W : books_wf (db ?w), R : read_ok (db ?w) ?s |- _ =>
    let p := fresh "p" in let e := fresh "e" in
    let Po := fresh "Po" in let S := fresh "S" in let Hj := fresh "Hj" in let Hpe := fresh "Hpe" in
    let Hp := fresh "Hp" in let Hc := fresh "Hc" in let He := fresh "He" in
    destruct (payments (db w) !! sn_pid s) as [p|] eqn:Hp;
      [|rewrite conflict in H by congruence; unchanged H];
    destruct (guard p) eqn:Hc; [|rewrite conflict in H by (intros; congruence); unchanged H];
    destruct (row_now (db w) s p W R Hp) as (Po & S & Hj & Hpe);
    destruct (proj2 (wf_pids _ W _ _ Hp)) as [e He]; rewrite Hpe in He
  end.

(** The amounts a transaction credits are the ones it read. *)
Lemma amounts_now s p :
  stable (sn_payment s) p -> p_paymentType p <> MIGRATED_PAYMENT ->
  p_amountPaid p = p_amountPaid (sn_payment s) /\ p_schoolAmount p = p_schoolAmount (sn_payment s).
Proof. intros S H. apply (st_amounts _ _ S). by rewrite <- (st_type _ _ S). Qed.

Lemma credit_of eid p : p_enrollmentId p = eid -> credit eid p = if p_isConfirmed p then p_schoolAmount p else 0.
Proof. intros <-. unfold credit. by rewrite bool_decide_eq_true_2. Qed.

Section commits.
Context (strict : bool) (w : World) (W : books_wf (db w)).

Lemma good_rewrite w' pid p p' eid e e' :
  payments (db w') = <[pid := p']> (payments (db w)) ->
  enrollments (db w') = <[eid := e']> (enrollments (db w)) ->
  next_id (db w') = next_id (db w) ->
  payments (db w) !! pid = Some p -> enrollments (db w) !! eid = Some e -> p_enrollmentId p = eid ->
  stable p p' -> pay_ok p' -> plan_ok e' ->
  (strict = true -> books_wf (db w') ->
     e_totalSchoolFee e' - e_remainingBalance e' <=
       e_totalSchoolFee e - e_remainingBalance e - credit eid p + credit eid p' \/
     e_totalSchoolFee e' - e_remainingBalance e' <= credited eid (db w')) ->
  good strict (db w) (db w').
Proof.
  intros H1 H2 Hn Hp He Hpe Hs Hpo Hpl Hd.
  assert (books_wf (db w')) as W' by (eapply moves_wf; eauto).
  split; [done|]. split; [by eapply moves_evolves|]. intros E Hb.
  eapply moves_backed; eauto.
Qed.

Lemma good_moves w' pid p p' eid e e' a :
  moves w w' pid p' eid e' a -> payments (db w) !! pid = Some p ->
  enrollments (db w) !! eid = Some e -> p_enrollmentId p = eid ->
  stable p p' -> pay_ok p' -> plan_ok e' ->
  (strict = true -> books_wf (db w') ->
     e_totalSchoolFee e' - e_remainingBalance e' <=
       e_totalSchoolFee e - e_remainingBalance e - credit eid p + credit eid p' \/
     e_totalSchoolFee e' - e_remainingBalance e' <= credited eid (db w')) ->
  good strict (db w) (db w').
Proof. intros [H1 H2 _ (_ & _ & _ & _ & _ & _ & _ & _ & Hn)]. by apply good_rewrite. Qed.

(** Only the status of a plan, to one the row invariant says nothing about. *)
Lemma good_status w' eid e st :
  payments (db w') = payments (db w) ->
  enrollments (db w') = <[eid := set_e_paymentStatus st e]> (enrollments (db w)) ->
  next_id (db w') = next_id (db w) -> enrollments (db w) !! eid = Some e ->
  st <> COMPLETED -> st <> ACTIVE -> good strict (db w) (db w').
Proof.
  intros H1 H2 Hn He N1 N2. destruct W as [W1 W2 W3 W4]. split; [|split].
  - split; rewrite ?H1, ?H2, ?Hn; [done | | | ].
    + intros i q [[_ <-]|[_ Hq]]%lookup_insert_Some; [apply plan_status|]; eauto.
    + intros i q Hq. destruct (W3 _ _ Hq) as [A B]. split; [done|]. rewrite lookup_insert_is_Some'. by right.
    + intros i q [[<- _]|[_ Hq]]%lookup_insert_Some; eauto.
  - split; [|rewrite Hn; lia]. intros i q Hq _. rewrite H1 in Hq. eauto using stable_refl.
  - intros _ Hb i q. unfold credited. rewrite H1, H2.
    intros [[<- <-]|[_ Hq]]%lookup_insert_Some; [apply (Hb _ _ He) | by apply Hb].
Qed.

Lemma commit_confirm s schoolId actor now r w' :
  read_ok (db w) s ->
  transaction (body (OConfirm s schoolId actor now)) w = (r, w') -> good strict (db w) (db w').
Proof.
  intros R [->|[x H]]%transaction_inv; [by apply good_refl|].
  find_rows H (confirm_cond schoolId) confirmPayment_tx_conflict.
  destruct (confirmPayment_tx_ok s w schoolId actor now p e Hp Hc He) as (w1 & H1 & Hm).
  rewrite H1 in H. injection H as <- <-.
  unfold confirm_cond, is_installment in Hc. to_prop. destruct Hc as [[Hu Ht] _].
  destruct (amounts_now s p S ltac:(congruence)) as [Ea Es].
  destruct (po_installment _ Po Ht) as [Hpos Heq].
  eapply good_moves; [exact Hm | exact Hp | exact He | done | by apply stable_of | | | ].
  - by eapply pay_ok_status; [exact Po | apply stable_of | ..].
  - apply plan_debit; [by apply (wf_plan _ W _ _ He) | lia].
  - intros _ _. left. rewrite !credit_of by done. cbn. rewrite Hu.
    unfold debit_installment. destruct (_ <=? 0) eqn:E; cbn; to_prop; lia.
Qed.

Lemma commit_reject s schoolId actor r w' :
  read_ok (db w) s ->
  transaction (body (OReject s schoolId actor)) w = (r, w') -> good strict (db w) (db w').
Proof.
  intros R [->|[x H]]%transaction_inv; [by apply good_refl|].
  find_rows H (reject_cond schoolId) rejectPayment_tx_conflict.
  destruct (rejectPayment_tx_ok s w schoolId actor p e Hp Hc He) as (w1 & H1 & Hm).
  rewrite H1 in H. injection H as <- <-. pose proof (wf_plan _ W _ _ He) as Pe.
  assert (p_isConfirmed p = false) as Hu by (unfold reject_cond in Hc; to_prop; tauto).
  eapply good_moves; [exact Hm | exact Hp | exact He | done | by apply stable_of | | | ].
  - eapply pay_ok_status; [exact Po | by apply stable_of | done | done |]. cbn. rewrite Hu. done.
  - destruct (is_first _); [by apply plan_status | done].
  - intros _ _. left. rewrite !credit_of by done. cbn. rewrite Hu. destruct (is_first _); cbn; lia.
Qed.

Lemma commit_reverse s schoolId actor reason r w' :
  read_ok (db w) s ->
  transaction (body (OReverse s schoolId actor reason)) w = (r, w') -> good strict (db w) (db w').
Proof.
  intros R [->|[x H]]%transaction_inv; [by apply good_refl|].
  find_rows H (reverse_cond schoolId) reversePayment_tx_conflict.
  destruct (reversePayment_tx_ok s w schoolId actor reason p e Hp Hc He) as (w1 & H1 & Hm).
  rewrite H1 in H. injection H as <- <-. pose proof (wf_plan _ W _ _ He) as Pe.
  unfold reverse_cond, is_installment in Hc. to_prop. destruct Hc as [[[Hu _] Ht] _].
  destruct (amounts_now s p S ltac:(congruence)) as [Ea Es].
  destruct (po_installment _ Po Ht) as [Hpos Heq].
  eapply good_moves; [exact Hm | exact Hp | exact He | done | by apply stable_of | | | ].
  - by eapply pay_ok_status; [exact Po | apply stable_of | ..].
  - apply plan_restore; [done | lia].
  - intros _ W'. rewrite !credit_of by done. cbn. rewrite Hu. pose proof (eo_balance _ Pe).
    pose proof (credited_nonneg (p_enrollmentId (sn_payment s)) _ W'). lia.
Qed.

(** Crediting a first payment that was not confirmed before. *)
Lemma good_credit_first w' pid p p' e a amount :
  moves w w' pid p' (p_enrollmentId p) (credit_first amount e) a ->
  payments (db w) !! pid = Some p -> enrollments (db w) !! p_enrollmentId p = Some e ->
  p_isConfirmed p = false -> p_isConfirmed p' = true -> p_status p' = TX_SUCCESS ->
  stable p p' -> p_amountPaid p' = p_amountPaid p -> p_schoolAmount p' = p_schoolAmount p ->
  p_schoolAmount p = amount -> good strict (db w) (db w').
Proof.
  intros Hm Hp He Hu Hu' Hs' S Ea Es E. pose proof (wf_plan _ W _ _ He) as Pe.
  pose proof (wf_pay _ W _ _ Hp) as Po. pose proof (po_nonneg _ Po).
  eapply good_moves; [exact Hm | exact Hp | exact He | done | done | | | ].
  - by eapply pay_ok_status.
  - apply plan_credit; [done | lia].
  - intros _ _. left. rewrite !credit_of by (by rewrite ?(st_enrollment _ _ S)). rewrite Hu, Hu'.
    unfold credit_first. cbn. lia.
Qed.

Lemma commit_settle s actor r w' :
  read_ok (db w) s -> settle_cond (sn_payment s) = true ->
  transaction (body (OSettle s actor)) w = (r, w') -> good strict (db w) (db w').
Proof.
  intros R Hck [->|[x H]]%transaction_inv; [by apply good_refl|].
  find_rows H unconfirmed settleFirstPayment_tx_conflict.
  destruct (settleFirstPayment_tx_ok s w actor p e Hp Hc He) as (n & w1 & H1 & Hm).
  rewrite H1 in H. injection H as <- <-.
  assert (p_paymentType p <> MIGRATED_PAYMENT) as Ht.
  { rewrite (st_type _ _ S). unfold settle_cond, is_first in Hck. to_prop. intuition congruence. }
  destruct (amounts_now s p S Ht) as [Ea Es]. unfold unconfirmed in Hc. to_prop. rewrite <- Hpe in Hm, He.
  by eapply good_credit_first; [exact Hm | exact Hp | exact He | | | | apply stable_of | ..].
Qed.

Lemma commit_rejectFirst s actor r w' :
  read_ok (db w) s ->
  transaction (body (ORejectFirst s actor)) w = (r, w') -> good strict (db w) (db w').
Proof.
  intros R [->|[x H]]%transaction_inv; [by apply good_refl|].
  find_rows H unconfirmed rejectFirstPayment_tx_conflict.
  destruct (rejectFirstPayment_tx_ok s w actor p e Hp Hc He) as (n & w1 & H1 & Hm).
  rewrite H1 in H. injection H as <- <-. pose proof (wf_plan _ W _ _ He) as Pe.
  unfold unconfirmed in Hc. to_prop.
  eapply good_moves; [exact Hm | exact Hp | exact He | done | by apply stable_of | | | ].
  - eapply pay_ok_status; [exact Po | by apply stable_of | done | done |]. cbn. rewrite Hc. done.
  - by apply plan_status.
  - intros _ _. left. rewrite !credit_of by done. cbn. rewrite Hc. lia.
Qed.

Lemma commit_reconcile s reference fee actor now r w' :
  read_ok (db w) s -> by_reference reference (sn_payment s) = true ->
  transaction (body (OReconcile s reference fee actor now)) w = (r, w') -> good strict (db w) (db w').
Proof.
  intros R Href [->|[x H]]%transaction_inv; [by apply good_refl|].
  find_rows H (has_status TX_PENDING) reconcilePaystackPayment_tx_conflict.
  rewrite (ro_plan _ _ R) in He.
  destruct (reconcilePaystackPayment_tx_ok s w reference fee actor now p e Hp Hc He) as (w1 & H1 & Hm).
  rewrite H1 in H. injection H as <- <-.
  apply bool_decide_eq_true in Href.
  assert (p_paymentType p = FIRST_PAYMENT) as Ht.
  { apply (po_reference _ Po). rewrite (st_reference _ _ S), Href. eauto. }
  destruct (amounts_now s p S ltac:(congruence)) as [Ea Es]. rewrite <- Hj in Hm, He.
  eapply good_credit_first; [exact Hm | exact Hp | exact He | | done | done | by apply stable_of | done | done | done].
  unfold has_status in Hc. to_prop. destruct (p_isConfirmed p) eqn:Ec; [|done].
  apply (po_confirmed _ Po) in Ec. congruence.
Qed.

Lemma commit_fail s r w' :
  read_ok (db w) s ->
  transaction (body (OFail s)) w = (r, w') -> good strict (db w) (db w').
Proof.
  intros R [->|[x H]]%transaction_inv; [by apply good_refl|].
  find_rows H (has_status TX_PENDING) failPaystackPayment_tx_conflict.
  rewrite (failPaystackPayment_tx_ok s w p e Hp Hc He) in H. injection H as <- <-.
  pose proof (wf_plan _ W _ _ He) as Pe.
  assert (p_isConfirmed p = false) as Hu.
  { unfold has_status in Hc. to_prop. destruct (p_isConfirmed p) eqn:Ec; [|done].
    apply (po_confirmed _ Po) in Ec. congruence. }
  eapply good_rewrite; [reflexivity | reflexivity | reflexivity | exact Hp | exact He | done | by apply stable_of | | | ].
  - eapply pay_ok_status; [exact Po | by apply stable_of | done | done |]. cbn. rewrite Hu. done.
  - by apply plan_status.
  - intros _ _. left. rewrite !credit_of by done. cbn. rewrite Hu. lia.
Qed.

Lemma commit_dispute s reference eventType r w' :
  read_ok (db w) s -> timely strict (ODispute s reference eventType) (db w) ->
  transaction (body (ODispute s reference eventType)) w = (r, w') -> good strict (db w) (db w').
Proof.
  intros R [Ht Hst] [->|[x H]]%transaction_inv; [by apply good_refl|].
  find_rows H (has_status TX_SUCCESS) reversePaystackPaymentByDispute_tx_conflict.
  rewrite (ro_plan _ _ R) in He. specialize (Ht _ He).
  destruct (reversePaystackPaymentByDispute_tx_ok s w reference eventType p e Hp Hc He) as (n & w1 & H1 & Hm).
  rewrite H1 in H. injection H as <- <-. pose proof (wf_plan _ W _ _ He) as [[B1 B2] B3 B4].
  eapply good_moves; [exact Hm | exact Hp | exact He | done | by apply stable_of | | | ].
  - by eapply pay_ok_status; [exact Po | apply stable_of | ..].
  - unfold disputed_plan. destruct (_ || _); split; cbn; try done; lia.
  - intros E W'. right. transitivity 0; [|by apply credited_nonneg]. unfold disputed_plan. destruct (Hst E) as [-> | ->];
      [rewrite (bool_decide_eq_true_2 (ACTIVE = ACTIVE)) by done
      |rewrite (bool_decide_eq_true_2 (COMPLETED = COMPLETED)), orb_true_r by done]; cbn; lia.
Qed.

Lemma commit_confirmFirst eid schoolId actor now r w' :
  transaction (body (OConfirmFirst eid schoolId actor now)) w = (r, w') -> good strict (db w) (db w').
Proof.
  intros [->|[x H]]%transaction_inv; [by apply good_refl|].
  destruct (confirmFirstPayment_tx_run _ _ _ _ _ _ _ H) as (pid & p & e & a & Hp & Hc & He & Hm).
  unfold manual_first_cond in Hc. to_prop. destruct Hc as [[[Hpe Hf] Hu] _]. subst eid.
  by eapply good_credit_first; [exact Hm | exact Hp | exact He | | | | apply stable_of | ..].
Qed.

Lemma commit_default j schoolId actor r w' :
  transaction (body (ODefault j schoolId actor)) w = (r, w') -> good strict (db w) (db w').
Proof.
  intros [->|[x H]]%transaction_inv; [by apply good_refl|].
  unfold markEnrollmentAsDefaulted_tx in H. run_step H.
  eapply good_status; [reflexivity | reflexivity | reflexivity | exact He | done | done].
Qed.

Lemma commit_sweep j r w' :
  transaction (body (OSweep j)) w = (r, w') -> good strict (db w) (db w').
Proof.
  intros [->|[x H]]%transaction_inv; [by apply good_refl|].
  unfold markEnrollmentDefaultedBySweep_tx in H.
  apply bind_run in H as (n & w1 & [[-> ->]|(-> & e & He & _ & ->)]%updateManyEnrollment_run & H).
  - cbn in H. run_step H. by apply good_refl.
  - cbn in H. run_step H. eapply good_status; [reflexivity | reflexivity | reflexivity | exact He | done | done].
Qed.

Lemma commit_amend s new schoolId actor reason r w' :
  read_ok (db w) s -> 0 <= new -> migrated_success (j_eid (sn_join s)) (sn_payment s) = true ->
  transaction (body (OAmend s new schoolId actor reason)) w = (r, w') -> good strict (db w) (db w').
Proof.
  intros R Hn0 Hms [->|[x H]]%transaction_inv; [by apply good_refl|].
  destruct (amendMigratedPayment_tx_inv _ _ _ _ _ _ _ _ _ _ H) as (e & p & He & Hp & Hn & Hc).
  destruct (amendMigratedPayment_tx_run _ _ _ _ schoolId actor reason w e p He Hp Hn Hc)
    as (w1 & H1 & Hpay & Henr & _ & _ & Hnx).
  rewrite H1 in H. injection H as <- <-.
  destruct (row_now (db w) s p W R Hp) as (Po & S & Hj & Hpe). pose proof (wf_plan _ W _ _ He) as Pe.
  assert (p_paymentType p = MIGRATED_PAYMENT /\ p_status p = TX_SUCCESS) as [Ht Hst].
  { unfold amend_cond, has_status in Hc. to_prop. tauto. }
  pose proof (installments_nonneg (j_eid (sn_join s)) (db w) W) as Hi.
  eapply good_rewrite; [exact Hpay | exact Henr | exact Hnx | exact Hp | exact He | done | | | | ].
  - split; cbn; try done.
  - destruct Po as [P1 P2 P3 P4 P5]. split; cbn; try done; congruence.
  - destruct Pe as [B1 B2 B3]. unfold restated_plan, statusAfterMigratedAmendment. split; cbn -[Z.sub].
    + lia.
    + destruct (_ <=? 0) eqn:E; [to_prop; lia|]. case_bool_decide; [done|]. intros Hs. done.
    + destruct (_ <=? 0) eqn:E; [done|]. to_prop. intros _. right. lia.
  - intros _ W'. right. cbn -[Z.sub].
    pose proof (credited_bound (j_eid (sn_join s)) (db w1) (sn_pid s) (restated_row new p) W') as Hb.
    rewrite <- (installments_restated (j_eid (sn_join s)) (db w) (sn_pid s) p new Hp Ht).
    rewrite <- (installments_ext _ (db w1)
      (set_payments (<[sn_pid s := restated_row new p]> (payments (db w))) (db w))) by done.
    cbn [p_schoolAmount restated_row set_p_schoolAmount] in Hb. rewrite Hpay, lookup_insert_eq in Hb.
    specialize (Hb eq_refl Hj Ht (proj2 (po_confirmed _ Po) Hst)). lia.
Qed.

(** ** Commits that add or remove rows *)

Lemma good_new_payment w' p :
  payments (db w') = <[next_id (db w) := p]> (payments (db w)) ->
  enrollments (db w') = enrollments (db w) -> next_id (db w') = Pos.succ (next_id (db w)) ->
  pay_ok p -> p_isConfirmed p = false -> is_Some (enrollments (db w) !! p_enrollmentId p) ->
  good strict (db w) (db w').
Proof.
  intros H1 H2 Hn Hpo Hu Hfk. destruct W as [W1 W2 W3 W4].
  assert (payments (db w) !! next_id (db w) = None) as Hf.
  { destruct (payments (db w) !! next_id (db w)) eqn:E; [|done]. apply W3 in E as [? _]. lia. }
  split; [|split].
  - split; rewrite ?H1, ?H2, ?Hn; [ | done | | ].
    + intros i q [[_ <-]|[_ Hq]]%lookup_insert_Some; eauto.
    + intros i q [[<- <-]|[_ Hq]]%lookup_insert_Some; [split; [lia | done]|].
      apply W3 in Hq as [? ?]. split; [lia | done].
    + intros i e He. apply W4 in He. lia.
  - split; [|rewrite Hn; lia]. intros i q Hq Hi. rewrite H1 in Hq.
    apply lookup_insert_Some in Hq as [[<- _]|[_ Hq]]; [lia|]. eauto using stable_refl.
  - intros _ Hb i e. rewrite H2. intros He. specialize (Hb _ _ He). unfold credited in *.
    rewrite H1, total_new by done. unfold credit at 1. rewrite Hu, andb_false_r. lia.
Qed.

(** A plan that is new, or written afresh, owing its whole fee. *)
Lemma good_open_plan w' eid e :
  payments (db w') = payments (db w) ->
  enrollments (db w') = <[eid := e]> (enrollments (db w)) ->
  (next_id (db w) <= next_id (db w'))%positive -> (eid < next_id (db w'))%positive ->
  plan_ok e -> e_remainingBalance e = e_totalSchoolFee e -> good strict (db w) (db w').
Proof.
  intros H1 H2 Hn Hid Hpl Hbal. pose proof W as [W1 W2 W3 W4].
  assert (books_wf (db w')) as W'.
  { split; rewrite ?H1, ?H2; [done | | | ].
    - intros i q [[_ <-]|[_ Hq]]%lookup_insert_Some; eauto.
    - intros i q Hq. apply W3 in Hq as [? ?]. split; [lia|]. rewrite lookup_insert_is_Some'. by right.
    - intros i q [[<- _]|[_ Hq]]%lookup_insert_Some; [done|]. apply W4 in Hq. lia. }
  split; [done|]. split; [split; [|lia]; rewrite H1; eauto using stable_refl|].
  intros _ Hb i q. rewrite H2. intros [[<- <-]|[_ Hq]]%lookup_insert_Some.
  - pose proof (credited_nonneg eid _ W'). lia.
  - unfold credited. rewrite H1. by apply Hb.
Qed.

(** A migrated plan appears with the confirmed payment that opened it. *)
Lemma good_record w' e p :
  let eid := next_id (db w) in
  enrollments (db w') = <[eid := e]> (enrollments (db w)) ->
  payments (db w') = <[Pos.succ eid := p]> (payments (db w)) ->
  next_id (db w') = Pos.succ (Pos.succ eid) ->
  plan_ok e -> pay_ok p -> p_enrollmentId p = eid -> p_isConfirmed p = true ->
  e_totalSchoolFee e - p_schoolAmount p <= e_remainingBalance e -> good strict (db w) (db w').
Proof.
  intros eid H2 H1 Hn Hpl Hpo Hpe Hc Hbal. pose proof W as [W1 W2 W3 W4].
  assert (forall i q, payments (db w) !! i = Some q -> credit eid q = 0) as Hz.
  { intros i q [_ [x Hx]]%W3. apply W4 in Hx. unfold credit. rewrite bool_decide_eq_false_2; [done|]. subst eid. lia. }
  assert (payments (db w) !! Pos.succ eid = None) as Hf.
  { destruct (payments (db w) !! Pos.succ eid) eqn:E; [|done]. apply W3 in E as [? _]. subst eid. lia. }
  split; [|split].
  - split; rewrite ?H1, ?H2, ?Hn.
    + intros i q [[_ <-]|[_ Hq]]%lookup_insert_Some; eauto.
    + intros i q [[_ <-]|[_ Hq]]%lookup_insert_Some; eauto.
    + intros i q [[<- <-]|[_ Hq]]%lookup_insert_Some.
      * split; [lia|]. rewrite Hpe, lookup_insert_eq. eauto.
      * apply W3 in Hq as [? ?]. split; [subst eid; lia|]. rewrite lookup_insert_is_Some'. by right.
    + intros i q [[<- _]|[_ Hq]]%lookup_insert_Some; [lia|]. apply W4 in Hq. subst eid. lia.
  - split; [|rewrite Hn; subst eid; lia]. intros i q Hq Hi. rewrite H1 in Hq.
    apply lookup_insert_Some in Hq as [[<- _]|[_ Hq]]; [subst eid; lia|]. eauto using stable_refl.
  - intros _ Hb i q. unfold credited. rewrite H1, H2, total_new by done.
    intros [[<- <-]|[Hne Hq]]%lookup_insert_Some.
    + rewrite (credit_of eid p Hpe), Hc.
      rewrite (total_ext _ (fun _ => 0) _ Hz).
      assert (0 <= total (fun _ => 0) (payments (db w))) by (by apply total_nonneg). lia.
    + specialize (Hb _ _ Hq). unfold credited in Hb. unfold credit at 1. rewrite Hpe, bool_decide_eq_false_2 by done.
      cbn. lia.
Qed.

(** A plan disappears with all its payments. *)
Lemma good_remove w' eid :
  enrollments (db w') = delete eid (enrollments (db w)) ->
  payments (db w') = filter (fun kv : id * Payment => p_enrollmentId kv.2 <> eid) (payments (db w)) ->
  next_id (db w') = next_id (db w) -> good strict (db w) (db w').
Proof.
  intros H2 H1 Hn. pose proof W as [W1 W2 W3 W4]. split; [|split].
  - split; rewrite ?H1, ?H2, ?Hn.
    + intros i q [Hq _]%map_lookup_filter_Some. eauto.
    + intros i q [_ Hq]%lookup_delete_Some. eauto.
    + intros i q [Hq Hne]%map_lookup_filter_Some. apply W3 in Hq as [? ?]. split; [done|].
      cbn in Hne. by rewrite lookup_delete_ne.
    + intros i q [_ Hq]%lookup_delete_Some. eauto.
  - split; [|rewrite Hn; lia]. intros i q Hq _. rewrite H1 in Hq.
    apply map_lookup_filter_Some in Hq as [Hq _]. eauto using stable_refl.
  - intros _ Hb i q. unfold credited. rewrite H1, H2. intros [Hne Hq]%lookup_delete_Some.
    rewrite total_filter; [by apply Hb|]. intros j x Hx Hn'. cbn in Hn'.
    unfold credit. rewrite bool_decide_eq_false_2; [done|]. intros E. apply Hn'. congruence.
Qed.
End commits.

(** ** Opening, submitting, recording, releasing *)

Lemma good_trans strict d1 d2 d3 : good strict d1 d2 -> good strict d2 d3 -> good strict d1 d3.
Proof.
  intros (A1 & A2 & A3) (B1 & B2 & B3). split; [done|]. split; [by eapply evolves_trans|]. auto.
Qed.

Lemma plan_ok_opened dto calc k childId schoolId inv now :
  0 < d_schoolFees calc -> plan_ok (enrollmentData dto calc k childId schoolId inv now).
Proof. intros H. split; cbn; [lia | done | done]. Qed.

Lemma openEnrollment_good strict dto calc k childId reuse now w eid w1 :
  books_wf (db w) -> 0 < d_schoolFees calc ->
  openEnrollment dto calc k childId reuse now w = (Ok eid, w1) ->
  good strict (db w) (db w1) /\ is_Some (enrollments (db w1) !! eid).
Proof.
  intros W Hfee H. destruct reuse as [old|]; cbn in H.
  - run_step H. split; [|cbn -[lookup insert]; rewrite lookup_insert_eq; eauto].
    pose proof (wf_eids _ W _ _ He).
    eapply good_open_plan; [done | reflexivity | reflexivity | cbn; lia | done | by apply plan_ok_opened | done].
  - rewrite createEnrollment_eq in H. destruct (invite_taken _ _); [done|].
    destruct (child_enrolled _ _); [done|]. injection H as <- <-.
    split; [|cbn -[lookup insert]; rewrite lookup_insert_eq; eauto].
    eapply good_open_plan; [done | reflexivity | reflexivity | cbn; lia | cbn; lia | by apply plan_ok_opened | done].
Qed.

Lemma createPayment_good strict p w pid w1 :
  books_wf (db w) -> createPayment p w = (Ok pid, w1) -> pay_ok p -> p_isConfirmed p = false ->
  is_Some (enrollments (db w) !! p_enrollmentId p) -> good strict (db w) (db w1).
Proof.
  intros W H Hpo Hu Hfk. rewrite createPayment_eq in H. destruct (key_taken _ _); [done|].
  destruct (reference_taken _ _); [done|]. injection H as _ <-.
  by eapply good_new_payment.
Qed.

Lemma commit_enroll strict w env dto fee deposit calc childId retry r w' :
  books_wf (db w) -> calculateInitialPayment fee deposit = Ok calc ->
  transaction (body (OEnroll env dto fee deposit calc childId retry)) w = (r, w') ->
  good strict (db w) (db w').
Proof.
  intros W [Hfee Hsh]%accepted_deposit [->|[x H]]%transaction_inv; [by apply good_refl|].
  apply bind_run in H as (eid & w1 & [G1 Hfk]%(openEnrollment_good strict) & H); [|done|done].
  apply bind_run in H as (pid & w2 & H2 & H).
  eapply (createPayment_good strict) in H2; [|apply G1 | split; cbn; done || lia | done | done].
  run_step H. by eapply good_trans.
Qed.

Lemma commit_initiate strict w env dto fee deposit calc g reference childId reuse r w' :
  books_wf (db w) -> calculateInitialPayment fee deposit = Ok calc ->
  transaction (body (OInitiate env dto fee deposit calc g reference childId reuse)) w = (r, w') ->
  good strict (db w) (db w').
Proof.
  intros W [Hfee Hsh]%accepted_deposit [->|[x H]]%transaction_inv; [by apply good_refl|].
  apply bind_run in H as (eid & w1 & [G1 Hfk]%(openEnrollment_good strict) & H); [|done|done].
  apply bind_run in H as (pid & w2 & H2 & H).
  eapply (createPayment_good strict) in H2; [|apply G1 | split; cbn; done || lia | done | done].
  run_step H. by eapply good_trans.
Qed.

Lemma commit_submit strict w eid schoolId k rcpt key now r w' :
  books_wf (db w) -> 0 < k ->
  transaction (body (OSubmit eid schoolId k rcpt key now)) w = (r, w') -> good strict (db w) (db w').
Proof.
  intros W Hk [->|[x H]]%transaction_inv; [by apply good_refl|].
  apply submit_tx_run in H as (-> & _ & H1 & H2 & Hn & Hfk & _).
  eapply good_new_payment; [done | exact H1 | done | done | | done | done].
  split; cbn; try done; try lia.
Qed.

Lemma commit_record strict w inviteId invite childId parentUserId actor now r w' :
  books_wf (db w) -> 0 <= i_amountAlreadyPaid invite <= i_totalSchoolFee invite ->
  transaction (body (ORecord inviteId invite childId parentUserId actor now)) w = (r, w') ->
  good strict (db w) (db w').
Proof.
  intros W Hi [->|[x H]]%transaction_inv; [by apply good_refl|].
  apply recordMigratedEnrollment_run in H as (H1 & H2 & Hn).
  assert (mf_remainingBalance (deriveMigratedPlan (i_totalSchoolFee invite) (i_amountAlreadyPaid invite)) =
    i_totalSchoolFee invite - i_amountAlreadyPaid invite) as Hb.
  { unfold deriveMigratedPlan, Money.subtract, Money.of_int, Money.toKobo. cbn -[Z.max Z.sub]. lia. }
  eapply good_record; [done | exact H1 | exact H2 | exact Hn | | | done | done | ].
  - split; cbn -[deriveMigratedPlan]; rewrite Hb; [lia | |];
      unfold deriveMigratedPlan, Money.subtract, Money.of_int, Money.toKobo; cbn -[Z.max Z.sub];
      destruct (_ =? 0) eqn:E; to_prop; try done; lia.
  - split; cbn; try done; try lia.
  - cbn -[deriveMigratedPlan]. lia.
Qed.

Lemma commit_release strict w eid childId inviteId schoolId actor reason r w' :
  books_wf (db w) ->
  transaction (body (ORelease eid childId inviteId schoolId actor reason)) w = (r, w') ->
  good strict (db w) (db w').
Proof.
  intros W [->|[x H]]%transaction_inv; [by apply good_refl|].
  unfold releaseMigratedEnrollment in H. run_step H.
  by eapply good_remove.
Qed.

(** ** Every reachable state *)

Lemma commit_good strict w o r w' :
  books_wf (db w) -> (forall s, read_of o = Some s -> read_ok (db w) s) -> checked o ->
  timely strict o (db w) -> transaction (body o) w = (r, w') -> good strict (db w) (db w').
Proof.
  intros W Hr Hc Ht. destruct o; cbn in Hr, Hc; try (specialize (Hr _ eq_refl)).
  - by apply commit_confirm.
  - by apply commit_reject.
  - by apply commit_reverse.
  - by apply commit_settle.
  - by apply commit_rejectFirst.
  - destruct Hc. by apply commit_reconcile.
  - by apply commit_fail.
  - by apply commit_dispute.
  - by apply commit_confirmFirst.
  - by apply commit_default.
  - by apply commit_sweep.
  - destruct Hc. by apply commit_amend.
  - by apply commit_submit.
  - by eapply commit_enroll.
  - by eapply commit_initiate.
  - by apply commit_record.
  - by apply commit_release.
Qed.

Definition state_ok (strict : bool) (st : State) : Prop :=
  books_wf (db (st_world st)) /\ Forall (read_ok (db (st_world st))) (st_reads st).

Lemma step_ok strict a b :
  step strict a b -> state_ok strict a ->
  state_ok strict b /\ good strict (db (st_world a)) (db (st_world b)).
Proof.
  intros [w rs s Hp Hj | w rs o w' r Hrs Hc Ht Hx] [W Hr]; cbn in *.
  - split; [|by apply good_refl]. split; [done|]. constructor; [by apply read_ok_now | done].
  - assert (good strict (db w) (db w')) as G.
    { eapply commit_good; eauto. intros s Hs. apply (proj1 (list.Forall_forall _ _) Hr). auto. }
    split; [|done]. destruct G as (W' & Ev & _). split; [done|]. cbn.
    eapply Forall_impl; [|exact Hr]. intros s. by apply read_ok_evolves.
Qed.

Lemma reachable_ok strict w0 st :
  books_wf (db w0) -> reachable strict w0 st ->
  state_ok strict st /\ (strict = true -> backed (db w0) -> backed (db (st_world st))).
Proof.
  intros W0 H. induction H as [|a b H [IH1 IH2] Hs].
  - split; [|done]. split; [done | constructor].
  - destruct (step_ok _ _ _ Hs IH1) as [Hb (_ & _ & G)]. split; [done|]. auto.
Qed.

(** C3: in every state reachable by any interleaving of reads and transactions
    (confirmations, rejections, reversals, settlements, card reconciliations,
    failures and disputes, defaults, corrections, submissions, new plans,
    migrated plans and their release), each running from a read that may be
    arbitrarily old (a dispute's read need only still show the plan's fee): every
    balance lies between zero and the school fee, a COMPLETED plan owes nothing,
    an ACTIVE plan owes something unless its fee is zero, and a payment is
    confirmed exactly when it succeeded. *)
Theorem books_well_formed w0 st :
  books_wf (db w0) -> reachable false w0 st ->
  (forall i e, enrollments (db (st_world st)) !! i = Some e ->
    0 <= e_remainingBalance e <= e_totalSchoolFee e /\
    (e_paymentStatus e = COMPLETED -> e_remainingBalance e = 0) /\
    (e_paymentStatus e = ACTIVE -> e_totalSchoolFee e = 0 \/ 0 < e_remainingBalance e)) /\
  (forall k p, payments (db (st_world st)) !! k = Some p ->
    (p_isConfirmed p = true <-> p_status p = TX_SUCCESS)).
Proof.
  intros W0 H. destruct (reachable_ok _ _ _ W0 H) as [[W _] _]. split.
  - intros i e He. by destruct (wf_plan _ W _ _ He).
  - intros k p Hp. apply (po_confirmed _ (wf_pay _ W _ _ Hp)).
Qed.

(** C1: no money is forgiven: in every state reachable by interleaving reads and
    transactions, each transaction running from a read that may be arbitrarily
    old, a plan owes at least its school fee less the school's share of its
    confirmed payments, so no payment is credited twice and no withdrawn payment
    keeps its credit.  Two conditions, on the disputes only: the plan a dispute
    had read was ACTIVE or COMPLETED, and the school fee it had read is still the
    plan's fee when the dispute commits (a plan opened afresh in between, at
    another fee, would be restored to the old one). *)
Theorem nothing_forgiven w0 st :
  books_wf (db w0) -> backed (db w0) -> reachable true w0 st ->
  forall i e, enrollments (db (st_world st)) !! i = Some e ->
    e_totalSchoolFee e <= e_remainingBalance e + credited i (db (st_world st)).
Proof.
  intros W0 B0 H i e He. destruct (reachable_ok _ _ _ W0 H) as [_ Hb].
  pose proof (Hb eq_refl B0 i e He). lia.
Qed.

(** ** Witnesses *)

(** The card payment in flight and its plan, alone. *)
Definition sample_books : World :=
  mkWorld (set_payments {[ 6%positive := sample_card ]}
    (set_enrollments {[ 9%positive := sample_pending_plan ]} sample_db)) [].

Lemma sample_wf : books_wf (db sample_books).
Proof.
  split; cbn -[lookup].
  - intros i p [_ <-]%lookup_singleton_Some; split; cbn; try done; lia.
  - intros i e [_ <-]%lookup_singleton_Some; split; cbn; try done; lia.
  - intros i p [<- <-]%lookup_singleton_Some; cbn. split; [lia | by eexists].
  - intros i e [<- _]%lookup_singleton_Some; cbn; lia.
Qed.

Lemma sample_backed : backed (db sample_books).
Proof.
  intros i e He. pose proof (credited_nonneg i _ sample_wf). cbn -[lookup] in He.
  apply lookup_singleton_Some in He as [_ <-]. cbn [sample_pending_plan e_totalSchoolFee e_remainingBalance]. lia.
Qed.

(** The webhook's charge is read, and then reconciled. *)
Definition sample_reconcile : op := OReconcile (sample_card_snapshot sample_card) "lopay_1" (Some 52000) None 5.
Definition sample_reconciled : World := snd (transaction (body sample_reconcile) sample_books).
Lemma sample_path strict :
  reachable strict sample_books (mkState sample_reconciled [sample_card_snapshot sample_card]).
Proof.
  eapply reach_step; [eapply reach_step; [apply reach_start|]|].
  - by apply (step_read strict sample_books [] (sample_card_snapshot sample_card)).
  - eapply (step_commit strict sample_books _ sample_reconcile); [ | done | done | reflexivity].
    intros s [= <-]. apply list_elem_of_singleton. reflexivity.
Qed.

Definition sample_active_plan : ChildEnrollment :=
  set_e_paymentStatus ACTIVE (set_e_remainingBalance 7500000 sample_pending_plan).

Example books_well_formed_witness :
  0 <= e_remainingBalance sample_active_plan <= e_totalSchoolFee sample_active_plan.
Proof.
  apply (proj1 (books_well_formed sample_books _ sample_wf (sample_path false)) 9%positive sample_active_plan).
  vm_compute. reflexivity.
Defined.

Example nothing_forgiven_witness :
  e_totalSchoolFee sample_active_plan <= e_remainingBalance sample_active_plan +
    credited 9%positive (db sample_reconciled).
Proof.
  apply (nothing_forgiven sample_books _ sample_wf sample_backed (sample_path true) 9%positive sample_active_plan).
  vm_compute. reflexivity.
Defined.

(** ** The limit of the bound *)

(** A dispute that read its plan DEFAULTED (or PENDING, or FAILED) withdraws
    the payment but leaves the balance: the plan keeps the credit of money that
    was taken back, and what it owes falls below its fee less its confirmed
    money by exactly the disputed share. *)
Theorem dispute_of_defaulted_plan_keeps_credit reference eventType w s :
  books_wf (db w) -> findPaymentByReference reference (db w) = Some s ->
  p_status (sn_payment s) = TX_SUCCESS -> e_paymentStatus (j_enrollment (sn_join s)) = DEFAULTED ->
  let eid := p_enrollmentId (sn_payment s) in
  exists w', reversePaystackPaymentByDispute reference eventType w = (Ok true, w') /\
    enrollments (db w') = <[eid := set_e_paymentStatus FAILED (j_enrollment (sn_join s))]> (enrollments (db w)) /\
    credited eid (db w') = credited eid (db w) - p_schoolAmount (sn_payment s).
Proof.
  intros W E Hs Hd eid. apply findPaymentByReference_some in E as E'. destruct E' as (Hp & _ & Hj).
  apply join_enrollment_some in Hj as [Hid He].
  assert (has_status TX_SUCCESS (sn_payment s) = true) as Hc by (unfold has_status; by rewrite Hs).
  rewrite <- Hid in He.
  destruct (reversePaystackPaymentByDispute_tx_ok s w reference eventType _ _ Hp Hc He) as (n & w1 & H1 & Hm).
  pose proof (proj2 (po_confirmed _ (wf_pay _ W _ _ Hp)) Hs) as Hconf.
  unfold reversePaystackPaymentByDispute. exec. rewrite E.
  assert (has_status TX_FAILED (sn_payment s) || has_status TX_REVERSED (sn_payment s) = false) as ->
    by (unfold has_status; by rewrite Hs).
  exec. rewrite H1. eexists. split; [reflexivity|]. cbn [db].
  rewrite (mv_enrollments _ _ _ _ _ _ _ Hm). unfold disputed_plan. rewrite Hd. split; [by rewrite Hid|].
  unfold credited. rewrite (mv_payments _ _ _ _ _ _ _ Hm), (total_update _ _ _ _ _ Hp).
  rewrite !credit_of by done. rewrite Hconf. cbn. lia.
Qed.

Definition sample_defaulted : World :=
  mkWorld (set_payments {[ 6%positive := reconciled_row None 5 sample_card ]}
    (set_enrollments {[ 9%positive := set_e_paymentStatus DEFAULTED sample_active_plan ]} sample_db)) [].
Lemma sample_defaulted_wf : books_wf (db sample_defaulted).
Proof.
  split; cbn -[lookup].
  - intros i p [_ <-]%lookup_singleton_Some; split; cbn; try done; lia.
  - intros i e [_ <-]%lookup_singleton_Some; split; cbn; try done; lia.
  - intros i p [<- <-]%lookup_singleton_Some; cbn. split; [lia | by eexists].
  - intros i e [<- _]%lookup_singleton_Some; cbn; lia.
Qed.
Example dispute_of_defaulted_plan_keeps_credit_witness :
  exists w', reversePaystackPaymentByDispute "lopay_1" "charge.dispute.create" sample_defaulted = (Ok true, w') /\
    enrollments (db w') = <[9%positive := set_e_paymentStatus FAILED (set_e_paymentStatus DEFAULTED sample_active_plan)]>
      (enrollments (db sample_defaulted)) /\
    credited 9%positive (db w') = credited 9%positive (db sample_defaulted) - 2500000.
Proof.
  apply (dispute_of_defaulted_plan_keeps_credit "lopay_1" "charge.dispute.create" sample_defaulted
    (mkSnapshot 6%positive (reconciled_row None 5 sample_card) (mkJoined 9%positive
      (set_e_paymentStatus DEFAULTED sample_active_plan) sample_school
      (mkChild 2%positive "Obi" "JSS2") (mkParent 11%positive "08031111111"))));
    [exact sample_defaulted_wf | vm_compute; reflexivity | reflexivity | reflexivity].
Defined.
