(* ===== verification/Accounts.v ===== *)
(** * What the ledger promises: an account machine

    The ledger's contract, apart from tables, snapshots, tenants, audit rows and
    messages: accounts with a fee and what is owed on it, entries of money posted
    to them, and the moves that may change them.  The machine is executable and
    much smaller than the code; every transaction of [System], run from any stale
    read, is either refused or performs the moves it is meant to. *)

From S2P Require Import Prelude JsNumber Money Schedule Schema Effects Samples MigratedPlan PaymentCalc.
From S2P Require Import Ledger Books LedgerCard LedgerMigrated Enrollment.
From S2P Require Import LedgerSpecs LedgerCardSpecs LedgerMigratedSpecs EnrollmentSpecs Invariant System.

(** ** The machine *)

Record Account := mkAccount { ac_fee : Z; ac_owed : Z; ac_status : PaymentStatus }.
Record Entry := mkEntry { en_account : id; en_kind : PaymentType; en_share : Z; en_credited : bool }.
Record AccountBook := mkBook { accounts : gmap id Account; entries : gmap id Entry }.

Inductive move :=
| Confirm (pid : id)                       (* an installment is credited *)
| Collect (pid : id)                       (* a first payment is credited and opens the plan *)
| Withdraw (pid : id)                      (* a credited installment is taken back *)
| Chargeback (pid : id) (reopens : bool)   (* a credited payment is disputed away *)
| Refuse (pid : id) (fails : bool)         (* an uncredited payment is turned down *)
| Lapse (aid : id)                         (* the plan is declared in default *)
| Restate (pid : id) (share : Z)           (* the figure of a migrated plan is corrected *)
| Open (aid : id) (fee : Z)
| Post (pid aid : id) (kind : PaymentType) (share : Z)
| Import (aid pid : id) (fee share : Z)    (* a plan opened on money paid before *)
| Close (aid : id).

Definition owing (owed : Z) (otherwise : PaymentStatus) (a : Account) : Account :=
  mkAccount (ac_fee a) (Z.max 0 owed) (if owed <=? 0 then COMPLETED else otherwise).
Definition reopened (s : PaymentStatus) : PaymentStatus :=
  if bool_decide (s = COMPLETED) then ACTIVE else s.

Definition installments_credited (aid : id) (m : gmap id Entry) : Z :=
  sumZ ((fun kv : id * Entry => en_share kv.2) <$>
    filter (fun kv : id * Entry => en_account kv.2 = aid /\ en_kind kv.2 = INSTALLMENT /\ en_credited kv.2 = true)
      (map_to_list m)).

Definition rewrite_entry (pid : id) (allowed : Entry -> bool) (f : Entry -> Entry)
    (g : Entry -> Account -> option Account) (b : AccountBook) : option AccountBook :=
  match entries b !! pid with
  | Some en =>
      if allowed en then
        match accounts b !! en_account en with
        | Some a =>
            match g en a with
            | Some a' => Some (mkBook (<[en_account en := a']> (accounts b)) (<[pid := f en]> (entries b)))
            | None => None
            end
        | None => None
        end
      else None
  | None => None
  end.

Definition credited_as (c : bool) (en : Entry) : Entry :=
  mkEntry (en_account en) (en_kind en) (en_share en) c.
Definition of_kind (k : PaymentType) (en : Entry) : bool := bool_decide (en_kind en = k).
Definition fresh_entry (pid : id) (b : AccountBook) : bool := bool_decide (pid ∉ dom (entries b)).

Definition perform (m : move) (b : AccountBook) : option AccountBook :=
  match m with
  | Confirm pid =>
      rewrite_entry pid (fun en => of_kind INSTALLMENT en && negb (en_credited en)) (credited_as true)
        (fun en a => Some (owing (ac_owed a - en_share en) (ac_status a) a)) b
  | Collect pid =>
      rewrite_entry pid (fun en => of_kind FIRST_PAYMENT en && negb (en_credited en)) (credited_as true)
        (fun en a => Some (owing (ac_owed a - en_share en) ACTIVE a)) b
  | Withdraw pid =>
      rewrite_entry pid (fun en => of_kind INSTALLMENT en && en_credited en) (credited_as false)
        (fun en a => Some (mkAccount (ac_fee a) (Z.min (ac_fee a) (ac_owed a + en_share en))
          (reopened (ac_status a)))) b
  | Chargeback pid reopens =>
      rewrite_entry pid en_credited (credited_as false)
        (fun en a => Some (mkAccount (ac_fee a) (if reopens then ac_fee a else ac_owed a) FAILED)) b
  | Refuse pid fails =>
      rewrite_entry pid (fun en => negb (en_credited en)) (credited_as false)
        (fun en a => Some (mkAccount (ac_fee a) (ac_owed a) (if fails then FAILED else ac_status a))) b
  | Lapse aid =>
      match accounts b !! aid with
      | Some a => Some (mkBook (<[aid := mkAccount (ac_fee a) (ac_owed a) DEFAULTED]> (accounts b)) (entries b))
      | None => None
      end
  | Restate pid share =>
      rewrite_entry pid (fun en => of_kind MIGRATED_PAYMENT en && en_credited en)
        (fun en => mkEntry (en_account en) (en_kind en) share true)
        (fun en a =>
           let owed := ac_fee a - share - installments_credited (en_account en) (entries b) in
           if owed <? 0 then None else Some (owing owed (reopened (ac_status a)) a)) b
  | Open aid fee =>
      if 0 <? fee then Some (mkBook (<[aid := mkAccount fee fee PENDING]> (accounts b)) (entries b)) else None
  | Post pid aid kind share =>
      if fresh_entry pid b && bool_decide (is_Some (accounts b !! aid)) && (0 <=? share)
      then Some (mkBook (accounts b) (<[pid := mkEntry aid kind share false]> (entries b))) else None
  | Import aid pid fee share =>
      if fresh_entry pid b && bool_decide (accounts b !! aid = None) && (0 <=? share) && (share <=? fee)
      then Some (mkBook
        (<[aid := mkAccount fee (fee - share) (if fee - share =? 0 then COMPLETED else ACTIVE)]> (accounts b))
        (<[pid := mkEntry aid MIGRATED_PAYMENT share true]> (entries b))) else None
  | Close aid =>
      Some (mkBook (delete aid (accounts b))
        (filter (fun kv : id * Entry => en_account kv.2 <> aid) (entries b)))
  end.

Fixpoint run (ms : list move) (b : AccountBook) : option AccountBook :=
  match ms with
  | [] => Some b
  | m :: ms' => match perform m b with Some b' => run ms' b' | None => None end
  end.

(** ** The books the tables stand for *)

Definition account_of (e : ChildEnrollment) : Account :=
  mkAccount (e_totalSchoolFee e) (e_remainingBalance e) (e_paymentStatus e).
Definition entry_of (p : Payment) : Entry :=
  mkEntry (p_enrollmentId p) (p_paymentType p) (p_schoolAmount p) (p_isConfirmed p).
Definition book_of (d : DB) : AccountBook :=
  mkBook (account_of <$> enrollments d) (entry_of <$> payments d).

(** The moves each transaction is meant to make. *)
Definition explains (o : op) (ms : list move) : Prop :=
  match o with
  | OConfirm s _ _ _ => ms = [Confirm (sn_pid s)]
  | OReject s _ _ => ms = [Refuse (sn_pid s) (is_first (sn_payment s))]
  | OReverse s _ _ _ => ms = [Withdraw (sn_pid s)]
  | OSettle s _ | OReconcile s _ _ _ _ => ms = [Collect (sn_pid s)]
  | ORejectFirst s _ | OFail s => ms = [Refuse (sn_pid s) true]
  | ODispute s _ _ =>
      let read := e_paymentStatus (j_enrollment (sn_join s)) in
      ms = [Chargeback (sn_pid s) (bool_decide (read = ACTIVE) || bool_decide (read = COMPLETED))]
  | OConfirmFirst _ _ _ _ => exists pid, ms = [Collect pid]
  | ODefault j _ _ | OSweep j => ms = [Lapse (j_eid j)]
  | OAmend s new _ _ _ => ms = [Restate (sn_pid s) new]
  | OSubmit eid _ k _ _ _ => exists pid, ms = [Post pid eid INSTALLMENT k]
  | OEnroll _ _ _ _ calc _ reuse | OInitiate _ _ _ _ calc _ _ _ reuse =>
      exists eid pid, ms = [Open eid (d_schoolFees calc); Post pid eid FIRST_PAYMENT (d_amountToSchool calc)] /\
        (forall old, reuse = Some old -> eid = old)
  | ORecord _ invite _ _ _ _ =>
      exists eid pid, ms = [Import eid pid (i_totalSchoolFee invite) (i_amountAlreadyPaid invite)]
  | ORelease eid _ _ _ _ _ => ms = [Close eid]
  end.

(** A commit leaves the books alone or makes the moves it is meant to. *)
Definition simulates (o : op) (d d' : DB) : Prop :=
  book_of d' = book_of d \/ exists ms, explains o ms /\ run ms (book_of d) = Some (book_of d').

Lemma rewrite_entry_ok d d' pid p p' e e' allowed f g :
  payments d !! pid = Some p -> enrollments d !! p_enrollmentId p = Some e ->
  payments d' = <[pid := p']> (payments d) ->
  enrollments d' = <[p_enrollmentId p := e']> (enrollments d) ->
  allowed (entry_of p) = true -> f (entry_of p) = entry_of p' ->
  g (entry_of p) (account_of e) = Some (account_of e') ->
  rewrite_entry pid allowed f g (book_of d) = Some (book_of d').
Proof.
  intros Hp He H1 H2 Ha Hf Hg. unfold rewrite_entry, book_of. cbn [entries accounts].
  rewrite lookup_fmap, Hp. cbn [fmap option_fmap option_map]. rewrite Ha.
  cbn [en_account entry_of]. rewrite lookup_fmap, He. cbn [fmap option_fmap option_map].
  fold (entry_of p). rewrite Hg, Hf, H1, H2, !fmap_insert. done.
Qed.

(** The machine's sum of the credited installments is the ledger's aggregate. *)
Lemma installments_credited_of d aid :
  books_wf d -> installments_credited aid (entry_of <$> payments d) = installments_of aid d.
Proof.
  intros W. rewrite installments_credit. unfold installments_credited, total.
  assert (forall l : list (id * Entry), sumZ ((fun kv : id * Entry => en_share kv.2) <$>
    filter (fun kv : id * Entry => en_account kv.2 = aid /\ en_kind kv.2 = INSTALLMENT /\ en_credited kv.2 = true) l) =
    sumZ ((fun kv : id * Entry => if bool_decide (en_account kv.2 = aid /\ en_kind kv.2 = INSTALLMENT /\ en_credited kv.2 = true)
      then en_share kv.2 else 0) <$> l)) as Hfil.
  { induction l as [|[i en] l IH]; [done|]. rewrite filter_cons. csimpl. rewrite <- IH.
    case_decide; [rewrite bool_decide_eq_true_2 by done | rewrite bool_decide_eq_false_2 by done]; csimpl; lia. }
  rewrite Hfil, map_to_list_fmap, <- list_fmap_compose. f_equal.
  apply list_fmap_ext. intros k [i p] Hk%list_elem_of_lookup_2%elem_of_map_to_list. cbn.
  pose proof (wf_pay _ W _ _ Hk) as [_ Hc Hi _ _]. unfold installment_credit, confirmed_installment, is_installment, has_status.
  destruct (decide (p_enrollmentId p = aid)) as [He|He]; cycle 1.
  { rewrite (bool_decide_eq_false_2 (p_enrollmentId p = aid)), bool_decide_eq_false_2 by tauto. done. }
  rewrite (bool_decide_eq_true_2 (p_enrollmentId p = aid)) by done. cbn [andb].
  destruct (decide (p_paymentType p = INSTALLMENT)) as [Ht|Ht]; cycle 1.
  { rewrite (bool_decide_eq_false_2 (p_paymentType p = INSTALLMENT)), bool_decide_eq_false_2 by tauto. done. }
  rewrite (bool_decide_eq_true_2 (p_paymentType p = INSTALLMENT)) by done. cbn [andb].
  destruct (p_isConfirmed p) eqn:E; cbn [andb].
  - rewrite !bool_decide_eq_true_2 by tauto. by destruct (Hi Ht).
  - rewrite bool_decide_eq_false_2; [done|]. intros (_ & _ & ?). done.
Qed.

(** ** One commit *)

Section simulation.
Context (w : World) (W : books_wf (db w)).

(** A transaction that rewrites one payment and its plan makes one move. *)
Lemma simulates_rewrite o m w' pid p p' eid e e' allowed f g :
  payments (db w) !! pid = Some p -> enrollments (db w) !! eid = Some e -> p_enrollmentId p = eid ->
  payments (db w') = <[pid := p']> (payments (db w)) ->
  enrollments (db w') = <[eid := e']> (enrollments (db w)) ->
  explains o [m] -> perform m (book_of (db w)) = rewrite_entry pid allowed f g (book_of (db w)) ->
  allowed (entry_of p) = true -> f (entry_of p) = entry_of p' ->
  g (entry_of p) (account_of e) = Some (account_of e') -> simulates o (db w) (db w').
Proof.
  intros Hp He <- H1 H2 Hx Hm Ha Hf Hg. right. exists [m]. split; [done|]. cbn [run].
  rewrite Hm. by erewrite rewrite_entry_ok by eauto.
Qed.

Lemma simulates_moves o m w' pid p p' eid e e' a allowed f g :
  moves w w' pid p' eid e' a -> payments (db w) !! pid = Some p ->
  enrollments (db w) !! eid = Some e -> p_enrollmentId p = eid ->
  explains o [m] -> perform m (book_of (db w)) = rewrite_entry pid allowed f g (book_of (db w)) ->
  allowed (entry_of p) = true -> f (entry_of p) = entry_of p' ->
  g (entry_of p) (account_of e) = Some (account_of e') -> simulates o (db w) (db w').
Proof. intros [H1 H2 _ _]. intros. eapply simulates_rewrite; eauto. Qed.

Lemma simulates_lapse o w' aid e :
  explains o [Lapse aid] -> enrollments (db w) !! aid = Some e ->
  payments (db w') = payments (db w) ->
  enrollments (db w') = <[aid := set_e_paymentStatus DEFAULTED e]> (enrollments (db w)) ->
  simulates o (db w) (db w').
Proof.
  intros Hx He H1 H2. right. eexists. split; [exact Hx|]. unfold book_of. rewrite H1, H2, fmap_insert.
  cbn [run perform accounts entries]. by rewrite lookup_fmap, He.
Qed.

(** The credits, by the share the row carries. *)
Lemma owing_debit amount e :
  account_of (debit_installment amount e) =
  owing (ac_owed (account_of e) - amount) (ac_status (account_of e)) (account_of e).
Proof.
  unfold debit_installment, owing, account_of. cbn [ac_owed ac_status ac_fee].
  destruct (_ <=? 0) eqn:E; to_prop; cbn; f_equal; lia.
Qed.
Lemma owing_credit amount e :
  account_of (credit_first amount e) = owing (ac_owed (account_of e) - amount) ACTIVE (account_of e).
Proof. unfold credit_first, owing, account_of. cbn. by destruct (_ <=? 0). Qed.

Lemma pending_uncredited p : pay_ok p -> p_status p = TX_PENDING -> p_isConfirmed p = false.
Proof. intros P H. destruct (p_isConfirmed p) eqn:E; [|done]. apply (po_confirmed _ P) in E. congruence. Qed.

Ltac one_move Hm Hp He :=
  eapply simulates_moves; [exact Hm | exact Hp | exact He | congruence | reflexivity | reflexivity | | | ];
  unfold of_kind, entry_of, credited_as; cbn.

Lemma sim_confirm s schoolId actor now r w' :
  read_ok (db w) s -> let o := OConfirm s schoolId actor now in
  transaction (body o) w = (r, w') -> simulates o (db w) (db w').
Proof.
  intros R o [->|[x H]]%transaction_inv; [by left|].
  find_rows H (confirm_cond schoolId) confirmPayment_tx_conflict.
  destruct (confirmPayment_tx_ok s w schoolId actor now p e Hp Hc He) as (w1 & H1 & Hm).
  rewrite H1 in H. injection H as <- <-.
  unfold confirm_cond, is_installment in Hc. to_prop. destruct Hc as [[Hu Ht] _].
  destruct (amounts_now s p S ltac:(congruence)) as [Ea Es].
  destruct (po_installment _ Po Ht) as [_ Heq].
  one_move Hm Hp He; [by rewrite Hu, Ht | done |]. f_equal. rewrite owing_debit. cbn. f_equal; lia.
Qed.

Lemma sim_reject s schoolId actor r w' :
  read_ok (db w) s -> let o := OReject s schoolId actor in
  transaction (body o) w = (r, w') -> simulates o (db w) (db w').
Proof.
  intros R o [->|[x H]]%transaction_inv; [by left|].
  find_rows H (reject_cond schoolId) rejectPayment_tx_conflict.
  destruct (rejectPayment_tx_ok s w schoolId actor p e Hp Hc He) as (w1 & H1 & Hm).
  rewrite H1 in H. injection H as <- <-.
  assert (p_isConfirmed p = false) as Hu by (unfold reject_cond in Hc; to_prop; tauto).
  one_move Hm Hp He; [by rewrite Hu | by rewrite Hu |]. by destruct (is_first (sn_payment s)).
Qed.

Lemma sim_reverse s schoolId actor reason r w' :
  read_ok (db w) s -> let o := OReverse s schoolId actor reason in
  transaction (body o) w = (r, w') -> simulates o (db w) (db w').
Proof.
  intros R o [->|[x H]]%transaction_inv; [by left|].
  find_rows H (reverse_cond schoolId) reversePayment_tx_conflict.
  destruct (reversePayment_tx_ok s w schoolId actor reason p e Hp Hc He) as (w1 & H1 & Hm).
  rewrite H1 in H. injection H as <- <-.
  unfold reverse_cond, is_installment in Hc. to_prop. destruct Hc as [[[Hu _] Ht] _].
  destruct (amounts_now s p S ltac:(congruence)) as [Ea Es].
  destruct (po_installment _ Po Ht) as [_ Heq].
  one_move Hm Hp He; [by rewrite Hu, Ht | done |]. unfold account_of, reopened. cbn. do 2 f_equal; lia.
Qed.

Lemma sim_settle s actor r w' :
  read_ok (db w) s -> settle_cond (sn_payment s) = true -> let o := OSettle s actor in
  transaction (body o) w = (r, w') -> simulates o (db w) (db w').
Proof.
  intros R Hck o [->|[x H]]%transaction_inv; [by left|].
  find_rows H unconfirmed settleFirstPayment_tx_conflict.
  destruct (settleFirstPayment_tx_ok s w actor p e Hp Hc He) as (n & w1 & H1 & Hm).
  rewrite H1 in H. injection H as <- <-.
  assert (p_paymentType p = FIRST_PAYMENT) as Ht.
  { rewrite (st_type _ _ S). unfold settle_cond, is_first in Hck. to_prop. tauto. }
  destruct (amounts_now s p S ltac:(congruence)) as [_ Es]. unfold unconfirmed in Hc. to_prop.
  one_move Hm Hp He; [by rewrite Hc, Ht | done |]. by rewrite owing_credit, Es.
Qed.

Lemma sim_rejectFirst s actor r w' :
  read_ok (db w) s -> let o := ORejectFirst s actor in
  transaction (body o) w = (r, w') -> simulates o (db w) (db w').
Proof.
  intros R o [->|[x H]]%transaction_inv; [by left|].
  find_rows H unconfirmed rejectFirstPayment_tx_conflict.
  destruct (rejectFirstPayment_tx_ok s w actor p e Hp Hc He) as (n & w1 & H1 & Hm).
  rewrite H1 in H. injection H as <- <-. unfold unconfirmed in Hc. to_prop.
  one_move Hm Hp He; [by rewrite Hc | by rewrite Hc | done].
Qed.

Lemma sim_reconcile s reference fee actor now r w' :
  read_ok (db w) s -> by_reference reference (sn_payment s) = true ->
  let o := OReconcile s reference fee actor now in
  transaction (body o) w = (r, w') -> simulates o (db w) (db w').
Proof.
  intros R Href o [->|[x H]]%transaction_inv; [by left|].
  find_rows H (has_status TX_PENDING) reconcilePaystackPayment_tx_conflict.
  rewrite (ro_plan _ _ R) in He.
  destruct (reconcilePaystackPayment_tx_ok s w reference fee actor now p e Hp Hc He) as (w1 & H1 & Hm).
  rewrite H1 in H. injection H as <- <-. apply bool_decide_eq_true in Href.
  assert (p_paymentType p = FIRST_PAYMENT) as Ht.
  { apply (po_reference _ Po). rewrite (st_reference _ _ S), Href. eauto. }
  destruct (amounts_now s p S ltac:(congruence)) as [_ Es].
  assert (p_isConfirmed p = false) as Hu by (apply pending_uncredited; [done | unfold has_status in Hc; by to_prop]).
  one_move Hm Hp He; [by rewrite Hu, Ht | done |]. by rewrite owing_credit, Es.
Qed.

Lemma sim_fail s r w' :
  read_ok (db w) s -> let o := OFail s in
  transaction (body o) w = (r, w') -> simulates o (db w) (db w').
Proof.
  intros R o [->|[x H]]%transaction_inv; [by left|].
  find_rows H (has_status TX_PENDING) failPaystackPayment_tx_conflict.
  rewrite (failPaystackPayment_tx_ok s w p e Hp Hc He) in H. injection H as <- <-.
  assert (p_isConfirmed p = false) as Hu by (apply pending_uncredited; [done | unfold has_status in Hc; by to_prop]).
  eapply simulates_rewrite; [exact Hp | exact He | congruence | reflexivity | reflexivity | reflexivity | reflexivity | | | ];
    unfold entry_of, credited_as; cbn; [by rewrite Hu | by rewrite Hu | done].
Qed.

Lemma sim_dispute strict s reference eventType r w' :
  read_ok (db w) s -> let o := ODispute s reference eventType in timely strict o (db w) ->
  transaction (body o) w = (r, w') -> simulates o (db w) (db w').
Proof.
  intros R o [Ht _] [->|[x H]]%transaction_inv; [by left|].
  find_rows H (has_status TX_SUCCESS) reversePaystackPaymentByDispute_tx_conflict.
  rewrite (ro_plan _ _ R) in He. specialize (Ht _ He).
  destruct (reversePaystackPaymentByDispute_tx_ok s w reference eventType p e Hp Hc He) as (n & w1 & H1 & Hm).
  rewrite H1 in H. injection H as <- <-.
  assert (p_isConfirmed p = true) as Hu.
  { apply (po_confirmed _ Po). unfold has_status in Hc. by to_prop. }
  one_move Hm Hp He; [done | done |]. unfold disputed_plan, account_of.
  destruct (_ || _); cbn; by rewrite ?Ht.
Qed.

Lemma sim_confirmFirst eid schoolId actor now r w' :
  let o := OConfirmFirst eid schoolId actor now in
  transaction (body o) w = (r, w') -> simulates o (db w) (db w').
Proof.
  intros o [->|[x H]]%transaction_inv; [by left|].
  destruct (confirmFirstPayment_tx_run _ _ _ _ _ _ _ H) as (pid & p & e & a & Hp & Hc & He & Hm).
  unfold manual_first_cond, is_first in Hc. to_prop. destruct Hc as [[[Hpe Hf] Hu] _].
  eapply simulates_moves; [exact Hm | exact Hp | exact He | done | by exists pid | reflexivity | | | ];
    unfold of_kind, entry_of, credited_as; cbn; [by rewrite Hu, Hf | done | by rewrite owing_credit].
Qed.

Lemma sim_default j schoolId actor r w' :
  let o := ODefault j schoolId actor in
  transaction (body o) w = (r, w') -> simulates o (db w) (db w').
Proof.
  intros o [->|[x H]]%transaction_inv; [by left|].
  unfold markEnrollmentAsDefaulted_tx in H. run_step H. by eapply simulates_lapse.
Qed.

Lemma sim_sweep j r w' :
  let o := OSweep j in transaction (body o) w = (r, w') -> simulates o (db w) (db w').
Proof.
  intros o [->|[x H]]%transaction_inv; [by left|]. unfold markEnrollmentDefaultedBySweep_tx in H.
  apply bind_run in H as (n & w1 & [[-> ->]|(-> & e & He & _ & ->)]%updateManyEnrollment_run & H);
    cbn in H; run_step H; [by left | by eapply simulates_lapse].
Qed.

Lemma sim_amend s new schoolId actor reason r w' :
  read_ok (db w) s -> let o := OAmend s new schoolId actor reason in
  transaction (body o) w = (r, w') -> simulates o (db w) (db w').
Proof.
  intros R o [->|[x H]]%transaction_inv; [by left|].
  destruct (amendMigratedPayment_tx_inv _ _ _ _ _ _ _ _ _ _ H) as (e & p & He & Hp & Hn & Hc).
  destruct (amendMigratedPayment_tx_run _ _ _ _ schoolId actor reason w e p He Hp Hn Hc)
    as (w1 & H1 & Hpay & Henr & _).
  rewrite H1 in H. injection H as <- <-.
  destruct (row_now (db w) s p W R Hp) as (Po & S & Hj & _).
  assert (p_paymentType p = MIGRATED_PAYMENT /\ p_isConfirmed p = true) as [Ht Hu].
  { unfold amend_cond, has_status in Hc. to_prop. split; [tauto|]. apply (po_confirmed _ Po). tauto. }
  eapply simulates_rewrite; [exact Hp | exact He | done | exact Hpay | exact Henr | reflexivity | reflexivity | | | ];
    unfold of_kind, entry_of; cbn [en_kind en_credited en_share en_account]; [by rewrite Ht, Hu | by cbn; rewrite Hu |].
  cbn [account_of ac_fee ac_status]. rewrite Hj. cbn [book_of entries].
  rewrite (installments_credited_of (db w) _ W).
  assert ((e_totalSchoolFee e - new - installments_of (j_eid (sn_join s)) (db w) <? 0) = false) as ->
    by (apply Z.ltb_ge; lia).
  unfold owing, reopened, restated_plan, account_of, statusAfterMigratedAmendment. cbn -[Z.sub].
  do 2 f_equal. lia.
Qed.
End simulation.

(** ** Commits that add or remove rows *)

Lemma fresh_payment d : books_wf d -> payments d !! next_id d = None.
Proof. intros W. destruct (payments d !! next_id d) eqn:E; [|done]. apply (wf_pids _ W) in E as [? _]. lia. Qed.

(** A new unconfirmed payment of an existing plan is a posting. *)
Lemma posts d d' pid p :
  payments d !! pid = None -> payments d' = <[pid := p]> (payments d) -> enrollments d' = enrollments d ->
  p_isConfirmed p = false -> is_Some (enrollments d !! p_enrollmentId p) -> 0 <= p_schoolAmount p ->
  perform (Post pid (p_enrollmentId p) (p_paymentType p) (p_schoolAmount p)) (book_of d) = Some (book_of d').
Proof.
  intros Hf H1 H2 Hu [e He] Hk. unfold perform, fresh_entry, book_of. cbn [accounts entries].
  rewrite lookup_fmap, He. rewrite (bool_decide_eq_true_2 (pid ∉ _)) by (rewrite dom_fmap, not_elem_of_dom; done).
  rewrite (bool_decide_eq_true_2 (is_Some _)) by eauto.
  assert ((0 <=? p_schoolAmount p) = true) as -> by (by apply Z.leb_le). cbn [andb].
  rewrite H1, H2, fmap_insert. unfold entry_of at 2. by rewrite Hu.
Qed.

Lemma createPayment_posts p w pid w1 :
  books_wf (db w) -> createPayment p w = (Ok pid, w1) -> p_isConfirmed p = false -> 0 <= p_schoolAmount p ->
  is_Some (enrollments (db w) !! p_enrollmentId p) ->
  perform (Post pid (p_enrollmentId p) (p_paymentType p) (p_schoolAmount p)) (book_of (db w)) = Some (book_of (db w1)).
Proof.
  intros W H Hu Hk Hfk. rewrite createPayment_eq in H. destruct (key_taken _ _); [done|].
  destruct (reference_taken _ _); [done|]. injection H as <- <-.
  by eapply posts; [by apply fresh_payment | ..].
Qed.

Lemma openEnrollment_opens dto calc k childId reuse now w eid w1 :
  0 < d_schoolFees calc -> openEnrollment dto calc k childId reuse now w = (Ok eid, w1) ->
  perform (Open eid (d_schoolFees calc)) (book_of (db w)) = Some (book_of (db w1)) /\
  (forall old, reuse = Some old -> eid = old).
Proof.
  intros Hfee H. unfold perform. rewrite (proj2 (Z.ltb_lt _ _) Hfee). destruct reuse as [old|]; cbn in H.
  - run_step H. split; [|by intros ? [= <-]]. unfold book_of. cbn. by rewrite fmap_insert.
  - rewrite createEnrollment_eq in H. destruct (invite_taken _ _); [done|].
    destruct (child_enrolled _ _); [done|]. injection H as <- <-. split; [|done].
    unfold book_of. cbn. by rewrite fmap_insert.
Qed.

(** Opening a plan and posting its first payment. *)
Lemma sim_open o dto fee deposit calc childId reuse now w w' (row : id -> Payment) eid pid w1 :
  books_wf (db w) -> calculateInitialPayment fee deposit = Ok calc ->
  openEnrollment dto calc deposit childId reuse now w = (Ok eid, w1) ->
  createPayment (row eid) w1 = (Ok pid, w') ->
  p_enrollmentId (row eid) = eid -> p_paymentType (row eid) = FIRST_PAYMENT ->
  p_schoolAmount (row eid) = d_amountToSchool calc -> p_isConfirmed (row eid) = false ->
  (forall ms, (exists eid pid, ms = [Open eid (d_schoolFees calc); Post pid eid FIRST_PAYMENT (d_amountToSchool calc)] /\
     (forall old, reuse = Some old -> eid = old)) -> explains o ms) ->
  simulates o (db w) (db w').
Proof.
  intros W [Hfee Hsh]%accepted_deposit Ho Hc H1 H2 H3 H4 Hx.
  destruct (openEnrollment_opens _ _ _ _ _ _ _ _ _ Hfee Ho) as [Hop Hre].
  pose proof (openEnrollment_good false _ _ _ _ _ _ _ _ _ W Hfee Ho) as [(W1 & _) Hfk].
  right. eexists. split; [apply Hx; eauto|]. cbn [run]. rewrite Hop.
  apply createPayment_posts in Hc; [|done|done|lia|by rewrite H1]. rewrite H1, H2, H3 in Hc. by rewrite Hc.
Qed.

Lemma sim_enroll w env dto fee deposit calc childId reuse r w' :
  books_wf (db w) -> calculateInitialPayment fee deposit = Ok calc ->
  let o := OEnroll env dto fee deposit calc childId reuse in
  transaction (body o) w = (r, w') -> simulates o (db w) (db w').
Proof.
  intros W Hcalc o [->|[x H]]%transaction_inv; [by left|].
  apply bind_run in H as (eid & w1 & Ho & H). apply bind_run in H as (pid & w2 & Hc & H). run_step H.
  by eapply (sim_open _ _ _ _ _ _ _ _ _ _ (fun eid => manualPayment dto calc deposit eid (now env))).
Qed.

Lemma sim_initiate w env dto fee deposit calc g reference childId reuse r w' :
  books_wf (db w) -> calculateInitialPayment fee deposit = Ok calc ->
  let o := OInitiate env dto fee deposit calc g reference childId reuse in
  transaction (body o) w = (r, w') -> simulates o (db w) (db w').
Proof.
  intros W Hcalc o [->|[x H]]%transaction_inv; [by left|].
  apply bind_run in H as (eid & w1 & Ho & H). apply bind_run in H as (pid & w2 & Hc & H). run_step H.
  by eapply (sim_open _ _ _ _ _ _ _ _ _ _ (fun eid => cardPayment env dto calc g reference deposit eid)).
Qed.

Lemma sim_submit w eid schoolId k rcpt key now r w' :
  books_wf (db w) -> 0 < k -> let o := OSubmit eid schoolId k rcpt key now in
  transaction (body o) w = (r, w') -> simulates o (db w) (db w').
Proof.
  intros W Hk o [->|[pid H]]%transaction_inv; [by left|].
  apply submit_tx_run in H as (-> & _ & H1 & H2 & _ & Hfk & _).
  right. eexists. split; [by eexists|]. cbn [run].
  pose proof (posts (db w) (db w') _ _ (fresh_payment _ W) H1 H2 eq_refl Hfk ltac:(cbn; lia)) as Hp.
  cbn [installmentPayment p_enrollmentId p_paymentType p_schoolAmount] in Hp. by rewrite Hp.
Qed.

Lemma sim_record w inviteId invite childId parentUserId actor now r w' :
  books_wf (db w) -> 0 <= i_amountAlreadyPaid invite <= i_totalSchoolFee invite ->
  let o := ORecord inviteId invite childId parentUserId actor now in
  transaction (body o) w = (r, w') -> simulates o (db w) (db w').
Proof.
  intros W Hi o [->|[x H]]%transaction_inv; [by left|].
  apply recordMigratedEnrollment_run in H as (H1 & H2 & _). set (eid := next_id (db w)) in *.
  destruct (migrated_plan_opens _ _ Hi) as (Hb & _ & _ & _).
  right. exists [Import eid (Pos.succ eid) (i_totalSchoolFee invite) (i_amountAlreadyPaid invite)].
  split; [by do 2 eexists|]. cbn [run perform]. unfold fresh_entry, book_of. cbn [accounts entries].
  assert (payments (db w) !! Pos.succ eid = None) as Hf.
  { destruct (payments (db w) !! Pos.succ eid) eqn:E; [|done]. apply (wf_pids _ W) in E as [? _]. subst eid. lia. }
  assert (enrollments (db w) !! eid = None) as Hf'.
  { destruct (enrollments (db w) !! eid) eqn:E; [|done]. apply (wf_eids _ W) in E. subst eid. lia. }
  rewrite (bool_decide_eq_true_2 (_ ∉ _)) by (rewrite dom_fmap, not_elem_of_dom; done).
  rewrite lookup_fmap, Hf'. cbn [fmap option_fmap option_map]. rewrite (bool_decide_eq_true_2 (None = None)) by done.
  rewrite (proj2 (Z.leb_le 0 _)), (proj2 (Z.leb_le _ (i_totalSchoolFee invite))) by lia. cbn [andb].
  rewrite H1, H2, !fmap_insert. do 2 f_equal. f_equal. unfold account_of, migratedEnrollment.
  cbn [e_totalSchoolFee e_remainingBalance e_paymentStatus]. rewrite Hb. f_equal.
  unfold deriveMigratedPlan in Hb |- *. cbn [mf_paymentStatus mf_remainingBalance] in Hb |- *. by rewrite Hb.
Qed.

Lemma sim_release w eid childId inviteId schoolId actor reason r w' :
  let o := ORelease eid childId inviteId schoolId actor reason in
  transaction (body o) w = (r, w') -> simulates o (db w) (db w').
Proof.
  intros o [->|[x H]]%transaction_inv; [by left|]. unfold releaseMigratedEnrollment in H. run_step H.
  right. eexists. split; [reflexivity|]. cbn [run perform]. unfold book_of. cbn. f_equal. f_equal.
  - by rewrite fmap_delete.
  - by rewrite map_filter_fmap.
Qed.

(** ** The refinement *)

(** C2: the ledger implements the account machine.  At every state reachable by
    interleaving requests, whatever stale reads they hold, a transaction either
    leaves the books as they are or performs, atomically, exactly the moves its
    request asks for.  Whether a payment may be credited, taken back, refused
    or restated, what that does to the balance and to the status, and which
    plan is opened or closed, the machine decides from the entry and the account
    as they are at the commit.  A dispute is the exception: whether it opens the
    plan again is decided by the status its request had read, however stale, and
    the school fee it had read is assumed to be still the plan's fee (the only
    condition on the reads). *)
Theorem ledger_refines_accounts w0 st o r w' :
  books_wf (db w0) -> reachable false w0 st ->
  (forall s, read_of o = Some s -> s ∈ st_reads st) -> checked o -> timely false o (db (st_world st)) ->
  transaction (body o) (st_world st) = (r, w') ->
  book_of (db w') = book_of (db (st_world st)) \/
  exists ms, explains o ms /\ run ms (book_of (db (st_world st))) = Some (book_of (db w')).
Proof.
  intros W0 Hr Hrs Hc Ht Hx. destruct (reachable_ok _ _ _ W0 Hr) as [[W Hrd] _].
  assert (forall s, read_of o = Some s -> read_ok (db (st_world st)) s) as Hok.
  { intros s Hs. apply (proj1 (list.Forall_forall _ _) Hrd). auto. }
  clear Hrs Hrd Hr W0. change (simulates o (db (st_world st)) (db w')).
  destruct o; cbn in Hok, Hc; try (specialize (Hok _ eq_refl)).
  - by eapply sim_confirm.
  - by eapply sim_reject.
  - by eapply sim_reverse.
  - by eapply sim_settle.
  - by eapply sim_rejectFirst.
  - destruct Hc. by eapply sim_reconcile.
  - by eapply sim_fail.
  - by eapply sim_dispute.
  - by eapply sim_confirmFirst.
  - by eapply sim_default.
  - by eapply sim_sweep.
  - destruct Hc. by eapply sim_amend.
  - by eapply sim_submit.
  - by eapply sim_enroll.
  - by eapply sim_initiate.
  - by eapply sim_record.
  - by eapply sim_release.
Qed.

Example ledger_refines_accounts_witness :
  book_of (db sample_reconciled) = book_of (db sample_books) \/
  exists ms, explains sample_reconcile ms /\ run ms (book_of (db sample_books)) = Some (book_of (db sample_reconciled)).
Proof.
  apply (ledger_refines_accounts sample_books (mkState sample_books [sample_card_snapshot sample_card])
    sample_reconcile (fst (transaction (body sample_reconcile) sample_books)));
    [exact sample_wf | | | done | done | reflexivity].
  - eapply reach_step; [apply reach_start|]. by apply (step_read false sample_books [] (sample_card_snapshot sample_card)).
  - intros s [= <-]. apply list_elem_of_singleton. reflexivity.
Defined.

(** The sample charge is indeed collected: the balance falls by the deposit. *)
Example reconcile_collects :
  run [Collect 6%positive] (book_of (db sample_books)) = Some (book_of (db sample_reconciled)).
Proof. vm_compute. reflexivity. Qed.
