(* ===== verification/JsText.v ===== *)
(** * ECMAScript strings

    A string is its list of code points ([text]); a Rocq string stands for a
    text whose code points fit a byte.  Here are the string methods the source
    calls, on code points. *)

From Stdlib Require Import Ascii.
From S2P Require Import Prelude.

Abbreviation text := (list Z).

Definition text_of (s : string) : text := Z.of_nat ∘ nat_of_ascii <$> String.list_ascii_of_string s.
Definition string_of (t : text) : string :=
  String.string_of_list_ascii (ascii_of_nat ∘ Z.to_nat <$> t).

(** ECMAScript's [\s], which [trim] removes too. *)
Definition is_js_whitespace (c : Z) : bool :=
  ((9 <=? c) && (c <=? 13)) || (c =? 32) || (c =? 160) || (c =? 5760)
  || ((8192 <=? c) && (c <=? 8202)) || (c =? 8232) || (c =? 8233) || (c =? 8239)
  || (c =? 8287) || (c =? 12288) || (c =? 65279).

Definition is_digit (c : Z) : bool := (48 <=? c) && (c <=? 57).
Definition is_letter (c : Z) : bool := ((65 <=? c) && (c <=? 90)) || ((97 <=? c) && (c <=? 122)).

Fixpoint trimStart (t : text) : text :=
  match t with
  | c :: t' => if is_js_whitespace c then trimStart t' else t
  | [] => []
  end.
Definition trimEnd (t : text) : text := reverse (trimStart (reverse t)).
Definition trim (t : text) : text := trimEnd (trimStart t).

(** [t.split(sep)] for a separator of one character. *)
Fixpoint split_on (sep : Z) (t : text) : list text :=
  match t with
  | [] => [[]]
  | c :: t' =>
      match split_on sep t' with
      | [] => [[c]]
      | part :: parts => if c =? sep then [] :: part :: parts else (c :: part) :: parts
      end
  end.

(** The first part of [t.split(sep)]. *)
Fixpoint before (sep : Z) (t : text) : text :=
  match t with
  | [] => []
  | c :: t' => if c =? sep then [] else c :: before sep t'
  end.

Definition startsWith (prefix t : text) : bool := bool_decide (take (length prefix) t = prefix).
Fixpoint text_includes (sub t : text) : bool :=
  startsWith sub t || match t with [] => false | _ :: t' => text_includes sub t' end.
Definition has_char (c : Z) (t : text) : bool := existsb (Z.eqb c) t.
Definition count_char (c : Z) (t : text) : nat := length (filter (fun x => x = c) t).

(** Lower case of the ASCII letters: what [toLowerCase] and the flag [i] do to
    them. *)
Definition lower_char (c : Z) : Z := if (65 <=? c) && (c <=? 90) then c + 32 else c.
Definition ascii_lower (t : text) : text := lower_char <$> t.

(** The bytes of the UTF-8 encoding of a code point. *)
Definition utf8_length (c : Z) : Z :=
  if c <? 128 then 1 else if c <? 2048 then 2 else if c <? 65536 then 3 else 4.
Definition byteLength (t : text) : Z := foldr (fun c n => utf8_length c + n) 0 t.

(** ** Laws *)

Lemma text_of_app a b : text_of (a +:+ b) = text_of a ++ text_of b.
Proof.
  unfold text_of. rewrite <- fmap_app. f_equal. induction a as [|c a IH]; [done|]. simpl. by rewrite IH.
Qed.

Lemma text_of_bytes t : Forall (fun c => 0 <= c < 256) t -> text_of (string_of t) = t.
Proof.
  unfold text_of, string_of. rewrite String.list_ascii_of_string_of_list_ascii, <- list_fmap_compose.
  induction 1 as [|c t Hc _ IH]; [done|]. rewrite fmap_cons. f_equal; [cbn|exact IH].
  rewrite nat_ascii_embedding by lia. lia.
Qed.

Lemma text_of_inj a b : text_of a = text_of b -> a = b.
Proof.
  intros H. rewrite <- (String.string_of_list_ascii_of_string a), <- (String.string_of_list_ascii_of_string b).
  f_equal. revert H. unfold text_of. apply list_fmap_eq_inj. intros x y E.
  rewrite <- (ascii_nat_embedding x), <- (ascii_nat_embedding y). f_equal. cbn in E. lia.
Qed.

Lemma string_app_assoc (a b c : string) : (a +:+ b) +:+ c = a +:+ (b +:+ c).
Proof. induction a as [|x a IH]; [done|]. exact (f_equal (String x) IH). Qed.
Lemma prefix_app a b : String.prefix a (a +:+ b) = true.
Proof. induction a as [|c a IH]; [by destruct b|]. simpl. by destruct (Ascii.ascii_dec c c). Qed.

Lemma split_before sep t : head (split_on sep t) = Some (before sep t).
Proof.
  induction t as [|c t IH]; [done|]. simpl. destruct (split_on sep t) as [|p ps]; [done|].
  simpl in IH. injection IH as ->. by destruct (c =? sep).
Qed.

Lemma trimStart_head t c : head (trimStart t) = Some c -> is_js_whitespace c = false.
Proof.
  induction t as [|x t IH]; [done|]. simpl. destruct (is_js_whitespace x) eqn:E; [done|].
  simpl. by intros [= <-].
Qed.

Lemma trimStart_id t : (forall c, head t = Some c -> is_js_whitespace c = false) -> trimStart t = t.
Proof. destruct t as [|c t]; [done|]. simpl. intros H. by rewrite (H c eq_refl). Qed.

Lemma trimStart_suffix t : exists s, t = s ++ trimStart t /\ Forall (fun c => is_js_whitespace c = true) s.
Proof.
  induction t as [|c t (s & IH & F)]; [by exists []|]. simpl. destruct (is_js_whitespace c) eqn:E.
  - exists (c :: s). split; [simpl; congruence | by constructor].
  - by exists [].
Qed.

Lemma trimEnd_prefix t : exists s, t = trimEnd t ++ s /\ Forall (fun c => is_js_whitespace c = true) s.
Proof.
  unfold trimEnd. destruct (trimStart_suffix (reverse t)) as (s & E & F). exists (reverse s). split.
  - rewrite <- reverse_app, <- E. by rewrite reverse_involutive.
  - by apply Forall_reverse.
Qed.

Lemma trim_clean t : Forall (fun c => is_js_whitespace c = false) t -> trim t = t.
Proof.
  intros F. unfold trim, trimEnd. rewrite (trimStart_id t).
  - rewrite (trimStart_id (reverse t)); [by rewrite reverse_involutive|].
    intros c Hc. apply Forall_reverse in F. by destruct (reverse t); [|injection Hc as ->; inversion F].
  - intros c Hc. by destruct t; [|injection Hc as ->; inversion F].
Qed.

(** A trimmed text does not start with white space. *)
Lemma trim_head t c : head (trim t) = Some c -> is_js_whitespace c = false.
Proof.
  unfold trim. destruct (trimEnd_prefix (trimStart t)) as (s & E & _).
  destruct (trimEnd (trimStart t)) as [|x u]; [done|]. intros [= ->].
  apply (trimStart_head t). by rewrite E.
Qed.

Lemma trim_idem t : trim (trim t) = trim t.
Proof.
  unfold trim at 1. rewrite (trimStart_id (trim t)) by apply trim_head.
  unfold trim, trimEnd. rewrite reverse_involutive. f_equal. apply trimStart_id, trimStart_head.
Qed.

Lemma startsWith_app p t : startsWith p (p ++ t) = true.
Proof. unfold startsWith. apply bool_decide_eq_true_2. by rewrite take_app_length. Qed.

Lemma startsWith_some p t : startsWith p t = true -> exists u, t = p ++ u.
Proof.
  unfold startsWith. intros H%bool_decide_eq_true. exists (drop (length p) t).
  rewrite <- H at 1. by rewrite take_drop.
Qed.

Lemma includes_spec sub t : text_includes sub t = true <-> exists a b, t = a ++ sub ++ b.
Proof.
  induction t as [|c t IH]; simpl.
  - rewrite orb_false_r. split.
    + intros [u E]%startsWith_some. by exists [], u.
    + intros ([|??] & b & E); [|done]. simpl in E. rewrite E. apply startsWith_app.
  - rewrite orb_true_iff, IH. split.
    + intros [[u E]%startsWith_some|(a & b & ->)]; [by exists [], u | by exists (c :: a), b].
    + intros ([|x a] & b & E); simpl in E.
      * left. rewrite E. apply startsWith_app.
      * right. injection E as _ ->. eauto.
Qed.

Lemma has_char_spec c t : has_char c t = true <-> c ∈ t.
Proof.
  unfold has_char. rewrite existsb_exists. setoid_rewrite Z.eqb_eq.
  setoid_rewrite <- list_elem_of_In. naive_solver.
Qed.

(** [t.length], in UTF-16 code units. *)
Definition js_length (t : text) : Z := foldr (fun c n => (if c <? 65536 then 1 else 2) + n) 0 t.

(** ** Columns

    A text column holds the UTF-8 bytes of its text. *)

(** The UTF-8 encoding of a code point, and of a text. *)
Definition utf8_units (c : Z) : list Z :=
  if c <? 128 then [c]
  else if c <? 2048 then [192 + c / 64; 128 + c mod 64]
  else if c <? 65536 then [224 + c / 4096; 128 + c / 64 mod 64; 128 + c mod 64]
  else [240 + c / 262144; 128 + c / 4096 mod 64; 128 + c / 64 mod 64; 128 + c mod 64].
Definition utf8_bytes (t : text) : list Z := t ≫= utf8_units.
Definition byte (z : Z) : ascii := ascii_of_nat (Z.to_nat z).
Definition utf8 (t : text) : string := String.string_of_list_ascii (byte <$> utf8_bytes t).
Definition code_point (c : Z) : Prop := 0 <= c < 1114112.

Lemma before_app sep t u : sep ∉ t -> before sep (t ++ sep :: u) = t.
Proof.
  induction t as [|c t IH]; intros H; cbn; [by rewrite Z.eqb_refl|].
  apply not_elem_of_cons in H as [H1 H2]. rewrite (proj2 (Z.eqb_neq c sep)) by congruence. by rewrite IH.
Qed.

Lemma utf8_bytes_cons c t : utf8_bytes (c :: t) = utf8_units c ++ utf8_bytes t.
Proof. done. Qed.

Lemma utf8_bytes_ascii t : Forall (fun c => c < 128) t -> utf8_bytes t = t.
Proof.
  induction 1 as [|c t Hc _ IH]; [done|]. rewrite utf8_bytes_cons, IH. unfold utf8_units.
  by rewrite (proj2 (Z.ltb_lt c 128)).
Qed.

Lemma utf8_units_long c : length (utf8_units c) = 1%nat /\ c < 128 \/ (2 <= length (utf8_units c))%nat.
Proof. unfold utf8_units. repeat case_if; simpl; lia. Qed.

(** Decoding well-formed UTF-8. *)
Fixpoint utf8_decode (b : list Z) : text :=
  match b with
  | b0 :: b' =>
      if b0 <? 128 then b0 :: utf8_decode b'
      else
        match b' with
        | b1 :: b' =>
            if b0 <? 224 then (b0 - 192) * 64 + (b1 - 128) :: utf8_decode b'
            else
              match b' with
              | b2 :: b' =>
                  if b0 <? 240 then ((b0 - 224) * 64 + (b1 - 128)) * 64 + (b2 - 128) :: utf8_decode b'
                  else
                    match b' with
                    | b3 :: b' =>
                        (((b0 - 240) * 64 + (b1 - 128)) * 64 + (b2 - 128)) * 64 + (b3 - 128) :: utf8_decode b'
                    | [] => []
                    end
              | [] => []
              end
        | [] => []
        end
  | [] => []
  end.

Lemma utf8_decode_units c b : code_point c -> utf8_decode (utf8_units c ++ b) = c :: utf8_decode b.
Proof.
  unfold code_point, utf8_units. intros H.
  pose proof (Z.div_mod c 64 ltac:(done)). pose proof (Z.div_mod (c / 64) 64 ltac:(done)).
  pose proof (Z.div_mod (c / 4096) 64 ltac:(done)).
  assert (c / 64 / 64 = c / 4096) as E1 by (by rewrite Z.div_div). assert (c / 4096 / 64 = c / 262144) as E2 by (by rewrite Z.div_div).
  pose proof (Z.mod_pos_bound c 64 eq_refl). pose proof (Z.mod_pos_bound (c / 64) 64 eq_refl).
  pose proof (Z.mod_pos_bound (c / 4096) 64 eq_refl).
  destruct (Z.ltb_spec c 128) as [Hc|Hc]; [|destruct (Z.ltb_spec c 2048); [|destruct (Z.ltb_spec c 65536)]];
    cbn [app utf8_decode]; repeat (case_match; try lia); f_equal; lia.
Qed.

Lemma utf8_decode_bytes t : Forall code_point t -> utf8_decode (utf8_bytes t) = t.
Proof. induction 1 as [|c t Hc _ IH]; [done|]. by rewrite utf8_bytes_cons, utf8_decode_units, IH. Qed.

(** Only an ASCII text has as many bytes as characters. *)
Lemma utf8_bytes_long t :
  (length t <= length (utf8_bytes t))%nat /\ (length (utf8_bytes t) = length t -> Forall (fun c => c < 128) t).
Proof.
  induction t as [|c t [IH1 IH2]]; [split; [done|constructor]|]. rewrite utf8_bytes_cons, length_app.
  pose proof (utf8_units_long c) as Hc. cbn [length]. split; [lia|].
  intros H. constructor; [lia|]. apply IH2. lia.
Qed.

(** The first byte tells an ASCII character from every other; every byte fits. *)
Lemma utf8_units_spec c : code_point c ->
  exists b l, utf8_units c = b :: l /\ Forall (fun x => 0 <= x < 256) (b :: l) /\ (b < 128 -> b = c /\ l = []).
Proof.
  unfold code_point. intros H. unfold utf8_units.
  pose proof (Z.mod_pos_bound c 64 eq_refl). pose proof (Z.mod_pos_bound (c / 64) 64 eq_refl).
  pose proof (Z.mod_pos_bound (c / 4096) 64 eq_refl).
  assert (0 <= c / 64 /\ 0 <= c / 4096 /\ 0 <= c / 262144) as (Q1 & Q2 & Q3) by (repeat split; apply Z.div_pos; lia).
  destruct (Z.ltb_spec c 128); [|destruct (Z.ltb_spec c 2048); [|destruct (Z.ltb_spec c 65536)]].
  - exists c, []. split; [done|]. split; [repeat constructor; lia | done].
  - assert (c / 64 < 32) by (apply Z.div_lt_upper_bound; lia).
    do 2 eexists. split; [reflexivity|]. split; [repeat constructor; lia | lia].
  - assert (c / 4096 < 16) by (apply Z.div_lt_upper_bound; lia).
    do 2 eexists. split; [reflexivity|]. split; [repeat constructor; lia | lia].
  - assert (c / 262144 < 5) by (apply Z.div_lt_upper_bound; lia).
    do 2 eexists. split; [reflexivity|]. split; [repeat constructor; lia | lia].
Qed.

Lemma utf8_bytes_range t : Forall code_point t -> Forall (fun b => 0 <= b < 256) (utf8_bytes t).
Proof.
  induction 1 as [|c t Hc _ IH]; [done|]. rewrite utf8_bytes_cons. apply Forall_app. split; [|done].
  destruct (utf8_units_spec c Hc) as (b & l & -> & F & _). done.
Qed.

Lemma utf8_ascii t : Forall (fun c => 0 <= c < 128) t -> utf8 t = string_of t.
Proof.
  intros H. unfold utf8. rewrite utf8_bytes_ascii; [done|]. revert H. apply Forall_impl. lia.
Qed.

Lemma byte_inj x y : 0 <= x < 256 -> 0 <= y < 256 -> byte x = byte y -> x = y.
Proof.
  intros Hx Hy H. apply (f_equal nat_of_ascii) in H. unfold byte in H.
  rewrite !nat_ascii_embedding in H by lia. lia.
Qed.

(** Only an ASCII text has the bytes of an ASCII text. *)
Lemma utf8_ascii_inj t u : Forall code_point t -> Forall (fun c => 0 <= c < 128) u ->
  utf8 t = utf8 u -> t = u.
Proof.
  unfold utf8. intros Ht Hu H.
  apply (f_equal String.list_ascii_of_string) in H. rewrite !String.list_ascii_of_string_of_list_ascii in H.
  rewrite (utf8_bytes_ascii u) in H by (revert Hu; apply Forall_impl; lia).
  revert u Hu H. induction Ht as [|c t Hc _ IH]; intros u Hu H; destruct Hu as [|x u Hx Hu]; [done| | |].
  - destruct (utf8_units_spec x) as (b & l & E & _); [unfold code_point; lia|]. cbn in H. discriminate H.
  - rewrite utf8_bytes_cons in H. destruct (utf8_units_spec c Hc) as (b & l & E & _). rewrite E in H. discriminate H.
  - rewrite utf8_bytes_cons in H. destruct (utf8_units_spec c Hc) as (b & l & E & F & Hs). rewrite E in H.
    apply Forall_cons_iff in F as [Hb _]. cbn in H. injection H as H1 H2.
    apply byte_inj in H1; [|lia|lia]. subst x. destruct Hs as [-> ->]; [lia|]. f_equal. by apply IH.
Qed.
