(* ===== verification/Pagination.v ===== *)
(** * Pages of a list

    [src/common/pagination.ts]: what an untrusted [page] and [limit] become, and
    the envelope of a page.  [Number] and [parseInt] are ECMAScript's conversions
    of a text. *)

From Stdlib Require Import QArith Qround Qabs Qpower Lqa.
From S2P Require Import Prelude JsNumber JsText.

Local Open Scope Z_scope.

(** ** Number(text) *)

Inductive number := NaN | Infinite (minus : bool) | Finite (q : Q).

(** The value of the leading digits, their count, and the rest. *)
Fixpoint digits (base : Z) (value_of : Z -> option Z) (t : text) (acc : Z) (n : nat) : Z * nat * text :=
  match t with
  | c :: t' =>
      match value_of c with
      | Some v => digits base value_of t' (acc * base + v) (S n)
      | None => (acc, n, t)
      end
  | [] => (acc, n, [])
  end.

Definition digit_value (bound : Z) (c : Z) : option Z :=
  let v := if (48 <=? c) && (c <=? 57) then Some (c - 48)
           else if (65 <=? c) && (c <=? 70) then Some (c - 55)
           else if (97 <=? c) && (c <=? 102) then Some (c - 87) else None in
  d ← v; if d <? bound then Some d else None.

Definition decimal (t : text) : Z * nat * text := digits 10 (digit_value 10) t 0 0.

(** [0x], [0o] and [0b] literals. *)
Definition radix_of (t : text) : option (Z * text) :=
  match t with
  | 48 :: x :: t' =>
      if (x =? 120) || (x =? 88) then Some (16, t')
      else if (x =? 111) || (x =? 79) then Some (8, t')
      else if (x =? 98) || (x =? 66) then Some (2, t') else None
  | _ => None
  end.

(** The sign in front of digits: [true] for minus. *)
Definition signed (t : text) : bool * text :=
  match t with
  | 45 :: t' => (true, t')
  | 43 :: t' => (false, t')
  | _ => (false, t)
  end.

(** The exponent part, if there is nothing after it. *)
Definition exponent (t : text) : option Z :=
  match t with
  | [] => Some 0
  | c :: t' =>
      if (c =? 101) || (c =? 69) then
        let '(minus, t'') := signed t' in
        match decimal t'' with
        | (_, O, _) => None
        | (e, _, []) => Some (if minus then - e else e)
        | _ => None
        end
      else None
  end.

(** The exact value of a decimal literal. *)
Definition decimal_value (t : text) : option Q :=
  let '(whole, n, t1) := decimal t in
  let '(frac, m, t2) := match t1 with 46 :: t1' => decimal t1' | _ => (0, O, t1) end in
  if (n + m =? 0)%nat then None
  else e ← exponent t2; Some (inject_Z (whole * 10 ^ Z.of_nat m + frac) * 10 ^ (e - Z.of_nat m))%Q.

(** Rounded to a double; from halfway past the largest one on, an infinity. *)
Definition to_double (q : Q) : number :=
  if Qle_bool ((2 - 2 ^ (-53)) * 2 ^ 1023)%Q (Qabs q) then Infinite (Qnum q <? 0) else Finite (fl q).

Definition Number (s : text) : number :=
  let t := trim s in
  match t with
  | [] => Finite 0
  | _ =>
      match radix_of t with
      | Some (radix, t') =>
          match digits radix (digit_value radix) t' 0 0 with
          | (_, O, _) => NaN
          | (v, _, []) => to_double (inject_Z v)
          | _ => NaN
          end
      | None =>
          let '(minus, t') := signed t in
          if bool_decide (t' = text_of "Infinity") then Infinite minus
          else
            match decimal_value t' with
            | None => NaN
            | Some q => to_double (if minus then - q else q)%Q
            end
      end
  end.

(** [parseInt(s, 10)] *)
Definition parseInt (s : text) : number :=
  let '(minus, t) := signed (trimStart s) in
  match decimal t with
  | (_, O, _) => NaN
  | (v, _, _) => to_double (inject_Z (if minus then - v else v))
  end.

Example number_reads :
  (fun s => Number (text_of s)) <$>
    ["12"; " 50 "; EmptyString; "2.5"; "-3"; "1e2"; "0x1F"; ".5"; "5."; "12px"; "-Infinity"; "1e400"; "."; "1 2"]%string =
  [Finite 12; Finite 50; Finite 0; Finite (5 # 2); Finite (-3); Finite 100; Finite 31; Finite (1 # 2); Finite 5; NaN;
    Infinite true; Infinite false; NaN; NaN].
Proof. vm_compute. reflexivity. Qed.
Example parseInt_reads :
  (fun s => parseInt (text_of s)) <$> ["12"; " 7px"; "-5"; "2.9"; "abc"; EmptyString]%string =
  [Finite 12; Finite 7; Finite (-5); Finite 2; NaN; NaN].
Proof. vm_compute. reflexivity. Qed.

(** ** Arguments and envelope *)

(** A query value: absent, null, a number or a text. *)
Inductive raw := RUndefined | RNull | RNumber (n : number) | RText (t : text).
Definition number_of (r : raw) : number :=
  match r with
  | RUndefined => NaN
  | RNull => Finite 0
  | RNumber n => n
  | RText t => Number t
  end.

Definition DEFAULT_PAGE_SIZE : Z := 50.
Definition MAX_PAGE_SIZE : Z := 200.

Record PaginationArgs := mkPagination { page : Z; limit : Z; skip : Q }.

(** [Number.isInteger(n) && n > 0] *)
Definition positive_integer (n : number) : option Z :=
  match n with
  | Finite q => if js_isInteger q && (0 <? Qnum q) then Some (Qnum q / QDen q) else None
  | _ => None
  end.

Definition parsePagination (pageRaw limitRaw : raw) (defaultLimit maxLimit : Z) : PaginationArgs :=
  let page := default 1 (positive_integer (number_of pageRaw)) in
  let limit := match positive_integer (number_of limitRaw) with
               | Some n => Z.min n maxLimit
               | None => defaultLimit
               end in
  mkPagination page limit (js_mul (js_sub (inject_Z page) 1) (inject_Z limit)).

Record Paginated (A : Type) := mkPaginated {
  pg_items : list A; pg_total : Z; pg_page : Z; pg_limit : Z; pg_totalPages : Z }.
Arguments mkPaginated {A} _ _ _ _ _.
Arguments pg_items {A} _.
Arguments pg_totalPages {A} _.

Definition js_ceil_div (a b : Z) : Z := Math_ceil (js_div (inject_Z a) (inject_Z b)).

Definition paginate {A} (items : list A) (total page limit : Z) : Paginated A :=
  mkPaginated items total page limit (js_ceil_div total limit).

(** [rows.slice(skip, skip + limit)], and a query with [skip] and [take]. *)
Definition slice {A} (skip limit : Z) (rows : list A) : list A :=
  take (Z.to_nat limit) (drop (Z.to_nat skip) rows).

(** ** Bounds *)

Lemma positive_integer_pos n z : positive_integer n = Some z -> 1 <= z.
Proof.
  unfold positive_integer. destruct n as [| |[a b]]; cbn; [done|done|]. unfold js_isInteger. cbn.
  destruct (a mod Z.pos b =? 0) eqn:E; cbn; [|done]. destruct (0 <? a) eqn:Ea; [|done]. intros [= <-]. to_prop.
  pose proof (Z.div_mod a (Z.pos b) ltac:(lia)). nia.
Qed.

Lemma js_nonneg_mul x y : (0 <= x)%Q -> (0 <= y)%Q -> (0 <= js_mul x y)%Q.
Proof. intros Hx Hy. apply fl_nonneg. by apply Qmult_le_0_compat. Qed.

(** C24: whatever [page] and [limit] a caller sends, a list query asks for a page
    from the first on, of at least one row and at most the maximum, and skips a
    non-negative number of rows; up to 2^40 pages that number is exactly the
    rows of the pages before. *)
Theorem pagination_bounds pageRaw limitRaw defaultLimit maxLimit :
  1 <= defaultLimit <= maxLimit -> maxLimit <= 4096 ->
  let args := parsePagination pageRaw limitRaw defaultLimit maxLimit in
  1 <= page args /\ 1 <= limit args <= maxLimit /\ (0 <= skip args)%Q /\
  (page args <= 2 ^ 40 -> (skip args == inject_Z ((page args - 1) * limit args))%Q).
Proof.
  intros Hd Hm args.
  assert (1 <= page args) as Hp.
  { unfold args, parsePagination. cbn. destruct (positive_integer _) eqn:E; cbn; [|lia]. by apply positive_integer_pos in E. }
  assert (1 <= limit args <= maxLimit) as Hl.
  { unfold args, parsePagination. cbn. destruct (positive_integer (number_of limitRaw)) eqn:E; [|lia].
    apply positive_integer_pos in E. lia. }
  assert (skip args = js_mul (js_sub (inject_Z (page args)) 1) (inject_Z (limit args))) as Hs by done.
  split; [done|]. split; [done|]. rewrite Hs. clearbody args. split.
  - apply js_nonneg_mul.
    + apply fl_nonneg. change 1%Q with (inject_Z 1). unfold Qminus. rewrite <- inject_Z_opp, <- inject_Z_plus.
      change 0%Q with (inject_Z 0). rewrite <- Zle_Qle. lia.
    + change 0%Q with (inject_Z 0). rewrite <- Zle_Qle. lia.
  - intros Hb. unfold js_mul, js_sub. change 1%Q with (inject_Z 1). unfold Qminus.
    rewrite <- inject_Z_opp, <- inject_Z_plus, (fl_int (page args + - (1))), <- inject_Z_mult, fl_int by nia.
    f_equiv. lia.
Qed.

(** ** Pages cover the list *)

Lemma Math_ceil_unique x z : (inject_Z z - 1 < x)%Q -> (x <= inject_Z z)%Q -> Math_ceil x = z.
Proof.
  intros H1 H2. pose proof (Math_ceil_spec x) as [H3 H4].
  assert (inject_Z (Math_ceil x) < inject_Z (z + 1))%Q as H5 by (rewrite inject_Z_plus; change (inject_Z 1) with 1%Q; lra).
  assert (inject_Z z < inject_Z (Math_ceil x + 1))%Q as H6 by (rewrite inject_Z_plus; change (inject_Z 1) with 1%Q; lra).
  rewrite <- Zlt_Qlt in H5, H6. lia.
Qed.

(** The rounding of the division never carries a quotient to the next page. *)
Lemma js_ceil_div_exact a b : 0 <= a < 2 ^ 52 -> 0 < b -> js_ceil_div a b = (a + b - 1) / b.
Proof.
  intros Ha Hb. unfold js_ceil_div, js_div. set (q := (a + b - 1) / b).
  assert (Hq : b * (q - 1) + 1 <= a <= b * q).
  { subst q. pose proof (Z.div_mod (a + b - 1) b ltac:(lia)). pose proof (Z.mod_pos_bound (a + b - 1) b Hb). nia. }
  assert (Hq0 : 0 <= q) by (subst q; apply Z.div_pos; lia). assert (Hqa : q <= a + 1) by nia.
  set (x := (inject_Z a / inject_Z b)%Q).
  assert (HB : (0 < inject_Z b)%Q) by (change 0%Q with (inject_Z 0); rewrite <- Zlt_Qlt; lia).
  assert (Hxb : (x * inject_Z b == inject_Z a)%Q) by (unfold x; field; lra).
  assert (Hx0 : (0 <= x)%Q).
  { unfold x. apply Qle_shift_div_l; [done|]. rewrite Qmult_0_l. change 0%Q with (inject_Z 0). rewrite <- Zle_Qle. lia. }
  apply Math_ceil_unique.
  - pose proof (fl_err x) as He. rewrite (Qabs_pos x) in He by done. apply Qabs_Qle_condition in He as [He _].
    assert (Hgap : (inject_Z (b * (q - 1) + 1) <= inject_Z a)%Q) by (rewrite <- Zle_Qle; lia).
    assert (HA : (inject_Z a < 4503599627370496 # 1)%Q).
    { change (4503599627370496 # 1)%Q with (inject_Z (2 ^ 52)). rewrite <- Zlt_Qlt. lia. }
    unfold Z.sub in Hgap. rewrite inject_Z_plus, inject_Z_mult, inject_Z_plus, inject_Z_opp in Hgap.
    change (inject_Z 1) with 1%Q in Hgap. change (2 ^ (-53))%Q with (1 # 9007199254740992) in He.
    set (B := inject_Z b) in *. set (A := inject_Z a) in *. set (P := inject_Z q) in *.
    set (F := fl x) in *. clearbody B A P F x.
    assert (x * B * (1 # 9007199254740992) < 1)%Q by (rewrite Hxb; lra).
    assert (HF : ((P - 1) * B < F * B)%Q).
    { assert ((x - x * (1 # 9007199254740992)) * B <= F * B)%Q by (apply Qmult_le_compat_r; lra). lra. }
    by apply Qmult_lt_r in HF.
  - rewrite <- (fl_int q) by lia. apply fl_mono. unfold x. apply Qle_shift_div_r; [done|].
    rewrite <- inject_Z_mult, <- Zle_Qle. lia.
Qed.

(** The rows of page [p], from 1. *)
Definition page_rows {A} (rows : list A) (limit p : Z) : list A := slice ((p - 1) * limit) limit rows.

Lemma pages_prefix {A} (rows : list A) limit n :
  0 < limit ->
  mjoin (page_rows rows limit ∘ Z.of_nat <$> seq 1 n) = take (n * Z.to_nat limit) rows.
Proof.
  intros Hl. induction n as [|n IH]; [done|].
  rewrite seq_S, fmap_app, join_app, IH. cbn [fmap list_fmap mjoin list_join]. rewrite app_nil_r.
  unfold page_rows, slice. cbn [compose]. replace (Z.to_nat ((Z.of_nat (1 + n) - 1) * limit)) with (n * Z.to_nat limit)%nat by nia.
  rewrite take_take_drop. f_equal. lia.
Qed.

(** Paging loses nothing and repeats nothing: the pages from the first to the
    envelope's [totalPages], one after the other, are the whole list, and no
    earlier page is the last one. *)
Theorem pages_cover {A} (rows : list A) limit :
  0 < limit -> Z.of_nat (length rows) < 2 ^ 52 ->
  let n := pg_totalPages (paginate (page_rows rows limit 1) (Z.of_nat (length rows)) 1 limit) in
  mjoin (page_rows rows limit ∘ Z.of_nat <$> seq 1 (Z.to_nat n)) = rows /\
  forall p, 1 <= p <= n -> page_rows rows limit p <> [].
Proof.
  intros Hl Hlen n. assert (n = (Z.of_nat (length rows) + limit - 1) / limit) as Hn.
  { unfold n, paginate. cbn. apply js_ceil_div_exact; lia. }
  assert (limit * (n - 1) + 1 <= Z.of_nat (length rows) <= limit * n) as Hb.
  { rewrite Hn. pose proof (Z.div_mod (Z.of_nat (length rows) + limit - 1) limit ltac:(lia)).
    pose proof (Z.mod_pos_bound (Z.of_nat (length rows) + limit - 1) limit Hl). nia. }
  clearbody n. split.
  - rewrite pages_prefix by done. apply take_ge. nia.
  - intros p Hp E. apply (f_equal length) in E. unfold page_rows, slice in E. rewrite length_take, length_drop in E.
    cbn in E. nia.
Qed.

Lemma pages_cover_witness : mjoin (page_rows [10; 20; 30; 40; 50] 2 ∘ Z.of_nat <$> seq 1 3) = [10; 20; 30; 40; 50].
Proof.
  pose proof (pages_cover [10; 20; 30; 40; 50] 2 ltac:(lia) ltac:(cbn; lia)) as [H _]. exact H.
Defined.
Lemma pagination_bounds_witness : limit (parsePagination (RText (text_of "3")) (RText (text_of "1e9")) 50 200) <= 200.
Proof.
  apply (pagination_bounds (RText (text_of "3")) (RText (text_of "1e9")) 50 200); lia.
Defined.
