(* ===== verification/Phone.v ===== *)
(** * Phone numbers

    [src/common/phone.ts]: every accepted spelling of a Nigerian number becomes
    one representation, and a keyed digest of that is the blind index a number is
    found by.  A raw string is its list of Unicode code points.  The Unicode
    category C (the regex class [\p{C}]) and the keyed digest are parameters. *)

From Stdlib Require Import Ascii.
From S2P Require Import Prelude JsText.

Definition ZERO_WIDTH_CODEPOINTS : list Z := [8203; 8204; 8205; 8288; 65279].

Definition ten_digits (t : text) : bool := (length t =? 10)%nat && forallb is_digit t.

(** What follows a literal prefix. *)
Definition after (prefix t : text) : option text :=
  if bool_decide (take (length prefix) t = prefix) then Some (drop (length prefix) t) else None.

(** [NIGERIA_LOCAL] and [NIGERIA_INTERNATIONAL]: the captured group. *)
Definition captured (ds : text) : option text := if ten_digits ds then Some ds else None.
Definition NIGERIA_LOCAL (t : text) : option text := after [48] t ≫= captured.
Definition NIGERIA_INTERNATIONAL (t : text) : option text :=
  after [50; 51; 52] (default t (after [43] t)) ≫= captured.

Lemma after_app prefix t : after prefix (prefix ++ t) = Some t.
Proof. unfold after. rewrite take_app_length, drop_app_length. by rewrite bool_decide_eq_true_2. Qed.

Lemma after_some prefix t u : after prefix t = Some u -> t = prefix ++ u.
Proof.
  unfold after. case_bool_decide as E; [|done]. intros [= <-]. by rewrite <- E at 1; rewrite take_drop.
Qed.

Lemma captured_some ds ds' : captured ds = Some ds' <-> ds' = ds /\ ten_digits ds = true.
Proof. unfold captured. destruct (ten_digits ds); intuition congruence. Qed.

Section Phone.
(** [\p{C}]: control, format, surrogate, private-use and unassigned characters. *)
Context (category_C : Z -> bool).
(** [createHmac('sha256', blindIndexKey()).update(_).digest('hex')] *)
Context (hmac : string -> string).

Definition INVISIBLE_CHARS (c : Z) : bool :=
  category_C c || bool_decide (c ∈ ZERO_WIDTH_CODEPOINTS).

(** The characters of [\s], of [\-.()], and the invisible ones. *)
Definition formatting (c : Z) : bool :=
  is_js_whitespace c || bool_decide (c ∈ [45; 46; 40; 41]) || INVISIBLE_CHARS c.

Definition stripPhoneFormatting (raw : text) : text :=
  filter (fun c => INVISIBLE_CHARS c = false)
    (filter (fun c => is_js_whitespace c || bool_decide (c ∈ [45; 46; 40; 41]) = false) raw).

Definition canonicalizePhone (raw : text) : option string :=
  let stripped := stripPhoneFormatting raw in
  let significant :=
    match NIGERIA_LOCAL stripped with
    | Some s => Some s
    | None => NIGERIA_INTERNATIONAL stripped
    end in
  (fun s => "+234" +:+ string_of s) <$> significant.

Definition isValidPhone (raw : text) : bool := bool_decide (is_Some (canonicalizePhone raw)).

Definition phoneBlindIndex (raw : text) : option string :=
  canonical ← canonicalizePhone raw; Some (hmac canonical).

(** ** Spellings of a number *)

Lemma strip_formatting raw :
  stripPhoneFormatting raw = filter (fun c => formatting c = false) raw.
Proof.
  unfold stripPhoneFormatting. rewrite list_filter_filter. apply list_filter_iff. intros c.
  unfold formatting. rewrite !orb_false_iff. tauto.
Qed.

Lemma strip_plain t : Forall (fun c => formatting c = false) t -> stripPhoneFormatting t = t.
Proof.
  rewrite strip_formatting. induction 1 as [|c t H _ IH]; [done|]. by rewrite filter_cons_True, IH.
Qed.

(** Category C holds no digit and no plus sign. *)
Context (digits_visible : forall c, is_digit c = true -> category_C c = false).
Context (plus_visible : category_C 43 = false).

Lemma digit_cases c : is_digit c = true -> 48 <= c <= 57.
Proof. unfold is_digit. intros H. to_prop. lia. Qed.

Lemma digit_plain c : is_digit c = true -> formatting c = false.
Proof.
  intros H. pose proof (digits_visible _ H) as Hc. apply digit_cases in H.
  unfold formatting, INVISIBLE_CHARS. rewrite Hc.
  assert (c ∈ [48; 49; 50; 51; 52; 53; 54; 55; 56; 57]) as Hin.
  { assert (c = 48 \/ c = 49 \/ c = 50 \/ c = 51 \/ c = 52 \/ c = 53 \/ c = 54 \/ c = 55 \/ c = 56
      \/ c = 57) as D by lia. rewrite !elem_of_cons. tauto. }
  clear -Hin. repeat (apply elem_of_cons in Hin as [->|Hin]; [reflexivity|]).
  by apply elem_of_nil in Hin.
Qed.

Lemma plus_plain : formatting 43 = false.
Proof. unfold formatting, INVISIBLE_CHARS. by rewrite plus_visible. Qed.

Lemma ten_digits_forall ds : ten_digits ds = true -> Forall (fun c => is_digit c = true) ds.
Proof.
  unfold ten_digits. intros [_ H]%andb_true_iff. apply Forall_forall. intros c Hc.
  rewrite forallb_forall in H. apply H. done.
Qed.

Lemma digits_plain ds : ten_digits ds = true -> Forall (fun c => formatting c = false) ds.
Proof. intros H%ten_digits_forall. revert H. apply Forall_impl. apply digit_plain. Qed.

(** The three spellings of one number. *)
Definition spellings (ds : text) : list text :=
  [48 :: ds; [50; 51; 52] ++ ds; [43; 50; 51; 52] ++ ds].

Lemma spelling_plus ds : [43; 50; 51; 52] ++ ds ∈ spellings ds.
Proof. unfold spellings. do 2 right. left. Qed.

Lemma spelling_parses ds t :
  ten_digits ds = true -> t ∈ spellings ds ->
  match NIGERIA_LOCAL t with Some s => Some s | None => NIGERIA_INTERNATIONAL t end = Some ds.
Proof.
  intros Hd Ht. assert (captured ds = Some ds) as Hc by (unfold captured; by rewrite Hd).
  unfold spellings in Ht. rewrite !elem_of_cons, elem_of_nil in Ht.
  destruct Ht as [->|[->|[->|[]]]].
  - change (48 :: ds) with ([48] ++ ds). unfold NIGERIA_LOCAL. rewrite after_app. simpl. by rewrite Hc.
  - unfold NIGERIA_INTERNATIONAL.
    change (NIGERIA_LOCAL ([50; 51; 52] ++ ds)) with (@None text).
    change (after [43] ([50; 51; 52] ++ ds)) with (@None text). cbn [from_option id].
    rewrite after_app. exact Hc.
  - unfold NIGERIA_INTERNATIONAL.
    change (NIGERIA_LOCAL ([43; 50; 51; 52] ++ ds)) with (@None text).
    change ([43; 50; 51; 52] ++ ds) with ([43] ++ ([50; 51; 52] ++ ds)). rewrite after_app. cbn [from_option id].
    rewrite after_app. exact Hc.
Qed.

Lemma parses_spelling t ds :
  match NIGERIA_LOCAL t with Some s => Some s | None => NIGERIA_INTERNATIONAL t end = Some ds ->
  ten_digits ds = true /\ t ∈ spellings ds.
Proof.
  unfold spellings. rewrite !elem_of_cons. destruct (NIGERIA_LOCAL t) as [s|] eqn:E.
  - intros [= ->]. apply bind_Some in E as (u & Hu%after_some & [-> Hd]%captured_some). auto.
  - intros (u & Hu & [-> Hd]%captured_some)%bind_Some. apply after_some in Hu. split; [done|].
    destruct (after [43] t) as [t'|] eqn:Et; simpl in Hu; [|auto].
    apply after_some in Et. subst. auto.
Qed.

Lemma spellings_plain ds t : ten_digits ds = true -> t ∈ spellings ds -> stripPhoneFormatting t = t.
Proof.
  intros Hd%digits_plain Ht. apply strip_plain. pose proof plus_plain.
  assert (forall c, c ∈ [48; 50; 51; 52] -> formatting c = false) as Hc.
  { intros c Hc. apply digit_plain. rewrite !elem_of_cons, elem_of_nil in Hc.
    by destruct Hc as [->|[->|[->|[->|[]]]]]. }
  unfold spellings in Ht. rewrite !elem_of_cons, elem_of_nil in Ht.
  destruct Ht as [->|[->|[->|[]]]]; repeat (constructor; [first [done | apply Hc; set_solver]|]); done.
Qed.

Lemma text_of_string ds : ten_digits ds = true -> text_of ("+234" +:+ string_of ds) = [43; 50; 51; 52] ++ ds.
Proof.
  intros Hd%ten_digits_forall. rewrite text_of_app. rewrite text_of_bytes; [done|].
  eapply Forall_impl; [|exact Hd]. intros c Hc%digit_cases. lia.
Qed.

(** *** What people type between the digits *)

(** Characters that carry no meaning: white space, dashes, dots, parentheses,
    control and format characters, and the zero-width set. *)
Inductive filler (c : Z) : Prop :=
| filler_space : is_js_whitespace c = true -> filler c
| filler_mark : c ∈ text_of "-.()" -> filler c
| filler_control : category_C c = true -> filler c
| filler_zero_width : c = 0x200b \/ c = 0x200c \/ c = 0x200d \/ c = 0x2060 \/ c = 0xfeff -> filler c.

(** [decorated raw t]: [raw] is [t] with such characters anywhere in it. *)
Inductive decorated : text -> text -> Prop :=
| deco_end : decorated [] []
| deco_char c raw t : decorated raw t -> decorated (c :: raw) (c :: t)
| deco_filler c raw t : filler c -> decorated raw t -> decorated (c :: raw) t.

Lemma filler_formatting c : filler c <-> formatting c = true.
Proof.
  unfold formatting, INVISIBLE_CHARS. rewrite !orb_true_iff, !bool_decide_eq_true.
  change (text_of "-.()") with [45; 46; 40; 41]. unfold ZERO_WIDTH_CODEPOINTS. rewrite !elem_of_cons, elem_of_nil.
  split.
  - intros [H|H|H|H]; [tauto| |tauto|]; [change (text_of "-.()") with [45; 46; 40; 41] in H;
      rewrite !elem_of_cons, elem_of_nil in H|]; tauto.
  - intros [[H|H]|[H|H]]; [by apply filler_space|apply filler_mark|by apply filler_control|apply filler_zero_width; tauto].
    change (text_of "-.()") with [45; 46; 40; 41]. rewrite !elem_of_cons, elem_of_nil. tauto.
Qed.

Lemma decorated_strip raw : decorated raw (stripPhoneFormatting raw).
Proof.
  rewrite strip_formatting. induction raw as [|c raw IH]; [constructor|].
  destruct (formatting c) eqn:E.
  - rewrite filter_cons_False by congruence. apply deco_filler; [by apply filler_formatting|done].
  - rewrite filter_cons_True by done. by constructor.
Qed.

Lemma strip_decorated raw t : decorated raw t -> stripPhoneFormatting raw = stripPhoneFormatting t.
Proof.
  rewrite !strip_formatting. induction 1 as [|c raw t _ IH|c raw t H _ IH]; [done| |].
  - destruct (formatting c) eqn:E; [by rewrite !filter_cons_False by congruence|].
    by rewrite !filter_cons_True, IH by done.
  - apply filler_formatting in H. by rewrite filter_cons_False by congruence.
Qed.

Lemma ten_digits_spec ds : ten_digits ds = true <-> length ds = 10%nat /\ Forall (fun c => 48 <= c <= 57) ds.
Proof.
  unfold ten_digits. rewrite andb_true_iff, Nat.eqb_eq, forallb_forall. unfold is_digit. split; intros [H1 H2]; (split; [done|]).
  - apply List.Forall_forall. intros c Hc. apply H2 in Hc. to_prop. lia.
  - intros c Hc. rewrite List.Forall_forall in H2. specialize (H2 _ Hc).
    apply andb_true_iff. split; apply Z.leb_le; lia.
Qed.

Lemma accepts raw ds t :
  ten_digits ds = true -> t ∈ spellings ds -> decorated raw t ->
  canonicalizePhone raw = Some ("+234" +:+ string_of ds).
Proof.
  intros Hd Ht Hr. unfold canonicalizePhone.
  rewrite (strip_decorated _ _ Hr), (spellings_plain _ _ Hd Ht). by rewrite (spelling_parses ds t Hd Ht).
Qed.

Lemma accepted raw c : canonicalizePhone raw = Some c ->
  exists ds, ten_digits ds = true /\ stripPhoneFormatting raw ∈ spellings ds /\ c = "+234" +:+ string_of ds.
Proof.
  unfold canonicalizePhone.
  destruct (match NIGERIA_LOCAL _ with Some s => Some s | None => _ end) as [ds|] eqn:E; [|done].
  intros [= <-]. apply parses_spelling in E as [Hd Hs]. eauto.
Qed.

Lemma canonical_fixed raw c : canonicalizePhone raw = Some c -> canonicalizePhone (text_of c) = Some c.
Proof.
  intros (ds & Hd & _ & ->)%accepted. apply (accepts _ ds ([43; 50; 51; 52] ++ ds) Hd (spelling_plus ds)).
  rewrite text_of_string by done. generalize ([43; 50; 51; 52] ++ ds). intros t. induction t; by constructor.
Qed.

Lemma canonical_hash raw c : canonicalizePhone raw = Some c -> phoneBlindIndex (text_of c) = phoneBlindIndex raw.
Proof. intros H. unfold phoneBlindIndex. by rewrite (canonical_fixed _ _ H), H. Qed.

(** C38: one number, one spelling, one hash.  Exactly the local, the [234] and the
    [+234] spellings of ten digits are accepted, with white space, dashes, dots,
    parentheses, control characters and zero-width characters anywhere among
    them, and every one of them becomes the same [+234] string (written here
    apart from the code that strips); so two inputs canonicalize alike exactly
    when their ten digits agree.  The string canonicalizes to itself and has the
    hash of what was typed.  (Unicode's category of control characters, a
    parameter, is assumed to hold no digit and no plus sign.) *)
Theorem canonical_phone raw c :
  (canonicalizePhone raw = Some c <->
   exists ds t, length ds = 10%nat /\ Forall (fun x => 48 <= x <= 57) ds /\
     t ∈ [text_of "0" ++ ds; text_of "234" ++ ds; text_of "+234" ++ ds] /\ decorated raw t /\
     text_of c = text_of "+234" ++ ds) /\
  (canonicalizePhone raw = Some c ->
   canonicalizePhone (text_of c) = Some c /\ phoneBlindIndex (text_of c) = phoneBlindIndex raw).
Proof.
  split; [|intros H; split; [by apply (canonical_fixed raw)|by apply canonical_hash]].
  split.
  - intros (ds & Hd & Hs & ->)%accepted. exists ds, (stripPhoneFormatting raw).
    rewrite text_of_string by done. apply ten_digits_spec in Hd as [H1 H2]. eauto using decorated_strip.
  - intros (ds & t & H1 & H2 & Ht & Hr & Hc). assert (ten_digits ds = true) as Hd by by apply ten_digits_spec.
    rewrite (accepts raw ds t Hd Ht Hr). f_equal.
    apply text_of_inj. by rewrite Hc, text_of_string.
Qed.
End Phone.

(** A spelling with spaces, a dash and a zero-width joiner, under a category C of
    control characters. *)
Definition sample_category_C (c : Z) : bool := (c <? 32) || ((127 <=? c) && (c <? 160)).
Definition sample_typed : text := text_of "0801 234-56" ++ 0x200d :: text_of "78".
Example canonical_phone_witness :
  canonicalizePhone sample_category_C sample_typed = Some "+2348012345678"%string /\
  canonicalizePhone sample_category_C (text_of "+2348012345678") = Some "+2348012345678"%string.
Proof.
  assert (forall c, is_digit c = true -> sample_category_C c = false) as H1.
  { intros c H%digit_cases. unfold sample_category_C.
    rewrite (proj2 (Z.ltb_ge c 32)), (proj2 (Z.leb_gt 127 c)) by lia. done. }
  assert (canonicalizePhone sample_category_C sample_typed = Some "+2348012345678"%string) as E.
  { apply (canonical_phone sample_category_C (fun s => s) H1 eq_refl). exists (text_of "8012345678"), (text_of "08012345678").
    split; [done|]. split; [apply (bool_decide_eq_true_1 _); vm_compute; reflexivity|]. split; [left|]. split; [|done].
    do 4 apply deco_char. apply deco_filler; [by apply filler_space|]. do 3 apply deco_char.
    apply deco_filler; [apply filler_mark; left|]. do 2 apply deco_char. apply deco_filler; [apply filler_zero_width; tauto|].
    do 2 apply deco_char. apply deco_end. }
  split; [exact E|].
  exact (proj1 (proj2 (canonical_phone sample_category_C (fun s => s) H1 eq_refl sample_typed _) E)).
Defined.
