(* ===== verification/InvitePolicy.v ===== *)
(** * The lifecycle rules of an invite

    [src/enrollment-invites/invite-policy.ts], [invite-token.ts],
    [invite-view.ts] and [claim-url.ts]: which statuses hold a student's slot,
    when a link dies, what a token looks like, and what each audience is shown.
    The random bytes and the SHA-256 digest are parameters. *)

From Stdlib Require Import QArith_base Qround Ascii.
From S2P Require Import Prelude JsNumber Money Dates Schedule Schema.

(** ** Windows and statuses *)

Definition DEFAULT_INVITE_EXPIRY_DAYS : Z := 14.
Definition MIN_INVITE_EXPIRY_DAYS : Z := 1.
Definition MAX_INVITE_EXPIRY_DAYS : Z := 30.
Definition MAX_PLAN_START_BACKDATE_MS : Z := 36 * 60 * 60 * 1000.
Definition MAX_PLAN_START_FUTURE_DAYS : Z := 365.

Definition isMigrationWindowOpen (deadline now : Z) : bool := now <? deadline.
Definition migrationDaysRemaining (deadline now : Z) : Z :=
  Z.max 0 (Math_ceil (js_div (inject_Z (deadline - now)) (inject_Z (24 * 60 * 60 * 1000)))).

Definition SLOT_HOLDING_STATUSES : list EnrollmentInviteStatus := [INV_PENDING; INV_DISPUTED; INV_CLAIMED].
Definition EXPIRABLE_STATUSES : list EnrollmentInviteStatus := [INV_PENDING; INV_DISPUTED].

(** [None] is a missing or non-finite request. *)
Definition resolveExpiryDays (requested : option Q) : Z :=
  match requested with
  | None => DEFAULT_INVITE_EXPIRY_DAYS
  | Some requested =>
      let whole := Qfloor requested in
      if whole <? MIN_INVITE_EXPIRY_DAYS then MIN_INVITE_EXPIRY_DAYS
      else if MAX_INVITE_EXPIRY_DAYS <? whole then MAX_INVITE_EXPIRY_DAYS
      else whole
  end.

Definition expiryFrom (now : Z) (requestedDays : option Q) : Z := now + resolveExpiryDays requestedDays * DAY_MS.

Definition status_in (l : list EnrollmentInviteStatus) (i : EnrollmentInvite) : bool :=
  bool_decide (i_status i ∈ l).

Definition hasExpired (invite : EnrollmentInvite) (now : Z) : bool :=
  status_in EXPIRABLE_STATUSES invite && (i_expiresAt invite <=? now).

Definition isActionable (status : EnrollmentInviteStatus) : bool := bool_decide (status = INV_PENDING).

Definition derivePlanEnd (planStartDate : Z) (installmentFrequency : InstallmentFrequency) : Z :=
  installmentDueDate planStartDate (freq_string installmentFrequency)
    (installmentCountFor (freq_string installmentFrequency)).

(** [None] is an invalid date; the result is the message, if any. *)
Definition validatePlanStart (planStartDate : option Z) (now : Z) : option string :=
  match planStartDate with
  | None => Some "Plan start must be a valid date"%string
  | Some start =>
      if start <? now - MAX_PLAN_START_BACKDATE_MS then
        Some "The plan start date cannot be in the past."%string
      else if now + MAX_PLAN_START_FUTURE_DAYS * DAY_MS <? start then
        Some "The plan start date cannot be more than 365 days from now"%string
      else None
  end.

(** ** Tokens *)

Definition TOKEN_BYTES : Z := 32.
Definition INVITE_TOKEN_LENGTH : Z := (TOKEN_BYTES + 2) / 3 * 4 - (3 - TOKEN_BYTES mod 3) mod 3.

(** The alphabet of base64url. *)
Definition base64url (c : ascii) : bool :=
  let n := Z.of_nat (nat_of_ascii c) in
  ((65 <=? n) && (n <=? 90)) || ((97 <=? n) && (n <=? 122)) || ((48 <=? n) && (n <=? 57))
  || (n =? 95) || (n =? 45).

Definition TOKEN_SHAPE (raw : string) : bool :=
  (Z.of_nat (String.length raw) =? INVITE_TOKEN_LENGTH) && forallb base64url (String.list_ascii_of_string raw).

Record MintedInviteToken := mkMinted { mt_token : string; mt_tokenHash : string }.

(** [randomBytes(TOKEN_BYTES).toString('base64url')] is [random]. *)
Definition mintInviteToken (digest : string -> string) (random : string) : MintedInviteToken :=
  mkMinted random (digest random).
Definition hashInviteToken (digest : string -> string) (raw : string) : option string :=
  if TOKEN_SHAPE raw then Some (digest raw) else None.

(** [URLSearchParams] leaves base64url characters as they are. *)
Definition CLAIM_ROUTE : string := "/claim-invite".
Definition CLAIM_TOKEN_PARAM : string := "token".
Definition buildClaimUrl (origin rawToken : string) : string :=
  origin +:+ "/#" +:+ CLAIM_ROUTE +:+ "?" +:+ CLAIM_TOKEN_PARAM +:+ "=" +:+ rawToken.

(** ** What the two audiences see *)

Definition isClaimable (invite : EnrollmentInvite) (now : Z) : bool :=
  isActionable (i_status invite) && (now <? i_expiresAt invite).

Record SchoolInviteView := mkSchoolInviteView {
  sv_id : id;
  sv_studentName : string;
  sv_className : string;
  sv_totalFee : Q;
  sv_amountAlreadyPaid : Q;
  sv_remainingBalance : Q;
  sv_parentPhone : string;
  sv_installmentFrequency : InstallmentFrequency;
  sv_planStartDate : Z;
  sv_termEndDate : Z;
  sv_expiresAt : Z;
  sv_status : EnrollmentInviteStatus;
  sv_isLive : bool;
  sv_disputeReason : option string;
  sv_disputedAt : option Z;
  sv_revokedAt : option Z;
  sv_claimedAt : option Z;
  sv_createdAt : Z;
  sv_enrollmentId : option id;
  sv_claimedByName : option string;
  sv_claimantPhoneMatched : option bool }.

Record ParentInviteView := mkParentInviteView {
  pv_studentName : string;
  pv_className : string;
  pv_schoolName : option string;
  pv_totalFee : Q;
  pv_amountAlreadyPaid : Q;
  pv_remainingBalance : Q;
  pv_installmentFrequency : InstallmentFrequency;
  pv_planStartDate : Z;
  pv_termEndDate : Z;
  pv_expiresAt : Z;
  pv_status : EnrollmentInviteStatus;
  pv_canClaim : bool }.

Definition naira_of (kobo : Z) : Q := Money.toNaira (Money.of_int kobo).

(** The joined rows come apart: the plan's id and the claimant's trimmed name,
    where the query included them. *)
Definition toSchoolInviteView (inviteId : id) (invite : EnrollmentInvite) (enrollmentId : option id)
    (claimedByName : option string) (now : Z) : SchoolInviteView :=
  {| sv_id := inviteId;
     sv_studentName := i_studentName invite;
     sv_className := i_className invite;
     sv_totalFee := naira_of (i_totalSchoolFee invite);
     sv_amountAlreadyPaid := naira_of (i_amountAlreadyPaid invite);
     sv_remainingBalance := naira_of (i_totalSchoolFee invite - i_amountAlreadyPaid invite);
     sv_parentPhone := i_phoneNumber invite;
     sv_installmentFrequency := i_installmentFrequency invite;
     sv_planStartDate := i_planStartDate invite;
     sv_termEndDate := i_termEndDate invite;
     sv_expiresAt := i_expiresAt invite;
     sv_status := i_status invite;
     sv_isLive := isClaimable invite now;
     sv_disputeReason := i_disputeReason invite;
     sv_disputedAt := i_disputedAt invite;
     sv_revokedAt := i_revokedAt invite;
     sv_claimedAt := i_claimedAt invite;
     sv_createdAt := i_createdAt invite;
     sv_enrollmentId := enrollmentId;
     sv_claimedByName := claimedByName;
     sv_claimantPhoneMatched := i_claimantPhoneMatched invite |}.

Definition toParentInviteView (invite : EnrollmentInvite) (schoolName : option string) (now : Z)
    : ParentInviteView :=
  {| pv_studentName := i_studentName invite;
     pv_className := i_className invite;
     pv_schoolName := schoolName;
     pv_totalFee := naira_of (i_totalSchoolFee invite);
     pv_amountAlreadyPaid := naira_of (i_amountAlreadyPaid invite);
     pv_remainingBalance := naira_of (i_totalSchoolFee invite - i_amountAlreadyPaid invite);
     pv_installmentFrequency := i_installmentFrequency invite;
     pv_planStartDate := i_planStartDate invite;
     pv_termEndDate := i_termEndDate invite;
     pv_expiresAt := i_expiresAt invite;
     pv_status := i_status invite;
     pv_canClaim := isClaimable invite now |}.

(** ** Rules *)

Lemma token_length : INVITE_TOKEN_LENGTH = 43.
Proof. reflexivity. Qed.

Lemma resolveExpiryDays_range requested : 1 <= resolveExpiryDays requested <= 30.
Proof.
  unfold resolveExpiryDays, DEFAULT_INVITE_EXPIRY_DAYS, MIN_INVITE_EXPIRY_DAYS, MAX_INVITE_EXPIRY_DAYS.
  destruct requested; [|lia]. repeat case_if; lia.
Qed.

(** A fresh link is live, and dies within thirty days. *)
Lemma expiryFrom_range now requested :
  now + DAY_MS <= expiryFrom now requested <= now + 30 * DAY_MS.
Proof.
  unfold expiryFrom. pose proof (resolveExpiryDays_range requested). unfold DAY_MS. nia.
Qed.

Lemma claimable_not_expired invite now : isClaimable invite now = true -> hasExpired invite now = false.
Proof.
  unfold isClaimable, hasExpired. intros [_ H]%andb_true_iff. apply andb_false_iff. right. to_prop. lia.
Qed.

Lemma claimable_spec invite now :
  isClaimable invite now = true <-> i_status invite = INV_PENDING /\ now < i_expiresAt invite.
Proof. unfold isClaimable, isActionable. by rewrite andb_true_iff, bool_decide_eq_true, Z.ltb_lt. Qed.
