(* ===== verification/Invites.v ===== *)
(** * Enrollment invites

    [src/enrollment-invites/enrollment-invites.service.ts]: a school states what a
    family has already paid, the parent holding the link confirms or disputes
    it, and a claim opens the plan through the ledger.  What the request brings
    from outside (clock, random bytes, origin, who can be notified) is a
    [Request]; the database's case folding and the digests are a [Platform]. *)

From Stdlib Require Import QArith_base.
From S2P Require Import Prelude JsNumber Money Dates Schedule Schema Effects MigratedPlan Ledger LedgerCard.
From S2P Require Import LedgerMigrated PaymentCalc EnrollmentView Enrollment JsText Phone InvitePolicy.

Record Platform := mkPlatform {
  lower : string -> string;
  digest : string -> string;
  category_C : Z -> bool;
  hmac : string -> string }.

Record Request := mkRequest {
  rq_now : Z;
  rq_origin : option string;
  rq_random : string;
  rq_reaches : id -> bool }.

Record CreateEnrollmentInviteDto := mkCreateInviteDto {
  ci_studentName : string;
  ci_className : string;
  ci_amountAlreadyPaid : Q;
  ci_parentPhone : text;
  ci_installmentFrequency : InstallmentFrequency;
  ci_planStartDate : Z;
  ci_expiresInDays : option Q }.

Definition actor_of (user : AuthUser) : AuditActor := mkActor (au_userId user) (au_role user).

Definition INVITE_UNAVAILABLE : failure := FNotFound "This invite link is not valid.".

Section Invites.
Context (sys : Platform).

(** ** The table and its unique indexes *)

(** [EnrollmentInvite_live_student_key] *)
Definition live_clash (i j : EnrollmentInvite) : bool :=
  bool_decide (i_schoolId i = i_schoolId j) && String.eqb (i_studentName i) (i_studentName j)
  && String.eqb (i_className i) (i_className j)
  && status_in SLOT_HOLDING_STATUSES i && status_in SLOT_HOLDING_STATUSES j.

(** Names compared as [mode: 'insensitive'] and [lower()] do. *)
Definition insensitive (a b : string) : bool := String.eqb (lower sys a) (lower sys b).

(** [EnrollmentInvite_migrated_student_key] *)
Definition migrated_clash (i j : EnrollmentInvite) : bool :=
  bool_decide (i_schoolId i = i_schoolId j) && insensitive (i_studentName i) (i_studentName j)
  && status_in [INV_CLAIMED] i && status_in [INV_CLAIMED] j.

Definition by_tokenHash (hash : string) (i : EnrollmentInvite) : bool := String.eqb (i_tokenHash i) hash.

(** The index a row would violate next to the others. *)
Definition inviteConflict (inviteId : id) (i : EnrollmentInvite) (d : DB) : option string :=
  let others := delete inviteId (invites d) in
  if taken (live_clash i) others then Some "EnrollmentInvite_live_student_key"
  else if taken (migrated_clash i) others then Some "EnrollmentInvite_migrated_student_key"
  else if taken (by_tokenHash (i_tokenHash i)) others then Some "tokenHash"
  else None.

Definition writeInvite (inviteId : id) (i : EnrollmentInvite) : M unit :=
  conflict ← read (inviteConflict inviteId i);
  match conflict with
  | Some index => throw (FUnique index)
  | None => write (fun d => set_invites (<[inviteId := i]> (invites d)) d)
  end.

(** [enrollmentInvite.updateMany({ where: { id, ...cond }, data })] *)
Definition saveInvite (inviteId : id) (cond : EnrollmentInvite -> bool)
    (data : EnrollmentInvite -> EnrollmentInvite) : M Z :=
  i ← read (fun d => invites d !! inviteId);
  match i with
  | Some i => if cond i then writeInvite inviteId (data i);; mret 1 else mret 0
  | None => mret 0
  end.

(** The table's check constraints. *)
Definition invite_checks (i : EnrollmentInvite) : bool :=
  (0 <? i_totalSchoolFee i) && (0 <=? i_amountAlreadyPaid i)
  && (i_amountAlreadyPaid i <=? i_totalSchoolFee i) && (i_planStartDate i <? i_termEndDate i).

(** [enrollmentInvite.create] *)
Definition createInvite (i : EnrollmentInvite) : M id :=
  ensure (invite_checks i) (FInternal "check constraint violated");;
  inviteId ← fresh_id;
  writeInvite inviteId i;;
  mret inviteId.

Definition isUniqueViolation (error : failure) : bool :=
  match error with FUnique _ => true | _ => false end.
Definition isAlreadyMigratedViolation (error : failure) : bool :=
  isUniqueConflictOn error "EnrollmentInvite_migrated_student_key".

(** ** Guards *)

Definition assertOwnsSchool (actor : AuthUser) : M (id * School) :=
  match au_role actor, au_userSchoolId actor with
  | SCHOOL_OWNER, Some schoolId =>
      school ← read (fun d => schools d !! schoolId);
      school ← orThrow school (FForbidden "You can only manage enrollment invites for your own school");
      ensure (bool_decide (s_ownerId school = au_userId actor) && bool_decide (s_deletedAt school = None))
        (FForbidden "You can only manage enrollment invites for your own school");;
      mret (schoolId, school)
  | _, _ => throw (FForbidden "Only a school owner can manage enrollment invites")
  end.

Definition migrated_as (schoolId : id) (studentName : string) (i : EnrollmentInvite) : bool :=
  bool_decide (i_schoolId i = schoolId) && insensitive (i_studentName i) studentName
  && status_in [INV_CLAIMED] i.

Definition assertNotAlreadyMigrated (schoolId : id) (studentName : string) : M unit :=
  migrated ← read (fun d => find_row (migrated_as schoolId studentName) (invites d));
  ensure (bool_decide (migrated = None))
    (FBadRequest "This student has already been migrated onto Lopay").

Definition assertNoLiveInvite (schoolId : id) (studentName className : string) : M unit :=
  existing ← read (fun d => find_row (fun i => bool_decide (i_schoolId i = schoolId)
    && insensitive (i_studentName i) studentName && insensitive (i_className i) className
    && status_in SLOT_HOLDING_STATUSES i) (invites d));
  match existing with
  | None => mret tt
  | Some (_, existing) => throw (FBadRequest
      (if bool_decide (i_status existing = INV_CLAIMED) then "This student has already been migrated"
       else "There is already a live invite for this student"))
  end.

Definition notifyUser (rq : Request) (userId : id) (title : string) (type : NotificationType)
    (link : string) : M unit :=
  when (rq_reaches rq userId) (notify (mkNotification userId title type link)).

Record Share := mkShare { sh_claimUrl : string; sh_expiresAt : Z }.
Definition buildShare (origin rawToken : string) (expiresAt : Z) : Share :=
  mkShare (buildClaimUrl origin rawToken) expiresAt.

(** ** The school's side *)

Definition create (rq : Request) (dto : CreateEnrollmentInviteDto) (actor : AuthUser)
    : M (SchoolInviteView * Share) :=
  '(schoolId, school) ← assertOwnsSchool actor;
  let now := rq_now rq in
  origin ← orThrow (rq_origin rq) (FInternal "WEB_APP_URL must be set to build an invite link");
  ensure (isMigrationWindowOpen (s_migrationDeadline school) now)
    (FBadRequest "Your migration window has closed, so new invites cannot be issued.");;
  parentPhone ← orThrow (canonicalizePhone (category_C sys) (ci_parentPhone dto))
    (FBadRequest "Enter a valid Nigerian phone number, e.g. 08012345678");
  parentPhoneHash ← orThrow (phoneBlindIndex (category_C sys) (hmac sys) (ci_parentPhone dto))
    (FBadRequest "Enter a valid Nigerian phone number, e.g. 08012345678");
  match validatePlanStart (Some (ci_planStartDate dto)) now with
  | Some startError => throw (FBadRequest startError)
  | None => mret tt
  end;;
  let termEndDate := derivePlanEnd (ci_planStartDate dto) (ci_installmentFrequency dto) in
  assertNotAlreadyMigrated schoolId (ci_studentName dto);;
  classFee ← read (fun d => find_row (fun f => bool_decide (cf_schoolId f = schoolId)
    && String.eqb (cf_className f) (ci_className dto) && cf_isActive f) (classFees d));
  classFee ← orThrow classFee (FBadRequest "No active fee is published for this class.");
  let totalSchoolFee := cf_feeAmount classFee.2 in
  let amountAlreadyPaid := kobo_of (ci_amountAlreadyPaid dto) in
  ensure (amountAlreadyPaid <=? totalSchoolFee) (FBadRequest "Amount already paid cannot exceed the fee");;
  assertNoLiveInvite schoolId (ci_studentName dto) (ci_className dto);;
  let token := mintInviteToken (digest sys) (rq_random rq) in
  let expiresAt := expiryFrom now (ci_expiresInDays dto) in
  let invite := {|
    i_schoolId := schoolId;
    i_createdByUserId := au_userId actor;
    i_studentName := ci_studentName dto;
    i_className := ci_className dto;
    i_totalSchoolFee := totalSchoolFee;
    i_amountAlreadyPaid := amountAlreadyPaid;
    i_phoneNumber := parentPhone;
    i_parentPhoneHash := parentPhoneHash;
    i_installmentFrequency := ci_installmentFrequency dto;
    i_planStartDate := ci_planStartDate dto;
    i_termEndDate := termEndDate;
    i_tokenHash := mt_tokenHash token;
    i_expiresAt := expiresAt;
    i_status := INV_PENDING;
    i_disputeReason := None;
    i_disputedAt := None;
    i_revokedAt := None;
    i_revokedByUserId := None;
    i_claimedByUserId := None;
    i_claimedAt := None;
    i_claimantPhoneMatched := None;
    i_createdAt := now |} in
  inviteId ← catch (createInvite invite) (fun error =>
    if isUniqueViolation error then throw (FBadRequest "There is already a live invite for this student")
    else throw error);
  audit_record (mkAudit ENROLLMENT_INVITE_CREATED "EnrollmentInvite" inviteId (Some (actor_of actor))
    (Some schoolId) None None None
    [("studentName", JStr (i_studentName invite)); ("className", JStr (i_className invite));
     ("totalSchoolFee", JNum totalSchoolFee); ("amountAlreadyPaid", JNum amountAlreadyPaid);
     ("expiresAt", JNum expiresAt)]);;
  mret (toSchoolInviteView inviteId invite None None now, buildShare origin (mt_token token) expiresAt).

(** [enrollmentInvite.findFirst({ where: { id, schoolId } })] *)
Definition invite_of_school (inviteId schoolId : id) (d : DB) : option EnrollmentInvite :=
  i ← invites d !! inviteId; if bool_decide (i_schoolId i = schoolId) then Some i else None.

Definition of_status (schoolId : id) (l : list EnrollmentInviteStatus) (i : EnrollmentInvite) : bool :=
  bool_decide (i_schoolId i = schoolId) && status_in l i.

Definition revoked_by (userId : id) (now : Z) (i : EnrollmentInvite) : EnrollmentInvite :=
  set_i_revokedByUserId (Some userId) (set_i_revokedAt (Some now) (set_i_status INV_REVOKED i)).

Definition revoke (rq : Request) (inviteId : id) (actor : AuthUser) (reason : option string) : M unit :=
  '(schoolId, _) ← assertOwnsSchool actor;
  invite ← read (invite_of_school inviteId schoolId);
  invite ← orThrow invite (FNotFound "Invite not found");
  revoked ← saveInvite inviteId (of_status schoolId [INV_PENDING; INV_DISPUTED])
    (revoked_by (au_userId actor) (rq_now rq));
  ensure (negb (revoked =? 0)) (FBadRequest
    (if bool_decide (i_status invite = INV_CLAIMED) then "This invite has already been claimed."
     else "This invite cannot be cancelled."));;
  audit_record (mkAudit ENROLLMENT_INVITE_REVOKED "EnrollmentInvite" inviteId (Some (actor_of actor))
    (Some schoolId) reason (Some [("status", JInv (i_status invite))]) (Some [("status", JInv INV_REVOKED)]) []).

Definition REISSUE_REFUSALS (s : EnrollmentInviteStatus) : string :=
  match s with
  | INV_CLAIMED => "This invite has already been claimed, so a new link would do nothing."
  | INV_DISPUTED => "This parent says the recorded amount is wrong."
  | INV_REVOKED => "This invite was cancelled."
  | INV_PENDING | INV_EXPIRED => "This invite was just changed by someone else - reload and try again."
  end.

Definition reissue (rq : Request) (inviteId : id) (actor : AuthUser) : M (SchoolInviteView * Share) :=
  '(schoolId, school) ← assertOwnsSchool actor;
  let now := rq_now rq in
  origin ← orThrow (rq_origin rq) (FInternal "WEB_APP_URL must be set to build an invite link");
  ensure (isMigrationWindowOpen (s_migrationDeadline school) now)
    (FBadRequest "Your migration window has closed, so new invite links cannot be issued.");;
  invite ← read (invite_of_school inviteId schoolId);
  invite ← orThrow invite (FNotFound "Invite not found");
  let token := mintInviteToken (digest sys) (rq_random rq) in
  let expiresAt := expiryFrom now None in
  reissued ← saveInvite inviteId (of_status schoolId [INV_PENDING; INV_EXPIRED])
    (fun i => set_i_expiresAt expiresAt (set_i_tokenHash (mt_tokenHash token) (set_i_status INV_PENDING i)));
  ensure (negb (reissued =? 0)) (FBadRequest (REISSUE_REFUSALS (i_status invite)));;
  audit_record (mkAudit ENROLLMENT_INVITE_CREATED "EnrollmentInvite" inviteId (Some (actor_of actor))
    (Some schoolId) None
    (Some [("status", JInv (i_status invite)); ("expiresAt", JNum (i_expiresAt invite))])
    (Some [("status", JInv INV_PENDING); ("expiresAt", JNum expiresAt)])
    [("reissuedFrom", JInv (i_status invite)); ("studentName", JStr (i_studentName invite));
     ("className", JStr (i_className invite))]);;
  mret (toSchoolInviteView inviteId (set_i_expiresAt expiresAt invite) None None now,
        buildShare origin (mt_token token) expiresAt).

(** [include: { enrollment: ... }] *)
Definition plan_of_invite (inviteId : id) (d : DB) : option (id * ChildEnrollment) :=
  find_row (fun e => bool_decide (e_enrollmentInviteId e = Some inviteId)) (enrollments d).

Definition amend (rq : Request) (inviteId : id) (amountAlreadyPaid : Q) (reason : option string)
    (actor : AuthUser) (reached : bool) : M AmendResult :=
  '(schoolId, _) ← assertOwnsSchool actor;
  invite ← read (invite_of_school inviteId schoolId);
  invite ← orThrow invite (FNotFound "Invite not found");
  enrollment ← read (plan_of_invite inviteId);
  enrollment ← orThrow enrollment
    (FBadRequest "This invite has not been claimed yet, so there is no plan to correct.");
  amendMigratedPayment reached enrollment.1 (kobo_of amountAlreadyPaid) schoolId (actor_of actor) reason.

Definition release_tx (inviteId schoolId enrollmentId childId : id) (actor : AuthUser)
    (reason : option string) (now : Z) : M unit :=
  released ← saveInvite inviteId (of_status schoolId [INV_CLAIMED]) (revoked_by (au_userId actor) now);
  ensure (negb (released =? 0))
    (FBadRequest "This invite was already changed by someone else - reload and try again.");;
  releaseMigratedEnrollment enrollmentId childId inviteId schoolId (actor_of actor) reason;;
  mret tt.

Definition release (rq : Request) (inviteId : id) (actor : AuthUser) (reason : option string) : M unit :=
  '(schoolId, _) ← assertOwnsSchool actor;
  invite ← read (invite_of_school inviteId schoolId);
  invite ← orThrow invite (FNotFound "Invite not found");
  enrollment ← read (plan_of_invite inviteId);
  enrollment ← orThrow enrollment (FBadRequest
    (if bool_decide (i_status invite = INV_CLAIMED) then "This invite has no plan behind it."
     else "This invite has not been claimed, so there is no plan to remove."));
  transaction (release_tx inviteId schoolId enrollment.1 (e_childId enrollment.2) actor reason (rq_now rq));;
  match i_claimedByUserId invite with
  | Some claimant => notifyUser rq claimant "A payment plan was removed" NT_ALERT "/dashboard"
  | None => mret tt
  end;;
  emit (EvEnrollmentsChanged (i_claimedByUserId invite) (Some schoolId) true);;
  emit (EvPaymentsChanged (i_claimedByUserId invite) (Some schoolId) true).

(** ** The parent's side *)

(** A lapsed invite is retired on the way, and is read as EXPIRED. *)
Definition findByToken (rq : Request) (rawToken : string) : M (id * EnrollmentInvite * string) :=
  tokenHash ← orThrow (hashInviteToken (digest sys) rawToken) INVITE_UNAVAILABLE;
  found ← read (fun d => find_row (by_tokenHash tokenHash) (invites d));
  found ← orThrow found INVITE_UNAVAILABLE;
  let '(inviteId, invite) := found in
  if hasExpired invite (rq_now rq) then
    catch (saveInvite inviteId (status_in EXPIRABLE_STATUSES) (set_i_status INV_EXPIRED);; mret tt)
      (fun _ => mret tt);;
    mret (inviteId, set_i_status INV_EXPIRED invite, tokenHash)
  else mret (inviteId, invite, tokenHash).

Definition preview (rq : Request) (rawToken : string) : M ParentInviteView :=
  '(_, invite, _) ← findByToken rq rawToken;
  schoolName ← read (fun d => s_name <$> schools d !! i_schoolId invite);
  mret (toParentInviteView invite schoolName (rq_now rq)).

Definition claimantPhoneMatches (invite : EnrollmentInvite) (userId : id) (d : DB) : option bool :=
  account ← users d !! userId;
  phoneHash ← truthy (u_phoneHash account);
  Some (String.eqb phoneHash (i_parentPhoneHash invite)).

(** [createMany({ skipDuplicates: true })] and the read that follows. *)
Definition resolveParent (userId : id) : M id :=
  account ← read (fun d => users d !! userId);
  account ← orThrow account P2025;
  existing ← read (parent_of userId);
  match existing with
  | Some (parentId, _) => mret parentId
  | None =>
      parentId ← fresh_id;
      write (fun d => set_parents
        (<[parentId := mkParent userId (default EmptyString (u_phoneNumber account))]> (parents d)) d);;
      mret parentId
  end.

Definition resolveChild (parentId : id) (invite : EnrollmentInvite) : M id :=
  let identity := mkChild parentId (i_studentName invite) (i_className invite) in
  existing ← read (find_child identity);
  match existing with
  | Some (childId, _) => mret childId
  | None =>
      childId ← fresh_id;
      write (fun d => set_children (<[childId := identity]> (children d)) d);;
      mret childId
  end.

Definition claim_cond (tokenHash : string) (now : Z) (i : EnrollmentInvite) : bool :=
  by_tokenHash tokenHash i && status_in [INV_PENDING] i && (now <? i_expiresAt i).

Definition claimed_by (userId : id) (phoneMatched : option bool) (now : Z) (i : EnrollmentInvite)
    : EnrollmentInvite :=
  set_i_claimantPhoneMatched phoneMatched (set_i_claimedAt (Some now)
    (set_i_claimedByUserId (Some userId) (set_i_status INV_CLAIMED i))).

Definition claim_tx (inviteId : id) (invite : EnrollmentInvite) (tokenHash : string) (user : AuthUser)
    (phoneMatched : option bool) (now : Z) : M MigratedClaim :=
  claimed ← saveInvite inviteId (claim_cond tokenHash now) (claimed_by (au_userId user) phoneMatched now);
  ensure (negb (claimed =? 0)) (FBadRequest "This invite is no longer available.");;
  parentId ← resolveParent (au_userId user);
  childId ← resolveChild parentId invite;
  recordMigratedEnrollment inviteId invite childId (au_userId user) (actor_of user) now.

Definition runClaimTransaction {A} (work : M A) : M A :=
  catch (transaction work) (fun error =>
    if negb (isUniqueViolation error) then throw error
    else if isAlreadyMigratedViolation error then
      throw (FBadRequest "This student has already been migrated onto Lopay.")
    else throw (FBadRequest "Something else changed this student's records. Please try again.")).

(** Title, type and link by the outcome of the comparison. *)
Definition claimNotification (phoneMatched : option bool) (ownerId : id) : Notification :=
  match phoneMatched with
  | Some false => mkNotification ownerId "Migration invite claimed - check this one" NT_ALERT "/school/invites"
  | _ => mkNotification ownerId "Migration invite claimed" NT_PAYMENT "/school-owner-dashboard"
  end.

Record ClaimResult := mkClaimResult {
  cr_enrollmentId : id;
  cr_studentName : string;
  cr_className : string;
  cr_schoolName : string;
  cr_totalFee : Q;
  cr_amountAlreadyPaid : Q;
  cr_remainingBalance : Q;
  cr_paymentStatus : PaymentStatus;
  cr_planStartDate : Z }.

(** From the resolved invite on: checks, the transaction, the announcements. *)
Definition claim_resolved (rq : Request) (inviteId : id) (invite : EnrollmentInvite) (tokenHash : string)
    (user : AuthUser) : M ClaimResult :=
  phoneMatched ← read (claimantPhoneMatches invite (au_userId user));
  assertNotAlreadyMigrated (i_schoolId invite) (i_studentName invite);;
  school ← read (fun d => schools d !! i_schoolId invite);
  school ← orThrow school (FBadRequest "This school is no longer active on Lopay");
  ensure (bool_decide (s_deletedAt school = None)) (FBadRequest "This school is no longer active on Lopay");;
  result ← runClaimTransaction (claim_tx inviteId invite tokenHash user phoneMatched (rq_now rq));
  announceMigratedEnrollment (rq_reaches rq (au_userId user)) (au_userId user) (i_schoolId invite);;
  let n := claimNotification phoneMatched (s_ownerId school) in
  notifyUser rq (n_userId n) (n_title n) (n_type n) (n_link n);;
  let enrollment := mc_enrollment result in
  mret {|
    cr_enrollmentId := mc_enrollmentId result;
    cr_studentName := i_studentName invite;
    cr_className := i_className invite;
    cr_schoolName := s_name school;
    cr_totalFee := naira_of (e_totalSchoolFee enrollment);
    cr_amountAlreadyPaid := naira_of (e_firstPaymentPaid enrollment);
    cr_remainingBalance := naira_of (e_remainingBalance enrollment);
    cr_paymentStatus := e_paymentStatus enrollment;
    cr_planStartDate := e_termStartDate enrollment |}.

Definition claim (rq : Request) (rawToken : string) (user : AuthUser) : M ClaimResult :=
  '(inviteId, invite, tokenHash) ← findByToken rq rawToken;
  claim_resolved rq inviteId invite tokenHash user.

Definition disputed (reason : string) (now : Z) (i : EnrollmentInvite) : EnrollmentInvite :=
  set_i_disputedAt (Some now) (set_i_disputeReason (Some reason) (set_i_status INV_DISPUTED i)).

Definition dispute (rq : Request) (rawToken : string) (user : AuthUser) (reason : string) : M id :=
  '(inviteId, invite, _) ← findByToken rq rawToken;
  n ← saveInvite inviteId (fun i => status_in [INV_PENDING] i && (rq_now rq <? i_expiresAt i))
    (disputed reason (rq_now rq));
  ensure (negb (n =? 0)) (FBadRequest "This invite is no longer awaiting your confirmation.");;
  audit_record (mkAudit ENROLLMENT_INVITE_DISPUTED "EnrollmentInvite" inviteId (Some (actor_of user))
    (Some (i_schoolId invite)) (Some reason)
    (Some [("status", JInv INV_PENDING)]) (Some [("status", JInv INV_DISPUTED)]) []);;
  school ← read (fun d => schools d !! i_schoolId invite);
  match school with
  | Some school => notifyUser rq (s_ownerId school) "Parent disputed a migration invite" NT_ALERT "/school/invites"
  | None => mret tt
  end;;
  mret inviteId.

(** ** Upkeep *)

Definition invites_where (cond : EnrollmentInvite -> bool) (d : DB) : list (id * EnrollmentInvite) :=
  filter (fun kv : id * EnrollmentInvite => cond kv.2 = true) (map_to_list (invites d)).

(** One notification per school with an invite in the list, unless it left. *)
Definition notifySchools (rq : Request) (due : list (id * EnrollmentInvite)) (title : string) : M unit :=
  owners ← read (fun d => s_ownerId ∘ snd <$> filter (fun kv : id * School =>
    kv.1 ∈ (i_schoolId ∘ snd <$> due) /\ s_deletedAt kv.2 = None) (map_to_list (schools d)));
  foldr (fun owner k => notifyUser rq owner title NT_ALERT "/school/invites";; k) (mret tt) owners.

(** [updateMany({ where: { id: { in: ids } }, data: { status: EXPIRED } })] *)
Definition expire_rows (ids : list id) (d : DB) : DB :=
  set_invites (foldr (alter (set_i_status INV_EXPIRED)) (invites d) ids) d.

Definition expireStale_update (due : list (id * EnrollmentInvite)) : M Z :=
  count ← read (fun d => Z.of_nat (length (filter (fun i => is_Some (invites d !! i)) due.*1)));
  write (expire_rows due.*1);;
  mret count.

Definition expireStale (rq : Request) : M Z :=
  due ← read (invites_where (fun i => hasExpired i (rq_now rq)));
  if (length due =? 0)%nat then mret 0
  else
    count ← expireStale_update due;
    notifySchools rq due "Migration invites expired unclaimed";;
    mret count.

Definition EXPIRY_REMINDER_LEAD_MS : Z := 3 * DAY_MS.

Definition remindExpiring (rq : Request) : M Z :=
  let from := rq_now rq + EXPIRY_REMINDER_LEAD_MS in
  let to := from + DAY_MS in
  soon ← read (invites_where (fun i => status_in [INV_PENDING] i
    && (from <=? i_expiresAt i) && (i_expiresAt i <? to)));
  if (length soon =? 0)%nat then mret 0
  else
    notifySchools rq soon "Migration invites expire in 3 days";;
    mret (Z.of_nat (length soon)).
End Invites.
