(* ===== verification/Scheduler.v ===== *)
(** * The scheduled jobs

    [src/scheduler/] and [withLeaderLock] of [src/prisma/prisma.service.ts]: a job
    runs on the one instance that claims its lock row, and the row's age frees
    it.  An instance has its own clock; the database stamps the row with its
    own. *)

From Stdlib Require Import QArith_base.
From S2P Require Import Prelude JsNumber Money Schedule Schema Effects Ledger LedgerCard Enrollment.
From S2P Require Import InvitePolicy Invites.

(** ** The leader lock *)

Record Clock := mkClock { appNow : Z; dbNow : Z }.

(** [INSERT ... ON CONFLICT DO UPDATE ... WHERE lockedAt < cutoff]: rows written. *)
Definition acquireLock (name : string) (cutoff dbNow : Z) : M Z :=
  old ← read (fun d => schedulerLocks d !! name);
  if default true ((fun lockedAt => lockedAt <? cutoff) <$> old) then
    write (fun d => set_schedulerLocks (<[name := dbNow]> (schedulerLocks d)) d);; mret 1
  else mret 0.

Definition withLeaderLock (name : string) (ttlMs : Z) (clock : Clock) (fn : M unit) : M bool :=
  let cutoff := appNow clock - ttlMs in
  acquired ← acquireLock name cutoff (dbNow clock);
  if negb (acquired =? 1) then mret false
  else fn;; mret true.

(** ** Defaulter detection *)

Definition overdue_cond (now : Z) (e : ChildEnrollment) : bool :=
  bool_decide (e_paymentStatus e = ACTIVE) && (e_termEndDate e <? now) && (0 <? e_remainingBalance e).

(** The overdue plans with what the sweep needs of them. *)
Definition overdue (now : Z) (d : DB) : list Joined :=
  omap (fun kv : id * ChildEnrollment => if overdue_cond now kv.2 then join_enrollment d kv.1 else None)
    (map_to_list (enrollments d)).

(** [Promise.all]: the flips touch distinct rows, here one after the other. *)
Definition runDetection (now : Z) : M unit :=
  due ← read (overdue now);
  foldr (fun j k => markEnrollmentDefaultedBySweep j;; k) (mret tt) due.

Definition detectDefaulters (clock : Clock) : M bool :=
  withLeaderLock "defaulter-detection" (6 * 60 * 60 * 1000) clock (runDetection (appNow clock)).

(** ** Orphaned card payments *)

Definition MIN_AGE_MS : Z := 5 * 60 * 1000.
Definition ABANDON_AGE_MS : Z := 24 * 60 * 60 * 1000.

Definition stale_cond (now : Z) (p : Payment) : bool :=
  has_status TX_PENDING p && bool_decide (is_Some (p_paystackReference p))
  && (p_paymentDate p <? now - MIN_AGE_MS).

(** The reference and date of at most a hundred stale payments. *)
Definition stale_payments (now : Z) (d : DB) : list (string * Z) :=
  take 100 (omap (fun kv : id * Payment =>
    if stale_cond now kv.2 then (fun r => (r, p_paymentDate kv.2)) <$> p_paystackReference kv.2 else None)
    (map_to_list (payments d))).

(** One payment of the sweep: ask Paystack, then settle; every throw is logged. *)
Definition sweep_one (env : Env) (now : Z) (p : string * Z) : M unit :=
  let '(reference, paymentDate) := p in
  match verifyTransaction env reference with
  | VerifyOk status fees _ =>
      catch
        (if String.eqb status "success" then
           reconcilePaystackPayment (toLocaleString env) (delivery env) reference fees None now;; mret tt
         else if String.eqb status "failed" then failPaystackPayment reference;; mret tt
         else when (ABANDON_AGE_MS <? now - paymentDate) (failPaystackPayment reference;; mret tt))
        (fun _ => mret tt)
  | VerifyUnknownReference | VerifyFailed => mret tt
  end.

Definition runSweep (env : Env) : M unit :=
  stale ← read (stale_payments (now env));
  foldr (fun p k => sweep_one env (now env) p;; k) (mret tt) stale.

Definition sweep (env : Env) (clock : Clock) : M bool :=
  withLeaderLock "paystack-reconciliation" (5 * 60 * 1000) clock (runSweep env).

(** ** Invites *)

Definition expireInvites (rq : Request) (clock : Clock) : M bool :=
  withLeaderLock "enrollment-invite-expiry" (30 * 60 * 1000) clock
    (catch (expireStale rq;; mret tt) (fun _ => mret tt)).

Definition remindExpiringInvites (rq : Request) (clock : Clock) : M bool :=
  withLeaderLock "enrollment-invite-expiry-reminder" (30 * 60 * 1000) clock
    (catch (remindExpiring rq;; mret tt) (fun _ => mret tt)).

(** ** Stalled confirmations *)

Definition STALL_THRESHOLD_MS : Z := 60 * 60 * 1000.

Definition stalled_cond (cutoff : Z) (p : Payment) : bool :=
  has_status TX_PENDING p && negb (p_isConfirmed p) && (p_paymentDate p <? cutoff).

Definition runCheck (now : Z) : M Z :=
  let cutoff := now - STALL_THRESHOLD_MS in
  stalled ← read (fun d => Z.of_nat (length
    (filter (fun kv : id * Payment => stalled_cond cutoff kv.2 = true) (map_to_list (payments d)))));
  emit (MetricStalledConfirmations stalled);;
  when (0 <? stalled) (emit (CaptureStalled stalled));;
  mret stalled.

Definition checkStalledConfirmations (clock : Clock) : M bool :=
  withLeaderLock "confirmation-stall-check" (30 * 60 * 1000) clock (runCheck (appNow clock);; mret tt).
