(* ===== verification/InviteSpecs.v ===== *)
(** * What invites do

    Claims on every branch and under a race, the fate of a link when it is
    reissued or its claim undone, and the sweep's overwriting. *)

From Stdlib Require Import QArith_base.
From S2P Require Import Prelude JsNumber Money Dates Schedule Schema Effects Samples MigratedPlan Ledger.
From S2P Require Import LedgerCard LedgerMigrated Enrollment LedgerSpecs LedgerMigratedSpecs Invariant.
From S2P Require Import Phone InvitePolicy Invites.

(** ** Unique values *)

Lemma taken_false {V} (cond : V -> bool) (m : gmap id V) :
  taken cond m = false <-> forall k v, m !! k = Some v -> cond v = false.
Proof.
  unfold taken. rewrite bool_decide_eq_false. split.
  - intros H k v Hk. apply (find_row_none cond m k v); [|done]. by apply eq_None_not_Some.
  - intros H [[k v] [Hk Hc]%find_row_some]. by rewrite (H _ _ Hk) in Hc.
Qed.

Lemma taken_true {V} (cond : V -> bool) (m : gmap id V) k v :
  m !! k = Some v -> cond v = true -> taken cond m = true.
Proof.
  intros Hk Hc. destruct (taken cond m) eqn:E; [done|]. by rewrite (proj1 (taken_false _ _) E _ _ Hk) in Hc.
Qed.

(** A row found by a condition only it satisfies. *)
(** ** Well-formed invites *)

Section specs.
Context (sys : Platform).

(** Two rows one of the unique indexes would not hold together. *)
Definition clash (i j : EnrollmentInvite) : Prop :=
  live_clash i j = true \/ migrated_clash sys i j = true \/ i_tokenHash i = i_tokenHash j.

(** The links between invites and plans, and the unique indexes. *)
Record inv_wf (d : DB) : Prop := mkInvWf {
  iw_plan : forall eid e iid, enrollments d !! eid = Some e -> e_enrollmentInviteId e = Some iid ->
    exists i, invites d !! iid = Some i /\ i_status i = INV_CLAIMED;
  iw_claimed : forall iid i, invites d !! iid = Some i -> i_status i = INV_CLAIMED ->
    exists eid e, enrollments d !! eid = Some e /\ e_enrollmentInviteId e = Some iid;
  iw_unique : forall eid e eid' e' iid, enrollments d !! eid = Some e -> enrollments d !! eid' = Some e' ->
    e_enrollmentInviteId e = Some iid -> e_enrollmentInviteId e' = Some iid -> eid = eid';
  iw_clash : forall iid i iid' i', invites d !! iid = Some i -> invites d !! iid' = Some i' ->
    clash i i' -> iid = iid';
  iw_fresh : (forall eid e, enrollments d !! eid = Some e -> (eid < next_id d)%positive) /\
    (forall iid i, invites d !! iid = Some i -> (iid < next_id d)%positive) }.

Lemma iw_live d : inv_wf d -> forall iid i iid' i', invites d !! iid = Some i ->
  invites d !! iid' = Some i' -> live_clash i i' = true -> iid = iid'.
Proof. intros W iid i iid' i' Hi Hi' H. apply (iw_clash _ W _ _ _ _ Hi Hi'). by left. Qed.
Lemma iw_migrated d : inv_wf d -> forall iid i iid' i', invites d !! iid = Some i ->
  invites d !! iid' = Some i' -> migrated_clash sys i i' = true -> iid = iid'.
Proof. intros W iid i iid' i' Hi Hi' H. apply (iw_clash _ W _ _ _ _ Hi Hi'). right. by left. Qed.
Lemma iw_token d : inv_wf d -> forall iid i iid' i', invites d !! iid = Some i ->
  invites d !! iid' = Some i' -> i_tokenHash i = i_tokenHash i' -> iid = iid'.
Proof. intros W iid i iid' i' Hi Hi' H. apply (iw_clash _ W _ _ _ _ Hi Hi'). right. by right. Qed.

(** No index stands in the way of a row. *)
Lemma inviteConflict_none iid i d :
  inviteConflict sys iid i d = None <->
  forall k j, k <> iid -> invites d !! k = Some j ->
    live_clash i j = false /\ migrated_clash sys i j = false /\ i_tokenHash j <> i_tokenHash i.
Proof.
  unfold inviteConflict. destruct (taken (live_clash i) _) eqn:E1.
  { split; [done|]. intros H. exfalso. assert (taken (live_clash i) (delete iid (invites d)) = false); [|congruence].
    apply taken_false. intros k j [Hn Hk]%lookup_delete_Some. by apply (H k j). }
  destruct (taken (migrated_clash sys i) _) eqn:E2.
  { split; [done|]. intros H. exfalso.
    assert (taken (migrated_clash sys i) (delete iid (invites d)) = false); [|congruence].
    apply taken_false. intros k j [Hn Hk]%lookup_delete_Some. by apply (H k j). }
  destruct (taken (by_tokenHash (i_tokenHash i)) _) eqn:E3.
  { split; [done|]. intros H. exfalso.
    assert (taken (by_tokenHash (i_tokenHash i)) (delete iid (invites d)) = false); [|congruence].
    apply taken_false. intros k j [Hn Hk]%lookup_delete_Some. unfold by_tokenHash.
    apply String.eqb_neq. by apply (H k j). }
  split; [|done]. intros _ k j Hn Hk.
  assert (delete iid (invites d) !! k = Some j) as Hd by (by apply lookup_delete_Some).
  rewrite taken_false in E1, E2, E3. split; [by eapply E1|]. split; [by eapply E2|].
  specialize (E3 _ _ Hd). unfold by_tokenHash in E3. by apply String.eqb_neq in E3.
Qed.

Lemma saveInvite_eq iid cond data w :
  saveInvite sys iid cond data w =
    match invites (db w) !! iid with
    | Some i =>
        if cond i then
          match inviteConflict sys iid (data i) (db w) with
          | Some index => (Err (FUnique index), w)
          | None => (Ok 1, mkWorld (set_invites (<[iid := data i]> (invites (db w))) (db w)) (out w))
          end
        else (Ok 0, w)
    | None => (Ok 0, w)
    end.
Proof.
  unfold saveInvite, writeInvite, read, write, throw, mbind, M_bind, mret, M_ret.
  destruct (invites (db w) !! iid) as [i|]; [|by destruct w]. destruct (cond i); [|by destruct w].
  by destruct (inviteConflict _ _ _ _).
Qed.

(** Leaving the live statuses never meets an index. *)
Lemma retire_free iid i i' d :
  (forall k j, invites d !! k = Some j -> i_tokenHash j = i_tokenHash i -> k = iid) ->
  i_tokenHash i' = i_tokenHash i ->
  status_in SLOT_HOLDING_STATUSES i' = false -> inviteConflict sys iid i' d = None.
Proof.
  intros W Ht Hs. apply inviteConflict_none. intros k j Hn Hk.
  assert (status_in [INV_CLAIMED] i' = false) as Hc.
  { unfold status_in in *. apply bool_decide_eq_false in Hs. apply bool_decide_eq_false.
    intros E%list_elem_of_singleton. apply Hs. rewrite E. unfold SLOT_HOLDING_STATUSES. do 2 right. left. }
  split; [|split].
  - unfold live_clash. rewrite Hs. by rewrite andb_false_r.
  - unfold migrated_clash. rewrite Hc. by rewrite andb_false_r.
  - rewrite Ht. intros E. by apply Hn, (W k j).
Qed.

Lemma claimed_free iid i i' d :
  inv_wf d -> invites d !! iid = Some i -> i_status i = INV_PENDING ->
  find_row (migrated_as sys (i_schoolId i) (i_studentName i)) (invites d) = None ->
  i_schoolId i' = i_schoolId i -> i_studentName i' = i_studentName i -> i_className i' = i_className i ->
  i_tokenHash i' = i_tokenHash i -> inviteConflict sys iid i' d = None.
Proof.
  intros W Hi Hs Hm E1 E2 E3 E4. apply inviteConflict_none. intros k j Hn Hk. split; [|split].
  - apply not_true_is_false. intros E. apply Hn. symmetry. apply (iw_live _ W _ _ _ _ Hi Hk).
    assert (status_in SLOT_HOLDING_STATUSES i = true) as Hl by (unfold status_in; by rewrite Hs).
    unfold live_clash in *. rewrite E1, E2, E3, !andb_true_iff in E. rewrite Hl, !andb_true_iff. tauto.
  - apply not_true_is_false. intros E. pose proof (find_row_none _ _ _ _ Hm Hk) as F.
    unfold migrated_as, insensitive in F. unfold migrated_clash, insensitive in E. rewrite E1, E2 in E.
    rewrite !andb_true_iff, bool_decide_eq_true in E. destruct E as [[[Es En] _] Hc].
    rewrite String.eqb_sym in En. rewrite En, Hc, (bool_decide_eq_true_2 _ (eq_sym Es)) in F. done.
  - rewrite E4. intros E. by apply Hn, (iw_token _ W _ _ _ _ Hk Hi E).
Qed.
(** ** Claims *)

(** Ids a row refers to were drawn from the counter. *)
Record fk_ids (d : DB) : Prop := mkFkIds {
  fk_child : forall eid e, enrollments d !! eid = Some e -> (e_childId e < next_id d)%positive;
  fk_parent : forall cid c, children d !! cid = Some c -> (c_parentId c < next_id d)%positive }.

(** The family may have grown; the books and the invites are as they were. *)
Record same_books (d d' : DB) : Prop := mkSameBooks {
  sb_payments : payments d' = payments d;
  sb_enrollments : enrollments d' = enrollments d;
  sb_invites : invites d' = invites d;
  sb_schools : schools d' = schools d;
  sb_audit : auditLog d' = auditLog d;
  sb_next : (next_id d <= next_id d')%positive }.

(** The child a claim would attach the plan to, if the family already has it. *)
Definition child_for (userId : id) (invite : EnrollmentInvite) (d : DB) : option id :=
  '(parentId, _) ← parent_of userId d;
  fst <$> find_child (mkChild parentId (i_studentName invite) (i_className invite)) d.
Definition child_has_plan (userId : id) (invite : EnrollmentInvite) (d : DB) : bool :=
  from_option (fun c => child_enrolled c d) false (child_for userId invite d).

Lemma child_enrolled_ext c d d' : enrollments d' = enrollments d -> child_enrolled c d' = child_enrolled c d.
Proof. unfold child_enrolled. by intros ->. Qed.

Lemma child_enrolled_fresh c d : fk_ids d -> (next_id d <= c)%positive -> child_enrolled c d = false.
Proof.
  intros F Hc. unfold child_enrolled. apply taken_false. intros eid e He.
  apply bool_decide_eq_false. intros <-. pose proof (fk_child _ F _ _ He). lia.
Qed.

Lemma resolveChild_ok pid invite w :
  exists cid w', resolveChild pid invite w = (Ok cid, w') /\ out w' = out w /\ same_books (db w) (db w') /\
    is_Some (children (db w') !! cid) /\
    match find_child (mkChild pid (i_studentName invite) (i_className invite)) (db w) with
    | Some (c, _) => cid = c
    | None => cid = next_id (db w)
    end.
Proof.
  unfold resolveChild, fresh_id, read, write, mbind, M_bind, mret, M_ret.
  destruct (find_child _ (db w)) as [[c x]|] eqn:E; [|cbn -[insert]]; do 2 eexists; split; try reflexivity.
  - split; [done|]. split; [split; first [done | lia]|]. split; [|done].
    apply find_row_some in E as [E _]. by eexists.
  - split; [done|]. split; [split; cbn -[insert]; first [done | lia]|]. split; [|done].
    cbn -[insert lookup]. rewrite lookup_insert_eq. by eexists.
Qed.

Lemma resolveParent_ok uid w u :
  users (db w) !! uid = Some u ->
  exists pid w', resolveParent uid w = (Ok pid, w') /\ out w' = out w /\ same_books (db w) (db w') /\
    children (db w') = children (db w) /\
    match parent_of uid (db w) with Some (p, _) => pid = p | None => pid = next_id (db w) end.
Proof.
  intros Hu. unfold resolveParent, fresh_id, read, write, orThrow, mbind, M_bind, mret, M_ret. rewrite Hu.
  destruct (parent_of uid (db w)) as [[p x]|]; [|cbn -[insert]]; do 2 eexists; split; try reflexivity.
  - split; [done|]. split; [|done]. split; first [done | lia].
  - split; [done|]. split; [|done]. split; cbn -[insert]; first [done | lia].
Qed.

(** The family of a claim. *)
Lemma claim_graph uid invite w u :
  fk_ids (db w) -> users (db w) !! uid = Some u ->
  exists pid cid w1 w2, resolveParent uid w = (Ok pid, w1) /\ resolveChild pid invite w1 = (Ok cid, w2) /\
    out w2 = out w /\ same_books (db w) (db w2) /\ is_Some (children (db w2) !! cid) /\
    child_enrolled cid (db w) = child_has_plan uid invite (db w).
Proof.
  intros F Hu. destruct (resolveParent_ok _ _ _ Hu) as (pid & w1 & H1 & O1 & S1 & Hc & Hp).
  destruct (resolveChild_ok pid invite w1) as (cid & w2 & H2 & O2 & S2 & Hsome & Hcid).
  do 4 eexists. split; [exact H1|]. split; [exact H2|]. split; [congruence|].
  destruct S1 as [A1 A2 A3 A6 A4 A5], S2 as [B1 B2 B3 B6 B4 B5].
  split; [split; [congruence | congruence | congruence | congruence | congruence | lia]|]. split; [done|].
  unfold child_has_plan, child_for. unfold find_child in *. rewrite Hc in Hcid.
  destruct (parent_of uid (db w)) as [[p x]|]; cbn; subst pid.
  - destruct (find_row _ (children (db w))) as [[c y]|]; cbn; subst cid; [done|].
    apply child_enrolled_fresh; [done|]. lia.
  - apply child_enrolled_fresh; [done|].
    destruct (find_row _ (children (db w))) as [[c y]|] eqn:E; [|subst cid; lia].
    apply find_row_some in E as [Hy E]. unfold same_child in E. to_prop. cbn in E.
    pose proof (fk_parent _ F _ _ Hy). destruct E as [[E _] _]. lia.
Qed.

Lemma fresh_invite_untaken iid i d :
  inv_wf d -> invites d !! iid = Some i -> i_status i <> INV_CLAIMED -> invite_taken (Some iid) d = false.
Proof.
  intros W Hi Hs. unfold invite_taken. apply taken_false. intros eid e He. apply bool_decide_eq_false.
  intros Hl. destruct (iw_plan _ W _ _ _ He Hl) as (i' & Hi' & Hs'). congruence.
Qed.
(** The transaction of a claim whose guard holds. *)
Lemma claim_tx_run iid i th user pm now w u :
  inv_wf (db w) -> fk_ids (db w) -> invites (db w) !! iid = Some i -> claim_cond th now i = true ->
  find_row (migrated_as sys (i_schoolId i) (i_studentName i)) (invites (db w)) = None ->
  users (db w) !! au_userId user = Some u ->
  if child_has_plan (au_userId user) i (db w) then
    exists msg w', claim_tx sys iid i th user pm now w = (Err (FBadRequest msg), w') /\ out w' = out w
  else exists w' eid cid, claim_tx sys iid i th user pm now w = (Ok (migrated_claim iid i cid now eid), w') /\
    (next_id (db w) <= eid)%positive /\ out w' = out w /\ is_Some (children (db w') !! cid) /\
    schools (db w') = schools (db w) /\
    enrollments (db w') = <[eid := migratedEnrollment iid i cid now]> (enrollments (db w)) /\
    payments (db w') = <[Pos.succ eid := migratedPayment eid i now]> (payments (db w)) /\
    invites (db w') = <[iid := claimed_by (au_userId user) pm now i]> (invites (db w)).
Proof.
  intros W F Hi Hc Hm Hu. unfold claim_tx.
  assert (i_status i = INV_PENDING) as Hs.
  { unfold claim_cond, status_in in Hc. to_prop. destruct Hc as [[_ Hc] _].
    by apply list_elem_of_singleton in Hc. }
  set (w0 := mkWorld (set_invites (<[iid := claimed_by (au_userId user) pm now i]> (invites (db w))) (db w)) (out w)).
  assert (saveInvite sys iid (claim_cond th now) (claimed_by (au_userId user) pm now) w = (Ok 1, w0)) as E0.
  { rewrite saveInvite_eq, Hi, Hc. by rewrite (claimed_free iid i). }
  assert (fk_ids (db w0)) as F0 by (destruct F as [F1 F2]; by split).
  destruct (claim_graph (au_userId user) i w0 u F0 Hu) as (pid & cid & w1 & w2 & H1 & H2 & O & [S1 S2 S3 S6 S4 S5] & Hcs & Hp).
  pose proof (recordMigratedEnrollment_eq iid i cid (au_userId user) (actor_of user) now w2) as R. cbv zeta in R.
  assert (invite_taken (Some iid) (db w2) = false) as Ht.
  { transitivity (invite_taken (Some iid) (db w)); [unfold invite_taken; by rewrite S2|].
    apply (fresh_invite_untaken iid i); [done | done | congruence]. }
  rewrite Ht, (child_enrolled_ext cid (db w0) (db w2) S2), Hp in R.
  change (child_has_plan (au_userId user) i (db w0)) with (child_has_plan (au_userId user) i (db w)) in R.
  unfold mbind, M_bind. rewrite E0. cbn [negb Z.eqb]. unfold ensure, mret, M_ret. cbn [negb Z.eqb].
  rewrite H1, H2. destruct (child_has_plan (au_userId user) i (db w)).
  - destruct R as [msg ->]. do 2 eexists. split; [reflexivity|]. done.
  - destruct R as (a & _ & ->). do 3 eexists. split; [reflexivity|]. cbn -[insert].
    rewrite S1, S2, S3, S6, O. split; [exact S5|]. split; [done|]. split; done.
Qed.

(** A claim whose guard fails stops before touching anything. *)
Lemma claim_tx_refused iid i th user pm now w :
  (forall j, invites (db w) !! iid = Some j -> claim_cond th now j = false) ->
  claim_tx sys iid i th user pm now w = (Err (FBadRequest "This invite is no longer available."), w).
Proof.
  intros H. unfold claim_tx, mbind, M_bind. rewrite saveInvite_eq.
  destruct (invites (db w) !! iid) as [j|]; [by rewrite (H j eq_refl)|done].
Qed.

Lemma runClaimTransaction_ok {A} (work : M A) w a w' :
  work w = (Ok a, w') -> runClaimTransaction work w = (Ok a, w').
Proof. unfold runClaimTransaction, catch, transaction. by intros ->. Qed.

Lemma runClaimTransaction_refused {A} (work : M A) w msg w' :
  work w = (Err (FBadRequest msg), w') -> out w' = out w ->
  runClaimTransaction work w = (Err (FBadRequest msg), w).
Proof. unfold runClaimTransaction, catch, transaction. intros -> O. cbn. rewrite O. by destruct w. Qed.

Lemma same_books_refl d : same_books d d.
Proof. split; first [done | lia]. Qed.

Lemma resolveParent_run uid w pid w' :
  resolveParent uid w = (Ok pid, w') -> same_books (db w) (db w').
Proof.
  unfold resolveParent, fresh_id. intros H. run_step H. destruct (parent_of uid (db _)) as [[p x]|].
  - run_step H. apply same_books_refl.
  - run_step H. split; cbn -[insert]; first [done | lia].
Qed.

Lemma resolveChild_run pid invite w cid w' :
  resolveChild pid invite w = (Ok cid, w') -> same_books (db w) (db w').
Proof.
  unfold resolveChild, fresh_id. intros H. run_step H. destruct (find_child _ (db _)) as [[p x]|].
  - run_step H. apply same_books_refl.
  - run_step H. split; cbn -[insert]; first [done | lia].
Qed.

(** What a claim that went through has done. *)
Lemma claim_tx_inv iid i th user pm now w mc w' :
  claim_tx sys iid i th user pm now w = (Ok mc, w') ->
  exists j cid eid, invites (db w) !! iid = Some j /\ claim_cond th now j = true /\
    inviteConflict sys iid (claimed_by (au_userId user) pm now j) (db w) = None /\
    invite_taken (Some iid) (db w) = false /\ mc = migrated_claim iid i cid now eid /\
    invites (db w') = <[iid := claimed_by (au_userId user) pm now j]> (invites (db w)) /\
    enrollments (db w') = <[eid := migratedEnrollment iid i cid now]> (enrollments (db w)) /\
    (next_id (db w) <= eid)%positive /\ next_id (db w') = Pos.succ (Pos.succ eid).
Proof.
  unfold claim_tx. intros H. apply bind_run in H as (n & w0 & Hn & H). rewrite saveInvite_eq in Hn.
  apply bind_run in H as (? & w1 & [Hne ->]%ensure_run & H).
  destruct (invites (db w) !! iid) as [j|] eqn:Hj; [|by injection Hn as <- <-].
  destruct (claim_cond th now j) eqn:Hc; [|by injection Hn as <- <-].
  destruct (inviteConflict _ _ _ _) eqn:Hi; [done|]. injection Hn as <- <-.
  apply bind_run in H as (pid & w1 & [P1 P2 P3 P6 P4 P5]%resolveParent_run & H).
  apply bind_run in H as (cid & w2 & [C1 C2 C3 C6 C4 C5]%resolveChild_run & H).
  pose proof (recordMigratedEnrollment_eq iid i cid (au_userId user) (actor_of user) now w2) as R. cbv zeta in R.
  destruct (invite_taken (Some iid) (db w2)) eqn:Ht; [by rewrite R in H|].
  destruct (child_enrolled cid (db w2)); [by destruct R as [msg R]; rewrite R in H|].
  destruct R as (a & _ & R). rewrite R in H. injection H as <- <-.
  exists j, cid, (next_id (db w2)). cbn -[insert] in *. rewrite C2, P2, C3, P3.
  split; [done|]. split; [done|]. split; [done|]. split.
  { unfold invite_taken in *. by rewrite C2, P2 in Ht. }
  do 3 (split; [done|]). split; [lia | done].
Qed.

(** Of two claims of one invite that both resolved the link, the second to
    commit is refused and changes nothing, whoever makes it, whatever row and
    token it had read and however late it runs. *)
Theorem claim_once iid i th user pm now w mc w1 i' th' user' pm' now' :
  runClaimTransaction (claim_tx sys iid i th user pm now) w = (Ok mc, w1) ->
  runClaimTransaction (claim_tx sys iid i' th' user' pm' now') w1 =
    (Err (FBadRequest "This invite is no longer available."), w1).
Proof.
  intros H. eapply runClaimTransaction_refused; [|reflexivity]. apply claim_tx_refused.
  assert (claim_tx sys iid i th user pm now w = (Ok mc, w1)) as R.
  { unfold runClaimTransaction, catch, transaction in H. destruct (claim_tx _ _ _ _ _ _ _ _) as [[a|e] v].
    - exact H.
    - destruct (negb _); [done|]. by destruct (isAlreadyMigratedViolation e). }
  apply claim_tx_inv in R as (j & cid & eid & _ & _ & _ & _ & _ & Hi & _). rewrite Hi.
  intros j'. rewrite lookup_insert_eq. intros [= <-]. unfold claim_cond.
  by rewrite andb_false_r.
Qed.
(** What a link resolves to. *)
Definition link (rawToken : string) (d : DB) : option (id * EnrollmentInvite) :=
  tokenHash ← hashInviteToken (digest sys) rawToken; find_row (by_tokenHash tokenHash) (invites d).

Lemma link_some raw d iid i :
  link raw d = Some (iid, i) ->
  hashInviteToken (digest sys) raw = Some (i_tokenHash i) /\ invites d !! iid = Some i.
Proof.
  unfold link. destruct (hashInviteToken _ raw) as [th|]; simpl; [|done].
  intros [Hi Ht]%find_row_some. unfold by_tokenHash in Ht. apply String.eqb_eq in Ht. by subst.
Qed.

Lemma findByToken_eq rq raw w :
  inv_wf (db w) ->
  findByToken sys rq raw w =
    match link raw (db w) with
    | None => (Err INVITE_UNAVAILABLE, w)
    | Some (iid, i) =>
        if hasExpired i (rq_now rq) then
          (Ok (iid, set_i_status INV_EXPIRED i, i_tokenHash i),
           mkWorld (set_invites (<[iid := set_i_status INV_EXPIRED i]> (invites (db w))) (db w)) (out w))
        else (Ok (iid, i, i_tokenHash i), w)
    end.
Proof.
  intros W. unfold findByToken, orThrow, read, mbind, M_bind, mret, M_ret, throw.
  destruct (link raw (db w)) as [[iid i]|] eqn:E.
  - pose proof (link_some _ _ _ _ E) as [Eh Hi]. unfold link in E. rewrite Eh in E |- *. simpl in E. rewrite E.
    destruct (hasExpired i (rq_now rq)) eqn:Ex; [|done].
    unfold catch. rewrite saveInvite_eq, Hi. unfold hasExpired in Ex. apply andb_true_iff in Ex as [-> _].
    rewrite (retire_free iid i); [done | | done | done].
    intros k j Hk Ht. by apply (iw_token _ W _ _ _ _ Hk Hi Ht).
  - unfold link in E. destruct (hashInviteToken _ raw) as [th|]; simpl in E; [|done]. by rewrite E.
Qed.

Lemma claim_cond_claimable now i : claim_cond (i_tokenHash i) now i = isClaimable i now.
Proof.
  unfold claim_cond, isClaimable, by_tokenHash, status_in, isActionable. rewrite String.eqb_refl. cbn.
  f_equal. apply bool_decide_ext. apply list_elem_of_singleton.
Qed.

Definition school_active (schoolId : id) (d : DB) : bool :=
  from_option (fun s => bool_decide (s_deletedAt s = None)) false (schools d !! schoolId).

(** Everything a claim asks for. *)
Definition claim_ready (i : EnrollmentInvite) (now : Z) (userId : id) (d : DB) : bool :=
  isClaimable i now
  && bool_decide (find_row (migrated_as sys (i_schoolId i) (i_studentName i)) (invites d) = None)
  && school_active (i_schoolId i) d && negb (child_has_plan userId i d).

(** The body after the link is resolved, when one of the conditions fails. *)
Lemma claim_resolved_refused rq iid i th user w :
  is_Some (users (db w) !! au_userId user) ->
  (forall j, invites (db w) !! iid = Some j -> claim_cond th (rq_now rq) j = true ->
     inv_wf (db w) /\ fk_ids (db w) /\ j = i /\
     claim_ready i (rq_now rq) (au_userId user) (db w) = false /\ isClaimable i (rq_now rq) = true) ->
  exists msg, claim_resolved sys rq iid i th user w = (Err (FBadRequest msg), w).
Proof.
  intros [u Hu] H. unfold claim_resolved, assertNotAlreadyMigrated.
  unfold read, orThrow, ensure, mbind, M_bind, mret, M_ret, throw.
  case_bool_decide as Hm; [|eauto].
  destruct (schools (db w) !! i_schoolId i) as [s|] eqn:Es; [|eauto].
  case_bool_decide as Hd; [|eauto].
  destruct (invites (db w) !! iid) as [j|] eqn:Hj; [destruct (claim_cond th (rq_now rq) j) eqn:Hc|].
  - destruct (H j eq_refl Hc) as (Wi & F & -> & Hr & Hcl).
    pose proof (claim_tx_run iid i th user (claimantPhoneMatches i (au_userId user) (db w)) (rq_now rq) w u
      Wi F Hj Hc Hm Hu) as R.
    unfold claim_ready, school_active in Hr. rewrite Hcl, Es in Hr. cbn in Hr.
    rewrite (bool_decide_eq_true_2 _ Hm), (bool_decide_eq_true_2 _ Hd) in Hr. cbn in Hr.
    apply negb_false_iff in Hr. rewrite Hr in R. destruct R as (msg & w' & R & O).
    exists msg. by rewrite (runClaimTransaction_refused _ _ _ _ R O).
  - eexists. erewrite runClaimTransaction_refused; [reflexivity | apply claim_tx_refused | reflexivity].
    intros j'. rewrite Hj. by intros [= <-].
  - eexists. erewrite runClaimTransaction_refused; [reflexivity | apply claim_tx_refused | reflexivity].
    intros j'. by rewrite Hj.
Qed.
Lemma claim_resolved_ok rq iid i user w u :
  inv_wf (db w) -> fk_ids (db w) -> invites (db w) !! iid = Some i ->
  users (db w) !! au_userId user = Some u -> claim_ready i (rq_now rq) (au_userId user) (db w) = true ->
  exists res w' cid, claim_resolved sys rq iid i (i_tokenHash i) user w = (Ok res, w') /\
    (next_id (db w) <= cr_enrollmentId res)%positive /\ is_Some (children (db w') !! cid) /\
    cr_remainingBalance res = naira_of (Z.max 0 (i_totalSchoolFee i - i_amountAlreadyPaid i)) /\
    schools (db w') = schools (db w) /\
    enrollments (db w') =
      <[cr_enrollmentId res := migratedEnrollment iid i cid (rq_now rq)]> (enrollments (db w)) /\
    payments (db w') = <[Pos.succ (cr_enrollmentId res) :=
      migratedPayment (cr_enrollmentId res) i (rq_now rq)]> (payments (db w)) /\
    invites (db w') = <[iid := claimed_by (au_userId user)
      (claimantPhoneMatches i (au_userId user) (db w)) (rq_now rq) i]> (invites (db w)).
Proof.
  intros W F Hi Hu Hr. unfold claim_ready, school_active in Hr.
  rewrite !andb_true_iff, bool_decide_eq_true in Hr. destruct Hr as [[[Hcl Hm] Hs] Hp].
  destruct (schools (db w) !! i_schoolId i) as [s|] eqn:Es; [|done]. cbn in Hs. apply bool_decide_eq_true in Hs.
  rewrite <- (claim_cond_claimable (rq_now rq) i) in Hcl.
  pose proof (claim_tx_run iid i _ user (claimantPhoneMatches i (au_userId user) (db w)) (rq_now rq) w u
    W F Hi Hcl Hm Hu) as R. apply negb_true_iff in Hp. rewrite Hp in R.
  destruct R as (w1 & eid & cid & R & Hn & O & Hcs & Hsch & He & Hpay & Hinv). apply runClaimTransaction_ok in R.
  unfold claim_resolved, assertNotAlreadyMigrated.
  unfold read, orThrow, ensure, mbind, M_bind, mret, M_ret, throw.
  rewrite (bool_decide_eq_true_2 _ Hm), Es, (bool_decide_eq_true_2 _ Hs). cbn -[runClaimTransaction].
  rewrite R. unfold notifyUser, when, announceMigratedEnrollment, emitBoth, notify, emit, mbind, M_bind, mret, M_ret.
  unfold when. destruct (rq_reaches rq (au_userId user)), (rq_reaches rq (n_userId _));
    do 2 eexists; exists cid; (split; [reflexivity|]); cbn -[insert naira_of]; rewrite He, Hpay, Hinv, Hsch; repeat split; done.
Qed.

(** C10: a claim, on every branch: a link that resolves to no invite answers with
    the one undistinguishing message; a link that is live, of a school still on
    the platform, for a student not migrated before and a child without a plan,
    opens the plan, its confirmed payment of the recorded figure, and marks the
    invite claimed by this user; and everything else is a readable refusal that
    leaves plans and payments alone and touches the invite at most to retire it. *)
Theorem claim_outcomes rq raw user w u :
  inv_wf (db w) -> fk_ids (db w) -> users (db w) !! au_userId user = Some u ->
  let r := claim sys rq raw user w in
  match link raw (db w) with
  | None => r = (Err INVITE_UNAVAILABLE, w)
  | Some (iid, i) =>
      if claim_ready i (rq_now rq) (au_userId user) (db w) then exists res w' cid,
        r = (Ok res, w') /\
        (next_id (db w) <= cr_enrollmentId res)%positive /\ is_Some (children (db w') !! cid) /\
        cr_remainingBalance res = naira_of (Z.max 0 (i_totalSchoolFee i - i_amountAlreadyPaid i)) /\
        schools (db w') = schools (db w) /\
        enrollments (db w') =
          <[cr_enrollmentId res := migratedEnrollment iid i cid (rq_now rq)]> (enrollments (db w)) /\
        payments (db w') = <[Pos.succ (cr_enrollmentId res) :=
          migratedPayment (cr_enrollmentId res) i (rq_now rq)]> (payments (db w)) /\
        invites (db w') = <[iid := claimed_by (au_userId user)
          (claimantPhoneMatches i (au_userId user) (db w)) (rq_now rq) i]> (invites (db w))
      else exists msg w', r = (Err (FBadRequest msg), w') /\
        payments (db w') = payments (db w) /\ enrollments (db w') = enrollments (db w) /\
        (invites (db w') = invites (db w) \/
         hasExpired i (rq_now rq) = true /\
         invites (db w') = <[iid := set_i_status INV_EXPIRED i]> (invites (db w)))
  end.
Proof.
  intros W F Hu. cbv zeta. unfold claim, mbind, M_bind. rewrite findByToken_eq by done.
  destruct (link raw (db w)) as [[iid i]|] eqn:E; [|done]. apply link_some in E as [_ Hi].
  destruct (claim_ready _ _ _ _) eqn:Hr.
  { assert (isClaimable i (rq_now rq) = true) as Hc by (unfold claim_ready in Hr; to_prop; tauto).
    rewrite (claimable_not_expired _ _ Hc). by apply (claim_resolved_ok rq iid i user w u). }
  destruct (hasExpired i (rq_now rq)) eqn:Hx.
  - set (w1 := mkWorld (set_invites (<[iid := set_i_status INV_EXPIRED i]> (invites (db w))) (db w)) (out w)).
    destruct (claim_resolved_refused rq iid (set_i_status INV_EXPIRED i) (i_tokenHash i) user w1) as [msg ->].
    + by exists u.
    + cbn -[insert]. intros j. rewrite lookup_insert_eq. intros [= <-]. unfold claim_cond.
      by rewrite andb_false_r.
    + do 2 eexists. split; [reflexivity|]. cbn -[insert]. auto.
  - destruct (claim_resolved_refused rq iid i (i_tokenHash i) user w) as [msg ->]; [by exists u | |].
    + intros j. rewrite Hi. intros [= <-] Hc. rewrite claim_cond_claimable in Hc. auto.
    + do 2 eexists. split; [reflexivity|]. auto.
Qed.
(** ** The owner's corrections *)

(** The session and the database agree that this actor owns the school. *)
Record owns (actor : AuthUser) (schoolId : id) (school : School) (d : DB) : Prop := mkOwns {
  ow_role : au_role actor = SCHOOL_OWNER;
  ow_session : au_userSchoolId actor = Some schoolId;
  ow_row : schools d !! schoolId = Some school;
  ow_owner : s_ownerId school = au_userId actor;
  ow_live : s_deletedAt school = None }.

Lemma assertOwnsSchool_ok actor schoolId school w :
  owns actor schoolId school (db w) -> assertOwnsSchool actor w = (Ok (schoolId, school), w).
Proof.
  intros [H1 H2 H3 H4 H5]. unfold assertOwnsSchool. rewrite H1, H2.
  unfold read, orThrow, ensure, mbind, M_bind, mret, M_ret. rewrite H3.
  by rewrite (bool_decide_eq_true_2 _ H4), (bool_decide_eq_true_2 _ H5).
Qed.

Lemma invite_of_school_ok iid schoolId d i :
  invites d !! iid = Some i -> i_schoolId i = schoolId -> invite_of_school iid schoolId d = Some i.
Proof. intros H E. unfold invite_of_school. rewrite H. simpl. by rewrite bool_decide_eq_true_2. Qed.

Lemma settled_none eid d :
  (forall pid p, payments d !! pid = Some p -> p_enrollmentId p = eid -> confirmed_installment p = false) ->
  settled_installments eid d = [].
Proof.
  intros H. unfold settled_installments, payments_of. destruct (filter _ (filter _ _)) as [|[k p] l] eqn:E; [done|].
  exfalso. assert ((k, p) ∈ filter (fun kv : id * Payment => confirmed_installment kv.2 = true)
    (filter (fun kv : id * Payment => p_enrollmentId kv.2 = eid) (map_to_list (payments d)))) as Hin
    by (rewrite E; left).
  apply list_elem_of_filter in Hin as [Hc Hin]. apply list_elem_of_filter in Hin as [He Hin].
  apply elem_of_map_to_list in Hin. cbn in *. by rewrite (H _ _ Hin He) in Hc.
Qed.

(** The release of a claimed invite whose plan has no confirmed installment. *)
Lemma release_tx_ok iid schoolId eid cid actor reason now w i e c :
  (forall k j, invites (db w) !! k = Some j -> i_tokenHash j = i_tokenHash i -> k = iid) ->
  invites (db w) !! iid = Some i -> i_schoolId i = schoolId -> i_status i = INV_CLAIMED ->
  enrollments (db w) !! eid = Some e -> children (db w) !! cid = Some c ->
  settled_installments eid (db w) = [] ->
  exists w', release_tx sys iid schoolId eid cid actor reason now w = (Ok tt, w') /\
    invites (db w') = <[iid := revoked_by (au_userId actor) now i]> (invites (db w)) /\
    enrollments (db w') = delete eid (enrollments (db w)) /\
    payments (db w') = payments_kept eid (db w) /\
    children (db w') = delete cid (children (db w)).
Proof.
  intros W Hi Hsch Hs He Hc Hf. unfold release_tx, mbind, M_bind. rewrite saveInvite_eq, Hi.
  assert (of_status schoolId [INV_CLAIMED] i = true) as ->.
  { unfold of_status, status_in. rewrite (bool_decide_eq_true_2 _ Hsch), Hs. done. }
  rewrite (retire_free iid i) by done. cbn [ensure negb Z.eqb]. unfold mret, M_ret.
  set (w0 := mkWorld _ (out w)).
  destruct (releaseMigratedEnrollment_ok eid cid iid schoolId (actor_of actor) reason w0 e c He Hc Hf)
    as (a & before & _ & _ & ->).
  eexists. split; [reflexivity|]. done.
Qed.

Lemma release_run rq iid actor reason w w' schoolId s i eid e :
  owns actor schoolId s (db w) -> invites (db w) !! iid = Some i -> i_schoolId i = schoolId ->
  plan_of_invite iid (db w) = Some (eid, e) ->
  release_tx sys iid schoolId eid (e_childId e) actor reason (rq_now rq) w = (Ok tt, w') ->
  exists w'', release sys rq iid actor reason w = (Ok tt, w'') /\ db w'' = db w'.
Proof.
  intros Ho Hi Hs Hp R. unfold release, mbind at 1, M_bind at 1. rewrite (assertOwnsSchool_ok _ _ s) by done.
  unfold read, orThrow, mbind, M_bind, mret, M_ret. rewrite (invite_of_school_ok iid schoolId _ i) by done.
  rewrite Hp. unfold transaction. cbn [fst snd]. rewrite R.
  unfold notifyUser, when, notify, emit, mret, M_ret.
  destruct (i_claimedByUserId i) as [c|]; [destruct (rq_reaches rq c)|]; cbn; eexists; split; reflexivity.
Qed.

(** ** The rows a claim adds, and their removal *)

Lemma claimed_plan d d1 iid eid e :
  inv_wf d -> (forall i, invites d !! iid = Some i -> i_status i <> INV_CLAIMED) ->
  e_enrollmentInviteId e = Some iid -> enrollments d1 = <[eid := e]> (enrollments d) ->
  plan_of_invite iid d1 = Some (eid, e).
Proof.
  intros W Hn E He. apply find_row_unique.
  - rewrite He. apply lookup_insert_eq.
  - by apply bool_decide_eq_true_2.
  - intros k e'. rewrite He. intros [[<- _]|[_ Hk]]%lookup_insert_Some; [done|].
    intros E'%bool_decide_eq_true. destruct (iw_plan _ W _ _ _ Hk E') as (j & Hj & Hjs). by destruct (Hn j).
Qed.

Lemma plan_ids_fresh d eid pid p :
  books_wf d -> inv_wf d -> (next_id d <= eid)%positive -> payments d !! pid = Some p ->
  p_enrollmentId p <> eid /\ (pid < eid)%positive.
Proof.
  intros B W Hn Hp. destruct (wf_pids _ B _ _ Hp) as [Hlt [e He]]. apply (proj1 (iw_fresh _ W)) in He.
  split; [intros <-|]; lia.
Qed.

Lemma fresh_plan_unsettled d d1 eid p :
  books_wf d -> inv_wf d -> (next_id d <= eid)%positive -> confirmed_installment p = false ->
  payments d1 = <[Pos.succ eid := p]> (payments d) -> settled_installments eid d1 = [].
Proof.
  intros B W Hn Hc Hp. apply settled_none. intros pid q. rewrite Hp.
  intros [[_ <-]|[_ Hq]]%lookup_insert_Some; [done|]. intros E. by destruct (plan_ids_fresh d eid pid q).
Qed.

Lemma fresh_plan_removed d d1 eid p :
  books_wf d -> inv_wf d -> (next_id d <= eid)%positive -> p_enrollmentId p = eid ->
  payments d1 = <[Pos.succ eid := p]> (payments d) -> payments_kept eid d1 = payments d.
Proof.
  intros B W Hn E Hp. apply map_eq. intros k. apply option_eq. intros q. unfold payments_kept.
  rewrite map_lookup_filter_Some, Hp, lookup_insert_Some. split.
  - intros [[[<- <-]|[_ Hk]] Hne]; [done|exact Hk].
  - intros Hk. destruct (plan_ids_fresh d eid k q) as [? ?]; try done. split; [right; split; [lia|done]|done].
Qed.

Lemma revoked_not_migrated schoolId name iid i (m : gmap id EnrollmentInvite) :
  find_row (migrated_as sys schoolId name) m = None -> i_status i = INV_REVOKED ->
  find_row (migrated_as sys schoolId name) (<[iid := i]> m) = None.
Proof.
  intros Hm Hs. destruct (find_row _ (<[iid := i]> m)) as [[k j]|] eqn:E; [exfalso|done].
  apply find_row_some in E as [E Hj]. apply lookup_insert_Some in E as [[_ <-]|[_ Hk]].
  - unfold migrated_as, status_in in Hj. rewrite Hs in Hj. by rewrite andb_false_r in Hj.
  - by rewrite (find_row_none _ _ _ _ Hm Hk) in Hj.
Qed.

(** A revoked invite's link gives nobody a plan. *)
Lemma revoked_link_dead rq raw user iid i w :
  link raw (db w) = Some (iid, i) -> i_status i = INV_REVOKED -> is_Some (users (db w) !! au_userId user) ->
  exists msg, claim sys rq raw user w = (Err (FBadRequest msg), w).
Proof.
  intros Hl Hs Hu. pose proof (link_some _ _ _ _ Hl) as [Hh Hi]. unfold link in Hl. rewrite Hh in Hl. cbn in Hl.
  assert (hasExpired i (rq_now rq) = false) as Hx by (unfold hasExpired, status_in; by rewrite Hs).
  destruct (claim_resolved_refused rq iid i (i_tokenHash i) user w Hu) as [msg Hm].
  { intros j. rewrite Hi. intros [= <-]. unfold claim_cond, status_in. rewrite Hs. by rewrite andb_false_r. }
  exists msg. unfold claim, findByToken, orThrow, read, mbind, M_bind. rewrite Hh. unfold mret, M_ret. rewrite Hl, Hx. exact Hm.
Qed.

(** C17: releasing undoes a claim: after a claim and the owner's release of it,
    the plans and the payments are exactly those of before; the child the plan was
    attached to, and no other, is removed (whether or not the claim had created
    it); the invite is revoked and its student may be migrated again; and the
    link still names that invite and is dead: claiming through it while the invite
    is revoked is refused and changes nothing, whoever asks and whenever. *)
Theorem release_undoes_claim rq rq' raw user actor reason w u iid i s :
  inv_wf (db w) -> fk_ids (db w) -> books_wf (db w) -> users (db w) !! au_userId user = Some u ->
  link raw (db w) = Some (iid, i) -> claim_ready i (rq_now rq) (au_userId user) (db w) = true ->
  owns actor (i_schoolId i) s (db w) ->
  exists res w1 w2 plan i', claim sys rq raw user w = (Ok res, w1) /\
    release sys rq' iid actor reason w1 = (Ok tt, w2) /\
    enrollments (db w2) = enrollments (db w) /\ payments (db w2) = payments (db w) /\
    enrollments (db w1) !! cr_enrollmentId res = Some plan /\
    is_Some (children (db w1) !! e_childId plan) /\
    children (db w2) = delete (e_childId plan) (children (db w1)) /\
    invites (db w2) = <[iid := i']> (invites (db w)) /\ i_status i' = INV_REVOKED /\
    find_row (migrated_as sys (i_schoolId i) (i_studentName i)) (invites (db w2)) = None /\
    link raw (db w2) = Some (iid, i') /\
    (forall rq3 user3 w3 j, link raw (db w3) = Some (iid, j) -> i_status j = INV_REVOKED ->
       is_Some (users (db w3) !! au_userId user3) ->
       exists msg, claim sys rq3 raw user3 w3 = (Err (FBadRequest msg), w3)).
Proof.
  intros W F B Hu Hl Hr Ho. pose proof (link_some _ _ _ _ Hl) as [Hhash Hi].
  assert (isClaimable i (rq_now rq) = true) as Hc by (unfold claim_ready in Hr; to_prop; tauto).
  assert (find_row (migrated_as sys (i_schoolId i) (i_studentName i)) (invites (db w)) = None) as Hm
    by (unfold claim_ready in Hr; to_prop; tauto).
  destruct (claim_resolved_ok rq iid i user w u W F Hi Hu Hr)
    as (res & w1 & cid & R & Hn & [c Hcid] & _ & Hs1 & He1 & Hp1 & Hi1).
  set (i1 := claimed_by _ _ _ i) in Hi1. set (eid := cr_enrollmentId res) in *.
  assert (invites (db w1) !! iid = Some i1) as Hi1' by (rewrite Hi1; apply lookup_insert_eq).
  assert (plan_of_invite iid (db w1) = Some (eid, migratedEnrollment iid i cid (rq_now rq))) as Hplan.
  { eapply claimed_plan; [exact W| |done|exact He1]. intros j. rewrite Hi. intros [= <-].
    apply claimable_spec in Hc as [-> _]. done. }
  assert (forall k j, invites (db w1) !! k = Some j -> i_tokenHash j = i_tokenHash i -> k = iid) as Htok.
  { intros k j. rewrite Hi1. intros [[<- _]|[_ Hk]]%lookup_insert_Some E; [done|].
    by apply (iw_token _ W _ _ _ _ Hk Hi E). }
  destruct (release_tx_ok iid (i_schoolId i) eid cid actor reason (rq_now rq') w1 i1
    (migratedEnrollment iid i cid (rq_now rq)) c) as (w2 & R2 & Hi2 & He2 & Hp2 & Hc2); try done.
  { rewrite He1. apply lookup_insert_eq. }
  { by apply (fresh_plan_unsettled (db w) _ _ (migratedPayment eid i (rq_now rq))). }
  destruct (release_run rq' iid actor reason w1 w2 (i_schoolId i) s i1 eid
    (migratedEnrollment iid i cid (rq_now rq))) as (w3 & R3 & E3); try done.
  { destruct Ho. constructor; rewrite ?Hs1; done. }
  set (i2 := revoked_by (au_userId actor) (rq_now rq') i1) in *.
  exists res, w1, w3, (migratedEnrollment iid i cid (rq_now rq)), i2. split.
  { unfold claim, mbind, M_bind. rewrite findByToken_eq, Hl by done.
    by rewrite (claimable_not_expired _ _ Hc). }
  assert (invites (db w2) = <[iid := i2]> (invites (db w))) as Hinv by (by rewrite Hi2, Hi1, insert_insert_eq).
  assert (find_row (by_tokenHash (i_tokenHash i)) (invites (db w2)) = Some (iid, i2)) as Hfound.
  { apply find_row_unique; [rewrite Hinv; apply lookup_insert_eq | apply String.eqb_refl |]. intros k j.
    rewrite Hi2. intros [[<- _]|[_ Hk]]%lookup_insert_Some Ht; [done|]. apply String.eqb_eq in Ht. by apply (Htok k j). }
  split; [exact R3|]. rewrite E3, He2, Hp2, Hc2. split; [|split; [|split; [|split; [|split; [done|split; [done|split; [done|split; [|split]]]]]]]].
  - rewrite He1. apply delete_insert_id. apply eq_None_not_Some. intros [e He].
    apply (proj1 (iw_fresh _ W)) in He. lia.
  - by apply (fresh_plan_removed (db w) _ _ (migratedPayment eid i (rq_now rq))).
  - rewrite He1. apply lookup_insert_eq.
  - by exists c.
  - rewrite Hinv. by apply revoked_not_migrated.
  - unfold link. by rewrite Hhash.
  - intros rq3 user3 w4 j Hj. by apply (revoked_link_dead rq3 raw user3 iid j).
Qed.
(** The row [reissue] writes. *)
Definition reissued (hash : string) (expiresAt : Z) (i : EnrollmentInvite) : EnrollmentInvite :=
  set_i_expiresAt expiresAt (set_i_tokenHash hash (set_i_status INV_PENDING i)).

Lemma link_fresh raw iid i' d :
  inviteConflict sys iid i' d = None -> hashInviteToken (digest sys) raw = Some (i_tokenHash i') ->
  find_row (by_tokenHash (i_tokenHash i')) (<[iid := i']> (invites d)) = Some (iid, i').
Proof.
  intros Hf Hh. apply find_row_unique; [apply lookup_insert_eq | apply String.eqb_refl |].
  intros k j [[<- _]|[Hn Hk]]%lookup_insert_Some Ht; [done|]. unfold by_tokenHash in Ht.
  apply String.eqb_eq in Ht. pose proof (proj1 (inviteConflict_none _ _ _) Hf k j) as (_ & _ & H); [congruence | done | done].
Qed.

(** A re-issue, on every branch: only a PENDING or EXPIRED invite gets a new
    link; the old link resolves to nothing from then on and the new one to the
    same invite, claimable at once.  When the student's slot was taken in the
    meantime the unique violation escapes as it is (a server error), and the view
    returned still shows the status from before. *)
Theorem reissue_outcomes rq iid actor schoolId s i w origin :
  inv_wf (db w) -> owns actor schoolId s (db w) -> rq_origin rq = Some origin ->
  isMigrationWindowOpen (s_migrationDeadline s) (rq_now rq) = true ->
  invites (db w) !! iid = Some i -> i_schoolId i = schoolId ->
  let r := reissue sys rq iid actor w in
  let i' := reissued (digest sys (rq_random rq)) (expiryFrom (rq_now rq) None) i in
  if status_in [INV_PENDING; INV_EXPIRED] i then
    match inviteConflict sys iid i' (db w) with
    | Some index => r = (Err (FUnique index), w)
    | None => exists view share w', r = (Ok (view, share), w') /\
        invites (db w') = <[iid := i']> (invites (db w)) /\
        payments (db w') = payments (db w) /\ enrollments (db w') = enrollments (db w) /\
        isClaimable i' (rq_now rq) = true /\
        (forall raw, link raw (db w) = Some (iid, i) -> digest sys raw <> digest sys (rq_random rq) ->
           link raw (db w') = None) /\
        (TOKEN_SHAPE (rq_random rq) = true -> link (rq_random rq) (db w') = Some (iid, i')) /\
        sv_status view = i_status i
    end
  else r = (Err (FBadRequest (REISSUE_REFUSALS (i_status i))), w).
Proof.
  intros W Ho Hor Hop Hi Hs. cbv zeta. set (i' := reissued _ _ _).
  destruct (reissue sys rq iid actor w) as [r w'] eqn:Er. revert Er.
  unfold reissue, mbind at 1, M_bind at 1. rewrite (assertOwnsSchool_ok actor schoolId s) by done.
  unfold read, orThrow, ensure, audit_record, write, mbind, M_bind, mret, M_ret, throw. rewrite Hor, Hop.
  rewrite (invite_of_school_ok iid schoolId (db w) i) by done.
  rewrite saveInvite_eq, Hi. unfold of_status at 1. rewrite (bool_decide_eq_true_2 _ Hs). cbn [andb].
  change (set_i_expiresAt _ (set_i_tokenHash _ (set_i_status INV_PENDING i))) with i'.
  destruct (status_in [INV_PENDING; INV_EXPIRED] i); [|by intros [= <- <-]].
  destruct (inviteConflict sys iid i' (db w)) as [index|] eqn:Hf; [by intros [= <- <-]|].
  intros [= <- <-].
  do 3 eexists. split; [reflexivity|]. cbn -[insert i' link TOKEN_SHAPE]. split; [done|]. split; [done|]. split; [done|].
  split; [|split; [|split; [|done]]].
  - apply claimable_spec. split; [done|]. cbn. pose proof (expiryFrom_range (rq_now rq) None). unfold DAY_MS in *. lia.
  - intros raw Hl Hne. pose proof (link_some _ _ _ _ Hl) as [Hh _]. unfold link in *. rewrite Hh in *. simpl in *.
    match goal with |- ?x = None => destruct x as [[k j]|] eqn:E; [exfalso|done] end.
    apply find_row_some in E as [[[_ <-]|[Hn Hk]]%lookup_insert_Some Ht]; unfold by_tokenHash in Ht;
      apply String.eqb_eq in Ht.
    + unfold hashInviteToken in Hh. destruct (TOKEN_SHAPE raw); [|done]. injection Hh as Hh. cbn in Ht. congruence.
    + apply Hn. symmetry. by apply (iw_token _ W _ _ _ _ Hk Hi).
  - intros Ht. unfold link, hashInviteToken. rewrite Ht. cbn -[insert i'].
    apply (link_fresh (rq_random rq) iid i' (db w)); [done|].
    unfold hashInviteToken. by rewrite Ht.
Qed.

(** ** The sweep *)

Lemma expire_rows_lookup (ids : list id) (m : gmap id EnrollmentInvite) (k : id) :
  foldr (alter (set_i_status INV_EXPIRED)) m ids !! k =
    if decide (k ∈ ids) then set_i_status INV_EXPIRED <$> m !! k else m !! k.
Proof.
  induction ids as [|a ids IH]; cbn [foldr]; [by rewrite decide_False by apply not_elem_of_nil|].
  destruct (decide (k = a)) as [->|Hne].
  - rewrite lookup_alter_eq, IH. rewrite (decide_True (P := a ∈ a :: ids)) by left.
    destruct (decide (a ∈ ids)); [|done]. by destruct (m !! a).
  - rewrite lookup_alter_ne, IH by done. destruct (decide (k ∈ ids)) as [H|H].
    + by rewrite decide_True by (by right).
    + rewrite decide_False; [done|]. by rewrite elem_of_cons; intros [?|?].
Qed.

Lemma invites_where_elem cond d iid i :
  (iid, i) ∈ invites_where cond d <-> invites d !! iid = Some i /\ cond i = true.
Proof.
  unfold invites_where. rewrite list_elem_of_filter, elem_of_map_to_list. cbn. tauto.
Qed.

(** The expiry sweep: run on the rows it has just read it retires exactly
    the lapsed invites, and counts them; but its write selects by id alone, so an
    invite that was re-issued, revoked or claimed between the read and the write
    is set to EXPIRED all the same. *)
Theorem expireStale_overwrites now w w1 :
  let due := invites_where (fun i => hasExpired i now) (db w) in
  exists n w2, expireStale_update due w1 = (Ok n, w2) /\ enrollments (db w2) = enrollments (db w1) /\
    (forall iid i i1, invites (db w) !! iid = Some i -> invites (db w1) !! iid = Some i1 ->
       invites (db w2) !! iid = Some (if hasExpired i now then set_i_status INV_EXPIRED i1 else i1)) /\
    (w1 = w -> n = Z.of_nat (length due)).
Proof.
  cbv zeta. unfold expireStale_update, read, write, mbind, M_bind, mret, M_ret.
  do 2 eexists. split; [reflexivity|]. split; [done|]. split.
  - intros iid i i1 Hi Hi1. cbn -[invites_where]. rewrite expire_rows_lookup, Hi1.
    destruct (hasExpired i now) eqn:E.
    + rewrite decide_True; [done|]. apply list_elem_of_fmap. exists (iid, i). split; [done|].
      by apply invites_where_elem.
    + rewrite decide_False; [done|]. intros ((k & j) & -> & H)%list_elem_of_fmap.
      apply invites_where_elem in H as [H1 H2]. cbn in *. congruence.
  - intros ->. do 2 f_equal.
    assert (forall l : list (id * EnrollmentInvite), (forall kv, kv ∈ l -> is_Some (invites (db w) !! kv.1)) ->
      length (filter (fun i => is_Some (invites (db w) !! i)) l.*1) = length l) as H.
    { induction l as [|kv l IH]; intros Hl; [done|]. csimpl. rewrite filter_cons_True; [|apply Hl; left].
      cbn [length]. f_equal. apply IH. intros x Hx. apply Hl. by right. }
    apply H. intros [k j] [Hk _]%invites_where_elem. by eexists.
Qed.
End specs.

(** ** Witnesses *)

Definition sample_sys : Platform :=
  mkPlatform (fun s => s) (fun s => "#" +:+ s) sample_category_C (fun s => "#" +:+ s).
Definition sample_request : Request :=
  mkRequest 100 (Some "https://app.lopay.ng"%string) "BBBBBBBBBBBBBBBBBBBBBBBBBBBBBBBBBBBBBBBBBBB" (fun _ => true).
Definition sample_parent_user : AuthUser := mkAuthUser 11%positive PARENT None.
Definition sample_owner_user : AuthUser := mkAuthUser 10%positive SCHOOL_OWNER (Some 1%positive).

Lemma sample_invites_wf : inv_wf sample_sys (db sample_invites).
Proof.
  split; cbn -[lookup].
  - intros eid e iid He. by rewrite lookup_empty in He.
  - intros iid i [_ <-]%lookup_singleton_Some. done.
  - intros eid e eid' e' iid He. by rewrite lookup_empty in He.
  - intros iid i iid' i' [<- _]%lookup_singleton_Some [<- _]%lookup_singleton_Some. done.
  - split; [intros eid e He; by rewrite lookup_empty in He|].
    intros iid i [<- _]%lookup_singleton_Some. lia.
Qed.

Lemma sample_invites_fk : fk_ids (db sample_invites).
Proof.
  split; cbn -[lookup].
  - intros eid e He. by rewrite lookup_empty in He.
  - intros cid c [[_ <-]|[_ [_ <-]%lookup_singleton_Some]]%lookup_insert_Some; cbn; lia.
Qed.

Lemma sample_invites_books : books_wf (db sample_invites).
Proof. split; cbn -[lookup]; intros i p H; by rewrite lookup_empty in H. Qed.

Lemma sample_owns : owns sample_owner_user 1%positive sample_school (db sample_invites).
Proof. by split. Qed.

Example claim_outcomes_witness :
  exists res w', claim sample_sys sample_request sample_link sample_parent_user sample_invites = (Ok res, w') /\
    invites (db w') = {[ 15%positive := claimed_by 11%positive None 100 sample_invite ]}.
Proof.
  assert (Hl : link sample_sys sample_link (db sample_invites) = Some (15%positive, sample_invite))
    by (vm_compute; reflexivity).
  assert (Hr : claim_ready sample_sys sample_invite 100 11%positive (db sample_invites) = true)
    by (vm_compute; reflexivity).
  pose proof (claim_outcomes sample_sys sample_request sample_link sample_parent_user sample_invites
    (mkUser "parent@x.ng" PARENT None (Some "08031111111"%string) None None None)
    sample_invites_wf sample_invites_fk eq_refl) as H.
  cbv zeta in H. rewrite Hl in H. cbn [sample_request rq_now sample_parent_user au_userId] in H. rewrite Hr in H.
  destruct H as (res & w' & cid & H1 & _ & _ & _ & _ & _ & _ & H2). exists res, w'. split; [exact H1 | exact H2].
Defined.

Definition sample_claimed : res MigratedClaim * World :=
  runClaimTransaction (claim_tx sample_sys 15%positive sample_invite ("#" +:+ sample_link)
    sample_parent_user None 100) sample_invites.
Example claim_once_witness :
  runClaimTransaction (claim_tx sample_sys 15%positive sample_invite ("#" +:+ sample_link)
    sample_owner_user None 100) sample_claimed.2 =
  (Err (FBadRequest "This invite is no longer available."), sample_claimed.2).
Proof.
  assert (sample_claimed = (Ok (migrated_claim 15%positive sample_invite 20%positive 100 21%positive),
    sample_claimed.2)) as E by (vm_compute; reflexivity).
  exact (claim_once sample_sys _ _ _ _ _ _ _ _ _ sample_invite ("#" +:+ sample_link) sample_owner_user None 100 E).
Defined.

Example release_undoes_claim_witness :
  exists res w1 w2, claim sample_sys sample_request sample_link sample_parent_user sample_invites = (Ok res, w1) /\
    release sample_sys sample_request 15%positive sample_owner_user None w1 = (Ok tt, w2) /\
    enrollments (db w2) = ∅ /\ payments (db w2) = ∅.
Proof.
  destruct (release_undoes_claim sample_sys sample_request sample_request sample_link sample_parent_user
    sample_owner_user None sample_invites (mkUser "parent@x.ng" PARENT None (Some "08031111111"%string) None None None)
    15%positive sample_invite sample_school sample_invites_wf sample_invites_fk sample_invites_books
    ltac:(reflexivity) ltac:(vm_compute; reflexivity) ltac:(vm_compute; reflexivity) sample_owns)
    as (res & w1 & w2 & plan & i' & H1 & H2 & H3 & H4 & _).
  exists res, w1, w2. split; [exact H1|]. split; [exact H2|]. split; [exact H3 | exact H4].
Defined.

(** The new link of the sample invite. *)
Definition sample_open_school : School :=
  mkSchool "Greenfield" 10%positive "08030000000" (Some "ACCT_1"%string) true None 200
  "office@greenfield.ng" "1 Marina" "GTBank" (Some "058"%string) "GREENFIELD SCHOOLS" "0123456789".
Definition sample_migrating : World :=
  mkWorld (mkDB ∅ ∅ {[ 15%positive := sample_invite ]} {[ 1%positive := sample_open_school ]} ∅
    (parents sample_db) (children sample_db) (users sample_db) ∅ ∅ ∅ ∅ [] [] 20%positive) [].
Example reissue_outcomes_witness :
  exists r w', reissue sample_sys sample_request 15%positive sample_owner_user sample_migrating = (Ok r, w') /\
    link sample_sys sample_link (db w') = None.
Proof.
  pose proof (reissue_outcomes sample_sys sample_request 15%positive sample_owner_user 1%positive
    sample_open_school sample_invite sample_migrating "https://app.lopay.ng") as H.
  destruct H as (view & share & w' & H1 & _ & _ & _ & _ & H2 & _); try reflexivity.
  - destruct sample_invites_wf as [A B C D E]. by split.
  - by split.
  - exists (view, share), w'. split; [exact H1|]. apply H2; [vm_compute; reflexivity | vm_compute; discriminate].
Defined.
