(* ===== verification/InviteSystem.v ===== *)
(** * Invites and plans, together

    The invites' operations interleaved with the ledger's and enrollment's: an
    invite is CLAIMED exactly while one plan hangs on it, and a claim or a
    revocation is never undone by the wrong operation. *)

From S2P Require Import Prelude JsNumber Money PaystackFee Dates Schedule Schema Effects Samples.
From S2P Require Import EnrollmentView MigratedPlan PaymentCalc Ledger Books LedgerCard LedgerMigrated.
From S2P Require Import Enrollment LedgerSpecs LedgerMigratedSpecs Invariant System.
From S2P Require Import Phone InvitePolicy Invites InviteSpecs.

(** The plan [eid] opened on the invite [iid]. *)
Definition linked (d : DB) (eid iid : id) : Prop :=
  exists e, enrollments d !! eid = Some e /\ e_enrollmentInviteId e = Some iid.

(** ** Handlers that leave the links alone *)

(** The columns of an invite the links and the indexes depend on. *)
Definition core (i : EnrollmentInvite) : id * string * string * string * EnrollmentInviteStatus :=
  (i_schoolId i, i_studentName i, i_className i, i_tokenHash i, i_status i).

Record links_same (d d' : DB) : Prop := mkLinksSame {
  ls_invites : forall iid, core <$> invites d' !! iid = core <$> invites d !! iid;
  ls_linked : forall eid iid, linked d' eid iid <-> linked d eid iid;
  ls_new : forall eid e, enrollments d' !! eid = Some e ->
    is_Some (enrollments d !! eid) \/ (next_id d <= eid < next_id d')%positive;
  ls_next : (next_id d <= next_id d')%positive }.

#[export] Instance links_same_preorder : PreOrder links_same.
Proof.
  split.
  - intros d. split; [done | done | intros eid e H; left; by eexists | lia].
  - intros a b c [A1 A2 A3 A4] [B1 B2 B3 B4]. split.
    + intros iid. by rewrite B1, A1.
    + intros eid iid. by rewrite B2, A2.
    + intros eid e H. destruct (B3 _ _ H) as [[e' H']|H']; [destruct (A3 _ _ H') as [?|?]; [by left|]|];
        right; lia.
    + lia.
Qed.

(** Nothing but other tables changed. *)
Lemma links_same_other d d' :
  invites d' = invites d -> enrollments d' = enrollments d -> (next_id d <= next_id d')%positive ->
  links_same d d'.
Proof.
  intros H1 H2 H3. split; [by rewrite H1 | unfold linked; by rewrite H2 | | done].
  intros eid e. rewrite H2. intros H. left. by eexists.
Qed.

Lemma links_same_update d d' eid e e' :
  invites d' = invites d -> enrollments d' = <[eid := e']> (enrollments d) -> next_id d' = next_id d ->
  enrollments d !! eid = Some e -> e_enrollmentInviteId e' = e_enrollmentInviteId e -> links_same d d'.
Proof.
  intros H1 H2 H3 He Hl. split; [by rewrite H1 | | | by rewrite H3].
  - intros k iid. unfold linked. rewrite H2. split.
    + intros (x & [[<- <-]|[_ Hx]]%lookup_insert_Some & E); [exists e; split; congruence | by eexists].
    + intros (x & Hx & E). destruct (decide (eid = k)) as [<-|Hn].
      * exists e'. rewrite lookup_insert_eq. split; [done|]. congruence.
      * exists x. by rewrite lookup_insert_ne by done.
  - intros k x. rewrite H2. intros [[<- _]|[_ Hx]]%lookup_insert_Some; left; by eexists.
Qed.

Lemma links_same_create d d' e :
  invites d' = invites d -> enrollments d' = <[next_id d := e]> (enrollments d) ->
  next_id d' = Pos.succ (next_id d) -> e_enrollmentInviteId e = None ->
  enrollments d !! next_id d = None -> links_same d d'.
Proof.
  intros H1 H2 H3 Hl Hf. split; [by rewrite H1 | | | lia].
  - intros k iid. unfold linked. rewrite H2. split.
    + intros (x & [[_ <-]|[_ Hx]]%lookup_insert_Some & E); [congruence | by eexists].
    + intros (x & Hx & E). exists x. split; [|done]. apply lookup_insert_Some. right. split; [|done].
      intros <-. congruence.
  - intros k x. rewrite H2, H3. intros [[<- _]|[_ Hx]]%lookup_insert_Some; [right; lia | left; by eexists].
Qed.

(** Plans have ids from the counter; kept by everything here. *)
Definition fresh_plans (d : DB) : Prop := forall eid e, enrollments d !! eid = Some e -> (eid < next_id d)%positive.

Lemma fresh_plans_next d : fresh_plans d -> enrollments d !! next_id d = None.
Proof. intros H. apply eq_None_not_Some. intros [e He]. apply H in He. lia. Qed.

Lemma links_same_fresh d d' : links_same d d' -> fresh_plans d -> fresh_plans d'.
Proof.
  intros [_ _ N L] F eid e He. destruct (N _ _ He) as [[x Hx]|H]; [apply F in Hx|]; lia.
Qed.

Definition keeps {A} (m : M A) : Prop :=
  forall w r w', fresh_plans (db w) -> m w = (r, w') -> links_same (db w) (db w').

Create HintDb keeps.

Lemma keeps_bind {A B} (m : M A) (f : A -> M B) : keeps m -> (forall a, keeps (f a)) -> keeps (m ≫= f).
Proof.
  intros Hm Hf w r w' F. unfold mbind, M_bind. destruct (m w) as [[a|e] w1] eqn:E.
  - intros H. pose proof (Hm _ _ _ F E) as L. transitivity (db w1); [done|].
    eapply Hf; [|exact H]. by eapply links_same_fresh.
  - intros [= _ <-]. by eapply Hm.
Qed.
Lemma keeps_ret {A} (a : A) : keeps (mret a).
Proof. intros w r w' _ [= _ <-]. reflexivity. Qed.
Lemma keeps_throw {A} e : keeps (@throw A e).
Proof. intros w r w' _ [= _ <-]. reflexivity. Qed.
Lemma keeps_read {A} (f : DB -> A) : keeps (read f).
Proof. intros w r w' _ [= _ <-]. reflexivity. Qed.
Lemma keeps_emit e : keeps (emit e).
Proof. intros w r w' _ [= _ <-]. reflexivity. Qed.
Lemma keeps_ensure b e : keeps (ensure b e).
Proof. unfold ensure. destruct b; [apply keeps_ret | apply keeps_throw]. Qed.
Lemma keeps_when b m : keeps m -> keeps (when b m).
Proof. unfold when. destruct b; [done | intros; apply keeps_ret]. Qed.
Lemma keeps_orThrow {A} (o : option A) e : keeps (orThrow o e).
Proof. destruct o; [apply keeps_ret | apply keeps_throw]. Qed.
Lemma keeps_catch {A} (m : M A) h : keeps m -> (forall e, keeps (h e)) -> keeps (catch m h).
Proof.
  intros Hm Hh w r w' F. unfold catch. destruct (m w) as [[a|e] w1] eqn:E.
  - intros [= _ <-]. by eapply Hm.
  - intros H. pose proof (Hm _ _ _ F E) as L. transitivity (db w1); [done|].
    eapply Hh; [|exact H]. by eapply links_same_fresh.
Qed.
Lemma keeps_transaction {A} (m : M A) : keeps m -> keeps (transaction m).
Proof.
  intros Hm w r w' F. unfold transaction. destruct (m w) as [[a|e] w1] eqn:E; intros [= _ <-]; [by eapply Hm|].
  reflexivity.
Qed.

(** A write to tables other than the plans and the invites. *)
Lemma keeps_write f :
  (forall d, invites (f d) = invites d /\ enrollments (f d) = enrollments d /\ (next_id d <= next_id (f d))%positive) ->
  keeps (write f).
Proof. intros H w r w' _ [= _ <-]. destruct (H (db w)) as (H1 & H2 & H3). by apply links_same_other. Qed.

Lemma keeps_updateEnrollment eid data :
  (forall e, e_enrollmentInviteId (data e) = e_enrollmentInviteId e) -> keeps (updateEnrollment eid data).
Proof.
  intros H w r w' _. unfold updateEnrollment, findEnrollmentOrThrow, read, orThrow, write, throw, mbind, M_bind, mret, M_ret.
  destruct (enrollments (db w) !! eid) as [e|] eqn:E; intros [= _ <-]; [|reflexivity].
  by eapply links_same_update.
Qed.

Lemma keeps_updateManyEnrollment eid cond data :
  (forall e, e_enrollmentInviteId (data e) = e_enrollmentInviteId e) -> keeps (updateManyEnrollment eid cond data).
Proof.
  intros H w r w' _. unfold updateManyEnrollment, read, write, mbind, M_bind, mret, M_ret.
  destruct (enrollments (db w) !! eid) as [e|] eqn:E; [destruct (cond e)|]; intros [= _ <-]; [|reflexivity..].
  by eapply links_same_update.
Qed.

Lemma keeps_createEnrollment e : e_enrollmentInviteId e = None -> keeps (createEnrollment e).
Proof.
  intros H w r w' F. rewrite createEnrollment_eq. destruct (invite_taken _ _); [intros [= _ <-]; reflexivity|].
  destruct (child_enrolled _ _); intros [= _ <-]; [reflexivity|].
  eapply links_same_create; try done. by apply fresh_plans_next.
Qed.

(** The figure of an invite is not one of its links. *)
Lemma keeps_amount iid k : keeps (updateManyInvite iid (fun _ => true) (set_i_amountAlreadyPaid k)).
Proof.
  intros w r w' _. unfold updateManyInvite, read, write, mbind, M_bind, mret, M_ret.
  destruct (invites (db w) !! iid) as [i|] eqn:E; intros [= _ <-]; [|reflexivity].
  split; cbn -[insert]; [|done | intros eid e H; left; by eexists | lia].
  intros j. destruct (decide (iid = j)) as [<-|Hn].
  - by rewrite lookup_insert_eq, E.
  - by rewrite lookup_insert_ne.
Qed.

Ltac keeps_step :=
  first
    [ apply keeps_ret | apply keeps_throw | apply keeps_read | apply keeps_emit | apply keeps_ensure
    | apply keeps_orThrow | apply keeps_amount
    | apply keeps_updateEnrollment; done | apply keeps_updateManyEnrollment; done
    | apply keeps_createEnrollment; done
    | apply keeps_bind; [|intros ?]
    | apply keeps_when | apply keeps_catch; [|intros ?] | apply keeps_transaction
    | apply keeps_write; intros ?; cbn -[insert]; (split; [done|]); (split; [done|]); lia
    | progress unfold audit_record, createNotification, notify, fresh_id, createPayment, updateManyPayment,
        findPaymentOrThrow, findEnrollmentOrThrow, creditFirstPaymentToBalance, openEnrollment
    | match goal with |- keeps (match ?x with _ => _ end) => destruct x end
    | match goal with |- keeps (let '_ := ?x in _) => destruct x end ].
Ltac keeps := repeat keeps_step.

Lemma keeps_body o :
  match o with ORecord _ _ _ _ _ _ | ORelease _ _ _ _ _ _ => False | _ => True end -> keeps (body o).
Proof.
  destruct o; intros Ho; try done; unfold body.
  - unfold confirmPayment_tx. keeps.
  - unfold rejectPayment_tx. keeps.
  - unfold reversePayment_tx. keeps.
  - unfold settleFirstPayment_tx. keeps.
  - unfold rejectFirstPayment_tx. keeps.
  - unfold reconcilePaystackPayment_tx. keeps.
  - unfold failPaystackPayment_tx. keeps.
  - unfold reversePaystackPaymentByDispute_tx. keeps.
  - unfold confirmFirstPayment_tx. keeps.
  - unfold markEnrollmentAsDefaulted_tx. keeps.
  - unfold markEnrollmentDefaultedBySweep_tx. keeps.
  - unfold amendMigratedPayment_tx. keeps.
  - unfold submit_tx. keeps.
  - unfold enrollChild_tx. keeps.
  - unfold initiate_tx. keeps.
Qed.

(** ** Operations on invites *)

Section system.
Context (sys : Platform).

(** The transactions: the ledger's and enrollment's, and the invites' own. *)
Inductive inv_op :=
| VLedger (o : op)
| VCreate (invite : EnrollmentInvite)
| VRevoke (inviteId schoolId userId : id) (now : Z)
| VReissue (inviteId schoolId : id) (hash : string) (expiresAt : Z)
| VRetire (inviteId : id)
| VClaim (inviteId : id) (invite : EnrollmentInvite) (tokenHash : string) (user : AuthUser)
    (phoneMatched : option bool) (now : Z)
| VDispute (inviteId : id) (reason : string) (now : Z)
| VRelease (inviteId schoolId enrollmentId childId : id) (actor : AuthUser) (reason : option string) (now : Z)
| VSweep (due : list (id * EnrollmentInvite)).

Definition inv_body (o : inv_op) : M unit :=
  match o with
  | VLedger o => body o
  | VCreate invite => createInvite sys invite;; mret tt
  | VRevoke iid schoolId userId now =>
      saveInvite sys iid (of_status schoolId [INV_PENDING; INV_DISPUTED]) (revoked_by userId now);; mret tt
  | VReissue iid schoolId hash expiresAt =>
      saveInvite sys iid (of_status schoolId [INV_PENDING; INV_EXPIRED]) (reissued hash expiresAt);; mret tt
  | VRetire iid => saveInvite sys iid (status_in EXPIRABLE_STATUSES) (set_i_status INV_EXPIRED);; mret tt
  | VClaim iid invite th user pm now => claim_tx sys iid invite th user pm now;; mret tt
  | VDispute iid reason now =>
      saveInvite sys iid (fun i => status_in [INV_PENDING] i && (now <? i_expiresAt i)) (disputed reason now);;
      mret tt
  | VRelease iid schoolId eid childId actor reason now =>
      release_tx sys iid schoolId eid childId actor reason now;; mret tt
  | VSweep due => expireStale_update due;; mret tt
  end.

(** What holds when the transaction opens.  A release works on the plan it read;
    an invite is created PENDING; and the sweep is assumed to find the rows it
    read still expirable, which its write does not check. *)
Definition inv_checked (reads : list (id * id)) (o : inv_op) (d : DB) : Prop :=
  match o with
  | VLedger o => match o with ORecord _ _ _ _ _ _ | ORelease _ _ _ _ _ _ => False | _ => True end
  | VCreate invite => i_status invite = INV_PENDING
  | VRelease iid _ eid _ _ _ _ => (iid, eid) ∈ reads
  | VSweep due => forall kv i, kv ∈ due -> invites d !! kv.1 = Some i -> status_in EXPIRABLE_STATUSES i = true
  | _ => True
  end.

(** A state: the world, and the plans of invites read by releases in flight. *)
Record InviteState := mkInviteState { is_world : World; is_reads : list (id * id) }.

Inductive inv_step : InviteState -> InviteState -> Prop :=
| inv_step_read w rs iid eid :
    linked (db w) eid iid -> inv_step (mkInviteState w rs) (mkInviteState w ((iid, eid) :: rs))
| inv_step_commit w rs o r w' :
    inv_checked rs o (db w) -> transaction (inv_body o) w = (r, w') ->
    inv_step (mkInviteState w rs) (mkInviteState w' rs).

Inductive inv_reachable (w0 : World) : InviteState -> Prop :=
| inv_start : inv_reachable w0 (mkInviteState w0 [])
| inv_more a b : inv_reachable w0 a -> inv_step a b -> inv_reachable w0 b.

(** ** What a read of a release is worth later *)

(** The invite is still claimed by the same plan, or revoked. *)
Definition plan_or_revoked (d : DB) (iid eid : id) : Prop :=
  exists i, invites d !! iid = Some i /\
    (i_status i = INV_REVOKED \/ i_status i = INV_CLAIMED /\ linked d eid iid).

Definition kept (d d' : DB) : Prop :=
  inv_wf sys d' /\ forall iid eid, plan_or_revoked d iid eid -> plan_or_revoked d' iid eid.

Lemma clash_core i i' j j' : core j = core i -> core j' = core i' -> clash sys i i' -> clash sys j j'.
Proof.
  unfold core, clash, live_clash, migrated_clash, status_in.
  intros [= -> -> -> -> ->] [= -> -> -> -> ->]. done.
Qed.
Lemma live_clash_sym i j : live_clash i j = live_clash j i.
Proof.
  unfold live_clash. rewrite (String.eqb_sym (i_studentName i)), (String.eqb_sym (i_className i)).
  rewrite (bool_decide_ext (i_schoolId i = i_schoolId j) (i_schoolId j = i_schoolId i)) by done.
  rewrite <- !andb_assoc. by rewrite (andb_comm (status_in _ i)).
Qed.
Lemma migrated_clash_sym i j : migrated_clash sys i j = migrated_clash sys j i.
Proof.
  unfold migrated_clash, insensitive. rewrite (String.eqb_sym (lower sys (i_studentName i))).
  rewrite (bool_decide_ext (i_schoolId i = i_schoolId j) (i_schoolId j = i_schoolId i)) by done.
  rewrite <- !andb_assoc. by rewrite (andb_comm (status_in _ i)).
Qed.

Lemma links_kept d d' : inv_wf sys d -> links_same d d' -> kept d d'.
Proof.
  intros [W1 W2 W3 W4 [W7 W8]] L. pose proof (links_same_fresh _ _ L W7) as F. destruct L as [L1 L2 L3 L4].
  assert (forall iid i, invites d' !! iid = Some i -> exists j, invites d !! iid = Some j /\ core j = core i) as Hi.
  { intros iid i Hi. specialize (L1 iid). rewrite Hi in L1. simpl in L1.
    destruct (invites d !! iid) as [j|]; [|done]. eexists. split; [done|]. by apply (inj Some). }
  assert (forall iid j, invites d !! iid = Some j -> exists i, invites d' !! iid = Some i /\ core i = core j) as Hi'.
  { intros iid j Hj. specialize (L1 iid). rewrite Hj in L1. simpl in L1.
    destruct (invites d' !! iid) as [i|]; [|done]. eexists. split; [done|]. by apply (inj Some). }
  assert (forall i j, core i = core j -> i_status i = i_status j /\ i_tokenHash i = i_tokenHash j) as Hst.
  { unfold core. intros i j [= _ _ _ -> ->]. done. }
  split; [split|].
  - intros eid e iid He Hl. destruct (proj1 (L2 eid iid)) as (x & Hx & Hxl); [by exists e|].
    destruct (W1 _ _ _ Hx Hxl) as (j & Hj & Hs). destruct (Hi' _ _ Hj) as (i & Hii & E).
    exists i. split; [done|]. by rewrite (proj1 (Hst _ _ E)).
  - intros iid i Hii Hs. destruct (Hi _ _ Hii) as (j & Hj & E). destruct (Hst _ _ E) as [Es _].
    destruct (W2 iid j Hj) as (eid & x & Hx & Hxl); [congruence|].
    destruct (proj2 (L2 eid iid)) as (e & He & Hl); [by exists x|]. eauto.
  - intros eid e eid' e' iid He He' Hl Hl'. destruct (proj1 (L2 eid iid)) as (x & Hx & Hxl); [by exists e|].
    destruct (proj1 (L2 eid' iid)) as (y & Hy & Hyl); [by exists e'|]. eauto.
  - intros iid i iid' i' H1 H2 Hc. destruct (Hi _ _ H1) as (j & Hj & E), (Hi _ _ H2) as (j' & Hj' & E').
    apply (W4 _ _ _ _ Hj Hj'). by apply (clash_core i i').
  - split; [done|]. intros iid i H1. destruct (Hi _ _ H1) as (j & Hj & _). apply W8 in Hj. lia.
  - intros iid eid (j & Hj & H). destruct (Hi' _ _ Hj) as (i & Hii & E). exists i. split; [done|].
    rewrite (proj1 (Hst _ _ E)). destruct H as [H|[H1 H2]]; [by left|right]. split; [done|]. by apply L2.
Qed.
(** A row the indexes admit keeps every index. *)
Lemma index_insert d d' iid i' :
  inv_wf sys d -> inviteConflict sys iid i' d = None -> invites d' = <[iid := i']> (invites d) ->
  forall a i b j, invites d' !! a = Some i -> invites d' !! b = Some j -> clash sys i j -> a = b.
Proof.
  intros W Hf E a i b j. rewrite E. pose proof (proj1 (inviteConflict_none sys _ _ _) Hf) as N.
  intros [[<- <-]|[Ha Hi]]%lookup_insert_Some [[<- <-]|[Hb Hj]]%lookup_insert_Some Hc; [done | | | ].
  - destruct (N b j (not_eq_sym Hb) Hj) as (N1 & N2 & N3). destruct Hc as [Hc|[Hc|Hc]]; congruence.
  - destruct (N a i (not_eq_sym Ha) Hi) as (N1 & N2 & N3). rewrite live_clash_sym in N1.
    rewrite migrated_clash_sym in N2. destruct Hc as [Hc|[Hc|Hc]]; congruence.
  - destruct Hc as [Hc|[Hc|Hc]].
    + by apply (iw_live _ _ W _ _ _ _ Hi Hj).
    + by apply (iw_migrated _ _ W _ _ _ _ Hi Hj).
    + by apply (iw_token _ _ W _ _ _ _ Hi Hj).
Qed.

(** A row that carried no plan and was not revoked becomes one that carries none. *)
Lemma kept_row d d' iid i' :
  inv_wf sys d -> inviteConflict sys iid i' d = None -> invites d' = <[iid := i']> (invites d) ->
  enrollments d' = enrollments d -> (next_id d <= next_id d')%positive -> (iid < next_id d')%positive ->
  i_status i' <> INV_CLAIMED ->
  (forall i, invites d !! iid = Some i -> i_status i <> INV_CLAIMED /\ i_status i <> INV_REVOKED) ->
  kept d d'.
Proof.
  intros W Hf E Ee En Hid Hs' Hs. pose proof (index_insert _ _ _ _ W Hf E) as U.
  destruct W as [W1 W2 W3 W4 [W7 W8]]. split; [split; rewrite ?Ee|].
  - intros eid e k He Hl. destruct (W1 _ _ _ He Hl) as (i & Hi & Hc). exists i. split; [|done].
    rewrite E. apply lookup_insert_Some. right. split; [|done]. intros <-. destruct (Hs i Hi). congruence.
  - intros k i. rewrite E. intros [[_ <-]|[_ Hi]]%lookup_insert_Some; [done|]. by apply W2.
  - exact W3.
  - exact U.
  - split; [intros eid e He; apply W7 in He; lia|].
    intros k i. rewrite E. intros [[<- _]|[_ Hi]]%lookup_insert_Some; [done|]. apply W8 in Hi. lia.
  - intros k eid (i & Hi & H). exists i. unfold linked. rewrite E, Ee. split; [|done].
    apply lookup_insert_Some. right. split; [|done]. intros <-. destruct (Hs i Hi) as [N1 N2]. destruct H as [H|[H _]]; congruence.
Qed.

Lemma kept_refl d : inv_wf sys d -> kept d d.
Proof. by split. Qed.

(** An update of a live or expired row to one that carries no plan. *)
Lemma save_kept iid cond data w r w' :
  inv_wf sys (db w) -> saveInvite sys iid cond data w = (r, w') ->
  (forall i, cond i = true -> i_status i <> INV_CLAIMED /\ i_status i <> INV_REVOKED) ->
  (forall i, i_status (data i) <> INV_CLAIMED) -> kept (db w) (db w').
Proof.
  intros W H Hc Hd. rewrite saveInvite_eq in H.
  destruct (invites (db w) !! iid) as [i|] eqn:Hi; [|injection H as _ <-; by apply kept_refl].
  destruct (cond i) eqn:E; [|injection H as _ <-; by apply kept_refl].
  destruct (inviteConflict sys iid (data i) (db w)) eqn:Hf; injection H as _ <-; [by apply kept_refl|].
  eapply kept_row; [done | exact Hf | done | done | cbn; lia | | apply Hd |].
  - cbn -[Pos.lt]. by apply (proj2 (iw_fresh _ _ W) _ i).
  - intros j. rewrite Hi. intros [= <-]. by apply Hc.
Qed.

Lemma status_in_spec l i : status_in l i = true <-> i_status i ∈ l.
Proof. unfold status_in. apply bool_decide_eq_true. Qed.

Lemma create_kept invite w r w' :
  inv_wf sys (db w) -> i_status invite = INV_PENDING -> createInvite sys invite w = (r, w') ->
  kept (db w) (db w').
Proof.
  intros W Hs. unfold createInvite, writeInvite, fresh_id, ensure, read, write, throw, mbind, M_bind, mret, M_ret.
  destruct (invite_checks invite); [|intros [= _ <-]; by apply kept_refl].
  assert (kept (db w) (set_next_id (Pos.succ (next_id (db w))) (db w))) as K.
  { apply links_kept; [done|]. apply links_same_other; cbn; [done | done | lia]. }
  cbn -[insert inviteConflict]. destruct (inviteConflict _ _ _ _) eqn:Hf; intros [= _ <-]; [exact K|].
  eapply kept_row; [done | | reflexivity | done | cbn; lia | cbn; lia | congruence |].
  - exact Hf.
  - intros i Hi. apply (proj2 (iw_fresh _ _ W)) in Hi. lia.
Qed.
(** A claim: the row takes the plan it opens. *)
Lemma claim_kept iid invite th user pm now w mc w' :
  inv_wf sys (db w) -> claim_tx sys iid invite th user pm now w = (Ok mc, w') -> kept (db w) (db w').
Proof.
  intros W H. apply claim_tx_inv in H as (j & cid & eid & Hj & Hc & Hf & Ht & _ & E & Ee & Hn & En).
  pose proof (index_insert _ _ _ _ W Hf E) as U. destruct W as [W1 W2 W3 W4 [W7 W8]].
  assert (i_status j = INV_PENDING) as Hs.
  { unfold claim_cond in Hc. rewrite !andb_true_iff, status_in_spec in Hc.
    destruct Hc as [[_ Hc] _]. by apply list_elem_of_singleton in Hc. }
  assert (forall k e, enrollments (db w) !! k = Some e -> e_enrollmentInviteId e <> Some iid) as Hno.
  { intros k e He Hl. destruct (W1 _ _ _ He Hl) as (j' & Hj' & Hs'). congruence. }
  assert (forall k e, enrollments (db w) !! k = Some e -> k <> eid) as Hfresh.
  { intros k e He ->. apply W7 in He. lia. }
  split; [split; rewrite ?Ee|].
  - intros k e l [[<- <-]|[_ He]]%lookup_insert_Some Hl; rewrite E.
    + injection Hl as <-. rewrite lookup_insert_eq. eexists. by split.
    + destruct (W1 _ _ _ He Hl) as (i & Hi & Hs'). exists i. split; [|done].
      apply lookup_insert_Some. right. split; [|done]. intros <-. congruence.
  - intros k i. rewrite E. intros [[<- _]|[_ Hi]]%lookup_insert_Some Hs'.
    + exists eid, (migratedEnrollment iid invite cid now). split; [apply lookup_insert_eq | done].
    + destruct (W2 _ _ Hi Hs') as (k' & e & He & Hl). exists k', e. split; [|done].
      apply lookup_insert_Some. right. split; [|done]. apply not_eq_sym. by eapply Hfresh.
  - intros k e k' e' l [[<- <-]|[_ He]]%lookup_insert_Some [[<- <-]|[_ He']]%lookup_insert_Some Hl Hl'; [done | | | ].
    + injection Hl as <-. by destruct (Hno _ _ He').
    + injection Hl' as <-. by destruct (Hno _ _ He).
    + by eapply W3.
  - exact U.
  - rewrite E, En. split.
    + intros k e [[<- _]|[_ He]]%lookup_insert_Some; [lia|]. apply W7 in He. lia.
    + intros k i [[<- _]|[_ Hi]]%lookup_insert_Some; [apply W8 in Hj|apply W8 in Hi]; lia.
  - intros k eid0 (i & Hi & H). exists i. rewrite E. split.
    + apply lookup_insert_Some. right. split; [|done]. intros <-. destruct H as [H|[H _]]; congruence.
    + destruct H as [H|[H (e & He & Hl)]]; [by left|right]. split; [done|]. exists e. rewrite Ee. split; [|done].
      apply lookup_insert_Some. right. split; [|done]. apply not_eq_sym. by eapply Hfresh.
Qed.

(** A release: the row and its plan part for good. *)
Lemma release_kept iid schoolId eid cid actor reason now w u w' :
  inv_wf sys (db w) -> plan_or_revoked (db w) iid eid ->
  release_tx sys iid schoolId eid cid actor reason now w = (Ok u, w') -> kept (db w) (db w').
Proof.
  intros W (i & Hi & Hp) H. unfold release_tx in H. apply bind_run in H as (n & w0 & Hn & H).
  rewrite saveInvite_eq, Hi in Hn. run_step H.
  destruct (of_status schoolId [INV_CLAIMED] i) eqn:Hc; [|by injection Hn as <- <-].
  destruct (inviteConflict _ _ _ _) eqn:Hf; [done|]. injection Hn as <- <-.
  unfold of_status in Hc. rewrite andb_true_iff, status_in_spec in Hc. destruct Hc as [_ Hs].
  apply list_elem_of_singleton in Hs. destruct Hp as [Hp|[_ (e & He & Hl)]]; [congruence|].
  match goal with H : releaseMigratedEnrollment _ _ _ _ _ _ _ = _ |- _ =>
    unfold releaseMigratedEnrollment in H; run_step H end.
  set (i' := revoked_by _ _ i) in *.
  match goal with |- kept _ ?x => set (d' := x) end.
  assert (invites d' = <[iid := i']> (invites (db w))) as E by done.
  assert (enrollments d' = delete eid (enrollments (db w))) as Ee by done.
  assert (next_id d' = next_id (db w)) as En by done. clearbody d'.
  pose proof (index_insert _ _ _ _ W Hf E) as U. destruct W as [W1 W2 W3 W4 [W7 W8]].
  split; [split; rewrite ?Ee|].
  - intros k x l [Hne Hx]%lookup_delete_Some Hxl. destruct (W1 _ _ _ Hx Hxl) as (j & Hj & Hjs).
    exists j. split; [|done]. rewrite E. apply lookup_insert_Some. right. split; [|done].
    intros <-. apply Hne. by apply (W3 _ _ _ _ _ He Hx Hl Hxl).
  - intros k j. rewrite E. intros [[_ <-]|[Hne Hj]]%lookup_insert_Some Hjs; [done|].
    destruct (W2 _ _ Hj Hjs) as (k' & x & Hx & Hxl). exists k', x. split; [|done].
    apply lookup_delete_Some. split; [|done]. intros <-. congruence.
  - intros k x k' x' l [_ Hx]%lookup_delete_Some [_ Hx']%lookup_delete_Some. eauto.
  - exact U.
  - rewrite E, En. split; [intros k x [_ Hx]%lookup_delete_Some; eauto|].
    intros k j [[<- _]|[_ Hj]]%lookup_insert_Some; eauto.
  - intros k eid0 (j & Hj & Hst). destruct (decide (iid = k)) as [<-|Hne].
    + exists i'. rewrite E, lookup_insert_eq. split; [done|]. by left.
    + exists j. rewrite E, lookup_insert_ne by done. split; [done|].
      destruct Hst as [Hst|[Hst (x & Hx & Hxl)]]; [by left|right]. split; [done|]. exists x. rewrite Ee.
      split; [|done]. apply lookup_delete_Some. split; [|done]. intros <-. congruence.
Qed.

(** The sweep over rows that are still expirable. *)
Lemma sweep_kept due w r w' :
  inv_wf sys (db w) ->
  (forall kv i, kv ∈ due -> invites (db w) !! kv.1 = Some i -> status_in EXPIRABLE_STATUSES i = true) ->
  expireStale_update due w = (r, w') -> kept (db w) (db w').
Proof.
  intros W Hdue. unfold expireStale_update, read, write, mbind, M_bind, mret, M_ret. intros [= _ <-].
  match goal with |- kept _ ?x => set (d' := x) end.
  assert (forall iid, invites d' !! iid = if decide (iid ∈ due.*1) then set_i_status INV_EXPIRED <$> invites (db w) !! iid
    else invites (db w) !! iid) as E by apply expire_rows_lookup.
  assert (enrollments d' = enrollments (db w)) as Ee by done.
  assert (next_id d' = next_id (db w)) as En by done. clearbody d'.
  assert (forall iid i, invites (db w) !! iid = Some i -> i_status i = INV_CLAIMED \/ i_status i = INV_REVOKED ->
    invites d' !! iid = Some i) as Hsame.
  { intros iid i Hi Hs. rewrite E. destruct (decide (iid ∈ due.*1)) as [Hin|]; [|done]. exfalso.
    apply list_elem_of_fmap in Hin as (kv & -> & Hin). pose proof (Hdue _ _ Hin Hi) as Hst.
    rewrite status_in_spec in Hst. destruct Hs as [Hs|Hs]; rewrite Hs in Hst;
      apply elem_of_cons in Hst as [Hst|Hst]; [done | by apply list_elem_of_singleton in Hst | done
        | by apply list_elem_of_singleton in Hst]. }
  assert (forall iid i, invites d' !! iid = Some i -> exists j, invites (db w) !! iid = Some j /\
    (i = j \/ i = set_i_status INV_EXPIRED j)) as Hback.
  { intros iid i. rewrite E. destruct (decide _); [|eauto].
    destruct (invites (db w) !! iid) as [j|]; [|done]. intros [= <-]. eauto. }
  assert (forall a i b j, invites d' !! a = Some i -> invites d' !! b = Some j -> clash sys i j -> a = b) as U.
  { intros a i b j Hi Hj Hc. destruct (Hback _ _ Hi) as (i0 & Hi0 & Ei), (Hback _ _ Hj) as (j0 & Hj0 & Ej).
    destruct Hc as [Hc|[Hc|Hc]].
    - apply (iw_live _ _ W _ _ _ _ Hi0 Hj0). unfold live_clash in *.
      destruct Ei as [->| ->]; [destruct Ej as [->| ->]|]; [done | by rewrite andb_false_r in Hc |].
      cbn in Hc. by rewrite andb_false_r in Hc.
    - apply (iw_migrated _ _ W _ _ _ _ Hi0 Hj0). unfold migrated_clash in *.
      destruct Ei as [->| ->]; [destruct Ej as [->| ->]|]; [done | by rewrite andb_false_r in Hc |].
      cbn in Hc. by rewrite andb_false_r in Hc.
    - apply (iw_token _ _ W _ _ _ _ Hi0 Hj0). by destruct Ei as [->| ->], Ej as [->| ->]. }
  destruct W as [W1 W2 W3 W4 [W7 W8]]. split; [split; rewrite ?Ee|].
  - intros eid e iid He Hl. destruct (W1 _ _ _ He Hl) as (i & Hi & Hs). exists i. split; [|done]. by apply Hsame; [|left].
  - intros iid i Hi Hs. destruct (Hback _ _ Hi) as (j & Hj & [->| ->]); [by eapply W2 | done].
  - exact W3.
  - exact U.
  - rewrite En. split; [done|]. intros iid i Hi. destruct (Hback _ _ Hi) as (j & Hj & _). eauto.
  - intros iid eid (i & Hi & H). exists i. split; [apply Hsame; [done|tauto]|].
    destruct H as [H|[H1 H2]]; [by left|right]. split; [done|]. unfold linked. by rewrite Ee.
Qed.
(** ** Every step *)

Lemma transaction_kept {A} (m : M A) w r w' :
  inv_wf sys (db w) -> (forall a w1, m w = (Ok a, w1) -> kept (db w) (db w1)) ->
  transaction (m;; mret tt) w = (r, w') -> kept (db w) (db w').
Proof.
  intros W H [E|[a E]]%transaction_inv; [rewrite E; by apply kept_refl | by eapply H].
Qed.

Lemma commit_kept reads o w r w' :
  inv_wf sys (db w) -> (forall iid eid, (iid, eid) ∈ reads -> plan_or_revoked (db w) iid eid) ->
  inv_checked reads o (db w) -> transaction (inv_body o) w = (r, w') -> kept (db w) (db w').
Proof.
  intros W Hr Hc. destruct o; cbn [inv_body inv_checked] in *.
  - intros H. apply links_kept; [done|]. eapply (keeps_transaction _ (keeps_body o Hc)); [|exact H].
    exact (proj1 (iw_fresh _ _ W)).
  - apply transaction_kept; [done|]. intros a w1. by apply create_kept.
  - apply transaction_kept; [done|]. intros a w1 H. eapply save_kept; [done | exact H | | done].
    intros i [_ Hs]%andb_true_iff. rewrite status_in_spec, !elem_of_cons in Hs.
    destruct Hs as [->|[->|Hs]]; [done | done | by apply elem_of_nil in Hs].
  - apply transaction_kept; [done|]. intros a w1 H. eapply save_kept; [done | exact H | | done].
    intros i [_ Hs]%andb_true_iff. rewrite status_in_spec, !elem_of_cons in Hs.
    destruct Hs as [->|[->|Hs]]; [done | done | by apply elem_of_nil in Hs].
  - apply transaction_kept; [done|]. intros a w1 H. eapply save_kept; [done | exact H | | done].
    intros i Hs. unfold EXPIRABLE_STATUSES in Hs. rewrite status_in_spec, !elem_of_cons in Hs.
    destruct Hs as [->|[->|Hs]]; [done | done | by apply elem_of_nil in Hs].
  - apply transaction_kept; [done|]. intros a w1. by apply claim_kept.
  - apply transaction_kept; [done|]. intros a w1 H. eapply save_kept; [done | exact H | | done].
    intros i [Hs _]%andb_true_iff. rewrite status_in_spec, !elem_of_cons in Hs.
    destruct Hs as [->|Hs]; [done | by apply elem_of_nil in Hs].
  - apply transaction_kept; [done|]. intros a w1. apply release_kept; auto.
  - apply transaction_kept; [done|]. intros a w1. by apply sweep_kept.
Qed.

Definition invite_state_ok (st : InviteState) : Prop :=
  inv_wf sys (db (is_world st)) /\
  forall iid eid, (iid, eid) ∈ is_reads st -> plan_or_revoked (db (is_world st)) iid eid.

Lemma inv_step_ok a b : inv_step a b -> invite_state_ok a -> invite_state_ok b /\ kept (db (is_world a)) (db (is_world b)).
Proof.
  intros [w rs iid eid Hl | w rs o r w' Hc Ht] [W Hr]; cbn in *.
  - split; [split; [done|]|by apply kept_refl]. cbn. intros iid' eid' [[= -> ->]|H]%elem_of_cons; [|auto].
    destruct Hl as (e & He & Hl). destruct (iw_plan _ _ W _ _ _ He Hl) as (i & Hi & Hs).
    exists i. split; [done|]. right. split; [done|]. by exists e.
  - assert (kept (db w) (db w')) as K by (by eapply commit_kept). split; [|done].
    destruct K as [W' K]. split; [done|]. cbn. auto.
Qed.

Lemma inv_reachable_ok w0 st :
  inv_wf sys (db w0) -> inv_reachable w0 st -> invite_state_ok st /\ kept (db w0) (db (is_world st)).
Proof.
  intros W H. induction H as [|a b H [IH1 [_ IH2]] Hs].
  - split; [split; [done|]|by apply kept_refl]. intros iid eid Hin. by apply elem_of_nil in Hin.
  - destruct (inv_step_ok _ _ Hs IH1) as [Hb [Wb Kb]]. split; [done|]. split; [done|]. auto.
Qed.

(** C4: in every state reachable by interleaving the invites' operations with
    every transaction of the ledger and of enrollment, an invite is CLAIMED
    exactly when a plan hangs on it, that plan is unique, and no student of a
    school, however the name is capitalised, has two claimed invites; provided the
    expiry sweep writes only over rows that are still expirable. *)
Theorem claimed_iff_plan w0 st :
  inv_wf sys (db w0) -> inv_reachable w0 st ->
  let d := db (is_world st) in
  (forall iid i, invites d !! iid = Some i -> (i_status i = INV_CLAIMED <-> exists eid, linked d eid iid)) /\
  (forall eid eid' iid, linked d eid iid -> linked d eid' iid -> eid = eid') /\
  (forall iid i iid' i', invites d !! iid = Some i -> invites d !! iid' = Some i' ->
     i_status i = INV_CLAIMED -> i_status i' = INV_CLAIMED -> i_schoolId i = i_schoolId i' ->
     lower sys (i_studentName i) = lower sys (i_studentName i') -> iid = iid').
Proof.
  intros W0 H. cbv zeta. destruct (inv_reachable_ok _ _ W0 H) as [[W _] _]. split; [|split].
  - intros iid i Hi. split.
    + intros Hs. destruct (iw_claimed _ _ W _ _ Hi Hs) as (eid & e & He & Hl). exists eid, e. done.
    + intros (eid & e & He & Hl). destruct (iw_plan _ _ W _ _ _ He Hl) as (j & Hj & Hs). congruence.
  - intros eid eid' iid (e & He & Hl) (e' & He' & Hl'). by apply (iw_unique _ _ W _ _ _ _ _ He He' Hl Hl').
  - intros iid i iid' i' Hi Hi' Hs Hs' E N. apply (iw_migrated _ _ W _ _ _ _ Hi Hi').
    unfold migrated_clash, insensitive, status_in. rewrite Hs, Hs', E, N.
    by rewrite String.eqb_refl, bool_decide_eq_true_2.
Qed.

(** C18: what happened to an invite is not quietly undone: along any interleaving
    of the invites' operations with the transactions of the ledger and of
    enrollment in which the expiry sweep writes only over rows that are still
    expirable, an invite that was revoked stays revoked, and one that was claimed
    stays claimed by the same plan until it is released, and then it is revoked.
    The source does not ensure that condition: its sweep writes by id the rows it
    has read before, and so can turn a claimed invite into an expired one
    ([expireStale_overwrites]). *)
Theorem invite_fate w0 st iid i :
  inv_wf sys (db w0) -> inv_reachable w0 st -> invites (db w0) !! iid = Some i ->
  let d := db (is_world st) in
  (i_status i = INV_REVOKED -> exists i', invites d !! iid = Some i' /\ i_status i' = INV_REVOKED) /\
  (forall eid, i_status i = INV_CLAIMED -> linked (db w0) eid iid ->
     exists i', invites d !! iid = Some i' /\
       (i_status i' = INV_REVOKED \/ i_status i' = INV_CLAIMED /\ linked d eid iid)).
Proof.
  intros W0 H Hi. cbv zeta. destruct (inv_reachable_ok _ _ W0 H) as [[W _] [_ K]]. split.
  - intros Hs. destruct (K iid (next_id (db (is_world st)))) as (i' & Hi' & Hs'); [exists i; auto|].
    exists i'. split; [done|]. destruct Hs' as [Hs'|[_ (e & He & _)]]; [done|].
    apply (proj1 (iw_fresh _ _ W)) in He. lia.
  - intros eid Hs Hl. apply K. exists i. auto.
Qed.
End system.

(** ** Witnesses *)

(** The sample invite is claimed, a release reads its plan and commits. *)
Definition sample_claim : inv_op :=
  VClaim 15%positive sample_invite ("#" +:+ sample_link) sample_parent_user None 100.
Definition sample_release : inv_op :=
  VRelease 15%positive 1%positive 21%positive 20%positive sample_owner_user None 200.
Definition sample_after_claim : World := snd (transaction (inv_body sample_sys sample_claim) sample_invites).
Definition sample_after_release : World :=
  snd (transaction (inv_body sample_sys sample_release) sample_after_claim).

Lemma sample_invite_path :
  inv_reachable sample_sys sample_invites
    (mkInviteState sample_after_release [(15%positive, 21%positive)]).
Proof.
  eapply inv_more; [eapply inv_more; [eapply inv_more; [apply inv_start|]|]|].
  - by apply (inv_step_commit sample_sys sample_invites [] sample_claim (Ok tt) sample_after_claim); vm_compute.
  - apply (inv_step_read sample_sys sample_after_claim [] 15%positive 21%positive). eexists. split; vm_compute; reflexivity.
  - apply (inv_step_commit sample_sys sample_after_claim _ sample_release (Ok tt)); [left|]. vm_compute. reflexivity.
Qed.

Definition revoked_sample : EnrollmentInvite :=
  revoked_by 10%positive 200 (claimed_by 11%positive None 100 sample_invite).
Example claimed_iff_plan_witness : ~ exists eid, linked (db sample_after_release) eid 15%positive.
Proof.
  intros H. pose proof (proj1 (claimed_iff_plan sample_sys _ _ sample_invites_wf sample_invite_path)
    15%positive revoked_sample ltac:(vm_compute; reflexivity)) as C.
  apply C in H. discriminate H.
Defined.

Lemma sample_after_claim_wf : inv_wf sample_sys (db sample_after_claim).
Proof.
  destruct (inv_reachable_ok sample_sys sample_invites (mkInviteState sample_after_claim []) sample_invites_wf)
    as [[W _] _]; [|exact W].
  eapply inv_more; [apply inv_start|].
  by apply (inv_step_commit sample_sys sample_invites [] sample_claim (Ok tt) sample_after_claim); vm_compute.
Qed.
Example invite_fate_witness :
  exists i', invites (db sample_after_release) !! 15%positive = Some i' /\
    (i_status i' = INV_REVOKED \/ i_status i' = INV_CLAIMED /\
     linked (db sample_after_release) 21%positive 15%positive).
Proof.
  apply (proj2 (invite_fate sample_sys sample_after_claim
    (mkInviteState sample_after_release [(15%positive, 21%positive)]) 15%positive
    (claimed_by 11%positive None 100 sample_invite) sample_after_claim_wf
    (inv_more _ _ _ _ (inv_more _ _ _ _ (inv_start _ _)
      (inv_step_read sample_sys sample_after_claim [] 15%positive 21%positive
        ltac:(eexists; split; vm_compute; reflexivity)))
      (inv_step_commit sample_sys sample_after_claim _ sample_release (Ok tt) sample_after_release
        ltac:(left) ltac:(vm_compute; reflexivity))) ltac:(vm_compute; reflexivity)) 21%positive);
    [reflexivity | eexists; split; vm_compute; reflexivity].
Defined.
