(* ===== verification/SchedulerSpecs.v ===== *)
(** * What the scheduled jobs do

    The lock lets one instance through per period; the detection defaults
    exactly the overdue plans; the card sweep settles what Paystack has decided. *)

From Stdlib Require Import QArith_base Sorted.
From S2P Require Import Prelude JsNumber Money Schedule Schema Effects Samples Ledger LedgerCard Enrollment.
From S2P Require Import LedgerSpecs LedgerCardSpecs InvitePolicy Invites InviteSpecs Scheduler.

(** ** The leader lock *)

(** The attempts of all instances on one lock, in the order the database serves
    them; whether each ran its job (a job that throws did run). *)
Fixpoint attempts (name : string) (ttlMs : Z) (l : list (Clock * M unit)) : M (list bool) :=
  match l with
  | [] => mret []
  | (clock, fn) :: l =>
      ran ← catch (withLeaderLock name ttlMs clock fn) (fun _ => mret true);
      rest ← attempts name ttlMs l;
      mret (ran :: rest)
  end.

(** The job does not touch the locks itself. *)
Definition lock_free (fn : M unit) : Prop :=
  forall w r w', fn w = (r, w') -> schedulerLocks (db w') = schedulerLocks (db w).

(** The lock is absent, or older than the cutoff. *)
Definition lock_open (name : string) (cutoff : Z) (d : DB) : Prop :=
  forall t, schedulerLocks d !! name = Some t -> t < cutoff.

Lemma attempt_run name ttl clock fn w ran w' :
  lock_free fn ->
  catch (withLeaderLock name ttl clock fn) (fun _ => mret true) w = (Ok ran, w') ->
  (ran = true <-> lock_open name (appNow clock - ttl) (db w)) /\
  schedulerLocks (db w') !! name = (if ran then Some (dbNow clock) else schedulerLocks (db w) !! name).
Proof.
  intros F. unfold catch, withLeaderLock, acquireLock, lock_open, read, mbind, M_bind.
  assert (forall w0 r, (let (r, w1) := fn w0 in match r with Ok _ => (Ok true, w1) | Err _ => (Ok true, w1) end) = (Ok r, w') ->
    r = true /\ schedulerLocks (db w') = schedulerLocks (db w0)) as Hfn.
  { intros w0 r. destruct (fn w0) as [[[]|e] w1] eqn:Ef; intros [= <- <-]; by rewrite (F _ _ _ Ef). }
  destruct (schedulerLocks (db w) !! name) as [t|] eqn:El; cbn; [destruct (t <? appNow clock - ttl) eqn:Et|];
    unfold write, mret, M_ret; cbn; to_prop.
  - intros H. destruct (Hfn (mkWorld (set_schedulerLocks (<[name := dbNow clock]> (schedulerLocks (db w))) (db w)) (out w)) ran)
      as [-> ->]; [by destruct (fn _) as [[]]|]. split; [|apply lookup_insert_eq].
    split; [|done]. intros _ t' [= <-]. lia.
  - intros [= <- <-]. split; [|done]. split; [done|]. intros H. specialize (H t eq_refl). lia.
  - intros H. destruct (Hfn (mkWorld (set_schedulerLocks (<[name := dbNow clock]> (schedulerLocks (db w))) (db w)) (out w)) ran)
      as [-> ->]; [by destruct (fn _) as [[]]|]. split; [|apply lookup_insert_eq]. done.
Qed.

Definition later_stamp (x y : Clock * M unit) : Prop := dbNow x.1 <= dbNow y.1.

(** The condition under which attempt [j] runs. *)
Definition slot_open (name : string) (ttl : Z) (l : list (Clock * M unit)) (rs : list bool) (d : DB)
    (j : nat) (y : Clock) : Prop :=
  lock_open name (appNow y - ttl) d /\
  forall i x, (i < j)%nat -> l !! i = Some x -> rs !! i = Some true -> dbNow x.1 + ttl < appNow y.

(** C35: the leader lock: among any attempts by any instances, in the order the
    database serves them, an attempt runs its job exactly when the lock found at
    the start and every earlier run are older than the period by its own clock: so
    no two runs fall within one period, and a lock whose holder died is free again
    once the period is over. *)
Theorem leader_lock name ttl l w rs w' :
  Forall (fun x => lock_free x.2) l -> StronglySorted later_stamp l ->
  (forall t, schedulerLocks (db w) !! name = Some t -> Forall (fun x => t <= dbNow x.1) l) ->
  attempts name ttl l w = (Ok rs, w') ->
  forall j y, l !! j = Some y -> (rs !! j = Some true <-> slot_open name ttl l rs (db w) j y.1).
Proof.
  intros F Hs. revert w rs. induction Hs as [|[c fn] l Hs IH Hc]; intros w rs Hd H j y Hj; [done|].
  apply Forall_cons_1 in F as [F1 F2]. cbn in F1. cbn [attempts] in H.
  apply bind_run in H as (ran & w1 & H1 & H). apply bind_run in H as (rest & w2 & H2 & H). run_step H.
  apply attempt_run in H1 as [Er El]; [|done].
  destruct j as [|j]; cbn in Hj.
  - injection Hj as <-. cbn. split.
    + intros [= ->]. split; [by apply Er|]. intros i x Hi. lia.
    + intros [Ho _]. f_equal. by apply Er.
  - assert (forall t, schedulerLocks (db w1) !! name = Some t -> Forall (fun x => t <= dbNow x.1) l) as Hd1.
    { intros t. rewrite El. destruct ran; [by intros [= <-]|]. intros Ht. by apply Hd, Forall_cons_1 in Ht as [_ Ht]. }
    specialize (IH F2 w1 rest Hd1 H2 j y Hj). cbn [lookup list_lookup]. rewrite IH.
    assert (t_le : forall t, schedulerLocks (db w) !! name = Some t -> t <= dbNow c).
    { intros t Ht. by apply Hd, Forall_cons_1 in Ht as [Ht _]. }
    unfold slot_open, lock_open. rewrite El. split.
    + intros [Ho Hi]. split.
      * intros t Ht. destruct ran; [|by apply Ho]. specialize (Ho _ eq_refl). apply t_le in Ht. lia.
      * intros [|i] x Hlt Hx Hr; cbn in Hx, Hr; [|by apply (Hi i); [lia | |]].
        injection Hx as <-. injection Hr as ->. specialize (Ho _ eq_refl). cbn. lia.
    + intros [Ho Hi]. split.
      * destruct ran; [|done]. intros t [= <-]. specialize (Hi 0%nat (c, fn) ltac:(lia) eq_refl eq_refl).
        cbn in Hi. lia.
      * intros i x Hlt Hx Hr. by apply (Hi (S i)); [lia | |].
Qed.

(** ** Defaulter detection *)

(** Foreign keys: every plan's school, child and parent exist. *)
Definition joins_exist (d : DB) : Prop :=
  forall eid e, enrollments d !! eid = Some e -> is_Some (join_enrollment d eid).

Lemma overdue_elem now d j :
  j ∈ overdue now d <->
  exists e, enrollments d !! j_eid j = Some e /\ overdue_cond now e = true /\ join_enrollment d (j_eid j) = Some j.
Proof.
  unfold overdue. split.
  - intros ([eid e] & Hin & H)%list_elem_of_omap. apply elem_of_map_to_list in Hin. cbn in H.
    destruct (overdue_cond now e) eqn:Ec; [|done].
    destruct (join_enrollment_some _ _ _ H) as [<- _]. eauto.
  - intros (e & He & Ec & H). apply list_elem_of_omap. exists (j_eid j, e).
    split; [by apply elem_of_map_to_list|]. cbn. by rewrite Ec.
Qed.

Lemma overdue_nodup now d : NoDup (j_eid <$> overdue now d).
Proof.
  unfold overdue. pose proof (NoDup_fst_map_to_list (enrollments d)) as N. revert N.
  generalize (map_to_list (enrollments d)). intros l. induction l as [|[eid e] l IH]; [constructor|].
  rewrite fmap_cons, list.NoDup_cons. intros [Hn N]. csimpl.
  destruct (overdue_cond now e); [|by apply IH].
  destruct (join_enrollment d eid) as [j|] eqn:E; [|by apply IH].
  apply join_enrollment_some in E as [<- _]. rewrite fmap_cons. apply list.NoDup_cons. split; [|by apply IH].
  intros (j' & Ej & Hin)%list_elem_of_fmap. apply Hn. apply list_elem_of_omap in Hin as ([k x] & Hin & H).
  cbn in H. destruct (overdue_cond now x); [|done]. apply join_enrollment_some in H as [H _].
  apply list_elem_of_fmap. exists (k, x). cbn. split; [congruence | done].
Qed.

(** The loop of the detection over distinct open plans. *)
Lemma detection_loop js w :
  NoDup (j_eid <$> js) ->
  (forall j, j ∈ js -> exists e, enrollments (db w) !! j_eid j = Some e /\ sweep_cond e = true) ->
  exists w', foldr (fun j k => markEnrollmentDefaultedBySweep j;; k) (mret tt) js w = (Ok tt, w') /\
    payments (db w') = payments (db w) /\
    length (auditLog (db w')) = (length (auditLog (db w)) + length js)%nat /\
    forall eid, enrollments (db w') !! eid =
      if decide (eid ∈ j_eid <$> js) then set_e_paymentStatus DEFAULTED <$> enrollments (db w) !! eid
      else enrollments (db w) !! eid.
Proof.
  revert w. induction js as [|j js IH]; intros w N H.
  - exists w. split; [done|]. split; [done|]. split; [by rewrite Nat.add_0_r|]. done.
  - rewrite fmap_cons, list.NoDup_cons in N. destruct N as [Hn N].
    destruct (H j) as (e & He & Hc); [left|].
    destruct (sweep_flips j w e He Hc) as (w1 & H1 & E1 & P1 & a & A1 & _).
    destruct (IH w1 N) as (w2 & H2 & P2 & A2 & E2).
    { intros j' Hj'. destruct (H j') as (e' & He' & Hc'); [by right|]. exists e'. split; [|done].
      rewrite E1, lookup_insert_ne; [done|]. intros E. apply Hn. rewrite E. by apply list_elem_of_fmap_2. }
    exists w2. cbn [foldr]. unfold mbind at 1, M_bind at 1. rewrite H1. split; [exact H2|].
    split; [congruence|]. split; [rewrite A2, A1, length_app; cbn; lia|].
    intros eid. rewrite E2, E1. destruct (decide (eid = j_eid j)) as [->|Hne].
    + rewrite decide_False, lookup_insert_eq, He by done. by rewrite decide_True by left.
    + rewrite lookup_insert_ne by done. destruct (decide (eid ∈ j_eid <$> js)).
      * by rewrite decide_True by (by right).
      * rewrite decide_False; [done|]. rewrite fmap_cons, elem_of_cons. by intros [?|?].
Qed.

Lemma overdue_sweeps now e : overdue_cond now e = true -> sweep_cond e = true.
Proof. unfold overdue_cond, sweep_cond. rewrite !andb_true_iff. tauto. Qed.

(** The nightly detection runs to the end and defaults exactly the plans
    that are ACTIVE, past their end and still owe something, writing one audit
    row each and leaving every payment and every other plan alone; and running it
    again at the same time changes nothing. *)
Theorem detection_complete now w :
  joins_exist (db w) ->
  exists w', runDetection now w = (Ok tt, w') /\ payments (db w') = payments (db w) /\
    (forall eid, enrollments (db w') !! eid =
       (fun e => if overdue_cond now e then set_e_paymentStatus DEFAULTED e else e) <$> enrollments (db w) !! eid) /\
    length (auditLog (db w')) = (length (auditLog (db w)) + length (overdue now (db w)))%nat /\
    runDetection now w' = (Ok tt, w').
Proof.
  intros J. unfold runDetection at 1. unfold read, mbind, M_bind.
  destruct (detection_loop (overdue now (db w)) w (overdue_nodup _ _)) as (w' & H & P & A & E).
  { intros j (e & He & Hc & _)%overdue_elem. exists e. split; [done|]. by eapply overdue_sweeps. }
  assert (forall eid, enrollments (db w') !! eid =
    (fun e => if overdue_cond now e then set_e_paymentStatus DEFAULTED e else e) <$> enrollments (db w) !! eid) as E'.
  { intros eid. rewrite E. destruct (enrollments (db w) !! eid) as [e|] eqn:He; [|by destruct (decide _)].
    cbn. destruct (overdue_cond now e) eqn:Hc.
    - rewrite decide_True; [done|]. destruct (J eid e He) as [j Hj].
      pose proof (join_enrollment_some _ _ _ Hj) as [<- _]. apply list_elem_of_fmap_2, overdue_elem. eauto.
    - rewrite decide_False; [done|]. intros (j & -> & (e' & He' & Hc' & _)%overdue_elem)%list_elem_of_fmap. congruence. }
  exists w'. split; [exact H|]. split; [done|]. split; [done|]. split; [done|].
  unfold runDetection, read, mbind, M_bind. assert (overdue now (db w') = []) as ->; [|done].
  destruct (overdue now (db w')) as [|j l] eqn:El; [done|]. exfalso.
  assert (j ∈ overdue now (db w')) as Hj by (rewrite El; left).
  apply overdue_elem in Hj as (e & He & Hc & _). rewrite E' in He.
  destruct (enrollments (db w) !! j_eid j) as [e0|]; [|done]. cbn in He. injection He as <-.
  destruct (overdue_cond now e0) eqn:Hc0; [|congruence]. unfold overdue_cond in Hc.
  by rewrite bool_decide_eq_false_2 in Hc by done.
Qed.

(** ** The card sweep *)

(** The unique column [Payment.paystackReference]. *)
Definition unique_references (m : gmap id Payment) : Prop :=
  forall pid p pid' p' r, m !! pid = Some p -> m !! pid' = Some p' ->
    p_paystackReference p = Some r -> p_paystackReference p' = Some r -> pid = pid'.

(** What the sweep makes of a stale payment. *)
Definition swept (env : Env) (now : Z) (r : string) (p : Payment) : Payment :=
  match verifyTransaction env r with
  | VerifyOk status fees _ =>
      if String.eqb status "success" then reconciled_row fees now p
      else if String.eqb status "failed" then set_p_status TX_FAILED p
      else if ABANDON_AGE_MS <? now - p_paymentDate p then set_p_status TX_FAILED p
      else p
  | _ => p
  end.

Lemma swept_reference env now r p : p_paystackReference (swept env now r p) = p_paystackReference p.
Proof. unfold swept. destruct (verifyTransaction env r); [done | done |]. by repeat case_match. Qed.

(** Rewriting a plan's balance or status keeps every join. *)
Lemma joins_exist_update d d' eid e :
  joins_exist d -> frame d d' -> enrollments d' = <[eid := e]> (enrollments d) ->
  (exists e0, enrollments d !! eid = Some e0 /\ e_schoolId e = e_schoolId e0 /\ e_childId e = e_childId e0) ->
  joins_exist d'.
Proof.
  intros J (_ & Hs & _ & Hp & Hc & _) E (e0 & He0 & E1 & E2) k x. rewrite E. intros Hx.
  assert (exists x0, enrollments d !! k = Some x0 /\ e_schoolId x = e_schoolId x0 /\ e_childId x = e_childId x0)
    as (x0 & Hx0 & X1 & X2).
  { apply lookup_insert_Some in Hx as [[<- <-]|[_ Hx]]; eauto. }
  destruct (J k x0 Hx0) as [j Hj]. unfold join_enrollment in *. rewrite E, Hx, Hs, Hc, Hp. rewrite Hx0 in Hj.
  simpl in *. rewrite X1, X2.
  destruct (schools d !! e_schoolId x0); simpl in *; [|done].
  destruct (children d !! e_childId x0) as [c|]; simpl in *; [|done].
  destruct (parents d !! c_parentId c); simpl in *; [by eexists|done].
Qed.

Lemma reference_found r d pid p :
  unique_references (payments d) -> joins_exist d -> payments d !! pid = Some p ->
  p_paystackReference p = Some r -> is_Some (enrollments d !! p_enrollmentId p) ->
  exists s, findPaymentByReference r d = Some s /\ sn_pid s = pid /\ sn_payment s = p.
Proof.
  intros U J Hp Hr [e He]. destruct (J _ _ He) as [j Hj]. unfold findPaymentByReference.
  rewrite (find_row_unique (by_reference r) (payments d) pid p Hp).
  - simpl. rewrite Hj. simpl. eauto.
  - unfold by_reference. by rewrite bool_decide_eq_true_2.
  - intros k q Hq Hc. unfold by_reference in Hc. apply bool_decide_eq_true in Hc. by apply (U _ _ _ _ _ Hq Hp Hc).
Qed.

(** Payments point at plans. *)
Definition plans_exist (d : DB) : Prop :=
  forall pid p, payments d !! pid = Some p -> is_Some (enrollments d !! p_enrollmentId p).

Record sweepable (d : DB) : Prop := mkSweepable {
  sw_unique : unique_references (payments d);
  sw_joins : joins_exist d;
  sw_plans : plans_exist d }.

Lemma sweepable_moves w w' pid p p' eid e e' :
  sweepable (db w) -> payments (db w) !! pid = Some p -> enrollments (db w) !! eid = Some e ->
  payments (db w') = <[pid := p']> (payments (db w)) ->
  enrollments (db w') = <[eid := e']> (enrollments (db w)) -> frame (db w) (db w') ->
  p_paystackReference p' = p_paystackReference p -> p_enrollmentId p' = p_enrollmentId p ->
  e_schoolId e' = e_schoolId e -> e_childId e' = e_childId e -> sweepable (db w').
Proof.
  intros [U J P] Hp He E1 E2 Fr R1 R2 S1 S2. split.
  - intros k q k' q' r. rewrite E1.
    intros [[<- <-]|[_ Hq]]%lookup_insert_Some [[<- <-]|[_ Hq']]%lookup_insert_Some Hr Hr'; [done | | | ].
    + rewrite R1 in Hr. by apply (U _ _ _ _ _ Hp Hq' Hr).
    + rewrite R1 in Hr'. by apply (U _ _ _ _ _ Hq Hp Hr).
    + by apply (U _ _ _ _ _ Hq Hq' Hr).
  - eapply joins_exist_update; eauto.
  - intros k q. rewrite E1, E2. intros Hq. apply lookup_insert_is_Some'.
    apply lookup_insert_Some in Hq as [[_ <-]|[_ Hq]]; right; [rewrite R2|]; eauto.
Qed.

Lemma reconcile_sweeps fmt dl r fees now w pid p :
  sweepable (db w) -> payments (db w) !! pid = Some p -> p_status p = TX_PENDING ->
  p_paystackReference p = Some r ->
  exists o w', reconcilePaystackPayment fmt dl r fees None now w = (Ok o, w') /\ sweepable (db w') /\
    payments (db w') = <[pid := reconciled_row fees now p]> (payments (db w)).
Proof.
  intros W Hp Hs Hr. pose proof (sw_plans _ W _ _ Hp) as [e He].
  destruct (reference_found r (db w) pid p (sw_unique _ W) (sw_joins _ W) Hp Hr) as (s & Hf & <- & <-); [by eexists|].
  pose proof (findPaymentByReference_some _ _ _ Hf) as (_ & _ & Hj).
  apply join_enrollment_some in Hj as [Hid He']. rewrite <- Hid in *.
  destruct (reconcile_pending fmt dl s r fees None now w e Hp Hs He) as (w' & H & M).
  do 2 eexists. unfold reconcilePaystackPayment, mbind, M_bind, read. rewrite Hf.
  split; [exact H|]. split; [|apply (mv_payments _ _ _ _ _ _ _ M)].
  destruct M as [M1 M2 _ M4].
  by apply (sweepable_moves w w' (sn_pid s) (sn_payment s) _ (j_eid (sn_join s)) e _ W Hp He M1 M2 M4).
Qed.

Lemma fail_sweeps r w pid p :
  sweepable (db w) -> payments (db w) !! pid = Some p -> p_status p = TX_PENDING ->
  p_paystackReference p = Some r ->
  exists o w', failPaystackPayment r w = (Ok o, w') /\ sweepable (db w') /\
    payments (db w') = <[pid := set_p_status TX_FAILED p]> (payments (db w)).
Proof.
  intros W Hp Hs Hr. pose proof (sw_plans _ W _ _ Hp) as [e He].
  destruct (reference_found r (db w) pid p (sw_unique _ W) (sw_joins _ W) Hp Hr) as (s & Hf & <- & <-); [by eexists|].
  pose proof (failPaystackPayment_outcomes r w) as O. cbv zeta in O. rewrite Hf in O.
  assert (has_status TX_PENDING (sn_payment s) = true) as Hc by (unfold has_status; by rewrite Hs).
  rewrite Hc in O. destruct O as (w' & H & P & E & F).
  pose proof (findPaymentByReference_some _ _ _ Hf) as (_ & _ & Hj).
  apply join_enrollment_some in Hj as [Hid He'].
  do 2 eexists. split; [exact H|]. split; [|exact P].
  by apply (sweepable_moves w w' (sn_pid s) (sn_payment s) _ _ _ _ W Hp He' P E F).
Qed.

Lemma sweep_one_run env now r w pid p :
  sweepable (db w) -> payments (db w) !! pid = Some p -> p_status p = TX_PENDING ->
  p_paystackReference p = Some r ->
  exists w', sweep_one env now (r, p_paymentDate p) w = (Ok tt, w') /\ sweepable (db w') /\
    payments (db w') = <[pid := swept env now r p]> (payments (db w)).
Proof.
  intros W Hp Hs Hr. unfold sweep_one, swept.
  assert (exists w', (mret tt : M unit) w = (Ok tt, w') /\ sweepable (db w') /\
    payments (db w') = <[pid := p]> (payments (db w))) as Hret by (exists w; by rewrite insert_id).
  destruct (verifyTransaction env r) as [| |status fees gr]; [done | done |].
  unfold catch, mbind, M_bind. destruct (String.eqb status "success").
  { destruct (reconcile_sweeps (toLocaleString env) (delivery env) r fees now w pid p W Hp Hs Hr)
      as (o & w' & -> & H). eauto. }
  destruct (fail_sweeps r w pid p W Hp Hs Hr) as (o & w' & Hf & H).
  destruct (String.eqb status "failed"); [rewrite Hf; eauto|].
  unfold when. destruct (ABANDON_AGE_MS <? now - p_paymentDate p); [rewrite Hf; eauto|exact Hret].
Qed.

Definition after_sweep (env : Env) (now : Z) (refs : list string) (p : Payment) : Payment :=
  match p_paystackReference p with
  | Some r => if decide (r ∈ refs) then swept env now r p else p
  | None => p
  end.

Lemma sweep_loop env now l w :
  sweepable (db w) -> NoDup l.*1 ->
  (forall r date, (r, date) ∈ l -> exists pid p, payments (db w) !! pid = Some p /\
     p_status p = TX_PENDING /\ p_paystackReference p = Some r /\ p_paymentDate p = date) ->
  exists w', foldr (fun p k => sweep_one env now p;; k) (mret tt) l w = (Ok tt, w') /\ sweepable (db w') /\
    payments (db w') = after_sweep env now l.*1 <$> payments (db w).
Proof.
  revert w. induction l as [|[r date] l IH]; intros w W N H.
  - exists w. split; [done|]. split; [done|]. symmetry. apply map_eq. intros k. rewrite lookup_fmap.
    destruct (payments (db w) !! k) as [p|]; [|done]. cbn. unfold after_sweep. by destruct (p_paystackReference p).
  - rewrite fmap_cons, list.NoDup_cons in N. destruct N as [Hn N]. cbn [fst] in Hn.
    destruct (H r date) as (pid & p & Hp & Hs & Hr & <-); [left|].
    destruct (sweep_one_run env now r w pid p W Hp Hs Hr) as (w1 & H1 & W1 & P1).
    destruct (IH w1 W1 N) as (w2 & H2 & W2 & P2).
    { intros r' date' Hin. destruct (H r' date') as (pid' & p' & Hp' & Hs' & Hr' & Hd'); [by right|].
      exists pid', p'. split; [|done]. rewrite P1, lookup_insert_ne; [done|]. intros <-. apply Hn.
      assert (r' = r) as <- by congruence. apply list_elem_of_fmap. by exists (r', date'). }
    exists w2. cbn [foldr]. unfold mbind at 1, M_bind at 1. rewrite H1. split; [exact H2|]. split; [exact W2|].
    rewrite P2, P1. apply map_eq. intros k. rewrite !lookup_fmap, fmap_cons. cbn [fst].
    destruct (decide (pid = k)) as [<-|Hne].
    + rewrite lookup_insert_eq, Hp. cbn. f_equal. unfold after_sweep. rewrite swept_reference, Hr.
      rewrite decide_False by done. by rewrite decide_True by left.
    + rewrite lookup_insert_ne by done. destruct (payments (db w) !! k) as [q|] eqn:Hq; [|done]. cbn. f_equal.
      unfold after_sweep. destruct (p_paystackReference q) as [rq|] eqn:Eq; [|done].
      assert (rq <> r) as Hd. { intros ->. by apply Hne, (sw_unique _ W _ _ _ _ _ Hp Hq Hr Eq). }
      destruct (decide (rq ∈ l.*1)).
      * by rewrite decide_True by (by right).
      * rewrite decide_False; [done|]. rewrite elem_of_cons. by intros [?|?].
Qed.

(** Every stale payment, were there no page size. *)
Definition stale_all (now : Z) (d : DB) : list (string * Z) :=
  omap (fun kv : id * Payment =>
    if stale_cond now kv.2 then (fun r => (r, p_paymentDate kv.2)) <$> p_paystackReference kv.2 else None)
    (map_to_list (payments d)).

Lemma stale_all_elem now d r date :
  (r, date) ∈ stale_all now d <-> exists pid p, payments d !! pid = Some p /\
    stale_cond now p = true /\ p_paystackReference p = Some r /\ p_paymentDate p = date.
Proof.
  unfold stale_all. split.
  - intros ([k p] & Hin & H)%list_elem_of_omap.
    apply elem_of_map_to_list in Hin. cbn in H. destruct (stale_cond now p) eqn:E; [|done].
    destruct (p_paystackReference p) as [r'|] eqn:Er; [|done]. injection H as -> <-. eauto 6.
  - intros (pid & p & Hp & Hc & Hr & <-). apply list_elem_of_omap. exists (pid, p).
    split; [by apply elem_of_map_to_list|]. cbn. by rewrite Hc, Hr.
Qed.

Lemma stale_all_nodup now d : unique_references (payments d) -> NoDup (stale_all now d).*1.
Proof.
  intros U. unfold stale_all. pose proof (NoDup_fst_map_to_list (payments d)) as N.
  assert (forall kv, kv ∈ map_to_list (payments d) -> payments d !! kv.1 = Some kv.2) as Hin
    by (intros [k p]; apply elem_of_map_to_list).
  revert N Hin. generalize (map_to_list (payments d)). intros l.
  induction l as [|[k p] l IH]; [constructor|]. rewrite fmap_cons, list.NoDup_cons. intros [Hn N] Hin. csimpl.
  assert (NoDup (omap (fun kv : id * Payment =>
    if stale_cond now kv.2 then (fun r => (r, p_paymentDate kv.2)) <$> p_paystackReference kv.2 else None) l).*1)
    as IH' by (apply IH; [done|]; intros kv Hkv; apply Hin; by right).
  destruct (stale_cond now p); [|done]. destruct (p_paystackReference p) as [r|] eqn:Er; [|done].
  cbn [fmap option_fmap option_map]. rewrite fmap_cons. apply list.NoDup_cons. split; [|done].
  intros ([r' date'] & Ee & Hx)%list_elem_of_fmap. cbn in Ee. subst r'.
  apply list_elem_of_omap in Hx as ([k' p'] & Hx & H). cbn in H. destruct (stale_cond now p'); [|done].
  destruct (p_paystackReference p') as [r'|] eqn:Er'; [|done]. cbn in H. injection H as <- _.
  apply Hn. apply list_elem_of_fmap. exists (k', p'). split; [|done]. cbn.
  apply (U k p k' p' r'); [apply (Hin (k, p)); left | apply (Hin (k', p')); by right | done | done].
Qed.

Lemma runSweep_run env w : sweepable (db w) ->
  exists w', runSweep env w = (Ok tt, w') /\ sweepable (db w') /\
    payments (db w') = after_sweep env (now env) (stale_payments (now env) (db w)).*1 <$> payments (db w).
Proof.
  intros W. change (stale_payments (now env) (db w)) with (take 100 (stale_all (now env) (db w))).
  assert (take 100 (stale_all (now env) (db w)) `sublist_of` stale_all (now env) (db w)) as S by apply sublist_take.
  destruct (sweep_loop env (now env) (take 100 (stale_all (now env) (db w))) w W) as (w' & H & W' & P); [| |eauto].
  - eapply sublist_NoDup; [apply (stale_all_nodup (now env) _ (sw_unique _ W))|]. by apply fmap_sublist.
  - intros r date Hin. eapply elem_of_sublist in Hin; [|exact S].
    apply stale_all_elem in Hin as (pid & p & Hp & Hc & Hr & Hd). exists pid, p.
    unfold stale_cond, has_status in Hc. rewrite !andb_true_iff, bool_decide_eq_true in Hc. tauto.
Qed.

(** C33: the card sweep runs to the end, whatever Paystack answers, and makes of
    each of the (at most a hundred) stale payments it read exactly this: a
    successful charge is reconciled, a failed one fails, an undecided one fails
    once it is a day old, and one Paystack cannot verify or does not know stays as
    it was, however old; every other payment is untouched.  With at most a hundred
    stale payments, those are all of them. *)
Theorem sweep_settles env w :
  sweepable (db w) ->
  let refs := (stale_payments (now env) (db w)).*1 in
  exists w', runSweep env w = (Ok tt, w') /\
    payments (db w') = after_sweep env (now env) refs <$> payments (db w) /\
    ((length (stale_all (now env) (db w)) <= 100)%nat ->
     forall pid p r, payments (db w) !! pid = Some p -> p_paystackReference p = Some r ->
       (r ∈ refs <-> stale_cond (now env) p = true)).
Proof.
  intros W. cbv zeta. destruct (runSweep_run env w W) as (w' & H & _ & P). exists w'. split; [exact H|]. split; [done|].
  change (stale_payments (now env) (db w)) with (take 100 (stale_all (now env) (db w))).
  intros Hlen pid p r Hp Hr. rewrite take_ge by done. split.
  - intros ([r' date] & -> & Hin)%list_elem_of_fmap. cbn in Hr.
    apply stale_all_elem in Hin as (pid' & p' & Hp' & Hc & Hr' & _).
    assert (pid = pid') as <- by (by apply (sw_unique _ W _ _ _ _ _ Hp Hp' Hr Hr')). congruence.
  - intros Hc. apply list_elem_of_fmap. exists (r, p_paymentDate p). split; [done|].
    apply stale_all_elem. eauto 6.
Qed.

(** ** The backlog *)

(** Paystack decides the charge, or the day is over. *)
Definition decided (env : Env) (r : string) (date : Z) : Prop :=
  match verifyTransaction env r with
  | VerifyOk status _ _ => status = "success"%string \/ status = "failed"%string \/ ABANDON_AGE_MS < now env - date
  | _ => False
  end.

Lemma decided_settles env r p : decided env r (p_paymentDate p) ->
  has_status TX_PENDING (swept env (now env) r p) = false.
Proof.
  unfold decided, swept. destruct (verifyTransaction env r) as [| |status fees gr]; [done|done|].
  destruct (String.eqb_spec status "success"); [done|]. destruct (String.eqb_spec status "failed"); [done|].
  intros [?|[?|H]]; [done|done|]. by rewrite (proj2 (Z.ltb_lt _ _) H).
Qed.

(** A run takes the first hundred off the backlog. *)
Lemma backlog_after env d d' :
  unique_references (payments d) ->
  (forall r date, (r, date) ∈ stale_all (now env) d -> decided env r date) ->
  payments d' = after_sweep env (now env) (stale_payments (now env) d).*1 <$> payments d ->
  forall x, x ∈ stale_all (now env) d' <-> x ∈ drop 100 (stale_all (now env) d).
Proof.
  intros U D P [r date]. pose proof (stale_all_nodup (now env) d U) as N.
  change (stale_payments (now env) d) with (take 100 (stale_all (now env) d)) in P.
  set (S := stale_all (now env) d) in *. rewrite <- (take_drop 100 S), fmap_app in N. apply list.NoDup_app in N as (_ & N & _).
  assert (forall x, x ∈ S <-> x ∈ take 100 S \/ x ∈ drop 100 S) as T
    by (intros x; by rewrite <- elem_of_app, take_drop).
  split.
  - intros (pid & p' & Hp' & Hc & Hr & Hd)%stale_all_elem. rewrite P, lookup_fmap in Hp'.
    destruct (payments d !! pid) as [p|] eqn:Hp; [|done]. cbn in Hp'. injection Hp' as <-.
    unfold after_sweep in *. destruct (p_paystackReference p) as [q|] eqn:Hq; [|congruence].
    destruct (decide (q ∈ (take 100 S).*1)) as [Hin|Hnin].
    + exfalso. apply list_elem_of_fmap in Hin as ([q' date'] & -> & Hin).
      assert ((q', date') ∈ S) as HS by (apply T; by left).
      apply stale_all_elem in HS as (pid0 & p0 & Hp0 & Hc0 & Hr0 & Hd0).
      assert (pid = pid0) as <- by (apply (U _ _ _ _ _ Hp Hp0 Hq Hr0)).
      assert (p0 = p) as -> by congruence. cbn in Hc. unfold stale_cond in Hc.
      rewrite (decided_settles env q' p) in Hc; [done|]. rewrite Hd0. apply D, T. by left.
    + assert ((r, date) ∈ S) as HS by (apply stale_all_elem; eauto 6). apply T in HS as [HS|HS]; [|done].
      destruct Hnin. apply list_elem_of_fmap. exists (r, date). split; [cbn; congruence|done].
  - intros Hx. assert ((r, date) ∈ S) as HS by (apply T; by right).
    apply stale_all_elem in HS as (pid & p & Hp & Hc & Hr & Hd). apply stale_all_elem. exists pid, p.
    split; [|done]. rewrite P, lookup_fmap, Hp. cbn. f_equal. unfold after_sweep. rewrite Hr, decide_False; [done|].
    intros Hin. apply (N r Hin). apply list_elem_of_fmap. by exists (r, date).
Qed.

Fixpoint sweeps (n : nat) (env : Env) : M unit :=
  match n with O => mret tt | S n' => runSweep env;; sweeps n' env end.

(** C34: the backlog drains: in a database whose references are unique and whose
    rows' plans, children and schools exist, when Paystack's verification of every
    stale charge answers, with a success, a failure, or (for a charge more than a
    day old) any other status, [n] runs of the sweep settle any backlog of up to a
    hundred times [n] payments, and none of them is stale any more (at one time,
    with Paystack's answers fixed).  A charge Paystack cannot verify is outside
    it, however old: a page of those is read again by every run
    ([unverifiable_page_starves]). *)
Theorem backlog_drains n env w :
  sweepable (db w) ->
  (forall r date, (r, date) ∈ stale_all (now env) (db w) -> decided env r date) ->
  (length (stale_all (now env) (db w)) <= 100 * n)%nat ->
  exists w', sweeps n env w = (Ok tt, w') /\ stale_all (now env) (db w') = [].
Proof.
  revert w. induction n as [|n IH]; intros w W D Hl.
  - exists w. split; [done|]. apply nil_length_inv. lia.
  - destruct (runSweep_run env w W) as (w1 & H1 & W1 & P1). pose proof (backlog_after env _ _ (sw_unique _ W) D P1) as B.
    assert (stale_all (now env) (db w1) ≡ₚ drop 100 (stale_all (now env) (db w))) as Hp.
    { apply NoDup_Permutation; [|
        |exact B].
      - eapply NoDup_fmap_1, (stale_all_nodup (now env) _ (sw_unique _ W1)).
      - eapply sublist_NoDup; [eapply NoDup_fmap_1, (stale_all_nodup (now env) _ (sw_unique _ W))|apply sublist_drop]. }
    destruct (IH w1 W1) as (w' & H & E).
    + intros r date Hin. apply D. apply B in Hin. eapply elem_of_sublist; [exact Hin|apply sublist_drop].
    + rewrite (Permutation_length Hp), length_drop. lia.
    + exists w'. split; [|exact E]. cbn [sweeps]. unfold mbind, M_bind. by rewrite H1.
Qed.

(** A page of payments Paystack cannot verify stops the sweep for good: nothing
    changes, so the next run reads the same page. *)
Theorem unverifiable_page_starves n env w :
  Forall (fun x => match verifyTransaction env x.1 with VerifyOk _ _ _ => False | _ => True end)
    (stale_payments (now env) (db w)) ->
  sweeps n env w = (Ok tt, w).
Proof.
  intros F. assert (runSweep env w = (Ok tt, w)) as R.
  { unfold runSweep, mbind at 1, M_bind at 1, read. induction F as [|[r date] l Hr _ IH]; [done|].
    cbn [foldr]. unfold mbind, M_bind. cbn in Hr. unfold sweep_one at 1. by destruct (verifyTransaction env r). }
  induction n as [|n IH]; [done|]. cbn [sweeps]. unfold mbind, M_bind. by rewrite R.
Qed.

(** ** Witnesses *)

Lemma sample_joins : joins_exist (db sample).
Proof.
  intros eid e He. cbn -[lookup] in He.
  apply lookup_insert_Some in He as [[<- _]|[_ [<- _]%lookup_singleton_Some]]; vm_compute; by eexists.
Qed.

Lemma sample_sweepable : sweepable (db sample).
Proof.
  split; [|apply sample_joins|].
  - intros pid p pid' p' r Hp Hp' Hr Hr'. cbn -[lookup] in Hp, Hp'.
    apply lookup_insert_Some in Hp as [[_ <-]|[_ [<- _]%lookup_singleton_Some]]; [done|].
    by apply lookup_insert_Some in Hp' as [[_ <-]|[_ [<- _]%lookup_singleton_Some]].
  - intros pid p Hp. cbn -[lookup] in Hp.
    apply lookup_insert_Some in Hp as [[_ <-]|[_ [_ <-]%lookup_singleton_Some]]; vm_compute; by eexists.
Qed.

Definition sample_sweep_env : Env :=
  mkEnv 10000000 "x" 0%Q (fun _ => "0.00"%string) (mkDelivery true (fun _ => true)) (fun _ => "u"%string)
    (fun _ => VerifyOk "success" (Some 52000) None) (fun _ => None).
Example sweep_settles_witness :
  exists w', runSweep sample_sweep_env sample = (Ok tt, w') /\
    payments (db w') !! 6%positive = Some (reconciled_row (Some 52000) 10000000 sample_card).
Proof.
  destruct (sweep_settles sample_sweep_env sample sample_sweepable) as (w' & H & P & _).
  exists w'. split; [exact H|]. rewrite P. vm_compute. reflexivity.
Defined.

Example detection_complete_witness :
  exists w', runDetection 8000000000 sample = (Ok tt, w') /\
    enrollments (db w') !! 4%positive = Some (set_e_paymentStatus DEFAULTED sample_plan).
Proof.
  destruct (detection_complete 8000000000 sample sample_joins) as (w' & H & _ & E & _).
  exists w'. split; [exact H|]. rewrite E. vm_compute. reflexivity.
Defined.

(** Two instances at once, and a third after the period. *)
Example leader_lock_witness :
  exists w', attempts "job" 1000 [(mkClock 5 5, mret tt); (mkClock 6 6, mret tt); (mkClock 2000 2000, mret tt)]
      sample = (Ok [true; false; true], w') /\
    slot_open "job" 1000 [(mkClock 5 5, mret tt); (mkClock 6 6, mret tt); (mkClock 2000 2000, mret tt)]
      [true; false; true] (db sample) 2 (mkClock 2000 2000).
Proof.
  eexists. split; [vm_compute; reflexivity|].
  apply (leader_lock "job" 1000 [(mkClock 5 5, mret tt); (mkClock 6 6, mret tt); (mkClock 2000 2000, mret tt)] sample
    [true; false; true] (attempts "job" 1000 [(mkClock 5 5, mret tt); (mkClock 6 6, mret tt);
      (mkClock 2000 2000, mret tt)] sample).2) with (j := 2%nat) (y := (mkClock 2000 2000, mret tt)).
  - repeat constructor; by intros w r w' [= _ <-].
  - repeat constructor; unfold later_stamp; cbn; lia.
  - intros t Ht. vm_compute in Ht. discriminate Ht.
  - vm_compute. reflexivity.
  - reflexivity.
  - reflexivity.
Defined.

Lemma backlog_drains_witness :
  exists w', sweeps 1 sample_sweep_env sample = (Ok tt, w') /\ stale_all 10000000 (db w') = [].
Proof.
  apply (backlog_drains 1 sample_sweep_env sample sample_sweepable).
  - intros r date _. by left.
  - vm_compute. lia.
Defined.
