(* ===== verification/ClientIp.v ===== *)
(** * The client's address

    [src/common/client-ip.ts]: which address a request is counted under by the
    rate limiters.  Header values are texts of the code points HTTP carries
    (at most 255). *)

From S2P Require Import Prelude JsText.

(** A header is absent, one value, or repeated. *)
Inductive header := HOne (t : text) | HMany (l : list text).
Definition header_first (h : option header) : option text :=
  match h with
  | None => None
  | Some (HOne t) => Some t
  | Some (HMany l) => head l
  end.

Record ClientIpRequest := mkIpRequest {
  rq_headers : gmap string header;
  rq_ip : option text;
  rq_remoteAddress : option text }.

Definition RESOLVED_CLIENT_IP_HEADER : string := "x-lopay-client-ip".
Definition UNKNOWN_CLIENT_IP : text := text_of "0.0.0.0".

Definition COLON : Z := 58.
Definition DOT : Z := 46.
Definition PERCENT : Z := 37.
Definition COMMA : Z := 44.

Definition nonempty (t : text) : bool := match t with [] => false | _ => true end.
Definition all_digits (t : text) : bool := forallb is_digit t.

(** The group of [/^\[([^\]]+)\](?::\d+)?$/]. *)
Definition bracketed (value : text) : option text :=
  match value with
  | 91 :: rest =>
      let inner := before 93 rest in
      match drop (length inner) rest with
      | 93 :: [] => if nonempty inner then Some inner else None
      | 93 :: 58 :: port => if nonempty inner && nonempty port && all_digits port then Some inner else None
      | _ => None
      end
  | _ => None
  end.

(** [\d{1,3}(?:\.\d{1,3}){3}] *)
Definition octet (t : text) : bool := all_digits t && nonempty t && (length t <=? 3)%nat.
Definition dotted_quad (t : text) : bool :=
  let parts := split_on DOT t in (length parts =? 4)%nat && forallb octet parts.

(** The group of [/^::ffff:(...)$/i]. *)
Definition mapped (value : text) : option text :=
  if startsWith (text_of "::ffff:") (ascii_lower value) && dotted_quad (drop 7 value) then Some (drop 7 value)
  else None.

Definition normalizeIp (raw : text) : option text :=
  let value := trim raw in
  if negb (nonempty value) then None
  else
    let value := default value (bracketed value) in
    let value := if (count_char COLON value =? 1)%nat && has_char DOT value then before COLON value else value in
    let value := default value (mapped value) in
    let value := before PERCENT value in
    if nonempty value then Some value else None.

Definition parseForwardedIp (raw : option header) : option text :=
  first ← header_first raw;
  let candidate := trim (before COMMA first) in
  if nonempty candidate then normalizeIp candidate else None.

(** [t.split('::', 2)]: the part before the first [::], and the one up to the next. *)
Fixpoint split_colons (t : text) : text * option text :=
  match t with
  | [] => ([], None)
  | c :: t' =>
      if (c =? COLON) && bool_decide (head t' = Some COLON) then ([], Some (tail t'))
      else let '(a, b) := split_colons t' in (c :: a, b)
  end.

(** [toLowerCase] of code points up to 255. *)
Definition latin1_lower (c : Z) : Z :=
  if ((65 <=? c) && (c <=? 90)) || ((192 <=? c) && (c <=? 222) && negb (c =? 215)) then c + 32 else c.

(** [g === '' ? '0' : g.toLowerCase()] *)
Definition group_text (g : text) : text := match g with [] => [48] | _ => latin1_lower <$> g end.

(** [groups.join(':')] *)
Fixpoint join_colon (l : list text) : text :=
  match l with
  | [] => []
  | [g] => g
  | g :: l' => g ++ COLON :: join_colon l'
  end.

Definition groups_of (t : text) : list text := match t with [] => [] | _ => split_on COLON t end.

Definition ipv6_groups (ip : text) : list text :=
  match split_colons ip with
  | (head, Some rest) =>
      let headGroups := groups_of head in
      let tailGroups := groups_of (split_colons rest).1 in
      let missing := 8 - Z.of_nat (length headGroups) - Z.of_nat (length tailGroups) in
      headGroups ++ replicate (Z.to_nat (Z.max missing 0)) [48] ++ tailGroups
  | (_, None) => split_on COLON ip
  end.

Definition collapseIpv6 (ip : text) (prefixBits : Z) : text :=
  if negb (has_char COLON ip) then ip
  else
    let groups := ipv6_groups ip in
    if negb (length groups =? 8)%nat then ip
    else
      let keep := Z.to_nat (Z.max 0 (Z.min 8 (prefixBits / 16))) in
      join_colon (group_text <$> (take keep groups ++ replicate (8 - keep) [48])).

(** [headerName] is [null] or empty when no header is declared. *)
Definition resolveClientIp (req : ClientIpRequest) (headerName : option string) : option text :=
  let fromHeader :=
    match headerName with
    | Some (String _ _ as name) => parseForwardedIp (rq_headers req !! name)
    | _ => None
    end in
  match fromHeader with
  | Some ip => Some ip
  | None =>
      direct ← match rq_ip req with Some ip => Some ip | None => rq_remoteAddress req end;
      if nonempty direct then normalizeIp direct else None
  end.

Definition stampClientIp (req : ClientIpRequest) (headerName : option string) : text * ClientIpRequest :=
  let resolved := default UNKNOWN_CLIENT_IP (resolveClientIp req headerName) in
  (resolved, mkIpRequest (<[RESOLVED_CLIENT_IP_HEADER := HOne resolved]> (rq_headers req)) (rq_ip req)
    (rq_remoteAddress req)).

Definition clientIpKey (req : ClientIpRequest) (headerName : option string) : text :=
  match resolveClientIp req headerName with
  | Some ip => collapseIpv6 ip 64
  | None => text_of "unknown"
  end.

Example key_ports :
  (fun s => string_of <$> normalizeIp (text_of s)) <$>
    ["1.2.3.4"; "1.2.3.4:5678"; "::ffff:1.2.3.4"; "[2001:db8::1]:443"; "fe80::1%eth0"]%string =
  (@Some string) <$> ["1.2.3.4"; "1.2.3.4"; "1.2.3.4"; "2001:db8::1"; "fe80::1"]%string.
Proof. vm_compute. reflexivity. Qed.
Example key_subnet :
  (fun s => string_of (collapseIpv6 (text_of s) 64)) <$> ["2001:DB8:1:2:a:b:c:d"; "2001:db8:1:2::9"; "1.2.3.4"]%string =
  ["2001:db8:1:2:0:0:0:0"; "2001:db8:1:2:0:0:0:0"; "1.2.3.4"]%string.
Proof. vm_compute. reflexivity. Qed.

(** ** Splitting and joining *)

Lemma split_on_cons sep t : exists parts, split_on sep t = before sep t :: parts.
Proof. pose proof (split_before sep t) as H. destruct (split_on sep t) as [|p ps]; [done|]. injection H as ->. eauto. Qed.

Lemma split_on_step sep c t :
  split_on sep (c :: t) =
    match split_on sep t with
    | [] => [[c]]
    | part :: parts => if c =? sep then [] :: part :: parts else (c :: part) :: parts
    end.
Proof. done. Qed.

Lemma split_on_notin sep t : sep ∉ t -> split_on sep t = [t].
Proof.
  induction t as [|c t IH]; [done|]. intros [H1 H2]%not_elem_of_cons. rewrite split_on_step, (IH H2).
  by rewrite (proj2 (Z.eqb_neq c sep)).
Qed.

Lemma split_on_app sep a t : sep ∉ a -> split_on sep (a ++ sep :: t) = a :: split_on sep t.
Proof.
  intros H. destruct (split_on_cons sep t) as [ps E].
  induction a as [|c a IH]; simpl app; rewrite split_on_step.
  - by rewrite E, Z.eqb_refl.
  - apply not_elem_of_cons in H as [H1 H2]. rewrite (IH H2). by rewrite (proj2 (Z.eqb_neq c sep)).
Qed.

Lemma split_on_chars (P : Z -> Prop) sep t :
  Forall (Forall P) (split_on sep t) -> Forall (fun c => c = sep \/ P c) t.
Proof.
  induction t as [|c t IH]; [by constructor|]. rewrite split_on_step.
  destruct (split_on_cons sep t) as [ps E]. rewrite E in IH |- *. destruct (c =? sep) eqn:Ec; to_prop.
  - intros [_ H]%Forall_cons_1. constructor; auto.
  - intros [[Hc Hp]%Forall_cons_1 Hps]%Forall_cons_1. constructor; auto.
Qed.

Lemma before_notin sep t : sep ∉ t -> before sep t = t.
Proof.
  induction t as [|c t IH]; [done|]. intros [H1 H2]%not_elem_of_cons. simpl.
  rewrite (proj2 (Z.eqb_neq c sep)) by done. by rewrite IH.
Qed.

Lemma count_char_app c a b : count_char c (a ++ b) = (count_char c a + count_char c b)%nat.
Proof. unfold count_char. by rewrite list.filter_app, length_app. Qed.
Lemma count_char_notin c t : c ∉ t -> count_char c t = 0%nat.
Proof.
  induction t as [|x t IH]; [done|]. intros [H1 H2]%not_elem_of_cons. unfold count_char in *.
  rewrite filter_cons_False by congruence. auto.
Qed.
Lemma count_char_cons c t : count_char c (c :: t) = S (count_char c t).
Proof. unfold count_char. by rewrite filter_cons_True. Qed.

(** ** One client, one bucket *)

Definition is_hex (c : Z) : bool :=
  is_digit c || ((65 <=? c) && (c <=? 70)) || ((97 <=? c) && (c <=? 102)).

Lemma digit_range c : is_digit c = true -> 48 <= c <= 57.
Proof. unfold is_digit. intros H. to_prop. lia. Qed.
Lemma hex_range c : is_hex c = true -> 48 <= c <= 57 \/ 65 <= c <= 70 \/ 97 <= c <= 102.
Proof. unfold is_hex, is_digit. intros H. to_prop. lia. Qed.
Lemma not_whitespace c : 33 <= c <= 126 -> is_js_whitespace c = false.
Proof. intros H. unfold is_js_whitespace. rewrite !orb_false_iff, !andb_false_iff, !Z.leb_gt, !Z.eqb_neq. lia. Qed.

Lemma forallb_forall' (P : Z -> bool) t : forallb P t = true <-> Forall (fun c => P c = true) t.
Proof. rewrite forallb_forall, List.Forall_forall. done. Qed.

(** A text of characters in a class holds no other character. *)
Lemma class_notin (P : Z -> Prop) c t : Forall P t -> ~ P c -> c ∉ t.
Proof. intros F H Hin. rewrite List.Forall_forall in F. apply H, F. by apply list_elem_of_In. Qed.

Definition quad_char (c : Z) : Prop := c = DOT \/ is_digit c = true.
Lemma quad_chars q : dotted_quad q = true -> Forall quad_char q.
Proof.
  unfold dotted_quad. intros [_ H]%andb_true_iff. apply split_on_chars.
  rewrite forallb_forall in H. apply List.Forall_forall. intros p Hp%H.
  unfold octet in Hp. to_prop. destruct Hp as [[Hp _] _]. by apply forallb_forall'.
Qed.
Lemma quad_char_range c : quad_char c -> c = 46 \/ 48 <= c <= 57.
Proof. intros [->|H%digit_range]; auto. Qed.
Lemma quad_dot q : dotted_quad q = true -> has_char DOT q = true.
Proof.
  intros H. destruct (has_char DOT q) eqn:E; [done|]. exfalso.
  assert (DOT ∉ q) as Hn by (rewrite <- has_char_spec; congruence).
  unfold dotted_quad in H. by rewrite split_on_notin in H.
Qed.

Ltac by_class F R := eapply class_notin; [exact F | intros X%R; unfold COLON, DOT, PERCENT, COMMA in X; lia].

Lemma clean_trim (P : Z -> Prop) t : Forall P t -> (forall c, P c -> 33 <= c <= 126) -> trim t = t.
Proof. intros F H. apply trim_clean, (list.Forall_impl _ _ _ F). intros c Hc. by apply not_whitespace, H. Qed.

Lemma bracketed_other c t : c <> 91 -> bracketed (c :: t) = None.
Proof. intros H. destruct c as [|c|c]; try done. repeat (destruct c as [c|c|]; try done). Qed.

(** What normalization leaves of a text without brackets or percent signs. *)
Lemma mapped_colonless t : COLON ∉ t -> mapped t = None.
Proof.
  intros H. unfold mapped. destruct (startsWith _ _) eqn:E; [|done]. exfalso.
  apply startsWith_some in E as [u E]. destruct t as [|c t]; [done|].
  injection E as Hc _. change (lower_char c = 58) in Hc. assert (c = COLON) as ->; [|apply H; left].
  unfold lower_char in Hc. destruct (_ && _) eqn:B; to_prop; unfold COLON; lia.
Qed.

Lemma normalize_plain t v :
  trim t = t -> nonempty t = true -> default t (bracketed t) = v -> nonempty v = true ->
  (count_char COLON v =? 1)%nat && has_char DOT v = false -> mapped v = None -> PERCENT ∉ v ->
  normalizeIp t = Some v.
Proof.
  intros Ht Hn Hb Hv Hc Hm Hp. unfold normalizeIp. rewrite Ht, Hn, Hb. cbn [negb]. cbv zeta.
  rewrite Hc, Hm. cbn [default]. by rewrite before_notin, Hv.
Qed.

Lemma quad_nonempty q : dotted_quad q = true -> exists c t, q = c :: t /\ quad_char c.
Proof.
  intros H. pose proof (quad_chars q H) as F. destruct q as [|c t]; [done|]. inversion F. eauto.
Qed.

(** The IPv4 spellings: bare, with a port, IPv4-mapped. *)
Lemma normalize_ipv4 q port :
  dotted_quad q = true -> all_digits port = true ->
  normalizeIp q = Some q /\ normalizeIp (q ++ COLON :: port) = Some q /\
  normalizeIp (text_of "::ffff:" ++ q) = Some q.
Proof.
  intros Hq Hport. pose proof (quad_chars q Hq) as F. apply forallb_forall' in Hport.
  assert (COLON ∉ q) as Hcolon by by_class F quad_char_range.
  assert (PERCENT ∉ q) as Hpct by by_class F quad_char_range.
  destruct (quad_nonempty q Hq) as (c & t & Ec & Hc%quad_char_range).
  assert (forall c, quad_char c -> 33 <= c <= 126) as Hr by (intros x Hx%quad_char_range; lia).
  split; [|split].
  - apply normalize_plain; try done; subst q; try done.
    + by apply (clean_trim quad_char).
    + rewrite bracketed_other by lia. done.
    + by rewrite count_char_notin.
    + by apply mapped_colonless.
  - unfold normalizeIp. rewrite (clean_trim (fun c => 33 <= c <= 126)); [|apply Forall_app; split|done].
    2: { by apply (list.Forall_impl _ _ _ F). }
    2: { constructor; [unfold COLON; lia|]. apply (list.Forall_impl _ _ _ Hport). intros x Hx%digit_range. lia. }
    assert (bracketed (q ++ COLON :: port) = None) as -> by (subst q; apply bracketed_other; lia).
    assert (nonempty (q ++ COLON :: port) = true) as -> by (by subst q). cbn [negb default]. cbv zeta.
    assert (COLON ∉ port) as Hcp by by_class Hport digit_range.
    rewrite count_char_app, count_char_cons, !count_char_notin by done. cbn [Nat.eqb Nat.add].
    assert (has_char DOT (q ++ COLON :: port) = true) as ->
      by (apply has_char_spec; apply elem_of_app; left; by apply has_char_spec, quad_dot).
    rewrite before_app, mapped_colonless by done. cbn [default]. rewrite before_notin by done. by subst q.
  - unfold normalizeIp. rewrite (clean_trim (fun c => 33 <= c <= 126)); [|apply Forall_app; split|done].
    2: { change (text_of "::ffff:") with [58; 58; 102; 102; 102; 102; 58]. repeat (constructor; [lia|]). constructor. }
    2: { by apply (list.Forall_impl _ _ _ F). }
    change (text_of "::ffff:" ++ q) with (58 :: (tail (text_of "::ffff:" ++ q))).
    rewrite bracketed_other by lia.
    cbn [negb nonempty default]. cbv zeta. change (58 :: tail (text_of "::ffff:" ++ q)) with (text_of "::ffff:" ++ q).
    rewrite count_char_app, (count_char_notin _ q) by done. change (count_char COLON (text_of "::ffff:")) with 3%nat.
    cbn [Nat.eqb Nat.add andb]. assert (mapped (text_of "::ffff:" ++ q) = Some q) as ->.
    { unfold mapped. change (drop 7 (text_of "::ffff:" ++ q)) with q. rewrite Hq, andb_true_r.
      unfold ascii_lower. rewrite fmap_app. change (lower_char <$> text_of "::ffff:") with (text_of "::ffff:").
      by rewrite startsWith_app. }
    cbn [default]. rewrite before_notin by done. by subst q.
Qed.

(** ** IPv6 spellings *)

Definition is_group (g : text) : Prop := g <> [] /\ Forall (fun c => is_hex c = true) g.

(** The spellings of an address of eight groups: in full, or with a run of zero
    groups left out. *)
Inductive spells : list text -> text -> Prop :=
| SpellFull gs : length gs = 8%nat -> spells gs (join_colon gs)
| SpellShort hs ts : (length hs + length ts <= 7)%nat ->
    spells (hs ++ replicate (8 - length hs - length ts) [48] ++ ts)
      (join_colon hs ++ COLON :: COLON :: join_colon ts).

(** What a peer address or a header may put around an address. *)
Inductive decorates (t : text) : text -> Prop :=
| DecBare : decorates t t
| DecBrackets : decorates t (91 :: t ++ [93])
| DecPort port : nonempty port = true -> all_digits port = true -> decorates t (91 :: t ++ 93 :: COLON :: port)
| DecZone zone : Forall (fun c => 33 <= c <= 126) zone ->
    decorates t (t ++ PERCENT :: zone).

Lemma group_colon g : is_group g -> COLON ∉ g.
Proof. intros [_ F]. by_class F hex_range. Qed.
Lemma groups_colon l : Forall is_group l -> Forall (fun g => COLON ∉ g) l.
Proof. intros F. apply (list.Forall_impl _ _ _ F), group_colon. Qed.

Lemma split_on_join l : l <> [] -> Forall (fun g => COLON ∉ g) l -> split_on COLON (join_colon l) = l.
Proof.
  induction l as [|g [|g' l] IH]; [done| |]; intros _ [Hg F]%Forall_cons_1; simpl join_colon.
  - by apply split_on_notin.
  - rewrite split_on_app by done. f_equal. by apply IH.
Qed.

Lemma join_head l u : Forall is_group l -> l <> [] -> exists c w, join_colon l ++ u = c :: w /\ is_hex c = true.
Proof.
  intros F H. destruct l as [|g l]; [done|]. apply Forall_cons_1 in F as [[Hg Hh] _].
  destruct g as [|c g]; [done|]. apply Forall_cons_1 in Hh as [Hc _]. destruct l; simpl; eauto.
Qed.

Lemma groups_of_join l : Forall is_group l -> groups_of (join_colon l) = l.
Proof.
  intros F. destruct (decide (l = [])) as [->|H]; [done|].
  destruct (join_head l [] F H) as (c & w & E & _). rewrite app_nil_r in E. unfold groups_of. rewrite E, <- E.
  by apply split_on_join, groups_colon.
Qed.

Lemma split_colons_skip a u :
  COLON ∉ a -> split_colons (a ++ u) = (a ++ (split_colons u).1, (split_colons u).2).
Proof.
  intros H. induction a as [|c a IH]; [simpl; by destruct (split_colons u)|].
  apply not_elem_of_cons in H as [H1 H2]. simpl. rewrite (proj2 (Z.eqb_neq c COLON)) by done. by rewrite IH.
Qed.

Lemma split_colons_join hs u :
  Forall is_group hs -> (u = [] \/ exists t, u = COLON :: COLON :: t) ->
  split_colons (join_colon hs ++ u) = (join_colon hs, (split_colons u).2).
Proof.
  intros F Hu. assert (split_colons u = ([], (split_colons u).2)) as Eu by by destruct Hu as [->|[t ->]].
  induction hs as [|g [|g' l] IH]; [done| |]; apply Forall_cons_1 in F as [Hg F].
  - simpl join_colon. rewrite split_colons_skip, Eu by by apply group_colon. simpl. by rewrite app_nil_r.
  - change (join_colon (g :: g' :: l)) with (g ++ COLON :: join_colon (g' :: l)).
    rewrite <- app_assoc, split_colons_skip by by apply group_colon. rewrite <- app_comm_cons.
    assert (g' :: l <> []) as Hne by done.
    destruct (join_head (g' :: l) u F Hne) as (c & w & E & Hc%hex_range).
    assert (split_colons (COLON :: join_colon (g' :: l) ++ u) =
      (COLON :: join_colon (g' :: l), (split_colons u).2)) as ->; [|done].
    cbn [split_colons]. rewrite (bool_decide_eq_false_2 (head (join_colon (g' :: l) ++ u) = Some COLON)).
    + rewrite andb_false_r. by rewrite (IH F).
    + rewrite E. intros [= ->]. unfold COLON in Hc. lia.
Qed.

Lemma zeros_groups n : Forall is_group (replicate n [48]).
Proof. apply Forall_replicate. split; [done|]. by constructor. Qed.

Lemma split_colons_double t : split_colons (COLON :: COLON :: t) = ([], Some t).
Proof. done. Qed.

Lemma spelling_groups gs t : spells gs t -> Forall is_group gs -> ipv6_groups t = gs /\ length gs = 8%nat.
Proof.
  intros [gs' Hl|hs ts Hl] F; unfold ipv6_groups.
  - rewrite <- (app_nil_r (join_colon gs')), split_colons_join by auto. cbn. rewrite app_nil_r.
    split; [|done]. apply split_on_join; [by destruct gs'|by apply groups_colon].
  - apply Forall_app in F as [Fh [_ Ft]%Forall_app]. rewrite split_colons_join, split_colons_double by eauto. cbn [snd]. cbv zeta.
    pose proof (split_colons_join ts [] Ft (or_introl eq_refl)) as E. rewrite app_nil_r in E.
    rewrite E. cbn [fst]. rewrite !groups_of_join by done. split.
    + do 3 f_equal. lia.
    + rewrite !length_app, length_replicate. lia.
Qed.

Lemma group_text_lower g : is_group g -> group_text g = latin1_lower <$> g.
Proof. intros [H _]. by destruct g. Qed.

Lemma spelling_colon gs t : spells gs t -> has_char COLON t = true.
Proof.
  intros H. apply has_char_spec. destruct H as [gs Hl|hs ts _].
  - destruct gs as [|g [|g' l]]; try done. simpl. apply elem_of_app. right. left.
  - apply elem_of_app. right. left.
Qed.

Definition address_char (c : Z) : Prop := c = COLON \/ is_hex c = true.
Lemma address_char_range c : address_char c -> c = 58 \/ 48 <= c <= 57 \/ 65 <= c <= 70 \/ 97 <= c <= 102.
Proof. intros [->|H%hex_range]; auto. Qed.

Lemma join_chars l : Forall is_group l -> Forall address_char (join_colon l).
Proof.
  assert (forall g, is_group g -> Forall address_char g) as Hg.
  { intros g [_ F]. apply (list.Forall_impl _ _ _ F). by right. }
  induction l as [|g [|g' l] IH]; intros F; [constructor| |]; apply Forall_cons_1 in F as [H F]; [by apply Hg|].
  change (join_colon (g :: g' :: l)) with (g ++ COLON :: join_colon (g' :: l)).
  apply Forall_app. split; [by apply Hg|]. constructor; [by left | by apply IH].
Qed.

Lemma join_colons l : Forall is_group l -> count_char COLON (join_colon l) = (length l - 1)%nat.
Proof.
  induction l as [|g [|g' l] IH]; intros F; [done| |]; apply Forall_cons_1 in F as [H F].
  - by apply count_char_notin, group_colon.
  - change (join_colon (g :: g' :: l)) with (g ++ COLON :: join_colon (g' :: l)).
    rewrite count_char_app, count_char_cons, IH, count_char_notin by (done || by apply group_colon). simpl. lia.
Qed.

Lemma spelling_chars gs t :
  spells gs t -> Forall is_group gs -> Forall address_char t /\ (2 <= count_char COLON t)%nat.
Proof.
  intros [gs' Hl|hs ts _] F.
  - split; [by apply join_chars|]. rewrite join_colons by done. lia.
  - apply Forall_app in F as [Fh [_ Ft]%Forall_app]. split.
    + apply Forall_app. split; [by apply join_chars|]. do 2 (constructor; [by left|]). by apply join_chars.
    + rewrite count_char_app, !count_char_cons. lia.
Qed.

Lemma mapped_some u q : mapped u = Some q -> DOT ∈ u /\ PERCENT ∉ u.
Proof.
  unfold mapped. destruct (_ && _) eqn:E; [|done]. intros _. apply andb_true_iff in E as [Hp Hq].
  apply startsWith_some in Hp as [w Ew]. split.
  - apply quad_dot, has_char_spec in Hq. rewrite <- (take_drop 7 u). apply elem_of_app. by right.
  - apply quad_chars in Hq. rewrite <- (take_drop 7 u). intros [H|H]%elem_of_app.
    + apply (list_elem_of_fmap_2' lower_char _ _ PERCENT) in H; [|done].
      rewrite fmap_take in H. fold (ascii_lower u) in H. rewrite Ew in H.
      change (take 7 (text_of "::ffff:" ++ w)) with [58; 58; 102; 102; 102; 102; 58] in H.
      change (lower_char PERCENT) with 37 in H. repeat (apply elem_of_cons in H as [?|H]; [done|]). by apply not_elem_of_nil in H.
    + revert H. by_class Hq quad_char_range.
Qed.

Lemma address_trim u : Forall (fun c => 33 <= c <= 126) u -> trim u = u.
Proof. intros F. by apply (clean_trim _ _ F). Qed.

(** An address keeps its spelling when its brackets, port or zone go. *)
Lemma normalize_ipv6 gs t u : spells gs t -> Forall is_group gs -> decorates t u -> normalizeIp u = Some t.
Proof.
  intros Hs F Hd. destruct (spelling_chars gs t Hs F) as [Fc Hcolons].
  assert (Forall (fun c => 33 <= c <= 126) t) as Ft by (apply (list.Forall_impl _ _ _ Fc); intros x Hx%address_char_range; lia).
  assert (PERCENT ∉ t) as Hpct by by_class Fc address_char_range.
  assert (93 ∉ t) as Hb by by_class Fc address_char_range.
  assert (DOT ∉ t) as Hdot by by_class Fc address_char_range.
  assert (exists c w, t = c :: w /\ address_char c) as (c & w & Et & Hc%address_char_range).
  { destruct t as [|c w]; [cbn in Hcolons; lia|]. apply Forall_cons_1 in Fc as [? _]. eauto. }
  assert (nonempty t = true) as Hne by by subst t.
  assert ((count_char COLON t =? 1)%nat = false) as Hcount by (apply Nat.eqb_neq; lia).
  assert (mapped t = None) as Hm.
  { destruct (mapped t) eqn:E; [|done]. apply mapped_some in E as [E _]. by destruct Hdot. }
  assert (forall u, trim u = u -> nonempty u = true -> bracketed u = Some t -> normalizeIp u = Some t) as Hbr.
  { intros v H1 H2 H3. apply normalize_plain; try done; [by rewrite H3 | by rewrite Hcount]. }
  destruct Hd as [| |port Hp Hd|zone Hz].
  - apply normalize_plain; try done; [by apply address_trim | | by rewrite Hcount].
    rewrite Et at 2. rewrite bracketed_other by lia. done.
  - apply Hbr; [|done|].
    + apply address_trim. constructor; [lia|]. apply Forall_app. split; [done|]. by repeat constructor.
    + cbn [bracketed]. rewrite before_app, drop_app_length by done. by rewrite Hne.
  - apply Hbr; [|done|].
    + apply address_trim. constructor; [lia|]. apply Forall_app. split; [done|].
      do 2 (constructor; [unfold COLON; lia|]). apply forallb_forall' in Hd.
      apply (list.Forall_impl _ _ _ Hd). intros x Hx%digit_range. lia.
    + cbn [bracketed]. rewrite before_app, drop_app_length by done. cbn. by rewrite Hne, Hp, Hd.
  - unfold normalizeIp. rewrite address_trim.
    2: { apply Forall_app. split; [done|]. constructor; [unfold PERCENT; lia | done]. }
    assert (bracketed (t ++ PERCENT :: zone) = None) as -> by (rewrite Et; apply bracketed_other; lia).
    assert (nonempty (t ++ PERCENT :: zone) = true) as -> by by rewrite Et.
    cbn [negb default]. cbv zeta. rewrite (proj2 (Nat.eqb_neq _ _)) by (rewrite count_char_app; lia). cbn [andb].
    assert (mapped (t ++ PERCENT :: zone) = None) as ->.
    { apply eq_None_not_Some. intros [q E]. apply mapped_some in E as [_ E]. destruct E. apply elem_of_app. right. left. }
    cbn [default]. by rewrite before_app, Hne.
Qed.

(** ** The rate-limit bucket *)

(** The first four groups of an address, in lower case. *)
Definition subnet (gs : list text) : list text := (fun g : text => latin1_lower <$> g) <$> take 4 gs.

(** The number a group of hexadecimal digits stands for, and the /64 of an
    address: the numbers of its first four groups. *)
Definition hex_digit (c : Z) : Z := if is_digit c then c - 48 else if c <=? 70 then c - 55 else c - 87.
Definition group_value (g : text) : Z := fold_left (fun v c => 16 * v + hex_digit c) g 0.
Definition network (gs : list text) : list Z := group_value <$> take 4 gs.

(** Without leading zeros, as sockets print addresses. *)
Definition shortest (g : text) : Prop := g = [48] \/ head g <> Some 48.

Definition bucket_of (direct : text) : text := clientIpKey (mkIpRequest ∅ (Some direct) None) None.

Lemma bucket_normal u t : normalizeIp u = Some t -> bucket_of u = collapseIpv6 t 64.
Proof.
  intros H. assert (nonempty u = true) as Hu by (by destruct u). unfold bucket_of, clientIpKey, resolveClientIp. cbn.
  by rewrite Hu, H.
Qed.

Lemma collapse_spelling gs t :
  spells gs t -> Forall is_group gs ->
  collapseIpv6 t 64 = join_colon (subnet gs ++ replicate 4 [48]).
Proof.
  intros Hs F. destruct (spelling_groups gs t Hs F) as [Hg Hl]. unfold collapseIpv6.
  rewrite (spelling_colon gs t Hs), Hg, Hl. cbn [negb Nat.eqb]. change (Z.to_nat _) with 4%nat.
  rewrite fmap_app. do 2 f_equal. apply list_fmap_ext. intros i g Hi. apply group_text_lower.
  apply (Forall_lookup_1 _ _ _ _ (Forall_take _ 4 _ F) Hi).
Qed.

Lemma lower_colon g : is_group g -> COLON ∉ (latin1_lower <$> g).
Proof.
  intros [_ F] (c & Hc & Hin)%list_elem_of_fmap. rewrite List.Forall_forall in F. apply list_elem_of_In, F, hex_range in Hin.
  unfold latin1_lower, COLON in Hc. destruct (_ || _) eqn:E in Hc; lia.
Qed.

Lemma prefix_colons gs :
  Forall is_group gs -> Forall (fun g => COLON ∉ g) (subnet gs ++ replicate 4 [48]).
Proof.
  intros F. apply Forall_app. split; [|by apply groups_colon, zeros_groups].
  apply Forall_fmap, (list.Forall_impl _ _ _ (Forall_take _ 4 _ F)). apply lower_colon.
Qed.

Lemma spelling_bucket gs gs' t t' :
  spells gs t -> spells gs' t' -> Forall is_group gs -> Forall is_group gs' ->
  collapseIpv6 t 64 = collapseIpv6 t' 64 <->
  subnet gs = subnet gs'.
Proof.
  intros Hs Hs' F F'. rewrite (collapse_spelling gs t), (collapse_spelling gs' t') by done.
  split; [|by intros ->]. intros E. apply (f_equal (split_on COLON)) in E.
  rewrite (split_on_join (subnet gs ++ _)), (split_on_join (subnet gs' ++ _)) in E
    by ((by apply prefix_colons) || (by intros [_ ?]%app_nil)).
  by apply app_inv_tail in E.
Qed.

(** *** Groups and their numbers *)

Lemma hex_digit_range c : is_hex c = true -> 0 <= hex_digit c < 16.
Proof.
  intros H. unfold hex_digit. destruct (is_digit c) eqn:E; [apply digit_range in E; lia|].
  unfold is_hex in H. rewrite E in H. apply orb_true_iff in H as [[H1 H2]%andb_true_iff|[H1 H2]%andb_true_iff]; apply Z.leb_le in H1, H2.
  - rewrite (proj2 (Z.leb_le _ _)) by done. lia.
  - rewrite (proj2 (Z.leb_gt _ _)) by lia. lia.
Qed.

Lemma hex_digit_lower c c' : is_hex c = true -> is_hex c' = true ->
  hex_digit c = hex_digit c' <-> latin1_lower c = latin1_lower c'.
Proof.
  intros H H'. assert (forall x, is_hex x = true ->
    latin1_lower x = (if hex_digit x <? 10 then hex_digit x + 48 else hex_digit x + 87)) as E.
  { clear. intros x H. unfold hex_digit, latin1_lower. destruct (is_digit x) eqn:D.
    - apply digit_range in D. rewrite (proj2 (Z.ltb_lt _ _)) by lia. destruct (_ || _) eqn:B; [|lia].
      apply orb_true_iff in B as [B|B]; to_prop; lia.
    - unfold is_hex in H. rewrite D in H. apply orb_true_iff in H as [[H1 H2]%andb_true_iff|[H1 H2]%andb_true_iff]; apply Z.leb_le in H1, H2.
      + rewrite (proj2 (Z.leb_le x 70)), (proj2 (Z.ltb_ge _ _)) by lia.
        rewrite (proj2 (Z.leb_le 65 x)), (proj2 (Z.leb_le x 90)) by lia. cbn. lia.
      + rewrite (proj2 (Z.leb_gt x 70)), (proj2 (Z.ltb_ge _ _)) by lia. destruct (_ || _) eqn:B; [|lia].
        apply orb_true_iff in B as [B|B]; to_prop; lia. }
  rewrite (E c H), (E c' H'). pose proof (hex_digit_range c H). pose proof (hex_digit_range c' H').
  destruct (Z.ltb_spec (hex_digit c) 10), (Z.ltb_spec (hex_digit c') 10); lia.
Qed.

Lemma group_value_snoc g c : group_value (g ++ [c]) = 16 * group_value g + hex_digit c.
Proof. unfold group_value. by rewrite fold_left_app. Qed.

Lemma group_value_lower g g' :
  Forall (fun c => is_hex c = true) g -> Forall (fun c => is_hex c = true) g' ->
  latin1_lower <$> g = latin1_lower <$> g' -> group_value g = group_value g'.
Proof.
  revert g'. induction g as [|c g IH] using rev_ind; intros g' F F' E.
  - by destruct g'.
  - destruct g' as [|c' g' _] using rev_ind; [by destruct g|].
    rewrite !fmap_app in E. apply app_inj_tail in E as [E Ec].
    apply Forall_app in F as [F [Hc _]%Forall_cons_1], F' as [F' [Hc' _]%Forall_cons_1].
    rewrite !group_value_snoc, (IH g' F F' E). f_equal. by apply hex_digit_lower.
Qed.

Lemma group_value_nonneg g : Forall (fun c => is_hex c = true) g -> 0 <= group_value g.
Proof.
  induction g as [|c g IH] using rev_ind; [done|]. intros [F [Hc _]%Forall_cons_1]%Forall_app.
  rewrite group_value_snoc. pose proof (hex_digit_range c Hc). specialize (IH F). lia.
Qed.

Lemma group_value_pos g : Forall (fun c => is_hex c = true) g -> g <> [] -> head g <> Some 48 -> 0 < group_value g.
Proof.
  induction g as [|c g IH] using rev_ind; [done|]. intros [F [Hc _]%Forall_cons_1]%Forall_app _ Hh.
  rewrite group_value_snoc. pose proof (hex_digit_range c Hc).
  destruct g as [|x g].
  - cbn in Hh |- *. assert (hex_digit c <> 0); [|lia]. intros E. apply Hh. f_equal.
    revert E. unfold hex_digit. destruct (is_digit c) eqn:D; [lia|]. apply hex_range in Hc.
    destruct (Z.leb_spec c 70); [|lia]. intros E. assert (c = 55) as -> by lia. done.
  - assert (0 < group_value (x :: g)); [|lia]. by apply IH.
Qed.

Lemma group_value_inj g g' :
  Forall (fun c => is_hex c = true) g -> Forall (fun c => is_hex c = true) g' ->
  head g <> Some 48 -> head g' <> Some 48 ->
  group_value g = group_value g' -> latin1_lower <$> g = latin1_lower <$> g'.
Proof.
  revert g'. induction g as [|c g IH] using rev_ind; intros g' F F' H H' E.
  - destruct g' as [|x g']; [done|]. pose proof (group_value_pos (x :: g') F' ltac:(done) H'). change (group_value []) with 0 in E. lia.
  - destruct g' as [|c' g' _] using rev_ind.
    { pose proof (group_value_pos (g ++ [c]) F ltac:(by destruct g) H). change (group_value []) with 0 in E. lia. }
    rewrite !group_value_snoc in E.
    apply Forall_app in F as [F [Hc _]%Forall_cons_1], F' as [F' [Hc' _]%Forall_cons_1].
    pose proof (hex_digit_range c Hc). pose proof (hex_digit_range c' Hc').
    rewrite !fmap_app. f_equal.
    + apply IH; [done|done|by destruct g|by destruct g'|lia].
    + cbn. f_equal. apply hex_digit_lower; [done|done|lia].
Qed.

Lemma shortest_value g g' : is_group g -> is_group g' -> shortest g -> shortest g' ->
  group_value g = group_value g' -> latin1_lower <$> g = latin1_lower <$> g'.
Proof.
  intros [Hg F] [Hg' F'] [->|H] [->|H'] E; [done| | |by apply group_value_inj].
  - pose proof (group_value_pos g' F' Hg' H'). change (group_value [48]) with 0 in E. lia.
  - pose proof (group_value_pos g F Hg H). change (group_value [48]) with 0 in E. lia.
Qed.

(** A bucket holds one network, and a network in shortest form has one bucket. *)
Lemma subnet_network gs gs' : Forall is_group gs -> Forall is_group gs' ->
  (subnet gs = subnet gs' -> network gs = network gs') /\
  (Forall shortest (take 4 gs) -> Forall shortest (take 4 gs') -> network gs = network gs' -> subnet gs = subnet gs').
Proof.
  intros F%(Forall_take _ 4) F'%(Forall_take _ 4). unfold subnet, network. revert F F'.
  generalize (take 4 gs) (take 4 gs'). intros l. induction l as [|g l IH]; intros [|g' l'] F F'; try (split; [intros H|intros _ _ H]; by inversion H).
  apply Forall_cons_1 in F as [Hg F], F' as [Hg' F']. specialize (IH l' F F') as [I1 I2]. rewrite !fmap_cons. split.
  - intros [= E El]. rewrite (I1 El). f_equal. by apply group_value_lower; [apply Hg|apply Hg'|].
  - intros [S Sl]%Forall_cons_1 [S' Sl']%Forall_cons_1 [= E El]. rewrite (I2 Sl Sl' El). f_equal. by apply shortest_value.
Qed.

(** C39: one client, one bucket, and no more than that, whatever brackets, port or
    zone surround a peer address: two IPv6 addresses that are counted together lie
    in the same /64 (the numbers of their first four groups agree), and two
    addresses of one /64 are counted together, however their zero groups are
    abbreviated and in whatever letter case, provided neither writes leading zeros
    in those groups, as no socket does (with them one /64 gets two buckets:
    [leading_zeros]).  An IPv4 address is counted under itself whether it comes
    bare, with a source port, or IPv4-mapped. *)
Theorem bucket_per_client gs gs' t t' u u' q port :
  spells gs t -> Forall is_group gs -> decorates t u ->
  spells gs' t' -> Forall is_group gs' -> decorates t' u' ->
  dotted_quad q = true -> all_digits port = true ->
  (bucket_of u = bucket_of u' -> network gs = network gs') /\
  (Forall shortest (take 4 gs) -> Forall shortest (take 4 gs') -> network gs = network gs' -> bucket_of u = bucket_of u') /\
  bucket_of q = q /\ bucket_of (q ++ COLON :: port) = q /\ bucket_of (text_of "::ffff:" ++ q) = q.
Proof.
  intros Hs F Hd Hs' F' Hd' Hq Hp. destruct (normalize_ipv4 q port Hq Hp) as (H1 & H2 & H3).
  rewrite (bucket_normal u t), (bucket_normal u' t') by (eapply normalize_ipv6; eassumption).
  rewrite (bucket_normal q q), !(bucket_normal (_ ++ _) q) by done.
  destruct (subnet_network gs gs' F F') as [N1 N2].
  pose proof (spelling_bucket gs gs' t t' Hs Hs' F F') as B.
  split; [by intros H%B%N1|]. split; [intros S S' H; by apply B, N2|]. unfold collapseIpv6.
  assert (has_char COLON q = false) as ->; [|done]. apply not_true_is_false. rewrite has_char_spec.
  pose proof (quad_chars q Hq) as Fq. assert (COLON ∉ q) as Hn by by_class Fq quad_char_range. done.
Qed.

Lemma bucket_per_client_witness :
  bucket_of (text_of "[2001:db8:1:2::9]:443") = bucket_of (text_of "2001:DB8:1:2:a:b:c:d%eth0").
Proof.
  eapply (bucket_per_client (text_of <$> ["2001"; "db8"; "1"; "2"; "0"; "0"; "0"; "9"]%string)
    (text_of <$> ["2001"; "DB8"; "1"; "2"; "a"; "b"; "c"; "d"]%string)
    (text_of "2001:db8:1:2::9") (text_of "2001:DB8:1:2:a:b:c:d") _ _ (text_of "1.2.3.4") (text_of "80")).
  - assert (H := SpellShort (text_of <$> ["2001"; "db8"; "1"; "2"]%string) [text_of "9"]).
    vm_compute in H |- *. apply H. repeat constructor.
  - repeat (constructor; [split; [done | repeat constructor]|]). constructor.
  - apply (DecPort (text_of "2001:db8:1:2::9") (text_of "443")); reflexivity.
  - assert (H := SpellFull (text_of <$> ["2001"; "DB8"; "1"; "2"; "a"; "b"; "c"; "d"]%string) eq_refl).
    vm_compute in H |- *. exact H.
  - repeat (constructor; [split; [done | repeat constructor]|]). constructor.
  - apply (DecZone (text_of "2001:DB8:1:2:a:b:c:d") (text_of "eth0")). repeat (constructor; [cbv; split; done|]). constructor.
  - reflexivity.
  - reflexivity.
  - repeat (constructor; [by right|]). constructor.
  - repeat (constructor; [by right|]). constructor.
  - reflexivity.
Defined.

(** ** What the caller can choose *)

(** The address the sign-in limiter reads cannot be forged: the stamped
    header is what the resolution yields, it replaces any value the caller sent
    under that name, and unless the operator declared that very header no header
    of the request but the declared one has a part in it; a request without an
    address is stamped 0.0.0.0, never left without the header. *)
Theorem stamp_unforgeable req headerName forged :
  headerName <> Some RESOLVED_CLIENT_IP_HEADER ->
  let honest := stampClientIp req headerName in
  let attacked :=
    stampClientIp (mkIpRequest (<[RESOLVED_CLIENT_IP_HEADER := forged]> (rq_headers req)) (rq_ip req)
      (rq_remoteAddress req)) headerName in
  attacked = honest /\
  rq_headers honest.2 !! RESOLVED_CLIENT_IP_HEADER = Some (HOne honest.1) /\
  (resolveClientIp req headerName = None -> honest.1 = UNKNOWN_CLIENT_IP) /\
  (forall headers,
    (forall name, headerName = Some name -> headers !! name = rq_headers req !! name) ->
    (stampClientIp (mkIpRequest headers (rq_ip req) (rq_remoteAddress req)) headerName).1 = honest.1).
Proof.
  intros Hn honest attacked.
  assert (forall headers,
    (forall name, headerName = Some name -> headers !! name = rq_headers req !! name) ->
    resolveClientIp (mkIpRequest headers (rq_ip req) (rq_remoteAddress req)) headerName = resolveClientIp req headerName)
    as Hr.
  { intros headers H. unfold resolveClientIp. cbn. destruct headerName as [[|a n]|]; [done| |done].
    by rewrite (H _ eq_refl). }
  repeat split.
  - unfold attacked, honest, stampClientIp. cbn.
    rewrite Hr; [by rewrite insert_insert_eq|]. intros name ->. apply lookup_insert_ne. congruence.
  - unfold honest, stampClientIp. cbn. apply lookup_insert_eq.
  - unfold honest, stampClientIp. by intros ->.
  - intros headers H. unfold honest, stampClientIp. cbn. by rewrite Hr.
Qed.

Lemma stamp_unforgeable_witness :
  let req := mkIpRequest {["x-forwarded-for"%string := HOne (text_of "6.6.6.6")]} (Some (text_of "10.0.0.1")) None in
  (stampClientIp req (Some "cf-connecting-ip"%string)).1 = text_of "10.0.0.1".
Proof.
  assert (Some "cf-connecting-ip"%string <> Some RESOLVED_CLIENT_IP_HEADER) as Hn by discriminate.
  intros req. destruct (stamp_unforgeable req _ (HOne (text_of "7.7.7.7")) Hn) as (_ & _ & _ & H).
  rewrite <- (H ∅); [vm_compute; reflexivity|]. intros name [= <-]. vm_compute. reflexivity.
Defined.

(** Leading zeros are not dropped: two spellings of one /64 keep two buckets. *)
Example leading_zeros :
  string_of (bucket_of (text_of "2001:0db8:0:0::1")) = "2001:0db8:0:0:0:0:0:0"%string /\
  string_of (bucket_of (text_of "2001:db8::1")) = "2001:db8:0:0:0:0:0:0"%string.
Proof. split; vm_compute; reflexivity. Qed.
