(* ===== verification/Paystack.v ===== *)
(** * The Paystack client

    [src/paystack/paystack.service.ts]: requests with bounded retry behind a
    circuit breaker, and what the answers mean.  The network is an oracle, the
    answer to the [n]-th fetch of the process; the breaker is opossum's, of which
    the class [CircuitBreaker] keeps what the client relies on: it is open or not,
    and it is told of each call whether it counts as a failure. *)

From Stdlib Require Import Ascii.
From S2P Require Import Prelude JsText Effects Enrollment.

(** ** JSON answers *)

Inductive jsonv :=
| JVNull
| JVBool (b : bool)
| JVNum (n : Z)
| JVStr (s : string)
| JVArr (l : list jsonv)
| JVObj (l : list (string * jsonv)).

(** [undefined] is [None]. *)
Definition prop (k : string) (v : jsonv) : option jsonv :=
  match v with
  | JVObj l => snd <$> head (filter (fun kv : string * jsonv => kv.1 = k) l)
  | _ => None
  end.
(** [v?.k], [typeof v === 'string'], and truth. *)
Definition prop_opt (k : string) (v : option jsonv) : option jsonv := v ≫= prop k.
Definition as_string (v : option jsonv) : option string :=
  match v with Some (JVStr s) => Some s | _ => None end.
Definition as_number (v : option jsonv) : option Z :=
  match v with Some (JVNum n) => Some n | _ => None end.
Definition is_true (v : option jsonv) : bool :=
  match v with
  | None | Some JVNull | Some (JVBool false) | Some (JVNum 0) | Some (JVStr EmptyString) => false
  | _ => true
  end.

(** ** Paths *)

Definition uri_unreserved (c : ascii) : bool :=
  let n := Z.of_nat (nat_of_ascii c) in
  is_digit n || is_letter n || has_char n (text_of "-_.!~*'()").

Definition hex_digit (n : nat) : ascii := ascii_of_nat (if (n <? 10)%nat then 48 + n else 55 + n).

(** Of a string given by its UTF-8 bytes. *)
Fixpoint encodeURIComponent (s : string) : string :=
  match s with
  | EmptyString => EmptyString
  | String c s' =>
      if uri_unreserved c then String c (encodeURIComponent s')
      else String "%" (String (hex_digit (nat_of_ascii c / 16))
             (String (hex_digit (nat_of_ascii c mod 16)) (encodeURIComponent s')))
  end.

(** ** Errors *)

Inductive PaystackFailure :=
| PaystackApiError (providerStatus : Z) (paystackMessage : string)
| ProviderUnavailable
| CircuitOpen
| MalformedData.

(** The exceptions as Nest answers them. *)
Definition provider_error (e : PaystackFailure) : failure :=
  match e with
  | PaystackApiError _ paystackMessage => FBadGateway paystackMessage
  | ProviderUnavailable => FInternal "Payment provider unavailable"
  | CircuitOpen => FUnavailable "Payment provider temporarily unavailable, please retry shortly"
  | MalformedData => FInternal "TypeError"
  end.

(** The exception's [instanceof BadGatewayException]. *)
Definition is_bad_gateway (e : PaystackFailure) : bool :=
  match e with PaystackApiError _ _ => true | _ => false end.

(** [/sub/i.test(message)] for an ASCII pattern without operators. *)
Definition mentions (sub message : string) : bool :=
  text_includes (text_of sub) (ascii_lower (text_of message)).

Definition isNotFound (e : PaystackFailure) : bool :=
  match e with
  | PaystackApiError providerStatus paystackMessage =>
      (providerStatus =? 404) || mentions "not found" paystackMessage
  | _ => false
  end.
Definition isUnknownReference (e : PaystackFailure) : bool :=
  match e with
  | PaystackApiError _ paystackMessage =>
      isNotFound e && (mentions "reference" paystackMessage || mentions "transaction" paystackMessage)
  | _ => false
  end.

(** ** The network and the breaker *)

Inductive HttpMethod := GET | POST | PUT.

(** A fetch that rejects (transport, timeout), or an HTTP status with the body
    as [res.json()] reads it, [None] when it is no JSON. *)
Inductive HttpResult :=
| NetworkError
| HttpResponse (status : Z) (json : option jsonv).

Class CircuitBreaker := {
  BreakerState : Type;
  opened : Z -> BreakerState -> bool;
  count_call : bool -> Z -> BreakerState -> BreakerState }.

Record PaystackBank := mkBank { bank_name : string; bank_code : string; bank_currency : string }.
Record CreateSubaccountParams := mkSubaccountParams {
  sp_businessName : string; sp_settlementBank : string; sp_accountNumber : string;
  sp_percentageCharge : option Z }.
Record VerifyTransactionResult := mkVerifyResult {
  vr_status : option jsonv; vr_reference : option jsonv; vr_amount : option jsonv;
  vr_fees : option Z; vr_gatewayResponse : option string; vr_subaccount : option jsonv;
  vr_metadata : option jsonv }.
Record ResolvedAccount := mkResolvedAccount { ra_accountName : option jsonv; ra_accountNumber : option jsonv }.

Definition MAX_ATTEMPTS : nat := 3.
(** The delay before attempt [attempt] > 0: its base and the jitter. *)
Definition backoff (attempt : Z) : Z :=
  let base := 200 * 2 ^ (attempt - 1) in base + base * (2 + attempt mod 2) / 4.

Definition settlementBankFields (bankCode : string) : list (string * jsonv) :=
  [("settlement_bank", JVStr bankCode); ("bank_code", JVStr bankCode)]%string.
Definition subaccount_body (params : CreateSubaccountParams) : jsonv :=
  JVObj ([("business_name", JVStr (sp_businessName params))]%string
    ++ settlementBankFields (sp_settlementBank params)
    ++ [("account_number", JVStr (sp_accountNumber params));
        ("percentage_charge", JVNum (default 0 (sp_percentageCharge params)))]%string).

Section Paystack.
Context `{CircuitBreaker}.
(** [String(v)] of a JSON value that is no string. *)
Context (String_of : jsonv -> string).
(** The answer to the [n]-th fetch the process makes. *)
Context (net : nat -> HttpMethod -> string -> option jsonv -> HttpResult).

(** The client's state, with the delay before each fetch it has made. *)
Record Client := mkClient {
  cl_breaker : BreakerState;
  cl_banks : option (Z * list PaystackBank);
  cl_fetches : nat;
  cl_delays : list Z }.

Definition P (A : Type) : Type := Client -> (PaystackFailure + A) * Client.
#[local] Instance P_ret : MRet P := fun A a c => (inr a, c).
#[local] Instance P_bind : MBind P := fun A B f m c =>
  match m c with
  | (inr a, c1) => f a c1
  | (inl e, c1) => (inl e, c1)
  end.
Definition p_throw {A} (e : PaystackFailure) : P A := fun c => (inl e, c).

Definition fetch (delay : Z) (method : HttpMethod) (path : string) (body : option jsonv) : P HttpResult :=
  fun c => (inr (net (cl_fetches c) method path body),
    mkClient (cl_breaker c) (cl_banks c) (S (cl_fetches c)) (cl_delays c ++ [delay])).

Definition message_of (json : option jsonv) : string :=
  match prop_opt "message" json with
  | None | Some JVNull => "unknown error"
  | Some (JVStr s) => s
  | Some v => String_of v
  end.

(** What one answer means: [None] is a transient failure, to be retried. *)
Definition settle_attempt (r : HttpResult) : option (PaystackFailure + option jsonv) :=
  match r with
  | NetworkError => None
  | HttpResponse status json =>
      let ok := (200 <=? status) && (status <? 300) in
      if negb ok || negb (is_true (prop_opt "status" json)) then
        if 500 <=? status then None else Some (inl (PaystackApiError status (message_of json)))
      else Some (inr (prop_opt "data" json))
  end.

(** The loop, with [n] attempts left. *)
Fixpoint doRequest_loop (n : nat) (method : HttpMethod) (path : string) (body : option jsonv)
    : P (option jsonv) :=
  match n with
  | O => p_throw ProviderUnavailable
  | S n' =>
      let attempt := Z.of_nat (MAX_ATTEMPTS - n) in
      r ← fetch (if 0 <? attempt then backoff attempt else 0) method path body;
      match settle_attempt r with
      | Some (inr data) => mret data
      | Some (inl e) => p_throw e
      | None => doRequest_loop n' method path body
      end
  end.

Definition doRequest (method : HttpMethod) (path : string) (body : option jsonv) : P (option jsonv) :=
  doRequest_loop MAX_ATTEMPTS method path body.

(** [breaker.fire] and the answer of an open circuit.  The error filter leaves
    4xx answers out of the failures. *)
Definition request (now : Z) (method : HttpMethod) (path : string) (body : option jsonv)
    : P (option jsonv) := fun c =>
  if opened now (cl_breaker c) then (inl CircuitOpen, c)
  else
    let '(r, c1) := doRequest method path body c in
    let failed := match r with inl e => negb (is_bad_gateway e) | inr _ => false end in
    (r, mkClient (count_call failed now (cl_breaker c1)) (cl_banks c1) (cl_fetches c1) (cl_delays c1)).

(** [data.k], a TypeError when [data] is null or undefined. *)
Definition read_prop (k : string) (data : option jsonv) : P (option jsonv) :=
  match data with
  | None | Some JVNull => p_throw MalformedData
  | Some v => mret (prop k v)
  end.

(** ** Operations *)

Definition createSubaccount (now : Z) (params : CreateSubaccountParams) : P (option jsonv) :=
  data ← request now POST "/subaccount" (Some (subaccount_body params));
  read_prop "subaccount_code" data.

(** [None]: no such subaccount on this integration. *)
Definition getSubaccount (now : Z) (subaccountCode : string) : P (option (option jsonv)) := fun c =>
  match request now GET ("/subaccount/" +:+ encodeURIComponent subaccountCode) None c with
  | (inr data, c1) => (inr (Some data), c1)
  | (inl e, c1) => if isNotFound e then (inr None, c1) else (inl e, c1)
  end.

Definition updateSubaccount (now : Z) (subaccountCode : string) (params : CreateSubaccountParams) : P unit :=
  request now PUT ("/subaccount/" +:+ encodeURIComponent subaccountCode) (Some (subaccount_body params));;
  mret tt.

Definition BANKS_DAY_MS : Z := 24 * 60 * 60 * 1000.

(** [data.map(...)]: a TypeError unless the answer is an array without nulls. *)
Definition bank_of (b : jsonv) : option PaystackBank :=
  match b with
  | JVNull => None
  | b => Some (mkBank (default EmptyString (as_string (prop "name" b)))
      (default EmptyString (as_string (prop "code" b))) (default EmptyString (as_string (prop "currency" b))))
  end.
Definition banks_of (data : option jsonv) : option (list PaystackBank) :=
  match data with Some (JVArr l) => mapM bank_of l | _ => None end.

Definition cached_banks (now : Z) (c : Client) : option (list PaystackBank) :=
  '(at_, banks) ← cl_banks c; if now - at_ <? BANKS_DAY_MS then Some banks else None.
Definition keep_banks (now : Z) (banks : list PaystackBank) : P unit := fun c =>
  (inr tt, mkClient (cl_breaker c) (Some (now, banks)) (cl_fetches c) (cl_delays c)).

Definition listBanks (now : Z) : P (list PaystackBank) := fun c =>
  match cached_banks now c with
  | Some banks => (inr banks, c)
  | None =>
      (data ← request now GET "/bank?country=nigeria&currency=NGN" None;
       match banks_of data with
       | None => p_throw MalformedData
       | Some banks => keep_banks now banks;; mret banks
       end) c
  end.

Definition resolveAccount (now : Z) (accountNumber bankCode : string) : P ResolvedAccount :=
  data ← request now GET ("/bank/resolve?account_number=" +:+ encodeURIComponent accountNumber
    +:+ "&bank_code=" +:+ encodeURIComponent bankCode) None;
  name ← read_prop "account_name" data;
  number ← read_prop "account_number" data;
  mret (mkResolvedAccount name number).

(** The client's [InitArgs] with the metadata and the return address. *)
Definition initializeTransaction (now : Z) (params : InitArgs) (metadata : option jsonv)
    (callbackUrl : option string) : P (option jsonv * option jsonv * option jsonv) :=
  let body := JVObj ([("email", JVStr (ia_email params)); ("amount", JVNum (ia_amountKobo params));
      ("reference", JVStr (ia_reference params)); ("subaccount", JVStr (ia_subaccount params));
      ("transaction_charge", JVNum (ia_transactionChargeKobo params)); ("bearer", JVStr "account");
      ("metadata", default (JVObj []) metadata)]%string
    ++ match truthy callbackUrl with Some url => [("callback_url", JVStr url)]%string | None => [] end) in
  data ← request now POST "/transaction/initialize" (Some body);
  url ← read_prop "authorization_url" data;
  code ← read_prop "access_code" data;
  reference ← read_prop "reference" data;
  mret (url, code, reference).

Definition verifyTransaction (now : Z) (reference : string) : P VerifyTransactionResult :=
  data ← request now GET ("/transaction/verify/" +:+ encodeURIComponent reference) None;
  status ← read_prop "status" data;
  mret {| vr_status := status;
          vr_reference := prop_opt "reference" data;
          vr_amount := prop_opt "amount" data;
          vr_fees := as_number (prop_opt "fees" data);
          vr_gatewayResponse := truthy (as_string (prop_opt "gateway_response" data));
          vr_subaccount := prop_opt "subaccount" data;
          vr_metadata := prop_opt "metadata" data |}.

(** ** The interface of the enrollment service *)

(** What the callers make of a verification: an unknown reference, any other
    throw, or the answer.  A status that is no string equals no verdict. *)
Definition verified_of (r : PaystackFailure + VerifyTransactionResult) : Verified :=
  match r with
  | inl e => if isUnknownReference e then VerifyUnknownReference else VerifyFailed
  | inr v => VerifyOk (default EmptyString (as_string (vr_status v))) (vr_fees v) (vr_gatewayResponse v)
  end.

Definition init_of (r : PaystackFailure + (option jsonv * option jsonv * option jsonv)) : option InitOk :=
  match r with
  | inl _ => None
  | inr (url, code, reference) =>
      Some (mkInitOk (default EmptyString (as_string reference)) (default EmptyString (as_string code))
        (default EmptyString (as_string url)))
  end.

(** The environment of a handler that starts with this client. *)
Definition with_client (c : Client) (metadata : option jsonv) (callbackUrl : option string) (env : Env) : Env :=
  mkEnv (now env) (randomUUID env) (vatRate env) (toLocaleString env) (delivery env) (id_str env)
    (fun reference => verified_of (verifyTransaction (now env) reference c).1)
    (fun args => init_of (initializeTransaction (now env) args metadata callbackUrl c).1).
End Paystack.
