(* ===== verification/PaystackSpecs.v ===== *)
(** * The Paystack client: theorems

    At most three fetches, an answer that is an answer decides at once, and the
    breaker counts outages only; an outage never moves the books; a reference
    travels in a path as itself. *)

From Stdlib Require Import Ascii QArith_base.
From S2P Require Import Prelude JsNumber Money JsText Schema Effects Samples EnrollmentView.
From S2P Require Import Ledger LedgerCard Enrollment Scheduler Paystack.

#[local] Existing Instance P_ret.
#[local] Existing Instance P_bind.

(** ** URI components *)

Definition unhex (c : ascii) : option nat :=
  let n := nat_of_ascii c in
  if ((48 <=? n) && (n <=? 57))%nat then Some (n - 48)%nat
  else if ((65 <=? n) && (n <=? 70))%nat then Some (n - 55)%nat
  else None.

Fixpoint decodeURIComponent (s : string) : option string :=
  match s with
  | EmptyString => Some EmptyString
  | String "%" (String h (String l s')) =>
      h ← unhex h; l ← unhex l; String (ascii_of_nat (16 * h + l)) <$> decodeURIComponent s'
  | String c s' => String c <$> decodeURIComponent s'
  end.

Lemma unhex_digit n : (n < 16)%nat -> unhex (hex_digit n) = Some n.
Proof. do 16 (destruct n as [|n]; [reflexivity|]). lia. Qed.

Lemma encode_cons c s :
  encodeURIComponent (String c s) =
    if uri_unreserved c then String c (encodeURIComponent s)
    else String "%" (String (hex_digit (nat_of_ascii c / 16))
           (String (hex_digit (nat_of_ascii c mod 16)) (encodeURIComponent s))).
Proof. reflexivity. Qed.

Definition path_char (c : ascii) : bool := uri_unreserved c || Ascii.eqb c "%".

Lemma hex_digit_path n : (n < 16)%nat -> path_char (hex_digit n) = true.
Proof. do 16 (destruct n as [|n]; [reflexivity|]). lia. Qed.

(** A reference or a code travels in a request path as itself: whatever it
    holds, its encoding decodes back to it and keeps to letters, digits, marks
    and percent signs, so it can neither add a segment nor a parameter. *)
Theorem uri_component_roundtrip s :
  decodeURIComponent (encodeURIComponent s) = Some s /\
  forallb path_char (String.list_ascii_of_string (encodeURIComponent s)) = true.
Proof.
  induction s as [|c s [IH1 IH2]]; [done|]. rewrite encode_cons. destruct (uri_unreserved c) eqn:E.
  - split; [|simpl; unfold path_char at 1; by rewrite E].
    assert (c <> "%"%char) as Hc by (intros ->; discriminate E).
    destruct c as [[] [] [] [] [] [] [] []]; simpl; rewrite ?IH1; done.
  - pose proof (nat_ascii_bounded c) as Hb.
    assert (nat_of_ascii c / 16 < 16)%nat by (apply Nat.Div0.div_lt_upper_bound; lia).
    assert (nat_of_ascii c mod 16 < 16)%nat by (by apply Nat.mod_upper_bound).
    split.
    + cbn [decodeURIComponent]. rewrite !unhex_digit by done. cbn [mbind option_bind]. rewrite IH1.
      rewrite <- Nat.div_mod_eq. by rewrite ascii_nat_embedding.
    + cbn [String.list_ascii_of_string forallb]. by rewrite !hex_digit_path.
Qed.

(** ** Requests *)

Section Specs.
Context `{CircuitBreaker}.
Context (String_of : jsonv -> string).
Context (net : nat -> HttpMethod -> string -> option jsonv -> HttpResult).

Definition slept (c : Client) (delays : list Z) : Client :=
  mkClient (cl_breaker c) (cl_banks c) (cl_fetches c + length delays) (cl_delays c ++ delays).

(** The verdict on the attempt [i] of a request made now. *)
Definition verdict (c : Client) (method : HttpMethod) (path : string) (body : option jsonv) (i : nat)
    : option (PaystackFailure + option jsonv) :=
  settle_attempt String_of (net (cl_fetches c + i) method path body).

Definition request_result (v : nat -> option (PaystackFailure + option jsonv))
    : (PaystackFailure + option jsonv) * list Z :=
  match v 0%nat, v 1%nat, v 2%nat with
  | Some r, _, _ => (r, [0])
  | None, Some r, _ => (r, [0; 350])
  | None, None, Some r => (r, [0; 350; 600])
  | None, None, None => (inl ProviderUnavailable, [0; 350; 600])
  end.

Lemma doRequest_eq method path body c :
  doRequest String_of net method path body c =
    let '(r, delays) := request_result (verdict c method path body) in (r, slept c delays).
Proof.
  unfold doRequest, MAX_ATTEMPTS, request_result, verdict. cbn [doRequest_loop].
  unfold mbind, P_bind, fetch, p_throw, mret, P_ret, slept. cbn -[settle_attempt Nat.add].
  replace (cl_fetches c + 0)%nat with (cl_fetches c) by lia.
  destruct (settle_attempt String_of (net (cl_fetches c) _ _ _)) as [[e|a]|];
    [f_equal; f_equal; simpl; lia .. |].
  cbn -[settle_attempt Nat.add]. replace (S (cl_fetches c)) with (cl_fetches c + 1)%nat by lia.
  destruct (settle_attempt String_of (net (cl_fetches c + 1)%nat _ _ _)) as [[e|a]|];
    [rewrite <- !app_assoc; f_equal; f_equal; simpl; lia .. |].
  cbn -[settle_attempt Nat.add]. replace (S (cl_fetches c + 1)) with (cl_fetches c + 2)%nat by lia.
  destruct (settle_attempt String_of (net (cl_fetches c + 2)%nat _ _ _)) as [[e|a]|];
    rewrite <- !app_assoc; f_equal; f_equal; simpl; lia.
Qed.

Definition counted (r : PaystackFailure + option jsonv) : bool :=
  match r with inl ProviderUnavailable => true | _ => false end.

Lemma verdict_failure c method path body i e :
  verdict c method path body i = Some (inl e) -> exists status message, e = PaystackApiError status message /\
    status < 500 /\ exists json, net (cl_fetches c + i) method path body = HttpResponse status json /\
    message = message_of String_of json.
Proof.
  unfold verdict, settle_attempt. destruct (net _ _ _ _) as [|status json]; [done|]. cbv zeta.
  destruct (negb _ || _); [|done]. destruct (500 <=? status) eqn:E; [done|]. intros [= <-]. to_prop. eauto 7.
Qed.

Lemma request_result_cases v r delays :
  request_result v = (r, delays) ->
  (exists i, (i < 3)%nat /\ v i = Some r /\ length delays = S i /\ forall j, (j < i)%nat -> v j = None) \/
  (r = inl ProviderUnavailable /\ length delays = 3%nat /\ forall j, (j < 3)%nat -> v j = None).
Proof.
  unfold request_result. destruct (v 0%nat) eqn:E0; [|destruct (v 1%nat) eqn:E1; [|destruct (v 2%nat) eqn:E2]];
    intros [= <- <-].
  - left. exists 0%nat. repeat split; try done; lia.
  - left. exists 1%nat. repeat split; try done; try lia. intros [|j] Hj; [done|lia].
  - left. exists 2%nat. repeat split; try done; try lia. intros [|[|j]] Hj; [done|done|lia].
  - right. repeat split; try done. intros [|[|[|j]]] Hj; [done..|lia].
Qed.

Lemma request_outcomes_eq now method path body c :
  request String_of net now method path body c =
    if opened now (cl_breaker c) then (inl CircuitOpen, c)
    else
      let '(r, delays) := request_result (verdict c method path body) in
      let c1 := slept c delays in
      (r, mkClient (count_call (counted r) now (cl_breaker c)) (cl_banks c1) (cl_fetches c1) (cl_delays c1)).
Proof.
  unfold request. destruct (opened _ _); [done|]. rewrite doRequest_eq.
  destruct (request_result _) as [r delays] eqn:E. cbn.
  assert (match r with inl e => negb (is_bad_gateway e) | inr _ => false end = counted r) as ->; [|done].
  destruct r as [e|a]; [|done]. apply request_result_cases in E as [(i & _ & E & _)|[[= ->] _]]; [|done].
  by apply verdict_failure in E as (status & m & -> & _).
Qed.

(** What an answer of Paystack means, by its HTTP status and its body. *)
Inductive answered : HttpResult -> PaystackFailure + option jsonv -> Prop :=
| answered_data status json :
    200 <= status < 300 -> is_true (prop "status" json) = true ->
    answered (HttpResponse status (Some json)) (inr (prop "data" json))
| answered_rejection status json :
    status < 500 -> (200 <= status < 300 -> is_true (prop_opt "status" json) = false) ->
    answered (HttpResponse status json) (inl (PaystackApiError status (message_of String_of json))).
Inductive unanswered : HttpResult -> Prop :=
| unanswered_network : unanswered NetworkError
| unanswered_status status json : 500 <= status -> unanswered (HttpResponse status json).

Lemma answered_settles r x : answered r x -> settle_attempt String_of r = Some x.
Proof.
  intros []; unfold settle_attempt; cbv zeta.
  - rewrite (proj2 (Z.leb_le 200 status)), (proj2 (Z.ltb_lt status 300)) by lia. change (prop_opt "status" (Some json)) with (prop "status" json). by rewrite H1.
  - assert (negb ((200 <=? status) && (status <? 300)) || negb (is_true (prop_opt "status" json)) = true) as ->.
    { destruct (200 <=? status) eqn:E1, (status <? 300) eqn:E2; try done. cbn [andb negb orb]. rewrite H1; [done|]. to_prop. lia. }
    by rewrite (proj2 (Z.leb_gt 500 status)) by lia.
Qed.
Lemma unanswered_retried r : unanswered r -> settle_attempt String_of r = None.
Proof.
  intros [|status json Hs]; [done|]. unfold settle_attempt. cbv zeta.
  by rewrite (proj2 (Z.ltb_ge status 300)), andb_false_r, (proj2 (Z.leb_le 500 status)) by lia.
Qed.
Lemma answered_or_not r : unanswered r \/ exists x, answered r x.
Proof.
  destruct r as [|status json]; [left; constructor|]. destruct (Z.leb_spec 500 status) as [Hs|Hs]; [left; by constructor|right].
  destruct (is_true (prop_opt "status" json)) eqn:Et; [|eexists; by apply answered_rejection].
  destruct (decide (200 <= status < 300)) as [H2|H2]; [|eexists; apply answered_rejection; [done|lia]].
  destruct json as [json|]; [|discriminate Et]. eexists. by apply answered_data.
Qed.

(** The client after a call that made the fetches of [delays]. *)
Definition called (failed : bool) (now : Z) (delays : list Z) (c : Client) : Client :=
  mkClient (count_call failed now (cl_breaker c)) (cl_banks c) (cl_fetches c + length delays) (cl_delays c ++ delays).

(** C21: a request, on every sequence of answers: an open circuit makes no fetch;
    otherwise up to three are made, the second 350 and the third 600 milliseconds
    after the one before.  A rejected fetch and a status of 500 or more are retried;
    a status below 500 decides at once and makes no further fetch: its data when it
    is a 2xx whose body has a true status, and else an API error of that status with
    the body's message.  After three fetches without an answer the provider is
    unavailable; and the breaker is told of a failure exactly in that last case: no
    rejected call, whatever its status below 500, can open the circuit. *)
Theorem request_outcomes now method path body c :
  let fetched i := net (cl_fetches c + i) method path body in
  let outcome := request String_of net now method path body c in
  (forall i, unanswered (fetched i) \/ exists r, answered (fetched i) r) /\
  (opened now (cl_breaker c) = true -> outcome = (inl CircuitOpen, c)) /\
  (opened now (cl_breaker c) = false ->
    (forall r, answered (fetched 0%nat) r -> outcome = (r, called false now [0] c)) /\
    (unanswered (fetched 0%nat) ->
      (forall r, answered (fetched 1%nat) r -> outcome = (r, called false now [0; 350] c)) /\
      (unanswered (fetched 1%nat) ->
        (forall r, answered (fetched 2%nat) r -> outcome = (r, called false now [0; 350; 600] c)) /\
        (unanswered (fetched 2%nat) -> outcome = (inl ProviderUnavailable, called true now [0; 350; 600] c))))).
Proof.
  intros fetched outcome. split; [intros i; apply answered_or_not|].
  pose proof (request_outcomes_eq now method path body c) as E. fold outcome in E.
  split; [by intros Ho; rewrite Ho in E|]. intros Ho. rewrite Ho in E.
  assert (forall r i, answered (fetched i) r -> counted r = false) as Hc by (by intros r i []).
  unfold request_result, verdict in E.
  split; [intros r H0; specialize (Hc _ _ H0); apply answered_settles in H0; fold (fetched 0%nat) in E; rewrite H0, Hc in E; exact E|].
  intros H0%unanswered_retried. fold (fetched 0%nat) in E. rewrite H0 in E.
  split; [intros r H1; specialize (Hc _ _ H1); apply answered_settles in H1; fold (fetched 1%nat) in E; rewrite H1, Hc in E; exact E|].
  intros H1%unanswered_retried. fold (fetched 1%nat) in E. rewrite H1 in E.
  split; [intros r H2; specialize (Hc _ _ H2); apply answered_settles in H2; fold (fetched 2%nat) in E; rewrite H2, Hc in E; exact E|].
  intros H2%unanswered_retried. fold (fetched 2%nat) in E. rewrite H2 in E. exact E.
Qed.

(** ** What a verification concludes *)

Lemma verify_data now reference c data :
  (request String_of net now GET ("/transaction/verify/" +:+ encodeURIComponent reference) None c).1 = inr data ->
  exists i status json, (i < 3)%nat /\
    net (cl_fetches c + i) GET ("/transaction/verify/" +:+ encodeURIComponent reference) None =
      HttpResponse status (Some json) /\ 200 <= status < 300 /\ is_true (prop "status" json) = true /\
    data = prop "data" json.
Proof.
  rewrite request_outcomes_eq. destruct (opened _ _); [done|].
  destruct (request_result _) as [r delays] eqn:E. simpl. intros ->.
  apply request_result_cases in E as [(i & Hi & E & _)|[? _]]; [|done].
  unfold verdict, settle_attempt in E. destruct (net _ _ _ _) as [|status json] eqn:En; [done|]. cbv zeta in E.
  destruct (negb _ || _) eqn:B; [by destruct (500 <=? status)|]. injection E as <-. to_prop.
  destruct B as [[B1 B2] B3]. destruct json as [json|]; [|done]. exists i, status, json. done.
Qed.

Lemma verify_error now reference c e :
  (request String_of net now GET ("/transaction/verify/" +:+ encodeURIComponent reference) None c).1 = inl e ->
  isUnknownReference e = true ->
  exists i status json, (i < 3)%nat /\
    net (cl_fetches c + i) GET ("/transaction/verify/" +:+ encodeURIComponent reference) None =
      HttpResponse status json /\ status < 500 /\ e = PaystackApiError status (message_of String_of json).
Proof.
  rewrite request_outcomes_eq. destruct (opened _ _); [intros [= <-]; done|].
  destruct (request_result _) as [r delays] eqn:E. simpl. intros -> Hu.
  apply request_result_cases in E as [(i & Hi & E & _)|[[= ->] _]]; [|done].
  apply verdict_failure in E as (status & m & -> & Hs & json & Hj & ->). eauto 8.
Qed.

(** C20: a verification never invents a verdict: the enrollment service is told
    that a reference is unknown only when one of at most three fetches was
    answered below 500 with a message that says so (an outage, an open circuit or
    a rejected key never reads as unknown), and it is told a status and a fee
    only as Paystack answered them in a 2xx with a true status. *)
Theorem verdict_sound md cb env c reference :
  let path := "/transaction/verify/" +:+ encodeURIComponent reference in
  match Enrollment.verifyTransaction (with_client String_of net c md cb env) reference with
  | VerifyUnknownReference => exists i status json, (i < 3)%nat /\
      net (cl_fetches c + i) GET path None = HttpResponse status json /\ status < 500 /\
      let m := message_of String_of json in
      (status = 404 \/ mentions "not found" m = true) /\
      (mentions "reference" m = true \/ mentions "transaction" m = true)
  | VerifyOk status fees gatewayResponse => exists i code json data, (i < 3)%nat /\
      net (cl_fetches c + i) GET path None = HttpResponse code (Some json) /\ 200 <= code < 300 /\
      is_true (prop "status" json) = true /\ prop "data" json = Some data /\
      status = default EmptyString (as_string (prop "status" data)) /\
      fees = as_number (prop "fees" data) /\
      gatewayResponse = truthy (as_string (prop "gateway_response" data))
  | VerifyFailed => True
  end.
Proof.
  cbn [Enrollment.verifyTransaction with_client]. unfold verifyTransaction, mbind, P_bind.
  pose proof (verify_data (now env) reference c) as Hd. pose proof (verify_error (now env) reference c) as He.
  destruct (request _ _ _ _ _ _ _) as [[e|data] c1]; cbn [fst] in *.
  - unfold verified_of. cbn [fst]. destruct (isUnknownReference e) eqn:Eu; [|done].
    destruct (He e eq_refl Eu) as (i & status & json & Hi & Hn & Hs & ->).
    exists i, status, json. split; [done|]. split; [done|]. split; [done|]. cbv zeta.
    unfold isUnknownReference, isNotFound in Eu. to_prop. exact Eu.
  - destruct (Hd data eq_refl) as (i & status & json & Hi & Hn & Hs & Ht & Ej). unfold read_prop.
    destruct data as [d|]; [|done].
    assert (d = JVNull \/ read_prop "status" (Some d) = mret (M:=P) (prop "status" d)) as [->|Er]
      by (destruct d; first [by left | by right]); [done|].
    unfold read_prop in Er. rewrite Er. cbn. exists i, status, json, d. repeat split; try done; lia.
Qed.

(** ** Outages *)

(** The circuit is open, or no fetch gets an answer. *)
Definition provider_down (now : Z) (c : Client) : Prop :=
  opened now (cl_breaker c) = true \/
  forall n method path body, settle_attempt String_of (net n method path body) = None.

Lemma down_request now method path body c :
  provider_down now c -> exists e, isUnknownReference e = false /\
    (request String_of net now method path body c).1 = inl e.
Proof.
  rewrite request_outcomes_eq. intros [->|Hn]; [by exists CircuitOpen|].
  destruct (opened _ _); [by exists CircuitOpen|].
  unfold request_result, verdict. rewrite !Hn. by exists ProviderUnavailable.
Qed.

Lemma down_verify now reference c :
  provider_down now c -> verified_of (verifyTransaction String_of net now reference c).1 = VerifyFailed.
Proof.
  intros Hd. unfold verifyTransaction, mbind, P_bind.
  destruct (down_request now GET ("/transaction/verify/" +:+ encodeURIComponent reference) None c Hd) as (e & Eu & E).
  destruct (request _ _ _ _ _ _ _) as [[e'|data] c1]; [|done]. injection E as ->. simpl. by rewrite Eu.
Qed.

(** While Paystack is unreachable, or the circuit is open, the books stand
    still: the outcome screen, the sweep and a parent's retry of a started first
    payment all leave the whole state as it was, the retry resuming the charge
    that is already open. *)
Theorem outage_keeps_books md cb env c :
  provider_down (now env) c -> let env' := with_client String_of net c md cb env in
  (forall reference paymentId user w r w', getPaymentOutcome env' reference paymentId user w = (r, w') -> w' = w) /\
  (forall w, runSweep env' w = (Ok tt, w)) /\
  (forall eid pid p w,
     latest (filter (fun kv : id * Payment => pending_first eid kv.2 = true) (map_to_list (payments (db w)))) = Some (pid, p) ->
     is_Some (truthy (p_paystackReference p)) -> is_Some (truthy (p_paystackAccessCode p)) ->
     resolvePendingFirstPayment env' eid w = (Ok (Some (buildResumeResponse p)), w)).
Proof.
  intros Hd env'. assert (forall r, Enrollment.verifyTransaction env' r = VerifyFailed) as Hv
    by (intros r; by apply down_verify).
  clearbody env'. split; [|split].
  - intros reference paymentId user w r w'. unfold getPaymentOutcome, refresh_outcome, ensure, read, orThrow, throw,
      mbind, M_bind, mret, M_ret. destruct (_ || _); [|by intros [= _ <-]].
    destruct (load_payment _ _ _) as [payment|]; [|by intros [= _ <-]].
    destruct (owns_payment _ _ _); [|by intros [= _ <-]].
    destruct (truthy reference) as [r0|]; [|by intros [= _ <-]].
    destruct (_ || _); [by intros [= _ <-]|]. rewrite Hv. by intros [= _ <-].
  - intros w. unfold runSweep, read, mbind, M_bind. generalize (stale_payments (now env') (db w)).
    intros l. induction l as [|[r t] l IH]; [done|]. cbn. unfold mbind, M_bind, sweep_one. rewrite Hv.
    unfold mret, M_ret. exact IH.
  - intros eid pid p w Hl [reference Hr] [code Hc]. unfold resolvePendingFirstPayment, read, mbind, M_bind.
    rewrite Hl, Hr, Hc, Hv. done.
Qed.
End Specs.

(** ** On concrete answers *)

(** A breaker that opens at the first failure. *)
#[export] Instance sample_breaker : CircuitBreaker :=
  {| BreakerState := bool; opened := fun _ b => b; count_call := fun failed _ _ => failed |}.
Definition sample_client : Client := mkClient false None 0 [].
Definition sample_answer (status : Z) (message : string) (data : list (string * jsonv)) : HttpResult :=
  HttpResponse status (Some (JVObj [("status", JVBool (Z.eqb status 200)); ("message", JVStr message);
    ("data", JVObj data)]%string)).
(** An outage, then an answer. *)
Definition sample_net (n : nat) (method : HttpMethod) (path : string) (body : option jsonv) : HttpResult :=
  match n with
  | O => HttpResponse 502 None
  | _ => sample_answer 400 "Transaction reference not found." []
  end.
Definition no_string (v : jsonv) : string := "?".

Example unknown_after_outage :
  verified_of (verifyTransaction no_string sample_net 0 "lopay_1" sample_client).1 = VerifyUnknownReference /\
  cl_delays (verifyTransaction no_string sample_net 0 "lopay_1" sample_client).2 = [0; 350] /\
  verified_of (verifyTransaction no_string (fun _ _ _ _ => sample_answer 401 "Invalid key" []) 0 "lopay_1"
    sample_client).1 = VerifyFailed.
Proof. vm_compute. auto. Qed.

Definition sample_down_env : Env :=
  mkEnv 10000000 "uuid" 0%Q (fun _ => EmptyString) (mkDelivery true (fun _ => true)) (fun _ => EmptyString)
    (fun _ => VerifyFailed) (fun _ => None).

Example outage_keeps_books_witness :
  runSweep (with_client no_string (fun _ _ _ _ => NetworkError) sample_client None None sample_down_env) sample =
    (Ok tt, sample).
Proof.
  apply (outage_keeps_books no_string (fun _ _ _ _ => NetworkError) None None sample_down_env sample_client).
  right. intros. reflexivity.
Defined.
