(* ===== verification/Webhook.v ===== *)
(** * The Paystack callbacks

    [src/enrollment/paystack-webhook.controller.ts]: the webhook, authenticated
    by a keyed digest of the raw body, and the verification a client asks for on
    its return.  Header values are texts; a body is its bytes. *)

From Stdlib Require Import Ascii QArith_base.
From S2P Require Import Prelude JsText Effects Schema Samples Ledger LedgerCard Enrollment ClientIp Paystack.

Record WebhookRequest := mkWebhookRequest {
  wr_http : ClientIpRequest;
  wr_signature : option text;
  wr_rawBody : option (list Z) }.

(** What the process is configured with: the environment variables. *)
Record WebhookConfig := mkWebhookConfig {
  wc_PAYSTACK_WEBHOOK_ALLOWED_IPS : option text;
  wc_PAYSTACK_SECRET_KEY : option text }.

Definition X_FORWARDED_FOR : string := "x-forwarded-for".

Definition allowedIps (cfg : WebhookConfig) : list text :=
  filter (fun ip => nonempty ip = true)
    (trim <$> split_on COMMA (default [] (wc_PAYSTACK_WEBHOOK_ALLOWED_IPS cfg))).

(** The address the allowlist is asked about. *)
Definition webhook_clientIp (req : ClientIpRequest) : text :=
  trim
    match header_first (rq_headers req !! X_FORWARDED_FOR) with
    | Some fwd => before COMMA fwd
    | None => match rq_ip req with Some ip => ip | None => default [] (rq_remoteAddress req) end
    end.

(** [Buffer.from(t)] is [utf8_bytes t]; Node's [timingSafeEqual] throws on buffers of different lengths. *)
Definition timingSafeEqual (a b : list Z) : res bool :=
  if (length a =? length b)%nat then Ok (bool_decide (a = b))
  else Err (FInternal "Input buffers must have the same byte length").

Section Webhook.
(** [createHmac('sha512', secret).update(raw).digest('hex')] *)
Context (hmac_hex : text -> list Z -> text).
(** [JSON.parse(raw.toString('utf8'))] and the properties the service reads;
    [None] is a SyntaxError. *)
Context (parse : list Z -> option PaystackWebhookEvent).

Definition signature_valid (secret : text) (raw : list Z) (signature : option text) : res bool :=
  let expected := hmac_hex secret raw in
  let provided := default [] signature in
  if (length expected =? length provided)%nat then timingSafeEqual (utf8_bytes expected) (utf8_bytes provided) else Ok false.

Definition webhook (cfg : WebhookConfig) (env : Env) (req : WebhookRequest) : M bool :=
  let allowed := allowedIps cfg in
  ensure (bool_decide (allowed = []) || bool_decide (webhook_clientIp (wr_http req) ∈ allowed))
    (FUnauthorized "Origin not allowed");;
  let secret := default [] (wc_PAYSTACK_SECRET_KEY cfg) in
  ensure (nonempty secret) (FInternal "Webhook verification unavailable");;
  raw ← orThrow (wr_rawBody req) (FInternal "Webhook body unavailable");
  valid ← lift (signature_valid secret raw (wr_signature req));
  ensure valid (FUnauthorized "Invalid signature");;
  event ← orThrow (parse raw) (FBadRequest "Invalid webhook payload");
  processPaystackWebhookEvent env event.

(** [verification] is the Paystack client's answer for a reference. *)
Definition verify (verification : string -> PaystackFailure + VerifyTransactionResult) (env : Env)
    (reference : option string) (user : AuthUser) : M (option jsonv * string) :=
  reference ← orThrow (truthy reference) (FBadRequest "reference is required");
  assertReferenceOwnedBy reference user;;
  result ← match verification reference with
    | inl e => throw (provider_error e)
    | inr result => mret result
    end;
  let verdict v := bool_decide (as_string (vr_status result) = Some v) in
  if verdict "success"%string then
    reconcilePaystackPayment (toLocaleString env) (delivery env) reference (vr_fees result) None (now env);;
    mret (Some (JVStr "success"), reference)
  else if verdict "failed"%string then
    failPaystackPayment reference;; mret (Some (JVStr "failed"), reference)
  else mret (vr_status result, reference).

(** ** The signature *)

(** A hexadecimal digest is of ASCII characters. *)
Context (hmac_ascii : forall secret raw, Forall (fun c => c < 128) (hmac_hex secret raw)).

(** The comparison says yes to the digest itself and to nothing else; it throws
    only on a text of the digest's length with a character outside ASCII. *)
Lemma signature_verdict secret raw signature :
  signature_valid secret raw signature =
    let provided := default [] signature in
    if bool_decide (provided = hmac_hex secret raw) then Ok true
    else if (length provided =? length (hmac_hex secret raw))%nat && negb (forallb (fun c => c <? 128) provided)
      then Err (FInternal "Input buffers must have the same byte length")
    else Ok false.
Proof.
  unfold signature_valid. cbv zeta. set (provided := default [] signature). set (expected := hmac_hex secret raw).
  pose proof (hmac_ascii secret raw) as Ha. fold expected in Ha. rewrite (utf8_bytes_ascii expected Ha).
  rewrite Nat.eqb_sym. unfold timingSafeEqual.
  destruct (bool_decide (provided = expected)) eqn:Hp; to_prop.
  { by rewrite Hp, Nat.eqb_refl, (utf8_bytes_ascii expected Ha), Nat.eqb_refl, bool_decide_eq_true_2. }
  destruct (Nat.eqb_spec (length provided) (length expected)) as [Hl|Hl]; cbn [andb]; [|done].
  destruct (forallb (fun c => c <? 128) provided) eqn:Ef; cbn [negb].
  - assert (Forall (fun c => c < 128) provided) as Fp.
    { apply List.Forall_forall. rewrite forallb_forall in Ef. intros c Hc%Ef. to_prop. done. }
    rewrite (utf8_bytes_ascii provided Fp), Hl, Nat.eqb_refl, bool_decide_eq_false_2; [done|congruence].
  - destruct (utf8_bytes_long provided) as [_ Hlong]. destruct (Nat.eqb_spec (length expected) (length (utf8_bytes provided))) as [Hu|]; [|done].
    exfalso. apply not_true_iff_false in Ef. apply Ef. rewrite forallb_forall. rewrite <- Hl in Hu.
    specialize (Hlong (eq_sym Hu)). rewrite List.Forall_forall in Hlong. intros c Hc%Hlong. by apply Z.ltb_lt.
Qed.

(** ** Who may speak for Paystack *)

(** What a webhook must be for its event to be processed. *)
Record authentic (cfg : WebhookConfig) (req : WebhookRequest) (event : PaystackWebhookEvent) : Prop := {
  au_allowed : allowedIps cfg = [] \/ webhook_clientIp (wr_http req) ∈ allowedIps cfg;
  au_signed : exists secret raw,
    wc_PAYSTACK_SECRET_KEY cfg = Some secret /\ secret <> [] /\ wr_rawBody req = Some raw /\
    default [] (wr_signature req) = hmac_hex secret raw /\ parse raw = Some event }.

Lemma webhook_authentic cfg env req event w :
  authentic cfg req event -> webhook cfg env req w = processPaystackWebhookEvent env event w.
Proof.
  intros [Ha (secret & raw & Hs & Hn & Hr & Hd & Hp)]. unfold webhook. cbv zeta.
  assert (bool_decide (allowedIps cfg = []) || bool_decide (webhook_clientIp (wr_http req) ∈ allowedIps cfg) = true)
    as -> by (by rewrite orb_true_iff, !bool_decide_eq_true).
  rewrite Hs, Hr. change (default [] (Some secret)) with secret. cbn [orThrow]. assert (nonempty secret = true) as -> by by destruct secret.
  unfold mbind, M_bind. cbn [ensure lift]. unfold mret, M_ret, lift.
  rewrite signature_verdict. cbv zeta. rewrite Hd, bool_decide_eq_true_2 by done. cbn [ensure]. unfold mret, M_ret.
  by rewrite Hp.
Qed.

Lemma webhook_refused cfg env req w r w' :
  webhook cfg env req w = (r, w') -> (forall event, ~ authentic cfg req event) -> (exists e, r = Err e) /\ w' = w.
Proof.
  intros H Hno. unfold webhook, mbind, M_bind in H. cbv zeta in H.
  destruct (bool_decide (allowedIps cfg = []) || _) eqn:Ea; cbn [ensure] in H; unfold throw, mret, M_ret in H;
    [|injection H as <- <-; eauto].
  destruct (nonempty _) eqn:Es; cbn [ensure] in H; unfold throw, mret, M_ret in H; [|injection H as <- <-; eauto].
  destruct (wr_rawBody req) as [raw|] eqn:Er; cbn [orThrow] in H; unfold throw, mret, M_ret in H;
    [|injection H as <- <-; eauto].
  unfold lift in H. rewrite signature_verdict in H. cbv zeta in H. case_bool_decide as Hd;
    [|destruct (_ && _) in H; cbn in H; injection H as <- <-; eauto].
  cbn [ensure] in H. unfold mret, M_ret in H. destruct (parse raw) as [event|] eqn:Ep; cbn [orThrow] in H;
    [|injection H as <- <-; eauto].
  exfalso. apply (Hno event). rewrite orb_true_iff, !bool_decide_eq_true in Ea. split; [done|].
  destruct (wc_PAYSTACK_SECRET_KEY cfg) as [secret|] eqn:Ek; [|done]. exists secret, raw.
  repeat split; try done. intros ->. done.
Qed.

(** C19: only Paystack moves money through the webhook: unless the request comes
    from an allowed address (or no allowlist is set), the secret is configured,
    the raw body is there, the signature is its digest under the secret and the
    body parses, the request is answered with an error and neither the database
    nor anything else is touched; when all of it holds, the answer and the
    effects are those of processing the signed event. *)
Theorem webhook_gate cfg env req w :
  (forall event, authentic cfg req event -> webhook cfg env req w = processPaystackWebhookEvent env event w) /\
  ((forall event, ~ authentic cfg req event) -> exists e, webhook cfg env req w = (Err e, w)).
Proof.
  split; [intros; by apply webhook_authentic|]. intros Hno. destruct (webhook cfg env req w) as [r w'] eqn:E.
  destruct (webhook_refused _ _ _ _ _ _ E Hno) as [[e ->] ->]. eauto.
Qed.
End Webhook.

(** A two-digit digest, for the examples. *)
Definition hex_char (n : Z) : Z := if n <? 10 then 48 + n else 87 + n.
Definition sample_hmac (secret : text) (raw : list Z) : text :=
  let n := sumZ secret + sumZ raw in [hex_char (n / 16 mod 16); hex_char (n mod 16)].
Definition sample_parse (raw : list Z) : option PaystackWebhookEvent :=
  if bool_decide (raw = text_of "{}") then Some (mkPaystackEvent None None (Some "77") None) else None.

Lemma sample_hmac_ascii secret raw : Forall (fun c => c < 128) (sample_hmac secret raw).
Proof.
  unfold sample_hmac, hex_char. repeat constructor; case_if.
  all: pose proof (Z.mod_pos_bound (sumZ secret + sumZ raw) 16); pose proof (Z.mod_pos_bound ((sumZ secret + sumZ raw) / 16) 16); lia.
Qed.

Definition sample_config : WebhookConfig := mkWebhookConfig (Some (text_of "52.31.139.75, 52.49.173.169")) (Some (text_of "sk")).
Definition sample_request (signature : option text) : WebhookRequest :=
  mkWebhookRequest (mkIpRequest ∅ (Some (text_of "52.49.173.169")) None) signature (Some (text_of "{}")).

Definition sample_server : Env :=
  mkEnv 5000 "uuid-1" 0%Q (fun _ => "0.00"%string) (mkDelivery true (fun _ => true)) (fun _ => "u"%string)
    (fun _ => VerifyFailed) (fun _ => None).

Lemma webhook_gate_witness :
  let env := sample_server in let w := sample in
  webhook sample_hmac sample_parse sample_config env (sample_request (Some (text_of "d6"))) w =
    processPaystackWebhookEvent env (mkPaystackEvent None None (Some "77") None) w /\
  exists e, webhook sample_hmac sample_parse sample_config env (sample_request (Some (text_of "d7"))) w = (Err e, w).
Proof.
  intros env w. split.
  - apply (webhook_gate sample_hmac sample_parse sample_hmac_ascii). split.
    + right. vm_compute. right. left.
    + exists (text_of "sk"), (text_of "{}"). repeat split; try done.
  - apply (webhook_gate sample_hmac sample_parse sample_hmac_ascii). intros event [_ (s & raw & Hs & _ & Hr & Hd & _)].
    injection Hs as <-. injection Hr as <-. discriminate Hd.
Defined.

(** ** The allowlist *)

Lemma trim_incl c t : c ∈ trim t -> c ∈ t.
Proof.
  destruct (trimStart_suffix t) as (s1 & E1 & _). destruct (trimEnd_prefix (trimStart t)) as (s2 & E2 & _).
  intros H. rewrite E1, E2. apply elem_of_app. right. apply elem_of_app. by left.
Qed.
Lemma split_on_free sep t p : p ∈ split_on sep t -> sep ∉ p.
Proof.
  revert p. induction t as [|c t IH]; intros p; [intros ->%list_elem_of_singleton; apply not_elem_of_nil|].
  rewrite split_on_step. destruct (split_on_cons sep t) as [ps E]. rewrite E in IH |- *.
  destruct (c =? sep) eqn:Ec; to_prop; intros [->|H]%elem_of_cons.
  - apply not_elem_of_nil.
  - by apply IH.
  - apply not_elem_of_cons. split; [congruence|]. apply IH. left.
  - apply IH. by right.
Qed.

Lemma allowed_clean cfg ip : ip ∈ allowedIps cfg -> trim ip = ip /\ COMMA ∉ ip.
Proof.
  intros [_ (u & -> & Hu)%list_elem_of_fmap]%list_elem_of_filter. split; [apply trim_idem|].
  intros H%trim_incl. revert H. by apply (split_on_free _ (default [] (wc_PAYSTACK_WEBHOOK_ALLOWED_IPS cfg))).
Qed.

(** The request with the header a caller adds to it. *)
Definition with_forwarded_for (value : text) (req : WebhookRequest) : WebhookRequest :=
  mkWebhookRequest
    (mkIpRequest (<[X_FORWARDED_FOR := HOne value]> (rq_headers (wr_http req))) (rq_ip (wr_http req))
      (rq_remoteAddress (wr_http req)))
    (wr_signature req) (wr_rawBody req).

(** The allowlist is no control over who calls: whoever the peer is, a
    request that carries an allowed address in front of its own X-Forwarded-For
    header, whatever follows it, is answered as if no allowlist were set. *)
Theorem allowlist_caller_chosen hmac_hex parse cfg env req ip rest w :
  ip ∈ allowedIps cfg ->
  webhook hmac_hex parse cfg env (with_forwarded_for (ip ++ COMMA :: rest) req) w =
    webhook hmac_hex parse (mkWebhookConfig None (wc_PAYSTACK_SECRET_KEY cfg)) env req w.
Proof.
  intros Hip. destruct (allowed_clean cfg ip Hip) as [Ht Hc]. unfold webhook. cbv zeta.
  assert (webhook_clientIp (wr_http (with_forwarded_for (ip ++ COMMA :: rest) req)) = ip) as ->.
  { unfold webhook_clientIp, with_forwarded_for. cbn -[insert lookup]. rewrite lookup_insert_eq. cbn -[insert lookup].
    by rewrite before_app. }
  rewrite (bool_decide_eq_true_2 (ip ∈ allowedIps cfg)), orb_true_r by done. reflexivity.
Qed.

Lemma allowlist_caller_chosen_witness :
  let env := sample_server in let w := sample in
  webhook sample_hmac sample_parse sample_config env
    (with_forwarded_for (text_of "52.49.173.169" ++ COMMA :: text_of " 6.6.6.6")
      (mkWebhookRequest (mkIpRequest ∅ (Some (text_of "6.6.6.6")) None) (Some (text_of "d6")) (Some (text_of "{}")))) w =
  webhook sample_hmac sample_parse (mkWebhookConfig None (Some (text_of "sk"))) env
    (mkWebhookRequest (mkIpRequest ∅ (Some (text_of "6.6.6.6")) None) (Some (text_of "d6")) (Some (text_of "{}"))) w.
Proof. intros env w. apply allowlist_caller_chosen. vm_compute. right. left. Defined.

(** ** Verification on return *)

(** Verification on return, on every branch: it is refused, before Paystack
    is asked, without a reference, for an unknown payment and for one that is
    not the caller's; an exception of Paystack passes through and leaves the
    books alone; a verdict of success reconciles the payment with the fee
    Paystack reports, one of failure fails it, and any other is only reported. *)
Theorem verify_outcomes verification env reference user w :
  verify verification env reference user w =
    match truthy reference with
    | None => (Err (FBadRequest "reference is required"), w)
    | Some r =>
        match find_row (by_reference r) (payments (db w)) with
        | None => (Err (FNotFound "Unknown payment reference"), w)
        | Some kv =>
            if negb (owns_payment user (db w) kv.2) then
              (Err (FForbidden "You do not have access to this payment"), w)
            else
              match verification r with
              | inl e => (Err (provider_error e), w)
              | inr v =>
                  if bool_decide (as_string (vr_status v) = Some "success"%string) then
                    (_ ← reconcilePaystackPayment (toLocaleString env) (delivery env) r (vr_fees v) None (now env);
                     mret (Some (JVStr "success"), r)) w
                  else if bool_decide (as_string (vr_status v) = Some "failed"%string) then
                    (_ ← failPaystackPayment r; mret (Some (JVStr "failed"), r)) w
                  else (Ok (vr_status v, r), w)
              end
        end
    end.
Proof.
  unfold verify, assertReferenceOwnedBy. destruct (truthy reference) as [r|]; [|done].
  unfold mbind, M_bind, read. cbn [orThrow]. unfold mret at 1, M_ret at 1.
  destruct (find_row _ _) as [kv|]; [|done]. cbn [orThrow]. unfold mret at 1, M_ret at 1.
  destruct (owns_payment _ _ _); [|done]. cbn [negb ensure]. unfold mret at 1, M_ret at 1.
  destruct (verification r) as [e|v]; [done|]. unfold mret at 1, M_ret at 1.
  by repeat case_bool_decide.
Qed.
