(* ===== verification/Cache.v ===== *)
(** * The cache

    [src/cache/cache.service.ts]: values with an expiry, in Redis when it is
    configured and in the process otherwise.  A Redis command may fail; the
    service logs it and goes on.  Cached values survive JSON unchanged. *)

From S2P Require Import Prelude.

(** The cache of a deployment: whether Redis is configured, and which of its
    commands fail. *)
Class CacheBackend := { redis : bool; fails : nat -> bool }.

Section Cache.
Context `{CacheBackend} {V : Type}.

(** Values with their [expiresAt]; [c_calls] counts the Redis commands. *)
Record CacheService := mkCache { memory : gmap string (V * Z); c_calls : nat }.

Definition next_fails (c : CacheService) : bool := redis && fails (c_calls c).
Definition tick (c : CacheService) : CacheService :=
  if redis then mkCache (memory c) (S (c_calls c)) else c.
(** A Redis command that goes through, or an operation on the map. *)
Definition command (f : gmap string (V * Z) -> gmap string (V * Z)) (c : CacheService) : CacheService :=
  if next_fails c then tick c else mkCache (f (memory c)) (c_calls (tick c)).

Definition live (now : Z) (entry : V * Z) : bool := negb (entry.2 <=? now).

Definition get (now : Z) (key : string) (c : CacheService) : option V * CacheService :=
  if next_fails c then (None, tick c)
  else
    match memory c !! key with
    | None => (None, tick c)
    | Some entry =>
        if live now entry then (Some entry.1, tick c)
        else (None, mkCache (delete key (memory c)) (c_calls (tick c)))
    end.

Definition set (now : Z) (key : string) (value : V) (ttlSeconds : Z) : CacheService -> CacheService :=
  command (<[key := (value, now + ttlSeconds * 1000)]>).

Definition del (key : string) : CacheService -> CacheService := command (delete key).

(** The cached value, or the loader's, which is then kept. *)
Definition getOrSet (now : Z) (key : string) (ttlSeconds : Z) (value : V) (c : CacheService) : V * CacheService :=
  match get now key c with
  | (Some hit, c) => (hit, c)
  | (None, c) => (value, set now key value ttlSeconds c)
  end.

(** What a reader sees under a key. *)
Definition cached (now : Z) (key : string) (c : CacheService) : option V :=
  entry ← memory c !! key; if live now entry then Some entry.1 else None.

Lemma get_cached now key c :
  (get now key c).1 = (if next_fails c then None else cached now key c) /\
  forall k, cached now k (get now key c).2 = cached now k c.
Proof.
  unfold get, cached. destruct (next_fails c); [by split; [|unfold tick; destruct redis]|].
  destruct (memory c !! key) as [e|] eqn:E; cbn; [|by split; [|unfold tick; destruct redis]].
  destruct (live now e) eqn:El; cbn; [by split; [|unfold tick; destruct redis]|]. split; [done|].
  intros k. destruct (decide (k = key)) as [->|Hk].
  - rewrite lookup_delete_eq, E. cbn. by rewrite El.
  - by rewrite lookup_delete_ne.
Qed.

Lemma cached_set now now' key value ttl k c :
  next_fails c = false ->
  cached now' k (set now key value ttl c) =
    if bool_decide (k = key) then if now' <? now + ttl * 1000 then Some value else None
    else cached now' k c.
Proof.
  intros Hf. unfold set, command, cached. rewrite Hf. cbn [memory]. case_bool_decide as Hk.
  - subst k. rewrite lookup_insert_eq. cbn. unfold live. cbn. by rewrite Z.leb_antisym, negb_involutive.
  - by rewrite lookup_insert_ne.
Qed.

Lemma cached_del now key k c :
  next_fails c = false ->
  cached now k (del key c) = if bool_decide (k = key) then None else cached now k c.
Proof.
  intros Hf. unfold del, command, cached. rewrite Hf. cbn [memory]. case_bool_decide as Hk.
  - subst k. by rewrite lookup_delete_eq.
  - by rewrite lookup_delete_ne.
Qed.

(** A command that fails changes nothing a reader sees. *)
Lemma cached_failed now f k c : next_fails c = true -> cached now k (command f c) = cached now k c.
Proof. intros Hf. unfold command. rewrite Hf. unfold tick. by destruct redis. Qed.

Lemma get_miss now key c : next_fails c = false -> memory c !! key = None -> get now key c = (None, tick c).
Proof. intros Hf Hk. unfold get. by rewrite Hf, Hk. Qed.
Lemma get_hit now key c e :
  next_fails c = false -> memory c !! key = Some e -> live now e = true -> get now key c = (Some e.1, tick c).
Proof. intros Hf Hk Hl. unfold get. by rewrite Hf, Hk, Hl. Qed.
Lemma memory_del key c : next_fails c = false -> memory (del key c) = delete key (memory c).
Proof. intros Hf. unfold del, command. by rewrite Hf. Qed.
Lemma memory_set now key value ttl c :
  next_fails c = false -> memory (set now key value ttl c) = <[key := (value, now + ttl * 1000)]> (memory c).
Proof. intros Hf. unfold set, command. by rewrite Hf. Qed.

Lemma live_earlier now now' entry : now <= now' -> live now' entry = true -> live now entry = true.
Proof. unfold live. intros H1 H2. to_prop. lia. Qed.

(** The key holds nothing, or what was loaded at most a lifetime ago. *)
Definition aged (loaded : Z -> V) (ttl now : Z) (key : string) (c : CacheService) : Prop :=
  forall e, memory c !! key = Some e -> exists t, t <= now /\ e = (loaded t, t + ttl * 1000).

Lemma aged_later loaded ttl now now' key c : now <= now' -> aged loaded ttl now key c -> aged loaded ttl now' key c.
Proof. intros Hle A e He. destruct (A e He) as (t & Ht & ->). exists t. split; [lia | done]. Qed.

Lemma tick_keeps c : memory (tick c) = memory c.
Proof. unfold tick. by destruct redis. Qed.

(** An answer is at most a lifetime old, and so is what is kept. *)
Lemma getOrSet_aged loaded ttl now key c :
  0 < ttl -> aged loaded ttl now key c ->
  let '(v, c') := getOrSet now key ttl (loaded now) c in
  (exists t, now - ttl * 1000 < t <= now /\ v = loaded t) /\ aged loaded ttl now key c'.
Proof.
  intros Httl A. unfold getOrSet, get.
  assert (forall c1, memory c1 !! key = None \/ memory c1 = memory c ->
    (exists t, now - ttl * 1000 < t <= now /\ loaded now = loaded t) /\
    aged loaded ttl now key (set now key (loaded now) ttl c1)) as Hmiss.
  { intros c1 Hc1. split; [exists now; split; [lia | done]|].
    intros e. unfold set, command. destruct (next_fails c1).
    - rewrite tick_keeps. destruct Hc1 as [-> | ->]; [done | apply A].
    - cbn [memory]. rewrite lookup_insert_eq. intros [= <-]. exists now. split; [lia | done]. }
  destruct (next_fails c); [apply Hmiss; right; apply tick_keeps|].
  destruct (memory c !! key) as [e|] eqn:E; [|apply Hmiss; left; by rewrite tick_keeps].
  destruct (live now e) eqn:L.
  - destruct (A e E) as (t & Ht & ->). cbn [fst snd] in L |- *. unfold live in L. cbn in L. to_prop. split.
    + exists t. split; [lia | done].
    + intros e. rewrite tick_keeps. apply A.
  - apply Hmiss. left. cbn [memory]. apply lookup_delete_eq.
Qed.
End Cache.
#[global] Arguments CacheService V : clear implicits.
#[global] Arguments get : simpl never.
#[global] Arguments set : simpl never.
#[global] Arguments del : simpl never.

(** ** Keys *)

Definition key_classFees (schoolId : string) : string := "cache:classfees:" +:+ schoolId.
Definition key_paystackBanks : string := "cache:paystack:banks".
Definition key_adminRevenue : string := "cache:admin:revenue".
Definition key_adminStudentsSummary : string := "cache:admin:students-summary".
Definition key_adminSchoolsSummary : string := "cache:admin:schools-summary".
Definition key_adminSchoolsPayoutStatus : string := "cache:admin:schools-payout-status".
Definition key_adminBreakdownSummary : string := "cache:admin:breakdown-summary".

(** No school's fees share a key with another's or with a report. *)
Lemma key_classFees_inj a b : key_classFees a = key_classFees b -> a = b.
Proof. apply (inj (String.append "cache:classfees:")). Qed.
