(* ===== verification/Settlement.v ===== *)
(** * Where a school's money settles

    [src/schools/schools.service.ts] (the profile and its settlement account) and
    the subaccount side of [src/admin/admin.service.ts].  A school has two
    settlement destinations: the account shown to parents and the Paystack
    subaccount card payments are split into.  The remote side is the map of
    subaccounts to the account each settles to.

    [applySettlementUpdate] is a sequence of steps, each one database write or
    one call of Paystack: a process may die after any of them, and requests
    interleave between them. *)

From S2P Require Import Prelude JsText Effects Schema Ledger LedgerCard Enrollment Paystack Cache.

(** The account each subaccount of the integration settles to: bank code and number. *)
Abbreviation Remote := (gmap string (string * string)).

Record State := mkState { local : World; remote : Remote }.

(** ** Access to the bank details *)

Record BankDetails := mkBankDetails { bd_bankName : string; bd_accountName : string; bd_accountNumber : string }.

Definition school_row (cond : School -> bool) (schoolId : id) (d : DB) : option School :=
  school ← schools d !! schoolId; if cond school then Some school else None.
Definition not_deleted (school : School) : bool := bool_decide (s_deletedAt school = None).

Definition parent_user (childId : id) (d : DB) : option id :=
  c ← children d !! childId; par_userId <$> parents d !! c_parentId c.
Definition enrolled_at (schoolId userId : id) (d : DB) : bool :=
  taken (fun e => bool_decide (e_schoolId e = schoolId)
    && bool_decide (parent_user (e_childId e) d = Some userId)) (enrollments d).

Definition getSchoolBankDetails (schoolId : id) (user : AuthUser) : M BankDetails :=
  match au_role user with
  | SCHOOL_OWNER =>
      ensure (bool_decide (au_userSchoolId user = Some schoolId))
        (FForbidden "You can only view your own school details")
  | PARENT =>
      hasEnrollment ← read (enrolled_at schoolId (au_userId user));
      ensure hasEnrollment
        (FForbidden "You can only view bank details for a school you are enrolled with")
  | SUPER_ADMIN => mret tt
  end;;
  school ← read (school_row not_deleted schoolId);
  school ← orThrow school (FNotFound "School not found");
  mret (mkBankDetails (s_bankName school) (s_accountName school) (s_accountNumber school)).

(** ** Updating the profile *)

Record UpdateSchoolDto := mkUpdateSchoolDto {
  us_schoolName : option string;
  us_address : option string;
  us_phone : option string;
  us_bankName : option string;
  us_bankCode : option string;
  us_accountName : option string;
  us_accountNumber : option string }.

(** A column of [data]: [undefined] leaves it as it is. *)
Definition keep_or {A} (set : A -> School -> School) (v : option A) (school : School) : School :=
  match v with Some a => set a school | None => school end.

(** [{ name, address, phone }] of [updateSchool]. *)
Definition profile_fields (dto : UpdateSchoolDto) (school : School) : School :=
  keep_or set_s_phone (us_phone dto)
    (keep_or set_s_address (us_address dto) (keep_or set_s_name (us_schoolName dto) school)).

Record Update := mkUpdate {
  up_schoolId : id;
  up_school : School;
  up_dto : UpdateSchoolDto;
  up_otherFields : School -> School }.

Definition up_accountNumber (u : Update) : string :=
  default (s_accountNumber (up_school u)) (us_accountNumber (up_dto u)).
Definition up_bankCode (u : Update) : option string :=
  match us_bankCode (up_dto u) with Some b => Some b | None => s_bankCode (up_school u) end.
Definition settlementChanged (u : Update) : bool :=
  negb (String.eqb (up_accountNumber u) (s_accountNumber (up_school u)))
  || negb (bool_decide (up_bankCode u = s_bankCode (up_school u))).
Definition up_code (u : Update) : option string := truthy (s_paystackSubaccountCode (up_school u)).
Definition needsRepoint (u : Update) : bool := settlementChanged u && bool_decide (is_Some (up_code u)).

(** [data] of the first [school.update]. *)
Definition update_data (u : Update) (accountName : option string) (school : School) : School :=
  let dto := up_dto u in
  let school := keep_or set_s_accountNumber (us_accountNumber dto)
    (keep_or set_s_accountName accountName
      (keep_or (fun b => set_s_bankCode (Some b)) (us_bankCode dto)
        (keep_or set_s_bankName (us_bankName dto) (up_otherFields u school)))) in
  if needsRepoint u then set_s_paystackSubaccountActive false school else school.

(** [school.update({ where: { id }, data })] *)
Definition updateSchoolRow (schoolId : id) (data : School -> School) : M School :=
  school ← read (fun d => schools d !! schoolId);
  school ← orThrow school P2025;
  write (fun d => set_schools (<[schoolId := data school]> (schools d)) d);;
  mret (data school).

Definition admin_notice (title : string) (admin : id) : Notification :=
  mkNotification admin title NT_ALERT "/admin/schools".
Definition notifyAdmins (title : string) : M unit :=
  admins ← read admins_of;
  notify_all (admin_notice title) admins.
Definition announceSettlementChange : M unit := notifyAdmins "School settlement account changed".

(** What Paystack answers one update request: the registered name of an account,
    and what came of re-pointing the subaccount.  A call that fails may have been
    carried out all the same. *)
Inductive Repoint := Confirmed | Failed (applied : bool) (e : PaystackFailure).
Record Answers := mkAnswers {
  an_resolve : string -> string -> PaystackFailure + option string;
  an_repoint : Repoint }.

(** Where the request stands. *)
Inductive Phase :=
| Started
| Resolved (accountName : option string)
| Persisted (updated : School)
| Announced (updated : School) (code bankCode : string)
| Repointed (updated : School)
| Finished (r : res School).

Definition on_local {A} (m : M A) (k : res A -> Phase) (st : State) : Phase * State :=
  let '(r, w) := m (local st) in (k r, mkState w (remote st)).

Definition step (u : Update) (a : Answers) (phase : Phase) (st : State) : Phase * State :=
  match phase with
  | Started =>
      if settlementChanged u then
        match truthy (up_bankCode u) with
        | None => (Finished (Err (FBadRequest "bankCode is required when changing the settlement account")), st)
        | Some bankCode =>
            match an_resolve a (up_accountNumber u) bankCode with
            | inl e => (Finished (Err (provider_error e)), st)
            | inr name => (Resolved name, st)
            end
        end
      else (Resolved (us_accountName (up_dto u)), st)
  | Resolved accountName =>
      on_local (updateSchoolRow (up_schoolId u) (update_data u accountName))
        (fun r => match r with
                  | Err e => Finished (Err e)
                  | Ok updated => if settlementChanged u then Persisted updated else Finished (Ok updated)
                  end) st
  | Persisted updated =>
      on_local announceSettlementChange
        (fun r => match r with
                  | Err e => Finished (Err e)
                  | Ok _ =>
                      match up_code u, truthy (up_bankCode u) with
                      | Some code, Some bankCode => Announced updated code bankCode
                      | _, _ => Finished (Ok updated)
                      end
                  end) st
  | Announced updated code bankCode =>
      let destination := (bankCode, up_accountNumber u) in
      match an_repoint a with
      | Confirmed => (Repointed updated, mkState (local st) (<[code := destination]> (remote st)))
      | Failed applied e =>
          on_local (notifyAdmins "Paystack subaccount out of sync")
            (fun r => Finished (match r with Ok _ => Ok updated | Err e => Err e end))
            (mkState (local st) (if applied then <[code := destination]> (remote st) else remote st))
      end
  | Repointed updated =>
      on_local (updateSchoolRow (up_schoolId u) (set_s_paystackSubaccountActive true)) Finished st
  | Finished r => (Finished r, st)
  end.

(** [n] steps of a request. *)
Fixpoint steps (n : nat) (u : Update) (a : Answers) (phase : Phase) (st : State) : Phase * State :=
  match n with
  | O => (phase, st)
  | S n' => let '(phase', st') := step u a phase st in steps n' u a phase' st'
  end.

(** A request makes at most five steps. *)
Definition applySettlementUpdate (u : Update) (a : Answers) (st : State) : Phase * State :=
  steps 5 u a Started st.

(** The request of [PATCH /schools/:id] and of the owner's bank-details form: the
    school as read, or the error of a missing one. *)
Definition updateSchool (schoolId : id) (dto : UpdateSchoolDto) (d : DB) : res Update :=
  match school_row not_deleted schoolId d with
  | Some school => Ok (mkUpdate schoolId school dto (profile_fields dto))
  | None => Err (FNotFound "School not found")
  end.
Definition updateSchoolBankDetails (schoolId : id) (dto : UpdateSchoolDto) (d : DB) : res Update :=
  match schools d !! schoolId with
  | Some school => Ok (mkUpdate schoolId school dto (fun s => s))
  | None => Err (FNotFound "School not found")
  end.

(** ** Provisioning by an administrator *)

(** What a creation at Paystack comes to: a code new to the integration, or a
    failure, which may leave a subaccount nobody knows the code of. *)
Inductive Creation := Created (code : string) | NotCreated (orphan : option string) (e : PaystackFailure).

Record Provision := mkProvision { pv_active : bool; pv_subaccountCode : option string; pv_warning : option string }.
Definition creation_failed : Provision :=
  mkProvision false None
    (Some "School created, but Paystack subaccount setup failed. Retry from the school settings before accepting online payments.").

Definition provisionSubaccount (schoolId : id) (school : School) (c : Creation) (st : State) : Provision * State :=
  match truthy (s_bankCode school) with
  | None => (mkProvision false None (Some "No bank code on file; cannot create Paystack subaccount."), st)
  | Some bankCode =>
      let destination := (bankCode, s_accountNumber school) in
      match c with
      | NotCreated orphan _ =>
          (creation_failed,
           match orphan with
           | Some code => mkState (local st) (<[code := destination]> (remote st))
           | None => st
           end)
      | Created code =>
          let remote' := <[code := destination]> (remote st) in
          match updateSchoolRow schoolId
                  (fun s => set_s_paystackSubaccountActive true (set_s_paystackSubaccountCode (Some code) s)) (local st) with
          | (Ok _, w) => (mkProvision true (Some code) None, mkState w remote')
          | (Err _, w) => (creation_failed, mkState w remote')
          end
      end
  end.

Inductive SchoolPayoutState := PAYOUT_ACTIVE | PAYOUT_MISSING | PAYOUT_NOT_ON_INTEGRATION | PAYOUT_UNKNOWN.
#[export] Instance SchoolPayoutState_eq_dec : EqDecision SchoolPayoutState.
Proof. solve_decision. Defined.

(** Without the sentence shown with the state. *)
Record SchoolPayoutStatus := mkPayoutStatus {
  ps_schoolId : id;
  ps_schoolName : string;
  ps_subaccountCode : option string;
  ps_storedActive : bool;
  ps_canRetry : bool;
  ps_state : SchoolPayoutState }.

(** [getSubaccount]: a failure, or whether the integration has the code. *)
Definition getSubaccount (outage : option PaystackFailure) (code : string) (st : State) : PaystackFailure + bool :=
  match outage with
  | Some e => inl e
  | None => inr (bool_decide (is_Some (remote st !! code)))
  end.

Record SubaccountResult := mkSubaccountResult { sr_code : option string; sr_created : bool }.

Section Payouts.
Context `{CacheBackend}.

Record AdminState := mkAdminState { ad_state : State; ad_payouts : CacheService (list SchoolPayoutStatus) }.

Definition invalidatePayoutStatus : CacheService (list SchoolPayoutStatus) -> CacheService (list SchoolPayoutStatus) :=
  del key_adminSchoolsPayoutStatus.

Definition createSubaccountForSchool (schoolId : id) (outage : option PaystackFailure) (c : Creation)
    (ad : AdminState) : res SubaccountResult * AdminState :=
  let st := ad_state ad in
  match schools (db (local st)) !! schoolId with
  | None => (Err (FNotFound "School not found"), ad)
  | Some school =>
      let replacement :=
        let '(result, st') := provisionSubaccount schoolId school c st in
        if pv_active result then
          (Ok (mkSubaccountResult (pv_subaccountCode result) true),
           mkAdminState st' (invalidatePayoutStatus (ad_payouts ad)))
        else (Err (FBadRequest (default "Subaccount creation failed"%string (pv_warning result))),
              mkAdminState st' (ad_payouts ad)) in
      match truthy (s_paystackSubaccountCode school) with
      | None => replacement
      | Some code =>
          match getSubaccount outage code st with
          | inl e => (Err (provider_error e), ad)
          | inr false => replacement
          | inr true =>
              match updateSchoolRow schoolId (set_s_paystackSubaccountActive true) (local st) with
              | (Err e, w) => (Err e, mkAdminState (mkState w (remote st)) (ad_payouts ad))
              | (Ok _, w) =>
                  (Ok (mkSubaccountResult (Some code) false),
                   mkAdminState (mkState w (remote st)) (invalidatePayoutStatus (ad_payouts ad)))
              end
          end
      end
  end.

(** The two above, step by step between the reads and the writes that other
    requests may come in between; onboarding starts at [AMissing]. *)
Inductive AdminPhase :=
| ARead (school : School)
| AMissing (school : School)
| AKeep
| ACreated (code : string)
| ADone.

Definition admin_step (schoolId : id) (outage : option PaystackFailure) (c : Creation) (phase : AdminPhase) (st : State)
    : AdminPhase * State :=
  match phase with
  | ARead school =>
      match truthy (s_paystackSubaccountCode school) with
      | None => (AMissing school, st)
      | Some code =>
          match getSubaccount outage code st with
          | inl _ => (ADone, st)
          | inr false => (AMissing school, st)
          | inr true => (AKeep, st)
          end
      end
  | AMissing school =>
      match truthy (s_bankCode school) with
      | None => (ADone, st)
      | Some bankCode =>
          let created code := mkState (local st) (<[code := (bankCode, s_accountNumber school)]> (remote st)) in
          match c with
          | Created code => (ACreated code, created code)
          | NotCreated (Some code) _ => (ADone, created code)
          | NotCreated None _ => (ADone, st)
          end
      end
  | AKeep =>
      (ADone, mkState (updateSchoolRow schoolId (set_s_paystackSubaccountActive true) (local st)).2 (remote st))
  | ACreated code =>
      (ADone, mkState (updateSchoolRow schoolId
        (fun s => set_s_paystackSubaccountActive true (set_s_paystackSubaccountCode (Some code) s)) (local st)).2 (remote st))
  | ADone => (ADone, st)
  end.
Fixpoint admin_steps (n : nat) (schoolId : id) (outage : option PaystackFailure) (c : Creation) (phase : AdminPhase) (st : State)
    : AdminPhase * State :=
  match n with
  | O => (phase, st)
  | S n' => let '(phase', st') := admin_step schoolId outage c phase st in admin_steps n' schoolId outage c phase' st'
  end.

(** Uninterrupted, the steps are the two functions. *)
Lemma provision_steps schoolId school outage c st :
  (provisionSubaccount schoolId school c st).2 = (admin_steps 2 schoolId outage c (AMissing school) st).2.
Proof.
  unfold provisionSubaccount. cbn [admin_steps admin_step]. destruct (truthy _); [|done].
  destruct c as [code|[code|] e]; cbn [admin_step]; [|done..]. cbn [local remote]. by destruct (updateSchoolRow _ _ _) as [[x|e] w].
Qed.
Lemma admin_steps_whole schoolId outage c ad school :
  schools (db (local (ad_state ad))) !! schoolId = Some school ->
  ad_state (createSubaccountForSchool schoolId outage c ad).2 =
    (admin_steps 3 schoolId outage c (ARead school) (ad_state ad)).2.
Proof.
  intros Hs. unfold createSubaccountForSchool. rewrite Hs.
  pose proof (provision_steps schoolId school outage c (ad_state ad)) as Hp. cbn [admin_steps]. cbn [admin_step].
  destruct (truthy (s_paystackSubaccountCode school)) as [code|].
  - destruct (getSubaccount _ _ _) as [e|[]]; [done| |].
    + cbn [admin_step]. by destruct (updateSchoolRow _ _ _) as [[x|e] w].
    + destruct (provisionSubaccount _ _ _ _) as [r st']. cbn [snd] in Hp. subst st'. cbn [admin_steps].
      destruct (admin_step _ _ _ (AMissing school) _) as [ph st1]. destruct (admin_step _ _ _ ph st1) as [ph' st2]. by destruct (pv_active r).
  - destruct (provisionSubaccount _ _ _ _) as [r st']. cbn [snd] in Hp. subst st'. cbn [admin_steps].
    destruct (admin_step _ _ _ (AMissing school) _) as [ph st1]. destruct (admin_step _ _ _ ph st1) as [ph' st2]. by destruct (pv_active r).
Qed.

(** [outage]: what Paystack answers about this school when it does not answer. *)
Definition resolvePayoutStatus (st : State) (outage : id -> option PaystackFailure) (kv : id * School)
    : SchoolPayoutStatus :=
  let '(schoolId, school) := kv in
  mkPayoutStatus schoolId (s_name school) (s_paystackSubaccountCode school) (s_paystackSubaccountActive school)
    (bool_decide (is_Some (truthy (s_bankCode school))))
    match truthy (s_paystackSubaccountCode school) with
    | None => PAYOUT_MISSING
    | Some code =>
        match getSubaccount (outage schoolId) code st with
        | inl _ => PAYOUT_UNKNOWN
        | inr false => PAYOUT_NOT_ON_INTEGRATION
        | inr true => PAYOUT_ACTIVE
        end
    end.

Definition CHUNK : nat := 5.
(** The loop over slices of [CHUNK] schools, with [fuel] slices left. *)
Fixpoint in_chunks {A B} (fuel : nat) (f : A -> B) (l : list A) : list B :=
  match fuel with
  | O => []
  | S fuel' => match l with [] => [] | _ => (f <$> take CHUNK l) ++ in_chunks fuel' f (drop CHUNK l) end
  end.

(** [by_name] is the database's order of the names. *)
Definition computeSchoolsPayoutStatus (by_name : list (id * School) -> list (id * School))
    (outage : id -> option PaystackFailure) (st : State) : list SchoolPayoutStatus :=
  let schools := by_name (filter (fun kv : id * School => not_deleted kv.2 = true)
    (map_to_list (schools (db (local st))))) in
  in_chunks (length schools) (resolvePayoutStatus st outage) schools.

Definition PAYOUT_STATUS_TTL_SECONDS : Z := 15.

Definition getSchoolsPayoutStatus (by_name : list (id * School) -> list (id * School)) (now : Z)
    (outage : id -> option PaystackFailure) (ad : AdminState) : list SchoolPayoutStatus * AdminState :=
  let '(value, c) := getOrSet now key_adminSchoolsPayoutStatus PAYOUT_STATUS_TTL_SECONDS
    (computeSchoolsPayoutStatus by_name outage (ad_state ad)) (ad_payouts ad) in
  (value, mkAdminState (ad_state ad) c).
End Payouts.

(** ** Leaving the platform *)

Definition deleted_email (ownerId : string) : string := "deleted+" +:+ ownerId +:+ "@deleted.lopay".

Definition updateUserRow (userId : id) (data : User -> User) : M User :=
  user ← read (fun d => users d !! userId);
  user ← orThrow user P2025;
  write (fun d => set_users (<[userId := data user]> (users d)) d);;
  mret (data user).

(** [id_str] is the text of a user's id. *)
Definition deleteSchool (id_str : id -> string) (schoolId : id) (now : Z) : M School :=
  school ← read (school_row not_deleted schoolId);
  school ← orThrow school (FNotFound "School not found");
  let ownerId := s_ownerId school in
  transaction
    (updated ← updateSchoolRow schoolId (set_s_deletedAt (Some now));
     updateUserRow ownerId (fun u => set_u_deletedAt (Some now) (set_u_email (deleted_email (id_str ownerId)) u));;
     write (fun d => set_sessions (filter (fun kv : id * Session => se_userId kv.2 <> ownerId) (sessions d)) d);;
     mret updated).
