(* ===== verification/SettlementSpecs.v ===== *)
(** * Card money settles where the parents are told

    The theorems of [Settlement.v]: the two settlement destinations of a school
    never disagree while its card payments are on, whatever interrupts or
    overlaps, as long as no two requests of one school overlap and no retry turns
    on a subaccount that was not re-pointed; and the ways the source lets them
    disagree. *)

From S2P Require Import Prelude JsText Effects Schema Samples LedgerCard Enrollment Paystack Cache Settlement.

(** ** The invariant *)

Definition schools_of (st : State) : gmap id School := schools (db (local st)).
Definition live_code (s : School) : option string := truthy (s_paystackSubaccountCode s).

(** A school whose card payments are on is paid where its row says. *)
Definition settled_at (r : Remote) (s : School) : Prop :=
  forall code, s_paystackSubaccountActive s = true -> live_code s = Some code ->
  exists bank, s_bankCode s = Some bank /\ r !! code = Some (bank, s_accountNumber s).
Definition settled (st : State) : Prop := forall sid s, schools_of st !! sid = Some s -> settled_at (remote st) s.

(** The unique index on [paystackSubaccountCode]. *)
Definition codes_unique (st : State) : Prop :=
  forall i j si sj code, schools_of st !! i = Some si -> schools_of st !! j = Some sj ->
    live_code si = Some code -> live_code sj = Some code -> i = j.

(** The profile fields leave the settlement columns alone. *)
Definition profile_only (f : School -> School) : Prop := forall s,
  s_bankCode (f s) = s_bankCode s /\ s_accountNumber (f s) = s_accountNumber s /\
  s_paystackSubaccountCode (f s) = s_paystackSubaccountCode s /\
  s_paystackSubaccountActive (f s) = s_paystackSubaccountActive s.

Definition unmoved (u : Update) (s : School) : Prop :=
  s_bankCode s = s_bankCode (up_school u) /\ s_accountNumber s = s_accountNumber (up_school u) /\
  s_paystackSubaccountCode s = s_paystackSubaccountCode (up_school u).
Definition moved (u : Update) (s : School) : Prop :=
  s_bankCode s = up_bankCode u /\ s_accountNumber s = up_accountNumber u /\
  s_paystackSubaccountCode s = s_paystackSubaccountCode (up_school u) /\
  (needsRepoint u = true -> s_paystackSubaccountActive s = false).

(** What holds of the school's row where a request stands. *)
Definition in_step (u : Update) (phase : Phase) (st : State) : Prop :=
  match phase with
  | Finished _ => True
  | _ => exists s, schools_of st !! up_schoolId u = Some s /\
      match phase with
      | Started | Resolved _ => unmoved u s
      | Persisted _ => moved u s /\ settlementChanged u = true
      | Announced _ code bank =>
          moved u s /\ settlementChanged u = true /\ up_code u = Some code /\ up_bankCode u = Some bank
      | Repointed _ =>
          moved u s /\ exists code bank, up_code u = Some code /\ up_bankCode u = Some bank /\
            remote st !! code = Some (bank, up_accountNumber u)
      | Finished _ => True
      end
  end.

(** A code that no school's row holds. *)
Definition unclaimed (code : string) (st : State) : Prop :=
  code <> EmptyString /\ forall sid s, schools_of st !! sid = Some s -> live_code s <> Some code.
Definition same_account (s0 s : School) : Prop :=
  s_bankCode s = s_bankCode s0 /\ s_accountNumber s = s_accountNumber s0 /\
  s_paystackSubaccountCode s = s_paystackSubaccountCode s0.

(** What a school has in flight, and what holds of its row meanwhile. *)
Inductive Job := JUpdate (u : Update) (phase : Phase) | JAdmin (phase : AdminPhase).
Definition in_job (sid : id) (job : Job) (st : State) : Prop :=
  match job with
  | JUpdate u phase => up_schoolId u = sid /\ profile_only (up_otherFields u) /\ in_step u phase st
  | JAdmin ADone => True
  | JAdmin phase => exists s, schools_of st !! sid = Some s /\
      match phase with
      | ARead s0 | AMissing s0 => same_account s0 s
      | AKeep => exists code bank, live_code s = Some code /\ s_bankCode s = Some bank /\
          remote st !! code = Some (bank, s_accountNumber s)
      | ACreated code => unclaimed code st /\ exists bank, s_bankCode s = Some bank /\
          remote st !! code = Some (bank, s_accountNumber s)
      | ADone => True
      end
  end.
Definition pending (job : Job) : option string := match job with JAdmin (ACreated code) => Some code | _ => None end.

(** A step that leaves the other schools and their subaccounts alone, and every
    code handed out but not yet claimed but for [mine]. *)
Record apart_from (sid : id) (mine : option string) (st st' : State) : Prop := mkApart {
  ap_rows : forall j, j <> sid -> schools_of st' !! j = schools_of st !! j;
  ap_remote : forall j s code, j <> sid -> schools_of st !! j = Some s -> live_code s = Some code ->
    remote st' !! code = remote st !! code;
  ap_pending : forall code d, remote st !! code = Some d -> unclaimed code st -> mine <> Some code ->
    remote st' !! code = Some d /\ unclaimed code st' }.

Lemma keep_or_self {A B} (set : A -> School -> School) (get : School -> B) v s :
  (forall a s, get (set a s) = get s) -> get (keep_or set v s) = get s.
Proof. intros H. by destruct v; simpl; rewrite ?H. Qed.

(** The columns after the first update. *)
Lemma update_data_columns u name s :
  profile_only (up_otherFields u) -> unmoved u s ->
  let s' := update_data u name s in
  s_bankCode s' = up_bankCode u /\ s_accountNumber s' = up_accountNumber u /\
  s_paystackSubaccountCode s' = s_paystackSubaccountCode (up_school u) /\
  s_paystackSubaccountActive s' = if needsRepoint u then false else s_paystackSubaccountActive s.
Proof.
  intros Hf (H1 & H2 & H3). destruct (Hf s) as (F1 & F2 & F3 & F4).
  unfold update_data, up_bankCode, up_accountNumber.
  destruct (us_accountNumber _), name, (us_bankCode _), (us_bankName _), (needsRepoint u); simpl;
    rewrite ?F1, ?F2, ?F3, ?F4, ?H1, ?H2, ?H3; done.
Qed.

Lemma updateSchoolRow_run sid f w r w' :
  updateSchoolRow sid f w = (r, w') ->
  (exists e, r = Err e /\ w' = w) \/
  (exists s, schools (db w) !! sid = Some s /\ r = Ok (f s) /\
    w' = mkWorld (set_schools (<[sid := f s]> (schools (db w))) (db w)) (out w)).
Proof.
  unfold updateSchoolRow, mbind, M_bind, read, write, mret, M_ret. destruct (schools (db w) !! sid) as [s|] eqn:E; cbn.
  - intros [= <- <-]. right. eauto.
  - intros [= <- <-]. left. eauto.
Qed.

Lemma notify_all_db f to w r w' : notify_all f to w = (r, w') -> db w' = db w.
Proof.
  revert w. induction to as [|a to IH]; intros w; [by intros [= _ <-]|].
  unfold notify_all in *. simpl. unfold mbind at 1, M_bind at 1. intros H%IH. exact H.
Qed.
Lemma notifyAdmins_db title w r w' : notifyAdmins title w = (r, w') -> db w' = db w.
Proof. unfold notifyAdmins, mbind, M_bind, read. apply notify_all_db. Qed.

(** Changing one school's row, and the destination of a code no other school has. *)
Lemma settled_insert st sid s r' :
  settled st -> codes_unique st ->
  settled_at r' s ->
  (forall j sj code, j <> sid -> schools_of st !! j = Some sj -> live_code sj = Some code ->
    r' !! code = remote st !! code) ->
  forall j sj, <[sid := s]> (schools_of st) !! j = Some sj -> settled_at r' sj.
Proof.
  intros Hs Hu Hr Ho j sj. destruct (decide (j = sid)) as [->|Hj].
  - rewrite lookup_insert_eq. by intros [= <-].
  - rewrite lookup_insert_ne by done. intros Hlk code Ha Hc. rewrite (Ho j sj code Hj Hlk Hc).
    by apply (Hs j sj Hlk code).
Qed.

Lemma codes_insert st sid s s' :
  codes_unique st -> schools_of st !! sid = Some s -> live_code s' = live_code s ->
  forall i j si sj code, <[sid := s']> (schools_of st) !! i = Some si -> <[sid := s']> (schools_of st) !! j = Some sj ->
    live_code si = Some code -> live_code sj = Some code -> i = j.
Proof.
  intros Hu Hs Hc i j si sj code Hi Hj Ci Cj.
  assert (forall k sk, <[sid := s']> (schools_of st) !! k = Some sk ->
    exists sk', schools_of st !! k = Some sk' /\ live_code sk' = live_code sk) as K.
  { intros k sk. destruct (decide (k = sid)) as [->|Hk].
    - rewrite lookup_insert_eq. intros [= <-]. eauto.
    - rewrite lookup_insert_ne by done. eauto. }
  destruct (K i si Hi) as (si' & Hi' & Ei), (K j sj Hj) as (sj' & Hj' & Ej).
  apply (Hu i j si' sj' code); congruence.
Qed.

Definition good (st : State) : Prop := settled st /\ codes_unique st.

Lemma code_of_row u s : s_paystackSubaccountCode s = s_paystackSubaccountCode (up_school u) -> live_code s = up_code u.
Proof. unfold live_code, up_code. by intros ->. Qed.

Lemma apart_step sid mine st st' v ph :
  apart_from sid mine st st' -> up_schoolId v <> sid -> in_step v ph st -> in_step v ph st'.
Proof.
  intros [Ar Am _] Hv. destruct ph as [|n|up|up c b|up|r]; try done; intros (sv & Hlk & H);
    (exists sv; split; [by rewrite Ar|]); try done.
  destruct H as [Hm (code & bank & Hc & Hb & Hr)]. split; [done|]. exists code, bank. split; [done|].
  split; [done|]. rewrite <- Hr. apply (Am (up_schoolId v) sv); try done. destruct Hm as (_ & _ & Hm & _). by rewrite (code_of_row v).
Qed.
Lemma apart_job sid mine st st' j job :
  apart_from sid mine st st' -> j <> sid -> (forall code, pending job = Some code -> mine <> Some code) ->
  in_job j job st -> in_job j job st'.
Proof.
  intros A Hj Hp. pose proof A as [Ar Am Ap]. destruct job as [u ph|ph]; cbn [in_job].
  - intros (<- & Hpo & Hi). split; [done|]. split; [done|]. by eapply apart_step.
  - destruct ph as [s0|s0| |code|]; try done; intros (s & Hs & H); exists s; (split; [by rewrite Ar|]); try done.
    + destruct H as (code & bank & Hc & Hb & Hr). exists code, bank. split; [done|]. split; [done|]. by rewrite (Am j s).
    + destruct H as (Hu & bank & Hb & Hr). destruct (Ap code _ Hr Hu (Hp code eq_refl)) as [Hr' Hu'].
      split; [done|]. by exists bank.
Qed.

(** A request of one school changes its row, and at most the destination of its
    own code: the books stay good, and the requests of other schools stand where
    they stood. *)
Lemma change_good st st' sid s s' :
  good st -> schools_of st !! sid = Some s -> schools_of st' = <[sid := s']> (schools_of st) ->
  (remote st' = remote st \/ exists code d, live_code s = Some code /\ remote st' = <[code := d]> (remote st)) ->
  live_code s' = live_code s -> settled_at (remote st') s' ->
  good st' /\ apart_from sid None st st'.
Proof.
  intros [Hs Hu] Hrow Hsch Hrem Hcode Hset.
  assert (forall j sj code, j <> sid -> schools_of st !! j = Some sj -> live_code sj = Some code ->
    remote st' !! code = remote st !! code) as Ho.
  { intros j sj code Hj Hlk Hc. destruct Hrem as [->|(code' & d & Hc' & ->)]; [done|].
    apply lookup_insert_ne. intros ->. apply Hj. by apply (Hu j sid sj s code). }
  split; split.
  - intros j sj. rewrite Hsch. by apply (settled_insert st).
  - intros i j si sj code. rewrite Hsch. by apply (codes_insert st sid s).
  - intros j Hj. by rewrite Hsch, lookup_insert_ne.
  - exact Ho.
  - intros code d Hr [Hne Hun] _. split.
    + destruct Hrem as [->|(code' & d' & Hc' & ->)]; [done|]. rewrite lookup_insert_ne; [done|]. intros ->.
      by apply (Hun sid s Hrow).
    + split; [done|]. intros k sk. rewrite Hsch. intros [[<- <-]|[_ Hk]]%lookup_insert_Some; [rewrite Hcode|]; eauto.
Qed.

Lemma good_same st st' :
  good st -> schools_of st' = schools_of st -> remote st' = remote st ->
  good st' /\ (forall v ph, in_step v ph st -> in_step v ph st') /\ forall sid, apart_from sid None st st'.
Proof.
  unfold good, settled, codes_unique, in_step. intros [Hs Hu] E1 E2. rewrite E1, E2. split; [done|]. split; [done|].
  intros sid. split; unfold unclaimed; rewrite ?E1, ?E2; try done.
Qed.

Lemma truthy_some o (s : string) : truthy o = Some s -> o = Some s.
Proof. destruct o as [[|a o]|]; [done|by intros [= <-]|done]. Qed.

Lemma off_settled r s : (is_Some (live_code s) -> s_paystackSubaccountActive s = false) -> settled_at r s.
Proof. intros H code Ha Hc. rewrite H in Ha by eauto. done. Qed.

Lemma moved_off u s : moved u s -> settlementChanged u = true -> is_Some (live_code s) -> s_paystackSubaccountActive s = false.
Proof.
  intros (_ & _ & Hc & Ha) Hch Hl. apply Ha. unfold needsRepoint. rewrite Hch. cbn [andb].
  apply bool_decide_eq_true. by rewrite <- (code_of_row u s).
Qed.

(** A request in flight keeps its place. *)
Definition keeps (u : Update) (phase' : Phase) (st st' : State) : Prop :=
  good st' /\ in_step u phase' st' /\
  apart_from (up_schoolId u) None st st'.

Lemma keeps_same u phase' st st' :
  good st -> schools_of st' = schools_of st -> remote st' = remote st -> in_step u phase' st -> keeps u phase' st st'.
Proof. intros Hg H1 H2 Hi. destruct (good_same _ _ Hg H1 H2) as (Hg' & Hk & Ha). split; [done|]. split; [by apply Hk|]. apply Ha. Qed.

Lemma keeps_row u phase' st st' s s' :
  good st -> schools_of st !! up_schoolId u = Some s -> schools_of st' = <[up_schoolId u := s']> (schools_of st) ->
  (remote st' = remote st \/ exists code d, live_code s = Some code /\ remote st' = <[code := d]> (remote st)) ->
  live_code s' = live_code s -> settled_at (remote st') s' -> in_step u phase' st' -> keeps u phase' st st'.
Proof.
  intros Hg Hrow Hsch Hrem Hc Hset Hi. destruct (change_good _ _ _ _ _ Hg Hrow Hsch Hrem Hc Hset). by split_and!.
Qed.

(** The first update of the row. *)
Lemma persist_keeps u name st s w' :
  profile_only (up_otherFields u) -> good st ->
  schools_of st !! up_schoolId u = Some s -> unmoved u s ->
  schools (db w') = <[up_schoolId u := update_data u name s]> (schools_of st) ->
  keeps u (if settlementChanged u then Persisted (update_data u name s) else Finished (Ok (update_data u name s)))
    st (mkState w' (remote st)).
Proof.
  intros Hf Hg Hs Hun Hw. destruct (update_data_columns u name s Hf Hun) as (C1 & C2 & C3 & C4).
  assert (live_code (update_data u name s) = live_code s) as Hc.
  { destruct Hun as (_ & _ & Hun). by rewrite !(code_of_row u). }
  eapply (keeps_row u _ st _ s); [done|done|exact Hw|by left|exact Hc| |].
  - cbn [remote]. destruct (settlementChanged u) eqn:Ech.
    + apply off_settled, (moved_off u); [|done]. split; [done|]. split; [done|]. split; [done|]. intros Hn. by rewrite C4, Hn.
    + intros code. unfold needsRepoint in C4. rewrite Ech in C4. cbn [andb] in C4. rewrite C4, Hc. intros Ha Hcode.
      destruct Hg as [Hset _]. destruct (Hset _ _ Hs code Ha Hcode) as (bank & Hb & Hr). exists bank.
      unfold settlementChanged in Ech. apply orb_false_iff in Ech as [E1 E2].
      apply negb_false_iff, String.eqb_eq in E1. apply negb_false_iff, bool_decide_eq_true in E2.
      destruct Hun as (U1 & U2 & _). rewrite C1, C2, E1, E2, <- U1, <- U2. done.
  - destruct (settlementChanged u) eqn:Ech; [|done].
    exists (update_data u name s). unfold schools_of. cbn [local]. rewrite Hw, lookup_insert_eq. split; [done|].
    split; [|done]. split; [done|]. split; [done|]. split; [done|]. intros Hn. by rewrite C4, Hn.
Qed.

(** Re-pointing the subaccount of a school whose card payments are off. *)
Lemma repoint_keeps u phase' st s code bank w' :
  good st -> schools_of st !! up_schoolId u = Some s -> moved u s -> settlementChanged u = true ->
  up_code u = Some code -> schools (db w') = schools_of st ->
  in_step u phase' (mkState w' (<[code := (bank, up_accountNumber u)]> (remote st))) ->
  keeps u phase' st (mkState w' (<[code := (bank, up_accountNumber u)]> (remote st))).
Proof.
  intros Hg Hs Hm Hch Hc Hw Hi. assert (live_code s = Some code) as Hl.
  { destruct Hm as (_ & _ & Hm & _). by rewrite (code_of_row u). }
  eapply (keeps_row u phase' st _ s s); [done|done| |right; eauto|done| |done].
  - unfold schools_of at 1. cbn [local]. by rewrite Hw, insert_id.
  - apply off_settled, (moved_off u); done.
Qed.

(** The flag is restored once the subaccount points where the row says. *)
Lemma activate_keeps u st s code bank w' r :
  good st -> schools_of st !! up_schoolId u = Some s -> moved u s ->
  up_code u = Some code -> up_bankCode u = Some bank -> remote st !! code = Some (bank, up_accountNumber u) ->
  schools (db w') = <[up_schoolId u := set_s_paystackSubaccountActive true s]> (schools_of st) ->
  keeps u (Finished r) st (mkState w' (remote st)).
Proof.
  intros Hg Hs (M1 & M2 & M3 & _) Hc Hb Hr Hw.
  eapply (keeps_row u _ st _ s); [done|done|exact Hw|by left|done| |done].
  intros code' _ Hc'. change (live_code s = Some code') in Hc'. rewrite (code_of_row u) in Hc' by done.
  cbn. rewrite M1, M2, Hb. exists bank. by simplify_eq.
Qed.

Lemma step_keeps u a phase st phase' st' :
  profile_only (up_otherFields u) -> good st -> in_step u phase st ->
  step u a phase st = (phase', st') -> keeps u phase' st st'.
Proof.
  intros Hf Hg Hi. destruct phase as [|name|up|up code bank|up|r]; cbn [step].
  - assert (forall ph, (forall s, unmoved u s -> match ph with Started | Resolved _ | Finished _ => True | _ => False end) ->
      in_step u ph st) as Hgo.
    { intros ph. destruct Hi as (s & Hs & Hu). intros Hph. specialize (Hph s Hu). destruct ph; try done; by exists s. }
    repeat case_match; intros [= <- <-]; apply keeps_same; try done; by apply Hgo.
  - destruct Hi as (s & Hs & Hu). unfold on_local. destruct (updateSchoolRow _ _ _) as [r w] eqn:E.
    apply updateSchoolRow_run in E as [(e & -> & ->)|(s0 & Hs0 & -> & ->)]; intros [= <- <-].
    + apply keeps_same; done.
    + unfold schools_of in Hs. rewrite Hs in Hs0. injection Hs0 as <-. by apply (persist_keeps u name st s).
  - destruct Hi as (s & Hs & Hm & Hch). unfold on_local. destruct (announceSettlementChange _) as [r w] eqn:E.
    apply notifyAdmins_db in E. assert (schools_of (mkState w (remote st)) = schools_of st) as Hw
      by (unfold schools_of; cbn; by rewrite E).
    intros [= <- <-]. apply keeps_same; [done|done|done|]. destruct r as [r|e]; [|done].
    destruct (up_code u) as [code|] eqn:Ec, (truthy (up_bankCode u)) as [bank|] eqn:Eb; try done.
    exists s. apply truthy_some in Eb. done.
  - destruct Hi as (s & Hs & Hm & Hch & Hc & Hb). destruct (an_repoint a) as [|applied e].
    + intros [= <- <-]. apply (repoint_keeps u _ st s code bank); try done.
      exists s. split; [done|]. split; [done|]. exists code, bank. cbn [remote]. by rewrite lookup_insert_eq.
    + unfold on_local. cbn [local]. destruct (notifyAdmins _ _) as [r w] eqn:E. apply notifyAdmins_db in E.
      intros [= <- <-]. destruct applied; cbn [remote].
      * apply (repoint_keeps u _ st s code bank); try done. by rewrite E.
      * apply keeps_same; try done. unfold schools_of. cbn. by rewrite E.
  - destruct Hi as (s & Hs & Hm & code & bank & Hc & Hb & Hr). unfold on_local.
    destruct (updateSchoolRow _ _ _) as [r w] eqn:E.
    apply updateSchoolRow_run in E as [(e & -> & ->)|(s0 & Hs0 & -> & ->)]; intros [= <- <-].
    + apply keeps_same; done.
    + unfold schools_of in Hs. rewrite Hs in Hs0. injection Hs0 as <-. by apply (activate_keeps u st s code bank).
  - intros [= <- <-]. by apply keeps_same.
Qed.

(** ** Requests in flight

    The requests of different schools interleave step by step, with whatever
    answers Paystack gives; a process may die at any point and leave its request
    where it stood. *)

Abbreviation Flights := (gmap id Job).

(** A code the integration has just handed out. *)
Definition fresh_code (code : string) (st : State) : Prop := remote st !! code = None /\ unclaimed code st.
Definition fresh_creation (c : Creation) (st : State) : Prop :=
  match c with Created code | NotCreated (Some code) _ => fresh_code code st | NotCreated None _ => True end.

(** The subaccount that a retry finds on the integration settles to the account
    of the school it has read. *)
Definition retry_in_sync (phase : AdminPhase) (st : State) : Prop :=
  match phase with
  | ARead school => forall code d, live_code school = Some code -> remote st !! code = Some d ->
      exists bank, s_bankCode school = Some bank /\ d = (bank, s_accountNumber school)
  | _ => True
  end.

Inductive moves : Flights * State -> Flights * State -> Prop :=
| MStart sid dto u fl st :
    fl !! sid = None ->
    updateSchool sid dto (db (local st)) = Ok u \/ updateSchoolBankDetails sid dto (db (local st)) = Ok u ->
    moves (fl, st) (<[sid := JUpdate u Started]> fl, st)
| MStep sid u a phase phase' fl st st' :
    fl !! sid = Some (JUpdate u phase) -> step u a phase st = (phase', st') ->
    moves (fl, st) (<[sid := JUpdate u phase']> fl, st')
| MProvision sid s fl st :
    fl !! sid = None -> schools_of st !! sid = Some s ->
    moves (fl, st) (<[sid := JAdmin (AMissing s)]> fl, st)
| MRetry sid s fl st :
    fl !! sid = None -> schools_of st !! sid = Some s ->
    moves (fl, st) (<[sid := JAdmin (ARead s)]> fl, st)
| MAdminStep sid phase phase' outage c fl st st' :
    fl !! sid = Some (JAdmin phase) -> fresh_creation c st -> retry_in_sync phase st ->
    admin_step sid outage c phase st = (phase', st') ->
    moves (fl, st) (<[sid := JAdmin phase']> fl, st')
| MEnd sid fl st : moves (fl, st) (delete sid fl, st)
| MDelete sid id_str now r w' fl st :
    deleteSchool id_str sid now (local st) = (r, w') -> moves (fl, st) (fl, mkState w' (remote st)).

Record flying (fl : Flights) (st : State) : Prop := mkFlying {
  fy_jobs : forall sid job, fl !! sid = Some job -> in_job sid job st;
  fy_pending : forall i j ji jj code, fl !! i = Some ji -> fl !! j = Some jj ->
    pending ji = Some code -> pending jj = Some code -> i = j }.

Lemma profile_fields_only dto : profile_only (profile_fields dto).
Proof. intros s. unfold profile_fields. repeat split; by rewrite !keep_or_self. Qed.

Lemma started sid dto u st :
  updateSchool sid dto (db (local st)) = Ok u \/ updateSchoolBankDetails sid dto (db (local st)) = Ok u ->
  in_job sid (JUpdate u Started) st.
Proof.
  unfold updateSchool, updateSchoolBankDetails, school_row, in_job, in_step, schools_of. intros [H|H].
  - destruct (schools (db (local st)) !! sid) as [s|] eqn:E; cbn in H; [|done].
    destruct (not_deleted s); [|done]. injection H as <-. split; [done|]. split; [apply profile_fields_only|].
    exists s. done.
  - destruct (schools (db (local st)) !! sid) as [s|] eqn:E; cbn in H; [|done]. injection H as <-.
    split; [done|]. split; [done|]. exists s. done.
Qed.

(** A new code is handed out: nobody refers to it. *)
Lemma created_good sid st code d :
  good st -> fresh_code code st -> let st' := mkState (local st) (<[code := d]> (remote st)) in
  good st' /\ apart_from sid None st st' /\ unclaimed code st'.
Proof.
  intros [Hs Hu] (Hr & Hne & Hf). cbv zeta.
  assert (forall j sj c, schools_of st !! j = Some sj -> live_code sj = Some c -> <[code := d]> (remote st) !! c = remote st !! c) as Ho.
  { intros j sj c Hj Hc. apply lookup_insert_ne. intros <-. by apply (Hf j sj Hj). }
  split; [|split].
  - split; [|exact Hu]. intros j sj Hj c Ha Hc. cbn [remote]. rewrite (Ho j sj c Hj Hc). by apply (Hs j sj Hj c).
  - split; [done| |].
    + intros j sj c _. apply Ho.
    + intros c d' Hc Hun _. split; [|done]. cbn [remote]. rewrite lookup_insert_ne; [done|]. congruence.
  - by split.
Qed.

(** The row takes the code it was handed. *)
Lemma claimed_good sid s s' st code w' :
  good st -> schools_of st !! sid = Some s -> unclaimed code st -> schools (db w') = <[sid := s']> (schools_of st) ->
  live_code s' = Some code -> settled_at (remote st) s' ->
  good (mkState w' (remote st)) /\ apart_from sid (Some code) st (mkState w' (remote st)).
Proof.
  intros [Hs Hu] Hrow (Hne & Hf) Hw Hc Hset.
  assert (forall k sk, schools (db w') !! k = Some sk ->
    k = sid /\ sk = s' \/ k <> sid /\ schools_of st !! k = Some sk) as K.
  { intros k sk. rewrite Hw. intros [[<- <-]|[Hk Hl]]%lookup_insert_Some; auto. }
  split; split.
  - intros j sj Hj. destruct (K j sj Hj) as [[_ ->]|[_ Hj']]; [exact Hset|by apply (Hs j sj)].
  - intros i j si sj c Hi Hj Ci Cj.
    destruct (K i si Hi) as [[-> ->]|[Hni Hi']], (K j sj Hj) as [[-> ->]|[Hnj Hj']]; [done| | |].
    + exfalso. apply (Hf j sj Hj'). congruence.
    + exfalso. apply (Hf i si Hi'). congruence.
    + by apply (Hu i j si sj c).
  - intros j Hj. unfold schools_of at 1. cbn [local]. by rewrite Hw, lookup_insert_ne.
  - done.
  - intros c d Hr [Hn Hun] Hm. split; [done|]. split; [done|]. intros k sk Hk.
    destruct (K k sk Hk) as [[_ ->]|[_ Hk']]; [congruence|by apply (Hun k sk)].
Qed.

(** ** Provisioning and retrying, step by step *)

Lemma admin_keeps sid outage c ph st ph' st' :
  good st -> in_job sid (JAdmin ph) st -> fresh_creation c st -> retry_in_sync ph st ->
  admin_step sid outage c ph st = (ph', st') ->
  good st' /\ in_job sid (JAdmin ph') st' /\ apart_from sid (pending (JAdmin ph)) st st' /\
  (forall code, pending (JAdmin ph') = Some code -> remote st !! code = None).
Proof.
  intros Hg Hi Hf Hy. destruct (good_same st st Hg eq_refl eq_refl) as (_ & _ & Ha).
  destruct ph as [s0|s0| |code|]; cbn [admin_step in_job pending] in *.
  - destruct Hi as (s & Hs & E1 & E2 & E3).
    assert (in_job sid (JAdmin (AMissing s0)) st) as Hmiss by (exists s; repeat split; done).
    destruct (truthy _) as [code|] eqn:Ec; [|by intros [= <- <-]]. unfold getSubaccount. destruct outage as [e|]; [by intros [= <- <-]|].
    case_bool_decide as Hon; intros [= <- <-]; [|done]. destruct Hon as [d Hd].
    destruct (Hy code d Ec Hd) as (bank & Hb & ->). split; [done|]. split; [|done]. exists s. split; [done|].
    exists code, bank. unfold live_code. rewrite E1, E2, E3. done.
  - destruct Hi as (s & Hs & E1 & E2 & E3). destruct (truthy _) as [bank|] eqn:Eb; [|by intros [= <- <-]].
    apply truthy_some in Eb. destruct c as [code|[code|] e]; cbn [fresh_creation] in Hf; intros [= <- <-]; [| |done];
      destruct (created_good sid st code (bank, s_accountNumber s0) Hg Hf) as (Hg' & Ha' & Hu'); split; try done.
    split; [|split; [done|]]; [|intros ? [= <-]; apply Hf]. exists s. split; [done|]. split; [done|]. exists bank.
    cbn [remote]. rewrite lookup_insert_eq, E1, E2. done.
  - destruct Hi as (s & Hs & code & bank & Hc & Hb & Hr). destruct (updateSchoolRow _ _ _) as [r w] eqn:E. intros [= <- <-].
    cbn [snd]. apply updateSchoolRow_run in E as [(e & -> & ->)|(s0 & Hs0 & -> & ->)].
    + destruct (good_same st (mkState (local st) (remote st)) Hg eq_refl eq_refl) as (Hg' & _ & Ha'). done.
    + unfold schools_of in Hs. rewrite Hs in Hs0. injection Hs0 as <-.
      destruct (change_good st (mkState (mkWorld (set_schools (<[sid := set_s_paystackSubaccountActive true s]> (schools (db (local st)))) (db (local st)))
        (out (local st))) (remote st)) sid s (set_s_paystackSubaccountActive true s) Hg Hs eq_refl (or_introl eq_refl) eq_refl) as [Hg' Ha'].
      * intros code' _ Hc'. change (live_code s = Some code') in Hc'. rewrite Hc in Hc'. injection Hc' as <-. by exists bank.
      * done.
  - destruct Hi as (s & Hs & Hu & bank & Hb & Hr). destruct (updateSchoolRow _ _ _) as [r w] eqn:E. intros [= <- <-].
    cbn [snd]. apply updateSchoolRow_run in E as [(e & -> & ->)|(s0 & Hs0 & -> & ->)].
    + destruct (good_same st (mkState (local st) (remote st)) Hg eq_refl eq_refl) as (Hg' & _ & Ha').
      split; [done|]. split; [done|]. split; [|done]. destruct (Ha' sid) as [A1 A2 A3]. split; [done|done|]. intros c' d' H1 H2 _. by apply A3.
    + unfold schools_of in Hs. rewrite Hs in Hs0. injection Hs0 as <-.
      set (s' := set_s_paystackSubaccountActive true (set_s_paystackSubaccountCode (Some code) s)).
      assert (live_code s' = Some code) as Hl by (destruct Hu as [Hne _]; unfold live_code; cbn; by destruct code).
      destruct (claimed_good sid s s' st code (mkWorld (set_schools (<[sid := s']> (schools (db (local st)))) (db (local st))) (out (local st)))
        Hg Hs Hu eq_refl Hl) as [Hg' Ha'].
      * intros c' _ Hc'. rewrite Hl in Hc'. injection Hc' as <-. by exists bank.
      * done.
  - by intros [= <- <-].
Qed.

(** ** A deletion stands in nobody's way *)

Definition twin (s s' : School) : Prop :=
  same_account s s' /\ s_paystackSubaccountActive s' = s_paystackSubaccountActive s.
Lemma twin_code s s' : twin s s' -> live_code s' = live_code s.
Proof. intros [(_ & _ & E) _]. unfold live_code. by rewrite E. Qed.

Lemma touched st st' sid s s' :
  good st -> schools_of st !! sid = Some s -> schools_of st' = <[sid := s']> (schools_of st) -> remote st' = remote st -> twin s s' ->
  good st' /\ forall j job, in_job j job st -> in_job j job st'.
Proof.
  intros Hg Hrow Hsch Hrem Ht. pose proof (twin_code _ _ Ht) as Hc. pose proof Ht as [(T1 & T2 & T3) T4].
  destruct (change_good st st' sid s s' Hg Hrow Hsch (or_introl Hrem) Hc) as [Hg' [Ar Am Ap]].
  { destruct Hg as [Hset _]. intros code Ha Hl. rewrite Hrem, T1, T2. apply (Hset sid s Hrow); congruence. }
  split; [done|]. intros j job. destruct (decide (j = sid)) as [->|Hj]; cycle 1.
  { apply (apart_job sid None); [by split|done|]. intros; discriminate. }
  assert (schools_of st' !! sid = Some s') as Hs' by (by rewrite Hsch, lookup_insert_eq).
  destruct job as [u ph|ph]; cbn [in_job].
  - intros (Hu & Hpo & Hi). split; [done|]. split; [done|]. revert Hi. unfold in_step, unmoved, moved. rewrite Hu, Hrem.
    destruct ph; try done; intros (s1 & H1 & H); rewrite Hrow in H1; injection H1 as <-; exists s'; (split; [done|]);
      rewrite ?T1, ?T2, ?T3, ?T4; exact H.
  - destruct ph as [s0|s0| |code|]; try done; intros (s1 & H1 & H); rewrite Hrow in H1; injection H1 as <-; exists s';
      (split; [done|]); unfold same_account in *; rewrite ?Hc, ?Hrem, ?T1, ?T2, ?T3; try exact H.
    destruct H as [Hun (bank & Hb & Hr)]. split; [|by exists bank]. by apply (Ap code _ Hr Hun).
Qed.

Lemma delete_good sid id_str now r w' st :
  good st -> deleteSchool id_str sid now (local st) = (r, w') ->
  good (mkState w' (remote st)) /\ forall j job, in_job j job st -> in_job j job (mkState w' (remote st)).
Proof.
  intros Hg. assert (good (mkState (local st) (remote st)) /\ forall j job, in_job j job st -> in_job j job (mkState (local st) (remote st)))
    as Hsame by (by destruct st).
  unfold deleteSchool, mbind at 1, M_bind at 1, read, school_row.
  destruct (schools (db (local st)) !! sid) as [s|] eqn:Es; cbn; [|by intros [= _ <-]].
  destruct (not_deleted s); cbn; [|by intros [= _ <-]]. unfold mbind at 1, M_bind at 1, mret, M_ret. cbn.
  unfold transaction, mbind, M_bind, updateSchoolRow, updateUserRow, read, write, orThrow, mret, M_ret. cbn.
  unfold mbind, M_bind. rewrite Es. cbn -[insert].
  destruct (users (db (local st)) !! s_ownerId s) as [us|] eqn:Eu; cbn -[insert]; intros [= _ <-].
  - by apply (touched st _ sid s (set_s_deletedAt (Some now) s)).
  - by destruct st as [[]].
Qed.

(** ** Every step keeps the books good *)

Lemma land_job sid job' fl st st' mine :
  flying fl st -> apart_from sid mine st st' -> in_job sid job' st' ->
  (forall j job code, j <> sid -> fl !! j = Some job -> pending job = Some code -> mine <> Some code /\ pending job' <> Some code) ->
  flying (<[sid := job']> fl) st'.
Proof.
  intros [Hj Hp] Ha Hi Hc. split.
  - intros j job. intros [[<- <-]|[Hn Hl]]%lookup_insert_Some; [done|]. apply (apart_job sid mine st); [done|by intros ->| |by apply Hj].
    intros code Hcode. eapply Hc; eauto.
  - intros i j ji jj code. intros [[<- <-]|[Hn Hl]]%lookup_insert_Some [[<- <-]|[Hn' Hl']]%lookup_insert_Some Ci Cj; [done| | |].
    + by destruct (Hc j jj code (not_eq_sym Hn') Hl' Cj).
    + by destruct (Hc i ji code (not_eq_sym Hn) Hl Ci).
    + by apply (Hp i j ji jj code).
Qed.

Lemma moves_invariant fs fs' :
  moves fs fs' -> good fs.2 -> flying fs.1 fs.2 -> good fs'.2 /\ flying fs'.1 fs'.2.
Proof.
  intros Hm Hg Hfl. destruct Hm as [sid dto u fl st Hn Hu|sid u a ph ph' fl st st' Hp Hstep|sid s fl st Hn Hs|sid s fl st Hn Hs
    |sid ph ph' outage c fl st st' Hp Hf Hy Hstep|sid fl st|sid id_str now r w' fl st Hd]; cbn [fst snd] in *;
    try (pose proof (proj2 (proj2 (good_same st st Hg eq_refl eq_refl)) sid) as Hself).
  - split; [done|]. apply (land_job sid _ fl st st None); [done|done|by apply (started sid dto)|done].
  - destruct (fy_jobs _ _ Hfl sid _ Hp) as (Hid & Hpo & Hi).
    destruct (step_keeps u a ph st ph' st' Hpo Hg Hi Hstep) as (Hg' & Hi' & Ha). rewrite Hid in Ha.
    split; [done|]. by apply (land_job sid _ fl st st' None).
  - split; [done|]. apply (land_job sid _ fl st st None); [done|done| |done]. exists s. done.
  - split; [done|]. apply (land_job sid _ fl st st None); [done|done| |done]. exists s. done.
  - destruct (admin_keeps sid outage c ph st ph' st' Hg (fy_jobs _ _ Hfl sid _ Hp) Hf Hy Hstep) as (Hg' & Hi' & Ha & Hnew).
    split; [done|]. apply (land_job sid _ fl st st' (pending (JAdmin ph))); [done|done|done|].
    intros j job code Hj Hl Hc. split.
    + intros Hm. apply Hj. by apply (fy_pending _ _ Hfl j sid job (JAdmin ph) code).
    + intros Hm. specialize (Hnew _ Hm). pose proof (fy_jobs _ _ Hfl j job Hl) as Hjob.
      destruct job as [|[]]; try discriminate Hc. injection Hc as ->. destruct Hjob as (s & _ & _ & bank & _ & Hr). congruence.
  - split; [done|]. destruct Hfl as [H1 H2]. split.
    + intros j job [_ Hl]%lookup_delete_Some. by apply H1.
    + intros i j ji jj code [_ Hi]%lookup_delete_Some [_ Hj]%lookup_delete_Some. by apply H2.
  - destruct (delete_good sid id_str now r w' st Hg Hd) as [Hg' Hk]. split; [done|]. destruct Hfl as [H1 H2].
    split; [|exact H2]. intros j job Hl. by apply Hk, H1.
Qed.

(** C13: card money settles where the parents are told: from books where it does,
    whatever profile and settlement updates, subaccounts provisioned, retries of an
    administrator and deletions follow, the reads, the calls of Paystack and the
    writes of each interleaved with those of the other schools in any order,
    answered by Paystack in any way (a failed call may have been carried out; a code
    it creates is new) and abandoned at any step, the subaccount a new card payment
    would be split into settles to the bank and the account number on the school's
    row.  Two conditions: one school has one update, provisioning or retry in flight
    at a time (its deletion may come at any moment), and when a retry finds the
    school's subaccount on the integration, that subaccount already settles to the
    account on the school's row; without either it fails
    ([overlapping_updates_part], [provisioning_overtakes_update],
    [retry_pays_old_account]). *)
Theorem settlement_fail_closed st0 fl st sid code w :
  good st0 -> rtc moves (∅, st0) (fl, st) ->
  assertSchoolAcceptsOnlinePayments sid (local st) = (Ok code, w) ->
  exists s bank, schools_of st !! sid = Some s /\ s_bankCode s = Some bank /\
    remote st !! code = Some (bank, s_accountNumber s).
Proof.
  intros Hg Hr Hc.
  assert (forall x y, rtc moves x y -> good x.2 -> flying x.1 x.2 -> good y.2) as Hinv.
  { induction 1 as [|x y z Hxy _ IH]; [done|]. intros Hg' Hf'.
    destruct (moves_invariant x y Hxy Hg' Hf'). by apply IH. }
  destruct (Hinv _ _ Hr Hg) as [Hs _]; [by split|].
  unfold assertSchoolAcceptsOnlinePayments, mbind, M_bind, read in Hc.
  destruct (schools (db (local st)) !! sid) as [s|] eqn:Es; cbn in Hc; [|done]. unfold mret, M_ret in Hc.
  destruct (s_paystackSubaccountActive s) eqn:Ea; [|done].
  destruct (truthy (s_paystackSubaccountCode s)) as [code'|] eqn:Ec; [|done]. injection Hc as <- _.
  destruct (Hs sid s Es code' Ea Ec) as (bank & Hb & Hrem). eauto.
Qed.

(** ** One update from start to end *)

Definition sample_remote : Remote := {[ "ACCT_1" := ("058", "0123456789") ]}.
Definition sample_state : State := mkState sample sample_remote.
Definition new_account : UpdateSchoolDto :=
  mkUpdateSchoolDto None None None (Some "Zenith") (Some "057") None (Some "9999999999").
Definition resolved_ok (r : Repoint) : Answers := mkAnswers (fun _ _ => inr (Some "GREENFIELD SCHOOLS LTD")) r.
Definition sample_update : Update := mkUpdate 1%positive sample_school new_account (fun s => s).

Lemma sample_good : good sample_state.
Proof.
  split.
  - intros sid s. change (schools_of sample_state) with ({[ 1%positive := sample_school ]} : gmap id School).
    intros [<- <-]%lookup_singleton_Some code _ [= <-].
    exists "058"%string. split; [done|]. vm_compute. reflexivity.
  - intros i j si sj code. change (schools_of sample_state) with ({[ 1%positive := sample_school ]} : gmap id School).
    by intros [<- <-]%lookup_singleton_Some [<- <-]%lookup_singleton_Some.
Qed.

(** An update whose process dies between the write and the call of Paystack. *)
Lemma settlement_fail_closed_witness :
  exists fl st, rtc moves (∅, sample_state) (fl, st) /\
    schools_of st !! 1%positive <> schools_of sample_state !! 1%positive /\
    forall code w, assertSchoolAcceptsOnlinePayments 1 (local st) = (Ok code, w) ->
      exists s bank, schools_of st !! 1%positive = Some s /\ s_bankCode s = Some bank /\
        remote st !! code = Some (bank, s_accountNumber s).
Proof.
  assert (exists fl st, rtc moves (∅, sample_state) (fl, st) /\
    schools_of st !! 1%positive <> schools_of sample_state !! 1%positive) as (fl & st & Hr & Hne).
  { eexists _, _. split.
    - eapply rtc_l; [apply (MStart 1 new_account sample_update); [reflexivity|right; reflexivity]|].
      eapply rtc_l; [eapply (MStep 1 _ (resolved_ok Confirmed)); [apply lookup_insert_eq|reflexivity]|].
      eapply rtc_l; [eapply (MStep 1 _ (resolved_ok Confirmed)); [apply lookup_insert_eq|reflexivity]|].
      eapply rtc_l; [apply (MEnd 1)|]. apply rtc_refl.
    - vm_compute. discriminate. }
  exists fl, st. split; [done|]. split; [done|]. intros code w.
  apply (settlement_fail_closed sample_state fl st 1 code w sample_good Hr).
Defined.

Definition out_of_sync : string := "Paystack subaccount out of sync".

Lemma step_finished_stays n u a r st : steps n u a (Finished r) st = (Finished r, st).
Proof. induction n as [|n IH]; [done|]. simpl. apply IH. Qed.

Lemma notify_all_run f to w : notify_all f to w = (Ok tt, mkWorld (db w) (out w ++ ((fun a => Notify (f a)) <$> to))).
Proof.
  revert w. induction to as [|a to IH]; intros [d o]; [by rewrite app_nil_r|].
  unfold notify_all in *. simpl. unfold mbind at 1, M_bind at 1, notify, emit. rewrite IH. cbn. by rewrite <- app_assoc.
Qed.

Definition alerts (title : string) (d : DB) : list effect := (fun a => Notify (admin_notice title a)) <$> admins_of d.
Lemma admins_notified title w :
  notifyAdmins title w = (Ok tt, mkWorld (db w) (out w ++ alerts title (db w))).
Proof. unfold notifyAdmins, mbind, M_bind, read. apply notify_all_run. Qed.

Definition with_row (sid : id) (s : School) (w : World) : World :=
  mkWorld (set_schools (<[sid := s]> (schools (db w))) (db w)) (out w).
Definition with_alert (title : string) (w : World) : World := mkWorld (db w) (out w ++ alerts title (db w)).

Lemma updateSchoolRow_eq sid f w s :
  schools (db w) !! sid = Some s -> updateSchoolRow sid f w = (Ok (f s), with_row sid (f s) w).
Proof. intros H. unfold updateSchoolRow. by exec. Qed.

(** C14: one settlement update of a school with a subaccount, whose row is as the
    request read it, on every branch.
    Without a bank code, or when Paystack does not resolve the account, nothing
    changes.  Otherwise the details are stored under the name the bank has on
    record and the admins are told; if Paystack then confirms the new
    destination, card payments are on and go there; if it does not, they stay
    off, whether or not the call took effect, and the admins are told that too.
    A change that leaves the account alone calls nobody. *)
Theorem settlement_update_outcomes u a st code :
  schools_of st !! up_schoolId u = Some (up_school u) -> up_code u = Some code ->
  let sid := up_schoolId u in
  let '(phase, st') := applySettlementUpdate u a st in
  if negb (settlementChanged u) then
    let s := update_data u (us_accountName (up_dto u)) (up_school u) in
    phase = Finished (Ok s) /\ st' = mkState (with_row sid s (local st)) (remote st)
  else
    match truthy (up_bankCode u) with
    | None => phase = Finished (Err (FBadRequest "bankCode is required when changing the settlement account")) /\ st' = st
    | Some bank =>
        match an_resolve a (up_accountNumber u) bank with
        | inl e => phase = Finished (Err (provider_error e)) /\ st' = st
        | inr name =>
            let s := update_data u name (up_school u) in
            let w := with_alert "School settlement account changed" (with_row sid s (local st)) in
            let moved := <[code := (bank, up_accountNumber u)]> (remote st) in
            s_paystackSubaccountActive s = false /\
            match an_repoint a with
            | Confirmed =>
                let on := set_s_paystackSubaccountActive true s in
                phase = Finished (Ok on) /\ st' = mkState (with_row sid on w) moved
            | Failed applied _ =>
                phase = Finished (Ok s) /\
                st' = mkState (with_alert out_of_sync w) (if applied then moved else remote st)
            end
        end
    end.
Proof.
  intros Hs Hc. cbv zeta. unfold applySettlementUpdate. cbn [steps step].
  destruct (settlementChanged u) eqn:Ech; cbn [negb].
  - destruct (truthy (up_bankCode u)) as [bank|] eqn:Eb; [|done].
    destruct (an_resolve a _ bank) as [e|name] eqn:Er; [done|]. cbn [step]. unfold on_local at 1.
    rewrite (updateSchoolRow_eq _ _ _ _ Hs), Ech. cbn [step]. unfold on_local at 1, announceSettlementChange.
    rewrite admins_notified, Hc, Eb. cbn [step local remote].
    assert (s_paystackSubaccountActive (update_data u name (up_school u)) = false) as Hoff.
    { assert (needsRepoint u = true) as Hn by (unfold needsRepoint; by rewrite Ech, Hc).
      unfold update_data. by rewrite Hn. }
    destruct (an_repoint a) as [|applied e].
    + cbn [step local remote]. unfold on_local.
      erewrite updateSchoolRow_eq by (cbn -[insert]; apply lookup_insert_eq). done.
    + unfold on_local. cbn [local remote]. rewrite admins_notified. done.
  - cbn [step]. unfold on_local. rewrite (updateSchoolRow_eq _ _ _ _ Hs), Ech. done.
Qed.

Lemma settlement_update_outcomes_witness :
  (applySettlementUpdate sample_update (resolved_ok (Failed false ProviderUnavailable)) sample_state).1 =
    Finished (Ok (update_data sample_update (Some "GREENFIELD SCHOOLS LTD") sample_school)).
Proof.
  pose proof (settlement_update_outcomes sample_update (resolved_ok (Failed false ProviderUnavailable)) sample_state
    "ACCT_1" eq_refl eq_refl) as H. cbv zeta in H.
  destruct (applySettlementUpdate _ _ _) as [ph st']. exact (proj1 (proj2 H)).
Defined.

(** ** How the destinations part *)

(** The retry button undoes the safety of a failed re-point: after an update
    whose call of Paystack failed, the administrator's retry finds the old
    subaccount on the integration, creates nothing, re-points nothing, and turns
    card payments back on: new card payments go to the account the subaccount
    still settles to, while the school's row shows the new one. *)
Theorem retry_pays_old_account `{CacheBackend} u a st code bank name e old c payouts :
  let sid := up_schoolId u in
  profile_only (up_otherFields u) ->
  schools_of st !! sid = Some (up_school u) -> up_code u = Some code -> settlementChanged u = true ->
  truthy (up_bankCode u) = Some bank -> an_resolve a (up_accountNumber u) bank = inr name ->
  an_repoint a = Failed false e -> remote st !! code = Some old ->
  exists ad', createSubaccountForSchool sid None c (mkAdminState (applySettlementUpdate u a st).2 payouts) =
      (Ok (mkSubaccountResult (Some code) false), ad') /\
    assertSchoolAcceptsOnlinePayments sid (local (ad_state ad')) = (Ok code, local (ad_state ad')) /\
    remote (ad_state ad') !! code = Some old /\
    exists s, schools_of (ad_state ad') !! sid = Some s /\
      s_bankCode s = Some bank /\ s_accountNumber s = up_accountNumber u.
Proof.
  intros sid Hf Hs Hc Hch Hb Hr Hp Hold.
  assert ((applySettlementUpdate u a st).2 =
    mkState (with_alert out_of_sync (with_alert "School settlement account changed"
      (with_row sid (update_data u name (up_school u)) (local st)))) (remote st)) as ->.
  { unfold applySettlementUpdate. cbn [steps step]. rewrite Hch, Hb, Hr. cbn [step]. unfold on_local at 1.
    rewrite (updateSchoolRow_eq _ _ _ _ Hs), Hch. cbn [step]. unfold on_local at 1, announceSettlementChange.
    rewrite admins_notified, Hc, Hb. cbn [step local remote]. rewrite Hp. unfold on_local. cbn [local remote].
    by rewrite admins_notified. }
  assert (unmoved u (up_school u)) as Hun by done.
  destruct (update_data_columns u name (up_school u) Hf Hun) as (C1 & C2 & C3 & _).
  set (s := update_data u name (up_school u)) in *.
  assert (live_code s = Some code) as Hl by (by rewrite (code_of_row u s C3)).
  unfold createSubaccountForSchool. cbn [ad_state local]. cbn -[insert lookup createSubaccountForSchool updateSchoolRow truthy].
  rewrite lookup_insert_eq. unfold live_code in Hl. rewrite Hl.
  cbn [getSubaccount remote]. rewrite Hold, bool_decide_eq_true_2 by eauto.
  erewrite updateSchoolRow_eq by (cbn -[insert]; apply lookup_insert_eq). eexists. split; [reflexivity|].
  cbn [ad_state local remote]. split; [|split; [done|]].
  - unfold assertSchoolAcceptsOnlinePayments, mbind, M_bind, read. cbn -[insert lookup truthy].
    rewrite lookup_insert_eq. cbn -[insert lookup truthy]. unfold mret, M_ret. cbn -[insert lookup truthy]. by rewrite Hl.
  - exists (set_s_paystackSubaccountActive true s). unfold schools_of. cbn -[insert lookup]. rewrite lookup_insert_eq.
    split; [done|]. apply truthy_some in Hb. cbn. rewrite C1, C2. done.
Qed.

#[local] Instance sample_backend : CacheBackend := {| redis := false; fails _ := false |}.
Lemma retry_pays_old_account_witness :
  let st := (applySettlementUpdate sample_update (resolved_ok (Failed false ProviderUnavailable)) sample_state).2 in
  exists ad', createSubaccountForSchool 1 None (Created "ACCT_2") (mkAdminState st (mkCache ∅ 0)) =
      (Ok (mkSubaccountResult (Some "ACCT_1") false), ad') /\
    remote (ad_state ad') !! "ACCT_1" = Some ("058", "0123456789").
Proof.
  destruct (retry_pays_old_account sample_update (resolved_ok (Failed false ProviderUnavailable)) sample_state
    "ACCT_1" "057" (Some "GREENFIELD SCHOOLS LTD") ProviderUnavailable ("058", "0123456789") (Created "ACCT_2") (mkCache ∅ 0))
    as (ad' & H1 & _ & H2 & _); try reflexivity; [by intros s|]. exists ad'. done.
Defined.

(** Two overlapping updates of one school: both read it, both write their
    details, and their calls of Paystack land in the other order. *)
Definition other_account : UpdateSchoolDto :=
  mkUpdateSchoolDto None None None (Some "Access") (Some "044") None (Some "1111111111").
Definition other_update : Update := mkUpdate 1%positive sample_school other_account (fun s => s).

Definition overlapped : State :=
  let a := resolved_ok Confirmed in
  let '(p1, st) := steps 3 sample_update a Started sample_state in
  let '(p2, st) := steps 3 other_update a Started st in
  let '(_, st) := steps 2 other_update a p2 st in
  (steps 2 sample_update a p1 st).2.

(** Two overlapping updates of one school can leave card payments on with
    the subaccount settling to one account and the school's row showing the
    other. *)
Theorem overlapping_updates_part :
  good sample_state /\
  assertSchoolAcceptsOnlinePayments 1 (local overlapped) = (Ok "ACCT_1", local overlapped) /\
  remote overlapped !! "ACCT_1" = Some ("057", "9999999999") /\
  (s_accountNumber <$> schools_of overlapped !! 1%positive) = Some "1111111111".
Proof. split; [apply sample_good|]. vm_compute. done. Qed.

(** So can an update that read no subaccount and is overtaken by its creation. *)
Definition codeless : School :=
  set_s_paystackSubaccountActive false (set_s_paystackSubaccountCode None sample_school).
Definition codeless_state : State :=
  mkState (mkWorld (set_schools {[1%positive := codeless]} sample_db) []) ∅.
Definition overtaken : State :=
  let u := mkUpdate 1%positive codeless new_account (fun s => s) in
  let a := resolved_ok Confirmed in
  let '(ph, st) := admin_steps 1 1 None (Created "ACCT_9") (AMissing codeless) codeless_state in
  let '(_, st) := steps 5 u a Started st in
  (admin_steps 1 1 None (Created "ACCT_9") ph st).2.
Theorem provisioning_overtakes_update :
  assertSchoolAcceptsOnlinePayments 1 (local overtaken) = (Ok "ACCT_9", local overtaken) /\
  remote overtaken !! "ACCT_9" = Some ("058", "0123456789") /\
  (s_accountNumber <$> schools_of overtaken !! 1%positive) = Some "9999999999".
Proof. vm_compute. done. Qed.

(** A name that comes without a change of the account is stored as typed. *)
Lemma typed_account_name u a st name :
  schools_of st !! up_schoolId u = Some (up_school u) -> settlementChanged u = false ->
  us_accountName (up_dto u) = Some name ->
  (s_accountName <$> schools_of (applySettlementUpdate u a st).2 !! up_schoolId u) = Some name.
Proof.
  intros Hs Hch Hn. unfold applySettlementUpdate. cbn [steps step]. rewrite Hch. cbn [step]. unfold on_local.
  rewrite (updateSchoolRow_eq _ _ _ _ Hs), Hch. unfold schools_of. cbn -[insert lookup]. rewrite lookup_insert_eq. cbn.
  unfold update_data, needsRepoint. rewrite Hch, Hn. cbn. by destruct (us_accountNumber _).
Qed.

(** Deleting a school frees its owner (an anonymized email, no session, a
    deleted account) and hides it from the reads that ask for live schools, but
    card payments into it go on: the check that guards them does not look at
    [deletedAt]. *)
Theorem deleted_school_still_charged id_str sid now w s w' :
  schools (db w) !! sid = Some s -> s_deletedAt s = None -> is_Some (users (db w) !! s_ownerId s) ->
  deleteSchool id_str sid now w = (Ok (set_s_deletedAt (Some now) s), w') ->
  school_row not_deleted sid (db w') = None /\
  (u_email <$> users (db w') !! s_ownerId s) = Some (deleted_email (id_str (s_ownerId s))) /\
  (forall i se, sessions (db w') !! i = Some se -> se_userId se <> s_ownerId s) /\
  forall code, assertSchoolAcceptsOnlinePayments sid w = (Ok code, w) ->
    assertSchoolAcceptsOnlinePayments sid w' = (Ok code, w').
Proof.
  intros Hs Hd [us Hu]. unfold deleteSchool, mbind at 1, M_bind at 1, read, school_row. rewrite Hs. cbn.
  unfold not_deleted at 1. rewrite bool_decide_eq_true_2 by done. unfold mbind at 1, M_bind at 1, mret, M_ret. cbn.
  unfold transaction, mbind, M_bind, updateSchoolRow, updateUserRow, read, write, orThrow, mret, M_ret. cbn.
  unfold mbind, M_bind. rewrite Hs. cbn -[insert filter]. rewrite Hu. cbn -[insert filter lookup]. intros [= <-].
  cbn -[insert filter lookup]. rewrite !lookup_insert_eq. cbn. split; [done|]. split; [done|]. split.
  - by intros i se [_ Hne]%map_lookup_filter_Some.
  - intros code. unfold assertSchoolAcceptsOnlinePayments, mbind, M_bind, read. rewrite Hs. cbn -[insert filter lookup].
    rewrite lookup_insert_eq. cbn. unfold mret, M_ret. destruct (s_paystackSubaccountActive s); [|done].
    destruct (truthy _); [|done]. by intros [= <-].
Qed.

Lemma deleted_school_still_charged_witness :
  exists w', deleteSchool (fun _ => "u10") 1 5000 sample = (Ok (set_s_deletedAt (Some 5000) sample_school), w') /\
    assertSchoolAcceptsOnlinePayments 1 w' = (Ok "ACCT_1", w').
Proof.
  eexists. split; [vm_compute; reflexivity|].
  eapply (deleted_school_still_charged (fun _ => "u10") 1 5000 sample sample_school);
    [reflexivity|reflexivity|eexists; reflexivity|vm_compute; reflexivity|reflexivity].
Defined.
