(* ===== verification/PaymentHistory.v ===== *)
(** * Payments on the wire

    [src/common/payment-dto.ts] and the lists of payments: a caller's own history
    ([src/payments/payment.service.ts]), a school's history and approval queue
    ([src/schools/schools.service.ts]), the platform's queues
    ([src/admin/admin.service.ts]), and [withTenant] of
    [src/prisma/prisma.service.ts].  A row's receipt is signed by the documents
    service, whose failure is [None]. *)

From Stdlib Require Import QArith Sorted.
From stdpp Require Import sorting.
From S2P Require Import Prelude JsNumber JsText Pagination Money Schedule Schema Effects Samples EnrollmentView MigratedPlan.
From S2P Require Import Ledger Books Enrollment.

Local Open Scope Z_scope.

(** ** Rows of one tenant *)

Section Tenant.
Context {V : Type} (school_of : V -> id) (schoolId : id).

(** [{ ...where, schoolId }] *)
Definition tenant_where (where_ : V -> bool) (row : V) : bool :=
  where_ row && bool_decide (school_of row = schoolId).
End Tenant.

Definition findMany {V} (where_ : V -> bool) (table : gmap id V) : list (id * V) :=
  filter (fun kv : id * V => where_ kv.2 = true) (map_to_list table).
Definition count {V} (where_ : V -> bool) (table : gmap id V) : Z := Z.of_nat (length (findMany where_ table)).
(** [aggregate({ _sum })], [|| 0] *)
Definition sum_of {V} (f : V -> Z) (where_ : V -> bool) (table : gmap id V) : Z :=
  sumZ ((fun kv : id * V => f kv.2) <$> findMany where_ table).

(** Prisma's [skip] and [take] on the rows of a query: a negative [take] takes
    from the end. *)
Definition window {A} (skip take_ : Z) (rows : list A) : list A :=
  if take_ <? 0 then reverse (take (Z.to_nat (- take_)) (drop (Z.to_nat skip) (reverse rows)))
  else take (Z.to_nat take_) (drop (Z.to_nat skip) rows).

(** ** One payment *)

Record PaymentView := mkPaymentDto {
  dv_id : id;
  dv_enrollmentId : id;
  dv_schoolId : id;
  dv_amount : Q;
  dv_amountPaid : Q;
  dv_platformFeeAmount : Q;
  dv_platformFeePercentage : Q;
  dv_schoolAmount : Q;
  dv_paymentType : PaymentType;
  dv_type : PaymentType;
  dv_receiver : PaymentReceiver;
  dv_status : PaymentTransactionStatus;
  dv_isConfirmed : bool;
  dv_date : Z;
  dv_paymentDate : Z;
  dv_studentName : option string;
  dv_childName : option string;
  dv_className : option string;
  dv_schoolName : option string;
  dv_receiptUrl : option string;
  dv_receiptSignedUrl : option (option string) }.

(** [receiptSignedUrl] is absent, [null] or a link. *)
Definition toPaymentView (d : DB) (kv : id * Payment) (receiptSignedUrl : option (option string)) : PaymentView :=
  let p := kv.2 in
  let enrollment := enrollments d !! p_enrollmentId p in
  let childName := e ← enrollment; c_fullName <$> children d !! e_childId e in
  {| dv_id := kv.1;
     dv_enrollmentId := p_enrollmentId p;
     dv_schoolId := p_schoolId p;
     dv_amount := naira (p_amountPaid p);
     dv_amountPaid := naira (p_amountPaid p);
     dv_platformFeeAmount := naira (p_platformAmount p);
     dv_platformFeePercentage := Fees.PLATFORM_FEE_RATE;
     dv_schoolAmount := naira (p_schoolAmount p);
     dv_paymentType := p_paymentType p;
     dv_type := p_paymentType p;
     dv_receiver := p_receiver p;
     dv_status := p_status p;
     dv_isConfirmed := p_isConfirmed p;
     dv_date := p_paymentDate p;
     dv_paymentDate := p_paymentDate p;
     dv_studentName := childName;
     dv_childName := childName;
     dv_className := e_className <$> enrollment;
     dv_schoolName := e ← enrollment; s_name <$> schools d !! e_schoolId e;
     dv_receiptUrl := p_receiptUrl p;
     dv_receiptSignedUrl := receiptSignedUrl |}.

(** [receiptType] of a query: [None] is [ALL]. *)
Definition shouldSign (receiptType : option PaymentType) (t : PaymentType) : bool :=
  match receiptType with None => true | Some t' => bool_decide (t = t') end.
Definition of_type (t : option PaymentType) (p : Payment) : bool :=
  match t with None => true | Some t => bool_decide (p_paymentType p = t) end.
Definition of_status (s : option PaymentTransactionStatus) (p : Payment) : bool :=
  match s with None => true | Some s => has_status s p end.

Section Lists.
(** A signed link, or the failure to make one. *)
Context (sign : string -> option string).
(** [orderBy: { paymentDate: 'desc' }] *)
Context (newest_first : list (id * Payment) -> list (id * Payment)).

Definition signed_receipt (p : Payment) : option string := url ← truthy (p_receiptUrl p); sign url.

(** The rows of a page, with links for the receipts of the asked type. *)
Definition views (d : DB) (include : bool) (receiptType : option PaymentType) (rows : list (id * Payment))
    : list PaymentView :=
  (fun kv : id * Payment =>
     toPaymentView d kv
       (if include then
          Some (if shouldSign receiptType (p_paymentType kv.2) then signed_receipt kv.2 else None)
        else None)) <$> rows.

(** ** The caller's own history *)

(** [Math.max(Math.trunc(n) || 1, 1)]: [None] is positive infinity. *)
Definition at_least_one (n : number) : option Z :=
  match n with
  | NaN | Infinite true => Some 1
  | Infinite false => None
  | Finite q => Some (Z.max (Z.quot (Qnum q) (QDen q)) 1)
  end.

Definition own_payments (userId : id) (role : UserRole) (schoolId : option id) (d : DB) : res (Payment -> bool) :=
  match role with
  | PARENT => Ok (fun p =>
      match e ← enrollments d !! p_enrollmentId p; c ← children d !! e_childId e; parents d !! c_parentId c with
      | Some pr => bool_decide (par_userId pr = userId)
      | None => false
      end)
  | SCHOOL_OWNER =>
      match schoolId with
      | Some sid => Ok (fun p => bool_decide (p_schoolId p = sid))
      | None => Err (FForbidden "School ID is required for school owners")
      end
  | SUPER_ADMIN => Err (FForbidden "This endpoint is only available to parents and school owners")
  end.

Definition getHistory (userId : id) (role : UserRole) (schoolId : option id) (include : bool)
    (receiptType : option PaymentType) (page limit : number) (status : option PaymentTransactionStatus) (d : DB)
    : res (Paginated PaymentView) :=
  whereClause ← own_payments userId role schoolId d;
  let whereClause p := whereClause p && of_status status p in
  let take := match at_least_one limit with Some n => Z.min n 200 | None => 200 end in
  match at_least_one page with
  | None => Err (FInternal "PrismaClientValidationError")
  | Some pageNum =>
      let skip := (pageNum - 1) * take in
      let payments := window skip take (newest_first (findMany whereClause (payments d))) in
      let total := count whereClause (Schema.payments d) in
      Ok (paginate (views d include receiptType payments) total pageNum take)
  end.

(** ** A school's history and approval queue *)

Definition HISTORY_MAX_TAKE : Z := 1000.

Definition in_range (from to : option Z) (p : Payment) : bool :=
  match from with Some t => t <=? p_paymentDate p | None => true end
  && match to with Some t => p_paymentDate p <=? t | None => true end.

Definition history_where (receiptType : option PaymentType) (from to : option Z)
    (status : option PaymentTransactionStatus) (p : Payment) : bool :=
  of_type receiptType p && of_status status p && in_range from to p.

Definition getSchoolHistory (schoolId : id) (include : bool) (receiptType : option PaymentType) (take_ : Z)
    (from to : option Z) (status : option PaymentTransactionStatus) (skip : Z) (d : DB) : Paginated PaymentView :=
  let cappedTake := Z.min take_ HISTORY_MAX_TAKE in
  let baseWhere := tenant_where p_schoolId schoolId (history_where receiptType from to status) in
  let payments := window (Z.max skip 0) cappedTake (newest_first (findMany baseWhere (payments d))) in
  let total := count baseWhere (Schema.payments d) in
  paginate (views d include receiptType payments) total (js_floor_div (Z.max skip 0) cappedTake + 1) cappedTake.

(** [NOT: { paymentType: FIRST_PAYMENT, paystackReference: { not: null } }] *)
Definition card_first_payment (p : Payment) : bool :=
  is_first p && bool_decide (is_Some (p_paystackReference p)).

Definition pending_where (paymentType : option PaymentType) (p : Payment) : bool :=
  negb (p_isConfirmed p) && of_type paymentType p && has_status TX_PENDING p && negb (card_first_payment p).

(** The rows of the approval queue, in the table's order. *)
Definition pending_rows (schoolId : id) (take_ : Z) (paymentType : option PaymentType) (d : DB) : list (id * Payment) :=
  window 0 (Z.min take_ 200) (findMany (tenant_where p_schoolId schoolId (pending_where paymentType)) (payments d)).

Definition getPendingPayments (schoolId : id) (include : bool) (receiptType : option PaymentType) (take_ : Z)
    (paymentType : option PaymentType) (d : DB) : list PaymentView :=
  views d include receiptType (pending_rows schoolId take_ paymentType d).

(** [?take=] and [?page=] of the history endpoint: the page size and the offset.
    An endless number of pages is an invalid query. *)
Definition parseTake (take_ : option text) (fallback : Z) : Z :=
  match take_ with
  | Some ((_ :: _) as t) =>
      match parseInt t with
      | Finite q => let n := Z.quot (Qnum q) (QDen q) in if n <=? 0 then fallback else Z.min n HISTORY_MAX_TAKE
      | _ => fallback
      end
  | _ => fallback
  end.
Definition parsePage (page : option text) (pageSize : Z) : Z :=
  match page with
  | Some ((_ :: _) as t) =>
      match parseInt t with
      | Finite q =>
          let n := Z.quot (Qnum q) (QDen q) in
          if n <=? 1 then 0 else Math_floor (js_mul (js_sub (inject_Z n) 1) (inject_Z pageSize))
      | _ => 0
      end
  | _ => 0
  end.

(** ** The platform's queues *)

Definition pending_first_where (schoolId : option id) (p : Payment) : bool :=
  is_first p && bool_decide (p_receiver p = PLATFORM) && negb (p_isConfirmed p) && has_status TX_PENDING p
  && bool_decide (p_paystackReference p = None)
  && match schoolId with Some sid => bool_decide (p_schoolId p = sid) | None => true end.

Definition signReceipt (p : Payment) (include : bool) : option (option string) :=
  if negb include then None
  else match truthy (p_receiptUrl p) with None => Some None | Some url => Some (sign url) end.

(** A [skip] a query can carry. *)
Definition admin_page {A} (args : PaginationArgs) (rows : list A) : list A :=
  window (Math_floor (skip args)) (limit args) rows.

Definition getPendingFirstPayments (include : bool) (page limit : raw) (schoolId : option id) (d : DB)
    : Paginated PaymentView :=
  let args := parsePagination page limit DEFAULT_PAGE_SIZE MAX_PAGE_SIZE in
  let where_ := pending_first_where schoolId in
  let rows := admin_page args (newest_first (findMany where_ (payments d))) in
  paginate ((fun kv : id * Payment => toPaymentView d kv (signReceipt kv.2 include)) <$> rows)
    (count where_ (payments d)) (Pagination.page args) (Pagination.limit args).

Definition pending_installment_where (p : Payment) : bool :=
  is_installment p && negb (p_isConfirmed p) && has_status TX_PENDING p.

Definition getPendingInstallments (page limit : raw) (d : DB) : Paginated PaymentView :=
  let args := parsePagination page limit DEFAULT_PAGE_SIZE MAX_PAGE_SIZE in
  let rows := admin_page args (newest_first (findMany pending_installment_where (payments d))) in
  paginate ((fun kv => toPaymentView d kv None) <$> rows)
    (count pending_installment_where (payments d)) (Pagination.page args) (Pagination.limit args).

(** ** A plan's history, for its parent *)

Definition getEnrollmentHistory (enrollmentId userId : id) (d : DB) : res EnrollmentView :=
  match join_enrollment d enrollmentId with
  | None => Err (FNotFound "Enrollment not found")
  | Some j =>
      if bool_decide (j_userId j = userId) then
        Ok (toEnrollmentView enrollmentId (j_enrollment j) (Some (c_fullName (j_child j)))
              (Some (s_name (j_school j))) (newest_first (payments_of enrollmentId d)))
      else Err (FBadRequest "Unauthorized access to enrollment history")
  end.
End Lists.

(** ** What a list may hold *)

Lemma elem_of_findMany {V} (where_ : V -> bool) (m : gmap id V) i v :
  (i, v) ∈ findMany where_ m <-> m !! i = Some v /\ where_ v = true.
Proof. unfold findMany. rewrite list_elem_of_filter, elem_of_map_to_list. simpl. naive_solver. Qed.

Lemma window_incl {A} skip take_ (rows : list A) x : x ∈ window skip take_ rows -> x ∈ rows.
Proof.
  unfold window. intros H. destruct (take_ <? 0).
  - rewrite elem_of_reverse in H. rewrite <- elem_of_reverse.
    eapply (elem_of_sublist _ _ _ H). etrans; [apply sublist_take|apply sublist_drop].
  - eapply (elem_of_sublist _ _ _ H). etrans; [apply sublist_take|apply sublist_drop].
Qed.

Lemma window_length {A} skip take_ (rows : list A) : 0 <= take_ -> Z.of_nat (length (window skip take_ rows)) <= take_.
Proof. intros H. unfold window. rewrite (proj2 (Z.ltb_ge take_ 0)), length_take by done. lia. Qed.

Lemma window_slice {A} skip take_ (rows : list A) : 0 <= take_ -> window skip take_ rows = slice skip take_ rows.
Proof. intros H. unfold window, slice. by rewrite (proj2 (Z.ltb_ge take_ 0)). Qed.

Lemma views_elem sign d include receiptType rows v :
  v ∈ views sign d include receiptType rows ->
  exists kv link, kv ∈ rows /\ v = toPaymentView d kv link /\ (include = false -> link = None).
Proof.
  unfold views. intros (kv & -> & Hkv)%list_elem_of_fmap. eexists kv, _. split; [done|]. split; [reflexivity|].
  by intros ->.
Qed.

Lemma views_app sign d include receiptType l1 l2 :
  views sign d include receiptType (l1 ++ l2) = views sign d include receiptType l1 ++ views sign d include receiptType l2.
Proof. apply fmap_app. Qed.

Section Lists.
Context (sign : string -> option string) (newest_first : list (id * Payment) -> list (id * Payment)).
Context (newest_first_perm : forall l, newest_first l ≡ₚ l).

Lemma sorted_elem where_ m kv :
  kv ∈ newest_first (findMany where_ m) -> m !! kv.1 = Some kv.2 /\ where_ kv.2 = true.
Proof. rewrite newest_first_perm. destruct kv. by rewrite elem_of_findMany. Qed.

Lemma reduce_paid_perm cond l l' : l ≡ₚ l' -> reduce_paid cond l = reduce_paid cond l'.
Proof.
  intros H. unfold reduce_paid. rewrite !reduce_sum_eq. apply sumZ_perm. by rewrite H.
Qed.

(** A plan's history goes to the parent of its child and to nobody else; it
    lists the plan's payments, all of them and once, and its figures are those of
    the plan, whatever the order the payments come in. *)
Theorem enrollment_history_scope enrollmentId userId d v :
  getEnrollmentHistory newest_first enrollmentId userId d = Ok v ->
  exists j, join_enrollment d enrollmentId = Some j /\ par_userId (j_parent j) = userId /\
    v_payments v ≡ₚ payment_view <$> payments_of enrollmentId d /\
    v_paidAmount v = naira (reduce_paid p_isConfirmed (payments_of enrollmentId d)) /\
    v_availableBalance v = naira (availableKobo (j_enrollment j) (payments_of enrollmentId d)) /\
    v_nextInstallmentAmount v =
      naira (nextInstallmentAmount (view_progress (j_enrollment j) (payments_of enrollmentId d))).
Proof.
  unfold getEnrollmentHistory. destruct (join_enrollment d enrollmentId) as [j|]; [|done].
  destruct (bool_decide_reflect (j_userId j = userId)) as [Hu|]; [|done]. intros [= <-]. exists j. split; [done|].
  split; [done|]. unfold toEnrollmentView, availableKobo, view_progress. cbn [v_payments v_paidAmount v_availableBalance v_nextInstallmentAmount].
  rewrite !(reduce_paid_perm _ _ _ (newest_first_perm _)). rewrite newest_first_perm. done.
Qed.

(** A history shows its caller's payments and no others: a platform
    administrator and an owner without a school are refused; a row on a page is a
    payment of a plan of the caller's child, or of the owner's school, of the
    status asked for; there are at most 200 of them, and the total counts the
    same payments. *)
Theorem history_scope userId role schoolId include receiptType page limit status d v :
  getHistory sign newest_first userId role schoolId include receiptType page limit status d = Ok v ->
  exists mine, own_payments userId role schoolId d = Ok mine /\
    (role = PARENT \/ role = SCHOOL_OWNER /\ is_Some schoolId) /\
    (forall item, item ∈ pg_items v -> exists p, payments d !! dv_id item = Some p /\ mine p = true /\
      (forall s, status = Some s -> p_status p = s) /\ dv_amountPaid item = naira (p_amountPaid p) /\
      (include = false -> dv_receiptSignedUrl item = None)) /\
    Z.of_nat (length (pg_items v)) <= 200.
Proof.
  unfold getHistory. destruct (own_payments userId role schoolId d) as [mine|e] eqn:Em; [|done]. cbn.
  destruct (at_least_one page) as [pageNum|]; [|done]. intros [= <-]. cbn. exists mine. split; [done|]. split.
  { destruct role; [done| |by left]. right. split; [done|]. by destruct schoolId. }
  assert (0 <= match at_least_one limit with Some n => n `min` 200 | None => 200 end <= 200) as Ht.
  { unfold at_least_one. destruct limit as [|[]|q]; cbn; lia. }
  split.
  - intros item (kv & link & Hkv%window_incl%sorted_elem & -> & Hl)%views_elem. destruct Hkv as [Hp [Hm Hs]%andb_true_iff].
    exists kv.2. cbn. split; [done|]. split; [done|]. split; [|split; [done|done]].
    intros s ->. unfold of_status, has_status in Hs. by apply bool_decide_eq_true in Hs.
  - unfold views. rewrite length_fmap. etrans; [apply window_length, Ht|apply Ht].
Qed.

(** A school's lists hold its own payments only: every row of its history is
    one of its payments, of the asked type and status and within the asked dates;
    every row of its approval queue is one of its unconfirmed PENDING payments,
    and never a first payment that a card charge is collecting. *)
Theorem school_lists_scope schoolId include receiptType take_ from to status skip paymentType d item :
  (item ∈ pg_items (getSchoolHistory sign newest_first schoolId include receiptType take_ from to status skip d) ->
   exists p, payments d !! dv_id item = Some p /\ p_schoolId p = schoolId /\
     history_where receiptType from to status p = true) /\
  (item ∈ getPendingPayments sign schoolId include receiptType take_ paymentType d ->
   exists p, payments d !! dv_id item = Some p /\ p_schoolId p = schoolId /\ p_isConfirmed p = false /\
     p_status p = TX_PENDING /\ (p_paymentType p = FIRST_PAYMENT -> p_paystackReference p = None)).
Proof.
  split.
  - unfold getSchoolHistory. cbn. intros (kv & link & Hkv%window_incl%sorted_elem & -> & _)%views_elem.
    destruct Hkv as [Hp [Hw Hs]%andb_true_iff]. exists kv.2. apply bool_decide_eq_true in Hs. done.
  - unfold getPendingPayments, pending_rows. intros ([i p] & link & Hkv%window_incl & -> & _)%views_elem.
    apply elem_of_findMany in Hkv as [Hp [Hw Hs]%andb_true_iff]. apply bool_decide_eq_true in Hs. exists p.
    unfold pending_where, has_status, card_first_payment, is_first in Hw. to_prop.
    destruct Hw as [[[Hc _] Ht] Hcard]. split; [done|]. repeat split; try done.
    intros Hf. destruct (p_paystackReference p); [|done]. destruct Hcard as [Hcard|Hcard]; [done|].
    by destruct Hcard.
Qed.

End Lists.

(** [orderBy: { paymentDate: 'desc' }]: any permutation of the rows by date. *)
Definition later (a b : id * Payment) : Prop := p_paymentDate b.2 <= p_paymentDate a.2.
Record by_date (order : list (id * Payment) -> list (id * Payment)) : Prop := mkByDate {
  bd_perm : forall l, order l ≡ₚ l;
  bd_sorted : forall l, StronglySorted later (order l) }.

Definition distinct_dates (l : list (id * Payment)) : Prop :=
  forall a b, a ∈ l -> b ∈ l -> p_paymentDate a.2 = p_paymentDate b.2 -> a = b.
Lemma distinct_dates_NoDup l : NoDup ((fun kv : id * Payment => p_paymentDate kv.2) <$> l) -> distinct_dates l.
Proof.
  intros Hn a b [i Ha]%list_elem_of_lookup [j Hb]%list_elem_of_lookup E.
  assert (i = j) as -> by (apply (NoDup_lookup _ _ _ (p_paymentDate a.2) Hn); rewrite list_lookup_fmap, ?Ha, ?Hb; [done|by rewrite E]).
  congruence.
Qed.
Lemma dates_decide order order' l : by_date order -> by_date order' -> distinct_dates l -> order l = order' l.
Proof.
  intros [P S] [P' S'] Hd. apply (StronglySorted_unique_strong later); [|apply S|apply S'|by rewrite P, P'].
  intros a b Ha Hb. unfold later. intros H1 H2. rewrite P in Ha. rewrite P' in Hb. apply Hd; [done..|lia].
Qed.

(** The payments a school's history is asked for. *)
Record wanted (schoolId : id) (receiptType : option PaymentType) (from to : option Z)
    (status : option PaymentTransactionStatus) (d : DB) (kv : id * Payment) : Prop := mkWanted {
  wd_row : payments d !! kv.1 = Some kv.2;
  wd_school : p_schoolId kv.2 = schoolId;
  wd_type : forall t, receiptType = Some t -> p_paymentType kv.2 = t;
  wd_status : forall t, status = Some t -> p_status kv.2 = t;
  wd_from : forall t, from = Some t -> t <= p_paymentDate kv.2;
  wd_to : forall t, to = Some t -> p_paymentDate kv.2 <= t }.

Lemma wanted_iff schoolId receiptType from to status d kv :
  kv ∈ findMany (tenant_where p_schoolId schoolId (history_where receiptType from to status)) (payments d) <->
  wanted schoolId receiptType from to status d kv.
Proof.
  destruct kv as [k p]. rewrite elem_of_findMany. unfold tenant_where, history_where, of_type, of_status, in_range, has_status.
  rewrite !andb_true_iff, bool_decide_eq_true. split.
  - intros (Hp & [[[Ht Hs] [Hf Hto]] Hsc]). split; cbn; try done.
    + intros t ->. by apply bool_decide_eq_true in Ht.
    + intros t ->. by apply bool_decide_eq_true in Hs.
    + intros t ->. by apply Z.leb_le.
    + intros t ->. by apply Z.leb_le.
  - intros [Hp Hsc Ht Hs Hf Hto]. cbn in *. split; [done|]. split; [|done]. split; [split|split].
    + destruct receiptType; [|done]. apply bool_decide_eq_true. by apply Ht.
    + destruct status; [|done]. apply bool_decide_eq_true. by apply Hs.
    + destruct from; [|done]. apply Z.leb_le. by apply Hf.
    + destruct to; [|done]. apply Z.leb_le. by apply Hto.
Qed.

Lemma findMany_NoDup {V} (where_ : V -> bool) table : NoDup (findMany where_ table).
Proof. apply list.NoDup_filter, NoDup_map_to_list. Qed.

(** C23: paging through a school's history ([getSchoolHistory]) shows every
    matching payment once, newest first: the pages from the first to the
    envelope's last, at any page size the endpoint accepts, are together the views
    of a list that holds each of the school's payments of the type, status and
    dates asked for once and nothing else, while the tables do not change (and
    hold fewer than 2^52 payments) and no two of those payments have the same date.  Each page is a query of its own,
    ordered by the date alone, so every page may order the rows its own way; where
    dates are equal a payment can be on two pages and another on none
    ([equal_dates_repeat]). *)
Theorem history_complete sign orders schoolId include receiptType take_ from to status d :
  0 < take_ <= HISTORY_MAX_TAKE -> Z.of_nat (size (payments d)) < 2 ^ 52 ->
  (forall p, by_date (orders p)) ->
  let matching := wanted schoolId receiptType from to status d in
  (forall a b, matching a -> matching b -> p_paymentDate a.2 = p_paymentDate b.2 -> a = b) ->
  let page p := getSchoolHistory sign (orders p) schoolId include receiptType take_ from to status ((p - 1) * take_) d in
  let n := pg_totalPages (page 1) in
  exists rows, NoDup rows /\ (forall kv, kv ∈ rows <-> matching kv) /\ StronglySorted later rows /\
    mjoin ((fun p => pg_items (page (Z.of_nat p))) <$> seq 1 (Z.to_nat n)) = views sign d include receiptType rows.
Proof.
  intros Ht Hsz Ho wants Hdw page n.
  set (matching := findMany (tenant_where p_schoolId schoolId (history_where receiptType from to status)) (payments d)).
  assert (distinct_dates matching) as Hd by (intros a b Ha%wanted_iff Hb%wanted_iff; by apply Hdw).
  exists (orders 1 matching). destruct (Ho 1) as [P1 S1].
  split; [rewrite P1; apply findMany_NoDup|]. split; [intros kv; rewrite P1; apply wanted_iff|].
  split; [apply S1|]. set (rows := orders 1 matching). set (cond := tenant_where _ _ _) in matching.
  assert (forall p, orders p matching = rows) as Hsame by (intros p; by apply dates_decide).
  assert (Z.of_nat (length rows) = count cond (payments d)) as Hlen by (unfold rows, count; by rewrite P1).
  assert (Z.of_nat (length rows) < 2 ^ 52) as Hsmall.
  { rewrite Hlen. unfold count, findMany. pose proof (length_filter (fun kv : id * Payment => cond kv.2 = true) (map_to_list (payments d))).
    rewrite length_map_to_list in *. lia. }
  assert (forall p, pg_items (page p) = views sign d include receiptType (page_rows rows take_ p) \/ p < 1) as Hpage.
  { intros p. destruct (decide (p < 1)); [by right|left]. unfold page, getSchoolHistory. cbn. fold cond matching. rewrite Hsame.
    rewrite Z.min_l, Z.max_l by nia. rewrite window_slice by lia. done. }
  assert (n = pg_totalPages (paginate (page_rows rows take_ 1) (Z.of_nat (length rows)) 1 take_)) as Hn.
  { unfold n, page, getSchoolHistory, paginate. cbn. fold cond. rewrite Z.min_l by lia. by rewrite Hlen. }
  destruct (pages_cover rows take_ ltac:(lia) Hsmall) as [Hall _]. rewrite <- Hn in Hall. rewrite <- Hall.
  clear Hall. generalize (Z.to_nat n). intros k. induction k as [|k IH]; [done|].
  rewrite seq_S, !fmap_app, !join_app, IH, views_app. f_equal. cbn. rewrite !app_nil_r.
  destruct (Hpage (Z.of_nat (S k))) as [E|]; [exact E|lia].
Qed.

(** An order by date, for the examples. *)
Fixpoint insert_newest (kv : id * Payment) (l : list (id * Payment)) : list (id * Payment) :=
  match l with
  | [] => [kv]
  | x :: l' => if p_paymentDate x.2 <=? p_paymentDate kv.2 then kv :: l else x :: insert_newest kv l'
  end.
Definition sort_newest (l : list (id * Payment)) : list (id * Payment) := foldr insert_newest [] l.
Lemma insert_newest_perm kv l : insert_newest kv l ≡ₚ kv :: l.
Proof. induction l as [|x l IH]; [done|]. simpl. destruct (_ <=? _); [done|]. rewrite IH. constructor. Qed.
Lemma sort_newest_perm l : sort_newest l ≡ₚ l.
Proof. induction l as [|x l IH]; [done|]. simpl. by rewrite insert_newest_perm, IH. Qed.

Lemma insert_newest_sorted kv l : StronglySorted later l -> StronglySorted later (insert_newest kv l).
Proof.
  induction 1 as [|x l Hl IH Hx]; [by repeat constructor|]. simpl. destruct (Z.leb_spec (p_paymentDate x.2) (p_paymentDate kv.2)).
  - constructor; [by constructor|]. constructor; [done|]. eapply Forall_impl; [|exact Hx]. unfold later. intros a Ha. cbn in *. lia.
  - constructor; [done|]. apply Forall_forall. intros a Ha%list_elem_of_In. rewrite insert_newest_perm in Ha.
    apply elem_of_cons in Ha as [->|Ha]; [unfold later; lia|]. rewrite Forall_forall in Hx. apply Hx. by apply list_elem_of_In.
Qed.
Lemma sort_newest_by_date : by_date sort_newest.
Proof.
  split; [apply sort_newest_perm|]. intros l. induction l as [|x l IH]; [constructor|]. simpl. by apply insert_newest_sorted.
Qed.
(** The same order, equal dates the other way round. *)
Lemma sort_newest_rev_by_date : by_date (fun l => sort_newest (reverse l)).
Proof.
  destruct sort_newest_by_date as [P S]. split; [|intros; apply S]. intros l. by rewrite P, reverse_Permutation.
Qed.

(** Two payments of one day, in pages of one: the second page may repeat the
    first, and the other payment is on no page. *)
Definition one_day : DB :=
  set_payments (set_p_paymentDate 7 <$> payments sample_db) sample_db.
Definition one_day_orders (p : Z) : list (id * Payment) -> list (id * Payment) :=
  if p =? 1 then sort_newest else fun l => sort_newest (reverse l).
Definition one_day_page (p : Z) : list id :=
  dv_id <$> pg_items (getSchoolHistory (fun _ => None) (one_day_orders p) 1 false None 1 None None None ((p - 1) * 1) one_day).
Lemma equal_dates_repeat :
  (forall p, by_date (one_day_orders p)) /\ size (payments one_day) = 2%nat /\
  one_day_page 1 = one_day_page 2 /\ length (one_day_page 1) = 1%nat.
Proof.
  split; [|by vm_compute]. intros p. unfold one_day_orders. destruct (p =? 1); [apply sort_newest_by_date|apply sort_newest_rev_by_date].
Qed.

Definition sample_history (userId : id) : res (Paginated PaymentView) :=
  getHistory (fun _ => None) sort_newest userId PARENT None false None (Finite 1) (Finite 100) None sample_db.
Lemma history_scope_witness :
  exists v, sample_history 11 = Ok v /\ length (pg_items v) = 2%nat /\ Z.of_nat (length (pg_items v)) <= 200.
Proof.
  assert (exists v, sample_history 11 = Ok v) as [v Hv] by (vm_compute; eauto). exists v. split; [done|].
  split; [|by destruct (history_scope (fun _ => None) sort_newest sort_newest_perm 11 PARENT None false None
    (Finite 1) (Finite 100) None sample_db v Hv) as (_ & _ & _ & _ & H)].
  revert Hv. vm_compute. by intros [= <-].
Defined.

Lemma school_lists_scope_witness :
  forall item, item ∈ getPendingPayments (fun _ => None) 1 false None 100 None sample_db ->
  exists p, payments sample_db !! dv_id item = Some p /\ p_schoolId p = 1%positive /\ p_isConfirmed p = false /\
    p_status p = TX_PENDING /\ (p_paymentType p = FIRST_PAYMENT -> p_paystackReference p = None).
Proof.
  intros item.
  apply (school_lists_scope (fun _ => None) sort_newest sort_newest_perm 1 false None 100 None None None 0 None sample_db item).
Defined.

(** One payment the day after the other. *)
Definition two_days : DB := set_payments (<[6%positive := set_p_paymentDate 86401000 sample_card]> (payments sample_db)) sample_db.
Lemma two_days_distinct : distinct_dates (map_to_list (payments two_days)).
Proof. apply distinct_dates_NoDup, (bool_decide_unpack _). vm_compute. exact I. Qed.
Lemma history_complete_witness :
  exists rows, length rows = 2%nat /\
    mjoin ((fun p => pg_items (getSchoolHistory (fun _ => None) sort_newest 1 false None 1 None None None
      ((Z.of_nat p - 1) * 1) two_days)) <$> seq 1 2) = views (fun _ => None) two_days false None rows.
Proof.
  assert (0 < 1 <= HISTORY_MAX_TAKE) as H1 by (vm_compute; done).
  assert (Z.of_nat (size (payments two_days)) < 2 ^ 52) as H2 by (vm_compute; done).
  destruct (history_complete (fun _ => None) (fun _ => sort_newest) 1 false None 1 None None None two_days H1 H2
    (fun _ => sort_newest_by_date)) as (rows & Hn & Hr & _ & H).
  - intros [i p] [j q] [Ha _ _ _ _ _] [Hb _ _ _ _ _] E. cbn in Ha, Hb.
    apply two_days_distinct; [by apply elem_of_map_to_list..|exact E].
  - exists rows. split; [|exact H]. assert (rows ≡ₚ findMany (tenant_where p_schoolId 1%positive (history_where None None None None))
      (payments two_days)) as -> by (apply NoDup_Permutation; [done|apply findMany_NoDup|intros kv; by rewrite Hr, <- wanted_iff]).
    vm_compute. reflexivity.
Defined.
