(* ===== verification/InviteList.v ===== *)
(** * A school's list of invites

    [list] of [src/enrollment-invites/enrollment-invites.service.ts]: the school
    owner's invites by pages, with the migration window. *)

From S2P Require Import Prelude JsText Pagination Schema Effects Samples PaymentHistory Enrollment InvitePolicy Invites InviteSpecs.

Record MigrationWindowView := mkWindowView { mw_closesAt : Z; mw_daysRemaining : Z; mw_isOpen : bool }.
Record InviteListing := mkInviteListing { il_page : Paginated SchoolInviteView; il_migrationWindow : MigrationWindowView }.

Definition invite_where (schoolId : id) (status : option EnrollmentInviteStatus) (i : EnrollmentInvite) : bool :=
  bool_decide (i_schoolId i = schoolId)
  && match status with Some s => bool_decide (i_status i = s) | None => true end.

(** [fullName?.trim() || name?.trim() || null] on the claimant's columns. *)
Definition trim_column (s : string) : string := utf8 (trim (utf8_decode (text_of s))).
Definition claimedByName (i : EnrollmentInvite) (d : DB) : option string :=
  u ← i_claimedByUserId i; u ← users d !! u;
  match truthy (trim_column <$> u_fullName u) with
  | Some name => Some name
  | None => truthy (trim_column <$> u_name u)
  end.

Section List.
(** [orderBy: { createdAt: 'desc' }] *)
Context (newest_invites : list (id * EnrollmentInvite) -> list (id * EnrollmentInvite)).

(** The view of a row with its plan and its claimant. *)
Definition invite_row (now : Z) (d : DB) (kv : id * EnrollmentInvite) : SchoolInviteView :=
  toSchoolInviteView kv.1 kv.2 (fst <$> plan_of_invite kv.1 d) (claimedByName kv.2 d) now.

Definition list_invites (rq : Request) (actor : AuthUser) (status : option EnrollmentInviteStatus) (page limit : raw)
    : M InviteListing :=
  '(schoolId, school) ← assertOwnsSchool actor;
  let args := parsePagination page limit 25 MAX_PAGE_SIZE in
  let now := rq_now rq in
  rows ← read (fun d => invite_row now d <$> admin_page args (newest_invites (findMany (invite_where schoolId status) (invites d))));
  total ← read (fun d => count (invite_where schoolId status) (invites d));
  mret (mkInviteListing (paginate rows total (Pagination.page args) (Pagination.limit args))
    (mkWindowView (s_migrationDeadline school) (migrationDaysRemaining (s_migrationDeadline school) now)
       (isMigrationWindowOpen (s_migrationDeadline school) now))).
End List.

(** ** What a school sees *)

Lemma assertOwnsSchool_cases actor w :
  (exists schoolId school, owns actor schoolId school (db w) /\ assertOwnsSchool actor w = (Ok (schoolId, school), w)) \/
  (exists message, assertOwnsSchool actor w = (Err (FForbidden message), w)).
Proof.
  unfold assertOwnsSchool. destruct (au_role actor) eqn:Hr; [by right; eexists| |by right; eexists].
  destruct (au_userSchoolId actor) as [sid|] eqn:Hs; [|by right; eexists].
  unfold read, orThrow, ensure, mbind, M_bind, mret, M_ret, throw.
  destruct (schools (db w) !! sid) as [s|] eqn:E; [|by right; eexists].
  destruct (bool_decide (s_ownerId s = _)) eqn:Ho; [|by right; eexists].
  destruct (bool_decide (s_deletedAt s = None)) eqn:Hd; [|by right; eexists].
  apply bool_decide_eq_true in Ho, Hd. left. by exists sid, s.
Qed.

(** The list, on every branch: only a school's owner gets one, and nothing
    changes; its rows are invites of that school, with the status asked for, no
    more than a page of them, and the total is exact. *)
Theorem invite_list_outcomes newest_invites rq actor status page limit w :
  (forall l, newest_invites l ≡ₚ l) ->
  let '(result, w') := list_invites newest_invites rq actor status page limit w in
  w' = w /\
  match result with
  | Err e => exists message, e = FForbidden message
  | Ok v => exists schoolId school, owns actor schoolId school (db w) /\
      (forall x, x ∈ pg_items (il_page v) -> exists i, invites (db w) !! sv_id x = Some i /\ i_schoolId i = schoolId /\
         sv_status x = i_status i /\ match status with Some s => i_status i = s | None => True end) /\
      Z.of_nat (length (pg_items (il_page v))) <= MAX_PAGE_SIZE /\
      pg_total _ (il_page v) = count (invite_where schoolId status) (invites (db w)) /\
      mw_isOpen (il_migrationWindow v) = isMigrationWindowOpen (s_migrationDeadline school) (rq_now rq)
  end.
Proof.
  intros Hperm. unfold list_invites, mbind at 1, M_bind at 1.
  destruct (assertOwnsSchool_cases actor w) as [(sid & s & Ho & ->)|(m & ->)]; [|split; [done|by exists m]].
  unfold read, mbind, M_bind, mret, M_ret. cbn [fst snd il_page il_migrationWindow paginate pg_items pg_total mw_isOpen].
  split; [done|]. exists sid, s. split; [done|]. set (args := parsePagination _ _ _ _).
  assert (1 <= Pagination.limit args <= MAX_PAGE_SIZE) as Hl.
  { unfold args, parsePagination, MAX_PAGE_SIZE. cbn [Pagination.limit].
    destruct (positive_integer (number_of limit)) eqn:E; [apply positive_integer_pos in E|]; lia. }
  split; [|split; [|done]].
  - intros x ([i v] & -> & Hin)%list_elem_of_fmap. apply window_incl in Hin. rewrite Hperm in Hin.
    apply elem_of_findMany in Hin as [Hi Hc]. unfold invite_where in Hc. to_prop. destruct Hc as [Hc Hs].
    exists v. split; [exact Hi|]. split; [done|]. split; [done|]. destruct status; [by to_prop|done].
  - rewrite length_fmap. unfold admin_page. etransitivity; [apply window_length; lia|lia].
Qed.
