(* ===== verification/Frames.v ===== *)
(** * What a handler may change

    A logic for frames: a handler run at a world stays within a relation on
    databases that is a preorder.  The rules follow the handler forwards and keep
    what its reads found. *)

From S2P Require Import Prelude Schema Effects Ledger Enrollment Invites InviteSpecs InviteList.

Section Frame.
Context (R : DB -> DB -> Prop) `{!PreOrder R}.

Definition stays {A} (m : M A) (w : World) : Prop := forall r w', m w = (r, w') -> R (db w) (db w').

Lemma stays_bind {A B} (m : M A) (f : A -> M B) w :
  stays m w -> (forall a w1, m w = (Ok a, w1) -> stays (f a) w1) -> stays (m ≫= f) w.
Proof.
  intros Hm Hf r w'. unfold mbind, M_bind. destruct (m w) as [[a|e] w1] eqn:E.
  - intros H. transitivity (db w1); [by eapply Hm|]. by eapply Hf.
  - intros [= _ <-]. by eapply Hm.
Qed.
(** The same, telling the rest what the first part kept. *)
Lemma stays_bind_rel {A B} (m : M A) (f : A -> M B) w :
  stays m w -> (forall a w1, m w = (Ok a, w1) -> R (db w) (db w1) -> stays (f a) w1) -> stays (m ≫= f) w.
Proof. intros Hm Hf. apply stays_bind; [done|]. intros a w1 E. apply Hf; [done|]. by eapply Hm. Qed.
Lemma stays_ret {A} (a : A) w : stays (mret a) w.
Proof. by intros r w' [= _ <-]. Qed.
Lemma stays_throw {A} e w : stays (@throw A e) w.
Proof. by intros r w' [= _ <-]. Qed.
Lemma stays_lift {A} (a : res A) w : stays (lift a) w.
Proof. by intros r w' [= _ <-]. Qed.
Lemma stays_read {A} (f : DB -> A) w : stays (read f) w.
Proof. by intros r w' [= _ <-]. Qed.
Lemma stays_emit e w : stays (emit e) w.
Proof. by intros r w' [= _ <-]. Qed.
Lemma stays_ensure b e w : stays (ensure b e) w.
Proof. destruct b; [apply stays_ret|apply stays_throw]. Qed.
Lemma stays_orThrow {A} (o : option A) e w : stays (orThrow o e) w.
Proof. destruct o; [apply stays_ret|apply stays_throw]. Qed.
Lemma stays_write f w : R (db w) (f (db w)) -> stays (write f) w.
Proof. by intros H r w' [= _ <-]. Qed.
Lemma stays_when b m w : stays m w -> stays (when b m) w.
Proof. destruct b; [done|intros _; apply stays_ret]. Qed.
Lemma stays_catch {A} (m : M A) h w :
  stays m w -> (forall e w1, m w = (Err e, w1) -> stays (h e) w1) -> stays (catch m h) w.
Proof.
  intros Hm Hh r w'. unfold catch. destruct (m w) as [[a|e] w1] eqn:E.
  - intros [= _ <-]. by eapply Hm.
  - intros H. transitivity (db w1); [by eapply Hm|]. by eapply Hh.
Qed.
Lemma stays_transaction {A} (m : M A) w : stays m w -> stays (transaction m) w.
Proof.
  intros Hm r w'. unfold transaction. destruct (m w) as [[a|e] w1] eqn:E; intros [= _ <-]; [by eapply Hm|done].
Qed.
(** Only a run that commits changes anything. *)
Lemma stays_committed {A} (m : M A) w :
  (forall a w', m w = (Ok a, w') -> R (db w) (db w')) -> stays (transaction m) w.
Proof.
  intros Hm r w'. unfold transaction. destruct (m w) as [[a|e] w1] eqn:E; intros [= _ <-]; [by eapply Hm|done].
Qed.

(** What is known after a step that only reads. *)
Lemma stays_read_bind {A B} (f : DB -> A) (k : A -> M B) w : stays (k (f (db w))) w -> stays (read f ≫= k) w.
Proof. intros H r w'. exact (H r w'). Qed.
Lemma stays_ret_bind {A B} (a : A) (k : A -> M B) w : stays (k a) w -> stays (mret a ≫= k) w.
Proof. intros H r w'. exact (H r w'). Qed.
Lemma stays_lift_bind {A B} (a : res A) (k : A -> M B) w :
  (forall x, a = Ok x -> stays (k x) w) -> stays (lift a ≫= k) w.
Proof. intros H. apply stays_bind; [apply stays_lift|]. intros x w1 [= -> ->]. by apply H. Qed.
Lemma stays_ensure_bind {B} b e (k : unit -> M B) w : (b = true -> stays (k tt) w) -> stays (ensure b e ≫= k) w.
Proof. destruct b; [intros H r w'; exact (H eq_refl r w')|]. intros _. by intros r w' [= _ <-]. Qed.
Lemma stays_orThrow_bind {A B} (o : option A) e (k : A -> M B) w :
  (forall a, o = Some a -> stays (k a) w) -> stays (orThrow o e ≫= k) w.
Proof. destruct o as [a|]; [intros H r w'; exact (H a eq_refl r w')|]. intros _. by intros r w' [= _ <-]. Qed.
Lemma stays_owns_bind {B} actor (k : id * School -> M B) w :
  (forall schoolId school, owns actor schoolId school (db w) -> stays (k (schoolId, school)) w) ->
  stays (assertOwnsSchool actor ≫= k) w.
Proof.
  intros H. destruct (assertOwnsSchool_cases actor w) as [(sid & s & Ho & E)|(m & E)]; intros r w';
    unfold mbind, M_bind; rewrite E; [by apply H|by intros [= _ <-]].
Qed.

Lemma stays_assoc {A B C} (m : M A) (f : A -> M B) (g : B -> M C) w :
  stays (m ≫= (fun a => f a ≫= g)) w -> stays ((m ≫= f) ≫= g) w.
Proof. intros H r w' E. apply (H r). rewrite <- E. unfold mbind, M_bind. by destruct (m w) as [[?|?] ?]. Qed.
(** A write whose effect the rest needs. *)
Lemma stays_write_bind {B} f (k : unit -> M B) w :
  R (db w) (f (db w)) -> stays (k tt) (mkWorld (f (db w)) (out w)) -> stays (write f ≫= k) w.
Proof. intros Hf H r w' E. etransitivity; [exact Hf|]. exact (H r w' E). Qed.

(** A run known by its end. *)
Lemma stays_run {A} (m : M A) w r w1 : m w = (r, w1) -> R (db w) (db w1) -> stays m w.
Proof. intros E H r' w'. rewrite E. by intros [= _ <-]. Qed.
End Frame.

(** The next step of a handler; [writes] proves what a write does. *)
Ltac stays_step writes :=
  lazymatch goal with
  | |- stays _ ((_ ≫= _) ≫= _) _ => apply stays_assoc
  | |- stays _ (read _ ≫= _) _ => apply stays_read_bind
  | |- stays _ (mret _ ≫= _) _ => apply stays_ret_bind
  | |- stays _ (lift _ ≫= _) _ => apply stays_lift_bind; [exact _|intros ? ?]
  | |- stays _ (ensure _ _ ≫= _) _ => apply stays_ensure_bind; [exact _|intros ?]
  | |- stays _ (orThrow _ _ ≫= _) _ => apply stays_orThrow_bind; [exact _|intros ? ?]
  | |- stays _ (assertOwnsSchool _ ≫= _) _ => apply stays_owns_bind; [exact _|intros ? ? ?]
  | |- stays _ (_ ≫= _) _ => apply stays_bind; [exact _| |intros ? ? ?]
  | |- stays _ (mret _) _ => apply stays_ret; exact _
  | |- stays _ (throw _) _ => apply stays_throw; exact _
  | |- stays _ (read _) _ => apply stays_read; exact _
  | |- stays _ (lift _) _ => apply stays_lift; exact _
  | |- stays _ (emit _) _ => apply stays_emit; exact _
  | |- stays _ (notify _) _ => apply stays_emit; exact _
  | |- stays _ (ensure _ _) _ => apply stays_ensure; exact _
  | |- stays _ (orThrow _ _) _ => apply stays_orThrow; exact _
  | |- stays _ (when _ _) _ => apply stays_when; [exact _|]
  | |- stays _ (transaction _) _ => apply stays_transaction; [exact _|]
  | |- stays _ (catch _ _) _ => apply stays_catch; [exact _| |intros ? ? ?]
  | |- stays _ (write _) _ => apply stays_write; writes
  | |- stays _ (audit_record _) _ => apply stays_write; writes
  | |- stays _ (match ?x with _ => _ end) _ => destruct x eqn:?
  | |- stays _ (if ?x then _ else _) _ => destruct x eqn:?
  end.
(** Up to a transaction. *)
Ltac stays_to_transaction :=
  repeat (cbn [fst snd] in *; lazymatch goal with |- stays _ (transaction _ ≫= _) _ => fail | |- _ => stays_step fail end).
Ltac stays_steps writes := repeat (cbn [fst snd] in *; stays_step writes).
