(* ===== verification/Resilience.v ===== *)
(** * Timeouts, retries and caught values

    [src/common/resilience.ts] and [src/common/errors.ts].  A promise is when it
    settles and with what; an operation under [withRetry] answers each attempt, by
    its number. *)

From S2P Require Import Prelude.

(** ** errors.ts *)

(** A caught value: an [Error], a string, an object with perhaps a [message] and
    a [code] that are strings, or anything else. *)
Inductive caught :=
| CError (message : string) (code : option string)
| CString (s : string)
| CObject (message code : option string)
| COther.

Definition errorMessage (error : caught) (fallback : string) : string :=
  match error with
  | CError message _ => message
  | CString s => s
  | CObject (Some message) _ => message
  | _ => fallback
  end.
Definition errorCode (error : caught) : option string :=
  match error with CError _ code | CObject _ code => code | _ => None end.

(** ** resilience.ts *)

Definition DEFAULT_TIMEOUT_MS : Z := 10000.
Definition DEFAULT_MAX_ATTEMPTS : nat := 2.

(** [Pending] never settles; the time is in milliseconds from the call. *)
Inductive promise (A : Type) :=
| Settled (after : Z) (outcome : A + caught)
| Pending.
Arguments Settled {A} _ _.
Arguments Pending {A}.

Definition then_ {A B} (f : A -> B + caught) (p : promise A) : promise B :=
  match p with
  | Settled t (inl a) => Settled t (f a)
  | Settled t (inr e) => Settled t (inr e)
  | Pending => Pending
  end.

Section Text.
(** How a number is printed. *)
Context (print : Z -> string).

(** The outcome of the race and when it is known; the promise was made before
    the timer was set. *)
Definition withTimeout {A} (p : promise A) (timeoutMs : Z) (label : string) : Z * (A + caught) :=
  let timed_out := (timeoutMs, inr (CError (label +:+ " timed out after " +:+ print timeoutMs +:+ "ms") None)) in
  match p with
  | Settled t r => if t <=? timeoutMs then (t, r) else timed_out
  | Pending => timed_out
  end.

Definition retry_delay (attempt : nat) : Z := Z.min (1000 * 2 ^ (Z.of_nat attempt - 1)) 8000.

(** The attempts from [attempt] on, [left] of them, and the time they took. *)
Fixpoint retry_loop {A} (fn : nat -> Z * (A + caught)) (shouldRetry : caught -> bool) (attempt left : nat)
    (lastError : caught) (clock : Z) : Z * (A + caught) :=
  match left with
  | O => (clock, inr lastError)
  | S left' =>
      match fn attempt with
      | (t, inl a) => (clock + t, inl a)
      | (t, inr error) =>
          match left' with
          | O => (clock + t, inr error)
          | _ => if shouldRetry error
                 then retry_loop fn shouldRetry (S attempt) left' error (clock + t + retry_delay attempt)
                 else (clock + t, inr error)
          end
      end
  end.
Definition withRetry {A} (fn : nat -> Z * (A + caught)) (maxAttempts : nat) (shouldRetry : caught -> bool)
    : Z * (A + caught) :=
  retry_loop fn shouldRetry 1 maxAttempts COther 0.
End Text.

(** ** Laws *)

Section Laws.
Context (print : Z -> string).

(** A race is over by its deadline, whatever the promise does. *)
Lemma withTimeout_ends {A} (p : promise A) timeoutMs label :
  0 <= timeoutMs -> (forall t r, p = Settled t r -> 0 <= t) ->
  0 <= (withTimeout print p timeoutMs label).1 <= timeoutMs.
Proof.
  intros Ht Hp. destruct p as [t r|]; simpl; [|lia]. specialize (Hp t r eq_refl).
  destruct (Z.leb_spec t timeoutMs); simpl; lia.
Qed.

Lemma retry_delay_range attempt : 0 <= retry_delay attempt <= 8000.
Proof.
  unfold retry_delay. assert (0 <= 2 ^ (Z.of_nat attempt - 1)) by (apply Z.pow_nonneg; lia). lia.
Qed.

(** An attempt that decides: a success, or an error not to be retried. *)
Definition decisive {A} (shouldRetry : caught -> bool) (r : A + caught) : bool :=
  match r with inl _ => true | inr e => negb (shouldRetry e) end.

Lemma retry_loop_spec {A} (fn : nat -> Z * (A + caught)) shouldRetry left : forall attempt lastError clock,
  (0 < left)%nat -> exists n, (attempt <= n < attempt + left)%nat /\
    (retry_loop fn shouldRetry attempt left lastError clock).2 = (fn n).2 /\
    (forall k, (attempt <= k < n)%nat -> decisive shouldRetry (fn k).2 = false) /\
    (decisive shouldRetry (fn n).2 = true \/ S n = (attempt + left)%nat).
Proof.
  induction left as [|left IH]; intros attempt lastError clock Hl; [lia|]. cbn [retry_loop].
  destruct (fn attempt) as [t [a|e]] eqn:E.
  - exists attempt. rewrite E. split; [lia|]. split; [done|]. split; [lia|]. by left.
  - destruct left as [|left].
    + exists attempt. rewrite E. split; [lia|]. split; [done|]. split; [lia|]. right. lia.
    + destruct (shouldRetry e) eqn:Er.
      * destruct (IH (S attempt) e (clock + t + retry_delay attempt)) as (n & Hn & H1 & H2 & H3); [lia|].
        exists n. split; [lia|]. split; [done|]. split; [|destruct H3; [by left|right; lia]].
        intros k Hk. destruct (decide (k = attempt)) as [->|]; [by rewrite E; simpl; rewrite Er|apply H2; lia].
      * exists attempt. rewrite E. split; [lia|]. split; [done|]. split; [lia|]. left. simpl. by rewrite Er.
Qed.

(** A retried call answers with its first decisive attempt, or with the last one
    there is. *)
Theorem withRetry_first {A} (fn : nat -> Z * (A + caught)) maxAttempts shouldRetry :
  (0 < maxAttempts)%nat -> exists n, (1 <= n <= maxAttempts)%nat /\
    (withRetry fn maxAttempts shouldRetry).2 = (fn n).2 /\
    (forall k, (1 <= k < n)%nat -> decisive shouldRetry (fn k).2 = false) /\
    (decisive shouldRetry (fn n).2 = true \/ n = maxAttempts).
Proof.
  intros H. destruct (retry_loop_spec fn shouldRetry maxAttempts 1 COther 0 H) as (n & Hn & H1 & H2 & H3).
  exists n. split; [lia|]. split; [done|]. split; [done|]. destruct H3; [by left|right; lia].
Qed.

Lemma retry_loop_time {A} (fn : nat -> Z * (A + caught)) shouldRetry bound left : forall attempt lastError clock,
  0 <= bound -> (forall k, 0 <= (fn k).1 <= bound) ->
  clock <= (retry_loop fn shouldRetry attempt left lastError clock).1
    <= clock + Z.of_nat left * bound + (Z.of_nat left - 1) `max` 0 * 8000.
Proof.
  induction left as [|left IH]; intros attempt lastError clock Hb Hf; cbn [retry_loop]; [simpl; lia|].
  pose proof (Hf attempt) as Ht. destruct (fn attempt) as [t [a|e]]; cbn [fst] in *; [lia|].
  destruct left as [|left]; [simpl; lia|]. destruct (shouldRetry e); [|cbn [fst]; nia].
  pose proof (retry_delay_range attempt). specialize (IH (S attempt) e (clock + t + retry_delay attempt) Hb Hf). nia.
Qed.

(** And it answers in bounded time: every attempt within its timeout, and a
    pause of at most eight seconds between two of them. *)
Theorem withRetry_ends {A} (fn : nat -> promise A) maxAttempts shouldRetry timeoutMs label :
  (0 < maxAttempts)%nat -> 0 <= timeoutMs -> (forall k t r, fn k = Settled t r -> 0 <= t) ->
  0 <= (withRetry (fun k => withTimeout print (fn k) timeoutMs label) maxAttempts shouldRetry).1
    <= Z.of_nat maxAttempts * timeoutMs + (Z.of_nat maxAttempts - 1) * 8000.
Proof.
  intros Hm Ht Hf. unfold withRetry.
  pose proof (retry_loop_time (fun k => withTimeout print (fn k) timeoutMs label) shouldRetry timeoutMs maxAttempts 1 COther 0 Ht) as H.
  destruct H as [H1 H2]; [intros k; apply withTimeout_ends; [done|apply Hf]|]. lia.
Qed.
End Laws.
