(* ===== verification/Documents.v ===== *)
(** * Receipts in the storage bucket

    [src/documents/documents.service.ts]: the links with which a receipt is
    uploaded and read, and [assertOwnedReceiptPath] of the enrollment service,
    which a path has to pass before it is stored on a payment.  The bucket's
    answers, the random file ids and the settings are parameters. *)

From Stdlib Require Import QArith.
From S2P Require Import Prelude JsNumber JsText Pagination Schema Effects Samples Enrollment EnrollmentSpecs Resilience.

Local Open Scope Z_scope.

(** ** Names *)

Definition ALLOWED_RECEIPT_CONTENT_TYPES : list string := ["image/jpeg"; "image/png"; "image/webp"; "application/pdf"]%string.
Definition DEFAULT_MAX_UPLOAD_BYTES : Z := 10 * 1024 * 1024.
Definition DEFAULT_DOWNLOAD_TTL_SECONDS : Z := 600.
Definition UPLOAD_URL_TTL_SECONDS : Z := 7200.

(** [path.basename]: what follows the last slash, slashes at the end apart. *)
Fixpoint drop_slashes (t : text) : text :=
  match t with c :: t' => if c =? 47 then drop_slashes t' else t | [] => [] end.
Definition basename (t : text) : text := reverse (before 47 (drop_slashes (reverse t))).

(** [[a-zA-Z0-9._-]]; a character outside the basic plane is two units. *)
Definition is_safe (c : Z) : bool := is_letter c || is_digit c || (c =? 46) || (c =? 95) || (c =? 45).
Definition safe_units (c : Z) : text := if is_safe c then [c] else if c <? 65536 then [95] else [95; 95].
Definition sanitizeFileName (fileName : text) : string :=
  match basename fileName ≫= safe_units with [] => "receipt" | cleaned => string_of cleaned end.

(** [includes('..')] *)
Definition has_dots (s : string) : bool := text_includes [46; 46] (text_of s).

(** ** The service *)

Record SupabaseResult (A : Type) := mkSupabaseResult { sr_data : option A; sr_error : option (option string) }.
Arguments mkSupabaseResult {A} _ _.
Arguments sr_data {A} _.
Arguments sr_error {A} _.

(** A signed URL, with the token of an upload. *)
Record SignedUpload := mkSignedUpload { su_signedUrl : string; su_token : string }.

(** What the calls of one request meet: the bucket's answers by attempt. *)
Record Storage := mkStorage {
  createSignedUploadUrl : string -> nat -> promise (SupabaseResult SignedUpload);
  createSignedUrl : string -> Q -> nat -> promise (SupabaseResult string) }.

Record Settings := mkSettings {
  SUPABASE_SIGNED_URL_TTL_SECONDS : option text;
  SUPABASE_MAX_UPLOAD_BYTES : option text }.

(** [None]: no client is configured. *)
Record DocumentsService := mkDocuments {
  supabase : option Storage;
  signedUrlTtlSeconds : Q;
  maxUploadBytes : Q }.

Definition build (settings : Settings) (client : option Storage) : DocumentsService :=
  let ttl := match SUPABASE_SIGNED_URL_TTL_SECONDS settings with
             | Some t => Number t | None => Finite (inject_Z DEFAULT_DOWNLOAD_TTL_SECONDS) end in
  let maxBytes := match SUPABASE_MAX_UPLOAD_BYTES settings with
                  | Some t => Number t | None => Finite (inject_Z DEFAULT_MAX_UPLOAD_BYTES) end in
  mkDocuments client
    (match ttl with Finite q => q | _ => inject_Z DEFAULT_DOWNLOAD_TTL_SECONDS end)
    (match maxBytes with
     | Finite q => if Qle_bool q 0 then inject_Z DEFAULT_MAX_UPLOAD_BYTES else q
     | _ => inject_Z DEFAULT_MAX_UPLOAD_BYTES
     end).

Record ReceiptUpload := mkReceiptUpload {
  ru_path : string; ru_signedUrl : string; ru_token : string; ru_expiresIn : Z; ru_maxUploadBytes : Q }.
Record ReceiptDownload := mkReceiptDownload { rd_path : string; rd_signedUrl : string; rd_expiresIn : Q }.

Section Service.
Context (env : Env) (print : Z -> string) (randomUUID : string).
Context (documents : DocumentsService).

Definition bucket : res Storage :=
  match supabase documents with
  | None => Err (FBadRequest "Receipt storage is not configured")
  | Some s => Ok s
  end.

Definition unwrap {A} (label : string) (r : SupabaseResult A) : A + caught :=
  match sr_error r with
  | Some message => inr (CError (default label message) None)
  | None =>
      match sr_data r with
      | None => inr (CError (label +:+ ": empty response") None)
      | Some d => inl d
      end
  end.

Definition signed {A} (call : nat -> promise (SupabaseResult A)) (label : string) : res A :=
  match (withRetry (fun attempt => withTimeout print (then_ (unwrap label) (call attempt)) 10000 label) 2 (fun _ => true)).2 with
  | inl d => Ok d
  | inr e => Err (FBadRequest (errorMessage e ("Failed to " +:+ label)))
  end.

Definition createReceiptUploadUrl (userId : id) (fileName : text) (contentType : string) : res ReceiptUpload :=
  guard_or (negb (bool_decide (trim fileName = []))) (FBadRequest "fileName is required");;
  guard_or (bool_decide (contentType ∈ ALLOWED_RECEIPT_CONTENT_TYPES))
    (FBadRequest ("Unsupported contentType. Allowed: " +:+ String.concat ", " ALLOWED_RECEIPT_CONTENT_TYPES));;
  bucket ← bucket;
  let safeName := sanitizeFileName fileName in
  let objectPath := ("receipts/" +:+ id_str env userId +:+ "/" +:+ randomUUID +:+ "_" +:+ safeName)%string in
  data ← signed (createSignedUploadUrl bucket objectPath) "create the upload URL";
  Ok (mkReceiptUpload objectPath (su_signedUrl data) (su_token data) UPLOAD_URL_TTL_SECONDS (maxUploadBytes documents)).

(** Who may read a receipt. *)
Definition may_read (user : AuthUser) (j : Joined) : bool :=
  (bool_decide (au_role user = PARENT) && bool_decide (par_userId (j_parent j) = au_userId user))
  || (bool_decide (au_role user = SCHOOL_OWNER) && bool_decide (s_ownerId (j_school j) = au_userId user))
  || bool_decide (au_role user = SUPER_ADMIN).

Definition createReceiptDownloadUrl (paymentId : id) (user : AuthUser) (d : DB) : res ReceiptDownload :=
  match findPaymentJoined paymentId (fun _ => true) d with
  | None => Err (FNotFound "Payment not found")
  | Some payment =>
      match truthy (p_receiptUrl (sn_payment payment)) with
      | None => Err (FNotFound "Receipt not available")
      | Some receiptPath =>
          guard_or (may_read user (sn_join payment)) (FForbidden "Not authorized to access this receipt");;
          bucket ← bucket;
          data ← signed (createSignedUrl bucket receiptPath (signedUrlTtlSeconds documents)) "create the download URL";
          Ok (mkReceiptDownload receiptPath data (signedUrlTtlSeconds documents))
      end
  end.

Definition createSignedUrlForPath (filePath : string) : res string :=
  guard_or (negb (bool_decide (trim (text_of filePath) = []))) (FBadRequest "Path is required");;
  guard_or (String.prefix "receipts/" filePath && negb (has_dots filePath)) (FBadRequest "Path is not a receipt object");;
  bucket ← bucket;
  signed (createSignedUrl bucket filePath (signedUrlTtlSeconds documents)) "create the download URL".
End Service.

(** ** Paths *)

Lemma safe_range c : is_safe c = true -> 0 <= c < 128 /\ c <> 47.
Proof. unfold is_safe, is_letter, is_digit. intros H. to_prop. lia. Qed.
Lemma safe_units_safe c : Forall (fun x => is_safe x = true) (safe_units c).
Proof. unfold safe_units. destruct (is_safe c) eqn:E; [by repeat constructor|]. destruct (c <? 65536); by repeat constructor. Qed.

(** A stored name is not empty and has only safe characters: no slash. *)
Lemma sanitized fileName :
  let t := text_of (sanitizeFileName fileName) in t <> [] /\ Forall (fun x => is_safe x = true) t.
Proof.
  assert (Forall (fun x => is_safe x = true) (basename fileName ≫= safe_units)) as F.
  { induction (basename fileName) as [|c t IH]; [constructor|]. cbn. apply Forall_app. split; [apply safe_units_safe|done]. }
  unfold sanitizeFileName. destruct (basename fileName ≫= safe_units) as [|c t]; [by vm_compute; repeat constructor|].
  rewrite text_of_bytes; [done|]. eapply Forall_impl; [|exact F]. intros x Hx%safe_range. lia.
Qed.

(** ** Who reaches what *)

Section Access.
Context (env : Env) (print : Z -> string) (randomUUID : string) (documents : DocumentsService).

Abbreviation upload := (createReceiptUploadUrl env print randomUUID documents).
Abbreviation download := (createReceiptDownloadUrl print documents).

Definition folder (userId : id) : string := "receipts/" +:+ id_str env userId +:+ "/".

Lemma guard_bind {A} c e (k : unit -> res A) : (guard_or c e ≫= k) = if c then k tt else Err e.
Proof. by destruct c. Qed.

Lemma upload_path userId fileName contentType r :
  upload userId fileName contentType = Ok r ->
  ru_path r = (folder userId +:+ randomUUID +:+ "_" +:+ sanitizeFileName fileName)%string.
Proof.
  unfold createReceiptUploadUrl. rewrite !guard_bind. destruct (negb _); [|done]. destruct (bool_decide _); [|done].
  intros (b & _ & (d & _ & [= <-])%res_bind_ok)%res_bind_ok. cbn [ru_path]. unfold folder. by rewrite !string_app_assoc.
Qed.

(** A path is minted in the folder of the caller, below which it does not
    descend, and a caller may store it on a payment. *)
Theorem upload_confined userId fileName contentType r w :
  Forall (fun x => x <> 47) (text_of randomUUID) ->
  upload userId fileName contentType = Ok r ->
  assertOwnedReceiptPath env (Some (ru_path r)) userId w = (Ok tt, w) /\
  exists name, ru_path r = (folder userId +:+ name)%string /\ name <> EmptyString /\ (47 ∉ text_of name) /\
    contentType ∈ ALLOWED_RECEIPT_CONTENT_TYPES.
Proof.
  intros Hu H. pose proof (upload_path _ _ _ _ H) as ->. split.
  - unfold assertOwnedReceiptPath. fold (folder userId).
    change ("receipts/" ++ id_str env userId ++ "/")%string with (folder userId). by rewrite prefix_app.
  - eexists. split; [reflexivity|]. destruct (sanitized fileName) as [Hn Hs].
    assert (47 ∉ text_of (randomUUID +:+ "_" +:+ sanitizeFileName fileName)) as Hslash.
    { rewrite !text_of_app. intros [Hin|[Hin|Hin]%elem_of_app]%elem_of_app.
      - rewrite Forall_forall in Hu. by apply list_elem_of_In, Hu in Hin.
      - by apply list_elem_of_singleton in Hin.
      - rewrite Forall_forall in Hs. by apply list_elem_of_In, Hs, safe_range in Hin as [_ ?]. }
    split; [intros E; apply (f_equal text_of) in E; rewrite !text_of_app in E; by destruct (text_of randomUUID)|].
    split; [done|]. unfold createReceiptUploadUrl in H. rewrite !guard_bind in H.
    destruct (negb _); [|done]. by case_bool_decide.
Qed.

(** A download link, on every branch: it is for the receipt of the payment, and
    only the parent of the child, the owner of the plan's school or an
    administrator gets one. *)
Theorem download_outcomes paymentId user d :
  match findPaymentJoined paymentId (fun _ => true) d with
  | None => download paymentId user d = Err (FNotFound "Payment not found")
  | Some sn =>
      match truthy (p_receiptUrl (sn_payment sn)) with
      | None => download paymentId user d = Err (FNotFound "Receipt not available")
      | Some path =>
          if may_read user (sn_join sn) then
            forall r, download paymentId user d = Ok r -> rd_path r = path /\ exists b, supabase documents = Some b /\
              signed print (createSignedUrl b path (signedUrlTtlSeconds documents)) "create the download URL" = Ok (rd_signedUrl r)
          else download paymentId user d = Err (FForbidden "Not authorized to access this receipt")
      end
  end.
Proof.
  unfold createReceiptDownloadUrl. destruct (findPaymentJoined _ _ d) as [sn|]; [|done].
  destruct (truthy _) as [path|]; [|done]. destruct (may_read user (sn_join sn)); [|done].
  intros r H. cbn [guard_or mbind res_bind] in H. apply res_bind_ok in H as (b & Hb & (u & Hs & [= <-])%res_bind_ok).
  split; [done|]. unfold bucket in Hb. destruct (supabase documents) as [s|]; [|done]. injection Hb as ->. eauto.
Qed.

(** Of the path of a receipt a reader's request comes to: its bucket, and the
    link for the path. *)
Definition link_for (path : string) : res ReceiptDownload :=
  b ← bucket documents;
  data ← signed print (createSignedUrl b path (signedUrlTtlSeconds documents)) "create the download URL";
  Ok (mkReceiptDownload path data (signedUrlTtlSeconds documents)).

(** What a parent submits, the school reads: any path the submission accepts, an
    uploaded one among them, is the one whose link the readers of the payment get,
    and nobody else gets one. *)
Theorem receipt_reaches_readers eid amount user path key w r w1 reader :
  submitInstallmentPayment env eid amount user (Some path) key w = (Ok r, w1) -> sr_replay r = false ->
  String.prefix (folder (au_userId user)) path = true /\
  exists j, par_userId (j_parent j) = au_userId user /\
    download (sr_paymentId r) reader (db w1) =
      if may_read reader j then link_for path else Err (FForbidden "Not authorized to access this receipt").
Proof.
  intros H Hr. destruct (submit_recorded _ _ _ _ _ _ _ _ _ H Hr) as (Hrc & w0 & j & Hj & Hown & _ & Hp & Hjoin).
  assert (String.prefix (folder (au_userId user)) path = true) as Hpre.
  { specialize (Hrc w). unfold assertOwnedReceiptPath, ensure in Hrc.
    change ("receipts/" ++ id_str env (au_userId user) ++ "/")%string with (folder (au_userId user)) in Hrc.
    by destruct (String.prefix _ _). }
  split; [done|]. exists j. split; [done|]. unfold createReceiptDownloadUrl, findPaymentJoined.
  rewrite Hp, lookup_insert_eq. cbn [mbind option_bind]. change (p_enrollmentId (installmentPayment eid _ _ _ _ _)) with eid.
  rewrite Hjoin, Hj. cbn [mbind option_bind sn_payment sn_join installmentPayment p_receiptUrl].
  assert (truthy (Some path) = Some path) as -> by (destruct path; [done|reflexivity]).
  rewrite guard_bind. done.
Qed.

(** The submission does not look past the folder's name, so a path that climbs
    out of it is stored, and signed, as it is. *)
Theorem climbing_path_accepted userId rest w :
  assertOwnedReceiptPath env (Some (folder userId +:+ "../" +:+ rest)%string) userId w = (Ok tt, w).
Proof.
  unfold assertOwnedReceiptPath. change ("receipts/" ++ id_str env userId ++ "/")%string with (folder userId).
  by rewrite prefix_app.
Qed.

(** A school's owner who pays for a child of another school may submit a receipt
    but not read it: the parent's right is tied to the role. *)
Theorem owner_as_parent_refused paymentId user d sn path :
  findPaymentJoined paymentId (fun _ => true) d = Some sn -> truthy (p_receiptUrl (sn_payment sn)) = Some path ->
  au_role user = SCHOOL_OWNER -> par_userId (j_parent (sn_join sn)) = au_userId user ->
  s_ownerId (j_school (sn_join sn)) <> au_userId user ->
  download paymentId user d = Err (FForbidden "Not authorized to access this receipt").
Proof.
  intros H Hp Hr _ Hs. unfold createReceiptDownloadUrl. rewrite H, Hp, guard_bind. unfold may_read.
  by rewrite Hr, (bool_decide_false (s_ownerId _ = _)).
Qed.

(** ** The links of the lists *)

Lemma dots_after a b : (46 ∉ a) -> text_includes [46; 46] (a ++ b) = text_includes [46; 46] b.
Proof.
  induction a as [|c a IH]; [done|]. intros [Hc Ha]%not_elem_of_cons. cbn [app text_includes].
  rewrite (IH Ha). unfold startsWith. rewrite bool_decide_false; [done|]. destruct (a ++ b); simpl; congruence.
Qed.

Lemma trim_letter t : trim (114 :: t) <> [].
Proof.
  unfold trim. rewrite trimStart_id by (by intros c [= <-]). intros E.
  destruct (trimEnd_prefix (114 :: t)) as (s & Hs & F). rewrite E in Hs. cbn in Hs. subst s.
  inversion F as [|? ? H]. vm_compute in H. discriminate.
Qed.

(** A list shows a link for every uploaded receipt but one whose name has two
    dots in a row, which the upload keeps and the signing refuses. *)
Theorem listed_link userId fileName contentType r :
  (46 ∉ text_of (id_str env userId)) -> (46 ∉ text_of randomUUID) ->
  upload userId fileName contentType = Ok r ->
  createSignedUrlForPath print documents (ru_path r) =
    if has_dots (sanitizeFileName fileName) then Err (FBadRequest "Path is not a receipt object")
    else d ← link_for (ru_path r); Ok (rd_signedUrl d).
Proof.
  intros Hi Hu H. rewrite (upload_path _ _ _ _ H). set (path := (folder userId +:+ _)%string).
  assert (has_dots path = has_dots (sanitizeFileName fileName)) as Hd.
  { unfold has_dots, path, folder. rewrite !text_of_app. rewrite <- !(assoc_L (++)).
    rewrite !dots_after; [done|..]; try done; by (intros E%has_char_spec; vm_compute in E). }
  unfold createSignedUrlForPath. rewrite !guard_bind, Hd.
  assert (String.prefix "receipts/" path = true) as ->.
  { unfold path, folder. rewrite !string_app_assoc. apply prefix_app. }
  rewrite bool_decide_false; [|unfold path, folder; rewrite !string_app_assoc, text_of_app; apply trim_letter].
  cbn [negb andb]. destruct (has_dots (sanitizeFileName fileName)); [done|]. cbn [negb]. unfold link_for.
  destruct (bucket documents); [|done]. cbn [mbind res_bind]. by destruct (signed _ _ _).
Qed.
End Access.

(** ** Witness *)

Definition sample_storage : Storage := mkStorage
  (fun p _ => Settled 0 (inl (mkSupabaseResult (Some (mkSignedUpload p "t")) None)))
  (fun p _ _ => Settled 0 (inl (mkSupabaseResult (Some p) None))).
Definition sample_documents : DocumentsService := build (mkSettings None None) (Some sample_storage).
Definition submitted_receipt : res SubmitResult * World :=
  Eval vm_compute in submitInstallmentPayment sample_env 4%positive 1000 sample_parent (Some "receipts/u/a.png") None sample.

Lemma receipt_reaches_readers_witness :
  createReceiptDownloadUrl (fun _ => "10000"%string) sample_documents 20%positive sample_parent (db (snd submitted_receipt)) =
  Ok (mkReceiptDownload "receipts/u/a.png" "receipts/u/a.png" (inject_Z 600)).
Proof.
  destruct (receipt_reaches_readers sample_env (fun _ => "10000"%string) sample_documents 4%positive 1000 sample_parent
    "receipts/u/a.png" None sample (mkSubmitResult 20%positive false) (snd submitted_receipt) sample_parent)
    as (_ & j & Hj & H); [vm_compute; reflexivity|reflexivity|].
  etransitivity; [exact H|]. unfold may_read. rewrite Hj. vm_compute. reflexivity.
Defined.
