(* ===== verification/AuditTrail.v ===== *)
(** * The audit trail

    [src/audit/audit.service.ts] and [audit.controller.ts]: the query over the
    rows that [audit_record] of [Effects.v] appends.  Rows are kept oldest first,
    so [createdAt: 'desc'] is the reverse. *)

From Stdlib Require Import QArith Qround Lqa.
From S2P Require Import Prelude JsNumber JsText Pagination Schema Effects Samples PaymentHistory.

Local Open Scope Z_scope.

Record AuditFilters := mkAuditFilters {
  af_entityType : option string;
  af_entityId : option id;
  af_schoolId : option id;
  af_actorUserId : option id;
  af_take : option number;
  af_skip : option number }.

Record AuditPage := mkAuditPage { ap_items : list AuditEntry; ap_total : Z; ap_take : Z; ap_skip : Z }.

(** An absent filter matches every row; a given one matches no null column. *)
Definition matches {A} `{EqDecision A} (filter_ : option A) (column : option A) : bool :=
  match filter_ with None => true | Some x => bool_decide (column = Some x) end.

Definition audit_where (f : AuditFilters) (a : AuditEntry) : bool :=
  matches (af_entityType f) (Some (au_entityType a)) && matches (af_entityId f) (Some (au_entityId a))
  && matches (af_schoolId f) (au_schoolId a) && matches (af_actorUserId f) (a_userId <$> au_actor a).

(** [Math.max(n, low)] and [Math.min(n, high)] *)
Definition number_max (n : number) (low : Z) : number :=
  match n with
  | NaN => NaN
  | Infinite true => Finite (inject_Z low)
  | Infinite false => Infinite false
  | Finite q => if Qle_bool q (inject_Z low) then Finite (inject_Z low) else Finite q
  end.
Definition number_min (n : number) (high : Z) : number :=
  match n with
  | NaN => NaN
  | Infinite true => Infinite true
  | Infinite false => Finite (inject_Z high)
  | Finite q => if Qle_bool (inject_Z high) q then Finite (inject_Z high) else Finite q
  end.

Section Query.
(** The largest [skip] the database takes. *)
Context (max_int : Z).

(** Prisma takes an integer in range, and throws on [NaN], an infinity or a
    fraction. *)
Definition prisma_int (n : number) : res Z :=
  match n with
  | Finite q =>
      let k := Qfloor q in
      if Qeq_bool (inject_Z k) q && (Z.abs k <=? max_int) then Ok k else Err (FInternal "PrismaClientValidationError")
  | _ => Err (FInternal "PrismaClientValidationError")
  end.

Definition AuditService_list (f : AuditFilters) (d : DB) : res AuditPage :=
  let take_ := number_min (number_max (default (Finite 50) (af_take f)) 1) 200 in
  let skip := number_max (default (Finite 0) (af_skip f)) 0 in
  match prisma_int take_, prisma_int skip with
  | Ok take_, Ok skip =>
      let rows := filter (fun a => audit_where f a = true) (reverse (auditLog d)) in
      Ok (mkAuditPage (window skip take_ rows) (Z.of_nat (length rows)) take_ skip)
  | Err e, _ | _, Err e => Err e
  end.

Definition query_int (t : option text) : option number :=
  match t with Some ((_ :: _) as t) => Some (parseInt t) | _ => None end.

Definition AuditController_list (entityType : option string) (entityId schoolId actorUserId : option id)
    (take_ skip : option text) (d : DB) : res AuditPage :=
  AuditService_list (mkAuditFilters entityType entityId schoolId actorUserId (query_int take_) (query_int skip)) d.
End Query.

(** ** The query *)

Section Specs.
Context (max_int : Z) (max_int_big : 200 <= max_int).

Definition audit_rows (f : AuditFilters) (d : DB) : list AuditEntry :=
  filter (fun a => audit_where f a = true) (reverse (auditLog d)).

Lemma prisma_int_Z z : Z.abs z <= max_int -> prisma_int max_int (Finite (inject_Z z)) = Ok z.
Proof.
  intros H. unfold prisma_int. rewrite Qfloor_Z, (proj2 (Qeq_bool_iff _ _) (Qeq_refl _)), (proj2 (Z.leb_le _ _) H). done.
Qed.

Lemma prisma_int_inv n z : prisma_int max_int n = Ok z -> exists q, n = Finite q /\ (q == inject_Z z)%Q.
Proof.
  unfold prisma_int. destruct n as [| |q]; [done..|]. destruct (Qeq_bool _ q) eqn:E; [|done].
  destruct (_ <=? _); [|done]. intros [= <-]. exists q. split; [done|]. apply Qeq_bool_iff in E. by symmetry.
Qed.

(** A number at least [low], if it is one. *)
Lemma number_max_ge n low q : number_max n low = Finite q -> (inject_Z low <= q)%Q.
Proof.
  destruct n as [|[]|p]; try done; simpl; [by intros [= <-]; apply Qle_refl|].
  destruct (Qle_bool p (inject_Z low)) eqn:E; intros [= <-]; [apply Qle_refl|].
  destruct (Qlt_le_dec (inject_Z low) p) as [H|H]; [by apply Qlt_le_weak|]. apply Qle_bool_iff in H. congruence.
Qed.

(** A clamped number is between the bounds. *)
Lemma number_clamp n low high q :
  low <= high -> number_min (number_max n low) high = Finite q -> (inject_Z low <= q <= inject_Z high)%Q.
Proof.
  intros Hle H. assert ((inject_Z low <= inject_Z high)%Q) as Hle' by (by rewrite <- Zle_Qle).
  unfold number_min in H. destruct (number_max n low) as [|[]|p] eqn:E; try done; [injection H as <-; split; [done|apply Qle_refl]|].
  apply number_max_ge in E. destruct (Qle_bool (inject_Z high) p) eqn:Eh; injection H as <-; split; try done; [apply Qle_refl|].
  destruct (Qlt_le_dec p (inject_Z high)) as [Hp|Hp]; [by apply Qlt_le_weak|]. apply Qle_bool_iff in Hp. congruence.
Qed.

(** Whatever the query asks for, a page holds at most 200 rows of the trail, all
    of them matching, newest first, and the total counts every matching row. *)
Theorem audit_page_bounds f d page :
  AuditService_list max_int f d = Ok page ->
  1 <= ap_take page <= 200 /\ 0 <= ap_skip page /\
  ap_total page = Z.of_nat (length (audit_rows f d)) /\
  ap_items page = slice (ap_skip page) (ap_take page) (audit_rows f d) /\
  Z.of_nat (length (ap_items page)) <= 200 /\
  Forall (fun a => a ∈ auditLog d /\ audit_where f a = true) (ap_items page).
Proof.
  unfold AuditService_list. destruct (prisma_int _ (number_min _ _)) as [t|] eqn:Et; [|done].
  destruct (prisma_int _ (number_max _ _)) as [s|] eqn:Es; [|done]. intros [= <-]. cbn [ap_take ap_skip ap_total ap_items].
  apply prisma_int_inv in Et as (qt & [Ht1 Ht2]%number_clamp & Et); [|lia]. apply prisma_int_inv in Es as (qs & Hs%number_max_ge & Es).
  rewrite Et, <- Zle_Qle in Ht1, Ht2. rewrite Es, <- Zle_Qle in Hs. fold (audit_rows f d).
  rewrite (window_slice s t) by lia. repeat split; try done.
  - unfold slice. rewrite length_take. lia.
  - apply Forall_forall. intros a Ha%list_elem_of_In. rewrite <- (window_slice s t) in Ha by lia. apply window_incl in Ha.
    apply list_elem_of_filter in Ha as [Hw Ha]. by rewrite elem_of_reverse in Ha.
Qed.

(** The page a caller asks for with [take] and [skip] in range. *)
Lemma audit_page_at f d n k :
  af_take f = Some (Finite (inject_Z n)) -> af_skip f = Some (Finite (inject_Z k)) ->
  1 <= n <= 200 -> 0 <= k <= max_int ->
  AuditService_list max_int f d =
    Ok (mkAuditPage (slice k n (audit_rows f d)) (Z.of_nat (length (audit_rows f d))) n k).
Proof.
  intros Ht Hs Hn Hk. unfold AuditService_list. rewrite Ht, Hs.
  assert (forall z low, low <= z -> number_max (Finite (inject_Z z)) low = Finite (inject_Z z)) as Hmax.
  { intros z low H. simpl. destruct (Qle_bool _ _) eqn:E; [|done]. apply Qle_bool_iff in E. rewrite <- Zle_Qle in E.
    by replace low with z by lia. }
  assert (forall z high, z <= high -> number_min (Finite (inject_Z z)) high = Finite (inject_Z z)) as Hmin.
  { intros z high H. simpl. destruct (Qle_bool _ _) eqn:E; [|done]. apply Qle_bool_iff in E. rewrite <- Zle_Qle in E.
    by replace high with z by lia. }
  cbn [from_option].
  cbv [Datatypes.id]. rewrite !Hmax, Hmin, !prisma_int_Z by lia. rewrite window_slice by lia. done.
Qed.

(** A reader that asks for one page after the other, of any size the endpoint
    takes, has read the newest [n * m] rows of the trail that match, in order. *)
Theorem audit_pages_complete f d n m rows :
  1 <= n <= 200 -> Z.of_nat m * n <= max_int ->
  let page k := mkAuditFilters (af_entityType f) (af_entityId f) (af_schoolId f) (af_actorUserId f)
                  (Some (Finite (inject_Z n))) (Some (Finite (inject_Z ((Z.of_nat k - 1) * n)))) in
  (forall k, (1 <= k <= m)%nat -> exists t s z, AuditService_list max_int (page k) d = Ok (mkAuditPage (rows k) t s z)) ->
  mjoin (rows <$> seq 1 m) = take (m * Z.to_nat n) (audit_rows f d).
Proof.
  intros Hn Hm page Hrows. rewrite <- pages_prefix by lia. f_equal. apply list_fmap_ext. intros i k Hk.
  apply lookup_seq in Hk as [-> Hi]. destruct (Hrows (1 + i)%nat) as (t & s & z & H); [lia|].
  rewrite (audit_page_at _ d n ((Z.of_nat (1 + i) - 1) * n)) in H by (done || nia). by injection H.
Qed.

(** What was recorded last is read first. *)
Theorem audit_newest_first f d a :
  audit_where f a = true ->
  audit_rows f (set_auditLog (auditLog d ++ [a]) d) = a :: audit_rows f d.
Proof. intros H. unfold audit_rows. cbn [auditLog set_auditLog]. by rewrite reverse_snoc, filter_cons_True. Qed.
End Specs.

(** A [take] or [skip] that is not a number is not the default: it reaches the
    database as [NaN], and the request fails. *)
Theorem audit_take_not_a_number max_int entityType entityId schoolId actorUserId d :
  AuditController_list max_int entityType entityId schoolId actorUserId (Some (text_of "abc")) None d =
    Err (FInternal "PrismaClientValidationError").
Proof. reflexivity. Qed.

Definition sample_audit (k : Z) : AuditEntry :=
  mkAudit MIGRATION_WINDOW_CHANGED "School" (Z.to_pos k) (Some (mkActor 1 SUPER_ADMIN)) None None None None [].
Example audit_reads :
  (fun p => (length (ap_items p), ap_total p, ap_take p, au_entityId <$> ap_items p)) <$>
    match AuditController_list (2 ^ 31) (Some "School"%string) None None (Some 1%positive) (Some (text_of "2")) None
            (set_auditLog (sample_audit <$> [1; 2; 3]) sample_db) with Ok p => [p] | Err _ => [] end =
  [(2%nat, 3, 2, [3%positive; 2%positive])].
Proof. vm_compute. reflexivity. Qed.
