(* ===== verification/Pii.v ===== *)
(** * Personal columns, encrypted at rest

    [src/common/encryption.ts] and [src/common/pii-crypto.ts], and the client
    extension of [src/prisma/prisma.service.ts] that applies them to every query.
    A value of the platform is a tree (no object occurs twice in the arguments of
    a call), so writing a field in place is replacing it.  AES-256-GCM, HKDF and
    the platform's encodings are parameters; [randomBytes] is an oracle that
    draws anew for every value, named by its place in the arguments. *)

From Stdlib Require Import QArith.
From S2P Require Import Prelude JsNumber JsText.

Local Open Scope Z_scope.

Abbreviation bytes := (list Z).

(** ** encryption.ts *)

Definition IV_LENGTH : nat := 12.
Definition AUTH_TAG_LENGTH : nat := 16.

Record Cipher := mkCipher {
  aes_seal : bytes -> bytes -> bytes -> bytes * bytes;
  aes_open : bytes -> bytes -> bytes -> bytes -> option bytes;
  hkdf : bytes -> string -> string -> Z -> bytes;
  from_hex : text -> bytes;
  to_base64 : bytes -> text;
  from_base64 : text -> bytes;
  from_utf8 : bytes -> text }.

Section Encryption.
Context (c : Cipher).

(** The module's [_key] *)
Definition initEncryptionKey (hexKey : option text) : option bytes :=
  match hexKey with
  | Some h => if js_length h <? 64 then None else Some (from_hex c h)
  | None => None
  end.

Definition deriveKey (_key : option bytes) : res bytes :=
  match _key with
  | Some key => Ok key
  | None => Err (FInternal "ENCRYPTION_KEY must be a 64-character hex string (32 bytes).")
  end.
Definition isEncryptionEnabled (_key : option bytes) : bool := bool_decide (is_Some _key).

Definition HKDF_SALT : string := "lopay/hkdf/v1".
Definition deriveSubkey (_key : option bytes) (label : string) (length_ : Z) : option bytes :=
  (fun key => hkdf c key HKDF_SALT label length_) <$> _key.

Definition seal (key iv : bytes) (plaintext : text) : text :=
  let '(encrypted, authTag) := aes_seal c key iv (utf8_bytes plaintext) in
  to_base64 c (iv ++ encrypted ++ authTag).
Definition encrypt (_key : option bytes) (iv : bytes) (plaintext : text) : res text :=
  match deriveKey _key with Err e => Err e | Ok key => Ok (seal key iv plaintext) end.

Definition open_ (key : bytes) (ciphertext : text) : res text :=
  let buf := from_base64 c ciphertext in
  if (length buf <? IV_LENGTH + AUTH_TAG_LENGTH + 1)%nat then Err (FInternal "Invalid ciphertext: too short")
  else
    let iv := take IV_LENGTH buf in
    let authTag := drop (length buf - AUTH_TAG_LENGTH) buf in
    let encrypted := take (length buf - AUTH_TAG_LENGTH - IV_LENGTH) (drop IV_LENGTH buf) in
    match aes_open c key iv encrypted authTag with
    | Some plaintext => Ok (from_utf8 c plaintext)
    | None => Err (FInternal "Unsupported state or unable to authenticate data")
    end.
Definition decrypt (_key : option bytes) (ciphertext : text) : res text :=
  match deriveKey _key with Err e => Err e | Ok key => open_ key ciphertext end.
End Encryption.

(** ** Values *)

(** [Instance_] is a [Date], a [Decimal] or a [Buffer]: an object that is not
    plain. *)
Inductive js :=
| Undefined | Null | Bool (b : bool) | Num (q : Q) | Str (t : text)
| Arr (l : list js) | Obj (fs : list (string * js)) | Instance_ (tag : string).

Definition PII_FIELDS : list string := ["phoneNumber"; "phone"; "bankName"; "accountName"; "accountNumber"]%string.
Definition is_pii (key : string) : bool := bool_decide (key ∈ PII_FIELDS).

Definition WRITE_OPERATIONS : list string :=
  ["create"; "createMany"; "createManyAndReturn"; "update"; "updateMany"; "updateManyAndReturn"; "upsert"]%string.
Definition isWriteOperation (operation : string) : bool := bool_decide (operation ∈ WRITE_OPERATIONS).

(** The place of a value in the arguments. *)
Inductive step := Key (k : string) | Index (i : nat).
Abbreviation path := (list step).

Section Walks.
Context {A B : Type} (f : nat -> A -> B).
Fixpoint mapi (i : nat) (l : list A) : list B :=
  match l with [] => [] | x :: l' => f i x :: mapi (S i) l' end.
End Walks.

(** [f] on the named fields of a plain object. *)
Definition on_fields (names : list string) (f : string -> js -> js) (x : js) : js :=
  match x with
  | Obj fs => Obj (map (fun '(k, v) => (k, if bool_decide (k ∈ names) then f k v else v)) fs)
  | _ => x
  end.
(** [f] on each item, or on a single one. *)
Definition each (f : path -> js -> js) (p : path) (x : js) : js :=
  match x with
  | Arr l => Arr (mapi (fun i y => f (Index i :: p) y) 0 l)
  | _ => f p x
  end.
Definition has_field (k : string) (fs : list (string * js)) : bool := existsb (fun kv => String.eqb kv.1 k) fs.

(** ** Writing *)

Section Write.
(** [encrypt] with the bytes drawn at a place. *)
Context (enc : path -> text -> text).

Definition encrypt_text (p : path) (v : js) : js :=
  match v with Str ((_ :: _) as t) => Str (enc p t) | _ => v end.
(** A scalar, or its [{ set: ... }] form. *)
Definition encrypt_scalar (p : path) (v : js) : js :=
  match v with
  | Str _ => encrypt_text p v
  | _ => on_fields ["set"%string] (fun _ => encrypt_text (Key "set" :: p)) v
  end.

Fixpoint encryptWriteData (p : path) (data : js) {struct data} : js :=
  match data with
  | Arr l => Arr (mapi (fun i x => encryptWriteData (Index i :: p) x) 0 l)
  | Obj fs =>
      Obj (map (fun '(k, v) =>
        (k, if is_pii k then encrypt_scalar (Key k :: p) v else encryptRelationWrite (Key k :: p) v)) fs)
  | _ => data
  end
with encryptRelationWrite (p : path) (relation : js) {struct relation} : js :=
  match relation with
  | Arr l => Arr (mapi (fun i x => encryptRelationWrite (Index i :: p) x) 0 l)
  | Obj fs =>
      Obj (map (fun '(k, v) =>
        let q := Key k :: p in
        (k,
         if String.eqb k "create" then encryptWriteData q v
         else if String.eqb k "update" then
           match v with
           | Obj us =>
               if has_field "data" us then on_fields ["data"%string] (fun k' x => encryptWriteData (Key k' :: q) x) v
               else encryptWriteData q v
           | _ => v
           end
         else if String.eqb k "upsert" then
           each (fun q' item => on_fields ["create"; "update"]%string (fun k' x => encryptWriteData (Key k' :: q') x) item) q v
         else if String.eqb k "connectOrCreate" then
           each (fun q' item => on_fields ["create"%string] (fun k' x => encryptWriteData (Key k' :: q') x) item) q v
         else if String.eqb k "createMany" then
           on_fields ["data"%string] (fun k' x => encryptWriteData (Key k' :: q) x) v
         else if String.eqb k "updateMany" then
           each (fun q' item => on_fields ["data"%string] (fun k' x => encryptWriteData (Key k' :: q') x) item) q v
         else v)) fs)
  | _ => relation
  end.

Definition encryptPiiInArgs (operation : string) (args : js) : js :=
  if negb (isWriteOperation operation) then args
  else
    on_fields (if String.eqb operation "upsert" then ["create"; "update"] else ["data"])%string
      (fun k x => encryptWriteData [Key k] x) args.
End Write.

(** ** Reading *)

Section Read.
(** [decrypt] *)
Context (dec : text -> res text).

Definition tryDecrypt (value : text) : text := match dec value with Ok t => t | Err _ => value end.

Fixpoint walkDecrypt (depth : nat) (node : js) {struct node} : js :=
  if (12 <? depth)%nat then node
  else
    match node with
    | Arr l => Arr (map (walkDecrypt (S depth)) l)
    | Obj fs =>
        Obj (map (fun '(k, v) =>
          (k, match v with
              | Str ((_ :: _) as t) => if is_pii k then Str (tryDecrypt t) else v
              | Arr _ | Obj _ => walkDecrypt (S depth) v
              | _ => v
              end)) fs)
    | _ => node
    end.
Definition decryptPiiDeep (node : js) : js := walkDecrypt 0 node.
End Read.

(** ** The client *)

Section Client.
Context (c : Cipher) (randomBytes : path -> bytes).
Context {W : Type} (query : string -> js -> W -> res js * W).

(** Any Prisma operation, on a client made while [_key] was set or not. *)
Definition withPiiEncryption (_key : option bytes) (operation : string) (args : js) (w : W) : res js * W :=
  match _key with
  | None => query operation args w
  | Some key =>
      let args := if isWriteOperation operation
                  then encryptPiiInArgs (fun p => seal c key (randomBytes p)) operation args else args in
      match query operation args w with
      | (Ok result, w) => (Ok (decryptPiiDeep (open_ c key) result), w)
      | (Err e, w) => (Err e, w)
      end
  end.
End Client.

(** ** Text and back *)

(** What the platform promises of its codecs and of AES-GCM: a ciphertext as
    long as its plaintext, a 16-byte tag, and no more than three bytes for four
    characters of base64. *)
Class CipherLaws (c : Cipher) : Prop := {
  seal_length key iv pt : length (aes_seal c key iv pt).1 = length pt;
  tag_length key iv pt : length (aes_seal c key iv pt).2 = AUTH_TAG_LENGTH;
  open_seal key iv pt : aes_open c key iv (aes_seal c key iv pt).1 (aes_seal c key iv pt).2 = Some pt;
  base64_back b : from_base64 c (to_base64 c b) = b;
  base64_short t : (4 * length (from_base64 c t) <= 3 * length t)%nat;
  utf8_back t : Forall code_point t -> from_utf8 c (utf8_bytes t) = t }.

Section Text.
Context (c : Cipher) `{!CipherLaws c}.

(** What was encrypted is read back; an empty text is not, which is why the
    walks leave it alone. *)
Theorem open_sealed key iv t :
  length iv = IV_LENGTH -> Forall code_point t ->
  open_ c key (seal c key iv t) =
    match t with [] => Err (FInternal "Invalid ciphertext: too short") | _ => Ok t end.
Proof.
  intros Hiv Hcp. pose proof (seal_length key iv (utf8_bytes t)) as Hl. pose proof (tag_length key iv (utf8_bytes t)) as Ht.
  pose proof (open_seal key iv (utf8_bytes t)) as Ho. unfold seal, open_.
  destruct (aes_seal c key iv (utf8_bytes t)) as [ct tag]. cbn [fst snd] in *.
  rewrite base64_back, !length_app, Hiv, Hl, Ht. destruct t as [|x t]; [done|].
  assert (1 <= length (utf8_bytes (x :: t)))%nat as H1 by (pose proof (proj1 (utf8_bytes_long (x :: t))); cbn in *; lia).
  set (n := length (utf8_bytes (x :: t))) in *.
  rewrite (proj2 (Nat.ltb_ge _ _)) by lia.
  rewrite take_app_length', drop_app_length' by done.
  rewrite (take_app_length' ct tag) by lia.
  rewrite (app_assoc iv), (drop_app_length' (iv ++ ct)) by (rewrite length_app; lia).
  rewrite Ho, utf8_back by done. done.
Qed.

(** A text of fewer than 39 characters is never taken for a ciphertext: phone
    and account numbers stored before encryption are read as they are. *)
Theorem short_text_is_plain key t : (length t < 39)%nat -> tryDecrypt (open_ c key) t = t.
Proof.
  intros H. unfold tryDecrypt, open_. pose proof (base64_short t).
  rewrite (proj2 (Nat.ltb_lt _ _)); [done|]. unfold IV_LENGTH, AUTH_TAG_LENGTH. lia.
Qed.
End Text.

(** ** Trees *)

(** Objects and arrays on the longest way down. *)
Fixpoint height (x : js) : nat :=
  match x with
  | Arr l => S (foldr (fun y n => Nat.max (height y) n) 0%nat l)
  | Obj fs => S (foldr (fun '(_, v) n => Nat.max (height v) n) 0%nat fs)
  | _ => 0%nat
  end.

Lemma height_item x l : x ∈ l -> (height x < height (Arr l))%nat.
Proof. cbn [height]. induction 1; simpl; lia. Qed.
Lemma height_field k v fs : (k, v) ∈ fs -> (height v < height (Obj fs))%nat.
Proof. cbn [height]. induction fs as [|[k' v'] fs IH]; [by intros ?%elem_of_nil|]. intros [[= -> ->]|H]%elem_of_cons; simpl in *; [lia|]. specialize (IH H). lia. Qed.

Lemma mapi_ext {A B} (f g : nat -> A -> B) i l :
  (forall j x, x ∈ l -> f j x = g j x) -> mapi f i l = mapi g i l.
Proof. revert i. induction l as [|x l IH]; intros i H; [done|]. simpl. rewrite H by left. f_equal. apply IH. intros. apply H. by right. Qed.
Lemma map_mapi {A B C} (g : B -> C) (f : nat -> A -> B) i l : map g (mapi f i l) = mapi (fun j x => g (f j x)) i l.
Proof. revert i. induction l as [|x l IH]; intros i; [done|]. simpl. by rewrite IH. Qed.
Lemma mapi_id {A} (f : nat -> A -> A) i l : (forall j x, x ∈ l -> f j x = x) -> mapi f i l = l.
Proof. revert i. induction l as [|x l IH]; intros i H; [done|]. simpl. rewrite H by left. f_equal. apply IH. intros. apply H. by right. Qed.
Lemma elem_of_mapi {A B} (f : nat -> A -> B) i l y : y ∈ mapi f i l -> exists j x, x ∈ l /\ y = f j x.
Proof.
  revert i. induction l as [|x l IH]; intros i; [by intros ?%elem_of_nil|]. simpl.
  intros [->|H]%elem_of_cons; [exists i, x; split; [left|done]|].
  destruct (IH _ H) as (j & z & Hz & ->). exists j, z. split; [by right|done].
Qed.
Lemma elem_of_map_fields (f : string -> js -> js) (fs : list (string * js)) k v :
  (k, v) ∈ map (fun '(k, v) => (k, f k v)) fs -> exists u, (k, u) ∈ fs /\ v = f k u.
Proof. intros ([k' u] & [= -> ->] & H)%list_elem_of_fmap. eauto. Qed.
Lemma map_fields_id (f : string -> js -> js) (fs : list (string * js)) :
  (forall k v, (k, v) ∈ fs -> f k v = v) -> map (fun '(k, v) => (k, f k v)) fs = fs.
Proof.
  induction fs as [|[k v] fs IH]; intros H; [done|]. simpl. rewrite H by left. f_equal. apply IH.
  intros k' v' Hk. apply H. by right.
Qed.
Lemma map_fields_map (f g : string -> js -> js) (fs : list (string * js)) :
  map (fun '(k, v) => (k, f k v)) (map (fun '(k, v) => (k, g k v)) fs) = map (fun '(k, v) => (k, f k (g k v))) fs.
Proof. induction fs as [|[k v] fs IH]; [done|]. simpl. by rewrite IH. Qed.
Lemma has_field_map k (f : string -> js -> js) (fs : list (string * js)) :
  has_field k (map (fun '(k, v) => (k, f k v)) fs) = has_field k fs.
Proof. induction fs as [|[k' v] fs IH]; [done|]. simpl in *. by rewrite IH. Qed.

(** ** Reading what was written *)

Section Roundtrip.
Context (enc : path -> text -> text) (dec : text -> res text).
Context (dec_enc : forall p x t, Forall code_point (x :: t) -> dec (enc p (x :: t)) = Ok (x :: t)).
Context (enc_text : forall p x t, enc p (x :: t) <> []).

(** Personal columns hold scalars, and no text in them reads as a ciphertext. *)
Fixpoint clean (x : js) : Prop :=
  match x with
  | Arr l => foldr (fun y P => clean y /\ P) True l
  | Obj fs => foldr (fun '(k, v) P =>
      (if is_pii k then match v with Str t => Forall code_point t /\ tryDecrypt dec t = t | Arr _ | Obj _ => False | _ => True end else clean v) /\ P)
      True fs
  | _ => True
  end.

Lemma clean_item x l : clean (Arr l) -> x ∈ l -> clean x.
Proof. cbn [clean]. intros H. induction 1; simpl in H; tauto. Qed.
Lemma clean_field k v fs : clean (Obj fs) -> (k, v) ∈ fs ->
  if is_pii k then match v with Str t => Forall code_point t /\ tryDecrypt dec t = t | Arr _ | Obj _ => False | _ => True end else clean v.
Proof.
  cbn [clean]. intros H Hin. induction fs as [|[k' v'] fs IH]; [by apply elem_of_nil in Hin|].
  apply elem_of_cons in Hin as [[= -> ->]|Hin]; simpl in H; tauto.
Qed.

(** One field of an object that is read. *)
Definition walk_field (depth : nat) (k : string) (v : js) : js :=
  match v with
  | Str ((_ :: _) as t) => if is_pii k then Str (tryDecrypt dec t) else v
  | Arr _ | Obj _ => walkDecrypt dec (S depth) v
  | _ => v
  end.
Lemma walk_obj depth fs : (depth <= 12)%nat ->
  walkDecrypt dec depth (Obj fs) = Obj (map (fun '(k, v) => (k, walk_field depth k v)) fs).
Proof. intros H. cbn [walkDecrypt]. by rewrite (proj2 (Nat.ltb_ge _ _)) by lia. Qed.
Lemma walk_arr depth l : (depth <= 12)%nat -> walkDecrypt dec depth (Arr l) = Arr (map (walkDecrypt dec (S depth)) l).
Proof. intros H. cbn [walkDecrypt]. by rewrite (proj2 (Nat.ltb_ge _ _)) by lia. Qed.

Lemma walk_field_plain n k y : is_pii k = false -> walk_field n k y = walkDecrypt dec (S n) y.
Proof. intros Hk. destruct y as [| | | |[|]| | |]; cbn [walk_field walkDecrypt]; rewrite ?Hk; by destruct (12 <? S n)%nat. Qed.

(** A field nothing was written to. *)
Lemma walk_field_clean n k v fs : clean (Obj fs) -> (k, v) ∈ fs ->
  (clean v -> walkDecrypt dec (S n) v = v) -> walk_field n k v = v.
Proof.
  intros H Hin IH. pose proof (clean_field _ _ _ H Hin) as Hc. destruct (is_pii k) eqn:Hk.
  - destruct v as [| | | |[|x t]| | |]; try done. cbn [walk_field]. by rewrite Hk, (proj2 Hc).
  - rewrite walk_field_plain by done. auto.
Qed.

(** An encrypted column. *)
Lemma walk_field_scalar n k v fs p : clean (Obj fs) -> (k, v) ∈ fs -> is_pii k = true ->
  walk_field n k (encrypt_scalar enc p v) = v.
Proof.
  intros H Hin Hk. pose proof (clean_field _ _ _ H Hin) as Hc. rewrite Hk in Hc.
  destruct v as [| | | |[|x t]| | |]; try done. cbn [encrypt_scalar encrypt_text walk_field].
  pose proof (enc_text p x t). pose proof (dec_enc p x t (proj1 Hc)) as Hd. destruct (enc p (x :: t)) as [|y u]; [done|].
  by rewrite Hk; unfold tryDecrypt; rewrite Hd.
Qed.

(** Reading undoes [f] on the objects below [x]. *)
Definition undone (n : nat) (x : js) (f : js -> js) : Prop := clean x -> walkDecrypt dec n (f x) = x.

Lemma on_fields_undone n x names f :
  (n + height x <= 13)%nat -> forallb (fun k => negb (is_pii k)) names = true -> undone n x (fun x => x) ->
  (forall k v fs, x = Obj fs -> (k, v) ∈ fs -> undone (S n) v (fun v => v) /\ undone (S n) v (f k)) ->
  undone n x (on_fields names f).
Proof.
  intros Hn Hnames Hx H Hc. destruct x as [| | | | | |fs|]; try (by apply Hx). cbn [on_fields].
  rewrite walk_obj by (cbn [height] in Hn; lia). f_equal. rewrite (map_fields_map (walk_field n)).
  apply map_fields_id. intros k v Hin. destruct (H k v fs eq_refl Hin) as [Hid Hf].
  case_bool_decide as Hk; [|by eapply walk_field_clean].
  assert (is_pii k = false) as Hp.
  { rewrite forallb_forall in Hnames. apply negb_true_iff, Hnames. by apply list_elem_of_In. }
  pose proof (clean_field _ _ _ Hc Hin) as Hcv. rewrite Hp in Hcv. rewrite walk_field_plain by done. by apply Hf.
Qed.

Lemma arr_undone n l f :
  (n <= 12)%nat -> (forall i x, x ∈ l -> undone (S n) x (f i)) -> undone n (Arr l) (fun _ => Arr (mapi f 0 l)).
Proof.
  intros Hn H Hc. rewrite walk_arr by done. f_equal. rewrite map_mapi. apply mapi_id. intros i x Hx.
  apply H; [done|]. by eapply clean_item.
Qed.

Lemma each_undone n p x f :
  (n + height x <= 13)%nat -> (forall q, undone n x (f q)) -> (forall l q y, x = Arr l -> y ∈ l -> undone (S n) y (f q)) ->
  undone n x (each f p).
Proof.
  intros Hn Hx H Hc. destruct x as [| | | | |l| |]; try (by apply Hx). cbn [each].
  apply (arr_undone n l (fun i y => f (Index i :: p) y)); [cbn [height] in Hn; lia| |done]. intros i y. by apply H.
Qed.

(** [undone] at every place below a tree. *)
Definition undone_at (n : nat) (x : js) : Prop :=
  undone n x (fun x => x) /\
  forall p, undone n x (encryptWriteData enc p) /\ undone n x (encryptRelationWrite enc p).

Lemma undone_scalar n x : height x = 0%nat -> undone_at n x.
Proof.
  destruct x; try done; intros _; (split; [|split]); intros _; cbn [encryptWriteData encryptRelationWrite walkDecrypt];
    by destruct (12 <? n)%nat.
Qed.

Lemma undone_arr n l : (n <= 12)%nat -> (forall x, x ∈ l -> undone_at (S n) x) -> undone_at n (Arr l).
Proof.
  intros Hn H. split; [|intros p; split].
  - intros Hc. rewrite walk_arr by done. f_equal. rewrite <- (map_id l) at 2. apply map_ext_in.
    intros x Hx%list_elem_of_In. apply (proj1 (H x Hx)). by eapply clean_item.
  - apply (arr_undone n l (fun i x => encryptWriteData enc (Index i :: p) x)); [done|]. intros i x Hx. apply (H x Hx).
  - apply (arr_undone n l (fun i x => encryptRelationWrite enc (Index i :: p) x)); [done|]. intros i x Hx. apply (H x Hx).
Qed.

(** Reading undoes a field of a relation's write. *)
Definition write_field (p : path) (k : string) (v : js) : js :=
  let q := Key k :: p in
  if String.eqb k "create" then encryptWriteData enc q v
  else if String.eqb k "update" then
    match v with
    | Obj us =>
        if has_field "data" us then on_fields ["data"%string] (fun k' x => encryptWriteData enc (Key k' :: q) x) v
        else encryptWriteData enc q v
    | _ => v
    end
  else if String.eqb k "upsert" then
    each (fun q' item => on_fields ["create"; "update"]%string (fun k' x => encryptWriteData enc (Key k' :: q') x) item) q v
  else if String.eqb k "connectOrCreate" then
    each (fun q' item => on_fields ["create"%string] (fun k' x => encryptWriteData enc (Key k' :: q') x) item) q v
  else if String.eqb k "createMany" then
    on_fields ["data"%string] (fun k' x => encryptWriteData enc (Key k' :: q) x) v
  else if String.eqb k "updateMany" then
    each (fun q' item => on_fields ["data"%string] (fun k' x => encryptWriteData enc (Key k' :: q') x) item) q v
  else v.
Lemma relation_obj p fs : encryptRelationWrite enc p (Obj fs) = Obj (map (fun '(k, v) => (k, write_field p k v)) fs).
Proof. reflexivity. Qed.
Definition NESTED_WRITES : list string := ["create"; "update"; "upsert"; "connectOrCreate"; "createMany"; "updateMany"]%string.
(** [where], [connect], [disconnect], [delete], [set] and the like go as they are. *)
Lemma write_field_other p k v : k ∉ NESTED_WRITES -> write_field p k v = v.
Proof.
  intros H. unfold write_field.
  repeat match goal with
  | |- context [String.eqb k ?s] =>
      destruct (String.eqb_spec k s) as [->|_]; [exfalso; apply H; unfold NESTED_WRITES; set_solver|]
  end. done.
Qed.
Lemma pii_not_nested k : is_pii k = true -> k ∉ NESTED_WRITES.
Proof.
  unfold is_pii. intros H%bool_decide_eq_true Hn. assert (Forall (fun k => bool_decide (k ∈ NESTED_WRITES) = false) PII_FIELDS) as F
    by (repeat constructor).
  rewrite Forall_forall in F. apply list_elem_of_In, F in H. by rewrite bool_decide_eq_false in H.
Qed.
Lemma data_obj p fs : encryptWriteData enc p (Obj fs) =
  Obj (map (fun '(k, v) => (k, if is_pii k then encrypt_scalar enc (Key k :: p) v
                               else encryptRelationWrite enc (Key k :: p) v)) fs).
Proof. reflexivity. Qed.

(** The fields of a tree whose descendants are undone. *)
Definition below (h n : nat) : Prop := forall m x, (height x < h)%nat -> (m + height x <= 13)%nat -> (n < m)%nat -> undone_at m x.

Lemma on_fields_data n x h names q :
  (height x <= h)%nat -> (n + height x <= 13)%nat -> below h n -> undone n x (fun x => x) ->
  forallb (fun k => negb (is_pii k)) names = true ->
  undone n x (on_fields names (fun k y => encryptWriteData enc (Key k :: q) y)).
Proof.
  intros Hx Hn IH Hid Hnames. apply on_fields_undone; try done. intros k v fs -> Hin.
  pose proof (height_field _ _ _ Hin). destruct (IH (S n) v) as [Hv Hw]; [lia..|]. split; [done|]. apply Hw.
Qed.

Lemma write_field_undone n p k v h :
  (height v <= h)%nat -> (n + height v <= 13)%nat -> below h n -> undone_at n v -> undone n v (write_field p k).
Proof.
  intros Hh Hn IH [Hid Hv]. unfold write_field.
  assert (forall names q, forallb (fun k => negb (is_pii k)) names = true ->
    undone n v (each (fun q' item => on_fields names (fun k' x => encryptWriteData enc (Key k' :: q') x) item) q)) as Heach.
  { intros names q Hnames. apply each_undone; [done| |].
    - intros q'. by eapply on_fields_data.
    - intros l q' y -> Hy. pose proof (height_item _ _ Hy). destruct (IH (S n) y) as [Hy1 _]; [lia..|].
      eapply (on_fields_data _ _ h); try done; [lia..|]. intros m x Hm Hmx Hlt. apply IH; lia. }
  destruct (String.eqb k "create"); [apply Hv|]. destruct (String.eqb k "update").
  { destruct v as [| | | | | |us|]; try (by apply Hid). intros Hc. cbn beta iota.
    destruct (has_field "data" us); [|by apply Hv]. revert Hc. by eapply (on_fields_data n (Obj us) h). }
  destruct (String.eqb k "upsert"); [by apply Heach|]. destruct (String.eqb k "connectOrCreate"); [by apply Heach|].
  destruct (String.eqb k "createMany"); [by eapply on_fields_data|]. destruct (String.eqb k "updateMany"); [by apply Heach|done].
Qed.

Lemma undone_obj n fs :
  (n + height (Obj fs) <= 13)%nat -> below (height (Obj fs)) n -> undone_at n (Obj fs).
Proof.
  intros Hn IH. assert (n <= 12)%nat as Hn' by (cbn [height] in Hn; lia).
  assert (forall k v, (k, v) ∈ fs -> undone_at (S n) v) as Hfs.
  { intros k v Hin. pose proof (height_field _ _ _ Hin). apply IH; lia. }
  split; [|intros p; split]; intros Hc; rewrite ?data_obj, ?relation_obj, walk_obj by done; f_equal.
  - apply map_fields_id. intros k v Hin. eapply walk_field_clean; [done..|]. apply (Hfs k v Hin).
  - rewrite (map_fields_map (walk_field n)). apply map_fields_id. intros k v Hin.
    pose proof (clean_field _ _ _ Hc Hin) as Hcv. destruct (is_pii k) eqn:Hk; [by eapply walk_field_scalar|].
    rewrite walk_field_plain by done. by apply (Hfs k v Hin).
  - rewrite (map_fields_map (walk_field n)). apply map_fields_id. intros k v Hin.
    pose proof (clean_field _ _ _ Hc Hin) as Hcv. pose proof (height_field _ _ _ Hin). destruct (is_pii k) eqn:Hk.
    + replace (write_field p k v) with v; [eapply walk_field_clean; [done..|]; apply (Hfs k v Hin)|].
      symmetry. by apply write_field_other, pii_not_nested.
    + rewrite walk_field_plain by done. apply (write_field_undone _ _ _ _ (height v)); try done; [lia| |by eapply Hfs].
      intros m x Hm Hmx Hlt. apply IH; lia.
Qed.

Lemma undone_tree x n : (n + height x <= 13)%nat -> undone_at n x.
Proof.
  remember (height x) as h eqn:E. assert (height x <= h)%nat as Hh by lia. clear E. intros Hn.
  assert (n + height x <= 13)%nat as Hx by lia. clear Hn. revert x n Hh Hx.
  induction h as [|h IH]; intros x n Hh Hx; [apply undone_scalar; lia|].
  destruct x as [| | | | |l|fs|]; try by apply undone_scalar.
  - apply undone_arr; [cbn [height] in Hx; lia|]. intros x Hin. pose proof (height_item _ _ Hin). apply IH; lia.
  - apply undone_obj; [done|]. intros m x Hm Hmx Hlt. apply IH; lia.
Qed.

(** What was written, whatever relations it went through, is read back as it
    was, down to thirteen levels. *)
Theorem pii_tree_roundtrip p x :
  clean x -> (height x <= 13)%nat -> decryptPiiDeep dec (encryptWriteData enc p x) = x.
Proof. intros Hc Hh. destruct (undone_tree x 0) as [_ H]; [lia|]. by apply H. Qed.
End Roundtrip.

(** ** What the database holds *)

(** [stores listed d k v]: a write of [data] [d] sets a column [k] of some row to
    [v], and [nested listed r k v] that a relation's write [r] does, through any
    of Prisma's nested writes, however deep: [create], an [update] given as an
    object (with or without [data]) or as a list, [upsert], [connectOrCreate],
    [createMany] and [updateMany]. [listed] says whether an [update] given as a
    list is on the way. *)
Definition items (x : js) : list js := match x with Arr l => l | _ => [x] end.
Definition item_writes : list (string * string) :=
  [("upsert", "create"); ("upsert", "update"); ("connectOrCreate", "create"); ("updateMany", "data")]%string.

Inductive stores : bool -> js -> string -> js -> Prop :=
| stores_row b l d k v : d ∈ l -> stores b d k v -> stores b (Arr l) k v
| stores_column fs k v : (k, v) ∈ fs -> is_pii k = true -> stores false (Obj fs) k v
| stores_relation b fs r x k v : (r, x) ∈ fs -> is_pii r = false -> nested b x k v -> stores b (Obj fs) k v
with nested : bool -> js -> string -> js -> Prop :=
| nested_list b l d k v : d ∈ l -> nested b d k v -> nested b (Arr l) k v
| nested_create b fs d k v : ("create"%string, d) ∈ fs -> stores b d k v -> nested b (Obj fs) k v
| nested_update b fs us d k v : ("update"%string, Obj us) ∈ fs -> has_field "data" us = true ->
    ("data"%string, d) ∈ us -> stores b d k v -> nested b (Obj fs) k v
| nested_update_direct b fs us k v : ("update"%string, Obj us) ∈ fs -> has_field "data" us = false ->
    stores b (Obj us) k v -> nested b (Obj fs) k v
| nested_update_list b fs l us d k v : ("update"%string, Arr l) ∈ fs -> Obj us ∈ l -> ("data"%string, d) ∈ us ->
    stores b d k v -> nested true (Obj fs) k v
| nested_createMany b fs us d k v : ("createMany"%string, Obj us) ∈ fs -> ("data"%string, d) ∈ us ->
    stores b d k v -> nested b (Obj fs) k v
| nested_item b fs op y gs part d k v : (op, y) ∈ fs -> Obj gs ∈ items y -> (op, part) ∈ item_writes -> (part, d) ∈ gs ->
    stores b d k v -> nested b (Obj fs) k v.

Scheme stores_nested := Induction for stores Sort Prop with nested_stores := Induction for nested Sort Prop.
Combined Scheme stores_nested_ind from stores_nested, nested_stores.

(** The text a column is set to. *)
Definition column_text (v : js) : option text :=
  match v with
  | Str t => Some t
  | Obj fs => match find (fun kv => String.eqb kv.1 "set") fs with Some (_, Str t) => Some t | _ => None end
  | _ => None
  end.

Section AtRest.
Context (enc : path -> text -> text).

Definition sealed (v : js) : Prop := forall x t, column_text v = Some (x :: t) -> exists p u, x :: t = enc p u.

Lemma on_fields_inv names f x fs : on_fields names f x = Obj fs ->
  exists gs, x = Obj gs /\ fs = map (fun '(k, v) => (k, if bool_decide (k ∈ names) then f k v else v)) gs.
Proof. destruct x; try done. cbn [on_fields]. intros [= <-]. eauto. Qed.

Lemma find_map_fields k (f : string -> js -> js) (fs : list (string * js)) :
  find (fun kv => String.eqb kv.1 k) (map (fun '(k, v) => (k, f k v)) fs) =
    (fun '(k, v) => (k, f k v)) <$> find (fun kv => String.eqb kv.1 k) fs.
Proof. induction fs as [|[k' v] fs IH]; [done|]. simpl in *. by destruct (String.eqb k' k). Qed.

Lemma scalar_sealed p v : sealed (encrypt_scalar enc p v).
Proof.
  intros x t. destruct v as [| | | |[|y u]| |fs|]; cbn [encrypt_scalar encrypt_text column_text on_fields]; try done.
  - intros [= <-]. eauto.
  - rewrite (find_map_fields "set" (fun k v => if bool_decide (k ∈ ["set"%string]) then encrypt_text enc (Key "set" :: p) v else v)).
    destruct (find _ fs) as [[k v]|] eqn:E; [|done]. apply find_some in E as [_ E]. apply String.eqb_eq in E. simpl in E. subst k. simpl.
    destruct v as [| | | |[|y u]| | |]; try done. simpl. intros [= <-]. eauto.
Qed.

Lemma write_data_arr p d l : encryptWriteData enc p d = Arr l -> exists l0, d = Arr l0 /\
  l = mapi (fun i x => encryptWriteData enc (Index i :: p) x) 0 l0.
Proof. destruct d; try done. intros [= <-]. eauto. Qed.
Lemma write_data_obj p d fs : encryptWriteData enc p d = Obj fs -> exists fs0, d = Obj fs0 /\
  fs = map (fun '(k, v) => (k, if is_pii k then encrypt_scalar enc (Key k :: p) v
                               else encryptRelationWrite enc (Key k :: p) v)) fs0.
Proof. destruct d; try done. intros [= <-]. eauto. Qed.
Lemma write_relation_arr p d l : encryptRelationWrite enc p d = Arr l -> exists l0, d = Arr l0 /\
  l = mapi (fun i x => encryptRelationWrite enc (Index i :: p) x) 0 l0.
Proof. destruct d; try done. intros [= <-]. eauto. Qed.
Lemma write_relation_obj p d fs : encryptRelationWrite enc p d = Obj fs -> exists fs0, d = Obj fs0 /\
  fs = map (fun '(k, v) => (k, write_field enc p k v)) fs0.
Proof. destruct d; try done. intros [= <-]. eauto. Qed.

(** A field of a relation after the walk. *)
Lemma relation_field p d fs k v : encryptRelationWrite enc p d = Obj fs -> (k, v) ∈ fs ->
  exists u, v = write_field enc p k u.
Proof. intros (fs0 & -> & ->)%write_relation_obj (u & _ & ->)%elem_of_map_fields. eauto. Qed.

Lemma named_field names (f : string -> js -> js) x gs part d :
  on_fields names f x = Obj gs -> (part, d) ∈ gs -> part ∈ names -> exists u, d = f part u.
Proof.
  intros (gs0 & -> & ->)%on_fields_inv (u & _ & ->)%(elem_of_map_fields (fun k v => if bool_decide (k ∈ names) then f k v else v)) Hn.
  rewrite bool_decide_true by done. eauto.
Qed.

Lemma each_item (f : path -> js -> js) p x y : (forall q z l, f q z = Arr l -> z = Arr l) ->
  y ∈ items (each f p x) -> exists q z, y = f q z.
Proof.
  intros Hf Hy. assert ((forall l, x <> Arr l) -> each f p x = f p x) as He by (destruct x; intros H; done || by destruct (H l)).
  assert ((exists l, x = Arr l) \/ (forall l, x <> Arr l)) as [[l ->]|Hx] by (destruct x; eauto; by right).
  - cbn [each items] in Hy. apply elem_of_mapi in Hy as (j & z & _ & ->). eauto.
  - rewrite He in Hy by done. destruct (f p x) eqn:E; try (apply list_elem_of_singleton in Hy; subst; eauto).
    apply Hf in E. by destruct (Hx l).
Qed.

(** The data a nested write carries went through [encryptWriteData]. *)
Definition written (d : js) : Prop := exists q u, d = encryptWriteData enc q u.

Lemma items_on_fields names f z l : on_fields names f z = Arr l -> z = Arr l.
Proof. by destruct z. Qed.

Lemma item_written op y gs part d p : (op, part) ∈ item_writes -> (exists u, y = write_field enc p op u) ->
  Obj gs ∈ items y -> (part, d) ∈ gs -> written d.
Proof.
  intros Hop [u ->] Hy Hd. unfold written.
  assert (exists names, part ∈ names /\ write_field enc p op u =
    each (fun q' item => on_fields names (fun k' x => encryptWriteData enc (Key k' :: q') x) item) (Key op :: p) u) as (names & Hn & E).
  { unfold item_writes in Hop. rewrite !elem_of_cons in Hop.
    destruct Hop as [[= -> ->]|[[= -> ->]|[[= -> ->]|[[= -> ->]|Hop]]]]; [..|by apply elem_of_nil in Hop];
      eexists; (split; [|reflexivity]); set_solver. }
  rewrite E in Hy. apply each_item in Hy as (q & z & Ez); [|intros ???; apply items_on_fields].
  symmetry in Ez. eapply named_field in Ez as [w ->]; eauto.
Qed.

Lemma update_written p u us : Obj us = write_field enc p "update" u ->
  (has_field "data" us = true -> forall d, ("data"%string, d) ∈ us -> written d) /\
  (has_field "data" us = false -> written (Obj us)).
Proof.
  change (write_field enc p "update" u) with
    (match u with
     | Obj us0 => if has_field "data" us0 then on_fields ["data"%string] (fun k' x => encryptWriteData enc (Key k' :: Key "update" :: p) x) u
                  else encryptWriteData enc (Key "update" :: p) u
     | _ => u
     end).
  destruct u as [| | | | | |us0|]; try done. intros E. symmetry in E. destruct (has_field "data" us0) eqn:Hf.
  - pose proof E as E'. cbn [on_fields] in E'. injection E' as <-.
    rewrite (has_field_map "data" (fun k v => if bool_decide (k ∈ ["data"%string]) then encryptWriteData enc (Key k :: Key "update" :: p) v else v)).
    rewrite Hf. split; [|done]. intros _ d Hd. eapply named_field in E as [w ->]; [|exact Hd|set_solver]. by eexists _, _.
  - pose proof E as E'. rewrite data_obj in E'. injection E' as <-.
    rewrite (has_field_map "data" (fun k v => if is_pii k then encrypt_scalar enc (Key k :: Key "update" :: p) v
                               else encryptRelationWrite enc (Key k :: Key "update" :: p) v)).
    rewrite Hf. split; [done|]. intros _. rewrite <- data_obj. by eexists _, _.
Qed.

(** C27: a personal column of any row the call writes holds no text, the empty one
    apart, but one that was encrypted, whatever nested writes lead to the row and however deep, with
    one exception the code has: rows written through an [update] given as a list
    ([listed] is [true]) are left as they came. *)
Theorem at_rest p d k v : stores false (encryptWriteData enc p d) k v -> is_pii k = true -> sealed v.
Proof.
  pose (W := fun b d' k v => b = false -> written d' -> is_pii k = true -> sealed v).
  pose (R := fun b r k v => b = false -> (exists q u, r = encryptRelationWrite enc q u) -> is_pii k = true -> sealed v).
  enough ((forall b d' k v, stores b d' k v -> W b d' k v) /\ (forall b r k v, nested b r k v -> R b r k v)) as [H _].
  { intros Hs. apply (H _ _ _ _ Hs); [done|]. by exists p, d. }
  clear p d k v. apply (stores_nested_ind (fun b d' k v _ => W b d' k v) (fun b r k v _ => R b r k v)); unfold W, R; clear W R.
  - intros b l d k v Hin _ IH Hb (q & u & E). symmetry in E. apply write_data_arr in E as (l0 & -> & ->).
    apply elem_of_mapi in Hin as (j & y & _ & ->). apply IH; [done|]. eexists _, _. done.
  - intros fs k v Hin Hk _ (q & u & E) _. symmetry in E. apply write_data_obj in E as (fs0 & -> & ->).
    apply (elem_of_map_fields (fun k v => if is_pii k then encrypt_scalar enc (Key k :: q) v else encryptRelationWrite enc (Key k :: q) v))
      in Hin as (w & _ & ->). rewrite Hk. apply scalar_sealed.
  - intros b fs r x k v Hin Hr _ IH Hb (q & u & E). symmetry in E. apply write_data_obj in E as (fs0 & -> & ->).
    apply (elem_of_map_fields (fun k v => if is_pii k then encrypt_scalar enc (Key k :: q) v else encryptRelationWrite enc (Key k :: q) v))
      in Hin as (w & _ & ->). rewrite Hr in IH. apply IH; [done|]. eexists _, _. done.
  - intros b l d k v Hin _ IH Hb (q & u & E). symmetry in E. apply write_relation_arr in E as (l0 & -> & ->).
    apply elem_of_mapi in Hin as (j & y & _ & ->). apply IH; [done|]. eexists _, _. done.
  - intros b fs d k v Hin _ IH Hb (q & u & E). symmetry in E. destruct (relation_field _ _ _ _ _ E Hin) as [w ->].
    apply IH; [done|]. eexists _, _. done.
  - intros b fs us d k v Hin Hf Hd _ IH Hb (q & u & E). symmetry in E. destruct (relation_field _ _ _ _ _ E Hin) as [w Hw].
    destruct (update_written _ _ _ Hw) as [H _]. by apply IH, H.
  - intros b fs us k v Hin Hf _ IH Hb (q & u & E). symmetry in E. destruct (relation_field _ _ _ _ _ E Hin) as [w Hw].
    destruct (update_written _ _ _ Hw) as [_ H]. by apply IH, H.
  - done.
  - intros b fs us d k v Hin Hd _ IH Hb (q & u & E). symmetry in E. destruct (relation_field _ _ _ _ _ E Hin) as [w Hw].
    apply IH; [done|]. symmetry in Hw. unfold write_field in Hw. cbn [String.eqb Ascii.eqb Bool.eqb] in Hw.
    eapply named_field in Hw as [z ->]; [|exact Hd|set_solver]. by eexists _, _.
  - intros b fs op y gs part d k v Hin Hy Hop Hd _ IH Hb (q & u & E). symmetry in E.
    destruct (relation_field _ _ _ _ _ E Hin) as [w Hw]. apply IH; [done|]. eapply item_written; eauto.
Qed.
End AtRest.

(** ** With the cipher *)

Section Client.
Context (c : Cipher) `{!CipherLaws c} (key : bytes) (randomBytes : path -> bytes).
Context (iv_length : forall p, length (randomBytes p) = IV_LENGTH).

Definition sealer (p : path) : text -> text := seal c key (randomBytes p).

Lemma seal_not_empty p t : sealer p t <> [].
Proof.
  unfold sealer, seal. pose proof (tag_length key (randomBytes p) (utf8_bytes t)) as Ht.
  destruct (aes_seal c key (randomBytes p) (utf8_bytes t)) as [ct tag]. cbn [snd] in Ht. intros E.
  pose proof (base64_short (to_base64 c (randomBytes p ++ ct ++ tag))) as H. rewrite base64_back, E in H.
  rewrite !length_app, iv_length, Ht in H. cbn [length] in H. unfold IV_LENGTH, AUTH_TAG_LENGTH in H. lia.
Qed.

Lemma sealed_read_back p data :
  clean (open_ c key) data -> (height data <= 13)%nat ->
  decryptPiiDeep (open_ c key) (encryptWriteData sealer p data) = data.
Proof.
  intros Hc Hh. apply pii_tree_roundtrip; try done.
  - intros q x t Hcp. unfold sealer. by rewrite (open_sealed c) by done.
  - intros q x t. apply seal_not_empty.
Qed.

(** C28: what a query writes is what a query reads: data nested at most thirteen
    levels deep ([walkDecrypt] reads no further), whose personal columns hold
    scalars that do not happen to be ciphertexts under this key, comes back from
    [decryptPiiDeep] as it was before [encryptPiiInArgs]; and a text of fewer
    than 39 characters never happens to be one, under any key. *)
Theorem pii_roundtrip p data :
  ((forall k t, (length t < 39)%nat -> tryDecrypt (open_ c k) t = t) /\
  (clean (open_ c key) data -> (height data <= 13)%nat ->
   decryptPiiDeep (open_ c key) (encryptWriteData sealer p data) = data))%type.
Proof. split; [intros k t Hl; by apply (short_text_is_plain c)|apply sealed_read_back]. Qed.

(** The extension is transparent to a caller of a database that returns the
    rows it was given, and only the personal columns' texts reach it, sealed. *)
Theorem client_transparent {W} (query : string -> js -> W -> res js * W) operation data w w' :
  isWriteOperation operation = true -> operation <> "upsert"%string ->
  clean (open_ c key) data -> (height data <= 13)%nat ->
  let stored := encryptWriteData sealer [Key "data"] data in
  query operation (Obj [("data"%string, stored)]) w = (Ok stored, w') ->
  withPiiEncryption c randomBytes query (Some key) operation (Obj [("data"%string, data)]) w = (Ok data, w').
Proof.
  intros Hop Hu Hc Hh stored Hq. unfold withPiiEncryption, encryptPiiInArgs. rewrite Hop.
  rewrite (proj2 (String.eqb_neq _ _) Hu). cbn [negb on_fields map]. rewrite bool_decide_true by set_solver.
  fold sealer. fold stored. rewrite Hq. unfold stored. by rewrite (sealed_read_back [Key "data"]).
Qed.

(** A read's arguments, and everything of a call but what it writes, are left
    alone. *)
Theorem filters_untouched operation fs k v :
  (k, v) ∈ fs -> isWriteOperation operation = false \/ k ∉ ["data"; "create"; "update"]%string ->
  exists gs, encryptPiiInArgs sealer operation (Obj fs) = Obj gs /\ (k, v) ∈ gs.
Proof.
  intros Hin H. unfold encryptPiiInArgs. destruct (isWriteOperation operation); cbn [negb]; [|eauto].
  destruct H as [H|H]; [done|]. cbn [on_fields]. eexists. split; [done|].
  apply list_elem_of_fmap. exists (k, v). split; [|done].
  rewrite bool_decide_false; [done|]. destruct (String.eqb operation "upsert"); set_solver.
Qed.
End Client.

(** The exception: the walk skips a list under a relation's [update], and the
    rows it writes keep their personal columns in the clear. *)
Theorem update_list_in_the_clear enc p r k s where_ :
  is_pii r = false -> is_pii k = true ->
  let d := Obj [(r, Obj [("update"%string, Arr [Obj [("where"%string, where_); ("data"%string, Obj [(k, Str s)])]])])] in
  encryptWriteData enc p d = d /\ stores true d k (Str s).
Proof.
  intros Hr Hk d. split; [unfold d; rewrite data_obj; cbn [map]; by rewrite Hr|].
  eapply stores_relation; [by left|done|]. eapply nested_update_list; [by left|by left|by right; left|].
  apply stores_column; [by left|done].
Qed.

(** ** A cipher, for the examples *)

Definition toy_from_base64 : text -> bytes :=
  fix go t := match t with b :: _ :: t' => b :: go t' | _ => [] end.
Definition toy : Cipher := {|
  aes_seal _ _ pt := (pt, replicate 16 0);
  aes_open _ _ ct tag := if bool_decide (tag = replicate 16 0) then Some ct else None;
  hkdf key _ _ _ := key;
  from_hex t := t;
  to_base64 b := b ≫= (fun x => [x; 0]);
  from_base64 := toy_from_base64;
  from_utf8 := utf8_decode |}.
#[export] Instance toy_laws : CipherLaws toy.
Proof.
  split; try done.
  - intros b. induction b as [|x b IH]; [done|]. cbn in *. by rewrite IH.
  - intros t. cbn. assert (forall n t, (length t <= n)%nat -> (4 * length (toy_from_base64 t) <= 3 * length t)%nat) as H; [|by apply (H (length t))].
    intros n. induction n as [|n IH]; intros [|x [|y u]] Hl; cbn in *; try lia. specialize (IH u). lia.
  - apply utf8_decode_bytes.
Qed.
Definition sample_iv (p : path) : bytes := replicate 12 (Z.of_nat (length p)).
Definition sample_signup : js :=
  Obj [("email", Str (text_of "ada@example.com")); ("phoneNumber", Str (text_of "+2348090000000"));
       ("parent", Obj [("create", Obj [("phoneNumber", Str (text_of "+2348090000000"));
          ("children", Obj [("createMany", Obj [("data", Arr [Obj [("fullName", Str (text_of "Bola"))]])])])])])]%string.

Lemma sample_clean : clean (open_ toy []) sample_signup.
Proof.
  assert (tryDecrypt (open_ toy []) (text_of "+2348090000000") = text_of "+2348090000000") as H
    by (apply short_text_is_plain; [exact toy_laws|vm_compute; lia]).
  assert (Forall (fun c => 0 <= c < 1114112) (text_of "+2348090000000")) as H'
    by (apply (bool_decide_eq_true_1 _); vm_compute; reflexivity).
  repeat split; done.
Qed.

Lemma pii_roundtrip_witness :
  encryptWriteData (sealer toy [] sample_iv) [] sample_signup <> sample_signup /\
  decryptPiiDeep (open_ toy []) (encryptWriteData (sealer toy [] sample_iv) [] sample_signup) = sample_signup.
Proof.
  split; [by vm_compute|]. apply (pii_roundtrip toy [] sample_iv); [by intros p; apply length_replicate|exact sample_clean|].
  vm_compute. lia.
Defined.

Lemma at_rest_witness :
  let stored := encryptWriteData (sealer toy [] sample_iv) [] sample_signup in
  exists v, stores false stored "phoneNumber" v /\ sealed (sealer toy [] sample_iv) v /\ v <> Str (text_of "+2348090000000").
Proof.
  eexists. split; [|split].
  - eapply stores_column; [right; left|reflexivity].
  - eapply (at_rest (sealer toy [] sample_iv) [] sample_signup "phoneNumber"); [|reflexivity].
    eapply stores_column; [right; left|reflexivity].
  - by vm_compute.
Defined.
