(* ===== verification/Schools.v ===== *)
(** * A school's fee schedule and dashboard

    [src/schools/schools.service.ts]: publishing the class fees and reading them
    through the cache, the dashboard figures, the list of students. *)

From Stdlib Require Import QArith.
From S2P Require Import Prelude JsNumber JsText Pagination Money Dates Schedule Schema Effects EnrollmentView MigratedPlan.
From S2P Require Import Ledger Enrollment Cache PaymentHistory.

Local Open Scope Z_scope.

(** ** Class fees *)

Record FeeView := mkFeeView {
  fv_id : id; fv_schoolId : id; fv_className : string; fv_feeAmount : Q; fv_isActive : bool }.

Definition fee_view (kv : id * ClassFee) : FeeView :=
  mkFeeView kv.1 (cf_schoolId kv.2) (cf_className kv.2) (naira (cf_feeAmount kv.2)) (cf_isActive kv.2).

Definition fee_key (schoolId : id) (className : string) (f : ClassFee) : bool :=
  bool_decide (cf_schoolId f = schoolId) && String.eqb (cf_className f) className.
Definition classFee_of (schoolId : id) (className : string) (d : DB) : option (id * ClassFee) :=
  find_row (fee_key schoolId className) (classFees d).

(** An [Int] column is an int4, and a number that does not fit it is an error. *)
Definition fits_int4 (n : Z) : bool := (-2147483648 <=? n) && (n <=? 2147483647).
Definition int4_overflow : failure := FInternal "value out of range for a 32-bit integer column".

(** [classFee.create], unique on the school and the class. *)
Definition createClassFeeRow (f : ClassFee) : M ClassFee :=
  ensure (fits_int4 (cf_feeAmount f)) int4_overflow;;
  clash ← read (classFee_of (cf_schoolId f) (cf_className f));
  match clash with
  | Some _ => throw (FUnique "schoolId,className")
  | None =>
      i ← fresh_id;
      write (fun d => set_classFees (<[i := f]> (classFees d)) d);;
      mret f
  end.
Definition updateClassFeeRow (feeId : id) (data : ClassFee -> ClassFee) : M ClassFee :=
  f ← read (fun d => classFees d !! feeId);
  f ← orThrow f P2025;
  ensure (fits_int4 (cf_feeAmount (data f))) int4_overflow;;
  write (fun d => set_classFees (<[feeId := data f]> (classFees d)) d);;
  mret (data f).

Definition revive (feeAmount : Z) (f : ClassFee) : ClassFee := set_cf_isActive true (set_cf_feeAmount feeAmount f).

Definition upsertClassFee (schoolId : id) (fee : string * Z) : M ClassFee :=
  row ← read (classFee_of schoolId fee.1);
  match row with
  | Some (i, _) => updateClassFeeRow i (revive fee.2)
  | None => createClassFeeRow (mkClassFee schoolId fee.1 fee.2 true)
  end.

(** [updateMany({ where: { schoolId, isActive: true, className: { notIn } } })] *)
Definition retire (schoolId : id) (keptNames : list string) (f : ClassFee) : ClassFee :=
  if bool_decide (cf_schoolId f = schoolId) && cf_isActive f && bool_decide (cf_className f ∉ keptNames)
  then set_cf_isActive false f else f.
Definition retireClassFees (schoolId : id) (keptNames : list string) : M unit :=
  write (fun d => set_classFees (retire schoolId keptNames <$> classFees d) d).

Definition trim_string (s : string) : string := string_of (trim (text_of s)).

Record FeeDto := mkFeeDto { fd_className : string; fd_feeAmount : Q }.

Definition normalize_fee (fee : FeeDto) : string * Z := (trim_string (fd_className fee), kobo_of (fd_feeAmount fee)).

Section Fees.
Context `{CacheBackend}.
(** The text of an id, the database's order of class names, and
    [String.prototype.toLowerCase]. *)
Context (id_str : id -> string) (by_class : list (id * ClassFee) -> list (id * ClassFee)) (toLowerCase : string -> string).

Record FeeState := mkFeeState { fs_world : World; fs_cache : CacheService (list FeeView) }.

Definition CLASS_FEES_TTL_SECONDS : Z := 5 * 60.

Definition loadClassFees (schoolId : id) (d : DB) : list FeeView :=
  fee_view <$> by_class (findMany (tenant_where cf_schoolId schoolId cf_isActive) (classFees d)).

Definition getClassFees (schoolId : id) (now : Z) (fs : FeeState) : list FeeView * FeeState :=
  let '(value, c) := getOrSet now (key_classFees (id_str schoolId)) CLASS_FEES_TTL_SECONDS
    (loadClassFees schoolId (db (fs_world fs))) (fs_cache fs) in
  (value, mkFeeState (fs_world fs) c).

(** The first class named twice. *)
Fixpoint duplicate_class (seen : list string) (fees : list FeeDto) : option string :=
  match fees with
  | [] => None
  | fee :: fees' =>
      let key := toLowerCase (trim_string (fd_className fee)) in
      if bool_decide (key ∈ seen) then Some (fd_className fee) else duplicate_class (key :: seen) fees'
  end.

Definition upsert_all (schoolId : id) (fees : list (string * Z)) : M unit :=
  foldr (fun fee k => upsertClassFee schoolId fee;; k) (mret tt) fees.

Definition publish_tx (schoolId : id) (normalized : list (string * Z)) : M unit :=
  retireClassFees schoolId normalized.*1;; upsert_all schoolId normalized.

Definition setClassFees (schoolId : id) (fees : list FeeDto) (now : Z) (fs : FeeState)
    : res (list FeeView) * FeeState :=
  match duplicate_class [] fees with
  | Some name => (Err (FBadRequest ("Duplicate class name in payload: " +:+ name)), fs)
  | None =>
      let normalized := normalize_fee <$> fees in
      match transaction (publish_tx schoolId normalized) (fs_world fs) with
      | (Err e, w) => (Err e, mkFeeState w (fs_cache fs))
      | (Ok _, w) =>
          let c := del (key_classFees (id_str schoolId)) (fs_cache fs) in
          let '(views, fs') := getClassFees schoolId now (mkFeeState w c) in (Ok views, fs')
      end
  end.

(** One class: the cache is invalidated between the read and the write. *)
Definition createClassFee_read (schoolId : id) (className : string) (fs : FeeState) : option id * FeeState :=
  (fst <$> find_row (tenant_where cf_schoolId schoolId (fun f => String.eqb (cf_className f) className))
             (classFees (db (fs_world fs))),
   mkFeeState (fs_world fs) (del (key_classFees (id_str schoolId)) (fs_cache fs))).
Definition createClassFee_write (schoolId : id) (className : string) (feeKobo : Z) (existingFee : option id)
    (fs : FeeState) : res ClassFee * FeeState :=
  let '(r, w) :=
    match existingFee with
    | Some feeId => updateClassFeeRow feeId (revive feeKobo) (fs_world fs)
    | None => createClassFeeRow (mkClassFee schoolId className feeKobo true) (fs_world fs)
    end in (r, mkFeeState w (fs_cache fs)).
Definition createClassFee (schoolId : id) (className : string) (feeAmount : Q) (fs : FeeState)
    : res ClassFee * FeeState :=
  let '(existingFee, fs1) := createClassFee_read schoolId className fs in
  createClassFee_write schoolId className (kobo_of feeAmount) existingFee fs1.
End Fees.

(** ** The dashboard *)

Record DashboardStats := mkStats {
  totalStudents : Z;
  activeStudents : Z;
  totalRevenue : Q;
  pendingRevenue : Q;
  awaitingActivation : Q;
  defaultedAmount : Q }.

Definition enrollment_where (schoolId : id) (where_ : ChildEnrollment -> bool) : ChildEnrollment -> bool :=
  tenant_where e_schoolId schoolId where_.

Definition getDashboardStats (schoolId : id) (d : DB) : DashboardStats :=
  let pending t p := of_school schoolId p && negb (p_isConfirmed p) && has_status TX_PENDING p && of_type (Some t) p in
  {| totalStudents := count (enrollment_where schoolId (fun _ => true)) (enrollments d);
     activeStudents :=
       count (enrollment_where schoolId (fun e => bool_decide (e_paymentStatus e = ACTIVE))) (enrollments d);
     totalRevenue := naira (sum_of p_schoolAmount
       (fun p => of_school schoolId p && p_isConfirmed p && has_status TX_SUCCESS p && MOVED_THROUGH_LOPAY p) (payments d));
     pendingRevenue := naira (sum_of p_schoolAmount (pending INSTALLMENT) (payments d));
     awaitingActivation := naira (sum_of p_schoolAmount (pending FIRST_PAYMENT) (payments d));
     defaultedAmount := naira (reduce_sum (fun kv : id * ChildEnrollment => e_remainingBalance kv.2)
       (findMany (enrollment_where schoolId (fun e => bool_decide (e_paymentStatus e = DEFAULTED))) (enrollments d))) |}.

(** ** The students *)

Record StudentView := mkStudent {
  sv_id : id;
  sv_enrollmentId : id;
  sv_childId : id;
  sv_studentName : option string;
  sv_className : string;
  sv_schoolId : id;
  sv_parentName : string;
  sv_totalFee : Q;
  sv_paidAmount : Q;
  sv_remainingBalance : Q;
  sv_availableBalance : Q;
  sv_paymentStatus : PaymentStatus;
  sv_installmentFrequency : InstallmentFrequency;
  sv_nextDueDate : option string }.

Section Students.
(** [contains] with [mode: 'insensitive'], and the orders of the two queries. *)
Context (contains : string -> string -> bool).
Context (newest_payments : list (id * Payment) -> list (id * Payment)).
Context (newest_enrollments : list (id * ChildEnrollment) -> list (id * ChildEnrollment)).

Definition parent_name (childId : id) (d : DB) : option string :=
  c ← children d !! childId; pr ← parents d !! c_parentId c; u ← users d !! par_userId pr; u_fullName u.

Definition student_where (className search : option string) (d : DB) (e : ChildEnrollment) : bool :=
  match truthy className with Some c => String.eqb (e_className e) c | None => true end
  && match truthy search with
     | None => true
     | Some s =>
         match c_fullName <$> children d !! e_childId e with Some n => contains n s | None => false end
         || match parent_name (e_childId e) d with Some n => contains n s | None => false end
     end.

(** One period after the last confirmed payment, or the start of the plan. *)
Definition next_due (e : ChildEnrollment) (ps : list (id * Payment)) : option Z :=
  if 0 <? e_remainingBalance e then
    match head (filter (fun kv : id * Payment => p_isConfirmed kv.2 = true) ps) with
    | Some (_, last) =>
        let t := p_paymentDate last in
        Some (match e_installmentFrequency e with
              | WEEKLY => setDate t (getDate t + 7)
              | MONTHLY => setMonth t (getMonth t + 1)
              end)
    | None => Some (e_termStartDate e)
    end
  else None.

Definition student_view (d : DB) (kv : id * ChildEnrollment) : StudentView :=
  let '(eid, e) := kv in
  let ps := newest_payments (payments_of eid d) in
  {| sv_id := eid;
     sv_enrollmentId := eid;
     sv_childId := e_childId e;
     sv_studentName := c_fullName <$> children d !! e_childId e;
     sv_className := e_className e;
     sv_schoolId := e_schoolId e;
     sv_parentName := default "Unknown"%string (truthy (parent_name (e_childId e) d));
     sv_totalFee := naira (e_totalSchoolFee e);
     sv_paidAmount := naira (reduce_paid p_isConfirmed ps);
     sv_remainingBalance := naira (e_remainingBalance e);
     sv_availableBalance := naira (availableKobo e ps);
     sv_paymentStatus := e_paymentStatus e;
     sv_installmentFrequency := e_installmentFrequency e;
     sv_nextDueDate := iso_date <$> next_due e ps |}.

(** A negative offset is an invalid query. *)
Definition getStudents (schoolId : id) (className search : option string) (page limit : Z) (d : DB)
    : res (Paginated StudentView) :=
  let take_ := Z.min limit 200 in
  let skip := (page - 1) * take_ in
  let whereClause := enrollment_where schoolId (student_where className search d) in
  if skip <? 0 then Err (FInternal "PrismaClientValidationError")
  else
    let enrollments_ := window skip take_ (newest_enrollments (findMany whereClause (enrollments d))) in
    Ok (paginate (student_view d <$> enrollments_) (count whereClause (enrollments d)) page take_).
End Students.
