(* ===== verification/SchoolSpecs.v ===== *)
(** * The published prices

    The theorems of [Schools.v]: what a publication makes of the prices parents
    enrol at, the coherence of the cached lists, the dashboard against the
    approval queue and the reservations. *)

From Stdlib Require Import QArith.
From S2P Require Import Prelude JsNumber JsText Pagination Money Dates Schedule Schema Effects Samples EnrollmentView.
From S2P Require Import MigratedPlan Ledger Books Enrollment Cache PaymentHistory Schools.

Local Open Scope Z_scope.

(** ** The fee table *)

(** The unique index of the table, and ids not yet drawn. *)
Record fees_wf (d : DB) : Prop := {
  fees_unique : forall i j f g, classFees d !! i = Some f -> classFees d !! j = Some g ->
    cf_schoolId f = cf_schoolId g -> cf_className f = cf_className g -> i = j;
  fees_fresh : forall i, (next_id d <= i)%positive -> classFees d !! i = None }.

(** The price parents of a school enrol at for a class. *)
Definition price (schoolId : id) (className : string) (d : DB) : option Z :=
  '(_, f) ← classFee_of schoolId className d; if cf_isActive f then Some (cf_feeAmount f) else None.

Lemma fee_key_spec s c f : fee_key s c f = true <-> cf_schoolId f = s /\ cf_className f = c.
Proof. unfold fee_key. by rewrite andb_true_iff, bool_decide_eq_true, String.eqb_eq. Qed.

Lemma classFee_of_spec d s c i f :
  fees_wf d -> classFee_of s c d = Some (i, f) <->
  classFees d !! i = Some f /\ cf_schoolId f = s /\ cf_className f = c.
Proof.
  intros [Hu _]. unfold classFee_of. split.
  - intros [Hi Hk]%find_row_some. by rewrite <- fee_key_spec.
  - intros (Hi & Hs & Hc). apply find_row_unique; [done|by apply fee_key_spec|].
    intros k' v' Hk' [Hs' Hc']%fee_key_spec. apply (Hu k' i v' f); congruence.
Qed.

Lemma classFee_of_none d s c i f :
  classFee_of s c d = None -> classFees d !! i = Some f -> ~ (cf_schoolId f = s /\ cf_className f = c).
Proof. intros H Hi Hk%fee_key_spec. by rewrite (find_row_none _ _ _ _ H Hi) in Hk. Qed.

(** A price is what [resolveActiveClassFee] charges a new plan with. *)
Lemma price_resolved d s c fee o :
  fees_wf d -> price s c d = Some fee <->
  exists f, resolveActiveClassFee s c (mkWorld d o) = (Ok f, mkWorld d o) /\ cf_feeAmount f = fee.
Proof.
  intros Hwf. unfold resolveActiveClassFee, mbind, M_bind, read. cbn -[find_row].
  set (cond := fun f : ClassFee => bool_decide (cf_schoolId f = s) && String.eqb (cf_className f) c && cf_isActive f).
  assert (forall i f, find_row cond (classFees d) = Some (i, f) <-> classFee_of s c d = Some (i, f) /\ cf_isActive f = true) as K.
  { intros i f. rewrite classFee_of_spec by done. split.
    - intros [Hi Hc]%find_row_some. unfold cond in Hc. to_prop. destruct Hc as [[Hs Hc] Ha].
      apply String.eqb_eq in Hc. done.
    - intros [(Hi & Hs & Hc) Ha]. apply find_row_unique; [done| |].
      + unfold cond. by rewrite bool_decide_eq_true_2, Ha, (proj2 (String.eqb_eq _ _) Hc).
      + intros k' v' Hk' Hv. unfold cond in Hv. to_prop. destruct Hv as [[Hs' Hc'] _]. apply String.eqb_eq in Hc'.
        destruct Hwf as [Hu _]. apply (Hu k' i v' f); congruence. }
  unfold price. split.
  - destruct (classFee_of s c d) as [[i f]|] eqn:E; cbn; [|done]. destruct (cf_isActive f) eqn:Ea; [|done].
    intros [= <-]. exists f. rewrite (proj2 (K i f)) by done. done.
  - intros (f & Hr & <-). destruct (find_row cond (classFees d)) as [[i g]|] eqn:E in Hr; [|done]. cbn in Hr. injection Hr as ->.
    apply K in E as [-> Ha]. cbn. by rewrite Ha.
Qed.

Definition in_fees (d : DB) (m : gmap id ClassFee) : DB := set_classFees m d.

(** Writing one row of the table. *)
Lemma write_fee_wf d i f :
  fees_wf d -> (i < next_id d)%positive ->
  (forall j g, classFees d !! j = Some g -> cf_schoolId g = cf_schoolId f -> cf_className g = cf_className f -> j = i) ->
  fees_wf (set_classFees (<[i := f]> (classFees d)) d).
Proof.
  intros [Hu Hfr] Hi Hself. split; cbn.
  - intros j k g h. destruct (decide (j = i)) as [->|Hj], (decide (k = i)) as [->|Hk]; try done.
    + rewrite lookup_insert_eq, lookup_insert_ne by done. intros [= <-] Hk' Hs Hc. symmetry. by apply (Hself k h).
    + rewrite lookup_insert_eq, lookup_insert_ne by done. intros Hj' [= <-] Hs Hc. by apply (Hself j g).
    + rewrite !lookup_insert_ne by done. apply Hu.
  - intros j Hj. rewrite lookup_insert_ne by lia. by apply Hfr.
Qed.

Lemma write_fee_price d i f s c :
  fees_wf d -> fees_wf (set_classFees (<[i := f]> (classFees d)) d) ->
  (forall g, classFees d !! i = Some g -> cf_schoolId g = cf_schoolId f /\ cf_className g = cf_className f) ->
  price s c (set_classFees (<[i := f]> (classFees d)) d) =
    if bool_decide (cf_schoolId f = s /\ cf_className f = c)
    then if cf_isActive f then Some (cf_feeAmount f) else None else price s c d.
Proof.
  intros Hwf Hwf' Hold. unfold price. case_bool_decide as Hk.
  - rewrite (proj2 (classFee_of_spec _ s c i f Hwf')); [done|]. cbn. rewrite lookup_insert_eq. by destruct Hk.
  - assert (classFee_of s c (set_classFees (<[i := f]> (classFees d)) d) = classFee_of s c d) as ->; [|done].
    destruct (classFee_of s c d) as [[j g]|] eqn:E.
    + apply (classFee_of_spec _ _ _ _ _ Hwf) in E as (Hj & Hs & Hc). apply (classFee_of_spec _ _ _ _ _ Hwf'). cbn.
      rewrite lookup_insert_ne; [done|]. intros ->. apply Hk. destruct (Hold g Hj). by rewrite <- Hs, <- Hc.
    + destruct (classFee_of s c (set_classFees _ d)) as [[j g]|] eqn:E'; [|done]. exfalso.
      apply (classFee_of_spec _ _ _ _ _ Hwf') in E' as (Hj & Hs & Hc). cbn in Hj. destruct (decide (j = i)) as [->|Hji].
      * rewrite lookup_insert_eq in Hj. injection Hj as Hj. apply Hk. by rewrite Hj.
      * rewrite lookup_insert_ne in Hj by done. exact (classFee_of_none d s c j g E Hj (conj Hs Hc)).
Qed.

(** The counter moves, the table stays. *)
Lemma counter_wf d : fees_wf d -> fees_wf (set_next_id (Pos.succ (next_id d)) d).
Proof. intros [Hu Hf]. split; cbn; [exact Hu|]. intros i Hi. apply Hf. lia. Qed.

(** ** Publishing *)

(** A fee that does not fit its column is not written. *)
Lemma upsert_overflow s fee w :
  fees_wf (db w) -> fits_int4 fee.2 = false -> upsertClassFee s fee w = (Err int4_overflow, w).
Proof.
  intros Hwf Hf. unfold upsertClassFee, updateClassFeeRow, createClassFeeRow, mbind, M_bind, read, orThrow, ensure, throw, mret, M_ret.
  destruct (classFee_of s fee.1 (db w)) as [[i f]|] eqn:E; cbn [cf_feeAmount]; [|by rewrite Hf].
  apply (classFee_of_spec _ _ _ _ _ Hwf) in E as (-> & _ & _).
  change (cf_feeAmount (revive fee.2 f)) with fee.2. by rewrite Hf.
Qed.

Lemma upsert_price s fee w r w' :
  fees_wf (db w) -> fits_int4 fee.2 = true -> upsertClassFee s fee w = (r, w') ->
  is_ok r = true /\ fees_wf (db w') /\
  forall s' c, price s' c (db w') = if bool_decide (s = s' /\ fee.1 = c) then Some fee.2 else price s' c (db w).
Proof.
  intros Hwf Hfit. unfold upsertClassFee, updateClassFeeRow, createClassFeeRow, fresh_id, mbind, M_bind, read, write, orThrow, ensure, mret, M_ret.
  destruct (classFee_of s fee.1 (db w)) as [[i f]|] eqn:E.
  - pose proof E as (Hi & Hs & Hc)%(classFee_of_spec _ _ _ _ _ Hwf). rewrite Hi.
    change (cf_feeAmount (revive fee.2 f)) with fee.2. rewrite Hfit. intros [= <- <-]. cbn [db].
    assert (fees_wf (set_classFees (<[i := revive fee.2 f]> (classFees (db w))) (db w))) as Hwf'.
    { apply write_fee_wf; [done| |].
      - destruct (decide (i < next_id (db w))%positive) as [|Hge]; [done|]. destruct Hwf as [_ Hf].
        rewrite (Hf i) in Hi by lia. done.
      - intros j g Hj Hs' Hc'. destruct Hwf as [Hu _]. apply (Hu j i g f); done. }
    split; [done|]. split; [done|]. intros s' c.
    rewrite write_fee_price; [|done|done|intros g Hg; by simplify_eq]. cbn. by rewrite Hs, Hc.
  - cbn [cf_schoolId cf_className cf_feeAmount]. rewrite Hfit, E. intros [= <- <-]. cbn [db].
    set (d1 := set_next_id (Pos.succ (next_id (db w))) (db w)).
    assert (classFees (db w) !! next_id (db w) = None) as Hnew by (destruct Hwf as [_ Hf]; apply Hf; lia).
    assert (fees_wf (set_classFees (<[next_id (db w) := mkClassFee s fee.1 fee.2 true]> (classFees d1)) d1)) as Hwf'.
    { apply write_fee_wf; [by apply counter_wf|cbn; lia|]. intros j g Hj Hs' Hc'. exfalso.
      by apply (classFee_of_none (db w) s fee.1 j g E Hj). }
    split; [done|]. split; [exact Hwf'|]. intros s' c.
    refine (eq_trans (write_fee_price d1 _ _ _ _ (counter_wf _ Hwf) Hwf' _) _); [|done].
    intros g Hg. cbn in Hg. congruence.
Qed.

Definition published (s : id) (fees : list (string * Z)) (s' : id) (c : string) (old : option Z) : option Z :=
  if bool_decide (s = s') then match list_to_map (M := gmap string Z) fees !! c with Some fee => Some fee | None => old end
  else old.

Lemma upsert_all_price s fees w r w' :
  fees_wf (db w) -> NoDup fees.*1 -> forallb (fun fee => fits_int4 fee.2) fees = true -> upsert_all s fees w = (r, w') ->
  is_ok r = true /\ fees_wf (db w') /\ forall s' c, price s' c (db w') = published s fees s' c (price s' c (db w)).
Proof.
  revert w. induction fees as [|fee fees IH]; intros w Hwf Hnd.
  - intros _ [= <- <-]. split; [done|]. split; [done|]. intros. unfold published. cbn. by case_bool_decide.
  - intros [Hfit Hfits]%andb_true_iff. cbn [upsert_all foldr]. unfold mbind, M_bind. destruct (upsertClassFee s fee w) as [r1 w1] eqn:E1.
    destruct (upsert_price _ _ _ _ _ Hwf Hfit E1) as (Hok & Hwf1 & Hp1). destruct r1 as [f|e]; [|done]. intros Hrun.
    apply list.NoDup_cons in Hnd as [Hni Hnd]. destruct (IH w1 Hwf1 Hnd Hfits Hrun) as (Hok' & Hwf' & Hp').
    split; [done|]. split; [done|]. intros s' c. rewrite Hp', Hp1. unfold published. destruct fee as [n k]. cbn in *.
    destruct (decide (s = s')) as [<-|Hs].
    + rewrite !bool_decide_eq_true_2 by done. destruct (decide (n = c)) as [<-|Hc].
      * rewrite lookup_insert_eq, bool_decide_eq_true_2 by done.
        by rewrite (not_elem_of_list_to_map_1 (M := gmap string) fees n).
      * rewrite lookup_insert_ne by done. rewrite bool_decide_eq_false_2; [done|]. by intros [_ ?].
    + rewrite (bool_decide_eq_false_2 (s = s')), (bool_decide_eq_false_2 (s = s' /\ n = c)) by naive_solver. done.
Qed.

Lemma upsert_all_overflow s fees w :
  fees_wf (db w) -> forallb (fun fee => fits_int4 fee.2) fees = false ->
  exists w', upsert_all s fees w = (Err int4_overflow, w') /\ out w' = out w.
Proof.
  revert w. induction fees as [|fee fees IH]; intros w Hwf; [done|]. cbn [forallb upsert_all foldr]. unfold mbind, M_bind.
  destruct (fits_int4 fee.2) eqn:Hfit; [|intros _; rewrite upsert_overflow by done; eauto]. intros Hf.
  destruct (upsertClassFee s fee w) as [r1 w1] eqn:E1. destruct (upsert_price _ _ _ _ _ Hwf Hfit E1) as (Hok & Hwf1 & _).
  destruct r1 as [f|e]; [|done]. destruct (IH w1 Hwf1 Hf) as (w' & Hr & Ho). exists w'. split; [exact Hr|]. rewrite Ho.
  revert E1. unfold upsertClassFee, updateClassFeeRow, createClassFeeRow, fresh_id, mbind, M_bind, read, write, orThrow, ensure, throw, mret, M_ret.
  repeat case_match; intros; by simplify_eq.
Qed.

Lemma retire_fields s kept f :
  cf_schoolId (retire s kept f) = cf_schoolId f /\ cf_className (retire s kept f) = cf_className f /\
  cf_feeAmount (retire s kept f) = cf_feeAmount f /\
  cf_isActive (retire s kept f) =
    cf_isActive f && negb (bool_decide (cf_schoolId f = s) && bool_decide (cf_className f ∉ kept)).
Proof.
  unfold retire. destruct (bool_decide (cf_schoolId f = s)), (cf_isActive f) eqn:Ea, (bool_decide (cf_className f ∉ kept));
    cbn; rewrite ?Ea; done.
Qed.

Lemma retire_price s kept d :
  fees_wf d ->
  let d' := set_classFees (retire s kept <$> classFees d) d in
  fees_wf d' /\ forall s' c, price s' c d' = if bool_decide (s' = s /\ c ∉ kept) then None else price s' c d.
Proof.
  intros Hwf d'. assert (fees_wf d') as Hwf'.
  { destruct Hwf as [Hu Hf]. split; cbn.
    - intros i j f g (f0 & <- & Hi)%lookup_fmap_Some (g0 & <- & Hj)%lookup_fmap_Some.
      destruct (retire_fields s kept f0) as (-> & -> & _), (retire_fields s kept g0) as (-> & -> & _). by apply (Hu i j).
    - intros i Hi. by rewrite lookup_fmap, (Hf i Hi). }
  split; [done|]. intros s' c. unfold price.
  destruct (classFee_of s' c d) as [[i f]|] eqn:E.
  - apply (classFee_of_spec _ _ _ _ _ Hwf) in E as (Hi & Hs & Hc).
    rewrite (proj2 (classFee_of_spec d' s' c i (retire s kept f) Hwf')).
    + cbn. destruct (retire_fields s kept f) as (_ & _ & -> & ->). rewrite Hs, Hc.
      destruct (cf_isActive f); cbn; [|by case_bool_decide].
      destruct (decide (s' = s)), (decide (c ∉ kept)); case_bool_decide; case_bool_decide; case_bool_decide; cbn; naive_solver.
    + cbn. rewrite lookup_fmap, Hi. destruct (retire_fields s kept f) as (-> & -> & _). done.
  - assert (classFee_of s' c d' = None) as ->; [|cbn; by case_bool_decide].
    destruct (classFee_of s' c d') as [[i f]|] eqn:E'; [|done]. exfalso.
    apply (classFee_of_spec _ _ _ _ _ Hwf') in E' as (Hi & Hs & Hc). cbn in Hi.
    apply lookup_fmap_Some in Hi as (f0 & <- & Hi). destruct (retire_fields s kept f0) as (H1 & H2 & _).
    apply (classFee_of_none d s' c i f0 E Hi). by rewrite <- H1, <- H2.
Qed.

Lemma publish_price s fees w r w' :
  fees_wf (db w) -> NoDup fees.*1 -> forallb (fun fee => fits_int4 fee.2) fees = true -> publish_tx s fees w = (r, w') ->
  is_ok r = true /\ fees_wf (db w') /\
  forall s' c, price s' c (db w') =
    if bool_decide (s' = s) then list_to_map (M := gmap string Z) fees !! c else price s' c (db w).
Proof.
  intros Hwf Hnd Hfits. unfold publish_tx, mbind at 1, M_bind at 1, retireClassFees, write.
  destruct (retire_price s fees.*1 (db w) Hwf) as [Hwf1 Hp1]. intros Hrun.
  destruct (upsert_all_price s fees (mkWorld _ _) r w' Hwf1 Hnd Hfits Hrun) as (Hok & Hwf' & Hp'). split; [done|]. split; [done|].
  intros s' c. rewrite Hp'. cbn [db]. rewrite Hp1. unfold published. destruct (decide (s' = s)) as [->|Hs].
  - rewrite !bool_decide_eq_true_2 by done. destruct (list_to_map fees !! c) as [fee|] eqn:E; [done|].
    rewrite bool_decide_eq_true_2; [done|]. split; [done|]. by apply not_elem_of_list_to_map_2 in E.
  - rewrite (bool_decide_eq_false_2 (s' = s)), (bool_decide_eq_false_2 (s = s')),
      (bool_decide_eq_false_2 (s' = s /\ c ∉ fees.*1)) by naive_solver. done.
Qed.

(** ** Publication and the cache *)

(** Only rows of one school change. *)
Definition touches (s : id) (d d' : DB) : Prop := forall i f, cf_schoolId f <> s ->
  classFees d !! i = Some f <-> classFees d' !! i = Some f.

Lemma touches_trans s d1 d2 d3 : touches s d1 d2 -> touches s d2 d3 -> touches s d1 d3.
Proof. intros H1 H2 i f Hs. by rewrite (H1 i f Hs), (H2 i f Hs). Qed.

Lemma touches_row s d d' i f :
  classFees d' = <[i := f]> (classFees d) -> cf_schoolId f = s ->
  (forall g, classFees d !! i = Some g -> cf_schoolId g = s) -> touches s d d'.
Proof.
  intros Hd Hf Hold j g Hg. rewrite Hd. destruct (decide (j = i)) as [->|Hj].
  - rewrite lookup_insert_eq. split; [intros Hi; by apply Hold in Hi|]. intros [= <-]. done.
  - by rewrite lookup_insert_ne.
Qed.

Lemma upsert_touches s fee w r w' :
  fees_wf (db w) -> fits_int4 fee.2 = true -> upsertClassFee s fee w = (r, w') -> touches s (db w) (db w').
Proof.
  intros Hwf Hfit. unfold upsertClassFee, updateClassFeeRow, createClassFeeRow, fresh_id, mbind, M_bind, read, write, orThrow, ensure, mret, M_ret.
  destruct (classFee_of s fee.1 (db w)) as [[i f]|] eqn:E.
  - pose proof E as (Hi & Hs & _)%(classFee_of_spec _ _ _ _ _ Hwf). rewrite Hi.
    change (cf_feeAmount (revive fee.2 f)) with fee.2. rewrite Hfit. intros [= _ <-].
    apply (touches_row s _ _ i (revive fee.2 f)); [done|done|]. intros g Hg. congruence.
  - cbn [cf_schoolId cf_className cf_feeAmount]. rewrite Hfit, E. intros [= _ <-].
    apply (touches_row s _ _ (next_id (db w)) (mkClassFee s fee.1 fee.2 true)); [done|done|].
    intros g Hg. destruct Hwf as [_ Hf]. rewrite Hf in Hg by lia. done.
Qed.

Lemma upsert_all_touches s fees w r w' :
  fees_wf (db w) -> forallb (fun fee => fits_int4 fee.2) fees = true -> upsert_all s fees w = (r, w') -> touches s (db w) (db w').
Proof.
  revert w. induction fees as [|fee fees IH]; intros w Hwf; [by intros _ [= _ <-]|]. intros [Hfit Hfits]%andb_true_iff.
  cbn [upsert_all foldr]. unfold mbind, M_bind. destruct (upsertClassFee s fee w) as [r1 w1] eqn:E1.
  pose proof (upsert_touches _ _ _ _ _ Hwf Hfit E1) as T. destruct (upsert_price _ _ _ _ _ Hwf Hfit E1) as (Hok & Hwf1 & _).
  destruct r1; [|done]. intros Hrun. by apply (touches_trans _ _ (db w1)), IH.
Qed.

Lemma publish_touches s fees w r w' :
  fees_wf (db w) -> forallb (fun fee => fits_int4 fee.2) fees = true -> publish_tx s fees w = (r, w') -> touches s (db w) (db w').
Proof.
  intros Hwf Hfits. unfold publish_tx, mbind at 1, M_bind at 1, retireClassFees, write. intros Hrun.
  apply (touches_trans _ _ (set_classFees (retire s fees.*1 <$> classFees (db w)) (db w))).
  - intros i f Hf. cbn. rewrite lookup_fmap_Some.
    assert (forall g, retire s fees.*1 g = f -> g = f) as Hr.
    { intros g Hg. unfold retire in Hg. destruct (bool_decide (cf_schoolId g = s)) eqn:E; [|done]. exfalso. apply Hf.
      to_prop. rewrite <- Hg. by repeat case_match. }
    split; [|by intros (g & ->%Hr & Hi)]. intros Hi. exists f. split; [|done]. unfold retire.
    by rewrite bool_decide_eq_false_2.
  - apply (upsert_all_touches s fees (mkWorld _ (out w)) r w'); [|done|done]. by apply retire_price.
Qed.

Section Fees.
Context `{CacheBackend} (id_str : id -> string) `{!Inj (=) (=) id_str}.
Context (by_class : list (id * ClassFee) -> list (id * ClassFee)) (toLowerCase : string -> string).
Context (by_class_perm : forall l, by_class l ≡ₚ l).

(** No Redis command fails. *)
Definition reliable : Prop := forall c : CacheService (list FeeView), next_fails c = false.

(** Every cached list holds what the table says now. *)
Definition coherent (fs : FeeState) : Prop := forall s l exp,
  memory (fs_cache fs) !! key_classFees (id_str s) = Some (l, exp) ->
  l ≡ₚ loadClassFees by_class s (db (fs_world fs)).

Lemma key_inj s s' : key_classFees (id_str s) = key_classFees (id_str s') -> s = s'.
Proof. intros Hk%key_classFees_inj. by apply (inj id_str). Qed.

Lemma set_coherent s now w c c' :
  reliable ->
  (forall s' l exp, s' <> s -> memory c !! key_classFees (id_str s') = Some (l, exp) ->
    l ≡ₚ loadClassFees by_class s' (db w)) ->
  c' = set now (key_classFees (id_str s)) (loadClassFees by_class s (db w)) CLASS_FEES_TTL_SECONDS c ->
  coherent (mkFeeState w c').
Proof.
  intros Hr Hc -> s' l exp. unfold set, command. rewrite (Hr c). cbn. destruct (decide (s' = s)) as [->|Hs].
  - rewrite lookup_insert_eq. by intros [= <- _].
  - rewrite lookup_insert_ne by (intros Hk%key_inj; congruence). by apply Hc.
Qed.

Lemma tick_memory (c : CacheService (list FeeView)) : memory (tick c) = memory c.
Proof. unfold tick. by destruct redis. Qed.

Lemma getClassFees_coherent s now fs :
  reliable -> coherent fs ->
  let '(l, fs') := getClassFees id_str by_class s now fs in
  l ≡ₚ loadClassFees by_class s (db (fs_world fs)) /\ fs_world fs' = fs_world fs /\ coherent fs'.
Proof.
  intros Hr Hc. unfold getClassFees, getOrSet, get. rewrite (Hr (fs_cache fs)).
  destruct (memory (fs_cache fs) !! key_classFees (id_str s)) as [[l exp]|] eqn:El.
  - destruct (live now (l, exp)) eqn:Elive; cbn.
    + split; [by apply (Hc s l exp)|]. split; [done|]. intros s' l' exp'. cbn. rewrite tick_memory. apply Hc.
    + split; [done|]. split; [done|]. eapply set_coherent; [done| |reflexivity]. cbn.
      intros s' l' exp' _ [_ Hl]%lookup_delete_Some. by apply (Hc s' l' exp').
  - cbn. split; [done|]. split; [done|]. eapply set_coherent; [done| |reflexivity]. cbn.
    intros s' l' exp' _. rewrite tick_memory. apply Hc.
Qed.

(** Rows of other schools do not enter a list. *)
Lemma load_touches s s' d d' : touches s d d' -> s' <> s -> loadClassFees by_class s' d ≡ₚ loadClassFees by_class s' d'.
Proof.
  intros Hx Hs. unfold loadClassFees. f_equiv. rewrite !by_class_perm. apply NoDup_Permutation.
  1, 2: apply list.NoDup_filter, NoDup_map_to_list.
  intros [i f]. rewrite !elem_of_findMany. unfold tenant_where. rewrite andb_true_iff, bool_decide_eq_true.
  split; intros (Hi & Ha & Hf); (split; [apply (Hx i f); [congruence|done]|done]).
Qed.

Lemma duplicate_free seen fees :
  duplicate_class toLowerCase seen fees = None ->
  NoDup (normalize_fee <$> fees).*1 /\ forall c, c ∈ (normalize_fee <$> fees).*1 -> toLowerCase c ∉ seen.
Proof.
  revert seen. induction fees as [|fee fees IH]; intros seen.
  { intros _. split; [constructor|]. intros c Hc. by apply elem_of_nil in Hc. }
  cbn [duplicate_class]. case_bool_decide as Hin; [done|]. intros [Hnd Hs]%IH. cbn. split.
  - apply list.NoDup_cons. split; [|done]. intros Hc%Hs. apply Hc. left.
  - intros c [->|Hc]%elem_of_cons; [done|]. apply Hs in Hc. intros Hc'. apply Hc. by right.
Qed.

(** C25: publishing a schedule, all or nothing: a payload that names a class
    twice (but for case and surrounding space) is refused and changes nothing; one
    with a fee of more kobo than a 32-bit column holds, which passes the validation,
    ends in a server error and changes nothing either; any other leaves exactly the
    published prices, the classes left out being closed to new plans, and no price
    of another school moves.  The list it answers with, and every cached list, then
    hold what the table says, as long as no command of the cache fails (a deletion
    that fails leaves the old list cached). *)
Theorem publication_outcomes schoolId fees now fs :
  fees_wf (db (fs_world fs)) -> reliable -> coherent fs ->
  match duplicate_class toLowerCase [] fees with
  | Some name => setClassFees id_str by_class toLowerCase schoolId fees now fs =
      (Err (FBadRequest ("Duplicate class name in payload: " +:+ name)), fs)
  | None =>
      if forallb (fun fee => fits_int4 (kobo_of (fd_feeAmount fee))) fees then
        exists l fs', setClassFees id_str by_class toLowerCase schoolId fees now fs = (Ok l, fs') /\
          (forall s c, price s c (db (fs_world fs')) =
            if bool_decide (s = schoolId) then list_to_map (M := gmap string Z) (normalize_fee <$> fees) !! c
            else price s c (db (fs_world fs))) /\
          l ≡ₚ loadClassFees by_class schoolId (db (fs_world fs')) /\
          fees_wf (db (fs_world fs')) /\ coherent fs'
      else setClassFees id_str by_class toLowerCase schoolId fees now fs = (Err int4_overflow, fs)
  end.
Proof.
  intros Hwf Hr Hc. unfold setClassFees. destruct (duplicate_class _ _ _) as [name|] eqn:Ed; [done|].
  apply duplicate_free in Ed as [Hnd _]. unfold transaction. cbv zeta.
  assert (forallb (fun fee => fits_int4 (kobo_of (fd_feeAmount fee))) fees =
    forallb (fun fee : string * Z => fits_int4 fee.2) (normalize_fee <$> fees)) as ->
    by (clear; induction fees as [|fee fees IH]; [done|]; exact (f_equal (andb _) IH)).
  destruct (forallb _ (normalize_fee <$> fees)) eqn:Hfits; cycle 1.
  { destruct fs as [[d o] c]. cbn [fs_world fs_cache db out] in *.
    destruct (retire_price schoolId (normalize_fee <$> fees).*1 d Hwf) as [Hwf1 _].
    destruct (upsert_all_overflow schoolId _ (mkWorld _ o) Hwf1 Hfits) as (w' & Hw & Ho).
    unfold publish_tx, mbind, M_bind, retireClassFees, write. cbn [db out]. rewrite Hw. cbn in Ho. by rewrite Ho. }
  destruct (publish_tx schoolId (normalize_fee <$> fees) (fs_world fs)) as [r w'] eqn:Ep.
  destruct (publish_price _ _ _ _ _ Hwf Hnd Hfits Ep) as (Hok & Hwf' & Hp).
  pose proof (publish_touches _ _ _ _ _ Hwf Hfits Ep) as Ht. destruct r as [u|e]; [|done].
  assert (coherent (mkFeeState w' (del (key_classFees (id_str schoolId)) (fs_cache fs)))) as Hc'.
  { intros s l exp. unfold del, command. rewrite (Hr (fs_cache fs)). cbn. intros [Hne Hl]%lookup_delete_Some.
    rewrite <- (load_touches schoolId s (db (fs_world fs)) (db w')); [by apply (Hc s l exp)|done|congruence]. }
  pose proof (getClassFees_coherent schoolId now _ Hr Hc') as Hg.
  destruct (getClassFees _ _ _ _ _) as [l fs']. destruct Hg as (Hl & Hw & Hc''). cbn in Hw.
  exists l, fs'. rewrite Hw. done.
Qed.

(** A single fee can be shown at its old price for five minutes after it was
    changed: the cache is invalidated before the write, and a read in between
    caches the old list again, which every later read within the five minutes is
    answered with, whatever the table now says. *)
Theorem single_fee_stale schoolId className feeKobo now now' fs :
  reliable -> now <= now' < now + 5 * 60 * 1000 ->
  let '(existing, fs1) := createClassFee_read id_str schoolId className fs in
  let '(_, fs2) := getClassFees id_str by_class schoolId now fs1 in
  let '(_, fs3) := createClassFee_write schoolId className feeKobo existing fs2 in
  (getClassFees id_str by_class schoolId now' fs3).1 = loadClassFees by_class schoolId (db (fs_world fs)).
Proof.
  intros Hr Ht. unfold createClassFee_read. set (existing := fst <$> _).
  set (key := key_classFees (id_str schoolId)). set (c := del key (fs_cache fs)).
  unfold getClassFees, getOrSet. cbn [fs_cache fs_world]. fold key.
  rewrite get_miss by (done || (unfold c; rewrite memory_del by done; apply lookup_delete_eq)).
  unfold createClassFee_write. cbn [fs_world fs_cache].
  destruct (match existing with Some feeId => _ | None => _ end) as [r w]. cbn [fs_cache].
  rewrite (get_hit now' key _ (loadClassFees by_class schoolId (db (fs_world fs)), now + CLASS_FEES_TTL_SECONDS * 1000));
    [reflexivity|apply Hr| |].
  - rewrite memory_set by done. apply lookup_insert_eq.
  - unfold live, CLASS_FEES_TTL_SECONDS. cbn. rewrite (proj2 (Z.leb_gt _ _)) by lia. done.
Qed.
End Fees.

(** The class names in byte order, for the examples. *)
Definition sample_fees : FeeState := mkFeeState sample (mkCache ∅ 0).
#[local] Instance sample_backend : CacheBackend := {| redis := false; fails _ := false |}.
Definition sample_id_str (i : id) : string := string_of (replicate (Pos.to_nat i) 105).

Lemma replicate_text_inj n m : string_of (replicate n 105) = string_of (replicate m 105) -> n = m.
Proof.
  revert m. induction n as [|n IH]; intros [|m]; try done. unfold string_of. cbn. intros [= E]. f_equal. by apply IH.
Qed.
#[local] Instance sample_id_str_inj : Inj (=) (=) sample_id_str.
Proof. intros a b H%replicate_text_inj. by apply Pos2Nat.inj. Qed.

Lemma sample_fees_wf : fees_wf sample_db.
Proof.
  split.
  - intros i j f g. change (classFees sample_db) with ({[ 7%positive := mkClassFee 1%positive "JSS1" 10000000 true ]} : gmap id ClassFee).
    by intros [<- _]%lookup_singleton_Some [<- _]%lookup_singleton_Some.
  - intros i Hi. change (classFees sample_db) with ({[ 7%positive := mkClassFee 1%positive "JSS1" 10000000 true ]} : gmap id ClassFee).
    apply lookup_singleton_None. cbn in Hi. lia.
Qed.
Lemma sample_reliable : reliable.
Proof. done. Qed.

Lemma sample_coherent : coherent sample_id_str (fun l => l) sample_fees.
Proof. intros s l exp. cbn [sample_fees fs_cache memory]. by rewrite lookup_empty. Qed.

Definition sample_schedule : list FeeDto := [mkFeeDto " JSS2 " 120000; mkFeeDto "SS1" 150000].
Lemma publication_outcomes_witness :
  exists l fs', setClassFees sample_id_str (fun l => l) (fun s => s) 1 sample_schedule 0 sample_fees = (Ok l, fs') /\
    price 1 "JSS1" (db (fs_world fs')) = None /\ price 1 "JSS2" (db (fs_world fs')) = Some 12000000 /\
    price 1 "SS1" (db (fs_world fs')) = Some 15000000.
Proof.
  pose proof (publication_outcomes sample_id_str (fun l => l) (fun s => s) (fun l => reflexivity l) 1 sample_schedule 0
    sample_fees sample_fees_wf sample_reliable sample_coherent) as H.
  assert (duplicate_class (fun s => s) [] sample_schedule = None) as Hd by (vm_compute; reflexivity).
  assert (forallb (fun fee => fits_int4 (kobo_of (fd_feeAmount fee))) sample_schedule = true) as Hf by (vm_compute; reflexivity).
  rewrite Hd, Hf in H. destruct H as (l & fs' & H & Hp & _).
  exists l, fs'. rewrite !Hp. split; [exact H|]. clear. vm_compute. done.
Defined.
(** Thirty million naira is more kobo than the column holds. *)
Example fee_overflows :
  setClassFees sample_id_str (fun l => l) (fun s => s) 1 [mkFeeDto "JSS1" 30000000] 0 sample_fees = (Err int4_overflow, sample_fees).
Proof. vm_compute. reflexivity. Qed.
Lemma single_fee_stale_witness :
  let '(existing, fs1) := createClassFee_read sample_id_str 1 "JSS1" sample_fees in
  let '(_, fs2) := getClassFees sample_id_str (fun l => l) 1 1000 fs1 in
  let '(_, fs3) := createClassFee_write 1 "JSS1" 99900 existing fs2 in
  price 1 "JSS1" (db (fs_world fs3)) = Some 99900 /\
  (getClassFees sample_id_str (fun l => l) 1 2000 fs3).1 = loadClassFees (fun l => l) 1 sample_db.
Proof.
  pose proof (single_fee_stale sample_id_str (fun l => l) 1 "JSS1" 99900 1000 2000 sample_fees sample_reliable ltac:(lia)) as H.
  split; [vm_compute; reflexivity|exact H].
Defined.

(** ** The dashboard and the approval queue *)

Lemma findMany_ext {V} (f g : V -> bool) (m : gmap id V) : (forall v, f v = g v) -> findMany f m = findMany g m.
Proof. intros H. unfold findMany. apply list_filter_iff. intros [i v]. by rewrite H. Qed.

Lemma window_all {A} take_ (rows : list A) : Z.of_nat (length rows) <= take_ -> window 0 take_ rows = rows.
Proof. intros H. unfold window. rewrite (proj2 (Z.ltb_ge take_ 0)) by lia. rewrite drop_0. apply take_ge. lia. Qed.

Lemma sum_findMany (f : Payment -> Z) (P : Payment -> bool) m : sum_of f P m = total (fun p => if P p then f p else 0) m.
Proof. unfold sum_of, findMany, total. apply sum_filter. Qed.

(** The first payments a card charge is collecting for a school. *)
Definition in_flight_cards (schoolId : id) (p : Payment) : bool :=
  of_school schoolId p && negb (p_isConfirmed p) && has_status TX_PENDING p && card_first_payment p.

(** The dashboard agrees with the approval queue: while the queue fits one
    request, the pending revenue is the sum of the school's shares in it, and the
    money awaiting activation is the sum of the first-payment queue plus that of
    the card payments in flight, which the queue leaves out. *)
Theorem dashboard_matches_queue schoolId take_ d :
  let queue t := pending_rows schoolId take_ (Some t) d in
  let share rows := sumZ ((fun kv : id * Payment => p_schoolAmount kv.2) <$> rows) in
  (forall t, count (tenant_where p_schoolId schoolId (pending_where (Some t))) (payments d) <= Z.min take_ 200) ->
  pendingRevenue (getDashboardStats schoolId d) = naira (share (queue INSTALLMENT)) /\
  awaitingActivation (getDashboardStats schoolId d) =
    naira (share (queue FIRST_PAYMENT) + sum_of p_schoolAmount (in_flight_cards schoolId) (payments d)).
Proof.
  intros queue share Hfit.
  assert (forall t, share (queue t) =
    sum_of p_schoolAmount (tenant_where p_schoolId schoolId (pending_where (Some t))) (payments d)) as Hq.
  { intros t. unfold queue, pending_rows, share, sum_of. rewrite window_all; [done|]. apply Hfit. }
  rewrite !Hq. cbn [getDashboardStats pendingRevenue awaitingActivation]. split; f_equal.
  - unfold sum_of. f_equal. f_equal. apply findMany_ext. intros p.
    unfold tenant_where, pending_where, of_type, of_school, card_first_payment, is_first.
    destruct (p_paymentType p), (p_isConfirmed p), (has_status TX_PENDING p), (bool_decide (p_schoolId p = schoolId)); done.
  - rewrite !sum_findMany, <- total_add. apply total_ext. intros i p _.
    unfold tenant_where, pending_where, in_flight_cards, of_type, of_school, card_first_payment, is_first.
    destruct (bool_decide (p_paymentType p = FIRST_PAYMENT)), (p_isConfirmed p), (has_status TX_PENDING p), (bool_decide (p_schoolId p = schoolId)),
      (bool_decide (is_Some (p_paystackReference p))); cbn; lia.
Qed.

Lemma dashboard_matches_queue_witness :
  pendingRevenue (getDashboardStats 1 sample_db) = naira 2500000 /\
  awaitingActivation (getDashboardStats 1 sample_db) = naira (0 + 2500000).
Proof.
  apply (dashboard_matches_queue 1 100 sample_db). intros t. destruct t; vm_compute; discriminate.
Defined.

(** ** The size of a page of students *)

(** A page of students holds at most 200 rows when the limit asked for is not
    negative; a negative limit is not refused but reads from the end of the
    list, as many rows as it says: the whole roll, for one below minus its
    length. *)
Theorem students_page_size contains newest_payments newest_enrollments schoolId className search limit d :
  (forall l, newest_enrollments l ≡ₚ l) ->
  exists v, getStudents contains newest_payments newest_enrollments schoolId className search 1 limit d = Ok v /\
    let total := count (enrollment_where schoolId (student_where contains className search d)) (enrollments d) in
    Z.of_nat (length (pg_items v)) = Z.min total (if limit <? 0 then - limit else Z.min limit 200).
Proof.
  intros Hp. unfold getStudents. change ((1 - 1) * (limit `min` 200)) with 0. eexists. split; [reflexivity|]. cbn.
  set (rows := findMany _ _). rewrite length_fmap. unfold window. cbn [Z.to_nat drop].
  destruct (limit <? 0) eqn:El; to_prop.
  - rewrite Z.min_l by lia. rewrite (proj2 (Z.ltb_lt limit 0)) by done.
    rewrite length_reverse, length_take, length_drop, length_reverse, Hp. unfold count. fold rows. lia.
  - rewrite (proj2 (Z.ltb_ge (limit `min` 200) 0)) by lia. rewrite length_take, length_drop, Hp. unfold count. fold rows. lia.
Qed.
Lemma students_page_size_witness :
  exists v, getStudents (fun _ _ => false) sort_newest (fun l => l) 1 None None 1 (-1000) sample_db = Ok v /\
    Z.of_nat (length (pg_items v)) = 2.
Proof.
  destruct (students_page_size (fun _ _ => false) sort_newest (fun l => l) 1 None None (-1000) sample_db (fun l => reflexivity l))
    as (v & H1 & H2). exists v. split; [exact H1|]. etrans; [exact H2|]. vm_compute. reflexivity.
Defined.
