(* ===== verification/AdminReports.v ===== *)
(** * The platform's reports

    [src/admin/admin.service.ts]: the summaries of students, schools and revenue,
    the collections breakdown and its drill-down, the revenue chart, and the
    free-migration windows.  A query without an order answers in the table's
    order; the server's zone is UTC ([Dates]).  The month names of [Intl], the
    collation of [localeCompare] and the order of equal dates are parameters. *)

From Stdlib Require Import QArith.
From stdpp Require Import sorting pretty.
From S2P Require Import Prelude JsNumber JsText Pagination Money Dates Schedule Arrears Schema Effects EnrollmentView.
From S2P Require Import MigratedPlan Ledger Enrollment InvitePolicy Cache PaymentHistory Schools.

Local Open Scope Z_scope.

(** ** Groups and maps *)

(** [groupBy] on a column: the groups in the order of their first row, each with
    a figure of its rows. *)
Definition group_by {V} (key : V -> id) (figure : list V -> Z) (rows : list (id * V)) : list (id * Z) :=
  (fun k => (k, figure (snd <$> filter (fun kv : id * V => key kv.2 = k) rows))) <$>
    remove_dups ((fun kv : id * V => key kv.2) <$> rows).
Definition rows_counted {V} (rows : list V) : Z := Z.of_nat (length rows).
Definition rows_summed {V} (f : V -> Z) (rows : list V) : Z := sumZ (f <$> rows).

(** A JavaScript [Map] keeps the order in which its keys were first set. *)
Fixpoint map_get {V} (k : id) (m : list (id * V)) : option V :=
  match m with
  | [] => None
  | (k', v) :: m' => if bool_decide (k' = k) then Some v else map_get k m'
  end.
Fixpoint map_set {V} (k : id) (v : V) (m : list (id * V)) : list (id * V) :=
  match m with
  | [] => [(k, v)]
  | (k', v') :: m' => if bool_decide (k' = k) then (k, v) :: m' else (k', v') :: map_set k v m'
  end.
Definition get_or_zero (k : id) (m : list (id * Z)) : Z := default 0 (map_get k m).

(** ** Plans and what was paid on them *)

Definition owes (e : ChildEnrollment) : bool :=
  (0 <? e_remainingBalance e) &&
  bool_decide (e_paymentStatus e = PENDING \/ e_paymentStatus e = ACTIVE \/ e_paymentStatus e = DEFAULTED).

Definition confirmed_installments (p : Payment) : bool := is_installment p && p_isConfirmed p.

Definition paid_where (schoolId : option id) (openOnly : bool) (e : ChildEnrollment) : bool :=
  (if openOnly then owes e else true)
  && match schoolId with Some sid => bool_decide (e_schoolId e = sid) | None => true end.

Definition enrollmentsWithPaidValue (schoolId : option id) (openOnly : bool) (d : DB) : list (id * ChildEnrollment * Z) :=
  let enrollments_ := findMany (paid_where schoolId openOnly) (enrollments d) in
  let ids := fst <$> enrollments_ in
  let paidValues := group_by p_enrollmentId (rows_summed p_amountPaid)
    (findMany (fun p => bool_decide (p_enrollmentId p ∈ ids) && confirmed_installments p) (payments d)) in
  (fun kv : id * ChildEnrollment => (kv, get_or_zero kv.1 paidValues)) <$> enrollments_.

Definition arrears_of (row : id * ChildEnrollment * Z) (now : Z) : ArrearsResult :=
  let e := row.1.2 in
  computeArrears (mkArrearsInput (e_remainingBalance e) (e_installmentFrequency e) (e_termStartDate e)
    (e_termEndDate e) row.2) now.

(** ** The breakdown by school *)

Record Bucket := mkBucket {
  bk_schoolName : string;
  bk_outstandingKobo : Z;
  bk_overdueKobo : Z;
  bk_studentsWithBalance : Z;
  bk_overdueStudentCount : Z }.
Definition empty_bucket (schoolName : string) : Bucket := mkBucket schoolName 0 0 0 0.

Record Totals := mkTotals {
  bySchool : list (id * Bucket);
  outstandingKobo : Z;
  overdueKobo : Z;
  overdueStudents : Z }.

Definition add_row (now : Z) (d : DB) (t : Totals) (row : id * ChildEnrollment * Z) : Totals :=
  let e := row.1.2 in
  let overdue := overdueAmount (arrears_of row now) in
  let late := if 0 <? overdue then 1 else 0 in
  let key := e_schoolId e in
  let bucket := default (empty_bucket (default "Unknown School"%string (s_name <$> schools d !! key)))
                  (map_get key (bySchool t)) in
  mkTotals
    (map_set key
      (mkBucket (bk_schoolName bucket) (bk_outstandingKobo bucket + e_remainingBalance e)
        (bk_overdueKobo bucket + overdue) (bk_studentsWithBalance bucket + 1)
        (bk_overdueStudentCount bucket + late)) (bySchool t))
    (outstandingKobo t + e_remainingBalance e) (overdueKobo t + overdue) (overdueStudents t + late).

Record SchoolBreakdown := mkSchoolBreakdown {
  sb_schoolId : id;
  sb_schoolName : string;
  sb_totalStudents : Z;
  sb_studentsWithBalance : Z;
  sb_outstanding : Q;
  sb_overdue : Q;
  sb_overdueStudentCount : Z }.
Record BreakdownSummary := mkBreakdown {
  bs_totalOutstanding : Q;
  bs_totalOverdue : Q;
  bs_totalStudents : Z;
  bs_studentsWithBalance : Z;
  bs_overdueStudents : Z;
  bs_overdueSchools : Z;
  bs_schools : list SchoolBreakdown }.

Definition positive (q : Q) : bool := negb (Qle_bool q 0).

Definition enrollment_counts (d : DB) : list (id * Z) :=
  group_by e_schoolId rows_counted (map_to_list (enrollments d)).

(** [school.findMany({ where: { id: { in: ids } } })] *)
Definition findMany_in (ids : list id) (d : DB) : list (id * School) :=
  filter (fun kv : id * School => bool_decide (kv.1 ∈ ids) = true) (map_to_list (schools d)).

(** The schools with students and no open plan, each with an empty bucket. *)
Definition seed_missing (d : DB) (m : list (id * Bucket)) : list (id * Bucket) :=
  let missingIds := filter (fun k => map_get k m = None) (fst <$> enrollment_counts d) in
  fold_left (fun m (kv : id * School) => map_set kv.1 (empty_bucket (s_name kv.2)) m)
    (findMany_in missingIds d) m.

Definition breakdown_row (counts : list (id * Z)) (kv : id * Bucket) : SchoolBreakdown :=
  mkSchoolBreakdown kv.1 (bk_schoolName kv.2) (get_or_zero kv.1 counts) (bk_studentsWithBalance kv.2)
    (naira (bk_outstandingKobo kv.2)) (naira (bk_overdueKobo kv.2)) (bk_overdueStudentCount kv.2).

Definition computeBreakdownSummary (now : Z) (d : DB) : BreakdownSummary :=
  let rows := enrollmentsWithPaidValue None true d in
  let counts := enrollment_counts d in
  let t := fold_left (add_row now d) rows (mkTotals [] 0 0 0) in
  let schools_ := breakdown_row counts <$> seed_missing d (bySchool t) in
  mkBreakdown (naira (outstandingKobo t)) (naira (overdueKobo t))
    (reduce_sum snd counts) (Z.of_nat (length rows)) (overdueStudents t)
    (Z.of_nat (length (filter (fun s => positive (sb_overdue s) = true) schools_))) schools_.

(** ** One school's drill-down *)

Inductive Tab := TStudents | TOutstanding | TOverdue.
#[export] Instance Tab_eq_dec : EqDecision Tab.
Proof. solve_decision. Defined.

Record BreakdownStudent := mkBreakdownStudent {
  st_childId : id;
  st_studentName : string;
  st_className : string;
  st_parentName : string;
  st_paymentStatus : PaymentStatus;
  st_totalFee : Q;
  st_outstanding : Q;
  st_overdue : Q;
  st_paidInstallments : Z;
  st_missedInstallments : Z;
  st_daysOverdue : Z;
  st_termExpired : bool;
  st_nextDueDate : option string;
  st_installmentFrequency : InstallmentFrequency }.

Definition breakdown_student (now : Z) (d : DB) (row : id * ChildEnrollment * Z) : BreakdownStudent :=
  let e := row.1.2 in
  let arrears := arrears_of row now in
  {| st_childId := e_childId e;
     st_studentName := default "Unknown Student"%string (c_fullName <$> children d !! e_childId e);
     st_className := e_className e;
     st_parentName := default "Unknown"%string (parent_name (e_childId e) d);
     st_paymentStatus := e_paymentStatus e;
     st_totalFee := naira (e_totalSchoolFee e);
     st_outstanding := naira (e_remainingBalance e);
     st_overdue := naira (overdueAmount arrears);
     st_paidInstallments := ar_paidInstallments arrears;
     st_missedInstallments := missedInstallments arrears;
     st_daysOverdue := daysOverdue arrears;
     st_termExpired := termExpired arrears;
     st_nextDueDate := iso_date <$> nextDueDate arrears;
     st_installmentFrequency := e_installmentFrequency e |}.

(** [x || y] on numbers. *)
Definition or_else (x y : Q) : Q := if Qeq_bool x 0 then y else x.

Record SchoolPage := mkSchoolPage {
  sp_page : Paginated BreakdownStudent; sp_schoolId : id; sp_schoolName : string; sp_tab : Tab }.

Section Drilldown.
Context (localeCompare : string -> string -> Z).

Definition compare_rows (tab : Tab) (a b : BreakdownStudent) : Q :=
  match tab with
  | TOverdue =>
      or_else (js_sub (st_overdue b) (st_overdue a))
        (or_else (inject_Z (st_daysOverdue b - st_daysOverdue a)) (js_sub (st_outstanding b) (st_outstanding a)))
  | TOutstanding => or_else (js_sub (st_outstanding b) (st_outstanding a)) (js_sub (st_overdue b) (st_overdue a))
  | TStudents => inject_Z (localeCompare (st_studentName a) (st_studentName b))
  end.

(** [Array.prototype.sort]: a stable sort by the comparator. *)
Definition not_after (tab : Tab) (a b : BreakdownStudent) : Prop := Qle_bool (compare_rows tab a b) 0 = true.
#[export] Instance not_after_dec tab : RelDecision (not_after tab) := fun a b => decide (_ = _).

Definition in_tab (tab : Tab) (s : BreakdownStudent) : bool :=
  match tab with TOverdue => positive (st_overdue s) | _ => true end.

(** The rows of a tab, in its order. *)
Definition breakdown_rows (schoolId : id) (tab : Tab) (now : Z) (d : DB) : list BreakdownStudent :=
  let rows := enrollmentsWithPaidValue (Some schoolId) (negb (bool_decide (tab = TStudents))) d in
  merge_sort (not_after tab) (filter (fun s => in_tab tab s = true) (breakdown_student now d <$> rows)).

Definition getSchoolBreakdown (schoolId : id) (tab : Tab) (pageRaw limitRaw : raw) (now : Z) (d : DB) : res SchoolPage :=
  let args := parsePagination pageRaw limitRaw DEFAULT_PAGE_SIZE MAX_PAGE_SIZE in
  match schools d !! schoolId with
  | None => Err (FNotFound "School not found")
  | Some school =>
      let filtered := breakdown_rows schoolId tab now d in
      Ok (mkSchoolPage
        (paginate (slice (Math_floor (skip args)) (limit args) filtered) (Z.of_nat (length filtered))
          (page args) (limit args))
        schoolId (s_name school) tab)
  end.
End Drilldown.

(** ** Summaries *)

Record StudentsSummary := mkStudentsSummary {
  ss_totalStudents : Z;
  ss_activeStudents : Z;
  ss_pendingFirstPayments : Z;
  ss_defaultedStudents : Z;
  ss_totalOutstandingBalance : Q }.

Definition status_in (l : list PaymentStatus) (e : ChildEnrollment) : bool := bool_decide (e_paymentStatus e ∈ l).

Definition computeStudentsSummary (d : DB) : StudentsSummary :=
  {| ss_totalStudents := count (fun _ => true) (enrollments d);
     ss_activeStudents := count (status_in [ACTIVE]) (enrollments d);
     ss_pendingFirstPayments := count (fun p => is_first p && bool_decide (p_receiver p = PLATFORM)
       && negb (p_isConfirmed p) && has_status TX_PENDING p) (payments d);
     ss_defaultedStudents := count (status_in [DEFAULTED]) (enrollments d);
     ss_totalOutstandingBalance := naira (sum_of e_remainingBalance (status_in [PENDING; ACTIVE; DEFAULTED]) (enrollments d)) |}.

Record SchoolSummary := mkSchoolSummary {
  sm_schoolId : id;
  sm_schoolName : string;
  sm_totalStudents : Z;
  sm_pendingAmount : Q;
  sm_collectedAmount : Q }.

Section Orders.
(** [orderBy: { name: 'asc' }] and [orderBy: { migrationDeadline: 'asc' }]. *)
Context (by_name by_deadline : list (id * School) -> list (id * School)).

Definition computeSchoolsSummary (d : DB) : list SchoolSummary :=
  let enrollmentCounts := enrollment_counts d in
  let pendingAmounts := group_by p_schoolId (rows_summed p_amountPaid)
    (findMany (fun p => negb (p_isConfirmed p)) (payments d)) in
  let collectedAmounts := group_by p_schoolId (rows_summed p_schoolAmount)
    (findMany (fun p => p_isConfirmed p && MOVED_THROUGH_LOPAY p) (payments d)) in
  (fun kv : id * School =>
     mkSchoolSummary kv.1 (s_name kv.2) (get_or_zero kv.1 enrollmentCounts)
       (naira (get_or_zero kv.1 pendingAmounts)) (naira (get_or_zero kv.1 collectedAmounts))) <$>
    by_name (map_to_list (schools d)).

Definition platform_revenue (p : Payment) : bool := bool_decide (p_receiver p = PLATFORM) && p_isConfirmed p.
Definition computePlatformRevenue (d : DB) : Q := naira (sum_of p_platformAmount platform_revenue (payments d)).

(** ** Free-migration windows *)

Record MigrationWindow := mkWindow {
  mw_schoolId : id;
  mw_schoolName : string;
  mw_closesAt : Z;
  mw_isOpen : bool;
  mw_daysRemaining : Z;
  mw_migratedStudents : Z }.

Definition getMigrationWindows (now : Z) (d : DB) : list MigrationWindow :=
  let claimed := group_by i_schoolId rows_counted
    (findMany (fun i => bool_decide (i_status i = INV_CLAIMED)) (invites d)) in
  (fun kv : id * School =>
     mkWindow kv.1 (s_name kv.2) (s_migrationDeadline kv.2)
       (isMigrationWindowOpen (s_migrationDeadline kv.2) now) (migrationDaysRemaining (s_migrationDeadline kv.2) now)
       (get_or_zero kv.1 claimed)) <$>
    by_deadline (findMany (fun s => bool_decide (s_deletedAt s = None)) (schools d)).
End Orders.

Record WindowChange := mkWindowChange {
  wc_schoolId : id;
  wc_schoolName : string;
  wc_previousClosesAt : Z;
  wc_closesAt : Z;
  wc_isOpen : bool;
  wc_daysRemaining : Z }.

(** [school.findFirst({ where: { id, deletedAt: null } })] *)
Definition live_school (schoolId : id) (d : DB) : option School :=
  match schools d !! schoolId with
  | Some s => if bool_decide (s_deletedAt s = None) then Some s else None
  | None => None
  end.

(** [closesAt]: [None] is an invalid date. *)
Definition setMigrationWindow (schoolId : id) (closesAt : option Z) (actor : AuditActor) (reason : string) (now : Z)
    : M WindowChange :=
  closesAt ← orThrow closesAt (FBadRequest "Provide a valid date");
  ensure (negb (closesAt <? now - DAY_MS))
    (FBadRequest ("That date is more than a day in the past. To stop a school migrating, " +:+
      "set the deadline to today — it takes effect immediately either way."));;
  ensure (negb (now + 365 * DAY_MS <? closesAt))
    (FBadRequest ("A free-migration deadline cannot be more than a year away. You entered " +:+
      String.substring 0 10 (iso_date closesAt) +:+ "."));;
  school ← read (live_school schoolId);
  school ← orThrow school (FNotFound "School not found");
  let previous := s_migrationDeadline school in
  write (fun d => set_schools (alter (set_s_migrationDeadline closesAt) schoolId (schools d)) d);;
  audit_record (mkAudit MIGRATION_WINDOW_CHANGED "School" schoolId (Some actor) (Some schoolId) (Some reason)
    (Some [("closesAt", JNum previous)]) (Some [("closesAt", JNum closesAt)]) []);;
  notify (mkNotification (s_ownerId school)
    (if previous <? closesAt then "Migration period extended" else "Migration period updated")
    NT_ALERT "/school/invites");;
  mret (mkWindowChange schoolId (s_name school) previous closesAt (isMigrationWindowOpen closesAt now)
    (migrationDaysRemaining closesAt now)).

(** ** The revenue chart *)

Inductive Range := Monthly | Weekly.

Definition SERIES_MONTHS : Z := 6.
Definition SERIES_WEEKS : Z := 8.

Record RevenueBucket := mkRevenue { rb_key : string; rb_label : string; rb_value : Q }.

(** [getDay], 0 for Sunday. *)
Definition getDay (t : Z) : Z := (Day t + 4) mod 7.
(** The midnight that starts the day, and the Monday that starts the week. *)
Definition midnight (t : Z) : Z := new_Date (getFullYear t) (getMonth t) (getDate t).
Definition monday (t : Z) : Z :=
  let day := midnight t in setDate day (getDate day - (getDay day + 6) mod 7).

Definition month_key (d : Z) : string := pretty (getFullYear d) +:+ "-" +:+ pad 2 (getMonth d + 1).
Definition day_key (d : Z) : string := month_key d +:+ "-" +:+ pad 2 (getDate d).
Definition keyFor (range : Range) (d : Z) : string :=
  match range with Monthly => month_key d | Weekly => day_key (monday d) end.

(** [for (let i = n - 1; i >= 0; i -= 1)] *)
Definition countdown (n : Z) : list Z := (fun i => n - 1 - Z.of_nat i) <$> seq 0 (Z.to_nat n).

Section Series.
(** [toLocaleString('en-US', { month: 'short' })], and [orderBy: { paymentDate: 'asc' }]. *)
Context (month_name : Z -> string) (oldest_first : list (id * Payment) -> list (id * Payment)).

Definition this_monday (now : Z) : Z :=
  new_Date (getFullYear now) (getMonth now) (getDate now - (getDay now + 6) mod 7).

Definition bucket_start (range : Range) (now i : Z) : Z :=
  match range with
  | Monthly => new_Date (getFullYear now) (getMonth now - i) 1
  | Weekly => let thisMonday := this_monday now in setDate thisMonday (getDate thisMonday - 7 * i)
  end.
Definition series_length (range : Range) : Z := match range with Monthly => SERIES_MONTHS | Weekly => SERIES_WEEKS end.
Definition series_start (range : Range) (now : Z) : Z := bucket_start range now (series_length range - 1).

Definition empty_buckets (range : Range) (now : Z) : list RevenueBucket :=
  (fun i =>
     let d := bucket_start range now i in
     mkRevenue (keyFor range d)
       (match range with Monthly => month_name d | Weekly => pretty (getDate d) +:+ " " +:+ month_name d end) 0) <$>
    countdown (series_length range).

(** [bucketMap.get(key)] is the last bucket set under the key; adding to it
    changes it in the list too. *)
Fixpoint add_to_bucket (key : string) (value : Q) (buckets : list RevenueBucket) : list RevenueBucket :=
  match buckets with
  | [] => []
  | b :: bs =>
      if String.eqb (rb_key b) key && negb (existsb (fun b' => String.eqb (rb_key b') key) bs)
      then mkRevenue (rb_key b) (rb_label b) (js_add (rb_value b) value) :: bs
      else b :: add_to_bucket key value bs
  end.

Definition series_payments (range : Range) (now : Z) (d : DB) : list (id * Payment) :=
  oldest_first (findMany (fun p => platform_revenue p && (series_start range now <=? p_paymentDate p)) (payments d)).

Definition revenueSeries (range : Range) (now : Z) (d : DB) : list (string * Q) :=
  let buckets := fold_left (fun bs (kv : id * Payment) =>
      add_to_bucket (keyFor range (p_paymentDate kv.2)) (naira (p_platformAmount kv.2)) bs)
    (series_payments range now d) (empty_buckets range now) in
  (fun b => (rb_label b, rb_value b)) <$> buckets.
End Series.

(** ** Lists *)

Section Pages.
Context (sign : string -> option string).
Context (newest_first : list (id * Payment) -> list (id * Payment)).
Context (newest_enrollments : list (id * ChildEnrollment) -> list (id * ChildEnrollment)).
Context (contains : string -> string -> bool).

Definition transaction_where (receiptType : option PaymentType) (status : option PaymentTransactionStatus)
    (p : Payment) : bool := of_type receiptType p && of_status status p.

Definition getTransactions (include : bool) (receiptType : option PaymentType) (page limit : raw)
    (status : option PaymentTransactionStatus) (d : DB) : Paginated PaymentView :=
  let args := parsePagination page limit DEFAULT_PAGE_SIZE MAX_PAGE_SIZE in
  let where_ := transaction_where receiptType status in
  let rows := admin_page args (newest_first (findMany where_ (payments d))) in
  paginate ((fun kv : id * Payment => toPaymentView d kv (signReceipt sign kv.2 include)) <$> rows)
    (count where_ (payments d)) (Pagination.page args) (Pagination.limit args).

Definition recentTransactions (take_ : Z) (d : DB) : list PaymentView :=
  (fun kv => toPaymentView d kv (Some None)) <$> window 0 take_ (newest_first (map_to_list (payments d))).

Record SchoolStudent := mkSchoolStudent {
  sst_id : id;
  sst_studentName : option string;
  sst_className : string;
  sst_parentName : string;
  sst_totalFee : Q;
  sst_paidAmount : Q;
  sst_paymentStatus : PaymentStatus;
  sst_nextDueDate : option string }.

Definition school_student (d : DB) (kv : id * ChildEnrollment) : SchoolStudent :=
  let '(eid, e) := kv in
  let ps := newest_first (payments_of eid d) in
  {| sst_id := e_childId e;
     sst_studentName := c_fullName <$> children d !! e_childId e;
     sst_className := e_className e;
     sst_parentName := default "Unknown"%string (truthy (parent_name (e_childId e) d));
     sst_totalFee := naira (e_totalSchoolFee e);
     sst_paidAmount := naira (reduce_paid p_isConfirmed ps);
     sst_paymentStatus := e_paymentStatus e;
     sst_nextDueDate := iso_date <$> next_due e ps |}.

Definition getSchoolStudents (schoolId : id) (className search : option string) (page limit : raw) (d : DB)
    : Paginated SchoolStudent :=
  let args := parsePagination page limit DEFAULT_PAGE_SIZE MAX_PAGE_SIZE in
  let whereClause e := bool_decide (e_schoolId e = schoolId) && student_where contains className search d e in
  let rows := admin_page args (newest_enrollments (findMany whereClause (enrollments d))) in
  paginate (school_student d <$> rows) (count whereClause (enrollments d)) (Pagination.page args) (Pagination.limit args).
End Pages.
#[global] Arguments keyFor : simpl never.

(** ** The overview *)

Section Overview.
Context `{CacheBackend}.
Context (month_name : Z -> string).
Context (oldest_first newest_first : list (id * Payment) -> list (id * Payment)).

(** The cached reports: the entries of one cache, whose keys differ. *)
Record Reports := mkReports {
  rc_revenue : CacheService Q;
  rc_students : CacheService StudentsSummary;
  rc_schools : CacheService (list SchoolSummary);
  rc_breakdown : CacheService BreakdownSummary }.

Definition AGGREGATE_TTL_SECONDS : Z := 30.

Definition getPlatformRevenue (now : Z) (d : DB) : CacheService Q -> Q * CacheService Q :=
  getOrSet now key_adminRevenue AGGREGATE_TTL_SECONDS (computePlatformRevenue d).
Definition getStudentsSummary (now : Z) (d : DB) : CacheService StudentsSummary -> StudentsSummary * CacheService StudentsSummary :=
  getOrSet now key_adminStudentsSummary AGGREGATE_TTL_SECONDS (computeStudentsSummary d).
Definition getSchoolsSummary (by_name : list (id * School) -> list (id * School)) (now : Z) (d : DB)
    : CacheService (list SchoolSummary) -> list SchoolSummary * CacheService (list SchoolSummary) :=
  getOrSet now key_adminSchoolsSummary AGGREGATE_TTL_SECONDS (computeSchoolsSummary by_name d).
Definition getBreakdownSummary (now : Z) (d : DB) : CacheService BreakdownSummary -> BreakdownSummary * CacheService BreakdownSummary :=
  getOrSet now key_adminBreakdownSummary AGGREGATE_TTL_SECONDS (computeBreakdownSummary now d).

Record Overview := mkOverview {
  ov_totalRevenue : Q;
  ov_totalStudents : Z;
  ov_activeStudents : Z;
  ov_pendingApprovals : Z;
  ov_totalOutstandingBalance : Q;
  ov_recentTransactions : list PaymentView;
  ov_revenueSeries : list (string * Q) }.

Definition getOverview (range : Range) (now : Z) (d : DB) (rc : Reports) : Overview * Reports :=
  let '(revenue, c1) := getPlatformRevenue now d (rc_revenue rc) in
  let '(students, c2) := getStudentsSummary now d (rc_students rc) in
  (mkOverview revenue (ss_totalStudents students) (ss_activeStudents students) (ss_pendingFirstPayments students)
     (ss_totalOutstandingBalance students) (recentTransactions newest_first 10 d)
     (revenueSeries month_name oldest_first range now d),
   mkReports c1 c2 (rc_schools rc) (rc_breakdown rc)).
End Overview.
