(* ===== verification/AdminSpecs.v ===== *)
(** * What the platform's reports say

    The breakdown by school is the declarative one, the drill-down agrees with
    it and ranks its rows, the revenue chart counts every payment once, and the
    reports are at most half a minute old. *)

From Stdlib Require Import QArith Lqa.
From stdpp Require Import sorting pretty.
From S2P Require Import Prelude JsNumber JsText Pagination Money Dates Schedule Arrears Schema Effects Samples.
From S2P Require Import EnrollmentView MigratedPlan Ledger Books Invariant Enrollment InvitePolicy Cache PaymentHistory Schools SchoolSpecs AdminReports.

Local Open Scope Z_scope.

(** ** Groups *)

Lemma map_get_none {V} k (m : list (id * V)) : map_get k m = None <-> k ∉ m.*1.
Proof.
  induction m as [|[k' v] m IH]; csimpl; [set_solver|]. rewrite not_elem_of_cons.
  case_bool_decide; [naive_solver|]. rewrite IH. naive_solver.
Qed.

Lemma map_get_elem {V} k (v : V) m : NoDup m.*1 -> (map_get k m = Some v <-> (k, v) ∈ m).
Proof.
  induction m as [|[k' v'] m IH]; csimpl; [set_solver|]. intros [Hk Hnd]%list.NoDup_cons.
  rewrite elem_of_cons. case_bool_decide as E; [subst|rewrite IH by done; naive_solver].
  split; [intros [= ->]; by left|]. intros [[= ->]|Hin]; [done|]. exfalso. apply Hk.
  apply list_elem_of_fmap. by exists (k, v).
Qed.

Lemma map_get_pairs {V} (f : id -> V) k l :
  map_get k ((fun k => (k, f k)) <$> l) = if bool_decide (k ∈ l) then Some (f k) else None.
Proof.
  induction l as [|k' l IH]; [by rewrite bool_decide_eq_false_2 by set_solver|]. rewrite fmap_cons. cbn [map_get].
  destruct (decide (k' = k)) as [->|E].
  - by rewrite (bool_decide_eq_true_2 (k = k)), (bool_decide_eq_true_2 (k ∈ _)) by set_solver.
  - rewrite (bool_decide_eq_false_2 (k' = k)), IH by done. do 2 case_bool_decide; set_solver.
Qed.

(** The rows of a group. *)
Definition rows_of {V} (key : V -> id) (k : id) (rows : list (id * V)) : list V :=
  snd <$> filter (fun kv : id * V => key kv.2 = k) rows.

Lemma rows_of_nil {V} (key : V -> id) k (rows : list (id * V)) :
  k ∉ (fun kv : id * V => key kv.2) <$> rows -> rows_of key k rows = [].
Proof.
  intros H. unfold rows_of. destruct (filter _ rows) as [|kv l] eqn:E; [done|]. exfalso. apply H.
  assert (kv ∈ filter (fun kv : id * V => key kv.2 = k) rows) as [Hk Hin]%list_elem_of_filter by (rewrite E; left).
  apply list_elem_of_fmap. by exists kv.
Qed.

(** A group's figure, whether or not it has rows. *)
Lemma group_figure {V} (key : V -> id) (figure : list V -> Z) k (rows : list (id * V)) :
  figure [] = 0 -> get_or_zero k (group_by key figure rows) = figure (rows_of key k rows).
Proof.
  intros H0. unfold get_or_zero, group_by.
  rewrite (map_get_pairs (fun k => figure (snd <$> filter (fun kv : id * V => key kv.2 = k) rows))).
  case_bool_decide as E; [done|]. cbn. rewrite rows_of_nil; [done|]. by rewrite <- elem_of_remove_dups.
Qed.

Lemma group_keys {V} (key : V -> id) figure (rows : list (id * V)) :
  (group_by key figure rows).*1 = remove_dups ((fun kv : id * V => key kv.2) <$> rows).
Proof. unfold group_by. rewrite <- list_fmap_compose. cbn. by rewrite list_fmap_id. Qed.

Lemma findMany_rows {V} (key : V -> id) k (P : V -> bool) (m : gmap id V) :
  rows_of key k (findMany P m) = snd <$> findMany (fun v => P v && bool_decide (key v = k)) m.
Proof.
  unfold rows_of, findMany. f_equal. rewrite list_filter_filter. apply list_filter_iff. intros [i v]. cbn.
  rewrite andb_true_iff, bool_decide_eq_true. tauto.
Qed.

Lemma summed_findMany {V} (f : V -> Z) (P : V -> bool) (m : gmap id V) : rows_summed f (snd <$> findMany P m) = sum_of f P m.
Proof. unfold rows_summed, sum_of. by rewrite <- list_fmap_compose. Qed.
Lemma counted_findMany {V} (P : V -> bool) (m : gmap id V) : rows_counted (snd <$> findMany P m) = count P m.
Proof. unfold rows_counted, count. by rewrite length_fmap. Qed.

(** ** Insertion into a map *)

Lemma map_get_set {V} k k' (v : V) m : map_get k' (map_set k v m) = if bool_decide (k = k') then Some v else map_get k' m.
Proof.
  induction m as [|[k1 v1] m IH]; csimpl; [done|].
  destruct (decide (k1 = k)) as [->|Hk].
  - rewrite bool_decide_eq_true_2 by done. csimpl. by case_bool_decide.
  - rewrite bool_decide_eq_false_2 by done. csimpl. rewrite IH. do 2 case_bool_decide; congruence.
Qed.

Lemma map_set_keys {V} k (v : V) m : NoDup m.*1 -> NoDup (map_set k v m).*1 /\ forall k', k' ∈ (map_set k v m).*1 <-> k' = k \/ k' ∈ m.*1.
Proof.
  induction m as [|[k1 v1] m IH]; csimpl.
  - intros _. split; [by repeat constructor; set_solver | set_solver].
  - intros [Hni Hnd]%list.NoDup_cons. destruct (IH Hnd) as [IH1 IH2]. case_bool_decide as E; csimpl.
    + subst. split; [by constructor|]. intros k'. rewrite elem_of_cons. tauto.
    + split.
      * constructor; [|done]. rewrite IH2. intros [?|?]; congruence.
      * intros k'. rewrite !elem_of_cons, IH2. tauto.
Qed.

(** ** What is owed and what is late *)

(** Confirmed installment money of a plan, by definition. *)
Definition installments_paid (d : DB) (eid : id) : Z :=
  sum_of p_amountPaid (fun p => bool_decide (p_enrollmentId p = eid) && confirmed_installments p) (payments d).

(** What is past due on a plan. *)
Definition plan_arrears (now : Z) (d : DB) (eid : id) (e : ChildEnrollment) : ArrearsResult :=
  computeArrears (mkArrearsInput (e_remainingBalance e) (e_installmentFrequency e) (e_termStartDate e)
    (e_termEndDate e) (installments_paid d eid)) now.

Definition with_paid (d : DB) (kv : id * ChildEnrollment) : id * ChildEnrollment * Z := (kv, installments_paid d kv.1).

(** The grouped query joined in memory gives every plan its own payments. *)
Lemma paid_joined schoolId openOnly d :
  enrollmentsWithPaidValue schoolId openOnly d =
    with_paid d <$> findMany (paid_where schoolId openOnly) (enrollments d).
Proof.
  unfold enrollmentsWithPaidValue. apply list_fmap_ext. intros n [i e] Hn%list_elem_of_lookup_2.
  unfold with_paid. cbn [fst]. f_equal.
  rewrite group_figure by done. rewrite findMany_rows, summed_findMany. unfold installments_paid, sum_of, findMany.
  f_equal. f_equal. apply list_filter_iff. intros [j p]. cbn.
  rewrite !andb_true_iff, !bool_decide_eq_true. split; [tauto|]. intros [-> Hc]. split; [|done]. split; [|done].
  apply list_elem_of_fmap. by exists (i, e).
Qed.

Lemma arrears_joined d kv now : arrears_of (with_paid d kv) now = plan_arrears now d kv.1 kv.2.
Proof. reflexivity. Qed.

(** Sums over the plans of a query. *)
Definition plans_total (f : id -> ChildEnrollment -> Z) (P : ChildEnrollment -> bool) (d : DB) : Z :=
  sumZ ((fun kv : id * ChildEnrollment => f kv.1 kv.2) <$> findMany P (enrollments d)).

Definition of_school_e (s : id) (e : ChildEnrollment) : bool := bool_decide (e_schoolId e = s).
Definition owes_to (s : id) (e : ChildEnrollment) : bool := owes e && of_school_e s e.
Definition overdue_kobo (now : Z) (d : DB) (eid : id) (e : ChildEnrollment) : Z := overdueAmount (plan_arrears now d eid e).
Definition is_late (now : Z) (d : DB) (eid : id) (e : ChildEnrollment) : Z := if 0 <? overdue_kobo now d eid e then 1 else 0.

(** ** The accumulation *)

Section accumulation.
Context (now : Z) (d : DB).

(** A sum over some rows of one school. *)
Definition school_sum (f : id -> ChildEnrollment -> Z) (s : id) (rows : list (id * ChildEnrollment)) : Z :=
  sumZ ((fun kv : id * ChildEnrollment => if bool_decide (e_schoolId kv.2 = s) then f kv.1 kv.2 else 0) <$> rows).

Definition name_of (s : id) : string := default "Unknown School"%string (s_name <$> schools d !! s).
Definition bucket_of (s : id) (rows : list (id * ChildEnrollment)) : Bucket :=
  mkBucket (name_of s) (school_sum (fun _ => e_remainingBalance) s rows) (school_sum (overdue_kobo now d) s rows)
    (school_sum (fun _ _ => 1) s rows) (school_sum (is_late now d) s rows).

Record tallied (rows : list (id * ChildEnrollment)) (t : Totals) : Prop := mkTallied {
  ta_keys : NoDup (bySchool t).*1;
  ta_bucket : forall s, map_get s (bySchool t) =
    if bool_decide (s ∈ (fun kv : id * ChildEnrollment => e_schoolId kv.2) <$> rows) then Some (bucket_of s rows) else None;
  ta_outstanding : outstandingKobo t = sumZ ((fun kv : id * ChildEnrollment => e_remainingBalance kv.2) <$> rows);
  ta_overdue : overdueKobo t = sumZ ((fun kv : id * ChildEnrollment => overdue_kobo now d kv.1 kv.2) <$> rows);
  ta_late : overdueStudents t = sumZ ((fun kv : id * ChildEnrollment => is_late now d kv.1 kv.2) <$> rows) }.

Lemma school_sum_snoc f s rows kv :
  school_sum f s (rows ++ [kv]) = school_sum f s rows + if bool_decide (e_schoolId kv.2 = s) then f kv.1 kv.2 else 0.
Proof. unfold school_sum. rewrite fmap_app, sumZ_app. csimpl. lia. Qed.

Lemma school_sum_none f s rows :
  s ∉ (fun kv : id * ChildEnrollment => e_schoolId kv.2) <$> rows -> school_sum f s rows = 0.
Proof.
  unfold school_sum. induction rows as [|kv rows IH]; [done|]. csimpl. rewrite not_elem_of_cons. intros [H1 H2].
  rewrite bool_decide_eq_false_2 by done. rewrite IH by done. done.
Qed.

Lemma add_row_tallied rows t kv : tallied rows t -> tallied (rows ++ [kv]) (add_row now d t (with_paid d kv)).
Proof.
  intros [K B O V L]. destruct kv as [i e]. set (s := e_schoolId e).
  assert (default (empty_bucket (name_of s)) (map_get s (bySchool t)) = bucket_of s rows) as Eb.
  { rewrite B. case_bool_decide as E; [done|]. unfold bucket_of. by rewrite !school_sum_none. }
  unfold add_row. rewrite arrears_joined. cbn [with_paid fst snd]. fold (overdue_kobo now d i e) (is_late now d i e) s.
  fold (name_of s). rewrite Eb.
  split; cbn [bySchool outstandingKobo overdueKobo overdueStudents].
  - by apply map_set_keys.
  - intros s'. rewrite map_get_set, B, fmap_app. csimpl.
    destruct (decide (s = s')) as [<-|Hs].
    + rewrite (bool_decide_eq_true_2 (s = s)), (bool_decide_eq_true_2 (s ∈ _)) by set_solver.
      unfold bucket_of. rewrite !school_sum_snoc. cbn [snd fst]. fold s.
      by rewrite !(bool_decide_eq_true_2 (s = s)).
    + rewrite (bool_decide_eq_false_2 (s = s')) by done.
      unfold bucket_of. rewrite !school_sum_snoc. cbn [snd fst]. fold s.
      rewrite !(bool_decide_eq_false_2 (s = s')), !Z.add_0_r by done.
      do 2 case_bool_decide; set_solver.
  - rewrite O, fmap_app, sumZ_app. csimpl. lia.
  - rewrite V, fmap_app, sumZ_app. csimpl. lia.
  - rewrite L, fmap_app, sumZ_app. csimpl. lia.
Qed.

Lemma all_tallied rows : tallied rows (fold_left (add_row now d) (with_paid d <$> rows) (mkTotals [] 0 0 0)).
Proof.
  induction rows as [|kv rows IH] using rev_ind.
  - split; try done. constructor.
  - rewrite fmap_app, fold_left_app. by apply add_row_tallied.
Qed.

Lemma school_sum_plans f s P :
  school_sum f s (findMany P (enrollments d)) = plans_total f (fun e => P e && of_school_e s e) d.
Proof.
  unfold school_sum, plans_total, findMany. induction (map_to_list (enrollments d)) as [|[i e] l IH]; [done|].
  destruct (P e) eqn:E.
  - rewrite filter_cons_True by done. rewrite fmap_cons, sumZ_cons. cbn [fst snd].
    destruct (decide (e_schoolId e = s)) as [D|D].
    + rewrite bool_decide_eq_true_2 by done. rewrite filter_cons_True.
      * rewrite fmap_cons, sumZ_cons. cbn [fst snd]. by rewrite IH.
      * cbn. unfold of_school_e. by rewrite E, bool_decide_eq_true_2.
    + rewrite bool_decide_eq_false_2 by done. rewrite filter_cons_False; [exact IH|].
      cbn. unfold of_school_e. by rewrite E, bool_decide_eq_false_2.
  - rewrite !filter_cons_False; [exact IH | cbn; by rewrite E | cbn; by rewrite E].
Qed.
End accumulation.

(** The schools' sums add up to the sum of the rows. *)
Lemma schools_total f ks rows :
  NoDup ks -> (forall kv : id * ChildEnrollment, kv ∈ rows -> e_schoolId kv.2 ∈ ks) ->
  sumZ ((fun s => school_sum f s rows) <$> ks) = sumZ ((fun kv : id * ChildEnrollment => f kv.1 kv.2) <$> rows).
Proof.
  intros Hnd. induction rows as [|kv rows IH] using rev_ind; intros Hin.
  - clear. induction ks as [|k ks IHk]; [done|]. rewrite fmap_cons, sumZ_cons, IHk. done.
  - rewrite fmap_app, sumZ_app. rewrite <- IH by (intros; apply Hin; set_solver). csimpl.
    assert (e_schoolId kv.2 ∈ ks) as Hv by (apply Hin; set_solver). clear Hin IH.
    induction ks as [|k ks IHk]; [by apply elem_of_nil in Hv|]. apply list.NoDup_cons in Hnd as [Hni Hnd].
    rewrite !fmap_cons, !sumZ_cons, school_sum_snoc.
    destruct (decide (e_schoolId kv.2 = k)) as [E|E].
    + rewrite bool_decide_eq_true_2 by done.
      assert ((fun s => school_sum f s (rows ++ [kv])) <$> ks = (fun s => school_sum f s rows) <$> ks) as ->; [|lia].
      apply list_fmap_ext. intros j s Hs%list_elem_of_lookup_2. rewrite school_sum_snoc, bool_decide_eq_false_2; [lia|].
      intros E'. apply Hni. by rewrite <- E, E'.
    + rewrite bool_decide_eq_false_2 by done. apply elem_of_cons in Hv as [Hv|Hv]; [done|].
      specialize (IHk Hnd Hv). lia.
Qed.

Lemma count_plans P d : count P (enrollments d) = plans_total (fun _ _ => 1) P d.
Proof.
  unfold count, plans_total. generalize (findMany P (enrollments d)). intros l.
  induction l as [|kv l IH]; [done|]. rewrite fmap_cons, sumZ_cons, <- IH. cbn [length]. lia.
Qed.

(** ** Schools without open plans *)

Lemma table_keys {V} (P : id * V -> Prop) `{!forall kv, Decision (P kv)} (m : gmap id V) :
  NoDup (filter P (map_to_list m)).*1.
Proof.
  apply NoDup_fmap_fst; [|apply list.NoDup_filter, NoDup_map_to_list].
  intros k v1 v2 [_ H1]%list_elem_of_filter [_ H2]%list_elem_of_filter.
  apply elem_of_map_to_list in H1, H2. congruence.
Qed.

Lemma seeded (l : list (id * School)) m s :
  NoDup l.*1 -> NoDup m.*1 ->
  let M := fold_left (fun m (kv : id * School) => map_set kv.1 (empty_bucket (s_name kv.2)) m) l m in
  NoDup M.*1 /\
  map_get s M = match map_get s l with Some sch => Some (empty_bucket (s_name sch)) | None => map_get s m end.
Proof.
  revert m. induction l as [|[k sch] l IH]; intros m Hl Hm M; [done|].
  apply list.NoDup_cons in Hl as [Hk Hl]. cbn in M.
  destruct (IH (map_set k (empty_bucket (s_name sch)) m) Hl ltac:(by apply map_set_keys)) as [I1 I2].
  split; [exact I1|]. unfold M. rewrite I2. cbn [map_get]. rewrite map_get_set.
  destruct (decide (k = s)) as [->|Hs].
  - rewrite !(bool_decide_eq_true_2 (s = s)) by done. by rewrite (proj2 (map_get_none s l)).
  - by rewrite !(bool_decide_eq_false_2 (k = s)).
Qed.

Lemma map_get_table {V} (P : id -> bool) `{!forall kv : id * V, Decision (P kv.1 = true)} s (m : gmap id V) :
  map_get s (filter (fun kv : id * V => P kv.1 = true) (map_to_list m)) = if P s then m !! s else None.
Proof.
  set (l := filter _ _). assert (NoDup l.*1) as Hnd by apply table_keys.
  assert (forall v, map_get s l = Some v <-> (if P s then m !! s else None) = Some v) as Hv.
  { intros v. rewrite map_get_elem by done. unfold l. rewrite list_elem_of_filter, elem_of_map_to_list. cbn.
    destruct (P s); naive_solver. }
  destruct (map_get s l) as [v|] eqn:E; [by rewrite (proj1 (Hv v) eq_refl)|].
  destruct (if P s then m !! s else None) as [v|] eqn:E'; [|done]. discriminate (proj2 (Hv v) eq_refl).
Qed.

Lemma counted_schools d s : s ∈ (enrollment_counts d).*1 <-> exists i e, enrollments d !! i = Some e /\ e_schoolId e = s.
Proof.
  unfold enrollment_counts. rewrite group_keys, elem_of_remove_dups, list_elem_of_fmap. split.
  - intros ([i e] & -> & H%elem_of_map_to_list). eauto.
  - intros (i & e & H%elem_of_map_to_list & <-). by exists (i, e).
Qed.

Lemma seed_missing_spec d m s :
  NoDup m.*1 ->
  NoDup (seed_missing d m).*1 /\
  map_get s (seed_missing d m) =
    match map_get s m with
    | Some b => Some b
    | None => if bool_decide (s ∈ (enrollment_counts d).*1) then (empty_bucket ∘ s_name) <$> schools d !! s else None
    end.
Proof.
  intros Hm. unfold seed_missing. set (missing := filter _ _).
  unfold findMany_in. set (l := filter _ (map_to_list _)).
  assert (NoDup l.*1) as Hl by apply table_keys.
  destruct (seeded l m s Hl Hm) as [I1 I2]. split; [exact I1|]. rewrite I2.
  assert (map_get s l = if bool_decide (s ∈ missing) then schools d !! s else None) as -> by
    exact (map_get_table (fun k => bool_decide (k ∈ missing)) s (schools d)).
  unfold missing. destruct (map_get s m) as [b|] eqn:E.
  - rewrite bool_decide_eq_false_2; [done|]. rewrite list_elem_of_filter. intros [? _]. congruence.
  - destruct (decide (s ∈ (enrollment_counts d).*1)) as [H|H].
    + rewrite !bool_decide_eq_true_2; [by destruct (schools d !! s) | done |]. by apply list_elem_of_filter.
    + rewrite !bool_decide_eq_false_2; [done | done |]. rewrite list_elem_of_filter. tauto.
Qed.

(** ** The breakdown *)

Definition balance (eid : id) (e : ChildEnrollment) : Z := e_remainingBalance e.
Definition foreign_keys (d : DB) : Prop :=
  forall i e, enrollments d !! i = Some e -> is_Some (schools d !! e_schoolId e).

(** The bucket every listed school ends with. *)
Lemma final_bucket now d s :
  foreign_keys d ->
  let rows := findMany (paid_where None true) (enrollments d) in
  let M := seed_missing d (bySchool (fold_left (add_row now d) (enrollmentsWithPaidValue None true d) (mkTotals [] 0 0 0))) in
  NoDup M.*1 /\
  map_get s M = if bool_decide (s ∈ (enrollment_counts d).*1) then Some (bucket_of now d s rows) else None.
Proof.
  intros Hfk rows. rewrite paid_joined. fold rows. cbv zeta.
  destruct (all_tallied now d rows) as [K B _ _ _]. set (t := fold_left _ _ _) in *.
  destruct (seed_missing_spec d (bySchool t) s K) as [I1 I2]. split; [exact I1|]. rewrite I2, B. clear I1 I2 B K t.
  destruct (decide (s ∈ (fun kv : id * ChildEnrollment => e_schoolId kv.2) <$> rows)) as [H|H].
  - rewrite (bool_decide_eq_true_2 (s ∈ _ <$> rows)) by done.
    apply list_elem_of_fmap in H as ([i e] & -> & [Hi _]%elem_of_findMany).
    rewrite bool_decide_eq_true_2; [done|]. apply counted_schools. eauto.
  - rewrite (bool_decide_eq_false_2 (s ∈ _ <$> rows)) by done. case_bool_decide as Hc; [|done].
    apply counted_schools in Hc as (i & e & Hi & Hs). destruct (Hfk i e Hi) as [sch Hsch]. rewrite Hs in Hsch.
    rewrite Hsch. cbn. unfold bucket_of, empty_bucket, name_of. rewrite Hsch, !school_sum_none by done. done.
Qed.

Lemma findMany_all {V} (m : gmap id V) : findMany (fun _ => true) m = map_to_list m.
Proof.
  unfold findMany. induction (map_to_list m) as [|kv l IH]; [done|]. rewrite filter_cons_True by done. by rewrite IH.
Qed.

Lemma students_counted d s : get_or_zero s (enrollment_counts d) = count (of_school_e s) (enrollments d).
Proof.
  unfold enrollment_counts. rewrite group_figure by done. rewrite <- findMany_all, findMany_rows. apply counted_findMany.
Qed.

Lemma students_total d : reduce_sum snd (enrollment_counts d) = count (fun _ => true) (enrollments d).
Proof.
  rewrite reduce_sum_eq. set (rows := map_to_list (enrollments d)).
  transitivity (sumZ ((fun s => school_sum (fun _ _ => 1) s rows) <$> (enrollment_counts d).*1)).
  - unfold enrollment_counts. rewrite group_keys. unfold group_by. rewrite <- list_fmap_compose. f_equal.
    apply list_fmap_ext. intros _ k _. cbn [compose snd]. fold rows. change (rows_counted (rows_of e_schoolId k rows) = school_sum (fun _ _ => 1) k rows).
    unfold rows. rewrite <- findMany_all, findMany_rows, school_sum_plans, counted_findMany. apply count_plans.
  - rewrite schools_total; [|unfold enrollment_counts; rewrite group_keys; apply NoDup_remove_dups|].
    + unfold rows. rewrite <- findMany_all. symmetry. apply count_plans.
    + intros [i e] H%elem_of_map_to_list. apply counted_schools. eauto.
Qed.

Lemma open_plans d : findMany (paid_where None true) (enrollments d) = findMany owes (enrollments d).
Proof. apply findMany_ext. intros e. unfold paid_where. apply andb_true_r. Qed.

(** The row of each listed school. *)
Lemma breakdown_rows_spec now d r :
  foreign_keys d -> r ∈ bs_schools (computeBreakdownSummary now d) ->
  let s := sb_schoolId r in let b := bucket_of now d s (findMany owes (enrollments d)) in
  s ∈ (enrollment_counts d).*1 /\ r = breakdown_row (enrollment_counts d) (s, b).
Proof.
  intros Hfk Hr. unfold computeBreakdownSummary in Hr. cbn [bs_schools] in Hr.
  apply list_elem_of_fmap in Hr as ([s bk] & -> & Hin). cbv zeta. cbn [sb_schoolId breakdown_row fst].
  destruct (final_bucket now d s Hfk) as [K B]. rewrite open_plans in B. apply (map_get_elem _ _ _ K) in Hin.
  rewrite B in Hin. case_bool_decide as Hc; [|done]. by injection Hin as <-.
Qed.

Lemma breakdown_ids now d : (sb_schoolId <$> bs_schools (computeBreakdownSummary now d)) =
  (seed_missing d (bySchool (fold_left (add_row now d) (enrollmentsWithPaidValue None true d) (mkTotals [] 0 0 0)))).*1.
Proof. unfold computeBreakdownSummary. cbn [bs_schools]. rewrite <- list_fmap_compose. done. Qed.

Lemma breakdown_listed now d s :
  foreign_keys d -> s ∈ sb_schoolId <$> bs_schools (computeBreakdownSummary now d) <-> s ∈ (enrollment_counts d).*1.
Proof.
  intros Hfk. rewrite breakdown_ids. destruct (final_bucket now d s Hfk) as [_ B]. cbv zeta in B.
  destruct (decide (s ∈ (enrollment_counts d).*1)) as [H|H].
  - rewrite bool_decide_eq_true_2 in B by done. split; [done|]. intros _. apply dec_stable. intros N.
    apply map_get_none in N. congruence.
  - rewrite bool_decide_eq_false_2 in B by done. apply map_get_none in B. tauto.
Qed.

(** A platform figure is the sum of the schools' figures. *)
Lemma platform_total now d f P :
  foreign_keys d ->
  sumZ ((fun kv : id * ChildEnrollment => f kv.1 kv.2) <$> findMany P (enrollments d)) =
  sumZ ((fun r => plans_total f (fun e => P e && of_school_e (sb_schoolId r) e) d) <$> bs_schools (computeBreakdownSummary now d)).
Proof.
  intros Hfk. rewrite <- (schools_total f (sb_schoolId <$> bs_schools (computeBreakdownSummary now d))).
  - rewrite <- list_fmap_compose. f_equal. apply list_fmap_ext. intros _ r _. cbn. apply school_sum_plans.
  - rewrite breakdown_ids. by apply (final_bucket now d 1%positive Hfk).
  - intros [i e] [Hi _]%elem_of_findMany. cbn. apply breakdown_listed; [done|]. apply counted_schools. eauto.
Qed.

(** C22: the collections breakdown, which the code accumulates row by row into a
    map and completes from a second query, is the declarative one: it lists each
    school with students exactly once; a school's figures are the sums over its
    own open plans, with each plan's arrears derived from its own confirmed
    installments; and the platform's figures are the sums of the schools'. *)
Theorem breakdown_consistent now d :
  foreign_keys d ->
  let b := computeBreakdownSummary now d in
  NoDup (sb_schoolId <$> bs_schools b) /\
  (forall s, s ∈ sb_schoolId <$> bs_schools b <-> exists i e, enrollments d !! i = Some e /\ e_schoolId e = s) /\
  (forall r, r ∈ bs_schools b -> let s := sb_schoolId r in
     sb_totalStudents r = count (of_school_e s) (enrollments d) /\
     sb_studentsWithBalance r = count (owes_to s) (enrollments d) /\
     sb_outstanding r = naira (plans_total balance (owes_to s) d) /\
     sb_overdue r = naira (plans_total (overdue_kobo now d) (owes_to s) d) /\
     sb_overdueStudentCount r = plans_total (is_late now d) (owes_to s) d) /\
  (let total f := sumZ ((fun r => plans_total f (owes_to (sb_schoolId r)) d) <$> bs_schools b) in
   bs_totalOutstanding b = naira (total balance) /\ bs_totalOverdue b = naira (total (overdue_kobo now d)) /\
   bs_studentsWithBalance b = sumZ (sb_studentsWithBalance <$> bs_schools b) /\
   bs_overdueStudents b = sumZ (sb_overdueStudentCount <$> bs_schools b) /\
   bs_totalStudents b = sumZ (sb_totalStudents <$> bs_schools b) /\
   bs_totalStudents b = count (fun _ => true) (enrollments d)).
Proof.
  intros Hfk b.
  assert (forall r, r ∈ bs_schools b -> let s := sb_schoolId r in
     sb_totalStudents r = count (of_school_e s) (enrollments d) /\
     sb_studentsWithBalance r = count (owes_to s) (enrollments d) /\
     sb_outstanding r = naira (plans_total balance (owes_to s) d) /\
     sb_overdue r = naira (plans_total (overdue_kobo now d) (owes_to s) d) /\
     sb_overdueStudentCount r = plans_total (is_late now d) (owes_to s) d) as Hrows.
  { intros r Hr. destruct (breakdown_rows_spec now d r Hfk Hr) as [_ Er]. cbv zeta in Er.
    set (s := sb_schoolId r) in *. clearbody s. subst r. cbn -[naira]. rewrite !school_sum_plans, students_counted, count_plans.
    rewrite (count_plans (owes_to s)). done. }
  split; [unfold b; rewrite breakdown_ids; by apply (final_bucket now d 1%positive Hfk)|].
  split; [intros s; unfold b; rewrite (breakdown_listed now d s Hfk); apply counted_schools|].
  split; [exact Hrows|]. cbv zeta.
  destruct (all_tallied now d (findMany owes (enrollments d))) as [_ _ O V L].
  assert (with_paid d <$> findMany owes (enrollments d) = enrollmentsWithPaidValue None true d) as Hj
    by (rewrite paid_joined, open_plans; done).
  rewrite Hj in O, V, L.
  assert (forall g h, (forall r, r ∈ bs_schools b -> g r = h r) -> sumZ (g <$> bs_schools b) = sumZ (h <$> bs_schools b)) as Hext.
  { intros g h Hgh. f_equal. apply list_fmap_ext. intros k r Hk%list_elem_of_lookup_2. auto. }
  repeat split.
  - unfold b at 1. unfold computeBreakdownSummary. cbn [bs_totalOutstanding]. rewrite O. f_equal.
    apply (platform_total now d balance owes Hfk).
  - unfold b at 1. unfold computeBreakdownSummary. cbn [bs_totalOverdue]. rewrite V. f_equal.
    apply (platform_total now d (overdue_kobo now d) owes Hfk).
  - unfold b at 1. unfold computeBreakdownSummary. cbn [bs_studentsWithBalance]. rewrite <- Hj, length_fmap.
    change (count owes (enrollments d) = sumZ (sb_studentsWithBalance <$> bs_schools b)).
    rewrite count_plans. unfold plans_total. rewrite (platform_total now d (fun _ _ => 1) owes Hfk). apply Hext.
    intros r Hr. destruct (Hrows r Hr) as (_ & -> & _). by rewrite count_plans.
  - unfold b at 1. unfold computeBreakdownSummary. cbn [bs_overdueStudents]. rewrite L.
    rewrite (platform_total now d (is_late now d) owes Hfk). apply Hext.
    intros r Hr. by destruct (Hrows r Hr) as (_ & _ & _ & _ & ->).
  - unfold b at 1. unfold computeBreakdownSummary. cbn [bs_totalStudents]. rewrite students_total, count_plans.
    unfold plans_total. rewrite (platform_total now d (fun _ _ => 1) (fun _ => true) Hfk). apply Hext.
    intros r Hr. destruct (Hrows r Hr) as (-> & _). by rewrite count_plans.
  - unfold b, computeBreakdownSummary. cbn [bs_totalStudents]. apply students_total.
Qed.

Definition sample_foreign_keys : foreign_keys sample_db.
Proof. intros i e. cbn [enrollments sample_db]. intros [[_ <-]|[_ [_ <-]%lookup_singleton_Some]]%lookup_insert_Some; eauto. Defined.

Lemma breakdown_consistent_witness :
  bs_totalStudents (computeBreakdownSummary 0 sample_db) =
    sumZ (sb_totalStudents <$> bs_schools (computeBreakdownSummary 0 sample_db)).
Proof.
  pose proof (breakdown_consistent 0 sample_db sample_foreign_keys) as (_ & _ & _ & _ & _ & _ & _ & H & _). exact H.
Defined.

(** ** The drill-down *)

Lemma fl_sign x : (0 < fl x)%Q <-> (0 < x)%Q.
Proof.
  destruct (Qlt_le_dec 0 x) as [H|H].
  - rewrite fl_of_pos by done. split; [done|]. intros _. by apply fl_pos_pos.
  - apply fl_mono in H as H'. rewrite fl_0 in H'. split; intros; lra.
Qed.

Lemma positive_kobo k : positive (naira k) = (0 <? k).
Proof.
  unfold positive. destruct (Qle_bool (naira k) 0) eqn:E; cbn [negb]; symmetry.
  - apply Qle_bool_iff in E. apply Z.ltb_ge. destruct (Z.le_gt_cases k 0) as [H|H]; [done|]. exfalso.
    assert (0 < naira k)%Q; [|lra]. apply fl_sign. apply Qlt_shift_div_l; [reflexivity|].
    change (0 * 100)%Q with (inject_Z 0). rewrite <- Zlt_Qlt. unfold Money._kobo, Money.of_int. lia.
  - apply Z.ltb_lt. destruct (Z.le_gt_cases k 0) as [H|H]; [|lia].
    apply naira_nonpos, Qle_bool_iff in H. congruence.
Qed.

Lemma overdue_range i now : 0 <= ai_remainingBalance i -> 0 <= overdueAmount (computeArrears i now) <= ai_remainingBalance i.
Proof. intros H. unfold computeArrears. repeat case_if; cbn [overdueAmount]; lia. Qed.

(** The plans of a tab. *)
Definition tab_plans (now : Z) (d : DB) (s : id) (tab : Tab) : list (id * ChildEnrollment) :=
  match tab with
  | TStudents => findMany (of_school_e s) (enrollments d)
  | TOutstanding => findMany (owes_to s) (enrollments d)
  | TOverdue => filter (fun kv : id * ChildEnrollment => (0 <? overdue_kobo now d kv.1 kv.2) = true)
      (findMany (owes_to s) (enrollments d))
  end.
Definition student_of (now : Z) (d : DB) (kv : id * ChildEnrollment) : BreakdownStudent :=
  breakdown_student now d (with_paid d kv).

Lemma filter_map {A B} (P : B -> bool) (f : A -> B) (l : list A) :
  filter (fun b => P b = true) (f <$> l) = f <$> filter (fun a => P (f a) = true) l.
Proof.
  induction l as [|x l IH]; [done|]. rewrite fmap_cons. destruct (decide (P (f x) = true)).
  - by rewrite !filter_cons_True, fmap_cons, IH.
  - by rewrite !filter_cons_False, IH.
Qed.
Lemma filter_true {A} (P : A -> bool) (l : list A) : (forall x, P x = true) -> filter (fun x => P x = true) l = l.
Proof. intros H. induction l as [|x l IH]; [done|]. rewrite filter_cons_True by done. by rewrite IH. Qed.

Lemma tab_rows lc now d s tab : breakdown_rows lc s tab now d ≡ₚ student_of now d <$> tab_plans now d s tab.
Proof.
  unfold breakdown_rows. rewrite merge_sort_Permutation, paid_joined, <- list_fmap_compose.
  assert (findMany (paid_where (Some s) (negb (bool_decide (tab = TStudents)))) (enrollments d) =
    findMany (match tab with TStudents => of_school_e s | _ => owes_to s end) (enrollments d)) as ->.
  { apply findMany_ext. intros e. by destruct tab. }
  rewrite filter_map. change (breakdown_student now d ∘ with_paid d) with (student_of now d). apply fmap_Permutation.
  destruct tab; cbn [tab_plans in_tab].
  - by rewrite filter_true.
  - by rewrite filter_true.
  - rewrite (list_filter_iff _ (fun kv : id * ChildEnrollment => (0 <? overdue_kobo now d kv.1 kv.2) = true)); [done|].
    intros kv. change (st_overdue (student_of now d kv)) with (naira (overdue_kobo now d kv.1 kv.2)).
    by rewrite positive_kobo.
Qed.

(** Adding up the rows of a tab in kobo. *)
Lemma tab_kobo (g : BreakdownStudent -> Q) (f : id -> ChildEnrollment -> Z) lc now d s tab :
  (forall i e, g (student_of now d (i, e)) = naira (f i e)) ->
  (forall i e, enrollments d !! i = Some e -> Z.abs (f i e) <= 2 ^ 50) ->
  sumZ ((kobo_of ∘ g) <$> breakdown_rows lc s tab now d) =
  sumZ ((fun kv : id * ChildEnrollment => f kv.1 kv.2) <$> tab_plans now d s tab).
Proof.
  intros Hg Hf. rewrite (tab_rows lc now d s tab), <- list_fmap_compose. f_equal.
  apply list_fmap_ext. intros k [i e] Hk%list_elem_of_lookup_2. cbn [compose fst snd]. rewrite Hg. apply kobo_of_naira, (Hf i).
  destruct tab; cbn [tab_plans] in Hk;
    [| |apply list_elem_of_filter in Hk as [_ Hk]]; by apply elem_of_findMany in Hk as [? _].
Qed.

Lemma late_total now d (l : list (id * ChildEnrollment)) :
  Z.of_nat (length (filter (fun kv : id * ChildEnrollment => (0 <? overdue_kobo now d kv.1 kv.2) = true) l)) =
  sumZ ((fun kv : id * ChildEnrollment => is_late now d kv.1 kv.2) <$> l).
Proof.
  induction l as [|kv l IH]; [done|]. rewrite fmap_cons, sumZ_cons, <- IH, filter_cons. unfold is_late.
  destruct (0 <? overdue_kobo _ _ _ _) eqn:E; case_decide; try done; cbn [length]; lia.
Qed.

Lemma overdue_total now d s :
  sumZ ((fun kv : id * ChildEnrollment => overdue_kobo now d kv.1 kv.2) <$> tab_plans now d s TOverdue) =
  plans_total (overdue_kobo now d) (owes_to s) d.
Proof.
  unfold plans_total. cbn [tab_plans].
  assert (forall kv : id * ChildEnrollment, kv ∈ findMany (owes_to s) (enrollments d) -> 0 <= overdue_kobo now d kv.1 kv.2) as H.
  { intros [i e] [_ Ho]%elem_of_findMany. apply overdue_range. unfold owes_to, owes in Ho. cbn. to_prop. lia. }
  induction (findMany (owes_to s) (enrollments d)) as [|kv l IH]; [done|].
  rewrite fmap_cons, sumZ_cons, <- IH by (intros; apply H; set_solver). rewrite filter_cons.
  pose proof (H kv ltac:(set_solver)). case_decide as E; [by rewrite fmap_cons, sumZ_cons|]. to_prop. lia.
Qed.

(** A school's drill-down agrees with its line of the breakdown: each tab has
    as many rows as the line counts students, open plans and late plans, and the
    amounts shown, added up in kobo, are the line's figures. *)
Theorem drilldown_agrees lc now d r tab pageRaw limitRaw :
  foreign_keys d -> (forall i e, enrollments d !! i = Some e -> 0 <= e_remainingBalance e <= 2 ^ 50) ->
  r ∈ bs_schools (computeBreakdownSummary now d) ->
  (exists pg, getSchoolBreakdown lc (sb_schoolId r) tab pageRaw limitRaw now d = Ok pg /\
     pg_total _ (sp_page pg) =
       match tab with
       | TStudents => sb_totalStudents r
       | TOutstanding => sb_studentsWithBalance r
       | TOverdue => sb_overdueStudentCount r
       end) /\
  sb_outstanding r = naira (sumZ ((kobo_of ∘ st_outstanding) <$> breakdown_rows lc (sb_schoolId r) TOutstanding now d)) /\
  sb_overdue r = naira (sumZ ((kobo_of ∘ st_overdue) <$> breakdown_rows lc (sb_schoolId r) TOverdue now d)).
Proof.
  intros Hfk Hb Hr. pose proof (breakdown_consistent now d Hfk) as (_ & Hids & Hrows & _). cbv zeta in Hids, Hrows.
  destruct (Hrows r Hr) as (E1 & E2 & E3 & E4 & E5). set (s := sb_schoolId r) in *.
  assert (exists i e, enrollments d !! i = Some e /\ e_schoolId e = s) as (i & e & Hi & Hs)
    by (apply Hids, list_elem_of_fmap; eauto).
  destruct (Hfk i e Hi) as [school Hsch]. rewrite Hs in Hsch. split; [|split].
  - unfold getSchoolBreakdown. rewrite Hsch. eexists. split; [reflexivity|]. cbn [sp_page pg_total paginate].
    rewrite (Permutation_length (tab_rows lc now d s tab)), length_fmap. destruct tab; cbn [tab_plans].
    + by rewrite E1.
    + by rewrite E2.
    + rewrite E5. apply late_total.
  - rewrite (tab_kobo st_outstanding balance); [exact E3 | done |].
    intros j x Hj. specialize (Hb j x Hj). unfold balance. lia.
  - rewrite E4. f_equal. rewrite <- overdue_total with (s := s). symmetry.
    apply (tab_kobo st_overdue (overdue_kobo now d) lc now d s TOverdue); [done|].
    intros j x Hj. pose proof (overdue_range (mkArrearsInput (e_remainingBalance x) (e_installmentFrequency x)
      (e_termStartDate x) (e_termEndDate x) (installments_paid d j)) now) as Ho. specialize (Hb j x Hj).
    unfold overdue_kobo, plan_arrears. cbn [ai_remainingBalance] in Ho. lia.
Qed.

Lemma drilldown_agrees_witness :
  exists pg, getSchoolBreakdown (fun _ _ => 0) 1 TStudents RUndefined RUndefined 0 sample_db = Ok pg /\ pg_total _ (sp_page pg) = 2.
Proof.
  destruct (drilldown_agrees (fun _ _ => 0) 0 sample_db
    (breakdown_row (enrollment_counts sample_db) (1%positive, bucket_of 0 sample_db 1 (findMany owes (enrollments sample_db))))
    TStudents RUndefined RUndefined sample_foreign_keys) as (H & _).
  - intros i e. cbn [enrollments sample_db]. intros [[_ <-]|[_ [_ <-]%lookup_singleton_Some]]%lookup_insert_Some; cbn; lia.
  - vm_compute. left.
  - exact H.
Defined.

(** ** Worst first *)

(** The order each tab promises. *)
Definition ranked (lc : string -> string -> Z) (tab : Tab) (a b : BreakdownStudent) : Prop :=
  match tab with
  | TOverdue =>
      (st_overdue b < st_overdue a)%Q \/
      ((st_overdue b == st_overdue a)%Q /\
       (st_daysOverdue b < st_daysOverdue a \/
        (st_daysOverdue b = st_daysOverdue a /\ (st_outstanding b <= st_outstanding a)%Q)))
  | TOutstanding =>
      (st_outstanding b < st_outstanding a)%Q \/
      ((st_outstanding b == st_outstanding a)%Q /\ (st_overdue b <= st_overdue a)%Q)
  | TStudents => lc (st_studentName a) (st_studentName b) <= 0
  end.

Lemma js_sub_sign x y : ((js_sub x y <= 0)%Q <-> (x <= y)%Q) /\ ((js_sub x y == 0)%Q <-> (x == y)%Q).
Proof.
  unfold js_sub. assert ((0 < fl (x - y))%Q <-> (y < x)%Q) as H by (rewrite fl_sign; split; lra).
  assert ((fl (x - y) == 0)%Q <-> (x == y)%Q) as H0.
  { split.
    - intros E. destruct (Q_dec x y) as [[Hx|Hx]|Hx]; [|apply H in Hx; lra | done].
      assert (fl (x - y) < 0)%Q; [|lra]. rewrite fl_of_neg by lra.
      pose proof (fl_pos_pos (- (x - y)) ltac:(lra)). lra.
    - intros E. rewrite fl_of_zero by lra. done. }
  split; [|done]. split; intros H1.
  - apply Qnot_lt_le. intros H2%H. lra.
  - apply Qnot_lt_le. intros H2%H. lra.
Qed.

Lemma or_else_nonpos x y : (or_else x y <= 0)%Q <-> (x < 0)%Q \/ ((x == 0)%Q /\ (y <= 0)%Q).
Proof.
  unfold or_else. destruct (Qeq_bool x 0) eqn:E.
  - apply Qeq_bool_iff in E. split; [tauto|]. intros [?|[_ ?]]; [lra | done].
  - apply Qeq_bool_neq in E. split; [intros H; left; apply Qle_lteq in H as [?|?]; [done | by contradict E]|].
    intros [?|[? _]]; [lra | by contradict E].
Qed.

Lemma js_sub_neg x y : (js_sub x y < 0)%Q <-> (x < y)%Q.
Proof.
  destruct (js_sub_sign x y) as [H1 H2]. split; intros H.
  - destruct (Q_dec x y) as [[?|?]|E]; [done | |].
    + assert (js_sub x y <= 0)%Q as H3 by lra. apply H1 in H3. lra.
    + apply H2 in E. lra.
  - assert (x <= y)%Q as H3 by lra. apply H1 in H3. apply Qle_lteq in H3 as [?|E]; [done|]. apply H2 in E. lra.
Qed.

Lemma not_after_ranked lc tab a b : not_after lc tab a b <-> ranked lc tab a b.
Proof.
  unfold not_after. rewrite Qle_bool_iff. destruct tab; cbn [compare_rows ranked].
  - change 0%Q with (inject_Z 0). by rewrite <- Zle_Qle.
  - rewrite or_else_nonpos, js_sub_neg. destruct (js_sub_sign (st_outstanding b) (st_outstanding a)) as [_ ->].
    by destruct (js_sub_sign (st_overdue b) (st_overdue a)) as [-> _].
  - rewrite or_else_nonpos, js_sub_neg. destruct (js_sub_sign (st_overdue b) (st_overdue a)) as [_ ->].
    rewrite or_else_nonpos. destruct (js_sub_sign (st_outstanding b) (st_outstanding a)) as [-> _].
    change 0%Q with (inject_Z 0). rewrite <- Zlt_Qlt, inject_Z_injective.
    assert (st_daysOverdue b - st_daysOverdue a < 0 <-> st_daysOverdue b < st_daysOverdue a) as -> by lia.
    assert (st_daysOverdue b - st_daysOverdue a = 0 <-> st_daysOverdue b = st_daysOverdue a) as -> by lia. done.
Qed.

Section collation.
Context (lc : string -> string -> Z).
(** [localeCompare] compares by one collation order. *)
Context (lc_total : forall x y, lc x y <= 0 \/ lc y x <= 0) (lc_trans : forall x y z, lc x y <= 0 -> lc y z <= 0 -> lc x z <= 0).

Instance not_after_total tab : Total (not_after lc tab).
Proof.
  intros a b. rewrite !not_after_ranked. destruct tab; cbn [ranked]; [apply lc_total | |].
  - destruct (Q_dec (st_outstanding b) (st_outstanding a)) as [[?|?]|?]; [tauto | tauto |].
    destruct (Qlt_le_dec (st_overdue b) (st_overdue a)); [left; right; split; [done | lra] | right; right; split; [by symmetry | done]].
  - destruct (Q_dec (st_overdue b) (st_overdue a)) as [[?|?]|?]; [tauto | tauto |].
    destruct (Z.lt_trichotomy (st_daysOverdue b) (st_daysOverdue a)) as [?|[?|?]]; [tauto | | right; right; split; [by symmetry | tauto]].
    destruct (Qlt_le_dec (st_outstanding b) (st_outstanding a)).
    + left; right; split; [done|]. right. split; [done | lra].
    + right; right; split; [by symmetry|]. right. done.
Qed.

Instance ranked_trans tab : Transitive (ranked lc tab).
Proof.
  intros a b c. destruct tab; cbn [ranked]; [apply lc_trans | |].
  - intros [?|[? ?]] [?|[? ?]]; [left; lra | left; lra | left; lra | right; split; lra].
  - intros [?|[? [?|[? ?]]]] [?|[? [?|[? ?]]]]; try (left; lra); right; (split; [lra|]); try (left; lia); right; split; lia || lra.
Qed.

(** Whom to chase first: in the list the pages of the late tab are cut from,
    every row is at least as late, in naira, then in days, then in what is owed,
    as every row after it; likewise by what is owed in the outstanding tab and by
    name in the students tab; and the list holds exactly the plans of the tab,
    each once. *)
Theorem drilldown_ranked schoolId tab now d :
  StronglySorted (ranked lc tab) (breakdown_rows lc schoolId tab now d) /\
  breakdown_rows lc schoolId tab now d ≡ₚ student_of now d <$> tab_plans now d schoolId tab.
Proof.
  split; [|apply tab_rows]. apply Sorted_StronglySorted; [apply _|].
  assert (Sorted (not_after lc tab) (breakdown_rows lc schoolId tab now d)) as H by (apply Sorted_merge_sort, _).
  induction H as [|x l _ IH Hd]; constructor; [done|]. destruct Hd; constructor. by apply not_after_ranked.
Qed.
End collation.

Lemma drilldown_ranked_witness :
  StronglySorted (ranked (fun _ _ => 0) TOverdue) (breakdown_rows (fun _ _ => 0) 1 TOverdue (100 * DAY_MS) sample_db).
Proof. apply (drilldown_ranked (fun _ _ => 0)); intros; lia. Defined.

(** ** Summaries *)

Definition refused (s : id) (p : Payment) : bool :=
  of_school s p && negb (p_isConfirmed p) && negb (has_status TX_PENDING p).

(** The platform's line for a school agrees with the school's own dashboard on
    its students and on what Lopay collected for it; but the amount it calls
    pending also counts, for ever, every payment that was refused or reversed. *)
Theorem summary_against_dashboard by_name d r :
  books_wf d -> r ∈ computeSchoolsSummary by_name d ->
  let s := sm_schoolId r in
  sm_totalStudents r = totalStudents (getDashboardStats s d) /\
  sm_collectedAmount r = totalRevenue (getDashboardStats s d) /\
  sm_pendingAmount r = naira
    (sum_of p_amountPaid (fun p => of_school s p && negb (p_isConfirmed p) && has_status TX_PENDING p) (payments d) +
     sum_of p_amountPaid (refused s) (payments d)).
Proof.
  intros W Hr. unfold computeSchoolsSummary in Hr. apply list_elem_of_fmap in Hr as ([s sch] & -> & _).
  cbn [sm_schoolId sm_totalStudents sm_collectedAmount sm_pendingAmount fst snd totalStudents totalRevenue getDashboardStats].
  rewrite students_counted, (group_figure p_schoolId (rows_summed p_amountPaid)),
    (group_figure p_schoolId (rows_summed p_schoolAmount)), !findMany_rows, !summed_findMany by done. split; [|split].
  - reflexivity.
  - f_equal. rewrite !sum_findMany. apply total_ext. intros i p Hp.
    pose proof (po_confirmed _ (wf_pay _ W _ _ Hp)) as Hc. unfold of_school, has_status.
    destruct (p_isConfirmed p) eqn:E, (bool_decide (p_schoolId p = s)), (MOVED_THROUGH_LOPAY p); cbn; rewrite ?andb_false_r; try done.
    by rewrite bool_decide_eq_true_2 by tauto.
  - f_equal. rewrite !sum_findMany, <- total_add. apply total_ext. intros i p _. unfold refused, of_school.
    by destruct (bool_decide (p_schoolId p = s)), (p_isConfirmed p), (has_status TX_PENDING p); cbn; lia.
Qed.

(** A refused first payment stays in the amount pending. *)
Definition sample_refused : DB :=
  set_payments {[ 6%positive := set_p_status TX_FAILED sample_card ]} (set_enrollments {[ 9%positive := sample_pending_plan ]} sample_db).
Lemma sample_refused_wf : books_wf sample_refused.
Proof.
  split; cbn -[lookup].
  - intros i p [_ <-]%lookup_singleton_Some; split; cbn; try done; lia.
  - intros i e [_ <-]%lookup_singleton_Some; split; cbn; try done; lia.
  - intros i p [<- <-]%lookup_singleton_Some; cbn. split; [lia | by eexists].
  - intros i e [<- _]%lookup_singleton_Some; cbn; lia.
Qed.
Lemma summary_against_dashboard_witness :
  let r := mkSchoolSummary 1 "Greenfield" 1 (naira 2750000) 0 in
  sm_pendingAmount r = naira
    (sum_of p_amountPaid (fun p => of_school 1 p && negb (p_isConfirmed p) && has_status TX_PENDING p) (payments sample_refused) +
     sum_of p_amountPaid (refused 1) (payments sample_refused)).
Proof.
  intros r. destruct (summary_against_dashboard (fun l => l) sample_refused r sample_refused_wf) as (_ & _ & H);
    [vm_compute; left | exact H].
Defined.

(** ** Migration windows *)

(** Moving a school's free-migration deadline, on every branch: an invalid
    date, one more than a day past, one more than a year away and an unknown or
    deleted school are refused and change nothing; otherwise exactly that
    school's deadline changes, the change is audited with the old and the new
    date, the owner is told, and whether the window is open afterwards is decided
    by the new date alone. *)
Theorem migration_window_outcomes schoolId closesAt actor reason now w :
  let r := setMigrationWindow schoolId closesAt actor reason now w in
  match closesAt with
  | None => exists e, r = (Err e, w)
  | Some t =>
      if (now - DAY_MS <=? t) && (t <=? now + 365 * DAY_MS) then
        match schools (db w) !! schoolId with
        | Some s =>
            if bool_decide (s_deletedAt s = None) then exists c w',
              r = (Ok c, w') /\
              schools (db w') = <[schoolId := set_s_migrationDeadline t s]> (schools (db w)) /\
              (exists a, auditLog (db w') = auditLog (db w) ++ [a] /\ au_action a = MIGRATION_WINDOW_CHANGED /\
                 au_before a = Some [("closesAt", JNum (s_migrationDeadline s))] /\
                 au_after a = Some [("closesAt", JNum t)] /\ au_reason a = Some reason) /\
              (exists n, out w' = out w ++ [Notify n] /\ n_userId n = s_ownerId s) /\
              wc_previousClosesAt c = s_migrationDeadline s /\ wc_closesAt c = t /\ (wc_isOpen c = true <-> now < t)
            else r = (Err (FNotFound "School not found"), w)
        | None => r = (Err (FNotFound "School not found"), w)
        end
      else exists e, r = (Err e, w)
  end.
Proof.
  cbv zeta. unfold setMigrationWindow. destruct closesAt as [t|]; exec; [|by eexists].
  rewrite (Z.leb_antisym t), (Z.leb_antisym (now + _)).
  destruct (t <? now - DAY_MS); cbn [negb andb]; exec; [by eexists|].
  destruct (now + 365 * DAY_MS <? t); cbn [negb andb]; exec; [by eexists|].
  unfold live_school. destruct (schools (db w) !! schoolId) as [s|] eqn:Es; exec; [|done].
  case_bool_decide as Hd; exec; [|done].
  do 2 eexists. split; [reflexivity|]. cbn -[lookup insert alter]. split; [|split; [|split; [|split; [|split]]]].
  - apply map_eq. intros k. destruct (decide (k = schoolId)) as [->|Hk].
    + by rewrite lookup_alter_eq, lookup_insert_eq, Es.
    + by rewrite lookup_alter_ne, lookup_insert_ne.
  - eexists. done.
  - eexists. done.
  - done.
  - done.
  - unfold isMigrationWindowOpen. by rewrite Z.ltb_lt.
Qed.

(** ** The overview *)

(** The overview is never more than half a minute behind: with [books] the
    database at each instant, its revenue is that of one instant within the last
    thirty seconds, its student figures are those of one such instant, and the
    recent payments and the chart are those of now; and the caches it leaves
    keep that promise for the next request. *)
Theorem overview_fresh `{CacheBackend} month_name oldest newest range (books : Z -> DB) now rc :
  let fresh c1 c2 :=
    aged (fun t => computePlatformRevenue (books t)) AGGREGATE_TTL_SECONDS now key_adminRevenue c1 /\
    aged (fun t => computeStudentsSummary (books t)) AGGREGATE_TTL_SECONDS now key_adminStudentsSummary c2 in
  fresh (rc_revenue rc) (rc_students rc) ->
  let '(o, rc') := getOverview month_name oldest newest range now (books now) rc in
  (exists t, now - 30 * 1000 < t <= now /\ ov_totalRevenue o = computePlatformRevenue (books t)) /\
  (exists t, now - 30 * 1000 < t <= now /\ let s := computeStudentsSummary (books t) in
     ov_totalStudents o = ss_totalStudents s /\ ov_activeStudents o = ss_activeStudents s /\
     ov_pendingApprovals o = ss_pendingFirstPayments s /\ ov_totalOutstandingBalance o = ss_totalOutstandingBalance s) /\
  ov_recentTransactions o = recentTransactions newest 10 (books now) /\
  ov_revenueSeries o = revenueSeries month_name oldest range now (books now) /\
  fresh (rc_revenue rc') (rc_students rc').
Proof.
  intros fresh [H1 H2]. unfold getOverview, getPlatformRevenue, getStudentsSummary.
  pose proof (getOrSet_aged (fun t => computePlatformRevenue (books t)) AGGREGATE_TTL_SECONDS now key_adminRevenue
    (rc_revenue rc) ltac:(done) H1) as G1.
  pose proof (getOrSet_aged (fun t => computeStudentsSummary (books t)) AGGREGATE_TTL_SECONDS now key_adminStudentsSummary
    (rc_students rc) ltac:(done) H2) as G2.
  cbn beta in G1, G2.
  destruct (getOrSet now key_adminRevenue _ _ _) as [q c1]. destruct (getOrSet now key_adminStudentsSummary _ _ _) as [s c2].
  destruct G1 as [(t1 & Ht1 & ->) A1], G2 as [(t2 & Ht2 & ->) A2]. unfold AGGREGATE_TTL_SECONDS in Ht1, Ht2.
  cbn [ov_totalRevenue ov_totalStudents ov_activeStudents ov_pendingApprovals ov_totalOutstandingBalance
    ov_recentTransactions ov_revenueSeries rc_revenue rc_students].
  split; [by exists t1|]. split; [by exists t2|]. done.
Qed.

#[local] Instance sample_reports_backend : CacheBackend := {| redis := false; fails _ := false |}.
Lemma overview_fresh_witness :
  exists t, 5000 - 30 * 1000 < t <= 5000 /\
    ov_totalRevenue (getOverview (fun _ => EmptyString) (fun l => l) (fun l => l) Monthly 5000 sample_db
      (mkReports (mkCache ∅ 0) (mkCache ∅ 0) (mkCache ∅ 0) (mkCache ∅ 0))).1 = computePlatformRevenue sample_db.
Proof.
  pose proof (overview_fresh (fun _ => EmptyString) (fun l => l) (fun l => l) Monthly (fun _ => sample_db) 5000
    (mkReports (mkCache ∅ 0) (mkCache ∅ 0) (mkCache ∅ 0) (mkCache ∅ 0))) as H.
  destruct (getOverview _ _ _ _ _ _ _) as [o rc]. apply H. split; intros e; cbn [memory rc_revenue rc_students];
    rewrite lookup_empty; discriminate.
Defined.

(** ** The revenue chart *)

(** The calendar month, and the week from Monday, of an instant. *)
Definition slot (range : Range) (t : Z) : Z :=
  match range with Monthly => month_index t | Weekly => (Day t + 3) / 7 end.

Lemma Day_MakeDay_of t date : Day (MakeDate (MakeDay (getFullYear t) (getMonth t) date) 0) = Day t - getDate t + date.
Proof.
  rewrite Day_MakeDate by done. destruct (getDate_spec t) as (H1 & _ & H3). unfold MakeDay.
  rewrite (Z.div_small (getMonth t)), Z.add_0_r, (Z.mod_small (getMonth t)) by done. lia.
Qed.
Lemma Day_setDate t date : Day (setDate t date) = Day t - getDate t + date.
Proof.
  unfold setDate. rewrite Day_MakeDate by apply TimeInDay_range.
  rewrite <- (Day_MakeDay_of t date), Day_MakeDate by done. done.
Qed.
Lemma Day_midnight t : Day (midnight t) = Day t.
Proof. unfold midnight, new_Date. rewrite Day_MakeDay_of. lia. Qed.

(** The Monday on or before a day. *)
Definition week_start (day : Z) : Z := 7 * ((day + 3) / 7) - 3.
Lemma week_offset day : day - ((day + 4) mod 7 + 6) mod 7 = week_start day.
Proof. unfold week_start. Z.to_euclidean_division_equations. lia. Qed.
Lemma week_start_of k : week_start (7 * k - 3) = 7 * k - 3.
Proof. unfold week_start. Z.to_euclidean_division_equations. lia. Qed.

Lemma Day_monday t : Day (monday t) = week_start (Day t).
Proof.
  unfold monday. rewrite Day_setDate, Day_midnight. unfold getDay. rewrite Day_midnight, <- week_offset. lia.
Qed.
Lemma Day_this_monday now : Day (this_monday now) = week_start (Day now).
Proof. unfold this_monday, new_Date. rewrite Day_MakeDay_of. unfold getDay. rewrite <- week_offset. lia. Qed.

Lemma slot_bucket range now i : slot range (bucket_start range now i) = slot range now - i.
Proof.
  destruct range; cbn [slot bucket_start].
  - unfold new_Date, MakeDay. set (y := getFullYear now + (getMonth now - i) / 12). set (m := (getMonth now - i) mod 12).
    assert (0 <= m < 12) as Hm by (apply Z.mod_pos_bound; lia).
    pose proof (DaysInMonth_range y m Hm).
    destruct (date_fields_of y m 1 0 Hm ltac:(lia) ltac:(done)) as (H1 & H2 & _).
    unfold month_index at 1. rewrite H1, H2. unfold month_index, y, m.
    pose proof (Z.div_mod (getMonth now - i) 12 ltac:(lia)). lia.
  - rewrite Day_setDate, Day_this_monday. unfold week_start. Z.to_euclidean_division_equations. lia.
Qed.

Lemma slot_mono range a b : a <= b -> slot range a <= slot range b.
Proof.
  intros H. destruct range; cbn [slot]; [by apply month_index_mono|].
  apply Z.div_le_mono; [done|]. pose proof (day_le a b H). lia.
Qed.

(** ** Keys tell the slots apart *)

Lemma append_inj (s1 s2 t1 t2 : string) :
  String.length s2 = String.length t2 -> s1 +:+ s2 = t1 +:+ t2 -> s1 = t1 /\ s2 = t2.
Proof.
  assert (forall a b : string, String.length (a +:+ b) = (String.length a + String.length b)%nat) as Hl
by (intros a b; induction a as [|c a IH]; [done|];
    change (S (String.length (a +:+ b)) = S (String.length a + String.length b)%nat); by rewrite IH).
  intros Hlen. revert t1. induction s1 as [|c s1 IH]; intros [|c' t1] H.
  - done.
  - apply (f_equal String.length) in H. rewrite !Hl in H. cbn [String.length] in H. lia.
  - apply (f_equal String.length) in H. rewrite !Hl in H. cbn [String.length] in H. lia.
  - injection H as -> H. by destruct (IH t1 H) as [-> ->].
Qed.

Lemma pad_length k n : String.length (pad k n) = k.
Proof.
  revert n. induction k as [|k IH]; intros n; [done|]. cbn [pad].
  assert (forall s c, String.length (s +:+ String c EmptyString) = S (String.length s)) as H
    by (intros s c; induction s as [|c' s IHs]; [done|]; change (S (String.length (s +:+ String c EmptyString)) = S (S (String.length s))); by rewrite IHs).
  by rewrite H, IH.
Qed.

Lemma digit_inj a b : digit a = digit b -> a mod 10 = b mod 10.
Proof.
  unfold digit. intros H%(f_equal Ascii.nat_of_ascii).
  pose proof (Z.mod_pos_bound a 10 ltac:(lia)). pose proof (Z.mod_pos_bound b 10 ltac:(lia)).
  rewrite !Ascii.nat_ascii_embedding in H by lia. lia.
Qed.

Lemma pad_inj k a b : 0 <= a < 10 ^ Z.of_nat k -> 0 <= b < 10 ^ Z.of_nat k -> pad k a = pad k b -> a = b.
Proof.
  revert a b. induction k as [|k IH]; intros a b Ha Hb; cbn [pad].
  - cbn in Ha, Hb. lia.
  - intros [H1 H2]%append_inj; [|done]. injection H2 as H2%digit_inj.
    rewrite Nat2Z.inj_succ, Z.pow_succ_r in Ha, Hb by lia.
    apply IH in H1; [|split; [apply Z.div_pos; lia | apply Z.div_lt_upper_bound; lia]..].
    rewrite (Z.div_mod a 10), (Z.div_mod b 10) by lia. congruence.
Qed.

Lemma dashed_length k n : String.length ("-" +:+ pad k n) = S k.
Proof. change (S (String.length (pad k n)) = S k). by rewrite pad_length. Qed.

Lemma month_key_inj a b : month_key a = month_key b -> getFullYear a = getFullYear b /\ getMonth a = getMonth b.
Proof.
  unfold month_key. intros [Hy H]%append_inj; [|by rewrite !dashed_length].
  apply (inj pretty) in Hy. apply (inj (String.append "-")) in H. destruct (getDate_spec a) as [Ha _], (getDate_spec b) as [Hb _].
  apply (pad_inj 2) in H; [|cbn; lia..]. split; [done | lia].
Qed.

Lemma day_key_inj a b : day_key a = day_key b <-> Day a = Day b.
Proof.
  destruct (getDate_spec a) as (Ha1 & Ha2 & Ha3), (getDate_spec b) as (Hb1 & Hb2 & Hb3).
  pose proof (DaysInMonth_range (getFullYear a) _ Ha1). pose proof (DaysInMonth_range (getFullYear b) _ Hb1). split.
  - unfold day_key. intros [H1 H2]%append_inj; [|by rewrite !dashed_length]. apply (inj (String.append "-")) in H2.
    apply month_key_inj in H1 as [Hy Hm]. apply (pad_inj 2) in H2; [|cbn; lia..]. rewrite Ha3, Hb3, Hy, Hm, H2. done.
  - intros H'. unfold day_key, month_key, getDate, getMonth, getFullYear. by rewrite H'.
Qed.

(** Two instants share a key exactly when they share their month or their week. *)
Lemma keyFor_slot range a b : keyFor range a = keyFor range b <-> slot range a = slot range b.
Proof.
  unfold keyFor. destruct range; cbn [slot].
  - unfold month_index. destruct (getDate_spec a) as [Ha _], (getDate_spec b) as [Hb _]. split.
    + intros [-> ->]%month_key_inj. done.
    + intros H. assert (getFullYear a = getFullYear b /\ getMonth a = getMonth b) as [E1 E2] by lia.
      unfold month_key. by rewrite E1, E2.
  - rewrite day_key_inj, !Day_monday. unfold week_start. lia.
Qed.

Lemma countdown_spec n i : i ∈ countdown n <-> 0 <= i < n.
Proof.
  unfold countdown. rewrite list_elem_of_fmap. setoid_rewrite elem_of_seq. split.
  - intros (k & -> & Hk). lia.
  - intros H. exists (Z.to_nat (n - 1 - i)). lia.
Qed.
Lemma countdown_nodup n : NoDup (countdown n).
Proof. unfold countdown. apply NoDup_fmap_2; [intros x y; lia | apply NoDup_seq]. Qed.

(** Adding to the bucket of a key, when keys differ. *)
Lemma add_to_bucket_map key v bs :
  NoDup (rb_key <$> bs) ->
  add_to_bucket key v bs =
    (fun b => if String.eqb (rb_key b) key then mkRevenue (rb_key b) (rb_label b) (js_add (rb_value b) v) else b) <$> bs.
Proof.
  induction bs as [|b bs IH]; [done|]. rewrite fmap_cons. intros [Hb Hnd]%list.NoDup_cons. cbn [add_to_bucket].
  rewrite fmap_cons. destruct (String.eqb (rb_key b) key) eqn:E; cbn [andb].
  - apply String.eqb_eq in E. assert (existsb (fun b' => String.eqb (rb_key b') key) bs = false) as ->.
    { apply not_true_is_false. intros (b' & Hin%list_elem_of_In & Hk%String.eqb_eq)%existsb_exists. apply Hb.
      apply list_elem_of_fmap. exists b'. split; congruence. }
    cbn [negb]. f_equal. rewrite <- IH by done. clear IH.
    induction bs as [|b2 bs IHb]; [done|]. cbn [add_to_bucket].
    assert (String.eqb (rb_key b2) key = false) as ->.
    { apply String.eqb_neq. intros E2. apply Hb. rewrite fmap_cons, E, <- E2. left. }
    cbn [andb]. f_equal. apply IHb.
    + intros Hin. apply Hb. rewrite fmap_cons. by right.
    + by apply list.NoDup_cons in Hnd as [_ ?].
  - f_equal. by apply IH.
Qed.

Section chart.
Context (month_name : Z -> string) (oldest_first : list (id * Payment) -> list (id * Payment)).
Context (range : Range) (now : Z) (d : DB).

Abbreviation shown := (series_payments oldest_first range now d).

(** The payments of the bar [i] periods ago, oldest first. *)
Definition bar (i : Z) : list (id * Payment) :=
  filter (fun kv : id * Payment => slot range (p_paymentDate kv.2) = slot range now - i) shown.
(** Their fees, added as the code adds them. *)
Definition bar_value (ps : list (id * Payment)) : Q :=
  fold_left (fun v (kv : id * Payment) => js_add v (naira (p_platformAmount kv.2))) ps 0%Q.

Lemma bucket_keys : NoDup (rb_key <$> empty_buckets month_name range now).
Proof.
  unfold empty_buckets. rewrite <- list_fmap_compose. apply NoDup_fmap_2_strong; [|apply countdown_nodup].
  intros i j _ _ H. cbn in H. apply keyFor_slot in H. rewrite !slot_bucket in H. lia.
Qed.

Lemma added_keys (ps : list (id * Payment)) bs :
  NoDup (rb_key <$> bs) ->
  fold_left (fun bs (kv : id * Payment) =>
      add_to_bucket (keyFor range (p_paymentDate kv.2)) (naira (p_platformAmount kv.2)) bs) ps bs =
  (fun b => mkRevenue (rb_key b) (rb_label b)
     (fold_left (fun v (kv : id * Payment) => js_add v (naira (p_platformAmount kv.2)))
        (filter (fun kv : id * Payment => keyFor range (p_paymentDate kv.2) = rb_key b) ps) (rb_value b))) <$> bs.
Proof.
  revert bs. induction ps as [|kv ps IH]; intros bs Hnd.
  - cbn [fold_left]. symmetry. rewrite <- (list_fmap_id bs) at 2. apply list_fmap_ext. intros _ [k l v] _. done.
  - cbn [fold_left]. rewrite add_to_bucket_map by done. rewrite IH.
    + rewrite <- list_fmap_compose. apply list_fmap_ext. intros _ [k l v] _. cbn [compose rb_key rb_label rb_value].
      rewrite filter_cons. destruct (String.eqb k (keyFor range (p_paymentDate kv.2))) eqn:E.
      * apply String.eqb_eq in E. subst. by rewrite decide_True.
      * apply String.eqb_neq in E. rewrite decide_False by congruence. done.
    + rewrite <- list_fmap_compose. erewrite list_fmap_ext; [exact Hnd|]. intros _ [k l v] _. cbn. by destruct (String.eqb _ _).
Qed.

(** The revenue chart: it has a bar for each of the last six months, or eight
    weeks, and a bar's figure is the sum, as JavaScript adds naira, of the
    platform fees of the confirmed payments dated in that month, or in that week
    from Monday; and every confirmed platform payment dated between the first
    bar's start and now is in exactly one bar. *)
Theorem chart_partitions_revenue :
  (forall l, oldest_first l ≡ₚ l) ->
  (snd <$> revenueSeries month_name oldest_first range now d) =
    (bar_value ∘ bar) <$> countdown (series_length range) /\
  (forall pid p, payments d !! pid = Some p -> platform_revenue p = true ->
     series_start range now <= p_paymentDate p <= now ->
     exists! i, 0 <= i < series_length range /\ (pid, p) ∈ bar i).
Proof.
  intros Hperm. split.
  - unfold revenueSeries. rewrite added_keys by apply bucket_keys. unfold empty_buckets.
    rewrite <- !list_fmap_compose. apply list_fmap_ext. intros _ i _.
    cbn [compose snd rb_key rb_value rb_label]. unfold bar_value, bar. f_equal. apply list_filter_iff.
    intros kv. rewrite keyFor_slot, slot_bucket. done.
  - intros pid p Hp Hpf Hd. set (i := slot range now - slot range (p_paymentDate p)).
    assert ((pid, p) ∈ shown) as Hin.
    { unfold series_payments. rewrite Hperm. apply elem_of_findMany. split; [done|]. rewrite Hpf. cbn. lia. }
    pose proof (slot_mono range _ _ (proj1 Hd)) as H1. pose proof (slot_mono range _ _ (proj2 Hd)) as H2.
    unfold series_start in H1. rewrite slot_bucket in H1. exists i. split.
    + split; [unfold i; lia|]. unfold bar. apply list_elem_of_filter. split; [|done]. cbn. unfold i. lia.
    + intros j [_ Hj]. unfold bar in Hj. apply list_elem_of_filter in Hj as [Hj _]. cbn in Hj. unfold i. lia.
Qed.
End chart.

(** A fee confirmed in the running month is in the last bar. *)
Lemma chart_partitions_revenue_witness :
  snd <$> revenueSeries (fun _ => EmptyString) (fun l => l) Monthly 2000
    (set_payments {[ 6%positive := set_p_isConfirmed true sample_card ]} sample_db) =
  [0; 0; 0; 0; 0; js_add 0 (naira 250000)]%Q.
Proof.
  rewrite (proj1 (chart_partitions_revenue (fun _ => EmptyString) (fun l => l) Monthly 2000
    (set_payments {[ 6%positive := set_p_isConfirmed true sample_card ]} sample_db) (fun l => reflexivity l))).
  vm_compute. reflexivity.
Defined.
