(* ===== verification/Users.v ===== *)
(** * Accounts of people

    [src/auth/signup-guard.ts] (the hooks Better Auth runs before it creates or
    updates a user), [src/users/users.service.ts] and its controller, and the two
    global guards [src/auth/better-auth.guard.ts] and [src/auth/roles.guard.ts].
    Better Auth itself is not modelled: it stores what the hooks return, and gives
    the guards a session or none. *)

From S2P Require Import Prelude Schema Effects Enrollment JsText Phone Settlement.

(** ** Payloads

    A property of a JSON body: missing, [null], or a string. *)
Inductive Field := Absent | Null | Text (t : text).
(** [f ?? g] *)
Definition nullish (f g : Field) : Field := match f with Text _ => f | _ => g end.
(** The column a field leaves: Prisma skips [undefined]. *)
Definition column (f : Field) (old : option string) : option string :=
  match f with Absent => old | Null => None | Text t => Some (utf8 t) end.

Inductive AuthErrorCode := NAME_REQUIRED | NAME_LENGTH | PHONE_INVALID | PHONE_ALREADY_REGISTERED.
Definition MAX_NAME_LENGTH : Z := 80.
Definition AUTH_ERROR_MESSAGES (code : AuthErrorCode) : string :=
  match code with
  | NAME_REQUIRED => "Enter your full name."
  | NAME_LENGTH => "Your name must be between 2 and 80 characters."
  | PHONE_INVALID => "Enter your 11-digit phone number, starting with 0 (e.g. 08012345678)."
  | PHONE_ALREADY_REGISTERED => "This phone number is already linked to another account."
  end.

(** Always with status 422. *)
Record AuthApiError := mkAuthApiError { ae_statusCode : Z; ae_code : AuthErrorCode; ae_message : string }.
Definition reject (code : AuthErrorCode) : AuthApiError := mkAuthApiError 422 code (AUTH_ERROR_MESSAGES code).

(** [UserCreateData]; [phoneHash] is no input of a client. *)
Record UserCreateData := mkUserData {
  cd_name : Field;
  cd_fullName : Field;
  cd_email : string;
  cd_phoneNumber : Field;
  cd_phoneHash : option string }.

(** ** Display names *)

Definition whitespace_control (c : Z) : bool := bool_decide (c ∈ [9; 10; 11; 12; 13]).
(** The filter of [sanitizeName]. It sees UTF-16 code units; both units of a
    surrogate pair pass, as their code point does. *)
Definition legible (c : Z) : bool :=
  if bool_decide (c ∈ ZERO_WIDTH_CODEPOINTS) then false
  else if whitespace_control c then true
  else negb ((c <=? 31) || ((127 <=? c) && (c <=? 159))).

(** [replace(/\s+/g, ' ')]; [in_run] after a white space of the same run. *)
Fixpoint collapse (in_run : bool) (t : text) : text :=
  match t with
  | [] => []
  | c :: t' =>
      if is_js_whitespace c then (if in_run then collapse true t' else 32 :: collapse true t')
      else c :: collapse false t'
  end.

Definition sanitizeName (raw : text) : text := trim (collapse false (filter (fun c => legible c = true) raw)).

Section Users.
Context (category_C : Z -> bool).
Context (hmac : string -> string).
Abbreviation canonicalizePhone := (canonicalizePhone category_C).
Abbreviation phoneBlindIndex := (phoneBlindIndex category_C hmac).

(** ** The users table *)

Definition holds_hash (h : string) (u : User) : bool := bool_decide (u_phoneHash u = Some h).
Definition phone_owner (h : string) (d : DB) : option (id * User) := find_row (holds_hash h) (users d).

(** Whether another row than [i] holds a unique value of [u]. *)
Definition hash_clash (i : id) (u : User) (d : DB) : bool :=
  match u_phoneHash u with Some h => taken (holds_hash h) (delete i (users d)) | None => false end.
Definition email_clash (i : id) (u : User) (d : DB) : bool :=
  taken (fun v => String.eqb (u_email v) (u_email u)) (delete i (users d)).

(** A write of row [i], with the table's unique columns. *)
Definition storeUser (i : id) (u : User) : M User :=
  clash ← read (email_clash i u);
  ensure (negb clash) (FUnique "email");;
  clash ← read (hash_clash i u);
  ensure (negb clash) (FUnique "phoneHash");;
  write (fun d => set_users (<[i := u]> (users d)) d);;
  mret u.
(** [prisma.user.update({ where: { id }, data })] *)
Definition updateUser (i : id) (data : User -> User) : M User :=
  u ← read (fun d => users d !! i); u ← orThrow u P2025; storeUser i (data u).

(** ** The hooks *)

Definition has_text (f : Field) : option text :=
  match f with Text t => if bool_decide (trim t = []) then None else Some t | _ => None end.

(** The name part of [guardUserCreate]. *)
Definition guard_name (data : UserCreateData) : AuthApiError + UserCreateData :=
  let with_names n f := mkUserData n f (cd_email data) (cd_phoneNumber data) (cd_phoneHash data) in
  match nullish (cd_fullName data) (cd_name data) with
  | Text rawName =>
      let name := sanitizeName rawName in
      if bool_decide (name = []) then inl (reject NAME_REQUIRED)
      else if (js_length name <? 2) || (MAX_NAME_LENGTH <? js_length name) then inl (reject NAME_LENGTH)
      else inr (with_names (Text name) (Text name))
  | missing => inr (with_names (cd_name data) missing)
  end.

(** The phone part. *)
Definition guard_phone (d : DB) (data : UserCreateData) : AuthApiError + UserCreateData :=
  match has_text (cd_phoneNumber data) with
  | None => inr data
  | Some rawPhone =>
      match canonicalizePhone rawPhone with
      | None => inl (reject PHONE_INVALID)
      | Some canonical =>
          match phoneBlindIndex (text_of canonical) with
          | None => inl (reject PHONE_INVALID)
          | Some phoneHash =>
              match phone_owner phoneHash d with
              | Some _ => inl (reject PHONE_ALREADY_REGISTERED)
              | None => inr (mkUserData (cd_name data) (cd_fullName data) (cd_email data)
                  (Text (text_of canonical)) (Some phoneHash))
              end
          end
      end
  end.

Definition guardUserCreate (d : DB) (user : UserCreateData) : AuthApiError + UserCreateData :=
  match guard_name user with inl e => inl e | inr data => guard_phone d data end.

Definition guardUserUpdate (user : UserCreateData) : AuthApiError + UserCreateData :=
  let data :=
    match cd_name user with
    | Text raw =>
        let name := sanitizeName raw in
        if bool_decide (name = []) then user
        else mkUserData (Text name) (Text name) (cd_email user) (cd_phoneNumber user) (cd_phoneHash user)
    | _ => user
    end in
  match has_text (cd_phoneNumber data) with
  | None => inr data
  | Some raw =>
      match canonicalizePhone raw with
      | None => inl (reject PHONE_INVALID)
      | Some canonical => inr (mkUserData (cd_name data) (cd_fullName data) (cd_email data)
          (Text (text_of canonical)) (phoneBlindIndex (text_of canonical)))
      end
  end.

(** What Better Auth stores of the hooks' results: [role] is no input of a
    sign-up and defaults to [PARENT]; an update touches no [role] either. *)
Definition new_user (data : UserCreateData) : User :=
  mkUser (cd_email data) PARENT (column (cd_fullName data) None) (column (cd_phoneNumber data) None)
    (cd_phoneHash data) None (column (cd_name data) None).
Definition updated_user (data : UserCreateData) (u : User) : User :=
  mkUser (u_email u) (u_role u) (column (cd_fullName data) (u_fullName u))
    (column (cd_phoneNumber data) (u_phoneNumber u))
    (match cd_phoneHash data with Some h => Some h | None => u_phoneHash u end)
    (u_deletedAt u) (column (cd_name data) (u_name u)).

(** ** The service *)

Context (id_str : id -> string).

Definition findOne (i : id) : M User :=
  user ← read (fun d => users d !! i);
  match user with
  | Some u => if bool_decide (u_deletedAt u = None) then mret u
              else throw (FNotFound ("User with ID " +:+ id_str i +:+ " not found"))
  | None => throw (FNotFound ("User with ID " +:+ id_str i +:+ " not found"))
  end.

Record UpdateUserDto := mkUpdateUserDto {
  uu_fullName : Field; uu_email : option string; uu_role : option UserRole }.
Definition update (i : id) (dto : UpdateUserDto) : M User :=
  findOne i;;
  updateUser i (fun u => set_u_fullName (column (uu_fullName dto) (u_fullName u))
    (set_u_email (default (u_email u) (uu_email dto)) (set_u_role (default (u_role u) (uu_role dto)) u))).

Record UpdateProfileDto := mkUpdateProfileDto { up_fullName : Field; up_phoneNumber : Field }.

(** The number and hash to store; [canonicalizePhone(null)] is a TypeError. *)
Definition phone_data (i : id) (phoneNumber : Field) : M (option (string * string)) :=
  match phoneNumber with
  | Absent => mret None
  | Null => throw (FInternal "TypeError: Cannot read properties of null")
  | Text raw =>
      canonical ← orThrow (canonicalizePhone raw) (FBadRequest (AUTH_ERROR_MESSAGES PHONE_INVALID));
      phoneHash ← orThrow (phoneBlindIndex (text_of canonical)) (FBadRequest (AUTH_ERROR_MESSAGES PHONE_INVALID));
      owner ← read (phone_owner phoneHash);
      ensure (match owner with Some (o, _) => bool_decide (o = i) | None => true end)
        (FConflict (AUTH_ERROR_MESSAGES PHONE_ALREADY_REGISTERED));;
      mret (Some (canonical, phoneHash))
  end.

Definition updateProfile (i : id) (dto : UpdateProfileDto) : M User :=
  findOne i;;
  phoneData ← phone_data i (up_phoneNumber dto);
  updateUser i (fun u =>
    let u := set_u_fullName (column (up_fullName dto) (u_fullName u))
      (set_u_name (column (up_fullName dto) (u_name u)) u) in
    match phoneData with
    | Some (number, hash) => set_u_phoneNumber (Some number) (set_u_phoneHash (Some hash) u)
    | None => u
    end).

Definition remove (i : id) (now : Z) : M User :=
  findOne i;;
  transaction
    (user ← updateUser i (fun u => set_u_deletedAt (Some now) (set_u_email (deleted_email (id_str i)) u));
     write (fun d => set_sessions (filter (fun kv : id * Session => se_userId kv.2 <> i) (sessions d)) d);;
     mret user).

(** ** The directory *)

Record DirectoryRow := mkDirectoryRow { dr_id : id; dr_user : User; dr_enrollmentCount : Z }.

(** [groupBy({ by: ['childId'], _count })] over the enrollments of [parentIds]' children. *)
Definition child_parent (d : DB) (e : ChildEnrollment) : option id := c_parentId <$> children d !! e_childId e.
Definition enrollments_of (parentIds : list id) (d : DB) : list ChildEnrollment :=
  filter (fun e => match child_parent d e with Some p => bool_decide (p ∈ parentIds) | None => false end = true)
    (snd <$> map_to_list (enrollments d)).
Definition group_by_child (l : list ChildEnrollment) : list (id * Z) :=
  (fun c => (c, Z.of_nat (length (filter (fun e => e_childId e = c) l)))) <$> remove_dups (e_childId <$> l).

Definition by_parent (parentOfChild : id -> option id) (counts : list (id * Z)) : gmap id Z :=
  foldl (fun m row =>
    match parentOfChild row.1 with
    | Some p => <[p := default 0 (m !! p) + row.2]> m
    | None => m
    end) ∅ counts.

(** [newest] is the database's order of the users by creation. *)
Definition findAll (newest : list (id * User) -> list (id * User)) (d : DB) : list DirectoryRow :=
  let listed := newest (filter (fun kv : id * User => u_deletedAt kv.2 = None) (map_to_list (users d))) in
  let parent_id (kv : id * User) := fst <$> parent_of kv.1 d in
  let parentIds := omap parent_id listed in
  let byParent := by_parent (fun c => c_parentId <$> children d !! c)
    (group_by_child (enrollments_of parentIds d)) in
  (fun kv : id * User => mkDirectoryRow kv.1 kv.2
     (match parent_id kv with Some p => default 0 (byParent !! p) | None => 0 end)) <$> listed.

(** ** The guards *)

Record SessionUser := mkSessionUser { su_id : id; su_role : option UserRole; su_schoolId : option id }.
(** The [customSession] plugin *)
Definition customSession (i : id) (u : User) (d : DB) : SessionUser :=
  mkSessionUser i (Some (u_role u))
    (if bool_decide (u_role u = SCHOOL_OWNER) then fst <$> school_of_owner i d else None).

(** [BetterAuthGuard]: the user it leaves on the request. *)
Definition canActivate (isPublic : bool) (session : option SessionUser) (request_user : option AuthUser)
    : res (option AuthUser) :=
  if isPublic then Ok request_user
  else match session with
       | None => Err (FUnauthorized "Unauthorized")
       | Some s => Ok (Some (mkAuthUser (su_id s) (default PARENT (su_role s)) (su_schoolId s)))
       end.
(** [RolesGuard] *)
Definition rolesGuard (requiredRoles : option (list UserRole)) (user : option AuthUser) : res bool :=
  match requiredRoles with
  | None => Ok true
  | Some roles =>
      match user with
      | Some u => if bool_decide (au_role u ∈ roles) then Ok true
                  else Err (FForbidden "You do not have access to this resource")
      | None => Err (FForbidden "You do not have access to this resource")
      end
  end.
(** The two guards in their order. *)
Definition authorize (isPublic : bool) (requiredRoles : option (list UserRole)) (session : option SessionUser)
    : res (option AuthUser) :=
  user ← canActivate isPublic session None; rolesGuard requiredRoles user;; mret user.

(** ** The controller *)

Inductive UserRoute :=
| GetMe
| UpdateMe (dto : UpdateProfileDto)
| FindAll
| FindOne (i : id)
| Update (i : id) (dto : UpdateUserDto)
| Remove (i : id).

Definition route_roles (r : UserRoute) : option (list UserRole) :=
  match r with GetMe | UpdateMe _ => None | _ => Some [SUPER_ADMIN] end.
Definition route_handler (r : UserRoute) (userId : id) (now : Z) : M unit :=
  match r with
  | GetMe => findOne userId;; mret tt
  | UpdateMe dto => updateProfile userId dto;; mret tt
  | FindAll => mret tt
  | FindOne i => findOne i;; mret tt
  | Update i dto => update i dto;; mret tt
  | Remove i => remove i now;; mret tt
  end.
Definition serve (r : UserRoute) (session : option SessionUser) (now : Z) : M unit :=
  user ← lift (authorize false (route_roles r) session);
  user ← orThrow user (FUnauthorized "Unauthorized");
  route_handler r (au_userId user) now.
End Users.
