(* ===== verification/UserSpecs.v ===== *)
(** * Accounts of people: properties

    What a stored name looks like, one account per number, what the directory
    counts, who may change what, and what removing an account leaves behind. *)

From S2P Require Import Prelude Schema Effects Samples Enrollment JsText Phone Settlement Users.

(** ** Display names *)

(** White space only as single blanks between other characters: [start] before
    the first character and after a blank. *)
Fixpoint tidy (start : bool) (t : text) : bool :=
  match t with
  | [] => negb start
  | c :: t' =>
      if is_js_whitespace c then (c =? 32) && negb start && tidy true t'
      else legible c && tidy false t'
  end.
Definition presentable (t : text) : bool := bool_decide (t = []) || tidy true t.

(** The text with each run of white space as one blank, written only in front
    of a character; [pending] in a run. *)
Fixpoint words (pending : bool) (t : text) : text :=
  match t with
  | [] => []
  | c :: t' =>
      if is_js_whitespace c then words true t'
      else (if pending then [32] else []) ++ c :: words false t'
  end.
Fixpoint ends_in_space (pending : bool) (t : text) : bool :=
  match t with [] => pending | c :: t' => ends_in_space (is_js_whitespace c) t' end.

Definition blank (p : bool) : text := if p then [32] else [].

Lemma collapse_words p t :
  blank p ++ collapse p t = words p t ++ blank (ends_in_space p t).
Proof.
  revert p. induction t as [|c t IH]; intros p; [by destruct p|]. simpl.
  destruct (is_js_whitespace c) eqn:E.
  - destruct p; apply (IH true).
  - rewrite <- app_assoc. f_equal. simpl. f_equal. apply (IH false).
Qed.

Lemma trimStart_collapse p t :
  trimStart (collapse p t) = match trimStart t with [] => [] | c :: r => c :: collapse false r end.
Proof.
  revert p. induction t as [|c t IH]; intros p; [done|]. simpl. destruct (is_js_whitespace c) eqn:E.
  - destruct p; [apply IH|]. simpl. apply IH.
  - simpl. by rewrite E.
Qed.

Lemma trimEnd_snoc t c : is_js_whitespace c = false -> trimEnd (t ++ [c]) = t ++ [c].
Proof.
  intros H. unfold trimEnd. rewrite reverse_app. simpl. rewrite H.
  change (c :: reverse t) with (reverse [c] ++ reverse t). by rewrite <- reverse_app, reverse_involutive.
Qed.
Lemma trimEnd_blank t : trimEnd (t ++ [32]) = trimEnd t.
Proof. unfold trimEnd. by rewrite reverse_app. Qed.

(** [words] ends in no white space. *)
Lemma words_end c p r : is_js_whitespace c = false ->
  exists u x, c :: words p r = u ++ [x] /\ is_js_whitespace x = false.
Proof.
  revert c p. induction r as [|d r IH]; intros c p Hc; [by exists [], c|]. simpl.
  destruct (is_js_whitespace d) eqn:Ed; [by apply IH|].
  destruct (IH d false Ed) as (u & x & E & Hx). exists ((c :: blank p) ++ u), x.
  split; [|done]. rewrite E. by rewrite <- app_assoc.
Qed.

Lemma trim_collapse t :
  trim (collapse false t) = match trimStart t with [] => [] | c :: r => c :: words false r end.
Proof.
  unfold trim. rewrite trimStart_collapse. destruct (trimStart t) as [|c r] eqn:E; [done|].
  assert (is_js_whitespace c = false) as Hc by (apply (trimStart_head t); by rewrite E).
  pose proof (collapse_words false r) as W. simpl in W. rewrite W.
  destruct (words_end c false r Hc) as (u & x & Eu & Hx).
  change (c :: words false r ++ ?s) with ((c :: words false r) ++ s). rewrite Eu.
  destruct (ends_in_space false r); [rewrite trimEnd_blank | rewrite app_nil_r]; by apply trimEnd_snoc.
Qed.

Lemma words_tidy p r : Forall (fun c => legible c = true) r -> tidy false (words p r) = true.
Proof.
  intros F. revert p. induction F as [|c r Hc _ IH]; intros p; [done|]. simpl.
  destruct (is_js_whitespace c) eqn:E; [apply IH|]. destruct p; simpl; rewrite E, Hc; simpl; apply IH.
Qed.

Lemma tidy_words p r : tidy p r = true -> blank p ++ r = words p r.
Proof.
  revert p. induction r as [|c r IH]; intros p; [by destruct p|]. simpl. destruct (is_js_whitespace c) eqn:E.
  - intros [[->%Z.eqb_eq Hp]%andb_true_iff H]%andb_true_iff. destruct p; [done|]. apply (IH true H).
  - intros [_ H]%andb_true_iff. f_equal. f_equal. apply (IH false H).
Qed.

Lemma tidy_legible p r : tidy p r = true -> Forall (fun c => legible c = true) r.
Proof.
  revert p. induction r as [|c r IH]; intros p H; [done|]. simpl in H. destruct (is_js_whitespace c) eqn:E.
  - apply andb_true_iff in H as [[->%Z.eqb_eq _]%andb_true_iff H]. constructor; [done|]. by apply (IH true).
  - apply andb_true_iff in H as [Hc H]. constructor; [done|]. by apply (IH false).
Qed.

(** A sanitized name is presentable (no control or zero-width character,
    white space only as single blanks between other characters), a presentable
    name is stored as it is, and so sanitizing twice is sanitizing once. *)
Theorem sanitized_name raw :
  presentable (sanitizeName raw) = true /\
  (forall t, presentable t = true -> sanitizeName t = t) /\
  sanitizeName (sanitizeName raw) = sanitizeName raw.
Proof.
  assert (forall r, presentable (sanitizeName r) = true) as A.
  { intros r. unfold sanitizeName, presentable. rewrite trim_collapse.
    assert (Forall (fun c => legible c = true) (filter (fun c => legible c = true) r)) as F
      by (apply Forall_forall; intros c [H _]%list_elem_of_In%list_elem_of_filter; done).
    destruct (trimStart_suffix (filter (fun c => legible c = true) r)) as (s & Es & _).
    destruct (trimStart (filter _ r)) as [|c w] eqn:E; [done|].
    rewrite Es in F. apply Forall_app in F as [_ F]. apply Forall_cons_iff in F as [Hc F].
    pose proof (trimStart_head (filter (fun c => legible c = true) r) c) as Hw. rewrite E in Hw.
    simpl. rewrite (Hw eq_refl), Hc. simpl. by rewrite words_tidy. }
  assert (forall t, presentable t = true -> sanitizeName t = t) as B.
  { intros t [->%bool_decide_eq_true|H]%orb_true_iff; [done|]. unfold sanitizeName.
    pose proof (tidy_legible _ _ H) as F. 
    assert (filter (fun c => legible c = true) t = t) as ->
      by (clear -F; induction F as [|c t Hc _ IH]; [done|]; by rewrite filter_cons_True, IH).
    rewrite trim_collapse. destruct t as [|c t]; [done|]. simpl in H |- *.
    destruct (is_js_whitespace c); [by rewrite andb_false_r in H|].
    apply andb_true_iff in H as [_ H]. f_equal. symmetry. apply (tidy_words false t H). }
  split; [apply A|]. split; [apply B|]. apply B, A.
Qed.

(** A right-to-left override is a format character, and is kept. *)
Example bidi_kept : sanitizeName [65; 8238; 66] = [65; 8238; 66].
Proof. vm_compute. reflexivity. Qed.

(** ** The columns of a number *)

Lemma trim_blank t : trim t = [] -> Forall (fun c => is_js_whitespace c = true) t.
Proof.
  unfold trim. intros H. destruct (trimStart_suffix t) as (s & Es & Fs).
  destruct (trimEnd_prefix (trimStart t)) as (r & Er & Fr). rewrite H in Er. simpl in Er.
  rewrite Es. apply Forall_app; split; [done|]. by rewrite Er.
Qed.

Lemma whitespace_code_point c : is_js_whitespace c = true -> code_point c.
Proof. unfold is_js_whitespace, code_point. intros H. to_prop. lia. Qed.

Lemma international_ascii ds : ten_digits ds = true ->
  Forall (fun c => 0 <= c < 128) ([43; 50; 51; 52] ++ ds).
Proof.
  intros H%ten_digits_forall. apply Forall_app. split; [repeat (constructor; [lia|]); done|].
  revert H. apply Forall_impl. intros c Hc%digit_cases. lia.
Qed.

Section Identity.
Context (category_C : Z -> bool).
Context (hmac : string -> string).
Context (digits_visible : forall c, is_digit c = true -> category_C c = false).
Context (plus_visible : category_C 43 = false).
Context (id_str : id -> string).

Abbreviation guardUserCreate := (guardUserCreate category_C hmac).
Abbreviation guardUserUpdate := (guardUserUpdate category_C hmac).
Abbreviation updateProfile := (updateProfile category_C hmac id_str).

(** A canonical number *)
Definition number (ds : text) : string := "+234" +:+ string_of ds.

Lemma number_utf8 ds : ten_digits ds = true -> utf8 ([43; 50; 51; 52] ++ ds) = number ds.
Proof. intros H. rewrite utf8_ascii by (by apply international_ascii). reflexivity. Qed.

Lemma canonical_number raw c : canonicalizePhone category_C raw = Some c ->
  exists ds, ten_digits ds = true /\ c = number ds /\ utf8 (text_of c) = c /\
    phoneBlindIndex category_C hmac (text_of c) = Some (hmac c).
Proof.
  intros H. pose proof (canonical_fixed category_C digits_visible plus_visible _ _ H) as H1.
  apply accepted in H as (ds & Hd & _ & ->). exists ds. split; [done|]. split; [done|].
  split; [rewrite text_of_string by done; by apply number_utf8|]. unfold phoneBlindIndex. by rewrite H1.
Qed.

(** The bytes of a blank text are no number. *)
Lemma blank_no_number t ds : ten_digits ds = true -> trim t = [] -> utf8 t <> number ds.
Proof.
  intros Hd Ht%trim_blank H. rewrite <- number_utf8 in H by done. apply utf8_ascii_inj in H as ->.
  - by apply Forall_cons_iff in Ht as [? _].
  - revert Ht. apply Forall_impl. apply whitespace_code_point.
  - by apply international_ascii.
Qed.

(** ** One account per number *)

(** The stored number and its blind index agree. *)
Definition indexed (u : User) : Prop :=
  forall ds, ten_digits ds = true -> u_phoneNumber u = Some (number ds) ->
    u_phoneHash u = Some (hmac (number ds)).

Record identity_ok (d : DB) : Prop := mkIdentityOk {
  ok_indexed : forall i u, users d !! i = Some u -> indexed u;
  ok_hash : forall i j u v h, users d !! i = Some u -> users d !! j = Some v ->
    u_phoneHash u = Some h -> u_phoneHash v = Some h -> i = j;
  ok_email : forall i j u v, users d !! i = Some u -> users d !! j = Some v -> u_email u = u_email v -> i = j }.

Lemma not_taken {V} (cond : V -> bool) (m : gmap id V) k v :
  taken cond m = false -> m !! k = Some v -> cond v = false.
Proof.
  unfold taken. intros H%bool_decide_eq_false. apply find_row_none.
  by destruct (find_row cond m) eqn:E; [destruct H; eexists|].
Qed.

Lemma storeUser_eq i u w :
  storeUser i u w =
    if email_clash i u (db w) then (Err (FUnique "email"), w)
    else if hash_clash i u (db w) then (Err (FUnique "phoneHash"), w)
    else (Ok u, mkWorld (set_users (<[i := u]> (users (db w))) (db w)) (out w)).
Proof.
  unfold storeUser, mbind, M_bind, read, ensure, throw, write, mret, M_ret.
  destruct (email_clash i u (db w)); simpl; [done|]. by destruct (hash_clash i u (db w)).
Qed.

Lemma store_identity i u d :
  identity_ok d -> indexed u -> email_clash i u d = false -> hash_clash i u d = false ->
  identity_ok (set_users (<[i := u]> (users d)) d).
Proof.
  intros [A B C] Hu He Hh.
  assert (forall j v, users d !! j = Some v -> j <> i -> u_email v <> u_email u /\
    (forall h, u_phoneHash u = Some h -> u_phoneHash v <> Some h)) as F.
  { intros j v Hj Hne. assert (delete i (users d) !! j = Some v) as Hj' by (by rewrite lookup_delete_ne).
    split.
    - intros E. pose proof (not_taken _ _ _ _ He Hj') as X. simpl in X. by rewrite E, String.eqb_refl in X.
    - intros h E. unfold hash_clash in Hh. rewrite E in Hh. pose proof (not_taken _ _ _ _ Hh Hj') as X.
      unfold holds_hash in X. by apply bool_decide_eq_false in X. }
  split; simpl.
  - intros j v [[<- <-]|[_ Hj]]%lookup_insert_Some; [done|]. eauto.
  - intros j k v x h [[<- <-]|[Nj Hj]]%lookup_insert_Some [[<- <-]|[Nk Hk]]%lookup_insert_Some Ev Ex; [done| | |eauto].
    + by destruct (proj2 (F k x Hk (not_eq_sym Nk)) h Ev).
    + by destruct (proj2 (F j v Hj (not_eq_sym Nj)) h Ex).
  - intros j k v x [[<- <-]|[Nj Hj]]%lookup_insert_Some [[<- <-]|[Nk Hk]]%lookup_insert_Some E; [done| | |eauto].
    + by destruct (proj1 (F k x Hk (not_eq_sym Nk))).
    + by destruct (proj1 (F j v Hj (not_eq_sym Nj))).
Qed.

Lemma storeUser_identity i u w r w' :
  identity_ok (db w) -> indexed u -> storeUser i u w = (r, w') -> identity_ok (db w').
Proof.
  intros H Hu. rewrite storeUser_eq. destruct (email_clash i u (db w)) eqn:E1; [by intros [= _ <-]|].
  destruct (hash_clash i u (db w)) eqn:E2; [by intros [= _ <-]|]. intros [= _ <-]. by apply store_identity.
Qed.

Lemma updateUser_identity i data w r w' :
  identity_ok (db w) -> (forall u, indexed u -> indexed (data u)) ->
  updateUser i data w = (r, w') -> identity_ok (db w').
Proof.
  intros H Hd. unfold updateUser, mbind, M_bind, read, orThrow, mret, M_ret, throw.
  destruct (users (db w) !! i) as [u|] eqn:E; [|by intros [= _ <-]].
  apply storeUser_identity; [done|]. eapply Hd, ok_indexed; eauto.
Qed.

(** *** What the hooks return *)

Lemma has_text_none f t : has_text f = None -> f = Text t -> trim t = [].
Proof. intros H ->. simpl in H. by case_bool_decide. Qed.
Lemma has_text_some f t : has_text f = Some t -> f = Text t.
Proof. destruct f; simpl; try done. case_bool_decide; [done|]. by intros [= ->]. Qed.

(** A number field as the hooks leave it. *)
Definition guarded (f : Field) (h : option string) : Prop :=
  forall t ds, f = Text t -> ten_digits ds = true -> utf8 t = number ds -> h = Some (hmac (number ds)).

Lemma guarded_canonical raw c : canonicalizePhone category_C raw = Some c ->
  guarded (Text (text_of c)) (phoneBlindIndex category_C hmac (text_of c)).
Proof.
  intros H. destruct (canonical_number raw c H) as (ds & Hd & Hc & Hu & Hp).
  intros t ds' [= <-] _ E. rewrite Hu in E. by rewrite Hp, E.
Qed.
Lemma guarded_blank f h : has_text f = None -> guarded f h.
Proof. intros H t ds E Hd Hn. by destruct (blank_no_number t ds Hd (has_text_none _ _ H E)). Qed.

Lemma guard_phone_guarded d data data' :
  guard_phone category_C hmac d data = inr data' -> guarded (cd_phoneNumber data') (cd_phoneHash data').
Proof.
  unfold guard_phone. destruct (has_text _) as [raw|] eqn:E; [|intros [= <-]; by apply guarded_blank].
  destruct (canonicalizePhone category_C raw) as [c|] eqn:Ec; [|done].
  pose proof (guarded_canonical raw c Ec) as G.
  destruct (phoneBlindIndex category_C hmac (text_of c)) as [h|]; [|done].
  destruct (phone_owner h d); [done|]. by intros [= <-].
Qed.

Lemma guardUserUpdate_guarded data data' :
  cd_phoneHash data = None -> guardUserUpdate data = inr data' ->
  guarded (cd_phoneNumber data') (cd_phoneHash data') /\
  (cd_phoneNumber data' = Absent -> cd_phoneHash data' = None).
Proof.
  intros Hn. unfold guardUserUpdate.
  set (d2 := match cd_name data with Text raw => _ | _ => _ end).
  assert (cd_phoneHash d2 = None) as Hn2 by (subst d2; destruct (cd_name data); try done; by case_bool_decide).
  clearbody d2. destruct (has_text _) as [raw|] eqn:E; [|intros [= <-]; split; [by apply guarded_blank | done]].
  destruct (canonicalizePhone category_C raw) as [c|] eqn:Ec; [|done]. intros [= <-].
  split; [by apply (guarded_canonical raw) | done].
Qed.

Lemma new_user_indexed data : guarded (cd_phoneNumber data) (cd_phoneHash data) -> indexed (new_user data).
Proof.
  intros G ds Hd. unfold new_user. cbn. destruct (cd_phoneNumber data) as [| |t] eqn:E; [done|done|].
  intros [= Hu]. by apply (G t).
Qed.

Lemma updated_user_indexed data u :
  guarded (cd_phoneNumber data) (cd_phoneHash data) ->
  (cd_phoneNumber data = Absent -> cd_phoneHash data = None) -> indexed u -> indexed (updated_user data u).
Proof.
  intros G A Hu ds Hd. unfold updated_user. cbn. destruct (cd_phoneNumber data) as [| |t] eqn:E; [|done|].
  - rewrite A by done. apply Hu, Hd.
  - intros [= Ht]. by rewrite (G t ds eq_refl Hd Ht).
Qed.

Lemma phone_data_eq i f w : exists r, phone_data category_C hmac i f w = (r, w) /\
  forall c h, r = Ok (Some (c, h)) -> exists raw, canonicalizePhone category_C raw = Some c /\ h = hmac c.
Proof.
  unfold phone_data. destruct f as [| |raw]; [by eexists|by eexists|].
  unfold orThrow, ensure, mbind, M_bind, mret, M_ret, throw, read.
  destruct (canonicalizePhone category_C raw) as [c|] eqn:Ec; [|by eexists].
  destruct (canonical_number raw c Ec) as (ds & _ & _ & _ & Hp). rewrite Hp.
  destruct (match phone_owner _ _ with Some (o, _) => _ | None => _ end); [|by eexists].
  eexists. split; [reflexivity|]. intros c' h [= <- <-]. eauto.
Qed.

Lemma findOne_eq i w : findOne id_str i w =
  (match users (db w) !! i with
   | Some u => if bool_decide (u_deletedAt u = None) then Ok u
               else Err (FNotFound ("User with ID " +:+ id_str i +:+ " not found"))
   | None => Err (FNotFound ("User with ID " +:+ id_str i +:+ " not found"))
   end, w).
Proof.
  unfold findOne, mbind, M_bind, read, mret, M_ret, throw. destruct (users (db w) !! i) as [u|]; [|done].
  by destruct (bool_decide _).
Qed.

(** *** The operations on accounts

    A sign-up checks a database [d0] that may be older than the one its row
    reaches; the columns a client cannot set are empty in its payload. *)
Inductive account_step : DB -> DB -> Prop :=
| step_sign_up d0 data data' i w r w' :
    guardUserCreate d0 data = inr data' -> storeUser i (new_user data') w = (r, w') ->
    users (db w) !! i = None -> account_step (db w) (db w')
| step_update_user i data data' w r w' :
    cd_phoneHash data = None -> guardUserUpdate data = inr data' ->
    updateUser i (updated_user data') w = (r, w') -> account_step (db w) (db w')
| step_profile i dto w r w' : updateProfile i dto w = (r, w') -> account_step (db w) (db w')
| step_admin i dto w r w' : update id_str i dto w = (r, w') -> account_step (db w) (db w')
| step_remove i now w r w' : remove id_str i now w = (r, w') -> account_step (db w) (db w').

Lemma guardUserCreate_guarded d data data' :
  guardUserCreate d data = inr data' -> guarded (cd_phoneNumber data') (cd_phoneHash data').
Proof.
  unfold Users.guardUserCreate. destruct (guard_name data); [done|]. apply guard_phone_guarded.
Qed.

Lemma indexed_same u v : u_phoneNumber v = u_phoneNumber u -> u_phoneHash v = u_phoneHash u -> indexed u -> indexed v.
Proof. unfold indexed. intros -> ->. done. Qed.

Lemma updateProfile_identity i dto w r w' :
  identity_ok (db w) -> updateProfile i dto w = (r, w') -> identity_ok (db w').
Proof.
  intros H. unfold Users.updateProfile, mbind at 1, M_bind at 1. rewrite findOne_eq.
  destruct (match users (db w) !! i with Some _ => _ | None => _ end); [|by intros [= _ <-]].
  unfold mbind, M_bind. destruct (phone_data_eq i (up_phoneNumber dto) w) as (r0 & -> & Hr).
  destruct r0 as [[[c h]|]|e]; [| |by intros [= _ <-]]; apply updateUser_identity; try done.
  intros u _ ds Hd [= Hn]. destruct (Hr c h eq_refl) as (raw & _ & ->). simpl. by rewrite Hn.
Qed.

Lemma account_step_identity d d' : account_step d d' -> identity_ok d -> identity_ok d'.
Proof.
  intros [d0 data data' i w r w' Hg Hs _|i data data' w r w' Hn Hg Hs|i dto w r w' Hs|i dto w r w' Hs|i now w r w' Hs] H.
  - eapply storeUser_identity; [done| |done]. by eapply new_user_indexed, guardUserCreate_guarded.
  - destruct (guardUserUpdate_guarded _ _ Hn Hg) as [G A].
    eapply updateUser_identity; [done| |done]. intros u. by apply updated_user_indexed.
  - by eapply updateProfile_identity.
  - revert Hs. unfold update, mbind, M_bind. rewrite findOne_eq.
    destruct (match users (db w) !! i with Some _ => _ | None => _ end); [|by intros [= _ <-]].
    apply updateUser_identity; [done|]. intros u. by apply indexed_same.
  - revert Hs. unfold remove, mbind at 1, M_bind at 1. rewrite findOne_eq.
    destruct (match users (db w) !! i with Some _ => _ | None => _ end); [|by intros [= _ <-]].
    unfold transaction, mbind, M_bind. destruct (updateUser _ _ w) as [[v|e] w1] eqn:E; [|by intros [= _ <-]].
    intros [= _ <-]. apply updateUser_identity in E as [A B C]; [|done|intros u; by apply indexed_same].
    by split.
Qed.

(** C12: one account per number: through any sequence of sign-ups (whose check may
    have read an older database), Better Auth updates, profile edits, admin
    edits and removals, two accounts never hold one canonical number, one hash
    or one email, and a canonical number's hash is the index it is looked up
    by, so a sign-up with any spelling of it is refused. *)
Theorem one_account_per_number d d' :
  identity_ok d -> rtc account_step d d' ->
  identity_ok d' /\
  (forall i j u v ds, users d' !! i = Some u -> users d' !! j = Some v -> ten_digits ds = true ->
     u_phoneNumber u = Some (number ds) -> u_phoneNumber v = Some (number ds) -> i = j) /\
  (forall i u ds raw data, users d' !! i = Some u -> ten_digits ds = true ->
     u_phoneNumber u = Some (number ds) -> has_text (cd_phoneNumber data) = Some raw ->
     canonicalizePhone category_C raw = Some (number ds) ->
     guard_phone category_C hmac d' data = inl (reject PHONE_ALREADY_REGISTERED)).
Proof.
  intros H Hs. assert (identity_ok d') as H' by (induction Hs; eauto using account_step_identity).
  split; [done|]. destruct H' as [A B C]. split.
  - intros i j u v ds Hi Hj Hd Hu Hv. eapply B; eauto; eapply A; eauto.
  - intros i u ds raw data Hi Hd Hu Hr Hc. unfold guard_phone. rewrite Hr, Hc.
    destruct (canonical_number raw _ Hc) as (ds' & _ & _ & _ & ->).
    assert (is_Some (phone_owner (hmac (number ds)) d')) as [o ->]; [|done].
    unfold phone_owner. destruct (find_row _ _) eqn:E; [eauto|].
    pose proof (find_row_none _ _ _ _ E Hi) as X. unfold holds_hash in X.
    apply bool_decide_eq_false in X. destruct X. eapply A; eauto.
Qed.

(** A number blanked through Better Auth's own update route leaves the hash
    of the old number behind: the account goes on reserving a number it no
    longer shows. *)
Theorem blanked_number_reserved data u t :
  cd_phoneHash data = None -> cd_phoneNumber data = Text t -> trim t = [] ->
  exists data', guardUserUpdate data = inr data' /\
    u_phoneNumber (updated_user data' u) = Some (utf8 t) /\
    u_phoneHash (updated_user data' u) = u_phoneHash u.
Proof.
  intros Hn Hp Ht. unfold guardUserUpdate.
  set (d2 := match cd_name data with Text raw => _ | _ => _ end).
  assert (cd_phoneHash d2 = None /\ cd_phoneNumber d2 = Text t) as [H1 H2]
    by (subst d2; destruct (cd_name data); try done; by case_bool_decide).
  clearbody d2. rewrite H2. simpl. rewrite bool_decide_eq_true_2 by done. exists d2. split; [done|].
  unfold updated_user. simpl. by rewrite H1, H2.
Qed.
End Identity.

(** ** Who may change what *)

Section Access.
Context (category_C : Z -> bool).
Context (hmac : string -> string).
Context (id_str : id -> string).

(** The two guards, in order, on every branch: a public route is open (and
    then no role can be satisfied), any other needs a session, and a route with
    roles needs one of them; the handler sees exactly the session's user. *)
Theorem guard_outcomes isPublic requiredRoles session :
  authorize isPublic requiredRoles session =
    match isPublic, session, requiredRoles with
    | true, _, None => Ok None
    | true, _, Some _ => Err (FForbidden "You do not have access to this resource")
    | false, None, _ => Err (FUnauthorized "Unauthorized")
    | false, Some s, roles =>
        if match roles with None => true | Some l => bool_decide (default PARENT (su_role s) ∈ l) end
        then Ok (Some (mkAuthUser (su_id s) (default PARENT (su_role s)) (su_schoolId s)))
        else Err (FForbidden "You do not have access to this resource")
    end.
Proof.
  unfold authorize, canActivate, rolesGuard. destruct isPublic, session as [s|], requiredRoles as [l|]; try done.
  simpl. by destruct (bool_decide _).
Qed.

Lemma storeUser_frame i u w r w' : storeUser i u w = (r, w') ->
  w' = w \/ w' = mkWorld (set_users (<[i := u]> (users (db w))) (db w)) (out w).
Proof.
  rewrite storeUser_eq. destruct (email_clash i u (db w)); [intros [= _ <-]; by left|].
  destruct (hash_clash i u (db w)); intros [= _ <-]; [by left | by right].
Qed.

Lemma phone_data_pure i f w : (phone_data category_C hmac i f w).2 = w.
Proof.
  unfold phone_data, orThrow, ensure, mbind, M_bind, mret, M_ret, throw, read. destruct f as [| |raw]; [done|done|].
  destruct (canonicalizePhone category_C raw) as [c|]; [|done].
  destruct (phoneBlindIndex category_C hmac (text_of c)) as [h|]; [|done].
  by destruct (match phone_owner h _ with Some (o, _) => _ | None => _ end).
Qed.

Lemma updateProfile_frame i dto w r w' : updateProfile category_C hmac id_str i dto w = (r, w') ->
  w' = w \/ exists u v, users (db w) !! i = Some u /\
    u_role v = u_role u /\ u_email v = u_email u /\ u_deletedAt v = u_deletedAt u /\
    w' = mkWorld (set_users (<[i := v]> (users (db w))) (db w)) (out w).
Proof.
  unfold updateProfile, mbind at 1, M_bind at 1. rewrite findOne_eq.
  destruct (match users (db w) !! i with Some _ => _ | None => _ end); [|intros [= _ <-]; by left].
  unfold mbind, M_bind. pose proof (phone_data_pure i (up_phoneNumber dto) w) as P.
  destruct (phone_data _ _ _ _ w) as [[pd|e] w1]; simpl in P; subst w1; [|intros [= _ <-]; by left].
  unfold updateUser, mbind, M_bind, read, orThrow, mret, M_ret, throw.
  destruct (users (db w) !! i) as [u|] eqn:Eu; [|intros [= _ <-]; by left].
  intros [->| ->]%storeUser_frame; [by left|]. right. eexists u, _.
  split; [reflexivity|]. split; [|split; [|split; [|reflexivity]]]; by destruct pd as [[c h]|].
Qed.

(** No request without the admin role changes anything but the name and the
    number of the account that makes it: no role (its own included), no email,
    no other row and no other table, on any route of the controller. *)
Theorem self_service_scope r s now w res w' :
  su_role s <> Some SUPER_ADMIN ->
  serve category_C hmac id_str r (Some s) now w = (res, w') ->
  w' = w \/ exists dto u v, r = UpdateMe dto /\ users (db w) !! su_id s = Some u /\
    u_role v = u_role u /\ u_email v = u_email u /\ u_deletedAt v = u_deletedAt u /\
    w' = mkWorld (set_users (<[su_id s := v]> (users (db w))) (db w)) (out w).
Proof.
  intros Hr. unfold serve, mbind at 1, M_bind at 1, lift. rewrite guard_outcomes.
  assert (default PARENT (su_role s) ∉ [SUPER_ADMIN]) as Hna
    by (rewrite list_elem_of_singleton; destruct (su_role s) as [[]|]; done).
  destruct r as [|dto| |i|i dto|i]; cbn [route_roles];
    try (rewrite bool_decide_eq_false_2 by done; intros [= _ <-]; by left);
    unfold mbind, M_bind, orThrow, mret, M_ret; cbn [route_handler au_userId];
    unfold mbind, M_bind, mret, M_ret.
  - rewrite findOne_eq. destruct (match users _ !! _ with Some _ => _ | None => _ end); intros [= _ <-]; by left.
  - destruct (updateProfile _ _ _ _ _ w) as [rp w1] eqn:E. intros H.
    assert (w' = w1) as -> by (by destruct rp; injection H as _ <-).
    apply updateProfile_frame in E as [->|(u & v & H1 & H2 & H3 & H4 & H5)]; [by left|].
    right. exists dto, u, v. done.
Qed.

(** Removing an account hides it, ends its sessions and frees its email, but
    keeps its number (every spelling of it is refused to a new account) and its
    links to Google; and the guards let through any session the account still
    obtains, since they do not look at [deletedAt]. *)
Theorem removed_account_keeps i now w u r w' :
  users (db w) !! i = Some u -> remove id_str i now w = (Ok r, w') ->
  users (db w') !! i = Some (set_u_deletedAt (Some now) (set_u_email (deleted_email (id_str i)) u)) /\
  (findOne id_str i w').1 = Err (FNotFound ("User with ID " +:+ id_str i +:+ " not found")) /\
  (forall k se, sessions (db w') !! k = Some se -> se_userId se <> i) /\
  oauthAccounts (db w') = oauthAccounts (db w) /\
  (forall h, u_phoneHash u = Some h -> is_Some (phone_owner h (db w'))) /\
  (forall v, users (db w') !! i = Some v ->
     authorize false None (Some (customSession i v (db w'))) =
       Ok (Some (mkAuthUser i (u_role u) (su_schoolId (customSession i v (db w')))))).
Proof.
  intros Hu. unfold remove, mbind at 1, M_bind at 1. rewrite findOne_eq, Hu.
  destruct (bool_decide _); [|done]. unfold transaction, mbind, M_bind.
  unfold updateUser, mbind, M_bind, read, orThrow, mret, M_ret, throw. rewrite Hu.
  destruct (storeUser _ _ w) as [[x|e] w1] eqn:E; [|done].
  intros [= <- <-]. rewrite storeUser_eq in E.
  destruct (email_clash _ _ _); [done|]. destruct (hash_clash _ _ _); [done|]. injection E as <- <-.
  cbn -[insert lookup filter]. rewrite lookup_insert_eq. repeat split.
  - by rewrite findOne_eq; cbn -[insert lookup filter]; rewrite lookup_insert_eq.
  - by intros k se [_ Hne]%map_lookup_filter_Some.
  - intros h Hh. unfold phone_owner. destruct (find_row _ _) as [o|] eqn:Ef; [eauto|].
    eapply find_row_none in Ef; [|cbn -[insert lookup]; apply lookup_insert_eq].
    unfold holds_hash in Ef. apply bool_decide_eq_false in Ef. by destruct Ef.
  - by intros v [= <-].
Qed.

(** A profile edit stores a name no sign-up would: nothing sanitizes it. *)
Theorem profile_name_unsanitized i t w u :
  users (db w) !! i = Some u -> u_deletedAt u = None -> identity_ok hmac (db w) ->
  exists v w', updateProfile category_C hmac id_str i (mkUpdateProfileDto (Text t) Absent) w = (Ok v, w') /\
    u_fullName v = Some (utf8 t) /\ u_name v = Some (utf8 t).
Proof.
  intros Hu Hd [_ B C]. unfold updateProfile, mbind at 1, M_bind at 1.
  rewrite findOne_eq, Hu, bool_decide_eq_true_2 by done.
  unfold mbind, M_bind. cbn [up_phoneNumber phone_data]. unfold mret, M_ret.
  unfold updateUser, mbind, M_bind, read, orThrow, mret, M_ret, throw. rewrite Hu, storeUser_eq.
  assert (forall f k v, find_row f (delete i (users (db w))) = Some (k, v) ->
    k <> i /\ users (db w) !! k = Some v /\ f v = true) as F.
  { intros f k v [H1 H2]%find_row_some. apply lookup_delete_Some in H1 as [? ?]. auto. }
  match goal with |- context [email_clash i ?x _] => set (v := x) end.
  assert (email_clash i v (db w) = false) as ->.
  { unfold email_clash, taken. apply bool_decide_eq_false. intros [[k x] Ex].
    destruct (F _ _ _ Ex) as (Hne & Hk & E%String.eqb_eq). apply Hne. by eapply C. }
  assert (hash_clash i v (db w) = false) as ->.
  { unfold hash_clash, taken. subst v. cbn. destruct (u_phoneHash u) as [h|] eqn:Eh; [|done].
    apply bool_decide_eq_false. intros [[k x] Ex]. destruct (F _ _ _ Ex) as (Hne & Hk & E%bool_decide_eq_true).
    apply Hne. by eapply B. }
  by exists v; eexists.
Qed.
End Access.

(** ** The directory *)

Definition per_key {A} (key : A -> id) (l : list A) (k : id) : Z := Z.of_nat (length (filter (fun x => key x = k) l)).

(** The counts of distinct keys that cover a list add up to its length. *)
Lemma sum_per_key {A} (key : A -> id) (l : list A) (ks : list id) :
  NoDup ks -> (forall x, x ∈ l -> key x ∈ ks) -> sumZ (per_key key l <$> ks) = Z.of_nat (length l).
Proof.
  intros Hk. induction l as [|x l IH]; intros Hc.
  - clear. induction ks as [|k ks IH]; [done|]. rewrite fmap_cons, sumZ_cons, IH. done.
  - assert (forall k, per_key key (x :: l) k = (if decide (key x = k) then 1 else 0) + per_key key l k) as S.
    { intros k. unfold per_key. rewrite filter_cons. case_decide; simpl length; lia. }
    assert (sumZ (per_key key (x :: l) <$> ks) =
      sumZ ((fun k => if decide (key x = k) then 1 else 0) <$> ks) + sumZ (per_key key l <$> ks)) as ->.
    { clear -S. induction ks as [|k ks IH]; [done|]. rewrite !fmap_cons, !sumZ_cons, IH, S. lia. }
    rewrite IH by (intros y Hy; apply Hc; by right). simpl length.
    assert (sumZ ((fun k => if decide (key x = k) then 1 else 0) <$> ks) = 1) as ->; [|lia].
    assert (key x ∈ ks) as Hx by (apply Hc; left). clear -Hk Hx. revert Hx.
    induction Hk as [|k ks Hn Hk IH]; intros Hx; [by apply elem_of_nil in Hx|].
    rewrite fmap_cons, sumZ_cons. case_decide as E.
    + subst k. assert (sumZ ((fun k => if decide (key x = k) then 1 else 0) <$> ks) = 0) as ->; [|done].
      clear -Hn. induction ks as [|k ks IH]; [done|]. apply not_elem_of_cons in Hn as [Hn1 Hn].
      rewrite fmap_cons, sumZ_cons, IH by done. by rewrite decide_False by congruence.
    + apply elem_of_cons in Hx as [Hx|Hx]; [congruence|]. by rewrite IH.
Qed.

(** What the fold over the grouped counts leaves for a parent. *)
Lemma by_parent_sum parentOf counts p :
  default 0 (by_parent parentOf counts !! p) =
  sumZ (snd <$> filter (fun row : id * Z => parentOf row.1 = Some p) counts).
Proof.
  unfold by_parent.
  assert (forall m : gmap id Z, default 0 (foldl (fun (m : gmap id Z) (row : id * Z) => match parentOf row.1 with
      | Some p => <[p := default 0 (m !! p) + row.2]> m | None => m end) m counts !! p) =
    default 0 (m !! p) + sumZ (snd <$> filter (fun row : id * Z => parentOf row.1 = Some p) counts)) as H.
  { induction counts as [|[c n] counts IH]; intros m; [cbn; lia|]. cbn [foldl]. rewrite IH, filter_cons. cbn [fst snd].
    destruct (parentOf c) as [q|] eqn:E; [|by rewrite decide_False by done].
    destruct (decide (q = p)) as [->|Hne].
    - rewrite decide_True by done. rewrite lookup_insert_eq. cbn [default]. rewrite fmap_cons, sumZ_cons. unfold default, Datatypes.id. simpl. lia.
    - rewrite decide_False by congruence. by rewrite lookup_insert_ne. }
  rewrite H, lookup_empty. cbn. lia.
Qed.

Lemma directory_users (f : id * User -> Z) (l : list (id * User)) :
  (fun r => (dr_id r, dr_user r)) <$> ((fun kv => mkDirectoryRow kv.1 kv.2 (f kv)) <$> l) = l.
Proof. induction l as [|[i u] l IH]; [done|]. rewrite !fmap_cons, IH. done. Qed.

Definition parent_rows (p : id) (d : DB) : list ChildEnrollment :=
  filter (fun e => child_parent d e = Some p) (snd <$> map_to_list (enrollments d)).

(** The admin directory lists exactly the accounts that are not removed, and
    the count beside each is the number of plans of the children of its parent
    row, none of them lost or counted twice by the grouping by child. *)
Theorem directory_counts newest d :
  (forall l, newest l ≡ₚ l) ->
  ((fun r => (dr_id r, dr_user r)) <$> findAll newest d) ≡ₚ
    filter (fun kv : id * User => u_deletedAt kv.2 = None) (map_to_list (users d)) /\
  Forall (fun r => dr_enrollmentCount r =
    match parent_of (dr_id r) d with
    | Some (p, _) => Z.of_nat (length (parent_rows p d))
    | None => 0
    end) (findAll newest d).
Proof.
  intros Hn. unfold findAll. set (listed := newest _). split.
  - transitivity listed; [|apply Hn].
    by rewrite directory_users.
  - set (parentIds := omap _ listed). apply Forall_fmap, Forall_forall. intros [i u] Hin%list_elem_of_In. cbn.
    destruct (parent_of i d) as [[p pr]|] eqn:Ep; [|done]. cbn. rewrite by_parent_sum.
    assert (p ∈ parentIds) as Hp by (apply list_elem_of_omap; exists (i, u); cbn; by rewrite Ep).
    unfold group_by_child. set (l := enrollments_of parentIds d).
    assert (parent_rows p d = filter (fun e => child_parent d e = Some p) l) as ->.
    { unfold parent_rows, l, enrollments_of. rewrite list_filter_filter. apply list_filter_iff. intros e.
      split; [|tauto]. intros E. rewrite E. split; [done|]. by apply bool_decide_eq_true. }
    set (ks := filter (fun c => c_parentId <$> children d !! c = Some p) (remove_dups (e_childId <$> l))).
    transitivity (sumZ (per_key e_childId (filter (fun e => child_parent d e = Some p) l) <$> ks)).
    + f_equal. unfold ks. clear. induction (remove_dups (e_childId <$> l)) as [|c cs IH]; [done|].
      csimpl. rewrite !filter_cons. csimpl. case_decide as E; csimpl; [|exact IH]. f_equal; [|exact IH].
      unfold per_key. f_equal. f_equal. rewrite list_filter_filter. apply list_filter_iff. intros e.
      unfold child_parent. split; [intros ->; done|tauto].
    + apply sum_per_key.
      * apply list.NoDup_filter, NoDup_remove_dups.
      * intros e [He Hl]%list_elem_of_filter. apply list_elem_of_filter. split; [exact He|].
        apply elem_of_remove_dups, list_elem_of_fmap. eauto.
Qed.

(** ** Witnesses *)

Definition sample_hmac (s : string) : string := "h" +:+ s.
Lemma sample_visible c : is_digit c = true -> sample_category_C c = false.
Proof.
  intros H%digit_cases. unfold sample_category_C. by rewrite (proj2 (Z.ltb_ge c 32)), (proj2 (Z.leb_gt 127 c)) by lia.
Qed.

Lemma sample_identity : identity_ok sample_hmac sample_db.
Proof.
  assert (map_to_list (users sample_db) =
    [(11%positive, mkUser "parent@x.ng" PARENT None (Some "08031111111"%string) None None None);
     (10%positive, mkUser "owner@x.ng" SCHOOL_OWNER None None None None None);
     (12%positive, mkUser "admin@x.ng" SUPER_ADMIN None None None None None)]) as E
    by (vm_compute; reflexivity).
  assert (forall i u, users sample_db !! i = Some u ->
    (i = 10%positive /\ u = mkUser "owner@x.ng" SCHOOL_OWNER None None None None None) \/
    (i = 12%positive /\ u = mkUser "admin@x.ng" SUPER_ADMIN None None None None None) \/
    (i = 11%positive /\ u = mkUser "parent@x.ng" PARENT None (Some "08031111111"%string) None None None)) as H.
  { intros i u Hu%elem_of_map_to_list. rewrite E in Hu. rewrite !elem_of_cons, elem_of_nil in Hu. naive_solver. }
  split.
  - intros i u [[-> ->]|[[-> ->]|[-> ->]]]%H; intros ds _ Hn; discriminate Hn.
  - intros i j u v h [[-> ->]|[[-> ->]|[-> ->]]]%H _ Hu; discriminate Hu.
  - intros i j u v [[-> ->]|[[-> ->]|[-> ->]]]%H [[-> ->]|[[-> ->]|[-> ->]]]%H; done.
Qed.

(** A sign-up with a name and a number typed with spaces. *)
Definition sample_sign_up : UserCreateData :=
  mkUserData (Text (text_of " Ada  Obi ")) Absent "ada@x.ng" (Text (text_of "0801 234-5678")) None.
Definition sample_guarded : UserCreateData :=
  mkUserData (Text (text_of "Ada Obi")) (Text (text_of "Ada Obi")) "ada@x.ng"
    (Text (text_of "+2348012345678")) (Some "h+2348012345678"%string).
Example sign_up_guarded :
  guardUserCreate sample_category_C sample_hmac sample_db sample_sign_up = inr sample_guarded.
Proof. vm_compute. reflexivity. Qed.

Definition sample_signed_up : World := (storeUser 30%positive (new_user sample_guarded) sample).2.
Lemma one_account_per_number_witness :
  guard_phone sample_category_C sample_hmac (db sample_signed_up)
    (mkUserData Absent Absent "eve@x.ng" (Text (text_of "2348012345678")) None)
    = inl (reject PHONE_ALREADY_REGISTERED).
Proof.
  destruct (one_account_per_number sample_category_C sample_hmac sample_visible eq_refl (fun _ => "u"%string)
    sample_db (db sample_signed_up) sample_identity) as (_ & _ & H).
  - apply rtc_once. eapply (step_sign_up _ _ _ sample_db sample_sign_up sample_guarded 30%positive sample).
    + exact sign_up_guarded.
    + apply surjective_pairing.
    + reflexivity.
  - apply (H 30%positive (new_user sample_guarded) (text_of "8012345678") (text_of "2348012345678"));
      vm_compute; reflexivity.
Defined.

Lemma blanked_number_reserved_witness :
  exists data', guardUserUpdate sample_category_C sample_hmac
      (mkUserData Absent Absent "ada@x.ng" (Text [32]) None) = inr data' /\
    u_phoneNumber (updated_user data' (new_user sample_guarded)) = Some " "%string /\
    u_phoneHash (updated_user data' (new_user sample_guarded)) = Some "h+2348012345678"%string.
Proof.
  apply (blanked_number_reserved sample_category_C sample_hmac
    (mkUserData Absent Absent "ada@x.ng" (Text [32]) None) (new_user sample_guarded) [32]);
    [reflexivity|reflexivity|vm_compute; reflexivity].
Defined.

Lemma self_service_scope_witness :
  exists w', serve sample_category_C sample_hmac (fun _ => "u"%string) (UpdateMe (mkUpdateProfileDto (Text [65; 66]) Absent))
      (Some (mkSessionUser 11 (Some PARENT) None)) 0 sample = (Ok tt, w') /\
    exists dto u v, UpdateMe (mkUpdateProfileDto (Text [65; 66]) Absent) = UpdateMe dto /\
      users (db sample) !! 11%positive = Some u /\ u_role v = u_role u /\ u_email v = u_email u /\
      u_deletedAt v = u_deletedAt u /\
      w' = mkWorld (set_users (<[11%positive := v]> (users (db sample))) (db sample)) (out sample).
Proof.
  eexists. split; [vm_compute; reflexivity|].
  destruct (self_service_scope sample_category_C sample_hmac (fun _ => "u"%string)
    (UpdateMe (mkUpdateProfileDto (Text [65; 66]) Absent)) (mkSessionUser 11 (Some PARENT) None) 0 sample (Ok tt) _
    ltac:(discriminate) ltac:(vm_compute; reflexivity)) as [E|H]; [|exact H].
  apply (f_equal (fun w => users (db w) !! 11%positive)) in E. vm_compute in E. discriminate.
Defined.

Lemma removed_account_keeps_witness :
  exists r w', remove (fun _ => "u30"%string) 30 5000 sample_signed_up = (Ok r, w') /\
    is_Some (phone_owner "h+2348012345678" (db w')).
Proof.
  eexists _, _. split; [vm_compute; reflexivity|].
  edestruct (removed_account_keeps (fun _ => "u30"%string) 30 5000 sample_signed_up (new_user sample_guarded))
    as (_ & _ & _ & _ & H & _); [vm_compute; reflexivity|vm_compute; reflexivity|].
  apply H. reflexivity.
Defined.

Lemma profile_name_unsanitized_witness :
  exists v w', updateProfile sample_category_C sample_hmac (fun _ => "u"%string) 11
      (mkUpdateProfileDto (Text [10; 7]) Absent) sample = (Ok v, w') /\
    u_fullName v = Some (utf8 [10; 7]) /\ u_name v = Some (utf8 [10; 7]).
Proof.
  eapply (profile_name_unsanitized sample_category_C sample_hmac (fun _ => "u"%string) 11 [10; 7] sample);
    [reflexivity|reflexivity|exact sample_identity].
Defined.

Lemma directory_counts_witness :
  (dr_enrollmentCount <$> findAll (fun l => l) sample_db) = [2; 0; 0] /\
  Forall (fun r => dr_enrollmentCount r =
    match parent_of (dr_id r) sample_db with
    | Some (p, _) => Z.of_nat (length (parent_rows p sample_db))
    | None => 0
    end) (findAll (fun l => l) sample_db).
Proof. split; [vm_compute; reflexivity|]. apply (directory_counts (fun l => l) sample_db). intros l. reflexivity. Defined.
