(* ===== verification/Links.v ===== *)
(** * Links, origins and the Google hand-off

    [src/enrollment-invites/claim-url.ts], [src/common/web-app-origin.ts],
    [src/common/cors-origins.ts], [src/common/security-posture.ts],
    [src/auth/trusted-origins.ts], [src/auth/oauth-handoff.ts] and its controller.
    The URL parser of the platform is a parameter: the protocol and the origin of
    a URL, or none where [new URL] throws.  Better Auth's answers are arguments
    of the handlers that call it. *)

From Stdlib Require Import Ascii.
From S2P Require Import Prelude Schema Effects JsText InvitePolicy.

(** ** [URLSearchParams] *)

Definition form_unreserved (b : Z) : bool := is_digit b || is_letter b || has_char b [42; 45; 46; 95].
Definition hexZ (n : Z) : Z := if n <? 10 then 48 + n else 55 + n.
Definition unhex (c : Z) : option Z :=
  if is_digit c then Some (c - 48)
  else if (65 <=? c) && (c <=? 70) then Some (c - 55)
  else if (97 <=? c) && (c <=? 102) then Some (c - 87) else None.
Definition form_byte (b : Z) : text :=
  if form_unreserved b then [b] else if b =? 32 then [43] else [37; hexZ (b / 16); hexZ (b mod 16)].
Definition formEncode (t : text) : text := utf8_bytes t ≫= form_byte.
(** The bytes of a decoded component. *)
Fixpoint formDecode (t : text) : list Z :=
  match t with
  | [] => []
  | c :: t1 =>
      if c =? 37 then
        match t1 with
        | h :: l :: t2 =>
            match unhex h, unhex l with
            | Some a, Some b => a * 16 + b :: formDecode t2
            | _, _ => 37 :: formDecode t1
            end
        | _ => 37 :: formDecode t1
        end
      else (if c =? 43 then 32 else c) :: formDecode t1
  end.

(** What follows the first occurrence of a character. *)
Fixpoint after_char (sep : Z) (t : text) : option text :=
  match t with [] => None | c :: t' => if c =? sep then Some t' else after_char sep t' end.

(** [new URLSearchParams(pairs).toString()] *)
Fixpoint join_with (sep : Z) (l : list text) : text :=
  match l with [] => [] | [x] => x | x :: l' => x ++ sep :: join_with sep l' end.
Definition query_string (pairs : list (text * text)) : text :=
  join_with 38 ((fun kv : text * text => formEncode kv.1 ++ 61 :: formEncode kv.2) <$> pairs).
(** [new URLSearchParams(qs).get(name)] *)
Definition query_get (name qs : text) : option (list Z) :=
  let pairs := filter (fun part => part <> []) (split_on 38 qs) in
  let decoded := (fun part => (formDecode (before 61 part), formDecode (default [] (after_char 61 part)))) <$> pairs in
  snd <$> head (filter (fun kv : list Z * list Z => kv.1 = utf8_bytes name) decoded).

(** ** The claim link *)

(** With the token encoded; [InvitePolicy.buildClaimUrl] is this link for the
    tokens the program mints. *)
Definition buildClaimUrl (origin rawToken : text) : text :=
  origin ++ text_of "/#" ++ text_of CLAIM_ROUTE ++ text_of "?" ++ query_string [(text_of CLAIM_TOKEN_PARAM, rawToken)].
Definition parseClaimUrlToken (claimUrl : text) : option (list Z) :=
  fragment ← after_char 35 claimUrl;
  query ← after_char 63 fragment;
  query_get (text_of CLAIM_TOKEN_PARAM) query.

(** ** Origins *)

(** [trim] and truth of an optional setting. *)
Definition setting (raw : option text) : option text :=
  t ← raw; if bool_decide (trim t = []) then None else Some (trim t).
(** A comma-separated setting *)
Definition origin_list (raw : option text) : list text :=
  filter (fun o => o <> []) (trim <$> split_on 44 (default [] raw)).

(** First occurrences in order, as [new Set] keeps them. *)
Fixpoint distinct (seen l : list text) : list text :=
  match l with
  | [] => []
  | x :: l' => if bool_decide (x ∈ seen) then distinct seen l' else x :: distinct (x :: seen) l'
  end.

Definition NATIVE_ORIGINS : list text := [text_of "capacitor://localhost"; text_of "https://localhost"].
Definition LOCAL_DEV_ORIGINS : list text :=
  [text_of "http://localhost"; text_of "http://localhost:5173"; text_of "http://localhost:5174"].

Definition buildTrustedOrigins (corsOrigins betterAuthUrl : option text) (httpsDeployment : bool) : list text :=
  distinct [] (origin_list corsOrigins ++ NATIVE_ORIGINS
    ++ (if httpsDeployment then [] else LOCAL_DEV_ORIGINS)
    ++ match setting betterAuthUrl with Some o => [o] | None => [] end).

Record CorsAllowlist := mkCorsAllowlist { co_origin : list text + bool; co_credentials : bool }.
Definition resolveCorsAllowlist (corsOriginsRaw : option text) (nodeEnv : option string) : CorsAllowlist :=
  match origin_list corsOriginsRaw with
  | [] => mkCorsAllowlist (inr (String.eqb (default "development"%string nodeEnv) "development")) false
  | configured => mkCorsAllowlist (inl (distinct [] (configured ++ NATIVE_ORIGINS))) true
  end.

Section Urls.
(** [new URL(s)]: the protocol and the origin. *)
Context (parse_url : text -> option (text * text)).

Definition isHttpsUrl (raw : option text) : bool :=
  match raw with
  | None | Some [] => false
  | Some raw => bool_decide (fst <$> parse_url (trim raw) = Some (text_of "https:"))
  end.

Definition resolveWebAppOrigin (WEB_APP_URL CORS_ORIGINS : option text) : option text :=
  let explicit := trim <$> WEB_APP_URL in
  let firstCorsOrigin := trim ∘ before 44 <$> CORS_ORIGINS in
  let candidate := match explicit with None | Some [] => firstCorsOrigin | _ => explicit end in
  match candidate with
  | None | Some [] => None
  | Some candidate => snd <$> parse_url candidate
  end.
Definition requireWebAppOrigin (WEB_APP_URL CORS_ORIGINS : option text) : res text :=
  match resolveWebAppOrigin WEB_APP_URL CORS_ORIGINS with
  | None | Some [] =>
      Err (FInternal "WEB_APP_URL (or a usable CORS_ORIGINS entry) must be set to build an invite link")
  | Some origin => Ok origin
  end.

(** ** The hand-off's URLs *)

Definition MAX_NEXT_LENGTH : Z := 128.
(** The characters of [SAFE_NEXT_PATH]. *)
Definition safe_char (c : Z) : bool := is_letter c || is_digit c || has_char c [45; 46; 95; 126; 47].
Definition SAFE_NEXT_PATH (t : text) : bool :=
  match t with c :: t' => (c =? 47) && forallb safe_char t' | [] => false end.

Definition sanitizeNextPath (raw : option text) : option text :=
  raw ← raw;
  let trimmed := trim raw in
  if bool_decide (trimmed = []) || (MAX_NEXT_LENGTH <? js_length trimmed) then None
  else if startsWith [47; 47] trimmed then None
  else if text_includes [46; 46] trimmed then None
  else if SAFE_NEXT_PATH trimmed then Some trimmed else None.

Definition NULL_ORIGIN : text := text_of "null".
Definition origin_matches (candidate normalized trusted : text) : bool :=
  bool_decide (trusted = candidate)
  || match parse_url trusted with
     | Some (_, o) => bool_decide (o = normalized) && negb (bool_decide (normalized = NULL_ORIGIN))
     | None => false
     end.
Definition resolveReturnOrigin (requested : option text) (trustedOrigins : list text) (fallback : text) : text :=
  match requested with
  | None => fallback
  | Some requested =>
      let candidate := trim requested in
      if bool_decide (candidate = []) then fallback
      else match parse_url candidate with
           | None => fallback
           | Some (_, normalized) =>
               default fallback (head (filter (fun o => origin_matches candidate normalized o = true) trustedOrigins))
           end
  end.

Definition trimTrailingSlash (origin : text) : text :=
  match reverse origin with 47 :: r => reverse r | _ => origin end.

Definition next_pair (next : option text) : list (text * text) :=
  match next with Some n => if bool_decide (n = []) then [] else [(text_of "next", n)] | None => [] end.
Definition buildApiHandoffCallbackUrl (apiOrigin : text) (next returnOrigin : option text) : text :=
  let url := trimTrailingSlash apiOrigin ++ text_of "/api/v1/auth/google/finish" in
  let pairs := next_pair next ++
    match returnOrigin with
    | Some o => if bool_decide (o = []) then [] else [(text_of "return_to", o)] | None => [] end in
  match query_string pairs with [] => url | qs => url ++ text_of "?" ++ qs end.
Definition buildAppHandoffUrl (webOrigin token : text) (next : option text) : text :=
  trimTrailingSlash webOrigin ++ text_of "/#/auth/callback?" ++ query_string ((text_of "ott", token) :: next_pair next).
Definition buildAppErrorUrl (webOrigin code : text) : text :=
  trimTrailingSlash webOrigin ++ text_of "/#/auth?" ++ query_string [(text_of "error", code)].
Definition buildAppLinkErrorUrl (webOrigin code : text) : text :=
  trimTrailingSlash webOrigin ++ text_of "/#/profile?" ++ query_string [(text_of "error", code)].

(** ** The controller *)

Record HandoffEnv := mkHandoffEnv {
  ho_webAppUrl : option text; ho_corsOrigins : option text; ho_betterAuthUrl : option text }.

Definition trusted_origins (env : HandoffEnv) : list text :=
  buildTrustedOrigins (ho_corsOrigins env) (ho_betterAuthUrl env) (isHttpsUrl (ho_betterAuthUrl env)).
Definition returnOrigin (env : HandoffEnv) (requested : option text) : res text :=
  fallback ← requireWebAppOrigin (ho_webAppUrl env) (ho_corsOrigins env);
  mret (resolveReturnOrigin requested (trusted_origins env) fallback).

(** The cookies appended to a response, and the [Location] it redirects to. *)
Record Redirect := mkRedirect { rd_cookies : list text; rd_location : text }.

(** Better Auth's answer to [signInSocial] or [linkSocialAccount]: none when it
    throws, else the cookies and the URL to go to, if any. *)
Definition SocialAnswer : Type := option (list text * option text).

(** The arguments of the call, for the answer. *)
Definition start (env : HandoffEnv) (signInSocial : text -> text -> SocialAnswer) (next returnTo : option text)
    : res Redirect :=
  webOrigin ← returnOrigin env returnTo;
  let safeNext := sanitizeNextPath next in
  let failed := buildAppErrorUrl webOrigin (text_of "google_unavailable") in
  let callbackURL := buildApiHandoffCallbackUrl (default [] (ho_betterAuthUrl env)) safeNext (Some webOrigin) in
  let errorCallbackURL := webOrigin ++ text_of "/#/auth" in
  mret (match signInSocial callbackURL errorCallbackURL with
        | None => mkRedirect [] failed
        | Some (cookies, Some (c :: url)) => mkRedirect cookies (c :: url)
        | Some (cookies, _) => mkRedirect cookies failed
        end).

(** [verifyOneTimeToken] gives the session token behind a ticket, if any;
    [linkSocialAccount] is called with it. *)
Definition linkStart (env : HandoffEnv) (verifyOneTimeToken : text -> option text)
    (linkSocialAccount : text -> text -> SocialAnswer) (ticket returnTo : option text) : res Redirect :=
  webOrigin ← returnOrigin env returnTo;
  let failed := buildAppLinkErrorUrl webOrigin (text_of "unable_to_link_account") in
  mret (match ticket with
        | None | Some [] => mkRedirect [] failed
        | Some ticket =>
            match verifyOneTimeToken ticket with
            | None | Some [] => mkRedirect [] failed
            | Some sessionToken =>
                match linkSocialAccount sessionToken (webOrigin ++ text_of "/#/profile") with
                | None => mkRedirect [] failed
                | Some (cookies, Some (c :: url)) => mkRedirect cookies (c :: url)
                | Some (cookies, _) => mkRedirect cookies failed
                end
            end
        end).

Definition FRESH_LINK_WINDOW_MS : Z := 5 * 60 * 1000.

(** [account.find(a => a.providerId === providerId)] among a user's. *)
Definition link_of (userId : id) (providerId : string) (d : DB) : option (id * OAuthAccount) :=
  find_row (fun a => bool_decide (oa_userId a = userId) && String.eqb (oa_providerId a) providerId) (oauthAccounts d).
Definition older_session (userId : id) (before : Z) (s : Session) : bool :=
  bool_decide (se_userId s = userId) && (se_createdAt s <? before).

Definition announceFirstGoogleLink (userId : id) (now : Z) : M unit :=
  google ← read (link_of userId "google");
  password ← read (link_of userId "credential");
  match google, password with
  | Some (_, google), Some _ =>
      if now - oa_createdAt google <? FRESH_LINK_WINDOW_MS then
        write (fun d => set_sessions
          (filter (fun kv : id * Session => older_session userId (oa_createdAt google) kv.2 = false) (sessions d)) d);;
        notify (mkNotification userId "Google was connected to your account" NT_ALERT "/profile")
      else mret tt
  | _, _ => mret tt
  end.

(** [session] is the user of the request's session, if any, and [minted] the
    one-time token; none when Better Auth throws. *)
Definition finish (env : HandoffEnv) (session : option (option id)) (minted : option text) (now : Z)
    (next returnTo : option text) : M Redirect :=
  webOrigin ← lift (returnOrigin env returnTo);
  let safeNext := sanitizeNextPath next in
  match session, minted with
  | Some userId, Some (c :: token) =>
      match userId with Some userId => announceFirstGoogleLink userId now | None => mret tt end;;
      mret (mkRedirect [] (buildAppHandoffUrl webOrigin (c :: token) safeNext))
  | _, _ => mret (mkRedirect [] (buildAppErrorUrl webOrigin (text_of "session_not_found")))
  end.

(** ** The security posture *)

Record SecurityPosture := mkSecurityPosture {
  httpsDeployment : bool;
  apiDocsEnabled : bool;
  hsts : bool;
  contentSecurityPolicy : option string;
  crossSiteCookies : bool;
  clientIpHeader : option text;
  trustedPerClientIp : bool }.

Definition STRICT_API_CSP : string := "default-src 'none'; frame-ancestors 'none'; base-uri 'none'".

(** For values of ASCII letters. *)
Definition parseBooleanEnv (raw : option text) : bool :=
  match raw with
  | None => false
  | Some raw => bool_decide (ascii_lower (trim raw) ∈ text_of <$> ["1"; "true"; "yes"; "on"]%string)
  end.

Definition resolveSecurityPosture (BETTER_AUTH_URL API_DOCS_ENABLED CLIENT_IP_HEADER : option text) : SecurityPosture :=
  let https := isHttpsUrl BETTER_AUTH_URL in
  let docs := parseBooleanEnv API_DOCS_ENABLED in
  let header := ascii_lower <$> setting CLIENT_IP_HEADER in
  {| httpsDeployment := https;
     apiDocsEnabled := docs;
     hsts := https;
     contentSecurityPolicy := if docs then None else Some STRICT_API_CSP;
     crossSiteCookies := https;
     clientIpHeader := header;
     trustedPerClientIp := bool_decide (is_Some header) || negb https |}.
End Urls.

(** ** Budgets of the authentication routes *)

Record AuthRateLimitRule := mkRule { rl_window : Z; rl_max : Z }.
Definition AUTH_RATE_LIMIT_RULES : list (string * AuthRateLimitRule) :=
  [("/sign-in/email", mkRule 60 10); ("/sign-up/email", mkRule 60 5); ("/sign-in/social", mkRule 60 10);
   ("/link-social", mkRule 60 10); ("/get-session", mkRule 60 120)]%string.
Definition AUTH_RATE_LIMIT_DEFAULT : AuthRateLimitRule := mkRule 60 100.
Definition AUTH_FLOOD_LIMIT_PER_MINUTE : Z := 120.
Definition AUTH_RATE_LIMIT_SHARED_KEY_RULES : list (string * AuthRateLimitRule) :=
  (fun kv : string * AuthRateLimitRule => (kv.1, mkRule 60 AUTH_FLOOD_LIMIT_PER_MINUTE)) <$> AUTH_RATE_LIMIT_RULES.

Record AuthRateLimitOptions := mkRateLimit {
  ro_enabled : bool; ro_window : Z; ro_max : Z; ro_customRules : list (string * AuthRateLimitRule) }.
Definition buildAuthRateLimit (trustedPerClientIp : bool) : AuthRateLimitOptions :=
  mkRateLimit true (rl_window AUTH_RATE_LIMIT_DEFAULT)
    (if trustedPerClientIp then rl_max AUTH_RATE_LIMIT_DEFAULT else AUTH_FLOOD_LIMIT_PER_MINUTE)
    (if trustedPerClientIp then AUTH_RATE_LIMIT_RULES else AUTH_RATE_LIMIT_SHARED_KEY_RULES).
