(* ===== verification/LinkSpecs.v ===== *)
(** * Links, origins and the Google hand-off: properties

    A claim link carries its token after the [#] and gives it back; a hand-off
    returns to a trusted origin or the web client, with what a stranger supplies
    after the [#]; a first Google link ends the sessions that predate it. *)

From Stdlib Require Import Ascii.
From S2P Require Import Prelude Schema Effects Samples JsText InvitePolicy Links.

(** ** Form encoding *)

Lemma unhex_hexZ n : 0 <= n < 16 -> unhex (hexZ n) = Some n.
Proof.
  intros H. unfold hexZ, unhex, is_digit. destruct (Z.ltb_spec n 10).
  - rewrite (proj2 (Z.leb_le 48 (48 + n))), (proj2 (Z.leb_le (48 + n) 57)) by lia. cbn. f_equal. lia.
  - rewrite (proj2 (Z.leb_gt (55 + n) 57)) by lia. rewrite andb_false_r.
    rewrite (proj2 (Z.leb_le 65 (55 + n))), (proj2 (Z.leb_le (55 + n) 70)) by lia. cbn. f_equal. lia.
Qed.

Lemma hexZ_range n : 0 <= n < 16 -> 48 <= hexZ n <= 57 \/ 65 <= hexZ n <= 70.
Proof. unfold hexZ. destruct (Z.ltb_spec n 10); lia. Qed.

Lemma unreserved_char b : form_unreserved b = true -> b ∉ [35; 37; 38; 43; 61; 63].
Proof.
  unfold form_unreserved, is_digit, is_letter, has_char. cbn. intros H. to_prop.
  rewrite !elem_of_cons, elem_of_nil. lia.
Qed.

Lemma decode_byte b rest : 0 <= b < 256 -> formDecode (form_byte b ++ rest) = b :: formDecode rest.
Proof.
  intros H. unfold form_byte. destruct (form_unreserved b) eqn:E.
  - apply unreserved_char in E. rewrite !not_elem_of_cons in E. destruct E as (_ & E1 & _ & E2 & _). cbn.
    by rewrite (proj2 (Z.eqb_neq b 37)), (proj2 (Z.eqb_neq b 43)).
  - destruct (Z.eqb_spec b 32) as [->|Hne]; [done|]. cbn.
    rewrite !unhex_hexZ by (split; [apply Z.div_pos || apply Z.mod_pos_bound; lia
      | apply Z.div_lt_upper_bound || apply Z.mod_pos_bound; lia]).
    f_equal. pose proof (Z.div_mod b 16). lia.
Qed.

(** Every text of bytes is read back. *)
Lemma form_roundtrip t : Forall code_point t -> formDecode (formEncode t) = utf8_bytes t.
Proof.
  intros Ht. unfold formEncode. induction (utf8_bytes_range t Ht) as [|b l Hb _ IH]; [done|].
  rewrite bind_cons, decode_byte by done. by rewrite IH.
Qed.

Definition url_safe (c : Z) : Prop := c ∉ [35; 38; 61; 63].

Lemma form_byte_safe b : 0 <= b < 256 -> Forall url_safe (form_byte b).
Proof.
  intros H. unfold form_byte. assert (forall n, 0 <= n < 16 -> url_safe (hexZ n)) as S.
  { intros n Hn%hexZ_range. unfold url_safe. rewrite !not_elem_of_cons. repeat split; try lia. apply not_elem_of_nil. }
  assert (0 <= b / 16 < 16) by (split; [apply Z.div_pos; lia | apply Z.div_lt_upper_bound; lia]).
  pose proof (Z.mod_pos_bound b 16).
  destruct (form_unreserved b) eqn:E.
  - apply unreserved_char in E. constructor; [|done]. unfold url_safe. rewrite !not_elem_of_cons in *. naive_solver.
  - destruct (b =? 32); repeat constructor; try (apply S; lia); unfold url_safe; set_solver.
Qed.

Lemma formEncode_safe t : Forall code_point t -> Forall url_safe (formEncode t).
Proof.
  intros Ht. unfold formEncode. induction (utf8_bytes_range t Ht) as [|b l Hb _ IH]; [done|].
  rewrite bind_cons. apply Forall_app. split; [by apply form_byte_safe | done].
Qed.

(** ** Parts of a URL *)

Lemma after_char_app sep t u : sep ∉ t -> after_char sep (t ++ sep :: u) = Some u.
Proof.
  induction t as [|c t IH]; intros H; cbn; [by rewrite Z.eqb_refl|].
  apply not_elem_of_cons in H as [H1 H2]. rewrite (proj2 (Z.eqb_neq c sep)) by congruence. by apply IH.
Qed.
Lemma split_one sep t : sep ∉ t -> split_on sep t = [t].
Proof.
  induction t as [|c t IH]; intros H; [done|]. apply not_elem_of_cons in H as [H1 H2]. cbn. rewrite IH by done.
  by rewrite (proj2 (Z.eqb_neq c sep)) by congruence.
Qed.

Lemma safe_absent t c : Forall url_safe t -> c ∈ [35; 38; 61; 63] -> c ∉ t.
Proof. intros F Hc Ht. rewrite Forall_forall in F. apply (F c); [by apply list_elem_of_In | done]. Qed.

(** A query of one pair gives its value back. *)
Lemma query_get_one name value : formEncode name <> [] -> Forall code_point name -> Forall code_point value ->
  query_get name (query_string [(name, value)]) = Some (utf8_bytes value).
Proof.
  intros Hn Cn Cv. unfold query_get, query_string. cbn [fmap list_fmap join_with fst snd].
  pose proof (formEncode_safe name Cn) as Sn. pose proof (formEncode_safe value Cv) as Sv.
  rewrite split_one.
  - rewrite filter_cons_True by (by destruct (formEncode name)). cbn [fmap list_fmap].
    rewrite before_app, after_char_app by (apply safe_absent; [done|set_solver]). cbn [default].
    unfold Datatypes.id. rewrite !form_roundtrip by done. rewrite filter_cons_True by reflexivity. done.
  - rewrite elem_of_app, elem_of_cons. intros [H|[H|H]]; [|done|].
    + by apply (safe_absent _ 38 Sn); [set_solver|].
    + by apply (safe_absent _ 38 Sv); [set_solver|].
Qed.

(** The alphabet of the tokens needs no encoding. *)
Lemma minted_encoding tok : forallb base64url (String.list_ascii_of_string tok) = true ->
  formEncode (text_of tok) = text_of tok.
Proof.
  intros H. unfold formEncode. rewrite utf8_bytes_ascii.
  - unfold text_of. induction (String.list_ascii_of_string tok) as [|c l IH]; [done|]. cbn [forallb] in H.
    apply andb_true_iff in H as [Hc H]. rewrite fmap_cons, bind_cons, IH by done.
    assert (form_byte (Z.of_nat (nat_of_ascii c)) = [Z.of_nat (nat_of_ascii c)]) as E; [|unfold compose; by rewrite E].
    clear IH H. unfold form_byte. assert (form_unreserved (Z.of_nat (nat_of_ascii c)) = true) as ->; [|done].
    destruct c as [[] [] [] [] [] [] [] []]; vm_compute in Hc |- *; done.
  - unfold text_of. induction (String.list_ascii_of_string tok) as [|c l IH]; [done|]. cbn [forallb] in H.
    apply andb_true_iff in H as [Hc H]. rewrite fmap_cons. constructor; [|by apply IH].
    clear IH H. destruct c as [[] [] [] [] [] [] [] []]; vm_compute in Hc; try done; cbn; lia.
Qed.

(** A claim link gives back the token it was built from, byte for byte, and
    what a browser sends of it (everything before the [#]) is the origin's root
    whatever the token; a token in the query string proper is not read; and for a
    minted token the link is the one the invite service builds. *)
Theorem claim_link_roundtrip origin rawToken :
  35 ∉ origin -> Forall code_point rawToken ->
  parseClaimUrlToken (Links.buildClaimUrl origin rawToken) = Some (utf8_bytes rawToken) /\
  before 35 (Links.buildClaimUrl origin rawToken) = origin ++ [47] /\
  parseClaimUrlToken (origin ++ text_of CLAIM_ROUTE ++ text_of "?" ++ query_string [(text_of CLAIM_TOKEN_PARAM, rawToken)]) = None /\
  (forall o tok, forallb base64url (String.list_ascii_of_string tok) = true ->
     text_of (InvitePolicy.buildClaimUrl o tok) = Links.buildClaimUrl (text_of o) (text_of tok)).
Proof.
  intros Ho Hc. assert (Forall code_point (text_of CLAIM_TOKEN_PARAM)) as Hp by (repeat constructor; done).
  set (q := query_string [(text_of CLAIM_TOKEN_PARAM, rawToken)]).
  assert (Links.buildClaimUrl origin rawToken = (origin ++ [47]) ++ 35 :: (text_of CLAIM_ROUTE ++ 63 :: q)) as E
    by (unfold Links.buildClaimUrl; rewrite <- app_assoc; reflexivity).
  assert (35 ∉ origin ++ [47]) as Ho' by (rewrite elem_of_app; intros [?|H]; [done|set_solver]).
  assert (63 ∉ text_of CLAIM_ROUTE) as Hr by (vm_compute; set_solver).
  rewrite E. split; [|split; [|split]].
  - unfold parseClaimUrlToken. rewrite after_char_app by done. cbn [mbind option_bind].
    rewrite after_char_app by done. cbn [mbind option_bind]. by apply query_get_one.
  - by apply before_app.
  - assert (35 ∉ origin ++ text_of CLAIM_ROUTE ++ text_of "?" ++ q) as Hn.
    { rewrite !elem_of_app. intros [?|[H|[H|H]]]; [done|vm_compute in H; set_solver|vm_compute in H; set_solver|].
      subst q. unfold query_string in H. cbn [fmap list_fmap join_with fst snd] in H.
      rewrite elem_of_app, elem_of_cons in H. destruct H as [H|[H|H]]; [|done|].
      - by apply (safe_absent _ 35 (formEncode_safe (text_of CLAIM_TOKEN_PARAM) Hp)); [set_solver|].
      - by apply (safe_absent _ 35 (formEncode_safe rawToken Hc)); [set_solver|]. }
    unfold parseClaimUrlToken. assert (forall t, 35 ∉ t -> after_char 35 t = None) as A.
    { clear. induction t as [|c t IH]; intros H; [done|]. apply not_elem_of_cons in H as [H1 H2]. cbn.
      rewrite (proj2 (Z.eqb_neq c 35)) by congruence. by apply IH. }
    by rewrite A.
  - intros o tok Ht. unfold InvitePolicy.buildClaimUrl, Links.buildClaimUrl, query_string. rewrite !text_of_app.
    cbn [fmap list_fmap join_with fst snd]. by rewrite (minted_encoding tok Ht).
Qed.

Lemma claim_link_roundtrip_witness :
  parseClaimUrlToken (Links.buildClaimUrl (text_of "https://lopay.app") (text_of "aZ-9_&#=")) = Some (text_of "aZ-9_&#=").
Proof.
  assert (35 ∉ text_of "https://lopay.app") as H by (vm_compute; set_solver).
  assert (Forall code_point (text_of "aZ-9_&#=")) as C by (repeat constructor; done).
  rewrite (proj1 (claim_link_roundtrip _ (text_of "aZ-9_&#=") H C)). vm_compute. reflexivity.
Defined.

(** ** Return paths *)

(** An in-app route: a slash, then plain characters; no second slash in front,
    no [..], and short. *)
Definition in_app_route (p : text) : Prop :=
  SAFE_NEXT_PATH p = true /\ startsWith [47; 47] p = false /\ text_includes [46; 46] p = false /\
  js_length p <= MAX_NEXT_LENGTH.

Lemma safe_char_visible c : safe_char c = true -> is_js_whitespace c = false.
Proof.
  unfold safe_char, is_letter, is_digit, has_char. cbn. intros H. to_prop.
  assert (45 <= c <= 126) as Hr by lia. clear H. unfold is_js_whitespace.
  apply not_true_iff_false. intros H. to_prop. lia.
Qed.

Lemma route_trimmed p : SAFE_NEXT_PATH p = true -> trim p = p /\ p <> [].
Proof.
  unfold SAFE_NEXT_PATH. destruct p as [|c p]; [done|]. intros [->%Z.eqb_eq H]%andb_true_iff. split; [|done].
  apply trim_clean. constructor; [done|]. apply Forall_forall. rewrite forallb_forall in H.
  intros x Hx. by apply safe_char_visible, H.
Qed.

(** The accepted return paths are exactly the in-app routes: whatever comes in,
    what comes out is one (no scheme, host, query or fragment can be spelt in
    it), every in-app route comes out as it is, and so validating again what was
    validated before the trip to Google changes nothing. *)
Theorem next_path_safe raw :
  (forall p, sanitizeNextPath raw = Some p ->
     in_app_route p /\ sanitizeNextPath (Some p) = Some p /\ Forall (fun c => safe_char c = true) p) /\
  (forall p, in_app_route p -> sanitizeNextPath (Some p) = Some p).
Proof.
  assert (forall p, in_app_route p -> sanitizeNextPath (Some p) = Some p) as B.
  { intros p (H1 & H2 & H3 & H4). destruct (route_trimmed p H1) as [Et Hne]. unfold sanitizeNextPath. cbn.
    rewrite Et, bool_decide_eq_false_2 by done. rewrite (proj2 (Z.ltb_ge MAX_NEXT_LENGTH (js_length p))) by done.
    cbn -[startsWith text_includes]. by rewrite H2, H3, H1. }
  split; [|exact B]. intros p H. assert (in_app_route p) as R.
  { revert H. unfold sanitizeNextPath, in_app_route. destruct raw as [raw|]; [|done]. cbn -[startsWith text_includes].
    destruct (bool_decide _ || _) eqn:E1; [done|]. destruct (startsWith _ _) eqn:E2; [done|].
    destruct (text_includes _ _) eqn:E3; [done|]. destruct (SAFE_NEXT_PATH _) eqn:E4; [|done]. intros [= <-].
    apply orb_false_iff in E1 as [_ E1%Z.ltb_ge]. auto. }
  split; [done|]. split; [by apply B|]. destruct R as [R _]. unfold SAFE_NEXT_PATH in R. destruct p as [|c p]; [done|].
  apply andb_true_iff in R as [->%Z.eqb_eq R]. constructor; [done|]. apply Forall_forall. by rewrite forallb_forall in R.
Qed.

Lemma next_path_safe_witness :
  sanitizeNextPath (Some (text_of "/dashboard")) = Some (text_of "/dashboard") /\
  sanitizeNextPath (Some (text_of "//evil.com")) = None /\ sanitizeNextPath (Some (text_of "/claim?token=x")) = None.
Proof.
  split; [|split; vm_compute; reflexivity].
  apply (proj2 (next_path_safe None)). repeat split; vm_compute; congruence.
Defined.

(** ** Return origins *)

Lemma distinct_in seen l x : x ∈ distinct seen l -> x ∈ l.
Proof.
  revert seen. induction l as [|y l IH]; intros seen; [done|]. cbn. case_bool_decide.
  - intros H1. right. by eapply IH.
  - rewrite !elem_of_cons. intros [->|H1]; [by left|right; by eapply IH].
Qed.
Lemma distinct_complete seen l x : x ∈ l -> x ∉ seen -> x ∈ distinct seen l.
Proof.
  revert seen. induction l as [|y l IH]; intros seen Hx Hs; [by apply elem_of_nil in Hx|]. cbn.
  apply elem_of_cons in Hx. case_bool_decide as E.
  - destruct Hx as [->|Hx]; [done|]. by apply IH.
  - rewrite elem_of_cons. destruct (decide (x = y)) as [->|Hne]; [by left|]. right.
    apply IH; [naive_solver|]. set_solver.
Qed.

(** The trusted origins: exactly the configured ones, the two of the native
    shells, the API's own and, only where the API is not served over TLS, the
    three of a local development server. *)
Theorem trusted_origins_exact corsOrigins betterAuthUrl https o :
  o ∈ buildTrustedOrigins corsOrigins betterAuthUrl https <->
  o ∈ origin_list corsOrigins \/ o ∈ NATIVE_ORIGINS \/ (https = false /\ o ∈ LOCAL_DEV_ORIGINS) \/
  setting betterAuthUrl = Some o.
Proof.
  unfold buildTrustedOrigins. split.
  - intros H%distinct_in. rewrite !elem_of_app in H. destruct H as [H|[H|[H|H]]]; [auto|auto| |].
    + destruct https; [by apply elem_of_nil in H|auto].
    + destruct (setting betterAuthUrl); [|by apply elem_of_nil in H]. apply list_elem_of_singleton in H as ->. auto.
  - intros H. apply distinct_complete; [|apply not_elem_of_nil]. rewrite !elem_of_app.
    destruct H as [H|[H|[[-> H]|H]]]; [auto|auto|auto|]. right. right. right. rewrite H. left.
Qed.

Lemma trusted_trimmed cors self https o : o ∈ buildTrustedOrigins cors self https -> trim o = o /\ o <> [].
Proof.
  rewrite trusted_origins_exact. intros [H|[H|[[_ H]|H]]].
  - unfold origin_list in H. apply list_elem_of_filter in H as [Hne H].
    apply list_elem_of_fmap in H as (t & -> & _). split; [apply trim_idem | done].
  - unfold NATIVE_ORIGINS in H. rewrite !elem_of_cons, elem_of_nil in H. by destruct H as [->|[->|[]]].
  - unfold LOCAL_DEV_ORIGINS in H. rewrite !elem_of_cons, elem_of_nil in H. by destruct H as [->|[->|[->|[]]]].
  - unfold setting in H. destruct self as [t|]; [|done]. cbn in H. case_bool_decide; [done|]. injection H as <-.
    split; [apply trim_idem | done].
Qed.

Lemma head_first {A} (P : A -> bool) (l : list A) x :
  head (filter (fun y => P y = true) l) = Some x ->
  exists l1 l2, l = l1 ++ x :: l2 /\ P x = true /\ Forall (fun y => P y = false) l1.
Proof.
  induction l as [|y l IH]; [done|]. rewrite filter_cons. case_decide as E.
  - intros [= ->]. by exists [], l.
  - intros H. destruct (IH H) as (l1 & l2 & -> & Hx & F). exists (y :: l1), l2. split; [done|]. split; [done|].
    constructor; [by apply not_true_is_false | done].
Qed.

Section Return.
Context (parse_url : text -> option (text * text)).

Lemma resolve_cases requested trusted fallback :
  resolveReturnOrigin parse_url requested trusted fallback = fallback \/
  exists raw p n o, requested = Some raw /\ parse_url (trim raw) = Some (p, n) /\
    head (filter (fun t => origin_matches parse_url (trim raw) n t = true) trusted) = Some o /\
    resolveReturnOrigin parse_url requested trusted fallback = o.
Proof.
  unfold resolveReturnOrigin. destruct requested as [raw|]; [|by left]. case_bool_decide; [by left|].
  destruct (parse_url (trim raw)) as [[p n]|] eqn:E; [|by left]. destruct (head _) as [o|] eqn:Eh; [|by left].
  right. by exists raw, p, n, o.
Qed.

(** C26: no open redirect: whatever origin a request names, the sign-in returns to a
    trusted origin or to the configured web client; a trusted origin it chose is
    chosen again when the value comes back from Google; and the redirect that
    ends it puts everything a stranger or the token supplies after the [#], so
    what the browser requests is that origin's root. *)
Theorem no_open_redirect env session minted now next returnTo w r w' :
  finish parse_url env session minted now next returnTo w = (Ok r, w') ->
  exists o fallback, returnOrigin parse_url env returnTo = Ok o /\
    requireWebAppOrigin parse_url (ho_webAppUrl env) (ho_corsOrigins env) = Ok fallback /\
    (o = fallback \/ o ∈ trusted_origins parse_url env /\ returnOrigin parse_url env (Some o) = Ok o) /\
    rd_cookies r = [] /\
    exists rest, rd_location r = (trimTrailingSlash o ++ [47]) ++ 35 :: rest /\
      (35 ∉ o -> before 35 (rd_location r) = trimTrailingSlash o ++ [47]).
Proof.
  unfold finish, mbind at 1, M_bind at 1, lift. unfold returnOrigin at 1 2.
  destruct (requireWebAppOrigin _ _ _) as [fallback|e] eqn:Ef; [|done]. cbn [mbind res_bind mret res_ret].
  set (o := resolveReturnOrigin parse_url returnTo (trusted_origins parse_url env) fallback). intros H.
  exists o, fallback. split; [done|]. split; [done|]. split.
  - destruct (resolve_cases returnTo (trusted_origins parse_url env) fallback) as [E|(raw & p & n & x & _ & Ep & Eh & E)];
      [by left|]. right. assert (x = o) as -> by (symmetry; exact E). clear H.
    destruct (head_first _ _ _ Eh) as (l1 & l2 & El & Hm & F).
    assert (o ∈ trusted_origins parse_url env) as Hin by (rewrite El, elem_of_app; right; left). split; [done|].
    destruct (trusted_trimmed _ _ _ _ Hin) as [Et Hne]. unfold returnOrigin. rewrite Ef. cbn [mbind res_bind mret res_ret].
    f_equal. unfold resolveReturnOrigin at 1. rewrite Et, bool_decide_eq_false_2 by done.
    assert (exists p', parse_url o = Some (p', n)) as [p' Ho].
    { unfold origin_matches in Hm. apply orb_true_iff in Hm as [->%bool_decide_eq_true|Hm]; [eauto|].
      destruct (parse_url o) as [[p' n']|]; [|done]. apply andb_true_iff in Hm as [->%bool_decide_eq_true _]. eauto. }
    rewrite Ho, El, list.filter_app. assert (filter (fun t => origin_matches parse_url o n t = true) l1 = []) as ->.
    { clear -F Hm Ho. induction F as [|t l Ht _ IH]; [done|]. rewrite filter_cons_False; [exact IH|].
      apply not_true_iff_false. revert Ht. unfold origin_matches. rewrite !orb_false_iff. intros [H1 H2]. split; [|done].
      apply bool_decide_eq_false. intros ->. rewrite Ho in H2. rewrite bool_decide_eq_true_2 in H2 by done. cbn in H2.
      apply negb_false_iff, bool_decide_eq_true in H2.
      unfold origin_matches in Hm. rewrite Ho, H2 in Hm. apply orb_true_iff in Hm as [Hm|Hm].
      - apply bool_decide_eq_true in Hm. by rewrite Hm in H1; rewrite bool_decide_eq_true_2 in H1.
      - by rewrite andb_false_r in Hm. }
    rewrite filter_cons_True; [done|]. unfold origin_matches. by rewrite bool_decide_eq_true_2.
  - assert (exists rest, rd_location r = trimTrailingSlash o ++ text_of "/#" ++ rest /\ rd_cookies r = []) as (rest & E & Ec).
    { destruct session as [u|]; [destruct minted as [[|c token]|]|];
        try (injection H as <- <-; eexists (text_of "/auth?" ++ _); split; [reflexivity|done]).
      unfold mbind, M_bind in H. destruct u as [u|]; [destruct (announceFirstGoogleLink u now w) as [[[]|e] w1]; [|done]|];
        injection H as <- <-; eexists (text_of "/auth/callback?" ++ _); by split. }
    split; [done|]. exists rest.
    assert (rd_location r = (trimTrailingSlash o ++ [47]) ++ 35 :: rest) as El by (rewrite E, <- app_assoc; reflexivity).
    split; [done|]. intros Ho. rewrite El. apply before_app. rewrite elem_of_app. intros [Hx|Hx]; [|set_solver].
    apply Ho. unfold trimTrailingSlash in Hx. destruct (reverse o) as [|c q] eqn:Eq; [done|].
    assert (o = reverse q ++ [c]) as -> by (rewrite <- (reverse_involutive o), Eq; apply reverse_cons).
    apply elem_of_app. left. by destruct c as [|[[[[[[]|[]|]|[]|]|[]|]|[[]|[]|]|]|[]|]|]; auto.
Qed.
End Return.

(** A parser of origins, enough for the samples. *)
Definition sample_url (t : text) : option (text * text) :=
  if startsWith (text_of "https://") t then Some (text_of "https:", trimTrailingSlash t)
  else if startsWith (text_of "capacitor://") t then Some (text_of "capacitor:", NULL_ORIGIN) else None.
Definition sample_handoff : HandoffEnv :=
  mkHandoffEnv (Some (text_of "https://lopay.app")) (Some (text_of "https://lopay.app, https://admin.lopay.app"))
    (Some (text_of "https://api.lopay.app")).
Example evil_falls_back :
  returnOrigin sample_url sample_handoff (Some (text_of "https://localhost.evil.test")) = Ok (text_of "https://lopay.app").
Proof. vm_compute. reflexivity. Qed.

Lemma no_open_redirect_witness :
  exists r w', finish sample_url sample_handoff (Some None) (Some (text_of "tok")) 0 (Some (text_of "/x"))
      (Some (text_of "capacitor://localhost")) sample = (Ok r, w') /\
    returnOrigin sample_url sample_handoff (Some (text_of "capacitor://localhost")) = Ok (text_of "capacitor://localhost") /\
    before 35 (rd_location r) = text_of "capacitor://localhost/".
Proof.
  eexists _, _. split; [vm_compute; reflexivity|].
  edestruct (no_open_redirect sample_url sample_handoff (Some None) (Some (text_of "tok")) 0 (Some (text_of "/x"))
      (Some (text_of "capacitor://localhost")) sample) as (o & fb & H1 & _ & _ & _ & rest & _ & H2); [vm_compute; reflexivity|].
  assert (returnOrigin sample_url sample_handoff (Some (text_of "capacitor://localhost")) = Ok (text_of "capacitor://localhost"))
    as E by (vm_compute; reflexivity).
  split; [exact E|]. rewrite E in H1. injection H1 as <-. rewrite H2; [reflexivity|]. vm_compute. set_solver.
Defined.

(** ** The first Google link *)

(** When Google is attached to an account that has a password, within five
    minutes the sign-in that attached it ends exactly the account's sessions
    older than the link (the new one stays), and tells the owner once; in every
    other case nothing changes. *)
Theorem first_link_revokes userId now w :
  exists w', announceFirstGoogleLink userId now w = (Ok tt, w') /\
  let fresh t := now - t < FRESH_LINK_WINDOW_MS in
  match link_of userId "google" (db w), link_of userId "credential" (db w) with
  | Some (_, g), Some _ =>
      (fresh (oa_createdAt g) ->
        (forall k s, sessions (db w') !! k = Some s <->
           sessions (db w) !! k = Some s /\ (se_userId s = userId -> oa_createdAt g <= se_createdAt s)) /\
        db w' = set_sessions (sessions (db w')) (db w) /\
        out w' = out w ++ [Notify (mkNotification userId "Google was connected to your account" NT_ALERT "/profile")]) /\
      (~ fresh (oa_createdAt g) -> w' = w)
  | _, _ => w' = w
  end.
Proof.
  unfold announceFirstGoogleLink, mbind, M_bind, read.
  destruct (link_of userId "google" (db w)) as [[k g]|]; [|by eexists].
  destruct (link_of userId "credential" (db w)) as [c|]; [|by eexists]. destruct (Z.ltb_spec (now - oa_createdAt g) FRESH_LINK_WINDOW_MS).
  - eexists. split; [reflexivity|]. cbn -[filter lookup]. split; [|lia]. intros _. split; [|done].
    intros k' s. rewrite map_lookup_filter_Some. unfold older_session. cbn.
    rewrite andb_false_iff, bool_decide_eq_false, Z.ltb_ge. destruct (decide (se_userId s = userId)); intuition lia.
  - eexists. split; [reflexivity|]. split; [lia|done].
Qed.

(** ** The posture *)

(** The security switches follow from the deployment: transport security and
    cross-site cookies exactly over TLS, the content policy exactly while the
    docs are off, and the tight credential budgets only where one client has one
    bucket: where many share one, every budget is the flood limit, so no client
    can use up another's sign-ins. *)
Theorem posture_sound parse_url url docs header :
  let p := resolveSecurityPosture parse_url url docs header in
  let r := buildAuthRateLimit (trustedPerClientIp p) in
  hsts p = httpsDeployment p /\ crossSiteCookies p = httpsDeployment p /\
  (contentSecurityPolicy p = None <-> apiDocsEnabled p = true) /\
  ro_enabled r = true /\
  (trustedPerClientIp p = false <-> httpsDeployment p = true /\ clientIpHeader p = None) /\
  (trustedPerClientIp p = false -> ro_max r = AUTH_FLOOD_LIMIT_PER_MINUTE /\
     Forall (fun kv => kv.2 = mkRule 60 AUTH_FLOOD_LIMIT_PER_MINUTE) (ro_customRules r)) /\
  (trustedPerClientIp p = true -> Forall (fun kv => rl_max kv.2 <= AUTH_FLOOD_LIMIT_PER_MINUTE) (ro_customRules r)) /\
  (ro_customRules r).*1 = AUTH_RATE_LIMIT_RULES.*1.
Proof.
  cbv zeta. unfold resolveSecurityPosture. cbn.
  destruct (ascii_lower <$> setting header) as [h|] eqn:Eh; destruct (isHttpsUrl parse_url url);
    destruct (parseBooleanEnv docs); cbn; repeat split; try done; try (intros [? ?]; done); try (intros _); repeat constructor; done.
Qed.
