(* ===== verification/Realtime.v ===== *)
(** * Realtime events

    [src/events/events.gateway.ts]: sockets are let in by a session and join the
    rooms of its user; the effects that the services leave in the log of a request
    ([EvPaymentsChanged] and its like) are sent to rooms.  Better Auth's
    [getSession] is a parameter that may change from one handshake to the next. *)

From stdpp Require Import pretty.
From S2P Require Import Prelude JsText Schema Effects Samples Enrollment Users.

(** ** Handshakes *)

(** What the client presents; a field that is no string is absent. *)
Record Handshake := mkHandshake {
  hs_authToken : option text;
  hs_authorization : option text;
  hs_queryToken : option text;
  hs_cookie : option text }.

Inductive credentials := Bearer (token : text) | Cookie (cookie : text).

Definition nonempty (t : option text) : option text := match t with Some (_ :: _) => t | _ => None end.

(** [raw.replace(/^Bearer\s+/i, '').trim()] *)
Definition strip (raw : text) : text :=
  let rest := drop 6 raw in
  trim (if bool_decide (ascii_lower (take 6 raw) = text_of "bearer")
           && match rest with c :: _ => is_js_whitespace c | [] => false end
        then trimStart rest else raw).

Definition extractToken (h : Handshake) : option text :=
  match nonempty (hs_authToken h), nonempty (hs_authorization h), nonempty (hs_queryToken h) with
  | Some t, _, _ | None, Some t, _ | None, None, Some t => Some (strip t)
  | None, None, None => None
  end.

Definition sessionHeaders (h : Handshake) : option credentials :=
  match nonempty (extractToken h) with
  | Some token => Some (Bearer token)
  | None => Cookie <$> nonempty (hs_cookie h)
  end.

(** The origin of a browser's handshake. *)
Definition socketCorsOrigin (CORS_ORIGINS : option text) (production : bool) (origin : option text) : bool :=
  let allowed := filter (fun o => o <> []) (trim <$> split_on 44 (default [] CORS_ORIGINS)) in
  match allowed with
  | [] => negb production
  | _ => match nonempty origin with None => true | Some o => bool_decide (o ∈ allowed) end
  end.

(** ** Rooms *)

Record AuthedSocketData := mkSocketData { sd_userId : id; sd_role : UserRole; sd_schoolId : option id }.
Record Sock := mkSock { sk_data : AuthedSocketData; sk_rooms : gset string }.
Abbreviation Gateway := (gmap id Sock).

Section Gateway.
Context (id_str : id -> string).

Definition userRoom (userId : id) : string := "user:" +:+ id_str userId.
Definition schoolRoom (schoolId : id) : string := "school:" +:+ id_str schoolId.
Definition admins : string := "admins".

Definition socket_data (sessionUser : SessionUser) : AuthedSocketData :=
  mkSocketData (su_id sessionUser) (default PARENT (su_role sessionUser)) (su_schoolId sessionUser).
Definition joined (data : AuthedSocketData) : gset string :=
  {[ userRoom (sd_userId data) ]}
  ∪ match sd_schoolId data with Some sid => {[ schoolRoom sid ]} | None => ∅ end
  ∪ if bool_decide (sd_role data = SUPER_ADMIN) then {[ admins ]} else ∅.

(** [getSession] answers with a session, with none, or throws. *)
Definition handleConnection (getSession : credentials -> res (option SessionUser)) (client : id) (h : Handshake)
    (g : Gateway) : Gateway :=
  match sessionHeaders h with
  | None => delete client g
  | Some headers =>
      match getSession headers with
      | Ok (Some sessionUser) =>
          let data := socket_data sessionUser in <[client := mkSock data (joined data)]> g
      | _ => delete client g
      end
  end.
Definition handleDisconnect (client : id) (g : Gateway) : Gateway := delete client g.

(** ** Emitting *)

Inductive RealtimeEventType := RtNotification | RtPaymentsChanged | RtEnrollmentsChanged.
Record RealtimeEnvelope := mkEnvelope { en_type : RealtimeEventType; en_payload : option Notification }.

Record ChangeTargets := mkTargets { ct_parentUserId : option id; ct_schoolId : option id; ct_notifyAdmins : bool }.

Definition add_room (room : string) (rooms : list string) : list string :=
  if bool_decide (room ∈ rooms) then rooms else rooms ++ [room].
Definition target_rooms (targets : ChangeTargets) : list string :=
  let rooms := match ct_parentUserId targets with Some u => [userRoom u] | None => [] end in
  let rooms := match ct_schoolId targets with Some s => add_room (schoolRoom s) rooms | None => rooms end in
  if ct_notifyAdmins targets then add_room admins rooms else rooms.

(** The sockets a message to a room goes to, with it. *)
Definition emitTo (room : string) (envelope : RealtimeEnvelope) (g : Gateway) : list (id * RealtimeEnvelope) :=
  (fun kv : id * Sock => (kv.1, envelope)) <$> filter (fun kv : id * Sock => room ∈ sk_rooms kv.2) (map_to_list g).

Definition broadcastChange (type : RealtimeEventType) (targets : ChangeTargets) (g : Gateway)
    : list (id * RealtimeEnvelope) :=
  target_rooms targets ≫= (fun room => emitTo room (mkEnvelope type None) g).
Definition pushNotification (userId : option id) (n : Notification) (g : Gateway) : list (id * RealtimeEnvelope) :=
  match userId with
  | None => []
  | Some u => emitTo (userRoom u) (mkEnvelope RtNotification (Some n)) g
  end.
Definition emitPaymentsChanged : ChangeTargets -> Gateway -> list (id * RealtimeEnvelope) := broadcastChange RtPaymentsChanged.
Definition emitEnrollmentsChanged : ChangeTargets -> Gateway -> list (id * RealtimeEnvelope) := broadcastChange RtEnrollmentsChanged.

(** What a logged effect makes the gateway send; [NotificationsService.create]
    pushes the row it writes. *)
Definition deliveries (e : effect) (g : Gateway) : list (id * RealtimeEnvelope) :=
  match e with
  | EvPaymentsChanged p s a => emitPaymentsChanged (mkTargets p s a) g
  | EvEnrollmentsChanged p s a => emitEnrollmentsChanged (mkTargets p s a) g
  | EvPush u n => pushNotification (Some u) n g
  | Notify n => pushNotification (Some (n_userId n)) n g
  | _ => []
  end.
End Gateway.

(** ** Who hears what *)

Section Audience.
Context (id_str : id -> string) `{!Inj (=) (=) id_str}.

Lemma joined_user data u : userRoom id_str u ∈ joined id_str data <-> sd_userId data = u.
Proof.
  unfold joined. rewrite !elem_of_union, elem_of_singleton. split; [|intros <-; by left; left].
  intros [[[= H]|H]|H]; [by apply (inj id_str)| |].
  - destruct (sd_schoolId data); [by apply elem_of_singleton in H|by apply elem_of_empty in H].
  - case_bool_decide; [by apply elem_of_singleton in H|by apply elem_of_empty in H].
Qed.
Lemma joined_school data s : schoolRoom id_str s ∈ joined id_str data <-> sd_schoolId data = Some s.
Proof.
  unfold joined. rewrite !elem_of_union, elem_of_singleton. split.
  - intros [[H|H]|H]; [done| |].
    + destruct (sd_schoolId data) as [x|]; [|by apply elem_of_empty in H].
      apply elem_of_singleton in H. injection H as H. by apply (inj id_str) in H as ->.
    + case_bool_decide; [by apply elem_of_singleton in H|by apply elem_of_empty in H].
  - intros ->. left. right. by apply elem_of_singleton.
Qed.
Lemma joined_admins data : admins ∈ joined id_str data <-> sd_role data = SUPER_ADMIN.
Proof.
  unfold joined. rewrite !elem_of_union, elem_of_singleton. split.
  - intros [[H|H]|H]; [done| |].
    + destruct (sd_schoolId data); [by apply elem_of_singleton in H|by apply elem_of_empty in H].
    + by case_bool_decide; [|apply elem_of_empty in H].
  - intros ->. right. by apply elem_of_singleton.
Qed.

Lemma elem_of_emitTo room envelope g client e :
  (client, e) ∈ emitTo room envelope g <-> e = envelope /\ exists s, g !! client = Some s /\ room ∈ sk_rooms s.
Proof.
  unfold emitTo. split.
  - intros ([c s] & [= -> ->] & [Hr Hin%elem_of_map_to_list]%list_elem_of_filter)%list_elem_of_fmap. eauto.
  - intros [-> (s & Hs & Hr)]. apply list_elem_of_fmap. exists (client, s). split; [done|].
    apply list_elem_of_filter. split; [done|]. by apply elem_of_map_to_list.
Qed.

Lemma elem_of_add_room room rooms x : x ∈ add_room room rooms <-> x = room \/ x ∈ rooms.
Proof. unfold add_room. case_bool_decide; [set_solver|]. rewrite elem_of_app, list_elem_of_singleton. tauto. Qed.

Lemma elem_of_targets t room : room ∈ target_rooms id_str t <->
  (exists u, ct_parentUserId t = Some u /\ room = userRoom id_str u) \/
  (exists s, ct_schoolId t = Some s /\ room = schoolRoom id_str s) \/
  (ct_notifyAdmins t = true /\ room = admins).
Proof.
  unfold target_rooms. destruct (ct_parentUserId t), (ct_schoolId t), (ct_notifyAdmins t);
    rewrite ?elem_of_add_room, ?list_elem_of_singleton, ?elem_of_nil; naive_solver.
Qed.

(** Whom a change is for. *)
Definition targeted (t : ChangeTargets) (data : AuthedSocketData) : Prop :=
  ct_parentUserId t = Some (sd_userId data) \/
  (exists s, ct_schoolId t = Some s /\ sd_schoolId data = Some s) \/
  (ct_notifyAdmins t = true /\ sd_role data = SUPER_ADMIN).
Definition audience (e : effect) (data : AuthedSocketData) : Prop :=
  match e with
  | EvPaymentsChanged p s a | EvEnrollmentsChanged p s a => targeted (mkTargets p s a) data
  | EvPush u _ => u = sd_userId data
  | Notify n => n_userId n = sd_userId data
  | _ => False
  end.

(** Sockets are in the rooms of their user's session. *)
Definition well_roomed (g : Gateway) : Prop :=
  forall client s, g !! client = Some s -> sk_rooms s = joined id_str (sk_data s).

Lemma broadcast_audience type t g client : well_roomed g ->
  (exists e, (client, e) ∈ broadcastChange id_str type t g) <->
  exists s, g !! client = Some s /\ targeted t (sk_data s).
Proof.
  intros Hg. unfold broadcastChange, targeted. split.
  - intros (e & (room & [_ (s & Hs & Hr)]%elem_of_emitTo & Ht%elem_of_targets)%list_elem_of_bind).
    exists s. split; [done|]. rewrite (Hg _ _ Hs) in Hr.
    destruct Ht as [(u & Hu & ->)|[(sc & Hsc & ->)|[Ha ->]]].
    + left. apply joined_user in Hr as <-. done.
    + right. left. apply joined_school in Hr. eauto.
    + right. right. by apply joined_admins in Hr.
  - intros (s & Hs & Ht). eexists. apply list_elem_of_bind.
    destruct Ht as [Hu|[(sc & Hsc & Hd)|[Ha Hd]]].
    + exists (userRoom id_str (sd_userId (sk_data s))). split; [|apply elem_of_targets; eauto].
      apply elem_of_emitTo. split; [done|]. exists s. split; [done|]. rewrite (Hg _ _ Hs). by apply joined_user.
    + exists (schoolRoom id_str sc). split; [|apply elem_of_targets; eauto].
      apply elem_of_emitTo. split; [done|]. exists s. split; [done|]. rewrite (Hg _ _ Hs). by apply joined_school.
    + exists admins. split; [|apply elem_of_targets; eauto].
      apply elem_of_emitTo. split; [done|]. exists s. split; [done|]. rewrite (Hg _ _ Hs). by apply joined_admins.
Qed.

Lemma push_audience u n g client : well_roomed g ->
  (exists e, (client, e) ∈ pushNotification id_str (Some u) n g) <->
  exists s, g !! client = Some s /\ u = sd_userId (sk_data s).
Proof.
  intros Hg. unfold pushNotification. split.
  - intros (e & [_ (s & Hs & Hr)]%elem_of_emitTo). exists s. split; [done|].
    rewrite (Hg _ _ Hs) in Hr. by apply joined_user in Hr.
  - intros (s & Hs & ->). eexists. apply elem_of_emitTo. split; [done|]. exists s. split; [done|].
    rewrite (Hg _ _ Hs). by apply joined_user.
Qed.

Lemma effect_audience e g client : well_roomed g ->
  (exists env, (client, env) ∈ deliveries id_str e g) <-> exists s, g !! client = Some s /\ audience e (sk_data s).
Proof.
  intros Hg. destruct e; cbn [deliveries audience];
    try (by apply broadcast_audience); try (by apply push_audience);
    (split; [intros (? & H); by apply elem_of_nil in H|intros (? & _ & [])]).
Qed.

(** ** Over time *)

(** Handshakes and disconnections, while accounts change: [rt_granted] remembers
    the sessions that handshakes were granted. *)
Record Realtime := mkRealtime {
  rt_getSession : credentials -> res (option SessionUser);
  rt_gateway : Gateway;
  rt_granted : list (id * SessionUser) }.

Definition granted (client : id) (h : Handshake) (st : Realtime) : list (id * SessionUser) :=
  match sessionHeaders h with
  | Some headers => match rt_getSession st headers with Ok (Some u) => [(client, u)] | _ => [] end
  | None => []
  end.

Inductive rt_step : Realtime -> Realtime -> Prop :=
| rt_connect st client h :
    rt_step st (mkRealtime (rt_getSession st) (handleConnection id_str (rt_getSession st) client h (rt_gateway st))
                  (granted client h st ++ rt_granted st))
| rt_disconnect st client :
    rt_step st (mkRealtime (rt_getSession st) (handleDisconnect client (rt_gateway st)) (rt_granted st))
| rt_accounts st getSession : rt_step st (mkRealtime getSession (rt_gateway st) (rt_granted st)).

Definition rt_init (getSession : credentials -> res (option SessionUser)) : Realtime := mkRealtime getSession ∅ [].
Definition rt_reachable (st : Realtime) : Prop := exists getSession, rtc rt_step (rt_init getSession) st.

Definition rt_inv (st : Realtime) : Prop :=
  forall client s, rt_gateway st !! client = Some s -> sk_rooms s = joined id_str (sk_data s) /\
    exists u, (client, u) ∈ rt_granted st /\ sk_data s = socket_data u.

Lemma rt_inv_step st st' : rt_inv st -> rt_step st st' -> rt_inv st'.
Proof.
  intros I. inversion 1 as [st0 c h|st0 c|st0 gs]; subst; intros client s; cbn [rt_gateway rt_granted];
    [|unfold handleDisconnect; intros [_ Hs]%lookup_delete_Some; by apply I|by apply I].
  unfold handleConnection, granted. destruct (sessionHeaders h) as [headers|];
    [destruct (rt_getSession st headers) as [[u|]|]|].
  - intros [[<- <-]|[_ Hs]]%lookup_insert_Some; [split; [done|]; exists u; split; [left|done]|].
    destruct (I _ _ Hs) as [H1 (v & Hv & H2)]. split; [done|]. exists v. split; [by right|done].
  - intros [_ Hs]%lookup_delete_Some. by apply I.
  - intros [_ Hs]%lookup_delete_Some. by apply I.
  - intros [_ Hs]%lookup_delete_Some. by apply I.
Qed.

Lemma rt_inv_reachable st : rt_reachable st -> rt_inv st.
Proof.
  intros [gs H]. assert (rt_inv (rt_init gs)) as I by (intros c s Hs; cbn in Hs; by rewrite lookup_empty in Hs).
  revert I. induction H as [|? ? ? Hs _ IH]; [done|]. intros I. apply IH. by eapply rt_inv_step.
Qed.

(** C30: in every reachable state of the gateway, an effect of a request reaches
    exactly the open sockets it is for: those of the parent it names, of the
    owner of the school it names, and of administrators when it says so, as the
    sessions presented at their handshakes told; and a notification's content
    reaches its addressee alone. *)
Theorem realtime_audience st e client :
  rt_reachable st ->
  ((exists env, (client, env) ∈ deliveries id_str e (rt_gateway st)) <->
   exists s, rt_gateway st !! client = Some s /\ audience e (sk_data s)) /\
  (forall s, rt_gateway st !! client = Some s -> exists u, (client, u) ∈ rt_granted st /\ sk_data s = socket_data u) /\
  (forall env n, (client, env) ∈ deliveries id_str e (rt_gateway st) -> en_payload env = Some n ->
     exists s, rt_gateway st !! client = Some s /\ (e = EvPush (sd_userId (sk_data s)) n \/ e = Notify n) /\
       audience e (sk_data s)).
Proof.
  intros I%rt_inv_reachable. assert (well_roomed (rt_gateway st)) as Hg by (intros c s Hs; by apply (I c s)).
  split; [by apply effect_audience|]. split; [intros s Hs; apply (I _ _ Hs)|].
  intros env n Hin Hn. destruct (proj1 (effect_audience e _ client Hg)) as (s & Hs & Ha); [by eexists|].
  exists s. split; [done|]. split; [|done]. destruct e as [p sc a|p sc a|u m|m| | | | | |]; cbn [deliveries] in Hin;
    try (by apply elem_of_nil in Hin).
  - apply list_elem_of_bind in Hin as (room & [-> _]%elem_of_emitTo & _). done.
  - apply list_elem_of_bind in Hin as (room & [-> _]%elem_of_emitTo & _). done.
  - apply elem_of_emitTo in Hin as [-> _]. injection Hn as ->. cbn in Ha. subst u. by left.
  - apply elem_of_emitTo in Hin as [-> _]. injection Hn as ->. by right.
Qed.

(** A socket outlives its session: whatever happens to the account, it stays in
    its rooms until it disconnects. *)
Theorem socket_outlives_session st client s getSession e :
  rt_gateway st !! client = Some s -> well_roomed (rt_gateway st) -> audience e (sk_data s) ->
  exists st', rt_step st st' /\ rt_getSession st' = getSession /\
    exists env, (client, env) ∈ deliveries id_str e (rt_gateway st').
Proof.
  intros Hs Hg Ha. eexists. split; [apply (rt_accounts st getSession)|]. split; [done|]. cbn [rt_gateway].
  apply effect_audience; eauto.
Qed.
End Audience.

(** ** Witness *)

(** The owner of the sample school, and a parent, connected. *)
Definition sample_session (u : id) : SessionUser :=
  if bool_decide (u = 10%positive) then mkSessionUser u (Some SCHOOL_OWNER) (Some 1%positive)
  else mkSessionUser u (Some PARENT) None.
Definition sample_getSession (c : credentials) : res (option SessionUser) :=
  Ok (Some (sample_session match c with Bearer _ => 10%positive | Cookie _ => 11%positive end)).
Definition sample_handshake (t : option text) : Handshake :=
  mkHandshake None ((fun t => text_of "bearer  " ++ t) <$> t) None (Some (text_of "session=1")).
Definition sample_realtime : Realtime :=
  let st := rt_init sample_getSession in
  let connect st c h := mkRealtime (rt_getSession st) (handleConnection pretty (rt_getSession st) c h (rt_gateway st))
                          (granted c h st ++ rt_granted st) in
  connect (connect st 1%positive (sample_handshake (Some [97]))) 2%positive (sample_handshake None).

Lemma sample_realtime_reachable : rt_reachable pretty sample_realtime.
Proof. exists sample_getSession. eapply rtc_l; [apply (rt_connect pretty _ 1%positive (sample_handshake (Some [97])))|].
  eapply rtc_l; [apply (rt_connect pretty _ 2%positive (sample_handshake None))|]. reflexivity. Qed.

Example sample_rooms : (elements ∘ sk_rooms <$> rt_gateway sample_realtime !! 1%positive) =
  Some ["school:1"; "user:10"]%string \/ (elements ∘ sk_rooms <$> rt_gateway sample_realtime !! 1%positive) =
  Some ["user:10"; "school:1"]%string.
Proof. vm_compute. tauto. Qed.

Lemma realtime_audience_witness :
  (exists env, (1%positive, env) ∈ deliveries pretty (EvPaymentsChanged None (Some 1%positive) false) (rt_gateway sample_realtime)) /\
  ~ (exists env, (2%positive, env) ∈ deliveries pretty (EvPaymentsChanged None (Some 1%positive) false) (rt_gateway sample_realtime)).
Proof.
  split.
  - apply (realtime_audience pretty sample_realtime _ 1%positive sample_realtime_reachable).
    eexists. split; [vm_compute; reflexivity|]. right. left. by exists 1%positive.
  - intros H. apply (realtime_audience pretty sample_realtime _ 2%positive sample_realtime_reachable) in H.
    destruct H as (s & Hs & Ha). vm_compute in Hs. injection Hs as <-. destruct Ha as [Ha|[(x & _ & Ha)|[Ha _]]]; discriminate.
Defined.
