(* ===== verification/Notifications.v ===== *)
(** * Notifications, their inbox and the devices

    [src/notifications/notifications.service.ts] and its controller, and
    [src/device-tokens/device-tokens.service.ts].  The two tables of this part are
    here, not in [DB], where a request's notifications are a log; Firebase is a
    parameter. *)

From Stdlib Require Import QArith.
From stdpp Require Import pretty.
From S2P Require Import Prelude JsNumber JsText Pagination Schema Effects Samples PaymentHistory Resilience Realtime.

Local Open Scope Z_scope.

(** ** State *)

(** A row of [model Notification]. *)
Record InboxRow := mkInboxRow {
  ib_userId : id; ib_title : string; ib_message : string; ib_type : NotificationType;
  ib_isRead : bool; ib_link : option string; ib_createdAt : Z }.
Definition set_ib_isRead (b : bool) (r : InboxRow) : InboxRow :=
  mkInboxRow (ib_userId r) (ib_title r) (ib_message r) (ib_type r) b (ib_link r) (ib_createdAt r).

(** [model DeviceToken], by its unique token. *)
Record DeviceToken := mkDeviceToken { dt_userId : id; dt_platform : string }.

(** ** Push messages *)

Definition ANDROID_CHANNEL_ID : string := "lopay-payments".
Definition ANDROID_SOUND : string := "lopay_alert".

Record PushPayload := mkPushPayload {
  pp_title : string; pp_body : string; pp_link : option string;
  pp_notificationId : option id; pp_type : option NotificationType }.

(** The parts of an FCM message that depend on the notification. *)
Record PushMessage := mkPushMessage {
  pm_title : string; pm_body : string; pm_data : list (string * string);
  pm_channelId : string; pm_sound : string; pm_tag : string; pm_webLink : option string }.

(** What a push leaves behind: an event to a user's room or a multicast. *)
Inductive sent := SentRealtime (userId : id) (title message : string) (link : option string)
| SentPush (tokens : list string) (m : PushMessage).

Record NState := mkNState {
  ns_rows : gmap id InboxRow;
  ns_tokens : gmap string DeviceToken;
  ns_next : id;
  ns_sent : list sent }.
Definition set_rows (r : gmap id InboxRow) (s : NState) : NState := mkNState r (ns_tokens s) (ns_next s) (ns_sent s).
Definition set_tokens (t : gmap string DeviceToken) (s : NState) : NState := mkNState (ns_rows s) t (ns_next s) (ns_sent s).
Definition log (e : sent) (s : NState) : NState := mkNState (ns_rows s) (ns_tokens s) (ns_next s) (ns_sent s ++ [e]).

(** ** Device tokens *)

Definition register (userId : id) (token platform : string) (s : NState) : NState :=
  set_tokens (<[token := mkDeviceToken userId platform]> (ns_tokens s)) s.
Definition unregister (userId : id) (token : string) (s : NState) : NState :=
  set_tokens (filter (fun kv : string * DeviceToken => ~ (kv.1 = token /\ dt_userId kv.2 = userId)) (ns_tokens s)) s.
Definition getTokensForUser (userId : id) (s : NState) : list string :=
  fst <$> filter (fun kv : string * DeviceToken => dt_userId kv.2 = userId) (map_to_list (ns_tokens s)).

Section Push.
Context (id_str : id -> string) (type_str : NotificationType -> string) (webAppUrl : option string).

(** [if (payload.link)] *)
Definition given (s : option string) : option string := match s with Some (String _ _) => s | _ => None end.

Definition buildPushMessage (p : PushPayload) : PushMessage :=
  let entry key (v : option string) := match v with Some v => [(key, v)] | None => [] end in
  let tag := match pp_notificationId p with Some i => id_str i | None => "lopay-notification"%string end in
  {| pm_title := pp_title p;
     pm_body := pp_body p;
     pm_data := [("title", pp_title p); ("body", pp_body p)]%string ++ entry "link"%string (given (pp_link p))
                ++ entry "notificationId"%string (id_str <$> pp_notificationId p)
                ++ entry "type"%string (type_str <$> pp_type p);
     pm_channelId := ANDROID_CHANNEL_ID;
     pm_sound := ANDROID_SOUND;
     pm_tag := tag;
     pm_webLink := match given webAppUrl, given (pp_link p) with
                   | Some url, Some link => Some (url +:+ "/#" +:+ link)%string
                   | url, _ => url
                   end |}.

(** A device's answer: delivered, or refused with a code. *)
Record SendResponse := mkSendResponse { success : bool; error_code : option string }.
Context (sendEachForMulticast : list string -> PushMessage -> list SendResponse + caught).

Definition PERMANENT_TOKEN_ERRORS : list string :=
  ["messaging/registration-token-not-registered"; "messaging/invalid-registration-token"; "messaging/invalid-argument"]%string.
Definition permanent (r : SendResponse) : bool :=
  negb (success r) && match error_code r with Some c => bool_decide (c ∈ PERMANENT_TOKEN_ERRORS) | None => false end.

(** The tokens whose answer, at the same index, is a permanent error. *)
Fixpoint invalid_tokens (tokens : list string) (responses : list SendResponse) : list string :=
  match tokens, responses with
  | t :: tokens', r :: responses' =>
      if permanent r then t :: invalid_tokens tokens' responses' else invalid_tokens tokens' responses'
  | _, _ => []
  end.

(** It returns whatever Firebase does. *)
Definition sendPushNotification (userId : id) (payload : PushPayload) (s : NState) : NState :=
  let tokens := getTokensForUser userId s in
  match tokens with
  | [] => s
  | _ =>
      let m := buildPushMessage payload in
      let s := log (SentPush tokens m) s in
      match sendEachForMulticast tokens m with
      | inr _ => s
      | inl responses =>
          let invalidTokens := invalid_tokens tokens responses in
          set_tokens (filter (fun kv : string * DeviceToken => kv.1 ∉ invalidTokens) (ns_tokens s)) s
      end
  end.

(** ** The service *)

Record CreateNotificationDto := mkCreateNotificationDto {
  cn_userId : id; cn_title : string; cn_message : string; cn_type : option NotificationType; cn_link : option string }.

Definition insert_row (r : InboxRow) (s : NState) : id * NState :=
  (ns_next s, mkNState (<[ns_next s := r]> (ns_rows s)) (ns_tokens s) (Pos.succ (ns_next s)) (ns_sent s)).

Definition create (dto : CreateNotificationDto) (now : Z) (s : NState) : id * NState :=
  let row := mkInboxRow (cn_userId dto) (cn_title dto) (cn_message dto) (default NT_PAYMENT (cn_type dto))
               false (cn_link dto) now in
  let '(i, s) := insert_row row s in
  let s := log (SentRealtime (ib_userId row) (ib_title row) (ib_message row) (ib_link row)) s in
  (i, sendPushNotification (cn_userId dto)
        (mkPushPayload (ib_title row) (ib_message row) (ib_link row) (Some i) (Some (ib_type row))) s).

(** The parents that an announcement is for. *)
Definition broadcast_recipients (d : DB) : list id :=
  fst <$> filter (fun kv : id * User => u_role kv.2 = PARENT /\ u_deletedAt kv.2 = None) (map_to_list (users d)).

Definition announcement (title message : string) (link : option string) (now : Z) (p : id) : InboxRow :=
  mkInboxRow p title message NT_ANNOUNCEMENT false link now.
Definition createMany (rows : list InboxRow) (s : NState) : NState :=
  fold_left (fun s r => (insert_row r s).2) rows s.

Definition PUSH_BATCH : nat := 50.
(** The calls of a batch run up to their first [await], the realtime event, in
    the order of the parents; the pushes of different parents share no row, and are
    taken in the same order. *)
Definition announce_event (title message : string) (link : option string) (s : NState) (p : id) : NState :=
  log (SentRealtime p title message link) s.
Definition announce_push (title message : string) (link : option string) (s : NState) (p : id) : NState :=
  sendPushNotification p (mkPushPayload title message link None (Some NT_ANNOUNCEMENT)) s.
Definition announce_batch (title message : string) (link : option string) (batch : list id) (s : NState) : NState :=
  fold_left (announce_push title message link) batch (fold_left (announce_event title message link) batch s).
(** The loop over batches from [i], for as many turns as there is fuel. *)
Fixpoint push_batches (title message : string) (link : option string) (parents : list id) (i fuel : nat) (s : NState)
    : NState :=
  match fuel with
  | O => s
  | S fuel =>
      if (length parents <=? i)%nat then s
      else push_batches title message link parents (i + PUSH_BATCH) fuel
             (announce_batch title message link (take PUSH_BATCH (drop i parents)) s)
  end.

Definition broadcastToParents (title message : string) (link : option string) (now : Z) (d : DB) (s : NState)
    : Z * NState :=
  match broadcast_recipients d with
  | [] => (0, s)
  | parents =>
      let s := createMany (announcement title message link now <$> parents) s in
      (Z.of_nat (length parents), push_batches title message link parents 0 (length parents) s)
  end.

(** ** The inbox *)

Definition LIST_LIMIT : Z := 100.
Definition MAX_LIST_LIMIT : Z := 200.

(** [orderBy: { createdAt: 'desc' }] *)
Context (newest : list (id * InboxRow) -> list (id * InboxRow)).

Record InboxPage := mkInboxPage { ip_items : list (id * InboxRow); ip_unreadCount : Z; ip_limit : Z }.

Definition requested_limit (limit : option number) : Z :=
  match limit with
  | Some (Finite q) => let n := Z.quot (Qnum q) (QDen q) in if 0 <? n then n else LIST_LIMIT
  | _ => LIST_LIMIT
  end.

Definition unread_of (userId : id) (r : InboxRow) : bool := bool_decide (ib_userId r = userId) && negb (ib_isRead r).

Definition getUserNotifications (userId : id) (limit : option number) (s : NState) : InboxPage :=
  let take_ := Z.min (requested_limit limit) MAX_LIST_LIMIT in
  mkInboxPage (window 0 take_ (newest (findMany (fun r => bool_decide (ib_userId r = userId)) (ns_rows s))))
    (count (unread_of userId) (ns_rows s)) take_.
(** [limit ? Number(limit) : undefined] *)
Definition query_limit (limit : option text) : option number :=
  match limit with Some ((_ :: _) as t) => Some (Number t) | _ => None end.

Definition markAsRead (notificationId userId : id) (s : NState) : res InboxRow * NState :=
  match ns_rows s !! notificationId with
  | Some r =>
      if bool_decide (ib_userId r = userId) then
        (Ok (set_ib_isRead true r), set_rows (<[notificationId := set_ib_isRead true r]> (ns_rows s)) s)
      else (Err (FNotFound "Notification not found or access denied"), s)
  | None => (Err (FNotFound "Notification not found or access denied"), s)
  end.

Definition markAllAsRead (userId : id) (s : NState) : Z * NState :=
  (count (unread_of userId) (ns_rows s),
   set_rows ((fun r => if unread_of userId r then set_ib_isRead true r else r) <$> ns_rows s) s).
End Push.

(** ** Laws *)

Lemma count_new {V} (cond : V -> bool) (m : gmap id V) i v :
  m !! i = None -> count cond (<[i := v]> m) = count cond m + (if cond v then 1 else 0).
Proof.
  intros H. unfold count, findMany. rewrite (map_to_list_insert m i v H), filter_cons. cbn [snd].
  destruct (cond v) eqn:E; case_decide; try congruence; cbn [length]; lia.
Qed.

(** Rows change ids for nobody: a map over the rows keeps the count of what it
    keeps. *)
Lemma count_zero {V} (cond : V -> bool) (m : gmap id V) :
  (forall i v, m !! i = Some v -> cond v = false) -> count cond m = 0.
Proof.
  intros H. unfold count. replace (findMany cond m) with (@nil (id * V)); [done|].
  symmetry. unfold findMany. destruct (filter _ (map_to_list m)) as [|[i v] l] eqn:E; [done|].
  assert ((i, v) ∈ filter (fun kv : id * V => cond kv.2 = true) (map_to_list m)) as Hin by (rewrite E; left).
  apply list_elem_of_filter in Hin as [Hc Hm%elem_of_map_to_list]. cbn in Hc. specialize (H _ _ Hm). congruence.
Qed.

Lemma count_fmap {V} (cond : V -> bool) (f : V -> V) (m : gmap id V) :
  (forall v, cond (f v) = cond v) -> count cond (f <$> m) = count cond m.
Proof.
  intros H. unfold count, findMany. rewrite map_to_list_fmap. f_equal.
  induction (map_to_list m) as [|[i v] l IH]; [done|]. rewrite fmap_cons, !filter_cons. cbn [prod_map fst snd].
  rewrite H. destruct (decide (cond v = true)); cbn [length]; by rewrite IH.
Qed.

Section Laws.
Context (id_str : id -> string) (type_str : NotificationType -> string) (webAppUrl : option string).
Context (fcm : list string -> PushMessage -> list SendResponse + caught).
Context (newest : list (id * InboxRow) -> list (id * InboxRow)) (newest_perm : forall l, newest l ≡ₚ l).

Abbreviation push := (sendPushNotification id_str type_str webAppUrl fcm).
Abbreviation inbox := (getUserNotifications newest).

Lemma invalid_tokens_incl tokens responses t : t ∈ invalid_tokens tokens responses -> t ∈ tokens.
Proof.
  revert responses. induction tokens as [|x tokens IH]; intros [|r responses]; try (by intros ?%elem_of_nil). simpl.
  destruct (permanent r); [intros [->|H]%elem_of_cons; [left|right; by eapply IH]|intros H; right; by eapply IH].
Qed.

Lemma elem_of_tokens u s t : t ∈ getTokensForUser u s <-> exists d, ns_tokens s !! t = Some d /\ dt_userId d = u.
Proof.
  unfold getTokensForUser. split.
  - intros ([k d] & -> & [Hu Hin%elem_of_map_to_list]%list_elem_of_filter)%list_elem_of_fmap. eauto.
  - intros (d & Hd & Hu). apply list_elem_of_fmap. exists (t, d). split; [done|]. apply list_elem_of_filter.
    split; [done|]. by apply elem_of_map_to_list.
Qed.

Lemma tokens_nodup u s : NoDup (getTokensForUser u s).
Proof.
  unfold getTokensForUser. eapply sublist_NoDup; [apply (NoDup_fst_map_to_list (ns_tokens s))|].
  apply fmap_sublist, sublist_filter.
Qed.

(** A push: rows stay, only tokens of its user are dropped, and of these exactly
    those whose device answered that they are no more; a Firebase that fails, and
    an error that may pass, drop none. *)
Theorem push_outcomes u p s :
  let s' := push u p s in
  ns_rows s' = ns_rows s /\
  (forall t d, ns_tokens s' !! t = Some d -> ns_tokens s !! t = Some d) /\
  (forall t d, ns_tokens s !! t = Some d -> ns_tokens s' !! t = None ->
     dt_userId d = u /\ exists responses, fcm (getTokensForUser u s) (buildPushMessage id_str type_str webAppUrl p) = inl responses /\
       t ∈ invalid_tokens (getTokensForUser u s) responses) /\
  (forall responses, getTokensForUser u s <> [] ->
     fcm (getTokensForUser u s) (buildPushMessage id_str type_str webAppUrl p) = inl responses ->
     getTokensForUser u s' ≡ₚ filter (fun t => t ∉ invalid_tokens (getTokensForUser u s) responses) (getTokensForUser u s)).
Proof.
  intros s'. unfold s', sendPushNotification. destruct (getTokensForUser u s) as [|t0 ts] eqn:Et.
  { split; [done|]. split; [done|]. split; [intros t d H1 H2; congruence|done]. }
  rewrite <- Et. set (m := buildPushMessage _ _ _ p). clear s'.
  destruct (fcm (getTokensForUser u s) m) as [responses|e] eqn:Ef.
  2:{ split; [done|]. split; [done|]. split; [intros t d H1 H2; cbn in H2; congruence|done]. }
  split; [done|]. cbn [ns_tokens set_tokens log]. split; [intros t d [H _]%map_lookup_filter_Some; done|].
  split.
  - intros t d H Hn. destruct (decide (t ∈ invalid_tokens (getTokensForUser u s) responses)) as [Hi|Hi].
    + split; [|eauto]. apply invalid_tokens_incl in Hi. apply elem_of_tokens in Hi as (d' & Hd' & Hu). congruence.
    + apply map_lookup_filter_None in Hn as [Hn|Hn]; [congruence|]. exfalso. by apply (Hn d H).
  - intros responses' _ [= <-]. apply NoDup_Permutation; [apply tokens_nodup| |].
    + eapply sublist_NoDup; [apply (tokens_nodup u s)|apply sublist_filter].
    + intros t. rewrite list_elem_of_filter, !elem_of_tokens. cbn [ns_tokens set_tokens log].
      split.
      * intros (d & [H Hi]%map_lookup_filter_Some & Hu). split; [done|]. eauto.
      * intros (Hi & d & H & Hu). exists d. split; [|done]. by apply map_lookup_filter_Some.
Qed.

(** ** Devices *)

(** A device is pushed to for the account that registered it last, and for no
    other; an account can only take its own devices off. *)
Theorem device_follows_account u token platform s v :
  (token ∈ getTokensForUser v (register u token platform s) <-> v = u) /\
  (forall t, t <> token -> t ∈ getTokensForUser v (register u token platform s) <-> t ∈ getTokensForUser v s) /\
  (forall t, t ∈ getTokensForUser v (unregister u token s) <-> t ∈ getTokensForUser v s /\ ~ (t = token /\ v = u)).
Proof.
  split; [|split].
  - rewrite elem_of_tokens. cbn [register ns_tokens set_tokens]. setoid_rewrite lookup_insert_eq. naive_solver.
  - intros t Ht. rewrite !elem_of_tokens. cbn [register ns_tokens set_tokens]. by setoid_rewrite lookup_insert_ne; [|done].
  - intros t. rewrite !elem_of_tokens. cbn [unregister ns_tokens set_tokens]. split.
    + intros (d & [H Hn]%map_lookup_filter_Some & Hu). cbn in Hn. split; [eauto|]. naive_solver.
    + intros ((d & H & Hu) & Hn). exists d. split; [|done]. apply map_lookup_filter_Some. split; [done|]. cbn. naive_solver.
Qed.

(** ** The inbox *)

Lemma page_limit limit : 1 <= Z.min (requested_limit limit) MAX_LIST_LIMIT <= 200.
Proof.
  unfold requested_limit, LIST_LIMIT, MAX_LIST_LIMIT. destruct limit as [[| |q]|]; try lia.
  destruct (Z.ltb_spec 0 (Z.quot (Qnum q) (QDen q))); lia.
Qed.

(** What a user is shown: between one and 200 rows, whatever the limit asked
    for, newest first, all of them the user's; every one of them when they fit; and
    the exact number of the unread ones, shown or not. *)
Theorem inbox_page u limit s :
  let v := inbox u limit s in
  1 <= ip_limit v <= 200 /\ Z.of_nat (length (ip_items v)) <= ip_limit v /\
  (forall i r, (i, r) ∈ ip_items v -> ns_rows s !! i = Some r /\ ib_userId r = u) /\
  (count (fun r => bool_decide (ib_userId r = u)) (ns_rows s) <= ip_limit v ->
     ip_items v ≡ₚ findMany (fun r => bool_decide (ib_userId r = u)) (ns_rows s)) /\
  ip_unreadCount v = count (unread_of u) (ns_rows s) /\
  (limit = None \/ limit = Some NaN \/ (exists q, limit = Some (Finite q) /\ Qle q 0) -> ip_limit v = 100).
Proof.
  intros v. pose proof (page_limit limit) as Hl. unfold v, getUserNotifications. cbn [ip_items ip_unreadCount ip_limit].
  set (n := Z.min _ _) in *. set (rows := findMany _ _). split; [done|].
  split; [by apply window_length; lia|]. split.
  { intros i r H%window_incl. rewrite newest_perm in H. apply elem_of_findMany in H as [H Hu]. by apply bool_decide_eq_true in Hu. }
  split.
  { unfold count. fold rows. intros Hc. unfold window. rewrite (proj2 (Z.ltb_ge n 0)) by lia. change (Z.to_nat 0) with 0%nat. rewrite drop_0.
    rewrite take_ge; [apply newest_perm|]. rewrite newest_perm. lia. }
  split; [done|]. unfold n, requested_limit, LIST_LIMIT, MAX_LIST_LIMIT.
  intros [->|[->|(q & -> & Hq)]]; [done..|].
  assert (Z.quot (Qnum q) (QDen q) <= 0) as H.
  { unfold Qle in Hq. cbn in Hq. assert (Qnum q <= 0) as Hn by lia.
    pose proof (Z.quot_opp_l (Qnum q) (QDen q) ltac:(done)). pose proof (Z.quot_pos (- Qnum q) (QDen q) ltac:(lia) ltac:(done)). lia. }
  by rewrite (proj2 (Z.ltb_ge _ _) H).
Qed.

(** Marking everything read: as many rows change as were unread, none is left,
    and no other user's row changes. *)
Theorem mark_all_outcomes u s :
  let '(updated, s') := markAllAsRead u s in
  updated = ip_unreadCount (inbox u None s) /\ ip_unreadCount (inbox u None s') = 0 /\
  (forall i, ns_rows s' !! i =
     (fun r => if unread_of u r then set_ib_isRead true r else r) <$> ns_rows s !! i) /\
  (forall v limit, v <> u -> ip_unreadCount (inbox v limit s') = ip_unreadCount (inbox v limit s)).
Proof.
  cbn [markAllAsRead]. split; [done|]. unfold markAllAsRead, getUserNotifications. cbn [ip_unreadCount set_rows ns_rows].
  split; [|split].
  - apply count_zero. intros i r (r0 & <- & _)%lookup_fmap_Some. destruct (unread_of u r0) eqn:E; [|done].
    unfold unread_of, set_ib_isRead. cbn. by rewrite andb_false_r.
  - intros i. apply lookup_fmap.
  - intros v limit Hv. apply count_fmap. intros r. destruct (unread_of u r) eqn:E; [|done].
    unfold unread_of in *. to_prop. destruct E as [<- _]. cbn. by rewrite bool_decide_false.
Qed.

(** One row is marked only by its owner, and then nothing else changes. *)
Theorem mark_outcomes i u s :
  match ns_rows s !! i with
  | Some r => if decide (ib_userId r = u)
              then markAsRead i u s = (Ok (set_ib_isRead true r), set_rows (<[i := set_ib_isRead true r]> (ns_rows s)) s)
              else markAsRead i u s = (Err (FNotFound "Notification not found or access denied"), s)
  | None => markAsRead i u s = (Err (FNotFound "Notification not found or access denied"), s)
  end.
Proof. unfold markAsRead. destruct (ns_rows s !! i) as [r|]; [|done]. by case_decide; [rewrite bool_decide_true|rewrite bool_decide_false]. Qed.

(** ** Announcements *)

(** Ids come from a counter. *)
Definition fresh_rows (s : NState) : Prop := forall i r, ns_rows s !! i = Some r -> (i < ns_next s)%positive.

Definition rows_of (u : id) (s : NState) : Z := count (fun r => bool_decide (ib_userId r = u)) (ns_rows s).
Definition event_to (u : id) (e : sent) : bool :=
  match e with SentRealtime v _ _ _ => bool_decide (v = u) | _ => false end.
Definition events_to (u : id) (l : list sent) : nat := length (filter (fun e => event_to u e = true) l).

(** Rows of [s'] that [s] did not have are announcements to their users. *)
Definition grown (title message : string) (link : option string) (now : Z) (s s' : NState) : Prop :=
  (forall i r, ns_rows s !! i = Some r -> ns_rows s' !! i = Some r) /\
  (forall i r, ns_rows s' !! i = Some r ->
     ns_rows s !! i = Some r \/ r = announcement title message link now (ib_userId r)).

Lemma createMany_grows title message link now parents : forall s, fresh_rows s ->
  let s' := createMany (announcement title message link now <$> parents) s in
  fresh_rows s' /\ grown title message link now s s' /\ ns_tokens s' = ns_tokens s /\ ns_sent s' = ns_sent s /\
  forall u, rows_of u s' = rows_of u s + Z.of_nat (length (filter (fun p => p = u) parents)).
Proof.
  induction parents as [|p parents IH]; intros s Hf s'; [repeat split; try done; [by left|intros u; cbn; lia]|].
  set (r := announcement title message link now p). set (s1 := (insert_row r s).2).
  assert (ns_rows s !! ns_next s = None) as Hn.
  { destruct (ns_rows s !! ns_next s) eqn:E; [|done]. apply Hf in E. lia. }
  assert (fresh_rows s1) as Hf1.
  { intros i x. cbn. intros [[<- _]|[_ Hx%Hf]]%lookup_insert_Some; lia. }
  destruct (IH s1 Hf1) as (H1 & [H2 H2'] & H3 & H4 & H5). change s' with (createMany (announcement title message link now <$> parents) s1).
  split; [done|]. split; [split|split; [done|split; [done|]]].
  - intros i x Hx. apply H2. cbn. apply lookup_insert_Some. right. split; [congruence|done].
  - intros i x Hx. destruct (H2' _ _ Hx) as [Hx1|]; [|by right].
    cbn in Hx1. apply lookup_insert_Some in Hx1 as [[_ <-]|[_ Hx1]]; [by right|by left].
  - intros u. rewrite H5. unfold rows_of at 1. cbn [s1 insert_row snd ns_rows]. rewrite count_new by done.
    fold (rows_of u s). cbn [r announcement ib_userId]. rewrite filter_cons. case_decide; case_bool_decide; try congruence;
      cbn [length]; lia.
Qed.

Lemma push_events u p s v :
  events_to v (ns_sent (push u p s)) = events_to v (ns_sent s) /\ ns_next (push u p s) = ns_next s.
Proof.
  unfold sendPushNotification. destruct (getTokensForUser u s) as [|t ts]; [done|].
  set (m := buildPushMessage _ _ _ p).
  assert (events_to v (ns_sent (log (SentPush (t :: ts) m) s)) = events_to v (ns_sent s)) as H.
  { unfold events_to. cbn [log ns_sent]. rewrite list.filter_app, length_app. rewrite filter_cons, filter_nil. cbn [event_to]. rewrite decide_False by done. cbn [length]. lia. }
  destruct (fcm _ _); (split; [apply H|done]).
Qed.

(** [s'] differs from [s] in the log and the tokens, by one event to each of
    [parents]. *)
Definition announced (parents : list id) (s s' : NState) : Prop :=
  ns_rows s' = ns_rows s /\ ns_next s' = ns_next s /\
  forall u, events_to u (ns_sent s') = (events_to u (ns_sent s) + length (filter (fun p => p = u) parents))%nat.

Lemma announced_trans a b s1 s2 s3 : announced a s1 s2 -> announced b s2 s3 -> announced (a ++ b) s1 s3.
Proof.
  intros (H1 & H2 & H3) (K1 & K2 & K3). split; [congruence|]. split; [congruence|]. intros u.
  rewrite K3, H3, list.filter_app, length_app. lia.
Qed.

Lemma pushes_quiet title message link parents : forall s,
  announced [] s (fold_left (announce_push id_str type_str webAppUrl fcm title message link) parents s).
Proof.
  induction parents as [|p parents IH]; intros s; [by repeat split; try (intros u; cbn; lia)|].
  cbn [fold_left]. apply (announced_trans [] [] _ (announce_push id_str type_str webAppUrl fcm title message link s p)); [|apply IH].
  unfold announce_push. split; [apply push_outcomes|]. split; [by apply (push_events _ _ _ p)|]. intros u.
  rewrite (proj1 (push_events _ _ _ u)). cbn. lia.
Qed.
Lemma events_announced title message link parents : forall s,
  announced parents s (fold_left (announce_event title message link) parents s).
Proof.
  induction parents as [|p parents IH]; intros s; [by repeat split; try (intros u; cbn; lia)|].
  cbn [fold_left]. apply (announced_trans [p] parents _ (announce_event title message link s p)); [|apply IH].
  split; [done|]. split; [done|]. intros u. unfold events_to, announce_event. cbn [log ns_sent].
  rewrite list.filter_app, length_app, !filter_cons, !filter_nil. cbn [event_to].
  destruct (decide (p = u)); [rewrite bool_decide_true by done|rewrite bool_decide_false by done];
    repeat case_decide; try congruence; cbn [length]; lia.
Qed.

(** The loop over batches visits every parent once. *)
Lemma push_batches_all title message link parents fuel : forall i s, (length parents <= i + fuel)%nat ->
  announced (drop i parents) s (push_batches id_str type_str webAppUrl fcm title message link parents i fuel s).
Proof.
  induction fuel as [|fuel IH]; intros i s H; cbn [push_batches].
  - rewrite drop_ge by lia. by repeat split; try (intros u; cbn; lia).
  - destruct (Nat.leb_spec (length parents) i).
    { rewrite drop_ge by lia. by repeat split; try (intros u; cbn; lia). }
    assert (drop i parents = (take PUSH_BATCH (drop i parents) ++ []) ++ drop (i + PUSH_BATCH) parents) as E.
    { by rewrite app_nil_r, <- drop_drop, take_drop. }
    rewrite E at 1. eapply announced_trans; [|apply IH; unfold PUSH_BATCH; lia].
    unfold announce_batch. eapply announced_trans; [apply events_announced|apply pushes_quiet].
Qed.

Lemma recipients_nodup d : NoDup (broadcast_recipients d).
Proof.
  unfold broadcast_recipients. eapply sublist_NoDup; [apply (NoDup_fst_map_to_list (users d))|].
  apply fmap_sublist, sublist_filter.
Qed.
(** A live account with the role of a parent. *)
Definition is_parent (d : DB) (u : id) : bool :=
  match users d !! u with Some x => bool_decide (u_role x = PARENT) && bool_decide (u_deletedAt x = None) | None => false end.
Lemma elem_of_recipients d u : u ∈ broadcast_recipients d <-> is_parent d u = true.
Proof.
  unfold broadcast_recipients, is_parent. split.
  - intros ([i x] & -> & [[H1 H2] Hin%elem_of_map_to_list]%list_elem_of_filter)%list_elem_of_fmap.
    cbn [fst snd] in *. rewrite Hin. by rewrite !bool_decide_true.
  - destruct (users d !! u) as [x|] eqn:Hx; [|done]. intros H. to_prop. destruct H as [H1 H2]. apply list_elem_of_fmap.
    exists (u, x). split; [done|]. apply list_elem_of_filter. split; [done|]. by apply elem_of_map_to_list.
Qed.

Lemma once u (l : list id) : NoDup l -> length (filter (fun p => p = u) l) = if decide (u ∈ l) then 1%nat else 0%nat.
Proof.
  induction 1 as [|x l Hx _ IH]; [by rewrite decide_False by (by intros ?%elem_of_nil)|]. rewrite filter_cons.
  destruct (decide (x = u)) as [->|Hn].
  - cbn [length]. rewrite IH, decide_False by done. by rewrite decide_True by left.
  - rewrite IH. destruct (decide (u ∈ l)) as [Hin|Hin]; [by rewrite decide_True by by right|].
    rewrite decide_False; [done|]. by intros [->|H]%elem_of_cons.
Qed.

(** An announcement reaches every parent with an account, once, and nobody
    else: each gets one new row, of the kind the announcements tab shows, and one
    realtime event, whatever the pushes to devices meet and however the parents
    fall into batches; the rows there were stay as they are. *)
Theorem broadcast_reaches_parents title message link now d s :
  fresh_rows s ->
  let '(recipients, s') := broadcastToParents id_str type_str webAppUrl fcm title message link now d s in
  recipients = Z.of_nat (length (broadcast_recipients d)) /\ fresh_rows s' /\ grown title message link now s s' /\
  forall u,
    let one := if is_parent d u then 1%nat else 0%nat in
    rows_of u s' = rows_of u s + Z.of_nat one /\ events_to u (ns_sent s') = (events_to u (ns_sent s) + one)%nat.
Proof.
  intros Hf. assert (forall u, (if is_parent d u then 1 else 0)%nat =
     length (filter (fun p => p = u) (broadcast_recipients d))) as Hone.
  { intros u. rewrite once by apply recipients_nodup. pose proof (elem_of_recipients d u).
    case_decide; destruct (is_parent d u); naive_solver. }
  unfold broadcastToParents. destruct (broadcast_recipients d) as [|p ps] eqn:E.
  - split; [done|]. split; [done|]. split; [split; intros i r Hr; [done|by left]|].
    intros u. rewrite Hone. split; cbn; lia.
  - destruct (createMany_grows title message link now (p :: ps) s Hf) as (H1 & H2 & _ & H4 & H5).
    set (s1 := createMany _ s) in *.
    destruct (push_batches_all title message link (p :: ps) (length (p :: ps)) 0 s1) as (Hr & Hnext & He); [lia|].
    rewrite drop_0 in He. set (s2 := push_batches _ _ _ _ _ _ _ _ _ _ s1) in *.
    split; [done|].
    split; [intros i r; rewrite Hr, Hnext; apply H1|]. split; [by unfold grown; rewrite Hr|].
    intros u. rewrite Hone. split; [unfold rows_of; rewrite Hr; apply H5|by rewrite He, H4].
Qed.
End Laws.

(** ** Witness *)

Definition sample_inbox : NState :=
  register 11 "device-1" "android" (mkNState {[ 3%positive := announcement "Old" "News" None 0 11 ]} ∅ 4 []).
Definition sample_fcm (tokens : list string) (m : PushMessage) : list SendResponse + caught :=
  inl ((fun _ => mkSendResponse false (Some "messaging/invalid-argument"%string)) <$> tokens).

Lemma broadcast_reaches_parents_witness :
  exists s', broadcastToParents pretty (fun _ => "ANNOUNCEMENT"%string) None sample_fcm "Term" "starts" None 9
      sample_db sample_inbox = (1, s') /\
    rows_of 11 s' = 2 /\ rows_of 10 s' = 0 /\ events_to 11 (ns_sent s') = 1%nat /\ getTokensForUser 11 s' = [].
Proof.
  pose proof (broadcast_reaches_parents pretty (fun _ => "ANNOUNCEMENT"%string) None sample_fcm "Term" "starts" None 9
    sample_db sample_inbox) as H.
  destruct (broadcastToParents _ _ _ _ _ _ _ _ _ sample_inbox) as [n s'] eqn:E. exists s'.
  destruct H as (Hn & _ & _ & H).
  { intros i r Hr. cbn in Hr. apply lookup_singleton_Some in Hr as [<- _]. done. }
  split; [by rewrite Hn|]. destruct (H 11%positive) as [H1 H2], (H 10%positive) as [H3 _].
  split; [rewrite H1; reflexivity|]. split; [rewrite H3; reflexivity|]. split; [rewrite H2; reflexivity|].
  apply (f_equal (fun x => getTokensForUser 11 x.2)) in E. cbn [snd] in E. rewrite <- E. vm_compute. reflexivity.
Defined.
