(* ===== verification/Redact.v ===== *)
(** * What reaches the logs

    [src/common/logger/redact.ts], [auth-events.ts] and [better-auth-logger.ts]:
    masks, the sweep for addresses in free text, bags of fields, and the bridge
    from Better Auth's logger. *)

From S2P Require Import Prelude JsText.

(** ** Masks *)

(** [t.slice(0, i)] and [t.slice(i + 1)] at the last [sep]. *)
Fixpoint split_last (sep : Z) (t : text) : option (text * text) :=
  match t with
  | [] => None
  | c :: t' =>
      match split_last sep t' with
      | Some (a, b) => Some (c :: a, b)
      | None => if c =? sep then Some ([], t') else None
      end
  end.

(** The first and the last UTF-16 unit of a character. *)
Definition first_unit (c : Z) : Z := if c <? 65536 then c else 55296 + (c - 65536) / 1024.
Definition last_unit (c : Z) : Z := if c <? 65536 then c else 56320 + (c - 65536) mod 1024.

Definition stars : text := text_of "***".
Definition maskLocal (local : text) : text :=
  if js_length local <=? 2 then stars
  else match head local, list.last local with
       | Some x, Some y => first_unit x :: stars ++ [last_unit y]
       | _, _ => stars
       end.
Definition maskEmail (email : option text) : text :=
  match email with
  | None | Some [] => text_of "<none>"
  | Some email =>
      match split_last 64 (trim email) with
      | None | Some ([], _) => text_of "<malformed>"
      | Some (local, domain) => maskLocal local ++ 64 :: domain
      end
  end.

Definition maskPhone (phone : option text) : text :=
  match phone with
  | None | Some [] => text_of "<none>"
  | Some phone =>
      let digits := filter (fun c => is_digit c = true) phone in
      if (length digits <? 4)%nat then stars else stars ++ drop (length digits - 4) digits
  end.

(** ** Addresses in free text *)

(** The two character classes of [EMAIL_IN_TEXT]: no white space, at sign, quote,
    angle bracket, comma or semicolon; and [A-Za-z0-9.-]. *)
Definition is_local (c : Z) : bool := negb (is_js_whitespace c || bool_decide (c ∈ [64; 39; 34; 60; 62; 44; 59])).
Definition is_domain (c : Z) : bool := is_letter c || is_digit c || (c =? 46) || (c =? 45).

(** The longest prefix of characters that satisfy [p]. *)
Fixpoint run (p : Z -> bool) (t : text) : text :=
  match t with c :: t' => if p c then c :: run p t' else [] | [] => [] end.

(** How much [[A-Za-z0-9.-]*\.[A-Za-z]{2,}] takes: the star gives back only
    what it must. *)
Fixpoint tld_after (t : text) : option nat :=
  match t with
  | [] => None
  | c :: t' =>
      match (if is_domain c then tld_after t' else None) with
      | Some n => Some (S n)
      | None =>
          let tld := run is_letter t' in
          if (c =? 46) && (2 <=? length tld)%nat then Some (S (length tld)) else None
      end
  end.
(** [[A-Za-z0-9.-]+\.[A-Za-z]{2,}], and what follows it. *)
Definition email_domain (t : text) : option (text * text) :=
  match t with
  | c :: t' => if is_domain c then (fun n => (take (S n) t, drop (S n) t)) <$> tld_after t' else None
  | [] => None
  end.

(** [EMAIL_IN_TEXT] at the start of [t]. *)
Definition email_at (t : text) : option text :=
  let local := run is_local t in
  match local, drop (length local) t with
  | _ :: _, c :: rest =>
      if c =? 64 then (fun d : text * text => local ++ 64 :: d.1) <$> email_domain rest else None
  | _, _ => None
  end.

(** [text.replace(EMAIL_IN_TEXT, maskEmail)], [skip] characters into a match. *)
Fixpoint replace_emails (skip : nat) (t : text) : text :=
  match t with
  | [] => []
  | c :: t' =>
      match skip with
      | S skip => replace_emails skip t'
      | O =>
          match email_at t with
          | Some m => maskEmail (Some m) ++ replace_emails (length m - 1) t'
          | None => c :: replace_emails 0 t'
          end
      end
  end.
Definition redactText : text -> text := replace_emails 0.

(** ** Bags of fields *)

(** What a logger is handed; an object's keys are in the order of its entries,
    none of them one that [Object.prototype] has. *)
Inductive LogValue :=
| LText (t : text)
| LPrimitive (printed : string)
| LArray (l : list LogValue)
| LObject (fields : list (string * LogValue))
| LError (name message stack : text).

Definition SENSITIVE_KEYS : list string :=
  ["password"; "newPassword"; "currentPassword"; "confirmPassword"; "token"; "accessToken"; "refreshToken";
   "sessionToken"; "secret"; "authorization"; "cookie"; "accountNumber"]%string.
Definition MASKED_KEYS : list (string * (option text -> text)) :=
  [("email", maskEmail); ("ownerEmail", maskEmail); ("phone", maskPhone); ("phoneNumber", maskPhone)]%string.
Definition mask_of (key : string) : option (option text -> text) :=
  snd <$> head (filter (fun kv : string * (option text -> text) => kv.1 = key) MASKED_KEYS).

Definition redacted : LogValue := LText (text_of "[redacted]").
Definition redact_field (key : string) (value : LogValue) : LogValue :=
  if bool_decide (key ∈ SENSITIVE_KEYS) then redacted
  else match mask_of key, value with
       | Some mask, LText v => LText (mask (Some v))
       | _, _ => value
       end.
Definition redactFields (fields : list (string * LogValue)) : list (string * LogValue) :=
  (fun kv => (kv.1, redact_field kv.1 kv.2)) <$> fields.

(** [{ ...base, ...fields }] *)
Fixpoint set_field (kv : string * LogValue) (o : list (string * LogValue)) : list (string * LogValue) :=
  match o with
  | [] => [kv]
  | x :: o' => if bool_decide (x.1 = kv.1) then (x.1, kv.2) :: o' else x :: set_field kv o'
  end.
Definition spread (base fields : list (string * LogValue)) : list (string * LogValue) :=
  fold_left (fun o kv => set_field kv o) fields base.

(** ** Loggers *)

(** Nest's levels. *)
Inductive Severity := SevLog | SevWarn | SevError | SevDebug | SevVerbose | SevFatal.
Record LogLine := mkLogLine { ll_severity : Severity; ll_entry : LogValue }.

Inductive AuthEventOutcome := Succeeded | Rejected | Failed.
Definition outcome_str (o : AuthEventOutcome) : string :=
  match o with Succeeded => "succeeded" | Rejected => "rejected" | Failed => "failed" end.

Definition logAuthEvent (event : string) (outcome : AuthEventOutcome) (fields : list (string * LogValue)) : LogLine :=
  let entry := LObject (spread [("event", LText (text_of event)); ("outcome", LText (text_of (outcome_str outcome)))]%string
                          (redactFields fields)) in
  mkLogLine match outcome with Succeeded => SevLog | Rejected => SevWarn | Failed => SevError end entry.

Definition scrubLogArg (arg : LogValue) : LogValue :=
  match arg with
  | LText t => LText (redactText t)
  | LError name message _ => LObject [("name", LText name); ("message", LText (redactText message))]%string
  | LObject fields => LObject (redactFields fields)
  | LArray _ | LPrimitive _ => arg
  end.

Inductive BetterAuthLogLevel := BaDebug | BaInfo | BaWarn | BaError.
(** [createBetterAuthLogger(logger).log] *)
Definition better_auth_log (level : BetterAuthLogLevel) (message : text) (args : list LogValue) : LogLine :=
  let safeArgs := scrubLogArg <$> args in
  let payload := LObject (("message", LText (redactText message))
                   :: match safeArgs with [] => [] | _ => [("details", LArray safeArgs)] end)%string in
  mkLogLine match level with BaError => SevError | BaWarn => SevWarn | BaDebug => SevDebug | BaInfo => SevLog end payload.

Example address_in_a_sentence :
  redactText (text_of "to <ada.l@x.com>, ok") = text_of "to <a***l@x.com>, ok"
  /\ redactText (text_of "see @lopay on socials") = text_of "see @lopay on socials".
Proof. split; reflexivity. Qed.

(** ** Laws of the sweep *)

Lemma run_stop p a c x : p c = false -> run p (a ++ c :: x) = run p a.
Proof. intros H. induction a as [|y a IH]; cbn; [by rewrite H|]. by destruct (p y); rewrite ?IH. Qed.
Lemma run_all p l c x : Forall (fun y => p y = true) l -> p c = false -> run p (l ++ c :: x) = l.
Proof. intros F H. rewrite run_stop by done. induction F as [|y l Hy _ IH]; [done|]. cbn. by rewrite Hy, IH. Qed.
Lemma run_prefix p t : run p t ++ drop (length (run p t)) t = t.
Proof. induction t as [|c t IH]; [done|]. cbn. destruct (p c); [cbn; by rewrite IH|done]. Qed.

Lemma letter_domain c : is_letter c = true -> is_domain c = true.
Proof. unfold is_domain. by intros ->. Qed.
Lemma domain_local c : is_domain c = true -> is_local c = true /\ c <> 64.
Proof.
  unfold is_domain, is_local, is_letter, is_digit, is_js_whitespace. intros H. to_prop.
  rewrite bool_decide_false by (rewrite !elem_of_cons, elem_of_nil; lia). split; [|lia].
  rewrite orb_false_r. apply negb_true_iff. repeat (apply orb_false_iff; split); try (apply andb_false_iff); lia.
Qed.

Lemma tld_after_length t n : tld_after t = Some n -> (n <= length t)%nat.
Proof.
  revert n. induction t as [|c t IH]; [done|]. intros n. cbn [tld_after length].
  assert (length (run is_letter t) <= length t)%nat as Hr.
  { pose proof (f_equal length (run_prefix is_letter t)) as E. rewrite length_app in E. lia. }
  destruct (if is_domain c then tld_after t else None) as [k|] eqn:E.
  - destruct (is_domain c); [|done]. specialize (IH _ E). intros [= <-]. lia.
  - destruct (_ && _); [|done]. intros [= <-]. lia.
Qed.

(** Where no match goes past. *)
Definition delimiter (c : Z) : bool := negb (is_local c) && negb (c =? 64).
Lemma delimiter_spec c : delimiter c = true -> is_local c = false /\ c <> 64 /\ is_domain c = false /\ is_letter c = false.
Proof.
  unfold delimiter. intros H. to_prop. destruct H as [H1 H2]. split; [done|]. split; [lia|].
  destruct (is_domain c) eqn:E; [apply domain_local in E as [? _]; congruence|]. split; [done|].
  destruct (is_letter c) eqn:E'; [|done]. apply letter_domain in E'. congruence.
Qed.

Lemma tld_after_stop a c x : delimiter c = true -> tld_after (a ++ c :: x) = tld_after a.
Proof.
  intros (_ & _ & Hd & Hl)%delimiter_spec. induction a as [|y a IH]; cbn [app tld_after].
  - rewrite Hd. destruct (Z.eqb_spec c 46) as [->|]; done.
  - rewrite IH, run_stop by done. done.
Qed.

Lemma email_domain_stop a c x : delimiter c = true -> fst <$> email_domain (a ++ c :: x) = fst <$> email_domain a.
Proof.
  intros H. pose proof (delimiter_spec c H) as (_ & _ & Hd & _). destruct a as [|y a]; cbn [app email_domain].
  - by rewrite Hd.
  - destruct (is_domain y); [|done]. rewrite tld_after_stop by done. destruct (tld_after a) as [n|] eqn:E; [|done].
    apply tld_after_length in E. cbn [fmap option_fmap option_map fst take]. by rewrite take_app_le.
Qed.

Lemma email_at_stop a c x : delimiter c = true -> email_at (a ++ c :: x) = email_at a.
Proof.
  intros H. pose proof (delimiter_spec c H) as (Hl & Hc & _ & _). unfold email_at. cbv zeta. rewrite run_stop by done.
  pose proof (run_prefix is_local a) as E. set (l := run is_local a) in *.
  assert (drop (length l) (a ++ c :: x) = drop (length l) a ++ c :: x) as Hdrop.
  { rewrite drop_app_le; [done|]. apply (f_equal length) in E. rewrite length_app in E. lia. }
  destruct l as [|y l'] eqn:El; [done|]. rewrite Hdrop. destruct (drop _ a) as [|z r]; cbn [app].
  - by rewrite (proj2 (Z.eqb_neq c 64) Hc).
  - pose proof (email_domain_stop r c x H) as Hd. destruct (z =? 64); [|done].
    destruct (email_domain (r ++ c :: x)), (email_domain r); cbn in *; congruence.
Qed.

Lemma email_domain_split t d b : email_domain t = Some (d, b) -> t = d ++ b /\ d <> [].
Proof.
  unfold email_domain. destruct t as [|c t]; [done|]. destruct (is_domain c); [|done].
  destruct (tld_after t) as [n|] eqn:E; [|done]. cbn. intros [= <- <-]. cbn. by rewrite take_drop.
Qed.

Lemma email_at_length t m : email_at t = Some m -> m <> [] /\ (length m <= length t)%nat.
Proof.
  unfold email_at. pose proof (run_prefix is_local t) as E. set (l := run is_local t) in *.
  destruct l as [|y l'] eqn:El; [done|]. rewrite <- El in *. destruct (drop (length l) t) as [|z r]; [done|].
  intros H. assert (exists d b, email_domain r = Some (d, b) /\ m = l ++ 64 :: d) as (d & b & Hd & ->).
  { destruct (z =? 64); [|done]. destruct (email_domain r) as [[d b]|]; [|done]. injection H as <-. eauto. }
  apply email_domain_split in Hd as [-> _]. rewrite <- E, !length_app. cbn [length]. rewrite length_app.
  split; [by rewrite El|lia].
Qed.

Lemma replace_skip k t : replace_emails k t = redactText (drop k t).
Proof. revert k. induction t as [|c t IH]; intros [|k]; try done. exact (IH k). Qed.

(** What stands before a delimiter is swept for itself. *)
Lemma redact_delimited a c x k : delimiter c = true -> (k <= length a)%nat ->
  replace_emails k (a ++ c :: x) = replace_emails k a ++ c :: redactText x.
Proof.
  intros Hc. revert k. induction a as [|y a IH]; intros k Hk.
  - assert (k = 0%nat) as -> by (cbn in Hk; lia). pose proof (email_at_stop [] c x Hc) as E. cbn [app replace_emails] in *. by rewrite E.
  - cbn [app replace_emails length] in *. destruct k as [|k]; [|apply IH; lia].
    pose proof (email_at_stop (y :: a) c x Hc) as Hs. cbn [app] in Hs. rewrite Hs.
    destruct (email_at (y :: a)) as [m|] eqn:E; [|by rewrite IH by lia].
    apply email_at_length in E as [_ E]. cbn [length] in E. rewrite IH by lia. by rewrite (assoc_L (++)).
Qed.

Lemma tld_after_domain t n : tld_after t = Some n -> Forall (fun c => is_domain c = true) (take n t).
Proof.
  revert n. induction t as [|c t IH]; [done|]. intros n. cbn [tld_after].
  destruct (is_domain c) eqn:Ec; [destruct (tld_after t) as [k|] eqn:E|].
  - intros [= <-]. constructor; [done|by apply IH].
  - destruct (_ && _); [|done]. intros [= <-]. constructor; [done|]. cbn.
    clear. induction t as [|x t IH]; [constructor|]. cbn. destruct (is_letter x) eqn:E; [|constructor].
    constructor; [by apply letter_domain|done].
  - destruct (Z.eqb_spec c 46) as [->|]; [done|]. done.
Qed.
Lemma email_domain_chars t d b : email_domain t = Some (d, b) -> Forall (fun c => is_domain c = true) d.
Proof.
  unfold email_domain. destruct t as [|c t]; [done|]. destruct (is_domain c) eqn:Ec; [|done].
  destruct (tld_after t) as [n|] eqn:E; [|done]. intros [= <- _]. constructor; [done|by apply tld_after_domain].
Qed.

Lemma split_last_none sep t : sep ∉ t -> split_last sep t = None.
Proof.
  induction t as [|c t IH]; [done|]. intros [Hc Ht]%not_elem_of_cons. cbn. rewrite IH by done.
  by rewrite (proj2 (Z.eqb_neq c sep)).
Qed.
Lemma split_last_at sep l d : sep ∉ d -> split_last sep (l ++ sep :: d) = Some (l, d).
Proof.
  intros H. induction l as [|c l IH]; cbn; [by rewrite split_last_none, Z.eqb_refl|by rewrite IH].
Qed.

Lemma local_clean c : is_local c = true -> is_js_whitespace c = false.
Proof. unfold is_local. by destruct (is_js_whitespace c). Qed.

(** The mask of an address. *)
Lemma maskEmail_address l d : l <> [] -> Forall (fun c => is_local c = true) l -> Forall (fun c => is_domain c = true) d ->
  maskEmail (Some (l ++ 64 :: d)) = maskLocal l ++ 64 :: d.
Proof.
  intros Hl Fl Fd. assert (64 ∉ d) as Hd.
  { intros H%list_elem_of_In. rewrite List.Forall_forall in Fd. by apply Fd in H. }
  unfold maskEmail. rewrite trim_clean.
  - rewrite split_last_at by done. destruct l; [done|]. done.
  - apply Forall_app. split; [eapply Forall_impl; [|exact Fl]; apply local_clean|]. constructor; [done|].
    eapply Forall_impl; [|exact Fd]. intros c [H _]%domain_local. by apply local_clean.
Qed.

(** An address that stands at the start or after a delimiter is masked, whatever
    comes before and after it. *)
Definition address_start (a : text) : Prop := a = [] \/ exists a' c, a = a' ++ [c] /\ delimiter c = true.

Lemma redact_start a t : address_start a -> redactText (a ++ t) = redactText a ++ redactText t.
Proof.
  intros [->|(a' & c & -> & Hc)]; [done|]. rewrite <- (assoc_L (++)). cbn [app]. unfold redactText at 1 2.
  rewrite !redact_delimited by (done || lia). by rewrite <- (assoc_L (++)).
Qed.

Lemma address_masked a l rest d b : address_start a -> l <> [] -> Forall (fun c => is_local c = true) l ->
  email_domain rest = Some (d, b) ->
  redactText (a ++ l ++ 64 :: rest) = redactText a ++ maskLocal l ++ 64 :: d ++ redactText b.
Proof.
  intros Ha Hl Fl Hd. rewrite redact_start by done. f_equal. pose proof (email_domain_split _ _ _ Hd) as [-> _].
  assert (email_at (l ++ 64 :: d ++ b) = Some (l ++ 64 :: d)) as He.
  { unfold email_at. cbv zeta. rewrite run_all by done. destruct l as [|x l]; [done|].
    rewrite drop_app_length, Z.eqb_refl, Hd. done. }
  pose proof (maskEmail_address l d Hl Fl (email_domain_chars _ _ _ Hd)) as Hm.
  unfold redactText. destruct l as [|x l]; [done|]. cbn [app replace_emails] in *. rewrite He.
  rewrite Hm, replace_skip, <- !(assoc_L (++)). f_equal. cbn [app length]. f_equal. f_equal. f_equal.
  rewrite length_app. cbn [length].
  replace (S (length l + S (length d)) - 1)%nat with (length (l ++ 64 :: d)) by (rewrite length_app; cbn; lia).
  by rewrite (app_assoc l (64 :: d) b : l ++ 64 :: d ++ b = (l ++ 64 :: d) ++ b), drop_app_length.
Qed.

(** ** What a reader of the log cannot tell apart *)

(** Local parts with the same ends. *)
Definition same_ends (l l' : text) : Prop :=
  (exists x y m m', l = x :: m ++ [y] /\ l' = x :: m' ++ [y] /\ m <> [] /\ m' <> [])
  \/ (l <> [] /\ l' <> [] /\ js_length l <= 2 /\ js_length l' <= 2).

Lemma js_length_app a b : js_length (a ++ b) = js_length a + js_length b.
Proof. unfold js_length. induction a as [|c a IH]; cbn; [done|]. rewrite IH. destruct (c <? 65536); lia. Qed.
Lemma js_length_pos t : Z.of_nat (length t) <= js_length t.
Proof. induction t as [|c t IH]; cbn [length js_length foldr]; [done|]. fold (js_length t). destruct (c <? 65536); lia. Qed.

Lemma same_ends_mask l l' : same_ends l l' -> l <> [] /\ l' <> [] /\ maskLocal l = maskLocal l'.
Proof.
  intros [(x & y & m & m' & -> & -> & Hm & Hm')|(Hl & Hl' & H & H')].
  - split; [done|]. split; [done|].
    assert (forall n, n <> [] -> maskLocal (x :: n ++ [y]) = first_unit x :: stars ++ [last_unit y]) as E; [|by rewrite !E].
    intros n Hn. unfold maskLocal. pose proof (js_length_pos (x :: n ++ [y])) as H. cbn [length] in H.
    rewrite length_app in H. cbn [length] in H. destruct n as [|z n]; [done|]. cbn [length] in H.
    rewrite (proj2 (Z.leb_gt _ 2)) by lia. change (x :: (z :: n) ++ [y]) with ((x :: z :: n) ++ [y]).
    by rewrite last_snoc.
  - split; [done|]. split; [done|]. unfold maskLocal. by rewrite !(proj2 (Z.leb_le _ 2)).
Qed.

Inductive text_alike : text -> text -> Prop :=
| alike_refl t : text_alike t t
| alike_address a l l' rest :
    address_start a -> same_ends l l' -> Forall (fun c => is_local c = true) l -> Forall (fun c => is_local c = true) l' ->
    is_Some (email_domain rest) -> text_alike (a ++ l ++ 64 :: rest) (a ++ l' ++ 64 :: rest)
| alike_trans t u v : text_alike t u -> text_alike u v -> text_alike t v.

Lemma redact_alike t u : text_alike t u -> redactText t = redactText u.
Proof.
  induction 1 as [|a l l' rest Ha Hl Fl Fl' [[d b] Hd]|? ? ? _ -> _ ->]; [done| |done].
  apply same_ends_mask in Hl as (Hl & Hl' & E). by rewrite (address_masked a l rest d b), (address_masked a l' rest d b), E.
Qed.

(** Digits with the same last four. *)
Definition digits_of (t : text) : text := filter (fun c => is_digit c = true) t.
Definition phones_alike (t u : text) : Prop :=
  t <> [] /\ u <> [] /\ (4 <= length (digits_of t))%nat /\ (4 <= length (digits_of u))%nat /\
  drop (length (digits_of t) - 4) (digits_of t) = drop (length (digits_of u) - 4) (digits_of u).

(** Values under a key that log the same. *)
Inductive field_alike (key : string) : LogValue -> LogValue -> Prop :=
| field_same v : field_alike key v v
| field_secret v v' : key ∈ SENSITIVE_KEYS -> field_alike key v v'
| field_email l l' d : key = "email"%string \/ key = "ownerEmail"%string -> same_ends l l' ->
    Forall (fun c => is_local c = true) l -> Forall (fun c => is_local c = true) l' ->
    Forall (fun c => is_domain c = true) d -> field_alike key (LText (l ++ 64 :: d)) (LText (l' ++ 64 :: d))
| field_phone t u : key = "phone"%string \/ key = "phoneNumber"%string -> phones_alike t u ->
    field_alike key (LText t) (LText u).
Definition fields_alike : list (string * LogValue) -> list (string * LogValue) -> Prop :=
  Forall2 (fun kv kv' => kv.1 = kv'.1 /\ field_alike kv.1 kv.2 kv'.2).
Inductive arg_alike : LogValue -> LogValue -> Prop :=
| arg_same v : arg_alike v v
| arg_text t u : text_alike t u -> arg_alike (LText t) (LText u)
| arg_object f f' : fields_alike f f' -> arg_alike (LObject f) (LObject f')
| arg_error name m m' stack stack' : text_alike m m' -> arg_alike (LError name m stack) (LError name m' stack').

Lemma phones_mask t u : phones_alike t u -> maskPhone (Some t) = maskPhone (Some u).
Proof.
  intros (Ht & Hu & Lt & Lu & E). unfold maskPhone. destruct t as [|x t]; [done|]. destruct u as [|y u]; [done|].
  fold (digits_of (x :: t)) (digits_of (y :: u)). rewrite !(proj2 (Nat.ltb_ge _ 4)) by done. by rewrite E.
Qed.

Lemma email_keys key : key = "email"%string \/ key = "ownerEmail"%string ->
  bool_decide (key ∈ SENSITIVE_KEYS) = false /\ mask_of key = Some maskEmail.
Proof. by intros [->| ->]. Qed.
Lemma phone_keys key : key = "phone"%string \/ key = "phoneNumber"%string ->
  bool_decide (key ∈ SENSITIVE_KEYS) = false /\ mask_of key = Some maskPhone.
Proof. by intros [->| ->]. Qed.

Lemma redact_field_alike key v v' : field_alike key v v' -> redact_field key v = redact_field key v'.
Proof.
  intros H. unfold redact_field. inversion H as [v0|v0 v0' Hs|l l' d Hk Hl Fl Fl' Fd|t u Hk Hp]; subst; [done|..].
  - by rewrite bool_decide_true.
  - apply same_ends_mask in Hl as (Hl & Hl' & E).
    destruct (email_keys _ Hk) as [-> ->]. by rewrite !maskEmail_address, E.
  - destruct (phone_keys _ Hk) as [-> ->]. by rewrite (phones_mask t u).
Qed.
Lemma redactFields_alike f f' : fields_alike f f' -> redactFields f = redactFields f'.
Proof.
  induction 1 as [|[k v] [k' v'] f f' [E Hv] _ IH]; [done|]. cbn in E, Hv. subst k'. unfold redactFields in *.
  rewrite !fmap_cons, IH. cbn. by rewrite (redact_field_alike _ _ _ Hv).
Qed.
Lemma scrub_alike v v' : arg_alike v v' -> scrubLogArg v = scrubLogArg v'.
Proof.
  inversion 1 as [|t u Ht|f f' Hf|n m m' s s' Hm]; subst; cbn; [done|..].
  - by rewrite (redact_alike _ _ Ht).
  - by rewrite (redactFields_alike _ _ Hf).
  - by rewrite (redact_alike _ _ Hm).
Qed.

(** C31: what the redaction hides is not in the log: two calls of the bridge from
    Better Auth's logger, or two authentication events, write the same line when
    they differ only in values at the top level of an object or event under a
    secret key, in the interior of the local part of an address under [email] or
    [ownerEmail], in all but the last four digits of a number under [phone] or
    [phoneNumber], in the interior of the local part of an address that stands
    free in the message, in a text argument or in an error's message, and in an
    error's stack.  Nothing is claimed of values nested deeper, of lists, of text
    and numbers under other keys, or of addresses joined to one another, which
    are printed as they are. *)
Theorem logs_tell_no_more level message message' args args' event outcome fields fields' :
  text_alike message message' -> Forall2 arg_alike args args' -> fields_alike fields fields' ->
  better_auth_log level message args = better_auth_log level message' args' /\
  logAuthEvent event outcome fields = logAuthEvent event outcome fields'.
Proof.
  intros Hm Ha Hf. split.
  - unfold better_auth_log. rewrite (redact_alike _ _ Hm). f_equal. f_equal. f_equal.
    assert (scrubLogArg <$> args = scrubLogArg <$> args') as ->; [|done].
    induction Ha as [|v v' args args' Hv _ IH]; [done|]. by rewrite !fmap_cons, IH, (scrub_alike _ _ Hv).
  - unfold logAuthEvent. by rewrite (redactFields_alike _ _ Hf).
Qed.

(** What the bridge passes on as it is: lists, what lies deeper in an object, and
    text under a key that is not listed. *)
Theorem unscrubbed_arguments key t f l :
  key ∉ SENSITIVE_KEYS -> mask_of key = None ->
  scrubLogArg (LArray l) = LArray l /\
  scrubLogArg (LObject [(key, LObject f)]) = LObject [(key, LObject f)] /\
  scrubLogArg (LObject [(key, LText t)]) = LObject [(key, LText t)].
Proof.
  intros Hs Hm. cbn. unfold redact_field. rewrite bool_decide_false by done. by rewrite Hm.
Qed.

(** Of two addresses that a dot or a hyphen joins, the sweep masks the first one
    only. *)
Example joined_addresses :
  redactText (text_of "x@mail.com-ada.lovelace@gmail.com") = text_of "***@mail.com-ada.lovelace@gmail.com".
Proof. reflexivity. Qed.

Lemma logs_tell_no_more_witness :
  better_auth_log BaError (text_of "no such user") [LText (text_of "ada.lovelace@x.com?"); LError [84] (text_of "at <bob.smith@y.org>") [1]] =
  better_auth_log BaError (text_of "no such user") [LText (text_of "a-person-e@x.com?"); LError [84] (text_of "at <b-h@y.org>") [2]].
Proof.
  apply (logs_tell_no_more BaError _ _ _ _ "signup.rejected" Rejected [("password", LText [1])] [("password", LText [2])]%string).
  - constructor.
  - constructor; [|constructor; [|constructor]].
    + constructor. apply (alike_address [] (text_of "ada.lovelace") (text_of "a-person-e") (text_of "x.com?")).
      * by left.
      * left. eexists 97, 101, (text_of "da.lovelac"), (text_of "-person-"). done.
      * vm_compute. repeat constructor.
      * vm_compute. repeat constructor.
      * by eexists.
    + constructor. apply (alike_address (text_of "at <") (text_of "bob.smith") (text_of "b-h") (text_of "y.org>")).
      * right. by exists (text_of "at "), 60.
      * left. eexists 98, 104, (text_of "ob.smit"), (text_of "-"). done.
      * vm_compute. repeat constructor.
      * vm_compute. repeat constructor.
      * by eexists.
  - constructor; [|constructor]. split; [done|]. apply field_secret. by left.
Defined.
