(* ===== verification/Observability.v ===== *)
(** * Metrics, health and errors

    [src/common/observability/metrics.service.ts] and [metrics.guard.ts],
    [src/common/filters/http-exception.filter.ts],
    [src/common/middleware/request-id.middleware.ts] and
    [src/health/health.controller.ts].  The registry of prom-client is a record
    of counters; SHA-256 is a parameter. *)

From Stdlib Require Import QArith.
From S2P Require Import Prelude JsText Schema Effects Links Resilience.

Local Open Scope Z_scope.

(** ** Metrics *)

(** Counters and gauges by their labels; the latencies are in milliseconds. *)
Record Metrics := mkMetrics {
  payments_total : string -> PaymentType -> PaymentReceiver -> Z;
  confirm_latency : PaymentType -> list Z;
  confirmations_stalled : Z;
  reconcile_conflicts : PaymentTransactionStatus -> Z;
  paystack_fee_delta : Z }.

Definition recordPaymentOutcome (outcome : string) (type : PaymentType) (receiver : PaymentReceiver) (latencyMs : option Z)
    (m : Metrics) : Metrics :=
  let latency :=
    match latencyMs with
    | Some l => if bool_decide (outcome = "confirmed"%string) && (0 <=? l)
                then fun t => if bool_decide (t = type) then confirm_latency m t ++ [l] else confirm_latency m t
                else confirm_latency m
    | None => confirm_latency m
    end in
  mkMetrics
    (fun o t r => payments_total m o t r + if bool_decide (o = outcome /\ t = type /\ r = receiver) then 1 else 0)
    latency (confirmations_stalled m) (reconcile_conflicts m) (paystack_fee_delta m).
Definition setStalledConfirmations (n : Z) (m : Metrics) : Metrics :=
  mkMetrics (payments_total m) (confirm_latency m) n (reconcile_conflicts m) (paystack_fee_delta m).
Definition recordReconcileConflict (localStatus : PaymentTransactionStatus) (m : Metrics) : Metrics :=
  mkMetrics (payments_total m) (confirm_latency m) (confirmations_stalled m)
    (fun s => reconcile_conflicts m s + if bool_decide (s = localStatus) then 1 else 0) (paystack_fee_delta m).
Definition recordPaystackFeeDelta (deltaKobo : Z) (m : Metrics) : Metrics :=
  if deltaKobo =? 0 then m
  else mkMetrics (payments_total m) (confirm_latency m) (confirmations_stalled m) (reconcile_conflicts m)
         (paystack_fee_delta m + deltaKobo).

(** The calls a request's effects stand for. *)
Definition record_effect (m : Metrics) (e : effect) : Metrics :=
  match e with
  | Metric outcome t r latencyMs => recordPaymentOutcome outcome t r latencyMs m
  | MetricFeeDelta kobo => recordPaystackFeeDelta kobo m
  | MetricReconcileConflict s => recordReconcileConflict s m
  | MetricStalledConfirmations n => setStalledConfirmations n m
  | _ => m
  end.
Definition no_metrics : Metrics := mkMetrics (fun _ _ _ => 0) (fun _ => []) 0 (fun _ => 0) 0.
Definition metrics_of (log : list effect) : Metrics := fold_left record_effect log no_metrics.

(** ** The guard of the scrape *)

Inductive CustomHeader := XAbsent | XOne (t : text) | XMany (l : list text).
Record MetricsHeaders := mkMetricsHeaders { mh_authorization : option text; mh_custom : CustomHeader }.

(** [t.split(/\s+/)] of a trimmed text, an empty one apart. *)
Fixpoint split_space (t : text) : list text :=
  match t with
  | [] => [[]]
  | c :: t' =>
      match split_space t' with
      | [] => [[c]]
      | part :: parts => if is_js_whitespace c then [] :: part :: parts else (c :: part) :: parts
      end
  end.
Definition words_of (t : text) : list text := filter (fun w => w <> []) (split_space (trim t)).
Fixpoint join_space (l : list text) : text :=
  match l with [] => [] | [w] => w | w :: l' => w ++ 32 :: join_space l' end.

Definition metrics_extractToken (h : MetricsHeaders) : option text :=
  let custom :=
    match mh_custom h with
    | XOne ((_ :: _) as t) | XMany (((_ :: _) as t) :: _) => Some (trim t)
    | _ => None
    end in
  match words_of <$> mh_authorization h with
  | Some (scheme :: ((_ :: _) as rest)) =>
      if bool_decide (ascii_lower scheme = text_of "bearer") then Some (join_space rest) else custom
  | _ => custom
  end.

Section Guard.
Context (sha256 : text -> text).

Definition metrics_canActivate (METRICS_TOKEN : option text) (posture : SecurityPosture) (h : MetricsHeaders) : res unit :=
  let configured := trim (default [] METRICS_TOKEN) in
  match configured with
  | [] => if httpsDeployment posture then Err (FNotFound "Not Found") else Ok tt
  | _ =>
      match metrics_extractToken h with
      | Some ((_ :: _) as provided) =>
          if bool_decide (sha256 provided = sha256 configured) then Ok tt else Err (FUnauthorized "Unauthorized")
      | _ => Err (FUnauthorized "Unauthorized")
      end
  end.
End Guard.

(** ** Errors *)

Inductive Message := OneMessage (m : string) | ManyMessages (l : list string).
Inductive ErrorResponse := ResText (s : string) | ResObject (message : option Message).
Inductive exception := HttpException (status : Z) (response : ErrorResponse) | Thrown (e : caught).

Record ErrorBody := mkErrorBody {
  eb_statusCode : Z; eb_message : Message; eb_requestId : option string; eb_timestamp : Z; eb_path : string }.

(** The answer, and the exception that is logged and reported. *)
Definition catch_exception (e : exception) (url : string) (requestId : option string) (now : Z)
    : ErrorBody * option exception :=
  let status := match e with HttpException s _ => s | Thrown _ => 500 end in
  let message :=
    match e with
    | HttpException _ (ResText s) => OneMessage s
    | HttpException _ (ResObject (Some m)) => m
    | HttpException _ (ResObject None) => OneMessage "An error occurred"
    | Thrown _ => OneMessage "Internal server error"
    end in
  (mkErrorBody status message requestId now url, if 500 <=? status then Some e else None).

(** [RequestIdMiddleware]; an empty header is no id. *)
Definition request_id (header : option string) (randomUUID : string) : string :=
  match header with Some (String _ _ as i) => i | _ => randomUUID end.

(** The exceptions that the services throw. *)
Definition exception_of (e : failure) : exception :=
  let http status m := HttpException status (ResObject (Some (OneMessage m))) in
  match e with
  | FBadRequest m => http 400 m
  | FNotFound m => http 404 m
  | FForbidden m => http 403 m
  | FUnauthorized m => http 401 m
  | FConflict m => http 409 m
  | FBadGateway m => http 502 m
  | FUnavailable m => http 503 m
  | FInternal m => Thrown (CError m None)
  | FUnique m => Thrown (CError m (Some "P2002"%string))
  end.

(** ** Health *)

Record Bucket := mkBucket { bk_public : bool; bk_file_size_limit : option Z; bk_allowed_mime_types : option (list string) }.
Record BucketAnswer := mkBucketAnswer { ba_data : option Bucket; ba_error : option caught }.
Record Health := mkHealth {
  h_status : string; h_db : bool; h_dbError : option string;
  h_storage : bool; h_storageError : option string; h_configOk : bool; h_issues : list string }.

Definition bucket_issues (b : Bucket) : list string :=
  (if bk_public b then ["bucket_is_public (receipts expose payer bank details)"] else [])
  ++ (match bk_file_size_limit b with None | Some 0 => ["no_file_size_limit"] | _ => [] end)
  ++ (match bk_allowed_mime_types b with None | Some [] => ["no_allowed_mime_types"] | _ => [] end).

(** [SELECT 1] and the bucket's answer; with the body, whether it is a 503. *)
Definition getHealth (database : unit + caught) (supabase : option (promise BucketAnswer)) : Health * bool :=
  let '(dbOk, dbError) := match database with inl _ => (true, None) | inr e => (false, Some (errorMessage e "db_error")) end in
  let '(storageOk, storageError, issues) :=
    match supabase with
    | None => (false, Some "not_configured"%string, [])
    | Some p =>
        let answer := match p with
                      | Settled t r => if t <=? 2000 then r else inr (CError "timeout" None)
                      | Pending => inr (CError "timeout" None)
                      end in
        match answer with
        | inl a =>
            (bool_decide (ba_error a = None) && bool_decide (is_Some (ba_data a)),
             (fun e => errorMessage e "storage_error") <$> ba_error a,
             match ba_data a with Some b => bucket_issues b | None => [] end)
        | inr e => (false, Some (errorMessage e "storage_error"), [])
        end
    end in
  let storageConfigOk := storageOk && bool_decide (issues = []) in
  (mkHealth (if dbOk && storageConfigOk then "ok" else "degraded") dbOk dbError storageOk storageError storageConfigOk issues,
   negb dbOk).

(** ** Laws *)

Definition count_of (P : effect -> bool) (log : list effect) : Z := Z.of_nat (length (filter (fun e => P e = true) log)).
Definition is_outcome (o : string) (t : PaymentType) (r : PaymentReceiver) (e : effect) : bool :=
  match e with Metric o' t' r' _ => bool_decide (o = o' /\ t = t' /\ r = r') | _ => false end.
Definition is_conflict (s : PaymentTransactionStatus) (e : effect) : bool :=
  match e with MetricReconcileConflict s' => bool_decide (s = s') | _ => false end.
Definition fee_deltas (log : list effect) : Z := foldr (fun e z => match e with MetricFeeDelta k => k + z | _ => z end) 0 log.
Definition confirm_waits (t : PaymentType) (log : list effect) : list Z :=
  omap (fun e => match e with
                 | Metric o t' _ (Some l) => if bool_decide (o = "confirmed"%string) && (0 <=? l) && bool_decide (t = t') then Some l else None
                 | _ => None
                 end) log.

Lemma count_of_snoc P log e : count_of P (log ++ [e]) = count_of P log + if P e then 1 else 0.
Proof.
  unfold count_of. rewrite list.filter_app, length_app, filter_cons, filter_nil.
  destruct (P e); case_decide; try done; cbn [length]; lia.
Qed.
Lemma fee_deltas_snoc log e : fee_deltas (log ++ [e]) = fee_deltas log + match e with MetricFeeDelta k => k | _ => 0 end.
Proof.
  unfold fee_deltas. rewrite foldr_app. cbn [foldr].
  assert (forall z, foldr (fun e z => match e with MetricFeeDelta k => k + z | _ => z end) z log =
    foldr (fun e z => match e with MetricFeeDelta k => k + z | _ => z end) 0 log + z) as ->.
  { intros z. induction log as [|x log IH]; cbn; [lia|]. rewrite IH. destruct x; lia. }
  destruct e; lia.
Qed.

(** The scrape shows what the services did: each counter is the number of
    transitions with its labels, the drift is the sum of the fee differences, and
    the waits are those of confirmations. *)
Theorem metrics_exact log o t r s :
  let m := metrics_of log in
  payments_total m o t r = count_of (is_outcome o t r) log /\
  reconcile_conflicts m s = count_of (is_conflict s) log /\
  paystack_fee_delta m = fee_deltas log /\
  confirm_latency m t = confirm_waits t log.
Proof.
  induction log as [|e log IH] using rev_ind; [done|]. unfold metrics_of in *. rewrite fold_left_app. cbn [fold_left].
  unfold confirm_waits in *. rewrite !count_of_snoc, fee_deltas_snoc, omap_app. cbv zeta in IH.
  destruct IH as (H1 & H2 & H3 & H4). set (m := fold_left record_effect log no_metrics) in *.
  destruct e as [| | | |o' t' r' l|k|s'| | |]; cbn [record_effect is_outcome is_conflict omap list_omap];
    rewrite ?app_nil_r, ?Z.add_0_r; try done.
  - cbn [recordPaymentOutcome payments_total reconcile_conflicts paystack_fee_delta confirm_latency].
    rewrite H1. split; [done|]. split; [done|]. split; [done|].
    destruct l as [l|]; [|by rewrite app_nil_r]. destruct (_ && (0 <=? l)); cbn [andb]; [|by rewrite app_nil_r].
    case_bool_decide; by rewrite H4, ?app_nil_r.
  - unfold recordPaystackFeeDelta. destruct (Z.eqb_spec k 0) as [->|]; [by rewrite Z.add_0_r|].
    cbn. by rewrite H3.
  - cbn. by rewrite H2.
Qed.

(** The scrape on every branch.  Where the digest tells texts apart, a
    configured token opens it to those who present that token, and no token opens
    it only off the internet. *)
Theorem metrics_gate (sha256 : text -> text) METRICS_TOKEN posture h :
  (forall a b, sha256 a = sha256 b -> a = b) ->
  metrics_canActivate sha256 METRICS_TOKEN posture h = Ok tt <->
  match trim (default [] METRICS_TOKEN) with
  | [] => httpsDeployment posture = false
  | configured => metrics_extractToken h = Some configured
  end.
Proof.
  intros Hi. unfold metrics_canActivate. destruct (trim _) as [|c t]; [by destruct (httpsDeployment posture)|].
  destruct (metrics_extractToken h) as [[|x p]|]; [done| |done]. case_bool_decide as E.
  - apply Hi in E as ->. done.
  - split; [done|]. intros [= -> ->]. done.
Qed.

(** A server error tells the caller nothing of its cause, and only a server
    error is reported. *)
Theorem errors_hide_causes e url requestId now :
  let '(body, report) := catch_exception (exception_of e) url requestId now in
  eb_requestId body = requestId /\
  match e with
  | FInternal _ | FUnique _ =>
      eb_statusCode body = 500 /\ eb_message body = OneMessage "Internal server error" /\ report = Some (exception_of e)
  | FBadRequest m | FNotFound m | FForbidden m | FUnauthorized m | FConflict m =>
      400 <= eb_statusCode body < 500 /\ eb_message body = OneMessage m /\ report = None
  | FBadGateway m | FUnavailable m =>
      500 <= eb_statusCode body /\ eb_message body = OneMessage m /\ report = Some (exception_of e)
  end.
Proof. destruct e; cbn; repeat split; lia || done. Qed.

(** The service is healthy exactly when the database answers and the bucket
    answers in time, private and bounded; it is a 503 exactly when the database
    does not answer. *)
Theorem health_exact database supabase :
  let '(h, unavailable) := getHealth database supabase in
  (h_status h = "ok"%string <->
     (exists u, database = inl u) /\
     exists t b n m ms, supabase = Some (Settled t (inl (mkBucketAnswer (Some b) None))) /\ t <= 2000 /\
       bk_public b = false /\ bk_file_size_limit b = Some n /\ n <> 0 /\ bk_allowed_mime_types b = Some (m :: ms)) /\
  (unavailable = true <-> exists e, database = inr e).
Proof.
  unfold getHealth. destruct database as [u|e].
  2:{ destruct supabase as [p|]; [destruct p as [t r|]; [destruct (t <=? 2000); [destruct r as [a|]|]|]|];
        cbn; (split; [split; [done|by intros [(? & ?) _]]|split; eauto]). }
  destruct supabase as [[t r|]|]; cbn; [|split; [split; [done|naive_solver]|split; naive_solver]..].
  destruct (Z.leb_spec t 2000) as [Ht|Ht].
  2:{ cbn. split; [split; [done|]|split; naive_solver]. intros [_ (? & ? & ? & ? & ? & [= <- ->] & ? & _)]. lia. }
  destruct r as [[[[pub size mime]|] [e|]]|e]; cbn; (split; [|split; naive_solver]); try (split; [done|naive_solver]).
  unfold bucket_issues. cbn [bk_public bk_file_size_limit bk_allowed_mime_types].
  destruct pub; [split; [done|naive_solver]|]. destruct size as [n|]; [|split; [done|naive_solver]].
  destruct (decide (n = 0)) as [->|Hn]; [split; [done|naive_solver]|].
  assert (match n with 0 => ["no_file_size_limit"%string] | _ => [] end = []) as -> by (by destruct n).
  destruct mime as [[|m ms]|]; [split; [done|naive_solver]| |split; [done|naive_solver]].
  split; [|done]. intros _. split; [by eexists|]. by exists t, (mkBucket false (Some n) (Some (m :: ms))), n, m, ms.
Qed.

Example scrape_token :
  metrics_extractToken (mkMetricsHeaders (Some (text_of " Bearer  a b")) XAbsent) = Some (text_of "a b").
Proof. reflexivity. Qed.
