(* ===== verification/Routes.v ===== *)
(** * Routes

    The controllers whose requests read or write the books, over the two global
    guards of [Users]: [src/schools/schools.controller.ts] (payments, history,
    dashboard), [schools.management.controller.ts] (delete),
    [src/enrollment/enrollment.controller.ts],
    [src/enrollment-invites/enrollment-invites.controller.ts],
    [src/payments/transactions.controller.ts],
    [src/documents/documents.controller.ts],
    [src/admin/admin.controller.ts] (first payments, migration window) and
    [src/users/users.controller.ts].  Bodies arrive validated, dates parsed. *)

From Stdlib Require Import QArith.
From S2P Require Import Prelude JsNumber JsText Pagination Schema Effects EnrollmentView LedgerMigrated Ledger LedgerCard InvitePolicy Enrollment Invites InviteList PaymentHistory Schools AdminReports Settlement Users Documents.

Local Open Scope Z_scope.

(** ** Query strings *)

(** The names that [in] finds on any object. *)
Definition OBJECT_PROTOTYPE : list string :=
  ["constructor"; "hasOwnProperty"; "isPrototypeOf"; "propertyIsEnumerable"; "toLocaleString"; "toString"; "valueOf";
   "__proto__"; "__defineGetter__"; "__defineSetter__"; "__lookupGetter__"; "__lookupSetter__"]%string.
Definition status_names : list (string * PaymentTransactionStatus) :=
  [("PENDING", TX_PENDING); ("SUCCESS", TX_SUCCESS); ("FAILED", TX_FAILED); ("REVERSED", TX_REVERSED)]%string.
Definition status_named (name : string) : option PaymentTransactionStatus :=
  snd <$> head (filter (fun kv : string * PaymentTransactionStatus => kv.1 = name) status_names).

(** [status && status in PaymentTransactionStatus ? status : undefined], with the
    answer of Prisma's query, which refuses a value that is no status. *)
Definition parseStatus (status : option string) : res (option PaymentTransactionStatus) :=
  match truthy status with
  | None => Ok None
  | Some name =>
      match status_named name with
      | Some s => Ok (Some s)
      | None => if bool_decide (name ∈ OBJECT_PROTOTYPE) then Err (FInternal "PrismaClientValidationError") else Ok None
      end
  end.

(** [page ? Number(page) : undefined] *)
Definition query_number (q : option text) : number :=
  match q with Some ((_ :: _) as t) => Number t | _ => NaN end.

(** [parse] of a bound of the date window: an invalid date is no bound. *)
Definition parseRange (new_Date : text -> option Z) (from to : option text) : option Z * option Z :=
  let parse (value : option text) := match value with Some ((_ :: _) as t) => new_Date t | _ => None end in
  (parse from, parse to).

(** ** Requests *)

Record HistoryQuery := mkHistoryQuery {
  hq_include : bool; hq_receiptType : option PaymentType; hq_take : option text;
  hq_from : option text; hq_to : option text; hq_status : option string; hq_page : option text }.

(** schools.controller.ts: the routes on payments *)
Inductive SchoolPaymentsRoute :=
| GetBankDetails (schoolId : id)
| GetHistory (q : HistoryQuery)
| GetHistoryAll (q : HistoryQuery)
| GetStats
| GetPending (include : bool) (receiptType paymentType : option PaymentType)
| ConfirmPayment (paymentId : id)
| RejectPayment (paymentId : id)
| MarkDefaulted (enrollmentId : id)
| ReversePayment (paymentId : id) (reason : option string).
(** enrollment.controller.ts *)
Inductive EnrollmentRoute :=
| GetMyChildren
| GetSummary
| GetEnrollmentHistory (enrollmentId : id)
| InitiateFirstPayment (dto : CreateEnrollmentDto)
| PayInstallment (enrollmentId : id) (amountPaid : Q) (receiptUrl idempotencyKey : option string)
| GetOutcome (reference : option string) (paymentId : option id)
| ConfirmFirstPayment (enrollmentId : id).
(** enrollment-invites.controller.ts *)
Inductive InvitesRoute :=
| PreviewInvite (token : string)
| CreateInvite (dto : CreateEnrollmentInviteDto)
| ListInvites (status : option EnrollmentInviteStatus) (page limit : raw)
| RevokeInvite (inviteId : id) (reason : option string)
| ReissueInvite (inviteId : id)
| AmendInvite (inviteId : id) (amountAlreadyPaid : Q) (reason : option string)
| ReleaseInvite (inviteId : id) (reason : option string)
| ClaimInvite (token : string)
| DisputeInvite (token reason : string).
(** documents.controller.ts *)
Inductive DocumentsRoute :=
| UploadReceipt (fileName : text) (contentType : string)
| DownloadReceipt (paymentId : id).
(** admin.controller.ts: the routes that write *)
Inductive AdminRoute :=
| SetMigrationWindow (schoolId : id) (closesAt : option Z) (reason : string)
| SettleFirstPayment (paymentId : id)
| RejectFirstPayment (paymentId : id).
(** transactions.controller.ts *)
Record TransactionsQuery := mkTransactionsQuery {
  tq_include : bool; tq_receiptType : option PaymentType; tq_page : option text; tq_limit : option text;
  tq_status : option string }.

Inductive Route :=
| OfSchools (r : SchoolPaymentsRoute)
| OfEnrollments (r : EnrollmentRoute)
| OfInvites (r : InvitesRoute)
| OfDocuments (r : DocumentsRoute)
| OfAdmin (r : AdminRoute)
| OfUsers (r : UserRoute)
| GetTransactions (q : TransactionsQuery)
(* schools.management.controller.ts *)
| RemoveSchool (schoolId : id).

Inductive Response :=
| RDone
| RBank (b : BankDetails)
| RPage (p : Paginated PaymentView)
| RViews (l : list PaymentView)
| RStats (s : DashboardStats)
| RPlans (l : list EnrollmentView)
| RPlan (v : EnrollmentView)
| RSummary (s : DashboardSummary)
| RInitiation (r : InitiationResult)
| RSubmission (r : SubmitResult)
| ROutcome (o : PaymentOutcomeView)
| RPreview (v : ParentInviteView)
| RShare (v : SchoolInviteView) (s : Share)
| RInvites (l : InviteListing)
| RAmended (a : AmendResult)
| RClaim (c : ClaimResult)
| RUpload (u : ReceiptUpload)
| RDownload (u : ReceiptDownload).

(** [@Public()] *)
Definition is_public (r : Route) : bool := match r with OfInvites (PreviewInvite _) => true | _ => false end.

(** [@Roles(...)], of the handler or else of the controller. *)
Definition schools_roles (r : SchoolPaymentsRoute) : option (list UserRole) :=
  match r with GetBankDetails _ => Some [PARENT; SCHOOL_OWNER; SUPER_ADMIN] | _ => Some [SCHOOL_OWNER] end.
Definition enrollments_roles (r : EnrollmentRoute) : option (list UserRole) :=
  match r with ConfirmFirstPayment _ => Some [SCHOOL_OWNER] | _ => Some [PARENT; SCHOOL_OWNER] end.
Definition invites_roles (r : InvitesRoute) : option (list UserRole) :=
  match r with PreviewInvite _ | ClaimInvite _ | DisputeInvite _ _ => None | _ => Some [SCHOOL_OWNER] end.
Definition documents_roles (r : DocumentsRoute) : option (list UserRole) :=
  match r with
  | UploadReceipt _ _ => Some [PARENT; SCHOOL_OWNER]
  | DownloadReceipt _ => Some [PARENT; SCHOOL_OWNER; SUPER_ADMIN]
  end.
Definition required_roles (r : Route) : option (list UserRole) :=
  match r with
  | OfSchools r => schools_roles r
  | OfEnrollments r => enrollments_roles r
  | OfInvites r => invites_roles r
  | OfDocuments r => documents_roles r
  | OfAdmin _ | RemoveSchool _ => Some [SUPER_ADMIN]
  | OfUsers r => route_roles r
  | GetTransactions _ => None
  end.

(** What a request is served with. *)
Record Server := mkServer {
  sv_env : Env;
  sv_request : Request;
  sv_platform : Platform;
  sv_print : Z -> string;
  sv_documents : DocumentsService;
  sv_sign : string -> option string;
  sv_new_Date : text -> option Z;
  sv_newest_payments : list (id * Payment) -> list (id * Payment);
  sv_newest_invites : list (id * EnrollmentInvite) -> list (id * EnrollmentInvite);
  (** whether the parent's notification of an amended plan is created *)
  sv_reached : bool }.

Section Handlers.
Context (sv : Server).
Let env : Env := sv_env sv.

Definition respond {A} (f : A -> Response) (m : M A) : M Response := a ← m; mret (f a).
Definition actor (user : AuthUser) : AuditActor := mkActor (au_userId user) (au_role user).
(** [if (!user.schoolId) throw ...] *)
Definition own_school (user : AuthUser) : M id :=
  orThrow (au_userSchoolId user) (FForbidden "User is not associated with any school").

Definition getHistory_handler (user : AuthUser) (q : HistoryQuery) (paged : bool) : M Response :=
  schoolId ← own_school user;
  let pageSize := parseTake (hq_take q) 100 in
  let '(from, to) := parseRange (sv_new_Date sv) (hq_from q) (hq_to q) in
  status ← lift (if paged then parseStatus (hq_status q) else Ok None);
  respond RPage (read (getSchoolHistory (sv_sign sv) (sv_newest_payments sv) schoolId (hq_include q) (hq_receiptType q)
    pageSize from to status (if paged then parsePage (hq_page q) pageSize else 0))).

Definition schools_handler (r : SchoolPaymentsRoute) (user : AuthUser) : M Response :=
  match r with
  | GetBankDetails schoolId => respond RBank (getSchoolBankDetails schoolId user)
  | GetHistory q => getHistory_handler user q true
  | GetHistoryAll q => getHistory_handler user q false
  | GetStats => schoolId ← own_school user; respond RStats (read (getDashboardStats schoolId))
  | GetPending include receiptType paymentType =>
      schoolId ← own_school user;
      respond RViews (read (getPendingPayments (sv_sign sv) schoolId include receiptType 100 paymentType))
  | ConfirmPayment paymentId =>
      schoolId ← own_school user;
      respond (fun _ => RDone) (confirmPayment paymentId schoolId (actor user) (now env))
  | RejectPayment paymentId =>
      schoolId ← own_school user; respond (fun _ => RDone) (rejectPayment paymentId schoolId (actor user))
  | MarkDefaulted enrollmentId =>
      schoolId ← own_school user; respond (fun _ => RDone) (markEnrollmentAsDefaulted enrollmentId schoolId (actor user))
  | ReversePayment paymentId reason =>
      schoolId ← own_school user; respond (fun _ => RDone) (reversePayment paymentId schoolId (actor user) reason)
  end.

Definition enrollments_handler (r : EnrollmentRoute) (user : AuthUser) : M Response :=
  match r with
  | GetMyChildren => respond RPlans (read (parentEnrollmentViews (au_userId user)))
  | GetSummary => respond RSummary (getParentDashboardSummary (au_userId user))
  | GetEnrollmentHistory enrollmentId =>
      v ← read (getEnrollmentHistory (sv_newest_payments sv) enrollmentId (au_userId user)); respond RPlan (lift v)
  | InitiateFirstPayment dto => respond RInitiation (initiateFirstPayment env dto (au_userId user))
  | PayInstallment enrollmentId amountPaid receiptUrl idempotencyKey =>
      respond RSubmission (submitInstallmentPayment env enrollmentId amountPaid user receiptUrl idempotencyKey)
  | GetOutcome reference paymentId => respond ROutcome (getPaymentOutcome env reference paymentId user)
  | ConfirmFirstPayment enrollmentId =>
      schoolId ← own_school user;
      respond (fun _ => RDone) (confirmFirstPayment enrollmentId schoolId (actor user) (now env))
  end.

Definition invites_handler (r : InvitesRoute) (user : AuthUser) : M Response :=
  match r with
  | PreviewInvite token => respond RPreview (preview (sv_platform sv) (sv_request sv) token)
  | CreateInvite dto => respond (fun r => RShare r.1 r.2) (Invites.create (sv_platform sv) (sv_request sv) dto user)
  | ListInvites status page limit =>
      respond RInvites (list_invites (sv_newest_invites sv) (sv_request sv) user status page limit)
  | RevokeInvite inviteId reason =>
      respond (fun _ => RDone) (revoke (sv_platform sv) (sv_request sv) inviteId user reason)
  | ReissueInvite inviteId =>
      respond (fun r => RShare r.1 r.2) (reissue (sv_platform sv) (sv_request sv) inviteId user)
  | AmendInvite inviteId amountAlreadyPaid reason =>
      respond RAmended (amend (sv_request sv) inviteId amountAlreadyPaid reason user (sv_reached sv))
  | ReleaseInvite inviteId reason =>
      respond (fun _ => RDone) (release (sv_platform sv) (sv_request sv) inviteId user reason)
  | ClaimInvite token => respond RClaim (claim (sv_platform sv) (sv_request sv) token user)
  | DisputeInvite token reason =>
      respond (fun _ => RDone) (dispute (sv_platform sv) (sv_request sv) token user reason)
  end.

Definition transactions_handler (q : TransactionsQuery) (user : AuthUser) : M Response :=
  let status := parseStatus (tq_status q) in
  l ← read (PaymentHistory.getHistory (sv_sign sv) (sv_newest_payments sv) (au_userId user) (au_role user)
        (au_userSchoolId user) (tq_include q) (tq_receiptType q) (query_number (tq_page q)) (query_number (tq_limit q))
        (match status with Ok s => s | Err _ => None end));
  l ← lift l;
  lift status;;
  mret (RPage l).

Definition documents_handler (r : DocumentsRoute) (user : AuthUser) : M Response :=
  match r with
  | UploadReceipt fileName contentType =>
      respond RUpload (lift (createReceiptUploadUrl env (sv_print sv) (randomUUID env) (sv_documents sv)
        (au_userId user) fileName contentType))
  | DownloadReceipt paymentId =>
      u ← read (createReceiptDownloadUrl (sv_print sv) (sv_documents sv) paymentId user); respond RDownload (lift u)
  end.

Definition admin_handler (r : AdminRoute) (user : AuthUser) : M Response :=
  match r with
  | SetMigrationWindow schoolId closesAt reason =>
      respond (fun _ => RDone) (setMigrationWindow schoolId closesAt (actor user) reason (now env))
  | SettleFirstPayment paymentId => respond (fun _ => RDone) (settleFirstPayment paymentId (actor user) (now env))
  | RejectFirstPayment paymentId => respond (fun _ => RDone) (rejectFirstPayment paymentId (actor user))
  end.

Definition handler (r : Route) (user : AuthUser) : M Response :=
  match r with
  | OfSchools r => schools_handler r user
  | OfEnrollments r => enrollments_handler r user
  | OfInvites r => invites_handler r user
  | OfDocuments r => documents_handler r user
  | OfAdmin r => admin_handler r user
  | OfUsers r =>
      respond (fun _ => RDone)
        (route_handler (category_C (sv_platform sv)) (hmac (sv_platform sv)) (id_str env) r (au_userId user) (now env))
  | GetTransactions q => transactions_handler q user
  | RemoveSchool schoolId => respond (fun _ => RDone) (deleteSchool (id_str env) schoolId (now env))
  end.

(** A request: the guards, then the handler with the user they leave. *)
Definition serve_route (r : Route) (session : option SessionUser) : M Response :=
  user ← lift (authorize (is_public r) (required_roles r) session);
  match r, user with
  | OfInvites (PreviewInvite token), _ => respond RPreview (preview (sv_platform sv) (sv_request sv) token)
  | _, Some user => handler r user
  | _, None => throw (FUnauthorized "Unauthorized")
  end.
End Handlers.
