(* ===== verification/RouteSpecs.v ===== *)
(** * Who may change the books

    Every request of [Routes], by the session it comes with: what the guards
    refuse, and which routes leave the books alone. *)

From Stdlib Require Import QArith.
From S2P Require Import Prelude Schema Effects Samples EnrollmentView Ledger LedgerCard LedgerMigrated LedgerSpecs LedgerCardSpecs LedgerMigratedSpecs Enrollment EnrollmentSpecs Documents Invites InviteSpecs InviteList Frames PaymentHistory Settlement AdminReports Users UserSpecs Routes.

Local Open Scope Z_scope.

(** ** The guards *)

Section Gate.
Context (sv : Server).

Definition session_user (s : SessionUser) : AuthUser := mkAuthUser (su_id s) (default PARENT (su_role s)) (su_schoolId s).
Definition admitted (r : Route) (s : SessionUser) : bool :=
  match required_roles r with None => true | Some roles => bool_decide (default PARENT (su_role s) ∈ roles) end.

(** A request on every branch of the guards: without a session it is refused but
    on the one public route, with a role that the route does not list too, and
    then nothing changes; else the handler runs for the session's user. *)
Lemma serve_route_eq r session w :
  serve_route sv r session w =
    match r, session with
    | OfInvites (PreviewInvite token), _ => respond RPreview (preview (sv_platform sv) (sv_request sv) token) w
    | _, None => (Err (FUnauthorized "Unauthorized"), w)
    | _, Some s =>
        if admitted r s then handler sv r (session_user s) w
        else (Err (FForbidden "You do not have access to this resource"), w)
    end.
Proof.
  unfold serve_route, mbind at 1, M_bind at 1, lift, authorize, canActivate, rolesGuard, admitted.
  destruct r as [r|r|[]|r|r|r|q|i], session as [s|]; cbn [is_public mbind res_bind au_role]; try done;
    destruct (required_roles _); try done; by destruct (bool_decide _).
Qed.
Lemma serve_private r session w : is_public r = false ->
  serve_route sv r session w =
    match session with
    | None => (Err (FUnauthorized "Unauthorized"), w)
    | Some s => if admitted r s then handler sv r (session_user s) w
        else (Err (FForbidden "You do not have access to this resource"), w)
    end.
Proof. intros Hp. rewrite serve_route_eq. by destruct r as [r|r|[]|r|r|r|q|i]. Qed.
Lemma serve_public r session w user : is_public r = true -> serve_route sv r session w = handler sv r user w.
Proof. intros Hp. rewrite serve_route_eq. by destruct r as [r|r|[]|r|r|r|q|i]. Qed.
End Gate.

(** ** Routes that leave the books alone *)

Definition same_books (d d' : DB) : Prop := payments d' = payments d /\ enrollments d' = enrollments d.
#[export] Instance same_books_preorder : PreOrder same_books.
Proof. split; [by split|]. intros a b c [H1 H2] [H3 H4]. split; congruence. Qed.

Ltac quiet := stays_steps ltac:(by split).

Lemma quiet_saveInvite sys iid cond data w : stays same_books (saveInvite sys iid cond data) w.
Proof. unfold saveInvite, writeInvite. quiet. Qed.
Lemma quiet_findByToken sys rq raw w : stays same_books (findByToken sys rq raw) w.
Proof.
  unfold findByToken. quiet. by apply quiet_saveInvite.
Qed.
Lemma quiet_updateUser i data w : stays same_books (updateUser i data) w.
Proof. unfold updateUser, storeUser. quiet. Qed.

(** The routes that can change a payment or a plan. *)
Definition moves_books (r : Route) : bool :=
  match r with
  | OfSchools (ConfirmPayment _ | RejectPayment _ | MarkDefaulted _ | ReversePayment _ _)
  | OfEnrollments (ConfirmFirstPayment _ | InitiateFirstPayment _ | PayInstallment _ _ _ _ | GetOutcome _ _)
  | OfInvites (AmendInvite _ _ _ | ReleaseInvite _ _ | ClaimInvite _)
  | OfAdmin (SettleFirstPayment _ | RejectFirstPayment _) => true
  | _ => false
  end.

(** Whose they are. *)
Definition mover (r : Route) (role : UserRole) : Prop :=
  match r with
  | OfSchools _ | OfEnrollments (ConfirmFirstPayment _) | OfInvites (AmendInvite _ _ _ | ReleaseInvite _ _) =>
      role = SCHOOL_OWNER
  | OfAdmin _ => role = SUPER_ADMIN
  | OfEnrollments _ => role <> SUPER_ADMIN
  | _ => True
  end.
Lemma admitted_mover r s : moves_books r = true -> admitted r s = true -> mover r (default PARENT (su_role s)).
Proof.
  unfold admitted. generalize (default PARENT (su_role s)). intros role Hm.
  by destruct r as [[]|[]|[]|[]|[]| |q|]; try discriminate Hm; destruct role.
Qed.
Lemma public_quiet r : is_public r = true -> moves_books r = false.
Proof. by destruct r as [r|r|[]|r|r|r|q|i]. Qed.

Section Quiet.
Context (sv : Server).

Ltac quiet_deep :=
  repeat (quiet; try first [apply quiet_saveInvite | apply quiet_findByToken | apply quiet_updateUser]).

Lemma quiet_findOne str i w : stays same_books (findOne str i) w.
Proof. unfold findOne. quiet. Qed.

Lemma quiet_users r user w : stays same_books (handler sv (OfUsers r) user) w.
Proof.
  cbn [handler]. unfold respond, route_handler. quiet; try apply quiet_findOne.
  - unfold updateProfile, phone_data. quiet_deep; apply quiet_findOne.
  - unfold update. quiet_deep; apply quiet_findOne.
  - unfold remove. quiet_deep; apply quiet_findOne.
Qed.

Lemma quiet_deleteSchool schoolId user w : stays same_books (handler sv (RemoveSchool schoolId) user) w.
Proof.
  cbn [handler]. unfold respond, deleteSchool, updateSchoolRow, updateUserRow. quiet.
Qed.

Lemma quiet_handler r user w : moves_books r = false -> stays same_books (handler sv r user) w.
Proof.
  intros H. destruct r as [[]|[]|[]|[]|[]| |q|]; try discriminate H; try apply quiet_users; try apply quiet_deleteSchool;
    cbn [handler schools_handler enrollments_handler invites_handler documents_handler admin_handler transactions_handler];
    unfold respond, own_school, transactions_handler.
  all: try (quiet; fail).
  all: unfold getSchoolBankDetails, getHistory_handler, getParentDashboardSummary, preview, Invites.create, createInvite,
    fresh_id, writeInvite, assertNotAlreadyMigrated, assertNoLiveInvite, list_invites, revoke, reissue, dispute, notifyUser,
    setMigrationWindow, respond, own_school; quiet_deep.
Qed.
End Quiet.

(** Who can change the books at all: without a session every route but the
    public preview is refused with 401, and with a role the route does not list it
    is refused with 403, the world unchanged either way.  And whatever the request
    and the session, when a payment or a plan did change, the request moves money and
    came from a session that may: reviews, reversals, defaults, corrections and
    releases from a school's owner, settlements from an administrator, payments from
    anyone but an administrator, a claim from anyone signed in.  No read, invite,
    profile, upload or school-management request writes the books. *)
Theorem books_need_authority sv r session w :
  let '(res, w') := serve_route sv r session w in
  (is_public r = false -> session = None -> res = Err (FUnauthorized "Unauthorized") /\ w' = w) /\
  (forall s, is_public r = false -> session = Some s -> admitted r s = false ->
     res = Err (FForbidden "You do not have access to this resource") /\ w' = w) /\
  (~ same_books (db w) (db w') ->
     moves_books r = true /\ exists s, session = Some s /\ mover r (default PARENT (su_role s))).
Proof.
  destruct (serve_route sv r session w) as [res w'] eqn:E. destruct (is_public r) eqn:Hp.
  - split; [done|]. split; [done|]. intros Hb. exfalso. apply Hb.
    rewrite (serve_public _ _ _ _ (mkAuthUser 1%positive PARENT None) Hp) in E.
    by eapply quiet_handler; [apply public_quiet|].
  - rewrite serve_private in E by done. split; [|split].
    + intros _ ->. by injection E as <- <-.
    + intros s _ -> Ha. rewrite Ha in E. by injection E as <- <-.
    + intros Hb. destruct session as [s|]; [destruct (admitted r s) eqn:Ha|].
      * destruct (moves_books r) eqn:Hm; [split; [done|]; exists s; split; [done|]; by apply admitted_mover|].
        destruct Hb. by eapply quiet_handler in E.
      * destruct Hb. by injection E as _ <-.
      * destruct Hb. by injection E as _ <-.
Qed.

(** ** Witness *)

Definition sample_server : Server :=
  mkServer sample_env sample_request sample_sys (fun _ => "10000"%string) sample_documents (fun _ => None) (fun _ => None)
    (fun l => l) (fun l => l) true.
Lemma books_need_authority_witness :
  moves_books (OfSchools (ConfirmPayment 5%positive)) = true /\
  serve_route sample_server (OfSchools (ConfirmPayment 5%positive)) None sample = (Err (FUnauthorized "Unauthorized"), sample).
Proof.
  split.
  - pose proof (books_need_authority sample_server (OfSchools (ConfirmPayment 5%positive))
      (Some (mkSessionUser 10%positive (Some SCHOOL_OWNER) (Some 1%positive))) sample) as H.
    destruct (serve_route _ _ _ _) as [x w'] eqn:E. destruct H as (_ & _ & H).
    destruct H as [H _]; [|exact H].
    intros [Hp _]. vm_compute in E. injection E as <- <-. vm_compute in Hp. discriminate Hp.
  - pose proof (books_need_authority sample_server (OfSchools (ConfirmPayment 5%positive)) None sample) as H.
    destruct (serve_route _ _ _ _) as [x w']. destruct H as (H & _). destruct (H eq_refl eq_refl) as [-> ->]. done.
Defined.
