(* ===== verification/Tenancy.v ===== *)
(** * Tenants

    What the requests of a school's staff may touch: whatever they are and
    however many, the payments, plans and invites of the other schools stay as
    they are.  [tenancy] ties a payment to its plan's school and a plan to its
    invite's; each operation of the school's routes keeps it and stays within
    the school. *)

From Stdlib Require Import QArith.
From S2P Require Import Prelude Schema Effects Samples EnrollmentView Ledger LedgerCard LedgerMigrated LedgerSpecs LedgerCardSpecs LedgerMigratedSpecs Enrollment EnrollmentSpecs Invites InviteSpecs InviteList Frames Schools PaymentHistory Settlement AdminReports Users Routes RouteSpecs.

Local Open Scope Z_scope.

(** ** The rows of the others *)

Record tenancy (d : DB) : Prop := mkTenancy {
  tn_payment : forall pid p e, payments d !! pid = Some p -> enrollments d !! p_enrollmentId p = Some e ->
    p_schoolId p = e_schoolId e;
  tn_plan : forall eid e iid i, enrollments d !! eid = Some e -> e_enrollmentInviteId e = Some iid ->
    invites d !! iid = Some i -> i_schoolId i = e_schoolId e;
  tn_link : forall eid e iid, enrollments d !! eid = Some e -> e_enrollmentInviteId e = Some iid ->
    (iid < next_id d)%positive;
  tn_fresh : forall iid i, invites d !! iid = Some i -> (iid < next_id d)%positive }.

Definition apart {V} (school : V -> id) (s : id) (m m' : gmap id V) : Prop :=
  forall k v, school v <> s -> m' !! k = Some v <-> m !! k = Some v.
Definition others (s : id) (d d' : DB) : Prop :=
  apart p_schoolId s (payments d) (payments d') /\ apart e_schoolId s (enrollments d) (enrollments d') /\
  apart i_schoolId s (invites d) (invites d').
Definition tenant (s : id) (d d' : DB) : Prop := tenancy d -> tenancy d' /\ others s d d'.

Section Apart.
Context {V : Type} (school : V -> id) (s : id).

Lemma apart_refl m : apart school s m m.
Proof. done. Qed.
Lemma apart_trans m1 m2 m3 : apart school s m1 m2 -> apart school s m2 m3 -> apart school s m1 m3.
Proof. intros H1 H2 k v H. by rewrite (H2 k v H), (H1 k v H). Qed.
(** The row at [k], if there is one, is the school's, and so is the new one. *)
Lemma apart_insert m k v : (forall v0, m !! k = Some v0 -> school v0 = s) -> school v = s ->
  apart school s m (<[k := v]> m).
Proof.
  intros H0 Hv j x Hx. destruct (decide (k = j)) as [<-|Hj]; [|by rewrite lookup_insert_ne].
  rewrite lookup_insert_eq. split; [by intros [= ->]|]. intros E. by destruct (Hx (H0 _ E)).
Qed.
Lemma apart_delete m k : (forall v0, m !! k = Some v0 -> school v0 = s) -> apart school s m (delete k m).
Proof.
  intros H0 j x Hx. rewrite lookup_delete_Some. split; [by intros [_ ?]|]. intros E. split; [|done].
  intros ->. by destruct (Hx (H0 _ E)).
Qed.
Lemma apart_filter (P : id * V -> Prop) `{!forall kv, Decision (P kv)} m :
  (forall k v, m !! k = Some v -> school v <> s -> P (k, v)) -> apart school s m (filter P m).
Proof. intros HP k v Hv. rewrite map_lookup_filter_Some. naive_solver. Qed.
End Apart.

#[export] Instance tenant_preorder s : PreOrder (tenant s).
Proof.
  split; [intros d H; by split|]. intros a b c H1 H2 Ha.
  destruct (H1 Ha) as [Hb (P1 & E1 & I1)]. destruct (H2 Hb) as [Hc (P2 & E2 & I2)].
  split; [done|]. split; [|split]; eauto using apart_trans.
Qed.

(** ** Single writes *)

Section Writes.
Context (s : id) (d : DB).

Lemma tenant_same d' : payments d' = payments d -> enrollments d' = enrollments d -> invites d' = invites d ->
  (next_id d <= next_id d')%positive -> tenant s d d'.
Proof.
  intros Hp He Hi Hn [T1 T2 T3 T4]. split.
  - split; rewrite ?Hp, ?He, ?Hi; eauto; intros; [|]; eapply Pos.lt_le_trans; eauto.
  - unfold others. by rewrite Hp, He, Hi.
Qed.

Lemma tenant_payment pid p p' : payments d !! pid = Some p -> p_schoolId p = s -> p_schoolId p' = s ->
  p_enrollmentId p' = p_enrollmentId p -> tenant s d (set_payments (<[pid := p']> (payments d)) d).
Proof.
  intros Hp Hs Hs' He [T1 T2 T3 T4]. split; [split; cbn -[lookup insert]; eauto|].
  - intros k q e [[<- <-]|[_ Hq]]%lookup_insert_Some Hpe; [|by eapply T1].
    rewrite Hs', <- Hs. rewrite He in Hpe. by eapply T1.
  - split; [|done]. apply apart_insert; [|done]. congruence.
Qed.

Lemma tenant_plan eid e e' : enrollments d !! eid = Some e -> e_schoolId e = s -> e_schoolId e' = s ->
  e_enrollmentInviteId e' = e_enrollmentInviteId e -> tenant s d (set_enrollments (<[eid := e']> (enrollments d)) d).
Proof.
  intros Hp Hs Hs' He [T1 T2 T3 T4]. split; [split; cbn -[lookup insert]; eauto|].
  - intros k q x Hq [[E <-]|[_ Hx]]%lookup_insert_Some; [|by eapply T1].
    rewrite Hs', <- Hs. eapply T1; [done|]. by rewrite <- E.
  - intros k x iid i [[<- <-]|[_ Hx]]%lookup_insert_Some; [|by eapply T2].
    rewrite Hs', <- Hs, He. by eapply T2.
  - intros k x iid [[<- <-]|[_ Hx]]%lookup_insert_Some; [|by eapply T3]. rewrite He. by eapply T3.
  - split; [done|split; [|done]]. apply apart_insert; [|done]. congruence.
Qed.

Lemma tenant_invite iid i i' : invites d !! iid = Some i -> i_schoolId i = s -> i_schoolId i' = s ->
  tenant s d (set_invites (<[iid := i']> (invites d)) d).
Proof.
  intros Hi Hs Hs' [T1 T2 T3 T4]. split; [split; cbn -[lookup insert]; eauto|].
  - intros k x j y Hx Hk [[<- <-]|[_ Hy]]%lookup_insert_Some; [|by eapply T2].
    rewrite Hs', <- Hs. by eapply T2.
  - intros k y [[<- _]|[_ Hy]]%lookup_insert_Some; eauto.
  - split; [done|split; [done|]]. apply apart_insert; [|done]. congruence.
Qed.

Lemma tenant_new_invite i' : i_schoolId i' = s ->
  tenant s d (set_invites (<[next_id d := i']> (invites d)) (set_next_id (Pos.succ (next_id d)) d)).
Proof.
  intros Hs' [T1 T2 T3 T4].
  assert (Hn : invites d !! next_id d = None).
  { destruct (invites d !! next_id d) eqn:E; [|done]. apply T4 in E. lia. }
  split; [split; cbn -[lookup insert]; eauto|].
  - intros k x j y Hx Hk [[<- _]|[_ Hy]]%lookup_insert_Some; [|by eapply T2].
    exfalso. pose proof (T3 _ _ _ Hx Hk). lia.
  - intros k x j Hx Hk. pose proof (T3 _ _ _ Hx Hk). lia.
  - intros k y [[<- _]|[_ Hy]]%lookup_insert_Some; [lia|]. apply T4 in Hy. lia.
  - split; [done|split; [done|]]. apply apart_insert; [|done]. by rewrite Hn.
Qed.

Lemma tenant_drop_payments eid e : enrollments d !! eid = Some e -> e_schoolId e = s ->
  tenant s d (set_payments (filter (fun kv : id * Payment => p_enrollmentId kv.2 <> eid) (payments d)) d).
Proof.
  intros He Hs [T1 T2 T3 T4]. split; [split; cbn -[lookup filter]; eauto|].
  - intros k q x [Hq _]%map_lookup_filter_Some Hx. by eapply T1.
  - split; [|done]. apply apart_filter. intros k q Hq Hns E. cbn in E. rewrite <- E in He.
    by rewrite (T1 _ _ _ Hq He) in Hns.
Qed.

Lemma tenant_drop_plan eid e : enrollments d !! eid = Some e -> e_schoolId e = s ->
  tenant s d (set_enrollments (delete eid (enrollments d)) d).
Proof.
  intros He Hs [T1 T2 T3 T4]. split; [split; cbn -[lookup delete]; eauto|].
  - intros k q x Hq [_ Hx]%lookup_delete_Some. by eapply T1.
  - intros k x iid i [_ Hx]%lookup_delete_Some. by eapply T2.
  - intros k x iid [_ Hx]%lookup_delete_Some. by eapply T3.
  - split; [done|split; [|done]]. apply apart_delete. congruence.
Qed.
End Writes.

(** ** The operations of a school's routes *)

Lemma tenant_moves s w w' pid p p' eid e e' a :
  moves w w' pid p' eid e' a -> payments (db w) !! pid = Some p -> enrollments (db w) !! eid = Some e ->
  p_enrollmentId p = eid -> p_schoolId p = s \/ e_schoolId e = s ->
  p_schoolId p' = p_schoolId p -> p_enrollmentId p' = p_enrollmentId p ->
  e_schoolId e' = e_schoolId e -> e_enrollmentInviteId e' = e_enrollmentInviteId e ->
  tenant s (db w) (db w').
Proof.
  intros [M1 M2 _ (F1 & F2 & F3 & F4 & F5 & F6 & F7 & F8 & F9)] Hp He <- Hs K1 K2 K3 K4 T.
  assert (p_schoolId p = s /\ e_schoolId e = s) as [S1 S2].
  { pose proof (tn_payment _ T _ _ _ Hp He). split; destruct Hs; congruence. }
  revert T. set (d1 := set_payments (<[pid := p']> (payments (db w))) (db w)).
  change (tenant s (db w) (db w')). transitivity d1; [by eapply tenant_payment; eauto; congruence|].
  transitivity (set_enrollments (<[p_enrollmentId p := e']> (enrollments d1)) d1).
  - eapply tenant_plan; eauto; congruence.
  - apply tenant_same; cbn -[insert]; try done. rewrite F9. lia.
Qed.

Ltac tenant_steps := stays_steps ltac:(try (apply tenant_same; cbn; first [done | lia])).

Section Operations.
Context (s : id).

Lemma stays_knowing {A} (m : M A) w : (tenancy (db w) -> stays (tenant s) m w) -> stays (tenant s) m w.
Proof. intros H r w' E T. exact (H T r w' E T). Qed.

(** A method that reviews the payment it finds at the school. *)
Lemma tenant_reviewed {A} (m : M A) pid cond fp fe action w :
  (forall sn, findPaymentJoined pid cond (db w) = Some sn -> exists x w1, m w = (x, w1) /\
    moves w w1 pid (fp (sn_payment sn)) (p_enrollmentId (sn_payment sn)) (fe sn) action) ->
  (findPaymentJoined pid cond (db w) = None -> (m w).2 = w) ->
  (forall p, cond p = true -> p_schoolId p = s) ->
  (forall p, p_schoolId (fp p) = p_schoolId p /\ p_enrollmentId (fp p) = p_enrollmentId p) ->
  (forall sn, e_schoolId (fe sn) = e_schoolId (j_enrollment (sn_join sn)) /\
    e_enrollmentInviteId (fe sn) = e_enrollmentInviteId (j_enrollment (sn_join sn))) ->
  stays (tenant s) m w.
Proof.
  intros Hf Hn Hc Kp Ke r w' E. destruct (findPaymentJoined pid cond (db w)) as [sn|] eqn:Ef.
  - destruct (Hf sn eq_refl) as (x & w1 & H & Hm). rewrite H in E. injection E as _ <-.
    pose proof (findPaymentJoined_some _ _ _ _ Ef) as (_ & Hp & Hs & Hj).
    apply join_enrollment_some in Hj as [_ He].
    destruct (Kp (sn_payment sn)), (Ke sn). eapply tenant_moves; eauto.
  - specialize (Hn eq_refl). rewrite E in Hn. cbn in Hn. by rewrite Hn.
Qed.

Ltac at_school := unfold confirm_cond, reject_cond, reverse_cond, of_school; intros; to_prop; tauto.
Ltac none_found := intros E; unfold mbind, M_bind, read, orThrow; by rewrite E.

Lemma tenant_confirm pid actor now w : stays (tenant s) (confirmPayment pid s actor now) w.
Proof.
  eapply (tenant_reviewed _ pid (confirm_cond s) (confirmed_row now)
    (fun sn => debit_installment (p_amountPaid (sn_payment sn)) (j_enrollment (sn_join sn)))); [|..].
  - intros sn H. eexists. by apply confirmPayment_found.
  - unfold confirmPayment, confirmPayment_pre. none_found.
  - at_school.
  - done.
  - intros sn. unfold debit_installment. by destruct (_ <=? 0).
Qed.

Lemma tenant_reject pid actor w : stays (tenant s) (rejectPayment pid s actor) w.
Proof.
  eapply (tenant_reviewed _ pid (reject_cond s) (set_p_status TX_FAILED)
    (fun sn => if is_first (sn_payment sn) then set_e_paymentStatus FAILED (j_enrollment (sn_join sn))
       else j_enrollment (sn_join sn))); [|..].
  - intros sn H. eexists. by apply rejectPayment_found.
  - unfold rejectPayment, rejectPayment_pre. none_found.
  - at_school.
  - done.
  - intros sn. by destruct (is_first _).
Qed.

Lemma tenant_reverse pid actor reason w : stays (tenant s) (reversePayment pid s actor reason) w.
Proof.
  eapply (tenant_reviewed _ pid (reverse_cond s) reversed_row
    (fun sn => restore_installment (p_amountPaid (sn_payment sn)) (j_enrollment (sn_join sn)))); [|..].
  - intros sn H. eexists. by apply reversePayment_found.
  - unfold reversePayment, reversePayment_pre. none_found.
  - at_school.
  - done.
  - done.
Qed.

Lemma tenant_default eid actor w : stays (tenant s) (markEnrollmentAsDefaulted eid s actor) w.
Proof.
  unfold markEnrollmentAsDefaulted, markEnrollmentAsDefaulted_tx, updateEnrollment, findEnrollmentOrThrow. tenant_steps.
  apply join_enrollment_some in H as [Ea He]. rewrite Ea in *. to_prop. eapply tenant_plan; eauto; cbn; congruence.
Qed.

Lemma confirmFirstPayment_tx_school eid schoolId actor now w x w' :
  confirmFirstPayment_tx eid schoolId actor now w = (Ok x, w') ->
  exists e, enrollments (db w) !! eid = Some e /\ e_schoolId e = schoolId.
Proof.
  unfold confirmFirstPayment_tx. intros H.
  apply bind_run in H as (? & ? & [-> ->]%read_run & H). apply bind_run in H as (j & ? & [Hj ->]%orThrow_run & H).
  apply bind_run in H as (? & ? & [Hs ->]%ensure_run & _). apply join_enrollment_some in Hj as [_ He]. to_prop. eauto.
Qed.

Lemma tenant_confirmFirst eid actor now w : stays (tenant s) (confirmFirstPayment eid s actor now) w.
Proof.
  unfold confirmFirstPayment. apply stays_bind; [exact _| |intros [j p] w1 _; unfold emitBoth; tenant_steps].
  apply stays_committed; [exact _|]. intros x w' H.
  pose proof (confirmFirstPayment_tx_school _ _ _ _ _ _ _ H) as (e0 & He0 & Hs).
  apply confirmFirstPayment_tx_run in H as (pid & p & e & a & Hp & Hc & He & Hm). rewrite He in He0. injection He0 as <-.
  eapply tenant_moves; eauto.
  unfold manual_first_cond in Hc. to_prop. tauto.
Qed.

Lemma tenant_amend_tx j mid m new actor reason w x w' :
  join_enrollment (db w) (j_eid j) = Some j -> e_schoolId (j_enrollment j) = s ->
  payments (db w) !! mid = Some m -> p_enrollmentId m = j_eid j ->
  amendMigratedPayment_tx j (mid, m) new s actor reason w = (Ok x, w') -> tenant s (db w) (db w').
Proof.
  intros Hj Hs Hm He H T. apply join_enrollment_some in Hj as [_ Hj].
  pose proof (tn_payment _ T _ _ _ Hm ltac:(by rewrite He)) as Hms. rewrite Hs in Hms.
  enough (tenant s (db w) (db w')) as R by exact (R T). unfold amendMigratedPayment_tx in H.
  apply bind_run in H as (? & ? & [-> ->]%read_run & H). apply bind_run in H as (e & ? & [Hl ->]%orThrow_run & H).
  rewrite Hj in Hl. injection Hl as <-.
  apply bind_run in H as (? & ? & [-> ->]%read_run & H). apply bind_run in H as (? & ? & [_ ->]%ensure_run & H).
  apply bind_run in H as (n & w1 & Hn & H). apply bind_run in H as (? & ? & [Hn0 ->]%ensure_run & H).
  apply updateManyPayment_run in Hn as [(-> & _)|(-> & p & Hp & _ & E1)]; [done|].
  cbn [fst] in Hp. rewrite Hm in Hp. injection Hp as <-.
  assert (tenant s (db w) (db w1)) as R1 by (rewrite E1; eapply tenant_payment; [exact Hm|exact Hms|exact Hms|done]).
  assert (enrollments (db w1) !! j_eid j = Some (j_enrollment j)) as He1 by by rewrite E1.
  apply bind_run in H as (e' & w2 & (e & He' & -> & E2)%updateEnrollment_run & H). rewrite He1 in He'. injection He' as <-.
  assert (tenant s (db w1) (db w2)) as R2 by (rewrite E2; eapply tenant_plan; [exact He1|exact Hs|exact Hs|done]).
  apply bind_run in H as (u & w3 & Hi & H). apply bind_run in H as (? & w4 & ->%audit_record_run & [_ ->]%ret_run).
  transitivity (db w1); [done|]. transitivity (db w2); [done|].
  transitivity (db w3); [|by apply tenant_same; cbn; [..|lia]].
  destruct (e_enrollmentInviteId (j_enrollment j)) as [iid|] eqn:Ei.
  - apply bind_run in Hi as (k & ? & Hi & [_ ->]%ret_run).
    apply updateManyInvite_run in Hi as [(-> & ->)|(-> & i & Hi & _ & ->)]; [reflexivity|].
    assert (i_schoolId i = s) by (rewrite <- Hs; eapply (tn_plan _ T); [exact Hj|exact Ei|]; by rewrite E2, E1 in Hi).
    by eapply tenant_invite.
  - by apply ret_run in Hi as [_ ->].
Qed.

Lemma tenant_amend rq iid amount reason user reached w :
  au_userSchoolId user = Some s -> stays (tenant s) (amend rq iid amount reason user reached) w.
Proof.
  intros Hs. unfold amend, amendMigratedPayment, amendMigratedPayment_pre, emitBoth. stays_to_transaction.
  rewrite (ow_session _ _ _ _ H) in Hs. injection Hs as ->. destruct a2 as [mid m].
  apply find_row_some in H5 as [Hm Hc]. pose proof (join_enrollment_some _ _ _ H3) as [Ej _].
  apply stays_bind; [exact _| |intros; tenant_steps].
  apply stays_committed; [exact _|]. intros x w' R. unfold migrated_success in Hc. to_prop.
  rewrite <- Ej in *. eapply tenant_amend_tx; [exact H3|done|exact Hm|tauto|exact R].
Qed.

Lemma tenant_createInvite sys i w : i_schoolId i = s -> stays (tenant s) (createInvite sys i) w.
Proof.
  intros Hs. unfold createInvite. apply stays_ensure_bind; [exact _|]. intros _ r w' E.
  unfold fresh_id, writeInvite, read, write, throw, mbind, M_bind, mret, M_ret in E.
  cbn -[insert] in E. destruct (inviteConflict _ _ _ _); injection E as _ <-.
  - apply tenant_same; cbn; first [done|lia].
  - by apply tenant_new_invite.
Qed.

Lemma tenant_create sys rq dto user w : au_userSchoolId user = Some s -> stays (tenant s) (Invites.create sys rq dto user) w.
Proof.
  intros Hs. unfold Invites.create, assertNotAlreadyMigrated, assertNoLiveInvite. tenant_steps.
  rewrite (ow_session _ _ _ _ H) in Hs. injection Hs as ->. by apply tenant_createInvite.
Qed.

Lemma tenant_saveInvite sys iid (l : list EnrollmentInviteStatus) data w :
  (forall i, i_schoolId (data i) = i_schoolId i) -> stays (tenant s) (saveInvite sys iid (Invites.of_status s l) data) w.
Proof.
  intros Hd r w' E. rewrite saveInvite_eq in E. destruct (invites (db w) !! iid) as [i|] eqn:Hi; [|by injection E as _ <-].
  destruct (Invites.of_status s l i) eqn:Ho; [|by injection E as _ <-].
  destruct (inviteConflict _ _ _ _); injection E as _ <-; [done|].
  unfold Invites.of_status in Ho. to_prop. eapply tenant_invite; [exact Hi|tauto|]. rewrite Hd. tauto.
Qed.

Lemma tenant_revoke sys rq iid user reason w :
  au_userSchoolId user = Some s -> stays (tenant s) (revoke sys rq iid user reason) w.
Proof.
  intros Hs. unfold revoke. tenant_steps. rewrite (ow_session _ _ _ _ H) in Hs. injection Hs as ->. by apply tenant_saveInvite.
Qed.

Lemma tenant_reissue sys rq iid user w :
  au_userSchoolId user = Some s -> stays (tenant s) (reissue sys rq iid user) w.
Proof.
  intros Hs. unfold reissue. tenant_steps. rewrite (ow_session _ _ _ _ H) in Hs. injection Hs as ->. by apply tenant_saveInvite.
Qed.

Lemma tenant_released eid cid iid actor reason w x w' e :
  enrollments (db w) !! eid = Some e -> e_schoolId e = s ->
  releaseMigratedEnrollment eid cid iid s actor reason w = (Ok x, w') -> tenant s (db w) (db w').
Proof.
  intros He Hs H. unfold releaseMigratedEnrollment in H.
  apply bind_run in H as (? & ? & [-> ->]%read_run & H). apply bind_run in H as (e1 & ? & [_ ->]%orThrow_run & H).
  apply bind_run in H as (? & ? & [-> ->]%read_run & H). apply bind_run in H as (? & ? & [_ ->]%ensure_run & H).
  apply bind_run in H as (? & w1 & E1%write_run & H). apply bind_run in H as (? & w2 & E2%write_run & H).
  apply bind_run in H as (? & ? & [-> ->]%read_run & H). apply bind_run in H as (? & ? & [_ ->]%orThrow_run & H).
  apply bind_run in H as (? & ? & ->%write_run & H). apply bind_run in H as (? & ? & ->%audit_record_run & [_ ->]%ret_run).
  transitivity (db w1); [rewrite E1; by eapply tenant_drop_payments|].
  transitivity (db w2); [rewrite E2; eapply tenant_drop_plan; [by rewrite E1|done]|].
  apply tenant_same; cbn; [done..|lia].
Qed.

Lemma tenant_release sys rq iid user reason w :
  au_userSchoolId user = Some s -> stays (tenant s) (release sys rq iid user reason) w.
Proof.
  intros Hs. unfold release. stays_to_transaction. apply stays_knowing. intros T.
  rewrite (ow_session _ _ _ _ H) in Hs. injection Hs as ->. destruct a0 as [eid e].
  apply find_row_some in H1 as [He Hc]. to_prop.
  assert (exists i, invites (db w) !! iid = Some i /\ i_schoolId i = s) as (i & Hi & His).
  { unfold invite_of_school in H0. destruct (invites (db w) !! iid) as [i|]; [|done]. cbn in H0.
    case_bool_decide; [|done]. eauto. }
  pose proof (tn_plan _ T _ _ _ _ He Hc Hi) as Hes. rewrite His in Hes.
  apply stays_bind; [exact _| |intros; unfold notifyUser; tenant_steps].
  apply stays_committed; [exact _|]. intros x w' R. unfold release_tx in R. cbn [fst snd] in R.
  apply bind_run in R as (n & w1 & Hn & R). apply bind_run in R as (? & ? & [_ ->]%ensure_run & R).
  apply bind_run in R as (? & ? & Hr & [_ ->]%ret_run).
  transitivity (db w1); [eapply (tenant_saveInvite sys iid [INV_CLAIMED]); [|exact Hn]; done|].
  eapply tenant_released; [|symmetry; exact Hes|exact Hr].
  rewrite saveInvite_eq, Hi in Hn. destruct (Invites.of_status _ _ _); [destruct (inviteConflict _ _ _ _)|]; [done| |];
    injection Hn as _ <-; exact He.
Qed.
End Operations.

(** ** The school's routes *)

(** The routes of a school's owner alone. *)
Definition school_route (r : Route) : bool := bool_decide (required_roles r = Some [SCHOOL_OWNER]).

Lemma tenant_handler sv s r user w : school_route r = true -> au_userSchoolId user = Some s ->
  stays (tenant s) (handler sv r user) w.
Proof.
  intros Hr Hs. apply bool_decide_eq_true in Hr.
  destruct r as [[]|[]|[]|[]|[]|[]|q|]; try discriminate Hr;
    cbn [handler schools_handler enrollments_handler invites_handler]; unfold respond, own_school; rewrite ?Hs.
  all: unfold getHistory_handler, own_school, respond, list_invites; rewrite ?Hs; tenant_steps.
  all: try match goal with Ha : Some _ = Some _ |- _ => injection Ha as <- end.
  - apply tenant_confirm.
  - apply tenant_reject.
  - apply tenant_default.
  - apply tenant_reverse.
  - apply tenant_confirmFirst.
  - by apply tenant_create.
  - by apply tenant_revoke.
  - by apply tenant_reissue.
  - by apply tenant_amend.
  - by apply tenant_release.
Qed.

Lemma tenant_request sv s session r w : school_route r = true -> su_schoolId session = Some s ->
  tenant s (db w) (db (serve_route sv r (Some session) w).2).
Proof.
  intros Hr Hs. rewrite serve_private by (by destruct r as [r|r|[]|r|r|r|q|i]).
  destruct (admitted r session); [|done].
  destruct (handler sv r (session_user session) w) as [x w'] eqn:E.
  by eapply (tenant_handler sv s r (session_user session)).
Qed.

(** Requests of one session, one after another, each served as it comes. *)
Definition serve_all (session : option SessionUser) (requests : list (Server * Route)) (w : World) : World :=
  foldl (fun w q => (serve_route q.1 q.2 session w).2) w requests.

(** One school cannot touch another: start from tables where a payment has
    its plan's school and a plan its invite's, take a session of school [s] and
    any sequence of requests on the routes of a school's owner — reviews,
    reversals, defaults, invites issued, revoked, reissued, amended and released —
    accepted or refused.  Afterwards every payment, plan and invite of every other
    school is there exactly as it was, none was added, and the tables still agree. *)
Theorem tenant_isolation s session requests w :
  tenancy (db w) -> su_schoolId session = Some s ->
  Forall (fun q : Server * Route => school_route q.2 = true) requests ->
  let w' := serve_all (Some session) requests w in tenancy (db w') /\ others s (db w) (db w').
Proof.
  intros T Hs Hr w'. enough (tenant s (db w) (db w')) as R by exact (R T). subst w'. clear T. revert w.
  induction Hr as [|[sv r] l H _ IH]; intros w; [done|]. cbn [serve_all foldl fst snd].
  etransitivity; [by apply tenant_request|]. apply IH.
Qed.

(** ** What a key reaches *)

(** A client's idempotency key is looked up before the caller is compared with the
    plan, and among every family's payments.  Whoever sends the key of a live payment
    is answered with that payment, and its Paystack reference and access code,
    for a plan of their own choosing; whoever sends the key of a dead one takes the
    key off that payment, although the request is then refused. *)
Theorem keys_reach_any_payment env key user eid amount dto w pid p j :
  truthy (Some key) = Some key -> findPaymentByIdempotencyKey key (db w) = Some (pid, p) ->
  dto_receiptUrl dto = None -> dto_idempotencyKey dto = Some key ->
  join_enrollment (db w) eid = Some j -> j_userId j <> au_userId user ->
  let submit := submitInstallmentPayment env eid amount user None (Some key) w in
  if isReplayableIntent (p_status p) then
    submit = (Ok (mkSubmitResult pid true), w) /\
    initiateFirstPayment env dto (au_userId user) w = (Ok (Resumed (buildIdempotentInitiationResponse p)), w)
  else
    submit = (Err (FForbidden "You are not authorized to pay this enrollment"),
      mkWorld (set_payments (<[pid := set_p_idempotencyKey None p]> (payments (db w))) (db w)) (out w)).
Proof.
  intros Hk Hf Hr Hd Hj Hu submit. subst submit. destruct (isReplayableIntent (p_status p)) eqn:Hs.
  - split.
    + unfold submitInstallmentPayment, replayed, read, mbind, M_bind. rewrite Hk. cbn -[isReplayableIntent truthy]. rewrite Hf. cbn [fst snd]. by rewrite Hs.
    + unfold initiateFirstPayment, replayed, read, mbind, M_bind. rewrite Hr, Hd, Hk. cbn -[isReplayableIntent truthy]. rewrite Hf. cbn [fst snd]. by rewrite Hs.
  - apply find_row_some in Hf as Hp. destruct Hp as [Hp _].
    unfold submitInstallmentPayment, replayed, assertOwnedReceiptPath, releaseKey, has_status. exec.
    rewrite Hk. cbn -[lookup insert truthy]. rewrite Hf. exec.
    rewrite bool_decide_eq_true_2 by done. exec.
    match goal with |- context [join_enrollment ?d eid] => change (join_enrollment d eid) with (join_enrollment (db w) eid) end.
    rewrite Hj. exec. by rewrite bool_decide_eq_false_2.
Qed.

(** ** Witness *)

Lemma sample_tenancy : tenancy (db sample).
Proof.
  split; cbn -[lookup]; intros k x.
  - intros e [[_ <-]|[_ [_ <-]%lookup_singleton_Some]]%lookup_insert_Some He; by vm_compute in He; injection He as <-.
  - intros j i [[_ <-]|[_ [_ <-]%lookup_singleton_Some]]%lookup_insert_Some; done.
  - intros j [[_ <-]|[_ [_ <-]%lookup_singleton_Some]]%lookup_insert_Some; done.
  - by rewrite lookup_empty.
Qed.

(** The owner of school 2 tries the payment, the plan and the history of school 1. *)
Definition sample_requests : list (Server * Route) :=
  (fun r => (sample_server, r)) <$> [OfSchools (ConfirmPayment 5%positive); OfSchools (ReversePayment 5%positive None);
    OfSchools (RejectPayment 5%positive); OfSchools (MarkDefaulted 4%positive); OfEnrollments (ConfirmFirstPayment 9%positive);
    OfSchools GetStats; OfInvites (ReleaseInvite 15%positive None)].
Lemma tenant_isolation_witness :
  payments (db (serve_all (Some (mkSessionUser 30%positive (Some SCHOOL_OWNER) (Some 2%positive))) sample_requests sample))
    !! 5%positive = Some sample_installment.
Proof.
  destruct (tenant_isolation 2%positive (mkSessionUser 30%positive (Some SCHOOL_OWNER) (Some 2%positive))
    sample_requests sample sample_tenancy eq_refl) as [_ (H & _)].
  - repeat constructor.
  - apply H; [discriminate|reflexivity].
Defined.

(** The same request of the owner of school 1 is served: the theorem does not hold
    because nothing works. *)
Example own_payment_confirmed :
  p_status <$> payments (db (serve_all (Some (mkSessionUser 10%positive (Some SCHOOL_OWNER) (Some 1%positive)))
    [(sample_server, OfSchools (ConfirmPayment 5%positive))] sample)) !! 5%positive = Some TX_SUCCESS.
Proof. vm_compute. reflexivity. Qed.

(** Someone else's parent sends the key of the family's card payment. *)
Example keys_reach_any_payment_witness :
  submitInstallmentPayment sample_env 4%positive 2000 (mkAuthUser 30%positive PARENT None) None (Some "key-2"%string) sample =
    (Ok (mkSubmitResult 6%positive true), sample).
Proof.
  refine (proj1 (keys_reach_any_payment sample_env "key-2" (mkAuthUser 30%positive PARENT None) 4%positive 2000
    (mkCreateEnrollmentDto None None 1%positive "JSS1" Schedule.MONTHLY 1 0 0 None (Some "key-2"%string)) sample 6%positive sample_card _ eq_refl eq_refl eq_refl eq_refl eq_refl _)).
  discriminate.
Defined.
