(* ===== verification/Families.v ===== *)
(** * Families

    What the payment requests of one parent may touch: the plans of that parent's
    children and the payments on them, and no other family's.  A plan is the user's
    who is its child's parent ([owner_of]); the rows of everybody else are
    [foreign_payments] and [foreign_plans].  Each operation of the enrollment
    controller is followed through its writes ([fam_submit], [fam_outcome],
    [fam_initiate]), carrying whose rows it has resolved. *)

From Stdlib Require Import QArith.
From S2P Require Import Prelude Schema Effects Samples EnrollmentView PaymentCalc Ledger LedgerCard LedgerSpecs LedgerCardSpecs Enrollment EnrollmentSpecs Invites InviteSpecs Frames Users PaymentHistory Documents Routes RouteSpecs Tenancy.

Local Open Scope Z_scope.

(** ** Whose a plan is *)

Definition plan_owner (d : DB) (e : ChildEnrollment) : option id :=
  c ← children d !! e_childId e; pr ← parents d !! c_parentId c; Some (par_userId pr).
Definition owner_of (d : DB) (eid : id) : option id := e ← enrollments d !! eid; plan_owner d e.

Definition foreign_payments (u : id) (d : DB) : gmap id Payment :=
  filter (fun kv : id * Payment => owner_of d (p_enrollmentId kv.2) <> Some u) (payments d).
Definition foreign_plans (u : id) (d : DB) : gmap id ChildEnrollment :=
  filter (fun kv : id * ChildEnrollment => owner_of d kv.1 <> Some u) (enrollments d).

(** A child of the user. *)
Definition user_child (u : id) (d : DB) (cid : id) : Prop :=
  exists c pr, children d !! cid = Some c /\ parents d !! c_parentId c = Some pr /\ par_userId pr = u.

(** Ids are handed out once, and a Paystack reference is one payment's. *)
Record kin (d : DB) : Prop := mkKin {
  kn_payment : forall pid p, payments d !! pid = Some p -> (pid < next_id d)%positive /\ (p_enrollmentId p < next_id d)%positive;
  kn_reference : forall pid p pid' p' r, payments d !! pid = Some p -> payments d !! pid' = Some p' ->
    p_paystackReference p = Some r -> p_paystackReference p' = Some r -> pid = pid';
  kn_plan : forall eid e, enrollments d !! eid = Some e -> (eid < next_id d)%positive /\ (e_childId e < next_id d)%positive;
  kn_child : forall cid c, children d !! cid = Some c -> (cid < next_id d)%positive /\ (c_parentId c < next_id d)%positive;
  kn_parent : forall i pr, parents d !! i = Some pr -> (i < next_id d)%positive }.

(** Nothing of another family changes, and what is the user's stays so. *)
Record family (u : id) (d d' : DB) : Prop := mkFamily {
  fm_payments : foreign_payments u d' = foreign_payments u d;
  fm_plans : foreign_plans u d' = foreign_plans u d;
  fm_owner : forall eid, owner_of d eid = Some u -> owner_of d' eid = Some u;
  fm_child : forall cid, user_child u d cid -> user_child u d' cid }.
Definition within (u : id) (d d' : DB) : Prop := kin d -> kin d' /\ family u d d'.
#[export] Instance within_preorder u : PreOrder (within u).
Proof.
  split; [by intros d H|]. intros a b c H1 H2 Ha. destruct (H1 Ha) as (Hb & [P1 E1 O1 C1]).
  destruct (H2 Hb) as (Hc & [P2 E2 O2 C2]). split; [done|]. split; [congruence|congruence|eauto|eauto].
Qed.

(** ** Single writes *)

Lemma filter_agree {V} (P Q : id * V -> Prop) `{!forall x, Decision (P x), !forall x, Decision (Q x)} (m : gmap id V) :
  (forall k v, m !! k = Some v -> P (k, v) <-> Q (k, v)) -> filter P m = filter Q m.
Proof. intros HPQ. apply map_filter_ext. exact HPQ. Qed.
Lemma filter_insert_out {V} (P Q : id * V -> Prop) `{!forall x, Decision (P x), !forall x, Decision (Q x)} (m : gmap id V) k v :
  ~ P (k, v) -> (forall v0, m !! k = Some v0 -> ~ Q (k, v0)) ->
  (forall j x, j <> k -> m !! j = Some x -> P (j, x) <-> Q (j, x)) -> filter P (<[k := v]> m) = filter Q m.
Proof.
  intros Hv Hold Ha. apply map_eq. intros j. apply option_eq. intros x. rewrite !map_lookup_filter_Some.
  destruct (decide (k = j)) as [<-|Hj].
  - rewrite lookup_insert_eq. split; [by intros [[= ->] ?]|]. intros [E HQ]. by destruct (Hold _ E).
  - rewrite lookup_insert_ne by done. split; intros [E HP]; (split; [done|]); by apply (Ha j x).
Qed.

Section Writes.
Context (u : id) (d : DB).

(** Rows rewritten without touching who owns what. *)
Lemma same_owners d' : (forall i, owner_of d' i = owner_of d i) -> payments d' = payments d ->
  (forall k x, enrollments d' !! k = Some x <-> enrollments d !! k = Some x) ->
  (forall cid, user_child u d cid -> user_child u d' cid) -> family u d d'.
Proof.
  intros Ho Hp He Hc. split; [| |intros eid; by rewrite Ho|done].
  - unfold foreign_payments. rewrite Hp. apply filter_agree. intros. cbn -[owner_of]. by rewrite Ho.
  - unfold foreign_plans. assert (enrollments d' = enrollments d) as -> by (apply map_eq; intros; apply option_eq; apply He).
    apply filter_agree. intros. cbn -[owner_of]. by rewrite Ho.
Qed.

Lemma fam_same d' : payments d' = payments d -> enrollments d' = enrollments d -> children d' = children d ->
  parents d' = parents d -> (next_id d <= next_id d')%positive -> within u d d'.
Proof.
  intros Hp He Hc Hpr Hn [K1 K2 K3 K4 K5]. split.
  - split; rewrite ?Hp, ?He, ?Hc, ?Hpr; [| done | | |]; intros k x Hx;
      [pose proof (K1 _ _ Hx)|pose proof (K3 _ _ Hx)|pose proof (K4 _ _ Hx)|pose proof (K5 _ _ Hx)]; lia.
  - apply same_owners; [|done|by rewrite He|].
    + intros i. unfold owner_of, plan_owner. by rewrite He, Hc, Hpr.
    + intros cid. unfold user_child. by rewrite Hc, Hpr.
Qed.

Lemma fam_payment pid p p' : payments d !! pid = Some p -> owner_of d (p_enrollmentId p) = Some u ->
  p_enrollmentId p' = p_enrollmentId p -> p_paystackReference p' = p_paystackReference p ->
  within u d (set_payments (<[pid := p']> (payments d)) d).
Proof.
  intros Hp Ho He Hr [K1 K2 K3 K4 K5]. split; [split; cbn -[lookup insert]; eauto|split; [|done|done|done]].
  - intros k q [[<- <-]|[_ Hq]]%lookup_insert_Some; [|by eapply K1]. rewrite He. by eapply K1.
  - intros k q k' q' r [[<- <-]|[_ Hq]]%lookup_insert_Some [[<- <-]|[_ Hq']]%lookup_insert_Some; rewrite ?Hr; eauto.
  - apply filter_insert_out; cbn -[owner_of]; [by rewrite He; intros []| |done].
    intros p0. rewrite Hp. intros [= <-]. by intros [].
Qed.

Lemma fam_plan eid e e' : enrollments d !! eid = Some e -> plan_owner d e = Some u -> e_childId e' = e_childId e ->
  within u d (set_enrollments (<[eid := e']> (enrollments d)) d).
Proof.
  intros He Ho Hc [K1 K2 K3 K4 K5]. set (d' := set_enrollments _ d).
  assert (forall i, owner_of d' i = owner_of d i) as Hw.
  { intros i. unfold owner_of, d'. cbn -[lookup insert]. destruct (decide (eid = i)) as [<-|Hi].
    - rewrite lookup_insert_eq, He. cbn. unfold plan_owner. cbn. by rewrite Hc.
    - by rewrite lookup_insert_ne. }
  split; [split; cbn -[lookup insert]; eauto|split; [| |intros i; by rewrite Hw|done]].
  - intros k x [[<- <-]|[_ Hx]]%lookup_insert_Some; [|by eapply K3]. rewrite Hc. by eapply K3.
  - apply filter_agree. intros. cbn -[owner_of]. by rewrite Hw.
  - assert (owner_of d eid = Some u) as Hu by (unfold owner_of; by rewrite He).
    apply filter_insert_out; cbn -[owner_of]; [rewrite Hw; by intros []|by intros ? _ []|intros; by rewrite Hw].
Qed.

Lemma fam_new_payment p : owner_of d (p_enrollmentId p) = Some u -> reference_taken (p_paystackReference p) d = false ->
  within u d (set_payments (<[next_id d := p]> (payments d)) (set_next_id (Pos.succ (next_id d)) d)).
Proof.
  intros Ho Hr [K1 K2 K3 K4 K5]. assert (exists e, enrollments d !! p_enrollmentId p = Some e) as [e He].
  { unfold owner_of in Ho. destruct (enrollments d !! p_enrollmentId p); [eauto|done]. }
  assert (forall k q r, payments d !! k = Some q -> p_paystackReference p = Some r -> p_paystackReference q <> Some r) as Hf.
  { intros k q r Hq Hpr Hqr. rewrite Hpr in Hr. cbn in Hr. rewrite taken_false in Hr. specialize (Hr k q Hq).
    unfold by_reference in Hr. by rewrite Hqr, bool_decide_eq_true_2 in Hr. }
  split; [split; cbn -[lookup insert]|split; [|done|done|done]].
  - intros k q [[<- <-]|[_ Hq]]%lookup_insert_Some; [pose proof (K3 _ _ He)|pose proof (K1 _ _ Hq)]; lia.
  - intros k q k' q' r [[<- <-]|[_ Hq]]%lookup_insert_Some [[<- <-]|[_ Hq']]%lookup_insert_Some ? ?; eauto;
      exfalso; by eapply Hf.
  - intros k x Hx. pose proof (K3 _ _ Hx). lia.
  - intros k x Hx. pose proof (K4 _ _ Hx). lia.
  - intros k x Hx. pose proof (K5 _ _ Hx). lia.
  - apply filter_insert_out; cbn -[owner_of]; [by intros []| |done]. intros q Hq. pose proof (K1 _ _ Hq). lia.
Qed.

Lemma fam_new_plan e : plan_owner d e = Some u -> (e_childId e < next_id d)%positive ->
  within u d (set_enrollments (<[next_id d := e]> (enrollments d)) (set_next_id (Pos.succ (next_id d)) d)).
Proof.
  intros Ho Hc [K1 K2 K3 K4 K5]. set (d' := set_enrollments _ _).
  assert (forall i, i <> next_id d -> owner_of d' i = owner_of d i) as Hw.
  { intros i Hi. unfold owner_of, d'. cbn -[lookup insert]. by rewrite lookup_insert_ne. }
  split; [split; cbn -[lookup insert]; eauto|split; [| | |done]].
  - intros k x Hx. pose proof (K1 _ _ Hx). lia.
  - intros k x [[<- <-]|[_ Hx]]%lookup_insert_Some; [lia|]. pose proof (K3 _ _ Hx). lia.
  - intros k x Hx. pose proof (K4 _ _ Hx). lia.
  - intros k x Hx. pose proof (K5 _ _ Hx). lia.
  - apply filter_agree. intros k p Hp. cbn -[owner_of]. pose proof (K1 _ _ Hp). rewrite Hw; [done|lia].
  - apply filter_insert_out; cbn -[owner_of].
    + unfold owner_of, d'. cbn -[lookup insert]. rewrite lookup_insert_eq. cbn. by intros [].
    + intros x Hx. pose proof (K3 _ _ Hx). lia.
    + intros k x Hk _. by rewrite Hw.
  - intros i Hi. unfold owner_of in Hi. destruct (enrollments d !! i) as [x|] eqn:Hx; [|done].
    pose proof (K3 _ _ Hx). rewrite Hw by lia. unfold owner_of. by rewrite Hx.
Qed.

Lemma fam_new_child c : (c_parentId c < next_id d)%positive ->
  within u d (set_children (<[next_id d := c]> (children d)) (set_next_id (Pos.succ (next_id d)) d)).
Proof.
  intros Hc [K1 K2 K3 K4 K5]. set (d' := set_children _ _). split.
  - split; cbn -[lookup insert]; eauto.
    + intros k x Hx. pose proof (K1 _ _ Hx). lia.
    + intros k x Hx. pose proof (K3 _ _ Hx). lia.
    + intros k x [[<- <-]|[_ Hx]]%lookup_insert_Some; [lia|]. pose proof (K4 _ _ Hx). lia.
    + intros k x Hx. pose proof (K5 _ _ Hx). lia.
  - apply same_owners; [|done|done|].
    + intros i. unfold owner_of, d'. cbn -[lookup insert]. destruct (enrollments d !! i) as [e|] eqn:He; [|done].
      cbn -[lookup insert]. unfold plan_owner. cbn -[lookup insert]. pose proof (K3 _ _ He). rewrite lookup_insert_ne by lia. done.
    + intros cid (x & pr & Hx & Hpr & Hu). exists x, pr. split; [|done]. cbn -[lookup insert].
      pose proof (K4 _ _ Hx). rewrite lookup_insert_ne by lia. done.
Qed.

Lemma fam_new_parent pr :
  within u d (set_parents (<[next_id d := pr]> (parents d)) (set_next_id (Pos.succ (next_id d)) d)).
Proof.
  intros [K1 K2 K3 K4 K5]. set (d' := set_parents _ _). split.
  - split; cbn -[lookup insert]; eauto.
    + intros k x Hx. pose proof (K1 _ _ Hx). lia.
    + intros k x Hx. pose proof (K3 _ _ Hx). lia.
    + intros k x Hx. pose proof (K4 _ _ Hx). lia.
    + intros k x [[<- _]|[_ Hx]]%lookup_insert_Some; [lia|]. pose proof (K5 _ _ Hx). lia.
  - apply same_owners; [|done|done|].
    + intros i. unfold owner_of, d'. cbn -[lookup insert]. destruct (enrollments d !! i) as [e|]; [|done].
      cbn -[lookup insert]. unfold plan_owner. cbn -[lookup insert]. destruct (children d !! e_childId e) as [c|] eqn:Ec; [|done].
      cbn -[lookup insert]. pose proof (K4 _ _ Ec). rewrite lookup_insert_ne by lia. done.
    + intros cid (x & q & Hx & Hq & Hu). exists x, q. split; [done|]. split; [|done]. cbn -[lookup insert].
      pose proof (K5 _ _ Hq). rewrite lookup_insert_ne by lia. done.
Qed.
End Writes.

Lemma within_knowing {A} u (m : M A) w : (kin (db w) -> stays (within u) m w) -> stays (within u) m w.
Proof. intros H r w' E K. exact (H K r w' E K). Qed.

Lemma join_owner d eid j : join_enrollment d eid = Some j -> owner_of d eid = Some (j_userId j).
Proof.
  unfold join_enrollment, owner_of, plan_owner. destruct (enrollments d !! eid) as [e|]; [|done]. cbn.
  destruct (schools d !! e_schoolId e); [|done]. cbn. destruct (children d !! e_childId e) as [c|]; [|done]. cbn.
  destruct (parents d !! c_parentId c); [|done]. cbn. by intros [= <-].
Qed.

(** Reads, notices and the rows no plan hangs on. *)
Ltac fam_steps := intros; stays_steps ltac:(try (apply fam_same; cbn; first [done | lia])).

(** ** A card payment of the user's *)

Section Cards.
Context (u : id).

(** A payment and its plan rewritten. *)
Lemma fam_rewrites d d' pid p p' eid e e' :
  payments d' = <[pid := p']> (payments d) -> enrollments d' = <[eid := e']> (enrollments d) ->
  children d' = children d -> parents d' = parents d -> next_id d' = next_id d ->
  payments d !! pid = Some p -> enrollments d !! eid = Some e -> p_enrollmentId p = eid -> owner_of d eid = Some u ->
  p_enrollmentId p' = p_enrollmentId p -> p_paystackReference p' = p_paystackReference p -> e_childId e' = e_childId e ->
  within u d d'.
Proof.
  intros P E C R N Hp He <- Ho K1 K2 K3. set (d1 := set_payments (<[pid := p']> (payments d)) d).
  transitivity d1; [by eapply fam_payment|].
  transitivity (set_enrollments (<[p_enrollmentId p := e']> (enrollments d1)) d1).
  - eapply fam_plan; [exact He| |exact K3]. revert Ho. unfold owner_of. by rewrite He.
  - apply fam_same; cbn -[insert]; first [done | lia].
Qed.

(** The reference names a payment of the user's, if it names one. *)
Definition own_reference (r : string) (d : DB) : Prop :=
  forall s, findPaymentByReference r d = Some s -> owner_of d (p_enrollmentId (sn_payment s)) = Some u.
Lemma own_reference_of r d pid p : kin d -> payments d !! pid = Some p -> by_reference r p = true ->
  owner_of d (p_enrollmentId p) = Some u -> own_reference r d.
Proof.
  intros K Hp Hr Ho s (Hs & Hrs & _)%findPaymentByReference_some. unfold by_reference in *. to_prop.
  assert (sn_pid s = pid) as <- by (by eapply (kn_reference _ K)). rewrite Hp in Hs. by injection Hs as <-.
Qed.

Lemma fam_fail r w : own_reference r (db w) -> stays (within u) (failPaystackPayment r) w.
Proof.
  intros Ho. pose proof (failPaystackPayment_outcomes r w) as H. cbv zeta in H.
  destruct (findPaymentByReference r (db w)) as [s|] eqn:E; [|by eapply stays_run].
  specialize (Ho s E). destruct (has_status _ _); [|by eapply stays_run].
  apply findPaymentByReference_some in E as (Hp & _ & Hj). apply join_enrollment_some in Hj as [_ He].
  destruct H as (w' & H & P & En & (_ & _ & _ & F4 & F5 & _ & _ & _ & F9)). eapply stays_run; [exact H|].
  by eapply fam_rewrites.
Qed.

Lemma fam_notifyAdmins dl admins w : stays (within u) (notifyAdmins dl admins) w.
Proof.
  revert w. induction admins as [|a l IH]; intros w; [by apply stays_ret, _|]. cbn [notifyAdmins foldr].
  apply stays_bind; [exact _|fam_steps|]. intros ? w1 _. apply IH.
Qed.

Lemma fam_reconcile fmt dl r fee actor now w : own_reference r (db w) ->
  stays (within u) (reconcilePaystackPayment fmt dl r fee actor now) w.
Proof.
  intros Ho. unfold reconcilePaystackPayment. apply stays_read_bind.
  destruct (findPaymentByReference r (db w)) as [s|] eqn:E; [|apply stays_ret; exact _]. specialize (Ho s E).
  apply findPaymentByReference_some in E as (Hp & _ & Hj). pose proof (join_enrollment_some _ _ _ Hj) as [Ej He].
  rewrite <- Ej in He. destruct (p_status (sn_payment s)) eqn:Hs.
  - destruct (reconcile_pending fmt dl s r fee actor now w _ Hp Hs He) as
      (w' & H & [M1 M2 _ (_ & _ & _ & F4 & F5 & _ & _ & _ & F9)]).
    eapply stays_run; [exact H|]. rewrite <- Ej in Ho. by eapply fam_rewrites.
  - unfold reconcile_snapshot. rewrite Hs. apply stays_ret; exact _.
  - unfold reconcile_snapshot. rewrite Hs. unfold escalateReconcileConflict, createWebhookEvent, deliverAlert, deleteWebhookEvent.
    fam_steps; apply fam_notifyAdmins.
  - unfold reconcile_snapshot. rewrite Hs. unfold escalateReconcileConflict, createWebhookEvent, deliverAlert, deleteWebhookEvent.
    fam_steps; apply fam_notifyAdmins.
Qed.
End Cards.

(** ** Keys *)

Section Requests.
Context (u : id).

(** No payment of another family carries the key. *)
Definition own_key (key : option string) (d : DB) : Prop :=
  forall k pid p, truthy key = Some k -> foreign_payments u d !! pid = Some p -> by_idempotencyKey k p = false.

Lemma own_replayed key d pid p : own_key key d -> replayed key d = Some (pid, p) ->
  payments d !! pid = Some p /\ owner_of d (p_enrollmentId p) = Some u.
Proof.
  intros Hk. unfold replayed. destruct (truthy key) as [k|] eqn:Et; [|done]. cbn.
  intros [Hp Hc]%find_row_some. split; [done|].
  destruct (decide (owner_of d (p_enrollmentId p) = Some u)) as [|Hn]; [done|].
  assert (foreign_payments u d !! pid = Some p) as Hf by (by apply map_lookup_filter_Some).
  by rewrite (Hk _ _ _ Et Hf) in Hc.
Qed.

Lemma fam_update_payment pid cond data w p : payments (db w) !! pid = Some p ->
  owner_of (db w) (p_enrollmentId p) = Some u ->
  (forall p, p_enrollmentId (data p) = p_enrollmentId p /\ p_paystackReference (data p) = p_paystackReference p) ->
  stays (within u) (updateManyPayment pid cond data) w.
Proof.
  intros Hp Ho Hd. unfold updateManyPayment. apply stays_read_bind. rewrite Hp. destruct (cond p); [|apply stays_ret; exact _].
  destruct (Hd p). apply stays_bind; [exact _| |intros; apply stays_ret; exact _]. apply stays_write. by eapply fam_payment.
Qed.

Lemma fam_release key w existing : own_key key (db w) -> replayed key (db w) = Some existing ->
  stays (within u) (releaseKey existing) w.
Proof.
  destruct existing as [pid p]. intros Hk [Hp Ho]%own_replayed; [|done]. unfold releaseKey.
  apply stays_bind; [exact _|by eapply fam_update_payment|]. intros. apply stays_ret; exact _.
Qed.

Lemma fam_replay_on_conflict {A} key (m : M A) k w : stays (within u) m w -> stays (within u) (replay_on_conflict key m k) w.
Proof. intros Hm. unfold replay_on_conflict. apply stays_catch; [exact _|done|]. fam_steps. Qed.

Lemma fam_createPayment p w : owner_of (db w) (p_enrollmentId p) = Some u -> stays (within u) (createPayment p) w.
Proof.
  intros Ho r w' E. rewrite createPayment_eq in E. destruct (key_taken _ _); [by injection E as _ <-|].
  destruct (reference_taken _ _) eqn:Hr; injection E as _ <-; [done|]. by apply fam_new_payment.
Qed.

Lemma fam_receipt env url w : stays (within u) (assertOwnedReceiptPath env url u) w.
Proof. unfold assertOwnedReceiptPath. fam_steps. Qed.
Lemma receipt_world env url uid w x w' : assertOwnedReceiptPath env url uid w = (x, w') -> w' = w.
Proof. unfold assertOwnedReceiptPath. destruct url; [unfold ensure; destruct (String.prefix _ _)|]; by intros [= _ <-]. Qed.

(** ** Submitting an installment *)

Lemma fam_submit env eid amount user rcpt key w : au_userId user = u -> own_key key (db w) ->
  stays (within u) (submitInstallmentPayment env eid amount user rcpt key) w.
Proof.
  intros Hu Hk. unfold submitInstallmentPayment. rewrite Hu. apply stays_bind; [exact _|apply fam_receipt|].
  intros ? w1 ->%receipt_world. apply stays_read_bind.
  apply stays_bind; [exact _| |].
  - destruct (replayed key (db w)) as [existing|] eqn:E; [|fam_steps]. destruct (isReplayableIntent _); [fam_steps|].
    apply stays_bind; [exact _|by eapply fam_release|]. fam_steps.
  - intros [r|] w1 _; [fam_steps|]. apply stays_read_bind. apply stays_orThrow_bind; [exact _|]. intros j Hj.
    apply stays_ensure_bind; [exact _|]. intros Ho. apply stays_ensure_bind; [exact _|]. intros _.
    apply stays_bind; [exact _| |fam_steps]. apply fam_replay_on_conflict.
    apply stays_bind; [exact _| |fam_steps]. apply stays_transaction; [exact _|]. unfold submit_tx.
    apply join_owner in Hj. to_prop. apply stays_read_bind. apply stays_orThrow_bind; [exact _|]. intros.
    apply stays_read_bind. apply stays_ensure_bind; [exact _|]. intros _. apply fam_createPayment. cbn -[owner_of]. congruence.
Qed.

(** ** Asking for an outcome *)

Lemma fam_outcome env r pid user w : au_userId user = u -> au_role user <> SCHOOL_OWNER ->
  stays (within u) (getPaymentOutcome env r pid user) w.
Proof.
  intros Hu Hr. unfold getPaymentOutcome. apply stays_ensure_bind; [exact _|]. intros _.
  apply stays_read_bind. apply stays_orThrow_bind; [exact _|]. intros [k p] Hl. apply stays_read_bind.
  apply stays_ensure_bind; [exact _|]. intros Ho. apply within_knowing. intros K.
  assert (owner_of (db w) (p_enrollmentId p) = Some u) as Hown.
  { unfold owns_payment in Ho. cbn [snd] in Ho. rewrite (bool_decide_eq_false_2 (au_role user = _)), orb_false_r in Ho by done.
    destruct (join_enrollment _ _) as [j|] eqn:Hj; [|done]. to_prop. apply join_owner in Hj. congruence. }
  unfold load_payment in Hl. destruct (truthy r) as [ref|]; [|fam_steps].
  apply find_row_some in Hl as [Hp Hb].
  assert (own_reference u ref (db w)) as Href by (by eapply own_reference_of).
  apply stays_bind; [exact _| |fam_steps]. destruct (_ || _); [fam_steps|].
  unfold refresh_outcome. destruct (verifyTransaction env ref) as [| |st fees why]; [fam_steps|fam_steps|].
  apply stays_catch; [exact _| |fam_steps]. apply stays_bind; [exact _| |fam_steps].
  destruct (String.eqb st "success"); [|destruct (String.eqb st "failed"); [|fam_steps]].
  - apply stays_bind; [exact _|by apply fam_reconcile|]. fam_steps.
  - apply stays_bind; [exact _|by apply fam_fail|]. fam_steps.
Qed.

(** ** Opening a plan *)

Definition user_parent (i : id) (d : DB) : Prop := exists pr, parents d !! i = Some pr /\ par_userId pr = u.

Lemma resolveParent_own w i w' : Enrollment.resolveParent u w = (Ok i, w') -> user_parent i (db w').
Proof.
  unfold Enrollment.resolveParent, fresh_id. intros H. run_step H. destruct (parent_of u (db _)) as [[k pr]|] eqn:E.
  - run_step H. apply find_row_some in E as [Hp Hc]. to_prop. eexists; eauto.
  - run_step H. eexists. cbn -[insert]. rewrite lookup_insert_eq. eauto.
Qed.
Lemma fam_resolveParent w : stays (within u) (Enrollment.resolveParent u) w.
Proof.
  unfold Enrollment.resolveParent. apply stays_read_bind. destruct (parent_of u (db w)) as [[k pr]|]; [fam_steps|].
  apply stays_read_bind. apply stays_orThrow_bind; [exact _|]. intros a _. apply stays_read_bind.
  intros r w' E. unfold fresh_id, read, write, mbind, M_bind, mret, M_ret in E. cbn -[insert] in E. injection E as _ <-. apply fam_new_parent.
Qed.

Lemma resolveChild_own dto i w cid w' : user_parent i (db w) -> Enrollment.resolveChild dto i w = (Ok cid, w') -> user_child u (db w') cid.
Proof.
  intros (pr & Hpr & Hu) H. unfold Enrollment.resolveChild in H.
  assert (forall c k x d, c_parentId c = i -> parents d !! i = Some pr -> find_child c d = Some (k, x) -> user_child u d k) as Hf.
  { intros c k x d Hc Hd [Hk Hs]%find_row_some. unfold same_child in Hs. to_prop. destruct Hs as [[Hs _] _]. exists x, pr. split; [done|]. split; [|done]. congruence. }
  destruct (dto_childId dto) as [c|].
  - apply bind_run in H as (? & ? & [-> ->]%read_run & H). apply bind_run in H as (c0 & ? & [Hc ->]%orThrow_run & H).
    apply bind_run in H as (? & ? & [Hi ->]%ensure_run & [<- ->]%ret_run). to_prop. exists c0, pr. split; [done|]. split; [congruence|done].
  - destruct (truthy (dto_childName dto)) as [name|]; [|done].
    apply bind_run in H as (o & ? & [-> ->]%read_run & H). destruct (find_child _ (db w)) as [[k x]|] eqn:E.
    + apply ret_run in H as [<- ->]. eapply Hf; [|exact Hpr|exact E]. done.
    + unfold createChild, fresh_id in H. apply catch_run in H as [H|(e & w1 & H1 & H)].
      * apply bind_run in H as (? & ? & [-> ->]%read_run & H). rewrite E in H. run_step H.
        eexists _, pr. cbn -[insert]. rewrite lookup_insert_eq. eauto.
      * unfold read, write, throw, mbind, M_bind, mret, M_ret in H1. cbn -[insert find_child] in H1. rewrite E in H1. done.
Qed.
Lemma fam_resolveChild dto i w : user_parent i (db w) -> stays (within u) (Enrollment.resolveChild dto i) w.
Proof.
  intros (pr & Hpr & _). apply within_knowing. intros K. pose proof (kn_parent _ K _ _ Hpr) as Hi.
  unfold Enrollment.resolveChild. destruct (dto_childId dto); [fam_steps|]. destruct (truthy _) as [name|]; [|fam_steps].
  apply stays_read_bind. destruct (find_child _ (db w)) as [[k x]|]; [fam_steps|].
  apply stays_catch; [exact _| |fam_steps]. unfold createChild. apply stays_read_bind.
  destruct (find_child _ (db w)); [fam_steps|]. intros r w' E.
  unfold fresh_id, read, write, mbind, M_bind, mret, M_ret in E. cbn -[insert] in E. injection E as _ <-. by apply fam_new_child.
Qed.

(** What the resolved target names is the user's. *)
Record own_target (t : Target) (d : DB) : Prop := mkOwnTarget {
  ot_child : user_child u d (tg_childId t);
  ot_retry : forall eid, tg_retryEnrollmentId t = Some eid -> owner_of d eid = Some u;
  ot_pending : forall eid, tg_pendingEnrollmentId t = Some eid -> owner_of d eid = Some u }.

Lemma resolveTarget_own dto b w t w' : resolveEnrollmentTarget dto u b w = (Ok t, w') -> own_target t (db w').
Proof.
  unfold resolveEnrollmentTarget. intros H. apply bind_run in H as (i & w1 & Hi%resolveParent_own & H).
  apply bind_run in H as (cid & w2 & Hc & H). apply resolveChild_own in Hc; [|done].
  apply bind_run in H as (o & ? & [-> ->]%read_run & H). destruct (enrollment_of_child cid (db w2)) as [[eid e]|] eqn:E.
  - apply find_row_some in E as [He Hce]. to_prop. assert (owner_of (db w2) eid = Some u) as Ho.
    { destruct Hc as (c & pr & H1 & H2 & H3). unfold owner_of, plan_owner. rewrite He. cbn. rewrite Hce, H1. cbn. rewrite H2. cbn. by rewrite H3. }
    destruct (bool_decide (e_paymentStatus e = FAILED)); [destruct (bool_decide (e_schoolId e = _))|destruct (_ && _)];
      try discriminate H; apply ret_run in H as [<- ->]; (split; [done|intros ? [=]; congruence..]).
  - apply ret_run in H as [<- ->]. by split.
Qed.
Lemma fam_resolveTarget dto b w : stays (within u) (resolveEnrollmentTarget dto u b) w.
Proof.
  unfold resolveEnrollmentTarget. apply stays_bind; [exact _|apply fam_resolveParent|]. intros i w1 Hi%resolveParent_own.
  apply stays_bind; [exact _|by apply fam_resolveChild|]. fam_steps.
Qed.

(** ** Starting a first payment *)

Lemma fam_open dto calc k cid reuse now w : user_child u (db w) cid ->
  (forall eid, reuse = Some eid -> owner_of (db w) eid = Some u) -> stays (within u) (openEnrollment dto calc k cid reuse now) w.
Proof.
  intros (c & pr & Hc & Hpr & Hu) Hr. unfold openEnrollment. destruct reuse as [eid|].
  - specialize (Hr eid eq_refl). unfold updateEnrollment, findEnrollmentOrThrow. apply stays_bind; [exact _| |fam_steps].
    apply stays_assoc, stays_read_bind. apply stays_orThrow_bind; [exact _|]. intros e He.
    apply stays_bind; [exact _| |fam_steps]. apply stays_write. eapply fam_plan; [exact He| |done].
    unfold owner_of in Hr. by rewrite He in Hr.
  - apply within_knowing. intros K. intros r w' E. rewrite createEnrollment_eq in E.
    destruct (invite_taken _ _); [by injection E as _ <-|]. destruct (child_enrolled _ _); injection E as _ <-; [done|].
    apply fam_new_plan; [|by eapply kn_child]. unfold plan_owner. cbn. rewrite Hc. cbn. rewrite Hpr. cbn. by rewrite Hu.
Qed.
Lemma openEnrollment_own dto calc k cid reuse now w eid w' : user_child u (db w) cid ->
  (forall eid, reuse = Some eid -> owner_of (db w) eid = Some u) ->
  openEnrollment dto calc k cid reuse now w = (Ok eid, w') -> owner_of (db w') eid = Some u.
Proof.
  intros (c & pr & Hc & Hpr & Hu) Hr H. unfold openEnrollment in H. destruct reuse as [i|].
  - apply bind_run in H as (? & ? & (e & He & _ & ->)%updateEnrollment_run & [<- ->]%ret_run). specialize (Hr _ eq_refl).
    unfold owner_of in *. cbn -[insert]. rewrite lookup_insert_eq. by rewrite He in Hr.
  - rewrite createEnrollment_eq in H. destruct (invite_taken _ _); [done|]. destruct (child_enrolled _ _); [done|]. injection H as <- <-.
    unfold owner_of. cbn -[insert]. rewrite lookup_insert_eq. cbn. unfold plan_owner. cbn. rewrite Hc. cbn. rewrite Hpr. cbn. by rewrite Hu.
Qed.

Lemma fam_charge env email r sub calc g pid w p : payments (db w) !! pid = Some p -> owner_of (db w) (p_enrollmentId p) = Some u ->
  by_reference r p = true -> stays (within u) (initiate_charge env email r sub calc g pid) w.
Proof.
  intros Hp Ho Hr. apply within_knowing. intros K. unfold initiate_charge. destruct (initializeTransaction _ _).
  - unfold findPaymentOrThrow. apply stays_assoc, stays_read_bind. apply stays_orThrow_bind; [exact _|]. intros q _.
    apply stays_bind; [exact _|by eapply fam_update_payment|fam_steps].
  - apply stays_bind; [exact _| |fam_steps]. apply stays_catch; [exact _| |fam_steps].
    apply stays_bind; [exact _| |fam_steps]. apply fam_fail. by eapply own_reference_of.
Qed.

Lemma fam_initiate_tx env dto calc g r k cid reuse w : user_child u (db w) cid ->
  (forall eid, reuse = Some eid -> owner_of (db w) eid = Some u) -> stays (within u) (initiate_tx env dto calc g r k cid reuse) w.
Proof.
  intros Hc Hr. unfold initiate_tx. apply stays_bind; [exact _|by apply fam_open|]. intros eid w1 He.
  apply stays_bind; [exact _| |fam_steps]. apply fam_createPayment. by eapply openEnrollment_own.
Qed.
Lemma initiate_tx_own env dto calc g r k cid reuse w x w' : user_child u (db w) cid ->
  (forall eid, reuse = Some eid -> owner_of (db w) eid = Some u) ->
  initiate_tx env dto calc g r k cid reuse w = (Ok x, w') ->
  exists p, payments (db w') !! x.1 = Some p /\ owner_of (db w') (p_enrollmentId p) = Some u /\ by_reference r p = true.
Proof.
  intros Hc Hr H. unfold initiate_tx in H. apply bind_run in H as (eid & w1 & He & H).
  eapply openEnrollment_own in He; [|done..]. apply bind_run in H as (pid & w2 & H & [<- ->]%ret_run).
  rewrite createPayment_eq in H. destruct (key_taken _ _); [done|]. destruct (reference_taken _ _); [done|]. injection H as <- <-.
  eexists. cbn -[insert owner_of]. rewrite lookup_insert_eq. split; [done|]. split; [exact He|].
  unfold by_reference. cbn. by apply bool_decide_eq_true_2.
Qed.

Lemma fam_fresh env dto fee sub cid reuse w : user_child u (db w) cid ->
  (forall eid, reuse = Some eid -> owner_of (db w) eid = Some u) ->
  stays (within u) (initiate_fresh env dto u fee sub cid reuse) w.
Proof.
  intros Hc Hr. unfold initiate_fresh. apply stays_lift_bind; [exact _|]. intros calc _. apply stays_lift_bind; [exact _|].
  intros g _. apply stays_read_bind. apply stays_orThrow_bind; [exact _|]. intros email _.
  apply stays_bind; [exact _| |].
  - apply fam_replay_on_conflict. apply stays_bind; [exact _| |fam_steps]. apply stays_transaction; [exact _|]. by apply fam_initiate_tx.
  - intros [pid|rp] w1 H; [|fam_steps]. apply replay_on_conflict_run in H as [H|[kv [=]]].
    apply bind_run in H as (x & w2 & Hx%transaction_run & [[= <-] ->]%ret_run).
    eapply initiate_tx_own in Hx as (p & Hp & Ho & Hb); [|done..]. by eapply fam_charge.
Qed.

Lemma latest_in l kv : latest l = Some kv -> kv ∈ l.
Proof.
  revert kv. induction l as [|x l IH]; intros kv; [done|]. cbn. fold (latest l). destruct (latest l) as [y|].
  - destruct (_ <=? _); intros [= <-]; [left|right; by apply IH].
  - intros [= <-]. left.
Qed.

Lemma fam_pending env eid w : owner_of (db w) eid = Some u -> stays (within u) (resolvePendingFirstPayment env eid) w.
Proof.
  intros Ho. apply within_knowing. intros K. unfold resolvePendingFirstPayment. apply stays_read_bind.
  destruct (latest _) as [[pid p]|] eqn:El; [|fam_steps].
  apply latest_in, list_elem_of_filter in El as [Hp Hin%elem_of_map_to_list]. unfold pending_first in Hp. cbn [snd] in Hp.
  destruct (truthy (p_paystackReference p)) as [r|] eqn:Er; [|fam_steps].
  assert (own_reference u r (db w)) as Hown.
  { eapply own_reference_of; [done|exact Hin| |].
    - unfold by_reference, truthy in *. destruct (p_paystackReference p) as [[]|]; [done| |done]. by apply bool_decide_eq_true_2.
    - to_prop. destruct Hp as [[-> _] _]. done. }
  assert (forall A (x : A), stays (within u) (failPaystackPayment r;; mret x) w) as Hf.
  { intros A x. apply stays_bind; [exact _|by apply fam_fail|fam_steps]. }
  destruct (truthy (p_paystackAccessCode p)); [|apply Hf]. destruct (verifyTransaction env r) as [| |st fees why]; [by first [apply Hf|fam_steps]..|].
  destruct (_ || _); [apply Hf|]. apply stays_bind; [exact _| |fam_steps].
  destruct (String.eqb st "success"); [|fam_steps]. apply stays_bind; [exact _|by apply fam_reconcile|fam_steps].
Qed.

Lemma fam_initiate env dto w : own_key (dto_idempotencyKey dto) (db w) -> stays (within u) (initiateFirstPayment env dto u) w.
Proof.
  intros Hk. unfold initiateFirstPayment. apply stays_bind; [exact _|apply fam_receipt|]. intros ? w1 ->%receipt_world.
  apply stays_read_bind. apply stays_bind; [exact _| |].
  - destruct (replayed _ (db w)) as [existing|] eqn:E; [|fam_steps]. destruct (isReplayableIntent _); [fam_steps|].
    apply stays_bind; [exact _|by eapply fam_release|fam_steps].
  - intros [rp|] w1 _; [fam_steps|]. unfold resolveActiveClassFee. apply stays_bind; [exact _|fam_steps|]. intros fee w2 _.
    unfold assertSchoolAcceptsOnlinePayments. apply stays_bind; [exact _|fam_steps|]. intros sub w3 _.
    apply stays_bind; [exact _|apply fam_resolveTarget|]. intros t w4 [T1 T2 T3]%resolveTarget_own.
    destruct (tg_pendingEnrollmentId t) as [eid|] eqn:Ep; [|by apply fam_fresh].
    specialize (T3 _ eq_refl). apply within_knowing. intros K.
    apply stays_bind_rel; [exact _|by apply fam_pending|]. intros [rp|] w5 _ R; [fam_steps|].
    destruct (R K) as [_ [_ _ Ro Rc]]. apply fam_fresh; [by apply Rc|]. intros ? [= <-]. by apply Ro.
Qed.
End Requests.

(** ** The routes of a family *)

Definition family_route (r : Route) : bool :=
  match r with OfEnrollments _ | OfDocuments _ | GetTransactions _ => true | _ => false end.
(** The idempotency key the request's body carries. *)
Definition route_key (r : Route) : option string :=
  match r with
  | OfEnrollments (InitiateFirstPayment dto) => dto_idempotencyKey dto
  | OfEnrollments (PayInstallment _ _ _ key) => key
  | _ => None
  end.

Lemma fam_handler sv r user w : family_route r = true -> au_role user <> SCHOOL_OWNER ->
  (forall eid, r <> OfEnrollments (ConfirmFirstPayment eid)) ->
  own_key (au_userId user) (route_key r) (db w) -> stays (within (au_userId user)) (handler sv r user) w.
Proof.
  intros Hr Ho Hc Hk. destruct r as [|[| | |dto|eid a rcpt key|ref pid|eid]| |[]| | |q|]; try discriminate Hr;
    cbn [handler enrollments_handler documents_handler]; unfold respond, transactions_handler, getParentDashboardSummary; try (fam_steps; fail).
  - apply stays_bind; [exact _|by apply fam_initiate|fam_steps].
  - apply stays_bind; [exact _|by apply fam_submit|fam_steps].
  - apply stays_bind; [exact _|by apply fam_outcome|fam_steps].
  - by destruct (Hc eid).
Qed.

Lemma fam_request sv session r w : family_route r = true -> default PARENT (su_role session) <> SCHOOL_OWNER ->
  own_key (su_id session) (route_key r) (db w) ->
  within (su_id session) (db w) (db (serve_route sv r (Some session) w).2).
Proof.
  intros Hr Ho Hk. rewrite serve_private by (by destruct r as [| |[]| | | |q|]).
  destruct (admitted r session) eqn:Ha; [|done].
  destruct (handler sv r (session_user session) w) as [x w'] eqn:E.
  eapply (fam_handler sv r (session_user session)); [done|done| |done|exact E].
  intros eid ->. unfold admitted in Ha. cbn in Ha. to_prop. by apply list_elem_of_singleton in Ha.
Qed.

(** C7: One family cannot touch another: start from tables whose ids are handed out
    once and whose Paystack references are each one payment's, take a session that
    is not a school owner's and any sequence of requests on the enrollment, document
    and history routes — first payments started, resumed or retried, installments,
    outcomes that settle or fail a charge — accepted or refused, whatever Paystack
    answers.  If no request carries an idempotency key of somebody else's payment,
    every payment and plan of every other family is there exactly as it was and none
    was added; what was the user's still is. *)
Theorem family_isolation session requests w :
  kin (db w) -> default PARENT (su_role session) <> SCHOOL_OWNER ->
  Forall (fun q : Server * Route => family_route q.2 = true /\ own_key (su_id session) (route_key q.2) (db w)) requests ->
  let w' := serve_all (Some session) requests w in kin (db w') /\ family (su_id session) (db w) (db w').
Proof.
  intros K Ho Hr w'. subst w'. revert w K Hr. induction requests as [|[sv r] l IH]; intros w K Hr.
  { exact (PreOrder_Reflexive (R := within (su_id session)) (db w) K). }
  pose proof (Forall_inv Hr) as [Hf Hk]. pose proof (Forall_inv_tail Hr) as Hl. cbn [serve_all foldl fst snd] in *.
  destruct (fam_request sv session r w Hf Ho Hk K) as [K1 F1].
  destruct (IH (serve_route sv r (Some session) w).2 K1) as [K2 F2].
  - revert Hl. apply Forall_impl. intros q [? Hq]. split; [done|]. unfold own_key. rewrite (fm_payments _ _ _ F1). exact Hq.
  - split; [done|]. destruct F1 as [P1 E1 O1 C1], F2 as [P2 E2 O2 C2]. split; [exact (eq_trans P2 P1)|exact (eq_trans E2 E1)|intros i Hi; by apply O2, O1|intros i Hi; by apply C2, C1].
Qed.

(** The key is what ties the two: with it a stranger changes the payment
    ([keys_reach_any_payment]); the sample's stranger, without it, does not. *)
Lemma sample_kin : kin (db sample).
Proof.
  split; cbn -[lookup].
  - intros k p [[<- <-]|[_ [<- <-]%lookup_singleton_Some]]%lookup_insert_Some; done.
  - intros k p k' p' r [[<- <-]|[_ [<- <-]%lookup_singleton_Some]]%lookup_insert_Some
      [[<- <-]|[_ [<- <-]%lookup_singleton_Some]]%lookup_insert_Some; done.
  - intros k e [[<- <-]|[_ [<- <-]%lookup_singleton_Some]]%lookup_insert_Some; done.
  - intros k c [[<- <-]|[_ [<- <-]%lookup_singleton_Some]]%lookup_insert_Some; done.
  - intros k pr [<- <-]%lookup_singleton_Some; done.
Qed.
Definition stranger : SessionUser := mkSessionUser 30%positive (Some PARENT) None.
Definition stranger_requests : list (Server * Route) :=
  (fun r => (sample_server, OfEnrollments r)) <$> [PayInstallment 4%positive 2000 None (Some "key-9"%string);
    GetOutcome (Some "lopay_1"%string) None; GetOutcome None (Some 5%positive); GetEnrollmentHistory 9%positive].
Lemma family_isolation_witness :
  let d' := db (serve_all (Some stranger) stranger_requests sample) in
  payments d' !! 5%positive = Some sample_installment /\ payments d' !! 6%positive = Some sample_card.
Proof.
  destruct (family_isolation stranger stranger_requests sample sample_kin) as [_ [P _ _ _]]; [done| |].
  - repeat constructor; intros k pid p [= <-] [Hp _]%map_lookup_filter_Some; cbn -[lookup] in Hp.
    destruct (proj1 (lookup_insert_Some _ _ _ _ _) Hp) as [[_ <-]|[_ [_ <-]%lookup_singleton_Some]]; reflexivity.
  - assert (forall k v, payments (db sample) !! k = Some v -> owner_of (db sample) (p_enrollmentId v) <> Some 30%positive ->
      payments (db (serve_all (Some stranger) stranger_requests sample)) !! k = Some v) as H.
    { intros k v Hv Ho. assert (foreign_payments (su_id stranger) (db sample) !! k = Some v) as Hf by (by apply map_lookup_filter_Some).
      rewrite <- P in Hf. by apply map_lookup_filter_Some in Hf as [? _]. }
    split; apply H; [reflexivity|discriminate|reflexivity|discriminate].
Defined.
(** The family's own request is served. *)
Example own_installment_submitted :
  let d' := db (serve_all (Some (mkSessionUser 11%positive (Some PARENT) None))
    [(sample_server, OfEnrollments (PayInstallment 4%positive 2000 None (Some "key-9"%string)))] sample) in
  p_amountPaid <$> payments d' !! 20%positive = Some 200000.
Proof. vm_compute. reflexivity. Qed.
