(* ===== verification/Bodies.v ===== *)
(** * Request bodies

    The classes that [ValidationPipe] checks a body against ([*.dto.ts] under
    [src/schools], [src/enrollment], [src/enrollment-invites], [src/admin],
    [src/users], [src/documents], [src/notifications], [src/device-tokens]) as data:
    each property with its decorators, in the source's order.  What the decorators
    do is class-validator's and class-transformer's: the class [ValidationPipe]
    states what their documentation promises.  [normalizeName] is the source's. *)

From Stdlib Require Import QArith Lqa.
From S2P Require Import Prelude JsNumber JsText Pagination Money Schema Effects EnrollmentView InvitePolicy Schools.

Local Open Scope Z_scope.

(** ** Values *)

Inductive Json :=
| JUndefined
| JNull
| JBoolean (b : bool)
| JNumber (n : number)
| JString (t : text)
| JDate (t : option Z)
| JArray (l : list Json)
| JObject (l : list (string * Json)).

Definition absent (v : Json) : Prop := v = JNull \/ v = JUndefined.

(** ** Decorators *)

Inductive Check :=
| IsString
| IsNotEmpty
| IsEmail
| IsUUID
| IsDate
| IsInt
| IsNumber (maxDecimalPlaces : option nat)
| Min (n : Z)
| Max (n : Z)
| MinLength (n : Z)
| MaxLength (n : Z)
| Length (least most : Z)
| IsEnum (values : list string)
| IsIn (values : list string)
| IsArray
| ArrayMinSize (n : Z)
| ArrayMaxSize (n : Z).

(** [@Type] and [@Transform] *)
Inductive Conversion :=
| Plain
| TypeNumber
| TypeDate
| Transform (f : Json -> Json).

(** A property; the last field is the class of [@ValidateNested] elements. *)
Inductive Property := mkProperty {
  pr_name : string;
  pr_conversion : Conversion;
  pr_optional : bool;
  pr_checks : list Check;
  pr_each : list Property }.
Definition required (name : string) (checks : list Check) : Property := mkProperty name Plain false checks [].
Definition optional (name : string) (checks : list Check) : Property := mkProperty name Plain true checks [].
Definition converted (name : string) (c : Conversion) (checks : list Check) : Property := mkProperty name c false checks [].

(** ** Names *)

(** [value.replace(/\s+/g, ' ')] *)
Fixpoint single_spaces (in_run : bool) (t : text) : text :=
  match t with
  | [] => []
  | c :: t' =>
      if is_js_whitespace c then if in_run then single_spaces true t' else 32 :: single_spaces true t'
      else c :: single_spaces false t'
  end.
Definition normalized (t : text) : text := single_spaces false (trim t).
Definition normalizeName (value : Json) : Json :=
  match value with JString t => JString (normalized t) | _ => value end.

(** [value.toUpperCase()], for the comparison with the names of an enum: no text
    with letters outside ASCII becomes one of these names. *)
Definition upper_char (c : Z) : Z := if (97 <=? c) && (c <=? 122) then c - 32 else c.
Definition toUpperCase (value : Json) : Json :=
  match value with JString t => JString (upper_char <$> t) | _ => value end.

(** ** The classes *)

Definition InstallmentFrequency_names : list string := ["WEEKLY"; "MONTHLY"]%string.
Definition UserRole_names : list string := ["PARENT"; "SCHOOL_OWNER"; "SUPER_ADMIN"]%string.
Definition EnrollmentInviteStatus_names : list string := ["PENDING"; "CLAIMED"; "EXPIRED"; "REVOKED"; "DISPUTED"]%string.

Definition CreateEnrollmentBody : list Property :=
  [ optional "childId" [IsString];
    optional "childName" [IsString];
    required "schoolId" [IsString; IsNotEmpty];
    required "className" [IsString; IsNotEmpty];
    converted "installmentFrequency" (Transform toUpperCase) [IsEnum InstallmentFrequency_names];
    converted "firstPaymentPaid" TypeNumber [IsNumber None; Min 1];
    converted "termStartDate" TypeDate [IsDate];
    converted "termEndDate" TypeDate [IsDate];
    optional "receiptUrl" [IsString];
    optional "idempotencyKey" [IsString] ].
Definition CreateInstallmentBody : list Property :=
  [ required "enrollmentId" [IsUUID; IsNotEmpty];
    converted "amountPaid" TypeNumber [IsNumber None; Min 1];
    optional "receiptUrl" [IsString];
    optional "idempotencyKey" [IsString] ].
Definition ConfirmEnrollmentBody : list Property := [ required "enrollmentId" [IsUUID] ].
Definition CreateEnrollmentInviteBody : list Property :=
  [ converted "studentName" (Transform normalizeName) [IsString; IsNotEmpty; MaxLength 120];
    converted "className" (Transform normalizeName) [IsString; IsNotEmpty; MaxLength 60];
    converted "amountAlreadyPaid" TypeNumber [IsNumber (Some 2%nat); Min 0];
    required "parentPhone" [IsString; IsNotEmpty; MaxLength 20];
    converted "installmentFrequency" (Transform toUpperCase) [IsEnum InstallmentFrequency_names];
    converted "planStartDate" TypeDate [IsDate];
    mkProperty "expiresInDays" TypeNumber true [IsInt; Min MIN_INVITE_EXPIRY_DAYS; Max MAX_INVITE_EXPIRY_DAYS] [] ].
Definition ClaimEnrollmentInviteBody : list Property :=
  [ required "token" [IsString; IsNotEmpty; Length INVITE_TOKEN_LENGTH INVITE_TOKEN_LENGTH] ].
Definition DisputeEnrollmentInviteBody : list Property :=
  [ required "token" [IsString; IsNotEmpty; Length INVITE_TOKEN_LENGTH INVITE_TOKEN_LENGTH];
    required "reason" [IsString; IsNotEmpty; MaxLength 500] ].
Definition RevokeEnrollmentInviteBody : list Property := [ optional "reason" [IsString; MaxLength 500] ].
Definition AmendMigratedPaymentBody : list Property :=
  [ converted "amountAlreadyPaid" TypeNumber [IsNumber (Some 2%nat); Min 0];
    optional "reason" [IsString; MaxLength 500] ].
Definition ListEnrollmentInvitesBody : list Property :=
  [ optional "status" [IsEnum EnrollmentInviteStatus_names];
    mkProperty "page" TypeNumber true [IsInt; Min 1] [];
    mkProperty "limit" TypeNumber true [IsInt; Min 1] [] ].
Definition CreateSchoolBody : list Property :=
  [ required "schoolName" [IsString; IsNotEmpty];
    required "ownerEmail" [IsEmail; IsNotEmpty];
    required "ownerPassword" [IsString; MinLength 8];
    required "ownerName" [IsString; IsNotEmpty];
    required "address" [IsString; IsNotEmpty];
    required "phone" [IsString; IsNotEmpty];
    required "bankName" [IsString; IsNotEmpty];
    required "bankCode" [IsString; IsNotEmpty];
    required "accountName" [IsString; IsNotEmpty];
    required "accountNumber" [IsString; IsNotEmpty];
    optional "logo" [IsString] ].
Definition SetMigrationWindowBody : list Property :=
  [ converted "closesAt" TypeDate [IsDate]; required "reason" [IsString; IsNotEmpty; MaxLength 500] ].
Definition UpdateUserBody : list Property :=
  [ optional "fullName" [IsString]; optional "email" [IsEmail]; optional "role" [IsEnum UserRole_names] ].
Definition UpdateProfileBody : list Property :=
  [ optional "fullName" [IsString; MinLength 1]; optional "phoneNumber" [IsString] ].
Definition UpdateSchoolBody : list Property :=
  (fun name => optional name [IsString]) <$>
    ["schoolName"; "address"; "phone"; "logo"; "bankName"; "bankCode"; "accountName"; "accountNumber"]%string.
Definition CreateClassFeeBody : list Property :=
  [ required "className" [IsString; IsNotEmpty]; required "feeAmount" [IsNumber None; Min 0] ].
Definition SetClassFeesBody : list Property :=
  [ mkProperty "fees" Plain false [IsArray; ArrayMinSize 1; ArrayMaxSize 60] CreateClassFeeBody ].
Definition ConfirmPaymentBody : list Property := [ required "paymentId" [IsUUID; IsNotEmpty] ].
Definition MarkDefaultedBody : list Property := [ required "enrollmentId" [IsUUID; IsNotEmpty] ].
Definition ReversePaymentBody : list Property :=
  [ required "paymentId" [IsString; IsNotEmpty]; optional "reason" [IsString; MaxLength 500] ].
Definition CreateReceiptUploadBody : list Property :=
  [ required "fileName" [IsString; IsNotEmpty]; required "contentType" [IsString; IsNotEmpty] ].
Definition CreateReceiptDownloadBody : list Property := [ required "paymentId" [IsUUID; IsNotEmpty] ].
Definition BroadcastNotificationBody : list Property :=
  [ required "title" [IsString; IsNotEmpty; MaxLength 120];
    required "message" [IsString; IsNotEmpty; MaxLength 2000];
    optional "link" [IsString] ].
Definition RegisterDeviceTokenBody : list Property :=
  [ required "token" [IsString; IsNotEmpty]; required "platform" [IsString; IsIn ["web"; "android"; "ios"]%string] ].
Definition UnregisterDeviceTokenBody : list Property := [ required "token" [IsString; IsNotEmpty] ].

(** ** What a name is *)

(** The words of a text. *)
Fixpoint words (t : text) : list text :=
  match t with
  | [] => []
  | c :: t' =>
      if is_js_whitespace c then words t'
      else if from_option is_js_whitespace true (head t') then [c] :: words t'
      else match words t' with w :: l => (c :: w) :: l | [] => [[c]] end
  end.
Fixpoint join (l : list text) : text :=
  match l with [] => [] | [w] => w | w :: l => w ++ 32 :: join l end.
Definition word (w : text) : Prop := w <> [] /\ Forall (fun c => is_js_whitespace c = false) w.

Lemma words_cons c t :
  words (c :: t) =
    if is_js_whitespace c then words t
    else if from_option is_js_whitespace true (head t) then [c] :: words t
    else match words t with w :: l => (c :: w) :: l | [] => [[c]] end.
Proof. done. Qed.
Lemma words_space c t : is_js_whitespace c = true -> words (c :: t) = words t.
Proof. intros E. simpl. by rewrite E. Qed.
Lemma words_nil t : words t = [] <-> Forall (fun c => is_js_whitespace c = true) t.
Proof.
  induction t as [|c t IH]; [by split|]. simpl. destruct (is_js_whitespace c) eqn:E.
  - rewrite IH. split; [by constructor|]. by intros [_ F]%Forall_cons_1.
  - split; [destruct (from_option _ _ _); [done|]; by destruct (words t)|]. intros [F _]%Forall_cons_1. congruence.
Qed.
Lemma words_word t : Forall word (words t).
Proof.
  induction t as [|c t IH]; [constructor|]. simpl. destruct (is_js_whitespace c) eqn:E; [done|].
  assert (word [c]) as Hc by (split; [done|by repeat constructor]).
  destruct (from_option _ _ _); [by constructor|]. destruct (words t) as [|w l]; [by repeat constructor|].
  apply Forall_cons_1 in IH as [[_ Hw] Hl]. constructor; [|done]. split; [done|]. by constructor.
Qed.

(** The words of a text that ends in one, joined. *)
Definition ends_in_word (t : text) : Prop := exists u c, t = u ++ [c] /\ is_js_whitespace c = false.
Lemma ends_cons c t : t <> [] -> ends_in_word (c :: t) -> ends_in_word t.
Proof. intros Ht ([|y u] & x & E & Hx); simplify_list_eq. by exists u, x. Qed.
Lemma ends_words t : ends_in_word t -> words t <> [].
Proof. intros (u & x & -> & Hx) Hw. apply words_nil, Forall_app in Hw as [_ [F _]%Forall_cons_1]. congruence. Qed.
Lemma single_spaces_join t : ends_in_word t ->
  single_spaces true t = join (words t) /\
  single_spaces false t = if from_option is_js_whitespace false (head t) then 32 :: join (words t) else join (words t).
Proof.
  induction t as [|c t IH]; [by intros ([] & x & [=] & _)|]. intros He.
  destruct t as [|d t]; [destruct He as ([|y [|]] & x & [=] & Hx); subst; simpl; by rewrite Hx|].
  assert (ends_in_word (d :: t)) as He' by (by apply (ends_cons c)). destruct (IH He') as [I1 I2]. pose proof (ends_words _ He') as Hw.
  destruct (is_js_whitespace c) eqn:E.
  - rewrite words_space by done. cbn [single_spaces head from_option]. rewrite E. split; [exact I1|]. by f_equal.
  - assert (c :: single_spaces false (d :: t) = join (words (c :: d :: t))) as Hj.
    { rewrite I2, (words_cons c), E. cbn [head from_option] in *. destruct (words (d :: t)) as [|w l]; [done|].
      destruct (is_js_whitespace d); [done|]. by destruct l. }
    split; [|cbn [head from_option]; rewrite E]; rewrite <- Hj; cbn [single_spaces]; by rewrite E.
Qed.

Lemma words_app_space t s : Forall (fun c => is_js_whitespace c = true) s -> words (t ++ s) = words t.
Proof.
  intros F. induction t as [|c t IH]; [by apply words_nil|]. change ((c :: t) ++ s) with (c :: (t ++ s)).
  rewrite !words_cons, IH. destruct (is_js_whitespace c); [done|]. destruct t as [|d t]; [|done].
  destruct F as [|x s Hx F]; [done|]. cbn [app head from_option words]. by rewrite Hx.
Qed.
Lemma words_space_app t s : Forall (fun c => is_js_whitespace c = true) s -> words (s ++ t) = words t.
Proof. intros F. induction F as [|c s E F IH]; [done|]. change ((c :: s) ++ t) with (c :: (s ++ t)). by rewrite words_space. Qed.
Lemma words_trim t : words (trim t) = words t.
Proof.
  unfold trim. destruct (trimEnd_prefix (trimStart t)) as (s & E & F). destruct (trimStart_suffix t) as (s' & E' & F').
  rewrite <- (words_app_space _ s F), <- E, <- (words_space_app _ s' F'), <- E'. done.
Qed.
Lemma trim_ends t : trim t = [] \/ ends_in_word (trim t) /\ from_option is_js_whitespace false (head (trim t)) = false.
Proof.
  destruct (trim t) as [|c u] eqn:E; [by left|]. right. split.
  - unfold trim, trimEnd in E. destruct (trimStart (reverse (trimStart t))) as [|x v] eqn:Ev; [done|].
    exists (reverse v), x. rewrite <- E, reverse_cons. split; [done|].
    apply (trimStart_head (reverse (trimStart t))). by rewrite Ev.
  - apply (trim_head t). by rewrite E.
Qed.

(** A name is its words, with one space between them. *)
Lemma normalized_words t : normalized t = join (words t).
Proof.
  unfold normalized. rewrite <- words_trim. destruct (trim_ends t) as [->|[He Hh]]; [done|].
  destruct (single_spaces_join _ He) as [_ ->]. by rewrite Hh.
Qed.
Lemma words_of_word w t : word w -> from_option is_js_whitespace true (head t) = true -> words (w ++ t) = w :: words t.
Proof.
  intros [Hn Hw] Ht. induction Hw as [|c w E Hw IH]; [done|]. change ((c :: w) ++ t) with (c :: (w ++ t)).
  rewrite words_cons, E. destruct w as [|d w]; [cbn [app]; by rewrite Ht|].
  cbn [app head from_option]. apply Forall_cons_1 in Hw as [Hd _]. rewrite Hd.
  change (d :: w ++ t) with ((d :: w) ++ t). by rewrite IH.
Qed.
Lemma words_join l : Forall word l -> words (join l) = l.
Proof.
  intros F. induction F as [|w l Hw F IH]; [done|]. destruct l as [|v l].
  - cbn [join]. rewrite <- (app_nil_r w) at 1. by apply words_of_word.
  - change (join (w :: v :: l)) with (w ++ 32 :: join (v :: l)).
    rewrite words_of_word by done. rewrite words_space by done. by rewrite IH.
Qed.

(** Two spellings of a name are stored alike exactly when they have the same
    words, and storing a stored name changes nothing. *)
Theorem name_identity a b :
  (normalizeName (JString a) = normalizeName (JString b) <-> words a = words b) /\
  normalizeName (normalizeName (JString a)) = normalizeName (JString a).
Proof.
  unfold normalizeName. rewrite !normalized_words. split.
  - split; [|by intros ->]. intros [= E]. apply (f_equal words) in E. by rewrite !words_join in E by apply words_word.
  - by rewrite words_join by apply words_word.
Qed.

(** ** The pipe *)

Definition field (name : string) (body : list (string * Json)) : Json :=
  match filter (fun kv : string * Json => kv.1 = name) body with (_, v) :: _ => v | [] => JUndefined end.

(** The value each property gets, what a decorator finds of a value, and whether
    the body passes. *)
Class ValidationPipe := {
  plainToInstance : list Property -> list (string * Json) -> string -> Json;
  holds : Check -> Json -> bool;
  accepts : list Property -> list (string * Json) -> bool }.

(** An optional property that is missing or null skips its checks. *)
Definition property_ok `{ValidationPipe} (p : Property) (v : Json) : Prop :=
  pr_optional p = true /\ absent v \/ Forall (fun c => holds c v = true) (pr_checks p).

Class PipeLaws `{ValidationPipe} : Prop := {
  accepts_checked dto body p : accepts dto body = true -> p ∈ dto ->
    property_ok p (plainToInstance dto body (pr_name p));
  checked_accepts dto body : Forall (fun p => pr_each p = []) dto ->
    Forall (fun p => property_ok p (plainToInstance dto body (pr_name p))) dto -> accepts dto body = true;
  instance_plain dto body p : NoDup (pr_name <$> dto) -> p ∈ dto -> pr_conversion p = Plain -> pr_each p = [] ->
    plainToInstance dto body (pr_name p) = field (pr_name p) body;
  instance_transform dto body p f : NoDup (pr_name <$> dto) -> p ∈ dto -> pr_conversion p = Transform f ->
    plainToInstance dto body (pr_name p) = f (field (pr_name p) body);
  instance_number dto body p n : NoDup (pr_name <$> dto) -> p ∈ dto -> pr_conversion p = TypeNumber ->
    field (pr_name p) body = JNumber n -> plainToInstance dto body (pr_name p) = JNumber n;
  holds_string v : holds IsString v = true <-> exists t, v = JString t;
  holds_not_empty v : holds IsNotEmpty v = true <-> v <> JString [] /\ ~ absent v;
  holds_number v : holds (IsNumber None) v = true <-> exists q, v = JNumber (Finite q);
  (** at most two digits after the point of the number's decimal *)
  holds_decimals v : holds (IsNumber (Some 2%nat)) v = true ->
    exists k, v = JNumber (Finite (js_div (inject_Z k) 100));
  holds_min n q : holds (Min n) (JNumber (Finite q)) = true <-> (inject_Z n <= q)%Q;
  holds_max n q : holds (Max n) (JNumber (Finite q)) = true <-> (q <= inject_Z n)%Q;
  holds_max_length n t : holds (MaxLength n) (JString t) = true <-> Z.of_nat (length t) <= n;
  holds_length a b t : holds (Length a b) (JString t) = true <-> a <= Z.of_nat (length t) <= b }.

Section Accepted.
Context `{PipeLaws}.

(** What a required property of an accepted body satisfies. *)
Lemma accepted_required dto body p : accepts dto body = true -> p ∈ dto -> pr_optional p = false ->
  Forall (fun c => holds c (plainToInstance dto body (pr_name p)) = true) (pr_checks p).
Proof. intros Ha Hp Ho. destruct (accepts_checked dto body p Ha Hp) as [[H1 _]|H1]; [congruence|done]. Qed.

Lemma kobo_at_least q : (1 <= q)%Q -> 100 <= kobo_of q.
Proof.
  intros Hq. unfold kobo_of, Money.toKobo, Money.fromNaira, Money.of_int. cbn [Money._kobo].
  pose proof (fl_int 100 ltac:(lia)) as E. transitivity (Math_round (fl (inject_Z 100))).
  - rewrite E, Math_round_int. lia.
  - apply Math_round_mono. unfold js_mul. apply fl_mono. change (inject_Z 100) with 100%Q. lra.
Qed.

(** An installment that passes the pipe is a finite number of at least one naira,
    so it passes the service's own check and is worth at least a hundred kobo. *)
Theorem installment_amount body :
  accepts CreateInstallmentBody body = true ->
  exists q, plainToInstance CreateInstallmentBody body "amountPaid" = JNumber (Finite q) /\
    100 <= kobo_of q /\ (0 <? kobo_of q) = true.
Proof.
  intros Ha. pose proof (accepted_required _ _ (converted "amountPaid" TypeNumber [IsNumber None; Min 1]) Ha
    ltac:(set_solver) eq_refl) as F. cbn [pr_name pr_checks converted] in F.
  apply Forall_cons_1 in F as [Hn F]. apply Forall_cons_1 in F as [Hm _]. apply holds_number in Hn as (q & E).
  rewrite E in Hm. apply holds_min, kobo_at_least in Hm. exists q. split; [done|]. split; [done|]. apply Z.ltb_lt. lia.
Qed.

(** The amount of an invite that passes has at most two decimals, and as kobo it is
    exactly what was typed: up to eleven trillion naira nothing is rounded. *)
Theorem invite_amount body :
  accepts CreateEnrollmentInviteBody body = true ->
  exists k, 0 <= k /\
    plainToInstance CreateEnrollmentInviteBody body "amountAlreadyPaid" = JNumber (Finite (js_div (inject_Z k) 100)) /\
    (k <= 2 ^ 50 -> kobo_of (js_div (inject_Z k) 100) = k).
Proof.
  intros Ha. pose proof (accepted_required _ _ (converted "amountAlreadyPaid" TypeNumber [IsNumber (Some 2%nat); Min 0]) Ha
    ltac:(set_solver) eq_refl) as F. cbn [pr_name pr_checks converted] in F.
  apply Forall_cons_1 in F as [Hn F]. apply Forall_cons_1 in F as [Hm _]. apply holds_decimals in Hn as (k & E).
  rewrite E in Hm. apply holds_min in Hm. assert (0 <= k) as Hk.
  { destruct (Z.le_gt_cases 0 k) as [|Hk]; [done|]. exfalso. unfold js_div in Hm.
    assert (inject_Z k / 100 < 0)%Q as Hneg by (unfold Qdiv, Qlt, inject_Z; cbn; lia).
    rewrite (fl_of_neg _ Hneg) in Hm. pose proof (fl_pos_pos (- (inject_Z k / 100))%Q ltac:(lra)). change (inject_Z 0) with 0%Q in Hm. lra. }
  exists k. split; [done|]. split; [done|]. intros Hb. unfold kobo_of, Money.toKobo, Money.fromNaira, Money.of_int.
  cbn [Money._kobo]. apply Money.fromNaira_toNaira_kobo. lia.
Qed.

Theorem claim_token body :
  accepts ClaimEnrollmentInviteBody body = true ->
  exists t, plainToInstance ClaimEnrollmentInviteBody body "token" = JString t /\ Z.of_nat (length t) = 43.
Proof.
  intros Ha. pose proof (accepted_required _ _ (required "token"
    [IsString; IsNotEmpty; Length INVITE_TOKEN_LENGTH INVITE_TOKEN_LENGTH]) Ha ltac:(set_solver) eq_refl) as F.
  cbn [pr_name pr_checks required] in F. apply Forall_cons_1 in F as [Hs F]. apply Forall_cons_1 in F as [_ F].
  apply Forall_cons_1 in F as [Hl _]. apply holds_string in Hs as (t & E). rewrite E in Hl. apply holds_length in Hl.
  exists t. split; [done|]. rewrite token_length in Hl. lia.
Qed.

(** The student of an accepted invite: a name of at least one word, written with
    single spaces, of at most 120 characters. *)
Theorem invite_student body :
  accepts CreateEnrollmentInviteBody body = true ->
  exists t, plainToInstance CreateEnrollmentInviteBody body "studentName" = JString (join (words t)) /\
    field "studentName" body = JString t /\ words t <> [] /\ Z.of_nat (length (join (words t))) <= 120.
Proof.
  set (p := converted "studentName" (Transform normalizeName) [IsString; IsNotEmpty; MaxLength 120]). intros Ha.
  assert (p ∈ CreateEnrollmentInviteBody) as Hp by left.
  pose proof (accepted_required _ _ p Ha Hp eq_refl) as F.
  assert (NoDup (pr_name <$> CreateEnrollmentInviteBody)) as Hd by (apply (bool_decide_eq_true_1 _); reflexivity).
  pose proof (instance_transform _ body p normalizeName Hd Hp eq_refl) as Et.
  cbn [pr_name p converted] in Et. rewrite Et. cbn [pr_name pr_checks p converted] in F. rewrite Et in F.
  apply Forall_cons_1 in F as [Hs F]. apply Forall_cons_1 in F as [Hn F].
  apply Forall_cons_1 in F as [Hl _]. apply holds_string in Hs as (u & E).
  destruct (field "studentName" body) as [| | | |t| | |] eqn:Ef; try discriminate E.
  cbn [normalizeName] in *. rewrite normalized_words in *. exists t. split; [done|]. split; [done|].
  apply holds_max_length in Hl. apply holds_not_empty in Hn as [Hn _]. split; [|done].
  intros Hw. by rewrite Hw in Hn.
Qed.

(** What the class-fee body lets through: a fee whose kobo do not fit the 32-bit
    column, and a class name of spaces, which publishing then trims to nothing. *)
Theorem class_fee_gaps :
  let body := [("className", JString (text_of "  ")); ("feeAmount", JNumber (Finite (2147483648 # 100)))]%string in
  accepts CreateClassFeeBody body = true /\
  2 ^ 31 <= kobo_of (2147483648 # 100) /\
  fst (normalize_fee (mkFeeDto "  " (2147483648 # 100))) = EmptyString.
Proof.
  intros body. split; [|by split; vm_compute].
  apply checked_accepts; [by repeat constructor|].
  assert (NoDup (pr_name <$> CreateClassFeeBody)) as Hd by (apply (bool_decide_eq_true_1 _); reflexivity).
  pose proof (fun p Hp => instance_plain CreateClassFeeBody body p Hd Hp) as Hi.
  pose proof (Hi (required "className" [IsString; IsNotEmpty]) ltac:(left) eq_refl eq_refl) as E1.
  pose proof (Hi (required "feeAmount" [IsNumber None; Min 0]) ltac:(right; left) eq_refl eq_refl) as E2.
  cbn [pr_name required] in E1, E2.
  constructor; [right; cbn [pr_name pr_checks required]; rewrite E1|constructor; [|constructor];
    right; cbn [pr_name pr_checks required]; rewrite E2].
  - constructor; [by apply holds_string; eexists|]. constructor; [|constructor].
    apply holds_not_empty. split; [done|]. by intros [|].
  - constructor; [by apply holds_number; eexists|]. constructor; [|constructor]. by apply holds_min.
Qed.
End Accepted.

(** ** A pipe that keeps the laws *)

Definition absentb (v : Json) : bool := match v with JNull | JUndefined => true | _ => false end.
Definition sample_convert (c : Conversion) (v : Json) : Json :=
  match c, v with Transform f, _ => f v | TypeNumber, JString t => JNumber (Number t) | _, _ => v end.
Definition sample_holds (c : Check) (v : Json) : bool :=
  match c, v with
  | IsString, JString _ => true
  | IsString, _ => false
  | IsNotEmpty, JString t => negb (bool_decide (t = []))
  | IsNotEmpty, _ => negb (absentb v)
  | IsNumber None, JNumber (Finite _) => true
  | IsNumber (Some _), JNumber (Finite q) =>
      let d := js_div (inject_Z (Math_round (js_mul q 100))) 100 in (Qnum q =? Qnum d) && (Qden q =? Qden d)%positive
  | IsNumber _, _ => false
  | Min n, JNumber (Finite q) => Qle_bool (inject_Z n) q
  | Max n, JNumber (Finite q) => Qle_bool q (inject_Z n)
  | MaxLength n, JString t => Z.of_nat (length t) <=? n
  | Length a b, JString t => (a <=? Z.of_nat (length t)) && (Z.of_nat (length t) <=? b)
  | IsEnum names, JString t => existsb (fun name => bool_decide (text_of name = t)) names
  | IsEnum _, _ => false
  | _, _ => true
  end.
Definition sample_instance (dto : list Property) (body : list (string * Json)) (name : string) : Json :=
  match filter (fun p => pr_name p = name) dto with
  | p :: _ => sample_convert (pr_conversion p) (field name body)
  | [] => JUndefined
  end.
#[export] Instance sample_pipe : ValidationPipe := {
  plainToInstance := sample_instance;
  holds := sample_holds;
  accepts dto body := forallb (fun p =>
    (pr_optional p && absentb (sample_instance dto body (pr_name p)))
    || forallb (fun c => sample_holds c (sample_instance dto body (pr_name p))) (pr_checks p)) dto }.

Lemma sample_instance_eq dto body p : NoDup (pr_name <$> dto) -> p ∈ dto ->
  sample_instance dto body (pr_name p) = sample_convert (pr_conversion p) (field (pr_name p) body).
Proof.
  intros Hd Hp. unfold sample_instance. destruct (filter _ dto) as [|q l] eqn:E.
  - exfalso. assert (p ∈ filter (fun q => pr_name q = pr_name p) dto) as Hq by by apply list_elem_of_filter.
    rewrite E in Hq. by apply not_elem_of_nil in Hq.
  - assert (q ∈ filter (fun q => pr_name q = pr_name p) dto) as [Hn Hq]%list_elem_of_filter by (rewrite E; left).
    rewrite <- Hn. f_equal. f_equal. clear E. apply list_elem_of_lookup in Hp as [i Hi]. apply list_elem_of_lookup in Hq as [j Hj].
    assert (i = j) as <-; [|congruence]. eapply (NoDup_lookup (pr_name <$> dto) i j (pr_name p)); [done|..];
      rewrite list_lookup_fmap, ?Hi, ?Hj; cbn; congruence.
Qed.
Lemma absent_spec v : absentb v = true <-> absent v.
Proof. unfold absent. destruct v; split; try done; try (by intros [|]); eauto. Qed.

#[export] Instance sample_pipe_laws : PipeLaws.
Proof.
  split.
  - intros dto body p Ha Hp. cbn in Ha. rewrite forallb_forall in Ha. specialize (Ha p).
    rewrite <- list_elem_of_In in Ha. specialize (Ha Hp). apply orb_true_iff in Ha as [[H1 H2]%andb_true_iff|Ha].
    + left. split; [done|]. by apply absent_spec.
    + right. rewrite forallb_forall in Ha. apply Forall_forall. intros c Hc. by apply Ha.
  - intros dto body _ F. cbn. apply forallb_forall. intros p Hp. rewrite Forall_forall in F.
    destruct (F p Hp) as [[H1 H2]|F'].
    + apply orb_true_iff. left. apply andb_true_iff. split; [done|]. by apply absent_spec.
    + apply orb_true_iff. right. apply forallb_forall. rewrite Forall_forall in F'. intros c Hc. by apply F'.
  - intros dto body p Hd Hp Hc _. cbn. rewrite sample_instance_eq by done. by rewrite Hc.
  - intros dto body p f Hd Hp Hc. cbn. rewrite sample_instance_eq by done. by rewrite Hc.
  - intros dto body p n Hd Hp Hc Hf. cbn. rewrite sample_instance_eq by done. by rewrite Hc, Hf.
  - intros v. cbn. destruct v; split; try done; try (by intros [? ?]). by eexists.
  - intros v. unfold absent. destruct v as [| | | |t| | |]; cbn.
    1, 2: split; [done|]; intros [_ Hv]; destruct Hv; auto.
    3: rewrite negb_true_iff, bool_decide_eq_false; split; [|intros [? _]; congruence]; intros Ht; split; [congruence|by intros [|]].
    all: split; [|done]; intros _; split; [done|by intros [|]].
  - intros v. cbn. destruct v as [| | |[| |]| | | |]; split; try done; try (by intros [? ?]). by eexists.
  - intros v. cbn. destruct v as [| | |[| |q]| | | |]; try done. intros H. apply andb_true_iff in H as [Hn Hd].
    apply Z.eqb_eq in Hn. apply Pos.eqb_eq in Hd. exists (Math_round (js_mul q 100)).
    destruct (js_div _ _) as [n' d'], q as [n d]. cbn in *. by subst.
  - intros n q. apply Qle_bool_iff.
  - intros n q. apply Qle_bool_iff.
  - intros n t. apply Z.leb_le.
  - intros a b t. cbn. by rewrite andb_true_iff, !Z.leb_le.
Qed.

(** A school types a name twice, with other spaces; the invite is accepted. *)
Example typed_twice :
  accepts CreateEnrollmentInviteBody
    [("studentName", JString (text_of "  Ada   Lovelace ")); ("className", JString (text_of "Basic 1"));
     ("amountAlreadyPaid", JNumber (Finite (js_div (inject_Z 2750050) 100))); ("parentPhone", JString (text_of "08012345678"));
     ("installmentFrequency", JString (text_of "monthly")); ("planStartDate", JDate (Some 0))]%string = true /\
  normalizeName (JString (text_of "  Ada   Lovelace ")) = normalizeName (JString (text_of "Ada Lovelace")) /\
  accepts CreateInstallmentBody
    [("enrollmentId", JString (text_of "e")); ("amountPaid", JNumber (Finite (1 # 2)))]%string = false.
Proof. vm_compute. done. Qed.
