(* ===== verification/Onboarding.v ===== *)
(** * Onboarding a school

    [src/school-onboarding/school-onboarding.service.ts]: an owner's account made
    by Better Auth outside any transaction, its role, the school's row, and the
    deletion that makes up for a failure.  Every database call may fail (an
    oracle); what [signUpEmail] does is a parameter, with the one fact the saga
    relies on: what a sign-up that succeeds has stored. *)

From S2P Require Import Prelude Schema Effects Samples Enrollment InvitePolicy Settlement.

Record CreateSchoolDto := mkCreateSchoolDto {
  cs_ownerName : string; cs_ownerEmail : string;
  cs_schoolName : string; cs_address : string; cs_phone : string;
  cs_bankName : string; cs_bankCode : option string; cs_accountName : string; cs_accountNumber : string }.

(** The database calls of the saga. *)
Inductive Call := ElevateOwner | CreateSchool | ReadOwner | DeleteOwner.

Section Onboarding.
Context (fails : Call -> bool).
Context (signUpEmail : string -> string -> M id).
Context (errorMessage : failure -> string).

Definition call {A} (c : Call) (m : M A) : M A :=
  if fails c then throw (FInternal "database unavailable") else m.

Definition user_by_email (email : string) (d : DB) : option (id * User) :=
  find_row (fun u => String.eqb (u_email u) email) (users d).

(** [school.create], unique on its owner. *)
Definition createSchoolRow (s : School) : M id :=
  clash ← read (fun d => taken (fun x => bool_decide (s_ownerId x = s_ownerId s)) (schools d));
  ensure (negb clash) (FUnique "ownerId");;
  sid ← fresh_id;
  write (fun d => set_schools (<[sid := s]> (schools d)) d);;
  mret sid.

(** [user.delete]: refused while a school belongs to the user; its sessions and
    links go with it. *)
Definition deleteUser (uid : id) : M unit :=
  owner ← read (fun d => taken (fun x => bool_decide (s_ownerId x = uid)) (schools d));
  ensure (negb owner) (FInternal "P2003: foreign key constraint");;
  write (fun d => set_users (delete uid (users d))
    (set_oauthAccounts (filter (fun kv : id * OAuthAccount => oa_userId kv.2 <> uid) (oauthAccounts d))
      (set_sessions (filter (fun kv : id * Session => se_userId kv.2 <> uid) (sessions d)) d))).

(** Of [invite-policy.ts] *)
Definition MIGRATION_WINDOW_DAYS : Z := 60.
Definition DAY_MS : Z := 24 * 60 * 60 * 1000.
Definition new_school (dto : CreateSchoolDto) (ownerUserId : id) (now : Z) : School :=
  mkSchool (cs_schoolName dto) ownerUserId (cs_phone dto) None false None (now + MIGRATION_WINDOW_DAYS * DAY_MS)
    (cs_ownerEmail dto) (cs_address dto) (cs_bankName dto) (cs_bankCode dto) (cs_accountName dto) (cs_accountNumber dto).

Definition createOwner (dto : CreateSchoolDto) : M id :=
  catch
    (ownerUserId ← signUpEmail (cs_ownerEmail dto) (cs_ownerName dto);
     call ElevateOwner (updateUserRow ownerUserId (set_u_role SCHOOL_OWNER));;
     mret ownerUserId)
    (fun error => throw (FBadRequest ("Could not create owner account: " +:+ errorMessage error))).

Definition provisionSchoolAndOwner (dto : CreateSchoolDto) (now : Z) : M (id * School * User) :=
  existingUser ← read (user_by_email (cs_ownerEmail dto));
  ensure (negb (bool_decide (is_Some existingUser)))
    (FBadRequest "User with this email already exists in the database");;
  ownerUserId ← createOwner dto;
  catch
    (let s := new_school dto ownerUserId now in
     sid ← call CreateSchool (createSchoolRow s);
     user ← call ReadOwner (u ← read (fun d => users d !! ownerUserId); orThrow u P2025);
     mret (sid, s, user))
    (fun error =>
       catch (call DeleteOwner (deleteUser ownerUserId)) (fun _ => mret tt);;
       throw error).

(** The two callers: [SchoolsService.createSchool], and the admin's
    [onboardSchool], which goes on to create the Paystack subaccount. *)
Record Onboarded := mkOnboarded {
  ob_schoolId : id; ob_school : School; ob_user : User; ob_paystack : option Provision; ob_message : string }.

Definition createSchool (dto : CreateSchoolDto) (now : Z) : M Onboarded :=
  '(sid, school, user) ← provisionSchoolAndOwner dto now;
  mret (mkOnboarded sid school user None "School and School Owner created successfully").

Definition onboardSchool (dto : CreateSchoolDto) (now : Z) (c : Creation) (st : State) : res Onboarded * State :=
  match provisionSchoolAndOwner dto now (local st) with
  | (Err e, w) => (Err e, mkState w (remote st))
  | (Ok (sid, school, user), w) =>
      let '(subaccount, st') := provisionSubaccount sid school c (mkState w (remote st)) in
      (Ok (mkOnboarded sid (set_s_paystackSubaccountActive (pv_active subaccount) school) user (Some subaccount)
         (if pv_active subaccount then "School and School Owner created successfully"
          else "School created. " +:+ default EmptyString (pv_warning subaccount))), st')
  end.

(** ** What the saga relies on *)

(** [stored_email] is the address as Better Auth keeps it (it normalises the case).
    A sign-up that succeeds answers a new account, a parent's, and stores it; of
    one that fails nothing is assumed. *)
Context (stored_email : string -> string).
Definition signs_up : Prop := forall email name w i w', signUpEmail email name w = (Ok i, w') ->
  users (db w) !! i = None /\ schools (db w') = schools (db w) /\
  exists u, users (db w') = <[i := u]> (users (db w)) /\ u_email u = stored_email email /\ u_role u = PARENT.
Context (su : signs_up).

(** No school belongs to an account that does not exist. *)
Definition owners_exist (d : DB) : Prop := forall k s, schools d !! k = Some s -> is_Some (users d !! s_ownerId s).

(** What a failed run may leave: nothing; what a failed sign-up left; the account
    alone; or the account with its school. *)
Inductive leftover (dto : CreateSchoolDto) (now : Z) (w w' : World) : Prop :=
| left_nothing : users (db w') = users (db w) -> schools (db w') = schools (db w) -> leftover dto now w w'
| left_signup e : signUpEmail (cs_ownerEmail dto) (cs_ownerName dto) w = (Err e, w') -> leftover dto now w w'
| left_parent i u : fails ElevateOwner = true -> users (db w) !! i = None ->
    users (db w') = <[i := u]> (users (db w)) -> u_email u = stored_email (cs_ownerEmail dto) -> u_role u = PARENT ->
    schools (db w') = schools (db w) -> leftover dto now w w'
| left_owner i u : fails CreateSchool = true -> fails DeleteOwner = true -> users (db w) !! i = None ->
    users (db w') = <[i := u]> (users (db w)) -> u_email u = stored_email (cs_ownerEmail dto) -> u_role u = SCHOOL_OWNER ->
    schools (db w') = schools (db w) -> leftover dto now w w'
| left_school i u sid : fails ReadOwner = true -> users (db w) !! i = None ->
    users (db w') = <[i := u]> (users (db w)) -> u_email u = stored_email (cs_ownerEmail dto) -> u_role u = SCHOOL_OWNER ->
    schools (db w') = <[sid := new_school dto i now]> (schools (db w)) -> leftover dto now w w'.

Lemma createOwner_ok dto w i w1 : createOwner dto w = (Ok i, w1) ->
  users (db w) !! i = None /\ schools (db w1) = schools (db w) /\ fails ElevateOwner = false /\
  exists u, users (db w1) = <[i := set_u_role SCHOOL_OWNER u]> (users (db w)) /\ u_email u = stored_email (cs_ownerEmail dto).
Proof.
  unfold createOwner, catch, mbind, M_bind. destruct (signUpEmail _ _ w) as [[j|e] wj] eqn:E; [|done].
  destruct (su _ _ _ _ _ E) as (Hn & Hs & u & Hu & He & Hr). unfold call, throw.
  destruct (fails ElevateOwner) eqn:Ef; [done|]. unfold updateUserRow, mbind, M_bind, read, orThrow, write, mret, M_ret.
  rewrite Hu, lookup_insert_eq. intros [= <- <-]. cbn. split; [done|]. split; [done|]. split; [done|].
  exists u. by rewrite Hu, insert_insert_eq.
Qed.

Lemma createOwner_err dto w e w1 : createOwner dto w = (Err e, w1) ->
  (exists e', signUpEmail (cs_ownerEmail dto) (cs_ownerName dto) w = (Err e', w1)) \/
  fails ElevateOwner = true /\ exists i u, users (db w) !! i = None /\ users (db w1) = <[i := u]> (users (db w)) /\
    u_email u = stored_email (cs_ownerEmail dto) /\ u_role u = PARENT /\ schools (db w1) = schools (db w).
Proof.
  unfold createOwner, catch, mbind, M_bind. destruct (signUpEmail _ _ w) as [[j|e'] wj] eqn:E.
  - destruct (su _ _ _ _ _ E) as (Hn & Hs & u & Hu & He & Hr). unfold call, throw.
    destruct (fails ElevateOwner) eqn:Ef.
    + intros [= _ <-]. right. split; [done|]. by exists j, u.
    + unfold updateUserRow, mbind, M_bind, read, orThrow, write, mret, M_ret. by rewrite Hu, lookup_insert_eq.
  - intros [= _ <-]. left. by exists e'.
Qed.

(** C29: onboarding either gives a school that belongs to a fresh owner account
    (under the requested address as Better Auth stores it) and has a migration
    window of its own, or an error.  An error leaves nothing behind, with these
    exceptions: when Better Auth's sign-up itself failed, exactly what it had
    stored by then is left; and when one of the database calls of the saga failed
    it may leave exactly an account that never became an owner's, an owner
    without a school (the compensation failed too), or, when only the last read
    fails, the owner and the school.  Of Better Auth it is assumed only that a
    sign-up that succeeds stores one new account with the role of a parent and
    touches no school; of the tables, that a school's owner exists (its foreign
    key). *)
Theorem provision_outcomes dto now w :
  owners_exist (db w) ->
  match provisionSchoolAndOwner dto now w with
  | (Ok (sid, s, u), w') =>
      user_by_email (cs_ownerEmail dto) (db w) = None /\
      s = new_school dto (s_ownerId s) now /\ users (db w) !! s_ownerId s = None /\
      u_email u = stored_email (cs_ownerEmail dto) /\ u_role u = SCHOOL_OWNER /\
      users (db w') = <[s_ownerId s := u]> (users (db w)) /\ schools (db w') = <[sid := s]> (schools (db w))
  | (Err _, w') => leftover dto now w w'
  end.
Proof.
  intros Hok. unfold provisionSchoolAndOwner, mbind at 1 2, M_bind at 1 2, read at 1, ensure at 1.
  destruct (user_by_email _ _) as [x|] eqn:Ex; [by apply left_nothing|]. unfold mret at 1, M_ret at 1. cbn [negb].
  rewrite bool_decide_eq_false_2 by (intros [? ?]; done). cbn [negb]. unfold mbind at 1, M_bind at 1.
  destruct (createOwner dto w) as [[i|e] w1] eqn:E.
  2: { destruct (createOwner_err _ _ _ _ E) as [[e' H]|(Hf & i & u & H1 & H2 & H3 & H4 & H5)];
       [by eapply left_signup | by eapply left_parent]. }
  destruct (createOwner_ok _ _ _ _ E) as (Hn & Hs & Hf & u & Hu & He).
  assert (taken (fun x => bool_decide (s_ownerId x = i)) (schools (db w)) = false) as Hfree.
  { unfold taken. apply bool_decide_eq_false. intros [[k s] Hk]. apply find_row_some in Hk as [Hk Ho%bool_decide_eq_true].
    destruct (Hok _ _ Hk) as [? ?]. congruence. }
  unfold catch at 1, call. destruct (fails CreateSchool) eqn:Ec.
  - unfold mbind, M_bind, throw, catch. destruct (fails DeleteOwner) eqn:Ed.
    + eapply (left_owner _ _ _ _ i (set_u_role SCHOOL_OWNER u)); eauto.
    + unfold deleteUser, mbind, M_bind, read, ensure, write, mret, M_ret. rewrite Hs, Hfree. cbn.
      apply left_nothing; [|done]. cbn. by rewrite Hu, delete_insert_id.
  - unfold createSchoolRow, mbind at 1 2 3 4 5, M_bind at 1 2 3 4 5, read, ensure. cbn [s_ownerId new_school].
    rewrite Hs, Hfree. cbn [negb]. unfold fresh_id, mbind, M_bind, read, write, mret, M_ret. cbn -[insert lookup].
    destruct (fails ReadOwner) eqn:Er.
    + unfold throw, catch. destruct (fails DeleteOwner).
      * eapply (left_school _ _ _ _ i (set_u_role SCHOOL_OWNER u)); cbn; try done. by rewrite Hs.
      * unfold deleteUser, mbind, M_bind, read, ensure, write, mret, M_ret, throw. cbn -[insert lookup].
        assert (taken (fun x => bool_decide (s_ownerId x = i))
          (<[next_id (db w1) := new_school dto i now]> (schools (db w1))) = true) as ->.
        { unfold taken. apply bool_decide_eq_true. destruct (find_row _ _) eqn:Ef; [eauto|]. exfalso.
          eapply find_row_none in Ef; [|apply lookup_insert_eq]. cbn in Ef. by apply bool_decide_eq_false in Ef. }
        cbn. eapply (left_school _ _ _ _ i (set_u_role SCHOOL_OWNER u)); cbn; try done. by rewrite Hs.
    + match goal with |- context [orThrow (users ?d !! i)] => change (users d) with (users (db w1)) end.
      rewrite Hu, lookup_insert_eq. cbn. split; [done|]. split; [done|]. split; [done|]. split; [done|]. split; [done|].
      split; [done|]. by rewrite Hs.
Qed.
End Onboarding.

(** ** Onboarding with payouts *)

Section Payouts.
Context (fails : Call -> bool).
Context (signUpEmail : string -> string -> M id).
Context (errorMessage : failure -> string).

Lemma catch_throws {A} (m : M A) h w a w' :
  (forall e v, exists e' v', h e v = (Err e', v')) -> catch m h w = (Ok a, w') -> m w = (Ok a, w').
Proof.
  unfold catch. intros H. destruct (m w) as [[x|e] v]; [done|]. destruct (H e v) as (e' & v' & ->). done.
Qed.

(** A school it returns is in the table, as it was asked for. *)
Lemma provision_row dto now w sid s u w' :
  provisionSchoolAndOwner fails signUpEmail errorMessage dto now w = (Ok (sid, s, u), w') ->
  exists i, s = new_school dto i now /\ schools (db w') !! sid = Some s.
Proof.
  intros H. unfold provisionSchoolAndOwner in H. apply bind_run in H as (x & w1 & [-> ->]%read_run & H).
  apply bind_run in H as ([] & w1 & [_ ->]%ensure_run & H). apply bind_run in H as (i & w1 & _ & H).
  apply catch_throws in H.
  - apply bind_run in H as (k & w2 & Hc & H). apply bind_run in H as (v & w3 & Hr & [[= <- <- <-] ->]%ret_run).
    exists i. split; [done|]. unfold call in Hr, Hc.
    destruct (fails ReadOwner); [done|]. apply bind_run in Hr as (y & w4 & [-> ->]%read_run & [_ ->]%orThrow_run).
    destruct (fails CreateSchool); [done|]. unfold createSchoolRow in Hc.
    apply bind_run in Hc as (b & w4 & [-> ->]%read_run & Hc). apply bind_run in Hc as ([] & w4 & [_ ->]%ensure_run & Hc).
    apply bind_run in Hc as (n & w4 & _ & Hc). apply bind_run in Hc as ([] & w5 & ->%write_run & [<- ->]%ret_run).
    apply lookup_insert_eq.
  - intros e v. unfold mbind, M_bind, throw, catch, mret, M_ret.
    destruct (call fails DeleteOwner _ v) as [[[]|e'] v']; eauto.
Qed.

(** What the admin is told of the subaccount is what the database and Paystack
    hold: active exactly when the school's row is, and then Paystack pays the
    account that was entered; otherwise no card payment is taken. *)
Theorem onboard_outcomes dto now c st :
  match onboardSchool fails signUpEmail errorMessage dto now c st with
  | (Err _, st') => remote st' = remote st
  | (Ok o, st') =>
      (s_paystackSubaccountActive <$> schools (db (local st')) !! ob_schoolId o) =
        Some (s_paystackSubaccountActive (ob_school o)) /\
      if s_paystackSubaccountActive (ob_school o) then
        exists code bank, c = Created code /\ truthy (cs_bankCode dto) = Some bank /\
          (s_paystackSubaccountCode <$> schools (db (local st')) !! ob_schoolId o) = Some (Some code) /\
          remote st' !! code = Some (bank, cs_accountNumber dto)
      else exists e, assertSchoolAcceptsOnlinePayments (ob_schoolId o) (local st') = (Err e, local st')
  end.
Proof.
  unfold onboardSchool. destruct (provisionSchoolAndOwner _ _ _ dto now (local st)) as [[[[sid s] u]|e] w] eqn:E; [|done].
  destruct (provision_row _ _ _ _ _ _ _ E) as (i & -> & Hs).
  assert (forall w', schools (db w') !! sid = Some (new_school dto i now) ->
    exists e, assertSchoolAcceptsOnlinePayments sid w' = (Err e, w')) as Off.
  { intros w' H. unfold assertSchoolAcceptsOnlinePayments, mbind, M_bind, read. rewrite H. by eexists. }
  unfold provisionSubaccount. cbn [s_bankCode new_school s_accountNumber local remote].
  destruct (truthy (cs_bankCode dto)) as [bank|] eqn:Eb; [|cbn -[insert lookup]; rewrite Hs; split; [done|by apply Off]].
  destruct c as [code|orphan e].
  - unfold updateSchoolRow, mbind, M_bind, read, orThrow, write, mret, M_ret. rewrite Hs. cbn -[insert lookup].
    rewrite lookup_insert_eq. split; [done|]. exists code, bank. rewrite lookup_insert_eq. done.
  - destruct orphan as [code|]; cbn -[insert lookup]; rewrite Hs; (split; [done|by apply Off]).
Qed.
End Payouts.

(** ** Samples *)

(** Better Auth's sign-up, as the saga relies on it. *)
Definition sample_signUp (email name : string) : M id :=
  clash ← read (fun d => bool_decide (is_Some (users d !! next_id d)));
  ensure (negb clash) (FInternal "id taken");;
  i ← fresh_id;
  write (fun d => set_users (<[i := mkUser email PARENT None None None None (Some name)]> (users d)) d);; mret i.

Lemma sample_signs_up : signs_up sample_signUp (fun e => e).
Proof.
  unfold signs_up, sample_signUp, fresh_id, mbind, M_bind, read, write, ensure, mret, M_ret, throw. intros email name w i w'.
  destruct (users (db w) !! next_id (db w)) as [u|] eqn:E; cbn -[insert lookup]; [done|].
  intros [= <- <-]. cbn. split; [done|]. split; [done|]. by eexists.
Qed.

Definition sample_school_dto : CreateSchoolDto :=
  mkCreateSchoolDto "Bola" "bola@x.ng" "Hillside" "2 Marina" "08030000001" "GTBank" (Some "058"%string) "HILLSIDE" "0123456780".

Lemma sample_owners : owners_exist sample_db.
Proof.
  intros k s H. change (schools sample_db) with (singletonM (M := gmap id School) 1%positive sample_school) in H.
  apply lookup_singleton_Some in H as [_ <-]. vm_compute. eauto.
Qed.

(** With every call up, the school is there; with the role's update down, a
    parent's account is. *)
Lemma provision_outcomes_witness :
  (exists sid s u w', provisionSchoolAndOwner (fun _ => false) sample_signUp (fun _ => "e"%string) sample_school_dto 0 sample
      = (Ok (sid, s, u), w') /\ s = new_school sample_school_dto (s_ownerId s) 0 /\ u_role u = SCHOOL_OWNER) /\
  leftover (fun c => match c with ElevateOwner => true | _ => false end) sample_signUp (fun e => e) sample_school_dto 0 sample
    (provisionSchoolAndOwner (fun c => match c with ElevateOwner => true | _ => false end) sample_signUp
      (fun _ => "e"%string) sample_school_dto 0 sample).2.
Proof.
  pose proof (provision_outcomes (fun _ => false) sample_signUp (fun _ => "e"%string) (fun e => e) sample_signs_up
    sample_school_dto 0 sample sample_owners) as H.
  pose proof (provision_outcomes (fun c => match c with ElevateOwner => true | _ => false end) sample_signUp
    (fun _ => "e"%string) (fun e => e) sample_signs_up sample_school_dto 0 sample sample_owners) as H'.
  split.
  - destruct (provisionSchoolAndOwner _ _ _ _ _ _) as [[[[sid s] u]|e] w'] eqn:E.
    + exists sid, s, u, w'. destruct H as (_ & H1 & _ & _ & H2 & _). split; [reflexivity|]. split; [exact H1|exact H2].
    + exfalso. vm_compute in E. discriminate.
  - clear H. destruct (provisionSchoolAndOwner _ _ _ _ _ _) as [[[[sid s] u]|e] w'] eqn:E.
    + exfalso. vm_compute in E. discriminate.
    + exact H'.
Defined.

(** Whatever a failed run leaves of an account that signed up, a second attempt is
    refused: the email is taken, with or without a school. *)
Theorem retry_refused fails signUpEmail stored_email errorMessage dto now w w' :
  leftover fails signUpEmail stored_email dto now w w' -> users (db w') <> users (db w) ->
  (forall e, signUpEmail (cs_ownerEmail dto) (cs_ownerName dto) w <> (Err e, w')) ->
  stored_email (cs_ownerEmail dto) = cs_ownerEmail dto ->
  provisionSchoolAndOwner (fun _ => false) signUpEmail errorMessage dto now w' =
    (Err (FBadRequest "User with this email already exists in the database"), w').
Proof.
  intros L Hne Hs Hc. assert (exists i u, users (db w') !! i = Some u /\ u_email u = cs_ownerEmail dto) as (i & u & Hi & He).
  { rewrite <- Hc. destruct L as [E|e E|i u _ _ E He _ _|i u _ _ _ E He _ _|i u sid _ _ E He _ _]; [done|by destruct (Hs e)| | |];
      exists i, u; rewrite E; split; [apply lookup_insert_eq|done|apply lookup_insert_eq|done|apply lookup_insert_eq|done]. }
  unfold provisionSchoolAndOwner, mbind at 1 2, M_bind at 1 2, read at 1, ensure at 1.
  destruct (user_by_email (cs_ownerEmail dto) (db w')) as [x|] eqn:E; [done|].
  unfold user_by_email in E. pose proof (find_row_none _ _ _ _ E Hi) as F. cbn in F. by rewrite He, String.eqb_refl in F.
Qed.

Lemma retry_refused_witness :
  let w := (provisionSchoolAndOwner (fun c => match c with ElevateOwner => true | _ => false end) sample_signUp
    (fun _ => "e"%string) sample_school_dto 0 sample).2 in
  provisionSchoolAndOwner (fun _ => false) sample_signUp (fun _ => "e"%string) sample_school_dto 0 w =
    (Err (FBadRequest "User with this email already exists in the database"), w).
Proof.
  intros w. apply (retry_refused (fun c => match c with ElevateOwner => true | _ => false end) sample_signUp (fun e => e) _ _ 0 sample w).
  - eapply (left_parent _ _ _ _ _ _ _ 20%positive); by vm_compute.
  - intros E. apply (f_equal (fun m => m !! 20%positive)) in E. vm_compute in E. discriminate.
  - intros e. vm_compute. discriminate.
  - reflexivity.
Qed.
