(* ===== verification/Site.v ===== *)
(** * The whole API

    Every controller behind the two guards, over the state the process keeps
    besides the tables: the subaccounts at Paystack, the cache, the Paystack
    client and the inboxes.  [Routes.v] serves the requests on payments, plans,
    invites, documents and users; here they are joined by
    [src/schools/schools.controller.ts] (fees, settlement account, students),
    [schools.management.controller.ts], [src/admin/admin.controller.ts],
    [src/notifications/notifications.controller.ts],
    [src/device-tokens/device-tokens.controller.ts],
    [src/audit/audit.controller.ts], [src/payments/payments.controller.ts],
    [src/enrollment/paystack-webhook.controller.ts],
    [src/auth/oauth-handoff.controller.ts], [src/health/health.controller.ts] and
    [src/common/observability/metrics.controller.ts], so that every controller of
    the repository is here (Better Auth's own routes are the library's).  Bodies
    arrive validated, those of the calculator (plain types, no DTO) as the numbers
    they are; a request over its budget of the throttler, which answers before the
    guards, does not arrive. *)

From Stdlib Require Import QArith Qround.
From S2P Require Import Prelude JsNumber JsText Money Pagination Schedule Schema Effects PaymentCalc Ledger LedgerCard Enrollment Cache Paystack Resilience PaymentHistory Schools AdminReports Settlement Onboarding Users Routes AuditTrail Notifications Webhook Links Observability.

Local Open Scope Z_scope.

(** ** The directory of schools *)

Section Directory.
(** [contains] with [mode: 'insensitive'], and [orderBy: { name: 'asc' }]. *)
Context (contains : string -> string -> bool) (by_name : list (id * School) -> list (id * School)).

Definition getPublicSchools (search : option string) (d : DB) : list (id * string) :=
  let where_ s := not_deleted s && match truthy search with Some q => contains (s_name s) q | None => true end in
  (fun kv : id * School => (kv.1, s_name kv.2)) <$> by_name (findMany where_ (schools d)).

Record SchoolListing := mkSchoolListing {
  sl_id : id; sl_name : string; sl_email : string; sl_address : string; sl_phone : string }.
Definition getAllSchools (search : option string) (d : DB) : list SchoolListing :=
  let where_ s := not_deleted s &&
    match truthy search with Some q => contains (s_name s) q || contains (s_email s) q | None => true end in
  (fun kv : id * School => mkSchoolListing kv.1 (s_name kv.2) (s_email kv.2) (s_address kv.2) (s_phone kv.2))
    <$> by_name (findMany where_ (schools d)).
End Directory.

(** ** Requests *)

(** schools.controller.ts: the routes on fees, the settlement account, students *)
Inductive SchoolRoute :=
| CreateClassFee (className : string) (feeAmount : Q)
| SetClassFees (fees : list FeeDto)
| GetClassFees
| GetClassFeesForSchool (schoolId : id)
| UpdateBankDetails (dto : UpdateSchoolDto)
| GetStudents (className search : option string) (page limit : option text).
(** schools.management.controller.ts but for the removal *)
Inductive ManagementRoute :=
| FindAllSchools (search : option string)
| CreateSchoolAndOwner (dto : CreateSchoolDto)
| UpdateSchool (schoolId : id) (dto : UpdateSchoolDto).
(** admin.controller.ts but for [AdminRoute] *)
Inductive ReportsRoute :=
| OnboardSchool (dto : CreateSchoolDto)
| GetBanks
| ResolveAccount (accountNumber bankCode : string)
| GetSchoolsPayoutStatus
| CreateSubaccount (schoolId : id)
| GetMigrationWindows
| GetPendingFirstPayments (include : bool) (page limit : raw) (schoolId : option id)
| GetPendingInstallments (page limit : raw)
| GetSchoolStudents (schoolId : id) (className search : option string) (page limit : raw)
| GetRevenue
| GetAllTransactions (include : bool) (receiptType : option PaymentType) (page limit : raw) (status : option string)
| GetStudentsSummary
| GetBreakdownSummary
| GetSchoolBreakdown (schoolId : id) (tab : option string) (page limit : raw)
| GetSchoolsSummary
| GetOverview (range : option string).
Inductive NotificationsRoute :=
| Broadcast (title message : string) (link : option string)
| GetUserNotifications (limit : option text)
| MarkAllAsRead
| MarkAsRead (notificationId : id).
Inductive DevicesRoute :=
| Register (token platform : string)
| Unregister (token : string).
(** audit.controller.ts *)
Record AuditQuery := mkAuditQuery {
  aq_entityType : option string; aq_entityId : option id; aq_schoolId : option id; aq_actorUserId : option id;
  aq_take : option text; aq_skip : option text }.
(** payments.controller.ts *)
Inductive CalculatorRoute :=
| CalculateStructure (totalAmount schoolFees : raw)
| CalculateDeposit (schoolFees depositPaid : Q)
| CalculateInstallments (remainingBalance : Z) (plan : InstallmentFrequency)
| UpdateBalance (schoolFees depositPaid installmentsPaid : Z)
| UpdateStatus (currentStatus : ChildPaymentStatus) (depositConfirmedBySchool : bool) (remainingBalance : Z) (isOverdue : bool).
(** paystack-webhook.controller.ts *)
Inductive PaystackRoute :=
| PaystackWebhook (req : WebhookRequest)
| VerifyTransaction (reference : option string).

(** oauth-handoff.controller.ts *)
Inductive HandoffRoute :=
| GoogleStart (next returnTo : option text)
| GoogleFinish (next returnTo : option text)
| GoogleLinkStart (ticket returnTo : option text).
(** health.controller.ts and metrics.controller.ts *)
Inductive OpsRoute :=
| GetHealth
| Scrape (headers : MetricsHeaders).

Inductive SiteRoute :=
| Books (r : Route)
| OfSchool (r : SchoolRoute)
| OfManagement (r : ManagementRoute)
| OfReports (r : ReportsRoute)
| OfNotifications (r : NotificationsRoute)
| OfDevices (r : DevicesRoute)
| OfAudit (q : AuditQuery)
| OfCalculator (r : CalculatorRoute)
| OfPaystack (r : PaystackRoute)
| OfHandoff (r : HandoffRoute)
| OfOps (r : OpsRoute).

(** [@Public()] and [@Roles(...)] *)
Definition site_public (r : SiteRoute) : bool :=
  match r with
  | Books r => is_public r
  | OfManagement (FindAllSchools _) | OfPaystack (PaystackWebhook _) => true
  | OfHandoff _ | OfOps _ => true
  | _ => false
  end.
Definition site_roles (r : SiteRoute) : option (list UserRole) :=
  match r with
  | Books r => required_roles r
  | OfSchool GetClassFees => Some [SCHOOL_OWNER; PARENT]
  | OfSchool (GetClassFeesForSchool _) => Some [PARENT; SCHOOL_OWNER; SUPER_ADMIN]
  | OfSchool _ => Some [SCHOOL_OWNER]
  | OfManagement (FindAllSchools _) => None
  | OfManagement _ | OfReports _ | OfAudit _ | OfNotifications (Broadcast _ _ _) => Some [SUPER_ADMIN]
  | OfNotifications _ | OfDevices _ | OfCalculator _ => None
  | OfPaystack (PaystackWebhook _) | OfHandoff _ | OfOps _ => None
  | OfPaystack (VerifyTransaction _) => Some [PARENT; SCHOOL_OWNER]
  end.

Inductive SiteResponse :=
| SBooks (r : Response)
| SFee (f : ClassFee)
| SFees (l : list FeeView)
| SSchool (s : School)
| SStudents (p : Paginated StudentView)
| SDirectory (l : list (id * string))
| SOnboarded (o : Onboarded)
| SBanks (l : list PaystackBank)
| SAccount (a : ResolvedAccount)
| SPayouts (l : list SchoolPayoutStatus)
| SSubaccount (r : SubaccountResult)
| SWindows (l : list MigrationWindow)
| SPayments (p : Paginated PaymentView)
| SSchoolStudents (p : Paginated SchoolStudent)
| SRevenue (q : Q)
| SStudentsSummary (s : StudentsSummary)
| SBreakdown (b : BreakdownSummary)
| SSchoolPage (p : SchoolPage)
| SSchoolsSummary (l : list SchoolSummary)
| SOverview (o : Overview)
| SCount (n : Z)
| SInbox (p : InboxPage)
| SNotification (r : InboxRow)
| SAudit (p : AuditPage)
| SStructure (s : PaymentStructureResult)
| SDeposit (d : DepositCalculationResult)
| SInstallments (i : InstallmentCalculationResult)
| SAmount (n : Z)
| SStatus (s : ChildPaymentStatus)
| SReceived (duplicate : bool)
| SVerified (status : option jsonv) (reference : string)
| SRedirect (r : Redirect)
| SHealth (h : Health) (unavailable : bool)
| SMetrics (m : Metrics)
| SOk.

(** ** State *)

Section Site.
Context `{CacheBackend} `{CircuitBreaker}.

(** The cache is one map; its entries are kept apart by the type of their value,
    which their key decides. *)
Record Site := mkSite {
  st_state : State;
  st_fees : CacheService (list FeeView);
  st_payouts : CacheService (list SchoolPayoutStatus);
  st_reports : Reports;
  st_banks : CacheService (list PaystackBank);
  st_client : Client;
  st_inbox : NState }.
Definition tables (st : Site) : DB := db (local (st_state st)).

Definition set_world (w : World) (st : Site) : Site :=
  mkSite (mkState w (remote (st_state st))) (st_fees st) (st_payouts st) (st_reports st) (st_banks st) (st_client st) (st_inbox st).
Definition set_state (s : State) (st : Site) : Site :=
  mkSite s (st_fees st) (st_payouts st) (st_reports st) (st_banks st) (st_client st) (st_inbox st).
Definition set_reports (r : Reports) (st : Site) : Site :=
  mkSite (st_state st) (st_fees st) (st_payouts st) r (st_banks st) (st_client st) (st_inbox st).
Definition set_bank_list (b : CacheService (list PaystackBank)) (c : Client) (st : Site) : Site :=
  mkSite (st_state st) (st_fees st) (st_payouts st) (st_reports st) b c (st_inbox st).
Definition set_inbox (n : NState) (st : Site) : Site :=
  mkSite (st_state st) (st_fees st) (st_payouts st) (st_reports st) (st_banks st) (st_client st) n.

(** What a handler does to the site. *)
Definition Handler : Type := Site -> res SiteResponse * Site.
Definition refuse (e : failure) : Handler := fun st => (Err e, st).
Definition answer (r : DB -> res SiteResponse) : Handler := fun st => (r (tables st), st).
Definition on_world {A} (f : A -> SiteResponse) (m : M A) : Handler := fun st =>
  let '(r, w) := m (local (st_state st)) in
  (match r with Ok a => Ok (f a) | Err e => Err e end, set_world w st).
Definition on_fees {A} (f : A -> SiteResponse) (m : FeeState -> res A * FeeState) : Handler := fun st =>
  let '(r, fs) := m (mkFeeState (local (st_state st)) (st_fees st)) in
  (match r with Ok a => Ok (f a) | Err e => Err e end,
   mkSite (mkState (fs_world fs) (remote (st_state st))) (fs_cache fs) (st_payouts st) (st_reports st) (st_banks st)
     (st_client st) (st_inbox st)).
Definition on_payouts {A} (f : A -> SiteResponse) (m : AdminState -> res A * AdminState) : Handler := fun st =>
  let '(r, ad) := m (mkAdminState (st_state st) (st_payouts st)) in
  (match r with Ok a => Ok (f a) | Err e => Err e end,
   mkSite (ad_state ad) (st_fees st) (ad_payouts ad) (st_reports st) (st_banks st) (st_client st) (st_inbox st)).
Definition on_reports {A} (f : A -> SiteResponse) (m : DB -> Reports -> A * Reports) : Handler := fun st =>
  let '(a, r) := m (tables st) (st_reports st) in (Ok (f a), set_reports r st).
Definition on_inbox {A} (f : A -> SiteResponse) (m : NState -> res A * NState) : Handler := fun st =>
  let '(r, n) := m (st_inbox st) in (match r with Ok a => Ok (f a) | Err e => Err e end, set_inbox n st).
Definition on_client {A} (f : A -> SiteResponse) (m : Client -> (PaystackFailure + A) * Client) : Handler := fun st =>
  let '(r, c) := m (st_client st) in
  (match r with inr a => Ok (f a) | inl e => Err (provider_error e) end, set_bank_list (st_banks st) c st).

(** ** What a request is served with *)

(** The database's orders and matching, the platform's text functions, Better
    Auth's sign-up and Firebase. *)
Record Platforms := mkPlatforms {
  pf_by_class : list (id * ClassFee) -> list (id * ClassFee);
  pf_by_name : list (id * School) -> list (id * School);
  pf_by_deadline : list (id * School) -> list (id * School);
  pf_newest_enrollments : list (id * ChildEnrollment) -> list (id * ChildEnrollment);
  pf_oldest_payments : list (id * Payment) -> list (id * Payment);
  pf_newest_notifications : list (id * InboxRow) -> list (id * InboxRow);
  pf_contains : string -> string -> bool;
  pf_toLowerCase : string -> string;
  pf_localeCompare : string -> string -> Z;
  pf_month_name : Z -> string;
  pf_type_str : NotificationType -> string;
  pf_webAppUrl : option string;
  pf_max_int : Z;
  pf_String_of : jsonv -> string;
  pf_hmac_hex : text -> list Z -> text;
  pf_parse : list Z -> option PaystackWebhookEvent;
  pf_webhook : WebhookConfig;
  pf_errorMessage : failure -> string;
  pf_signUpEmail : string -> string -> M id;
  pf_parse_url : text -> option (text * text);
  pf_handoff : HandoffEnv;
  pf_METRICS_TOKEN : option text;
  pf_API_DOCS_ENABLED : option text;
  pf_CLIENT_IP_HEADER : option text;
  pf_sha256 : text -> text }.
(** What the network answers while a request is served. *)
Record Upstream := mkUpstream {
  up_server : Server;
  up_settlement : Answers;
  up_creation : Creation;
  up_outage : id -> option PaystackFailure;
  up_call_fails : Call -> bool;
  up_net : nat -> HttpMethod -> string -> option jsonv -> HttpResult;
  up_verification : string -> PaystackFailure + VerifyTransactionResult;
  up_fcm : list string -> PushMessage -> list SendResponse + caught;
  up_signInSocial : text -> text -> SocialAnswer;
  up_session : option (option id);
  up_minted : option text;
  up_verifyOneTimeToken : text -> option text;
  up_linkSocialAccount : text -> text -> SocialAnswer;
  up_database : unit + caught;
  up_supabase : option (promise BucketAnswer) }.

Context (pf : Platforms) (up : Upstream).
Let env : Env := sv_env (up_server up).

(** ** schools.controller.ts *)

Definition with_school (user : AuthUser) (k : id -> Handler) : Handler :=
  match au_userSchoolId user with
  | Some schoolId => k schoolId
  | None => refuse (FForbidden "User is not associated with any school")
  end.

(** [page ? parseInt(page, 10) : fallback], as Prisma takes it. *)
Definition query_page (q : option text) (fallback : Z) : res Z :=
  match q with
  | Some ((_ :: _) as t) =>
      match parseInt t with
      | Finite x => Ok (Z.quot (Qnum x) (QDen x))
      | _ => Err (FInternal "PrismaClientValidationError")
      end
  | _ => Ok fallback
  end.

(** [limit ? Math.min(parseInt(limit, 10), 200) : 50] *)
Definition query_cap (q : option text) (fallback cap : Z) : res Z :=
  match q with
  | Some ((_ :: _) as t) =>
      match parseInt t with
      | Finite x => Ok (Z.min (Z.quot (Qnum x) (QDen x)) cap)
      | Infinite false => Ok cap
      | _ => Err (FInternal "PrismaClientValidationError")
      end
  | _ => Ok fallback
  end.

Definition settle (u : res Settlement.Update) : Handler := fun st =>
  match u with
  | Err e => (Err e, st)
  | Ok u =>
      let '(phase, s) := applySettlementUpdate u (up_settlement up) (st_state st) in
      (match phase with
       | Finished (Ok school) => Ok (SSchool school)
       | Finished (Err e) => Err e
       | _ => Err (FInternal "unfinished")
       end, set_state s st)
  end.

Definition school_handler (r : SchoolRoute) (user : AuthUser) : Handler :=
  match r with
  | CreateClassFee className feeAmount =>
      with_school user (fun schoolId => on_fees SFee (createClassFee (id_str env) schoolId className feeAmount))
  | SetClassFees fees =>
      with_school user (fun schoolId =>
        on_fees SFees (setClassFees (id_str env) (pf_by_class pf) (pf_toLowerCase pf) schoolId fees (now env)))
  | GetClassFees =>
      if bool_decide (au_role user = SCHOOL_OWNER) then
        with_school user (fun schoolId => on_fees SFees (fun fs =>
          let '(l, fs) := getClassFees (id_str env) (pf_by_class pf) schoolId (now env) fs in (Ok l, fs)))
      else refuse (FForbidden "Use the public endpoint to fetch fees for a specific school")
  | GetClassFeesForSchool schoolId =>
      on_fees SFees (fun fs =>
        let '(l, fs) := getClassFees (id_str env) (pf_by_class pf) schoolId (now env) fs in (Ok l, fs))
  | UpdateBankDetails dto =>
      with_school user (fun schoolId st => settle (updateSchoolBankDetails schoolId dto (tables st)) st)
  | GetStudents className search page limit =>
      with_school user (fun schoolId => answer (fun d =>
        page ← query_page page 1;
        limit ← query_cap limit 50 200;
        p ← getStudents (pf_contains pf) (sv_newest_payments (up_server up)) (pf_newest_enrollments pf) schoolId
              className search page limit d;
        Ok (SStudents p)))
  end.

(** ** schools.management.controller.ts *)

Definition management_handler (r : ManagementRoute) : Handler :=
  match r with
  | FindAllSchools search =>
      answer (fun d => Ok (SDirectory (getPublicSchools (pf_contains pf) (pf_by_name pf) search d)))
  | CreateSchoolAndOwner dto =>
      on_world SOnboarded (createSchool (up_call_fails up) (pf_signUpEmail pf) (pf_errorMessage pf) dto (now env))
  | UpdateSchool schoolId dto => fun st => settle (updateSchool schoolId dto (tables st)) st
  end.

(** ** admin.controller.ts *)

(** [listBanks]: the cached list, or the client's, kept when it is one. *)
Definition BANKS_TTL_SECONDS : Z := 24 * 60 * 60.
Definition admin_listBanks : Handler := fun st =>
  match get (now env) key_paystackBanks (st_banks st) with
  | (Some banks, c) => (Ok (SBanks banks), set_bank_list c (st_client st) st)
  | (None, c) =>
      match listBanks (pf_String_of pf) (up_net up) (now env) (st_client st) with
      | (inl e, client) => (Err (provider_error e), set_bank_list c client st)
      | (inr banks, client) =>
          (Ok (SBanks banks), set_bank_list (set (now env) key_paystackBanks banks BANKS_TTL_SECONDS c) client st)
      end
  end.
Definition admin_resolveAccount (accountNumber bankCode : string) : Handler :=
  if bool_decide (accountNumber = EmptyString) || bool_decide (bankCode = EmptyString) then
    refuse (FBadRequest "accountNumber and bankCode are required")
  else on_client SAccount (resolveAccount (pf_String_of pf) (up_net up) (now env) accountNumber bankCode).

Definition tab_of (tab : option string) : Tab :=
  match tab with
  | Some t => if String.eqb t "outstanding" then TOutstanding else if String.eqb t "overdue" then TOverdue else TStudents
  | None => TStudents
  end.
Definition range_of (range : option string) : Range :=
  match range with Some r => if String.eqb r "weekly" then Weekly else Monthly | None => Monthly end.

Definition reports_handler (r : ReportsRoute) : Handler :=
  let sign := sv_sign (up_server up) in
  let newest := sv_newest_payments (up_server up) in
  match r with
  | OnboardSchool dto => fun st =>
      let '(r, s) := onboardSchool (up_call_fails up) (pf_signUpEmail pf) (pf_errorMessage pf) dto (now env)
        (up_creation up) (st_state st) in
      (match r with Ok o => Ok (SOnboarded o) | Err e => Err e end, set_state s st)
  | GetBanks => admin_listBanks
  | ResolveAccount accountNumber bankCode => admin_resolveAccount accountNumber bankCode
  | GetSchoolsPayoutStatus =>
      on_payouts SPayouts (fun ad =>
        let '(l, ad) := getSchoolsPayoutStatus (pf_by_name pf) (now env) (up_outage up) ad in (Ok l, ad))
  | CreateSubaccount schoolId =>
      on_payouts SSubaccount (createSubaccountForSchool schoolId (up_outage up schoolId) (up_creation up))
  | GetMigrationWindows => answer (fun d => Ok (SWindows (getMigrationWindows (pf_by_deadline pf) (now env) d)))
  | GetPendingFirstPayments include page limit schoolId =>
      answer (fun d => Ok (SPayments (getPendingFirstPayments sign newest include page limit schoolId d)))
  | GetPendingInstallments page limit =>
      answer (fun d => Ok (SPayments (getPendingInstallments newest page limit d)))
  | GetSchoolStudents schoolId className search page limit =>
      answer (fun d => Ok (SSchoolStudents (getSchoolStudents newest (pf_newest_enrollments pf) (pf_contains pf)
        schoolId className search page limit d)))
  | GetRevenue =>
      on_reports SRevenue (fun d rc =>
        let '(q, c) := getPlatformRevenue (now env) d (rc_revenue rc) in
        (q, mkReports c (rc_students rc) (rc_schools rc) (rc_breakdown rc)))
  | GetAllTransactions include receiptType page limit status =>
      answer (fun d =>
        status ← parseStatus status;
        Ok (SPayments (getTransactions sign newest include receiptType page limit status d)))
  | GetStudentsSummary =>
      on_reports SStudentsSummary (fun d rc =>
        let '(s, c) := getStudentsSummary (now env) d (rc_students rc) in
        (s, mkReports (rc_revenue rc) c (rc_schools rc) (rc_breakdown rc)))
  | GetBreakdownSummary =>
      on_reports SBreakdown (fun d rc =>
        let '(b, c) := getBreakdownSummary (now env) d (rc_breakdown rc) in
        (b, mkReports (rc_revenue rc) (rc_students rc) (rc_schools rc) c))
  | GetSchoolBreakdown schoolId tab page limit =>
      answer (fun d =>
        p ← getSchoolBreakdown (pf_localeCompare pf) schoolId (tab_of tab) page limit (now env) d;
        Ok (SSchoolPage p))
  | GetSchoolsSummary =>
      on_reports SSchoolsSummary (fun d rc =>
        let '(l, c) := getSchoolsSummary (pf_by_name pf) (now env) d (rc_schools rc) in
        (l, mkReports (rc_revenue rc) (rc_students rc) c (rc_breakdown rc)))
  | GetOverview range =>
      on_reports SOverview (fun d rc =>
        getOverview (pf_month_name pf) (pf_oldest_payments pf) newest (range_of range) (now env) d rc)
  end.

(** ** notifications.controller.ts, device-tokens.controller.ts *)

Definition notifications_handler (r : NotificationsRoute) (user : AuthUser) : Handler :=
  match r with
  | Broadcast title message link => fun st =>
      let '(n, s) := broadcastToParents (id_str env) (pf_type_str pf) (pf_webAppUrl pf) (up_fcm up) title message link
        (now env) (tables st) (st_inbox st) in
      (Ok (SCount n), set_inbox s st)
  | GetUserNotifications limit => fun st =>
      (Ok (SInbox (getUserNotifications (pf_newest_notifications pf) (au_userId user) (query_limit limit) (st_inbox st))), st)
  | MarkAllAsRead => on_inbox SCount (fun s => let '(n, s) := markAllAsRead (au_userId user) s in (Ok n, s))
  | MarkAsRead notificationId => on_inbox SNotification (markAsRead notificationId (au_userId user))
  end.
Definition devices_handler (r : DevicesRoute) (user : AuthUser) : Handler :=
  match r with
  | Register token platform => on_inbox (fun _ => SOk) (fun s => (Ok tt, register (au_userId user) token platform s))
  | Unregister token => on_inbox (fun _ => SOk) (fun s => (Ok tt, unregister (au_userId user) token s))
  end.

(** ** audit.controller.ts *)

Definition audit_handler (q : AuditQuery) : Handler := answer (fun d =>
  p ← AuditController_list (pf_max_int pf) (aq_entityType q) (aq_entityId q) (aq_schoolId q) (aq_actorUserId q)
        (aq_take q) (aq_skip q) d;
  Ok (SAudit p)).

(** ** payments.controller.ts *)

(** [body.totalAmount ?? body.schoolFees] *)
Definition coalesce (a b : raw) : raw := match a with RUndefined | RNull => b | _ => a end.
Definition calculate_structure (totalAmount schoolFees : raw) : res PaymentStructureResult :=
  match coalesce totalAmount schoolFees with
  | RUndefined | RNull => Err (FInternal "Total amount is required")
  | amount =>
      match number_of amount with
      | Finite q => calculatePaymentStructure q
      | Infinite false => Err (FInternal "Money requires integer kobo, got Infinity")
      | _ => Err (FBadRequest "Invalid total amount. Please provide a valid positive number.")
      end
  end.
(** [Money.fromKobo] throws on a fraction. *)
Definition calculate_deposit (schoolFees depositPaid : Q) : res DepositCalculationResult :=
  if Qle_bool schoolFees 0 then Err (FBadRequest "Invalid school fees")
  else if js_isInteger schoolFees && js_isInteger depositPaid then
    calculateInitialPayment (Qfloor schoolFees) (Qfloor depositPaid)
  else Err (FInternal "Money requires integer kobo").

Definition calculator_handler (r : CalculatorRoute) : Handler :=
  match r with
  | CalculateStructure totalAmount schoolFees =>
      answer (fun _ => s ← calculate_structure totalAmount schoolFees; Ok (SStructure s))
  | CalculateDeposit schoolFees depositPaid => answer (fun _ => s ← calculate_deposit schoolFees depositPaid; Ok (SDeposit s))
  | CalculateInstallments remainingBalance plan =>
      answer (fun _ => i ← calculateInstallments remainingBalance plan; Ok (SInstallments i))
  | UpdateBalance schoolFees depositPaid installmentsPaid =>
      answer (fun _ => Ok (SAmount (updateRemainingBalance schoolFees depositPaid installmentsPaid)))
  | UpdateStatus currentStatus depositConfirmedBySchool remainingBalance isOverdue =>
      answer (fun _ => Ok (SStatus (getNextStatus currentStatus depositConfirmedBySchool remainingBalance isOverdue)))
  end.

(** ** paystack-webhook.controller.ts *)

Definition webhook_handler (req : WebhookRequest) : Handler :=
  on_world SReceived (webhook (pf_hmac_hex pf) (pf_parse pf) (pf_webhook pf) env req).
Definition verify_handler (reference : option string) (user : AuthUser) : Handler :=
  on_world (fun v => SVerified v.1 v.2) (verify (up_verification up) env reference user).

(** ** oauth-handoff.controller.ts *)

Definition handoff_handler (r : HandoffRoute) : Handler :=
  match r with
  | GoogleStart next returnTo =>
      answer (fun _ => r ← start (pf_parse_url pf) (pf_handoff pf) (up_signInSocial up) next returnTo; Ok (SRedirect r))
  | GoogleFinish next returnTo =>
      on_world SRedirect (finish (pf_parse_url pf) (pf_handoff pf) (up_session up) (up_minted up) (now env) next returnTo)
  | GoogleLinkStart ticket returnTo =>
      answer (fun _ => r ← linkStart (pf_parse_url pf) (pf_handoff pf) (up_verifyOneTimeToken up) (up_linkSocialAccount up)
        ticket returnTo; Ok (SRedirect r))
  end.

(** ** health.controller.ts, metrics.controller.ts *)

Definition posture : SecurityPosture :=
  resolveSecurityPosture (pf_parse_url pf) (ho_betterAuthUrl (pf_handoff pf)) (pf_API_DOCS_ENABLED pf) (pf_CLIENT_IP_HEADER pf).
(** The scrape passes its own guard and renders the registry, what the process
    has recorded. *)
Definition ops_handler (r : OpsRoute) : Handler :=
  match r with
  | GetHealth => answer (fun _ => let '(h, unavailable) := getHealth (up_database up) (up_supabase up) in Ok (SHealth h unavailable))
  | Scrape headers => fun st =>
      match metrics_canActivate (pf_sha256 pf) (pf_METRICS_TOKEN pf) posture headers with
      | Ok _ => (Ok (SMetrics (metrics_of (out (local (st_state st))))), st)
      | Err e => (Err e, st)
      end
  end.

(** ** The dispatch *)

Definition site_handler (r : SiteRoute) (user : AuthUser) : Handler :=
  match r with
  | Books r => on_world SBooks (handler (up_server up) r user)
  | OfSchool r => school_handler r user
  | OfManagement r => management_handler r
  | OfReports r => reports_handler r
  | OfNotifications r => notifications_handler r user
  | OfDevices r => devices_handler r user
  | OfAudit q => audit_handler q
  | OfCalculator r => calculator_handler r
  | OfPaystack (PaystackWebhook req) => webhook_handler req
  | OfPaystack (VerifyTransaction reference) => verify_handler reference user
  | OfHandoff r => handoff_handler r
  | OfOps r => ops_handler r
  end.

(** A request: the guards, then the handler. *)
Definition serve_site (r : SiteRoute) (session : option SessionUser) : Handler :=
  match r with
  | Books r => on_world SBooks (serve_route (up_server up) r session)
  | _ =>
      match authorize (site_public r) (site_roles r) session with
      | Err e => refuse e
      | Ok user =>
          match r, user with
          | OfManagement (FindAllSchools search), _ => management_handler (FindAllSchools search)
          | OfPaystack (PaystackWebhook req), _ => webhook_handler req
          | OfHandoff r, _ => handoff_handler r
          | OfOps r, _ => ops_handler r
          | _, Some user => site_handler r user
          | _, None => refuse (FUnauthorized "Unauthorized")
          end
      end
  end.
End Site.
