(* ===== verification/SiteSpecs.v ===== *)
(** * The whole API: who may change what

    Over every request the API takes ([serve_site]): which of them can change a
    payment or a plan, and for whom ([site_authority]); and what a school's owner
    leaves alone, tables and subaccounts ([school_isolation]). *)

From Stdlib Require Import QArith.
From S2P Require Import Prelude JsText Pagination Schema Effects Samples EnrollmentView Ledger LedgerCard LedgerMigrated Enrollment Cache Paystack PaystackSpecs Resilience PaymentHistory Schools AdminReports Settlement Onboarding Invites InviteSpecs InviteList Frames Users Routes RouteSpecs AuditTrail Notifications Webhook Tenancy Links LinkSpecs Observability Site.

Local Open Scope Z_scope.

(** The tables of payments, plans and invites are as they were. *)
Record still (d d' : DB) : Prop := mkStill {
  sl_payments : payments d' = payments d;
  sl_enrollments : enrollments d' = enrollments d;
  sl_invites : invites d' = invites d;
  sl_next : (next_id d <= next_id d')%positive }.
#[export] Instance still_preorder : PreOrder still.
Proof. split; [by split; [..|lia]|]. intros a b c [] []. split; try congruence. lia. Qed.
Lemma still_same_books d d' : still d d' -> RouteSpecs.same_books d d'.
Proof. by intros []. Qed.

Ltac still_steps := intros; stays_steps ltac:(try (split; cbn; first [done | lia])).

Section Still.
Context `{CacheBackend} `{CircuitBreaker} (pf : Platforms) (up : Upstream).
(** Better Auth's sign-up writes its own tables. *)
Context (signup_still : forall email name w, stays still (pf_signUpEmail pf email name) w).

(** A handler that leaves the three tables. *)
Definition sits (h : Handler) : Prop := forall st, still (tables st) (tables (h st).2).

Lemma sits_refuse e : sits (refuse e).
Proof. by intros st. Qed.
Lemma sits_answer r : sits (answer r).
Proof. by intros st. Qed.
Lemma sits_world {A} (f : A -> SiteResponse) m : (forall w, stays still m w) -> sits (on_world f m).
Proof.
  intros Hm st. unfold on_world. destruct (m (local (st_state st))) as [r w] eqn:E. by apply (Hm _ r w).
Qed.
Lemma sits_fees {A} (f : A -> SiteResponse) m :
  (forall fs, still (db (fs_world fs)) (db (fs_world (m fs).2))) -> sits (on_fees f m).
Proof.
  intros Hm st. unfold on_fees. specialize (Hm (mkFeeState (local (st_state st)) (st_fees st))).
  by destruct (m _) as [r fs].
Qed.
Lemma sits_payouts {A} (f : A -> SiteResponse) m :
  (forall ad, still (db (local (ad_state ad))) (db (local (ad_state (m ad).2)))) -> sits (on_payouts f m).
Proof.
  intros Hm st. unfold on_payouts. specialize (Hm (mkAdminState (st_state st) (st_payouts st))).
  by destruct (m _) as [r ad].
Qed.
Lemma sits_reports {A} (f : A -> SiteResponse) m : sits (on_reports f m).
Proof. intros st. unfold on_reports. by destruct (m _ _). Qed.
Lemma sits_inbox {A} (f : A -> SiteResponse) m : sits (on_inbox f m).
Proof. intros st. unfold on_inbox. by destruct (m _). Qed.
Lemma sits_client {A} (f : A -> SiteResponse) m : sits (on_client f m).
Proof. intros st. unfold on_client. by destruct (m _). Qed.
Lemma sits_with_school user k : (forall s, sits (k s)) -> sits (with_school user k).
Proof. intros Hk. unfold with_school. destruct (au_userSchoolId user); [apply Hk|apply sits_refuse]. Qed.

(** ** Fees *)

Lemma getClassFees_world str by_class s now fs : fs_world (getClassFees str by_class s now fs).2 = fs_world fs.
Proof. unfold getClassFees. by destruct (getOrSet _ _ _ _ _). Qed.
Lemma still_upsert s fee w : stays still (upsertClassFee s fee) w.
Proof. unfold upsertClassFee, updateClassFeeRow, createClassFeeRow, fresh_id. still_steps. Qed.
Lemma still_publish s fees w : stays still (publish_tx s fees) w.
Proof.
  unfold publish_tx, retireClassFees. apply stays_bind; [exact _|still_steps|]. intros _ w1 _. revert w1.
  induction fees as [|f l IH]; intros w1; [apply stays_ret; exact _|]. cbn [upsert_all foldr].
  apply stays_bind; [exact _|apply still_upsert|]. intros ? w2 _. apply IH.
Qed.
Lemma still_setClassFees str by_class lower s fees now fs :
  still (db (fs_world fs)) (db (fs_world (setClassFees str by_class lower s fees now fs).2)).
Proof.
  unfold setClassFees. destruct (duplicate_class _ _ _); [done|].
  pose proof (stays_transaction still _ (fs_world fs) (still_publish s (normalize_fee <$> fees) (fs_world fs))) as Ht.
  destruct (transaction _ (fs_world fs)) as [[u|e] w] eqn:E; [|by eapply Ht].
  pose proof (getClassFees_world str by_class s now (mkFeeState w (del (key_classFees (str s)) (fs_cache fs)))) as Hw.
  destruct (getClassFees _ _ _ _ _) as [l fs']. cbn [snd] in *. rewrite Hw. by eapply Ht.
Qed.
Lemma still_updateFee i f w : stays still (updateClassFeeRow i f) w.
Proof. unfold updateClassFeeRow. still_steps. Qed.
Lemma still_createFee f w : stays still (createClassFeeRow f) w.
Proof. unfold createClassFeeRow, fresh_id. still_steps. Qed.
Lemma still_createClassFee str s c q fs : still (db (fs_world fs)) (db (fs_world (createClassFee str s c q fs).2)).
Proof.
  unfold createClassFee, createClassFee_read, createClassFee_write. cbn [fs_world].
  destruct (fst <$> _) as [i|];
    [pose proof (still_updateFee i (revive (kobo_of q)) (fs_world fs)) as Hm
    |pose proof (still_createFee (mkClassFee s c (kobo_of q) true) (fs_world fs)) as Hm];
    match goal with |- context [let '(_, _) := ?m in _] => destruct m as [r w] eqn:E end; by apply (Hm r w).
Qed.

(** ** Settlement and onboarding *)

Lemma still_updateSchoolRow i f w : stays still (updateSchoolRow i f) w.
Proof. unfold updateSchoolRow. still_steps. Qed.
Lemma stays_notify_all (R : DB -> DB -> Prop) `{!PreOrder R} f l w : stays R (notify_all f l) w.
Proof.
  revert w. induction l as [|a l IH]; intros w; [apply stays_ret; exact _|]. cbn [notify_all foldr].
  apply stays_bind; [exact _|apply stays_emit; exact _|]. intros ? w1 _. apply IH.
Qed.
Lemma stays_notifyAdmins (R : DB -> DB -> Prop) `{!PreOrder R} t w : stays R (Settlement.notifyAdmins t) w.
Proof. unfold Settlement.notifyAdmins. apply stays_read_bind. by apply stays_notify_all. Qed.

(** A relation that the two updates of the school's row keep holds along a
    settlement update. *)
Lemma steps_rel (R : DB -> DB -> Prop) `{!PreOrder R} n u a phase st :
  (forall f w, (forall s, s_paystackSubaccountCode (f s) = s_paystackSubaccountCode s) -> stays R (updateSchoolRow (up_schoolId u) f) w) ->
  (forall s, s_paystackSubaccountCode (up_otherFields u s) = s_paystackSubaccountCode s) ->
  R (db (local st)) (db (local (steps n u a phase st).2)).
Proof.
  intros Hu Ho. revert phase st. induction n as [|n IH]; intros phase st; [done|]. cbn [steps].
  assert (R (db (local st)) (db (local (step u a phase st).2))) as Hs.
  { assert (forall A (m : M A) k st, stays R m (local st) -> R (db (local st)) (db (local (on_local m k st).2))) as Hl.
    { intros A m k st0 Hm. unfold on_local. destruct (m (local st0)) as [r w] eqn:E. by apply (Hm r w). }
    destruct phase; cbn [step]; try done.
    - destruct (settlementChanged u); [|done]. destruct (truthy _); [|done]. by destruct (an_resolve _ _ _).
    - apply Hl, Hu. intros s. unfold update_data, keep_or. destruct (needsRepoint u); cbn;
        destruct (us_accountNumber _), accountName, (us_bankCode _), (us_bankName _); cbn; apply Ho.
    - apply Hl. by apply stays_notifyAdmins.
    - destruct (an_repoint a); [done|]. by apply (Hl _ _ _ (mkState (local st) _)), stays_notifyAdmins.
    - by apply Hl, Hu. }
  destruct (step u a phase st) as [p st']. cbn [snd] in *. etransitivity; [exact Hs|apply IH].
Qed.

Lemma up_other_code str dto d u : updateSchoolBankDetails str dto d = Ok u \/ updateSchool str dto d = Ok u ->
  up_schoolId u = str /\ forall s, s_paystackSubaccountCode (up_otherFields u s) = s_paystackSubaccountCode s.
Proof.
  unfold updateSchoolBankDetails, updateSchool, school_row. intros [Hq|Hq]; destruct (schools d !! str) as [x|]; try discriminate Hq.
  - by injection Hq as <-.
  - cbn in Hq. destruct (not_deleted x); [|discriminate Hq]. injection Hq as <-. split; [done|]. intros s. cbn.
    unfold profile_fields, keep_or. by destruct (us_phone dto), (us_address dto), (us_schoolName dto).
Qed.

Lemma still_settle i dto st :
  still (tables st) (tables (settle up (updateSchoolBankDetails i dto (tables st)) st).2) /\
  still (tables st) (tables (settle up (updateSchool i dto (tables st)) st).2).
Proof.
  assert (forall r, (forall u, r = Ok u -> updateSchoolBankDetails i dto (tables st) = Ok u \/ updateSchool i dto (tables st) = Ok u) ->
    still (tables st) (tables (settle up r st).2)) as Hs.
  { intros [u|e] Hu; [|done]. destruct (up_other_code _ _ _ _ (Hu u eq_refl)) as [_ Ho]. unfold settle, applySettlementUpdate.
    pose proof (steps_rel still 5 u (up_settlement up) Started (st_state st) (fun f w _ => still_updateSchoolRow _ f w) Ho) as Hr.
    by destruct (steps _ _ _ _ _) as [p s]. }
  split; apply Hs; auto.
Qed.

Lemma still_provision fails msg dto now w :
  stays still (provisionSchoolAndOwner fails (pf_signUpEmail pf) msg dto now) w.
Proof.
  unfold provisionSchoolAndOwner, createOwner, call, updateUserRow, createSchoolRow, deleteUser, fresh_id. still_steps.
  all: apply signup_still.
Qed.
Lemma still_createSchool fails msg dto now w : stays still (createSchool fails (pf_signUpEmail pf) msg dto now) w.
Proof. unfold createSchool. apply stays_bind; [exact _|apply still_provision|]. still_steps. Qed.
Lemma still_subaccount i school c st : still (db (local st)) (db (local (provisionSubaccount i school c st).2)).
Proof.
  unfold provisionSubaccount. destruct (truthy _); [|done]. destruct c as [code|[code|] e]; [|done..].
  match goal with |- context [updateSchoolRow i ?f ?w] => pose proof (still_updateSchoolRow i f w) as Hm; destruct (updateSchoolRow i f w) as [r w'] eqn:E end.
  destruct r; by eapply Hm.
Qed.
Lemma still_onboard fails msg dto now c st :
  still (db (local st)) (db (local (onboardSchool fails (pf_signUpEmail pf) msg dto now c st).2)).
Proof.
  unfold onboardSchool. pose proof (still_provision fails msg dto now (local st)) as Hp.
  destruct (provisionSchoolAndOwner _ _ _ _ _ _) as [[[[sid school] user]|e] w] eqn:E; [|by eapply Hp].
  pose proof (still_subaccount sid school c (mkState w (remote st))) as Hs.
  destruct (provisionSubaccount _ _ _ _) as [r st']. cbn [snd] in *. etransitivity; [by eapply Hp|exact Hs].
Qed.
Lemma still_createSubaccount i o c ad :
  still (db (local (ad_state ad))) (db (local (ad_state (createSubaccountForSchool i o c ad).2))).
Proof.
  unfold createSubaccountForSchool. destruct (schools _ !! i) as [school|]; [|done].
  assert (still (db (local (ad_state ad))) (db (local (ad_state (let '(result, st') := provisionSubaccount i school c (ad_state ad) in
    if pv_active result then (Ok (mkSubaccountResult (pv_subaccountCode result) true), mkAdminState st' (invalidatePayoutStatus (ad_payouts ad)))
    else (Err (FBadRequest (default "Subaccount creation failed"%string (pv_warning result))), mkAdminState st' (ad_payouts ad))).2)))) as Hr.
  { pose proof (still_subaccount i school c (ad_state ad)) as Hs. destruct (provisionSubaccount _ _ _ _) as [r st']. by destruct (pv_active r). }
  destruct (truthy _) as [code|]; [|exact Hr]. destruct (getSubaccount _ _ _) as [|[]]; [done| |exact Hr].
  match goal with |- context [updateSchoolRow i ?f ?w] => pose proof (still_updateSchoolRow i f w) as Hm; destruct (updateSchoolRow i f w) as [r w'] eqn:E end.
  destruct r; by eapply Hm.
Qed.

(** ** Every other controller *)

Definition on_tables_of_money (r : SiteRoute) : bool := match r with Books _ | OfPaystack _ => true | _ => false end.

Lemma sits_school r user : sits (school_handler pf up r user).
Proof.
  destruct r; cbn [school_handler]; try apply sits_with_school; intros.
  - apply sits_fees. intros. apply still_createClassFee.
  - apply sits_fees. intros. apply still_setClassFees.
  - destruct (bool_decide _); [|apply sits_refuse]. apply sits_with_school. intros. apply sits_fees. intros fs.
    pose proof (getClassFees_world (id_str (sv_env (up_server up))) (pf_by_class pf) s (now (sv_env (up_server up))) fs) as Hw.
    destruct (getClassFees _ _ _ _ _) as [l fs']. cbn [snd] in *. by rewrite Hw.
  - apply sits_fees. intros fs.
    pose proof (getClassFees_world (id_str (sv_env (up_server up))) (pf_by_class pf) schoolId (now (sv_env (up_server up))) fs) as Hw.
    destruct (getClassFees _ _ _ _ _) as [l fs']. cbn [snd] in *. by rewrite Hw.
  - intros st. apply still_settle.
  - apply sits_answer.
Qed.
Lemma sits_management r : sits (management_handler pf up r).
Proof.
  destruct r; cbn [management_handler]; [apply sits_answer| |].
  - apply sits_world. intros. apply still_createSchool.
  - intros st. apply still_settle.
Qed.
Lemma sits_reports_handler r : sits (reports_handler pf up r).
Proof.
  destruct r; cbn [reports_handler]; try apply sits_answer; try apply sits_reports.
  - intros st. pose proof (still_onboard (up_call_fails up) (pf_errorMessage pf) dto (now (sv_env (up_server up))) (up_creation up) (st_state st)) as Hs.
    by destruct (onboardSchool _ _ _ _ _ _ _) as [o s].
  - intros st. unfold admin_listBanks. destruct (get _ _ _) as [[l|] c]; [done|]. by destruct (listBanks _ _ _ _) as [[e|l] c'].
  - unfold admin_resolveAccount. destruct (_ || _); [apply sits_refuse|apply sits_client].
  - apply sits_payouts. intros ad. unfold getSchoolsPayoutStatus. by destruct (getOrSet _ _ _ _ _).
  - apply sits_payouts. intros ad. apply still_createSubaccount.
Qed.
Lemma still_finish parse_url env session minted now next returnTo w :
  stays still (finish parse_url env session minted now next returnTo) w.
Proof.
  unfold finish, announceFirstGoogleLink, notify. still_steps.
  repeat match goal with |- context [link_of ?p ?k ?d] => destruct (link_of p k d) as [[]|] end; still_steps.
Qed.
Lemma sits_handoff r : sits (handoff_handler pf up r).
Proof. destruct r; cbn [handoff_handler]; [apply sits_answer| |apply sits_answer]. apply sits_world. intros. apply still_finish. Qed.
Lemma sits_ops r : sits (ops_handler pf up r).
Proof. destruct r; [apply sits_answer|]. intros st. cbn [ops_handler]. by destruct (metrics_canActivate _ _ _ _). Qed.
Lemma sits_site_handler r user : on_tables_of_money r = false -> sits (site_handler pf up r user).
Proof.
  destruct r; intros Hr; try discriminate Hr; cbn [site_handler];
    [apply sits_school|apply sits_management|apply sits_reports_handler| | |apply sits_answer| |apply sits_handoff|apply sits_ops].
  - destruct r; cbn [notifications_handler]; try apply sits_inbox; [|by intros st].
    intros st. by destruct (broadcastToParents _ _ _ _ _ _ _ _ _ _).
  - destruct r; apply sits_inbox.
  - destruct r; apply sits_answer.
Qed.

(** ** Paystack's two routes *)

Lemma owned_reference reference user w : (forall x w', assertReferenceOwnedBy reference user w = (x, w') -> w' = w) /\
  (assertReferenceOwnedBy reference user w = (Ok tt, w) ->
   exists pid p, payments (db w) !! pid = Some p /\ by_reference reference p = true /\ owns_payment user (db w) p = true).
Proof.
  unfold assertReferenceOwnedBy, read, ensure, orThrow, throw, mbind, M_bind, mret, M_ret.
  destruct (find_row _ _) as [[pid p]|] eqn:E; [|by split; [intros x w' [= _ <-]|]].
  apply find_row_some in E as [Hp Hr]. cbn [snd].
  destruct (owns_payment user (db w) p) eqn:Ho; (split; [by intros x w' [= _ <-]|]); [|done]. eauto.
Qed.

Lemma verify_moves verification env reference user w x w' :
  verify verification env reference user w = (x, w') -> ~ RouteSpecs.same_books (db w) (db w') ->
  exists ref pid p, reference = Some ref /\ payments (db w) !! pid = Some p /\ by_reference ref p = true /\
    owns_payment user (db w) p = true.
Proof.
  unfold verify. intros E Hb. unfold mbind, M_bind in E. destruct (truthy reference) as [ref|] eqn:Et; cbn [orThrow] in E;
    [|unfold throw in E; injection E as _ <-; by destruct Hb]. unfold mret, M_ret at 1 in E.
  destruct (owned_reference ref user w) as [Hw Ho]. destruct (assertReferenceOwnedBy ref user w) as [[[]|e] w1] eqn:Ea.
  - rewrite (Hw _ _ eq_refl) in *. destruct (Ho eq_refl) as (pid & p & H1 & H2 & H3). exists ref, pid, p.
    split; [|done]. unfold truthy in Et. destruct reference as [[]|]; congruence.
  - injection E as _ <-. rewrite (Hw _ _ eq_refl) in Hb. by destruct Hb.
Qed.

(** ** The gate *)

Definition site_admitted (r : SiteRoute) (s : SessionUser) : bool :=
  match site_roles r with None => true | Some roles => bool_decide (default PARENT (su_role s) ∈ roles) end.

Lemma serve_site_eq r session st : (forall b, r <> Books b) ->
  serve_site pf up r session st =
    if site_public r then site_handler pf up r (mkAuthUser 1%positive PARENT None) st
    else match session with
    | None => (Err (FUnauthorized "Unauthorized"), st)
    | Some s => if site_admitted r s then site_handler pf up r (session_user s) st
        else (Err (FForbidden "You do not have access to this resource"), st)
    end.
Proof.
  intros Hb. unfold serve_site, authorize, canActivate, rolesGuard, site_admitted.
  destruct r as [b|r|[]|r|r|r|q|r|[]|r|r], session as [s|]; try (by destruct (Hb b)); cbn [site_public mbind res_bind au_role]; try done;
    destruct (site_roles _); try done; by destruct (bool_decide _).
Qed.

(** Who moved the books: a session with the role of its route, Paystack itself, or
    the owner of the payment that they ask Paystack about. *)
Definition moved_by (r : SiteRoute) (session : option SessionUser) (d : DB) : Prop :=
  match r with
  | Books r => moves_books r = true /\ exists s, session = Some s /\ mover r (default PARENT (su_role s))
  | OfPaystack (PaystackWebhook req) => exists event, authentic (pf_hmac_hex pf) (pf_parse pf) (pf_webhook pf) req event
  | OfPaystack (VerifyTransaction reference) =>
      exists s ref pid p, session = Some s /\ default PARENT (su_role s) <> SUPER_ADMIN /\ reference = Some ref /\
        payments d !! pid = Some p /\ by_reference ref p = true /\ owns_payment (session_user s) d p = true
  | _ => False
  end.
Context (hmac_ascii : forall secret raw, Forall (fun c => c < 128) (pf_hmac_hex pf secret raw)).

Lemma authentic_or_not cfg req : (exists event, authentic (pf_hmac_hex pf) (pf_parse pf) cfg req event) \/
  forall event, ~ authentic (pf_hmac_hex pf) (pf_parse pf) cfg req event.
Proof.
  destruct (wr_rawBody req) as [raw|] eqn:Er; [|right; intros e [_ (s & r & _ & _ & Hr & _)]; congruence].
  destruct (pf_parse pf raw) as [event|] eqn:Ep; [|right; intros e [_ (s & r & _ & _ & Hr & _ & Hp)]; congruence].
  destruct (wc_PAYSTACK_SECRET_KEY cfg) as [[|c secret]|] eqn:Es;
    [right; intros e [_ (s & r & Hs & Hn & _)]; congruence| |right; intros e [_ (s & r & Hs & _)]; congruence].
  destruct (decide (default [] (wr_signature req) = pf_hmac_hex pf (c :: secret) raw)) as [Hd|Hd];
    [|right; intros e [_ (s & r & Hs & _ & Hr & Hv & _)]; congruence].
  destruct (decide (allowedIps cfg = [] \/ webhook_clientIp (wr_http req) ∈ allowedIps cfg)) as [Ha|Ha];
    [left|right; by intros e [Hb _]].
  exists event. split; [done|]. exists (c :: secret), raw. done.
Qed.
Lemma set_world_id st : set_world (local (st_state st)) st = st.
Proof. by destruct st as [[]]. Qed.

(** C6: Who can change the books at all, over every request to the program's own
    controllers: without a session every route but the public ones (an invite's
    preview, the directory of schools, the webhook, the three redirects of the Google
    hand-off, the health check and the metrics scrape) is refused with 401, and with
    a role the route does not list it is refused with 403, tables, cache,
    subaccounts and inboxes unchanged.  And when a payment or a plan did change, either the request is one of
    those that move money and came from a session with its role; or it is the
    webhook, from an allowed address and under Paystack's signature; or a parent or a
    school's owner asked Paystack about a payment that is theirs.  No report, fee,
    profile, settlement, onboarding, inbox, device, audit, calculator, sign-in,
    health or metrics request writes the books, whatever the network answers (Better
    Auth's sign-up is assumed to leave payments, plans and invites). *)
Theorem site_authority r session st :
  let '(x, st') := serve_site pf up r session st in
  (site_public r = false -> session = None -> x = Err (FUnauthorized "Unauthorized") /\ st' = st) /\
  (forall s, site_public r = false -> session = Some s -> site_admitted r s = false ->
     x = Err (FForbidden "You do not have access to this resource") /\ st' = st) /\
  (~ RouteSpecs.same_books (tables st) (tables st') -> moved_by r session (tables st)).
Proof.
  destruct (serve_site pf up r session st) as [x st'] eqn:E. destruct (on_tables_of_money r) eqn:Hm.
  2: { assert (forall b, r <> Books b) as Hr by (by intros b ->). rewrite serve_site_eq in E by done.
    assert (forall user, (x, st') = site_handler pf up r user st -> RouteSpecs.same_books (tables st) (tables st')) as Hs.
    { intros user Eq. apply still_same_books. pose proof (sits_site_handler r user Hm st) as Hs. by rewrite <- Eq in Hs. }
    destruct (site_public r); [|destruct session as [s|]; [destruct (site_admitted r s) eqn:Ha|]];
      (split; [|split]); try done; intros; try (by injection E as <- <-); try congruence;
      exfalso; match goal with Hn : ~ _ |- _ => apply Hn end; first [by eapply Hs; symmetry | by injection E as _ <-]. }
  destruct r as [b| | | | | | | |[req|reference]| |]; try discriminate Hm.
  - cbn [serve_site] in E. unfold on_world in E. pose proof (books_need_authority (up_server up) b session (local (st_state st))) as Hb.
    destruct (serve_route _ b session _) as [y w] eqn:Er. injection E as <- <-. destruct Hb as (H1 & H2 & H3).
    split; [|split; [|exact H3]].
    + intros Hp Hn. destruct (H1 Hp Hn) as [-> ->]. by rewrite set_world_id.
    + intros s Hp Hn Ha. destruct (H2 s Hp Hn Ha) as [-> ->]. by rewrite set_world_id.
  - split; [done|]. split; [done|]. rewrite serve_site_eq in E by done. cbn [site_public site_handler] in E.
    intros Hb. destruct (authentic_or_not (pf_webhook pf) req) as [He|Hn]; [exact He|]. destruct Hb.
    unfold webhook_handler, on_world in E. destruct (webhook _ _ _ _ _ _) as [y w] eqn:Ew. injection E as _ <-.
    by destruct (webhook_refused _ _ hmac_ascii _ _ _ _ _ _ Ew Hn) as [_ ->].
  - rewrite serve_site_eq in E by done. cbn [site_public] in E. split; [|split].
    + intros _ ->. by injection E as <- <-.
    + intros s _ -> Ha. rewrite Ha in E. by injection E as <- <-.
    + intros Hb. destruct session as [s|]; [|injection E as _ <-; by destruct Hb].
      destruct (site_admitted _ s) eqn:Ha; [|injection E as _ <-; by destruct Hb].
      cbn [site_handler] in E. unfold verify_handler, on_world in E.
      destruct (verify _ _ _ _ _) as [y w] eqn:Ew. injection E as _ <-.
      destruct (verify_moves _ _ _ _ _ _ _ Ew Hb) as (ref & pid & p & -> & H1 & H2 & H3).
      exists s, ref, pid, p. split; [done|]. split; [|done]. unfold site_admitted in Ha. cbn in Ha.
      intros Hr. by rewrite Hr in Ha.
Qed.
End Still.

(** ** One school and another *)

(** The requests on payments, plans and invites leave fees and schools. *)
Record fees_kept (d d' : DB) : Prop := mkFeesKept {
  fk_fees : classFees d' = classFees d;
  fk_schools : schools d' = schools d;
  fk_next : (next_id d <= next_id d')%positive }.
#[export] Instance fees_kept_preorder : PreOrder fees_kept.
Proof. split; [by split; [..|lia]|]. intros a b c [] []. split; try congruence. lia. Qed.
Ltac kept_steps := intros; stays_steps ltac:(try (split; cbn; first [done | lia])).

Lemma kept_createInvite sys i w : stays fees_kept (createInvite sys i) w.
Proof. unfold createInvite, writeInvite, fresh_id. kept_steps. Qed.
Lemma kept_saveInvite sys iid cond data w : stays fees_kept (saveInvite sys iid cond data) w.
Proof. unfold saveInvite, writeInvite. kept_steps. Qed.

Lemma kept_ledger s actor now p reason w :
  stays fees_kept (confirmPayment p s actor now) w /\ stays fees_kept (rejectPayment p s actor) w /\
  stays fees_kept (markEnrollmentAsDefaulted p s actor) w /\ stays fees_kept (reversePayment p s actor reason) w /\
  stays fees_kept (confirmFirstPayment p s actor now) w.
Proof.
  unfold confirmPayment, confirmPayment_pre, confirmPayment_tx, confirmPayment_post, rejectPayment, rejectPayment_pre, rejectPayment_tx,
    markEnrollmentAsDefaulted, markEnrollmentAsDefaulted_tx, reversePayment, reversePayment_pre, reversePayment_tx, confirmFirstPayment,
    confirmFirstPayment_tx, creditFirstPaymentToBalance, emitBoth, updateManyPayment, updateEnrollment, updateManyEnrollment, findEnrollmentOrThrow, findPaymentOrThrow.
  split_and!; kept_steps.
Qed.

Lemma kept_amend rq iid amount reason user reached w : stays fees_kept (amend rq iid amount reason user reached) w.
Proof.
  unfold amend, amendMigratedPayment, amendMigratedPayment_pre, amendMigratedPayment_tx, emitBoth, updateManyPayment, updateEnrollment,
    updateManyInvite, findEnrollmentOrThrow, findPaymentOrThrow.
  kept_steps.
Qed.
Lemma kept_release sys rq iid user reason w : stays fees_kept (release sys rq iid user reason) w.
Proof.
  unfold release, release_tx, releaseMigratedEnrollment, notifyUser. kept_steps; apply kept_saveInvite.
Qed.

Lemma kept_handler sv r user w : school_route r = true -> stays fees_kept (handler sv r user) w.
Proof.
  intros Hr. apply bool_decide_eq_true in Hr.
  destruct r as [[]|[]|[]|[]|[]|[]|q|]; try discriminate Hr;
    cbn [handler schools_handler enrollments_handler invites_handler]; unfold respond, own_school.
  all: unfold getHistory_handler, own_school, respond, list_invites, Invites.create, assertNotAlreadyMigrated, assertNoLiveInvite, revoke, reissue; kept_steps.
  - apply (proj1 (kept_ledger _ _ _ _ None _)).
  - apply (proj1 (proj2 (kept_ledger _ _ 0 _ None _))).
  - apply (proj1 (proj2 (proj2 (kept_ledger _ _ 0 _ None _)))).
  - apply (proj1 (proj2 (proj2 (proj2 (kept_ledger _ _ 0 _ _ _))))).
  - apply (proj2 (proj2 (proj2 (proj2 (kept_ledger _ _ _ _ None _))))).
  - apply kept_createInvite.
  - apply kept_saveInvite.
  - apply kept_saveInvite.
  - apply kept_amend.
  - apply kept_release.
Qed.

(** ** What an owner's requests stay within *)

Record site_tenancy (d : DB) : Prop := mkSiteTenancy {
  nt_tenancy : tenancy d;
  nt_fees : forall i f, classFees d !! i = Some f -> (i < next_id d)%positive }.
(** Nothing of another school changed, and the school kept its subaccount. *)
Record school_apart (s : id) (d d' : DB) : Prop := mkSchoolApart {
  sp_others : others s d d';
  sp_fees : apart cf_schoolId s (classFees d) (classFees d');
  sp_schools : forall k, k <> s -> schools d' !! k = schools d !! k;
  sp_code : s_paystackSubaccountCode <$> schools d' !! s = s_paystackSubaccountCode <$> schools d !! s }.
Definition school_frame (s : id) (d d' : DB) : Prop := site_tenancy d -> site_tenancy d' /\ school_apart s d d'.
#[export] Instance school_frame_preorder s : PreOrder (school_frame s).
Proof.
  split; [intros d T; split; [done|]; by split|]. intros a b c H1 H2 Ta.
  destruct (H1 Ta) as [Tb [(P1 & E1 & I1) F1 S1 C1]], (H2 Tb) as [Tc [(P2 & E2 & I2) F2 S2 C2]]. split; [done|]. split.
  - split; [|split]; by eapply apart_trans.
  - by eapply apart_trans.
  - intros k Hk. by rewrite (S2 k Hk), (S1 k Hk).
  - by rewrite C2.
Qed.

Section Frame.
Context (s : id) (d : DB).
Lemma frame_tenant d' : tenant s d d' -> fees_kept d d' -> school_frame s d d'.
Proof.
  intros Ht [K1 K2 K3] [T F]. destruct (Ht T) as [T' O]. split; [split; [done|]|split; [done| | |]]; rewrite ?K1, ?K2; try done.
  intros i f Hi. specialize (F i f Hi). lia.
Qed.
Lemma frame_still d' : still d d' -> classFees d' = classFees d -> schools d' = schools d -> school_frame s d d'.
Proof. intros [P E I N] F S. apply frame_tenant; [by apply tenant_same|by split]. Qed.
Lemma frame_fees fees : (forall i f, fees !! i = Some f -> (i < next_id d)%positive) -> apart cf_schoolId s (classFees d) fees ->
  school_frame s d (set_classFees fees d).
Proof.
  intros Hf Ha [T F]. destruct (tenant_same s d (set_classFees fees d) eq_refl eq_refl eq_refl ltac:(cbn; lia) T) as [T' O].
  split; [by split|]. by split.
Qed.
Lemma frame_school f : (forall x, s_paystackSubaccountCode (f x) = s_paystackSubaccountCode x) -> forall x, schools d !! s = Some x ->
  school_frame s d (set_schools (<[s := f x]> (schools d)) d).
Proof.
  intros Hf x Hx [T F]. destruct (tenant_same s d (set_schools (<[s := f x]> (schools d)) d) eq_refl eq_refl eq_refl ltac:(cbn; lia) T) as [T' O].
  split; [by split|]. split; [done|done| |]; cbn -[insert lookup].
  - intros k Hk. by rewrite lookup_insert_ne.
  - rewrite lookup_insert_eq, Hx. cbn. by rewrite Hf.
Qed.
End Frame.

Lemma frame_knowing {A} s (m : M A) w : (site_tenancy (db w) -> stays (school_frame s) m w) -> stays (school_frame s) m w.
Proof. intros H r w' E T. exact (H T r w' E T). Qed.

Section OwnFees.
Context (s : id).

Lemma frame_updateFee i f w : (forall x, classFees (db w) !! i = Some x -> cf_schoolId x = s) -> (forall x, cf_schoolId (f x) = cf_schoolId x) ->
  stays (school_frame s) (updateClassFeeRow i f) w.
Proof.
  intros Hi Hf. apply frame_knowing. intros [T F]. unfold updateClassFeeRow. apply stays_read_bind. apply stays_orThrow_bind; [exact _|].
  intros x Hx. apply stays_ensure_bind; [exact _|]. intros _. apply stays_bind; [exact _| |intros; apply stays_ret; exact _]. apply stays_write, frame_fees.
  - intros j y [[<- _]|[_ Hy]]%lookup_insert_Some; eauto.
  - apply apart_insert; [exact Hi|]. rewrite Hf. by apply Hi.
Qed.
Lemma frame_createFee f w : cf_schoolId f = s -> stays (school_frame s) (createClassFeeRow f) w.
Proof.
  intros Hs. apply frame_knowing. intros [T F]. unfold createClassFeeRow. apply stays_ensure_bind; [exact _|]. intros _. apply stays_read_bind.
  destruct (classFee_of _ _ _) as [kv|]; [apply stays_throw; exact _|]. intros r w' E.
  unfold fresh_id, read, write, mbind, M_bind, mret, M_ret in E. cbn -[insert] in E. injection E as _ <-.
  set (d1 := set_next_id (Pos.succ (next_id (db w))) (db w)). transitivity d1; [by apply frame_still; [split; cbn; [..|lia]| |]|].
  apply (frame_fees s d1); cbn -[insert].
  - intros j y [[<- _]|[_ Hy]]%lookup_insert_Some; [lia|]. specialize (F j y Hy). lia.
  - apply apart_insert; [|done]. intros y Hy. specialize (F _ _ Hy). lia.
Qed.
Lemma frame_upsert fee w : stays (school_frame s) (upsertClassFee s fee) w.
Proof.
  unfold upsertClassFee. apply stays_read_bind. destruct (classFee_of s fee.1 (db w)) as [[i f]|] eqn:E; [|by apply frame_createFee].
  apply find_row_some in E as [Hi Hk]. unfold fee_key in Hk. to_prop. destruct Hk as [Hk _].
  apply frame_updateFee; [|done]. intros x Hx. congruence.
Qed.
Lemma frame_publish fees w : stays (school_frame s) (publish_tx s fees) w.
Proof.
  unfold publish_tx, retireClassFees. apply stays_bind; [exact _| |].
  - apply frame_knowing. intros [T F]. apply stays_write, frame_fees.
    + intros i f Hi. rewrite lookup_fmap in Hi. destruct (classFees (db w) !! i) as [x|] eqn:Hx; [|done]. by apply (F i x).
    + intros i f Hf. rewrite lookup_fmap. destruct (classFees (db w) !! i) as [x|]; [|done]. cbn.
      unfold retire. destruct (bool_decide (cf_schoolId x = s)) eqn:Hs; cbn [andb]; [|done]. to_prop.
      destruct (cf_isActive x && _); split; intros [= <-]; by destruct Hf.
  - intros _ w1 _. revert w1. induction fees as [|f l IH]; intros w1; [apply stays_ret; exact _|]. cbn [upsert_all foldr].
    apply stays_bind; [exact _|apply frame_upsert|]. intros ? w2 _. apply IH.
Qed.
Lemma frame_updateSchoolRow f w : (forall x, s_paystackSubaccountCode (f x) = s_paystackSubaccountCode x) ->
  stays (school_frame s) (updateSchoolRow s f) w.
Proof.
  intros Hf. unfold updateSchoolRow. apply stays_read_bind. apply stays_orThrow_bind; [exact _|]. intros x Hx.
  apply stays_bind; [exact _| |intros; apply stays_ret; exact _]. by apply stays_write, frame_school.
Qed.
End OwnFees.

(** ** The subaccounts *)

Definition phase_code (u : Settlement.Update) (phase : Phase) : Prop :=
  match phase with Announced _ code _ => up_code u = Some code | _ => True end.
Lemma steps_remote n u a phase st code : phase_code u phase -> up_code u <> Some code ->
  remote (steps n u a phase st).2 !! code = remote st !! code.
Proof.
  intros Hp Hc. revert phase st Hp. induction n as [|n IH]; intros phase st Hp; [done|]. cbn [steps].
  assert (phase_code u (step u a phase st).1 /\ remote (step u a phase st).2 !! code = remote st !! code) as [Hp' Hr].
  { destruct phase; cbn [step]; try done.
    - destruct (settlementChanged u); [|done]. destruct (truthy _); [|done]. by destruct (an_resolve _ _ _).
    - unfold on_local. destruct (updateSchoolRow _ _ _) as [[x|e] w]; [|done]. by destruct (settlementChanged u).
    - unfold on_local. destruct (announceSettlementChange _) as [[x|e] w]; [|done].
      destruct (up_code u) as [c|] eqn:Ec; [|done]. by destruct (truthy _).
    - destruct (an_repoint a) as [|applied e]; cbn -[insert]; [split; [done|]; apply lookup_insert_ne; congruence|].
      unfold on_local. cbn [local remote]. destruct (Settlement.notifyAdmins _ _) as [x w]. split; [done|]. cbn -[insert].
      destruct applied; [apply lookup_insert_ne; congruence|done].
    - unfold on_local. by destruct (updateSchoolRow _ _ _) as [x w]. }
  destruct (step u a phase st) as [p st']. cbn [fst snd] in *. by rewrite IH.
Qed.

(** ** The site *)

Section Isolation.
Context `{CacheBackend} `{CircuitBreaker} (pf : Platforms).

Record isolated (s : id) (st st' : Site) : Prop := mkIsolated {
  is_tables : school_apart s (tables st) (tables st');
  is_remote : forall code, (s_paystackSubaccountCode <$> schools (tables st) !! s) <> Some (Some code) ->
    remote (st_state st') !! code = remote (st_state st) !! code }.
Definition site_frame (s : id) (st st' : Site) : Prop :=
  site_tenancy (tables st) -> site_tenancy (tables st') /\ isolated s st st'.
#[local] Instance site_frame_preorder s : PreOrder (site_frame s).
Proof.
  split; [intros st T; by destruct (school_frame_preorder s) as [R _]; destruct (R (tables st) T); split|].
  intros a b c H1 H2 Ta. destruct (H1 Ta) as [Tb [A1 R1]], (H2 Tb) as [Tc [A2 R2]]. split; [done|]. split.
  - destruct (school_frame_preorder s) as [_ Tr]. by apply (Tr _ (tables b) _ (fun _ => conj Tb A1) (fun _ => conj Tc A2)).
  - intros code Hc. rewrite R2; [by apply R1|]. by rewrite (sp_code _ _ _ A1).
Qed.
Lemma frame_same_remote s st st' : school_frame s (tables st) (tables st') -> remote (st_state st') = remote (st_state st) ->
  site_frame s st st'.
Proof. intros Hf Hr T. destruct (Hf T) as [T' A]. split; [done|]. split; [done|]. intros code _. by rewrite Hr. Qed.
Lemma frame_idle s st st' : st_state st' = st_state st -> site_frame s st st'.
Proof. intros He. apply frame_same_remote; unfold tables; by rewrite He. Qed.

(** The routes of a school's staff, and those of every user that stay off the books. *)
Definition owner_route (r : SiteRoute) : bool :=
  match r with
  | Books r => school_route r
  | OfSchool _ | OfNotifications _ | OfDevices _ | OfCalculator _ => true
  | _ => false
  end.

Lemma frame_with_school s user k st : au_userSchoolId user = Some s -> site_frame s st (k s st).2 ->
  site_frame s st (with_school user k st).2.
Proof. intros Hu Hk. unfold with_school. by rewrite Hu. Qed.
Lemma frame_on_fees {A} s (f : A -> SiteResponse) m st :
  school_frame s (tables st) (db (fs_world (m (mkFeeState (local (st_state st)) (st_fees st))).2)) -> site_frame s st (on_fees f m st).2.
Proof. intros Hm. unfold on_fees. destruct (m _) as [r fs]. by apply frame_same_remote. Qed.

Lemma frame_fee_read {A} s str by_class now (f : A -> SiteResponse) (g : list FeeView -> A) i st :
  site_frame s st (on_fees f (fun fs => let '(l, fs) := getClassFees str by_class i now fs in (Ok (g l), fs)) st).2.
Proof.
  apply frame_on_fees.
  pose proof (getClassFees_world str by_class i now (mkFeeState (local (st_state st)) (st_fees st))) as Hw.
  destruct (getClassFees _ _ _ _ _) as [l fs']. cbn [snd] in *. rewrite Hw. reflexivity.
Qed.

Lemma frame_settle up s dto st : site_frame s st (settle up (updateSchoolBankDetails s dto (tables st)) st).2.
Proof.
  destruct (updateSchoolBankDetails s dto (tables st)) as [u|e] eqn:Hu; [|reflexivity].
  destruct (up_other_code _ _ _ _ (or_introl Hu)) as [Hs Ho]. unfold settle, applySettlementUpdate.
  pose proof (steps_rel (school_frame s) 5 u (up_settlement up) Started (st_state st)) as Hr. rewrite Hs in Hr.
  specialize (Hr (fun f w => frame_updateSchoolRow s f w) Ho).
  pose proof (steps_remote 5 u (up_settlement up) Started (st_state st)) as Hc.
  destruct (steps 5 u _ _ _) as [p s']. cbn [snd] in *. intros T. destruct (Hr T) as [T' A]. split; [done|]. split; [done|].
  intros code Hn. apply Hc; [done|]. intros Hcode. apply Hn. revert Hu. unfold updateSchoolBankDetails.
  destruct (schools (tables st) !! s) as [x|]; [|done]. intros [= <-]. unfold up_code, truthy in Hcode. cbn in *.
  destruct (s_paystackSubaccountCode x) as [[]|]; congruence.
Qed.

Lemma frame_createClassFee s str c q fs :
  school_frame s (db (fs_world fs)) (db (fs_world (createClassFee str s c q fs).2)).
Proof.
  unfold createClassFee, createClassFee_read, createClassFee_write. cbn [fs_world].
  destruct (find_row _ _) as [[i f]|] eqn:E; cbn [fmap option_fmap option_map fst].
  - apply find_row_some in E as [Hi Hk]. unfold tenant_where in Hk. to_prop. destruct Hk as [_ Hk].
    assert (stays (school_frame s) (updateClassFeeRow i (revive (kobo_of q))) (fs_world fs)) as Hm.
    { apply frame_updateFee; [|done]. intros x Hx. congruence. }
    destruct (updateClassFeeRow _ _ _) as [r w] eqn:Er. by apply (Hm r w).
  - pose proof (frame_createFee s (mkClassFee s c (kobo_of q) true) (fs_world fs) eq_refl) as Hm.
    destruct (createClassFeeRow _ _) as [r w] eqn:Er. by apply (Hm r w).
Qed.
Lemma frame_setClassFees s str by_class lower fees now fs :
  school_frame s (db (fs_world fs)) (db (fs_world (setClassFees str by_class lower s fees now fs).2)).
Proof.
  unfold setClassFees. destruct (duplicate_class _ _ _); [reflexivity|].
  pose proof (stays_transaction (school_frame s) _ (fs_world fs) (frame_publish s (normalize_fee <$> fees) (fs_world fs))) as Ht.
  destruct (transaction _ (fs_world fs)) as [[x|e] w] eqn:E; [|by eapply Ht].
  pose proof (getClassFees_world str by_class s now (mkFeeState w (del (key_classFees (str s)) (fs_cache fs)))) as Hw.
  destruct (getClassFees _ _ _ _ _) as [l fs']. cbn [snd] in *. rewrite Hw. by eapply Ht.
Qed.

Lemma frame_owner up s r user st : owner_route r = true -> au_userSchoolId user = Some s ->
  site_frame s st (site_handler pf up r user st).2.
Proof.
  intros Hr Hs. destruct r as [b|r| | |r|r| |r| | |]; try discriminate Hr; cbn [site_handler].
  - unfold on_world. destruct (handler _ b user _) as [x w] eqn:E. apply frame_same_remote; [|done].
    apply frame_tenant; [by eapply tenant_handler|by eapply kept_handler].
  - destruct r; cbn [school_handler].
    + apply frame_with_school; [done|]. apply frame_on_fees. exact (frame_createClassFee s _ _ _ (mkFeeState (local (st_state st)) (st_fees st))).
    + apply frame_with_school; [done|]. apply frame_on_fees. exact (frame_setClassFees s _ _ _ _ _ (mkFeeState (local (st_state st)) (st_fees st))).
    + destruct (bool_decide _); [|reflexivity]. apply frame_with_school; [done|]. apply frame_fee_read.
    + apply frame_fee_read.
    + apply frame_with_school; [done|]. apply frame_settle.
    + apply frame_with_school; [done|]. reflexivity.
  - apply frame_idle. destruct r; cbn [notifications_handler]; unfold on_inbox; [|done| |].
    + by destruct (broadcastToParents _ _ _ _ _ _ _ _ _ _).
    + by destruct (markAllAsRead _ _).
    + by destruct (markAsRead _ _ _).
  - apply frame_idle. by destruct r.
  - apply frame_idle. by destruct r.
Qed.

Lemma frame_request up s session r st : owner_route r = true -> su_schoolId session = Some s ->
  site_frame s st (serve_site pf up r (Some session) st).2.
Proof.
  intros Hr Hs. destruct r as [b|r| | |r|r| |r| | |]; try discriminate Hr.
  1: { cbn [serve_site]. unfold on_world. rewrite serve_private by (by destruct b as [| |[]| | | | |]).
       destruct (admitted b session); [|cbn; rewrite set_world_id; reflexivity].
       pose proof (frame_owner up s (Books b) (session_user session) st Hr Hs) as Hf. exact Hf. }
  all: rewrite serve_site_eq by done; cbn [site_public]; destruct (site_admitted _ session); [by apply frame_owner|reflexivity].
Qed.

(** Requests of one session, one after another, each with its own answers from
    the network. *)
Definition serve_requests (session : option SessionUser) (requests : list (Upstream * SiteRoute)) (st : Site) : Site :=
  foldl (fun st q => (serve_site pf q.1 q.2 session st).2) st requests.

(** C5: One school cannot touch another: start from tables where a payment has
    its plan's school, a plan its invite's, and ids are handed out once; take a
    session of school [s] and any sequence of requests on the routes of a school's
    owner — reviews, reversals, defaults, invites issued, revoked, reissued, amended
    and released, fee schedules published, the settlement account changed — and on
    the inbox, devices and calculator, accepted or refused, whatever Paystack
    answers.  Afterwards every payment, plan, invite and class fee of every other
    school is there exactly as it was and none was added, every other school's row
    is as it was, so is every Paystack subaccount but the school's own, and the
    tables still agree. *)
Theorem school_isolation s session requests st :
  site_tenancy (tables st) -> su_schoolId session = Some s ->
  Forall (fun q : Upstream * SiteRoute => owner_route q.2 = true) requests ->
  let st' := serve_requests (Some session) requests st in site_tenancy (tables st') /\ isolated s st st'.
Proof.
  intros T Hs Hr st'. enough (site_frame s st st') as R by exact (R T). subst st'. clear T. revert st.
  induction Hr as [|[up r] l Ho _ IH]; intros st; [reflexivity|]. cbn [serve_requests foldl fst snd].
  etransitivity; [by apply (frame_request up)|]. apply IH.
Qed.
End Isolation.

(** ** Samples *)

#[local] Instance sample_backend : CacheBackend := {| redis := false; fails _ := false |}.

Definition sample_platforms : Platforms := {|
  pf_by_class l := l; pf_by_name l := l; pf_by_deadline l := l; pf_newest_enrollments l := l;
  pf_oldest_payments l := l; pf_newest_notifications l := l;
  pf_contains := String.prefix; pf_toLowerCase s := s; pf_localeCompare _ _ := 0; pf_month_name _ := "May"%string;
  pf_type_str _ := "INFO"%string; pf_webAppUrl := None; pf_max_int := 2147483647;
  pf_String_of := PaystackSpecs.no_string; pf_hmac_hex := Webhook.sample_hmac; pf_parse := sample_parse; pf_webhook := sample_config;
  pf_errorMessage _ := "error"%string; pf_signUpEmail := sample_signUp;
  pf_parse_url := sample_url; pf_handoff := sample_handoff; pf_METRICS_TOKEN := None; pf_API_DOCS_ENABLED := None;
  pf_CLIENT_IP_HEADER := None; pf_sha256 t := t |}.
Definition sample_upstream : Upstream := {|
  up_server := RouteSpecs.sample_server;
  up_settlement := mkAnswers (fun _ _ => inr (Some "HILLSIDE LTD"%string)) Confirmed;
  up_creation := Created "ACCT_NEW"%string;
  up_outage _ := None; up_call_fails _ := false;
  up_net := PaystackSpecs.sample_net; up_verification _ := inl ProviderUnavailable;
  up_fcm := sample_fcm;
  up_signInSocial _ _ := None; up_session := None; up_minted := None; up_verifyOneTimeToken _ := None;
  up_linkSocialAccount _ _ := None; up_database := inl tt; up_supabase := None |}.
(** The small database and a second school, whose owner is user 13. *)
Definition second_school : School := mkSchool "Hillside" 13%positive "08030000001" (Some "ACCT_2"%string) true None 0
  "office@hillside.ng" "2 Marina" "GTBank" (Some "058"%string) "HILLSIDE" "0123456780".
Definition two_schools : DB := set_schools (<[2%positive := second_school]> (schools sample_db)) sample_db.
Definition sample_site : Site :=
  mkSite (mkState (mkWorld two_schools []) {["ACCT_1"%string := ("058", "0123456789")%string; "ACCT_2"%string := ("058", "0123456780")%string]})
    (mkCache ∅ 0) (mkCache ∅ 0) (mkReports (mkCache ∅ 0) (mkCache ∅ 0) (mkCache ∅ 0) (mkCache ∅ 0))
    (mkCache ∅ 0) PaystackSpecs.sample_client sample_inbox.
Definition second_owner : SessionUser := mkSessionUser 13%positive (Some SCHOOL_OWNER) (Some 2%positive).
Definition first_owner : SessionUser := mkSessionUser 10%positive (Some SCHOOL_OWNER) (Some 1%positive).

Lemma sample_signup_still email name w : stays still (pf_signUpEmail sample_platforms email name) w.
Proof. cbn [pf_signUpEmail sample_platforms]. unfold sample_signUp, fresh_id. still_steps. Qed.
Lemma sample_site_tenancy : site_tenancy (tables sample_site).
Proof.
  split; [destruct sample_tenancy; by split|]. intros i f Hf.
  change (classFees (tables sample_site)) with (singletonM (M := gmap id ClassFee) 7%positive (mkClassFee 1%positive "JSS1" 10000000 true)) in Hf.
  by apply lookup_singleton_Some in Hf as [<- _].
Qed.

(** A review without a session, and the same review with one. *)
Lemma site_authority_witness :
  serve_site sample_platforms sample_upstream (Books (OfSchools (ConfirmPayment 5%positive))) None sample_site =
    (Err (FUnauthorized "Unauthorized"), sample_site) /\
  moved_by sample_platforms (Books (OfSchools (ConfirmPayment 5%positive))) (Some first_owner) (tables sample_site).
Proof.
  split.
  - pose proof (site_authority sample_platforms sample_upstream sample_signup_still sample_hmac_ascii
      (Books (OfSchools (ConfirmPayment 5%positive))) None sample_site) as H.
    destruct (serve_site _ _ _ _ _) as [x st']. destruct H as (H & _). destruct (H eq_refl eq_refl) as [-> ->]. done.
  - pose proof (site_authority sample_platforms sample_upstream sample_signup_still sample_hmac_ascii
      (Books (OfSchools (ConfirmPayment 5%positive))) (Some first_owner) sample_site) as H.
    destruct (serve_site _ _ _ _ _) as [x st'] eqn:E. destruct H as (_ & _ & H). apply H.
    intros [Hp _]. apply (f_equal (fun r => payments (tables r.2) !! 5%positive)) in E. cbn [snd] in E. rewrite Hp in E.
    vm_compute in E. discriminate E.
Defined.

(** The owner of school 2 publishes fees and moves the settlement account, then
    tries the payment, the plan and the history of school 1. *)
Definition sample_visits : list (Upstream * SiteRoute) :=
  (fun r => (sample_upstream, r)) <$>
  [OfSchool (SetClassFees [mkFeeDto "JSS1" 900000]);
   OfSchool (UpdateBankDetails (mkUpdateSchoolDto None None None (Some "UBA"%string) (Some "033"%string) None (Some "9876543210"%string)));
   Books (OfSchools (ConfirmPayment 5%positive)); Books (OfSchools (ReversePayment 5%positive None));
   Books (OfSchools (MarkDefaulted 4%positive)); Books (OfEnrollments (ConfirmFirstPayment 9%positive));
   OfSchool (CreateClassFee "JSS1" 1000)].
Lemma school_isolation_witness :
  let st' := serve_requests sample_platforms (Some second_owner) sample_visits sample_site in
  payments (tables st') !! 5%positive = Some sample_installment /\
  classFees (tables st') !! 7%positive = Some (mkClassFee 1%positive "JSS1" 10000000 true) /\
  schools (tables st') !! 1%positive = Some sample_school /\
  remote (st_state st') !! "ACCT_1"%string = Some ("058", "0123456789")%string.
Proof.
  destruct (school_isolation sample_platforms 2%positive second_owner sample_visits sample_site sample_site_tenancy eq_refl)
    as [_ [[(P & _) F S _] R]].
  - repeat constructor.
  - split; [|split; [|split]].
    + apply P; [discriminate|reflexivity].
    + apply F; [discriminate|reflexivity].
    + rewrite (S 1%positive); [reflexivity|discriminate].
    + rewrite (R "ACCT_1"%string); [reflexivity|discriminate].
Defined.

(** They are served: the school's own account and schedule did change. *)
Example own_account_moved :
  let st' := serve_requests sample_platforms (Some second_owner) sample_visits sample_site in
  remote (st_state st') !! "ACCT_2"%string = Some ("033", "9876543210")%string /\
  (s_accountNumber <$> schools (tables st') !! 2%positive) = Some "9876543210"%string /\
  length (filter (fun kv : id * ClassFee => cf_schoolId kv.2 = 2%positive) (map_to_list (classFees (tables st')))) = 1%nat.
Proof. vm_compute. auto. Qed.
