(* ===== verification/Startup.v ===== *)
(** * Configuration at startup

    What a process is configured to do before it serves a request, as a function of
    its environment: the schema the environment must satisfy and the sign-in flood
    guard ([src/app.module.ts]), the headers, cross-origin answers and documentation
    of [src/main.ts], Better Auth's settings ([src/auth/auth.config.ts]), the pool,
    TLS, tenant filter and encrypting proxy of [src/prisma/prisma.service.ts], and
    which optional services are on ([src/redis/redis.module.ts],
    [src/supabase/supabase.module.ts], [src/firebase/firebase.module.ts],
    [src/common/observability/sentry.ts]).  Joi's checks are a class with the laws of
    its documentation. *)

From Stdlib Require Import QArith.
From S2P Require Import Prelude JsText Pagination Schema ClientIp Pii Links LinkSpecs.

Local Open Scope Z_scope.

Abbreviation Environment := (string -> option text).

(** ** app.module.ts: the schema of the environment *)

Inductive JoiCheck :=
| JValid (l : list string) | JUri | JEmail | JNumber | JInteger
| JMin (n : Z) | JMax (n : Z) | JMinLength (n : Z) | JLength (n : Z) | JHex
| JInvalid (s : string) | JWithout (fragment : string) | JStartsWith (l : list string).
Record Setting := mkSetting {
  se_name : string; se_required : bool; se_allowEmpty : bool; se_checks : list JoiCheck }.
Definition required_setting (name : string) (checks : list JoiCheck) : Setting := mkSetting name true false checks.
Definition optional_setting (name : string) (checks : list JoiCheck) : Setting := mkSetting name false false checks.

(** [NODE_ENV] with its default, and the [Joi.when] it decides. *)
Definition node_env (env : Environment) : text := default (text_of "development") (env "NODE_ENV"%string).
Definition in_production (env : Environment) : bool := bool_decide (node_env env = text_of "production").

Definition schema (production : bool) : list Setting :=
  [optional_setting "NODE_ENV" [JValid ["development"; "production"; "test"]];
   optional_setting "PORT" [JNumber];
   required_setting "DATABASE_URL" [JUri];
   optional_setting "DATABASE_POOL_MAX" [JNumber; JInteger; JMin 1; JMax 100];
   optional_setting "DATABASE_SSL" [JValid ["disable"; "false"; "off"; "require"; "true"; "on"]];
   required_setting "BETTER_AUTH_SECRET"
     [JMinLength 32; JInvalid "dev-better-auth-secret-please-change-min-32-chars"; JWithout "replace_me"];
   required_setting "BETTER_AUTH_URL" [JUri];
   optional_setting "GOOGLE_WEB_CLIENT_ID" [];
   optional_setting "GOOGLE_WEB_CLIENT_SECRET" [];
   optional_setting "GOOGLE_ANDROID_CLIENT_ID" [];
   required_setting "FIREBASE_PROJECT_ID" [];
   required_setting "FIREBASE_CLIENT_EMAIL" [JEmail];
   required_setting "FIREBASE_PRIVATE_KEY" [];
   optional_setting "SUPABASE_URL" [JUri];
   optional_setting "SUPABASE_SERVICE_ROLE_KEY" [];
   optional_setting "SUPABASE_STORAGE_BUCKET" [];
   optional_setting "SUPABASE_SIGNED_URL_TTL_SECONDS" [JNumber; JInteger; JMin 60; JMax 86400];
   optional_setting "SUPABASE_MAX_UPLOAD_BYTES" [JNumber; JInteger; JMin 1024];
   optional_setting "ADMIN_EMAIL" [JEmail];
   optional_setting "ADMIN_PASSWORD" [JMinLength 8];
   optional_setting "WEB_APP_URL" [JUri];
   mkSetting "CORS_ORIGINS" production (negb production) [];
   required_setting "PAYSTACK_SECRET_KEY" [JStartsWith (if production then ["sk_live_"] else ["sk_test_"; "sk_live_"])];
   mkSetting "PAYSTACK_WEBHOOK_ALLOWED_IPS" false true [];
   optional_setting "PAYSTACK_CALLBACK_URL" [JUri];
   optional_setting "SENTRY_DSN" [JUri];
   optional_setting "SENTRY_TRACES_SAMPLE_RATE" [JNumber; JMin 0; JMax 1];
   optional_setting "REDIS_URL" [];
   optional_setting "TRUST_PROXY" [];
   optional_setting "API_DOCS_ENABLED" [];
   optional_setting "CLIENT_IP_HEADER" [];
   mkSetting "ENCRYPTION_KEY" production false [JLength 64; JHex]]%string.

Class Joi := { joi_holds : JoiCheck -> text -> bool }.
Class JoiLaws `{Joi} : Prop := {
  joi_valid l t : joi_holds (JValid l) t = true <-> t ∈ text_of <$> l;
  joi_length n t : joi_holds (JLength n) t = true <-> js_length t = n;
  joi_min_length n t : joi_holds (JMinLength n) t = true <-> n <= js_length t;
  joi_starts l t : joi_holds (JStartsWith l) t = true <-> Exists (fun p => startsWith (text_of p) t = true) l }.

(** A missing value is judged by its presence alone; an empty one is refused
    unless allowed. *)
Definition setting_ok `{Joi} (env : Environment) (s : Setting) : bool :=
  match env (se_name s) with
  | None => negb (se_required s)
  | Some [] => se_allowEmpty s
  | Some t => forallb (fun c => joi_holds c t) (se_checks s)
  end.
(** The process starts: [ConfigModule.forRoot] throws otherwise. *)
Definition starts `{Joi} (env : Environment) : bool := forallb (setting_ok env) (schema (in_production env)).

(** ** main.ts *)

(** [app.set('trust proxy', ...)]: a hop count, or a text for Express to read. *)
Definition trust_proxy (env : Environment) : option (text + number) :=
  t ← env "TRUST_PROXY"%string;
  if bool_decide (trim t = []) then None
  else Some (match Number t with NaN => inl t | hops => inr hops end).

Definition security_headers (posture : SecurityPosture) : list (string * string) :=
  [("X-Content-Type-Options", "nosniff"); ("X-Frame-Options", "DENY");
   ("Referrer-Policy", "strict-origin-when-cross-origin");
   ("Permissions-Policy", "geolocation=(), microphone=(), camera=()")]%string
  ++ (if hsts posture then [("Strict-Transport-Security", "max-age=31536000; includeSubDomains")]%string else [])
  ++ match contentSecurityPolicy posture with Some policy => [("Content-Security-Policy"%string, policy)] | None => [] end.

Section Urls.
(** [new URL(s)] *)
Context (parse_url : text -> option (text * text)).

Definition posture_of (env : Environment) : SecurityPosture :=
  resolveSecurityPosture parse_url (env "BETTER_AUTH_URL"%string) (env "API_DOCS_ENABLED"%string) (env "CLIENT_IP_HEADER"%string).

Record Bootstrap := mkBootstrap {
  bs_trustProxy : option (text + number);
  bs_headers : list (string * string);
  bs_cors : CorsAllowlist;
  bs_docs : bool;
  bs_port : text }.
Definition bootstrap (env : Environment) : Bootstrap :=
  let posture := posture_of env in
  mkBootstrap (trust_proxy env) (security_headers posture)
    (resolveCorsAllowlist (env "CORS_ORIGINS"%string) (string_of <$> env "NODE_ENV"%string))
    (apiDocsEnabled posture) (default (text_of "3001") (env "PORT"%string)).

(** ** auth.config.ts *)

Record CookieAttributes := mkCookieAttributes { ck_sameSite : string; ck_secure : bool; ck_httpOnly : bool }.
Record AdditionalField := mkField {
  af_name : string; af_required : bool; af_input : bool; af_returned : bool; af_default : option string }.
Record AccountLinking := mkAccountLinking {
  al_enabled : bool; al_trustedProviders : list string; al_requireLocalEmailVerified : bool }.
Record AuthSettings := mkAuthSettings {
  as_basePath : string;
  as_baseURL : option text;
  as_secret : option text;
  as_trustedOrigins : list text;
  as_minPasswordLength : Z;
  as_rateLimit : AuthRateLimitOptions;
  as_cookies : option CookieAttributes;
  as_ipAddressHeaders : list string;
  as_encryptOAuthTokens : bool;
  as_accountLinking : AccountLinking;
  as_googleClientIds : list text;
  as_googleClientSecret : text;
  as_additionalFields : list AdditionalField;
  as_oneTimeTokenMinutes : Z;
  as_oneTimeTokenStorage : string }.

(** [.filter(Boolean)] *)
Definition present (l : list (option text)) : list text :=
  omap (fun t => match t with Some (_ :: _) => t | _ => None end) l.

Definition createAuth (env : Environment) : AuthSettings :=
  let posture := posture_of env in
  {| as_basePath := "/api/auth";
     as_baseURL := env "BETTER_AUTH_URL"%string;
     as_secret := env "BETTER_AUTH_SECRET"%string;
     as_trustedOrigins :=
       buildTrustedOrigins (env "CORS_ORIGINS"%string) (env "BETTER_AUTH_URL"%string) (httpsDeployment posture);
     as_minPasswordLength := 8;
     as_rateLimit := buildAuthRateLimit (trustedPerClientIp posture);
     as_cookies := if crossSiteCookies posture then Some (mkCookieAttributes "none" true true) else None;
     as_ipAddressHeaders := [RESOLVED_CLIENT_IP_HEADER];
     as_encryptOAuthTokens := true;
     as_accountLinking := mkAccountLinking true ["google"%string] false;
     as_googleClientIds := present [env "GOOGLE_WEB_CLIENT_ID"%string; env "GOOGLE_ANDROID_CLIENT_ID"%string];
     as_googleClientSecret := default [] (env "GOOGLE_WEB_CLIENT_SECRET"%string);
     as_additionalFields :=
       [mkField "role" false false true (Some "PARENT"%string); mkField "phoneNumber" false true true None;
        mkField "fullName" false false true None; mkField "phoneHash" false false false None];
     as_oneTimeTokenMinutes := 3;
     as_oneTimeTokenStorage := "hashed" |}.

(** ** app.module.ts: the flood guard in front of Better Auth *)

(** The middleware: the stamp, then the limiter, which counts under
    [clientIpKey]. *)
Definition auth_middleware (env : Environment) (req : ClientIpRequest) : text * ClientIpRequest :=
  let header := string_of <$> clientIpHeader (posture_of env) in
  let stamped := (stampClientIp req header).2 in
  (clientIpKey stamped header, stamped).
Definition posture_warning (env : Environment) : bool := negb (trustedPerClientIp (posture_of env)).
End Urls.

(** ** prisma.service.ts: the connection *)

Definition is_positive_integer (n : number) : option Z :=
  match n with
  | Finite q => let z := Z.quot (Qnum q) (QDen q) in if Qeq_bool (inject_Z z) q && (0 <? z) then Some z else None
  | _ => None
  end.
Definition buildPoolSizing (env : Environment) : Z :=
  default 10 (raw ← env "DATABASE_POOL_MAX"%string; is_positive_integer (Number raw)).

Record SslConfig := mkSsl { ssl_ca : option text; ssl_rejectUnauthorized : bool }.
Definition buildSslConfig (nodeEnv : text) (env : Environment) : option SslConfig :=
  let sslMode := ascii_lower (default [] (env "DATABASE_SSL"%string)) in
  if bool_decide (sslMode ∈ text_of <$> ["disable"; "false"; "off"]%string) then None
  else
    let sslOn := bool_decide (nodeEnv = text_of "production") ||
                 bool_decide (sslMode ∈ text_of <$> ["require"; "true"; "on"]%string) in
    if negb sslOn then None
    else match env "DATABASE_CA_CERT"%string with
         | Some ca => if bool_decide (trim ca = []) then Some (mkSsl None false) else Some (mkSsl (Some ca) true)
         | None => Some (mkSsl None false)
         end.

(** ** prisma.service.ts: the tenant filter *)

(** [{ ...a, ...b }]: [b]'s values win, [a]'s keys keep their place. *)
Definition spread (a b : list (string * js)) : list (string * js) :=
  ((fun kv : string * js => (kv.1, default kv.2 (snd <$> find (fun kw => String.eqb kw.1 kv.1) b))) <$> a)
  ++ filter (fun kw : string * js => kw.1 ∉ a.*1) b.
Definition member (key : string) (fs : list (string * js)) : option js := snd <$> find (fun kv => String.eqb kv.1 key) fs.
Definition fields_of (v : option js) : list (string * js) := match v with Some (Obj fs) => fs | _ => [] end.

Definition READS_AND_WRITES : list string := ["findMany"; "findFirst"; "count"; "updateMany"; "deleteMany"]%string.
Definition READS : list string := ["findMany"; "findFirst"; "count"]%string.
Definition tenant_scoped (model operation : string) : bool :=
  (bool_decide (model ∈ ["payment"; "childEnrollment"]%string) && bool_decide (operation ∈ READS_AND_WRITES))
  || (bool_decide (model = "classFee"%string) && bool_decide (operation ∈ READS)).
Definition withTenant {A} (schoolId : js) (query : string -> string -> list (string * js) -> A)
    (model operation : string) (args : list (string * js)) : A :=
  if tenant_scoped model operation then
    query model operation
      (spread args [("where"%string, Obj (spread (fields_of (member "where" args)) [("schoolId"%string, schoolId)]))])
  else query model operation args.

(** ** prisma.service.ts: the proxy around the client that encrypts *)

Definition ownMembers : list string := ["withTenant"; "withLeaderLock"; "onModuleInit"; "onModuleDestroy"; "pool"]%string.
(** Whose member a name resolves to, and what [this] is in it. *)
Inductive Receiver := Base | Extended | Proxied.
Definition proxy_get (extended_has : string -> bool) (prop : string) : Receiver * Receiver :=
  if bool_decide (prop ∈ ownMembers) then (Base, Proxied)
  else if extended_has prop then (Extended, Extended) else (Base, Base).

(** ** Optional services *)

Definition nonempty_setting (t : option text) : option text := match t with Some (_ :: _) => t | _ => None end.
Definition redis_client (env : Environment) : option text := nonempty_setting (env "REDIS_URL"%string).
Definition connectToRedis (env : Environment) : bool := bool_decide (is_Some (redis_client env)).
Definition supabase_client (env : Environment) : option (text * text) :=
  url ← nonempty_setting (env "SUPABASE_URL"%string); key ← nonempty_setting (env "SUPABASE_SERVICE_ROLE_KEY"%string);
  Some (url, key).
(** [replace(/\\n/g, '\n')] *)
Fixpoint real_newlines (t : text) : text :=
  match t with
  | 92 :: 110 :: t' => 10 :: real_newlines t'
  | c :: t' => c :: real_newlines t'
  | [] => []
  end.
Record FirebaseCredential := mkFirebase { fb_projectId : option text; fb_clientEmail : option text; fb_privateKey : option text }.
Definition createFirebaseApp (env : Environment) : FirebaseCredential :=
  mkFirebase (env "FIREBASE_PROJECT_ID"%string) (env "FIREBASE_CLIENT_EMAIL"%string)
    (real_newlines <$> env "FIREBASE_PRIVATE_KEY"%string).
Record Sentry := mkSentry { sn_dsn : text; sn_environment : text; sn_tracesSampleRate : number }.
Definition initSentry (env : Environment) : option Sentry :=
  dsn ← nonempty_setting (env "SENTRY_DSN"%string);
  Some (mkSentry dsn (node_env env) (match env "SENTRY_TRACES_SAMPLE_RATE"%string with Some t => Number t | None => Finite 0 end)).

(** ** What a started process is configured to do *)

Lemma starts_setting `{Joi} env s : starts env = true -> s ∈ schema (in_production env) -> setting_ok env s = true.
Proof. unfold starts. rewrite forallb_forall. intros Hs Hi. by apply Hs, list_elem_of_In. Qed.

Section Started.
Context `{JoiLaws} (env : Environment).
Context (started : starts env = true).

Lemma started_required name checks :
  mkSetting name true false checks ∈ schema (in_production env) ->
  exists c t, env name = Some (c :: t) /\ Forall (fun k => joi_holds k (c :: t) = true) checks.
Proof.
  intros Hi. pose proof (starts_setting env _ started Hi) as Hs. unfold setting_ok in Hs. cbn in Hs.
  destruct (env name) as [[|c t]|]; try discriminate Hs. exists c, t. split; [done|].
  apply List.Forall_forall. intros k Hk. rewrite forallb_forall in Hs. by apply Hs.
Qed.

(** A process that started in production seals personal columns, takes a live
    Paystack key, never answers an origin it was not told of, and talks to its
    database without TLS only when told to. *)
Theorem started_in_production cipher :
  in_production env = true ->
  isEncryptionEnabled (initEncryptionKey cipher (env "ENCRYPTION_KEY"%string)) = true /\
  (exists key, env "PAYSTACK_SECRET_KEY"%string = Some key /\ startsWith (text_of "sk_live_") key = true) /\
  co_origin (resolveCorsAllowlist (env "CORS_ORIGINS"%string) (Some "production"%string)) <> inr true /\
  (buildSslConfig (node_env env) env = None ->
     ascii_lower (default [] (env "DATABASE_SSL"%string)) ∈ text_of <$> ["disable"; "false"; "off"]%string).
Proof.
  intros Hp. split_and!.
  - destruct (started_required "ENCRYPTION_KEY" [JLength 64; JHex]) as (c & t & -> & Hc).
    { rewrite Hp. unfold schema. apply list_elem_of_In. do 31 right. by left. }
    apply Forall_cons_1 in Hc as [Hl _]. apply joi_length in Hl. unfold initEncryptionKey. rewrite Hl. done.
  - destruct (started_required "PAYSTACK_SECRET_KEY" [JStartsWith ["sk_live_"%string]]) as (c & t & -> & Hc).
    { rewrite Hp. unfold schema. apply list_elem_of_In. do 22 right. by left. }
    apply Forall_cons_1 in Hc as [Hl _]. apply joi_starts in Hl. exists (c :: t). split; [done|].
    by apply Exists_cons in Hl as [Hl|Hl%Exists_nil].
  - unfold resolveCorsAllowlist. by destruct (origin_list _).
  - unfold buildSslConfig. cbv zeta. case_bool_decide as Hs; [done|]. unfold in_production in Hp. rewrite Hp. cbn [orb negb].
    destruct (env "DATABASE_CA_CERT"%string) as [ca|]; [destruct (bool_decide (trim ca = []))|]; done.
Qed.
End Started.

(** Whatever the environment: sign-in is rate limited, by an address the caller
    cannot choose; the session cookie crosses sites only over TLS and then never
    without [Secure] and [HttpOnly]; the sign-up form sets a phone number and nothing
    else of ours; the phone's hash never leaves; OAuth tokens are sealed; and a
    documented API is one that was asked for. *)
Theorem auth_settings_closed parse_url env :
  let s := createAuth parse_url env in
  ro_enabled (as_rateLimit s) = true /\
  as_ipAddressHeaders s = [RESOLVED_CLIENT_IP_HEADER] /\
  (forall c, as_cookies s = Some c -> isHttpsUrl parse_url (env "BETTER_AUTH_URL"%string) = true /\ ck_secure c = true /\ ck_httpOnly c = true) /\
  (forall f, f ∈ as_additionalFields s -> af_input f = true -> af_name f = "phoneNumber"%string) /\
  (forall f, f ∈ as_additionalFields s -> af_name f = "phoneHash"%string -> af_returned f = false) /\
  as_encryptOAuthTokens s = true /\
  (isHttpsUrl parse_url (env "BETTER_AUTH_URL"%string) = true -> forall o, o ∈ LOCAL_DEV_ORIGINS ->
     o ∈ as_trustedOrigins s -> o ∈ origin_list (env "CORS_ORIGINS"%string) \/ setting (env "BETTER_AUTH_URL"%string) = Some o) /\
  (bs_docs (bootstrap parse_url env) = true -> parseBooleanEnv (env "API_DOCS_ENABLED"%string) = true).
Proof.
  intros s. assert (forall f, f ∈ as_additionalFields s -> f = mkField "role" false false true (Some "PARENT"%string) \/
    f = mkField "phoneNumber" false true true None \/ f = mkField "fullName" false false true None \/
    f = mkField "phoneHash" false false false None) as Hf.
  { intros f Hf. cbn in Hf. rewrite !elem_of_cons in Hf. destruct Hf as [->|[->|[->|[->|Hf%elem_of_nil]]]]; tauto. }
  split_and!; try done.
  - intros c. cbn. destruct (isHttpsUrl _ _); [|done]. by intros [= <-].
  - intros f Hi. by destruct (Hf f Hi) as [->|[->|[->| ->]]].
  - intros f Hi. by destruct (Hf f Hi) as [->|[->|[->| ->]]].
  - intros Hh o Ho. cbn. rewrite Hh. unfold buildTrustedOrigins. 
    intros Hi%distinct_in. rewrite !elem_of_app in Hi. destruct Hi as [Hc|[Hn|[Hd|Hb]]]; [by left| |by apply not_elem_of_nil in Hd|].
    + exfalso. clear -Ho Hn. vm_compute in Ho, Hn.
      repeat (apply elem_of_cons in Ho as [->|Ho]; [repeat (apply elem_of_cons in Hn as [Hn|Hn]; [discriminate Hn|]); by apply not_elem_of_nil in Hn|]).
      by apply not_elem_of_nil in Ho.
    + right. destruct (setting _) as [b|]; [|by apply not_elem_of_nil in Hb]. by apply list_elem_of_singleton in Hb as ->.
Qed.

(** ** The flood guard *)

(** The guard counts under an address no header but the declared one has a part in:
    with the header stamped first, and whatever the caller wrote in every other. *)
Theorem flood_key_unforgeable parse_url env req headers :
  let header := string_of <$> clientIpHeader (posture_of parse_url env) in
  header <> Some RESOLVED_CLIENT_IP_HEADER ->
  (forall name, header = Some name -> headers !! name = rq_headers req !! name) ->
  (auth_middleware parse_url env (mkIpRequest headers (rq_ip req) (rq_remoteAddress req))).1 =
  (auth_middleware parse_url env req).1 /\
  (auth_middleware parse_url env req).1 = clientIpKey req header /\
  rq_headers (auth_middleware parse_url env req).2 !! RESOLVED_CLIENT_IP_HEADER =
    Some (HOne (default UNKNOWN_CLIENT_IP (resolveClientIp req header))).
Proof.
  intros header Hn Hh. unfold auth_middleware. fold header. cbn [fst snd].
  assert (forall r h, (forall name, header = Some name -> h !! name = rq_headers r !! name) ->
    resolveClientIp (mkIpRequest h (rq_ip r) (rq_remoteAddress r)) header = resolveClientIp r header) as Hr.
  { intros r h Hs. unfold resolveClientIp. cbn [rq_headers rq_ip rq_remoteAddress]. destruct header as [[|a n]|]; [done| |done].
    by rewrite (Hs _ eq_refl). }
  assert (forall r, clientIpKey (stampClientIp r header).2 header = clientIpKey r header) as Hk.
  { intros r. unfold clientIpKey, stampClientIp. cbn [snd]. rewrite Hr; [done|]. intros name E. apply lookup_insert_ne. congruence. }
  rewrite !Hk. split; [|split; [done|]].
  - unfold clientIpKey. by rewrite Hr.
  - unfold stampClientIp. cbn [snd rq_headers]. apply lookup_insert_eq.
Qed.

(** ** The pool *)

Theorem pool_is_positive env : 0 < buildPoolSizing env.
Proof.
  unfold buildPoolSizing. destruct (env _) as [raw|]; [|done]. cbn. destruct (Number raw) as [|m|q]; cbn; [done..|].
  destruct (Qeq_bool _ _); [|done]. destruct (0 <? Z.quot (Qnum q) (QDen q)) eqn:E; cbn; [by apply Z.ltb_lt|done].
Qed.

(** ** The tenant filter *)

Lemma member_app key a b : member key (a ++ b) = match member key a with Some v => Some v | None => member key b end.
Proof.
  unfold member. induction a as [|[k v] a IH]; cbn -[String.eqb]; [by destruct (find _ b) as [[]|]|].
  by destruct (String.eqb k key).
Qed.
Lemma member_override key a b :
  member key ((fun kv : string * js => (kv.1, default kv.2 (member kv.1 b))) <$> a) =
  match member key a with Some v => Some (default v (member key b)) | None => None end.
Proof.
  unfold member. induction a as [|[k v] a IH]; cbn -[String.eqb]; [done|].
  by destruct (String.eqb_spec k key) as [->|].
Qed.
Lemma member_filter key (a b : list (string * js)) :
  key ∉ a.*1 -> member key (filter (fun kw : string * js => kw.1 ∉ a.*1) b) = member key b.
Proof.
  intros Ha. unfold member. induction b as [|[k v] b IH]; [done|]. rewrite filter_cons. cbn -[String.eqb].
  destruct (decide _) as [Hk|Hk]; cbn -[String.eqb]; destruct (String.eqb_spec k key) as [->|]; try done.
Qed.
Lemma member_keys key a : member key a = None -> key ∉ a.*1.
Proof.
  unfold member. induction a as [|[k v] a IH]; cbn -[String.eqb]; [intros _; apply not_elem_of_nil|].
  destruct (String.eqb_spec k key) as [->|Hk]; [done|]. intros H. apply not_elem_of_cons. split; [congruence|by apply IH].
Qed.
(** Reading a spread object: the later one first. *)
Lemma member_spread key a b :
  member key (spread a b) = match member key b with Some v => Some v | None => member key a end.
Proof.
  unfold spread. rewrite member_app. change (fun kv : string * js => (kv.1, default kv.2 (snd <$> find (fun kw => String.eqb kw.1 kv.1) b)))
    with (fun kv : string * js => (kv.1, default kv.2 (member kv.1 b))). rewrite member_override.
  destruct (member key a) as [v|] eqn:E; cbn; [by destruct (member key b)|].
  rewrite member_filter by (by apply member_keys). by destruct (member key b).
Qed.

(** A tenant client's reads and bulk writes of payments and plans, and its reads
    of class fees, carry the school whatever condition the caller wrote, the
    caller's own school included; every other condition and argument is kept. *)
Theorem tenant_filter_wins {A} schoolId (query : string -> string -> list (string * js) -> A) model operation args :
  tenant_scoped model operation = true ->
  exists args', withTenant schoolId query model operation args = query model operation args' /\
    member "schoolId" (fields_of (member "where" args')) = Some schoolId /\
    (forall key, key <> "schoolId"%string ->
       member key (fields_of (member "where" args')) = member key (fields_of (member "where" args))) /\
    (forall key, key <> "where"%string -> member key args' = member key args).
Proof.
  intros Hs. unfold withTenant. rewrite Hs. eexists. split; [done|].
  set (w := spread _ [("schoolId"%string, schoolId)]).
  assert (member "where" (spread args [("where"%string, Obj w)]) = Some (Obj w)) as -> by (by rewrite member_spread).
  cbn [fields_of]. subst w. split; [by rewrite member_spread|].
  split; intros key Hk; rewrite member_spread; unfold member at 1; cbn -[String.eqb spread];
    [destruct (String.eqb_spec "schoolId" key) as [<-|]|destruct (String.eqb_spec "where" key) as [<-|]]; done.
Qed.

(** The comment promises every multi-row read and write of the three tables: a
    tenant client's aggregates, and its bulk writes of class fees, are not
    filtered. *)
Theorem tenant_filter_gaps {A} schoolId (query : string -> string -> list (string * js) -> A) args :
  withTenant schoolId query "payment" "aggregate" args = query "payment"%string "aggregate"%string args /\
  withTenant schoolId query "childEnrollment" "groupBy" args = query "childEnrollment"%string "groupBy"%string args /\
  withTenant schoolId query "classFee" "updateMany" args = query "classFee"%string "updateMany"%string args.
Proof. done. Qed.

(** Behind the proxy the tenant client is made from the client that encrypts:
    [withTenant] runs with the proxy as its [this], whose [$extends] is the extended
    client's. *)
Example tenant_client_encrypts extended_has :
  extended_has "$extends"%string = true ->
  proxy_get extended_has "withTenant" = (Base, Proxied) /\ proxy_get extended_has "$extends" = (Extended, Extended).
Proof. intros H. unfold proxy_get. rewrite H. done. Qed.

(** ** The Firebase key *)

Definition escape_newlines (t : text) : text := t ≫= fun c => if c =? 10 then [92; 110] else [c].
(** A key written on one line, its line ends as [\n], is read back. *)
Theorem key_lines_restored t : 92 ∉ t -> real_newlines (escape_newlines t) = t.
Proof.
  induction t as [|c t IH]; [done|]. intros [Hc Ht]%not_elem_of_cons. unfold escape_newlines. cbn [mbind list_bind].
  change (mbind _ t) with (escape_newlines t). destruct (Z.eqb_spec c 10) as [->|Hn]; cbn [app]; [by cbn; rewrite IH|].
  transitivity (c :: real_newlines (escape_newlines t)); [|by rewrite IH].
  cbn. destruct c as [|p|p]; try done. repeat (destruct p; try done).
Qed.

(** ** A concrete environment *)

Definition joi_check (c : JoiCheck) (t : text) : bool :=
  match c with
  | JValid l => bool_decide (t ∈ text_of <$> l)
  | JMinLength n => n <=? js_length t
  | JLength n => js_length t =? n
  | JHex => forallb is_hex t
  | JInvalid s => negb (bool_decide (t = text_of s))
  | JWithout fragment => negb (text_includes (text_of fragment) (ascii_lower t))
  | JStartsWith l => existsb (fun p => startsWith (text_of p) t) l
  | JUri => has_char COLON t
  | JEmail => has_char 64 t
  | JNumber => match Number t with Finite _ => true | _ => false end
  | JInteger => match is_positive_integer (Number t) with Some _ => true | None => false end
  | JMin n => match Number t with Finite q => Qle_bool (inject_Z n) q | _ => false end
  | JMax n => match Number t with Finite q => Qle_bool q (inject_Z n) | _ => false end
  end.
#[local] Instance sample_joi : Joi := {| joi_holds := joi_check |}.
#[local] Instance sample_joi_laws : JoiLaws.
Proof.
  split; cbn; intros.
  - apply bool_decide_eq_true.
  - apply Z.eqb_eq.
  - apply Z.leb_le.
  - rewrite existsb_exists. symmetry. apply List.Exists_exists.
Qed.
Definition sample_environment (name : string) : option text :=
  snd <$> find (fun kv => String.eqb kv.1 name)
    [("NODE_ENV", text_of "production"); ("DATABASE_URL", text_of "postgresql://db/lopay");
     ("BETTER_AUTH_SECRET", replicate 40 115); ("BETTER_AUTH_URL", text_of "https://api.lopay.ng");
     ("FIREBASE_PROJECT_ID", text_of "lopay"); ("FIREBASE_CLIENT_EMAIL", text_of "a@b.ng");
     ("FIREBASE_PRIVATE_KEY", text_of "key"); ("CORS_ORIGINS", text_of "https://lopay.ng");
     ("PAYSTACK_SECRET_KEY", text_of "sk_live_1"); ("ENCRYPTION_KEY", replicate 64 97)]%string.

Lemma started_in_production_witness cipher :
  isEncryptionEnabled (initEncryptionKey cipher (sample_environment "ENCRYPTION_KEY")) = true /\
  starts (fun name => if String.eqb name "ENCRYPTION_KEY" then None else sample_environment name) = false.
Proof.
  split; [|vm_compute; reflexivity].
  assert (starts sample_environment = true) as Hs by (vm_compute; reflexivity).
  apply (started_in_production sample_environment Hs cipher). vm_compute. reflexivity.
Qed.
