(* ===== verification/Scripts.v ===== *)
(** * The operator's scripts

    What an operator runs by hand against a live database or bucket: the backfill of
    the phone index ([scripts/backfill-phone-hash.ts], [Backfill]), the first
    administrator ([prisma/seed.ts], [Seed]) and the limits of the receipts bucket
    ([scripts/configure-receipts-bucket.ts], [ReceiptsBucket]).  Each write stands on
    its own: none of them runs in a transaction. *)

From S2P Require Import Prelude JsText Schema Effects Enrollment Phone Users UserSpecs Onboarding Links Documents Observability Startup Samples.

Local Open Scope Z_scope.

(** The unique column of the users table. *)
Definition emails_unique (m : gmap id User) : Prop :=
  forall i j u v, m !! i = Some u -> m !! j = Some v -> u_email u = u_email v -> i = j.
Lemma found_by_email i u d : emails_unique (users d) -> users d !! i = Some u -> user_by_email (u_email u) d = Some (i, u).
Proof.
  intros He Hu. unfold user_by_email. destruct (find_row _ _) as [[j v]|] eqn:E.
  - apply find_row_some in E as [Hj Hv]. apply String.eqb_eq in Hv. assert (j = i) as -> by (by apply (He j i v u)). congruence.
  - pose proof (find_row_none _ _ _ _ E Hu) as X. cbn in X. by rewrite String.eqb_refl in X.
Qed.

(** ** scripts/backfill-phone-hash.ts *)

Module Backfill.

(** [Map]: a key that is there keeps its place. *)
Fixpoint see (h email : string) (seen : list (string * list string)) : list (string * list string) :=
  match seen with
  | [] => [(h, [email])]
  | (k, l) :: seen' => if String.eqb k h then (k, l ++ [email]) :: seen' else (k, l) :: see h email seen'
  end.

Record Tally := mkTally {
  tl_seen : list (string * list string);
  tl_updates : list (id * string);
  tl_unparseable : Z;
  tl_alreadyCorrect : Z }.
Definition no_rows : Tally := mkTally [] [] 0 0.

Inductive Outcome := DuplicatesFound (sets : list (list string)) | DryRun (toWrite : Z) | Wrote (n : Z).

Section Backfill.
Context (category_C : Z -> bool) (hmac : string -> string).
(** [decryptPiiDeep] of a stored number, and the order the database scans in. *)
Context (plain : string -> text) (in_order : list (id * User) -> list (id * User)).

Definition scanned (u : User) : bool := bool_decide (is_Some (u_phoneNumber u)) && bool_decide (u_deletedAt u = None).
Definition rows (d : DB) : list (id * User) :=
  in_order (filter (fun kv : id * User => scanned kv.2 = true) (map_to_list (users d))).

Definition visit (t : Tally) (row : id * User) : Tally :=
  let '(i, u) := row in
  match plain <$> u_phoneNumber u with
  | None | Some [] => t
  | Some phoneNumber =>
      match canonicalizePhone category_C phoneNumber with
      | None | Some EmptyString => mkTally (tl_seen t) (tl_updates t) (tl_unparseable t + 1) (tl_alreadyCorrect t)
      | Some canonical =>
          match truthy (phoneBlindIndex category_C hmac (text_of canonical)) with
          | None => t
          | Some phoneHash =>
              let seen := see phoneHash (u_email u) (tl_seen t) in
              if bool_decide (u_phoneHash u = Some phoneHash) then
                mkTally seen (tl_updates t) (tl_unparseable t) (tl_alreadyCorrect t + 1)
              else mkTally seen (tl_updates t ++ [(i, phoneHash)]) (tl_unparseable t) (tl_alreadyCorrect t)
          end
      end
  end.
Definition tally (d : DB) : Tally := foldl visit no_rows (rows d).
Definition duplicates (t : Tally) : list (list string) :=
  filter (fun l => (1 < length l)%nat) (snd <$> tl_seen t).

Fixpoint write_all (updates : list (id * string)) : M unit :=
  match updates with
  | [] => mret tt
  | (i, h) :: updates => updateUser i (set_u_phoneHash (Some h));; write_all updates
  end.

Definition main (apply : bool) : M Outcome :=
  t ← read tally;
  if bool_decide (duplicates t <> []) then mret (DuplicatesFound (duplicates t))
  else if negb apply then mret (DryRun (Z.of_nat (length (tl_updates t))))
  else write_all (tl_updates t);; mret (Wrote (Z.of_nat (length (tl_updates t)))).

(** *** Laws *)

(** The index of a row's number, when it is scanned and has one. *)
Definition computed (u : User) : option string :=
  match plain <$> u_phoneNumber u with
  | None | Some [] => None
  | Some phoneNumber =>
      match canonicalizePhone category_C phoneNumber with
      | None | Some EmptyString => None
      | Some canonical => truthy (phoneBlindIndex category_C hmac (text_of canonical))
      end
  end.
Definition target (u : User) : option string := if scanned u then computed u else None.
(** A row as a complete backfill leaves it. *)
Definition indexed_row (u : User) : User :=
  match target u with Some h => set_u_phoneHash (Some h) u | None => u end.

Definition group (h : string) (seen : list (string * list string)) : list string :=
  match find (fun kl => String.eqb kl.1 h) seen with Some kl => kl.2 | None => [] end.
Lemma group_see h h' email seen :
  group h' (see h email seen) = if String.eqb h h' then group h seen ++ [email] else group h' seen.
Proof.
  unfold group. induction seen as [|[k l] seen IH]; cbn -[String.eqb].
  - by destruct (String.eqb h h').
  - destruct (String.eqb_spec k h) as [->|Hk]; cbn -[String.eqb].
    + by destruct (String.eqb_spec h h').
    + destruct (String.eqb_spec k h') as [->|Hk']; [|exact IH]. by destruct (String.eqb_spec h h') as [->|].
Qed.

Lemma visit_spec t i u :
  (forall h, group h (tl_seen (visit t (i, u))) =
     group h (tl_seen t) ++ match computed u with Some h' => if String.eqb h' h then [u_email u] else [] | None => [] end) /\
  tl_updates (visit t (i, u)) =
    tl_updates t ++ match computed u with
                    | Some h => if bool_decide (u_phoneHash u = Some h) then [] else [(i, h)]
                    | None => [] end.
Proof.
  unfold visit, computed. destruct (plain <$> u_phoneNumber u) as [[|c phone]|]; try (split; [intros h|]; by rewrite app_nil_r).
  destruct (canonicalizePhone category_C (c :: phone)) as [[|a can]|]; try (split; [intros h|]; by rewrite app_nil_r).
  destruct (truthy _) as [h|]; [|split; [intros h|]; by rewrite app_nil_r].
  case_bool_decide; cbn [tl_seen tl_updates]; (split; [|by rewrite ?app_nil_r]); intros h'; rewrite group_see;
    destruct (String.eqb_spec h h') as [->|]; rewrite ?app_nil_r; done.
Qed.
Lemma foldl_visit t l :
  (forall h, group h (tl_seen (foldl visit t l)) =
     group h (tl_seen t) ++ (l ≫= fun kv : id * User => match computed kv.2 with Some h' => if String.eqb h' h then [u_email kv.2] else [] | None => [] end)) /\
  tl_updates (foldl visit t l) =
    tl_updates t ++ (l ≫= fun kv : id * User => match computed kv.2 with
                             | Some h => if bool_decide (u_phoneHash kv.2 = Some h) then [] else [(kv.1, h)]
                             | None => [] end).
Proof.
  revert t. induction l as [|[i u] l IH]; intros t; cbn [foldl mbind list_bind].
  - split; [intros h|]; by rewrite app_nil_r.
  - destruct (IH (visit t (i, u))) as [G U], (visit_spec t i u) as [G' U'].
    split; [intros h; rewrite G, G'|rewrite U, U']; by rewrite app_assoc.
Qed.

Context (any_order : forall l, in_order l ≡ₚ l).

Lemma rows_in d i u : (i, u) ∈ rows d <-> users d !! i = Some u /\ scanned u = true.
Proof. unfold rows. rewrite (any_order _), list_elem_of_filter, elem_of_map_to_list. cbn. tauto. Qed.
Lemma rows_nodup d : NoDup (rows d).*1.
Proof.
  apply NoDup_fmap_fst.
  - intros i u v [Hu _]%rows_in [Hv _]%rows_in. congruence.
  - unfold rows. rewrite (any_order _). apply list.NoDup_filter, NoDup_map_to_list.
Qed.

(** Two scanned rows with one index make a set of duplicates. *)
Lemma no_duplicates d : duplicates (tally d) = [] ->
  forall i j u v h, users d !! i = Some u -> users d !! j = Some v -> target u = Some h -> target v = Some h -> i = j.
Proof.
  intros Hd i j u v h Hi Hj Hu Hv. destruct (decide (i = j)) as [|Hn]; [done|]. exfalso.
  unfold target in Hu, Hv. destruct (scanned u) eqn:Su, (scanned v) eqn:Sv; try done.
  assert ((i, u) ∈ rows d) as Ri by (by apply rows_in). assert ((j, v) ∈ rows d) as Rj by (by apply rows_in).
  destruct (foldl_visit no_rows (rows d)) as [G _]. specialize (G h). cbn [tl_seen no_rows] in G.
  assert (2 <= length (group h (tl_seen (tally d))))%nat as Hl.
  { unfold tally. rewrite G. cbn [group find app]. apply list_elem_of_split in Ri as (l1 & l2 & El).
    assert ((j, v) ∈ l1 ++ l2) as Hj' by (rewrite El in Rj; set_solver). rewrite El, bind_app, length_app. cbn [mbind list_bind snd].
    rewrite Hu, String.eqb_refl, length_app.
    assert (forall l, (j, v) ∈ l -> 1 <= length (l ≫= fun kv : id * User => match computed kv.2 with Some h' => if String.eqb h' h then [u_email kv.2] else [] | None => [] end))%nat as Hone.
    { intros l (k1 & k2 & ->)%list_elem_of_split. rewrite bind_app, length_app. cbn [mbind list_bind snd].
      rewrite Hv, String.eqb_refl, length_app. cbn [length snd]. lia. }
    apply elem_of_app in Hj' as [Hj'%Hone|Hj'%Hone]; cbn [length snd]; unfold mbind in *; lia. }
  assert (group h (tl_seen (tally d)) ∈ duplicates (tally d)) as Hin.
  { unfold duplicates. apply list_elem_of_filter. split; [lia|]. unfold group in *.
    destruct (find _ (tl_seen (tally d))) as [[k l]|] eqn:E; [|cbn in Hl; lia].
    apply find_some in E as [E _]. apply list_elem_of_fmap. exists (k, l). split; [done|]. by apply list_elem_of_In. }
  rewrite Hd in Hin. by apply not_elem_of_nil in Hin.
Qed.

Lemma updates_in d i h : (i, h) ∈ tl_updates (tally d) <->
  exists u, users d !! i = Some u /\ target u = Some h /\ u_phoneHash u <> Some h.
Proof.
  unfold tally. rewrite (proj2 (foldl_visit no_rows (rows d))). cbn [tl_updates no_rows app]. rewrite list_elem_of_bind. split.
  - intros ([j u] & Hin & [Hj Hs]%rows_in). cbn [fst snd] in *. exists u. unfold target. rewrite Hs.
    destruct (computed u) as [k|]; [|by apply not_elem_of_nil in Hin]. case_bool_decide; [by apply not_elem_of_nil in Hin|].
    apply list_elem_of_singleton in Hin as [= -> ->]. done.
  - intros (u & Hi & Ht & Hn). exists (i, u). unfold target in Ht. destruct (scanned u) eqn:Hs; [|done].
    split; [|by apply rows_in]. cbn. rewrite Ht, bool_decide_eq_false_2 by done. by apply list_elem_of_singleton.
Qed.

Lemma updates_nodup d : NoDup (tl_updates (tally d)).*1.
Proof.
  unfold tally. rewrite (proj2 (foldl_visit no_rows (rows d))). cbn [tl_updates no_rows app].
  pose proof (rows_nodup d) as Hn. induction (rows d) as [|[i u] l IH]; [constructor|].
  cbn [fmap list_fmap fst] in Hn. apply list.NoDup_cons in Hn as [Hi Hn]. specialize (IH Hn).
  cbn [mbind list_bind snd fst]. destruct (computed u) as [h|]; [case_bool_decide|]; [exact IH| |exact IH].
  cbn [app fmap list_fmap fst]. constructor; [|exact IH]. intros ([j h'] & -> & Hj)%list_elem_of_fmap. cbn [fst] in Hi.
  apply list_elem_of_bind in Hj as ([k v] & Hin & Hk). apply Hi, list_elem_of_fmap. exists (k, v). split; [|done].
  cbn [fst snd] in *. destruct (computed v); [|by apply not_elem_of_nil in Hin]. case_bool_decide; [by apply not_elem_of_nil in Hin|].
  by apply list_elem_of_singleton in Hin as [= -> ->].
Qed.

Definition write_map (us : list (id * string)) (m : gmap id User) : gmap id User :=
  foldl (fun m ih => alter (set_u_phoneHash (Some ih.2)) ih.1 m) m us.
Lemma write_map_cons i h us m : write_map ((i, h) :: us) m = write_map us (alter (set_u_phoneHash (Some h)) i m).
Proof. done. Qed.
Lemma write_map_other us m i : i ∉ us.*1 -> write_map us m !! i = m !! i.
Proof.
  revert m. induction us as [|[j h] us IH]; intros m Hi; [done|]. cbn in Hi. apply not_elem_of_cons in Hi as [Hj Hi].
  rewrite write_map_cons, IH by done. by apply lookup_alter_ne.
Qed.
Lemma write_map_at us m i h : NoDup us.*1 -> (i, h) ∈ us -> write_map us m !! i = set_u_phoneHash (Some h) <$> m !! i.
Proof.
  revert m. induction us as [|[j k] us IH]; intros m Hn Hi; [by apply not_elem_of_nil in Hi|].
  cbn [fmap list_fmap fst] in Hn. apply list.NoDup_cons in Hn as [Hj Hn]. rewrite write_map_cons. apply elem_of_cons in Hi as [[= <- <-]|Hi].
  - rewrite write_map_other by done. apply lookup_alter_eq.
  - rewrite IH by done. rewrite lookup_alter_ne; [done|]. intros <-. apply Hj, list_elem_of_fmap. by exists (j, h).
Qed.

Lemma write_all_runs us w :
  NoDup us.*1 -> NoDup us.*2 -> emails_unique (users (db w)) ->
  (forall i h, (i, h) ∈ us -> is_Some (users (db w) !! i) /\
     forall j v, users (db w) !! j = Some v -> j <> i -> u_phoneHash v <> Some h) ->
  write_all us w = (Ok tt, mkWorld (set_users (write_map us (users (db w))) (db w)) (out w)).
Proof.
  revert w. induction us as [|[i h] us IH]; intros w Hn1 Hn2 He Hus; [by destruct w as [[]]|].
  cbn [fmap list_fmap fst snd] in Hn1, Hn2. apply list.NoDup_cons in Hn1 as [Hi Hn1]. apply list.NoDup_cons in Hn2 as [Hh Hn2].
  destruct (Hus i h) as [[u Hu] Hfree]; [apply list_elem_of_here|]. cbn [write_all].
  unfold updateUser, mbind, M_bind, read, orThrow, mret, M_ret at 1. rewrite Hu. cbn [fst snd]. rewrite storeUser_eq.
  assert (email_clash i (set_u_phoneHash (Some h) u) (db w) = false) as ->.
  { apply bool_decide_eq_false. intros [[j v] [Hj Hv]%find_row_some]. apply lookup_delete_Some in Hj as [Hne Hj].
    cbn in Hv. apply String.eqb_eq in Hv. by apply Hne, (He i j u v). }
  assert (hash_clash i (set_u_phoneHash (Some h) u) (db w) = false) as ->.
  { apply bool_decide_eq_false. intros [[j v] [Hj Hv]%find_row_some]. apply lookup_delete_Some in Hj as [Hne Hj].
    unfold holds_hash in Hv. apply bool_decide_eq_true in Hv. by apply (Hfree j v). }
  rewrite IH; cbn [db out users set_users].
  - rewrite write_map_cons.
    assert (alter (set_u_phoneHash (Some h)) i (users (db w)) = <[i := set_u_phoneHash (Some h) u]> (users (db w))) as ->; [|done].
    apply map_eq. intros j. destruct (decide (j = i)) as [->|Hj].
    + by rewrite lookup_insert_eq, lookup_alter_eq, Hu.
    + by rewrite lookup_insert_ne, lookup_alter_ne.
  - done.
  - done.
  - intros j k v x. rewrite !lookup_insert_Some. intros [[<- <-]|[Nj Hj]] [[<- <-]|[Nk Hk]] E; [done|..|by eapply He].
    + destruct Nk. by apply (He i k u x).
    + destruct Nj. symmetry. by apply (He j i v u).
  - intros j k Hin. assert (j <> i) as Hne.
    { intros ->. apply Hi, list_elem_of_fmap. by exists (i, k). }
    destruct (Hus j k) as [Hs Hf]; [by apply list_elem_of_further|]. split; [by rewrite lookup_insert_ne|].
    intros j' v. rewrite lookup_insert_Some. intros [[<- <-]|[_ Hv]] Hj'; [|by apply (Hf j')]. cbn. intros [= ->].
    apply Hh, list_elem_of_fmap. by exists (j, k).
Qed.

(** Nothing stands in the way: no other row, removed accounts included, holds the
    index that a scanned row is to get. *)
Definition clear_way (d : DB) : Prop := forall i u j v h,
  users d !! i = Some u -> target u = Some h -> users d !! j = Some v -> j <> i -> u_phoneHash v <> Some h.

(** A run that writes nothing leaves everything; one that finds no duplicates and a
    clear way writes the index of every live number and nothing else, and running it
    again finds nothing to write. *)
Theorem backfill_complete w :
  emails_unique (users (db w)) ->
  (forall r w', main false w = (r, w') -> w' = w) /\
  (duplicates (tally (db w)) <> [] -> main true w = (Ok (DuplicatesFound (duplicates (tally (db w)))), w)) /\
  (duplicates (tally (db w)) = [] -> clear_way (db w) ->
   exists n, let w' := mkWorld (set_users (indexed_row <$> users (db w)) (db w)) (out w) in
     main true w = (Ok (Wrote n), w') /\ tl_updates (tally (db w')) = []).
Proof.
  intros He. split_and!.
  - intros r w'. unfold main, read, mbind, M_bind. case_bool_decide; cbn; by intros [= _ <-].
  - intros Hd. unfold main, read, mbind, M_bind. by rewrite bool_decide_eq_true_2.
  - intros Hd Hc. eexists. cbv zeta. split.
    + unfold main, read, mbind, M_bind. rewrite bool_decide_eq_false_2 by (intros Hx; by apply Hx). cbn [negb].
      rewrite write_all_runs; [|apply updates_nodup| |done|].
      * unfold mret, M_ret. do 3 f_equal. apply map_eq. intros i. rewrite lookup_fmap.
        destruct (users (db w) !! i) as [u|] eqn:Hi; cbn.
        -- unfold indexed_row. destruct (target u) as [h|] eqn:Ht.
           ++ destruct (decide (u_phoneHash u = Some h)) as [Hh|Hh].
              ** rewrite write_map_other; [rewrite Hi; by destruct u; cbn in Hh; subst|].
                 intros ([j k] & -> & (v & Hj & Hv & Hk)%updates_in)%list_elem_of_fmap. cbn in Hi. congruence.
              ** rewrite (write_map_at _ _ _ h); [by rewrite Hi|apply updates_nodup|]. apply updates_in. eauto.
           ++ rewrite write_map_other; [done|]. intros ([j k] & -> & (v & Hj & Hv & Hk)%updates_in)%list_elem_of_fmap. cbn in Hi. congruence.
        -- rewrite write_map_other; [done|]. intros ([j k] & -> & (v & Hj & Hv & Hk)%updates_in)%list_elem_of_fmap. cbn in Hi. congruence.
      * apply NoDup_fmap_2_strong; [|eapply NoDup_fmap_1, updates_nodup].
        intros [i h] [j k] (u & Hi & Hu & _)%updates_in (v & Hj & Hv & _)%updates_in E. cbn in E. subst k.
        by rewrite (no_duplicates (db w) Hd i j u v h).
      * intros i h (u & Hi & Hu & _)%updates_in. split; [eauto|]. intros j v Hv Hj. by apply (Hc i u j v).
    + destruct (tl_updates _) as [|[i h] l] eqn:E; [done|]. exfalso.
      assert ((i, h) ∈ (i, h) :: l) as Hin by apply list_elem_of_here. rewrite <- E in Hin.
      apply updates_in in Hin as (u & Hu & Ht & Hn). cbn [db users set_users] in Hu. rewrite lookup_fmap in Hu.
      apply fmap_Some in Hu as (v & Hv & ->). unfold indexed_row in Ht, Hn. destruct (target v) as [k|] eqn:Hk; [|congruence].
      change (target (set_u_phoneHash (Some k) v)) with (target v) in Ht. cbn in Hn. congruence.
Qed.
End Backfill.

(** *** A removed account *)

Definition sample_hash (s : string) : string := "h" +:+ s.
Definition legacy (email phone : string) (hash : option string) (deleted : option Z) : User :=
  mkUser email PARENT None (Some phone) hash deleted None.
(** Two accounts from before the index, and a removed one that still holds the
    first one's number. *)
Definition legacy_db : DB := set_users
  {[ 30%positive := legacy "ada@x.ng" "08031111111" None None;
     31%positive := legacy "obi@x.ng" "08012345678" None None;
     32%positive := legacy "deleted+32@deleted.lopay" "08031111111" (Some "h+2348031111111"%string) (Some 9) ]} sample_db.
Definition backfill (apply : bool) : M Outcome :=
  main sample_category_C sample_hash text_of (fun l => l) apply.
Definition hashes (d : DB) : list (option string) := (fun i => users d !! i ≫= u_phoneHash) <$> [30%positive; 31%positive; 32%positive].

(** The removed account is not scanned, so no duplicate is reported; its index is
    still in the column, so the run dies on it, with one of the two rows written. *)
Theorem backfill_half_done :
  (backfill false (mkWorld legacy_db [])).1 = Ok (DryRun 2) /\
  let '(r, w') := backfill true (mkWorld legacy_db []) in
  r = Err (FUnique "phoneHash") /\
  hashes (db w') = [None; Some "h+2348012345678"; Some "h+2348031111111"]%string.
Proof. vm_compute. auto. Qed.

Lemma backfill_complete_witness :
  let live := set_users (delete 32%positive (users legacy_db)) legacy_db in
  exists n w', backfill true (mkWorld live []) = (Ok (Wrote n), w') /\
    hashes (db w') = [Some "h+2348031111111"; Some "h+2348012345678"; None]%string.
Proof.
  intros live. assert (forall i u, users live !! i = Some u ->
    (i = 30%positive /\ u = legacy "ada@x.ng" "08031111111" None None) \/
    (i = 31%positive /\ u = legacy "obi@x.ng" "08012345678" None None)) as Hu.
  { intros i u Hi. assert (users live = {[ 30%positive := legacy "ada@x.ng" "08031111111" None None;
      31%positive := legacy "obi@x.ng" "08012345678" None None ]}) as E by (vm_compute; reflexivity).
    rewrite E in Hi. apply lookup_insert_Some in Hi as [[<- <-]|[_ [<- <-]%lookup_singleton_Some]]; auto. }
  destruct (backfill_complete sample_category_C sample_hash text_of (fun l => l) (fun l => Permutation_refl _) (mkWorld live [])) as (_ & _ & H).
  - intros i j u v [[-> ->]|[-> ->]]%Hu [[-> ->]|[-> ->]]%Hu; done.
  - destruct H as (n & H & _); [vm_compute; reflexivity| |].
    + intros i u j v h [[-> ->]|[-> ->]]%Hu _ [[-> ->]|[-> ->]]%Hu; done.
    + exists n. eexists. split; [exact H|]. vm_compute. reflexivity.
Qed.
End Backfill.

(** ** prisma/seed.ts *)

Module Seed.
Section Seed.
(** Better Auth's sign-up and its password store. *)
Context (signUpEmail : string -> string -> M id) (updatePassword : id -> string -> M unit).

Record SeedEnv := mkSeedEnv { sd_NODE_ENV : option string; sd_ADMIN_EMAIL : option string; sd_ADMIN_PASSWORD : option string }.
Definition admin_email (env : SeedEnv) : string := default "admin@lopay.com"%string (truthy (sd_ADMIN_EMAIL env)).
Definition credential_of (i : id) (d : DB) : option (id * OAuthAccount) :=
  find_row (fun a => bool_decide (oa_userId a = i) && String.eqb (oa_providerId a) "credential") (oauthAccounts d).

Definition seed (env : SeedEnv) : M unit :=
  ensure (negb (bool_decide (sd_NODE_ENV env = Some "production"%string) && bool_decide (truthy (sd_ADMIN_PASSWORD env) = None)))
    (FInternal "ADMIN_PASSWORD must be set in production before seeding the super admin.");;
  existing ← read (user_by_email (admin_email env));
  match existing with
  | Some (i, _) =>
      updateUser i (set_u_role SUPER_ADMIN);;
      match truthy (sd_ADMIN_PASSWORD env) with
      | Some password =>
          credential ← read (credential_of i);
          _ ← orThrow credential (FInternal "Super Admin has no email/password account (Google-only?).");
          updatePassword i password
      | None => mret tt
      end
  | None =>
      i ← signUpEmail (admin_email env) "Super Admin";
      updateUser i (set_u_role SUPER_ADMIN);;
      mret tt
  end.

(** *** Laws *)

Context (passwords_only : forall i p w r w', updatePassword i p w = (r, w') -> users (db w') = users (db w)).
Context (stored_email : string -> string) (su : signs_up signUpEmail stored_email).

Lemma promote i u w :
  emails_unique (users (db w)) -> users (db w) !! i = Some u ->
  (forall h j v, u_phoneHash u = Some h -> users (db w) !! j = Some v -> u_phoneHash v = Some h -> j = i) ->
  updateUser i (set_u_role SUPER_ADMIN) w =
    (Ok (set_u_role SUPER_ADMIN u), mkWorld (set_users (<[i := set_u_role SUPER_ADMIN u]> (users (db w))) (db w)) (out w)).
Proof.
  intros He Hu Hh. unfold updateUser, mbind, M_bind, read, orThrow, mret, M_ret. rewrite Hu, storeUser_eq.
  replace (email_clash i (set_u_role SUPER_ADMIN u) (db w)) with false.
  2: { symmetry. apply bool_decide_eq_false. intros [[j v] [Hj Hv]%find_row_some]. apply lookup_delete_Some in Hj as [Hne Hj].
       cbn in Hv. apply String.eqb_eq in Hv. by apply Hne, (He i j u v). }
  replace (hash_clash i (set_u_role SUPER_ADMIN u) (db w)) with false; [done|].
  symmetry. unfold hash_clash. cbn. destruct (u_phoneHash u) as [h|] eqn:E; [|done].
  apply bool_decide_eq_false. intros [[j v] [Hj Hv]%find_row_some]. apply lookup_delete_Some in Hj as [Hne Hj].
  unfold holds_hash in Hv. apply bool_decide_eq_true in Hv. by destruct Hne; symmetry; apply (Hh h j v).
Qed.

(** After a seed that ends well the address, as the row holds it or as Better Auth
    stores it, is an administrator's. *)
Theorem administrator_seeded env w w' : seed env w = (Ok tt, w') ->
  exists i u, users (db w') !! i = Some u /\ u_role u = SUPER_ADMIN /\
    (u_email u = admin_email env \/ u_email u = stored_email (admin_email env)).
Proof.
  intros H. unfold seed in H. apply bind_run in H as (_ & w1 & [_ ->]%ensure_run & H).
  apply bind_run in H as (existing & w1 & [-> ->]%read_run & H).
  assert (forall i w1 v w2, updateUser i (set_u_role SUPER_ADMIN) w1 = (Ok v, w2) ->
    exists u, users (db w1) !! i = Some u /\ users (db w2) = <[i := set_u_role SUPER_ADMIN u]> (users (db w1))) as Hup.
  { intros i wa v wb Hv. apply bind_run in Hv as (o & wc & [-> ->]%read_run & Hv).
    apply bind_run in Hv as (u & wc & [Hu ->]%orThrow_run & Hv). exists u. split; [done|].
    rewrite storeUser_eq in Hv. destruct (email_clash _ _ _); [done|]. destruct (hash_clash _ _ _); [done|]. by injection Hv as _ <-. }
  destruct (user_by_email _ _) as [[i u]|] eqn:Eu.
  - apply find_row_some in Eu as [Hi He]. apply String.eqb_eq in He. apply bind_run in H as (v & w1 & Hv & H).
    apply Hup in Hv as (u' & Hu' & Hw1). assert (u' = u) as -> by congruence.
    exists i, (set_u_role SUPER_ADMIN u). split; [|by auto]. replace (users (db w')) with (users (db w1)); [by rewrite Hw1, lookup_insert_eq|].
    destruct (truthy _) as [p|]; [|by injection H as <-].
    apply bind_run in H as (c & w2 & [-> ->]%read_run & H). apply bind_run in H as (c & w2 & [_ ->]%orThrow_run & H).
    symmetry. by eapply passwords_only.
  - apply bind_run in H as (i & w1 & Hs & H). apply su in Hs as (_ & _ & u & Hw1 & He & _).
    apply bind_run in H as (v & w2 & Hv & [_ ->]%ret_run). apply Hup in Hv as (u' & Hu' & Hw2).
    rewrite Hw1, lookup_insert_eq in Hu'. injection Hu' as <-. exists i, (set_u_role SUPER_ADMIN u).
    split; [by rewrite Hw2, lookup_insert_eq|by auto].
Qed.

(** Whoever signed up with the administrator's address becomes the administrator and
    keeps the password they chose: outside [NODE_ENV=production], which the live host
    does not set, nothing else is asked. *)
Theorem squatter_promoted env i u w :
  sd_NODE_ENV env <> Some "production"%string -> truthy (sd_ADMIN_PASSWORD env) = None ->
  emails_unique (users (db w)) -> users (db w) !! i = Some u -> u_email u = admin_email env ->
  (forall h j v, u_phoneHash u = Some h -> users (db w) !! j = Some v -> u_phoneHash v = Some h -> j = i) ->
  seed env w = (Ok tt, mkWorld (set_users (<[i := set_u_role SUPER_ADMIN u]> (users (db w))) (db w)) (out w)).
Proof.
  intros Hp Ha He Hu Hm Hh. unfold seed. rewrite Ha, bool_decide_eq_false_2 by done. cbn [andb negb ensure].
  unfold mbind at 1, M_bind at 1, mret at 1, M_ret at 1. unfold mbind at 1, M_bind at 1, read at 1.
  rewrite <- Hm, (found_by_email i u) by done.
  unfold mbind, M_bind. by rewrite (promote i u w He Hu Hh).
Qed.

(** An account that only signs in through Google is promoted before the run fails on
    its missing password. *)
Theorem promoted_then_refused env i u password w :
  truthy (sd_ADMIN_PASSWORD env) = Some password -> credential_of i (db w) = None ->
  emails_unique (users (db w)) -> users (db w) !! i = Some u -> u_email u = admin_email env ->
  (forall h j v, u_phoneHash u = Some h -> users (db w) !! j = Some v -> u_phoneHash v = Some h -> j = i) ->
  exists e, seed env w = (Err e, mkWorld (set_users (<[i := set_u_role SUPER_ADMIN u]> (users (db w))) (db w)) (out w)).
Proof.
  intros Ha Hc He Hu Hm Hh. eexists. unfold seed. rewrite Ha, (bool_decide_eq_false_2 (Some password = None)) by done.
  rewrite andb_false_r. cbn [negb ensure]. unfold mbind at 1, M_bind at 1, mret at 1, M_ret at 1. unfold mbind at 1, M_bind at 1, read at 1.
  rewrite <- Hm, (found_by_email i u) by done.
  unfold mbind, M_bind. rewrite (promote i u w He Hu Hh). unfold read. cbn [db].
  change (credential_of i (set_users _ (db w))) with (credential_of i (db w)). by rewrite Hc.
Qed.
End Seed.
End Seed.

(** *** The pool of the seed *)

Module SeedPool.

Definition AMPERSAND : Z := 38.
Definition is_separator (c : Z) : bool := (c =? 63) || (c =? AMPERSAND).
Definition SSLMODE : text := text_of "sslmode=".
(** [replace(/([?&])sslmode=[^&]*&?/, '$1')] *)
Fixpoint strip_sslmode (t : text) : text :=
  match t with
  | [] => []
  | c :: t' =>
      if is_separator c && startsWith SSLMODE t' then
        let rest := drop (length SSLMODE) t' in
        c :: drop (S (length (before AMPERSAND rest))) rest
      else c :: strip_sslmode t'
  end.
(** [replace(/[?&]$/, '')] *)
Definition strip_last (t : text) : text :=
  match reverse t with c :: t' => if is_separator c then reverse t' else t | [] => [] end.
(** The group of [/[?&]sslmode=([^&]+)/]. *)
Fixpoint url_sslmode (t : text) : option text :=
  match t with
  | [] => None
  | c :: t' =>
      if is_separator c && startsWith SSLMODE t' then
        match before AMPERSAND (drop (length SSLMODE) t') with [] => url_sslmode t' | mode => Some mode end
      else url_sslmode t'
  end.

Definition buildPoolConfig (env : Environment) : text * option SslConfig :=
  let url := default [] (env "DATABASE_URL"%string) in
  let stripped := strip_last (strip_sslmode url) in
  let sslMode := ascii_lower (default [] (env "DATABASE_SSL"%string)) in
  let urlSslMode := ascii_lower (default [] (url_sslmode url)) in
  if bool_decide (sslMode ∈ text_of <$> ["disable"; "false"; "off"]%string) then (stripped, None)
  else
    let sslOn := bool_decide (env "NODE_ENV"%string = Some (text_of "production"))
                 || bool_decide (sslMode ∈ text_of <$> ["require"; "true"; "on"]%string)
                 || bool_decide (urlSslMode ∈ text_of <$> ["require"; "prefer"; "verify-ca"; "verify-full"]%string) in
    if negb sslOn then (url, None)
    else (stripped, match env "DATABASE_CA_CERT"%string with
                    | Some ca => if bool_decide (trim ca = []) then Some (mkSsl None false) else Some (mkSsl (Some ca) true)
                    | None => Some (mkSsl None false)
                    end).

Example strips :
  (fun u => string_of (strip_last (strip_sslmode (text_of u)))) <$>
    ["db?sslmode=require"; "db?sslmode=require&a=1"; "db?a=1&sslmode=require"; "db?a=1"; "db"]%string =
  ["db"; "db?a=1"; "db?a=1"; "db?a=1"; "db"]%string.
Proof. vm_compute. reflexivity. Qed.

(** The seed connects as the application does: with the same certificate checks
    whenever the application uses TLS, and without TLS whenever it was switched off. *)
Theorem seed_connects_alike env s :
  (buildSslConfig (node_env env) env = Some s -> (buildPoolConfig env).2 = Some s) /\
  (ascii_lower (default [] (env "DATABASE_SSL"%string)) ∈ text_of <$> ["disable"; "false"; "off"]%string ->
     (buildPoolConfig env).2 = None /\ buildSslConfig (node_env env) env = None).
Proof.
  unfold buildSslConfig, buildPoolConfig. cbv zeta. split.
  - case_bool_decide as Ho; [done|].
    assert (bool_decide (node_env env = text_of "production") = bool_decide (env "NODE_ENV"%string = Some (text_of "production"))) as ->.
    { apply bool_decide_ext. unfold node_env. destruct (env "NODE_ENV"%string) as [t|]; cbn -[text_of]; [|done]. split; [by intros ->|by intros [= ->]]. }
    destruct (bool_decide (env "NODE_ENV"%string = _)), (bool_decide (_ ∈ text_of <$> ["require"; "true"; "on"]%string));
      cbn [orb negb]; try done; by destruct (env "DATABASE_CA_CERT"%string).
  - intros Ho. by rewrite bool_decide_eq_true_2.
Qed.
End SeedPool.

(** ** scripts/configure-receipts-bucket.ts *)

Module ReceiptsBucket.

Definition ALLOWED_MIME_TYPES : list string := ["image/jpeg"; "image/png"; "image/webp"; "application/pdf"]%string.
Definition FILE_SIZE_LIMIT_BYTES : Z := 10 * 1024 * 1024.

(** [[...a].sort()] *)
Fixpoint insert_sorted (s : string) (l : list string) : list string :=
  match l with [] => [s] | x :: l' => if String.leb s x then s :: l else x :: insert_sorted s l' end.
Definition sort (l : list string) : list string := foldr insert_sorted [] l.
Definition equalSets (a b : list string) : bool :=
  (length a =? length b)%nat && String.eqb (String.concat "," (sort a)) (String.concat "," (sort b)).

Inductive Report := RefusedPublic | AlreadyConfigured | WouldChange | Applied.

Section Configure.
(** The settings, the bucket's read, and whether the write is refused. *)
Context (url key : option string) (read_error update_error : option string).

Definition configure (apply : bool) (bucket : option Bucket) : res Report * option Bucket :=
  match truthy url, truthy key with
  | Some _, Some _ =>
      match read_error, bucket with
      | None, Some b =>
          if bk_public b then (Ok RefusedPublic, bucket)
          else
            let liveMime := default [] (bk_allowed_mime_types b) in
            let sizeOk := bool_decide (bk_file_size_limit b = Some FILE_SIZE_LIMIT_BYTES) in
            let mimeOk := equalSets liveMime ALLOWED_MIME_TYPES in
            if sizeOk && mimeOk then (Ok AlreadyConfigured, bucket)
            else if negb apply then (Ok WouldChange, bucket)
            else match update_error with
                 | Some m => (Err (FInternal ("Failed to update bucket: " +:+ m)), bucket)
                 | None => (Ok Applied, Some (mkBucket false (Some FILE_SIZE_LIMIT_BYTES) (Some ALLOWED_MIME_TYPES)))
                 end
      | _, _ => (Err (FInternal "Could not read bucket"), bucket)
      end
  | _, _ => (Err (FInternal "SUPABASE_URL and SUPABASE_SERVICE_ROLE_KEY must be set"), bucket)
  end.

(** The limits are the ones the API enforces on the request for a URL; a run that
    reports success leaves a bucket the health check has nothing to say about, a dry
    run or a failure leaves it as it was, a bucket's visibility is never changed, and
    a second run changes nothing. *)
Theorem bucket_bounded apply bucket :
  ALLOWED_MIME_TYPES = ALLOWED_RECEIPT_CONTENT_TYPES /\ FILE_SIZE_LIMIT_BYTES = DEFAULT_MAX_UPLOAD_BYTES /\
  let '(r, bucket') := configure apply bucket in
  bk_public <$> bucket' = bk_public <$> bucket /\
  (r <> Ok Applied -> bucket' = bucket) /\
  (r = Ok Applied \/ r = Ok AlreadyConfigured ->
     exists b, bucket' = Some b /\ bucket_issues b = [] /\ configure apply bucket' = (Ok AlreadyConfigured, bucket')).
Proof.
  split; [done|]. split; [done|]. destruct (configure apply bucket) as [r b'] eqn:E. pose proof E as E'. unfold configure in E.
  destruct (truthy url) as [u|] eqn:Eu, (truthy key) as [k|] eqn:Ek;
    try (injection E as <- <-; split; [done|]; split; [done|]; by intros [?|?]).
  destruct read_error as [m|] eqn:Er, bucket as [[pub size mime]|];
    try (injection E as <- <-; split; [done|]; split; [done|]; by intros [?|?]).
  cbn [bk_public bk_file_size_limit bk_allowed_mime_types] in E.
  destruct pub; [injection E as <- <-; split; [done|]; split; [done|]; by intros [?|?]|].
  destruct (bool_decide _ && equalSets _ _) eqn:Ec; [|destruct apply; cbn [negb] in E; [destruct update_error as [m|] eqn:Ew|]].
  - injection E as <- <-. split; [done|]. split; [done|]. intros _. eexists. split; [done|]. split; [|exact E'].
    to_prop. destruct Ec as [Hs Hm]. subst size. unfold bucket_issues. cbn.
    destruct mime as [[|m ms]|]; [discriminate Hm|done|discriminate Hm].
  - injection E as <- <-. split; [done|]. split; [done|]. by intros [?|?].
  - injection E as <- <-. split; [done|]. split; [done|]. intros _. eexists. split; [done|]. split; [done|].
    unfold configure. by rewrite Eu, Ek, Er.
  - injection E as <- <-. split; [done|]. split; [done|]. by intros [?|?].
Qed.
End Configure.
End ReceiptsBucket.
