(* ===== verification/JsonLog.v ===== *)
(** * The log writer

    [src/common/logger/json.logger.ts]: one line of JSON per call, and the request
    log of [src/common/middleware/request-logger.middleware.ts].  [JSON.stringify] is
    ECMAScript's, over the values a logger is handed; how a finite number is printed
    is a parameter. *)

From Stdlib Require Import QArith.
From S2P Require Import Prelude JsText Pagination ClientIp Redact.

Local Open Scope Z_scope.

(** ** Values *)

(** [Cyclic] is an array or an object that contains itself. *)
Inductive Value :=
| Undefined | Null | Boolean (b : bool) | Numeric (n : number) | BigInt (z : Z) | Text (t : text)
| List (l : list Value) | Object (fields : list (string * Value)) | Cyclic (array : bool).

Section Value_ind.
Context (P : Value -> Prop).
Context (undefined : P Undefined) (null : P Null) (boolean : forall b, P (Boolean b)) (numeric : forall n, P (Numeric n)).
Context (bigint : forall z, P (BigInt z)) (text_ : forall t, P (Text t)) (cyclic : forall a, P (Cyclic a)).
Context (list_ : forall l, Forall P l -> P (List l)).
Context (object : forall fs, Forall (fun kv : string * Value => P kv.2) fs -> P (Object fs)).
Fixpoint Value_induction (v : Value) : P v :=
  match v with
  | Undefined => undefined | Null => null | Boolean b => boolean b | Numeric n => numeric n | BigInt z => bigint z
  | Text t => text_ t | Cyclic a => cyclic a
  | List l => list_ l ((fix go l := match l return Forall P l with
                                    | [] => List.Forall_nil _
                                    | v :: l => List.Forall_cons _ _ _ (Value_induction v) (go l) end) l)
  | Object fs => object fs ((fix go fs := match fs return Forall (fun kv : string * Value => P kv.2) fs with
                                          | [] => List.Forall_nil _
                                          | (k, v) :: fs => List.Forall_cons _ (k, v) _ (Value_induction v) (go fs) end) fs)
  end.
End Value_ind.

(** ** [JSON.stringify] *)

Definition hex_char (n : Z) : Z := if n <? 10 then 48 + n else 87 + n.
Definition unicode_escape (c : Z) : text :=
  [92; 117; hex_char (c / 4096 mod 16); hex_char (c / 256 mod 16); hex_char (c / 16 mod 16); hex_char (c mod 16)].
Definition escape (c : Z) : text :=
  if c =? 34 then [92; 34] else if c =? 92 then [92; 92] else
  if c =? 8 then [92; 98] else if c =? 9 then [92; 116] else if c =? 10 then [92; 110] else
  if c =? 12 then [92; 102] else if c =? 13 then [92; 114] else
  if (c <? 32) || ((55296 <=? c) && (c <=? 57343)) then unicode_escape c else [c].
Definition quote (t : text) : text := [34] ++ (t ≫= escape) ++ [34].
Fixpoint with_commas (l : list text) : text :=
  match l with [] => [] | [t] => t | t :: l => t ++ [44] ++ with_commas l end.

Section Logger.
Context (print_number : Q -> text).

(** [None] when it throws; [Some None] for [undefined]. *)
Fixpoint stringify (v : Value) : option (option text) :=
  match v with
  | Undefined => Some None
  | Null | Numeric NaN | Numeric (Infinite _) => Some (Some (text_of "null"))
  | Boolean b => Some (Some (text_of (if b then "true" else "false")))
  | Numeric (Finite q) => Some (Some (print_number q))
  | Text t => Some (Some (quote t))
  | List l =>
      parts ← mapM id (map (fun v => stringify v) l);
      Some (Some ([91] ++ with_commas (default (text_of "null") <$> parts) ++ [93]))
  | Object fields =>
      parts ← mapM id (map (fun kv => match kv with (k, v) => (fun r => (k, r)) <$> stringify v end) fields);
      Some (Some ([123] ++ with_commas (omap (fun kr : string * option text => (fun t => quote (text_of kr.1) ++ [58] ++ t) <$> kr.2) parts) ++ [125]))
  | BigInt _ | Cyclic _ => None
  end.

(** [Object.prototype.toString.call(v)] *)
Definition tag (v : Value) : text :=
  text_of match v with
          | Undefined => "[object Undefined]" | Null => "[object Null]" | Boolean _ => "[object Boolean]"
          | Numeric _ => "[object Number]" | BigInt _ => "[object BigInt]" | Text _ => "[object String]"
          | List _ | Cyclic true => "[object Array]" | Object _ | Cyclic false => "[object Object]"
          end.
Definition safeStringify (v : Value) : option text :=
  match stringify v with Some r => r | None => Some match v with Text t => t | _ => tag v end end.
Definition of_text (t : option text) : Value := match t with Some t => Text t | None => Undefined end.
Definition toMetaString (v : Value) : Value := match v with Text t => Text t | _ => of_text (safeStringify v) end.

(** [String(v)] of a value that is no object *)
Definition String_of (v : Value) : text :=
  match v with
  | Text t => t
  | Numeric (Finite q) => print_number q
  | Numeric NaN => text_of "NaN"
  | Numeric (Infinite minus) => text_of (if minus then "-Infinity" else "Infinity")
  | Boolean b => text_of (if b then "true" else "false")
  | Null => text_of "null"
  | BigInt z => print_number (inject_Z z)
  | _ => text_of "undefined"
  end.

(** ** The logger *)

Definition toLevel (severity : Severity) : string :=
  match severity with
  | SevLog | SevVerbose => "debug"
  | SevWarn => "warn"
  | SevError | SevFatal => "error"
  | SevDebug => "info"
  end.

Definition is_object (v : Value) : bool := match v with List _ | Object _ | Cyclic _ => true | _ => false end.
Definition meta (optionalParams : list Value) : list (string * Value) :=
  match optionalParams with
  | [] => []
  | [p] => [("meta"%string, if is_object p then p else Text (String_of p))]
  | ps => [("meta"%string, List (toMetaString <$> ps))]
  end.
Definition log_entry (timestamp : text) (context : option text) (severity : Severity) (message : Value)
    (optionalParams : list Value) : Value :=
  Object ([("timestamp", Text timestamp); ("level", Text (text_of (toLevel severity)));
           ("context", Text match context with Some ((_ :: _) as c) => c | _ => text_of "app" end);
           ("message", match message with Text t => Text t | _ => of_text (safeStringify message) end)]%string
          ++ meta optionalParams).
(** What is written to the standard output. *)
Definition log_emit (timestamp : text) (context : option text) (severity : Severity) (message : Value)
    (optionalParams : list Value) : text :=
  default (text_of "undefined") (safeStringify (log_entry timestamp context severity message optionalParams)) ++ [10].

(** ** The request log *)

Definition request_log (method originalUrl : text) (status durationMs : Z) (requestId : option text)
    (req : ClientIpRequest) (clientIpHeader : option string) : Value :=
  Object [("method", Text method); ("url", Text originalUrl); ("status", Numeric (Finite (inject_Z status)));
          ("durationMs", Numeric (Finite (inject_Z durationMs)));
          ("requestId", match requestId with Some i => Text i | None => Null end);
          ("clientIp", match resolveClientIp req clientIpHeader with Some ip => Text ip | None => Null end)]%string.

(** ** Laws *)

(** Digits, signs, points and exponents *)
Context (plain_numbers : forall q, Forall (fun c => 32 <= c) (print_number q)).
Definition printable (t : text) : Prop := Forall (fun c => 32 <= c) t.

Lemma printable_app a b : printable (a ++ b) <-> printable a /\ printable b.
Proof. apply Forall_app. Qed.
Lemma hex_printable n : 32 <= hex_char (n mod 16).
Proof. unfold hex_char. pose proof (Z.mod_pos_bound n 16). destruct (_ <? 10); lia. Qed.
Lemma escape_printable c : printable (escape c).
Proof.
  unfold escape, unicode_escape.
  repeat (destruct (_ =? _); [repeat constructor; lia|]).
  destruct ((c <? 32) || _) eqn:E; [repeat constructor; try lia; apply hex_printable|]. constructor; [|constructor].
  apply orb_false_iff in E as [E _]. by apply Z.ltb_ge in E.
Qed.
Lemma quote_printable t : printable (quote t).
Proof.
  unfold quote. rewrite !printable_app. split; [repeat constructor; lia|]. split; [|repeat constructor; lia].
  induction t as [|c t IH]; [constructor|]. cbn. apply printable_app. split; [apply escape_printable|exact IH].
Qed.
Lemma with_commas_printable l : Forall printable l -> printable (with_commas l).
Proof.
  induction 1 as [|t l Ht Hl IH]; [constructor|]. destruct l as [|u l]; [exact Ht|].
  change (with_commas (t :: u :: l)) with (t ++ [44] ++ with_commas (u :: l)). rewrite !printable_app.
  split; [exact Ht|]. split; [repeat constructor; lia|exact IH].
Qed.
Lemma constant_printable (s : string) : forallb (fun c => 32 <=? c) (text_of s) = true -> printable (text_of s).
Proof. intros H. apply List.Forall_forall. intros c Hc. rewrite forallb_forall in H. by apply Z.leb_le, H. Qed.

Lemma stringify_printable v : forall r, stringify v = Some (Some r) -> printable r.
Proof.
  induction v as [| |b|n|z|t|a|l IH|fs IH] using Value_induction; cbn [stringify]; intros r; try done.
  - intros [= <-]. by apply constant_printable.
  - intros [= <-]. destruct b; apply constant_printable; reflexivity.
  - destruct n as [|m|q]; intros [= <-]; [apply constant_printable; reflexivity..|apply plain_numbers].
  - intros [= <-]. apply quote_printable.
  - destruct (mapM id _) as [parts|] eqn:E; [|done]. cbn. intros [= <-]. constructor; [lia|]. apply printable_app.
    split; [|repeat constructor; lia]. apply with_commas_printable. revert parts E.
    induction IH as [|v l Hv Hl IHl]; cbn; intros parts E; [injection E as <-; constructor|].
    destruct (stringify v) as [x|]; [|done]. cbn in E. destruct (mapM id _) as [ps|]; [|done]. injection E as <-. constructor.
    + destruct x as [x|]; [by apply Hv|]. apply (constant_printable "null"). reflexivity.
    + by apply IHl.
  - destruct (mapM id _) as [parts|] eqn:E; [|done]. cbn. intros [= <-]. constructor; [lia|]. apply printable_app.
    split; [|repeat constructor; lia]. apply with_commas_printable. revert parts E.
    induction IH as [|[k v] l Hv Hl IHl]; cbn; intros parts E; [injection E as <-; constructor|]. cbn in Hv.
    destruct (stringify v) as [x|]; [|done]. cbn in E. destruct (mapM id _) as [ps|]; [|done]. injection E as <-. cbn.
    destruct x as [x|]; [|by apply (IHl ps)]. constructor; [|by apply (IHl ps)].
    change (printable (quote (text_of k) ++ [58] ++ x)). apply printable_app. split; [apply quote_printable|]. constructor; [lia|by apply Hv].
Qed.

(** Whatever is logged, one line is written and nothing in it ends it early: a
    message, an address or a URL with line breaks cannot forge a second entry. *)
Theorem one_line timestamp context severity message optionalParams :
  exists line, log_emit timestamp context severity message optionalParams = line ++ [10] /\ Forall (fun c => 32 <= c) line.
Proof.
  unfold log_emit. eexists. split; [done|]. unfold safeStringify.
  destruct (stringify _) as [[r|]|] eqn:E; cbn [default from_option id].
  - by eapply stringify_printable.
  - by apply constant_printable.
  - by apply constant_printable.
Qed.

(** An object that contains itself takes the whole entry with it: its time, its
    level and its message are lost. *)
Theorem cyclic_meta_loses_entry timestamp context severity message :
  log_emit timestamp context severity message [Cyclic false] = text_of "[object Object]" ++ [10].
Proof.
  unfold log_emit, safeStringify, log_entry, meta. cbn -[text_of safeStringify].
  assert (forall m, exists r, stringify (match m with Text t => Text t | _ => of_text (safeStringify m) end) = Some r) as Hm.
  { intros m. assert (forall o, exists r, stringify (of_text o) = Some r) as Ho by (intros [o|]; cbn; eauto).
    destruct m; try apply Ho. cbn. eauto. }
  destruct (Hm message) as [r ->]. done.
Qed.

(** An authentication event is handed over as the message, so it is printed into
    [message] as a text; only a later argument becomes [meta]. *)
Theorem object_message_is_text timestamp severity fields t :
  stringify (Object fields) = Some (Some t) ->
  log_entry timestamp None severity (Object fields) [] =
    Object [("timestamp", Text timestamp); ("level", Text (text_of (toLevel severity)));
            ("context", Text (text_of "app")); ("message", Text t)]%string.
Proof. intros H. unfold log_entry, safeStringify. by rewrite H. Qed.

(** The levels of [log] and [debug] are exchanged. *)
Theorem levels_exchanged : toLevel SevLog = "debug"%string /\ toLevel SevDebug = "info"%string.
Proof. done. Qed.
End Logger.

(** A line break in a message is printed as an escape. *)
Example line_break_escaped : stringify (fun _ => []) (Text [97; 10; 98; 34]) = Some (Some [34; 97; 92; 110; 98; 92; 34; 34]).
Proof. vm_compute. reflexivity. Qed.
