(* ===== verification/Messages.v ===== *)
(** * What people and clients are told

    The texts that are more than a template: a claimant and a list of students
    ([src/enrollment-invites/enrollment-invites.service.ts]), a claimed plan
    ([src/ledger/ledger.service.ts]); and the answers of
    [src/enrollment/enrollment.service.ts] to a replayed enrollment and to a submitted
    installment.  [formatNaira] is [Intl]'s. *)

From Stdlib Require Import QArith.
From S2P Require Import Prelude JsNumber JsText Money Schema Effects Samples.

Local Open Scope Z_scope.

Definition join_text (separator : text) : list text -> text :=
  fix go l := match l with [] => [] | [t] => t | t :: l => t ++ separator ++ go l end.
Definition comma : text := text_of ", ".
Definition and_ : text := text_of " and ".

(** ** A claimant *)

Record Account := mkAccount { ac_fullName : option text; ac_name : option text; ac_phoneNumber : option text }.
(** [a || b] on texts *)
Definition or_text (a : option text) (b : text) : text := match a with Some ((_ :: _) as t) => t | _ => b end.
Definition last_digits (phone : option text) : option text :=
  let digits := filter (fun c => is_digit c = true) (default [] phone) in
  if (3 <=? length digits)%nat then Some (drop (length digits - 3) digits) else None.
(** The row, absent, or a query that failed. *)
Definition describeClaimant (account : option Account + failure) : text :=
  match account with
  | inr _ | inl None => text_of "someone"
  | inl (Some account) =>
      let name := or_text (trim <$> ac_fullName account) (or_text (trim <$> ac_name account) (text_of "someone")) in
      match last_digits (ac_phoneNumber account) with
      | Some digits => name ++ text_of " (" ++ [8226; 8226; 8226] ++ digits ++ text_of ")"
      | None => name
      end
  end.

(** ** A list of students *)

Record InviteSummary := mkInviteSummary { is_studentName : text; is_className : text }.
Definition named (s : InviteSummary) : text := is_studentName s ++ text_of " (" ++ is_className s ++ text_of ")".
Definition MAX_NAMED_STUDENTS : nat := 3.

Section Digits.
Context (print : nat -> text).
Definition describeStudents (students : list InviteSummary) : text :=
  let names := named <$> take MAX_NAMED_STUDENTS students in
  let remaining := (length students - length names)%nat in
  if (0 <? remaining)%nat then
    join_text comma names ++ and_ ++ print remaining ++ text_of " other" ++ (if (remaining =? 1)%nat then [] else text_of "s")
  else match names with
       | [name] => name
       | _ => join_text comma (take (length names - 1) names) ++ and_ ++ default (text_of "undefined") (head (reverse names))
       end.

(** Everyone is named up to three, and past three the names and the count add up. *)
Theorem students_all_told a b c s l :
  describeStudents [a] = named a /\
  describeStudents [a; b] = named a ++ and_ ++ named b /\
  describeStudents [a; b; c] = named a ++ comma ++ named b ++ and_ ++ named c /\
  describeStudents (a :: b :: c :: s :: l) =
    named a ++ comma ++ named b ++ comma ++ named c ++ and_ ++ print (S (length l)) ++ text_of " other"
      ++ match l with [] => [] | _ => text_of "s" end.
Proof.
  unfold describeStudents. cbn -[named comma and_ text_of]. rewrite <- !app_assoc. repeat split. by destruct l.
Qed.
End Digits.

(** ** A claimed plan *)

Record ClaimedPlan := mkClaimedPlan {
  cp_schoolName : text; cp_studentName : text; cp_className : text; cp_amountAlreadyPaid : Z; cp_remainingBalance : Z }.
Section Naira.
Context (formatNaira : Q -> text).
Definition naira_text (kobo : Z) : text := formatNaira (Money.toNaira (Money.of_int kobo)).
Definition migratedClaimMessage (p : ClaimedPlan) : text :=
  let student := cp_studentName p ++ text_of " (" ++ cp_className p ++ text_of ")" in
  let remaining := naira_text (cp_remainingBalance p) in
  if cp_amountAlreadyPaid p =? 0 then
    cp_schoolName p ++ text_of " has set up a Lopay plan for " ++ student ++ text_of ". "
      ++ remaining ++ text_of " is due, spread over your new plan."
  else
    cp_schoolName p ++ text_of " has recorded " ++ naira_text (cp_amountAlreadyPaid p) ++ text_of " already paid for " ++ student ++ text_of ". "
      ++ (if cp_remainingBalance p =? 0 then text_of "This term" ++ [8217] ++ text_of "s fees are fully paid."
          else remaining ++ text_of " remains, spread over your new plan.").
End Naira.

(** What the school and its push service learn of a claimant's number: whether it
    has three digits, and the last three. *)
Theorem claimant_number_masked account phone :
  last_digits (ac_phoneNumber account) = last_digits phone ->
  describeClaimant (inl (Some account)) = describeClaimant (inl (Some (mkAccount (ac_fullName account) (ac_name account) phone))).
Proof. intros H. unfold describeClaimant. cbn. by rewrite H. Qed.
Theorem last_digits_short phone : match last_digits phone with Some d => length d = 3%nat | None => True end.
Proof.
  unfold last_digits. destruct (Nat.leb_spec 3 (length (filter (fun c => is_digit c = true) (default [] phone)))); [|done].
  rewrite length_drop. lia.
Qed.

(** ** Answers *)

(** [buildEnrollmentReplay] *)
Record EnrollmentReplay := mkEnrollmentReplay {
  er_idempotent : bool;
  er_enrollment : option ChildEnrollment;
  er_payment : Payment;
  er_school : option School;
  er_childName : option string;
  er_studentName : option string }.
Definition buildEnrollmentReplay (payment : Payment) (enrollment : option Joined) : EnrollmentReplay :=
  mkEnrollmentReplay true (j_enrollment <$> enrollment) payment (j_school <$> enrollment)
    (c_fullName ∘ j_child <$> enrollment) (c_fullName ∘ j_child <$> enrollment).

(** [{ ...payment, ... }]: the row with its money in naira *)
Record InstallmentResponse := mkInstallmentResponse {
  ir_payment : Payment;
  ir_amount : Q;
  ir_amountPaid : Q;
  ir_platformAmount : option Q;
  ir_schoolAmount : option Q;
  ir_date : Z;
  ir_type : PaymentType;
  ir_studentName : option string;
  ir_childName : option string;
  ir_schoolName : option string }.
Definition naira (kobo : Z) : Q := Money.toNaira (Money.of_int kobo).
(** A replayed submission: the two shares stay the row's, in kobo. *)
Definition buildInstallmentResponse (payment : Payment) (enrollment : option Joined) : InstallmentResponse :=
  mkInstallmentResponse payment (naira (p_amountPaid payment)) (naira (p_amountPaid payment)) None None
    (p_paymentDate payment) (p_paymentType payment) (c_fullName ∘ j_child <$> enrollment)
    (c_fullName ∘ j_child <$> enrollment) (s_name ∘ j_school <$> enrollment).
(** A fresh one: the two shares in naira. *)
Definition submitted_response (payment : Payment) (enrollment : Joined) : InstallmentResponse :=
  mkInstallmentResponse payment (naira (p_amountPaid payment)) (naira (p_amountPaid payment))
    (Some (naira (p_platformAmount payment))) (Some (naira (p_schoolAmount payment)))
    (p_paymentDate payment) (p_paymentType payment) (Some (c_fullName (j_child enrollment)))
    (Some (c_fullName (j_child enrollment))) (Some (s_name (j_school enrollment))).
(** What a client reads under the names of the two shares. *)
Definition shown_platformAmount (r : InstallmentResponse) : Q := default (inject_Z (p_platformAmount (ir_payment r))) (ir_platformAmount r).
Definition shown_schoolAmount (r : InstallmentResponse) : Q := default (inject_Z (p_schoolAmount (ir_payment r))) (ir_schoolAmount r).

(** A replay agrees with the first answer on everything but the two shares, which
    it gives in kobo where the first answer gave naira. *)
Theorem replay_shares_in_kobo payment j :
  let first := submitted_response payment j in
  let again := buildInstallmentResponse payment (Some j) in
  ir_amount again = ir_amount first /\ ir_studentName again = ir_studentName first /\ ir_schoolName again = ir_schoolName first /\
  shown_schoolAmount first = naira (p_schoolAmount payment) /\ shown_schoolAmount again = inject_Z (p_schoolAmount payment).
Proof. done. Qed.
Example replay_hundredfold j :
  let first := submitted_response sample_installment j in
  let again := buildInstallmentResponse sample_installment (Some j) in
  (shown_schoolAmount first == 25000 /\ shown_schoolAmount again == 2500000)%Q.
Proof. intros first again. split; vm_compute; reflexivity. Qed.
